(* ===== verification/_CoqProject ===== *)
-Q . S2P
Prelude.v
Keeps.v
Heap.v
Text.v
ParseDesc.v
Config.v
ConfigSafety.v
DescApi.v
ConfigTree.v
Bos.v
StringDesc.v
Stdio.v
Ezusb.v
IhexSpecs.v
EzusbSpecs.v
Fx3Specs.v
EzusbProps.v
DescProps.v
TreeProps.v
Core.v
Devices.v
DeviceRefs.v
Hotplug.v
LibSteps.v
Transfers.v
Events.v
Handles.v
Sync.v
Strerror.v
Log.v
Demo.v
EventPipe.v
HotplugLife.v
TransferSpecs.v
SyncSpecs.v
PollSpecs.v
Ctx.v
DeviceProps.v
TransferProps.v
HandleProps.v
SyncProps.v
BlockingProps.v
MessageProps.v
EventProps.v
CtxProps.v
HotplugProps.v
LinuxState.v
LinuxSys.v
LinuxDesc.v
LinuxEnum.v
LinuxIface.v
LinuxNetlink.v
LinuxUdev.v
LinuxUrb.v
LinuxBackend.v
LinuxDemo.v
SysSpecs.v
EnumSpecs.v
EnumInv.v
EnumScan.v
EnumWalk.v
EnumSteps.v
FileSteps.v
UdevSpecs.v
EnumFrames.v
EnumProps.v
CacheSpecs.v
CacheProps.v
UeventSpecs.v
NetlinkProps.v
UdevProps.v
EnumStart.v
ResourceProps.v
StartProps.v
IfaceProps.v
UrbSpecs.v
IsoSpecs.v
Reaping.v
UrbProps.v
