(* ===== verification/Prelude.v ===== *)
(** * A verification development for libusb 1.0.21

    The repository collects many things; its one large C program is the USB
    host library [usb/libusb-1.0.21].  This development models the platform
    independent part of that library ([libusb/core.c], [io.c],
    [descriptor.c], [hotplug.c], [sync.c], [strerror.c] and the inline
    functions of [libusb.h] and [libusbi.h]) and its Linux backend
    ([os/linux_usbfs.c], [os/linux_usbfs.h], [os/linux_netlink.c],
    [os/linux_udev.c]), and one client with logic of its own, the firmware
    loader [../examples/ezusb.c]; and proves what makes them correct.  Paths below
    are relative to [src/usb/libusb-1.0.21/libusb].

    ** How the program is put together

    An application opens devices, submits transfers and runs the event
    handler.  A backend (one per operating system) talks to the devices and
    announces their arrival and departure.  Between them the library keeps,
    per context, the list of known devices (each with a reference count and
    its parent hub), the open handles, the transfers in flight ordered by
    deadline, the registered hotplug callbacks, and the pending events.  An
    event pipe makes a blocked [poll] return when an event is pending.

    ** How the code is modelled

    - A C function is a function in the monad [M S A]: it changes a state
      [S] and returns a value, or it ends in a [Fault].  A fault is what C
      leaves undefined (out of bounds, use after free, a null pointer, a
      shift out of range), a failed [assert], or a system call that never
      returns.  A statement [exists .., f s = Ok ..] therefore says that [f]
      ends and does nothing undefined.
    - Memory is the multiset of live blocks ([Heap.v]).  [malloc] and
      [realloc] fail as two arbitrary oracles say, so that theorems hold
      whichever allocations fail.  A released block that is touched or freed
      is a fault.
    - Numbers are [Z] at the width of the code: [u8], [u16], [u32], [i32]
      and the 64 bit mask of [Handles.v] write the wrap-around out.  Bytes
      are lists of [Z]; the byte order of the host is the argument [big].
    - Intrusive lists are lists of block numbers.  A loop that reads the
      successor of the entry it stands on looks it up in the current list,
      as the code does, because callbacks change the list meanwhile.
    - Backends, system calls and the application's callbacks are not part
      of the code they are called from: they are the records [os_backend]
      ([Core.v]), [desc_backend] ([DescApi.v]), [usbfs] ([LinuxState.v]),
      [linux_sys] ([LinuxSys.v]), [netlink_sys] ([LinuxNetlink.v]) and
      [udev_sys] ([LinuxUdev.v], the functions of libudev), the class [ControlTransfer] ([Bos.v]), and section variables.  The Linux
      backend is one value of the first two.
    - The branches of [USE_UDEV] are two values of the record
      [hotplug_monitor] ([LinuxBackend.v]); theorems about the start hold for
      both.
    - What a component promises another is a class: [DescBackendLaws],
      [SubmitContract], [InterfaceContract], [OpenContract] and
      [InitContract] are what the library relies on in a backend;
      [KernelLaws], [ClaimKernel], [NetlinkLaws], [FileLaws] and
      [FileBalance] are what the Linux backend relies on in the kernel,
      [UdevLaws] and [UdevEvents] in libudev, [MonitorLaws] is what its start
      relies on in a monitor (both have it), [EnumBackend] and
      [PlatformCalls] what its enumeration relies on in the table of
      operations; [Answering] ([SyncSpecs.v]) is what the blocking transfers
      rely on in the backend and in [poll]; [Chip] is a device that takes
      what the loader writes.  [DescBackendLaws], [SubmitContract],
      [InterfaceContract] and [InitContract] are proved of the Linux backend.
    - A relation that every step of an operation keeps is shown along the
      structure of the operation ([Keeps.v]; [StepRelation] in
      [LibSteps.v] is the class of those that the operations on devices
      keep).
    - A mutex delimits a section that other threads see as one step.  The
      model runs one thread at a time; [EventPipe.v] interleaves the
      critical sections of all threads as steps of a transition system.

    ** The files

    Foundations
    - [Prelude.v]: outcomes, the monad and its weakest preconditions, byte
      and list lemmas, machine integers, error codes, constants.
    - [Keeps.v]: relations that every step of an operation keeps.
    - [Heap.v]: the heap, [usbi_reallocf], its lemmas.
    - [Text.v], [Stdio.v]: the C library on strings and on files.
    Descriptors ([descriptor.c])
    - [ParseDesc.v]: [usbi_parse_descriptor].
    - [Config.v]: the endpoint, interface and configuration parsers, with
      their error paths, and the functions that clear what they built;
      [ConfigSafety.v]: ownership and well-formedness of what they build.
    - [DescApi.v]: fetching descriptors through the backend, the search by
      value, [find_endpoint] and the packet sizes of [core.c].
    - [Bos.v]: BOS, capability and companion descriptors.
    - [StringDesc.v]: strings as ASCII.
    The library's state and its operations
    - [Core.v]: [struct libusb_context] and the objects it reaches as the
      record [lib], the event pipe, capabilities, the backend record.
    - [Devices.v] ([core.c]): allocation, reference counts, connection,
      device lists, port numbers; [DeviceRefs.v]: the accounting of
      references, as rules for every operation; [LibSteps.v]: relations that
      these operations keep.
    - [Hotplug.v] ([hotplug.c]): callbacks and their matching, with the
      one-pass reference definition; [HotplugLife.v]: the two hotplug entry
      points of [os/linux_usbfs.c] and the life of a device from arrival to
      release.
    - [Transfers.v] ([io.c]): deadlines, the list of transfers in flight,
      submission, cancellation, completion, timeouts, disconnection;
      [TransferSpecs.v]: the order of the list and the specifications.
    - [Events.v] ([io.c]): poll descriptors, the event lock,
      [handle_events], its entry points, set-up and tear-down;
      [EventPipe.v]: the event pipe as a protocol between threads.
    - [Handles.v] ([core.c]): open and close, interfaces, pass-through
      operations.
    - [Sync.v] ([sync.c], [libusb.h]): fill functions, blocking transfers;
      [SyncSpecs.v]: the stages of such a transfer (taken by the backend,
      reported to the event handler, completed), a measure that every turn
      of the wait decreases, and the rules of [handle_events] at each stage.
    - [Strerror.v] ([strerror.c]), [Log.v] ([core.c]): messages.
    - [Demo.v]: a concrete backend and states for examples.
    - [Ctx.v] ([core.c]): start and end of the library, several contexts.
    - [PollSpecs.v]: rules for the poll descriptors.
    - [ConfigTree.v]: configurations as trees, with their encoding.
    The Linux backend ([os/linux_usbfs.c], [os/linux_netlink.c],
    [os/linux_udev.c])
    - [LinuxState.v]: its private data, static variables and constants.
    - [LinuxSys.v]: the system calls, numbers in texts, sysfs attributes;
      [LinuxDesc.v]: the descriptors it caches.
    - [LinuxEnum.v]: probing the system, new devices and their parents.
    - [LinuxIface.v]: handles, interfaces, reset, streams.
    - [LinuxNetlink.v], [LinuxUdev.v]: the two monitors that hear of
      arrivals and departures.
    - [LinuxUrb.v]: transfers as URBs: submission, cancellation, reaping.
    - [LinuxBackend.v]: start, end, and the record of all operations;
      [LinuxDemo.v]: systems in which every call fails.
    - [CacheSpecs.v], [UeventSpecs.v], [UrbSpecs.v], [IsoSpecs.v],
      [Reaping.v]: specifications and rules of these files.
    - [SysSpecs.v], [EnumSpecs.v]: rules for system calls and for filling in
      a new device; [EnumInv.v]: the invariant of enumeration (devices are
      well formed, the memory of the backend is accounted for, a device that
      is being filled in is left alone); [EnumScan.v], [EnumWalk.v]: one
      device with its parents, and the walks; [UdevSpecs.v]: the walk and the
      events of udev; [EnumSteps.v]: relations that enumeration keeps, with
      [FileSteps.v]: it closes what it opens; [EnumFrames.v]: what the other
      operations leave alone; [EnumStart.v]: what the start finds out about
      the system.
    The firmware loader ([../examples/ezusb.c])
    - [Ezusb.v]: the parsers of Intel HEX, IIC and BIX images, which hand
      segments to a function [poke]; [ram_poke]; the loaders.
    - [IhexSpecs.v]: the Intel HEX format, the reference definition of
      merging records, rules for the parser on images and on any file;
      [EzusbSpecs.v]: the binary formats, the class [Chip], the requests of
      an upload; [Fx3Specs.v]: the loader of the FX3.
    Theorems, one file per group
    - [DescProps.v]: the parsers are safe on any bytes and under any failure
      of [malloc], they give back what they take, and they read what the
      descriptors say (fields, BOS round trip, capabilities, strings,
      look-ups); and where this fails.
    - [TreeProps.v]: parsing gives the encoded tree back, from the device to
      the sizes of its packets.
    - [DeviceProps.v]: reference counts are sound for every client.
    - [TransferProps.v]: deadlines, order of the list, exact timeouts,
      single cancellation, completion, termination of disconnection.
    - [HandleProps.v]: the interface mask is a set; open and close balance.
    - [EventProps.v]: no event is lost and no writer blocks; the poll
      descriptors stay consistent.
    - [HotplugProps.v]: devices live exactly as long as they are referred
      to; matching, deregistration.
    - [CtxProps.v]: a start that fails leaves nothing behind.
    - [BlockingProps.v]: a blocking transfer ends, returns what the device
      answered, and leaves the library as it was.
    - [SyncProps.v], [MessageProps.v]: setup packets, isochronous buffers,
      bounds of messages and log lines.
    - [CacheProps.v]: the descriptor cache implements the contract of
      [DescApi.v], and finds the configurations it was filled with.
    - [IfaceProps.v]: the mask of claimed interfaces agrees with the kernel;
      where a reset breaks this.
    - [NetlinkProps.v]: the parser of kernel messages against a reference
      definition; the monitor closes what it opens.
    - [UdevProps.v]: so does the udev monitor; [ResourceProps.v]: enumeration
      closes its files, and the walk and the poll of udev give back every
      object of libudev and leave no event behind.
    - [EnumProps.v]: enumeration is sound in every sequence of walks,
      arrivals, departures, events and client operations, with either
      monitor, and a device that was handled is in the list; [EnumStart.v], [StartProps.v]: the start of
      the backend prepares this, and keeps the contract of [CtxProps.v].
    - [UrbProps.v]: the accounting of URBs between kernel and library, the
      results of bulk and isochronous transfers, and two ways to lose them.
    - [EzusbProps.v]: images are parsed into the segments they describe, the
      parser is safe on any file but those with a negative length, uploads
      send each segment once and in the right phase, the FX3 loader verifies
      what it writes and leaks nothing; and the files on which the code fails.

    ** Fuel

    Loops over a list that can change under them take fuel equal to the
    length of the list plus one; the recursion of [libusb_unref_device] over
    parents takes the number of live devices plus one.  The search in cached
    descriptors takes their length, since each step but the endless one (a
    finding) passes a byte; the buffer of [initialize_device] doubles, and
    22 doublings leave the range of [int]; the recursion of
    [sysfs_scan_device] takes one more than the separators of the name,
    since a parent has one less; the loop that reaps URBs needs one more
    than the kernel holds; the poll of udev needs one more than the events
    that wait; the parsers of firmware images take the bytes
    left in the file plus one.  The theorems show that this is enough: they
    conclude [Ok], never "if it returns".  The outer loops of
    [handle_events] and of the monitor threads run as long as the system
    reports events, so their fuel stays an argument; in a blocking transfer it
    is enough if it exceeds, by four, the number of calls of [poll] that the
    system interrupts.

    ** Not modelled, and why

    The backends of other operating systems and the thread and poll wrappers
    are glue to system interfaces.  The time between system calls, and threads other than in
    [EventPipe.v], are not modelled.  Application callbacks in the
    specifications act on the outside world only; in the definitions they
    may do anything.  The blocking transfers are proved for a context with
    no other transfer in flight and no other thread in the event handler.
    The theorems on enumeration take devices to be
    announced by name where the system has names; the monitor can also
    announce one without (a finding).  The other example programs are command
    lines around calls of the library; the test programs and the kernel
    drivers of the repository are not part of it. *)

From stdpp Require Export base list gmap gmultiset strings.
From Stdlib Require Export ZArith Lia.

#[global] Open Scope Z_scope.
#[export] Set Warnings "-clear-no-such-hyp,-notation-for-abbreviation".

(** ** Outcomes

    A C function either returns normally, or it executes something the C
    standard leaves undefined.  The second case is a [Fault]: theorems of
    memory safety are theorems that no [Fault] is reachable. *)

Inductive fault : Type :=
| OutOfBounds    (** read or write outside the addressed object *)
| UseAfterFree   (** access to a block that was released *)
| BadFree        (** [free] of a pointer that is not a live block *)
| NullDeref      (** access through a null pointer *)
| ShiftUB        (** shift by a negative amount or by the width and more *)
| IntOverflow    (** arithmetic on [int] beyond its range *)
| AssertFail     (** a failed [assert] *)
| Blocked        (** a system call that never returns *)
| OutOfFuel.     (** not a C behaviour: the fuel of a loop ran out *)

Inductive outcome (A : Type) : Type :=
| Ok (a : A)
| Fault (f : fault).
Arguments Ok {A} a.
Arguments Fault {A} f.

#[export] Instance fault_eq_dec : EqDecision fault.
Proof. solve_decision. Defined.
#[export] Instance outcome_eq_dec {A} `{EqDecision A} : EqDecision (outcome A).
Proof. solve_decision. Defined.

(** ** The state and fault monad *)

Definition M (S A : Type) : Type := S -> outcome (A * S).

#[export] Instance M_ret {S} : MRet (M S) := fun A a s => Ok (a, s).
#[export] Instance M_bind {S} : MBind (M S) := fun A B f m s =>
  match m s with
  | Ok (a, s') => f a s'
  | Fault e => Fault e
  end.

Definition fail {S A} (f : fault) : M S A := fun _ => Fault f.
Definition get {S} : M S S := fun s => Ok (s, s).
Definition put {S} (s : S) : M S unit := fun _ => Ok (tt, s).
Definition modify {S} (f : S -> S) : M S unit := fun s => Ok (tt, f s).
Definition gets {S A} (f : S -> A) : M S A := fun s => Ok (f s, s).
Definition lift {S A} (o : outcome A) : M S A := fun s =>
  match o with
  | Ok a => Ok (a, s)
  | Fault e => Fault e
  end.

(** Iterating a monadic body over a list, left to right. *)
Fixpoint for_each {S A} (f : A -> M S unit) (l : list A) : M S unit :=
  match l with
  | [] => mret tt
  | x :: l => f x ;; for_each f l
  end.

#[export] Instance outcome_ret : MRet outcome := @Ok.
#[export] Instance outcome_bind : MBind outcome := fun A B f o =>
  match o with
  | Ok a => f a
  | Fault e => Fault e
  end.

(** Split a conjunction of three without splitting its members. *)
Ltac conj3 := hnf; split; [|split].

(** ** Weakest preconditions

    [wp m s Q]: started in [s] the computation [m] returns (it neither
    faults nor runs out of fuel), and the value and final state satisfy
    [Q].  This is total correctness. *)

Definition wp {S A} (m : M S A) (s : S) (Q : A -> S -> Prop) : Prop :=
  match m s with
  | Ok (a, s') => Q a s'
  | Fault _ => False
  end.

Section wp.
Context {S : Type}.

Lemma wp_ret {A} (a : A) (s : S) Q : Q a s -> wp (mret a) s Q.
Proof. done. Qed.

Lemma wp_bind {A B} (m : M S A) (f : A -> M S B) s Q :
  wp m s (fun a s' => wp (f a) s' Q) -> wp (m ≫= f) s Q.
Proof.
  unfold wp, mbind, M_bind. destruct (m s) as [[a s']|e]; [done|done].
Qed.

Lemma wp_mono {A} (m : M S A) s (P Q : A -> S -> Prop) :
  wp m s P -> (forall a s', P a s' -> Q a s') -> wp m s Q.
Proof. unfold wp. destruct (m s) as [[a s']|e]; [|done]. auto. Qed.

Lemma wp_gets {A} (f : S -> A) s (Q : A -> S -> Prop) :
  Q (f s) s -> wp (gets f) s Q.
Proof. done. Qed.

Lemma wp_modify (f : S -> S) s (Q : unit -> S -> Prop) :
  Q tt (f s) -> wp (modify f) s Q.
Proof. done. Qed.

Lemma wp_lift {A} (o : outcome A) (s : S) (Q : A -> S -> Prop) a :
  o = Ok a -> Q a s -> wp (lift o) s Q.
Proof. intros ->. done. Qed.

Lemma wp_ok {A} (m : M S A) s Q :
  wp m s Q <-> exists a s', m s = Ok (a, s') /\ Q a s'.
Proof.
  unfold wp. destruct (m s) as [[a s']|e]; split; try done.
  - intros HQ. eauto.
  - intros (b & t & [= <- <-] & HQ). done.
  - intros (b & t & Hb & _). done.
Qed.

Lemma wp_for_each {A} (f : A -> M S unit) (I : list A -> S -> Prop) l s :
  I l s ->
  (forall x l s, I (x :: l) s -> wp (f x) s (fun _ s' => I l s')) ->
  wp (for_each f l) s (fun _ s' => I [] s').
Proof.
  intros Hl Hstep. revert s Hl. induction l as [|x l IH]; intros s Hl; [done|].
  apply wp_bind. eapply wp_mono; [by apply Hstep|]. intros [] s'. apply IH.
Qed.
(** [wlp m s Q]: if [m] returns from [s], value and final state satisfy [Q].
    Together with a [wp] for the absence of faults it gives total
    correctness. *)
Definition wlp {A} (m : M S A) (s : S) (Q : A -> S -> Prop) : Prop :=
  forall a s', m s = Ok (a, s') -> Q a s'.

Lemma wlp_ret {A} (a : A) (s : S) Q : Q a s -> wlp (mret a) s Q.
Proof. by intros HQ ? ? [= <- <-]. Qed.
Lemma wlp_bind {A B} (m : M S A) (f : A -> M S B) s Q :
  wlp m s (fun a s' => wlp (f a) s' Q) -> wlp (m ≫= f) s Q.
Proof.
  intros Hm b s'. unfold mbind, M_bind. destruct (m s) as [[a s1]|e] eqn:Hs; [|done].
  by apply (Hm a s1).
Qed.
Lemma wlp_mono {A} (m : M S A) s (P Q : A -> S -> Prop) :
  wlp m s P -> (forall a s', P a s' -> Q a s') -> wlp m s Q.
Proof. intros HP HPQ a s' Hm. by apply HPQ, HP. Qed.
Lemma wlp_lift {A} (o : outcome A) (s : S) (Q : A -> S -> Prop) a :
  o = Ok a -> Q a s -> wlp (lift o) s Q.
Proof. by intros -> HQ ? ? [= <- <-]. Qed.
Lemma wp_wlp {A} (m : M S A) s (P Q : A -> S -> Prop) :
  wp m s P -> wlp m s Q -> wp m s (fun a s' => P a s' /\ Q a s').
Proof. unfold wp, wlp. destruct (m s) as [[a s']|e]; [|done]. intros HP HQ. split; [done|]. by apply HQ. Qed.
End wp.

(** ** Bytes and machine integers *)

Definition is_byte (b : Z) : Prop := 0 <= b < 256.
Abbreviation is_bytes := (Forall is_byte).

#[export] Instance is_byte_dec b : Decision (is_byte b).
Proof. unfold is_byte. apply _. Defined.

(** Conversions to the unsigned types of the given width. *)
Definition u8 (z : Z) : Z := z mod 2 ^ 8.
Definition u16 (z : Z) : Z := z mod 2 ^ 16.
Definition u32 (z : Z) : Z := z mod 2 ^ 32.
(** The conversion to [unsigned long] and [size_t] (64 bits). *)
Definition ulong (z : Z) : Z := z mod 2 ^ 64.

(** The conversion to [int]. *)
Definition i32 (z : Z) : Z := (z + 2 ^ 31) mod 2 ^ 32 - 2 ^ 31.

Lemma i32_small z : - 2 ^ 31 <= z < 2 ^ 31 -> i32 z = z.
Proof. intros Hz. unfold i32. rewrite Z.mod_small; lia. Qed.

Lemma u8_small z : 0 <= z < 256 -> u8 z = z.
Proof. intros Hz. unfold u8. rewrite Z.mod_small; [done|]. change (2 ^ 8) with 256. lia. Qed.

Lemma lor_shiftl_add a b n :
  0 <= n -> 0 <= b < 2 ^ n -> Z.lor (Z.shiftl a n) b = a * 2 ^ n + b.
Proof.
  intros Hn Hb. rewrite <- Z.shiftl_mul_pow2 by done. symmetry. apply Z.add_nocarry_lor.
  apply Z.bits_inj'. intros i Hi. rewrite Z.land_spec, Z.bits_0.
  destruct (Z.lt_ge_cases i n) as [Hlt|Hge].
  - by rewrite Z.shiftl_spec_low.
  - destruct (decide (b = 0)) as [->|Hb0]; [by rewrite Z.bits_0, andb_false_r|].
    rewrite (Z.bits_above_log2 b i), andb_false_r; [done|lia|].
    apply Z.log2_lt_pow2; [lia|]. eapply Z.lt_le_trans; [apply Hb|].
    apply Z.pow_le_mono_r; lia.
Qed.

(** Lists *)

Lemma take_drop_eq {A} (l l' : list A) (n m k : nat) :
  take k l = take k l' -> (n + m <= k)%nat -> take m (drop n l) = take m (drop n l').
Proof.
  intros Htk Hle. rewrite !take_drop_commute.
  rewrite <- (Nat.min_l (n + m) k), <- !take_take by done. by rewrite Htk.
Qed.

Lemma take_eq_le {A} (l l' : list A) (n k : nat) :
  take k l = take k l' -> (n <= k)%nat -> take n l = take n l'.
Proof. intros Htk Hle. apply (take_drop_eq l l' 0 n k); [done|lia]. Qed.

Lemma drop_eq_le {A} (l l' : list A) (n k : nat) :
  drop k l = drop k l' -> (k <= n)%nat -> drop n l = drop n l'.
Proof.
  intros Hd Hle. replace n with (k + (n - k))%nat by lia. rewrite <- !drop_drop. by rewrite Hd.
Qed.

Lemma is_bytes_take n l : is_bytes l -> is_bytes (take n l).
Proof. apply Forall_take. Qed.
Lemma is_bytes_drop n l : is_bytes l -> is_bytes (drop n l).
Proof. apply Forall_drop. Qed.
#[export] Hint Resolve is_bytes_take is_bytes_drop : core.

(** ** Finite sums of multisets *)

Definition msum {A} (f : A -> gmultiset nat) (l : list A) : gmultiset nat :=
  foldr (fun x m => f x ⊎ m) ∅ l.

Lemma disj_union_swap (X Y Z : gmultiset nat) : X ⊎ (Y ⊎ Z) = Y ⊎ (X ⊎ Z).
Proof. multiset_solver. Qed.

Section msum.
Context {A : Type} (f : A -> gmultiset nat).

Lemma msum_app l1 l2 : msum f (l1 ++ l2) = msum f l1 ⊎ msum f l2.
Proof. induction l1 as [|x l1 IH]; simpl; [multiset_solver|]. rewrite IH. multiset_solver. Qed.

Lemma msum_take_drop n l : msum f l = msum f (take n l) ⊎ msum f (drop n l).
Proof. by rewrite <- msum_app, take_drop. Qed.

Lemma msum_insert l i x y :
  l !! i = Some x -> f x ⊎ msum f (<[i := y]> l) = f y ⊎ msum f l.
Proof.
  revert i. induction l as [|z l IH]; intros [|i] Hi; simplify_eq/=; [multiset_solver|].
  specialize (IH _ Hi). multiset_solver.
Qed.

Lemma msum_empty l : (forall x, x ∈ l -> f x = ∅) -> msum f l = ∅.
Proof.
  induction l as [|x l IH]; intros Hl; [done|]. simpl.
  rewrite (Hl x), IH by (intros; set_solver || (apply Hl; set_solver)). multiset_solver.
Qed.
End msum.

(** The same over the entries of a finite map. *)
Definition map_sum {A} (f : nat -> A -> gmultiset nat) (m : gmap nat A) : gmultiset nat :=
  msum (fun kx => f kx.1 kx.2) (map_to_list m).

#[export] Instance msum_proper {A} (f : A -> gmultiset nat) : Proper (Permutation ==> eq) (msum f).
Proof. induction 1; simpl; [done|multiset_solver|multiset_solver|congruence]. Qed.

Section map_sum.
Context {A : Type} (f : nat -> A -> gmultiset nat).

Lemma map_sum_empty : map_sum f ∅ = ∅.
Proof. unfold map_sum. by rewrite map_to_list_empty. Qed.

Lemma map_sum_insert m k x : m !! k = None -> map_sum f (<[k := x]> m) = f k x ⊎ map_sum f m.
Proof. intros Hk. unfold map_sum. by rewrite map_to_list_insert. Qed.

Lemma map_sum_delete m k x : m !! k = Some x -> map_sum f m = f k x ⊎ map_sum f (delete k m).
Proof.
  intros Hk. rewrite <- map_sum_insert by apply lookup_delete_eq. by rewrite insert_delete_id.
Qed.

Lemma map_sum_update m k x y :
  m !! k = Some x -> f k y = f k x -> map_sum f (<[k := y]> m) = map_sum f m.
Proof.
  intros Hk Hf. rewrite (map_sum_delete m k x Hk), <- insert_delete_eq, map_sum_insert, Hf; [done|].
  apply lookup_delete_eq.
Qed.

Lemma map_sum_elem m k x y : m !! k = Some x -> y ∈ f k x -> y ∈ map_sum f m.
Proof. intros Hk Hy. rewrite (map_sum_delete m k x Hk). multiset_solver. Qed.

Lemma map_sum_elem_inv m y : y ∈ map_sum f m -> exists k x, m !! k = Some x /\ y ∈ f k x.
Proof.
  unfold map_sum. intros Hy.
  assert (exists kx, kx ∈ map_to_list m /\ y ∈ f kx.1 kx.2) as ([k x] & Hin & Hf).
  { induction (map_to_list m) as [|kx l IH]; simpl in Hy; [multiset_solver|].
    apply gmultiset_elem_of_disj_union in Hy as [Hy|Hy]; [exists kx; set_solver|].
    destruct (IH Hy) as (kx' & ? & ?). exists kx'. set_solver. }
  exists k, x. split; [by apply elem_of_map_to_list|done].
Qed.
End map_sum.

(** The keys of a map, as blocks. *)
Definition blocks {A} (m : gmap nat A) : gmultiset nat := map_sum (fun k _ => {[+ k +]}) m.

(** ** Constants of libusb.h and libusbi.h *)

(** [enum libusb_error] *)
Definition LIBUSB_SUCCESS : Z := 0.
Definition LIBUSB_ERROR_IO : Z := -1.
Definition LIBUSB_ERROR_INVALID_PARAM : Z := -2.
Definition LIBUSB_ERROR_ACCESS : Z := -3.
Definition LIBUSB_ERROR_NO_DEVICE : Z := -4.
Definition LIBUSB_ERROR_NOT_FOUND : Z := -5.
Definition LIBUSB_ERROR_BUSY : Z := -6.
Definition LIBUSB_ERROR_TIMEOUT : Z := -7.
Definition LIBUSB_ERROR_OVERFLOW : Z := -8.
Definition LIBUSB_ERROR_PIPE : Z := -9.
Definition LIBUSB_ERROR_INTERRUPTED : Z := -10.
Definition LIBUSB_ERROR_NO_MEM : Z := -11.
Definition LIBUSB_ERROR_NOT_SUPPORTED : Z := -12.
Definition LIBUSB_ERROR_OTHER : Z := -99.
Definition LIBUSB_ERROR_COUNT : Z := 14.

(** [enum libusb_descriptor_type] and the descriptor sizes *)
Definition LIBUSB_DT_DEVICE : Z := 1.
Definition LIBUSB_DT_CONFIG : Z := 2.
Definition LIBUSB_DT_STRING : Z := 3.
Definition LIBUSB_DT_INTERFACE : Z := 4.
Definition LIBUSB_DT_ENDPOINT : Z := 5.
Definition LIBUSB_DT_BOS : Z := 15.
Definition LIBUSB_DT_DEVICE_CAPABILITY : Z := 16.
Definition LIBUSB_DT_SS_ENDPOINT_COMPANION : Z := 48.
Definition LIBUSB_DT_CONFIG_SIZE : Z := 9.
Definition LIBUSB_DT_INTERFACE_SIZE : Z := 9.
Definition LIBUSB_DT_SS_ENDPOINT_COMPANION_SIZE : Z := 6.
Definition LIBUSB_DT_BOS_SIZE : Z := 5.
Definition LIBUSB_DT_DEVICE_CAPABILITY_SIZE : Z := 3.
Definition USB_MAXENDPOINTS : Z := 32.
Definition USB_MAXINTERFACES : Z := 32.
Definition USB_MAXCONFIG : Z := 8.
