(* ===== verification/Keeps.v ===== *)
(** * Operations that keep a relation

    [keeps R m]: the states before and after [m] are related by [R], however
    [m] runs.  For a preorder this is shown along the structure of [m]. *)

From S2P Require Import Prelude.

Section kept.
Context {S : Type} (R : S -> S -> Prop) `{!PreOrder R}.

Definition keeps {A} (m : M S A) : Prop := forall s, wlp m s (fun _ s' => R s s').

Lemma keeps_ret {A} (a : A) : keeps (mret a).
Proof. intros s b s' [= _ <-]. reflexivity. Qed.
Lemma keeps_fail {A} (f : fault) : keeps (fail (A := A) f).
Proof. by intros s a s'. Qed.
Lemma keeps_lift {A} (o : outcome A) : keeps (lift o).
Proof. intros s a s' Hrun. unfold lift in Hrun. destruct o; [|done]. injection Hrun as _ <-. reflexivity. Qed.
Lemma keeps_get : keeps get.
Proof. intros s a s' [= _ <-]. reflexivity. Qed.
Lemma keeps_gets {A} (f : S -> A) : keeps (gets f).
Proof. intros s a s' [= _ <-]. reflexivity. Qed.
Lemma keeps_modify f : (forall s, R s (f s)) -> keeps (modify f).
Proof. intros Hf s a s' [= _ <-]. apply Hf. Qed.
Lemma keeps_bind {A B} (m : M S A) (f : A -> M S B) : keeps m -> (forall a, keeps (f a)) -> keeps (m ≫= f).
Proof.
  intros Hm Hf s. apply wlp_bind. eapply wlp_mono; [apply Hm|]. intros a s1 H1.
  eapply wlp_mono; [apply Hf|]. intros b s2 H2. exact (PreOrder_Transitive _ _ _ H1 H2).
Qed.
Lemma keeps_for_each {A} (f : A -> M S unit) l : (forall a, keeps (f a)) -> keeps (for_each f l).
Proof. intros Hf. induction l as [|a l IH]; cbn [for_each]; [apply keeps_ret|]. by apply keeps_bind. Qed.
End kept.

(** Steps through an operation; what is left are the calls. *)
Ltac keeps_step :=
  lazymatch goal with
  | |- keeps _ (mret _) => apply keeps_ret; typeclasses eauto
  | |- keeps _ (lift _) => apply keeps_lift; typeclasses eauto
  | |- keeps _ get => apply keeps_get; typeclasses eauto
  | |- keeps _ (gets _) => apply keeps_gets; typeclasses eauto
  | |- keeps _ (fail _) => apply keeps_fail
  | |- keeps _ (_ ≫= _) => apply keeps_bind; [typeclasses eauto| |intros ?]
  | |- keeps _ (for_each _ _) => apply keeps_for_each; [typeclasses eauto|intros ?]
  | |- keeps _ (match _ with _ => _ end) => case_match
  end.
Ltac keeps := repeat keeps_step.

(** What holds before holds after. *)
Definition preserves {S} (P : S -> Prop) (s s' : S) : Prop := P s -> P s'.
#[export] Instance preserves_preorder {S} (P : S -> Prop) : PreOrder (preserves P).
Proof. split; [by intros s Hs|]. intros s1 s2 s3 H1 H2 H. by apply H2, H1. Qed.
