(* ===== verification/Heap.v ===== *)
(** * The C heap as the descriptor code uses it

    Blocks are numbered in the order of the allocation calls.  The live
    blocks form a multiset, so that "everything that was allocated has been
    released" is an equation between multisets.  The contents of a block are
    kept where the owning pointer is (every structure of the descriptor code
    is a tree of uniquely owned blocks): a pointer field is an [option] of a
    block number with the contents.  Allocation failure is decided by two
    oracles, one for [malloc] and [calloc], one for [realloc], indexed by the
    number of the call: a theorem that quantifies over the heap quantifies
    over every pattern of failures. *)

From S2P Require Import Prelude.

Create HintDb heap discriminated.

Record heap : Type := mk_heap {
  live : gmultiset nat;
  next : nat;
  oom : nat -> bool;
  oom_realloc : nat -> bool
}.

Definition set_live (h : heap) (l : gmultiset nat) : heap :=
  mk_heap l (S (next h)) (oom h) (oom_realloc h).

(** [malloc] and [calloc]: [None] is the null pointer. *)
Definition malloc : M heap (option nat) := fun h =>
  if oom h (next h) then Ok (None, set_live h (live h))
  else Ok (Some (next h), set_live h ({[+ next h +]} ⊎ live h)).

(** [free]: a null pointer is ignored; any other pointer must be live. *)
Definition free (p : option nat) : M heap unit := fun h =>
  match p with
  | None => Ok (tt, h)
  | Some b =>
      if decide (b ∈ live h)
      then Ok (tt, mk_heap (live h ∖ {[+ b +]}) (next h) (oom h) (oom_realloc h))
      else Fault BadFree
  end.

(** Every access through a pointer needs a live block. *)
Definition touch (p : option nat) : M heap unit := fun h =>
  match p with
  | None => Fault NullDeref
  | Some b => if decide (b ∈ live h) then Ok (tt, h) else Fault UseAfterFree
  end.

(** [realloc]: on success the old block is released and a new one is live;
    on failure the old block stays. *)
Definition new_block : M heap (option nat) := fun h =>
  Ok (Some (next h), set_live h ({[+ next h +]} ⊎ live h)).
Definition realloc (p : option nat) : M heap (option nat) :=
  h ← get;
  if oom_realloc h (next h) then put (set_live h (live h)) ;; mret None
  else free p ;; new_block.

(** [usbi_reallocf] of libusbi.h: as [realloc], but a failure releases the
    old block. *)
Definition usbi_reallocf (p : option nat) : M heap (option nat) :=
  r ← realloc p;
  match r with
  | None => free p ;; mret None
  | Some b => mret (Some b)
  end.

(** The blocks a pointer owns. *)
Definition own (p : option nat) : gmultiset nat :=
  match p with
  | None => ∅
  | Some b => {[+ b +]}
  end.

(** The next block is new. *)
Definition heap_fresh (h : heap) : Prop := forall b, b ∈ live h -> (b < next h)%nat.

(** [h'] comes after [h]: the failure oracles are the same, and the next
    block of [h'] is new if that of [h] is. *)
Definition same_oracles (h h' : heap) : Prop :=
  oom h' = oom h /\ oom_realloc h' = oom_realloc h /\ (heap_fresh h -> heap_fresh h').

#[export] Instance same_oracles_refl : Reflexive same_oracles.
Proof. by intros h. Qed.
#[export] Instance same_oracles_trans : Transitive same_oracles.
Proof. intros x y z (H1 & H2 & H3) (H4 & H5 & H6). split_and!; [congruence|congruence|auto]. Qed.

Lemma same_oracles_fail h : same_oracles h (set_live h (live h)).
Proof. split_and!; [done|done|]. intros Hf b Hb. apply Nat.lt_lt_succ_r. by apply Hf. Qed.
Lemma same_oracles_new h : same_oracles h (set_live h ({[+ next h +]} ⊎ live h)).
Proof.
  split_and!; [done|done|]. intros Hf b Hb. simpl in *.
  apply gmultiset_elem_of_disj_union in Hb as [Hb|Hb]; [apply gmultiset_elem_of_singleton in Hb; lia|].
  apply Nat.lt_lt_succ_r. by apply Hf.
Qed.
Lemma same_oracles_less h l :
  (forall b, b ∈ l -> b ∈ live h) -> same_oracles h (mk_heap l (next h) (oom h) (oom_realloc h)).
Proof. intros Hl. split_and!; [done|done|]. intros Hf b Hb. by apply Hf, Hl. Qed.
#[export] Hint Resolve same_oracles_fail same_oracles_new same_oracles_less : heap.

(** ** Without allocation failures *)

Definition no_malloc_failure (h : heap) : Prop := forall n, oom h n = false.

Lemma no_malloc_failure_same h h' :
  no_malloc_failure h -> same_oracles h h' -> no_malloc_failure h'.
Proof. intros Hn [Ho _] n. rewrite Ho. apply Hn. Qed.

(** ** Specifications: each operation on its frame [F] *)

Lemma malloc_wp h F (Q : option nat -> heap -> Prop) :
  live h = F ->
  (forall p h', live h' = own p ⊎ F -> same_oracles h h' -> Q p h') ->
  wp malloc h Q.
Proof.
  intros HF HQ. unfold wp, malloc.
  destruct (oom h (next h)); apply HQ; auto with heap; subst F; unfold own, set_live; cbn [live]; multiset_solver.
Qed.

(** With a fresh heap the new block is not in use. *)
Lemma malloc_fresh_wp h F (Q : option nat -> heap -> Prop) :
  live h = F -> heap_fresh h ->
  (forall b h', live h' = {[+ b +]} ⊎ F -> same_oracles h h' -> b ∉ F -> Q (Some b) h') ->
  (forall h', live h' = F -> same_oracles h h' -> ~ no_malloc_failure h -> Q None h') ->
  wp malloc h Q.
Proof.
  intros HF Hfresh Hnew Hnone. unfold wp, malloc. destruct (oom h (next h)) eqn:Ho.
  - apply Hnone; [done|auto with heap|]. intros Hn. by rewrite Hn in Ho.
  - apply Hnew; [by rewrite <- HF|auto with heap|]. rewrite <- HF. intros Hb.
    specialize (Hfresh _ Hb). lia.
Qed.

Lemma free_wp h p F (Q : unit -> heap -> Prop) :
  live h = own p ⊎ F ->
  (forall h', live h' = F -> same_oracles h h' -> Q tt h') ->
  wp (free p) h Q.
Proof.
  intros HF HQ. unfold wp, free. destruct p as [b|]; simpl in HF.
  - rewrite decide_True by (rewrite HF; multiset_solver).
    apply HQ; [cbn [live]; rewrite HF; multiset_solver | apply same_oracles_less; multiset_solver].
  - apply HQ; [rewrite HF; multiset_solver | done].
Qed.

Lemma touch_wp h b F (Q : unit -> heap -> Prop) :
  live h = {[+ b +]} ⊎ F -> Q tt h -> wp (touch (Some b)) h Q.
Proof.
  intros HF HQ. unfold wp, touch.
  by rewrite decide_True by (rewrite HF; multiset_solver).
Qed.

(** Without [realloc] failures [usbi_reallocf] moves the ownership. *)
Lemma reallocf_wp h p F (Q : option nat -> heap -> Prop) :
  (forall n, oom_realloc h n = false) ->
  live h = own p ⊎ F ->
  (forall b h', live h' = {[+ b +]} ⊎ F -> same_oracles h h' -> Q (Some b) h') ->
  wp (usbi_reallocf p) h Q.
Proof.
  intros Hre HF HQ. unfold usbi_reallocf, realloc.
  apply wp_bind, wp_bind. unfold wp at 1, get. rewrite Hre.
  apply wp_bind, (free_wp _ _ F); [done|]. intros h' HF' Ho.
  apply wp_ret, HQ; [by rewrite <- HF' |]. etrans; [exact Ho | apply same_oracles_new].
Qed.

(** A failing [realloc] inside [usbi_reallocf] leaves the caller without
    any block. *)
Lemma reallocf_fail_wp h p F (Q : option nat -> heap -> Prop) :
  oom_realloc h (next h) = true ->
  live h = own p ⊎ F ->
  (forall h', live h' = F -> same_oracles h h' -> Q None h') ->
  wp (usbi_reallocf p) h Q.
Proof.
  intros Hre HF HQ. unfold usbi_reallocf, realloc.
  apply wp_bind, wp_bind. unfold wp at 1, get. rewrite Hre.
  apply wp_bind. unfold wp at 1, put. apply wp_ret, wp_bind.
  apply (free_wp _ _ F); [done|]. intros h' HF' Ho. apply wp_ret, HQ; [done|].
  etrans; [|exact Ho]. apply same_oracles_fail.
Qed.

(** Without allocation failures a block is returned. *)
Lemma malloc_some_wp h (Q : option nat -> heap -> Prop) :
  no_malloc_failure h ->
  (forall b h', no_malloc_failure h' -> same_oracles h h' -> Q (Some b) h') ->
  wp malloc h Q.
Proof. intros Hn HQ. unfold wp, malloc. rewrite Hn. apply HQ; [apply Hn|apply same_oracles_new]. Qed.
