(* ===== verification/Text.v ===== *)
(** * Text: the C library functions on strings

    What the sources use of [<string.h>], [<ctype.h>] and [<stdlib.h>]:
    [strtol], [atoi], [fscanf], [sscanf], [strrchr], [strchr] and [strtoul]
    in base 16.  Text is a list of character codes; in a C string no code is
    0. *)

From S2P Require Import Prelude.

(** The C string at the start of a buffer. *)
Fixpoint cstring (buf : list Z) : list Z :=
  match buf with
  | [] => []
  | b :: buf => if b =? 0 then [] else b :: cstring buf
  end.

Definition is_space (c : Z) : bool := (c =? 32) || ((9 <=? c) && (c <=? 13)).
Definition is_digit (c : Z) : bool := (48 <=? c) && (c <=? 57).
Definition is_sign (c : Z) : bool := (c =? 43) || (c =? 45).

Fixpoint skip_space (l : list Z) : list Z :=
  match l with
  | c :: l' => if is_space c then skip_space l' else l
  | [] => []
  end.
(** The digits at the start of [l], on top of the value [acc], and the rest. *)
Fixpoint scan_digits (l : list Z) (acc : Z) : Z * list Z :=
  match l with
  | c :: l' => if is_digit c then scan_digits l' (10 * acc + (c - 48)) else (acc, l)
  | [] => (acc, [])
  end.

(** A decimal number: white space, a sign, digits; with the text behind it.
    [None] without a digit. *)
Definition scan_number (l : list Z) : option (Z * list Z) :=
  let l := skip_space l in
  let '(neg, l) := match l with
                   | c :: l' => if is_sign c then (c =? 45, l') else (false, l)
                   | [] => (false, [])
                   end in
  match l with
  | c :: _ => if is_digit c then let '(n, rest) := scan_digits l 0 in Some (if neg then - n else n, rest) else None
  | [] => None
  end.

(** [long] (64 bits) clamps. *)
Definition clamp_long (n : Z) : Z := Z.max (- 2 ^ 63) (Z.min n (2 ^ 63 - 1)).

(** [strtol(s, &end, 10)]: the value, and whether [end] is not [s]. *)
Definition strtol (s : list Z) : Z * bool :=
  match scan_number (cstring s) with
  | Some (n, _) => (clamp_long n, true)
  | None => (0, false)
  end.
Definition atoi (s : list Z) : Z := i32 (fst (strtol s)).
(** [fscanf(f, "%d", &value)] on a file with the text [l]. *)
Definition scan_int (l : list Z) : option Z :=
  match scan_number l with
  | Some (n, _) => Some (i32 (clamp_long n))
  | None => None
  end.

Fixpoint strip_prefix (p l : list Z) : option (list Z) :=
  match p, l with
  | [], _ => Some l
  | a :: p, b :: l => if a =? b then strip_prefix p l else None
  | _ :: _, [] => None
  end.
Definition has_prefix (p l : list Z) : bool := bool_decide (is_Some (strip_prefix p l)).

(** The conversion [%hhu]: [strtoul] clamps, and the low byte is kept. *)
Definition hhu (n : Z) : Z := u8 (if 2 ^ 64 <=? Z.abs n then 2 ^ 64 - 1 else n).

(** [sscanf(s, prefix "%hhu/%hhu", &a, &b)]: what is not read stays. *)
Definition scan_two_hhu (prefix s : list Z) (a b : Z) : Z * Z :=
  match strip_prefix prefix s with
  | None => (a, b)
  | Some l =>
      match scan_number l with
      | None => (a, b)
      | Some (a, rest) =>
          match rest with
          | 47 :: rest =>
              match scan_number rest with
              | None => (hhu a, b)
              | Some (b, _) => (hhu a, hhu b)
              end
          | _ => (hhu a, b)
          end
      end
  end.

(** [strrchr]: the text before and behind the last [c]. *)
Fixpoint strrchr (l : list Z) (c : Z) : option (list Z * list Z) :=
  match l with
  | [] => None
  | a :: l =>
      match strrchr l c with
      | Some (before, behind) => Some (a :: before, behind)
      | None => if a =? c then Some ([], l) else None
      end
  end.

(** [strchr]: where [c] is in the C string [s]. *)
Definition strchr (s : list Z) (c : Z) : option nat :=
  fst <$> list_find (fun x => x = c) (cstring s).

(** Hexadecimal digits of either case. *)
Definition hex_value (c : Z) : option Z :=
  if is_digit c then Some (c - 48)
  else if (65 <=? c) && (c <=? 70) then Some (c - 55)
  else if (97 <=? c) && (c <=? 102) then Some (c - 87)
  else None.

Fixpoint scan_hex (l : list Z) (acc : Z) : Z :=
  match l with
  | c :: l' =>
      match hex_value c with
      | Some v => scan_hex l' (16 * acc + v)
      | None => acc
      end
  | [] => acc
  end.

(** ["0x"] and ["0X"] before a number are skipped. *)
Definition skip_0x (l : list Z) : list Z :=
  match l with
  | c :: x :: l' => if (c =? 48) && ((x =? 120) || (x =? 88)) then l' else l
  | _ => l
  end.

(** [strtoul(s, NULL, 16)]: white space, a sign, the prefix, digits.  A number
    with a minus sign is negated in [unsigned long]; without a digit the
    result is 0. *)
Definition strtoul16 (s : list Z) : Z :=
  let l := skip_space (cstring s) in
  let '(neg, l) := match l with
                   | c :: l' => if is_sign c then (c =? 45, l') else (false, l)
                   | [] => (false, [])
                   end in
  let n := scan_hex (skip_0x l) 0 in
  if 2 ^ 64 <=? n then 2 ^ 64 - 1 else if neg then ulong (- n) else n.

(** ** C strings *)

Lemma cstring_prefix l r : Forall (fun b => b <> 0) l -> cstring (l ++ 0 :: r) = l.
Proof.
  induction 1 as [|b l Hb Hl IH]; [done|]. simpl. rewrite (proj2 (Z.eqb_neq _ _)) by done. by rewrite IH.
Qed.
Lemma cstring_nonzero l : Forall (fun c => c <> 0) l -> cstring l = l.
Proof. induction 1 as [|c l Hc _ IH]; simpl; [done|]. by rewrite (proj2 (Z.eqb_neq c 0) Hc), IH. Qed.
Lemma cstring_length l : (length (cstring l) <= length l)%nat.
Proof. induction l as [|c l IH]; simpl; [lia|]. destruct (c =? 0); simpl; lia. Qed.

Lemma cstring_app l r : Forall (fun b => b <> 0) l -> cstring (l ++ r) = l ++ cstring r.
Proof. induction 1 as [|b l Hb _ IH]; [done|]. simpl. by rewrite (proj2 (Z.eqb_neq b 0) Hb), IH. Qed.

(** [strchr] passes characters that are neither the one it looks for nor the
    end of the string. *)
Lemma strchr_app l r c :
  Forall (fun b => b <> 0 /\ b <> c) l -> strchr (l ++ r) c = Nat.add (length l) <$> strchr r c.
Proof.
  intros Hl. unfold strchr. rewrite cstring_app by (eapply Forall_impl; [exact Hl|by intros b []]).
  induction Hl as [|b l [_ Hb] _ IH]; simpl; [by destruct (list_find _ _) as [[]|]|].
  rewrite decide_False by done.
  destruct (list_find _ (l ++ _)) as [[]|], (list_find _ (cstring r)) as [[]|]; simplify_eq/=; congruence.
Qed.
