(* ===== verification/ParseDesc.v ===== *)
(** * usbi_parse_descriptor (libusb/descriptor.c)

    The generic descriptor reader: it copies a packed little-endian
    descriptor into a C structure, field by field, following a format
    string. *)

From S2P Require Import Prelude.
From Stdlib Require Import Ascii.

(** A byte buffer is the list of the bytes from a pointer to the end of the
    object it points into; reading and advancing are checked. *)
Definition rd (buf : list Z) (i : Z) : outcome Z :=
  if i <? 0 then Fault OutOfBounds
  else match buf !! Z.to_nat i with
       | Some b => Ok b
       | None => Fault OutOfBounds
       end.

Definition rd_n {A} (buf : list A) (n : nat) : outcome (list A) :=
  if decide (n <= length buf)%nat then Ok (take n buf) else Fault OutOfBounds.

(** Pointer arithmetic [buf + n]; one past the end is a valid pointer. *)
Definition advance (buf : list Z) (n : Z) : outcome (list Z) :=
  if decide (0 <= n <= Z.of_nat (length buf)) then Ok (drop (Z.to_nat n) buf)
  else Fault OutOfBounds.

(** Overwrite [bs] at offset [off] of the object [dest]. *)
Definition store (dest : list Z) (off : nat) (bs : list Z) : outcome (list Z) :=
  if decide (off + length bs <= length dest)%nat
  then Ok (take off dest ++ bs ++ drop (off + length bs) dest) else Fault OutOfBounds.

(** The byte representation of a 16 and a 32 bit object of the host. *)
Fixpoint le_bytes (n : nat) (w : Z) : list Z :=
  match n with
  | O => []
  | S n => Z.land w 255 :: le_bytes n (Z.shiftr w 8)
  end.
Definition host_bytes (big : bool) (n : nat) (w : Z) : list Z :=
  if big then rev (le_bytes n w) else le_bytes n w.

Fixpoint le_value (bs : list Z) : Z :=
  match bs with
  | [] => 0
  | b :: bs => b + 256 * le_value bs
  end.
Definition host_value (big : bool) (bs : list Z) : Z :=
  le_value (if big then rev bs else bs).

Definition align2 (dp : nat) : nat := (dp + Nat.modulo dp 2)%nat.

Section parse.
(** [big]: the host is big endian. *)
Variable big : bool.

(** One turn of the loop: [sp] is the rest of the source, [dp] the offset
    in [dest] (the destination starts at an even address).  Returns the
    bytes consumed, the new offset and the new destination. *)
Definition parse_char (c : Ascii.ascii) (sp : list Z) (dp : nat) (dest : list Z)
    (host_endian : bool) : outcome (nat * nat * list Z) :=
  if decide (c = "b"%char) then
    match rd sp 0 with
    | Fault f => Fault f
    | Ok x => match store dest dp [x] with
              | Fault f => Fault f
              | Ok d => Ok (1%nat, (dp + 1)%nat, d)
              end
    end
  else if decide (c = "w"%char) then
    let dp := align2 dp in
    match rd_n sp 2 with
    | Fault f => Fault f
    | Ok bs =>
        let w := Z.lor (Z.shiftl (nth 1%nat bs 0) 8) (nth 0%nat bs 0) in
        match store dest dp (if host_endian then bs else host_bytes big 2 w) with
        | Fault f => Fault f
        | Ok d => Ok (2%nat, (dp + 2)%nat, d)
        end
    end
  else if decide (c = "d"%char) then
    let dp := align2 dp in
    match rd_n sp 4 with
    | Fault f => Fault f
    | Ok bs =>
        let d := Z.lor (Z.lor (Z.lor (Z.shiftl (nth 3%nat bs 0) 24) (Z.shiftl (nth 2%nat bs 0) 16))
                      (Z.shiftl (nth 1%nat bs 0) 8)) (nth 0%nat bs 0) in
        match store dest dp (if host_endian then bs else host_bytes big 4 d) with
        | Fault f => Fault f
        | Ok d => Ok (4%nat, (dp + 4)%nat, d)
        end
    end
  else if decide (c = "u"%char) then
    match rd_n sp 16 with
    | Fault f => Fault f
    | Ok bs => match store dest dp bs with
               | Fault f => Fault f
               | Ok d => Ok (16%nat, (dp + 16)%nat, d)
               end
    end
  else Ok (0%nat, dp, dest).

Fixpoint parse_loop (descriptor : string) (sp : list Z) (dp : nat) (dest : list Z)
    (host_endian : bool) (consumed : nat) : outcome (Z * list Z) :=
  match descriptor with
  | EmptyString => Ok (Z.of_nat consumed, dest)
  | String c descriptor =>
      match parse_char c sp dp dest host_endian with
      | Fault f => Fault f
      | Ok (n, dp, dest) =>
          parse_loop descriptor (drop n sp) dp dest host_endian (consumed + n)%nat
      end
  end.

Definition usbi_parse_descriptor (source : list Z) (descriptor : string)
    (dest : list Z) (host_endian : bool) : outcome (Z * list Z) :=
  parse_loop descriptor source 0 dest host_endian 0.

(** ** Reference: the format read as a list of fields *)

(** Number of source bytes of a format character. *)
Definition char_size (c : Ascii.ascii) : nat :=
  (if decide (c = "b"%char) then 1
  else if decide (c = "w"%char) then 2
  else if decide (c = "d"%char) then 4
  else if decide (c = "u"%char) then 16 else 0)%nat.
Definition char_align (c : Ascii.ascii) (dp : nat) : nat :=
  if decide (c = "w"%char) then align2 dp
  else if decide (c = "d"%char) then align2 dp else dp.

Fixpoint format_size (f : string) : nat :=
  match f with
  | EmptyString => 0%nat
  | String c f => (char_size c + format_size f)%nat
  end.

(** Size of the structure the format describes, from offset [dp]. *)
Fixpoint format_end (f : string) (dp : nat) : nat :=
  match f with
  | EmptyString => dp
  | String c f => format_end f (char_align c dp + char_size c)%nat
  end.

(** A multi-byte integer as the host loads it; a UUID is an array of
    bytes, so the host order does not matter to it. *)
Definition load (c : ascii) (bs : list Z) : Z :=
  if decide (c = "w"%char) then host_value big bs
  else if decide (c = "d"%char) then host_value big bs else le_value bs.

(** The fields of the source: little endian on the bus, in host order
    when [host_endian] is set. *)
Fixpoint source_fields (f : string) (src : list Z) (host_endian : bool) : list Z :=
  match f with
  | EmptyString => []
  | String c f =>
      let bs := take (char_size c) src in
      (if host_endian then load c bs else le_value bs)
        :: source_fields f (drop (char_size c) src) host_endian
  end.

(** The members of the structure, as the host loads them. *)
Fixpoint struct_fields (f : string) (dest : list Z) (dp : nat) : list Z :=
  match f with
  | EmptyString => []
  | String c f =>
      let dp := char_align c dp in
      load c (take (char_size c) (drop dp dest))
        :: struct_fields f dest (dp + char_size c)%nat
  end.
End parse.

(** ** Correctness *)

Lemma le_bytes_length n w : length (le_bytes n w) = n.
Proof. revert w. induction n as [|n IH]; intros w; simpl; [done|]. by rewrite IH. Qed.

Lemma le_value_bytes n w : 0 <= w -> le_value (le_bytes n w) = w mod 2 ^ (8 * Z.of_nat n).
Proof.
  revert w. induction n as [|n IH]; intros w Hw.
  - simpl. by rewrite Z.mod_1_r.
  - cbn [le_bytes le_value]. rewrite IH by (by apply Z.shiftr_nonneg).
    change 255 with (Z.ones 8). rewrite Z.land_ones, Z.shiftr_div_pow2 by lia.
    replace (8 * Z.of_nat (S n)) with (8 + 8 * Z.of_nat n) by lia.
    rewrite Z.pow_add_r, Z.rem_mul_r by lia. change (2 ^ 8) with 256. lia.
Qed.

Lemma host_value_bytes big n w :
  0 <= w < 2 ^ (8 * Z.of_nat n) -> host_value big (host_bytes big n w) = w.
Proof.
  intros Hw. unfold host_value, host_bytes. destruct big.
  - rewrite rev_involutive, le_value_bytes by lia. by apply Z.mod_small.
  - rewrite le_value_bytes by lia. by apply Z.mod_small.
Qed.

Lemma host_bytes_length big n w : length (host_bytes big n w) = n.
Proof. destruct big; simpl; rewrite ?length_rev; apply le_bytes_length. Qed.

Lemma le_value_bound bs : is_bytes bs -> 0 <= le_value bs < 2 ^ (8 * Z.of_nat (length bs)).
Proof.
  induction 1 as [|b bs Hb _ IH]; simpl le_value; [simpl; lia|].
  replace (8 * Z.of_nat (length (b :: bs))) with (8 + 8 * Z.of_nat (length bs)) by (simpl; lia).
  rewrite Z.pow_add_r by lia. unfold is_byte in Hb. change (2 ^ 8) with 256. lia.
Qed.

(** The two shifts-and-ors of the code are the little-endian value. *)
Lemma le16_or bs : is_bytes bs -> length bs = 2%nat ->
  Z.lor (Z.shiftl (nth 1%nat bs 0) 8) (nth 0%nat bs 0) = le_value bs.
Proof.
  intros Hb Hl. destruct bs as [|b0 [|b1 [|? ?]]]; try done.
  apply Forall_cons in Hb as [H0 Hb]. apply Forall_cons in Hb as [H1 _].
  unfold is_byte in *. cbn [nth le_value]. rewrite lor_shiftl_add by lia.
  change (2 ^ 8) with 256. lia.
Qed.

Lemma le32_or bs : is_bytes bs -> length bs = 4%nat ->
  Z.lor (Z.lor (Z.lor (Z.shiftl (nth 3%nat bs 0) 24) (Z.shiftl (nth 2%nat bs 0) 16))
     (Z.shiftl (nth 1%nat bs 0) 8)) (nth 0%nat bs 0) = le_value bs.
Proof.
  intros Hb Hl. destruct bs as [|b0 [|b1 [|b2 [|b3 [|? ?]]]]]; try done.
  apply Forall_cons in Hb as [H0 Hb]. apply Forall_cons in Hb as [H1 Hb].
  apply Forall_cons in Hb as [H2 Hb]. apply Forall_cons in Hb as [H3 _].
  unfold is_byte in *. cbn [nth le_value].
  replace (Z.shiftl b3 24) with (Z.shiftl (Z.shiftl b3 8) 16) by (by rewrite Z.shiftl_shiftl by lia).
  rewrite <- Z.shiftl_lor, (lor_shiftl_add b3 b2 8) by lia.
  replace (Z.shiftl (b3 * 2 ^ 8 + b2) 16) with (Z.shiftl (Z.shiftl (b3 * 2 ^ 8 + b2) 8) 8)
    by (by rewrite Z.shiftl_shiftl by lia).
  rewrite <- Z.shiftl_lor, (lor_shiftl_add (b3 * 2 ^ 8 + b2) b1 8) by lia.
  rewrite lor_shiftl_add by lia. change (2 ^ 8) with 256. lia.
Qed.

Lemma rd_ok buf i b : buf !! i = Some b -> rd buf (Z.of_nat i) = Ok b.
Proof.
  intros Hi. unfold rd. rewrite (proj2 (Z.ltb_ge _ _)) by lia. by rewrite Nat2Z.id, Hi.
Qed.

Lemma store_ok dest off bs :
  (off + length bs <= length dest)%nat ->
  exists d, store dest off bs = Ok d /\ length d = length dest /\
    take off d = take off dest /\ take (length bs) (drop off d) = bs /\
    drop (off + length bs) d = drop (off + length bs) dest.
Proof.
  intros Hle. unfold store. rewrite decide_True by done. eexists; split; [done|].
  assert (length (take off dest) = off) as Hoff by (rewrite length_take; lia).
  split_and!.
  - rewrite !length_app, length_drop. lia.
  - by rewrite take_app_length'.
  - rewrite drop_app_length', take_app_length'; done.
  - rewrite app_assoc, drop_app_length'; [done|]. rewrite length_app. lia.
Qed.

Lemma char_align_le c dp : (dp <= char_align c dp)%nat.
Proof. unfold char_align, align2. repeat case_decide; lia. Qed.

Lemma format_end_le f dp : (dp <= format_end f dp)%nat.
Proof.
  revert dp. induction f as [|c f IH]; intros dp; simpl; [done|].
  etrans; [|apply IH]. pose proof (char_align_le c dp). lia.
Qed.

(** The bytes a multi-byte character stores load back as the source value. *)
Lemma stored_value big (he : bool) n w bs :
  is_bytes bs -> length bs = n -> le_value bs = w ->
  host_value big (if he then bs else host_bytes big n w)
    = (if he then host_value big bs else le_value bs).
Proof.
  intros Hb Hl <-. destruct he; [done|]. apply host_value_bytes.
  rewrite <- Hl. by apply le_value_bound.
Qed.

(** What one turn of the loop does to the destination. *)
Lemma parse_char_ok big c sp dp dest (he : bool) :
  is_bytes sp -> (char_size c <= length sp)%nat ->
  (char_align c dp + char_size c <= length dest)%nat ->
  let dp' := (char_align c dp + char_size c)%nat in
  exists d, parse_char big c sp dp dest he = Ok (char_size c, dp', d) /\
    length d = length dest /\ take (char_align c dp) d = take (char_align c dp) dest /\
    load big c (take (char_size c) (drop (char_align c dp) d))
      = (if he then load big c (take (char_size c) sp) else le_value (take (char_size c) sp)) /\
    drop dp' d = drop dp' dest.
Proof.
  intros Hb. unfold parse_char, char_size, char_align, load, rd_n.
  assert (Hn : forall n, (n <= length sp)%nat -> length (take n sp) = n)
    by (intros; rewrite length_take; lia).
  destruct (decide (c = "b"%char)) as [->|]; [|destruct (decide (c = "w"%char)) as [->|];
    [|destruct (decide (c = "d"%char)) as [->|]; [|destruct (decide (c = "u"%char)) as [->|]]]];
    simpl; intros Hsp Hdest.
  - destruct sp as [|x sp]; [simpl in Hsp; lia|].
    destruct (store_ok dest dp [x]) as (d & Hst & ? & ? & Hs & ?); [done|].
    exists d. change (rd (x :: sp) 0) with (Ok x). cbn beta iota. rewrite Hst.
    split_and!; try done. simpl length in Hs. rewrite Hs. by destruct he.
  - rewrite decide_True by done.
    destruct (store_ok dest (align2 dp) (if he then take 2 sp else host_bytes big 2
      (Z.lor (Z.shiftl (nth 1%nat (take 2 sp) 0) 8) (nth 0%nat (take 2 sp) 0))))
      as (d & -> & ? & ? & Hs & Hd); [destruct he; rewrite ?host_bytes_length, ?Hn; lia|].
    replace (length _) with 2%nat in Hs, Hd by (destruct he; rewrite ?host_bytes_length, ?Hn; lia).
    exists d. split_and!; try done. rewrite Hs. apply stored_value; [by auto|by apply Hn|].
    by rewrite le16_or by auto.
  - rewrite decide_True by done.
    destruct (store_ok dest (align2 dp) (if he then take 4 sp else host_bytes big 4
      (Z.lor (Z.lor (Z.lor (Z.shiftl (nth 3%nat (take 4 sp) 0) 24)
         (Z.shiftl (nth 2%nat (take 4 sp) 0) 16)) (Z.shiftl (nth 1%nat (take 4 sp) 0) 8))
         (nth 0%nat (take 4 sp) 0))))
      as (d & -> & ? & ? & Hs & Hd); [destruct he; rewrite ?host_bytes_length, ?Hn; lia|].
    replace (length _) with 4%nat in Hs, Hd by (destruct he; rewrite ?host_bytes_length, ?Hn; lia).
    exists d. split_and!; try done. rewrite Hs. apply stored_value; [by auto|by apply Hn|].
    by rewrite le32_or by auto.
  - rewrite decide_True by done.
    destruct (store_ok dest dp (take 16 sp)) as (d & -> & ? & ? & Hs & Hd); [by rewrite Hn|].
    rewrite Hn in Hs, Hd by done. exists d. split_and!; try done. rewrite Hs. by destruct he.
  - exists dest. rewrite !Nat.add_0_r. split_and!; try done. by destruct he.
Qed.

Lemma parse_loop_ok big f (he : bool) sp dp dest n :
  is_bytes sp -> (format_size f <= length sp)%nat -> (format_end f dp <= length dest)%nat ->
  exists d, parse_loop big f sp dp dest he n = Ok (Z.of_nat (n + format_size f), d) /\
    length d = length dest /\ take dp d = take dp dest /\
    struct_fields big f d dp = source_fields big f sp he /\
    drop (format_end f dp) d = drop (format_end f dp) dest.
Proof.
  revert sp dp dest n. induction f as [|c f IH]; intros sp dp dest n Hb Hsp Hd; simpl in *.
  { exists dest. split_and!; try done. by rewrite Nat.add_0_r. }
  pose proof (format_end_le f (char_align c dp + char_size c)) as Hfe.
  destruct (parse_char_ok big c sp dp dest he) as (d1 & -> & Hl1 & Ht1 & Hv1 & Hd1);
    [done|lia|lia|].
  destruct (IH (drop (char_size c) sp) (char_align c dp + char_size c)%nat d1
    (n + char_size c)%nat) as (d & Heq & Hl & Ht & Hv & Hdr);
    [by apply is_bytes_drop | rewrite length_drop; lia | lia |].
  exists d. split_and!.
  - rewrite Heq. do 2 f_equal. lia.
  - lia.
  - pose proof (char_align_le c dp).
    etrans; [apply (take_eq_le _ _ _ _ Ht); lia | apply (take_eq_le _ _ _ _ Ht1); lia].
  - rewrite Hv, <- Hv1. do 2 f_equal. apply (take_drop_eq _ _ _ _ _ Ht). lia.
  - rewrite Hdr. by apply (drop_eq_le _ _ _ _ Hd1).
Qed.

(** Everything stays a byte. *)
Lemma le_bytes_bytes n w : is_bytes (le_bytes n w).
Proof.
  revert w. induction n as [|n IH]; intros w; simpl; [done|]. constructor; [|apply IH].
  change 255 with (Z.ones 8). rewrite Z.land_ones by lia. apply Z.mod_pos_bound. done.
Qed.

Lemma host_bytes_bytes big n w : is_bytes (host_bytes big n w).
Proof. destruct big; simpl; [apply Forall_rev|]; apply le_bytes_bytes. Qed.

Lemma host_value_bound big bs :
  is_bytes bs -> 0 <= host_value big bs < 2 ^ (8 * Z.of_nat (length bs)).
Proof.
  intros Hb. unfold host_value. destruct big; [|by apply le_value_bound].
  rewrite <- length_rev. apply le_value_bound. by apply Forall_rev.
Qed.

(** The bytes behind the format do not matter: they are not read. *)
Lemma rd_n_app {A} (l k : list A) n : (n <= length l)%nat -> rd_n (l ++ k) n = rd_n l n.
Proof.
  intros Hn. unfold rd_n. rewrite !decide_True by (rewrite ?length_app; lia).
  by rewrite take_app_le.
Qed.

Lemma parse_char_app big c sp rest dp dest he : (char_size c <= length sp)%nat ->
  parse_char big c (sp ++ rest) dp dest he = parse_char big c sp dp dest he.
Proof.
  unfold parse_char, char_size. intros Hsp. repeat case_decide; rewrite ?rd_n_app by done; try done.
  destruct sp as [|x sp]; [simpl in Hsp; lia|done].
Qed.

Lemma parse_loop_app big f sp rest dp dest he n :
  (format_size f <= length sp)%nat ->
  parse_loop big f (sp ++ rest) dp dest he n = parse_loop big f sp dp dest he n.
Proof.
  revert sp dp dest n. induction f as [|c f IH]; intros sp dp dest n Hsp; [done|]. simpl in *.
  rewrite parse_char_app by lia.
  destruct (parse_char big c sp dp dest he) as [[[k dp'] dest']|e] eqn:Hc; [|done].
  assert (k = char_size c) as ->.
  { clear -Hc. revert Hc. unfold parse_char, char_size.
    repeat case_decide; repeat case_match; intros [= <- <- <-]; done. }
  rewrite drop_app_le by lia. apply IH. rewrite length_drop. lia.
Qed.
