(* ===== verification/Config.v ===== *)
(** * Configuration descriptors (libusb/descriptor.c)

    [parse_endpoint], [parse_interface], [parse_configuration] and the
    functions that release what they build.  A structure is kept as the
    bytes of its packed part (as [usbi_parse_descriptor] writes them)
    followed by its pointer members; a pointer member is the block it owns
    next to the contents of that block. *)

From S2P Require Import Prelude Heap ParseDesc.

(** [struct usb_descriptor_header] and the common first members *)
Definition bLength (raw : list Z) : Z := nth 0%nat raw 0.
Definition bDescriptorType (raw : list Z) : Z := nth 1%nat raw 0.

(** [struct libusb_endpoint_descriptor] *)
Record endpoint_descriptor : Type := mk_ep {
  ep_raw : list Z;
  ep_extra : option nat;
  ep_extra_data : list Z;
  ep_extra_length : Z
}.
Definition bEndpointAddress (e : endpoint_descriptor) : Z := nth 2%nat (ep_raw e) 0.
Definition bmAttributes (e : endpoint_descriptor) : Z := nth 3%nat (ep_raw e) 0.
Definition wMaxPacketSize (big : bool) (e : endpoint_descriptor) : Z :=
  host_value big (take 2 (drop 4 (ep_raw e))).

(** [struct libusb_interface_descriptor] *)
Record interface_descriptor : Type := mk_ifd {
  if_raw : list Z;
  if_extra : option nat;
  if_extra_data : list Z;
  if_extra_length : Z;
  if_endpoint : option nat;
  if_endpoints : list endpoint_descriptor
}.
Definition bInterfaceNumber (d : interface_descriptor) : Z := nth 2%nat (if_raw d) 0.
Definition bNumEndpoints (d : interface_descriptor) : Z := nth 4%nat (if_raw d) 0.
Definition set_bNumEndpoints (n : Z) (d : interface_descriptor) : interface_descriptor :=
  mk_ifd (<[4%nat := u8 n]> (if_raw d)) (if_extra d) (if_extra_data d) (if_extra_length d)
    (if_endpoint d) (if_endpoints d).

(** [struct libusb_interface]: [ui_slots] is the array [ui_altsetting]
    points to, which may be longer than [num_altsetting]. *)
Record usb_interface : Type := mk_ui {
  ui_altsetting : option nat;
  ui_slots : list interface_descriptor;
  num_altsetting : Z
}.

(** [struct libusb_config_descriptor] *)
Record config_descriptor : Type := mk_cfg {
  cfg_raw : list Z;
  cfg_interface : option nat;
  cfg_interfaces : list usb_interface;
  cfg_extra : option nat;
  cfg_extra_data : list Z;
  cfg_extra_length : Z
}.
Definition bNumInterfaces (c : config_descriptor) : Z := nth 4%nat (cfg_raw c) 0.
Definition wTotalLength (big : bool) (raw : list Z) : Z := host_value big (take 2 (drop 2 raw)).
Definition set_bNumInterfaces (n : Z) (c : config_descriptor) : config_descriptor :=
  mk_cfg (<[4%nat := u8 n]> (cfg_raw c)) (cfg_interface c) (cfg_interfaces c)
    (cfg_extra c) (cfg_extra_data c) (cfg_extra_length c).

(** Zero-filled structures, as [calloc] returns them. *)
Definition zero_ep : endpoint_descriptor := mk_ep (replicate 9 0) None [] 0.
Definition zero_ui : usb_interface := mk_ui None [] 0.

Definition DESC_HEADER_LENGTH : Z := 2.
Definition INTERFACE_DESC_LENGTH : Z := 9.
Definition ENDPOINT_DESC_LENGTH : Z := 7.
Definition ENDPOINT_AUDIO_DESC_LENGTH : Z := 9.

(** ** Releasing *)

(** The loop [for (i = 0; i < n; i++) f(&a[i])] over the array of block [b]. *)
Definition for_array {A} (b : option nat) (a : list A) (n : Z) (f : A -> M heap unit) : M heap unit :=
  l ← lift (rd_n a (Z.to_nat n));
  for_each (fun x => touch b ;; f x) l.

Definition clear_endpoint (e : endpoint_descriptor) : M heap unit := free (ep_extra e).

Definition clear_altsetting (d : interface_descriptor) : M heap unit :=
  free (if_extra d) ;;
  (match if_endpoint d with
   | Some b => for_array (Some b) (if_endpoints d) (bNumEndpoints d) clear_endpoint
   | None => mret tt
   end) ;;
  free (if_endpoint d).

Definition clear_interface (u : usb_interface) : M heap usb_interface :=
  (match ui_altsetting u with
   | Some b => for_array (Some b) (ui_slots u) (num_altsetting u) clear_altsetting
   | None => mret tt
   end) ;;
  free (ui_altsetting u) ;;
  mret (mk_ui None [] (num_altsetting u)).

Definition clear_configuration (c : config_descriptor) : M heap unit :=
  (match cfg_interface c with
   | Some b => for_array (Some b) (cfg_interfaces c) (bNumInterfaces c)
                 (fun u => clear_interface u ;; mret tt)
   | None => mret tt
   end) ;;
  free (cfg_interface c) ;;
  free (cfg_extra c).

(** ** Parsing *)

(** "If we find another proper descriptor then we're done" *)
Definition is_proper (t : Z) : bool :=
  (t =? LIBUSB_DT_ENDPOINT) || (t =? LIBUSB_DT_INTERFACE) ||
  (t =? LIBUSB_DT_CONFIG) || (t =? LIBUSB_DT_DEVICE).

(** How the loop that skips class and vendor descriptors ends. *)
Inductive skipped : Type :=
| SkipInvalid                                        (** a length below 2 *)
| SkipShort (size parsed : Z)                        (** a length above [size] *)
| SkipDone (buffer : list Z) (size parsed : Z).

Section parse.
(** [big]: the host is big endian; [junk]: what fresh [malloc] or
    [realloc] memory and local variables hold. *)
Variable big : bool.
Variable junk : list Z.

Definition read_header (buffer : list Z) : outcome (list Z) :=
  '(_, header) ← usbi_parse_descriptor big buffer "bb" (take 2 junk) false;
  mret header.

Fixpoint skip_extra (fuel : nat) (buffer : list Z) (size parsed : Z) : outcome skipped :=
  match fuel with
  | O => Fault OutOfFuel
  | S fuel =>
      if size <? DESC_HEADER_LENGTH then mret (SkipDone buffer size parsed) else
      header ← read_header buffer;
      if bLength header <? DESC_HEADER_LENGTH then mret SkipInvalid
      else if size <? bLength header then mret (SkipShort size parsed)
      else if is_proper (bDescriptorType header) then mret (SkipDone buffer size parsed)
      else
        buffer ← advance buffer (bLength header);
        skip_extra fuel buffer (size - bLength header) (parsed + bLength header)
  end.

(** [buffer - begin] for two pointers into the same buffer *)
Definition ptr_diff (buffer begin : list Z) : Z :=
  Z.of_nat (length begin) - Z.of_nat (length buffer).

Definition parse_endpoint (ep : endpoint_descriptor) (buffer : list Z) (size : Z)
    (host_endian : bool) : M heap (Z * endpoint_descriptor) :=
  if size <? DESC_HEADER_LENGTH then mret (LIBUSB_ERROR_IO, ep) else
  header ← lift (read_header buffer);
  if negb (bDescriptorType header =? LIBUSB_DT_ENDPOINT) then mret (0, ep)
  else if size <? bLength header then mret (0, ep)
  else
  let parse format :=
    '(_, raw) ← lift (usbi_parse_descriptor big buffer format (ep_raw ep) host_endian);
    let ep := mk_ep raw (ep_extra ep) (ep_extra_data ep) (ep_extra_length ep) in
    begin ← lift (advance buffer (bLength header));
    r ← lift (skip_extra (S (Z.to_nat size)) begin (size - bLength header) (bLength header));
    match r with
    | SkipInvalid => mret (LIBUSB_ERROR_IO, ep)
    | SkipShort _ parsed => mret (parsed, ep)
    | SkipDone buffer _ parsed =>
        let len := ptr_diff buffer begin in
        if len =? 0 then mret (parsed, mk_ep raw None [] 0) else
        extra ← malloc;
        match extra with
        | None => mret (LIBUSB_ERROR_NO_MEM, mk_ep raw None [] 0)
        | Some b => mret (parsed, mk_ep raw (Some b) (take (Z.to_nat len) begin) len)
        end
    end in
  if ENDPOINT_AUDIO_DESC_LENGTH <=? bLength header then parse "bbbbwbbb"
  else if ENDPOINT_DESC_LENGTH <=? bLength header then parse "bbbbwb"
  else mret (LIBUSB_ERROR_IO, ep).

(** ** parse_interface *)

(** The loop over the endpoints of one alternate setting; [EpDone] carries
    the number of endpoints the loop stops at. *)
Inductive endpoints_result : Type :=
| EpErr (r : Z) (eps : list endpoint_descriptor)
| EpDone (eps : list endpoint_descriptor) (num : nat) (buffer : list Z) (size parsed : Z).

Fixpoint parse_endpoints (n i : nat) (eps : list endpoint_descriptor) (buffer : list Z)
    (size parsed : Z) (host_endian : bool) : M heap endpoints_result :=
  match n with
  | O => mret (EpDone eps i buffer size parsed)
  | S n =>
      match eps !! i with
      | None => fail OutOfBounds
      | Some ep =>
          '(r, ep) ← parse_endpoint ep buffer size host_endian;
          let eps := <[i := ep]> eps in
          if r <? 0 then mret (EpErr r eps)
          else if r =? 0 then mret (EpDone eps i buffer size parsed)
          else
            buffer ← lift (advance buffer r);
            parse_endpoints n (S i) eps buffer (size - r) (parsed + r) host_endian
      end
  end.

(** The [err:] label. *)
Definition interface_err (u : usb_interface) (r : Z) : M heap (Z * usb_interface) :=
  u ← clear_interface u; mret (r, u).

(** [ifp]: the altsetting being parsed is the last slot of the array. *)
Definition set_ifp (u : usb_interface) (d : interface_descriptor) : usb_interface :=
  mk_ui (ui_altsetting u) (<[pred (length (ui_slots u)) := d]> (ui_slots u)) (num_altsetting u).

(** What one turn of the loop over alternate settings does. *)
Inductive altsetting_result : Type :=
| AltReturn (r : Z) (u : usb_interface)      (** [return] *)
| AltErr (r : Z) (u : usb_interface)         (** [goto err] *)
| AltNext (u : usb_interface) (interface_number : Z) (buffer : list Z) (size parsed : Z).

(** The end of the turn: the endpoints, then whether another alternate
    setting of the same interface follows. *)
Definition parse_altsetting_endpoints (u : usb_interface) (ifp : interface_descriptor)
    (interface_number : Z) (buffer : list Z) (size parsed : Z) (host_endian : bool)
    : M heap altsetting_result :=
  let next_altsetting u buffer size parsed :=
    if size <? LIBUSB_DT_INTERFACE_SIZE then mret (AltReturn parsed u) else
    t ← lift (rd buffer 1);
    if negb (t =? LIBUSB_DT_INTERFACE) then mret (AltReturn parsed u) else
    n ← lift (rd buffer 2);
    if negb (n =? interface_number) then mret (AltReturn parsed u) else
    mret (AltNext u interface_number buffer size parsed) in
  if 0 <? bNumEndpoints ifp then
    let n := Z.to_nat (bNumEndpoints ifp) in
    p ← malloc;
    match p with
    | None => mret (AltErr LIBUSB_ERROR_NO_MEM
        (set_ifp u (mk_ifd (if_raw ifp) (if_extra ifp) (if_extra_data ifp) (if_extra_length ifp) None [])))
    | Some b =>
        let with_eps eps :=
          mk_ifd (if_raw ifp) (if_extra ifp) (if_extra_data ifp) (if_extra_length ifp) (Some b) eps in
        r ← parse_endpoints n 0 (replicate n zero_ep) buffer size parsed host_endian;
        match r with
        | EpErr r eps => mret (AltErr r (set_ifp u (with_eps eps)))
        | EpDone eps num buffer size parsed =>
            let ifp := with_eps eps in
            let ifp := if decide (num = n) then ifp else set_bNumEndpoints (Z.of_nat num) ifp in
            next_altsetting (set_ifp u ifp) buffer size parsed
        end
    end
  else next_altsetting u buffer size parsed.

Definition parse_altsetting (u : usb_interface) (interface_number : Z) (buffer : list Z)
    (size parsed : Z) (host_endian : bool) : M heap altsetting_result :=
  altsetting ← usbi_reallocf (ui_altsetting u);
  match altsetting with
  | None => mret (AltErr LIBUSB_ERROR_NO_MEM u)
  | Some b =>
      let kept := take (Z.to_nat (num_altsetting u)) (ui_slots u) in
      '(_, raw) ← lift (usbi_parse_descriptor big buffer "bbbbbbbbb" (take 9 junk) false);
      let ifp := mk_ifd raw None [] 0 None [] in
      let u := mk_ui (Some b) (kept ++ [ifp]) (num_altsetting u) in
      if negb (bDescriptorType raw =? LIBUSB_DT_INTERFACE) then mret (AltReturn parsed u)
      else if bLength raw <? INTERFACE_DESC_LENGTH then mret (AltErr LIBUSB_ERROR_IO u)
      else if size <? bLength raw then mret (AltReturn parsed u)
      else if USB_MAXENDPOINTS <? bNumEndpoints ifp then mret (AltErr LIBUSB_ERROR_IO u)
      else
      let u := mk_ui (ui_altsetting u) (ui_slots u) (num_altsetting u + 1) in
      let interface_number :=
        if interface_number =? -1 then bInterfaceNumber ifp else interface_number in
      begin ← lift (advance buffer (bLength raw));
      r ← lift (skip_extra (S (Z.to_nat size)) begin (size - bLength raw) (parsed + bLength raw));
      match r with
      | SkipInvalid => mret (AltErr LIBUSB_ERROR_IO u)
      | SkipShort _ parsed => mret (AltReturn parsed u)
      | SkipDone buffer size parsed =>
          let len := ptr_diff buffer begin in
          if len =? 0 then
            parse_altsetting_endpoints u ifp interface_number buffer size parsed host_endian
          else
            extra ← malloc;
            match extra with
            | None => mret (AltErr LIBUSB_ERROR_NO_MEM u)
            | Some x =>
                let ifp := mk_ifd raw (Some x) (take (Z.to_nat len) begin) len None [] in
                parse_altsetting_endpoints (set_ifp u ifp) ifp interface_number
                  buffer size parsed host_endian
            end
      end
  end.

Fixpoint parse_interface_loop (fuel : nat) (u : usb_interface) (interface_number : Z)
    (buffer : list Z) (size parsed : Z) (host_endian : bool) : M heap (Z * usb_interface) :=
  match fuel with
  | O => fail OutOfFuel
  | S fuel =>
      if size <? INTERFACE_DESC_LENGTH then mret (parsed, u) else
      r ← parse_altsetting u interface_number buffer size parsed host_endian;
      match r with
      | AltReturn r u => mret (r, u)
      | AltErr r u => interface_err u r
      | AltNext u interface_number buffer size parsed =>
          parse_interface_loop fuel u interface_number buffer size parsed host_endian
      end
  end.

Definition parse_interface (u : usb_interface) (buffer : list Z) (size : Z)
    (host_endian : bool) : M heap (Z * usb_interface) :=
  parse_interface_loop (S (Z.to_nat size)) (mk_ui (ui_altsetting u) (ui_slots u) 0)
    (-1) buffer size 0 host_endian.

(** ** parse_configuration *)

Definition set_iface (c : config_descriptor) (i : nat) (u : usb_interface) : config_descriptor :=
  mk_cfg (cfg_raw c) (cfg_interface c) (<[i := u]> (cfg_interfaces c))
    (cfg_extra c) (cfg_extra_data c) (cfg_extra_length c).

Definition configuration_err (c : config_descriptor) (r : Z) : M heap (Z * config_descriptor) :=
  clear_configuration c ;; mret (r, c).

Definition parse_one_interface (c : config_descriptor) (i : nat) (buffer : list Z) (size : Z)
    (host_endian : bool) (next : config_descriptor -> list Z -> Z -> M heap (Z * config_descriptor))
    : M heap (Z * config_descriptor) :=
  match cfg_interfaces c !! i with
  | None => fail OutOfBounds
  | Some u =>
      '(r, u) ← parse_interface u buffer size host_endian;
      let c := set_iface c i u in
      if r <? 0 then configuration_err c r
      else if r =? 0 then mret (size, set_bNumInterfaces (Z.of_nat i) c)
      else
        buffer ← lift (advance buffer r);
        next c buffer (size - r)
  end.

Fixpoint parse_interfaces (n i : nat) (c : config_descriptor) (buffer : list Z) (size : Z)
    (host_endian : bool) : M heap (Z * config_descriptor) :=
  match n with
  | O => mret (size, c)
  | S n =>
      r ← lift (skip_extra (S (Z.to_nat size)) buffer size 0);
      match r with
      | SkipInvalid => configuration_err c LIBUSB_ERROR_IO
      | SkipShort size _ => mret (size, set_bNumInterfaces (Z.of_nat i) c)
      | SkipDone rest size _ =>
          let len := ptr_diff rest buffer in
          let continue c :=
            parse_one_interface c i rest size host_endian (fun c buffer size =>
              parse_interfaces n (S i) c buffer size host_endian) in
          if (len =? 0) || negb (cfg_extra_length c =? 0) then continue c
          else
            extra ← malloc;
            match extra with
            | None => configuration_err c LIBUSB_ERROR_NO_MEM
            | Some x =>
                continue (mk_cfg (cfg_raw c) (cfg_interface c) (cfg_interfaces c)
                  (Some x) (take (Z.to_nat len) buffer) len)
            end
      end
  end.

Definition parse_configuration (config : config_descriptor) (buffer : list Z) (size : Z)
    (host_endian : bool) : M heap (Z * config_descriptor) :=
  if size <? LIBUSB_DT_CONFIG_SIZE then mret (LIBUSB_ERROR_IO, config) else
  '(_, raw) ← lift (usbi_parse_descriptor big buffer "bbwbbbbb" (cfg_raw config) host_endian);
  let config := mk_cfg raw (cfg_interface config) (cfg_interfaces config)
    (cfg_extra config) (cfg_extra_data config) (cfg_extra_length config) in
  if negb (bDescriptorType raw =? LIBUSB_DT_CONFIG) then mret (LIBUSB_ERROR_IO, config)
  else if bLength raw <? LIBUSB_DT_CONFIG_SIZE then mret (LIBUSB_ERROR_IO, config)
  else if size <? bLength raw then mret (LIBUSB_ERROR_IO, config)
  else if USB_MAXINTERFACES <? bNumInterfaces config then mret (LIBUSB_ERROR_IO, config)
  else
  let n := Z.to_nat (bNumInterfaces config) in
  p ← malloc;
  match p with
  | None => mret (LIBUSB_ERROR_NO_MEM, mk_cfg raw None [] (cfg_extra config)
      (cfg_extra_data config) (cfg_extra_length config))
  | Some b =>
      buffer ← lift (advance buffer (bLength raw));
      parse_interfaces n 0 (mk_cfg raw (Some b) (replicate n zero_ui) None [] 0)
        buffer (size - bLength raw) host_endian
  end.

(** [raw_desc_to_config]: a status and, on success, the block of the new
    [struct libusb_config_descriptor] with its contents. *)
Definition raw_desc_to_config (buf : list Z) (size : Z) (host_endian : bool)
    : M heap (Z * option (nat * config_descriptor)) :=
  p ← malloc;
  match p with
  | None => mret (LIBUSB_ERROR_NO_MEM, None)
  | Some b =>
      '(r, c) ← parse_configuration (mk_cfg (take 9 junk) None [] None [] 0) buf size host_endian;
      if r <? 0 then free (Some b) ;; mret (r, None)
      else mret (LIBUSB_SUCCESS, Some (b, c))
  end.
End parse.

Definition libusb_free_config_descriptor (config : option (nat * config_descriptor)) : M heap unit :=
  match config with
  | None => mret tt
  | Some (b, c) => touch (Some b) ;; clear_configuration c ;; free (Some b)
  end.
