(* ===== verification/ConfigSafety.v ===== *)
(** * Memory safety of the configuration descriptor code

    Ownership and well-formedness of the structures [parse_configuration]
    builds, a specification of each function of Config.v in terms of the
    live blocks, and the properties that follow. *)

From S2P Require Import Prelude Heap ParseDesc Config.

(** ** Ownership *)

Definition own_ep (e : endpoint_descriptor) : gmultiset nat := own (ep_extra e).
Definition own_ifd (d : interface_descriptor) : gmultiset nat :=
  own (if_extra d) ⊎ own (if_endpoint d) ⊎ msum own_ep (if_endpoints d).
Definition own_ui (u : usb_interface) : gmultiset nat :=
  own (ui_altsetting u) ⊎ msum own_ifd (take (Z.to_nat (num_altsetting u)) (ui_slots u)).

(** ** Well-formedness *)

Definition wf_ep (e : endpoint_descriptor) : Prop :=
  length (ep_raw e) = 9%nat /\ ep_extra_length e = Z.of_nat (length (ep_extra_data e)).

(** The endpoints from [n] on are still as [calloc] left them; those below
    are endpoint descriptors. *)
Definition wf_eps (n : nat) (eps : list endpoint_descriptor) : Prop :=
  Forall wf_ep eps /\ (n <= length eps)%nat /\
  (forall j e, eps !! j = Some e -> (n <= j)%nat -> ep_extra e = None) /\
  (forall j e, eps !! j = Some e -> (j < n)%nat -> bDescriptorType (ep_raw e) = LIBUSB_DT_ENDPOINT).

(** An alternate setting of a configuration that was parsed successfully:
    it has an array with all its endpoints, or (when the descriptor is
    truncated right behind the interface descriptor) no array at all. *)
Definition wf_ifd (d : interface_descriptor) : Prop :=
  length (if_raw d) = 9%nat /\ bDescriptorType (if_raw d) = LIBUSB_DT_INTERFACE /\
  if_extra_length d = Z.of_nat (length (if_extra_data d)) /\
  0 <= bNumEndpoints d <= USB_MAXENDPOINTS /\
  match if_endpoint d with
  | None => if_endpoints d = []
  | Some _ => wf_eps (Z.to_nat (bNumEndpoints d)) (if_endpoints d)
  end.

Definition wf_ui (u : usb_interface) : Prop :=
  0 <= num_altsetting u <= Z.of_nat (length (ui_slots u)) /\
  (ui_altsetting u = None -> ui_slots u = []) /\
  Forall wf_ifd (take (Z.to_nat (num_altsetting u)) (ui_slots u)).

(** What the releasing functions rely on; it also holds half way through
    the parsing, when they run on an error. *)
Definition clr_ifd (d : interface_descriptor) : Prop :=
  match if_endpoint d with
  | None => if_endpoints d = []
  | Some _ => (Z.to_nat (bNumEndpoints d) <= length (if_endpoints d))%nat /\
      (forall j e, if_endpoints d !! j = Some e -> (Z.to_nat (bNumEndpoints d) <= j)%nat ->
        ep_extra e = None)
  end.

Definition clr_ui (u : usb_interface) : Prop :=
  match ui_altsetting u with
  | None => ui_slots u = []
  | Some _ => 0 <= num_altsetting u <= Z.of_nat (length (ui_slots u)) /\
      Forall clr_ifd (take (Z.to_nat (num_altsetting u)) (ui_slots u))
  end.

Lemma wf_ifd_clr d : wf_ifd d -> clr_ifd d.
Proof.
  unfold wf_ifd, clr_ifd. destruct (if_endpoint d); [|tauto].
  intros (_ & _ & _ & _ & (_ & ? & ? & _)). done.
Qed.
Lemma wf_ui_clr u : wf_ui u -> clr_ui u.
Proof.
  unfold clr_ui. intros (? & Hnone & ?). destruct (ui_altsetting u); [|by apply Hnone].
  split; [done|]. eapply Forall_impl; [done|]. apply wf_ifd_clr.
Qed.
#[export] Hint Resolve wf_ifd_clr wf_ui_clr : core.

(** ** Releasing *)

Lemma for_array_wp {A} (own_x : A -> gmultiset nat) (f : A -> M heap unit) b a n h F :
  (Z.to_nat n <= length a)%nat ->
  (forall x h G, x ∈ take (Z.to_nat n) a -> live h = own_x x ⊎ G ->
     wp (f x) h (fun _ h' => live h' = G /\ same_oracles h h')) ->
  live h = {[+ b +]} ⊎ msum own_x (take (Z.to_nat n) a) ⊎ F ->
  wp (for_array (Some b) a n f) h (fun _ h' => live h' = {[+ b +]} ⊎ F /\ same_oracles h h').
Proof.
  intros Hn Hf HF. unfold for_array. apply wp_bind.
  eapply wp_lift; [unfold rd_n; by rewrite decide_True|].
  revert Hf HF. generalize (take (Z.to_nat n) a) as l. intros l Hf HF.
  eapply wp_mono; [apply (wp_for_each _ (fun l' h' =>
    (forall x, x ∈ l' -> x ∈ l) /\ live h' = {[+ b +]} ⊎ msum own_x l' ⊎ F /\ same_oracles h h'))|].
  - split_and!; done.
  - intros x l' h' (Hin & Hl' & Ho). simpl in Hl'. apply wp_bind.
    eapply touch_wp; [by rewrite Hl'; rewrite <- (assoc_L (⊎))|].
    eapply wp_mono; [apply (Hf x h' ({[+ b +]} ⊎ msum own_x l' ⊎ F))|].
    + apply Hin. set_solver.
    + rewrite Hl'. multiset_solver.
    + intros [] h'' [Hlive Ho']. split_and!; [set_solver|done|by etrans].
  - intros [] h' (_ & Hl & Ho). split; [|done]. rewrite Hl. simpl. multiset_solver.
Qed.

Lemma msum_own_eps_take n eps :
  (forall j e, eps !! j = Some e -> (n <= j)%nat -> ep_extra e = None) ->
  msum own_ep eps = msum own_ep (take n eps).
Proof.
  intros Hn. rewrite (msum_take_drop _ n eps).
  rewrite (msum_empty _ (drop n eps)); [multiset_solver|].
  intros e [j Hj]%list_elem_of_lookup. rewrite lookup_drop in Hj.
  unfold own_ep. by rewrite (Hn (n + j)%nat e) by (done || lia).
Qed.

Lemma clear_altsetting_wp d h F :
  clr_ifd d -> live h = own_ifd d ⊎ F ->
  wp (clear_altsetting d) h (fun _ h' => live h' = F /\ same_oracles h h').
Proof.
  intros Hclr HF. unfold clear_altsetting, own_ifd, clr_ifd in *.
  apply wp_bind, (free_wp _ _ (own (if_endpoint d) ⊎ msum own_ep (if_endpoints d) ⊎ F));
    [rewrite HF; multiset_solver|].
  intros h1 Hh1 Ho1. apply wp_bind.
  destruct (if_endpoint d) as [b|] eqn:Hb.
  - destruct Hclr as [Hle Hrest]. rewrite (msum_own_eps_take _ _ Hrest) in Hh1.
    eapply wp_mono; [apply (for_array_wp own_ep); [done| |exact Hh1]|].
    + intros e h' G _ HG. apply (free_wp _ _ G); [done|]. auto.
    + intros [] h2 [Hh2 Ho2]. apply (free_wp _ _ F); [done|].
      intros h3 Hh3 Ho3. split; [done|]. by etrans; [|etrans].
  - rewrite Hclr in *. apply wp_ret, (free_wp _ _ F).
    + rewrite Hh1. simpl. multiset_solver.
    + intros h3 Hh3 Ho3. split; [done|]. by etrans.
Qed.

Lemma clear_interface_wp u h F :
  clr_ui u -> live h = own_ui u ⊎ F ->
  wp (clear_interface u) h (fun u' h' => u' = mk_ui None [] (num_altsetting u) /\
    live h' = F /\ same_oracles h h').
Proof.
  intros Hclr HF. unfold clear_interface, own_ui, clr_ui in *. apply wp_bind.
  destruct (ui_altsetting u) as [b|].
  - destruct Hclr as [Hn Hwf].
    eapply wp_mono; [apply (for_array_wp own_ifd); [lia| |by rewrite HF]|].
    + intros d h' G Hd HG. apply clear_altsetting_wp; [|done].
      by eapply Forall_forall in Hd.
    + intros [] h1 [Hh1 Ho1]. apply wp_bind, (free_wp _ _ F); [done|].
      intros h2 Hh2 Ho2. apply wp_ret. split_and!; [done..|]. by etrans.
  - apply wp_ret, wp_bind, (free_wp _ _ F).
    + rewrite HF, Hclr, take_nil. simpl. multiset_solver.
    + intros h2 Hh2 Ho2. by apply wp_ret.
Qed.

(** ** Reading the packed parts *)

Lemma list_len9 (l : list Z) : (9 <= length l)%nat ->
  exists b0 b1 b2 b3 b4 b5 b6 b7 b8 r, l = [b0;b1;b2;b3;b4;b5;b6;b7;b8] ++ r.
Proof.
  intros H. do 9 (destruct l as [|? l]; [simpl in H; lia|]). by repeat eexists.
Qed.

(** A word of the bus as it lies in the host structure. *)
Definition bus_word (big host_endian : bool) (bs : list Z) : list Z :=
  if host_endian then bs
  else host_bytes big 2 (Z.lor (Z.shiftl (nth 1%nat bs 0) 8) (nth 0%nat bs 0)).

Lemma bus_word_length big he bs : length bs = 2%nat -> length (bus_word big he bs) = 2%nat.
Proof. intros H. destruct he; [done|]. apply host_bytes_length. Qed.

Section specs.
Context (big : bool) (junk : list Z) (Hjunk : (9 <= length junk)%nat).

Lemma read_header_eq buffer : (2 <= length buffer)%nat ->
  read_header big junk buffer = Ok (take 2 buffer).
Proof.
  intros Hb. destruct (list_len9 junk Hjunk) as (?&?&?&?&?&?&?&?&?&?&->).
  destruct buffer as [|b0 [|b1 buffer]]; simpl in Hb; try lia. reflexivity.
Qed.

Lemma parse_9b buffer : (9 <= length buffer)%nat ->
  usbi_parse_descriptor big buffer "bbbbbbbbb" (take 9 junk) false = Ok (9, take 9 buffer).
Proof.
  intros Hb. destruct (list_len9 junk Hjunk) as (?&?&?&?&?&?&?&?&?&?&->).
  destruct (list_len9 buffer Hb) as (?&?&?&?&?&?&?&?&?&?&->). reflexivity.
Qed.

Lemma parse_config_raw buffer raw he : (9 <= length buffer)%nat -> length raw = 9%nat ->
  usbi_parse_descriptor big buffer "bbwbbbbb" raw he
    = Ok (9, take 2 buffer ++ bus_word big he (take 2 (drop 2 buffer)) ++ take 5 (drop 4 buffer)).
Proof. clear Hjunk.
  intros Hb Hr. destruct (list_len9 raw) as (?&?&?&?&?&?&?&?&?&r&->); [lia|].
  destruct r; [|done].
  destruct (list_len9 buffer Hb) as (?&?&?&?&?&?&?&?&?&?&->). by destruct he, big.
Qed.

Lemma parse_ep_long buffer raw he : (9 <= length buffer)%nat -> length raw = 9%nat ->
  usbi_parse_descriptor big buffer "bbbbwbbb" raw he
    = Ok (9, take 4 buffer ++ bus_word big he (take 2 (drop 4 buffer)) ++ take 3 (drop 6 buffer)).
Proof. clear Hjunk.
  intros Hb Hr. destruct (list_len9 raw) as (?&?&?&?&?&?&?&?&?&r&->); [lia|].
  destruct r; [|done].
  destruct (list_len9 buffer Hb) as (?&?&?&?&?&?&?&?&?&?&->). by destruct he, big.
Qed.

Lemma parse_ep_short buffer raw he : (7 <= length buffer)%nat -> length raw = 9%nat ->
  usbi_parse_descriptor big buffer "bbbbwb" raw he
    = Ok (7, take 4 buffer ++ bus_word big he (take 2 (drop 4 buffer)) ++ take 1 (drop 6 buffer)
             ++ drop 7 raw).
Proof. clear Hjunk.
  intros Hb Hr. destruct (list_len9 raw) as (?&?&?&?&?&?&?&?&?&r&->); [lia|].
  destruct r; [|done].
  do 7 (destruct buffer as [|? buffer]; [simpl in Hb; lia|]). by destruct he, big.
Qed.

Lemma advance_eq buf n : 0 <= n <= Z.of_nat (length buf) ->
  advance buf n = Ok (drop (Z.to_nat n) buf).
Proof. clear Hjunk. intros H. unfold advance. by rewrite decide_True. Qed.

Lemma nth_byte i l : is_bytes l -> 0 <= nth i l 0 < 256.
Proof. clear Hjunk.
  intros Hl. destruct (decide (i < length l)%nat) as [Hi|Hi].
  - eapply (proj1 (Forall_forall _ _) Hl), list_elem_of_In, nth_In, Hi.
  - rewrite nth_overflow; lia.
Qed.

(** ** Skipping *)

Definition skip_spec (buffer : list Z) (size parsed : Z) (r : skipped) : Prop :=
  match r with
  | SkipInvalid => True
  | SkipShort s p => 0 <= s <= size /\ p + s = parsed + size
  | SkipDone b s p => exists k, 0 <= k <= size /\ b = drop (Z.to_nat k) buffer /\
      s = size - k /\ p = parsed + k
  end.

Lemma skip_extra_ok fuel buffer size parsed :
  is_bytes buffer -> 0 <= size <= Z.of_nat (length buffer) -> size < Z.of_nat fuel ->
  exists r, skip_extra big junk fuel buffer size parsed = Ok r /\ skip_spec buffer size parsed r.
Proof.
  revert buffer size parsed. induction fuel as [|fuel IH]; intros buffer size parsed Hb Hs Hf; [lia|].
  cbn [skip_extra].
  destruct (Z.ltb_spec size DESC_HEADER_LENGTH) as [Hlt|Hge].
  { eexists; split; [done|]. exists 0. rewrite drop_0. split_and!; lia || done. }
  unfold DESC_HEADER_LENGTH in *. rewrite read_header_eq by lia. cbn [mbind outcome_bind].
  set (hd := take 2 buffer). assert (is_bytes hd) as Hhd by (by apply is_bytes_take).
  pose proof (nth_byte 0 _ Hhd) as Hlen. fold (bLength hd) in Hlen.
  destruct (Z.ltb_spec (bLength hd) 2); [by eexists|].
  destruct (Z.ltb_spec size (bLength hd)).
  { eexists; split; [done|]. simpl. lia. }
  destruct (is_proper (bDescriptorType hd)).
  { eexists; split; [done|]. exists 0. rewrite drop_0. split_and!; lia || done. }
  rewrite advance_eq by lia. cbn [mbind outcome_bind].
  destruct (IH (drop (Z.to_nat (bLength hd)) buffer) (size - bLength hd) (parsed + bLength hd))
    as (r & -> & Hr); [by apply is_bytes_drop|rewrite length_drop; lia|lia|].
  exists r. split; [done|]. destruct r as [| s p | b s p]; simpl in *; [done|lia|].
  destruct Hr as (k & Hk & -> & -> & ->). exists (bLength hd + k).
  rewrite drop_drop. split_and!; try lia. f_equal. lia.
Qed.

(** ** parse_endpoint *)

Definition parse_error (r : Z) : Prop := r = LIBUSB_ERROR_IO \/ r = LIBUSB_ERROR_NO_MEM.

Definition ep_post (F : gmultiset nat) (ep : endpoint_descriptor) (size : Z)
    (r : Z) (ep' : endpoint_descriptor) (h' : heap) : Prop :=
  live h' = own_ep ep' ⊎ F /\ wf_ep ep' /\
  (r < 0 -> parse_error r /\ ep_extra ep' = None) /\
  (r = 0 -> ep_extra ep' = None) /\
  (0 < r -> r <= size /\ bDescriptorType (ep_raw ep') = LIBUSB_DT_ENDPOINT).

Lemma parse_endpoint_tail h F ep raw buffer size len :
  is_bytes buffer -> 0 < len <= size -> size <= Z.of_nat (length buffer) ->
  wf_ep ep -> ep_extra ep = None -> live h = F ->
  length raw = 9%nat -> bDescriptorType raw = LIBUSB_DT_ENDPOINT ->
  wp (begin ← lift (advance buffer len);
      r ← lift (skip_extra big junk (S (Z.to_nat size)) begin (size - len) len);
      match r with
      | SkipInvalid =>
          mret (LIBUSB_ERROR_IO, mk_ep raw (ep_extra ep) (ep_extra_data ep) (ep_extra_length ep))
      | SkipShort _ parsed =>
          mret (parsed, mk_ep raw (ep_extra ep) (ep_extra_data ep) (ep_extra_length ep))
      | SkipDone buffer _ parsed =>
          let len := ptr_diff buffer begin in
          if len =? 0 then mret (parsed, mk_ep raw None [] 0) else
          extra ← malloc;
          match extra with
          | None => mret (LIBUSB_ERROR_NO_MEM, mk_ep raw None [] 0)
          | Some b => mret (parsed, mk_ep raw (Some b) (take (Z.to_nat len) begin) len)
          end
      end) h
    (fun '(r, ep') h' => ep_post F ep size r ep' h' /\ same_oracles h h').
Proof.
  intros Hb Hlen Hsize [Hraw0 Hex] Hnone HF Hraw Hty.
  apply wp_bind. eapply wp_lift; [by apply advance_eq; lia|].
  apply wp_bind. edestruct (skip_extra_ok (S (Z.to_nat size)) (drop (Z.to_nat len) buffer)
    (size - len) len) as (r & Hr & Hspec);
    [by apply is_bytes_drop|rewrite length_drop; lia|lia|].
  eapply wp_lift; [exact Hr|]. unfold ep_post, own_ep, wf_ep.
  destruct r as [| s p | b s p]; simpl in Hspec.
  - apply wp_ret. simpl. rewrite Hnone, HF. unfold parse_error, LIBUSB_ERROR_IO.
    split_and!; (done || lia || auto || multiset_solver).
  - apply wp_ret. simpl. rewrite Hnone, HF. split_and!; (done || lia || multiset_solver).
  - destruct Hspec as (k & Hk & -> & -> & ->). cbv zeta.
    assert (ptr_diff (drop (Z.to_nat k) (drop (Z.to_nat len) buffer)) (drop (Z.to_nat len) buffer) = k)
      as -> by (unfold ptr_diff; rewrite !length_drop; lia).
    destruct (Z.eqb_spec k 0).
    + apply wp_ret. simpl. rewrite HF. split_and!; (done || lia || multiset_solver).
    + apply wp_bind, (malloc_wp _ F); [done|]. intros [x|] h' Hl Ho; apply wp_ret; simpl in *.
      * rewrite length_take, length_drop. split_and!; try (done || lia).
      * rewrite Hl. unfold parse_error, LIBUSB_ERROR_NO_MEM.
        split_and!; try (done || lia || multiset_solver).
Qed.

Lemma bDescriptorType_take n l : (2 <= n)%nat -> bDescriptorType (take n l) = bDescriptorType l.
Proof. clear Hjunk. destruct n as [|[|n]]; [lia..|]. by destruct l as [|? [|? l]]. Qed.
Lemma bLength_take n l : (1 <= n)%nat -> bLength (take n l) = bLength l.
Proof. clear Hjunk. destruct n as [|n]; [lia|]. by destruct l as [|? l]. Qed.

Lemma parse_endpoint_wp ep buffer size he h F :
  is_bytes buffer -> 0 <= size <= Z.of_nat (length buffer) ->
  wf_ep ep -> ep_extra ep = None -> live h = F ->
  wp (parse_endpoint big junk ep buffer size he) h
    (fun '(r, ep') h' => ep_post F ep size r ep' h' /\ same_oracles h h').
Proof.
  intros Hb Hsize Hep Hnone HF. unfold parse_endpoint.
  assert (forall r, parse_error r \/ r = 0 -> ep_post F ep size r ep h) as Hsame.
  { intros r Hr. unfold ep_post, own_ep. rewrite Hnone, HF.
    unfold parse_error, LIBUSB_ERROR_IO, LIBUSB_ERROR_NO_MEM in *.
    split_and!; try (done || lia || multiset_solver); intros; split; (done || lia). }
  destruct (Z.ltb_spec size DESC_HEADER_LENGTH) as [|Hge].
  { apply wp_ret. split; [|done]. apply Hsame. unfold parse_error. auto. }
  unfold DESC_HEADER_LENGTH in Hge.
  apply wp_bind. eapply wp_lift; [by apply read_header_eq; lia|].
  rewrite bDescriptorType_take, bLength_take by lia.
  pose proof (nth_byte 0 _ Hb) as Hlen. fold (bLength buffer) in Hlen.
  destruct (Z.eqb_spec (bDescriptorType buffer) LIBUSB_DT_ENDPOINT) as [Hty|]; simpl negb; cbv iota;
    [|by apply wp_ret; split; [apply Hsame; auto|]].
  destruct (Z.ltb_spec size (bLength buffer)); [by apply wp_ret; split; [apply Hsame; auto|]|].
  cbv zeta. unfold ENDPOINT_AUDIO_DESC_LENGTH, ENDPOINT_DESC_LENGTH.
  destruct Hep as [Hraw Hex].
  destruct (Z.leb_spec 9 (bLength buffer)) as [H9|]; [|destruct (Z.leb_spec 7 (bLength buffer)) as [H7|]].
  - apply wp_bind. eapply wp_lift; [by apply parse_ep_long; [lia|done]|].
    apply (parse_endpoint_tail h F ep _ buffer size (bLength buffer)); try done; try lia.
    + rewrite !length_app, !length_take, !length_drop, bus_word_length; [lia|].
      rewrite length_take, length_drop. lia.
    + by rewrite <- Hty; destruct buffer as [|? [|? [|? [|? ?]]]].
  - apply wp_bind. eapply wp_lift; [by apply parse_ep_short; [lia|done]|].
    apply (parse_endpoint_tail h F ep _ buffer size (bLength buffer)); try done; try lia.
    + rewrite !length_app, !length_take, !length_drop, bus_word_length; [lia|].
      rewrite length_take, length_drop. lia.
    + by rewrite <- Hty; destruct buffer as [|? [|? [|? [|? ?]]]].
  - apply wp_ret. split; [|done]. apply Hsame. unfold parse_error. auto.
Qed.

(** ** The endpoints of an alternate setting *)

Lemma wf_eps_insert n eps i ep e :
  wf_eps n eps -> eps !! i = Some ep -> i = n -> wf_ep e ->
  bDescriptorType (ep_raw e) = LIBUSB_DT_ENDPOINT -> wf_eps (S n) (<[i := e]> eps).
Proof. clear Hjunk.
  intros (Hwf & Hn & Hrest & Hty) Hi -> He Het.
  pose proof (lookup_lt_Some _ _ _ Hi) as Hlt. split_and!.
  - by apply Forall_insert.
  - rewrite length_insert. lia.
  - intros j e' Hj Hle. rewrite list_lookup_insert_ne in Hj by lia. apply (Hrest j); [done|lia].
  - intros j e' Hj Hle. destruct (decide (j = n)) as [->|].
    + rewrite list_lookup_insert_eq in Hj by done. by simplify_eq.
    + rewrite list_lookup_insert_ne in Hj by lia. apply (Hty j); [done|lia].
Qed.

(** An unused slot may be overwritten by another unused one. *)
Lemma wf_eps_insert_unused n eps i e :
  wf_eps n eps -> (n <= i)%nat -> wf_ep e -> ep_extra e = None -> wf_eps n (<[i := e]> eps).
Proof. clear Hjunk.
  intros (Hwf & Hn & Hrest & Hty) Hi He Hnone. split_and!.
  - destruct (decide (i < length eps)%nat); [by apply Forall_insert|].
    by rewrite list_insert_ge by lia.
  - rewrite length_insert. lia.
  - intros j e' Hj Hle. destruct (decide (i = j)) as [<-|].
    + pose proof (lookup_lt_Some _ _ _ Hj) as Hlt. rewrite length_insert in Hlt.
      rewrite list_lookup_insert_eq in Hj by done. by simplify_eq.
    + rewrite list_lookup_insert_ne in Hj by done. by apply (Hrest j).
  - intros j e' Hj Hle. rewrite list_lookup_insert_ne in Hj by lia. by apply (Hty j).
Qed.

Lemma own_eps_insert eps i ep e :
  eps !! i = Some ep -> ep_extra ep = None ->
  msum own_ep (<[i := e]> eps) = own_ep e ⊎ msum own_ep eps.
Proof. clear Hjunk.
  intros Hi Hnone. pose proof (msum_insert own_ep eps i ep e Hi) as Heq.
  unfold own_ep in Heq at 1. rewrite Hnone in Heq. rewrite <- Heq. simpl. multiset_solver.
Qed.

Definition eps_post (F : gmultiset nat) (total : nat) (buffer : list Z) (size parsed : Z)
    (r : endpoints_result) (h' : heap) : Prop :=
  match r with
  | EpErr r eps => parse_error r /\ length eps = total /\
      (exists n, wf_eps n eps) /\ live h' = msum own_ep eps ⊎ F
  | EpDone eps num b s p => length eps = total /\ wf_eps num eps /\
      live h' = msum own_ep eps ⊎ F /\
      exists k, 0 <= k <= size /\ b = drop (Z.to_nat k) buffer /\ s = size - k /\ p = parsed + k
  end.

Lemma parse_endpoints_wp n i eps buffer size parsed he h F :
  is_bytes buffer -> 0 <= size <= Z.of_nat (length buffer) ->
  (i + n = length eps)%nat -> wf_eps i eps -> live h = msum own_ep eps ⊎ F ->
  wp (parse_endpoints big junk n i eps buffer size parsed he) h
    (fun r h' => eps_post F (length eps) buffer size parsed r h' /\ same_oracles h h').
Proof.
  revert i eps buffer size parsed h. induction n as [|n IH];
    intros i eps buffer size parsed h Hb Hsize Hi Hwf HF; cbn [parse_endpoints].
  { apply wp_ret. split; [|done]. simpl. split_and!; try done.
    exists 0. rewrite drop_0. split_and!; done || lia. }
  destruct (lookup_lt_is_Some_2 eps i) as [ep Hep]; [lia|]. rewrite Hep.
  assert (ep_extra ep = None) as Hnone by (by apply (proj1 (proj2 (proj2 Hwf)) i ep)).
  assert (wf_ep ep) as Hwfep by (by eapply Forall_lookup_1 in Hep; [|apply Hwf]).
  apply wp_bind. eapply wp_mono; [by apply (parse_endpoint_wp ep buffer size he h (msum own_ep eps ⊎ F))|].
  intros [r ep'] h1 [(Hl1 & Hwf1 & Herr & Hz & Hpos) Ho1]. simpl in Hl1.
  assert (live h1 = msum own_ep (<[i := ep']> eps) ⊎ F) as Hl1'.
  { rewrite Hl1, (own_eps_insert _ _ ep) by done. multiset_solver. }
  destruct (Z.ltb_spec r 0) as [Hr|Hr]; [|destruct (Z.eqb_spec r 0) as [Hr0|Hr0]].
  - apply wp_ret. split; [|done]. destruct (Herr Hr) as [? Hx]. simpl. rewrite length_insert.
    split_and!; try done. exists i. by apply wf_eps_insert_unused.
  - apply wp_ret. split; [|done]. simpl. rewrite length_insert. split_and!; try done.
    + apply wf_eps_insert_unused; auto.
    + exists 0. rewrite drop_0. split_and!; done || lia.
  - destruct Hpos as [Hle Hty]; [lia|]. apply wp_bind.
    eapply wp_lift; [by apply advance_eq; lia|].
    eapply wp_mono; [apply (IH (S i))|].
    + by apply is_bytes_drop.
    + rewrite length_drop. lia.
    + rewrite length_insert. lia.
    + by eapply wf_eps_insert.
    + done.
    + intros res h2 [Hpost Ho2]. split; [|by etrans].
      rewrite length_insert in Hpost. destruct res as [|eps' num b s p]; [done|].
      destruct Hpost as (? & ? & ? & k & Hk & -> & -> & ->).
      simpl. split_and!; try done. exists (r + k). rewrite drop_drop.
      split_and!; try lia. f_equal. lia.
Qed.

(** ** One alternate setting *)

(** All slots but the last are complete altsettings; [ifp] is the last
    slot, of which the block holds the bytes only. *)
Definition partial_ui (u : usb_interface) (ifp : interface_descriptor) : Prop :=
  exists b kept, u = mk_ui (Some b) (kept ++ [ifp]) (Z.of_nat (length kept) + 1) /\
    Forall wf_ifd kept.

Lemma set_ifp_partial u ifp ifp' :
  partial_ui u ifp -> partial_ui (set_ifp u ifp') ifp'.
Proof. clear Hjunk.
  intros (b & kept & -> & Hwf). exists b, kept. split; [|done].
  unfold set_ifp. cbn [ui_altsetting ui_slots num_altsetting]. rewrite length_app.
  simpl length. replace (pred (length kept + 1)) with (length kept) by lia.
  by rewrite insert_app_r_alt, Nat.sub_diag by lia.
Qed.

Lemma partial_ui_own u ifp : partial_ui u ifp ->
  own_ui u = own (ui_altsetting u) ⊎ msum own_ifd (removelast (ui_slots u)) ⊎ own_ifd ifp.
Proof. clear Hjunk.
  intros (b & kept & -> & _). unfold own_ui. simpl.
  rewrite removelast_last, take_ge by (rewrite length_app; simpl; lia).
  rewrite msum_app. simpl. multiset_solver.
Qed.

Lemma set_ifp_own u ifp ifp' : partial_ui u ifp ->
  own_ui (set_ifp u ifp') ⊎ own_ifd ifp = own_ui u ⊎ own_ifd ifp'.
Proof. clear Hjunk.
  intros Hp. rewrite (partial_ui_own _ _ Hp), (partial_ui_own _ _ (set_ifp_partial _ _ ifp' Hp)).
  destruct Hp as (b & kept & -> & _). unfold set_ifp. cbn [ui_altsetting ui_slots].
  rewrite length_app. simpl length. replace (pred (length kept + 1)) with (length kept) by lia.
  rewrite insert_app_r_alt, Nat.sub_diag by lia. cbn [list_insert insert].
  rewrite !removelast_last. multiset_solver.
Qed.

(** The slots before the last one are complete, so that a property of the
    last one makes the whole array clearable, or well formed. *)
Lemma partial_ui_clr u ifp : partial_ui u ifp -> clr_ifd ifp -> clr_ui u.
Proof. clear Hjunk.
  intros (b & kept & -> & Hwf) Hifp. split_and!; cbn [num_altsetting ui_slots ui_altsetting].
  - lia.
  - rewrite length_app. simpl. lia.
  - rewrite take_ge by (rewrite length_app; simpl; lia). apply Forall_app. split; [|auto].
    eapply Forall_impl; [done|auto].
Qed.

Lemma partial_ui_wf u ifp : partial_ui u ifp -> wf_ifd ifp -> wf_ui u.
Proof. clear Hjunk.
  intros (b & kept & -> & Hwf) Hifp. split_and!; cbn [num_altsetting ui_slots ui_altsetting].
  - lia.
  - rewrite length_app. simpl. lia.
  - done.
  - rewrite take_ge by (rewrite length_app; simpl; lia). apply Forall_app. auto.
Qed.

(** What a turn of the loop leaves, from [buffer], [size] and [parsed]. *)
Definition alt_post (F : gmultiset nat) (kmin n0 : Z) (buffer : list Z) (size parsed : Z)
    (r : altsetting_result) (h' : heap) : Prop :=
  match r with
  | AltReturn r u => wf_ui u /\ live h' = own_ui u ⊎ F /\ parsed <= r <= parsed + size /\
      (r = parsed -> num_altsetting u = n0)
  | AltErr r u => clr_ui u /\ live h' = own_ui u ⊎ F /\ parse_error r
  | AltNext u n b s p => wf_ui u /\ live h' = own_ui u ⊎ F /\
      exists k, kmin <= k <= size /\ b = drop (Z.to_nat k) buffer /\ s = size - k /\ p = parsed + k
  end.

Lemma rd_lookup buf i : 0 <= i < Z.of_nat (length buf) -> exists b, rd buf i = Ok b.
Proof. clear Hjunk.
  intros Hi. unfold rd. rewrite (proj2 (Z.ltb_ge _ _)) by lia.
  destruct (lookup_lt_is_Some_2 buf (Z.to_nat i)) as [b ->]; [lia|]. by exists b.
Qed.

Lemma next_altsetting_wp kmin n0 u n buffer0 size0 parsed0 k h F :
  0 < kmin <= k -> k <= size0 -> size0 <= Z.of_nat (length buffer0) ->
  wf_ui u -> live h = own_ui u ⊎ F ->
  let buffer := drop (Z.to_nat k) buffer0 in
  let size := size0 - k in
  let parsed := parsed0 + k in
  wp (if size <? LIBUSB_DT_INTERFACE_SIZE then mret (AltReturn parsed u) else
      t ← lift (rd buffer 1);
      if negb (t =? LIBUSB_DT_INTERFACE) then mret (AltReturn parsed u) else
      m ← lift (rd buffer 2);
      if negb (m =? n) then mret (AltReturn parsed u) else
      mret (AltNext u n buffer size parsed)) h
    (fun r h' => alt_post F kmin n0 buffer0 size0 parsed0 r h' /\ same_oracles h h').
Proof. clear Hjunk.
  intros Hmin Hk Hsize Hwf HF buffer size parsed.
  assert (alt_post F kmin n0 buffer0 size0 parsed0 (AltReturn parsed u) h) as Hret
    by (subst parsed; conj3; [done|done|lia]).
  destruct (Z.ltb_spec size LIBUSB_DT_INTERFACE_SIZE) as [|Hge]; [by apply wp_ret|].
  unfold LIBUSB_DT_INTERFACE_SIZE in Hge.
  assert (9 <= Z.of_nat (length buffer)) as Hlen by (subst buffer size; rewrite length_drop; lia).
  destruct (rd_lookup buffer 1) as [t Ht]; [lia|].
  apply wp_bind. eapply wp_lift; [done|].
  destruct (negb (t =? LIBUSB_DT_INTERFACE)); [by apply wp_ret|].
  destruct (rd_lookup buffer 2) as [m Hm]; [lia|].
  apply wp_bind. eapply wp_lift; [done|].
  destruct (negb (m =? n)); [by apply wp_ret|].
  apply wp_ret. split; [|done]. split_and!; try done. exists k. split_and!; done || lia.
Qed.

Lemma set_ifp_own_add u ifp ifp' X : partial_ui u ifp ->
  own_ifd ifp' = own_ifd ifp ⊎ X -> own_ui (set_ifp u ifp') = own_ui u ⊎ X.
Proof. clear Hjunk.
  intros Hp HX. pose proof (set_ifp_own u ifp ifp' Hp) as Heq. rewrite HX in Heq.
  multiset_solver.
Qed.

Lemma set_bNumEndpoints_wf d num b :
  length (if_raw d) = 9%nat -> bDescriptorType (if_raw d) = LIBUSB_DT_INTERFACE ->
  if_extra_length d = Z.of_nat (length (if_extra_data d)) ->
  Z.of_nat num <= USB_MAXENDPOINTS -> wf_eps num (if_endpoints d) ->
  if_endpoint d = Some b -> wf_ifd (set_bNumEndpoints (Z.of_nat num) d).
Proof. clear Hjunk.
  intros Hl Hty Hex Hnum Heps Hb. unfold USB_MAXENDPOINTS in *.
  assert (bNumEndpoints (set_bNumEndpoints (Z.of_nat num) d) = Z.of_nat num) as Hn.
  { unfold bNumEndpoints, set_bNumEndpoints. cbn [if_raw].
    rewrite u8_small by lia. apply nth_lookup_Some, list_lookup_insert_eq. lia. }
  unfold wf_ifd. rewrite Hn, Nat2Z.id. unfold set_bNumEndpoints. cbn [if_raw if_extra_length
    if_extra_data if_endpoint if_endpoints]. rewrite length_insert, Hb.
  split; [done|]. split; [|split; [done|split; [unfold USB_MAXENDPOINTS; lia|done]]].
  rewrite <- Hty. unfold bDescriptorType. destruct (if_raw d) as [|? [|? l]]; done.
Qed.

Lemma wf_eps_zero n : wf_eps 0 (replicate n zero_ep).
Proof. clear Hjunk.
  split; [by apply Forall_replicate|]. split; [lia|]. split; [|lia].
  intros j e [-> _]%lookup_replicate _. done.
Qed.

Lemma own_eps_zero n : msum own_ep (replicate n zero_ep) = ∅.
Proof. clear Hjunk. apply msum_empty. intros e He. apply list_elem_of_lookup in He as [j [-> _]%lookup_replicate]. done. Qed.

Lemma parse_altsetting_endpoints_wp kmin n0 u ifp n buffer0 size0 parsed0 k he h F :
  is_bytes buffer0 -> 0 < kmin <= k -> k <= size0 -> size0 <= Z.of_nat (length buffer0) ->
  partial_ui u ifp -> wf_ifd ifp -> if_endpoint ifp = None -> live h = own_ui u ⊎ F ->
  wp (parse_altsetting_endpoints big junk u ifp n (drop (Z.to_nat k) buffer0) (size0 - k)
        (parsed0 + k) he) h
    (fun r h' => alt_post F kmin n0 buffer0 size0 parsed0 r h' /\ same_oracles h h').
Proof.
  intros Hb Hmin Hk Hsize Hp Hwf Hnone HF. unfold parse_altsetting_endpoints. cbv zeta.
  destruct (Z.ltb_spec 0 (bNumEndpoints ifp)) as [Hpos|Hzero];
    [|by apply (next_altsetting_wp kmin n0); eauto using partial_ui_wf].
  pose proof Hwf as (Hraw & Hty & Hex & Hmax & Hnil). rewrite Hnone in Hnil.
  apply wp_bind, (malloc_wp _ (own_ui u ⊎ F)); [done|]. intros [b|] h1 Hl1 Ho1; simpl in Hl1.
  2:{ apply wp_ret. split; [|done]. split_and!.
    - eapply partial_ui_clr; [by apply set_ifp_partial with (ifp := ifp)|done].
    - rewrite (set_ifp_own_add _ ifp _ ∅ Hp), Hl1; [multiset_solver|].
      unfold own_ifd. rewrite Hnone, Hnil. simpl. multiset_solver.
    - by right. }
  set (cnt := Z.to_nat (bNumEndpoints ifp)) in *. apply wp_bind.
  eapply wp_mono; [apply (parse_endpoints_wp cnt 0 _ _ _ _ he h1 (own_ui u ⊎ {[+ b +]} ⊎ F))|].
  - by apply is_bytes_drop.
  - rewrite length_drop. lia.
  - by rewrite length_replicate.
  - apply wf_eps_zero.
  - rewrite own_eps_zero, Hl1. multiset_solver.
  - assert (forall eps, own_ifd (mk_ifd (if_raw ifp) (if_extra ifp) (if_extra_data ifp)
      (if_extra_length ifp) (Some b) eps) = own_ifd ifp ⊎ ({[+ b +]} ⊎ msum own_ep eps)) as Hown
      by (intros; unfold own_ifd; rewrite Hnone, Hnil; simpl; multiset_solver).
    intros [r eps|eps num bf s p] h2 [Hpost Ho2]; rewrite length_replicate in Hpost;
      (assert (same_oracles h h2) as Ho by (by etrans)).
    + destruct Hpost as (Hr & Hlen & _ & Hl2). apply wp_ret. split; [|done]. split_and!.
      * eapply partial_ui_clr; [by apply set_ifp_partial with (ifp := ifp)|].
        unfold clr_ifd; simpl. split; [by subst cnt; rewrite Hlen|].
        intros j e Hj%lookup_lt_Some. unfold bNumEndpoints in *. simpl in *. lia.
      * rewrite (set_ifp_own_add _ ifp _ _ Hp (Hown eps)), Hl2. multiset_solver.
      * done.
    + destruct Hpost as (Hlen & Heps & Hl2 & k' & Hk' & -> & -> & ->). rewrite drop_drop.
      assert (num <= cnt)%nat as Hnum by (rewrite <- Hlen; apply Heps).
      set (ifp' := if decide (num = cnt) then _ else _).
      assert (wf_ifd ifp') as Hwf'.
      { subst ifp'. case_decide as Hd.
        - unfold wf_ifd. cbn. split; [done|]. split; [done|]. split; [done|]. split; [done|].
          unfold bNumEndpoints in *. simpl in *. fold cnt. by rewrite <- Hd.
        - eapply (set_bNumEndpoints_wf _ _ b); try done. unfold USB_MAXENDPOINTS in *. lia. }
      assert (own_ifd ifp' = own_ifd ifp ⊎ ({[+ b +]} ⊎ msum own_ep eps)) as Hown'
        by (subst ifp'; rewrite <- Hown; by case_decide).
      replace (Z.to_nat k + Z.to_nat k')%nat with (Z.to_nat (k + k')) by lia.
      rewrite <- Z.sub_add_distr, <- Z.add_assoc.
      eapply wp_mono; [apply (next_altsetting_wp kmin n0 _ _ _ _ _ _ _ F); [lia|lia|done| |]|].
      * eapply partial_ui_wf; [by apply set_ifp_partial with (ifp := ifp)|done].
      * rewrite (set_ifp_own_add _ ifp _ _ Hp Hown'), Hl2. multiset_solver.
      * intros r h3 [Hr Ho3]. split; [done|by etrans].
Qed.

(** ** One turn of the loop of parse_interface *)

Definition no_realloc_failure (h : heap) : Prop := forall n, oom_realloc h n = false.

Lemma no_realloc_failure_same h h' :
  no_realloc_failure h -> same_oracles h h' -> no_realloc_failure h'.
Proof. clear Hjunk. intros Hn (_ & Ho & _) n. by rewrite Ho. Qed.

Lemma parse_altsetting_wp u n buffer size parsed he h F :
  no_realloc_failure h -> is_bytes buffer -> 9 <= size <= Z.of_nat (length buffer) ->
  wf_ui u -> live h = own_ui u ⊎ F ->
  wp (parse_altsetting big junk u n buffer size parsed he) h
    (fun r h' => alt_post F 9 (num_altsetting u) buffer size parsed r h' /\ same_oracles h h').
Proof.
  intros Hre Hb Hsize (Hnum & Hnone & Hslots) HF. unfold parse_altsetting.
  set (kept := take (Z.to_nat (num_altsetting u)) (ui_slots u)) in *.
  assert (length kept = Z.to_nat (num_altsetting u)) as Hkept
    by (subst kept; rewrite length_take; lia).
  apply wp_bind, (reallocf_wp _ _ (msum own_ifd kept ⊎ F)); [done| |].
  { rewrite HF. unfold own_ui. fold kept. multiset_solver. }
  intros b h1 Hl1 Ho1. apply wp_bind. eapply wp_lift; [by apply parse_9b; lia|].
  set (raw := take 9 buffer). cbv beta iota zeta.
  set (ifp := mk_ifd raw None [] 0 None []).
  set (u0 := mk_ui (Some b) (kept ++ [ifp]) (num_altsetting u)).
  assert (take (Z.to_nat (num_altsetting u)) (kept ++ [ifp]) = kept) as Htake
    by (rewrite <- Hkept; apply take_app_length).
  assert (wf_ui u0) as Hwf0.
  { unfold wf_ui. subst u0. cbn [num_altsetting ui_slots ui_altsetting]. rewrite Htake.
    rewrite length_app. simpl. split; [lia|done]. }
  assert (live h1 = own_ui u0 ⊎ F) as Hl0.
  { rewrite Hl1. unfold own_ui. subst u0. cbn [num_altsetting ui_slots ui_altsetting].
    rewrite Htake. simpl. multiset_solver. }
  assert (is_bytes raw) as Hraw by (by apply is_bytes_take).
  pose proof (nth_byte 4 _ Hraw) as Hcnt. change (nth 4 raw 0) with (bNumEndpoints ifp) in Hcnt.
  pose proof (nth_byte 0 _ Hraw) as Hlen. fold (bLength raw) in Hlen.
  destruct (Z.eqb_spec (bDescriptorType raw) LIBUSB_DT_INTERFACE) as [Hty|]; simpl negb; cbv iota;
    [|by apply wp_ret; split; [conj3; [done|done|split; [lia|done]]|]].
  destruct (Z.ltb_spec (bLength raw) INTERFACE_DESC_LENGTH) as [|H9].
  { apply wp_ret. split; [|done]. conj3; [by apply wf_ui_clr|done|by left]. }
  unfold INTERFACE_DESC_LENGTH in H9.
  destruct (Z.ltb_spec size (bLength raw)); [by apply wp_ret; split; [conj3; [done|done|split; [lia|done]]|]|].
  destruct (Z.ltb_spec USB_MAXENDPOINTS (bNumEndpoints ifp)).
  { apply wp_ret. split; [|done]. conj3; [by apply wf_ui_clr|done|by left]. }
  cbn [ui_altsetting ui_slots]. set (u1 := mk_ui (Some b) (kept ++ [ifp]) (num_altsetting u0 + 1)).
  assert (partial_ui u1 ifp) as Hp.
  { exists b, kept. split; [|done]. subst u1 u0. cbn [num_altsetting]. f_equal. lia. }
  assert (length raw = 9%nat) as Hrawlen by (subst raw; rewrite length_take; lia).
  assert (wf_ifd ifp) as Hifp.
  { unfold wf_ifd. split; [done|]. split; [done|]. split; [done|]. split; [lia|done]. }
  assert (live h1 = own_ui u1 ⊎ F) as Hlu1.
  { rewrite Hl1. rewrite (partial_ui_own _ _ Hp). subst u1.
    cbn [ui_altsetting ui_slots]. rewrite removelast_last. unfold own_ifd at 3. simpl.
    multiset_solver. }
  apply wp_bind. eapply wp_lift; [by apply advance_eq; lia|]. apply wp_bind.
  edestruct (skip_extra_ok (S (Z.to_nat size)) (drop (Z.to_nat (bLength raw)) buffer)
    (size - bLength raw) (parsed + bLength raw)) as (r & Hr & Hspec);
    [by apply is_bytes_drop|rewrite length_drop; lia|lia|].
  eapply wp_lift; [exact Hr|]. destruct r as [|s p|bf s p]; simpl in Hspec.
  - apply wp_ret. split; [|done]. conj3; [|done|by left].
    eapply partial_ui_clr; [done|by apply wf_ifd_clr].
  - apply wp_ret. split; [|done]. conj3; [by eapply partial_ui_wf|done|lia].
  - destruct Hspec as (k & Hk & -> & -> & ->). rewrite drop_drop.
    replace (Z.to_nat (bLength raw) + Z.to_nat k)%nat with (Z.to_nat (bLength raw + k)) by lia.
    replace (size - bLength raw - k) with (size - (bLength raw + k)) by lia.
    rewrite <- Z.add_assoc.
    case_match.
    + eapply wp_mono; [apply (parse_altsetting_endpoints_wp 9 (num_altsetting u) _ _ _ _ _ _ _ _ _ F); try done; lia|].
      intros r h2 [Hpost Ho2]. split; [done|by etrans].
    + apply wp_bind, (malloc_wp _ (own_ui u1 ⊎ F)); [done|]. intros [x|] h2 Hl2 Ho2; simpl in Hl2.
      2:{ apply wp_ret. split; [|by etrans]. conj3; [|rewrite Hl2; multiset_solver|by right].
          eapply partial_ui_clr; [done|by apply wf_ifd_clr]. }
      set (len := ptr_diff _ _).
      assert (len = k) as Hlenk by (subst len; unfold ptr_diff; rewrite !length_drop; lia).
      set (ifp' := mk_ifd raw (Some x) _ len None []).
      eapply wp_mono; [apply (parse_altsetting_endpoints_wp 9 (num_altsetting u) _ ifp' _ _ _ _ _ _ _ F); try done; try lia|].
      * by eapply set_ifp_partial.
      * destruct Hifp as (? & ? & ? & ? & ?). split; [done|]. split; [done|]. split; [|done].
        cbn. rewrite length_take, length_drop. lia.
      * rewrite (set_ifp_own_add _ ifp _ {[+ x +]} Hp), Hl2; [multiset_solver|].
        unfold own_ifd. simpl. multiset_solver.
      * intros r h3 [Hpost Ho3]. split; [done|]. by etrans; [|etrans].
Qed.

(** ** parse_interface *)

Definition intf_post (F : gmultiset nat) (bound : Z) (r : Z) (u : usb_interface) (h' : heap) : Prop :=
  (r < 0 -> parse_error r /\ live h' = F /\ clr_ui u /\ own_ui u = ∅) /\
  (0 <= r -> wf_ui u /\ live h' = own_ui u ⊎ F /\ r <= bound /\ (r = 0 -> num_altsetting u = 0)).

Lemma parse_error_neg r : parse_error r -> r < 0.
Proof. clear Hjunk. unfold parse_error, LIBUSB_ERROR_IO, LIBUSB_ERROR_NO_MEM. lia. Qed.

Lemma interface_err_wp u r h F bound :
  clr_ui u -> live h = own_ui u ⊎ F -> parse_error r ->
  wp (interface_err u r) h (fun '(r, u) h' => intf_post F bound r u h' /\ same_oracles h h').
Proof. clear Hjunk.
  intros Hclr HF Hr. unfold interface_err. apply wp_bind.
  eapply wp_mono; [by apply (clear_interface_wp _ _ F)|].
  intros u' h' (-> & Hl & Ho). apply wp_ret. split; [|done]. split.
  - intros _. split_and!; try done. unfold own_ui. simpl. by rewrite take_nil.
  - intros Hpos. apply parse_error_neg in Hr. lia.
Qed.

Lemma parse_interface_loop_wp fuel u n buffer size parsed he h F :
  no_realloc_failure h -> is_bytes buffer -> 0 <= size <= Z.of_nat (length buffer) ->
  size < Z.of_nat fuel -> 0 <= parsed -> (parsed = 0 -> num_altsetting u = 0) -> wf_ui u -> live h = own_ui u ⊎ F ->
  wp (parse_interface_loop big junk fuel u n buffer size parsed he) h
    (fun '(r, u) h' => intf_post F (parsed + size) r u h' /\ same_oracles h h').
Proof.
  revert u n buffer size parsed h. induction fuel as [|fuel IH];
    intros u n buffer size parsed h Hre Hb Hsize Hfuel Hp Hp0 Hwf HF; [lia|]. cbn [parse_interface_loop].
  destruct (Z.ltb_spec size INTERFACE_DESC_LENGTH) as [|H9].
  { apply wp_ret. split; [|done]. split; [lia|]. intros _. conj3; [done|done|split; [lia|done]]. }
  unfold INTERFACE_DESC_LENGTH in H9. apply wp_bind.
  eapply wp_mono; [apply (parse_altsetting_wp u n buffer size parsed he h F); done || lia|].
  intros [r u'|r u'|u' n' bf s p] h1 [Hpost Ho1].
  - destruct Hpost as (Hwf' & Hl1 & Hr & Heq). apply wp_ret. split; [|done].
    split; [lia|]. intros _. conj3; [done|done|split; [lia|]]. intros ->.
    rewrite Heq by lia. apply Hp0. lia.
  - destruct Hpost as (Hclr & Hl1 & Hr).
    eapply wp_mono; [by apply (interface_err_wp _ _ _ F (parsed + size))|].
    intros [r2 u2] h2 [Hpost Ho2]. split; [done|by etrans].
  - destruct Hpost as (Hwf' & Hl1 & k & Hk & -> & -> & ->).
    eapply wp_mono; [apply IH|].
    + by eapply no_realloc_failure_same.
    + by apply is_bytes_drop.
    + rewrite length_drop. lia.
    + lia.
    + lia.
    + lia.
    + done.
    + done.
    + intros [r2 u2] h2 [Hpost Ho2]. split; [|by etrans].
      replace (parsed + k + (size - k)) with (parsed + size) in Hpost by lia. done.
Qed.

Lemma parse_interface_wp u buffer size he h F :
  no_realloc_failure h -> is_bytes buffer -> 0 <= size <= Z.of_nat (length buffer) ->
  u = zero_ui -> live h = F ->
  wp (parse_interface big junk u buffer size he) h
    (fun '(r, u) h' => intf_post F size r u h' /\ same_oracles h h').
Proof.
  intros Hre Hb Hsize -> HF. unfold parse_interface.
  change (mk_ui (ui_altsetting zero_ui) (ui_slots zero_ui) 0) with zero_ui.
  eapply wp_mono; [apply (parse_interface_loop_wp _ zero_ui _ _ size 0 _ _ F); try done; try lia|].
  - rewrite HF. unfold own_ui. simpl. multiset_solver.
  - intros [r u] h' Hpost. exact Hpost.
Qed.

(** ** parse_configuration *)

Definition own_cfg (c : config_descriptor) : gmultiset nat :=
  own (cfg_interface c) ⊎ own (cfg_extra c) ⊎ msum own_ui (cfg_interfaces c).

(** What [libusb_free_config_descriptor] cannot reach: an array that
    [parse_interface] allocated for an interface that is not counted. *)
Definition leaked (c : config_descriptor) : gmultiset nat :=
  msum own_ui (drop (Z.to_nat (bNumInterfaces c)) (cfg_interfaces c)).

Definition clr_cfg (c : config_descriptor) : Prop :=
  is_Some (cfg_interface c) /\
  (Z.to_nat (bNumInterfaces c) <= length (cfg_interfaces c))%nat /\
  Forall clr_ui (cfg_interfaces c).

Definition wf_cfg (c : config_descriptor) : Prop :=
  is_Some (cfg_interface c) /\ length (cfg_raw c) = 9%nat /\
  0 <= bNumInterfaces c <= Z.of_nat (length (cfg_interfaces c)) /\
  Z.of_nat (length (cfg_interfaces c)) <= USB_MAXINTERFACES /\
  (cfg_extra_length c = Z.of_nat (length (cfg_extra_data c)) /\
    (cfg_extra_length c = 0 -> cfg_extra c = None)) /\
  Forall wf_ui (cfg_interfaces c).

Lemma wf_cfg_clr c : wf_cfg c -> clr_cfg c.
Proof. clear Hjunk.
  intros (? & _ & ? & _ & _ & ?). split; [done|]. split; [lia|].
  eapply Forall_impl; [done|auto].
Qed.

Lemma clear_configuration_wp c h F :
  clr_cfg c -> live h = own_cfg c ⊎ F ->
  wp (clear_configuration c) h (fun _ h' => live h' = leaked c ⊎ F /\ same_oracles h h').
Proof. clear Hjunk.
  intros ([b Hb] & Hn & Hwf) HF. unfold clear_configuration, own_cfg in *. rewrite Hb in *.
  rewrite (msum_take_drop _ (Z.to_nat (bNumInterfaces c))) in HF. fold (leaked c) in HF.
  apply wp_bind. eapply wp_mono;
    [apply (for_array_wp own_ui _ _ _ _ h (leaked c ⊎ own (cfg_extra c) ⊎ F)); [done| |]|].
  - intros u h' G Hu HG. apply wp_bind.
    eapply wp_mono; [apply (clear_interface_wp u h' G); [|done]|].
    + eapply (Forall_forall clr_ui); [done|]. rewrite <- (take_drop (Z.to_nat (bNumInterfaces c))).
      apply elem_of_app. by left.
    + intros u' h2 (_ & Hl & Ho). by apply wp_ret.
  - rewrite HF. simpl. multiset_solver.
  - intros [] h1 [Hl1 Ho1]. apply wp_bind, (free_wp _ _ (leaked c ⊎ own (cfg_extra c) ⊎ F)); [done|].
    intros h2 Hl2 Ho2. apply (free_wp _ _ (leaked c ⊎ F)); [rewrite Hl2; multiset_solver|].
    intros h3 Hl3 Ho3. split; [done|]. by etrans; [|etrans].
Qed.

(** While the interfaces are parsed, those from [i] on are still zero. *)
Definition loop_cfg (i n : nat) (c : config_descriptor) : Prop :=
  wf_cfg c /\ (i + n = length (cfg_interfaces c))%nat /\
  bNumInterfaces c = Z.of_nat (length (cfg_interfaces c)) /\
  (forall j u, cfg_interfaces c !! j = Some u -> (i <= j)%nat -> u = zero_ui).

(** The interfaces that are not counted have no altsetting, and those
    behind the first of them are still zero. *)
Definition tail_unused (c : config_descriptor) : Prop :=
  forall j u, cfg_interfaces c !! j = Some u -> (Z.to_nat (bNumInterfaces c) <= j)%nat ->
    num_altsetting u = 0 /\ ((Z.to_nat (bNumInterfaces c) < j)%nat -> u = zero_ui).

Definition cfg_post (F : gmultiset nat) (bound r : Z) (c : config_descriptor) (h' : heap) : Prop :=
  (r < 0 -> parse_error r /\ live h' = F) /\
  (0 <= r -> wf_cfg c /\ live h' = own_cfg c ⊎ F /\ r <= bound /\
     tail_unused c).

Lemma own_ui_zero : own_ui zero_ui = ∅.
Proof. clear Hjunk. unfold own_ui. simpl. multiset_solver. Qed.

Lemma own_uis_zero n : msum own_ui (replicate n zero_ui) = ∅.
Proof. clear Hjunk.
  apply msum_empty. intros u Hu. apply list_elem_of_lookup in Hu as [j [-> _]%lookup_replicate].
  apply own_ui_zero.
Qed.

Lemma leaked_full c : bNumInterfaces c = Z.of_nat (length (cfg_interfaces c)) -> leaked c = ∅.
Proof. clear Hjunk. intros Hn. unfold leaked. by rewrite Hn, Nat2Z.id, drop_all. Qed.

Lemma configuration_err_wp c r h F bound :
  clr_cfg c -> bNumInterfaces c = Z.of_nat (length (cfg_interfaces c)) ->
  live h = own_cfg c ⊎ F -> parse_error r ->
  wp (configuration_err c r) h (fun '(r, c) h' => cfg_post F bound r c h' /\ same_oracles h h').
Proof. clear Hjunk.
  intros Hclr Hn HF Hr. unfold configuration_err. apply wp_bind.
  eapply wp_mono; [by apply (clear_configuration_wp _ _ F)|].
  intros [] h' [Hl Ho]. apply wp_ret. split; [|done]. split.
  - intros _. split; [done|]. rewrite Hl, leaked_full by done. multiset_solver.
  - intros Hpos. apply parse_error_neg in Hr. lia.
Qed.

Lemma set_bNumInterfaces_value i c :
  length (cfg_raw c) = 9%nat -> Z.of_nat i < 256 ->
  bNumInterfaces (set_bNumInterfaces (Z.of_nat i) c) = Z.of_nat i.
Proof. clear Hjunk.
  intros Hl Hi. unfold bNumInterfaces, set_bNumInterfaces. cbn [cfg_raw].
  rewrite u8_small by lia. apply nth_lookup_Some, list_lookup_insert_eq. lia.
Qed.

(** The two ways the loop stops early. *)
Lemma stop_at_post i c size h F :
  wf_cfg c -> (i <= length (cfg_interfaces c))%nat ->
  (forall j u, cfg_interfaces c !! j = Some u -> (i <= j)%nat ->
     num_altsetting u = 0 /\ ((i < j)%nat -> u = zero_ui)) ->
  live h = own_cfg c ⊎ F -> 0 <= size ->
  cfg_post F size size (set_bNumInterfaces (Z.of_nat i) c) h.
Proof. clear Hjunk.
  intros (Hs & Hraw & Hn & Hmax & Hex & Hwf) Hin Hzero HF Hsize.
  unfold USB_MAXINTERFACES in *.
  assert (bNumInterfaces (set_bNumInterfaces (Z.of_nat i) c) = Z.of_nat i) as Hi
    by (apply set_bNumInterfaces_value; lia || done).
  split; [lia|]. intros _. split; [|split; [|split; [done|]]].
  - split; [done|]. split; [by simpl; rewrite length_insert|]. split; [rewrite Hi; simpl; lia|].
    split; [done|]. by split.
  - done.
  - intros j u Hj. rewrite Hi, Nat2Z.id. apply (Hzero j u Hj).
Qed.

Lemma set_iface_own c i u :
  cfg_interfaces c !! i = Some zero_ui -> own_cfg (set_iface c i u) = own_ui u ⊎ own_cfg c.
Proof. clear Hjunk.
  intros Hi. pose proof (msum_insert own_ui _ i zero_ui u Hi) as Heq.
  rewrite own_ui_zero in Heq. unfold own_cfg, set_iface. cbn [cfg_interface cfg_extra cfg_interfaces].
  multiset_solver.
Qed.

Lemma own_cfg_extra c x data len :
  cfg_extra c = None ->
  own_cfg (mk_cfg (cfg_raw c) (cfg_interface c) (cfg_interfaces c) (Some x) data len)
    = {[+ x +]} ⊎ own_cfg c.
Proof. clear Hjunk. intros Hx. unfold own_cfg. rewrite Hx. simpl. multiset_solver. Qed.

Lemma set_iface_loop i n c u :
  loop_cfg i (S n) c -> wf_ui u -> loop_cfg (S i) n (set_iface c i u).
Proof. clear Hjunk.
  intros ((Hs & Hraw & Hn & Hmax & Hex & Hwf) & Hin & Hfull & Hzero) Hu.
  unfold loop_cfg, wf_cfg, bNumInterfaces, set_iface in *.
  cbn [cfg_raw cfg_interface cfg_interfaces cfg_extra_length cfg_extra_data] in *.
  rewrite length_insert. split; [|split; [lia|split; [done|]]].
  - split; [done|]. split; [done|]. split; [done|]. split; [done|]. split; [done|].
    by apply Forall_insert.
  - intros j u' Hj Hle. rewrite list_lookup_insert_ne in Hj by lia. apply (Hzero j); [done|lia].
Qed.

Lemma cfg_post_mono F bound bound' r c h :
  cfg_post F bound r c h -> bound <= bound' -> cfg_post F bound' r c h.
Proof. clear Hjunk.
  intros [Hneg Hpos] Hle. split; [done|]. intros Hr. destruct (Hpos Hr) as (? & ? & ? & ?).
  split; [done|split; [done|split; [lia|done]]].
Qed.

Lemma parse_one_interface_wp c i n buffer size he next h F :
  no_realloc_failure h -> is_bytes buffer -> 0 <= size <= Z.of_nat (length buffer) ->
  loop_cfg i (S n) c -> live h = own_cfg c ⊎ F ->
  (forall c' buffer' size' h', no_realloc_failure h' -> is_bytes buffer' ->
     0 <= size' <= Z.of_nat (length buffer') -> size' <= size -> loop_cfg (S i) n c' ->
     live h' = own_cfg c' ⊎ F ->
     wp (next c' buffer' size') h' (fun '(r, c) h'' => cfg_post F size r c h'' /\ same_oracles h' h'')) ->
  wp (parse_one_interface big junk c i buffer size he next) h
    (fun '(r, c) h' => cfg_post F size r c h' /\ same_oracles h h').
Proof.
  intros Hre Hb Hsize Hc HF Hnext. unfold parse_one_interface.
  pose proof Hc as (Hwfc & Hin & Hfull & Hzero).
  destruct (lookup_lt_is_Some_2 (cfg_interfaces c) i) as [u Hu]; [lia|]. rewrite Hu.
  assert (u = zero_ui) as -> by (by apply (Hzero i)).
  apply wp_bind. eapply wp_mono;
    [by apply (parse_interface_wp zero_ui buffer size he h (own_cfg c ⊎ F))|].
  intros [r u] h1 [[Hneg Hpos] Ho1]. cbv zeta.
  destruct (Z.ltb_spec r 0) as [Hr|Hr]; [|destruct (Z.eqb_spec r 0) as [->|Hr0]].
  - destruct (Hneg Hr) as (Herr & Hl1 & Hclr & Hown).
    eapply wp_mono; [apply (configuration_err_wp _ _ _ F size); try done|].
    + destruct Hwfc as (? & ? & ? & ? & ? & Hall). split; [done|].
      unfold set_iface, bNumInterfaces in *. cbn [cfg_interfaces cfg_raw].
      rewrite length_insert. split; [lia|]. apply Forall_insert; [|done].
      eapply Forall_impl; [done|auto].
    + unfold set_iface, bNumInterfaces in *. cbn [cfg_interfaces cfg_raw]. by rewrite length_insert.
    + rewrite set_iface_own, Hown, Hl1 by done. multiset_solver.
    + intros [r2 c2] h2 [Hpost Ho2]. split; [done|by etrans].
  - destruct (Hpos ltac:(lia)) as (Hwfu & Hl1 & _ & Hnum). apply wp_ret. split; [|done].
    pose proof (set_iface_loop i n c u Hc Hwfu) as (Hwf' & Hin' & _ & Hzero').
    apply stop_at_post; [done|lia| |rewrite set_iface_own, Hl1 by done; multiset_solver|lia].
    intros j u' Hj Hle. destruct (decide (i = j)) as [<-|].
    + unfold set_iface in Hj. cbn [cfg_interfaces] in Hj.
      rewrite list_lookup_insert_eq in Hj by lia. simplify_eq. split; [by apply Hnum|lia].
    + rewrite (Hzero' j u') by (done || lia). done.
  - destruct (Hpos ltac:(lia)) as (Hwfu & Hl1 & Hle & _).
    apply wp_bind. eapply wp_lift; [by apply advance_eq; lia|].
    eapply wp_mono; [apply Hnext|].
    + by eapply no_realloc_failure_same.
    + by apply is_bytes_drop.
    + rewrite length_drop. lia.
    + lia.
    + by apply set_iface_loop.
    + rewrite set_iface_own, Hl1 by done. multiset_solver.
    + intros [r2 c2] h2 [Hpost Ho2]. split; [done|by etrans].
Qed.

Lemma parse_interfaces_wp n i c buffer size he h F :
  no_realloc_failure h -> is_bytes buffer -> 0 <= size <= Z.of_nat (length buffer) ->
  loop_cfg i n c -> live h = own_cfg c ⊎ F ->
  wp (parse_interfaces big junk n i c buffer size he) h
    (fun '(r, c) h' => cfg_post F size r c h' /\ same_oracles h h').
Proof.
  revert i c buffer size h. induction n as [|n IH]; intros i c buffer size h Hre Hb Hsize Hc HF;
    cbn [parse_interfaces]; pose proof Hc as (Hwf & Hin & Hfull & Hzero).
  { apply wp_ret. split; [|done]. split; [lia|]. intros _.
    split; [done|split; [done|split; [done|]]].
    intros j u Hj%lookup_lt_Some Hle. lia. }
  apply wp_bind. edestruct (skip_extra_ok (S (Z.to_nat size)) buffer size 0) as (r & Hr & Hspec);
    [done|done|lia|]. eapply wp_lift; [exact Hr|].
  destruct r as [|s p|rest s p]; simpl in Hspec.
  - eapply wp_mono; [apply (configuration_err_wp _ _ _ F size); [by apply wf_cfg_clr|done|done|by left]|].
    intros [r2 c2] h2 Hpost. done.
  - apply wp_ret. split; [|done]. eapply cfg_post_mono; [apply stop_at_post; try done; lia || idtac|lia].
    intros j u Hj Hle. by rewrite (Hzero j u).
  - destruct Hspec as (k & Hk & -> & -> & ->). cbv zeta.
    assert (forall c' h', same_oracles h h' -> loop_cfg i (S n) c' -> live h' = own_cfg c' ⊎ F ->
      wp (parse_one_interface big junk c' i (drop (Z.to_nat k) buffer) (size - k) he
        (fun c0 b s => parse_interfaces big junk n (S i) c0 b s he)) h'
        (fun '(r, c) h2 => cfg_post F size r c h2 /\ same_oracles h h2)) as Hcont.
    { intros c' h' Ho' Hc' HF'. eapply wp_mono;
        [apply (parse_one_interface_wp c' i n _ _ _ _ _ F); try done|].
      - by eapply no_realloc_failure_same.
      - by apply is_bytes_drop.
      - rewrite length_drop. lia.
      - intros c0 b0 s0 h0 Hre0 Hb0 Hs0 Hle Hc0 HF0.
        eapply wp_mono; [by apply IH|]. intros [r2 c2] h2 [Hpost Ho2]. split; [|done].
        eapply cfg_post_mono; [done|lia].
      - intros [r2 c2] h2 [Hpost Ho2]. split; [|by etrans].
        eapply cfg_post_mono; [done|lia]. }
    destruct (_ || _) eqn:Hcase; [by apply Hcont|].
    apply orb_false_elim in Hcase as [Hlen%Z.eqb_neq Hex0%negb_false_iff%Z.eqb_eq].
    apply wp_bind, (malloc_wp _ (own_cfg c ⊎ F)); [done|]. intros [x|] h1 Hl1 Ho1; simpl in Hl1.
    + apply Hcont; [done| |].
      * split; [|done]. destruct Hwf as (? & ? & ? & ? & ? & ?).
        unfold wf_cfg. cbn. split; [done|]. split; [done|]. split; [done|]. split; [done|].
        split; [|done]. rewrite length_take. unfold ptr_diff in *. rewrite length_drop in *. lia.
      * destruct Hwf as (_ & _ & _ & _ & [_ Hex] & _).
        rewrite (own_cfg_extra c x _ _ (Hex Hex0)), Hl1. apply (assoc_L (⊎)).
    + eapply wp_mono; [apply (configuration_err_wp _ _ _ F size); [by apply wf_cfg_clr|done| |by right]|].
      * rewrite Hl1. multiset_solver.
      * intros [r2 c2] h2 [Hpost Ho2]. split; [done|by etrans].
Qed.

Lemma config_raw_fields buffer he :
  (9 <= length buffer)%nat ->
  let raw := take 2 buffer ++ bus_word big he (take 2 (drop 2 buffer)) ++ take 5 (drop 4 buffer) in
  length raw = 9%nat /\ nth 0 raw 0 = nth 0 buffer 0 /\ nth 4 raw 0 = nth 4 buffer 0.
Proof. clear Hjunk.
  intros Hb. destruct (list_len9 buffer Hb) as (?&?&?&?&?&?&?&?&?&?&->). by destruct he, big.
Qed.

Lemma loop_cfg_start raw b n :
  length raw = 9%nat -> nth 4 raw 0 = Z.of_nat n -> Z.of_nat n <= USB_MAXINTERFACES ->
  loop_cfg 0 n (mk_cfg raw (Some b) (replicate n zero_ui) None [] 0).
Proof. clear Hjunk.
  intros Hl Hn Hmax. unfold loop_cfg, wf_cfg, bNumInterfaces.
  cbn [cfg_raw cfg_interface cfg_interfaces cfg_extra cfg_extra_data cfg_extra_length].
  rewrite length_replicate, Hn. split; [|split; [done|split; [done|]]].
  - split; [done|]. split; [done|]. split; [lia|]. split; [done|]. split; [done|].
    apply Forall_replicate. by repeat split.
  - intros j u [-> _]%lookup_replicate. done.
Qed.

Lemma parse_configuration_wp c buffer size he h F :
  no_realloc_failure h -> is_bytes buffer -> 0 <= size <= Z.of_nat (length buffer) ->
  length (cfg_raw c) = 9%nat -> live h = F ->
  wp (parse_configuration big junk c buffer size he) h
    (fun '(r, c) h' => cfg_post F size r c h' /\ same_oracles h h').
Proof.
  intros Hre Hb Hsize Hc HF. unfold parse_configuration.
  assert (forall r c, parse_error r -> cfg_post F size r c h) as Herr.
  { intros r c' Hr. split; [done|]. apply parse_error_neg in Hr. lia. }
  destruct (Z.ltb_spec size LIBUSB_DT_CONFIG_SIZE) as [|H9];
    [by apply wp_ret; split; [apply Herr; left|]|].
  unfold LIBUSB_DT_CONFIG_SIZE in *.
  apply wp_bind. eapply wp_lift; [by apply parse_config_raw; [lia|]|].
  destruct (config_raw_fields buffer he) as (Hraw & Hlen & Hnum); [lia|].
  set (raw := take 2 buffer ++ _) in *. cbv beta iota zeta.
  destruct (negb _); [by apply wp_ret; split; [apply Herr; left|]|].
  destruct (Z.ltb_spec (bLength raw) 9); [by apply wp_ret; split; [apply Herr; left|]|].
  destruct (Z.ltb_spec size (bLength raw)); [by apply wp_ret; split; [apply Herr; left|]|].
  destruct (Z.ltb_spec USB_MAXINTERFACES (bNumInterfaces
    (mk_cfg raw (cfg_interface c) (cfg_interfaces c) (cfg_extra c) (cfg_extra_data c)
       (cfg_extra_length c)))) as [|Hmax]; [by apply wp_ret; split; [apply Herr; left|]|].
  unfold bNumInterfaces in *. cbn [cfg_raw] in *.
  pose proof (nth_byte 4 _ Hb) as Hbyte. rewrite <- Hnum in Hbyte.
  apply wp_bind, (malloc_wp _ F); [done|]. intros [b|] h1 Hl1 Ho1; simpl in Hl1.
  2:{ apply wp_ret. split; [|done]. split; [|unfold LIBUSB_ERROR_NO_MEM; lia].
      intros _. split; [by right|]. rewrite Hl1. multiset_solver. }
  apply wp_bind. eapply wp_lift; [by apply advance_eq; lia|].
  eapply wp_mono; [apply (parse_interfaces_wp _ _ _ _ _ _ _ F)|].
  - by eapply no_realloc_failure_same.
  - by apply is_bytes_drop.
  - rewrite length_drop. lia.
  - apply loop_cfg_start; [done|lia|lia].
  - rewrite Hl1. unfold own_cfg. cbn [cfg_interface cfg_extra cfg_interfaces own].
    rewrite own_uis_zero. multiset_solver.
  - intros [r2 c2] h2 [Hpost Ho2]. split; [|by etrans]. eapply cfg_post_mono; [done|lia].
Qed.

(** The whole result of [raw_desc_to_config]. *)
Definition config_post (F : gmultiset nat) (res : Z * option (nat * config_descriptor)) (h' : heap) : Prop :=
  match res with
  | (r, None) => parse_error r /\ live h' = F
  | (r, Some (b, c)) => r = LIBUSB_SUCCESS /\ wf_cfg c /\
      live h' = {[+ b +]} ⊎ own_cfg c ⊎ F /\
      tail_unused c
  end.

Lemma raw_desc_to_config_wp buf size he h F :
  no_realloc_failure h -> is_bytes buf -> 0 <= size <= Z.of_nat (length buf) -> live h = F ->
  wp (raw_desc_to_config big junk buf size he) h
    (fun res h' => config_post F res h' /\ same_oracles h h').
Proof.
  intros Hre Hb Hsize HF. unfold raw_desc_to_config.
  apply wp_bind, (malloc_wp _ F); [done|]. intros [b|] h1 Hl1 Ho1; simpl in Hl1.
  2:{ apply wp_ret. split; [|done]. split; [by right|]. rewrite Hl1. multiset_solver. }
  apply wp_bind. eapply wp_mono; [apply (parse_configuration_wp _ _ _ _ _ ({[+ b +]} ⊎ F)); try done|].
  - by eapply no_realloc_failure_same.
  - simpl. rewrite length_take. lia.
  - intros [r c] h2 [[Hneg Hpos] Ho2].
    destruct (Z.ltb_spec r 0) as [Hr|Hr].
    + destruct (Hneg Hr) as [Herr Hl2]. apply wp_bind, (free_wp _ _ F); [done|].
      intros h3 Hl3 Ho3. apply wp_ret. split; [done|]. by etrans; [|etrans].
    + destruct (Hpos Hr) as (Hwf & Hl2 & _ & Hrest). apply wp_ret. split; [|by etrans].
      split; [done|]. split; [done|]. split; [|done]. rewrite Hl2. multiset_solver.
Qed.

Lemma own_size p : (size (own p) <= 1)%nat.
Proof. clear Hjunk. destruct p as [b|]; simpl own; [|apply Nat.le_0_l]. by rewrite gmultiset_size_singleton. Qed.

(** At most one block is out of reach. *)
Lemma leaked_size c : tail_unused c -> (size (leaked c) <= 1)%nat.
Proof. clear Hjunk.
  intros Htail. unfold leaked. set (n := Z.to_nat (bNumInterfaces c)) in *.
  destruct (drop n (cfg_interfaces c)) as [|u l] eqn:Hd; simpl.
  { apply Nat.le_0_l. }
  assert (forall j x, (u :: l) !! j = Some x -> cfg_interfaces c !! (n + j)%nat = Some x) as Hl
    by (intros j x; rewrite <- Hd, lookup_drop; done).
  rewrite (msum_empty own_ui l), gmultiset_size_disj_union, (gmultiset_size_empty (A:=nat)).
  - destruct (Htail (n + 0)%nat u (Hl 0%nat u eq_refl)) as [Hnum _]; [lia|].
    pose proof (own_size (ui_altsetting u)). unfold own_ui. rewrite Hnum. simpl.
    rewrite gmultiset_size_disj_union, (gmultiset_size_empty (A:=nat)). lia.
  - intros x [j Hj]%list_elem_of_lookup.
    destruct (Htail (n + S j)%nat x (Hl (S j) x Hj)) as [_ Hz]; [lia|].
    rewrite Hz by (subst n; lia). apply own_ui_zero.
Qed.

Lemma free_config_wp b c h F :
  wf_cfg c -> live h = {[+ b +]} ⊎ own_cfg c ⊎ F ->
  wp (libusb_free_config_descriptor (Some (b, c))) h
    (fun _ h' => live h' = leaked c ⊎ F /\ same_oracles h h').
Proof. clear Hjunk.
  intros Hwf HF. unfold libusb_free_config_descriptor.
  apply wp_bind. eapply touch_wp; [rewrite HF; symmetry; apply (assoc_L (⊎))|].
  apply wp_bind. eapply wp_mono; [apply (clear_configuration_wp c h ({[+ b +]} ⊎ F));
    [by apply wf_cfg_clr|rewrite HF; multiset_solver]|].
  intros [] h1 [Hl1 Ho1]. apply (free_wp _ _ (leaked c ⊎ F)); [rewrite Hl1; simpl; multiset_solver|].
  intros h2 Hl2 Ho2. split; [done|by etrans].
Qed.
End specs.
