(* ===== verification/DescApi.v ===== *)
(** * The configuration descriptor interface (descriptor.c, core.c)

    The functions that fetch raw descriptors from the operating system
    backend and parse them, and those of core.c that look endpoints up in
    the result. *)

From S2P Require Import Prelude Heap ParseDesc Config ConfigSafety.

(** The descriptor operations of [struct usbi_os_backend].  [W] is the state
    of the backend and the device, on which they are computations of their
    own.  An operation that fills a buffer takes the old contents of the
    buffer and the old value of [*host_endian], and returns the code of the C
    function with both new values. *)
Record desc_backend (W : Type) : Type := mk_desc_backend {
  get_device_descriptor : list Z -> bool -> M W (Z * list Z * bool);
  get_active_config_descriptor : list Z -> bool -> M W (Z * list Z * bool);
  get_config_descriptor : Z -> list Z -> bool -> M W (Z * list Z * bool);
  get_config_descriptor_by_value : option (Z -> bool -> M W (Z * list Z * bool))
}.
Arguments get_device_descriptor {W}.
Arguments get_active_config_descriptor {W}.
Arguments get_config_descriptor {W}.
Arguments get_config_descriptor_by_value {W}.

(** What an operation that fills a buffer promises. *)
Definition filled_buffer (buf : list Z) (res : Z * list Z * bool) : Prop :=
  let '(r, buf', _) := res in is_bytes buf' /\ length buf' = length buf /\ r <= Z.of_nat (length buf).

(** The documented contract (libusbi.h): the operations return; a buffer of
    [len] bytes receives bytes only, and the length read is at most [len].
    The raw descriptor of [get_config_descriptor_by_value] has the length
    returned.  The backend may rely on, and keeps, an invariant [good] of its
    own state. *)
Class DescBackendLaws {W} (be : desc_backend W) (good : W -> Prop) : Prop := {
  active_law : forall buf he w, is_bytes buf -> good w ->
    wp (get_active_config_descriptor be buf he) w (fun res w' => filled_buffer buf res /\ good w');
  config_law : forall i buf he w, is_bytes buf -> good w ->
    wp (get_config_descriptor be i buf he) w (fun res w' => filled_buffer buf res /\ good w');
  by_value_law : forall op v he w, get_config_descriptor_by_value be = Some op -> good w ->
    wp (op v he) w (fun '(r, buf, _) w' => is_bytes buf /\ r <= Z.of_nat (length buf) /\ good w')
}.

(** The heap next to the backend's state. *)
Record dstate (W : Type) : Type := mk_ds { ds_heap : heap; ds_world : W }.
Arguments mk_ds {W}.
Arguments ds_heap {W}.
Arguments ds_world {W}.

Definition on_heap {W A} (m : M heap A) : M (dstate W) A := fun s =>
  match m (ds_heap s) with
  | Ok (a, h) => Ok (a, mk_ds h (ds_world s))
  | Fault f => Fault f
  end.

Definition call {W A} (op : M W A) : M (dstate W) A := fun s =>
  match op (ds_world s) with
  | Ok (a, w) => Ok (a, mk_ds (ds_heap s) w)
  | Fault f => Fault f
  end.

(** The first [Some] of a search that may fault. *)
Fixpoint find_some {A B} (f : A -> outcome (option B)) (l : list A) : outcome (option B) :=
  match l with
  | [] => mret None
  | x :: l => r ← f x; match r with Some b => mret (Some b) | None => find_some f l end
  end.

(** [for (i = 0; i < n; i++) ... p[i] ...] as a search: the pointer is
    followed when there is a first element. *)
Definition find_array {A B} (p : option nat) (a : list A) (n : Z) (f : A -> outcome (option B))
    : outcome (option B) :=
  if n <=? 0 then mret None
  else match p with
       | None => Fault NullDeref
       | Some _ => l ← rd_n a (Z.to_nat n); find_some f l
       end.

(** [libusb_le16_to_cpu] of libusb.h: the 16 bit object whose bytes are the
    low and the high byte of [x]. *)
Definition libusb_le16_to_cpu (big : bool) (x : Z) : Z :=
  host_value big [Z.land x 255; Z.shiftr x 8].

(** [desc.field = libusb_le16_to_cpu(desc.field)] at offset [off]. *)
Definition swap_field (big : bool) (off : nat) (raw : list Z) : list Z :=
  let x := host_value big (take 2 (drop off raw)) in
  take off raw ++ host_bytes big 2 (libusb_le16_to_cpu big x) ++ drop (off + 2) raw.

Section api.
Context {W : Type} (be : desc_backend W).
(** [junk n]: the contents of [n] bytes of fresh memory. *)
Variable big : bool.
Variable junk : nat -> list Z.

(** [dev->device_descriptor] is its 18 bytes; the members used: *)
Definition idVendor (raw : list Z) : Z := host_value big (take 2 (drop 8 raw)).
Definition idProduct (raw : list Z) : Z := host_value big (take 2 (drop 10 raw)).
Definition bDeviceClass (raw : list Z) : Z := nth 4%nat raw 0.
Definition bNumConfigurations (raw : list Z) : Z := nth 17%nat raw 0.

Definition usbi_device_cache_descriptor (desc : list Z) : M (dstate W) (Z * list Z) :=
  '(r, desc, host_endian) ← call (get_device_descriptor be desc false);
  if r <? 0 then mret (r, desc)
  else if (negb host_endian : bool) then
    mret (LIBUSB_SUCCESS, swap_field big 12 (swap_field big 10 (swap_field big 8 (swap_field big 2 desc))))
  else mret (LIBUSB_SUCCESS, desc).

Definition libusb_get_device_descriptor (desc : list Z) : Z * list Z := (0, desc).

(** [usbi_sanitize_device]: also returns [dev->num_configurations]. *)
Definition usbi_sanitize_device (desc : list Z) (num : Z) : M (dstate W) (Z * list Z * Z) :=
  '(r, desc) ← usbi_device_cache_descriptor desc;
  if r <? 0 then mret (r, desc, num)
  else if USB_MAXCONFIG <? bNumConfigurations desc then mret (LIBUSB_ERROR_IO, desc, num)
  else mret (0, desc, bNumConfigurations desc).

Definition config_result : Type := Z * option (nat * config_descriptor).

Definition libusb_get_active_config_descriptor : M (dstate W) config_result :=
  '(r, tmp, host_endian) ← call (get_active_config_descriptor be (junk 9) false);
  if r <? 0 then mret (r, None)
  else if r <? LIBUSB_DT_CONFIG_SIZE then mret (LIBUSB_ERROR_IO, None)
  else
  '(_, config) ← lift (usbi_parse_descriptor big tmp "bbw" (junk 9) host_endian);
  buf ← on_heap malloc;
  match buf with
  | None => mret (LIBUSB_ERROR_NO_MEM, None)
  | Some b =>
      '(r, data, host_endian) ← call (get_active_config_descriptor be
         (junk (Z.to_nat (wTotalLength big config))) host_endian);
      res ← (if 0 <=? r then on_heap (raw_desc_to_config big (junk 9) data r host_endian)
             else mret (r, None));
      on_heap (free (Some b)) ;;
      mret res
  end.

Definition libusb_get_config_descriptor (num_configurations config_index : Z)
    : M (dstate W) config_result :=
  if num_configurations <=? config_index then mret (LIBUSB_ERROR_NOT_FOUND, None) else
  '(r, tmp, host_endian) ← call (get_config_descriptor be config_index (junk 9) false);
  if r <? 0 then mret (r, None)
  else if r <? LIBUSB_DT_CONFIG_SIZE then mret (LIBUSB_ERROR_IO, None)
  else
  '(_, config) ← lift (usbi_parse_descriptor big tmp "bbw" (junk 9) host_endian);
  buf ← on_heap malloc;
  match buf with
  | None => mret (LIBUSB_ERROR_NO_MEM, None)
  | Some b =>
      '(r, data, host_endian) ← call (get_config_descriptor be config_index
         (junk (Z.to_nat (wTotalLength big config))) host_endian);
      res ← (if 0 <=? r then on_heap (raw_desc_to_config big (junk 9) data r host_endian)
             else mret (r, None));
      on_heap (free (Some b)) ;;
      mret res
  end.

(** The loop over [i]; [n] is the number of turns left. *)
Fixpoint config_index_loop (n : nat) (i : Z) (value : Z) (host_endian : bool)
    : M (dstate W) (Z * Z) :=
  match n with
  | O => mret (0, -1)
  | S n =>
      '(r, tmp, host_endian) ← call (get_config_descriptor be i (junk 6) host_endian);
      if r <? 0 then mret (r, -1)
      else
        v ← lift (rd tmp 5);
        if v =? value then mret (0, i) else config_index_loop n (i + 1) value host_endian
  end.

(** Returns the code and [*idx]. *)
Definition usbi_get_config_index_by_value (num_configurations value : Z) : M (dstate W) (Z * Z) :=
  config_index_loop (Z.to_nat num_configurations) 0 value false.

Definition libusb_get_config_descriptor_by_value (num_configurations value : Z)
    : M (dstate W) config_result :=
  match get_config_descriptor_by_value be with
  | Some op =>
      '(r, buf, host_endian) ← call (op value false);
      if r <? 0 then mret (r, None)
      else on_heap (raw_desc_to_config big (junk 9) buf r host_endian)
  | None =>
      '(r, idx) ← usbi_get_config_index_by_value num_configurations value;
      if r <? 0 then mret (r, None)
      else if idx =? -1 then mret (LIBUSB_ERROR_NOT_FOUND, None)
      else libusb_get_config_descriptor num_configurations (u8 idx)
  end.

(** ** core.c: endpoints of the active configuration *)

Definition find_endpoint (config : config_descriptor) (endpoint : Z)
    : outcome (option endpoint_descriptor) :=
  find_array (cfg_interface config) (cfg_interfaces config) (bNumInterfaces config) (fun iface =>
    find_array (ui_altsetting iface) (ui_slots iface) (num_altsetting iface) (fun altsetting =>
      find_array (if_endpoint altsetting) (if_endpoints altsetting) (bNumEndpoints altsetting)
        (fun ep => mret (if bEndpointAddress ep =? endpoint then Some ep else None)))).

Definition libusb_get_max_packet_size (endpoint : Z) : M (dstate W) Z :=
  '(r, config) ← libusb_get_active_config_descriptor;
  match config with
  | Some (b, c) =>
      ep ← lift (find_endpoint c endpoint);
      let r := match ep with
               | None => LIBUSB_ERROR_NOT_FOUND
               | Some ep => wMaxPacketSize big ep
               end in
      on_heap (libusb_free_config_descriptor (Some (b, c))) ;;
      mret r
  | None => if r <? 0 then mret LIBUSB_ERROR_OTHER else fail NullDeref
  end.

Definition LIBUSB_TRANSFER_TYPE_ISOCHRONOUS : Z := 1.
Definition LIBUSB_TRANSFER_TYPE_INTERRUPT : Z := 3.

(** The size in bytes of the packets of one (micro)frame. *)
Definition iso_packet_size (ep : endpoint_descriptor) : Z :=
  let val := wMaxPacketSize big ep in
  let ep_type := Z.land (bmAttributes ep) 3 in
  let r := Z.land val 2047 in
  if (ep_type =? LIBUSB_TRANSFER_TYPE_ISOCHRONOUS) || (ep_type =? LIBUSB_TRANSFER_TYPE_INTERRUPT)
  then r * (1 + Z.land (Z.shiftr val 11) 3) else r.

Definition libusb_get_max_iso_packet_size (endpoint : Z) : M (dstate W) Z :=
  '(r, config) ← libusb_get_active_config_descriptor;
  match config with
  | Some (b, c) =>
      ep ← lift (find_endpoint c endpoint);
      let r := match ep with
               | None => LIBUSB_ERROR_NOT_FOUND
               | Some ep => iso_packet_size ep
               end in
      on_heap (libusb_free_config_descriptor (Some (b, c))) ;;
      mret r
  | None => if r <? 0 then mret LIBUSB_ERROR_OTHER else fail NullDeref
  end.
End api.

(** ** Specifications *)

Lemma wp_on_heap {W A} (m : M heap A) (s : dstate W) Q :
  wp m (ds_heap s) (fun a h => Q a (mk_ds h (ds_world s))) -> wp (on_heap m) s Q.
Proof. unfold wp, on_heap. destruct (m (ds_heap s)) as [[a h]|]; done. Qed.

Lemma wp_call {W A} (op : M W A) (s : dstate W) Q :
  wp op (ds_world s) (fun a w => Q a (mk_ds (ds_heap s) w)) -> wp (call op) s Q.
Proof. unfold wp, call. by destruct (op (ds_world s)) as [[a w]|]. Qed.

Lemma parse_descriptor_ok big f he src dest :
  is_bytes src -> (format_size f <= length src)%nat -> (format_end f 0 <= length dest)%nat ->
  exists d, usbi_parse_descriptor big src f dest he = Ok (Z.of_nat (format_size f), d) /\
    length d = length dest.
Proof.
  intros Hb Hs Hd. destruct (parse_loop_ok big f he src 0 dest 0 Hb Hs Hd) as (d & Heq & Hl & _).
  eauto.
Qed.

Section fetch.
Context {W : Type} (good : W -> Prop).
Context (big : bool) (junk : nat -> list Z) (Hjunk : forall n, length (junk n) = n).
Context (Hjunkb : forall n, is_bytes (junk n)).

(** The common shape of the two functions that fetch a configuration. *)
Definition fetch_config (op : list Z -> bool -> M W (Z * list Z * bool))
    : M (dstate W) config_result :=
  '(r, tmp, host_endian) ← call (op (junk 9) false);
  if r <? 0 then mret (r, None)
  else if r <? LIBUSB_DT_CONFIG_SIZE then mret (LIBUSB_ERROR_IO, None)
  else
  '(_, config) ← lift (usbi_parse_descriptor big tmp "bbw" (junk 9) host_endian);
  buf ← on_heap malloc;
  match buf with
  | None => mret (LIBUSB_ERROR_NO_MEM, None)
  | Some b =>
      '(r, data, host_endian) ← call (op
         (junk (Z.to_nat (wTotalLength big config))) host_endian);
      res ← (if 0 <=? r then on_heap (raw_desc_to_config big (junk 9) data r host_endian)
             else mret (r, None));
      on_heap (free (Some b)) ;;
      mret res
  end.

(** Either a negative code and nothing allocated, or a configuration that
    owns all that was allocated. *)
Definition fetched (F : gmultiset nat) (res : config_result) (h' : heap) : Prop :=
  match res with
  | (r, None) => r < 0 /\ live h' = F
  | (r, Some (b, c)) => r = LIBUSB_SUCCESS /\ wf_cfg c /\
      live h' = {[+ b +]} ⊎ own_cfg c ⊎ F /\
      tail_unused c
  end.

Lemma config_post_fetched F res h : config_post F res h -> fetched F res h.
Proof. destruct res as [r [[b c]|]]; [done|]. intros [Hr ?]. split; [by apply parse_error_neg|done]. Qed.

Lemma raw_desc_wp data r he (s : dstate W) F :
  no_realloc_failure (ds_heap s) -> is_bytes data -> 0 <= r <= Z.of_nat (length data) ->
  live (ds_heap s) = F ->
  wp (on_heap (raw_desc_to_config big (junk 9) data r he)) s
    (fun res s' => fetched F res (ds_heap s')).
Proof.
  intros Hre Hb Hr HF. apply wp_on_heap.
  eapply wp_mono; [apply (raw_desc_to_config_wp big (junk 9)); try done; rewrite Hjunk; lia|].
  intros res h [Hpost _]. by apply config_post_fetched.
Qed.

Lemma fetch_config_wp op s F :
  (forall buf he w, is_bytes buf -> good w -> wp (op buf he) w (fun res w' => filled_buffer buf res /\ good w')) ->
  good (ds_world s) -> no_realloc_failure (ds_heap s) -> live (ds_heap s) = F ->
  wp (fetch_config op) s (fun res s' => fetched F res (ds_heap s')).
Proof.
  intros Hop Hgood Hre HF. unfold fetch_config.
  apply wp_bind, wp_call. eapply wp_mono; [by apply Hop|]. intros [[r tmp] he] w [(Hb & Hl & Hr) Hgood1]. rewrite Hjunk in Hl.
  destruct (Z.ltb_spec r 0); [by apply wp_ret; simpl|].
  destruct (Z.ltb_spec r LIBUSB_DT_CONFIG_SIZE); [by apply wp_ret; simpl|].
  destruct (parse_descriptor_ok big "bbw" he tmp (junk 9)) as (cfg & Hcfg & _);
    [done|change (4 <= length tmp)%nat; lia|change (4 <= length (junk 9))%nat; rewrite Hjunk; lia|].
  apply wp_bind. eapply wp_lift; [exact Hcfg|]. cbv beta iota.
  apply wp_bind, wp_on_heap, (malloc_wp _ F); [done|]. intros [b|] h1 Hl1 Ho1; simpl in Hl1.
  2:{ apply wp_ret. simpl. unfold LIBUSB_ERROR_NO_MEM. split; [lia|].
      rewrite Hl1. multiset_solver. }
  apply wp_bind, wp_call. eapply wp_mono; [by apply Hop|]. intros [[r2 data] he2] w2 [(Hb2 & Hl2 & Hr2) _]. simpl.
  apply wp_bind. eapply wp_mono with (P := fun res s' => fetched ({[+ b +]} ⊎ F) res (ds_heap s')).
  - destruct (Z.leb_spec 0 r2).
    + apply raw_desc_wp; simpl; try done; [by eapply no_realloc_failure_same|lia].
    + apply wp_ret. simpl. split; [lia|done].
  - intros [r3 [[b3 c3]|]] s3 Hres; apply wp_bind, wp_on_heap.
    + destruct Hres as (Hz & Hwf & Hl3 & Hrest).
      apply (free_wp _ _ ({[+ b3 +]} ⊎ own_cfg c3 ⊎ F)); [rewrite Hl3; simpl; multiset_solver|].
      intros h4 Hl4 _. by apply wp_ret.
    + destruct Hres as [Hneg Hl3]. apply (free_wp _ _ F); [done|].
      intros h4 Hl4 _. by apply wp_ret.
Qed.

End fetch.

Section api_specs.
Context {W : Type} (be : desc_backend W) (good : W -> Prop) `{!DescBackendLaws be good}.
Context (big : bool) (junk : nat -> list Z) (Hjunk : forall n, length (junk n) = n).
Context (Hjunkb : forall n, is_bytes (junk n)).

Lemma config_descriptor_wp n i s F :
  good (ds_world s) -> no_realloc_failure (ds_heap s) -> live (ds_heap s) = F ->
  wp (libusb_get_config_descriptor be big junk n i) s (fun res s' => fetched F res (ds_heap s')).
Proof.
  intros Hgood Hre HF. unfold libusb_get_config_descriptor.
  case_match; [by apply wp_ret|].
  apply (fetch_config_wp good big junk Hjunk Hjunkb (get_config_descriptor be i)); [apply config_law|done..].
Qed.

Lemma config_index_loop_wp n i v he s :
  good (ds_world s) ->
  wp (config_index_loop be junk n i v he) s (fun _ s' => ds_heap s' = ds_heap s /\ good (ds_world s')).
Proof.
  revert i he s. induction n as [|n IH]; intros i he s Hgood; cbn [config_index_loop]; [by apply wp_ret|].
  apply wp_bind, wp_call. eapply wp_mono; [by apply config_law|]. intros [[r tmp] he'] w [(_ & Hl & _) Hgood']. rewrite Hjunk in Hl.
  case_match; [by apply wp_ret|].
  destruct (lookup_lt_is_Some_2 tmp 5) as [v' Hv']; [lia|].
  apply wp_bind. eapply wp_lift; [apply (rd_ok _ _ _ Hv')|].
  case_match; [by apply wp_ret|]. eapply wp_mono; [by apply IH|]. done.
Qed.

Lemma config_descriptor_by_value_wp n v s F :
  good (ds_world s) -> no_realloc_failure (ds_heap s) -> live (ds_heap s) = F ->
  wp (libusb_get_config_descriptor_by_value be big junk n v) s (fun res s' => fetched F res (ds_heap s')).
Proof.
  intros Hgood Hre HF. unfold libusb_get_config_descriptor_by_value, usbi_get_config_index_by_value.
  destruct (get_config_descriptor_by_value be) as [op|] eqn:Hop.
  - apply wp_bind, wp_call. eapply wp_mono; [by apply by_value_law|]. intros [[r data] he] w (Hb & Hr & _).
    destruct (Z.ltb_spec r 0); [by apply wp_ret|]. by apply (raw_desc_wp big junk Hjunk).
  - apply wp_bind. eapply wp_mono; [by apply config_index_loop_wp|]. intros [r idx] s' [Hs Hgood'].
    destruct (Z.ltb_spec r 0); [apply wp_ret; by rewrite Hs|].
    case_match; [apply wp_ret; split; [done|by rewrite Hs]|].
    apply config_descriptor_wp; [done|by rewrite Hs..].
Qed.
End api_specs.

(** ** Looking endpoints up *)

(** The endpoints of a configuration, in the order of the descriptors. *)
Definition altsetting_endpoints (d : interface_descriptor) : list endpoint_descriptor :=
  take (Z.to_nat (bNumEndpoints d)) (if_endpoints d).
Definition interface_altsettings (u : usb_interface) : list interface_descriptor :=
  take (Z.to_nat (num_altsetting u)) (ui_slots u).
Definition config_interfaces (c : config_descriptor) : list usb_interface :=
  take (Z.to_nat (bNumInterfaces c)) (cfg_interfaces c).
Definition config_endpoints (c : config_descriptor) : list endpoint_descriptor :=
  flat_map (fun u => flat_map altsetting_endpoints (interface_altsettings u)) (config_interfaces c).

(** Every counted element exists. *)
Definition complete_altsetting (d : interface_descriptor) : Prop :=
  bNumEndpoints d <= Z.of_nat (length (if_endpoints d)) /\
  (if_endpoint d = None -> bNumEndpoints d <= 0).
Definition complete_interface (u : usb_interface) : Prop :=
  num_altsetting u <= Z.of_nat (length (ui_slots u)) /\
  (ui_altsetting u = None -> num_altsetting u <= 0) /\
  Forall complete_altsetting (interface_altsettings u).
Definition complete_config (c : config_descriptor) : Prop :=
  bNumInterfaces c <= Z.of_nat (length (cfg_interfaces c)) /\
  (cfg_interface c = None -> bNumInterfaces c <= 0) /\
  Forall complete_interface (config_interfaces c).

Lemma find_some_flat_map {A B} (f : A -> outcome (option B)) (g : A -> list B) (P : B -> bool) l :
  Forall (fun x => f x = Ok (find P (g x))) l ->
  find_some f l = Ok (find P (flat_map g l)).
Proof.
  induction 1 as [|x l Hx _ IH]; [done|]. simpl. rewrite Hx. cbn [mbind outcome_bind].
  rewrite IH. clear. induction (g x) as [|y ys IH]; simpl; [done|]. by destruct (P y).
Qed.

Lemma find_array_flat_map {A B} p (a : list A) n (f : A -> outcome (option B)) g (P : B -> bool) :
  n <= Z.of_nat (length a) -> (p = None -> n <= 0) ->
  Forall (fun x => f x = Ok (find P (g x))) (take (Z.to_nat n) a) ->
  find_array p a n f = Ok (find P (flat_map g (take (Z.to_nat n) a))).
Proof.
  intros Hn Hp Hf. unfold find_array. destruct (Z.leb_spec n 0) as [H0|H0].
  - replace (Z.to_nat n) with 0%nat by lia. done.
  - destruct p; [|by specialize (Hp eq_refl); lia].
    unfold rd_n. rewrite decide_True by lia. by apply find_some_flat_map.
Qed.

Lemma flat_map_singleton {A} (l : list A) : flat_map (fun x => [x]) l = l.
Proof. induction l as [|x l IH]; [done|]. simpl. by rewrite IH. Qed.

Lemma find_endpoint_complete c e : complete_config c ->
  find_endpoint c e = Ok (find (fun ep => bEndpointAddress ep =? e) (config_endpoints c)).
Proof.
  intros (Hn & Hp & Hifs). unfold find_endpoint. apply find_array_flat_map; [done|done|].
  eapply Forall_impl; [exact Hifs|]. intros u (Hn' & Hp' & Halts).
  apply find_array_flat_map; [done|done|].
  eapply Forall_impl; [exact Halts|]. intros d (Hn'' & Hp'').
  unfold altsetting_endpoints. rewrite <- (flat_map_singleton (take _ (if_endpoints d))).
  apply find_array_flat_map; [done|done|]. apply Forall_true. intros ep. simpl.
  by destruct (_ =? _).
Qed.

(** ** Configurations by value *)

(** A device whose descriptors do not change: [raw i] is the start of the
    descriptor of configuration [i]. *)
Definition static_configs {W} (be : desc_backend W) (raw : Z -> list Z) : Prop :=
  (forall i, length (raw i) = 6%nat) /\
  (forall w i buf he, length buf = 6%nat ->
     get_config_descriptor be i buf he w = Ok ((6, raw i, he), w)).

(** [bConfigurationValue] *)
Definition config_value (raw : list Z) : Z := nth 5%nat raw 0.

Lemma config_index_loop_first {W} (be : desc_backend W) junk raw n i v he s :
  (forall n, length (junk n) = n) -> static_configs be raw ->
  exists idx, config_index_loop be junk n i v he s = Ok ((0, idx), s) /\
    ((idx = -1 /\ forall j, i <= j < i + Z.of_nat n -> config_value (raw j) <> v) \/
     (i <= idx < i + Z.of_nat n /\ config_value (raw idx) = v /\
      forall j, i <= j < idx -> config_value (raw j) <> v)).
Proof.
  intros Hjunk [Hlen Hget]. destruct s as [hp w]. revert i. induction n as [|n IH]; intros i.
  - exists (-1). split; [done|]. left. split; [done|]. lia.
  - cbn [config_index_loop]. unfold mbind, M_bind, call. rewrite Hget by apply Hjunk.
    cbn [ds_world ds_heap]. change (6 <? 0) with false. cbv iota beta.
    assert (rd (raw i) 5 = Ok (config_value (raw i))) as Hrd.
    { specialize (Hlen i). unfold config_value.
      destruct (raw i) as [|? [|? [|? [|? [|? [|? [|]]]]]]]; done. }
    unfold lift. rewrite Hrd. destruct (Z.eqb_spec (config_value (raw i)) v) as [Hv|Hv].
    + exists i. split; [done|]. right. split; [lia|]. split; [done|]. lia.
    + destruct (IH (i + 1)) as (idx & Heq & Hidx). exists idx. split; [exact Heq|].
      destruct Hidx as [[-> Hno]|(Hr & Hval & Hno)].
      * left. split; [done|]. intros j Hj. destruct (decide (j = i)) as [->|]; [done|]. apply Hno. lia.
      * right. split; [lia|]. split; [done|]. intros j Hj.
        destruct (decide (j = i)) as [->|]; [done|]. apply Hno. lia.
Qed.
