(* ===== verification/ConfigTree.v ===== *)
(** * Configurations as trees

    What a configuration descriptor means: a tree of interfaces, alternate
    settings and endpoints with the class descriptors between them.  The
    encoding of such a tree is parsed into structures that read back as the
    tree.  The lemmas are about partial correctness; that the parser returns
    is the subject of ConfigSafety.v. *)

From S2P Require Import Prelude Heap ParseDesc Config ConfigSafety DescApi.

Notation len l := (Z.of_nat (length l)).

(** ** Trees and their bytes *)

Record ep_tree : Type := mk_et { et_raw : list Z; et_extra : list (list Z) }.
Record alt_tree : Type := mk_at { at_raw : list Z; at_extra : list (list Z); at_eps : list ep_tree }.
Record cfg_tree : Type := mk_ct { ct_raw : list Z; ct_extra : list (list Z); ct_ifs : list (list alt_tree) }.

Definition ep_bytes (e : ep_tree) : list Z := et_raw e ++ concat (et_extra e).
Definition alt_bytes (a : alt_tree) : list Z :=
  at_raw a ++ concat (at_extra a) ++ concat (map ep_bytes (at_eps a)).
Definition if_bytes (alts : list alt_tree) : list Z := concat (map alt_bytes alts).
Definition cfg_bytes (c : cfg_tree) : list Z :=
  ct_raw c ++ concat (ct_extra c) ++ concat (map if_bytes (ct_ifs c)).

(** A descriptor of type [t] and at least [n] bytes that carries its own
    length. *)
Definition descriptor (t n : Z) (raw : list Z) : Prop :=
  is_bytes raw /\ bDescriptorType raw = t /\ bLength raw = len raw /\ n <= len raw.
(** A class or vendor descriptor. *)
Definition extra_ok (x : list Z) : Prop :=
  is_bytes x /\ is_proper (bDescriptorType x) = false /\ bLength x = len x /\ 2 <= len x.

Definition ep_ok (e : ep_tree) : Prop :=
  descriptor LIBUSB_DT_ENDPOINT ENDPOINT_DESC_LENGTH (et_raw e) /\ Forall extra_ok (et_extra e).
Definition alt_number (a : alt_tree) : Z := nth 2 (at_raw a) 0.
Definition alt_ok (a : alt_tree) : Prop :=
  descriptor LIBUSB_DT_INTERFACE INTERFACE_DESC_LENGTH (at_raw a) /\ Forall extra_ok (at_extra a) /\
  nth 4 (at_raw a) 0 = len (at_eps a) /\ len (at_eps a) <= USB_MAXENDPOINTS /\ Forall ep_ok (at_eps a).
(** The alternate settings of one interface share its number. *)
Definition if_ok (n : Z) (alts : list alt_tree) : Prop :=
  alts <> [] /\ Forall (fun a => alt_ok a /\ alt_number a = n) alts.
Definition cfg_ok (c : cfg_tree) : Prop :=
  descriptor LIBUSB_DT_CONFIG LIBUSB_DT_CONFIG_SIZE (ct_raw c) /\ Forall extra_ok (ct_extra c) /\
  nth 4 (ct_raw c) 0 = len (ct_ifs c) /\ len (ct_ifs c) <= USB_MAXINTERFACES /\
  (ct_ifs c = [] -> ct_extra c = []) /\
  exists numbers, NoDup numbers /\ Forall2 if_ok numbers (ct_ifs c).

Lemma concat_bytes (ls : list (list Z)) : Forall (fun l => is_bytes l) ls -> is_bytes (concat ls).
Proof. induction 1; [constructor|]. cbn. by apply Forall_app_2. Qed.
Lemma extras_bytes xs : Forall extra_ok xs -> is_bytes (concat xs).
Proof. intros Hxs. apply concat_bytes. eapply Forall_impl; [exact Hxs|]. by intros x [Hx _]. Qed.
Lemma ep_ok_bytes e : ep_ok e -> is_bytes (ep_bytes e).
Proof. intros [[Hb _] Hxs]. apply Forall_app_2; [done|by apply extras_bytes]. Qed.
Lemma alt_ok_bytes a : alt_ok a -> is_bytes (alt_bytes a).
Proof.
  intros ((Hb & _) & Hxs & _ & _ & Heps). apply Forall_app_2; [done|].
  apply Forall_app_2; [by apply extras_bytes|]. apply concat_bytes, Forall_map.
  eapply Forall_impl; [exact Heps|]. apply ep_ok_bytes.
Qed.
Lemma cfg_ok_bytes c : cfg_ok c -> is_bytes (cfg_bytes c).
Proof.
  intros ((Hb & _) & Hxs & _ & _ & _ & numbers & _ & Hifs). apply Forall_app_2; [done|].
  apply Forall_app_2; [by apply extras_bytes|]. apply concat_bytes, Forall_map.
  induction Hifs as [|n alts l1 l2 [_ Ha] _ IH]; constructor; [|done].
  apply concat_bytes, Forall_map. eapply Forall_impl; [exact Ha|]. intros a [Hok _]. by apply alt_ok_bytes.
Qed.

(** ** Their meaning, and how it is read from the structures *)

Definition word_at (i : nat) (raw : list Z) : Z := nth i raw 0 + 256 * nth (S i) raw 0.

(** The members of an endpoint descriptor; the two audio members are 0 in a
    descriptor without them. *)
Definition ep_fields (raw : list Z) : list Z :=
  [nth 0 raw 0; nth 1 raw 0; nth 2 raw 0; nth 3 raw 0; word_at 4 raw; nth 6 raw 0] ++
  (if ENDPOINT_AUDIO_DESC_LENGTH <=? len raw then [nth 7 raw 0; nth 8 raw 0] else [0; 0]).
Definition cfg_fields (raw : list Z) : list Z :=
  [nth 0 raw 0; nth 1 raw 0; word_at 2 raw; nth 4 raw 0; nth 5 raw 0; nth 6 raw 0; nth 7 raw 0; nth 8 raw 0].

Definition ep_meaning (e : ep_tree) : list Z * list Z := (ep_fields (et_raw e), concat (et_extra e)).
Definition alt_meaning (a : alt_tree) : list Z * list Z * list (list Z * list Z) :=
  (take 9 (at_raw a), concat (at_extra a), map ep_meaning (at_eps a)).
Definition cfg_meaning (c : cfg_tree) :=
  (cfg_fields (ct_raw c), concat (ct_extra c), map (map alt_meaning) (ct_ifs c)).

Definition read_ep (big : bool) (e : endpoint_descriptor) : list Z * list Z :=
  (struct_fields big "bbbbwbbb" (ep_raw e) 0, ep_extra_data e).
Definition read_alt (big : bool) (d : interface_descriptor) : list Z * list Z * list (list Z * list Z) :=
  (if_raw d, if_extra_data d, map (read_ep big) (altsetting_endpoints d)).
Definition read_cfg (big : bool) (c : config_descriptor) :=
  (struct_fields big "bbwbbbbb" (cfg_raw c) 0, cfg_extra_data c,
   map (fun u => map (read_alt big) (interface_altsettings u)) (config_interfaces c)).

(** ** What may follow an element *)

Definition proper_start (rest : list Z) : Prop :=
  rest = [] \/ (2 <= bLength rest <= len rest /\ is_proper (bDescriptorType rest) = true).

Lemma header_app raw rest : (2 <= length raw)%nat ->
  bLength (raw ++ rest) = bLength raw /\ bDescriptorType (raw ++ rest) = bDescriptorType raw.
Proof. destruct raw as [|a [|b raw]]; simpl; [lia|lia|done]. Qed.

Lemma descriptor_start t n raw rest : descriptor t n raw -> 2 <= n -> is_proper t = true ->
  proper_start (raw ++ rest).
Proof.
  intros (_ & Ht & Hl & Hn) Hn2 Hp. right. destruct (header_app raw rest) as [-> ->]; [lia|].
  rewrite Ht, Hl, length_app. split; [lia|done].
Qed.
Lemma ep_start e rest : ep_ok e -> proper_start (ep_bytes e ++ rest).
Proof. intros [He _]. unfold ep_bytes. rewrite <- (assoc_L (++)). by eapply descriptor_start; [exact He| |]. Qed.
Lemma alt_start a rest : alt_ok a -> proper_start (alt_bytes a ++ rest).
Proof.
  intros [Ha _]. unfold alt_bytes. rewrite <- !(assoc_L (++)). by eapply descriptor_start; [exact Ha| |].
Qed.
Lemma eps_start es rest : Forall ep_ok es -> proper_start rest -> proper_start (concat (map ep_bytes es) ++ rest).
Proof. intros [|e l He _] Hr; [done|]. cbn. rewrite <- (assoc_L (++)). by apply ep_start. Qed.
Lemma if_start n alts rest : if_ok n alts -> proper_start (if_bytes alts ++ rest).
Proof.
  intros [Hne Ha]. destruct Ha as [|a l [Ha _] _]; [done|].
  unfold if_bytes. cbn. rewrite <- (assoc_L (++)). by apply alt_start.
Qed.

Lemma nth_app_byte raw rest i : (i < length raw)%nat -> nth i (raw ++ rest) 0 = nth i raw 0.
Proof. intros Hi. by apply app_nth1. Qed.

Lemma drop_app_len {A} (l k : list A) : drop (Z.to_nat (len l)) (l ++ k) = k.
Proof. rewrite Nat2Z.id. apply drop_app_length. Qed.
Lemma ptr_diff_app l k : ptr_diff k (l ++ k) = len l.
Proof. unfold ptr_diff. rewrite length_app. lia. Qed.
Lemma len_app {A} (l k : list A) : len (l ++ k) = len l + len k.
Proof. rewrite length_app. lia. Qed.
Lemma len_snoc {A} (l : list A) x : len (l ++ [x]) = len l + 1.
Proof. by rewrite len_app. Qed.
Lemma take_app_len {A} (l k : list A) : take (Z.to_nat (len l)) (l ++ k) = l.
Proof. rewrite Nat2Z.id. apply take_app_length. Qed.

Section parsing.
Context (big : bool) (junk : list Z) (Hjunk : (9 <= length junk)%nat).

(** ** Class descriptors *)

Lemma advance_app l k : advance (l ++ k) (len l) = Ok k.
Proof. clear Hjunk. rewrite (advance_eq (l ++ k)) by (rewrite len_app; lia). by rewrite drop_app_len. Qed.

(** The whole rest of the buffer is left to be parsed: the size is its
    length. *)
Lemma skip_extra_tree xs rest fuel size parsed :
  Forall extra_ok xs -> proper_start rest -> size = len (concat xs ++ rest) -> size < Z.of_nat fuel ->
  skip_extra big junk fuel (concat xs ++ rest) size parsed
    = Ok (SkipDone rest (len rest) (parsed + len (concat xs))).
Proof.
  intros Hxs Hrest ->. revert fuel parsed.
  induction Hxs as [|x xs (Hb & Hx & Hl & H2) _ IH]; intros [|fuel] parsed Hf; try lia.
  - cbn [concat app length] in *. rewrite Z.add_0_r. destruct Hrest as [->|[[H2 Hle] Hp]]; [done|].
    cbn [skip_extra]. rewrite (proj2 (Z.ltb_ge _ _)) by (unfold DESC_HEADER_LENGTH; lia).
    rewrite read_header_eq by (done || lia). cbn [mbind outcome_bind].
    rewrite bLength_take, bDescriptorType_take by lia.
    rewrite (proj2 (Z.ltb_ge _ _)) by (unfold DESC_HEADER_LENGTH; lia).
    rewrite (proj2 (Z.ltb_ge _ _)) by lia. by rewrite Hp.
  - cbn [concat skip_extra]. rewrite <- (assoc_L (++)). destruct (header_app x (concat xs ++ rest)) as [HL HT]; [lia|].
    cbn [concat] in Hf. rewrite <- (assoc_L (++)), len_app in Hf.
    rewrite (proj2 (Z.ltb_ge _ _)) by (rewrite len_app; unfold DESC_HEADER_LENGTH; lia).
    rewrite read_header_eq by (done || rewrite length_app; lia). cbn [mbind outcome_bind].
    rewrite bLength_take, bDescriptorType_take, HL, HT, Hl, Hx by lia.
    rewrite (proj2 (Z.ltb_ge _ _)) by (unfold DESC_HEADER_LENGTH; lia).
    rewrite (proj2 (Z.ltb_ge _ _)) by (rewrite len_app; lia).
    rewrite advance_app. cbn [mbind outcome_bind].
    replace (len (x ++ concat xs ++ rest) - len x) with (len (concat xs ++ rest)) by (rewrite !len_app; lia).
    rewrite IH by lia. do 2 f_equal. rewrite len_app. lia.
Qed.

(** ** The heap never runs out *)

Definition plenty (h : heap) : Prop := no_malloc_failure h /\ no_realloc_failure h.

Lemma malloc_plenty h : plenty h -> wlp malloc h (fun p h' => (exists b, p = Some b) /\ plenty h').
Proof.
  clear. intros [Hm Hr] p h'. unfold malloc. rewrite Hm. intros [= <- <-].
  split; [by eexists|]. by split.
Qed.
Lemma free_plenty p h : plenty h -> wlp (free p) h (fun _ h' => plenty h').
Proof.
  clear. intros Hp [] h'. unfold free. destruct p; [case_decide|]; [|done|]; by intros [= <-].
Qed.
Lemma reallocf_plenty p h : plenty h -> wlp (usbi_reallocf p) h (fun q h' => (exists b, q = Some b) /\ plenty h').
Proof.
  clear. intros Hp. unfold usbi_reallocf, realloc. apply wlp_bind, wlp_bind. intros ? ? [= <- <-].
  rewrite (proj2 Hp). apply wlp_bind. eapply wlp_mono; [by apply free_plenty|]. intros [] h1 Hp1 q h2.
  unfold new_block. intros [= <- <-]. apply wlp_ret. split; [by eexists|exact Hp1].
Qed.

(** ** The members of the structures *)

Lemma bus_word_load l h : is_byte l -> is_byte h ->
  exists x y, bus_word big false [l; h] = [x; y] /\ host_value big [x; y] = l + 256 * h.
Proof.
  clear. unfold is_byte. intros Hl Hh. pose proof (host_value_bytes big 2 (l + 256 * h)) as Hv.
  assert (bus_word big false [l; h] = host_bytes big 2 (l + 256 * h)) as ->.
  { unfold bus_word. cbn [nth]. rewrite lor_shiftl_add by lia. f_equal. lia. }
  pose proof (host_bytes_length big 2 (l + 256 * h)) as Hlen.
  destruct (host_bytes big 2 (l + 256 * h)) as [|x [|y [|]]]; try done. exists x, y. split; [done|].
  apply Hv. change (2 ^ (8 * Z.of_nat 2)) with 65536. lia.
Qed.

Lemma le_value_single b : le_value [b] = b.
Proof. clear. cbn [le_value]. lia. Qed.

Lemma ep_struct a b c d l h e f g : is_byte l -> is_byte h ->
  struct_fields big "bbbbwbbb" ([a; b; c; d] ++ bus_word big false [l; h] ++ [e; f; g]) 0
    = [a; b; c; d; l + 256 * h; e; f; g].
Proof.
  clear. intros Hl Hh. destruct (bus_word_load l h Hl Hh) as (x & y & -> & Hv).
  transitivity [le_value [a]; le_value [b]; le_value [c]; le_value [d]; host_value big [x; y];
    le_value [e]; le_value [f]; le_value [g]]; [reflexivity|]. by rewrite Hv, !le_value_single.
Qed.
Lemma cfg_struct a b l h c d e f g : is_byte l -> is_byte h ->
  struct_fields big "bbwbbbbb" ([a; b] ++ bus_word big false [l; h] ++ [c; d; e; f; g]) 0
    = [a; b; l + 256 * h; c; d; e; f; g].
Proof.
  clear. intros Hl Hh. destruct (bus_word_load l h Hl Hh) as (x & y & -> & Hv).
  transitivity [le_value [a]; le_value [b]; host_value big [x; y]; le_value [c]; le_value [d];
    le_value [e]; le_value [f]; le_value [g]]; [reflexivity|]. by rewrite Hv, !le_value_single.
Qed.

(** The endpoint descriptor in the zero-filled structure. *)
Lemma parse_ep_struct raw rest : descriptor LIBUSB_DT_ENDPOINT ENDPOINT_DESC_LENGTH raw ->
  exists d n, usbi_parse_descriptor big (raw ++ rest)
      (if ENDPOINT_AUDIO_DESC_LENGTH <=? len raw then "bbbbwbbb" else "bbbbwb") (ep_raw zero_ep) false = Ok (n, d) /\
    struct_fields big "bbbbwbbb" d 0 = ep_fields raw.
Proof.
  clear Hjunk. intros (Hb & _ & _ & Hn). unfold ep_fields. unfold ENDPOINT_AUDIO_DESC_LENGTH, ENDPOINT_DESC_LENGTH in *.
  destruct (Z.leb_spec 9 (len raw)) as [H9|H9].
  - rewrite parse_ep_long by (done || rewrite length_app; lia). do 2 eexists. split; [done|].
    destruct (list_len9 raw) as (?&?&?&?&b4&b5&?&?&?&r&->); [lia|].
    rewrite !Forall_app, !Forall_cons in Hb.
    cbn [app take drop nth]. apply ep_struct; tauto.
  - rewrite parse_ep_short by (done || rewrite length_app; lia). do 2 eexists. split; [done|].
    do 7 (destruct raw as [|? raw]; [simpl in Hn; lia|]). rewrite !Forall_cons in Hb.
    cbn [app take drop nth zero_ep ep_raw replicate]. apply ep_struct; tauto.
Qed.
Lemma parse_cfg_struct raw rest dest : descriptor LIBUSB_DT_CONFIG LIBUSB_DT_CONFIG_SIZE raw ->
  length dest = 9%nat ->
  exists d, usbi_parse_descriptor big (raw ++ rest) "bbwbbbbb" dest false = Ok (9, d) /\
    struct_fields big "bbwbbbbb" d 0 = cfg_fields raw /\ nth 4 d 0 = nth 4 raw 0 /\ length d = 9%nat /\
    bLength d = bLength raw /\ bDescriptorType d = bDescriptorType raw.
Proof.
  clear Hjunk. intros (Hb & _ & _ & Hn) Hd. unfold LIBUSB_DT_CONFIG_SIZE in Hn.
  rewrite parse_config_raw by (done || rewrite length_app; lia). eexists. split; [done|].
  destruct (list_len9 raw) as (?&?&l&h&?&?&?&?&?&r&->); [lia|]. rewrite !Forall_app, !Forall_cons in Hb.
  cbn [app take drop]. split; [apply cfg_struct; tauto|].
  destruct (bus_word_load l h) as (w0 & w1 & -> & _); [tauto|tauto|done].
Qed.

(** ** The parsers on the encoding of a tree *)

Lemma size_minus (raw rest : list Z) : len (raw ++ rest) - len raw = len rest.
Proof. clear. rewrite len_app. lia. Qed.

Lemma skip_extra_fuel xs rest size parsed n :
  Forall extra_ok xs -> proper_start rest -> size = len (concat xs ++ rest) -> size <= n ->
  skip_extra big junk (S (Z.to_nat n)) (concat xs ++ rest) size parsed
    = Ok (SkipDone rest (len rest) (parsed + len (concat xs))).
Proof. intros Hxs Hr -> Hn. apply skip_extra_tree; [done|done|done|lia]. Qed.

Lemma parse_endpoint_tree e rest h :
  ep_ok e -> proper_start rest -> plenty h ->
  wlp (parse_endpoint big junk zero_ep (ep_bytes e ++ rest) (len (ep_bytes e ++ rest)) false) h
    (fun '(r, ep) h' => r = len (ep_bytes e) /\ read_ep big ep = ep_meaning e /\ plenty h').
Proof.
  intros [He Hxs] Hrest Hh. destruct He as (Hb & Ht & Hl & Hn) eqn:Heq. clear Heq.
  unfold parse_endpoint, ep_bytes. rewrite <- (assoc_L (++)). set (tail := concat (et_extra e) ++ rest).
  unfold ENDPOINT_DESC_LENGTH in Hn. destruct (header_app (et_raw e) tail) as [HL HT]; [lia|].
  rewrite (proj2 (Z.ltb_ge _ _)) by (rewrite len_app; unfold DESC_HEADER_LENGTH; lia).
  apply wlp_bind. eapply wlp_lift; [apply read_header_eq; [done|rewrite length_app; lia]|].
  rewrite bDescriptorType_take, bLength_take, HL, HT, Hl, Ht by lia. cbn [negb Z.eqb Pos.eqb].
  rewrite (proj2 (Z.ltb_ge _ _)) by (rewrite len_app; lia). cbv zeta.
  destruct (parse_ep_struct (et_raw e) tail He) as (d & n & Hd & Hf).
  assert (wlp (
    '(_, raw) ← lift (usbi_parse_descriptor big (et_raw e ++ tail)
       (if ENDPOINT_AUDIO_DESC_LENGTH <=? len (et_raw e) then "bbbbwbbb" else "bbbbwb") (ep_raw zero_ep) false);
    let ep := mk_ep raw (ep_extra zero_ep) (ep_extra_data zero_ep) (ep_extra_length zero_ep) in
    begin ← lift (advance (et_raw e ++ tail) (len (et_raw e)));
    r ← lift (skip_extra big junk (S (Z.to_nat (len (et_raw e ++ tail)))) begin
                (len (et_raw e ++ tail) - len (et_raw e)) (len (et_raw e)));
    match r with
    | SkipInvalid => mret (LIBUSB_ERROR_IO, ep)
    | SkipShort _ parsed => mret (parsed, ep)
    | SkipDone buffer _ parsed =>
        let len := ptr_diff buffer begin in
        if len =? 0 then mret (parsed, mk_ep raw None [] 0) else
        extra ← malloc;
        match extra with
        | None => mret (LIBUSB_ERROR_NO_MEM, mk_ep raw None [] 0)
        | Some b => mret (parsed, mk_ep raw (Some b) (take (Z.to_nat len) begin) len)
        end
    end) h
    (fun '(r, ep) h' => r = len (et_raw e ++ concat (et_extra e)) /\ read_ep big ep = ep_meaning e /\ plenty h')) as Hmain.
  { apply wlp_bind. eapply wlp_lift; [exact Hd|]. cbv zeta.
    apply wlp_bind. eapply wlp_lift; [apply advance_app|]. rewrite size_minus.
    apply wlp_bind. eapply wlp_lift; [apply skip_extra_fuel; [done|done|done|rewrite len_app; lia]|]. cbv zeta.
    unfold tail. rewrite ptr_diff_app. rewrite len_app. unfold read_ep, ep_meaning.
    destruct (Z.eqb_spec (len (concat (et_extra e))) 0) as [Hz|Hz].
    - apply wlp_ret. cbn [ep_raw ep_extra_data]. rewrite Hf.
      destruct (concat (et_extra e)); [done|simpl in Hz; lia].
    - apply wlp_bind. eapply wlp_mono; [by apply malloc_plenty|]. intros p h' [[b ->] Hp].
      apply wlp_ret. cbn [ep_raw ep_extra_data]. rewrite Hf, take_app_len. done. }
  destruct (Z.leb_spec ENDPOINT_AUDIO_DESC_LENGTH (len (et_raw e))); [exact Hmain|].
  rewrite (proj2 (Z.leb_le _ _)) by done. exact Hmain.
Qed.

Lemma app_cons_assoc {A} (l : list A) x k : l ++ x :: k = (l ++ [x]) ++ k.
Proof. clear. by rewrite <- (assoc_L (++)). Qed.
Lemma insert_slot {A} (l : list A) x y n : <[length l := y]> (l ++ replicate (S n) x) = (l ++ [y]) ++ replicate n x.
Proof. clear. rewrite (insert_app_r _ _ 0) || rewrite <- (Nat.add_0_r (length l)), insert_app_r. cbn. by rewrite app_cons_assoc. Qed.
Lemma lookup_slot {A} (l : list A) x n : (l ++ replicate (S n) x) !! length l = Some x.
Proof. clear. by rewrite lookup_app_r, Nat.sub_diag. Qed.

Lemma parse_endpoints_tree es eps0 rest parsed h :
  Forall ep_ok es -> proper_start rest -> plenty h ->
  let buffer := concat (map ep_bytes es) ++ rest in
  wlp (parse_endpoints big junk (length es) (length eps0) (eps0 ++ replicate (length es) zero_ep)
         buffer (len buffer) parsed false) h
    (fun r h' => exists eps, r = EpDone (eps0 ++ eps) (length eps0 + length es) rest (len rest)
        (parsed + len (concat (map ep_bytes es))) /\
      length eps = length es /\ map (read_ep big) eps = map ep_meaning es /\ plenty h').
Proof.
  intros Hes. revert eps0 parsed h. induction Hes as [|e es He Hes IH]; intros eps0 parsed h Hrest Hh.
  { apply wlp_ret. exists []. cbn. rewrite Nat.add_0_r, Z.add_0_r. done. }
  cbn [map concat length parse_endpoints]. rewrite <- (assoc_L (++)), lookup_slot. apply wlp_bind.
  eapply wlp_mono; [apply parse_endpoint_tree; [done|by apply eps_start|done]|].
  intros [r ep] h1 (-> & Hread & Hh1). cbv beta.
  assert (0 < len (ep_bytes e)) as Hpos.
  { destruct He as [(_ & _ & _ & Hn) _]. unfold ep_bytes, ENDPOINT_DESC_LENGTH in *. rewrite len_app. lia. }
  rewrite (proj2 (Z.ltb_ge _ _)), (proj2 (Z.eqb_neq _ _)) by lia. apply wlp_bind.
  eapply wlp_lift; [apply advance_app|]. rewrite size_minus, insert_slot.
  replace (S (length eps0)) with (length (eps0 ++ [ep])) by (rewrite length_app; simpl; lia).
  eapply wlp_mono; [by apply IH|]. intros r h2 (eps & -> & Hl & Hm & Hh2). exists (ep :: eps).
  rewrite <- app_cons_assoc, length_app, len_app. cbn [length map]. rewrite Hl, Hm, Hread.
  split; [|done]. f_equal; lia.
Qed.

(** ** Interfaces *)

(** Whether another alternate setting of interface [n] follows. *)
Definition next_setting (n : Z) (rest : list Z) : bool :=
  (LIBUSB_DT_INTERFACE_SIZE <=? len rest) && (nth 1 rest 0 =? LIBUSB_DT_INTERFACE) && (nth 2 rest 0 =? n).

(** The result of one turn: the new alternate setting is the last one. *)
Definition setting_result (a : alt_tree) (n : Z) (alts : list interface_descriptor) (rest : list Z) (parsed : Z)
    (r : altsetting_result) : Prop :=
  exists b d, read_alt big d = alt_meaning a /\ complete_altsetting d /\
    let u := mk_ui (Some b) (alts ++ [d]) (len alts + 1) in
    r = if next_setting n rest then AltNext u n rest (len rest) parsed else AltReturn parsed u.

Lemma rd_nth buf i : 0 <= i < len buf -> rd buf i = Ok (nth (Z.to_nat i) buf 0).
Proof.
  clear. intros Hi. unfold rd. rewrite (proj2 (Z.ltb_ge _ _)) by lia.
  destruct (nth_lookup_or_length buf (Z.to_nat i) 0) as [->|]; [done|lia].
Qed.

(** The end of a turn of the loop, as in [parse_altsetting_endpoints]. *)
Lemma next_setting_eq u n rest parsed :
  (if len rest <? LIBUSB_DT_INTERFACE_SIZE then mret (AltReturn parsed u) else
   t ← lift (rd rest 1);
   if negb (t =? LIBUSB_DT_INTERFACE) then mret (AltReturn parsed u) else
   m ← lift (rd rest 2);
   if negb (m =? n) then mret (AltReturn parsed u) else
   mret (AltNext u n rest (len rest) parsed))
  = (mret (if next_setting n rest then AltNext u n rest (len rest) parsed else AltReturn parsed u) : M heap _).
Proof.
  clear. unfold next_setting, LIBUSB_DT_INTERFACE_SIZE. destruct (Z.ltb_spec (len rest) 9) as [Hlt|Hge].
  { rewrite (proj2 (Z.leb_gt _ _)) by lia. done. }
  rewrite (proj2 (Z.leb_le _ _)), !rd_nth by lia. cbn [andb].
  unfold mret, M_ret, lift, mbind, M_bind. destruct (_ =? LIBUSB_DT_INTERFACE); [|done]. by destruct (_ =? n).
Qed.

Lemma set_ifp_last p alts d d' k : set_ifp (mk_ui p (alts ++ [d]) k) d' = mk_ui p (alts ++ [d']) k.
Proof.
  clear. unfold set_ifp. cbn. f_equal. rewrite length_app. cbn. rewrite Nat.add_1_r. cbn [pred].
  change [d] with (replicate 1 d). by rewrite insert_slot, app_nil_r.
Qed.

Lemma altsetting_endpoints_tree a b d alts n rest parsed h :
  alt_ok a -> proper_start rest -> plenty h ->
  if_raw d = take 9 (at_raw a) -> if_extra_data d = concat (at_extra a) -> if_endpoint d = None -> if_endpoints d = [] ->
  let buffer := concat (map ep_bytes (at_eps a)) ++ rest in
  wlp (parse_altsetting_endpoints big junk (mk_ui (Some b) (alts ++ [d]) (len alts + 1)) d n
         buffer (len buffer) parsed false) h
    (fun r h' => setting_result a n alts rest (parsed + len (concat (map ep_bytes (at_eps a)))) r /\ plenty h').
Proof.
  intros (Ha & _ & Hn & Hmax & Heps) Hrest Hh Hraw Hx Hnone Hnil buffer. unfold parse_altsetting_endpoints. cbv zeta.
  destruct Ha as (_ & _ & _ & H9). unfold INTERFACE_DESC_LENGTH in H9.
  assert (forall e es, bNumEndpoints (mk_ifd (if_raw d) (if_extra d) (if_extra_data d) (if_extra_length d) e es)
    = len (at_eps a)) as Hcount.
  { intros e es. unfold bNumEndpoints. cbn. rewrite Hraw, <- Hn.
    destruct (list_len9 (at_raw a)) as (?&?&?&?&?&?&?&?&?&r&->); [lia|done]. }
  assert (bNumEndpoints d = len (at_eps a)) as Hd by exact (Hcount None []). rewrite Hd.
  destruct (Z.ltb_spec 0 (len (at_eps a))) as [Hpos|Hzero].
  - apply wlp_bind. eapply wlp_mono; [by apply malloc_plenty|]. intros p h1 [[x ->] Hh1]. cbv beta.
    rewrite !Nat2Z.id. apply wlp_bind.
    eapply wlp_mono; [by apply (parse_endpoints_tree (at_eps a) [] rest parsed h1)|].
    intros r h2 (eps & -> & Hl & Hm & Hh2). cbv beta. rewrite decide_True by done.
    rewrite set_ifp_last, next_setting_eq. apply wlp_ret. split; [|done].
    eexists b, _. split; [|split; [|cbv zeta; reflexivity]].
    + unfold read_alt, altsetting_endpoints. cbn [if_raw if_extra_data if_endpoints app]. rewrite Hcount, Nat2Z.id.
      rewrite <- Hl, firstn_all, Hraw, Hx, Hm. done.
    + unfold complete_altsetting. rewrite Hcount. cbn. split; [lia|done].
  - destruct (at_eps a) as [|] eqn:He; [|simpl in Hzero; lia]. cbn [map concat app] in *.
    subst buffer. rewrite next_setting_eq. apply wlp_ret. cbn [length Z.of_nat]. rewrite Z.add_0_r.
    split; [|done]. exists b, d. split; [|split; [|done]].
    + unfold read_alt, altsetting_endpoints, alt_meaning. by rewrite Hd, Hraw, Hx, He.
    + unfold complete_altsetting. rewrite Hd, Hnil. cbn. split; [lia|done].
Qed.

Lemma parse_altsetting_tree a alts u n n0 rest parsed h :
  alt_ok a -> alt_number a = n -> n0 = -1 \/ n0 = n -> proper_start rest -> plenty h ->
  take (Z.to_nat (num_altsetting u)) (ui_slots u) = alts -> num_altsetting u = len alts ->
  let buffer := alt_bytes a ++ rest in
  wlp (parse_altsetting big junk u n0 buffer (len buffer) parsed false) h
    (fun r h' => setting_result a n alts rest (parsed + len (alt_bytes a)) r /\ plenty h').
Proof.
  intros Ha Hnum Hn0 Hrest Hh Halts Hcnt buffer. pose proof Ha as ((_ & Hty & Hlen & H9) & Hxs & Hn & Hmax & Heps).
  unfold parse_altsetting. apply wlp_bind. eapply wlp_mono; [by apply reallocf_plenty|].
  intros p h1 [[b ->] Hh1]. cbv beta zeta. rewrite Halts.
  unfold INTERFACE_DESC_LENGTH in H9. set (tail := concat (at_extra a) ++ concat (map ep_bytes (at_eps a)) ++ rest).
  assert (buffer = at_raw a ++ tail) as -> by (subst buffer tail; unfold alt_bytes; by rewrite <- !(assoc_L (++))).
  apply wlp_bind. eapply wlp_lift; [apply parse_9b; [done|rewrite length_app; lia]|]. cbv beta iota.
  rewrite take_app_le by lia.
  assert (bLength (take 9 (at_raw a)) = len (at_raw a) /\ bDescriptorType (take 9 (at_raw a)) = LIBUSB_DT_INTERFACE) as [-> ->]
    by (rewrite bLength_take, bDescriptorType_take by lia; done).
  assert (forall x y z e es, bNumEndpoints (mk_ifd (take 9 (at_raw a)) x y z e es) = len (at_eps a) /\
    bInterfaceNumber (mk_ifd (take 9 (at_raw a)) x y z e es) = n) as Hfields.
  { intros. unfold bNumEndpoints, bInterfaceNumber. cbn. rewrite <- Hn, <- Hnum. unfold alt_number.
    destruct (list_len9 (at_raw a)) as (?&?&?&?&?&?&?&?&?&r&->); [lia|done]. }
  destruct (Hfields None [] 0 None []) as [-> ->]. cbn [negb Z.eqb Pos.eqb].
  rewrite (proj2 (Z.ltb_ge _ _)) by (unfold INTERFACE_DESC_LENGTH; lia).
  rewrite (proj2 (Z.ltb_ge _ _)) by (rewrite len_app; lia). rewrite (proj2 (Z.ltb_ge _ _)) by done.
  assert ((if n0 =? -1 then n else n0) = n) as -> by (destruct (Z.eqb_spec n0 (-1)); [done|by destruct Hn0]).
  apply wlp_bind. eapply wlp_lift; [apply advance_app|]. rewrite size_minus. cbn [ui_altsetting ui_slots num_altsetting].
  apply wlp_bind. eapply wlp_lift; [apply skip_extra_fuel; [done|by apply eps_start|done|rewrite len_app; lia]|].
  cbv beta iota zeta. unfold tail. rewrite ptr_diff_app, Hcnt.
  assert (parsed + len (alt_bytes a) = parsed + len (at_raw a) + len (concat (at_extra a)) + len (concat (map ep_bytes (at_eps a)))) as ->
    by (unfold alt_bytes; rewrite !len_app; lia).
  destruct (Z.eqb_spec (len (concat (at_extra a))) 0) as [Hz|Hz].
  - apply altsetting_endpoints_tree; try done. by destruct (concat (at_extra a)); [|simpl in Hz; lia].
  - apply wlp_bind. eapply wlp_mono; [by apply malloc_plenty|]. intros p h2 [[x ->] Hh2]. cbv beta.
    rewrite set_ifp_last, take_app_len. by apply altsetting_endpoints_tree.
Qed.

Lemma next_setting_alt n a rest : alt_ok a -> next_setting n (alt_bytes a ++ rest) = (alt_number a =? n).
Proof.
  clear. intros ((_ & Hty & _ & H9) & _). unfold alt_bytes, alt_number, next_setting, INTERFACE_DESC_LENGTH in *.
  rewrite <- (assoc_L (++)), !app_nth1 by lia. unfold bDescriptorType in Hty. rewrite Hty, len_app.
  unfold LIBUSB_DT_INTERFACE_SIZE. by rewrite (proj2 (Z.leb_le _ _)) by lia.
Qed.

Lemma if_bytes_cons a alts rest : if_bytes (a :: alts) ++ rest = alt_bytes a ++ if_bytes alts ++ rest.
Proof. clear. unfold if_bytes. cbn. by rewrite (assoc_L (++)). Qed.

Lemma alt_bytes_length a : alt_ok a -> 9 <= len (alt_bytes a).
Proof. clear. intros ((_ & _ & _ & H9) & _). unfold alt_bytes, INTERFACE_DESC_LENGTH in *. rewrite len_app. lia. Qed.

(** The structure built for an interface. *)
Definition read_if (u : usb_interface) := map (read_alt big) (interface_altsettings u).

Lemma parse_interface_loop_tree n alts fuel alts0 u n0 rest parsed h :
  if_ok n alts -> n0 = -1 \/ n0 = n -> proper_start rest -> next_setting n rest = false -> plenty h ->
  take (Z.to_nat (num_altsetting u)) (ui_slots u) = alts0 -> num_altsetting u = len alts0 ->
  let buffer := if_bytes alts ++ rest in len buffer < Z.of_nat fuel ->
  wlp (parse_interface_loop big junk fuel u n0 buffer (len buffer) parsed false) h
    (fun '(r, u') h' => r = parsed + len (if_bytes alts) /\ plenty h' /\ exists b new,
      u' = mk_ui (Some b) (alts0 ++ new) (len alts0 + len alts) /\ length new = length alts /\
      map (read_alt big) new = map alt_meaning alts /\ Forall complete_altsetting new).
Proof.
  intros [Hne Ha]. revert fuel alts0 u n0 parsed h.
  induction Ha as [|a alts [Ha Hn] Hrest IH]; intros fuel alts0 u n0 parsed h Hn0 Hr Hns Hh H0 Hl buffer Hf; [done|].
  destruct fuel as [|fuel]; [lia|]. cbn [parse_interface_loop]. subst buffer. rewrite if_bytes_cons in *.
  pose proof (alt_bytes_length a Ha) as H9.
  rewrite (proj2 (Z.ltb_ge _ _)) by (rewrite len_app; unfold INTERFACE_DESC_LENGTH; lia).
  apply wlp_bind. eapply wlp_mono; [apply (parse_altsetting_tree a alts0 u n n0); try done|].
  { destruct Hrest as [|a' l [Ha' _] _]; [done|]. rewrite if_bytes_cons. by apply alt_start. }
  intros r h1 [(b & d & Hread & Hcomp & Hres) Hh1]. cbv zeta in Hres. subst r.
  assert (len (if_bytes (a :: alts)) = len (alt_bytes a) + len (if_bytes alts)) as Hlen
    by (unfold if_bytes; cbn; by rewrite len_app).
  destruct Hrest as [|a' l [Ha' Hn'] Hl'] eqn:He; clear He.
  - change (if_bytes [] ++ rest) with rest. change (len (if_bytes [])) with 0 in Hlen. rewrite Hns.
    apply wlp_ret. split; [lia|]. split; [done|].
    exists b, [d]. split; [done|]. split; [done|]. split; [cbn; by rewrite Hread|]. by constructor.
  - rewrite if_bytes_cons at 1. rewrite next_setting_alt, (proj2 (Z.eqb_eq _ _)) by done.
    eapply wlp_mono; [apply (IH ltac:(done) fuel (alts0 ++ [d]))|].
    + by right.
    + done.
    + done.
    + done.
    + cbn [num_altsetting ui_slots]. rewrite <- len_snoc with (x := d). apply firstn_all2. lia.
    + cbn. by rewrite len_snoc.
    + rewrite len_app in Hf. lia.
    + intros [r u'] h2 (-> & Hh2 & b' & new & -> & Hl2 & Hm & Hc). split; [lia|]. split; [done|].
      exists b', (d :: new). rewrite <- app_cons_assoc. split; [f_equal; rewrite len_snoc; cbn [length]; lia|].
      split; [by cbn [length]; rewrite Hl2|]. split; [exact (f_equal2 cons Hread Hm)|]. by constructor.
Qed.

Lemma parse_interface_tree n alts u rest h :
  if_ok n alts -> proper_start rest -> next_setting n rest = false -> plenty h ->
  let buffer := if_bytes alts ++ rest in
  wlp (parse_interface big junk u buffer (len buffer) false) h
    (fun '(r, u') h' => r = len (if_bytes alts) /\ plenty h' /\
      read_if u' = map alt_meaning alts /\ complete_interface u').
Proof.
  intros Hok Hr Hns Hh buffer. unfold parse_interface.
  eapply wlp_mono; [apply (parse_interface_loop_tree n alts _ []); try done; [by left|subst buffer; lia]|].
  intros [r u'] h1 (-> & Hh1 & b & new & -> & Hl & Hm & Hc). split; [done|]. split; [done|].
  assert (interface_altsettings (mk_ui (Some b) ([] ++ new) (len (@nil interface_descriptor) + len alts)) = new) as Hnew.
  { unfold interface_altsettings. cbn [ui_slots num_altsetting app length]. apply firstn_all2. lia. }
  split; [unfold read_if; by rewrite Hnew|]. unfold complete_interface. rewrite Hnew. cbn. split; [lia|]. split; done.
Qed.

(** ** The configuration *)

Definition ifs_bytes (ifs : list (list alt_tree)) : list Z := concat (map if_bytes ifs).

Lemma ifs_start numbers ifs : Forall2 if_ok numbers ifs -> proper_start (ifs_bytes ifs).
Proof. clear. intros [|n alts l1 l2 Hok _]; [by left|]. by apply (if_start n). Qed.

Lemma next_setting_ifs n numbers ifs : Forall2 if_ok numbers ifs -> n ∉ numbers ->
  next_setting n (ifs_bytes ifs) = false.
Proof.
  clear. intros [|m alts l1 l2 [Hne Ha] _] Hn; [done|]. destruct Ha as [|a alts [Ha <-] _]; [done|].
  change (ifs_bytes ((a :: alts) :: l2)) with (if_bytes (a :: alts) ++ ifs_bytes l2).
  rewrite if_bytes_cons, next_setting_alt by done. apply Z.eqb_neq. intros <-. apply Hn. by left.
Qed.

Lemma if_bytes_pos n alts : if_ok n alts -> 0 < len (if_bytes alts).
Proof.
  clear. intros [Hne Ha]. destruct Ha as [|a l [Ha _] _]; [done|]. pose proof (alt_bytes_length a Ha).
  unfold if_bytes. cbn. rewrite len_app. lia.
Qed.

(** What the loop over the interfaces leaves of [c] when it starts with [us]
    already parsed. *)
Definition ifs_result (c : config_descriptor) (us : list usb_interface) (xs : list (list Z))
    (ifs : list (list alt_tree)) (r : Z) (c' : config_descriptor) : Prop :=
  r = 0 /\ cfg_raw c' = cfg_raw c /\ cfg_interface c' = cfg_interface c /\
  cfg_extra_data c' = (if len (concat xs) =? 0 then cfg_extra_data c else concat xs) /\
  exists new, cfg_interfaces c' = us ++ new /\ length new = length ifs /\
    map read_if new = map (map alt_meaning) ifs /\ Forall complete_interface new.

Lemma parse_interfaces_tree numbers ifs xs us c h :
  Forall2 if_ok numbers ifs -> NoDup numbers -> Forall extra_ok xs -> (ifs = [] -> xs = []) ->
  xs = [] \/ cfg_extra_length c = 0 -> cfg_interfaces c = us ++ replicate (length ifs) zero_ui -> plenty h ->
  let buffer := concat xs ++ ifs_bytes ifs in
  wlp (parse_interfaces big junk (length ifs) (length us) c buffer (len buffer) false) h
    (fun '(r, c') h' => ifs_result c us xs ifs r c').
Proof.
  intros Hifs. revert xs us c h. induction Hifs as [|n alts numbers ifs Hok Hifs IH];
    intros xs us c h Hnd Hxs Hnil Hex Hslots Hh buffer.
  { subst buffer. rewrite (Hnil eq_refl) in *. apply wlp_ret. unfold ifs_result. cbn.
    do 4 (split; [done|]). exists []. done. }
  apply NoDup_cons in Hnd as [Hn Hnd]. cbn [length parse_interfaces]. subst buffer.
  apply wlp_bind. eapply wlp_lift; [apply skip_extra_fuel; [done| |done|lia]|].
  { by eapply (ifs_start (n :: numbers)), Forall2_cons. }
  cbv beta iota zeta. rewrite ptr_diff_app.
  assert (forall c0, cfg_raw c0 = cfg_raw c -> cfg_interface c0 = cfg_interface c ->
    cfg_interfaces c0 = cfg_interfaces c ->
    cfg_extra_data c0 = (if len (concat xs) =? 0 then cfg_extra_data c else concat xs) -> forall h, plenty h ->
    wlp (parse_one_interface big junk c0 (length us) (ifs_bytes (alts :: ifs)) (len (ifs_bytes (alts :: ifs))) false
          (fun c buffer size => parse_interfaces big junk (length ifs) (S (length us)) c buffer size false)) h
      (fun '(r, c') _ => ifs_result c us xs (alts :: ifs) r c')) as Hone.
  { intros c0 H1 H2 H3 H4 h0 Hh0. unfold parse_one_interface. rewrite H3, Hslots. cbn [length]. rewrite lookup_slot.
    change (ifs_bytes (alts :: ifs)) with (if_bytes alts ++ ifs_bytes ifs). apply wlp_bind.
    eapply wlp_mono; [apply (parse_interface_tree n); [done|by eapply ifs_start|by eapply next_setting_ifs|done]|].
    intros [r u] h1 (-> & Hh1 & Hread & Hcomp). cbv beta iota zeta. pose proof (if_bytes_pos n alts Hok).
    rewrite (proj2 (Z.ltb_ge _ _)), (proj2 (Z.eqb_neq _ _)) by lia. apply wlp_bind.
    eapply wlp_lift; [apply advance_app|]. rewrite size_minus.
    replace (S (length us)) with (length (us ++ [u])) by (rewrite length_app; cbn; lia).
    eapply wlp_mono; [apply (IH [] (us ++ [u]) _ h1 Hnd); [done|done|by left| |done]|].
    { unfold set_iface. cbn [cfg_interfaces]. rewrite H3, Hslots. cbn [length]. by rewrite insert_slot. }
    intros [r c'] h2 (-> & R1 & R2 & R3 & new & R4 & R5 & R6 & R7). unfold ifs_result. cbn [set_iface cfg_raw cfg_interface cfg_extra_data] in *.
    split; [done|]. split; [congruence|]. split; [congruence|]. split; [by rewrite R3|].
    exists (u :: new). rewrite R4, <- app_cons_assoc. split; [done|]. split; [cbn [length]; by rewrite R5|].
    split; [exact (f_equal2 cons Hread R6)|by constructor]. }
  destruct (Z.eqb_spec (len (concat xs)) 0) as [Hz|Hz]; cbn [orb]; [by apply Hone|].
  destruct Hex as [->|Hex]; [done|]. rewrite Hex. cbn [Z.eqb negb]. apply wlp_bind.
  eapply wlp_mono; [by apply malloc_plenty|]. intros p h1 [[x ->] Hh1]. cbv beta. rewrite take_app_len.
  by apply Hone.
Qed.

Lemma raw_desc_to_config_tree t h : cfg_ok t -> plenty h ->
  wlp (raw_desc_to_config big junk (cfg_bytes t) (len (cfg_bytes t)) false) h
    (fun '(r, c) _ => r = LIBUSB_SUCCESS /\ exists b d, c = Some (b, d) /\ read_cfg big d = cfg_meaning t /\
       complete_config d /\ bNumInterfaces d = len (ct_ifs t) /\ length (cfg_interfaces d) = length (ct_ifs t)).
Proof.
  intros (Hraw & Hxs & Hn & Hmax & Hnil & numbers & Hnd & Hifs) Hh. unfold raw_desc_to_config.
  apply wlp_bind. eapply wlp_mono; [by apply malloc_plenty|]. intros p h1 [[b ->] Hh1]. cbv beta.
  apply wlp_bind. unfold parse_configuration, cfg_bytes. fold (ifs_bytes (ct_ifs t)).
  set (tail := concat (ct_extra t) ++ ifs_bytes (ct_ifs t)). pose proof Hraw as (_ & Hty & Hlen & H9).
  unfold LIBUSB_DT_CONFIG_SIZE in *. rewrite (proj2 (Z.ltb_ge _ _)) by (rewrite len_app; lia).
  destruct (parse_cfg_struct (ct_raw t) tail (take 9 junk)) as (d & Hd & Hf & Hd4 & Hd9 & HL & HT);
    [done|rewrite length_take; lia|].
  apply wlp_bind. eapply wlp_lift; [exact Hd|]. cbv beta iota zeta.
  rewrite HT, HL, Hty, Hlen. cbn [negb Z.eqb Pos.eqb].
  assert (forall x y z e f, bNumInterfaces (mk_cfg d x y z e f) = len (ct_ifs t)) as Hcount
    by (intros; unfold bNumInterfaces; cbn [cfg_raw]; congruence).
  rewrite Hcount. rewrite (proj2 (Z.ltb_ge _ _)) by lia. rewrite (proj2 (Z.ltb_ge _ _)) by (rewrite len_app; lia).
  rewrite (proj2 (Z.ltb_ge _ _)) by done. apply wlp_bind.
  eapply wlp_mono; [by apply malloc_plenty|]. intros p h2 [[b2 ->] Hh2]. cbv beta.
  apply wlp_bind. eapply wlp_lift; [apply advance_app|]. rewrite size_minus, Nat2Z.id.
  eapply wlp_mono; [apply (parse_interfaces_tree numbers (ct_ifs t) (ct_extra t) []); try done; by right|].
  intros [r c] h3 (-> & R1 & R2 & R3 & new & R4 & R5 & R6 & R7). cbn [cfg_raw cfg_interface cfg_extra_data app] in *.
  apply wlp_ret. split; [done|]. exists b, c. split; [done|].
  assert (bNumInterfaces c = len (ct_ifs t)) as Hc by (unfold bNumInterfaces; rewrite R1; congruence).
  assert (config_interfaces c = new) as Hnew.
  { unfold config_interfaces. rewrite Hc, R4, <- R5, Nat2Z.id. apply firstn_all. }
  split; [|split; [|split; [done|by rewrite R4]]].
  - unfold read_cfg, cfg_meaning. rewrite R1, Hf, Hnew. unfold read_if in R6. rewrite R6. do 2 f_equal.
    rewrite R3. destruct (Z.eqb_spec (len (concat (ct_extra t))) 0); [|done].
    by destruct (concat (ct_extra t)).
  - unfold complete_config. rewrite Hnew, R4, R2, Hc. split; [lia|]. split; [done|exact R7].
Qed.
End parsing.

(** ** Fetching the configuration of a device *)

Lemma wlp_on_heap {W A} (m : M heap A) (s : dstate W) Q :
  wlp m (ds_heap s) (fun a h => Q a (mk_ds h (ds_world s))) -> wlp (on_heap m) s Q.
Proof.
  intros Hm a s'. unfold on_heap. destruct (m (ds_heap s)) as [[x h]|] eqn:Heq; [|done].
  intros [= <- <-]. by apply Hm.
Qed.

(** An operation that fills buffers from [bytes], in all good states. *)
Definition op_serves {W} (good : W -> Prop) (op : list Z -> bool -> M W (Z * list Z * bool)) (bytes : list Z) : Prop :=
  forall w buf he, good w -> exists w', good w' /\ op buf he w =
    Ok ((Z.of_nat (Nat.min (length buf) (length bytes)), take (length buf) bytes ++ drop (length bytes) buf, false), w').

(** The length announced by the configuration is its length. *)
Definition announced (t : cfg_tree) : Prop := word_at 2 (ct_raw t) = len (cfg_bytes t).

Definition tree_endpoints (t : cfg_tree) : list ep_tree := flat_map (flat_map at_eps) (ct_ifs t).
Definition tree_endpoint (t : cfg_tree) (address : Z) : option ep_tree :=
  find (fun e => nth 2 (et_raw e) 0 =? address) (tree_endpoints t).

Lemma read_ep_address big e : bEndpointAddress e = nth 2 (fst (read_ep big e)) 0.
Proof.
  unfold bEndpointAddress, read_ep. cbn [fst]. generalize (ep_raw e). intros raw.
  transitivity (le_value (take 1 (drop 2 raw))); [|reflexivity].
  destruct raw as [|? [|? [|x raw]]]; [done..|]. cbn [drop take nth]. by rewrite le_value_single.
Qed.

Lemma read_cfg_endpoints big c t : read_cfg big c = cfg_meaning t ->
  map (read_ep big) (config_endpoints c) = map ep_meaning (tree_endpoints t).
Proof.
  unfold read_cfg, cfg_meaning, config_endpoints, tree_endpoints. intros Heq%(f_equal snd). cbn [snd] in Heq.
  revert Heq. generalize (config_interfaces c) (ct_ifs t). induction l as [|u us IH]; intros [|alts ifs] Heq; try done.
  pose proof (inj Some _ _ (f_equal head Heq)) as Hu. pose proof (f_equal tail Heq) as Hus. cbn [tail map] in Hu, Hus.
  cbn [flat_map]. rewrite !map_app. f_equal; [|by apply IH]. clear - Hu.
  revert alts Hu. generalize (interface_altsettings u). induction l as [|d ds IH]; intros [|a alts] Hu; try done.
  pose proof (f_equal snd (inj Some _ _ (f_equal head Hu))) as Hd. pose proof (f_equal tail Hu) as Hds. cbn [tail map] in Hds.
  cbn [flat_map]. rewrite !map_app. f_equal; [exact Hd|by apply IH].
Qed.

Lemma find_read_ep big eps es address : map (read_ep big) eps = map ep_meaning es ->
  read_ep big <$> find (fun ep => bEndpointAddress ep =? address) eps
    = ep_meaning <$> find (fun e => nth 2 (et_raw e) 0 =? address) es.
Proof.
  revert es. induction eps as [|ep eps IH]; intros [|e es] Heq; try done.
  pose proof (inj Some _ _ (f_equal head Heq)) as He. pose proof (f_equal tail Heq) as Heqs. cbn [tail map] in Heqs.
  cbn [find]. rewrite (read_ep_address big), He. cbn [ep_meaning fst ep_fields app nth].
  destruct (_ =? address); [cbn; by rewrite He|by apply IH].
Qed.

Section fetching.
Context {W : Type} (good : W -> Prop).
Context (big : bool) (junk : nat -> list Z) (Hjunk : forall n, length (junk n) = n) (Hjunkb : forall n, is_bytes (junk n)).

Lemma parse_bbw raw rest dest : is_bytes raw -> (4 <= length raw)%nat -> (4 <= length dest)%nat ->
  exists d, usbi_parse_descriptor big (raw ++ rest) "bbw" dest false = Ok (4, d) /\ wTotalLength big d = word_at 2 raw.
Proof.
  clear. intros Hb Hr Hd. do 4 (destruct dest as [|? dest]; [simpl in Hd; lia|]).
  destruct raw as [|b0 [|b1 [|l [|h raw]]]]; simpl in Hr; try lia. rewrite !Forall_cons in Hb.
  destruct (bus_word_load big l h) as (x & y & Hw & Hv); [tauto|tauto|].
  exists ([b0; b1; x; y] ++ dest). split; [|exact Hv]. unfold bus_word in Hw. cbn [nth] in Hw.
  transitivity (Ok (4, b0 :: b1 :: host_bytes big 2 (Z.lor (Z.shiftl h 8) l) ++ dest) : outcome (Z * list Z));
    [by destruct big|by rewrite Hw].
Qed.

Lemma fetch_config_tree op t s :
  cfg_ok t -> announced t -> op_serves good op (cfg_bytes t) -> plenty (ds_heap s) -> good (ds_world s) ->
  wlp (fetch_config big junk op) s (fun '(r, c) _ => r = LIBUSB_SUCCESS /\
    exists b d, c = Some (b, d) /\ read_cfg big d = cfg_meaning t /\ complete_config d /\
      bNumInterfaces d = Z.of_nat (length (cfg_interfaces d))).
Proof.
  intros Hok Hann Hserve Hh Hgood. pose proof Hok as ((Hb & _ & _ & H9) & _). unfold LIBUSB_DT_CONFIG_SIZE in H9.
  assert (length (ct_raw t) <= length (cfg_bytes t))%nat as Hle by (unfold cfg_bytes; rewrite length_app; lia).
  unfold fetch_config. apply wlp_bind. intros [[r tmp] he] s1.
  destruct (Hserve _ (junk 9) false Hgood) as (w1 & Hgood1 & Heq1).
  unfold call. rewrite Heq1, Hjunk, Nat.min_l by lia. intros [= <- <- <- <-].
  rewrite (drop_ge (junk 9)), app_nil_r by (rewrite Hjunk; lia). apply wlp_bind.
  destruct (parse_bbw (take 9 (ct_raw t)) [] (junk 9)) as (d & Hd & Hw);
    [by apply is_bytes_take|rewrite length_take; lia|rewrite Hjunk; lia|].
  assert (take 9 (cfg_bytes t) = take 9 (ct_raw t) ++ []) as -> by (rewrite app_nil_r; unfold cfg_bytes; by rewrite take_app_le by lia).
  eapply wlp_lift; [exact Hd|]. cbv beta iota. rewrite Hw.
  assert (word_at 2 (take 9 (ct_raw t)) = len (cfg_bytes t)) as ->.
  { rewrite <- Hann. destruct (list_len9 (ct_raw t)) as (?&?&?&?&?&?&?&?&?&rr&->); [lia|done]. }
  apply wlp_bind, wlp_on_heap. eapply wlp_mono; [by apply malloc_plenty|]. intros p h1 [[b ->] Hh1]. cbv beta iota.
  apply wlp_bind. intros [[r data] he] s2. unfold call. cbn [ds_world ds_heap].
  destruct (Hserve _ (junk (Z.to_nat (len (cfg_bytes t)))) false Hgood1) as (w2 & Hgood2 & Heq2).
  rewrite Heq2, Hjunk, Nat2Z.id.
  intros [= <- <- <- <-]. rewrite Nat.min_id, firstn_all, drop_ge, app_nil_r by (rewrite Hjunk; lia).
  rewrite (proj2 (Z.leb_le _ _)) by lia. apply wlp_bind, wlp_on_heap. cbn [ds_heap].
  eapply wlp_mono; [apply (raw_desc_to_config_tree big (junk 9)); [by rewrite Hjunk|done|done]|].
  intros [r c] h2 (-> & b2 & d2 & -> & Hread & Hcomp & Hn & Hl). apply wlp_bind. intros [] s3 _. apply wlp_ret.
  split; [done|]. exists b2, d2. split; [done|]. split; [done|]. split; [done|]. by rewrite Hn, Hl.
Qed.

(** A buffer filled from the bytes of a configuration. *)
Lemma served_filled op t buf he w : cfg_ok t -> op_serves good op (cfg_bytes t) -> is_bytes buf -> good w ->
  wp (op buf he) w (fun res w' => filled_buffer buf res /\ good w').
Proof.
  intros Hok Hserve Hb Hgood. destruct (Hserve w buf he Hgood) as (w' & Hgood' & Heq). apply wp_ok. eexists _, w'.
  split; [exact Heq|]. split; [|done]. split; [|split].
  - apply Forall_app_2; [apply is_bytes_take, cfg_ok_bytes, Hok|by apply is_bytes_drop].
  - rewrite length_app, length_take, length_drop. lia.
  - lia.
Qed.

(** [m] hands out the configuration [t], whose memory is all that it
    allocated. *)
Definition loaded (m : M (dstate W) config_result) (t : cfg_tree) (s : dstate W) : Prop :=
  exists b c s', m s = Ok ((LIBUSB_SUCCESS, Some (b, c)), s') /\ read_cfg big c = cfg_meaning t /\
    live (ds_heap s') = {[+ b +]} ⊎ own_cfg c ⊎ live (ds_heap s).

Lemma fetch_config_loads op t s :
  cfg_ok t -> announced t -> op_serves good op (cfg_bytes t) -> plenty (ds_heap s) -> good (ds_world s) ->
  loaded (fetch_config big junk op) t s.
Proof.
  intros Hok Hann Hserve Hh Hgood.
  pose proof (fetch_config_wp good big junk Hjunk Hjunkb op s _
    (fun buf he w => served_filled op t buf he w Hok Hserve) Hgood (proj2 Hh) eq_refl) as Hsafe.
  pose proof (wp_wlp _ _ _ _ Hsafe (fetch_config_tree op t s Hok Hann Hserve Hh Hgood)) as Hboth.
  apply wp_ok in Hboth as ([r c] & s1 & Heq & Hfetched & -> & b & d & -> & Hread & _ & _).
  destruct Hfetched as (_ & _ & Hl & _). by exists b, d, s1.
Qed.
End fetching.

Section device.
Context {W : Type} (be : desc_backend W) (good : W -> Prop) `{!DescBackendLaws be good}.
Context (big : bool) (junk : nat -> list Z) (Hjunk : forall n, length (junk n) = n) (Hjunkb : forall n, is_bytes (junk n)).

(** With the safety of fetching and releasing: the endpoint that is found
    is the first of the tree, and the heap is as before. *)
Lemma with_active_config t s (address : Z) (f : option endpoint_descriptor -> Z) :
  cfg_ok t -> announced t -> op_serves good (get_active_config_descriptor be) (cfg_bytes t) -> plenty (ds_heap s) ->
  good (ds_world s) ->
  exists ep s', ('(r, config) ← libusb_get_active_config_descriptor be big junk;
      match config with
      | Some (b, c) =>
          ep ← lift (find_endpoint c address);
          let r := f ep in
          on_heap (libusb_free_config_descriptor (Some (b, c))) ;; mret r
      | None => if r <? 0 then mret LIBUSB_ERROR_OTHER else fail NullDeref
      end) s = Ok (f ep, s') /\
    read_ep big <$> ep = ep_meaning <$> tree_endpoint t address /\ live (ds_heap s') = live (ds_heap s).
Proof.
  intros Hok Hann Hserve Hh Hgood.
  pose proof (fetch_config_wp good big junk Hjunk Hjunkb (get_active_config_descriptor be) s _
    active_law Hgood (proj2 Hh) eq_refl) as Hsafe.
  pose proof (wp_wlp _ _ _ _ Hsafe (fetch_config_tree good big junk Hjunk _ t s Hok Hann Hserve Hh Hgood)) as Hboth.
  apply wp_ok in Hboth as ([r c] & s1 & Heq & Hfetched & -> & b & d & -> & Hread & Hcomp & Hn).
  destruct Hfetched as (_ & Hwf & Hl & _).
  exists (find (fun ep => bEndpointAddress ep =? address) (config_endpoints d)).
  destruct (proj1 (wp_ok _ _ _) (free_config_wp b d (ds_heap s1) (live (ds_heap s)) Hwf Hl)) as ([] & h2 & Hfree & Hl2 & _).
  exists (mk_ds h2 (ds_world s1)). split; [|split].
  - change (fetch_config big junk (get_active_config_descriptor be)) with (libusb_get_active_config_descriptor be big junk) in Heq.
    unfold mbind at 1, M_bind at 1. rewrite Heq. unfold mbind, M_bind, lift. rewrite find_endpoint_complete by done.
    unfold on_heap. by rewrite Hfree.
  - unfold tree_endpoint. apply find_read_ep. by apply read_cfg_endpoints.
  - cbn [ds_heap]. rewrite Hl2, leaked_full by done. multiset_solver.
Qed.
End device.
