(* ===== verification/Bos.v ===== *)
(** * Binary Object Store descriptors (libusb/descriptor.c, libusb.h)

    [libusb_get_bos_descriptor] with [parse_bos], the device capability
    descriptors, the SuperSpeed endpoint companion descriptor, and the
    functions that release them.  The control transfer they use is an
    interface: the synchronous API implements it. *)

From S2P Require Import Prelude Heap ParseDesc Config ConfigSafety DescApi.

(** [libusb_control_transfer], on the bytes of the data buffer: the code it
    returns with the new contents of the buffer. *)
Class ControlTransfer (W : Type) : Type :=
  control_transfer : forall (request_type bRequest wValue wIndex : Z) (data : list Z)
    (wLength timeout : Z), M W (Z * list Z).

(** What the callers rely on when the buffer holds [wLength] bytes: the call
    returns, the buffer keeps its size, and a count is at most [wLength]. *)
Class ControlTransferLaws (W : Type) {ct : ControlTransfer W} : Prop :=
  control_transfer_law : forall rt br v i data n t w,
    is_bytes data -> 0 <= n <= Z.of_nat (length data) ->
    wp (control_transfer rt br v i data n t) w (fun res _ =>
      is_bytes (snd res) /\ length (snd res) = length data /\ fst res <= n).

Definition LIBUSB_ENDPOINT_IN : Z := 128.
Definition LIBUSB_REQUEST_GET_DESCRIPTOR : Z := 6.

Section get_descriptor.
Context {W : Type} {ct : ControlTransfer W}.

(** libusb.h *)
Definition libusb_get_descriptor (desc_type desc_index : Z) (data : list Z) (len : Z)
    : M W (Z * list Z) :=
  control_transfer LIBUSB_ENDPOINT_IN LIBUSB_REQUEST_GET_DESCRIPTOR
    (u16 (Z.lor (Z.shiftl desc_type 8) desc_index)) 0 data (u16 len) 1000.

Definition libusb_get_string_descriptor (desc_index langid : Z) (data : list Z) (len : Z)
    : M W (Z * list Z) :=
  control_transfer LIBUSB_ENDPOINT_IN LIBUSB_REQUEST_GET_DESCRIPTOR
    (u16 (Z.lor (Z.shiftl LIBUSB_DT_STRING 8) desc_index)) langid data (u16 len) 1000.
End get_descriptor.

(** [struct libusb_bos_descriptor]: the packed part and the array of
    capabilities, each a block with its bytes. *)
Abbreviation dev_capability := (option (nat * list Z)).
Record bos_descriptor : Type := mk_bos {
  bos_raw : list Z;
  bos_caps : list dev_capability
}.
Definition bNumDeviceCaps (raw : list Z) : Z := nth 4%nat raw 0.
Definition set_bNumDeviceCaps (n : Z) (b : bos_descriptor) : bos_descriptor :=
  mk_bos (<[4%nat := u8 n]> (bos_raw b)) (bos_caps b).
Definition set_cap (i : nat) (c : dev_capability) (b : bos_descriptor) : bos_descriptor :=
  mk_bos (bos_raw b) (<[i := c]> (bos_caps b)).

Definition libusb_free_bos_descriptor (bos : option (nat * bos_descriptor)) : M heap unit :=
  match bos with
  | None => mret tt
  | Some (b, d) =>
      touch (Some b) ;;
      for_array (Some b) (bos_caps d) (bNumDeviceCaps (bos_raw d)) (fun c => free (fst <$> c)) ;;
      free (Some b)
  end.

Definition bos_result : Type := Z * option (nat * bos_descriptor).

Section bos.
Variable big : bool.
Variable junk : nat -> list Z.

(** The loop over the device capabilities; [n] is the number of turns left.
    The result carries the value of [i] at the end of the loop. *)
Inductive caps_result : Type :=
| CapsErr (r : Z)
| CapsDone (d : bos_descriptor) (i : nat).

Fixpoint parse_caps (n i : nat) (b : nat) (d : bos_descriptor) (buffer : list Z) (size : Z)
    (host_endian : bool) : M heap caps_result :=
  match n with
  | O => mret (CapsDone d i)
  | S n =>
      if size <? LIBUSB_DT_DEVICE_CAPABILITY_SIZE then mret (CapsDone d i) else
      '(_, cap) ← lift (usbi_parse_descriptor big buffer "bbb" (junk 3) host_endian);
      if negb (bDescriptorType cap =? LIBUSB_DT_DEVICE_CAPABILITY) then mret (CapsDone d i)
      else if bLength cap <? LIBUSB_DT_DEVICE_CAPABILITY_SIZE then
        libusb_free_bos_descriptor (Some (b, d)) ;; mret (CapsErr LIBUSB_ERROR_IO)
      else if size <? bLength cap then mret (CapsDone d i)
      else
      if decide (i < length (bos_caps d))%nat then
        p ← malloc;
        match p with
        | None => libusb_free_bos_descriptor (Some (b, set_cap i None d)) ;;
                  mret (CapsErr LIBUSB_ERROR_NO_MEM)
        | Some x =>
            bytes ← lift (rd_n buffer (Z.to_nat (bLength cap)));
            buffer ← lift (advance buffer (bLength cap));
            parse_caps n (S i) b (set_cap i (Some (x, bytes)) d) buffer (size - bLength cap)
              host_endian
        end
      else fail OutOfBounds
  end.

Definition parse_bos (buffer : list Z) (size : Z) (host_endian : bool) : M heap bos_result :=
  if size <? LIBUSB_DT_BOS_SIZE then mret (LIBUSB_ERROR_IO, None) else
  '(_, bos_header) ← lift (usbi_parse_descriptor big buffer "bbwb" (junk 5) host_endian);
  if negb (bDescriptorType bos_header =? LIBUSB_DT_BOS) then mret (LIBUSB_ERROR_IO, None)
  else if bLength bos_header <? LIBUSB_DT_BOS_SIZE then mret (LIBUSB_ERROR_IO, None)
  else if size <? bLength bos_header then mret (LIBUSB_ERROR_IO, None)
  else
  let n := Z.to_nat (bNumDeviceCaps bos_header) in
  p ← malloc;
  match p with
  | None => mret (LIBUSB_ERROR_NO_MEM, None)
  | Some b =>
      '(_, raw) ← lift (usbi_parse_descriptor big buffer "bbwb" (replicate 5 0) host_endian);
      buffer ← lift (advance buffer (bLength bos_header));
      r ← parse_caps n 0 b (mk_bos raw (replicate n None)) buffer (size - bLength bos_header)
            host_endian;
      match r with
      | CapsErr r => mret (r, None)
      | CapsDone d i => mret (LIBUSB_SUCCESS, Some (b, set_bNumDeviceCaps (Z.of_nat i) d))
      end
  end.

(** The heap next to the state of the device. *)
Definition on_world {W A} (m : M W A) : M (dstate W) A := fun s =>
  match m (ds_world s) with
  | Ok (a, w) => Ok (a, mk_ds (ds_heap s) w)
  | Fault f => Fault f
  end.

Definition libusb_get_bos_descriptor {W} `{ControlTransfer W} : M (dstate W) bos_result :=
  '(r, bos_header) ← on_world
    (libusb_get_descriptor LIBUSB_DT_BOS 0 (replicate 5 0) LIBUSB_DT_BOS_SIZE);
  if r <? 0 then mret (r, None)
  else if r <? LIBUSB_DT_BOS_SIZE then mret (LIBUSB_ERROR_IO, None)
  else
  '(_, bos) ← lift (usbi_parse_descriptor big bos_header "bbwb" (junk 5) false);
  p ← on_heap malloc;
  match p with
  | None => mret (LIBUSB_ERROR_NO_MEM, None)
  | Some b =>
      let total := wTotalLength big bos in
      '(r, bos_data) ← on_world
        (libusb_get_descriptor LIBUSB_DT_BOS 0 (replicate (Z.to_nat total) 0) total);
      res ← (if 0 <=? r then on_heap (parse_bos bos_data r false) else mret (r, None));
      on_heap (free (Some b)) ;;
      mret res
  end.

(** ** Capability descriptors *)

Definition LIBUSB_BT_USB_2_0_EXTENSION : Z := 2.
Definition LIBUSB_BT_SS_USB_DEVICE_CAPABILITY : Z := 3.
Definition LIBUSB_BT_CONTAINER_ID : Z := 4.
Definition LIBUSB_BT_USB_2_0_EXTENSION_SIZE : Z := 7.
Definition LIBUSB_BT_SS_USB_DEVICE_CAPABILITY_SIZE : Z := 10.
Definition LIBUSB_BT_CONTAINER_ID_SIZE : Z := 20.

Definition desc_result : Type := Z * option (nat * list Z).

(** [dev_cap] is the bytes of the capability descriptor. *)
Definition libusb_get_usb_2_0_extension_descriptor (dev_cap : list Z) : M heap desc_result :=
  t ← lift (rd dev_cap 2);
  if negb (t =? LIBUSB_BT_USB_2_0_EXTENSION) then mret (LIBUSB_ERROR_INVALID_PARAM, None) else
  len ← lift (rd dev_cap 0);
  if len <? LIBUSB_BT_USB_2_0_EXTENSION_SIZE then mret (LIBUSB_ERROR_IO, None) else
  p ← malloc;
  match p with
  | None => mret (LIBUSB_ERROR_NO_MEM, None)
  | Some b =>
      '(_, d) ← lift (usbi_parse_descriptor big dev_cap "bbbd" (junk 8) false);
      mret (LIBUSB_SUCCESS, Some (b, d))
  end.

Definition libusb_get_ss_usb_device_capability_descriptor (dev_cap : list Z) : M heap desc_result :=
  t ← lift (rd dev_cap 2);
  if negb (t =? LIBUSB_BT_SS_USB_DEVICE_CAPABILITY) then mret (LIBUSB_ERROR_INVALID_PARAM, None) else
  len ← lift (rd dev_cap 0);
  if len <? LIBUSB_BT_SS_USB_DEVICE_CAPABILITY_SIZE then mret (LIBUSB_ERROR_IO, None) else
  p ← malloc;
  match p with
  | None => mret (LIBUSB_ERROR_NO_MEM, None)
  | Some b =>
      '(_, d) ← lift (usbi_parse_descriptor big dev_cap "bbbbwbbw" (junk 10) false);
      mret (LIBUSB_SUCCESS, Some (b, d))
  end.

Definition libusb_get_container_id_descriptor (dev_cap : list Z) : M heap desc_result :=
  t ← lift (rd dev_cap 2);
  if negb (t =? LIBUSB_BT_CONTAINER_ID) then mret (LIBUSB_ERROR_INVALID_PARAM, None) else
  len ← lift (rd dev_cap 0);
  if len <? LIBUSB_BT_CONTAINER_ID_SIZE then mret (LIBUSB_ERROR_IO, None) else
  p ← malloc;
  match p with
  | None => mret (LIBUSB_ERROR_NO_MEM, None)
  | Some b =>
      '(_, d) ← lift (usbi_parse_descriptor big dev_cap "bbbbu" (junk 20) false);
      mret (LIBUSB_SUCCESS, Some (b, d))
  end.

(** The loop over the extra bytes of an endpoint. *)
Fixpoint ss_companion_loop (fuel : nat) (buffer : list Z) (size : Z) : M heap desc_result :=
  match fuel with
  | O => fail OutOfFuel
  | S fuel =>
      if size <? DESC_HEADER_LENGTH then mret (LIBUSB_ERROR_NOT_FOUND, None) else
      header ← lift (read_header big (junk 2) buffer);
      if (bLength header <? 2) || (size <? bLength header) then mret (LIBUSB_ERROR_IO, None)
      else if negb (bDescriptorType header =? LIBUSB_DT_SS_ENDPOINT_COMPANION) then
        buffer ← lift (advance buffer (bLength header));
        ss_companion_loop fuel buffer (size - bLength header)
      else if bLength header <? LIBUSB_DT_SS_ENDPOINT_COMPANION_SIZE then
        mret (LIBUSB_ERROR_IO, None)
      else
        p ← malloc;
        match p with
        | None => mret (LIBUSB_ERROR_NO_MEM, None)
        | Some b =>
            '(_, d) ← lift (usbi_parse_descriptor big buffer "bbbbw" (junk 6) false);
            mret (LIBUSB_SUCCESS, Some (b, d))
        end
  end.

Definition libusb_get_ss_endpoint_companion_descriptor (endpoint : endpoint_descriptor)
    : M heap desc_result :=
  ss_companion_loop (S (Z.to_nat (ep_extra_length endpoint))) (ep_extra_data endpoint)
    (ep_extra_length endpoint).

(** The four functions that release a single block. *)
Definition libusb_free_usb_2_0_extension_descriptor (p : option nat) : M heap unit := free p.
Definition libusb_free_ss_usb_device_capability_descriptor (p : option nat) : M heap unit := free p.
Definition libusb_free_container_id_descriptor (p : option nat) : M heap unit := free p.
Definition libusb_free_ss_endpoint_companion_descriptor (p : option nat) : M heap unit := free p.
End bos.

(** ** Ownership and well-formedness *)

Definition own_cap (c : dev_capability) : gmultiset nat := own (fst <$> c).
Definition own_bos (d : bos_descriptor) : gmultiset nat := msum own_cap (bos_caps d).

(** A capability as [parse_bos] stores it: a device capability descriptor
    with all of its bytes. *)
Definition wf_cap (bytes : list Z) : Prop :=
  is_bytes bytes /\ bLength bytes = Z.of_nat (length bytes) /\ (3 <= length bytes)%nat /\
  bDescriptorType bytes = LIBUSB_DT_DEVICE_CAPABILITY.

(** The first [i] entries are capabilities, the others null pointers. *)
Definition caps_upto (i : nat) (caps : list dev_capability) : Prop :=
  (i <= length caps)%nat /\
  (forall j c, caps !! j = Some c -> (i <= j)%nat -> c = None) /\
  (forall j c, caps !! j = Some c -> (j < i)%nat -> exists x bytes, c = Some (x, bytes) /\ wf_cap bytes).

Definition wf_bos (d : bos_descriptor) : Prop :=
  length (bos_raw d) = 5%nat /\ 0 <= bNumDeviceCaps (bos_raw d) /\
  caps_upto (Z.to_nat (bNumDeviceCaps (bos_raw d))) (bos_caps d).

Lemma own_caps_take n caps :
  (forall j c, caps !! j = Some c -> (n <= j)%nat -> c = None) ->
  msum own_cap caps = msum own_cap (take n caps).
Proof.
  intros Hn. rewrite (msum_take_drop _ n caps), (msum_empty _ (drop n caps)); [multiset_solver|].
  intros c [j Hj]%list_elem_of_lookup. rewrite lookup_drop in Hj.
  by rewrite (Hn (n + j)%nat c) by (done || lia).
Qed.

Lemma own_caps_replicate n : msum own_cap (replicate n None) = ∅.
Proof. apply msum_empty. intros c [-> _]%elem_of_replicate. done. Qed.

(** Releasing needs the counted entries to exist, and the others to be
    null. *)
Lemma free_bos_wp b d h F :
  (Z.to_nat (bNumDeviceCaps (bos_raw d)) <= length (bos_caps d))%nat ->
  (forall j c, bos_caps d !! j = Some c -> (Z.to_nat (bNumDeviceCaps (bos_raw d)) <= j)%nat -> c = None) ->
  live h = {[+ b +]} ⊎ own_bos d ⊎ F ->
  wp (libusb_free_bos_descriptor (Some (b, d))) h (fun _ h' => live h' = F /\ same_oracles h h').
Proof.
  intros Hn Hnone HF. unfold libusb_free_bos_descriptor, own_bos in *.
  rewrite (own_caps_take _ _ Hnone) in HF.
  apply wp_bind. eapply touch_wp; [rewrite HF; symmetry; apply (assoc_L (⊎))|].
  apply wp_bind. eapply wp_mono; [apply (for_array_wp own_cap _ _ _ _ _ F Hn)|].
  - intros c h' G _ HG. apply (free_wp _ _ G); done.
  - rewrite HF. multiset_solver.
  - intros [] h1 [Hl1 Ho1]. apply (free_wp _ _ F); [done|]. intros h2 Hl2 Ho2.
    split; [done|by etrans].
Qed.

Section bos_specs.
Context (big : bool) (junk : nat -> list Z) (Hjunk : forall n, length (junk n) = n).

Lemma parse_bos_header (dest buffer : list Z) he :
  length dest = 5%nat -> (5 <= length buffer)%nat ->
  usbi_parse_descriptor big buffer "bbwb" dest he
  = Ok (5, take 2 buffer ++ bus_word big he (take 2 (drop 2 buffer)) ++ take 1 (drop 4 buffer)).
Proof.
  clear Hjunk.
  intros Hd Hb. destruct dest as [|? [|? [|? [|? [|? [|]]]]]]; try done.
  destruct buffer as [|x0 [|x1 [|x2 [|x3 [|x4 buffer]]]]]; simpl in Hb; try lia.
  unfold bus_word. destruct he, big; reflexivity.
Qed.

Lemma parse_3b buffer : (3 <= length buffer)%nat ->
  exists n, forall he, usbi_parse_descriptor big buffer "bbb" (junk 3) he = Ok (n, take 3 buffer).
Proof.
  intros Hb. pose proof (Hjunk 3) as Hj.
  destruct (junk 3) as [|? [|? [|? [|]]]]; try done.
  destruct buffer as [|x0 [|x1 [|x2 buffer]]]; simpl in Hb; try lia.
  eexists. reflexivity.
Qed.

Lemma caps_upto_insert i caps x bytes :
  caps_upto i caps -> (i < length caps)%nat -> wf_cap bytes ->
  caps_upto (S i) (<[i := Some (x, bytes)]> caps).
Proof.
  clear. intros (Hle & Hhi & Hlo) Hi Hwf. unfold caps_upto. rewrite length_insert.
  conj3; [lia| |].
  - intros j c Hj Hge. rewrite list_lookup_insert_ne in Hj by lia. apply (Hhi j); [done|lia].
  - intros j c Hj Hlt. destruct (decide (j = i)) as [->|Hne].
    + rewrite list_lookup_insert_eq in Hj by done. simplify_eq. eauto.
    + rewrite list_lookup_insert_ne in Hj by done. apply (Hlo j); [done|lia].
Qed.

Lemma own_caps_insert i caps x bytes :
  caps_upto i caps -> (i < length caps)%nat ->
  msum own_cap (<[i := Some (x, bytes)]> caps) = {[+ x +]} ⊎ msum own_cap caps.
Proof.
  clear. intros (_ & Hhi & _) Hi.
  destruct (lookup_lt_is_Some_2 caps i Hi) as [c Hc].
  pose proof (msum_insert own_cap caps i c (Some (x, bytes)) Hc) as Hins.
  rewrite (Hhi i c Hc) in Hins by lia. unfold own_cap at 1 3 in Hins. simpl in Hins.
  multiset_solver.
Qed.

Lemma insert_none i caps : caps_upto i caps -> <[i := None]> caps = caps.
Proof.
  clear. intros (_ & Hhi & _). destruct (decide (i < length caps)%nat) as [Hi|Hi].
  - destruct (lookup_lt_is_Some_2 caps i Hi) as [c Hc].
    apply list_insert_id. by rewrite Hc, (Hhi i c Hc) by lia.
  - apply list_insert_ge. lia.
Qed.

Lemma wf_cap_take (buffer : list Z) size :
  is_bytes buffer -> 0 <= size <= Z.of_nat (length buffer) -> (3 <= length buffer)%nat ->
  3 <= bLength buffer <= size -> bDescriptorType buffer = LIBUSB_DT_DEVICE_CAPABILITY ->
  wf_cap (take (Z.to_nat (bLength buffer)) buffer).
Proof.
  clear. intros Hb Hs H3 Hl Ht. unfold wf_cap.
  rewrite length_take, bLength_take, bDescriptorType_take by lia. split_and!; auto; lia.
Qed.

Definition caps_post (F : gmultiset nat) (b : nat) (raw : list Z) (r : caps_result) (h' : heap) : Prop :=
  match r with
  | CapsErr r => (r = LIBUSB_ERROR_IO \/ r = LIBUSB_ERROR_NO_MEM) /\ live h' = F
  | CapsDone d i => bos_raw d = raw /\ caps_upto i (bos_caps d) /\
      length (bos_caps d) = Z.to_nat (bNumDeviceCaps raw) /\ live h' = {[+ b +]} ⊎ own_bos d ⊎ F
  end.

Lemma parse_caps_wp n i b d buffer size he h F :
  is_bytes buffer -> 0 <= size <= Z.of_nat (length buffer) ->
  caps_upto i (bos_caps d) -> length (bos_caps d) = Z.to_nat (bNumDeviceCaps (bos_raw d)) ->
  (i + n = length (bos_caps d))%nat ->
  live h = {[+ b +]} ⊎ own_bos d ⊎ F ->
  wp (parse_caps big junk n i b d buffer size he) h
    (fun r h' => caps_post F b (bos_raw d) r h' /\ same_oracles h h').
Proof.
  revert i d buffer size h. induction n as [|n IH]; intros i d buffer size h Hb Hs Hcaps Hlen Hin HF;
    cbn [parse_caps].
  { apply wp_ret. by split. }
  assert (forall j c, bos_caps d !! j = Some c -> (length (bos_caps d) <= j)%nat -> c = None) as Hend.
  { intros j c Hj Hge. apply lookup_lt_Some in Hj. lia. }
  destruct (Z.ltb_spec size LIBUSB_DT_DEVICE_CAPABILITY_SIZE) as [Hlt|Hge];
    [apply wp_ret; by split|]. unfold LIBUSB_DT_DEVICE_CAPABILITY_SIZE in *.
  destruct (parse_3b buffer) as [m Hm]; [lia|].
  apply wp_bind. eapply wp_lift; [apply Hm|]. cbv beta iota.
  rewrite bDescriptorType_take, bLength_take by lia.
  destruct (Z.eqb_spec (bDescriptorType buffer) LIBUSB_DT_DEVICE_CAPABILITY) as [Ht|Ht]; simpl negb; cbv iota;
    [|apply wp_ret; by split].
  destruct (Z.ltb_spec (bLength buffer) 3) as [Hl3|Hl3].
  { apply wp_bind. eapply wp_mono; [apply (free_bos_wp _ _ _ F); [lia| |done]|].
    - rewrite <- Hlen. apply Hend.
    - intros [] h' [Hl' Ho']. apply wp_ret. split; [|done]. split; [by left|done]. }
  destruct (Z.ltb_spec size (bLength buffer)) as [Hsz|Hsz]; [apply wp_ret; by split|].
  rewrite decide_True by lia.
  apply wp_bind, (malloc_wp _ ({[+ b +]} ⊎ own_bos d ⊎ F)); [done|]. intros [x|] h1 Hl1 Ho1; simpl in Hl1.
  - apply wp_bind. eapply wp_lift; [unfold rd_n; rewrite decide_True by lia; done|].
    apply wp_bind. eapply wp_lift; [apply advance_eq; lia|].
    eapply wp_mono; [apply IH|].
    + auto.
    + rewrite length_drop. lia.
    + apply caps_upto_insert; [done|lia|apply (wf_cap_take _ size); done || lia].
    + simpl. by rewrite length_insert.
    + simpl. rewrite length_insert. lia.
    + rewrite Hl1. unfold own_bos. simpl. rewrite own_caps_insert by (done || lia). multiset_solver.
    + intros r h2 [Hpost Ho2]. split; [done|by etrans].
  - apply wp_bind. unfold set_cap. rewrite insert_none by done.
    eapply wp_mono; [apply (free_bos_wp _ _ _ F); simpl; [lia| |]|].
    + rewrite <- Hlen. apply Hend.
    + rewrite Hl1. multiset_solver.
    + intros [] h2 [Hl2 Ho2]. apply wp_ret. split; [|by etrans]. split; [by right|done].
Qed.

(** What [parse_bos] and [libusb_get_bos_descriptor] promise. *)
Definition bos_post (F : gmultiset nat) (res : bos_result) (h' : heap) : Prop :=
  match res with
  | (r, None) => r < 0 /\ live h' = F
  | (r, Some (b, d)) => r = LIBUSB_SUCCESS /\ wf_bos d /\ live h' = {[+ b +]} ⊎ own_bos d ⊎ F
  end.

Lemma caps_done_wf d i : length (bos_raw d) = 5%nat -> caps_upto i (bos_caps d) ->
  (length (bos_caps d) < 256)%nat -> wf_bos (set_bNumDeviceCaps (Z.of_nat i) d).
Proof.
  clear. intros Hraw Hcaps Hlen. unfold wf_bos, set_bNumDeviceCaps, bNumDeviceCaps. simpl.
  assert (nth 4 (<[4%nat := u8 (Z.of_nat i)]> (bos_raw d)) 0 = Z.of_nat i) as ->.
  { rewrite (nth_lookup_Some _ 4%nat 0 (u8 (Z.of_nat i))).
    - apply u8_small. destruct Hcaps. lia.
    - apply list_lookup_insert_eq. lia. }
  rewrite length_insert, Nat2Z.id. split_and!; [done|lia|done].
Qed.

Lemma parse_bos_wp buffer size he h F :
  is_bytes buffer -> 0 <= size <= Z.of_nat (length buffer) -> live h = F ->
  wp (parse_bos big junk buffer size he) h (fun res h' => bos_post F res h' /\ same_oracles h h').
Proof.
  intros Hb Hs HF. unfold parse_bos.
  assert (forall r, r = LIBUSB_ERROR_IO \/ r = LIBUSB_ERROR_NO_MEM -> r < 0) as Herr
    by (unfold LIBUSB_ERROR_IO, LIBUSB_ERROR_NO_MEM; lia).
  destruct (Z.ltb_spec size LIBUSB_DT_BOS_SIZE) as [Hlt|Hge]; [apply wp_ret; split; [|done]; split; auto|].
  unfold LIBUSB_DT_BOS_SIZE in *.
  set (hdr := take 2 buffer ++ bus_word big he (take 2 (drop 2 buffer)) ++ take 1 (drop 4 buffer)).
  apply wp_bind. eapply wp_lift; [apply parse_bos_header; [apply Hjunk|lia]|]. cbv beta iota. fold hdr.
  assert (length hdr = 5%nat /\ bLength hdr = bLength buffer /\
    0 <= bLength buffer < 256 /\ 0 <= bNumDeviceCaps hdr < 256) as (Hl5 & HbL & Hbl & HbN).
  { subst hdr. destruct buffer as [|x0 [|x1 [|x2 [|x3 [|x4 buffer]]]]]; simpl in Hs; try lia.
    apply Forall_cons in Hb as [? Hb]. apply Forall_cons in Hb as [? Hb]. apply Forall_cons in Hb as [? Hb].
    apply Forall_cons in Hb as [? Hb]. apply Forall_cons in Hb as [? Hb].
    unfold bus_word. destruct he, big; done. }
  rewrite HbL. repeat (case_match; [apply wp_ret; split; [|done]; split; auto|]).
  apply wp_bind, (malloc_wp _ F); [done|]. intros [b|] h1 Hl1 Ho1; simpl in Hl1.
  2:{ apply wp_ret. split; [|done]. split; auto. rewrite Hl1. multiset_solver. }
  apply wp_bind. eapply wp_lift; [apply parse_bos_header; [done|lia]|]. cbv beta iota. fold hdr.
  rewrite Z.ltb_ge in *.
  apply wp_bind. eapply wp_lift; [apply advance_eq; lia|].
  apply wp_bind. eapply wp_mono; [apply (parse_caps_wp _ _ b _ _ _ _ _ F)|].
  - auto.
  - rewrite length_drop. lia.
  - simpl. split_and!; [lia| |lia]. intros j c [-> _]%lookup_replicate. done.
  - simpl. by rewrite length_replicate.
  - simpl. by rewrite length_replicate.
  - rewrite Hl1. unfold own_bos. simpl. rewrite own_caps_replicate. multiset_solver.
  - intros [r|d i] h2 [Hpost Ho2]; apply wp_ret; (split; [|by etrans]).
    + destruct Hpost. split; auto.
    + destruct Hpost as (Hraw & Hcaps & Hlen & Hl2). simpl in Hraw. split; [done|].
      split; [|done]. apply caps_done_wf; [congruence|done|]. rewrite Hlen. simpl. lia.
Qed.

Lemma wp_on_world {W A} (m : M W A) (s : dstate W) Q :
  wp m (ds_world s) (fun a w => Q a (mk_ds (ds_heap s) w)) -> wp (on_world m) s Q.
Proof. clear. unfold wp, on_world. destruct (m (ds_world s)) as [[a w]|]; done. Qed.

Lemma u16_le z : 0 <= z -> 0 <= u16 z <= z.
Proof. clear. intros Hz. unfold u16. split; [apply Z.mod_pos_bound; lia|apply Z.mod_le; lia]. Qed.

Lemma get_descriptor_wp {W} `{ControlTransferLaws W} t i data n w :
  is_bytes data -> 0 <= n <= Z.of_nat (length data) ->
  wp (libusb_get_descriptor t i data n) w (fun res _ =>
    is_bytes (snd res) /\ length (snd res) = length data /\ fst res <= n).
Proof.
  clear Hjunk. intros Hb Hn. pose proof (u16_le n). unfold libusb_get_descriptor.
  eapply wp_mono; [apply control_transfer_law; [done|lia]|].
  intros [r d] _ (? & ? & Hr). simpl in *. split_and!; [done|done|lia].
Qed.

Lemma is_bytes_zeros n : is_bytes (replicate n 0).
Proof. clear. apply Forall_replicate. unfold is_byte. lia. Qed.

Lemma get_bos_descriptor_wp {W} `{ControlTransferLaws W} (s : dstate W) F :
  live (ds_heap s) = F ->
  wp (libusb_get_bos_descriptor big junk) s (fun res s' => bos_post F res (ds_heap s')).
Proof.
  intros HF. unfold libusb_get_bos_descriptor.
  apply wp_bind, wp_on_world. eapply wp_mono; [apply (get_descriptor_wp _ _ (replicate 5 0));
    [apply is_bytes_zeros|done]|]. intros [r hdr] w1 (Hb & Hl & Hr). cbn [fst snd ds_heap] in *.
  destruct (Z.ltb_spec r 0); [by apply wp_ret|].
  destruct (Z.ltb_spec r LIBUSB_DT_BOS_SIZE); [apply wp_ret; split; [done|done]|].
  rewrite length_replicate in Hl.
  apply wp_bind. eapply wp_lift; [apply parse_bos_header; [apply Hjunk|lia]|]. cbv beta iota.
  set (raw := take 2 hdr ++ _). set (total := wTotalLength big raw).
  assert (0 <= total) as Htot.
  { apply host_value_bound. apply is_bytes_take, is_bytes_drop, Forall_app_2; [auto|].
    apply Forall_app_2; [apply host_bytes_bytes|auto]. }
  apply wp_bind, wp_on_heap, (malloc_wp _ F); [done|]. intros [b|] h1 Hl1 Ho1; simpl in Hl1.
  2:{ apply wp_ret. simpl. split; [done|]. rewrite Hl1. multiset_solver. }
  apply wp_bind, wp_on_world.
  eapply wp_mono; [apply (get_descriptor_wp _ _ (replicate (Z.to_nat total) 0));
    [apply is_bytes_zeros|rewrite length_replicate; lia]|].
  intros [r2 data] w2 (Hb2 & Hl2 & Hr2). cbn [fst snd ds_heap] in *. rewrite length_replicate in Hl2.
  apply wp_bind. eapply wp_mono with (P := fun res s' => bos_post ({[+ b +]} ⊎ F) res (ds_heap s')).
  - destruct (Z.leb_spec 0 r2).
    + apply wp_on_heap. eapply wp_mono; [apply (parse_bos_wp _ _ _ _ ({[+ b +]} ⊎ F)); done || lia|].
      intros res h' [Hpost _]. done.
    + apply wp_ret. done.
  - intros [r3 [[b3 c3]|]] s3 Hres; apply wp_bind, wp_on_heap.
    + destruct Hres as (Hz & Hwf & Hl3).
      apply (free_wp _ _ ({[+ b3 +]} ⊎ own_bos c3 ⊎ F)); [rewrite Hl3; simpl; multiset_solver|].
      intros h4 Hl4 _. by apply wp_ret.
    + destruct Hres as [Hneg Hl3]. apply (free_wp _ _ F); [done|].
      intros h4 Hl4 _. by apply wp_ret.
Qed.

(** ** The encoding of a BOS descriptor, and its parsing *)

Definition encode_bos (caps : list (list Z)) : list Z :=
  [5; LIBUSB_DT_BOS] ++ le_bytes 2 (5 + Z.of_nat (length (concat caps))) ++
  [Z.of_nat (length caps)] ++ concat caps.

Definition cap_bytes (c : dev_capability) : option (list Z) := snd <$> c.
Definition caps_data (caps : list dev_capability) : list (option (list Z)) := cap_bytes <$> caps.

Lemma caps_data_insert (d : list (list Z)) n caps x bytes :
  caps_data caps = (Some <$> d) ++ replicate (S n) None ->
  caps_data (<[length d := Some (x, bytes)]> caps) = (Some <$> (d ++ [bytes])) ++ replicate n None.
Proof.
  clear. intros Hd. unfold caps_data in *. rewrite list_fmap_insert, Hd, fmap_app, <- app_assoc. simpl.
  by rewrite <- (length_fmap Some d), insert_app_r_alt, Nat.sub_diag by lia.
Qed.

Lemma wf_cap_app cap rest : wf_cap cap ->
  bLength (cap ++ rest) = Z.of_nat (length cap) /\
  bDescriptorType (cap ++ rest) = LIBUSB_DT_DEVICE_CAPABILITY.
Proof.
  clear. intros (_ & Hl & H3 & Ht). unfold bLength, bDescriptorType in *.
  rewrite !app_nth1 by lia. done.
Qed.

Lemma parse_caps_roundtrip rest dn b d he h :
  no_malloc_failure h -> Forall wf_cap rest ->
  caps_data (bos_caps d) = (Some <$> dn) ++ replicate (length rest) None ->
  wp (parse_caps big junk (length rest) (length dn) b d (concat rest)
        (Z.of_nat (length (concat rest))) he) h
    (fun r _ => exists d', r = CapsDone d' (length (dn ++ rest)) /\ bos_raw d' = bos_raw d /\
       caps_data (bos_caps d') = Some <$> (dn ++ rest)).
Proof.
  revert dn d h. induction rest as [|cap rest IH]; intros dn d h Hh Hwf Hd; cbn [parse_caps length concat].
  { apply wp_ret. exists d. rewrite !app_nil_r in *. done. }
  apply Forall_cons in Hwf as [Hcap Hrest].
  destruct (wf_cap_app cap (concat rest) Hcap) as [HL HT]. pose proof Hcap as (_ & _ & H3 & _).
  rewrite length_app. destruct (Z.ltb_spec (Z.of_nat (length cap + length (concat rest)))
    LIBUSB_DT_DEVICE_CAPABILITY_SIZE) as [Hs|_]; [unfold LIBUSB_DT_DEVICE_CAPABILITY_SIZE in Hs; lia|].
  destruct (parse_3b (cap ++ concat rest)) as [m Hm]; [rewrite length_app; lia|].
  apply wp_bind. eapply wp_lift; [apply Hm|]. cbv beta iota.
  rewrite bDescriptorType_take, bLength_take, HL, HT by lia. change (negb _) with false. cbv iota.
  destruct (Z.ltb_spec (Z.of_nat (length cap)) LIBUSB_DT_DEVICE_CAPABILITY_SIZE) as [Hs|_];
    [unfold LIBUSB_DT_DEVICE_CAPABILITY_SIZE in Hs; lia|].
  destruct (Z.ltb_spec (Z.of_nat (length cap + length (concat rest))) (Z.of_nat (length cap))) as [|_]; [lia|].
  assert (length (bos_caps d) = length dn + S (length rest))%nat as Hlen.
  { rewrite <- (length_fmap cap_bytes). unfold caps_data in Hd. rewrite Hd, length_app, length_fmap.
    by rewrite length_replicate. }
  rewrite decide_True by lia.
  apply wp_bind, malloc_some_wp; [done|]. intros x h1 Hh1 _.
  rewrite Nat2Z.id. apply wp_bind. eapply wp_lift.
  { unfold rd_n. rewrite decide_True by (rewrite length_app; lia). by rewrite take_app_length. }
  apply wp_bind. eapply wp_lift; [apply advance_eq; rewrite length_app; lia|].
  rewrite Nat2Z.id, drop_app_length.
  replace (Z.of_nat (length cap + length (concat rest)) - Z.of_nat (length cap))
    with (Z.of_nat (length (concat rest))) by lia.
  specialize (IH (dn ++ [cap]) (set_cap (length dn) (Some (x, cap)) d) h1 Hh1 Hrest).
  rewrite length_app, Nat.add_1_r, <- app_assoc in IH. apply IH. by apply caps_data_insert.
Qed.

Lemma parse_bos_roundtrip caps h :
  no_malloc_failure h -> Forall wf_cap caps -> (length caps < 256)%nat ->
  wp (parse_bos big junk (encode_bos caps) (Z.of_nat (length (encode_bos caps))) false) h
    (fun res _ => exists b d, res = (LIBUSB_SUCCESS, Some (b, d)) /\
       bNumDeviceCaps (bos_raw d) = Z.of_nat (length caps) /\ caps_data (bos_caps d) = Some <$> caps).
Proof.
  intros Hh Hwf Hn. set (total := 5 + Z.of_nat (length (concat caps))).
  assert (encode_bos caps = 5 :: 15 :: Z.land total 255 :: Z.land (Z.shiftr total 8) 255 ::
    Z.of_nat (length caps) :: concat caps) as He by done.
  assert (length (encode_bos caps) = 5 + length (concat caps))%nat as Hlen by (by rewrite He).
  rewrite Hlen. unfold parse_bos.
  destruct (Z.ltb_spec (Z.of_nat (5 + length (concat caps))) LIBUSB_DT_BOS_SIZE) as [Hs|_];
    [unfold LIBUSB_DT_BOS_SIZE in Hs; lia|].
  apply wp_bind. eapply wp_lift; [apply parse_bos_header; [apply Hjunk|lia]|]. cbv beta iota.
  set (raw := take 2 _ ++ _).
  assert (bLength raw = 5 /\ bDescriptorType raw = LIBUSB_DT_BOS /\
    bNumDeviceCaps raw = Z.of_nat (length caps) /\ length raw = 5%nat) as (HrL & HrT & HrN & Hr5).
  { subst raw. rewrite He. unfold bus_word, host_bytes, bNumDeviceCaps. by destruct big. }
  rewrite HrT, HrL, HrN. change (negb _) with false. change (5 <? LIBUSB_DT_BOS_SIZE) with false. cbv iota.
  destruct (Z.ltb_spec (Z.of_nat (5 + length (concat caps))) 5) as [|_]; [lia|].
  apply wp_bind, malloc_some_wp; [done|]. intros b h1 Hh1 _.
  apply wp_bind. eapply wp_lift; [apply parse_bos_header; [done|lia]|]. cbv beta iota. fold raw.
  apply wp_bind. eapply wp_lift; [apply advance_eq; lia|].
  change (drop (Z.to_nat 5) (encode_bos caps)) with (concat caps).
  replace (Z.of_nat (5 + length (concat caps)) - 5) with (Z.of_nat (length (concat caps))) by lia.
  rewrite Nat2Z.id. apply wp_bind. eapply wp_mono; [apply (parse_caps_roundtrip caps [] b); [done|done|]|].
  { unfold caps_data. simpl. by rewrite fmap_replicate. }
  intros r h2 (d & -> & Hraw & Hd). apply wp_ret. exists b, (set_bNumDeviceCaps (Z.of_nat (length caps)) d).
  cbn [bos_raw bos_caps] in Hraw, Hd. split; [done|]. split; [|exact Hd]. unfold bNumDeviceCaps. simpl bos_raw. rewrite Hraw.
  rewrite (nth_lookup_Some _ 4%nat 0 (u8 (Z.of_nat (length caps)))); [apply u8_small; lia|].
  apply list_lookup_insert_eq. rewrite Hr5. lia.
Qed.

(** ** Capability descriptors *)

(** The three readers accept exactly the capabilities of their type that
    are long enough, and never read behind a capability whose bytes are all
    there; the block they return holds the fields of the source. *)
Definition capability_post (F : gmultiset nat) (type size : Z) (f : string) (dc : list Z)
    (res : desc_result) (h' : heap) : Prop :=
  match res with
  | (r, None) => live h' = F /\
      r = (if nth 2%nat dc 0 =? type then
             if bLength dc <? size then LIBUSB_ERROR_IO else LIBUSB_ERROR_NO_MEM
           else LIBUSB_ERROR_INVALID_PARAM)
  | (r, Some (b, d)) => r = LIBUSB_SUCCESS /\ live h' = {[+ b +]} ⊎ F /\
      nth 2%nat dc 0 = type /\ size <= bLength dc /\
      struct_fields big f d 0 = source_fields big f dc false
  end.

(** The common shape of the three readers. *)
Definition get_capability (type size : Z) (f : string) (n : nat) (dc : list Z) : M heap desc_result :=
  t ← lift (rd dc 2);
  if negb (t =? type) then mret (LIBUSB_ERROR_INVALID_PARAM, None) else
  len ← lift (rd dc 0);
  if len <? size then mret (LIBUSB_ERROR_IO, None) else
  p ← malloc;
  match p with
  | None => mret (LIBUSB_ERROR_NO_MEM, None)
  | Some b =>
      '(_, d) ← lift (usbi_parse_descriptor big dc f (junk n) false);
      mret (LIBUSB_SUCCESS, Some (b, d))
  end.

Lemma capability_wp type size f n dc h F :
  wf_cap dc -> Z.of_nat (format_size f) = size -> format_end f 0 = n -> live h = F ->
  wp (get_capability type size f n dc) h
    (fun res h' => capability_post F type size f dc res h' /\ same_oracles h h').
Proof.
  intros (Hb & HL & H3 & _) Hs Hn HF. unfold capability_post, get_capability.
  destruct dc as [|x0 [|x1 [|x2 dc]]]; simpl in H3; try lia.
  change (bLength (x0 :: x1 :: x2 :: dc)) with x0 in *. change (nth 2 _ 0) with x2.
  set (src := x0 :: x1 :: x2 :: dc) in *.
  apply wp_bind. eapply wp_lift; [apply (rd_ok src 2); reflexivity|].
  destruct (Z.eqb_spec x2 type) as [Ht|Ht]; simpl negb; cbv iota; [|by apply wp_ret].
  apply wp_bind. eapply wp_lift; [apply (rd_ok src 0); reflexivity|].
  destruct (Z.ltb_spec x0 size) as [Hlt|Hge]; [by apply wp_ret|].
  apply wp_bind, (malloc_wp _ F); [done|]. intros [b|] h1 Hl1 Ho1; simpl in Hl1.
  2:{ apply wp_ret. split; [|done]. split; [|done]. rewrite Hl1. multiset_solver. }
  destruct (parse_loop_ok big f false src 0 (junk n) 0) as (d & Hd & _ & _ & Hf & _);
    [done|lia|rewrite Hjunk; lia|].
  apply wp_bind. eapply wp_lift; [exact Hd|]. cbv beta iota. apply wp_ret. by split_and!.
Qed.

(** The loop over the extra bytes ends with a companion descriptor, with
    "not found", or on a malformed length. *)
Definition companion_post (F : gmultiset nat) (res : desc_result) (h' : heap) : Prop :=
  match res with
  | (r, None) => live h' = F /\
      (r = LIBUSB_ERROR_IO \/ r = LIBUSB_ERROR_NO_MEM \/ r = LIBUSB_ERROR_NOT_FOUND)
  | (r, Some (b, d)) => r = LIBUSB_SUCCESS /\ live h' = {[+ b +]} ⊎ F /\
      bDescriptorType d = LIBUSB_DT_SS_ENDPOINT_COMPANION /\ length d = 6%nat
  end.

Lemma ss_companion_loop_wp fuel buffer size h F :
  is_bytes buffer -> 0 <= size <= Z.of_nat (length buffer) -> (Z.to_nat size < fuel)%nat ->
  live h = F ->
  wp (ss_companion_loop big junk fuel buffer size) h
    (fun res h' => companion_post F res h' /\ same_oracles h h').
Proof.
  revert buffer size. induction fuel as [|fuel IH]; intros buffer size Hb Hs Hf HF; [lia|].
  cbn [ss_companion_loop]. unfold companion_post in *.
  destruct (Z.ltb_spec size DESC_HEADER_LENGTH) as [Hlt|Hge]; [apply wp_ret; split; [split; [done|auto]|done]|].
  unfold DESC_HEADER_LENGTH in *.
  assert (read_header big (junk 2) buffer = Ok (take 2 buffer)) as Hrh.
  { pose proof (Hjunk 2) as Hj. destruct (junk 2) as [|? [|? [|]]]; try done.
    destruct buffer as [|? [|? ?]]; simpl in Hs; try lia. done. }
  apply wp_bind. eapply wp_lift; [exact Hrh|].
  rewrite bLength_take, bDescriptorType_take by lia.
  destruct (Z.ltb_spec (bLength buffer) 2) as [|H2]; [apply wp_ret; split; [split; [done|auto]|done]|].
  destruct (Z.ltb_spec size (bLength buffer)) as [|Hsz]; [apply wp_ret; split; [split; [done|auto]|done]|]. simpl orb. cbv iota.
  destruct (Z.eqb_spec (bDescriptorType buffer) LIBUSB_DT_SS_ENDPOINT_COMPANION) as [Ht|Ht];
    simpl negb; cbv iota.
  - destruct (Z.ltb_spec (bLength buffer) LIBUSB_DT_SS_ENDPOINT_COMPANION_SIZE) as [|H6];
      [apply wp_ret; split; [split; [done|auto]|done]|]. unfold LIBUSB_DT_SS_ENDPOINT_COMPANION_SIZE in *.
    apply wp_bind, (malloc_wp _ F); [done|]. intros [b|] h1 Hl1 Ho1; simpl in Hl1.
    2:{ apply wp_ret. split; [|done]. split; [|auto]. rewrite Hl1. multiset_solver. }
    pose proof (Hjunk 6) as Hj. destruct (junk 6) as [|? [|? [|? [|? [|? [|? [|]]]]]]]; try done.
    destruct buffer as [|x0 [|x1 [|x2 [|x3 [|x4 [|x5 buffer]]]]]]; simpl in Hs; try lia.
    assert (exists m d, usbi_parse_descriptor big (x0 :: x1 :: x2 :: x3 :: x4 :: x5 :: buffer) "bbbbw"
      [z; z0; z1; z2; z3; z4] false = Ok (m, x0 :: x1 :: d) /\ length d = 4%nat) as (m & d & Hd & Hl).
    { destruct big; do 2 eexists; split; reflexivity. }
    apply wp_bind. eapply wp_lift; [exact Hd|]. cbv beta iota. apply wp_ret.
    split_and!; try done. simpl. by rewrite Hl.
  - apply wp_bind. eapply wp_lift; [apply advance_eq; lia|].
    apply IH; [auto|rewrite length_drop; lia|lia|done].
Qed.
End bos_specs.
