(* ===== verification/StringDesc.v ===== *)
(** * String descriptors in ASCII (libusb/descriptor.c)

    [libusb_get_string_descriptor_ascii]: two control transfers into a
    buffer of 255 bytes on the stack, then the conversion of the UTF-16
    units of the answer to one byte each. *)

From S2P Require Import Prelude ParseDesc Config Bos.

Definition QUESTION_MARK : Z := 63.

(** [(tbuf[si] & 0x80) || (tbuf[si + 1])]: the second byte is read only
    when the first one is below 128. *)
Definition non_ascii (tbuf : list Z) (si c : Z) : outcome bool :=
  if negb (Z.land c 128 =? 0) then Ok true
  else (hi ← rd tbuf (si + 1); Ok (negb (hi =? 0))).

(** The loop [for (di = 0, si = 2; si < tbuf[0]; si += 2)]; returns [di] and
    the output buffer. *)
Fixpoint ascii_loop (fuel : nat) (tbuf : list Z) (si di : Z) (data : list Z) (len : Z)
    : outcome (Z * list Z) :=
  match fuel with
  | O => Fault OutOfFuel
  | S fuel =>
      t0 ← rd tbuf 0;
      if t0 <=? si then mret (di, data)
      else if len - 1 <=? di then mret (di, data)
      else
        c ← rd tbuf si;
        na ← non_ascii tbuf si c;
        data ← store data (Z.to_nat di) [if (na : bool) then QUESTION_MARK else c];
        ascii_loop fuel tbuf (si + 2) (di + 1) data len
  end.

(** [data[di] = 0; return di;] *)
Definition ascii_end (res : Z * list Z) : outcome (Z * list Z) :=
  data ← store (snd res) (Z.to_nat (fst res)) [0];
  mret (fst res, data).

Section string.
(** [tbuf_junk]: what the buffer on the stack holds at entry. *)
Context {W : Type} `{ControlTransfer W}.
Variable tbuf_junk : list Z.

Definition libusb_get_string_descriptor_ascii (desc_index : Z) (data : list Z) (len : Z)
    : M W (Z * list Z) :=
  if desc_index =? 0 then mret (LIBUSB_ERROR_INVALID_PARAM, data) else
  '(r, tbuf) ← libusb_get_string_descriptor 0 0 tbuf_junk 255;
  if r <? 0 then mret (r, data)
  else if r <? 4 then mret (LIBUSB_ERROR_IO, data)
  else
  b2 ← lift (rd tbuf 2);
  b3 ← lift (rd tbuf 3);
  let langid := Z.lor b2 (Z.shiftl b3 8) in
  '(r, tbuf) ← libusb_get_string_descriptor desc_index langid tbuf 255;
  if r <? 0 then mret (r, data) else
  t1 ← lift (rd tbuf 1);
  if negb (t1 =? LIBUSB_DT_STRING) then mret (LIBUSB_ERROR_IO, data) else
  t0 ← lift (rd tbuf 0);
  if r <? t0 then mret (LIBUSB_ERROR_IO, data) else
  res ← lift (ascii_loop 128 tbuf 2 0 data len);
  lift (ascii_end res).
End string.

(** ** Reference *)

(** A UTF-16 unit, low byte first, as the function prints it. *)
Definition ascii_of (lo hi : Z) : Z :=
  if (lo <? 128) && (hi =? 0) then lo else QUESTION_MARK.

(** The units of the bytes behind the descriptor header. *)
Fixpoint ascii_units (bs : list Z) : list Z :=
  match bs with
  | lo :: hi :: bs => ascii_of lo hi :: ascii_units bs
  | _ => []
  end.

(** The characters of the descriptor in [tbuf], which declares its length
    in its first byte. *)
Definition ascii_string (tbuf : list Z) : list Z :=
  ascii_units (drop 2 (take (Z.to_nat (bLength tbuf)) tbuf)).

Lemma land_128_byte c : is_byte c -> (Z.land c 128 =? 0) = (c <? 128).
Proof.
  intros Hc. unfold is_byte in Hc.
  assert (forallb (fun n => Bool.eqb (Z.land (Z.of_nat n) 128 =? 0) (Z.of_nat n <? 128)) (seq 0 256) = true)
    as Hall by (vm_compute; reflexivity).
  rewrite forallb_forall in Hall. specialize (Hall (Z.to_nat c)).
  rewrite Z2Nat.id in Hall by lia. apply Bool.eqb_prop, Hall, in_seq. lia.
Qed.

Lemma ascii_units_nth bs i lo hi :
  bs !! (2 * i)%nat = Some lo -> bs !! S (2 * i) = Some hi -> ascii_units bs !! i = Some (ascii_of lo hi).
Proof.
  revert bs. induction i as [|i IH]; intros bs Hlo Hhi.
  - by destruct bs as [|? [|? ?]]; simplify_eq/=.
  - replace (2 * S i)%nat with (S (S (2 * i))) in * by lia.
    destruct bs as [|? [|? bs]]; try done. by apply IH.
Qed.

Lemma ascii_units_length bs : length (ascii_units bs) = (length bs / 2)%nat.
Proof.
  revert bs. fix IH 1. intros [|a [|b bs]]; [done|done|].
  change (length (ascii_units (a :: b :: bs))) with (S (length (ascii_units bs))).
  rewrite IH. change (length (a :: b :: bs)) with (2 + length bs)%nat.
  replace (2 + length bs)%nat with (length bs + 1 * 2)%nat by lia. rewrite Nat.div_add by lia. lia.
Qed.

Lemma ascii_string_length tbuf :
  0 <= bLength tbuf <= Z.of_nat (length tbuf) ->
  length (ascii_string tbuf) = ((Z.to_nat (bLength tbuf) - 2) / 2)%nat.
Proof.
  intros Hl. unfold ascii_string. rewrite ascii_units_length, length_drop, length_take.
  do 2 f_equal. lia.
Qed.

Lemma store_one data i x : (i < length data)%nat -> store data i [x] = Ok (<[i := x]> data).
Proof.
  intros Hi. unfold store. rewrite decide_True by (simpl; lia).
  rewrite insert_take_drop by done. simpl. by rewrite Nat.add_1_r.
Qed.

(** The loop started with the first [i] characters written writes the
    others, as far as they fit. *)
Lemma ascii_loop_ok fuel tbuf i data len :
  is_bytes tbuf -> 2 <= bLength tbuf <= Z.of_nat (length tbuf) -> Z.even (bLength tbuf) = true ->
  1 <= len <= Z.of_nat (length data) ->
  let n := Nat.min (Z.to_nat (len - 1)) (length (ascii_string tbuf)) in
  (i <= n)%nat -> (n - i < fuel)%nat -> take i data = take i (ascii_string tbuf) ->
  exists data', ascii_loop fuel tbuf (2 + 2 * Z.of_nat i) (Z.of_nat i) data len = Ok (Z.of_nat n, data') /\
    take n data' = take n (ascii_string tbuf) /\ drop n data' = drop n data.
Proof.
  intros Hb HL Heven Hlen n. apply Z.even_spec in Heven as [k Hk].
  assert (length (ascii_string tbuf) = (Z.to_nat (bLength tbuf) - 2) / 2)%nat as Hn by (apply ascii_string_length; lia).
  assert (2 + 2 * Z.of_nat (length (ascii_string tbuf)) = bLength tbuf) as Hn2.
  { rewrite Hn, Hk. replace (Z.to_nat (2 * k) - 2)%nat with ((Z.to_nat k - 1) * 2)%nat by lia.
    rewrite Nat.div_mul by lia. lia. }
  assert (rd tbuf 0 = Ok (bLength tbuf)) as Hrd0 by (destruct tbuf; [simpl in HL; lia|done]).
  revert i data Hlen. induction fuel as [|fuel IH]; intros i data Hlen Hi Hf Htk; [lia|].
  cbn [ascii_loop]. rewrite Hrd0. cbn [mbind outcome_bind].
  destruct (Z.leb_spec (bLength tbuf) (2 + 2 * Z.of_nat i)) as [Hend|Hgo].
  { exists data. assert (n = i) as -> by lia. done. }
  destruct (Z.leb_spec (len - 1) (Z.of_nat i)) as [Hend|Hgo2].
  { exists data. assert (n = i) as -> by lia. done. }
  destruct (lookup_lt_is_Some_2 tbuf (2 + 2 * i)) as [lo Hlo]; [lia|].
  destruct (lookup_lt_is_Some_2 tbuf (S (2 + 2 * i))) as [hi Hhi]; [lia|].
  assert (is_byte lo) as Hblo by (eapply Forall_lookup_1; eauto).
  replace (2 + 2 * Z.of_nat i) with (Z.of_nat (2 + 2 * i)) by lia. rewrite (rd_ok _ _ _ Hlo).
  assert (ascii_string tbuf !! i = Some (ascii_of lo hi)) as Hch.
  { apply ascii_units_nth; rewrite lookup_drop, lookup_take_lt by lia; done. }
  assert (non_ascii tbuf (Z.of_nat (2 + 2 * i)) lo = Ok (negb ((lo <? 128) && (hi =? 0)))) as Hna.
  { unfold non_ascii. rewrite (land_128_byte lo Hblo).
    replace (Z.of_nat (2 + 2 * i) + 1) with (Z.of_nat (S (2 + 2 * i))) by lia.
    rewrite (rd_ok _ _ _ Hhi). by destruct (lo <? 128). }
  cbn [mbind outcome_bind]. rewrite Hna. cbn [mbind outcome_bind]. rewrite Nat2Z.id, store_one by lia.
  cbn [mbind outcome_bind].
  replace (if negb ((lo <? 128) && (hi =? 0)) then QUESTION_MARK else lo) with (ascii_of lo hi)
    by (unfold ascii_of; by destruct ((lo <? 128) && (hi =? 0))).
  replace (Z.of_nat (2 + 2 * i) + 2) with (2 + 2 * Z.of_nat (S i)) by lia.
  replace (Z.of_nat i + 1) with (Z.of_nat (S i)) by lia.
  destruct (IH (S i) (<[i := ascii_of lo hi]> data)) as (data' & Heq & Htake & Hdrop).
  - by rewrite length_insert.
  - lia.
  - lia.
  - rewrite (take_S_r _ _ _ Hch), (take_S_r _ i (ascii_of lo hi)) by (apply list_lookup_insert_eq; lia).
    by rewrite take_insert_ge, Htk by lia.
  - exists data'. split_and!; [done|done|]. rewrite Hdrop. apply drop_insert_lt. lia.
Qed.

(** Without anything known of the answer: up to 127 bytes of output the
    conversion stays inside the 255 bytes of the buffer. *)
Lemma ascii_loop_safe fuel tbuf di data len :
  is_bytes tbuf -> length tbuf = 255%nat ->
  1 <= len <= Z.of_nat (length data) -> len <= 127 ->
  0 <= di <= len - 1 -> 128 - di <= Z.of_nat fuel ->
  exists di' data', ascii_loop fuel tbuf (2 + 2 * di) di data len = Ok (di', data') /\
    0 <= di' <= len - 1 /\ length data' = length data.
Proof.
  intros Hb HL Hlen Hmax. revert di data Hlen. induction fuel as [|fuel IH]; intros di data Hlen Hdi Hf; [lia|].
  cbn [ascii_loop].
  destruct (lookup_lt_is_Some_2 tbuf 0) as [t0 Ht0]; [lia|].
  rewrite (rd_ok tbuf 0 t0 Ht0 : rd tbuf 0 = _). cbn [mbind outcome_bind].
  assert (is_byte t0) as Hb0 by (eapply Forall_lookup_1; eauto). unfold is_byte in Hb0.
  destruct (Z.leb_spec t0 (2 + 2 * di)); [by do 2 eexists|].
  destruct (Z.leb_spec (len - 1) di); [by do 2 eexists|].
  destruct (lookup_lt_is_Some_2 tbuf (Z.to_nat (2 + 2 * di))) as [lo Hlo]; [lia|].
  destruct (lookup_lt_is_Some_2 tbuf (Z.to_nat (2 + 2 * di + 1))) as [hi Hhi]; [lia|].
  pose proof (rd_ok _ _ _ Hlo) as Hrlo. pose proof (rd_ok _ _ _ Hhi) as Hrhi.
  rewrite Z2Nat.id in Hrlo, Hrhi by lia. rewrite Hrlo. cbn [mbind outcome_bind].
  assert (exists b, non_ascii tbuf (2 + 2 * di) lo = Ok b) as [b Hna].
  { unfold non_ascii. case_match; [by eexists|]. rewrite Hrhi. by eexists. }
  rewrite Hna. cbn [mbind outcome_bind]. rewrite store_one by lia. cbn [mbind outcome_bind].
  replace (2 + 2 * di + 2) with (2 + 2 * (di + 1)) by lia.
  destruct (IH (di + 1) (<[Z.to_nat di := if b then QUESTION_MARK else lo]> data)) as (d & data' & ? & ? & Hl);
    [by rewrite length_insert|lia|lia|].
  exists d, data'. by rewrite length_insert in Hl.
Qed.
