(* ===== verification/Stdio.v ===== *)
(** * Files: the functions of [<stdio.h>] the firmware loader reads with

    A stream is the contents of the file with the position, the first byte
    that the disk cannot read (if any), the end-of-file indicator, and
    whether the stream can be positioned. *)

From S2P Require Import Prelude Text.

Record FILE : Type := mk_file {
  f_data : list Z;
  f_pos : nat;
  f_bad : option nat;
  f_eof : bool;
  f_seekable : bool
}.

Definition set_pos (f : FILE) (pos : nat) (eof : bool) : FILE :=
  mk_file (f_data f) pos (f_bad f) eof (f_seekable f).

(** The bytes that can be read from the position on, and whether the end of
    the file is behind them (and not an error). *)
Definition unread (f : FILE) : list Z :=
  drop (f_pos f) (match f_bad f with None => f_data f | Some b => take b (f_data f) end).
Definition ends_file (f : FILE) : bool :=
  match f_bad f with None => true | Some b => (length (f_data f) <=? b)%nat end.

(** [fread(ptr, 1, n, f)]: the bytes that were read. *)
Definition fread (n : nat) : M FILE (list Z) := fun f =>
  let bs := take n (unread f) in
  Ok (bs, set_pos f (f_pos f + length bs)
            (if (length bs <? n)%nat then f_eof f || ends_file f else f_eof f)).

(** At most [n] characters up to the end of the line; whether the line ended
    or [n] characters were found. *)
Fixpoint take_line (n : nat) (l : list Z) : list Z * bool :=
  match n, l with
  | O, _ => ([], true)
  | S _, [] => ([], false)
  | S n, c :: l =>
      if c =? 10 then ([c], true) else let '(bs, full) := take_line n l in (c :: bs, full)
  end.

(** [fgets(buf, size, f)]: the characters that were read, or [None] for the
    null pointer, which is returned at the end of the file, if nothing was
    read, and after a read error. *)
Definition fgets (size : nat) : M FILE (option (list Z)) := fun f =>
  let '(bs, full) := take_line (size - 1) (unread f) in
  let pos := (f_pos f + length bs)%nat in
  if full then Ok (Some bs, set_pos f pos (f_eof f))
  else if ends_file f then Ok (if bs is [] then None else Some bs, set_pos f pos true)
  else Ok (None, set_pos f pos (f_eof f)).

Definition feof : M FILE bool := gets f_eof.

(** [ftell], -1 for a stream that has no position. *)
Definition ftell : M FILE Z :=
  gets (fun f => if f_seekable f then Z.of_nat (f_pos f) else -1).
(** [fseek(f, 0, SEEK_END)] and [fseek(f, pos, SEEK_SET)]: 0, or -1. *)
Definition fseek_end : M FILE Z := fun f =>
  if f_seekable f then Ok (0, set_pos f (length (f_data f)) false) else Ok (-1, f).
Definition fseek_set (pos : Z) : M FILE Z := fun f =>
  if f_seekable f && (0 <=? pos) then Ok (0, set_pos f (Z.to_nat pos) false) else Ok (-1, f).
(** [rewind] *)
Definition rewind : M FILE unit := fun f =>
  if f_seekable f then Ok (tt, set_pos f 0 false) else Ok (tt, f).

(** ** Working on a part of the state *)

Definition on_fst {S T A} (m : M S A) : M (S * T) A := fun st =>
  match m (fst st) with
  | Ok (a, s) => Ok (a, (s, snd st))
  | Fault e => Fault e
  end.
Definition on_snd {S T A} (m : M T A) : M (S * T) A := fun st =>
  match m (snd st) with
  | Ok (a, t) => Ok (a, (fst st, t))
  | Fault e => Fault e
  end.

(** ** Rules *)

Section rules.
Context {S T : Type}.

Lemma on_fst_wp {A} (m : M S A) (st : S * T) Q :
  wp m (fst st) (fun a s => Q a (s, snd st)) -> wp (on_fst m) st Q.
Proof. unfold wp, on_fst. by destruct (m (fst st)) as [[a s]|e]. Qed.
Lemma on_snd_wp {A} (m : M T A) (st : S * T) Q :
  wp m (snd st) (fun a t => Q a (fst st, t)) -> wp (on_snd m) st Q.
Proof. unfold wp, on_snd. by destruct (m (snd st)) as [[a s]|e]. Qed.

(** Steps whose result is known. *)
Lemma bind_ok {A B} (m : M S A) (k : A -> M S B) s a s' :
  m s = Ok (a, s') -> (m ≫= k) s = k a s'.
Proof. intros Hm. unfold mbind, M_bind. by rewrite Hm. Qed.
Lemma on_fst_run {A} (m : M S A) (s : S) (t : T) a s' : m s = Ok (a, s') -> on_fst m (s, t) = Ok (a, (s', t)).
Proof. intros Hm. unfold on_fst. cbn [fst snd]. by rewrite Hm. Qed.
Lemma on_snd_run {A} (m : M T A) (s : S) (t : T) a t' : m t = Ok (a, t') -> on_snd m (s, t) = Ok (a, (s, t')).
Proof. intros Hm. unfold on_snd. cbn [fst snd]. by rewrite Hm. Qed.
Lemma on_fst_ok {A B} (m : M S A) (k : A -> M (S * T) B) s t a s' :
  m s = Ok (a, s') -> (on_fst m ≫= k) (s, t) = k a (s', t).
Proof. intros Hm. unfold mbind, M_bind, on_fst. cbn [fst snd]. by rewrite Hm. Qed.
Lemma on_snd_ok {A B} (m : M T A) (k : A -> M (S * T) B) s t a t' :
  m t = Ok (a, t') -> (on_snd m ≫= k) (s, t) = k a (s, t').
Proof. intros Hm. unfold mbind, M_bind, on_snd. cbn [fst snd]. by rewrite Hm. Qed.
End rules.

Lemma unread_set_pos f k e : unread (set_pos f (f_pos f + k) e) = drop k (unread f).
Proof. unfold unread. simpl. by rewrite drop_drop. Qed.

Lemma take_line_prefix n l : exists k, fst (take_line n l) = take k l /\ (k <= n)%nat /\
  (fst (take_line n l) = [] -> n = 0%nat \/ l = []).
Proof.
  revert l. induction n as [|n IH]; intros l; [exists 0%nat; simpl; auto|].
  destruct l as [|c l]; [exists 0%nat; split_and!; [done|lia|auto]|]. simpl.
  destruct (c =? 10); [exists 1%nat; split_and!; [done|lia|done]|].
  destruct (IH l) as (k & Hk & Hle & _). destruct (take_line n l) as [bs full].
  simpl in *. subst bs. exists (S k). split_and!; [done|lia|done].
Qed.

Lemma take_line_app p k l :
  10 ∉ p -> take_line (length p + k) (p ++ l) = (p ++ fst (take_line k l), snd (take_line k l)).
Proof.
  induction p as [|c p IH]; intros Hp; simpl; [by destruct (take_line k l)|].
  rewrite (proj2 (Z.eqb_neq c 10)) by set_solver. by rewrite IH by set_solver.
Qed.

Lemma take_line_newline n text rest :
  10 ∉ text -> (length text < n)%nat -> take_line n (text ++ 10 :: rest) = (text ++ [10], true).
Proof.
  revert n. induction text as [|c text IH]; intros [|n] Hn Hl; simpl in *; [lia|done|lia|].
  rewrite (proj2 (Z.eqb_neq c 10)) by set_solver. by rewrite IH by (set_solver || lia).
Qed.

(** Whatever the file holds, [fgets] returns a part of it that fits. *)
Lemma fgets_wp size f (Q : option (list Z) -> FILE -> Prop) :
  (1 < size)%nat ->
  (forall bs e, bs <> [] -> (length bs < size)%nat -> bs = take (length bs) (unread f) ->
     Q (Some bs) (set_pos f (f_pos f + length bs) e)) ->
  (forall k e, Q None (set_pos f (f_pos f + k) e)) ->
  wp (fgets size) f Q.
Proof.
  intros Hsize HS HN. unfold wp, fgets.
  destruct (take_line_prefix (size - 1) (unread f)) as (k & Hk & Hle & Hnil).
  destruct (take_line (size - 1) (unread f)) as [bs full] eqn:Hl. simpl in Hk, Hnil.
  assert (bs <> [] -> forall e, Q (Some bs) (set_pos f (f_pos f + length bs) e)) as Hok.
  { intros Hbs e. apply HS; [done| |].
    - subst bs. rewrite length_take. lia.
    - subst bs. rewrite length_take. destruct (Nat.min_spec k (length (unread f))) as [[_ ->]|[Hge ->]]; [done|].
      by rewrite firstn_all, take_ge. }
  destruct full.
  - apply Hok. intros ->. destruct Hnil as [|Hu]; [done|lia|]. rewrite Hu in Hl.
    destruct (size - 1)%nat eqn:?; [lia|done].
  - destruct (ends_file f); [|by apply HN]. destruct bs; [by apply HN|by apply Hok].
Qed.

(** A line of a file that can be read. *)
Lemma fgets_line size f text rest :
  unread f = text ++ 10 :: rest -> 10 ∉ text -> (length text + 2 <= size)%nat ->
  fgets size f = Ok (Some (text ++ [10]), set_pos f (f_pos f + (length text + 1)) (f_eof f)) /\
  unread (set_pos f (f_pos f + (length text + 1)) (f_eof f)) = rest.
Proof.
  intros Hu Hn Hl. split.
  - unfold fgets. rewrite Hu, take_line_newline by (done || lia). by rewrite length_app.
  - rewrite unread_set_pos, Hu. change (10 :: rest) with ([10] ++ rest).
    rewrite app_assoc, drop_app_length'; [done|]. by rewrite length_app.
Qed.

(** The same file, at another position. *)
Definition same_file (f g : FILE) : Prop :=
  f_data g = f_data f /\ f_bad g = f_bad f /\ f_seekable g = f_seekable f.

#[export] Instance same_file_refl : Reflexive same_file.
Proof. by intros f. Qed.
#[export] Instance same_file_trans : Transitive same_file.
Proof. intros f g h (H1 & H2 & H3) (H4 & H5 & H6). split_and!; congruence. Qed.
Lemma same_file_pos f pos e : same_file f (set_pos f pos e).
Proof. done. Qed.
#[export] Hint Resolve same_file_pos : core.
