(* ===== verification/Ezusb.v ===== *)
(** * The firmware loader of EZ-USB chips (examples/ezusb.c)

    The parsers of firmware images (Intel HEX, Cypress IIC and BIX), which
    hand the segments of an image to a function [poke]; the function that
    writes a segment into the memory of the chip; and the loaders that upload
    an image in one or two stages.  Messages are not modelled. *)

From S2P Require Import Prelude Heap Text ParseDesc DescApi Bos Stdio.

Definition EIO : Z := 5.
Definition EINVAL : Z := 22.
Definition EDOM : Z := 33.

(** ezusb.h *)
Definition FX_TYPE_AN21 : Z := 0.
Definition FX_TYPE_FX1 : Z := 1.
Definition FX_TYPE_FX2 : Z := 2.
Definition FX_TYPE_FX2LP : Z := 3.
Definition FX_TYPE_FX3 : Z := 4.
Definition IMG_TYPE_HEX : Z := 0.
Definition IMG_TYPE_IIC : Z := 1.
Definition IMG_TYPE_BIX : Z := 2.
Definition IMG_TYPE_MAX : Z := 4.

(** ** Which memory is external *)

Definition fx_is_external (addr len : Z) : bool :=
  if addr <=? 0x1b3f then 0x1b40 <? ulong (addr + len) else true.

Definition fx2_is_external (addr len : Z) : bool :=
  if addr <=? 0x1fff then 0x2000 <? ulong (addr + len)
  else if (0xe000 <=? addr) && (addr <=? 0xe1ff) then 0xe200 <? ulong (addr + len)
  else true.

Definition fx2lp_is_external (addr len : Z) : bool :=
  if addr <=? 0x3fff then 0x4000 <? ulong (addr + len)
  else if (0xe000 <=? addr) && (addr <=? 0xe1ff) then 0xe200 <? ulong (addr + len)
  else true.

(** ** Requests to the chip *)

Definition RW_INTERNAL : Z := 0xA0.
Definition RW_MEMORY : Z := 0xA3.

(** [LIBUSB_ENDPOINT_OUT | LIBUSB_REQUEST_TYPE_VENDOR | LIBUSB_RECIPIENT_DEVICE],
    and the same with [LIBUSB_ENDPOINT_IN] *)
Definition VENDOR_OUT : Z := Z.lor 0 (Z.lor (Z.shiftl 2 5) 0).
Definition VENDOR_IN : Z := Z.lor LIBUSB_ENDPOINT_IN (Z.lor (Z.shiftl 2 5) 0).

Section requests.
Context {W : Type} {ct : ControlTransfer W}.

Definition ezusb_write (opcode addr : Z) (data : list Z) (len : Z) : M W Z :=
  '(status, _) ← control_transfer VENDOR_OUT opcode (Z.land addr 0xFFFF) (u16 (Z.shiftr addr 16))
                   data (u16 len) 1000;
  mret (if status <? 0 then - EIO else 0).

Definition ezusb_read (opcode addr : Z) (data : list Z) (len : Z) : M W (Z * list Z) :=
  '(status, data) ← control_transfer VENDOR_IN opcode (Z.land addr 0xFFFF) (u16 (Z.shiftr addr 16))
                      data (u16 len) 1000;
  mret (if status <? 0 then - EIO else 0, data).

Definition ezusb_cpucs (addr : Z) (doRun : bool) : M W bool :=
  '(status, _) ← control_transfer VENDOR_OUT RW_INTERNAL (Z.land addr 0xFFFF) (u16 (Z.shiftr addr 16))
                   [if doRun then 0 else 1] 1 1000;
  mret (negb (negb (status =? 1) && (negb doRun || negb (status =? LIBUSB_ERROR_IO)))).

Definition ezusb_fx3_jump (addr : Z) : M W bool :=
  '(status, _) ← control_transfer VENDOR_OUT RW_INTERNAL (Z.land addr 0xFFFF) (u16 (Z.shiftr addr 16))
                   [] 0 1000;
  mret (negb (negb (status =? 0) && negb (status =? LIBUSB_ERROR_IO))).
End requests.

(** How a turn of a loop ends: with [return], with [break], or with the next
    turn. *)
Inductive turn (A : Type) : Type :=
| Returns (r : Z)
| Breaks (a : A)
| Continues (a : A).
Arguments Returns {A} r.
Arguments Breaks {A} a.
Arguments Continues {A} a.

(** ** The parsers of images *)

Section parsers.
(** [poke addr external data]; the segment is [data]. *)
Context {C : Type} (is_external : option (Z -> Z -> bool)) (poke : Z -> bool -> list Z -> M C Z).

(** [if (is_external) external = is_external(addr, len)] *)
Definition update_external (external : bool) (addr len : Z) : bool :=
  match is_external with
  | Some f => f addr len
  | None => external
  end.

(** *** Intel HEX *)

(** [junk n]: what [buf] holds at the start of turn [n]. *)
Variable junk : nat -> list Z.

(** The local variables: [data], [data_addr], [data_len], [first_line],
    [external] *)
Record ihex : Type := mk_ihex {
  ih_data : list Z;
  ih_addr : Z;
  ih_len : Z;
  ih_first : bool;
  ih_external : bool
}.

(** [tmp = buf[j]; buf[j] = 0; n = strtoul(buf + i, NULL, 16); buf[j] = tmp] *)
Definition hex_field (buf : list Z) (i j : nat) : outcome Z :=
  if (j <? length buf)%nat then Ok (strtoul16 (take (j - i) (drop i buf))) else Fault OutOfBounds.

(** The loop that appends a record to the saved data, from [idx]; [cp] is
    [buf + 9 + 2 * idx].  The end of [buf] is reached before [fuel] turns. *)
Fixpoint append_record (fuel idx : nat) (buf data : list Z) (data_len len : Z) : outcome (list Z) :=
  match fuel with
  | O => Fault OutOfFuel
  | S fuel =>
      if Z.of_nat idx <? len then
        let cp := (9 + 2 * idx)%nat in
        v ← hex_field buf cp (cp + 2);
        data ← store data (Z.to_nat data_len + idx) [u8 v];
        append_record fuel (S idx) buf data data_len len
      else Ok data
  end.

(** Flush the saved data: the segment goes to [poke]. *)
Definition flush (s : ihex) : M C (Z * bool) :=
  let external := update_external (ih_external s) (ih_addr s) (ih_len s) in
  segment ← lift (rd_n (ih_data s) (Z.to_nat (ih_len s)));
  rc ← poke (ih_addr s) external segment;
  mret (rc, external).

(** The saved data is not continued by a record of [len] bytes at [off], or
    there is no room for it. *)
Definition must_flush (s : ihex) (off len : Z) : bool :=
  negb (ih_len s =? 0)
  && (negb (off =? ulong (ih_addr s + ih_len s)) || (1023 <? ulong (ih_len s + len))).

(** Append to the saved data, flush later. *)
Definition append_to (buf : list Z) (len : Z) (s : ihex) : outcome ihex :=
  data ← append_record 512 0 buf (ih_data s) (ih_len s) len;
  Ok (mk_ihex data (ih_addr s) (ulong (ih_len s + len)) (ih_first s) (ih_external s)).

(** A record in [buf], the newline stripped. *)
Definition ihex_record (buf : list Z) (s : ihex) : M C (turn ihex) :=
  len ← lift (hex_field buf 1 3);
  off ← lift (hex_field buf 3 7);
  let off := u32 (i32 off) in
  let s := if ih_first s then mk_ihex (ih_data s) off (ih_len s) false (ih_external s) else s in
  type ← lift (hex_field buf 7 9);
  let type := u8 type in
  if type =? 1 then mret (Breaks s)
  else if negb (type =? 0) then mret (Returns (-3))
  else if Z.of_nat (length (cstring buf)) <? ulong (len * 2 + 11) then mret (Returns (-4))
  else if must_flush s off len then
    '(rc, external) ← flush s;
    if rc <? 0 then mret (Returns (-1))
    else s ← lift (append_to buf len (mk_ihex (ih_data s) off 0 (ih_first s) external)); mret (Continues s)
  else s ← lift (append_to buf len s); mret (Continues s).

(** One turn: a line of at most 511 characters. *)
Definition ihex_turn (n : nat) (s : ihex) : M (FILE * C) (turn ihex) :=
  line ← on_fst (fgets 512);
  match line with
  | None => mret (Breaks s)
  | Some bs =>
      buf ← lift (store (junk n) 0 (bs ++ [0]));
      c ← lift (rd buf 0);
      if c =? 35 then mret (Continues s)
      else if negb (c =? 58) then mret (Returns (-2))
      else
        let buf := match strchr buf 10 with Some i => <[i := 0]> buf | None => buf end in
        on_snd (ihex_record buf s)
  end.

Fixpoint ihex_loop (fuel n : nat) (s : ihex) : M (FILE * C) (Z + ihex) :=
  match fuel with
  | O => fail OutOfFuel
  | S fuel =>
      t ← ihex_turn n s;
      match t with
      | Returns r => mret (inl r)
      | Breaks s => mret (inr s)
      | Continues s => ihex_loop fuel (S n) s
      end
  end.

(** Behind the loop: flush any data remaining. *)
Definition flush_remaining (r : Z + ihex) : M (FILE * C) Z :=
  match r with
  | inl rc => mret rc
  | inr s =>
      if negb (ih_len s =? 0) then
        '(rc, _) ← on_snd (flush s);
        mret (if rc <? 0 then -1 else 0)
      else mret 0
  end.

(** [data0]: what [data] holds at first.  Each turn of the loop reads. *)
Definition parse_ihex (data0 : list Z) : M (FILE * C) Z :=
  fuel ← gets (fun st => S (length (unread (fst st))));
  ihex_loop fuel 0 (mk_ihex data0 0 0 true false) ≫= flush_remaining.

(** *** Binary images *)

(** [sizeof(data)] in the two parsers below *)
Definition DATA_SIZE : nat := Z.to_nat 4096.

Fixpoint bin_loop (fuel : nat) (data_addr : Z) (external : bool) : M (FILE * C) Z :=
  match fuel with
  | O => fail OutOfFuel
  | S fuel =>
      data ← on_fst (fread DATA_SIZE);
      let data_len := Z.of_nat (length data) in
      if data_len =? 0 then
        eof ← on_fst feof;
        mret (if eof : bool then 0 else -1)
      else
        let external := update_external external data_addr data_len in
        rc ← on_snd (poke data_addr external data);
        if rc <? 0 then mret (-1)
        else bin_loop fuel (u32 (data_addr + u32 data_len)) external
  end.

Definition parse_bin : M (FILE * C) Z :=
  fuel ← gets (fun st => S (length (unread (fst st))));
  bin_loop fuel 0 false.

(** *** IIC images *)

Fixpoint iic_loop (fuel : nat) (file_size : Z) (external : bool) : M (FILE * C) Z :=
  match fuel with
  | O => fail OutOfFuel
  | S fuel =>
      pos ← on_fst ftell;
      if file_size - 5 <=? pos then mret 0
      else
        header ← on_fst (fread 4);
        match header with
        | [b0; b1; b2; b3] =>
            let data_len := Z.shiftl b0 8 + b1 in
            let data_addr := Z.shiftl b2 8 + b3 in
            if 4096 <? data_len then mret (-1)
            else
              data ← on_fst (fread (Z.to_nat data_len));
              if negb (Z.of_nat (length data) =? data_len) then mret (-1)
              else
                let external := update_external external data_addr data_len in
                rc ← on_snd (poke data_addr external data);
                if rc <? 0 then mret (-1) else iic_loop fuel file_size external
        | _ => mret (-1)
        end
  end.

Definition parse_iic : M (FILE * C) Z :=
  initial_pos ← on_fst ftell;
  if initial_pos <? 0 then mret (-1)
  else
    r ← on_fst fseek_end;
    if negb (r =? 0) then mret (-1)
    else
      file_size ← on_fst ftell;
      r ← on_fst (fseek_set initial_pos);
      if negb (r =? 0) then mret (-1)
      else
        fuel ← gets (fun st => S (length (unread (fst st))));
        iic_loop fuel file_size false.

(** The table [parse]: three entries of [IMG_TYPE_MAX] are given. *)
Definition parse (img_type : Z) (data0 : list Z) : M (FILE * C) Z :=
  if img_type =? IMG_TYPE_HEX then parse_ihex data0
  else if img_type =? IMG_TYPE_IIC then parse_iic
  else if img_type =? IMG_TYPE_BIX then parse_bin
  else if (0 <=? img_type) && (img_type <? IMG_TYPE_MAX) then fail NullDeref
  else fail OutOfBounds.
End parsers.

(** ** Writing to RAM *)

(** [ram_mode] *)
Inductive ram_mode : Type := undef_mode | internal_only | skip_internal | skip_external.

(** [struct ram_poke_context], without the device *)
Record ram_poke_context : Type := mk_ram {
  mode : ram_mode;
  total : Z;
  count : Z
}.

Definition RETRY_LIMIT : nat := 5.

Section ram.
Context {W : Type} {ct : ControlTransfer W}.

(** The loop around [ezusb_write]; [tries] is [RETRY_LIMIT - retry]. *)
Fixpoint write_retry (tries : nat) (external : bool) (addr : Z) (data : list Z) (len : Z) : M W Z :=
  rc ← ezusb_write (if external then RW_MEMORY else RW_INTERNAL) addr data len;
  match tries with
  | O => mret rc
  | S tries =>
      if rc <? 0 then
        if negb (rc =? LIBUSB_ERROR_TIMEOUT) then mret rc else write_retry tries external addr data len
      else mret rc
  end.

Definition ram_write (addr : Z) (external : bool) (data : list Z) : M (ram_poke_context * W) Z :=
  let len := Z.of_nat (length data) in
  on_fst (modify (fun ctx => mk_ram (mode ctx) (ulong (total ctx + len)) (ulong (count ctx + 1)))) ;;
  on_snd (write_retry RETRY_LIMIT external addr data len).

Definition ram_poke (addr : Z) (external : bool) (data : list Z) : M (ram_poke_context * W) Z :=
  m ← on_fst (gets mode);
  match m with
  | internal_only => if external then mret (- EINVAL) else ram_write addr external data
  | skip_internal => if negb external then mret 0 else ram_write addr external data
  | skip_external => if external then mret 0 else ram_write addr external data
  | undef_mode => mret (- EDOM)
  end.

(** ** The loader of the FX3 *)

Variable big : bool.

(** [rBuf[i] != bBuf[i]] for some [i < dLen] *)
Definition verify_fails (rBuf bBuf : list Z) (dLen : nat) : outcome bool :=
  r ← rd_n rBuf dLen; b ← rd_n bBuf dLen; Ok (bool_decide (r <> b)).

(** Write and verify [bBuf] in pieces: the code and [dAddress], or the
    negative result of [ezusb_fx3_load_ram], with [rBuf]. *)
Fixpoint write_pieces (fuel : nat) (bBuf rBuf : list Z) (dLength dAddress : Z) : M W (Z * Z * list Z) :=
  match fuel with
  | O => fail OutOfFuel
  | S fuel =>
      if 0 <? dLength then
        let dLen := Z.min 4096 dLength in
        piece ← lift (rd_n bBuf (Z.to_nat dLen));
        rc ← ezusb_write RW_INTERNAL dAddress piece dLen;
        if rc <? 0 then mret (-5, dAddress, rBuf)
        else
          '(rc, rBuf) ← ezusb_read RW_INTERNAL dAddress rBuf dLen;
          if rc <? 0 then mret (-5, dAddress, rBuf)
          else
            bad ← lift (verify_fails rBuf bBuf (Z.to_nat dLen));
            if bad : bool then mret (-6, dAddress, rBuf)
            else write_pieces fuel (drop (Z.to_nat dLen) bBuf) rBuf (dLength - dLen) (u32 (dAddress + dLen))
      else mret (0, dAddress, rBuf)
  end.

(** The sum of the [n] words at the start of [bs]. *)
Fixpoint sum_words (n : nat) (bs : list Z) (sum : Z) : Z :=
  match n with
  | O => sum
  | S n => sum_words n (drop 4 bs) (u32 (sum + host_value big (take 4 bs)))
  end.

(** [fread(&x, sizeof(uint32_t), 1, image) == 1] *)
Definition fread_word : M (FILE * (heap * W)) (option Z) :=
  bs ← on_fst (fread 4);
  mret (if (length bs =? 4)%nat then Some (host_value big bs) else None).

(** The loop over the sections: the negative result, or the checksum and the
    last [dAddress]. *)
Fixpoint fx3_sections (fuel : nat) (rBuf : list Z) (dCheckSum : Z) : M (FILE * (heap * W)) (Z + Z * Z) :=
  match fuel with
  | O => fail OutOfFuel
  | S fuel =>
      dLength ← fread_word;
      match dLength with
      | None => mret (inl (-3))
      | Some dLength =>
          dAddress ← fread_word;
          match dAddress with
          | None => mret (inl (-3))
          | Some dAddress =>
              if dLength =? 0 then mret (inr (dCheckSum, dAddress))
              else
                dImageBuf ← on_snd (on_fst malloc);
                match dImageBuf with
                | None => mret (inl (-4))
                | Some _ =>
                    bs ← on_fst (fread (4 * Z.to_nat dLength));
                    if negb (Z.of_nat (length bs) =? 4 * dLength) then
                      on_snd (on_fst (free dImageBuf)) ;; mret (inl (-3))
                    else
                      let dCheckSum := sum_words (Z.to_nat dLength) bs dCheckSum in
                      '(rc, dAddress, rBuf) ← on_snd (on_snd
                         (write_pieces (S (length bs)) bs rBuf (u32 (Z.shiftl dLength 2)) dAddress));
                      on_snd (on_fst (free dImageBuf)) ;;
                      if rc <? 0 then mret (inl rc)
                      else fx3_sections fuel rBuf dCheckSum
                end
          end
      end
  end.

(** [image]: the result of [fopen]; [verbose] is the global variable.
    [rBuf] and [blBuf] are what the buffers hold at first. *)
Definition fx3_load (verbose : Z) (rBuf blBuf : list Z) : M (FILE * (heap * W)) Z :=
  hBuf ← on_fst (fread 4);
  match hBuf with
  | [h0; h1; _; h3] =>
      if negb (h0 =? 67) || negb (h1 =? 89) then mret (-3)
      else if negb (h3 =? 0xB0) then mret (-3)
      else
        rc ← (if verbose =? 0 then mret 0
              else '(rc, _) ← on_snd (on_snd (ezusb_read RW_INTERNAL 0xFFFF0020 blBuf 4)); mret rc);
        if rc <? 0 then mret (-8)
        else
          fuel ← gets (fun st => S (length (unread (fst st))));
          r ← fx3_sections fuel rBuf 0;
          match r with
          | inl rc => mret rc
          | inr (dCheckSum, dAddress) =>
              dExpectedCheckSum ← fread_word;
              if bool_decide (dExpectedCheckSum = Some dCheckSum) then
                ok ← on_snd (on_snd (ezusb_fx3_jump dAddress));
                mret (if ok : bool then 0 else -6)
              else mret (-7)
          end
  | _ => mret (-3)
  end.

(** Run [m] on an open stream, which [fclose] ends. *)
Definition with_file {S A} (f : FILE) (m : M (FILE * S) A) : M S A := fun s =>
  match m (f, s) with
  | Ok (a, (_, s')) => Ok (a, s')
  | Fault e => Fault e
  end.

Definition fx3_load_ram (verbose : Z) (rBuf blBuf : list Z) (image : option FILE) : M (heap * W) Z :=
  match image with
  | None => mret (-2)
  | Some f => with_file f (fx3_load verbose rBuf blBuf)
  end.

(** ** Loading a firmware file *)

Variable junk : nat -> list Z.

Definition cpucs_address (fx_type : Z) : Z :=
  if (fx_type =? FX_TYPE_FX2LP) || (fx_type =? FX_TYPE_FX2) then 0xe600 else 0x7f92.
Definition external_check (fx_type : Z) : Z -> Z -> bool :=
  if fx_type =? FX_TYPE_FX2LP then fx2lp_is_external
  else if fx_type =? FX_TYPE_FX2 then fx2_is_external
  else fx_is_external.

(** The first bytes of an IIC image are not those of code for this chip. *)
Definition iic_header_bad (fx_type : Z) (header : list Z) : bool :=
  negb (length header =? 8)%nat
  || (((fx_type =? FX_TYPE_FX2LP) || (fx_type =? FX_TYPE_FX2)) && negb (nth 0 header 0 =? 0xC2))
  || ((fx_type =? FX_TYPE_AN21) && negb (nth 0 header 0 =? 0xB2))
  || ((fx_type =? FX_TYPE_FX1) && negb (nth 0 header 0 =? 0xB6)).

(** [cpucs_addr && !ezusb_cpucs(device, cpucs_addr, run)] *)
Definition cpucs_fails (fx_type : Z) (run : bool) : M (FILE * (ram_poke_context * W)) bool :=
  if cpucs_address fx_type =? 0 then mret false
  else ok ← on_snd (on_snd (ezusb_cpucs (cpucs_address fx_type) run)); mret (negb ok).

Definition set_mode (m : ram_mode) : M (FILE * (ram_poke_context * W)) unit :=
  on_snd (on_fst (modify (fun ctx => mk_ram m (total ctx) (count ctx)))).

(** The second part of the second stage, and the end. *)
Definition load_rest (fx_type stage : Z) (data0 : list Z) : M (FILE * (ram_poke_context * W)) Z :=
  let finish := failed ← cpucs_fails fx_type true; mret (if failed : bool then -1 else 0) in
  if negb (stage =? 0) then
    set_mode skip_external ;;
    failed ← cpucs_fails fx_type false;
    if failed : bool then mret (-1)
    else
      on_fst rewind ;;
      status ← parse_ihex (Some (external_check fx_type)) ram_poke junk data0;
      if status <? 0 then mret status else finish
  else finish.

Definition load_image (fx_type img_type stage : Z) (data0 : list Z) : M (FILE * (ram_poke_context * W)) Z :=
  bad ← (if img_type =? IMG_TYPE_IIC then header ← on_fst (fread 8); mret (iic_header_bad fx_type header)
         else mret false);
  if bad : bool then mret (-1)
  else
    set_mode (if stage =? 0 then internal_only else skip_internal) ;;
    failed ← (if stage =? 0 then cpucs_fails fx_type false else mret false);
    if failed : bool then mret (-1)
    else
      on_snd (on_fst (modify (fun ctx => mk_ram (mode ctx) 0 0))) ;;
      status ← parse (Some (external_check fx_type)) ram_poke junk img_type data0;
      if status <? 0 then mret status else load_rest fx_type stage data0.

(** [ctx0]: what [ctx] holds at first. *)
Definition ezusb_load_ram (verbose : Z) (rBuf blBuf data0 : list Z) (ctx0 : ram_poke_context)
    (image : option FILE) (fx_type img_type stage : Z) : M (heap * W) Z :=
  if fx_type =? FX_TYPE_FX3 then fx3_load_ram verbose rBuf blBuf image
  else
    match image with
    | None => mret (-2)
    | Some f =>
        on_snd (fun w =>
          match with_file f (load_image fx_type img_type stage data0) (ctx0, w) with
          | Ok (rc, (_, w')) => Ok (rc, w')
          | Fault e => Fault e
          end)
    end.
End ram.
