(* ===== verification/IhexSpecs.v ===== *)
(** * Intel HEX images: the format, and rules for the parser

    How an image is written down ([print_line]), which segments its records
    make ([segments], the reference definition of merging), and what a turn
    of the loop of [parse_ihex] does with a line. *)

From S2P Require Import Prelude Text ParseDesc DescApi Bos Stdio Ezusb.

(** ** Numbers in base 16 *)

(** The digit for [v], in lower or upper case. *)
Definition hex_char (low : bool) (v : Z) : Z :=
  if v <? 10 then 48 + v else (if low then 87 else 55) + v.
Definition hex_byte (low : bool) (b : Z) : list Z := [hex_char low (b / 16); hex_char low (b mod 16)].

Abbreviation is_nibbles := (Forall (fun v => 0 <= v < 16)).

(** The number with the digits [vs], behind [acc]. *)
Definition digits_value (vs : list Z) (acc : Z) : Z := foldl (fun n v => 16 * n + v) acc vs.

Ltac nibble_cases v :=
  let Hv := fresh in
  assert (v = 0 \/ v = 1 \/ v = 2 \/ v = 3 \/ v = 4 \/ v = 5 \/ v = 6 \/ v = 7 \/ v = 8 \/ v = 9 \/
          v = 10 \/ v = 11 \/ v = 12 \/ v = 13 \/ v = 14 \/ v = 15) as Hv by lia;
  repeat destruct Hv as [->|Hv]; [..|subst v].

Lemma hex_char_value low v : 0 <= v < 16 -> hex_value (hex_char low v) = Some v.
Proof. intros Hv. nibble_cases v; by destruct low. Qed.
Lemma hex_char_plain low v : 0 <= v < 16 ->
  is_space (hex_char low v) = false /\ is_sign (hex_char low v) = false /\
  (hex_char low v =? 120) || (hex_char low v =? 88) = false /\ hex_char low v <> 0 /\ hex_char low v <> 10.
Proof. intros Hv. nibble_cases v; by destruct low. Qed.

Lemma scan_hex_digits low vs acc :
  is_nibbles vs -> scan_hex (hex_char low <$> vs) acc = digits_value vs acc.
Proof.
  intros Hvs. revert acc. induction Hvs as [|v vs Hv Hvs IH]; intros acc; [done|].
  cbn [fmap list_fmap scan_hex]. rewrite hex_char_value by done. apply IH.
Qed.

Lemma hex_chars_nonzero low vs : is_nibbles vs -> Forall (fun c => c <> 0) (hex_char low <$> vs).
Proof. intros Hvs. apply Forall_fmap. eapply Forall_impl; [done|]. intros v Hv. by apply hex_char_plain. Qed.

(** A number printed with hexadecimal digits is read back. *)
Lemma strtoul16_digits low vs :
  is_nibbles vs -> digits_value vs 0 < 2 ^ 64 -> strtoul16 (hex_char low <$> vs) = digits_value vs 0.
Proof.
  intros Hvs Hlt. unfold strtoul16. rewrite cstring_nonzero by by apply hex_chars_nonzero.
  assert (skip_space (hex_char low <$> vs) = hex_char low <$> vs) as ->.
  { destruct Hvs as [|v vs Hv _]; [done|]. simpl. by destruct (hex_char_plain low v Hv) as [-> _]. }
  assert (forall A (x y : A), match hex_char low <$> vs with c :: _ => if is_sign c then x else y | [] => y end = y)
    as Hsign.
  { intros A x y. destruct Hvs as [|v vs Hv _]; [done|]. simpl. by destruct (hex_char_plain low v Hv) as (_ & -> & _). }
  assert (skip_0x (hex_char low <$> vs) = hex_char low <$> vs) as Hx.
  { destruct Hvs as [|v [|w vs] Hv Hvs]; [done..|]. simpl. inversion_clear Hvs as [|? ? Hw _].
    destruct (hex_char_plain low w Hw) as (_ & _ & -> & _). by rewrite andb_false_r. }
  destruct vs as [|v vs]; [done|]. inversion_clear Hvs as [|? ? Hv Hvs'].
  cbn [fmap list_fmap] in *. destruct (hex_char_plain low v Hv) as (_ & -> & _). rewrite Hx.
  change (hex_char low v :: _) with (hex_char low <$> v :: vs).
  rewrite scan_hex_digits by by constructor.
  rewrite (proj2 (Z.leb_gt _ _)) by done. done.
Qed.

Lemma strtoul16_hex_byte low b : is_byte b -> strtoul16 (hex_byte low b) = b.
Proof.
  intros Hb. unfold is_byte in Hb.
  assert (0 <= b / 16 < 16) by (split; [apply Z.div_pos; lia|apply Z.div_lt_upper_bound; lia]).
  assert (0 <= b mod 16 < 16) by by apply Z.mod_pos_bound.
  change (hex_byte low b) with (hex_char low <$> [b / 16; b mod 16]).
  pose proof (Z.div_mod b 16 ltac:(done)) as Hdm.
  rewrite strtoul16_digits; unfold digits_value; cbn [foldl]; [lia|by rewrite !Forall_cons|lia].
Qed.

Lemma strtoul16_hex_word low w :
  0 <= w < 65536 -> strtoul16 (hex_byte low (w / 256) ++ hex_byte low (w mod 256)) = w.
Proof.
  intros Hw.
  set (h := w / 256). set (l := w mod 256).
  assert (w = 256 * h + l) as Hwe by by apply Z.div_mod.
  assert (0 <= h < 256) as Hh by (split; [apply Z.div_pos; lia|apply Z.div_lt_upper_bound; lia]).
  assert (0 <= l < 256) as Hl by by apply Z.mod_pos_bound.
  clearbody h l. subst w.
  assert (forall b, 0 <= b < 256 -> 0 <= b / 16 < 16 /\ 0 <= b mod 16 < 16 /\ b = 16 * (b / 16) + b mod 16) as Hn.
  { intros b Hb. split_and!; [apply Z.div_pos; lia|apply Z.div_lt_upper_bound; lia|
      by apply Z.mod_pos_bound|by apply Z.mod_pos_bound|by apply Z.div_mod]. }
  destruct (Hn h Hh) as (? & ? & ?), (Hn l Hl) as (? & ? & ?).
  change (hex_byte low h ++ hex_byte low l) with (hex_char low <$> [h / 16; h mod 16; l / 16; l mod 16]).
  rewrite strtoul16_digits; unfold digits_value; cbn [foldl]; [lia|by rewrite !Forall_cons|lia].
Qed.

(** A field of two characters that does not start with a minus sign is a
    byte. *)
Lemma scan_hex_bound l acc : 0 <= acc -> 0 <= scan_hex l acc < (acc + 1) * 16 ^ Z.of_nat (length l).
Proof.
  revert acc. induction l as [|c l IH]; intros acc Hacc; cbn [scan_hex length]; [lia|].
  destruct (hex_value c) as [v|] eqn:Hv.
  - assert (0 <= v < 16) as Hvr.
    { unfold hex_value, is_digit in Hv. repeat case_match; simplify_eq; lia. }
    destruct (IH (16 * acc + v)) as [H0 H1]; [lia|]. split; [done|].
    rewrite Nat2Z.inj_succ, Z.pow_succ_r by lia.
    assert (0 < 16 ^ Z.of_nat (length l)) by (apply Z.pow_pos_nonneg; lia). nia.
  - assert (0 < 16 ^ Z.of_nat (S (length l))) by (apply Z.pow_pos_nonneg; lia). nia.
Qed.

Lemma skip_0x_length l : (length (skip_0x l) <= length l)%nat.
Proof. destruct l as [|c [|x l]]; simpl; [lia..|]. destruct (_ && _); simpl; lia. Qed.
Lemma skip_space_cases l : skip_space l = l \/ (length (skip_space l) < length l)%nat.
Proof.
  induction l as [|c l IH]; simpl; [by left|]. destruct (is_space c); [right|by left].
  destruct IH as [->|IH]; lia.
Qed.
Lemma scan_hex_short l : (length l <= 2)%nat -> 0 <= scan_hex l 0 <= 255.
Proof.
  intros Hl. destruct (scan_hex_bound l 0) as [H0 H1]; [done|]. split; [done|].
  assert (16 ^ Z.of_nat (length l) <= 16 ^ 2) by (apply Z.pow_le_mono_r; lia). lia.
Qed.

Lemma strtoul16_byte l : (length l <= 2)%nat -> head l <> Some 45 -> 0 <= strtoul16 l <= 255.
Proof.
  intros Hl Hhd. unfold strtoul16. set (l' := skip_space (cstring l)).
  pose proof (cstring_length l) as Hc. pose proof (skip_space_cases (cstring l)) as Hs. fold l' in Hs.
  assert (forall k (neg : bool), (length k <= 2)%nat -> (neg = true -> k = []) ->
    0 <= (if 2 ^ 64 <=? scan_hex (skip_0x k) 0 then 2 ^ 64 - 1
          else if neg then ulong (- scan_hex (skip_0x k) 0) else scan_hex (skip_0x k) 0) <= 255) as Hk.
  { intros k neg Hk Hneg. pose proof (skip_0x_length k) as Hx.
    destruct (scan_hex_short (skip_0x k)) as [H0 H1]; [lia|].
    rewrite (proj2 (Z.leb_gt _ _)) by lia. destruct neg; [|lia]. by rewrite (Hneg eq_refl). }
  destruct l' as [|c t] eqn:Hl'; [apply (Hk [] false); [simpl; lia|done]|].
  assert (length (c :: t) <= 2)%nat by (destruct Hs as [Hs|Hs]; [rewrite Hs|]; lia).
  destruct (is_sign c); [|by apply (Hk _ false)].
  apply (Hk t (c =? 45)); [simpl in *; lia|]. intros ->%Z.eqb_eq.
  destruct Hs as [Hs|Hs]; [|destruct t; [done|simpl in *; lia]].
  destruct l as [|x l]; [done|]. simpl in Hs. destruct (x =? 0); simplify_eq/=.
Qed.

(** ** The buffers of the parser *)

Lemma hex_field_ok buf i j : (j < length buf)%nat -> hex_field buf i j = Ok (strtoul16 (take (j - i) (drop i buf))).
Proof. intros Hj. unfold hex_field. by rewrite (proj2 (Nat.ltb_lt _ _)) by done. Qed.

(** Appending a record whose digits are all in [buf] does nothing undefined. *)
Lemma append_record_safe fuel idx buf data n len :
  0 <= n -> n + len <= Z.of_nat (length data) -> 2 * len + 10 < Z.of_nat (length buf) ->
  Z.of_nat idx <= len < Z.of_nat (fuel + idx) ->
  exists data', append_record fuel idx buf data n len = Ok data' /\ length data' = length data.
Proof.
  intros Hn Hd Hb. revert idx data Hd. induction fuel as [|fuel IH]; intros idx data Hd Hf; cbn [append_record].
  - lia.
  - destruct (Z.ltb_spec (Z.of_nat idx) len) as [Hlt|Hge]; [|by eexists].
    rewrite hex_field_ok by lia. cbn [mbind outcome_bind].
    edestruct (store_ok data (Z.to_nat n + idx)) as (data1 & -> & Hl & _); [cbn [length]; lia|].
    destruct (IH (S idx) data1) as (data' & Happ & Hl'); [lia|lia|]. exists data'. split; [done|lia].
Qed.

(** The digits of [ds] from position [idx] on are appended to what is saved. *)
Lemma append_record_value low fuel idx pre ds post data n :
  length pre = 9%nat -> post <> [] -> is_bytes ds ->
  (n + length ds <= length data)%nat -> (idx <= length ds < fuel + idx)%nat ->
  exists data',
    append_record fuel idx (pre ++ flat_map (hex_byte low) ds ++ post) data (Z.of_nat n) (Z.of_nat (length ds))
      = Ok data' /\
    length data' = length data /\
    take (n + length ds) data' = take (n + idx) data ++ drop idx ds.
Proof.
  intros Hpre Hpost Hds. revert idx data. induction fuel as [|fuel IH]; intros idx data Hd Hf; cbn [append_record].
  - lia.
  - destruct (Z.ltb_spec (Z.of_nat idx) (Z.of_nat (length ds))) as [Hlt|Hge].
    + destruct (lookup_lt_is_Some_2 ds idx) as [b Hb]; [lia|].
      pose proof (take_drop_middle _ _ _ Hb) as Hsplit.
      assert (forall l, length (flat_map (hex_byte low) l) = (2 * length l)%nat) as Hfl.
      { intros l. induction l as [|x l IHl]; [done|]. cbn [flat_map]. rewrite length_app, IHl. simpl. lia. }
      set (buf := pre ++ _).
      assert (drop (9 + 2 * idx) buf = hex_byte low b ++ flat_map (hex_byte low) (drop (S idx) ds) ++ post) as Hdrop.
      { unfold buf. rewrite <- Hpre, <- drop_drop, drop_app_length. rewrite <- Hsplit at 1.
        rewrite flat_map_app, <- app_assoc, drop_app_length'; [|rewrite Hfl, length_take; lia].
        cbn [flat_map]. by rewrite <- app_assoc. }
      assert (length (drop (9 + 2 * idx) buf) > 2)%nat as Hlong.
      { rewrite Hdrop, !length_app. destruct post; [done|]. simpl. lia. }
      rewrite length_drop in Hlong. rewrite hex_field_ok by lia. cbn [mbind outcome_bind].
      replace (9 + 2 * idx + 2 - (9 + 2 * idx))%nat with 2%nat by lia.
      rewrite Hdrop, take_app_length' by done.
      assert (is_byte b) as Hbb by by eapply Forall_lookup_1.
      rewrite strtoul16_hex_byte, u8_small by done.
      rewrite Nat2Z.id.
      destruct (store_ok data (n + idx) [b]) as (data1 & -> & Hl & Htk & Hmid & _); [simpl; lia|].
      destruct (IH (S idx) data1) as (data' & Happ & Hl' & Htk'); [lia|lia|].
      exists data'. split_and!; [done|lia|]. rewrite Htk', (drop_S _ _ _ Hb).
      rewrite Nat.add_succ_r, <- Nat.add_1_r, <- take_take_drop, Htk. simpl in Hmid. rewrite Hmid.
      by rewrite <- app_assoc.
    + exists data. replace idx with (length ds) by lia. rewrite drop_all, app_nil_r. done.
Qed.

(** ** The format *)

(** A line of an image: a comment, or a record of type 0.  [tl] is what
    follows the data: the checksum, which is not checked, and a carriage
    return perhaps. *)
Inductive hex_line : Type :=
| HexComment (text : list Z)
| HexData (addr : Z) (data tl : list Z).

(** The part of a record in front of the data. *)
Definition record_head (low : bool) (len addr type : Z) : list Z :=
  58 :: hex_byte low len ++ hex_byte low (addr / 256) ++ hex_byte low (addr mod 256) ++ hex_byte low type.

(** A line without its end. *)
Definition print_line (low : bool) (l : hex_line) : list Z :=
  match l with
  | HexComment text => 35 :: text
  | HexData addr data tl =>
      record_head low (Z.of_nat (length data)) addr 0 ++ flat_map (hex_byte low) data ++ tl
  end.

(** The lines, the end record, and anything behind it. *)
Definition print_image (low : bool) (ls : list hex_line) (tl : list Z) : list Z :=
  foldr (fun l rest => print_line low l ++ 10 :: rest) (record_head low 0 0 1 ++ tl) ls.

(** Lines that fit into the buffer; the records are not empty. *)
Definition wf_line (l : hex_line) : Prop :=
  match l with
  | HexComment text => (10 ∉ text) /\ (length text <= 509)%nat
  | HexData addr data tl =>
      0 <= addr < 65536 /\ is_bytes data /\ data <> [] /\ (length data <= 255)%nat /\
      (10 ∉ tl) /\ (0 ∉ tl) /\ (2 <= length tl)%nat /\ (2 * length data + length tl <= 501)%nat
  end.

Definition line_records (l : hex_line) : list (Z * list Z) :=
  match l with
  | HexComment _ => []
  | HexData addr data _ => [(addr, data)]
  end.
Definition records (ls : list hex_line) : list (Z * list Z) := flat_map line_records ls.

(** The reference definition: a record joins the segment in front of it if it
    continues it and 1023 bytes are not exceeded. *)
Definition continues (seg r : Z * list Z) : bool :=
  (fst r =? fst seg + Z.of_nat (length (snd seg))) && (length (snd seg) + length (snd r) <=? 1023)%nat.

Fixpoint merge (seg : Z * list Z) (rs : list (Z * list Z)) : list (Z * list Z) :=
  match rs with
  | [] => [seg]
  | r :: rs => if continues seg r then merge (fst seg, snd seg ++ snd r) rs else seg :: merge r rs
  end.
Definition segments (rs : list (Z * list Z)) : list (Z * list Z) :=
  match rs with
  | [] => []
  | r :: rs => merge r rs
  end.

(** The bytes a segment puts into memory, in order. *)
Fixpoint bytes_at (addr : Z) (data : list Z) : list (Z * Z) :=
  match data with
  | [] => []
  | b :: data => (addr, b) :: bytes_at (addr + 1) data
  end.
Definition writes (segs : list (Z * list Z)) : list (Z * Z) := flat_map (fun s => bytes_at (fst s) (snd s)) segs.

Lemma bytes_at_app addr d1 d2 :
  bytes_at addr (d1 ++ d2) = bytes_at addr d1 ++ bytes_at (addr + Z.of_nat (length d1)) d2.
Proof.
  revert addr. induction d1 as [|b d1 IH]; intros addr; simpl; [by rewrite Z.add_0_r|].
  rewrite IH. do 3 f_equal. lia.
Qed.

(** Merging does not change what is written, in which order. *)
Lemma writes_merge seg rs : writes (merge seg rs) = writes (seg :: rs).
Proof.
  revert seg. induction rs as [|r rs IH]; intros seg; [done|]. cbn [merge]. unfold continues.
  destruct (_ && _) eqn:Hc; [|unfold writes in *; cbn [flat_map]; by rewrite IH].
  apply andb_true_iff in Hc as [Ha _]. apply Z.eqb_eq in Ha. rewrite IH. unfold writes. cbn [flat_map fst snd].
  by rewrite bytes_at_app, <- Ha, <- app_assoc.
Qed.
Lemma writes_segments rs : writes (segments rs) = writes rs.
Proof. destruct rs as [|r rs]; [done|]. apply writes_merge. Qed.

Definition segment_size (seg : Z * list Z) : Prop := (1 <= length (snd seg) <= 1023)%nat.

Lemma merge_sizes seg rs :
  segment_size seg -> Forall segment_size rs -> Forall segment_size (merge seg rs).
Proof.
  intros Hs Hrs. revert seg Hs. induction Hrs as [|r rs Hr Hrs IH]; intros seg Hs; cbn [merge]; [by constructor|].
  unfold continues. destruct (_ && _) eqn:Hc; [|constructor; auto].
  apply andb_true_iff in Hc as [_ Hc%Nat.leb_le]. apply IH. unfold segment_size in *. simpl. rewrite length_app. lia.
Qed.
Lemma segments_sizes rs : Forall segment_size rs -> Forall segment_size (segments rs).
Proof. destruct 1 as [|r rs Hr Hrs]; [constructor|by apply merge_sizes]. Qed.

Lemma records_sizes ls : Forall wf_line ls -> Forall segment_size (records ls).
Proof.
  induction 1 as [|l ls Hl _ IH]; [constructor|]. apply Forall_app. split; [|done].
  destruct l as [text|addr data tl]; [constructor|]. destruct Hl as (_ & _ & Hd & Hl & _).
  constructor; [|constructor]. unfold segment_size. simpl. destruct data; [done|simpl in *; lia].
Qed.

Definition segment_addr (seg : Z * list Z) : Prop := 0 <= fst seg < 65536.

Lemma merge_addrs seg rs : segment_addr seg -> Forall segment_addr rs -> Forall segment_addr (merge seg rs).
Proof.
  intros Hs Hrs. revert seg Hs. induction Hrs as [|r rs Hr Hrs IH]; intros seg Hs; cbn [merge]; [by constructor|].
  destruct (continues seg r); [by apply IH|constructor; auto].
Qed.
Lemma segments_addrs ls : Forall wf_line ls -> Forall segment_addr (segments (records ls)).
Proof.
  intros Hls. assert (Forall segment_addr (records ls)) as Hr.
  { induction Hls as [|[text|a d tl] ls Hl _ IH]; [constructor|done|]. constructor; [apply Hl|done]. }
  destruct (records ls); [constructor|]. inversion_clear Hr. by apply merge_addrs.
Qed.

(** ** The fields of a record *)

Lemma hex_byte_length low b : length (hex_byte low b) = 2%nat.
Proof. done. Qed.

Lemma record_fields low len addr type tl :
  is_byte len -> 0 <= addr < 65536 -> is_byte type -> tl <> [] ->
  let buf := record_head low len addr type ++ tl in
  hex_field buf 1 3 = Ok len /\ hex_field buf 3 7 = Ok addr /\ hex_field buf 7 9 = Ok type.
Proof.
  intros Hlen Haddr Htype Htl buf.
  assert (9 < length buf)%nat as Hb by (unfold buf; rewrite length_app; destruct tl; simpl; [done|lia]).
  rewrite !hex_field_ok by lia. unfold buf, record_head. cbn [take drop app hex_byte Nat.sub].
  rewrite take_0. fold (hex_byte low len) (hex_byte low type).
  change [hex_char low (addr / 256 / 16); hex_char low (addr / 256 mod 16);
          hex_char low (addr mod 256 / 16); hex_char low (addr mod 256 mod 16)]
    with (hex_byte low (addr / 256) ++ hex_byte low (addr mod 256)).
  by rewrite strtoul16_hex_word, !strtoul16_hex_byte.
Qed.

Lemma hex_byte_plain low b : is_byte b -> Forall (fun c => c <> 0 /\ c <> 10) (hex_byte low b).
Proof.
  intros Hb. unfold is_byte in Hb.
  assert (0 <= b / 16 < 16) by (split; [apply Z.div_pos; lia|apply Z.div_lt_upper_bound; lia]).
  assert (0 <= b mod 16 < 16) by by apply Z.mod_pos_bound.
  unfold hex_byte. rewrite !Forall_cons. split_and!; by apply hex_char_plain || done.
Qed.

Definition plain (c : Z) : Prop := c <> 0 /\ c <> 10.

Lemma record_head_plain low len addr type :
  is_byte len -> 0 <= addr < 65536 -> is_byte type -> Forall plain (record_head low len addr type).
Proof.
  intros Hlen Haddr Htype. unfold record_head. constructor; [done|].
  assert (is_byte (addr / 256)) by (split; [apply Z.div_pos; lia|apply Z.div_lt_upper_bound; lia]).
  assert (is_byte (addr mod 256)) by by apply Z.mod_pos_bound.
  rewrite !Forall_app. split_and!; by apply hex_byte_plain.
Qed.

Lemma hex_bytes_plain low ds : is_bytes ds -> Forall plain (flat_map (hex_byte low) ds).
Proof. induction 1 as [|b ds Hb _ IH]; [constructor|]. apply Forall_app. split; [by apply hex_byte_plain|done]. Qed.

Lemma hex_bytes_length low ds : length (flat_map (hex_byte low) ds) = (2 * length ds)%nat.
Proof. induction ds as [|b ds IH]; [done|]. cbn [flat_map]. rewrite length_app, IH. simpl. lia. Qed.

Lemma plain_not_in tl : 10 ∉ tl -> 0 ∉ tl -> Forall plain tl.
Proof. intros H10 H0. apply Forall_forall. intros c Hc. split; by intros ->. Qed.

(** ** The loop *)

Section loop.
Context {C : Type} (is_external : option (Z -> Z -> bool)) (poke : Z -> bool -> list Z -> M C Z).
Variables (junk : nat -> list Z) (low : bool).
Hypothesis junk_length : forall n, length (junk n) = 512%nat.

(** [s] is the state of the loop with the bytes [d] saved for the address
    [a]. *)
Definition saved (s : ihex) (a : Z) (d : list Z) : Prop :=
  length (ih_data s) = 1023%nat /\ ih_addr s = a /\ ih_len s = Z.of_nat (length d) /\
  take (length d) (ih_data s) = d /\ (length d <= 1023)%nat /\ ih_first s = false /\
  (is_external = None -> ih_external s = false) /\ 0 <= a < 65536.

(** The segments go to [poke] one after the other. *)
Definition external_at (a : Z) (d : list Z) : bool :=
  match is_external with Some f => f a (Z.of_nat (length d)) | None => false end.
Fixpoint run_segments (segs : list (Z * list Z)) : M C Z :=
  match segs with
  | [] => mret 0
  | (a, d) :: segs =>
      rc ← poke a (external_at a d) d;
      if rc <? 0 then mret (-1) else run_segments segs
  end.

Lemma flush_saved s a d c :
  saved s a d ->
  flush is_external poke s c
    = (rc ← poke a (external_at a d) d; mret (rc, update_external is_external (ih_external s) a (ih_len s))) c.
Proof.
  intros (Hl & Ha & Hn & Htk & Hle & _ & He & _). unfold flush. rewrite Ha, Hn, Nat2Z.id. unfold rd_n.
  rewrite decide_True by lia. rewrite Htk. unfold mbind, M_bind, lift, mret, M_ret.
  assert (update_external is_external (ih_external s) a (Z.of_nat (length d)) = external_at a d) as ->.
  { unfold update_external, external_at. destruct is_external; [done|auto]. }
  done.
Qed.

(** The line in the buffer, with what is behind its end. *)
Definition record_buf (a : Z) (d tl post : list Z) : list Z :=
  (record_head low (Z.of_nat (length d)) a 0 ++ flat_map (hex_byte low) d ++ tl) ++ 0 :: post.

Lemma append_to_saved s a d a' d' tl post :
  saved s a d -> wf_line (HexData a' d' tl) -> (length d + length d' <= 1023)%nat ->
  exists s', append_to (record_buf a' d' tl post) (Z.of_nat (length d')) s = Ok s' /\ saved s' a (d ++ d').
Proof.
  intros (Hl & Ha & Hn & Htk & Hle & Hf & He & Hab) (_ & Hd' & _ & Hd255 & _ & _ & Htl & _) Hsum.
  unfold append_to, record_buf. rewrite <- !app_assoc.
  destruct (append_record_value low 512 0 (record_head low (Z.of_nat (length d')) a' 0) d' (tl ++ 0 :: post)
    (ih_data s) (length d)) as (data & Happ & Hl' & Htk'); [done|by destruct tl|done|lia|lia|].
  rewrite Hn, Happ. cbn [mbind outcome_bind]. eexists. split; [done|].
  rewrite Nat.add_0_r, Htk in Htk'.
  split_and!; simpl; rewrite ?length_app; try done; try lia.
  unfold ulong. rewrite Z.mod_small; lia.
Qed.

(** The state between two lines: nothing was read, or a segment is saved. *)
Definition state_is (s : ihex) (cur : option (Z * list Z)) : Prop :=
  match cur with
  | None => length (ih_data s) = 1023%nat /\ ih_len s = 0 /\ ih_first s = true /\ ih_external s = false
  | Some (a, d) => saved s a d /\ d <> []
  end.

Lemma record_buf_fields a d tl post :
  wf_line (HexData a d tl) ->
  hex_field (record_buf a d tl post) 1 3 = Ok (Z.of_nat (length d)) /\
  hex_field (record_buf a d tl post) 3 7 = Ok a /\
  hex_field (record_buf a d tl post) 7 9 = Ok 0 /\
  (11 + 2 * length d <= length (cstring (record_buf a d tl post)))%nat.
Proof.
  intros (Ha & Hd & Hne & Hld & H10 & H0 & Htl & Hlen).
  unfold record_buf. rewrite <- !app_assoc.
  destruct (record_fields low (Z.of_nat (length d)) a 0 (flat_map (hex_byte low) d ++ tl ++ 0 :: post))
    as (-> & -> & ->); [split; lia|done|done|by destruct d|].
  split_and!; [done..|]. rewrite !(app_assoc _ _ (0 :: post)), cstring_prefix.
  - rewrite !length_app, hex_bytes_length. simpl. lia.
  - apply (Forall_impl plain); [|by intros c [? _]].
    rewrite !Forall_app. split_and!; [apply record_head_plain|by apply hex_bytes_plain|by apply plain_not_in]; done || (split; lia).
Qed.

(** The fields read, with the conditions on them decided. *)
Lemma ihex_record_data s a d tl post c :
  wf_line (HexData a d tl) ->
  let s1 := if ih_first s then mk_ihex (ih_data s) a (ih_len s) false (ih_external s) else s in
  let buf := record_buf a d tl post in
  let len := Z.of_nat (length d) in
  ihex_record is_external poke buf s c =
  (if must_flush s1 a len then
     '(rc, external) ← flush is_external poke s1;
     if rc <? 0 then mret (Returns (-1))
     else s ← lift (append_to buf len (mk_ihex (ih_data s1) a 0 (ih_first s1) external)); mret (Continues s)
   else s ← lift (append_to buf len s1); mret (Continues s)) c.
Proof.
  intros Hwf s1 buf len. destruct (record_buf_fields a d tl post Hwf) as (H1 & H2 & H3 & H4).
  destruct Hwf as (Ha & _ & _ & Hld & _).
  unfold ihex_record, mbind, M_bind, lift. fold buf in H1, H2, H3, H4. rewrite H1, H2, H3.
  assert (u32 (i32 a) = a) as -> by (rewrite i32_small by lia; unfold u32; rewrite Z.mod_small; lia).
  change (u8 0) with 0. cbn [Z.eqb negb].
  rewrite (proj2 (Z.ltb_ge _ _)) by (unfold ulong; rewrite Z.mod_small; lia).
  done.
Qed.

Lemma must_flush_spec s a0 d0 a d :
  saved s a0 d0 -> d0 <> [] -> 0 <= a < 65536 -> (length d <= 255)%nat ->
  must_flush s a (Z.of_nat (length d)) = negb (continues (a0, d0) (a, d)).
Proof.
  intros (_ & Ha & Hn & _ & Hle & _ & _ & Hab) Hd0 Hb Hd. unfold must_flush, continues. cbn [fst snd].
  rewrite Ha, Hn, negb_andb. assert (length d0 <> 0)%nat by by destruct d0.
  rewrite (proj2 (Z.eqb_neq _ 0)) by lia. unfold ulong. rewrite !Z.mod_small by lia. simpl. f_equal.
  destruct (Nat.leb_spec (length d0 + length d) 1023); [apply Z.ltb_ge|apply Z.ltb_lt]; lia.
Qed.

(** A record that continues the segment, or the first one. *)
Lemma ihex_record_joins s cur a d tl post :
  state_is s cur -> wf_line (HexData a d tl) ->
  (forall seg, cur = Some seg -> continues seg (a, d) = true) ->
  exists s', state_is s' (Some (match cur with Some seg => (fst seg, snd seg ++ d) | None => (a, d) end)) /\
    forall c, ihex_record is_external poke (record_buf a d tl post) s c = Ok (Continues s', c).
Proof.
  intros Hs Hwf Hc. pose proof Hwf as (Ha & Hd & Hne & Hld & _).
  pose proof (fun c => ihex_record_data s a d tl post c Hwf) as Hr. cbn zeta in Hr.
  destruct cur as [[a0 d0]|].
  - destruct Hs as [Hs Hd0]. assert (ih_first s = false) as Hf by apply Hs. rewrite Hf in Hr.
    specialize (Hc _ eq_refl).
    destruct (append_to_saved s a0 d0 a d tl post Hs Hwf) as (s' & Happ & Hs').
    { unfold continues in Hc. simpl in Hc. apply andb_true_iff in Hc as [_ Hc%Nat.leb_le]. done. }
    exists s'. split; [split; [done|by destruct d0]|]. intros c. rewrite Hr.
    rewrite (must_flush_spec s a0 d0) by done. rewrite Hc. cbn [negb].
    unfold mbind, M_bind, lift. by rewrite Happ.
  - destruct Hs as (Hl & Hn & Hf & He). rewrite Hf in Hr.
    set (s1 := mk_ihex (ih_data s) a (ih_len s) false (ih_external s)) in Hr.
    assert (saved s1 a []) as Hs1 by (split_and!; simpl; done || lia).
    destruct (append_to_saved s1 a [] a d tl post Hs1 Hwf) as (s' & Happ & Hs'); [simpl; lia|].
    exists s'. split; [by split|]. intros c. rewrite Hr. unfold must_flush. simpl. rewrite Hn. simpl.
    unfold mbind, M_bind, lift. by rewrite Happ.
Qed.

(** A record that does not: the segment goes to [poke]. *)
Lemma ihex_record_flushes s a0 d0 a d tl post :
  state_is s (Some (a0, d0)) -> wf_line (HexData a d tl) -> continues (a0, d0) (a, d) = false ->
  exists s', state_is s' (Some (a, d)) /\
    forall c, ihex_record is_external poke (record_buf a d tl post) s c =
      (rc ← poke a0 (external_at a0 d0) d0;
       if rc <? 0 then mret (Returns (-1)) else mret (Continues s')) c.
Proof.
  intros [Hs Hd0] Hwf Hc. pose proof Hwf as (Ha & Hd & Hne & Hld & _).
  pose proof (fun c => ihex_record_data s a d tl post c Hwf) as Hr. cbn zeta in Hr.
  pose proof Hs as (Hl & Has & Hn & Htk & Hle & Hf & He & Hab). rewrite Hf in Hr.
  set (s1 := mk_ihex (ih_data s) a 0 false (update_external is_external (ih_external s) a0 (ih_len s))).
  assert (saved s1 a []) as Hs1.
  { split_and!; simpl; try done; try lia. unfold update_external. intros ->. by apply He. }
  destruct (append_to_saved s1 a [] a d tl post Hs1 Hwf) as (s' & Happ & Hs'); [simpl; lia|].
  exists s'. split; [by split|]. intros c. rewrite Hr.
  rewrite (must_flush_spec s a0 d0) by done. rewrite Hc. cbn [negb].
  unfold mbind at 1, M_bind at 1. rewrite (flush_saved s a0 d0 c Hs).
  unfold mbind, M_bind, mret, M_ret, lift. destruct (poke _ _ _ _) as [[rc c']|e]; [|done].
  rewrite Hf. fold s1. rewrite Happ. by destruct (rc <? 0).
Qed.

(** *** Reading a line into the buffer *)

Lemma fill_buffer n bs :
  (length bs <= 511)%nat ->
  store (junk n) 0 (bs ++ [0]) = Ok (bs ++ 0 :: drop (length bs + 1) (junk n)).
Proof.
  intros Hbs. unfold store. pose proof (junk_length n). rewrite decide_True by (rewrite length_app; simpl; lia).
  rewrite length_app, <- app_assoc. done.
Qed.

Lemma strchr_newline text post : Forall plain text -> strchr (text ++ 10 :: post) 10 = Some (length text).
Proof.
  intros Htext. rewrite strchr_app by done. unfold strchr. simpl. by rewrite Nat.add_0_r.
Qed.

Lemma turn_comment n s f c text rest :
  unread f = (35 :: text) ++ 10 :: rest -> wf_line (HexComment text) ->
  exists f', unread f' = rest /\ same_file f f' /\ ihex_turn is_external poke junk n s (f, c) = Ok (Continues s, (f', c)).
Proof.
  intros Hu [Htext Hl]. destruct (fgets_line 512 f (35 :: text) rest) as [Hg Hr]; [done|set_solver|simpl; lia|].
  eexists. split; [exact Hr|]. split; [done|].
  unfold ihex_turn, mbind, M_bind, on_fst, lift. cbn [fst snd]. rewrite Hg.
  rewrite fill_buffer by (rewrite length_app; simpl; lia). done.
Qed.

Lemma print_data_plain a d tl :
  wf_line (HexData a d tl) -> Forall plain (print_line low (HexData a d tl)).
Proof.
  intros (Ha & Hd & _ & Hld & H10 & H0 & _). cbn [print_line].
  rewrite !Forall_app. split_and!; [apply record_head_plain|by apply hex_bytes_plain|by apply plain_not_in]; done || (split; lia).
Qed.

Lemma print_data_length a d tl :
  length (print_line low (HexData a d tl)) = (9 + 2 * length d + length tl)%nat.
Proof. cbn [print_line]. rewrite !length_app, hex_bytes_length. simpl. lia. Qed.

Lemma turn_data n s f c a d tl rest :
  unread f = print_line low (HexData a d tl) ++ 10 :: rest -> wf_line (HexData a d tl) ->
  exists f' post, unread f' = rest /\ same_file f f' /\
    ihex_turn is_external poke junk n s (f, c)
      = on_snd (ihex_record is_external poke (record_buf a d tl post) s) (f', c).
Proof.
  intros Hu Hwf. pose proof (print_data_plain _ _ _ Hwf) as Hp. pose proof (print_data_length a d tl) as Hl.
  set (text := print_line low (HexData a d tl)) in *.
  destruct Hwf as (_ & _ & _ & _ & _ & _ & _ & Hlen).
  destruct (fgets_line 512 f text rest) as [Hg Hr]; [done| |lia|].
  { intros Hin. rewrite Forall_forall in Hp. by destruct (Hp 10 Hin). }
  exists (set_pos f (f_pos f + (length text + 1)) (f_eof f)), (0 :: drop (length (text ++ [10]) + 1) (junk n)).
  split; [exact Hr|]. split; [done|].
  unfold ihex_turn, mbind, M_bind, on_fst, lift. cbn [fst snd]. rewrite Hg.
  rewrite fill_buffer by (rewrite length_app; cbn [length]; lia). rewrite <- app_assoc. cbn [app].
  change (rd (text ++ _) 0) with (Ok 58). cbn beta iota.
  rewrite strchr_newline by done. by rewrite insert_app_r_alt, Nat.sub_diag by done.
Qed.

(** The end record, whatever follows it. *)
Lemma turn_end n s f c tl :
  unread f = record_head low 0 0 1 ++ tl -> f_bad f = None ->
  exists f', same_file f f' /\
    ihex_turn is_external poke junk n s (f, c)
      = Ok (Breaks (if ih_first s then mk_ihex (ih_data s) 0 (ih_len s) false (ih_external s) else s), (f', c)).
Proof.
  intros Hu Hbad.
  assert (exists bs e k, fgets 512 f = Ok (Some (record_head low 0 0 1 ++ bs), set_pos f k e) /\ (length bs <= 502)%nat)
    as (bs & e & k & Hg & Hbs).
  { unfold fgets. rewrite Hu. unfold ends_file. rewrite Hbad.
    change (512 - 1)%nat with (length (record_head low 0 0 1) + 502)%nat.
    rewrite take_line_app by by destruct low; vm_compute; set_solver.
    destruct (take_line_prefix 502 tl) as (j & Hj & Hle & _). destruct (take_line 502 tl) as [bs full]. simpl in Hj.
    exists bs. assert (length bs <= 502)%nat by (subst bs; rewrite length_take; lia). cbn [fst snd].
    destruct full; eauto. }
  exists (set_pos f k e). split; [done|].
  unfold ihex_turn, mbind, M_bind, on_fst, lift. cbn [fst snd]. rewrite Hg.
  rewrite fill_buffer by (rewrite length_app; cbn [length]; simpl; lia). rewrite <- app_assoc.
  change (rd (record_head low 0 0 1 ++ _) 0) with (Ok 58). cbn beta iota.
  set (post := bs ++ _).
  assert (exists post', post' <> [] /\
    (match strchr (record_head low 0 0 1 ++ post) 10 with
     | Some i => <[i := 0]> (record_head low 0 0 1 ++ post)
     | None => record_head low 0 0 1 ++ post
     end) = record_head low 0 0 1 ++ post') as (post' & Hpost & ->).
  { assert (post <> []) by (unfold post; by destruct bs).
    rewrite strchr_app by by destruct low; repeat constructor.
    destruct (strchr post 10) as [i|]; [|by eexists]. exists (<[i:=0]> post). split.
    - intros Hn%(f_equal length). rewrite length_insert in Hn. by destruct post.
    - exact (insert_app_r (record_head low 0 0 1) post i 0). }
  destruct (record_fields low 0 0 1 post') as (H1 & H2 & H3); [done|done|done|done|].
  cbn [negb Z.eqb]. unfold on_snd, ihex_record, mbind, M_bind, lift. cbn [fst snd]. rewrite H1, H2, H3. done.
Qed.

(** *** A whole image *)

(** [m], started on the file [f], does to the context what [r] does. *)
Definition runs_as (m : M (FILE * C) Z) (f : FILE) (r : M C Z) (c : C) : Prop :=
  match r c with
  | Ok (x, c') => exists f', same_file f f' /\ m (f, c) = Ok (x, (f', c'))
  | Fault e => m (f, c) = Fault e
  end.

Lemma flush_remaining_runs s cur f c :
  match cur with Some (a, d) => saved s a d /\ d <> [] | None => ih_len s = 0 end ->
  runs_as (flush_remaining is_external poke (inr s)) f
    (run_segments (match cur with Some seg => [seg] | None => [] end)) c.
Proof.
  unfold runs_as, flush_remaining. destruct cur as [[a d]|].
  - intros [Hs Hd]. assert (ih_len s = Z.of_nat (length d)) as Hn by apply Hs.
    rewrite Hn. rewrite (proj2 (Z.eqb_neq _ 0)) by by destruct d. cbn [negb].
    unfold mbind, M_bind, on_snd. cbn [fst snd]. rewrite (flush_saved s a d c Hs). cbn [run_segments].
    unfold mbind, M_bind, mret, M_ret. destruct (poke _ _ _ c) as [[rc c']|e]; [|done].
    destruct (rc <? 0); by exists f.
  - intros ->. by exists f.
Qed.

(** A turn that goes on, and one that calls [poke] first. *)
Lemma runs_as_step (loop m : M (FILE * C) Z) r f g c :
  same_file f g -> loop (f, c) = m (g, c) -> runs_as m g r c -> runs_as loop f r c.
Proof.
  intros Hfg Hm. unfold runs_as. destruct (r c) as [[x c']|e]; [|by rewrite Hm].
  intros (f' & Hf' & Hr). exists f'. split; [by etrans|by rewrite Hm].
Qed.

Lemma runs_as_poke (p : M C Z) (m : M (FILE * C) Z) (r : M C Z) f c :
  (forall c', runs_as m f r c') ->
  runs_as (rc ← on_snd p; if rc <? 0 then mret (-1) else m) f (rc ← p; if rc <? 0 then mret (-1) else r) c.
Proof.
  intros Hm. unfold runs_as, mbind, M_bind, on_snd. cbn [fst snd].
  destruct (p c) as [[rc c']|e]; [|done]. destruct (rc <? 0); [by exists f|]. apply Hm.
Qed.

Lemma image_length ls tl : (length ls < length (print_image low ls tl))%nat.
Proof.
  unfold print_image. induction ls as [|l ls IH]; cbn [foldr length]; rewrite length_app; cbn [length]; [simpl; lia|lia].
Qed.

(** The loop on the rest of an image. *)
Lemma ihex_loop_runs tl ls s cur n f c fuel :
  state_is s cur -> Forall wf_line ls -> f_bad f = None -> unread f = print_image low ls tl ->
  (length ls < fuel)%nat ->
  runs_as (ihex_loop is_external poke junk fuel n s ≫= flush_remaining is_external poke) f
    (run_segments (match cur with Some seg => merge seg (records ls) | None => segments (records ls) end)) c.
Proof.
  intros Hs Hls. revert s cur n f c fuel Hs.
  induction Hls as [|l ls Hl Hls IH]; intros s cur n f c [|fuel] Hs Hbad Hu Hfuel; [lia| |lia|].
  - destruct (turn_end n s f c tl Hu Hbad) as (f' & Hf' & Ht).
    set (s' := if ih_first s then mk_ihex (ih_data s) 0 (ih_len s) false (ih_external s) else s) in Ht.
    eapply runs_as_step; [exact Hf'| |apply (flush_remaining_runs s' cur)].
    + cbn [ihex_loop]. unfold mbind, M_bind. by rewrite Ht.
    + unfold s'. destruct cur as [[a d]|]; [|destruct Hs as (_ & Hn & -> & _); done].
      assert (ih_first s = false) as -> by apply Hs. exact Hs.
  - cbn [print_image foldr] in Hu. fold (print_image low ls tl) in Hu.
    destruct l as [text|a d tl0].
    + destruct (turn_comment n s f c text _ Hu Hl) as (f' & Hu' & Hf' & Ht).
      eapply runs_as_step; [exact Hf'| |apply (IH s cur (S n) f' c fuel Hs)].
      * cbn [ihex_loop]. unfold mbind, M_bind. by rewrite Ht.
      * destruct Hf' as (_ & -> & _). done.
      * done.
      * simpl in Hfuel. lia.
    + destruct (turn_data n s f c a d tl0 _ Hu Hl) as (f' & post & Hu' & Hf' & Ht).
      assert (f_bad f' = None) as Hbad' by by destruct Hf' as (_ & -> & _).
      assert (length ls < fuel)%nat as Hfuel' by (simpl in Hfuel; lia).
      cbn [records flat_map line_records app]. fold (records ls).
      assert ((exists a0 d0, cur = Some (a0, d0) /\ continues (a0, d0) (a, d) = false) \/
              (forall seg, cur = Some seg -> continues seg (a, d) = true)) as [(a0 & d0 & -> & Hc)|Hc].
      { destruct cur as [[a0 d0]|]; [|by right].
        destruct (continues (a0, d0) (a, d)) eqn:Hc; [right; by intros ? [= <-]|left; eauto]. }
      * destruct (ihex_record_flushes s a0 d0 a d tl0 post Hs Hl Hc) as (s' & Hs' & Hr).
        unfold runs_as. cbn [ihex_loop merge]. rewrite Hc. cbn [run_segments].
        unfold mbind, M_bind. rewrite Ht. unfold on_snd. cbn [fst snd]. rewrite Hr.
        unfold mbind, M_bind, mret, M_ret. destruct (poke _ _ _ c) as [[rc c']|e]; [|done].
        destruct (rc <? 0); [by exists f'|].
        pose proof (IH s' (Some (a, d)) (S n) f' c' fuel Hs' Hbad' Hu' Hfuel') as HI.
        unfold runs_as in HI. destruct (run_segments _ c') as [[x c'']|e]; [|done].
        destruct HI as (f'' & Hf'' & HI). exists f''. split; [by etrans|done].
      * destruct (ihex_record_joins s cur a d tl0 post Hs Hl Hc) as (s' & Hs' & Hr).
        apply (runs_as_step _ (ihex_loop is_external poke junk fuel (S n) s' ≫= flush_remaining is_external poke) _ _ f');
          [done| |].
        -- cbn [ihex_loop]. unfold mbind, M_bind. rewrite Ht. unfold on_snd. cbn [fst snd]. by rewrite Hr.
        -- pose proof (IH s' _ (S n) f' c fuel Hs' Hbad' Hu' Hfuel') as HI.
           destruct cur as [[a0 d0]|]; [|exact HI]. cbn [merge]. rewrite (Hc _ eq_refl). exact HI.
Qed.

(** An image that is parsed from its start goes to [poke] as the segments of
    the reference definition. *)
Lemma parse_ihex_runs tl ls data0 f c :
  length data0 = 1023%nat -> Forall wf_line ls -> f_bad f = None -> unread f = print_image low ls tl ->
  runs_as (parse_ihex is_external poke junk data0) f (run_segments (segments (records ls))) c.
Proof.
  intros Hd Hls Hbad Hu.
  apply (runs_as_step _ (ihex_loop is_external poke junk (S (length (unread f))) 0 (mk_ihex data0 0 0 true false)
                           ≫= flush_remaining is_external poke) _ _ f); [done|done|].
  apply (ihex_loop_runs tl ls _ None); [by split_and!|done|done|done|].
  simpl. rewrite Hu. pose proof (image_length ls tl). lia.
Qed.
End loop.

(** ** Any file *)

(** No record starts with [":-"]. *)
Definition no_minus (l : list Z) : Prop := forall i, l !! i = Some 58 -> l !! S i <> Some 45.

Lemma no_minus_drop n l : no_minus l -> no_minus (drop n l).
Proof. intros Hl i. rewrite !lookup_drop, Nat.add_succ_r. apply Hl. Qed.

Section any_file.
Context {C : Type} (is_external : option (Z -> Z -> bool)) (poke : Z -> bool -> list Z -> M C Z).
Variables (junk : nat -> list Z) (I : C -> Prop).
Hypothesis junk_length : forall n, length (junk n) = 512%nat.
Hypothesis poke_safe : forall a e d c, I c -> (1 <= length d <= 1023)%nat -> wp (poke a e d) c (fun _ c' => I c').

Definition buffered (s : ihex) : Prop := length (ih_data s) = 1023%nat /\ 0 <= ih_len s <= 1023.

Lemma flush_safe s c :
  buffered s -> ih_len s <> 0 -> I c -> wp (flush is_external poke s) c (fun _ c' => I c').
Proof.
  intros [Hl Hn] H0 Hc. unfold flush, rd_n. apply wp_bind. rewrite decide_True by lia.
  eapply wp_lift; [done|]. apply wp_bind. eapply wp_mono; [apply poke_safe; [done|]|by intros rc c'].
  rewrite length_take. lia.
Qed.

Lemma append_to_safe buf len s :
  length buf = 512%nat -> buffered s -> 0 <= len <= 255 -> 2 * len + 11 <= 512 -> ih_len s + len <= 1023 ->
  exists s', append_to buf len s = Ok s' /\ buffered s'.
Proof.
  intros Hb [Hl Hn] Hlen H512 Hsum. unfold append_to.
  destruct (append_record_safe 512 0 buf (ih_data s) (ih_len s) len) as (data & -> & Hd); [lia..|].
  cbn [mbind outcome_bind]. eexists. split; [done|]. unfold buffered, ulong. simpl.
  rewrite Z.mod_small by lia. split; lia.
Qed.

Definition turn_result (t : turn ihex) : Prop :=
  match t with
  | Returns r => r < 0
  | Breaks s | Continues s => buffered s
  end.

Lemma ihex_record_safe buf s c :
  length buf = 512%nat -> buf !! 1%nat <> Some 45 -> buffered s -> I c ->
  wp (ihex_record is_external poke buf s) c (fun t c' => I c' /\ turn_result t).
Proof.
  intros Hb Hminus Hs Hc. unfold ihex_record. rewrite !hex_field_ok by lia.
  assert (0 <= strtoul16 (take (3 - 1) (drop 1 buf)) <= 255) as Hlen.
  { apply strtoul16_byte; [rewrite length_take; lia|]. destruct buf as [|x [|y buf]]; simpl in *; congruence. }
  set (len := strtoul16 _) in *. clearbody len.
  apply wp_bind. eapply wp_lift; [done|]. apply wp_bind. eapply wp_lift; [done|]. cbn zeta.
  set (off := u32 _). set (s1 := if ih_first s then _ else s).
  assert (buffered s1) as Hs1 by (unfold s1; by destruct (ih_first s)).
  clearbody s1 off. apply wp_bind. eapply wp_lift; [done|].
  destruct (u8 _ =? 1); [by apply wp_ret|]. destruct (negb _); [by apply wp_ret|].
  destruct (Z.ltb_spec (Z.of_nat (length (cstring buf))) (ulong (len * 2 + 11))) as [_|Hlong]; [by apply wp_ret|].
  pose proof (cstring_length buf) as Hcs. unfold ulong in Hlong. rewrite Z.mod_small in Hlong by lia.
  assert (forall s2, buffered s2 -> ih_len s2 + len <= 1023 ->
    forall c2, I c2 -> wp (s ← lift (append_to buf len s2); mret (Continues s)) c2 (fun t c' => I c' /\ turn_result t))
    as Happ.
  { intros s2 Hs2 Hroom c2 Hc2. destruct (append_to_safe buf len s2) as (s3 & Hs3 & Hb3); [done|done|lia|lia|done|].
    apply wp_bind. eapply wp_lift; [exact Hs3|]. by apply wp_ret. }
  unfold must_flush. destruct (Z.eqb_spec (ih_len s1) 0) as [H0|H0]; cbn [negb andb].
  { apply Happ; [done|lia|done]. }
  destruct (negb _ || _) eqn:Hflush.
  - apply wp_bind. eapply wp_mono; [by apply flush_safe|]. intros [rc external] c' Hc'.
    destruct (rc <? 0); [by apply wp_ret|]. apply Happ; [|simpl; lia|done].
    destruct Hs1. split; simpl; [done|lia].
  - apply orb_false_iff in Hflush as [_ Hroom%Z.ltb_ge]. apply Happ; [done| |done].
    destruct Hs1 as [_ Hs1]. unfold ulong in Hroom. rewrite Z.mod_small in Hroom by lia. done.
Qed.

(** What is left of the file after a turn that read something. *)
Definition less_file (f f' : FILE) : Prop := exists k, (0 < k)%nat /\ (0 < length (unread f))%nat /\ unread f' = drop k (unread f).

Lemma ihex_turn_safe n s f c :
  no_minus (unread f) -> buffered s -> I c ->
  wp (ihex_turn is_external poke junk n s) (f, c) (fun t st =>
    I (snd st) /\ turn_result t /\ (forall s', t = Continues s' -> less_file f (fst st))).
Proof.
  intros Hm Hs Hc. unfold ihex_turn. apply wp_bind, on_fst_wp. cbn [fst snd].
  apply fgets_wp; [lia| |].
  2: { intros k e. by apply wp_ret. }
  intros bs e Hne Hlt Hbs. set (f' := set_pos f _ e).
  assert (less_file f f') as Hless.
  { exists (length bs). split_and!.
    - destruct bs; [done|simpl; lia].
    - rewrite Hbs in Hne. destruct (unread f); [by rewrite take_nil in Hne|simpl; lia].
    - apply unread_set_pos. }
  apply wp_bind. eapply wp_lift; [by apply fill_buffer; [done|lia]|].
  destruct bs as [|x bs]; [done|].
  apply wp_bind. eapply wp_lift; [done|].
  destruct (x =? 35); [by apply wp_ret|]. destruct (Z.eqb_spec x 58) as [->|]; cbn [negb]; [|by apply wp_ret].
  apply on_snd_wp. cbn [fst snd]. set (buf := (58 :: bs) ++ _).
  assert (length buf = 512%nat) as Hbl.
  { unfold buf. rewrite length_app. cbn [length]. rewrite length_drop, junk_length. simpl in Hlt. lia. }
  assert (buf !! 1%nat <> Some 45) as H1.
  { unfold buf. destruct bs as [|y bs]; [done|]. cbn. intros [= ->].
    destruct (unread f) as [|u [|v u']] eqn:Hu; [done|done|]. simpl in Hbs. simplify_eq.
    specialize (Hm 0%nat). simpl in Hm. by apply Hm. }
  eapply wp_mono; [apply ihex_record_safe; [| |done|done]|].
  - destruct (strchr buf 10); [by rewrite length_insert|done].
  - destruct (strchr buf 10) as [i|]; [|done]. destruct (decide (i = 1%nat)) as [->|Hi].
    + rewrite list_lookup_insert_eq by lia. done.
    + by rewrite list_lookup_insert_ne.
  - intros t c' [Hc' Ht]. by split_and!.
Qed.

(** The loop ends, whatever the file holds. *)
Lemma ihex_loop_safe fuel n s f c :
  no_minus (unread f) -> buffered s -> I c -> (length (unread f) < fuel)%nat ->
  wp (ihex_loop is_external poke junk fuel n s) (f, c) (fun r st =>
    I (snd st) /\ match r with inl rc => rc < 0 | inr s' => buffered s' end).
Proof.
  revert n s f c. induction fuel as [|fuel IH]; intros n s f c Hm Hs Hc Hf; [lia|].
  cbn [ihex_loop]. apply wp_bind. eapply wp_mono; [by apply ihex_turn_safe|].
  intros t [f' c'] (Hc' & Ht & Hless). cbn [fst snd] in *. destruct t as [r|s'|s']; [by apply wp_ret..|].
  destruct (Hless s' eq_refl) as (k & Hk & Hlen & Hu).
  apply IH; [rewrite Hu; by apply no_minus_drop|done|done|rewrite Hu, length_drop; lia].
Qed.

Lemma parse_ihex_safe_wp data0 f c :
  length data0 = 1023%nat -> no_minus (unread f) -> I c ->
  wp (parse_ihex is_external poke junk data0) (f, c) (fun rc st => I (snd st) /\ rc <= 0).
Proof.
  intros Hd Hm Hc. unfold parse_ihex. apply wp_bind, wp_gets. apply wp_bind.
  eapply wp_mono; [apply ihex_loop_safe; [done|by split; simpl; [|lia]|done|simpl; lia]|].
  intros r [f' c'] [Hc' Hr]. cbn [snd] in *. destruct r as [rc|s]; cbn [flush_remaining]; [apply wp_ret; split; [done|lia]|].
  destruct (Z.eqb_spec (ih_len s) 0); cbn [negb]; [apply wp_ret; split; [done|lia]|].
  apply wp_bind, on_snd_wp. cbn [fst snd]. eapply wp_mono; [by apply flush_safe|].
  intros [rc e] c'' Hc''. apply wp_ret. split; [done|]. destruct (rc <? 0); lia.
Qed.
End any_file.
