(* ===== verification/EzusbSpecs.v ===== *)
(** * Images in binary formats, and a chip that is loaded

    The formats IIC, BIX and that of the FX3 with what the parsers do on
    them, and the interface of a chip that accepts what is written to it
    ([Chip]), with the requests the loaders send to it. *)

From S2P Require Import Prelude Heap Text ParseDesc DescApi Bos Stdio Ezusb IhexSpecs.

(** ** IIC and BIX images *)

Lemma fread_all n f l rest :
  f_bad f = None -> unread f = l ++ rest -> length l = n ->
  fread n f = Ok (l, set_pos f (f_pos f + n) (f_eof f)) /\
  unread (set_pos f (f_pos f + n) (f_eof f)) = rest.
Proof.
  intros Hbad Hu Hn. split.
  - unfold fread. rewrite Hu, take_app_length' by done. rewrite Hn.
    by rewrite (proj2 (Nat.ltb_ge n n)).
  - by rewrite unread_set_pos, Hu, drop_app_length'.
Qed.

Lemma fread_part n f :
  f_bad f = None ->
  exists f', same_file f f' /\ unread f' = drop n (unread f) /\ fread n f = Ok (take n (unread f), f') /\
    (unread f = [] -> (0 < n)%nat -> f_eof f' = true).
Proof.
  intros Hbad. unfold fread. eexists. split_and!; [..|reflexivity|].
  - done.
  - rewrite unread_set_pos, length_take. destruct (le_lt_dec n (length (unread f))).
    + by rewrite Nat.min_l.
    + rewrite Nat.min_r by lia. by rewrite !drop_ge by lia.
  - intros Hu Hn. rewrite Hu, take_nil. simpl. rewrite (proj2 (Nat.ltb_lt _ _)) by done.
    unfold ends_file. by rewrite Hbad, orb_true_r.
Qed.

(** A block of an IIC image: its length and address, and the bytes. *)
Definition print_block (b : Z * list Z) : list Z :=
  let len := Z.of_nat (length (snd b)) in
  [len / 256; len mod 256; fst b / 256; fst b mod 256] ++ snd b.
Definition wf_block (b : Z * list Z) : Prop :=
  0 <= fst b < 65536 /\ Z.of_nat (length (snd b)) <= 4096.

Lemma shiftl_byte h l : Z.shiftl h 8 + l = 256 * h + l.
Proof. rewrite Z.shiftl_mul_pow2 by done. lia. Qed.

Lemma data_size : Z.of_nat DATA_SIZE = 4096 /\ (0 < DATA_SIZE)%nat.
Proof. unfold DATA_SIZE. split; lia. Qed.
#[local] Opaque DATA_SIZE fread.

(** The pieces of a binary image. *)
Fixpoint chunks (fuel : nat) (addr : Z) (l : list Z) : list (Z * list Z) :=
  match fuel, l with
  | S fuel, _ :: _ => (addr, take DATA_SIZE l) :: chunks fuel (addr + 4096) (drop DATA_SIZE l)
  | _, _ => []
  end.

Lemma writes_chunks fuel addr l :
  (length l <= fuel)%nat -> writes (chunks fuel addr l) = bytes_at addr l.
Proof.
  revert addr l. induction fuel as [|fuel IH]; intros addr [|b l] Hf; try done; [simpl in Hf; lia|].
  set (l' := b :: l) in *. change (chunks (S fuel) addr l') with ((addr, take DATA_SIZE l') :: chunks fuel (addr + 4096) (drop DATA_SIZE l')).
  unfold writes. cbn [flat_map fst snd]. fold (writes (chunks fuel (addr + 4096) (drop DATA_SIZE l'))).
  pose proof data_size. rewrite IH by (rewrite length_drop; unfold l' in *; simpl in *; lia).
  pose proof data_size. destruct (le_lt_dec DATA_SIZE (length l')) as [Hge|Hlt].
  - rewrite <- (take_drop DATA_SIZE l') at 3. rewrite bytes_at_app, length_take. do 2 f_equal. lia.
  - rewrite take_ge, drop_ge by lia. by rewrite app_nil_r.
Qed.

Section binary.
Context {C : Type} (is_external : option (Z -> Z -> bool)) (poke : Z -> bool -> list Z -> M C Z).

Lemma update_external_at e a d :
  (is_external = None -> e = false) ->
  update_external is_external e a (Z.of_nat (length d)) = external_at is_external a d.
Proof. unfold update_external, external_at. destruct is_external; auto. Qed.
Lemma external_at_none a d : is_external = None -> external_at is_external a d = false.
Proof. unfold external_at. by intros ->. Qed.

(** A turn of the loop over blocks. *)
Lemma iic_loop_block fuel size e f c b rest :
  (is_external = None -> e = false) -> f_bad f = None -> f_seekable f = true ->
  Z.of_nat (f_pos f) < size - 5 -> unread f = print_block b ++ rest -> wf_block b ->
  exists f', same_file f f' /\ f_pos f' = (f_pos f + length (print_block b))%nat /\ unread f' = rest /\
    iic_loop is_external poke (S fuel) size e (f, c) =
    (rc ← on_snd (poke (fst b) (external_at is_external (fst b) (snd b)) (snd b));
     if rc <? 0 then mret (-1)
     else iic_loop is_external poke fuel size (external_at is_external (fst b) (snd b))) (f', c).
Proof.
  intros He Hbad Hseek Hpos Hu [Ha Hl]. destruct b as [a d]. cbn [fst snd] in *.
  unfold print_block in Hu. cbn [fst snd] in Hu. rewrite <- app_assoc in Hu.
  destruct (fread_all 4 f _ _ Hbad Hu eq_refl) as [Hg1 Hu1].
  set (f1 := set_pos f (f_pos f + 4) (f_eof f)) in *.
  destruct (fread_all (length d) f1 d rest Hbad Hu1 eq_refl) as [Hg2 Hu2].
  set (f2 := set_pos f1 _ _) in *.
  exists f2. split_and!; [done| |done|].
  { unfold f2, f1, print_block. cbn [snd f_pos set_pos]. rewrite length_app. simpl. lia. }
  cbn [iic_loop]. unfold mbind, M_bind, on_fst at 1. cbn [fst snd]. unfold ftell, gets. rewrite Hseek.
  rewrite (proj2 (Z.leb_gt _ _)) by lia. unfold on_fst at 1. cbn [fst snd]. rewrite Hg1.
  rewrite !shiftl_byte, <- !Z.div_mod by done.
  rewrite (proj2 (Z.ltb_ge _ _)) by lia. unfold on_fst at 1. cbn [fst snd]. rewrite Nat2Z.id, Hg2.
  rewrite Z.eqb_refl. cbn [negb]. by rewrite update_external_at.
Qed.

Lemma iic_loop_runs bs tl e f c fuel :
  (is_external = None -> e = false) -> f_bad f = None -> f_seekable f = true -> Forall wf_block bs ->
  unread f = flat_map print_block bs ++ tl -> length tl = 5%nat -> (length bs < fuel)%nat ->
  (f_pos f <= length (f_data f))%nat ->
  runs_as (iic_loop is_external poke fuel (Z.of_nat (length (f_data f))) e) f (run_segments is_external poke bs) c.
Proof.
  intros He Hbad Hseek Hbs. revert e f c fuel He Hbad Hseek.
  induction Hbs as [|b bs Hb Hbs IH]; intros e f c [|fuel] He Hbad Hseek Hu Htl Hfuel Hp; [lia| |lia|].
  - assert (length (f_data f) = f_pos f + 5)%nat as Hsize.
    { unfold unread in Hu. rewrite Hbad in Hu. apply (f_equal length) in Hu. simpl in Hu.
      rewrite length_drop, Htl in Hu. lia. }
    unfold runs_as. simpl. exists f. split; [done|]. unfold mbind, M_bind, on_fst, ftell, gets. cbn [fst snd].
    rewrite Hseek, (proj2 (Z.leb_le _ _)) by lia. by destruct f.
  - assert (length (f_data f) = f_pos f + length (unread f))%nat as Hsize.
    { unfold unread. rewrite Hbad, length_drop. lia. }
    cbn [flat_map] in Hu. rewrite <- app_assoc in Hu.
    assert (length (unread f) >= length (print_block b) + 5)%nat as Hmore.
    { rewrite Hu, !length_app. lia. }
    destruct (iic_loop_block fuel (Z.of_nat (length (f_data f))) e f c b (flat_map print_block bs ++ tl) He Hbad Hseek)
      as (f' & Hf' & Hp' & Hu' & Hloop); [|done|done|].
    { assert (4 <= length (print_block b))%nat by (unfold print_block; rewrite length_app; simpl; lia). lia. }
    destruct b as [a d]. cbn [run_segments fst snd] in *. pose proof Hf' as (Hd' & Hb' & Hs').
    eapply runs_as_step; [exact Hf'|exact Hloop|]. apply runs_as_poke. intros c'. rewrite <- Hd'.
    apply IH; [apply external_at_none|congruence|congruence|done|done|simpl in Hfuel; lia|rewrite Hd'; lia].
Qed.

Lemma parse_iic_runs bs tl f c :
  f_bad f = None -> f_seekable f = true -> Forall wf_block bs ->
  unread f = flat_map print_block bs ++ tl -> length tl = 5%nat -> (f_pos f <= length (f_data f))%nat ->
  runs_as (parse_iic is_external poke) f (run_segments is_external poke bs) c.
Proof.
  intros Hbad Hseek Hbs Hu Htl Hp.
  set (f1 := set_pos f (f_pos f) false).
  apply (runs_as_step _ (iic_loop is_external poke (S (length (unread f1))) (Z.of_nat (length (f_data f))) false) _ _ f1);
    [done| |].
  - unfold parse_iic, mbind, M_bind, on_fst, ftell, fseek_end, fseek_set, gets. cbn [fst snd]. rewrite Hseek.
    rewrite (proj2 (Z.ltb_ge _ _)) by lia. cbn [fst snd Z.eqb negb f_seekable set_pos]. rewrite Hseek.
    rewrite (proj2 (Z.leb_le 0 _)) by lia. cbn [andb fst snd Z.eqb negb f_seekable set_pos f_data f_pos]. rewrite Hseek.
    rewrite Nat2Z.id. done.
  - change (f_data f) with (f_data f1). apply (iic_loop_runs bs tl false f1); try done. change (unread f1) with (unread f). rewrite Hu, length_app.
    assert (length bs <= length (flat_map print_block bs))%nat; [|lia].
    clear. induction bs as [|b bs IH]; [done|]. cbn [flat_map]. rewrite length_app. unfold print_block at 1.
    rewrite length_app. simpl. lia.
Qed.

Lemma bin_loop_S fuel addr e :
  bin_loop is_external poke (S fuel) addr e =
  (data ← on_fst (fread DATA_SIZE);
   let data_len := Z.of_nat (length data) in
   if data_len =? 0 then eof ← on_fst feof; mret (if eof : bool then 0 else -1)
   else
     let external := update_external is_external e addr data_len in
     rc ← on_snd (poke addr external data);
     if rc <? 0 then mret (-1) else bin_loop is_external poke fuel (u32 (addr + u32 data_len)) external).
Proof. done. Qed.

Lemma bin_loop_runs fuel k e addr f c :
  (is_external = None -> e = false) -> f_bad f = None ->
  (length (unread f) < fuel)%nat -> (length (unread f) <= k)%nat ->
  0 <= addr -> addr + Z.of_nat (length (unread f)) < 2 ^ 32 ->
  runs_as (bin_loop is_external poke fuel addr e) f (run_segments is_external poke (chunks k addr (unread f))) c.
Proof.
  pose proof data_size as [Hsize Hpos].
  revert k e addr f c. induction fuel as [|fuel IH]; intros k e addr f c He Hbad Hfuel Hk Ha Hmax; [lia|].
  destruct (fread_part DATA_SIZE f Hbad) as (f' & Hf' & Hu' & Hr & Heof).
  assert (f_bad f' = None) as Hbad' by by destruct Hf' as (_ & -> & _).
  eapply runs_as_step; [exact Hf'|rewrite bin_loop_S; apply on_fst_ok; exact Hr|]. cbn zeta.
  destruct (unread f) as [|b l] eqn:Hu.
  - rewrite take_nil. assert (chunks k addr [] = []) as -> by by destruct k.
    unfold runs_as. exists f'. split; [done|].
    change (Z.of_nat (length []) =? 0) with true. cbn iota.
    erewrite on_fst_ok by reflexivity. by rewrite Heof by done.
  - set (l' := b :: l) in *. assert (length l' <> 0)%nat by done.
    destruct k as [|k]; [lia|].
    change (chunks (S k) addr l') with ((addr, take DATA_SIZE l') :: chunks k (addr + 4096) (drop DATA_SIZE l')).
    rewrite (proj2 (Z.eqb_neq _ 0)) by (rewrite length_take; lia). cbn [run_segments].
    rewrite update_external_at by done. apply runs_as_poke. intros c'. rewrite <- Hu'.
    assert (length (unread f') = length l' - DATA_SIZE)%nat as Hl' by by rewrite Hu', length_drop.
    destruct (le_lt_dec DATA_SIZE (length l')) as [Hge|Hlt].
    + assert (u32 (addr + u32 (Z.of_nat (length (take DATA_SIZE l')))) = addr + 4096) as ->.
      { rewrite length_take, Nat.min_l by done. unfold u32. rewrite (Z.mod_small (Z.of_nat DATA_SIZE)), Z.mod_small; lia. }
      apply IH; [apply external_at_none|done|lia..].
    + assert (unread f' = []) as Hnil by (apply length_zero_iff_nil; lia).
      set (addr' := u32 _). assert (0 <= addr' < 2 ^ 32) by by apply Z.mod_pos_bound.
      assert (chunks k (addr + 4096) (unread f') = chunks k addr' (unread f')) as -> by (rewrite Hnil; by destruct k).
      apply IH; [apply external_at_none|done|lia..].
Qed.

Lemma parse_bin_runs f c :
  f_bad f = None -> Z.of_nat (length (unread f)) < 2 ^ 32 ->
  runs_as (parse_bin is_external poke) f
    (run_segments is_external poke (chunks (length (unread f)) 0 (unread f))) c.
Proof.
  intros Hbad Hmax.
  apply (runs_as_step _ (bin_loop is_external poke (S (length (unread f))) 0 false) _ _ f); [done|done|].
  apply bin_loop_runs; done || lia.
Qed.
End binary.

(** ** A chip that accepts requests *)

(** A vendor request that wrote: its opcode, the address, the data. *)
Definition request : Type := Z * Z * list Z.

(** The memory that a list of requests leaves behind, byte by byte. *)
Definition store_byte (m : gmap Z Z) (w : Z * Z) : gmap Z Z := <[w.1 := w.2]> m.
Definition request_bytes (log : list request) : list (Z * Z) := flat_map (fun r => bytes_at r.1.2 r.2) log.
Definition memory (log : list request) : gmap Z Z := foldl store_byte ∅ (request_bytes log).
Definition read_memory (m : gmap Z Z) (addr : Z) (n : nat) : list Z :=
  (fun i => default 0 (m !! (addr + Z.of_nat i))) <$> seq 0 n.

(** Every write is accepted and logged; what was written is read back. *)
Class Chip (W : Type) {ct : ControlTransfer W} (log : W -> list request) : Prop := {
  chip_out : forall op v i data n t w, n = Z.of_nat (length data) ->
    exists w', control_transfer VENDOR_OUT op v i data n t w = Ok ((n, data), w') /\
      log w' = log w ++ [(op, v + 65536 * i, data)];
  chip_in : forall op v i data n t w, 0 <= n <= Z.of_nat (length data) ->
    exists w', control_transfer VENDOR_IN op v i data n t w =
        Ok ((n, read_memory (memory (log w)) (v + 65536 * i) (Z.to_nat n) ++ drop (Z.to_nat n) data), w') /\
      log w' = log w
}.

Lemma split_address addr :
  0 <= addr < 2 ^ 32 -> Z.land addr 0xFFFF + 65536 * u16 (Z.shiftr addr 16) = addr.
Proof.
  intros Ha. change 0xFFFF with (Z.ones 16). rewrite Z.land_ones, Z.shiftr_div_pow2 by done.
  unfold u16. rewrite (Z.mod_small (addr / 2 ^ 16)).
  - pose proof (Z.div_mod addr (2 ^ 16) ltac:(done)). change (2 ^ 16) with 65536 in *. lia.
  - split; [apply Z.div_pos; lia|]. apply Z.div_lt_upper_bound; lia.
Qed.

Section chip.
Context {W : Type} {ct : ControlTransfer W} {log : W -> list request} `{!Chip W log}.

Lemma ezusb_write_chip op addr data w :
  0 <= addr < 2 ^ 32 -> Z.of_nat (length data) < 65536 ->
  exists w', ezusb_write op addr data (Z.of_nat (length data)) w = Ok (0, w') /\ log w' = log w ++ [(op, addr, data)].
Proof.
  intros Ha Hl. unfold ezusb_write, mbind, M_bind.
  assert (u16 (Z.of_nat (length data)) = Z.of_nat (length data)) as -> by (unfold u16; rewrite Z.mod_small; lia).
  destruct (chip_out op (Z.land addr 0xFFFF) (u16 (Z.shiftr addr 16)) data _ 1000 w eq_refl) as (w' & -> & Hlog).
  rewrite (proj2 (Z.ltb_ge _ _)) by lia. rewrite split_address in Hlog by done. by exists w'.
Qed.

Lemma ezusb_cpucs_chip addr run w :
  0 <= addr < 2 ^ 32 ->
  exists w', ezusb_cpucs addr run w = Ok (true, w') /\
    log w' = log w ++ [(RW_INTERNAL, addr, [if run : bool then 0 else 1])].
Proof.
  intros Ha. unfold ezusb_cpucs, mbind, M_bind.
  destruct (chip_out RW_INTERNAL (Z.land addr 0xFFFF) (u16 (Z.shiftr addr 16)) [if run : bool then 0 else 1] 1 1000 w eq_refl)
    as (w' & -> & Hlog).
  rewrite split_address in Hlog by done. by exists w'.
Qed.

(** What the segments of an image become in a mode. *)
Definition selected (m : ram_mode) (external : bool) : bool :=
  match m with
  | skip_internal => external
  | skip_external => negb external
  | _ => true
  end.
Definition segment_requests (is_external : Z -> Z -> bool) (m : ram_mode) (segs : list (Z * list Z)) : list request :=
  flat_map (fun s => let e := external_at (Some is_external) (fst s) (snd s) in
    if selected m e then [(if e then RW_MEMORY else RW_INTERNAL, fst s, snd s)] else []) segs.

Definition fits_chip (seg : Z * list Z) : Prop := 0 <= fst seg < 2 ^ 32 /\ Z.of_nat (length (snd seg)) < 65536.

Lemma ram_poke_chip is_external ctx w a d :
  fits_chip (a, d) -> mode ctx <> undef_mode ->
  (mode ctx = internal_only -> external_at (Some is_external) a d = false) ->
  exists ctx' w', ram_poke a (external_at (Some is_external) a d) d (ctx, w) = Ok (0, (ctx', w')) /\
    mode ctx' = mode ctx /\ log w' = log w ++ segment_requests is_external (mode ctx) [(a, d)].
Proof.
  intros [Ha Hd] Hm Hint. simpl in Ha, Hd. set (e := external_at _ _ _) in *.
  assert (exists ctx' w', ram_write a e d (ctx, w) = Ok (0, (ctx', w')) /\ mode ctx' = mode ctx /\
    log w' = log w ++ [(if e then RW_MEMORY else RW_INTERNAL, a, d)]) as (ctx' & w' & Hw & Hc & Hlog).
  { destruct (ezusb_write_chip (if e then RW_MEMORY else RW_INTERNAL) a d w Ha Hd) as (w' & Hw & Hlog).
    exists (mk_ram (mode ctx) (ulong (total ctx + Z.of_nat (length d))) (ulong (count ctx + 1))), w'.
    split_and!; [|done|done].
    unfold ram_write. erewrite on_fst_ok by reflexivity. unfold on_snd. cbn [fst snd RETRY_LIMIT write_retry].
    by rewrite (bind_ok _ _ _ _ _ Hw). }
  unfold ram_poke. erewrite on_fst_ok by reflexivity. unfold segment_requests. cbn [flat_map fst snd]. fold e.
  rewrite app_nil_r. destruct (mode ctx) eqn:Hmode; [done| | |]; destruct e; cbn [selected negb]; try (by eauto).
  - by discriminate Hint.
  - exists ctx, w. by rewrite app_nil_r.
  - exists ctx, w. by rewrite app_nil_r.
Qed.

Lemma run_segments_chip is_external segs ctx w :
  Forall fits_chip segs -> mode ctx <> undef_mode ->
  (mode ctx = internal_only -> Forall (fun s => external_at (Some is_external) (fst s) (snd s) = false) segs) ->
  exists ctx' w', run_segments (Some is_external) ram_poke segs (ctx, w) = Ok (0, (ctx', w')) /\
    mode ctx' = mode ctx /\ log w' = log w ++ segment_requests is_external (mode ctx) segs.
Proof.
  intros Hsegs. revert ctx w. induction Hsegs as [|[a d] segs Hs _ IH]; intros ctx w Hm Hint.
  { exists ctx, w. by rewrite app_nil_r. }
  destruct (ram_poke_chip is_external ctx w a d Hs Hm) as (ctx1 & w1 & Hp & Hm1 & Hl1).
  { intros Hi. by apply Hint, Forall_cons in Hi as [? _]. }
  destruct (IH ctx1 w1) as (ctx2 & w2 & Hr & Hm2 & Hl2); [congruence| |].
  { rewrite Hm1. intros Hi. by apply Hint, Forall_cons in Hi as [_ ?]. }
  exists ctx2, w2. cbn [run_segments]. rewrite (bind_ok _ _ _ _ _ Hp). cbn beta iota zeta.
  split_and!; [done|congruence|]. rewrite Hl2, Hl1, Hm1, <- app_assoc. f_equal.
  unfold segment_requests. cbn [flat_map]. by rewrite app_nil_r.
Qed.

Lemma cpucs_address_range fx_type : 0 <= cpucs_address fx_type < 2 ^ 32 /\ cpucs_address fx_type <> 0.
Proof. unfold cpucs_address. by destruct (_ || _). Qed.

Lemma cpucs_fails_chip fx_type run f ctx w :
  exists w', cpucs_fails fx_type run (f, (ctx, w)) = Ok (false, (f, (ctx, w'))) /\
    log w' = log w ++ [(RW_INTERNAL, cpucs_address fx_type, [if run : bool then 0 else 1])].
Proof.
  destruct (cpucs_address_range fx_type) as [Hr H0].
  destruct (ezusb_cpucs_chip (cpucs_address fx_type) run w Hr) as (w' & Hc & Hl). exists w'. split; [|done].
  unfold cpucs_fails. rewrite (proj2 (Z.eqb_neq _ 0)) by done.
  unfold mbind, M_bind, on_snd. cbn [fst snd]. by rewrite Hc.
Qed.

(** *** Loading an Intel HEX image *)

Section hex.
Variables (junk : nat -> list Z) (low : bool) (data0 tl : list Z) (ls : list hex_line) (fx_type : Z).
Hypothesis junk_length : forall n, length (junk n) = 512%nat.
Hypothesis data0_length : length data0 = 1023%nat.
Hypothesis lines_wf : Forall wf_line ls.

Definition image_segments : list (Z * list Z) := segments (records ls).
Definition seg_external (s : Z * list Z) : bool :=
  external_at (Some (external_check fx_type)) (fst s) (snd s).

Lemma image_fits : Forall fits_chip image_segments.
Proof.
  unfold image_segments. pose proof (segments_addrs ls lines_wf) as Ha.
  pose proof (segments_sizes _ (records_sizes ls lines_wf)) as Hs.
  rewrite Forall_forall in Ha, Hs. apply Forall_forall. intros s Hin.
  specialize (Ha s Hin). specialize (Hs s Hin). unfold segment_addr, segment_size, fits_chip in *. lia.
Qed.

Lemma parse_ihex_chip f ctx w :
  f_bad f = None -> unread f = print_image low ls tl -> mode ctx <> undef_mode ->
  (mode ctx = internal_only -> Forall (fun s => seg_external s = false) image_segments) ->
  exists f' ctx' w', same_file f f' /\
    parse_ihex (Some (external_check fx_type)) ram_poke junk data0 (f, (ctx, w)) = Ok (0, (f', (ctx', w'))) /\
    mode ctx' = mode ctx /\
    log w' = log w ++ segment_requests (external_check fx_type) (mode ctx) image_segments.
Proof.
  intros Hbad Hu Hm Hint.
  pose proof (parse_ihex_runs (Some (external_check fx_type)) (ram_poke (W:=W)) junk low junk_length tl ls data0 f
    (ctx, w) data0_length lines_wf Hbad Hu) as Hr.
  destruct (run_segments_chip (external_check fx_type) image_segments ctx w image_fits Hm Hint)
    as (ctx' & w' & Hrun & Hm' & Hl').
  unfold runs_as, image_segments in *. rewrite Hrun in Hr. destruct Hr as (f' & Hf' & Hp).
  by exists f', ctx', w'.
Qed.

(** The requests of a complete upload. *)
Definition stop_request : request := (RW_INTERNAL, cpucs_address fx_type, [1]).
Definition run_request : request := (RW_INTERNAL, cpucs_address fx_type, [0]).
Definition upload_requests (stage : Z) : list request :=
  if stage =? 0 then
    [stop_request] ++ segment_requests (external_check fx_type) internal_only image_segments ++ [run_request]
  else
    segment_requests (external_check fx_type) skip_internal image_segments ++ [stop_request] ++
    segment_requests (external_check fx_type) skip_external image_segments ++ [run_request].

(** Setting the mode, and the end of every upload. *)
Lemma set_mode_ok {A} m (k : M (FILE * (ram_poke_context * W)) A) f ctx w :
  (set_mode m ;; k) (f, (ctx, w)) = k (f, (mk_ram m (total ctx) (count ctx), w)).
Proof. done. Qed.

Lemma finish_chip f ctx w :
  exists w', (failed ← cpucs_fails fx_type true; mret (if failed : bool then -1 else 0)) (f, (ctx, w))
      = Ok (0, (f, (ctx, w'))) /\
    log w' = log w ++ [run_request].
Proof.
  destruct (cpucs_fails_chip fx_type true f ctx w) as (w' & Hc & Hl). exists w'. split; [|done].
  by rewrite (bind_ok _ _ _ _ _ Hc).
Qed.

Lemma load_rest_chip stage f ctx w :
  f_bad f = None -> f_seekable f = true -> f_data f = print_image low ls tl ->
  exists f' ctx' w', load_rest junk fx_type stage data0 (f, (ctx, w)) = Ok (0, (f', (ctx', w'))) /\
    log w' = log w ++ (if stage =? 0 then []
                       else [stop_request] ++ segment_requests (external_check fx_type) skip_external image_segments)
                   ++ [run_request].
Proof.
  intros Hbad Hseek Hdata. unfold load_rest. destruct (stage =? 0); cbn [negb].
  - destruct (finish_chip f ctx w) as (w' & Hf & Hl). by exists f, ctx, w'.
  - rewrite set_mode_ok. set (ctx1 := mk_ram _ _ _).
    destruct (cpucs_fails_chip fx_type false f ctx1 w) as (w1 & Hc & Hl1).
    rewrite (bind_ok _ _ _ _ _ Hc). cbn beta iota.
    set (f1 := set_pos f 0 false).
    assert (rewind f = Ok (tt, f1)) as Hrew by (unfold rewind; by rewrite Hseek).
    rewrite (on_fst_ok _ _ _ _ _ _ Hrew).
    destruct (parse_ihex_chip f1 ctx1 w1) as (f2 & ctx2 & w2 & _ & Hp & _ & Hl2); [done| |done|done|].
    { unfold unread, f1. simpl. rewrite Hbad. exact Hdata. }
    rewrite (bind_ok _ _ _ _ _ Hp). cbn [Z.ltb Z.compare].
    destruct (finish_chip f2 ctx2 w2) as (w3 & Hf & Hl3). exists f2, ctx2, w3. split; [done|].
    rewrite Hl3, Hl2, Hl1. by rewrite <- !app_assoc.
Qed.

Lemma load_image_chip stage f ctx w :
  f_bad f = None -> f_seekable f = true -> f_data f = print_image low ls tl -> f_pos f = 0%nat ->
  (stage = 0 -> Forall (fun s => seg_external s = false) image_segments) ->
  exists f' ctx' w', load_image junk fx_type IMG_TYPE_HEX stage data0 (f, (ctx, w)) = Ok (0, (f', (ctx', w'))) /\
    log w' = log w ++ upload_requests stage.
Proof.
  intros Hbad Hseek Hdata Hpos Hint. unfold load_image. cbn [Z.eqb IMG_TYPE_HEX IMG_TYPE_IIC].
  erewrite bind_ok by reflexivity. cbn iota.
  assert (unread f = print_image low ls tl) as Hu by (unfold unread; by rewrite Hbad, Hpos).
  set (m := if stage =? 0 then internal_only else skip_internal).
  rewrite set_mode_ok.
  assert (exists w1, (if stage =? 0 then cpucs_fails fx_type false else mret false) (f, (mk_ram m (total ctx) (count ctx), w))
     = Ok (false, (f, (mk_ram m (total ctx) (count ctx), w1))) /\
     log w1 = log w ++ (if stage =? 0 then [stop_request] else [])) as (w1 & Hc & Hl1).
  { destruct (stage =? 0); [apply cpucs_fails_chip|]. exists w. by rewrite app_nil_r. }
  rewrite (bind_ok _ _ _ _ _ Hc). cbn iota. erewrite on_snd_ok by reflexivity. cbn [mode].
  destruct (parse_ihex_chip f (mk_ram m 0 0) w1 Hbad Hu) as (f2 & ctx2 & w2 & (Hd2 & Hb2 & Hs2) & Hp & _ & Hl2).
  { simpl. unfold m. by destruct (stage =? 0). }
  { simpl. unfold m. destruct (Z.eqb_spec stage 0); [auto|done]. }
  unfold parse. cbn [Z.eqb IMG_TYPE_HEX]. rewrite (bind_ok _ _ _ _ _ Hp). cbn [Z.ltb Z.compare].
  destruct (load_rest_chip stage f2 ctx2 w2) as (f3 & ctx3 & w3 & Hr & Hl3); [congruence|congruence|congruence|].
  exists f3, ctx3, w3. split; [done|]. rewrite Hl3, Hl2, Hl1. unfold upload_requests, m. cbn [mode].
  destruct (stage =? 0); by rewrite <- !app_assoc.
Qed.
End hex.
End chip.
