(* ===== verification/Fx3Specs.v ===== *)
(** * The loader of the FX3: rules

    The loader does nothing undefined and gives back its memory, whatever the
    file and the device; and on an image of the format, with a chip that
    accepts what is written, it writes the sections and starts the chip. *)

From S2P Require Import Prelude Heap Text ParseDesc DescApi Bos Stdio Ezusb IhexSpecs EzusbSpecs.

Lemma data_size_Z : Z.to_nat 4096 = DATA_SIZE.
Proof. done. Qed.
#[local] Opaque DATA_SIZE.

(** ** Any file and any device *)

Lemma fread_wp n f (Q : list Z -> FILE -> Prop) :
  (forall bs e, bs = take n (unread f) -> Q bs (set_pos f (f_pos f + length bs) e)) -> wp (fread n) f Q.
Proof. intros HQ. unfold wp, fread. by apply HQ. Qed.

Lemma unread_after n f bs e :
  bs = take n (unread f) -> unread (set_pos f (f_pos f + length bs) e) = drop n (unread f).
Proof.
  intros ->. rewrite unread_set_pos, length_take. destruct (le_lt_dec n (length (unread f))).
  - by rewrite Nat.min_l.
  - rewrite Nat.min_r by lia. by rewrite !drop_ge by lia.
Qed.

Section any_device.
Context {W : Type} {ct : ControlTransfer W} {laws : ControlTransferLaws W} (big : bool).

Lemma ezusb_write_wp op addr data len w (Q : Z -> W -> Prop) :
  is_bytes data -> 0 <= len <= Z.of_nat (length data) ->
  (forall rc w', rc <= 0 -> Q rc w') -> wp (ezusb_write op addr data len) w Q.
Proof.
  intros Hd Hl HQ. unfold ezusb_write. apply wp_bind.
  eapply wp_mono; [apply control_transfer_law; [done|]|].
  - unfold u16. pose proof (Z.mod_pos_bound len (2 ^ 16) ltac:(done)).
    pose proof (Z.mod_le len (2 ^ 16)). lia.
  - intros [status data'] w' _. apply wp_ret. apply HQ. destruct (status <? 0); unfold EIO; lia.
Qed.

Lemma ezusb_read_wp op addr data len w (Q : Z * list Z -> W -> Prop) :
  is_bytes data -> 0 <= len <= Z.of_nat (length data) ->
  (forall rc data' w', rc <= 0 -> is_bytes data' -> length data' = length data -> Q (rc, data') w') ->
  wp (ezusb_read op addr data len) w Q.
Proof.
  intros Hd Hl HQ. unfold ezusb_read. apply wp_bind.
  eapply wp_mono; [apply control_transfer_law; [done|]|].
  - unfold u16. pose proof (Z.mod_pos_bound len (2 ^ 16) ltac:(done)).
    pose proof (Z.mod_le len (2 ^ 16)). lia.
  - intros [status data'] w' (Hb & Hlen & _). apply wp_ret. apply HQ; [|done|done].
    destruct (status <? 0); unfold EIO; lia.
Qed.

Definition read_buffer (rBuf : list Z) : Prop := is_bytes rBuf /\ length rBuf = DATA_SIZE.

Lemma write_pieces_safe fuel bBuf rBuf dLength dAddress w :
  is_bytes bBuf -> read_buffer rBuf -> 0 <= dLength <= Z.of_nat (length bBuf) -> (length bBuf < fuel)%nat ->
  wp (write_pieces fuel bBuf rBuf dLength dAddress) w (fun r _ => -6 <= r.1.1 <= 0 /\ read_buffer r.2).
Proof.
  pose proof data_size as [Hsize Hpos].
  revert bBuf rBuf dLength dAddress w. induction fuel as [|fuel IH]; intros bBuf rBuf dLength dAddress w Hb Hr Hl Hf; [lia|].
  cbn [write_pieces]. destruct (Z.ltb_spec 0 dLength); [|apply wp_ret; split; [simpl; lia|done]].
  set (dLen := Z.min 4096 dLength). assert (0 < dLen <= 4096 /\ dLen <= dLength) as [Hd1 Hd2] by lia. clearbody dLen.
  destruct Hr as [Hrb Hrl].
  apply wp_bind. unfold rd_n at 1. rewrite decide_True by lia. eapply wp_lift; [done|].
  apply wp_bind, ezusb_write_wp; [by apply is_bytes_take|rewrite length_take; lia|]. intros rc w1 Hrc.
  destruct (Z.ltb_spec rc 0); [apply wp_ret; split; [simpl; lia|done]|].
  apply wp_bind, ezusb_read_wp; [done|lia|]. intros rc2 rBuf' w2 Hrc2 Hrb' Hrl'.
  assert (read_buffer rBuf') as Hr' by (split; [done|congruence]).
  destruct (Z.ltb_spec rc2 0); [apply wp_ret; split; [simpl; lia|done]|].
  apply wp_bind. unfold verify_fails, rd_n. rewrite !decide_True by lia. eapply wp_lift; [done|].
  destruct (bool_decide _); [apply wp_ret; split; [simpl; lia|done]|].
  apply IH; [by apply is_bytes_drop|done| |]; rewrite length_drop; lia.
Qed.

(** [r] is below [n] bytes of the file, and so is what is read later. *)
Definition fx3_inv (L : gmultiset nat) (st : FILE * (heap * W)) : Prop :=
  is_bytes (unread st.1) /\ live st.2.1 = L.

Lemma fread_word_wp L st (Q : option Z -> FILE * (heap * W) -> Prop) :
  fx3_inv L st ->
  (forall st', fx3_inv L st' -> Q None st') ->
  (forall v st', fx3_inv L st' -> 0 <= v < 2 ^ 32 -> (length (unread st'.1) + 4 = length (unread st.1))%nat -> Q (Some v) st') ->
  wp (fread_word big) st Q.
Proof.
  intros [Hb Hl] HN HS. unfold fread_word. apply wp_bind, on_fst_wp, fread_wp. intros bs e Hbs. apply wp_ret.
  set (st' := (_, _)). assert (unread st'.1 = drop 4 (unread st.1)) as Hu by by apply unread_after.
  assert (fx3_inv L st') as Hst' by (split; [rewrite Hu; by apply is_bytes_drop|done]).
  destruct (Nat.eqb_spec (length bs) 4) as [Hn|]; [|by apply HN].
  apply HS; [done| |].
  - assert (is_bytes (if big then rev bs else bs) /\ length (if big then rev bs else bs) = 4%nat) as [Hb4 Hl4].
    { subst bs. destruct big; [|by split; [apply is_bytes_take|]].
      rewrite length_rev. split; [|done]. apply Forall_rev. by apply is_bytes_take. }
    unfold host_value. pose proof (le_value_bound _ Hb4) as Hv. rewrite Hl4 in Hv. exact Hv.
  - rewrite Hu, length_drop. rewrite Hbs, length_take in Hn. lia.
Qed.

Definition sections_result (r : Z + Z * Z) : Prop :=
  match r with inl rc => -8 <= rc < 0 | inr _ => True end.

Lemma fx3_sections_safe fuel rBuf sum L st :
  fx3_inv L st -> read_buffer rBuf -> (length (unread st.1) < fuel)%nat ->
  wp (fx3_sections big fuel rBuf sum) st (fun r st' => sections_result r /\ fx3_inv L st').
Proof.
  revert rBuf sum st. induction fuel as [|fuel IH]; intros rBuf sum st Hst Hr Hf; [lia|].
  cbn [fx3_sections].
  apply wp_bind, (fread_word_wp L); [done|by intros st' Hst'; apply wp_ret|]. intros dLength st1 Hst1 Hlen Hl1.
  apply wp_bind, (fread_word_wp L); [done|by intros st' Hst'; apply wp_ret|]. intros dAddress st2 Hst2 _ Hl2.
  destruct (dLength =? 0); [by apply wp_ret|].
  destruct st2 as [f2 [h2 w2]]. destruct Hst2 as [Hb2 Hh2]. cbn [fst snd] in *.
  apply wp_bind, on_snd_wp, on_fst_wp. apply (malloc_wp _ L); [done|]. intros p h3 Hh3 _. cbn [fst snd].
  destruct p as [b|]; [|apply wp_ret; split; [done|split; [done|]; simpl; rewrite Hh3; multiset_solver]].
  apply wp_bind, on_fst_wp, fread_wp. intros bs e Hbs. cbn [fst snd] in *.
  set (f4 := set_pos _ _ _). assert (unread f4 = drop (4 * Z.to_nat dLength) (unread f2)) as Hu4 by by apply unread_after.
  assert (is_bytes (unread f4)) as Hb4 by (rewrite Hu4; by apply is_bytes_drop).
  destruct (Z.eqb_spec (Z.of_nat (length bs)) (4 * dLength)) as [Hn|]; cbn [negb].
  - apply wp_bind, on_snd_wp, on_snd_wp. cbn [fst snd].
    eapply wp_mono; [apply write_pieces_safe; [by subst bs; apply is_bytes_take|exact Hr| |lia]|].
    { unfold u32. rewrite Z.shiftl_mul_pow2 by done.
      pose proof (Z.mod_pos_bound (dLength * 2 ^ 2) (2 ^ 32) ltac:(done)).
      pose proof (Z.mod_le (dLength * 2 ^ 2) (2 ^ 32)). lia. }
    intros [[rc a] rBuf'] w' [Hrc Hr']. cbn [fst snd] in *.
    apply wp_bind, on_snd_wp, on_fst_wp. apply (free_wp _ _ L); [done|]. intros h5 Hh5 _. cbn [fst snd].
    destruct (Z.ltb_spec rc 0); [apply wp_ret; split; [simpl; lia|done]|].
    apply IH; [done|done|]. cbn [fst]. rewrite Hu4, length_drop. lia.
  - apply wp_bind, on_snd_wp, on_fst_wp. apply (free_wp _ _ L); [done|]. intros h5 Hh5 _. cbn [fst snd].
    by apply wp_ret.
Qed.

Lemma fx3_load_ram_safe verbose rBuf blBuf image (h : heap) (w : W) :
  read_buffer rBuf -> is_bytes blBuf -> length blBuf = 4%nat ->
  (forall f, image = Some f -> is_bytes (unread f)) ->
  wp (fx3_load_ram big verbose rBuf blBuf image) (h, w) (fun rc st => -8 <= rc <= 0 /\ live st.1 = live h).
Proof.
  intros Hr Hbl Hl4 Himg. unfold fx3_load_ram. destruct image as [f|]; [|apply wp_ret; simpl; split; [lia|done]].
  assert (wp (fx3_load big verbose rBuf blBuf) (f, (h, w)) (fun rc st => -8 <= rc <= 0 /\ fx3_inv (live h) st)) as Hwp.
  - unfold fx3_load. apply wp_bind, on_fst_wp, fread_wp. intros bs e Hbs. cbn [fst snd].
    set (f1 := set_pos _ _ _).
    assert (fx3_inv (live h) (f1, (h, w))) as Hst1.
    { split; [|done]. cbn [fst]. unfold f1. rewrite (unread_after 4) by done. by apply is_bytes_drop, Himg. }
    clearbody f1. clear Hbs. destruct bs as [|h0 [|h1 [|h2 [|h3 [|]]]]]; try (apply wp_ret; split; [lia|done]).
    destruct (_ || _); [by apply wp_ret|]. destruct (negb _); [by apply wp_ret|].
    apply wp_bind.
    apply (wp_mono _ _ (fun rc st => rc <= 0 /\ fst st = f1 /\ fst (snd st) = h)).
    { destruct (verbose =? 0); [by apply wp_ret|]. apply wp_bind, on_snd_wp, on_snd_wp. cbn [fst snd].
      apply ezusb_read_wp; [done|lia|]. intros rc data w' Hrc _ _. by apply wp_ret. }
    intros rc [f2 [h2' w2]] (Hrc & Hf2 & Hh2). cbn [fst snd] in Hf2, Hh2. subst f2 h2'. destruct (rc <? 0); [by apply wp_ret|].
    apply wp_bind, wp_gets. apply wp_bind. cbn [fst].
    eapply wp_mono; [apply (fx3_sections_safe _ _ _ (live h)); [done|done|simpl; lia]|].
    intros r st3 [Hres Hst3]. destruct r as [rc'|[sum addr]]; [apply wp_ret; split; [simpl in Hres; lia|done]|].
    apply wp_bind, (fread_word_wp (live h)); [done| |].
    + intros st4 Hst4. rewrite bool_decide_false by done. by apply wp_ret.
    + intros v st4 Hst4 _ _. destruct (bool_decide _); [|by apply wp_ret].
      apply wp_bind, on_snd_wp, on_snd_wp. unfold ezusb_fx3_jump. apply wp_bind.
      eapply wp_mono; [apply control_transfer_law; [constructor|simpl; lia]|].
      intros [status d] w' _. apply wp_ret. apply wp_ret. split; [by destruct (negb _)|done].
  - unfold wp, with_file in *. destruct (fx3_load _ _ _ _ _) as [[rc [f' st']]|]; [|done].
    destruct Hwp as [Hrc [_ Hlive]]. done.
Qed.
End any_device.

(** ** Images of the format *)

(** A section: its length in words, its address, its bytes. *)
Definition print_section (big : bool) (s : Z * list Z) : list Z :=
  host_bytes big 4 (Z.of_nat (length (snd s)) / 4) ++ host_bytes big 4 (fst s) ++ snd s.
Definition wf_section (s : Z * list Z) : Prop :=
  0 <= fst s /\ fst s + Z.of_nat (length (snd s)) < 2 ^ 32 /\ snd s <> [] /\
  Z.of_nat (length (snd s)) mod 4 = 0.

Fixpoint checksum (big : bool) (secs : list (Z * list Z)) (sum : Z) : Z :=
  match secs with
  | [] => sum
  | s :: secs => checksum big secs (sum_words big (Z.to_nat (Z.of_nat (length (snd s)) / 4)) (snd s) sum)
  end.

(** The header, the sections, the entry address and the checksum. *)
Definition print_sections (big : bool) (secs : list (Z * list Z)) (entry sum : Z) (tl : list Z) : list Z :=
  flat_map (print_section big) secs ++ host_bytes big 4 0 ++ host_bytes big 4 entry ++ host_bytes big 4 sum ++ tl.
Definition print_fx3 (big : bool) (control : Z) (secs : list (Z * list Z)) (entry : Z) (tl : list Z) : list Z :=
  [67; 89; control; 0xB0] ++ print_sections big secs entry (checksum big secs 0) tl.

(** ** Reading back what was written *)

Lemma store_bytes_below a d m x :
  x < a -> foldl store_byte m (bytes_at a d) !! x = m !! x.
Proof.
  revert a m. induction d as [|b d IH]; intros a m Hx; [done|]. cbn [bytes_at foldl].
  rewrite IH by lia. unfold store_byte. cbn [fst snd]. by rewrite lookup_insert_ne by lia.
Qed.

Lemma store_bytes_lookup a d m i b :
  d !! i = Some b -> foldl store_byte m (bytes_at a d) !! (a + Z.of_nat i) = Some b.
Proof.
  revert a m i. induction d as [|x d IH]; intros a m [|i] Hi; simplify_eq/=.
  - rewrite store_bytes_below by lia. unfold store_byte. cbn [fst snd]. by rewrite Z.add_0_r, lookup_insert_eq.
  - rewrite <- (IH (a + 1) (store_byte m (a, x)) i Hi). f_equal. lia.
Qed.

Lemma read_back log op a d :
  read_memory (memory (log ++ [(op, a, d)])) a (length d) = d.
Proof.
  unfold read_memory, memory, request_bytes. rewrite flat_map_app, foldl_app. cbn [flat_map fst snd]. rewrite app_nil_r.
  apply list_eq. intros i. rewrite list_lookup_fmap. destruct (d !! i) as [b|] eqn:Hi.
  - pose proof (lookup_lt_Some _ _ _ Hi). rewrite lookup_seq_lt by done. cbn [fmap option_fmap option_map].
    rewrite Nat.add_0_l. by rewrite (store_bytes_lookup a d _ i b Hi).
  - apply lookup_ge_None in Hi. by rewrite lookup_seq_ge by done.
Qed.

Section chip.
Context {W : Type} {ct : ControlTransfer W} {log : W -> list request} `{!Chip W log} (big : bool).

Lemma ezusb_read_chip op addr data n w :
  0 <= addr < 2 ^ 32 -> (n <= length data)%nat -> Z.of_nat n < 65536 ->
  exists w', ezusb_read op addr data (Z.of_nat n) w =
      Ok ((0, read_memory (memory (log w)) addr n ++ drop n data), w') /\ log w' = log w.
Proof.
  intros Ha Hn Hl. unfold ezusb_read, mbind, M_bind.
  assert (u16 (Z.of_nat n) = Z.of_nat n) as -> by (unfold u16; rewrite Z.mod_small; lia).
  destruct (chip_in op (Z.land addr 0xFFFF) (u16 (Z.shiftr addr 16)) data (Z.of_nat n) 1000 w) as (w' & -> & Hlog); [lia|].
  rewrite (proj2 (Z.ltb_ge _ _)) by lia. rewrite split_address, Nat2Z.id by done. by exists w'.
Qed.

Definition internal_writes (segs : list (Z * list Z)) : list request :=
  (fun s => (RW_INTERNAL, fst s, snd s)) <$> segs.

Lemma write_pieces_chip fuel k bBuf rBuf addr w :
  length rBuf = DATA_SIZE -> (length bBuf < fuel)%nat -> (length bBuf <= k)%nat ->
  0 <= addr -> addr + Z.of_nat (length bBuf) < 2 ^ 32 ->
  exists rBuf' w', write_pieces fuel bBuf rBuf (Z.of_nat (length bBuf)) addr w =
      Ok ((0, addr + Z.of_nat (length bBuf), rBuf'), w') /\ length rBuf' = DATA_SIZE /\
    log w' = log w ++ internal_writes (chunks k addr bBuf).
Proof.
  pose proof data_size as [Hsize Hpos]. revert k bBuf rBuf addr w.
  induction fuel as [|fuel IH]; intros k bBuf rBuf addr w Hr Hf Hk Ha Hmax; [lia|].
  cbn [write_pieces]. destruct (Z.ltb_spec 0 (Z.of_nat (length bBuf))) as [Hlt|Hge].
  - destruct k as [|k]; [lia|]. set (n := Nat.min DATA_SIZE (length bBuf)).
    assert (Z.min 4096 (Z.of_nat (length bBuf)) = Z.of_nat n) as -> by lia.
    assert (0 < n <= length bBuf)%nat as [Hn0 Hnl] by lia. assert (n <= DATA_SIZE)%nat by lia.
    rewrite Nat2Z.id. unfold rd_n at 1. rewrite decide_True by done.
    erewrite bind_ok by reflexivity.
    assert (length (take n bBuf) = n) as Htl by (rewrite length_take; lia).
    destruct (ezusb_write_chip RW_INTERNAL addr (take n bBuf) w) as (w1 & Hw1 & Hl1); [lia|lia|].
    rewrite Htl in Hw1. rewrite (bind_ok _ _ _ _ _ Hw1). cbn [Z.ltb Z.compare].
    destruct (ezusb_read_chip RW_INTERNAL addr rBuf n w1) as (w2 & Hw2 & Hl2); [lia|lia|lia|].
    rewrite (bind_ok _ _ _ _ _ Hw2). cbn beta iota. cbn [Z.ltb Z.compare].
    assert (read_memory (memory (log w1)) addr n = take n bBuf) as Hback.
    { rewrite Hl1. rewrite <- Htl at 2. apply read_back. }
    rewrite Hback. set (rBuf' := take n bBuf ++ drop n rBuf).
    assert (length rBuf' = DATA_SIZE) as Hr' by (unfold rBuf'; rewrite length_app, length_drop; lia).
    assert (verify_fails rBuf' bBuf n = Ok false) as ->.
    { unfold verify_fails, rd_n. rewrite !decide_True by lia. cbn [mbind outcome_bind].
      unfold rBuf'. rewrite take_app_length' by done. by rewrite bool_decide_false by by intros []. }
    erewrite bind_ok by reflexivity. cbn iota.
    assert (u32 (addr + Z.of_nat n) = addr + Z.of_nat n) as -> by (unfold u32; rewrite Z.mod_small; lia).
    assert (Z.of_nat (length bBuf) - Z.of_nat n = Z.of_nat (length (drop n bBuf))) as -> by (rewrite length_drop; lia).
    destruct (IH k (drop n bBuf) rBuf' (addr + Z.of_nat n) w2) as (rBuf2 & w3 & Hw3 & Hr3 & Hl3);
      [done|rewrite ?length_drop; lia..|].
    exists rBuf2, w3. split_and!; [|done|].
    + rewrite Hw3, length_drop. do 4 f_equal. lia.
    + rewrite Hl3, Hl2, Hl1, <- app_assoc. f_equal. destruct bBuf as [|b l]; [simpl in *; lia|].
      set (l' := b :: l) in *.
      change (chunks (S k) addr l') with ((addr, take DATA_SIZE l') :: chunks k (addr + 4096) (drop DATA_SIZE l')).
      cbn [internal_writes fmap list_fmap fst snd app].
      destruct (le_lt_dec DATA_SIZE (length l')).
      * assert (n = DATA_SIZE) as -> by lia. by rewrite Hsize.
      * rewrite !(drop_ge l') by lia. rewrite !(take_ge l') by lia. by destruct k.
  - destruct bBuf; [|simpl in Hge; lia]. exists rBuf, w. split_and!; [by rewrite Z.add_0_r|done|].
    destruct k; by rewrite app_nil_r.
Qed.

Lemma fread_word_ok f x v rest :
  f_bad f = None -> unread f = host_bytes big 4 v ++ rest -> 0 <= v < 2 ^ 32 ->
  exists f', f_bad f' = None /\ unread f' = rest /\
    fread_word (W:=W) big (f, x) = Ok (Some v, (f', x)).
Proof.
  intros Hbad Hu Hv. destruct (fread_all 4 f _ _ Hbad Hu (host_bytes_length big 4 v)) as [Hr Hu'].
  eexists. split_and!; [|exact Hu'|]; [done|].
  unfold fread_word. rewrite (on_fst_ok _ _ _ _ _ _ Hr). rewrite host_bytes_length. cbn [Nat.eqb].
  by rewrite host_value_bytes.
Qed.

Lemma sum_words_range n bs sum : 0 <= sum < 2 ^ 32 -> 0 <= sum_words big n bs sum < 2 ^ 32.
Proof.
  revert bs sum. induction n as [|n IH]; intros bs sum Hs; [done|]. cbn [sum_words]. apply IH.
  unfold u32. by apply Z.mod_pos_bound.
Qed.
Lemma checksum_range secs sum : 0 <= sum < 2 ^ 32 -> 0 <= checksum big secs sum < 2 ^ 32.
Proof. revert sum. induction secs as [|s secs IH]; intros sum Hs; [done|]. apply IH. by apply sum_words_range. Qed.

(** The writes of a section, in pieces of 4096 bytes. *)
Definition section_writes (s : Z * list Z) : list request :=
  internal_writes (chunks (length (snd s)) (fst s) (snd s)).

Lemma request_bytes_internal segs : request_bytes (internal_writes segs) = writes segs.
Proof. induction segs as [|s segs IH]; [done|]. cbn [internal_writes fmap list_fmap]. simpl. by rewrite <- IH. Qed.

(** Cutting into pieces does not change what is written. *)
Lemma request_bytes_sections secs : request_bytes (flat_map section_writes secs) = writes secs.
Proof.
  induction secs as [|[a d] secs IH]; [done|].
  change (request_bytes (section_writes (a, d) ++ flat_map section_writes secs) = bytes_at a d ++ writes secs).
  unfold request_bytes at 1. rewrite flat_map_app. f_equal; [|exact IH].
  rewrite <- (writes_chunks (length d) a d) by done. apply request_bytes_internal.
Qed.

Lemma malloc_ok h :
  no_malloc_failure h ->
  malloc h = Ok (Some (next h), set_live h ({[+ next h +]} ⊎ live h)).
Proof. intros Hn. unfold malloc. by rewrite Hn. Qed.
Lemma free_new h h' :
  free (Some (next h)) (set_live h' ({[+ next h +]} ⊎ live h)) =
    Ok (tt, mk_heap (live h) (S (next h')) (oom h') (oom_realloc h')).
Proof.
  unfold free, set_live. cbn [live next oom oom_realloc]. rewrite decide_True by multiset_solver.
  do 3 f_equal. multiset_solver.
Qed.

Lemma fx3_sections_chip secs entry rest fuel rBuf sum f h w :
  f_bad f = None -> unread f = flat_map (print_section big) secs ++ host_bytes big 4 0 ++ host_bytes big 4 entry ++ rest ->
  0 <= entry < 2 ^ 32 -> Forall wf_section secs -> length rBuf = DATA_SIZE -> no_malloc_failure h ->
  (length secs < fuel)%nat ->
  exists f' h' w', fx3_sections big fuel rBuf sum (f, (h, w)) =
      Ok (inr (checksum big secs sum, entry), (f', (h', w'))) /\
    f_bad f' = None /\ unread f' = rest /\ live h' = live h /\
    log w' = log w ++ flat_map section_writes secs.
Proof.
  intros Hbad Hu Hentry Hsecs. revert fuel rBuf sum f h w Hbad Hu.
  induction Hsecs as [|[a d] secs (Ha & Hmax & Hd & Hmod) _ IH]; intros [|fuel] rBuf sum f h w Hbad Hu Hr Hn Hf; [lia| |lia|].
  - destruct (fread_word_ok f (h, w) 0 _ Hbad Hu) as (f1 & Hb1 & Hu1 & H1); [done|].
    destruct (fread_word_ok f1 (h, w) entry _ Hb1 Hu1 Hentry) as (f2 & Hb2 & Hu2 & H2).
    exists f2, h, w. cbn [fx3_sections]. rewrite (bind_ok _ _ _ _ _ H1), (bind_ok _ _ _ _ _ H2). cbn [Z.eqb].
    split_and!; [done..|]. by rewrite app_nil_r.
  - cbn [fst snd] in *. set (n := Z.of_nat (length d) / 4).
    assert (Z.of_nat (length d) = 4 * n) as Hlen.
    { unfold n. pose proof (Z.div_mod (Z.of_nat (length d)) 4 ltac:(done)). lia. }
    assert (0 < n) by (destruct d; [done|simpl in *; lia]).
    cbn [flat_map] in Hu. unfold print_section at 1 in Hu. cbn [fst snd] in Hu. fold n in Hu. rewrite <- !app_assoc in Hu.
    destruct (fread_word_ok f (h, w) n _ Hbad Hu) as (f1 & Hb1 & Hu1 & H1); [lia|].
    destruct (fread_word_ok f1 (h, w) a _ Hb1 Hu1) as (f2 & Hb2 & Hu2 & H2); [lia|].
    destruct (fread_all (4 * Z.to_nat n) f2 d _ Hb2 Hu2) as [H3 Hu3]; [lia|]. set (f3 := set_pos f2 _ _) in *.
    destruct (write_pieces_chip (S (length d)) (length d) d rBuf a w) as (rBuf' & w4 & H4 & Hr4 & Hl4);
      [done|lia|lia|done|done|].
    set (h5 := mk_heap (live h) (S (next h)) (oom h) (oom_realloc h)).
    destruct (IH fuel rBuf' (sum_words big (Z.to_nat n) d sum) f3 h5 w4) as (f' & h' & w' & Hrun & Hb' & Hu' & Hh' & Hl');
      [done|done|done|exact Hn|simpl in Hf; lia|].
    exists f', h', w'. split_and!; [|done|done|done|].
    + cbn [fx3_sections]. rewrite (bind_ok _ _ _ _ _ H1), (bind_ok _ _ _ _ _ H2).
      rewrite (proj2 (Z.eqb_neq n 0)) by lia.
      rewrite (bind_ok _ _ _ _ _ (on_snd_run _ f2 _ _ _ (on_fst_run _ h w _ _ (malloc_ok h Hn)))). cbn iota.
      set (h4 := set_live h _).
      rewrite (bind_ok _ _ _ _ _ (on_fst_run _ f2 (h4, w) _ _ H3)).
      rewrite Hlen, Z.eqb_refl. cbn [negb].
      assert (u32 (Z.shiftl n 2) = Z.of_nat (length d)) as ->.
      { unfold u32. rewrite Z.shiftl_mul_pow2, Z.mod_small; lia. }
      rewrite (bind_ok _ _ _ _ _ (on_snd_run _ f3 _ _ _ (on_snd_run _ h4 w _ _ H4))). cbn beta iota.
      rewrite (bind_ok _ _ _ _ _ (on_snd_run _ f3 _ _ _ (on_fst_run _ h4 w4 _ _ (free_new h h)))).
      cbn [Z.ltb Z.compare]. exact Hrun.
    + rewrite Hl', Hl4, <- app_assoc. done.
Qed.

Lemma ezusb_fx3_jump_chip addr w :
  0 <= addr < 2 ^ 32 ->
  exists w', ezusb_fx3_jump addr w = Ok (true, w') /\ log w' = log w ++ [(RW_INTERNAL, addr, [])].
Proof.
  intros Ha. unfold ezusb_fx3_jump, mbind, M_bind.
  destruct (chip_out RW_INTERNAL (Z.land addr 0xFFFF) (u16 (Z.shiftr addr 16)) [] 0 1000 w eq_refl) as (w' & -> & Hlog).
  rewrite split_address in Hlog by done. by exists w'.
Qed.

(** A whole image: the version of the boot loader is read (if asked for), the
    sections are written, and the chip jumps to the entry address. *)
Lemma fx3_load_chip verbose control secs entry tl rBuf blBuf f h w :
  f_bad f = None -> unread f = print_fx3 big control secs entry tl ->
  0 <= entry < 2 ^ 32 -> Forall wf_section secs -> length rBuf = DATA_SIZE -> length blBuf = 4%nat ->
  no_malloc_failure h ->
  exists h' w', fx3_load_ram big verbose rBuf blBuf (Some f) (h, w) = Ok (0, (h', w')) /\
    live h' = live h /\
    log w' = log w ++ flat_map section_writes secs ++ [(RW_INTERNAL, entry, [])].
Proof.
  intros Hbad Hu Hentry Hsecs Hr Hbl Hn. unfold fx3_load_ram, with_file, fx3_load.
  destruct (fread_all 4 f [67; 89; control; 0xB0] _ Hbad Hu eq_refl) as [H1 Hu1].
  set (f1 := set_pos f _ _) in *.
  rewrite (bind_ok _ _ _ _ _ (on_fst_run _ f (h, w) _ _ H1)). cbn [Z.eqb negb orb Pos.eqb].
  assert (exists w1, (if verbose =? 0 then mret 0
    else '(rc, _) ← on_snd (on_snd (ezusb_read RW_INTERNAL 0xFFFF0020 blBuf 4)); mret rc) (f1, (h, w))
      = Ok (0, (f1, (h, w1))) /\ log w1 = log w) as (w1 & H2 & Hl1).
  { destruct (verbose =? 0); [by exists w|].
    destruct (ezusb_read_chip RW_INTERNAL 0xFFFF0020 blBuf 4 w) as (w1 & H2 & Hl1); [done|lia|done|].
    exists w1. split; [|done]. by rewrite (bind_ok _ _ _ _ _ (on_snd_run _ f1 _ _ _ (on_snd_run _ h w _ _ H2))). }
  rewrite (bind_ok _ _ _ _ _ H2). cbn [Z.ltb Z.compare]. erewrite bind_ok by reflexivity. cbn [fst].
  unfold print_sections in Hu1.
  destruct (fx3_sections_chip secs entry _ (S (length (unread f1))) rBuf 0 f1 h w1 Hbad Hu1 Hentry Hsecs Hr Hn)
    as (f3 & h3 & w3 & H3 & Hb3 & Hu3 & Hh3 & Hl3).
  { rewrite Hu1, length_app. apply Nat.lt_succ_r. transitivity (length (flat_map (print_section big) secs)); [|lia].
    clear. induction secs as [|s secs IH]; [done|]. cbn [flat_map]. rewrite length_app. unfold print_section at 1.
    rewrite length_app, host_bytes_length. simpl. lia. }
  rewrite (bind_ok _ _ _ _ _ H3).
  destruct (fread_word_ok f3 (h3, w3) _ _ Hb3 Hu3) as (f4 & _ & _ & H4); [by apply checksum_range|].
  rewrite (bind_ok _ _ _ _ _ H4). rewrite bool_decide_true by done.
  destruct (ezusb_fx3_jump_chip entry w3 Hentry) as (w5 & H5 & Hl5).
  rewrite (bind_ok _ _ _ _ _ (on_snd_run _ f4 _ _ _ (on_snd_run _ h3 w3 _ _ H5))).
  exists h3, w5. split_and!; [done|done|]. by rewrite Hl5, Hl3, Hl1, <- app_assoc.
Qed.
End chip.
