(* ===== verification/EzusbProps.v ===== *)
(** * What the firmware loader does

    The theorems on the image parsers and the loaders of [examples/ezusb.c],
    with concrete images, and the files on which the code fails. *)

From S2P Require Import Prelude Heap Text ParseDesc DescApi Bos Stdio Ezusb IhexSpecs EzusbSpecs Fx3Specs.

(** ** A concrete chip and concrete images *)

(** The state is the log of what was written. *)
#[local] Instance test_chip : ControlTransfer (list request) :=
  fun rt op v i data n _ log =>
    if rt =? VENDOR_OUT then Ok ((n, data), log ++ [(op, v + 65536 * i, data)])
    else Ok ((n, read_memory (memory log) (v + 65536 * i) (Z.to_nat n) ++ drop (Z.to_nat n) data), log).
#[local] Instance test_chip_laws : Chip (list request) id.
Proof. split; intros; eauto. Qed.

(** A chip that answers nothing. *)
#[local] Instance dead_chip : ControlTransfer unit :=
  fun _ _ _ _ data _ _ w => Ok ((LIBUSB_ERROR_TIMEOUT, data), w).
#[local] Instance dead_chip_laws : ControlTransferLaws unit.
Proof. intros rt br v i data n t w Hd Hn. split_and!; simpl; [done|done|unfold LIBUSB_ERROR_TIMEOUT; lia]. Qed.

(** A function [poke] that notes the segments and rejects none. *)
Definition note (a : Z) (e : bool) (d : list Z) : M (list (Z * bool * list Z)) Z :=
  fun l => Ok (0, l ++ [(a, e, d)]).

Definition text_file (l : list Z) : FILE := mk_file l 0 None false true.
Definition no_junk : nat -> list Z := fun _ => replicate 512 0.
Definition data_junk : list Z := replicate 1023 0.
Definition plenty : heap := mk_heap ∅ 0 (fun _ => false) (fun _ => false).
Definition ctx0 : ram_poke_context := mk_ram undef_mode 0 0.

Lemma plenty_malloc : no_malloc_failure plenty.
Proof. by intros n. Qed.
Lemma no_junk_length n : length (no_junk n) = 512%nat.
Proof. apply length_replicate. Qed.
Lemma data_junk_length : length data_junk = 1023%nat.
Proof. apply length_replicate. Qed.

(** A comment, two records that follow each other, one elsewhere. *)
Definition some_lines : list hex_line :=
  [HexComment [32; 99]; HexData 0 [2; 3] [70; 66]; HexData 2 [4] [70; 57; 13]; HexData 0x2000 [5; 6] [67; 53]].
Definition some_image : list Z := print_image false some_lines [70; 70; 10].

Lemma some_lines_wf : Forall wf_line some_lines.
Proof.
  repeat (apply Forall_cons; split); [..|constructor]; unfold wf_line;
    split_and!; done || (simpl; lia) || set_solver by done || (by repeat constructor).
Qed.

(** ** Intel HEX *)

(** C36: An Intel HEX image, whatever the case of its digits, with comments and
    any text behind its end record, reaches [poke] as the segments that
    merging its records gives: same bytes at the same addresses in the same
    order, in pieces of at most 1023 bytes.  If [poke] fails, the parser
    stops and returns -1. *)
Theorem hex_image_parsed {C} (is_external : option (Z -> Z -> bool)) (poke : Z -> bool -> list Z -> M C Z)
    (junk : nat -> list Z) (low : bool) (data0 tl : list Z) (ls : list hex_line) (f : FILE) (c : C)
    (Hjunk : forall n, length (junk n) = 512%nat) (Hdata : length data0 = 1023%nat)
    (Hls : Forall wf_line ls) (Hbad : f_bad f = None) (Hf : unread f = print_image low ls tl) :
  runs_as (parse_ihex is_external poke junk data0) f
    (run_segments is_external poke (segments (records ls))) c /\
  writes (segments (records ls)) = writes (records ls) /\
  Forall segment_size (segments (records ls)).
Proof.
  split_and!.
  - by apply (parse_ihex_runs is_external poke junk low Hjunk tl).
  - apply writes_segments.
  - by apply segments_sizes, records_sizes.
Qed.

Lemma hex_image_parsed_witness :
  runs_as (parse_ihex None note no_junk data_junk) (text_file some_image)
    (run_segments None note (segments (records some_lines))) [] /\
  run_segments None note (segments (records some_lines)) []
    = Ok (0, [(0, false, [2; 3; 4]); (0x2000, false, [5; 6])]).
Proof.
  split; [|vm_compute; reflexivity].
  apply (hex_image_parsed None note no_junk false data_junk [70; 70; 10] some_lines);
    [apply no_junk_length|apply data_junk_length|apply some_lines_wf|done|done].
Defined.

(** C37: [parse_ihex] ends and does nothing undefined on any file at all, whatever
    is in its uninitialised buffers, unless some [':'] of the file is followed
    by ['-']; [poke] is only called with segments of 1 to 1023 bytes, so what
    it maintains on such segments holds at the end. *)
Theorem parse_ihex_safe {C} (is_external : option (Z -> Z -> bool)) (poke : Z -> bool -> list Z -> M C Z)
    (junk : nat -> list Z) (I : C -> Prop) (data0 : list Z) (f : FILE) (c : C)
    (Hjunk : forall n, length (junk n) = 512%nat) (Hdata : length data0 = 1023%nat)
    (Hpoke : forall a e d c, I c -> (1 <= length d <= 1023)%nat -> wp (poke a e d) c (fun _ c' => I c'))
    (Hf : no_minus (unread f)) (Hc : I c) :
  exists rc f' c', parse_ihex is_external poke junk data0 (f, c) = Ok (rc, (f', c')) /\ I c' /\ rc <= 0.
Proof.
  destruct (proj1 (wp_ok _ _ _) (parse_ihex_safe_wp is_external poke junk I Hjunk Hpoke data0 f c Hdata Hf Hc))
    as (rc & [f' c'] & Hp & Hc' & Hrc).
  by exists rc, f', c'.
Qed.

(** A record that is cut short, in a file of other text. *)
Definition short_file : FILE := text_file [58; 48; 50; 48; 10; 120].

Lemma short_file_no_minus : no_minus (unread short_file).
Proof. intros i. do 7 (destruct i as [|i]; [done|]). done. Qed.

Lemma parse_ihex_safe_witness :
  exists rc f' c', parse_ihex None note no_junk data_junk (short_file, []) = Ok (rc, (f', c')) /\ True /\ rc <= 0.
Proof.
  apply (parse_ihex_safe None note no_junk (fun _ => True) data_junk short_file []).
  - apply no_junk_length.
  - apply data_junk_length.
  - by intros a e d c _ _.
  - apply short_file_no_minus.
  - done.
Defined.

(** The length field is read with [strtoul], which takes a sign.  With the
    length -1 the test for short records wraps around to 9, and the loop that
    copies the record runs out of the line buffer. *)
Theorem hex_negative_length :
  parse_ihex None note no_junk data_junk (text_file [58; 45; 49; 48; 48; 48; 48; 48; 48; 10], []) = Fault OutOfBounds.
Proof. vm_compute. reflexivity. Qed.

(** The address of the saved data is not set by a record that follows an empty
    one: here the byte 7 for the address 0x0100 is given to [poke] as data for
    the address 0. *)
Theorem hex_empty_record_moves_data :
  let line a d := print_line false (HexData a d [48; 48]) ++ [10] in
  let image := line 0 [] ++ line 0x100 [7] ++ record_head false 0 0 1 ++ [70; 70; 10] in
  exists f', parse_ihex None note no_junk data_junk (text_file image, []) = Ok (0, (f', [(0, false, [7])])).
Proof. eexists. vm_compute. reflexivity. Qed.

(** The fields are read before the length of the line is looked at: a line
    [":"] behind a comment that holds ["01"] in the right place is taken for
    an end record if the buffer is where it was in the turn before. *)
Theorem hex_stale_end_record :
  let comment := [35; 32; 32; 32; 32; 32; 32; 48; 49] in
  let buffers n := match n with
                   | O => replicate 512 0
                   | S _ => comment ++ [10; 0] ++ replicate 501 0
                   end in
  exists f', parse_ihex None note buffers data_junk (text_file (comment ++ [10; 58; 10]), []) = Ok (0, (f', [])).
Proof. eexists. vm_compute. reflexivity. Qed.

(** ** IIC and BIX images *)

(** An IIC image (behind its header of 8 bytes, and with the 5 bytes of its
    reset block at the end) reaches [poke] block by block, as it was written;
    a BIX image reaches it in pieces that hold its bytes in order from the
    address 0.  If [poke] fails, both parsers stop and return -1. *)
Theorem binary_images_parsed {C} (is_external : option (Z -> Z -> bool)) (poke : Z -> bool -> list Z -> M C Z)
    (blocks : list (Z * list Z)) (reset : list Z) (f g : FILE) (c : C)
    (Hblocks : Forall wf_block blocks) (Hreset : length reset = 5%nat)
    (Hbad : f_bad f = None) (Hseek : f_seekable f = true) (Hpos : (f_pos f <= length (f_data f))%nat)
    (Hf : unread f = flat_map print_block blocks ++ reset)
    (Hgbad : f_bad g = None) (Hg : Z.of_nat (length (unread g)) < 2 ^ 32) :
  runs_as (parse_iic is_external poke) f (run_segments is_external poke blocks) c /\
  exists segs, writes segs = bytes_at 0 (unread g) /\
    runs_as (parse_bin is_external poke) g (run_segments is_external poke segs) c.
Proof.
  split; [by apply (parse_iic_runs is_external poke blocks reset)|].
  exists (chunks (length (unread g)) 0 (unread g)). split; [by apply writes_chunks|by apply parse_bin_runs].
Qed.

Definition some_blocks : list (Z * list Z) := [(0x10, [1; 2; 3]); (0xE000, [4])].
Definition iic_file : FILE :=
  text_file (flat_map print_block some_blocks ++ [0x80; 1; 0xE6; 0; 0]).

Lemma binary_images_parsed_witness :
  runs_as (parse_iic None note) iic_file (run_segments None note some_blocks) [] /\
  exists segs, writes segs = bytes_at 0 [9; 8] /\
    runs_as (parse_bin None note) (text_file [9; 8]) (run_segments None note segs) [].
Proof.
  apply (binary_images_parsed None note some_blocks [0x80; 1; 0xE6; 0; 0] iic_file (text_file [9; 8]) []);
    try done; [|simpl; lia].
  repeat (apply Forall_cons; split); [..|constructor]; unfold wf_block; simpl; lia.
Defined.

(** ** Loading *)

(** C38: [ezusb_load_ram] with an Intel HEX image and a chip that accepts what is
    written to it: in one stage the processor is stopped, all segments are
    written with the request of the hardware loader, and the processor is
    started; in the second of two stages first the segments in external memory
    are written with the request of the software loader while it runs, then
    the processor is stopped, the segments on the chip are written, and it is
    started.  Every segment is written once. *)
Theorem load_ram_requests {W} (ct : ControlTransfer W) (log : W -> list request) (Hchip : Chip W log)
    (big low : bool) (junk : nat -> list Z) (data0 tl rBuf blBuf : list Z) (ls : list hex_line)
    (verbose fx_type stage : Z) (ctx : ram_poke_context) (f : FILE) (h : heap) (w : W)
    (Hjunk : forall n, length (junk n) = 512%nat) (Hdata : length data0 = 1023%nat) (Hls : Forall wf_line ls)
    (Hbad : f_bad f = None) (Hseek : f_seekable f = true) (Hpos : f_pos f = 0%nat)
    (Hf : f_data f = print_image low ls tl) (Hfx : fx_type <> FX_TYPE_FX3)
    (Hint : stage = 0 -> Forall (fun s => seg_external fx_type s = false) (image_segments ls)) :
  exists w', ezusb_load_ram big junk verbose rBuf blBuf data0 ctx (Some f) fx_type IMG_TYPE_HEX stage (h, w)
      = Ok (0, (h, w')) /\
    log w' = log w ++ upload_requests ls fx_type stage.
Proof.
  destruct (load_image_chip junk low data0 tl ls fx_type Hjunk Hdata Hls stage f ctx w Hbad Hseek Hf Hpos Hint)
    as (f' & ctx' & w' & Hrun & Hlog).
  exists w'. split; [|done]. unfold ezusb_load_ram. rewrite (proj2 (Z.eqb_neq _ _)) by done.
  apply on_snd_run. unfold with_file. by rewrite Hrun.
Qed.

Lemma load_ram_requests_witness :
  upload_requests some_lines FX_TYPE_FX2 1 =
    [(RW_MEMORY, 0x2000, [5; 6]); (RW_INTERNAL, 0xe600, [1]); (RW_INTERNAL, 0, [2; 3; 4]); (RW_INTERNAL, 0xe600, [0])] /\
  exists w', ezusb_load_ram false no_junk 1 [] [] data_junk ctx0 (Some (text_file some_image))
      FX_TYPE_FX2 IMG_TYPE_HEX 1 (plenty, []) = Ok (0, (plenty, w')) /\
    id w' = id [] ++ upload_requests some_lines FX_TYPE_FX2 1.
Proof.
  split; [vm_compute; reflexivity|].
  apply (load_ram_requests test_chip id test_chip_laws false false no_junk data_junk [70; 70; 10] [] [] some_lines);
    [apply no_junk_length|apply data_junk_length|apply some_lines_wf|done..].
Defined.

(** C39: The loader of the FX3, on an image of the format and with a chip that
    accepts what is written and gives it back: the sections are written to
    their addresses in pieces of at most 4096 bytes, each of them verified,
    and then (the checksum agrees) the chip jumps to the entry address.  The
    memory of the loader is released. *)
Theorem fx3_image_loaded {W} (ct : ControlTransfer W) (log : W -> list request) (Hchip : Chip W log)
    (big : bool) (verbose control entry : Z) (secs : list (Z * list Z)) (tl rBuf blBuf : list Z)
    (f : FILE) (h : heap) (w : W)
    (Hbad : f_bad f = None) (Hf : unread f = print_fx3 big control secs entry tl)
    (Hentry : 0 <= entry < 2 ^ 32) (Hsecs : Forall wf_section secs)
    (Hr : length rBuf = DATA_SIZE) (Hbl : length blBuf = 4%nat) (Hh : no_malloc_failure h) :
  exists h' w', fx3_load_ram big verbose rBuf blBuf (Some f) (h, w) = Ok (0, (h', w')) /\
    live h' = live h /\
    log w' = log w ++ flat_map section_writes secs ++ [(RW_INTERNAL, entry, [])] /\
    request_bytes (flat_map section_writes secs) = writes secs.
Proof.
  destruct (fx3_load_chip big verbose control secs entry tl rBuf blBuf f h w) as (h' & w' & Hrun & Hlive & Hlog); try done.
  exists h', w'. split_and!; [done..|]. apply request_bytes_sections.
Qed.

Definition some_sections : list (Z * list Z) := [(0x100, [1; 2; 3; 4; 5; 6; 7; 8]); (0x40000000, [9; 0; 0; 1])].
Definition fx3_file : FILE := text_file (print_fx3 false 0 some_sections 0x100 []).

Lemma fx3_image_loaded_witness :
  exists h' w', fx3_load_ram false 1 (replicate DATA_SIZE 0) [0; 0; 0; 0] (Some fx3_file) (plenty, []) = Ok (0, (h', w')) /\
    live h' = live plenty /\
    id w' = id [] ++ flat_map section_writes some_sections ++ [(RW_INTERNAL, 0x100, [])] /\
    request_bytes (flat_map section_writes some_sections) = writes some_sections.
Proof.
  apply (fx3_image_loaded test_chip id test_chip_laws false 1 0 0x100 some_sections []); try done.
  repeat (apply Forall_cons; split); [..|constructor]; unfold wf_section; simpl; split_and!; done || lia.
Defined.

(** C40: Whatever the file holds, whatever the chip answers, and whichever
    allocations fail: the loader of the FX3 ends, does nothing undefined,
    returns a code from -8 to 0, and releases its memory on every path. *)
Theorem fx3_load_safe {W} (ct : ControlTransfer W) (Hct : ControlTransferLaws W) (big : bool) (verbose : Z)
    (rBuf blBuf : list Z) (image : option FILE) (h : heap) (w : W)
    (Hr : is_bytes rBuf /\ length rBuf = DATA_SIZE) (Hbl : is_bytes blBuf /\ length blBuf = 4%nat)
    (Hf : forall f, image = Some f -> is_bytes (unread f)) :
  exists rc h' w', fx3_load_ram big verbose rBuf blBuf image (h, w) = Ok (rc, (h', w')) /\
    -8 <= rc <= 0 /\ live h' = live h.
Proof.
  destruct (proj1 (wp_ok _ _ _) (fx3_load_ram_safe big verbose rBuf blBuf image h w Hr (proj1 Hbl) (proj2 Hbl) Hf))
    as (rc & [h' w'] & Hrun & Hrc & Hlive).
  by exists rc, h', w'.
Qed.

Lemma fx3_load_safe_witness :
  exists rc h' w', fx3_load_ram false 1 (replicate DATA_SIZE 0) [0; 0; 0; 0] (Some fx3_file) (plenty, tt) = Ok (rc, (h', w')) /\
    -8 <= rc <= 0 /\ live h' = live plenty.
Proof.
  apply (fx3_load_safe dead_chip dead_chip_laws).
  - split; [by apply Forall_replicate|apply length_replicate].
  - split; [by repeat constructor|done].
  - intros f [= <-]. change (is_bytes (print_fx3 false 0 some_sections 0x100 [])).
    apply (bool_decide_unpack _). vm_compute. exact I.
Defined.

(** [ram_poke] means to repeat a request that timed out; but [ezusb_write]
    makes [-EIO] of every error, so the loop sends every request once. *)
Theorem ram_write_sent_once {W} (ct : ControlTransfer W) (tries : nat) (external : bool) (addr : Z)
    (data : list Z) (len : Z) (w : W) :
  write_retry tries external addr data len w
    = ezusb_write (if external then RW_MEMORY else RW_INTERNAL) addr data len w.
Proof.
  destruct tries as [|tries]; cbn [write_retry]; unfold ezusb_write, mbind, M_bind.
  - by destruct (control_transfer _ _ _ _ _ _ _ w) as [[[status d] w']|e].
  - destruct (control_transfer _ _ _ _ _ _ _ w) as [[[status d] w']|e]; [|done].
    destruct (status <? 0); done.
Qed.

(** [parse] has no entry for images of type IMG: with a chip that is not an
    FX3 the loader calls a null pointer. *)
Theorem img_image_calls_null :
  ezusb_load_ram false no_junk 1 [] [] data_junk ctx0 (Some fx3_file) FX_TYPE_FX2 3 0 (plenty, []) = Fault NullDeref.
Proof. vm_compute. reflexivity. Qed.
