(* ===== verification/DescProps.v ===== *)
(** * Properties of the descriptor code

    What the functions of descriptor.c promise to their callers, with the
    concrete descriptors that witness the hypotheses, and the descriptors
    on which the code goes wrong. *)

From S2P Require Import Prelude Heap ParseDesc Config ConfigSafety DescApi Bos StringDesc.

(** ** Concrete inputs *)

Definition fresh_heap : heap := mk_heap ∅ 0 (fun _ => false) (fun _ => false).
Definition zeros (n : nat) : list Z := replicate n 0.

Lemma length_zeros n : length (zeros n) = n.
Proof. apply length_replicate. Qed.

(** A keyboard: one interface with one interrupt endpoint, a HID class
    descriptor between the two, and a second alternate setting. *)
Definition keyboard : list Z :=
  [9;2;43;0;1;1;0;128;50; 9;4;0;0;1;3;1;1;0; 9;33;16;1;0;1;34;63;0; 7;5;129;3;8;0;10; 9;4;0;1;0;3;1;1;0].

(** One interface is announced, but an endpoint comes first. *)
Definition endpoint_first : list Z :=
  [9;2;18;0;1;1;0;128;50; 7;5;0;0;1;3;1;1;0].

(** The interface descriptor announces an endpoint, and is followed by a
    truncated class descriptor. *)
Definition truncated : list Z :=
  [9;2;21;0;1;1;0;128;50; 9;4;0;0;1;3;1;1;0; 9;33;16].

(** A backend for a device with one configuration that never changes. *)
Definition serve (raw buf : list Z) (he : bool) : Z * list Z * bool :=
  (Z.of_nat (Nat.min (length buf) (length raw)), take (length buf) raw ++ drop (length raw) buf, false).
Definition device_of (raw : list Z) : desc_backend unit := mk_desc_backend unit
  (fun buf he => mret (0, buf, true))
  (fun buf he => mret (serve raw buf he))
  (fun i buf he => mret (serve raw buf he))
  None.

Definition raw_ok (raw : list Z) : bool := forallb (fun b => (0 <=? b) && (b <? 256)) raw.
Lemma raw_ok_bytes raw : raw_ok raw = true -> is_bytes raw.
Proof.
  unfold raw_ok. rewrite forallb_forall. intros Hall. apply Forall_forall. intros b Hb.
  apply list_elem_of_In in Hb. specialize (Hall b Hb). unfold is_byte. lia.
Qed.

(** The contract is stated for buffers of any contents; the fresh memory of
    the model is made of bytes. *)
Definition junk_bytes (junk : nat -> list Z) : Prop := forall n, is_bytes (junk n) /\ length (junk n) = n.

(** ** Configuration descriptors *)

(** C1: [raw_desc_to_config] on any bytes of any length, whatever [malloc]
    fails: the parser terminates and never leaves its buffers nor touches a
    released block; on an error nothing stays allocated, and on success the
    live blocks are exactly those of the configuration it returns, which is
    well formed. *)
Theorem raw_desc_to_config_safe (big : bool) (junk buf : list Z) (size : Z) (he : bool) (h : heap)
    (Hjunk : (9 <= length junk)%nat) (Hrealloc : no_realloc_failure h) (Hbytes : is_bytes buf)
    (Hsize : 0 <= size <= Z.of_nat (length buf)) :
  exists r c h', raw_desc_to_config big junk buf size he h = Ok ((r, c), h') /\
    match c with
    | None => (r = LIBUSB_ERROR_IO \/ r = LIBUSB_ERROR_NO_MEM) /\ live h' = live h
    | Some (b, c) => r = LIBUSB_SUCCESS /\ wf_cfg c /\ live h' = {[+ b +]} ⊎ own_cfg c ⊎ live h
    end.
Proof.
  destruct (proj1 (wp_ok _ _ _) (raw_desc_to_config_wp big junk Hjunk buf size he h (live h)
    Hrealloc Hbytes Hsize eq_refl)) as ([r c] & h' & Heq & Hpost & _).
  exists r, c, h'. split; [done|]. destruct c as [[b c]|]; [|done].
  destruct Hpost as (? & ? & ? & _). done.
Qed.

Lemma raw_desc_to_config_safe_witness :
  is_bytes keyboard /\ exists r c h', raw_desc_to_config false (zeros 9) keyboard 43 false fresh_heap = Ok ((r, c), h') /\
    match c with
    | None => (r = LIBUSB_ERROR_IO \/ r = LIBUSB_ERROR_NO_MEM) /\ live h' = live fresh_heap
    | Some (b, c) => r = LIBUSB_SUCCESS /\ wf_cfg c /\ live h' = {[+ b +]} ⊎ own_cfg c ⊎ live fresh_heap
    end.
Proof.
  split; [by apply raw_ok_bytes|].
  apply (raw_desc_to_config_safe false (zeros 9) keyboard 43 false fresh_heap);
    [simpl; lia|done|by apply raw_ok_bytes|by vm_compute].
Defined.

(** Parsing a configuration and releasing it with
    [libusb_free_config_descriptor] frees what the parser allocated, up to
    one block (see the next theorem), and all of it when every announced
    interface was found. *)
Theorem config_parse_free (big : bool) (junk buf : list Z) (size : Z) (he : bool) (h : heap)
    (Hjunk : (9 <= length junk)%nat) (Hrealloc : no_realloc_failure h) (Hbytes : is_bytes buf)
    (Hsize : 0 <= size <= Z.of_nat (length buf)) :
  exists r c h' h'', raw_desc_to_config big junk buf size he h = Ok ((r, c), h') /\
    libusb_free_config_descriptor c h' = Ok (tt, h'') /\
    exists lost, live h'' = lost ⊎ live h /\ (base.size lost <= 1)%nat /\
      (forall b d, c = Some (b, d) -> bNumInterfaces d = Z.of_nat (length (cfg_interfaces d)) -> lost = ∅).
Proof.
  destruct (proj1 (wp_ok _ _ _) (raw_desc_to_config_wp big junk Hjunk buf size he h (live h)
    Hrealloc Hbytes Hsize eq_refl)) as ([r c] & h' & Heq & Hpost & _).
  exists r, c, h'. destruct c as [[b c]|].
  - destruct Hpost as (_ & Hwf & Hl & Htail).
    destruct (proj1 (wp_ok _ _ _) (free_config_wp b c h' (live h) Hwf Hl)) as ([] & h'' & Hfree & Hl' & _).
    exists h''. split; [done|]. split; [done|]. exists (leaked c). split; [done|].
    split; [by apply leaked_size|]. intros b' d [= <- <-] Hn. by apply leaked_full.
  - destruct Hpost as [_ Hl]. exists h'. split; [done|]. split; [done|]. exists ∅.
    split; [rewrite Hl; multiset_solver|]. split; [apply Nat.le_0_l|]. done.
Qed.

Lemma config_parse_free_witness :
  is_bytes endpoint_first /\
  exists r c h' h'', raw_desc_to_config false (zeros 9) endpoint_first 18 false fresh_heap = Ok ((r, c), h') /\
    libusb_free_config_descriptor c h' = Ok (tt, h'') /\
    exists lost, live h'' = lost ⊎ live fresh_heap /\ (base.size lost <= 1)%nat /\
      (forall b d, c = Some (b, d) -> bNumInterfaces d = Z.of_nat (length (cfg_interfaces d)) -> lost = ∅).
Proof.
  split; [by apply raw_ok_bytes|].
  apply (config_parse_free false (zeros 9) endpoint_first 18 false fresh_heap);
    [simpl; lia|done|by apply raw_ok_bytes|by vm_compute].
Defined.

(** A block does get lost.  When the announced interface does not start
    with an interface descriptor, [parse_interface] returns 0 with the
    alternate setting array it allocated, [parse_configuration] does not
    count the interface, and the array is out of reach of
    [libusb_free_config_descriptor]. *)
Theorem uncounted_interface_leaks :
  exists c h' h'', raw_desc_to_config false (zeros 9) endpoint_first 18 false fresh_heap = Ok ((0, c), h') /\
    libusb_free_config_descriptor c h' = Ok (tt, h'') /\ live h'' = {[+ 2%nat +]}.
Proof. do 3 eexists. split; [vm_compute; reflexivity|]. split; [vm_compute; reflexivity|]. by vm_compute. Qed.

(** A failing [realloc] is not handled: [usbi_reallocf] has released
    the array of alternate settings, [parse_interface] keeps the dangling
    pointer and its error path walks and frees the array again. *)
Theorem realloc_failure_use_after_free :
  raw_desc_to_config false (zeros 9) keyboard 43 false
    (mk_heap ∅ 0 (fun _ => false) (fun n => bool_decide (n = 5%nat))) = Fault UseAfterFree.
Proof. vm_compute. reflexivity. Qed.

(** On a configuration where every announced element exists,
    [find_endpoint] is the first endpoint with the address, in the order of
    the descriptors, and "not found" means that there is none. *)
Theorem find_endpoint_first (c : config_descriptor) (e : Z) (Hc : complete_config c) :
  find_endpoint c e = Ok (find (fun ep => bEndpointAddress ep =? e) (config_endpoints c)).
Proof. by apply find_endpoint_complete. Qed.

(** The configuration of the keyboard. *)
Definition keyboard_config : config_descriptor :=
  match raw_desc_to_config false (zeros 9) keyboard 43 false fresh_heap with
  | Ok ((_, Some (_, c)), _) => c
  | _ => mk_cfg [] None [] None [] 0
  end.

Lemma keyboard_complete : complete_config keyboard_config.
Proof.
  assert (exists c, keyboard_config = c /\ complete_config c) as (c & -> & Hc); [|exact Hc].
  eexists. split; [vm_compute; reflexivity|]. split; [by vm_compute|]. split; [done|].
  repeat constructor; vm_compute; congruence || lia.
Qed.

Lemma find_endpoint_first_witness :
  length (config_endpoints keyboard_config) = 1%nat /\
  find_endpoint keyboard_config 129 =
    Ok (find (fun ep => bEndpointAddress ep =? 129) (config_endpoints keyboard_config)).
Proof. split; [vm_compute; reflexivity|]. apply find_endpoint_first, keyboard_complete. Defined.

(** The configuration of a device whose class descriptor is truncated
    counts an endpoint whose array was never allocated, and the lookup of
    an endpoint follows the null pointer. *)
Theorem truncated_config_null_deref :
  libusb_get_max_packet_size (device_of truncated) false zeros 129 (mk_ds fresh_heap tt) = Fault NullDeref.
Proof. vm_compute. reflexivity. Qed.

(** ** Fetching *)

Lemma serve_law raw buf he : is_bytes raw -> is_bytes buf -> filled_buffer buf (serve raw buf he).
Proof.
  intros Hraw Hbuf. split; [apply Forall_app_2; auto|].
  rewrite length_app, length_take, length_drop. lia.
Qed.

#[export] Instance device_of_laws raw (Hraw : TCEq (raw_ok raw) true) : DescBackendLaws (device_of raw) (fun _ => True).
Proof.
  assert (is_bytes raw) as Hb by (apply raw_ok_bytes; by destruct Hraw).
  split.
  - intros buf he w Hbuf _. apply wp_ret. by split; [apply serve_law|].
  - intros i buf he w Hbuf _. apply wp_ret. by split; [apply serve_law|].
  - done.
Qed.

(** The three functions that fetch a configuration: whatever the device
    answers and whatever [malloc] fails, they return; an error leaves
    nothing allocated, and on success the only new blocks are those of the
    well-formed configuration, the transfer buffer being released. *)
Theorem fetch_configuration_safe {W} (be : desc_backend W) (good : W -> Prop) (Hbe : DescBackendLaws be good) (big : bool)
    (junk : nat -> list Z) (Hjunk : junk_bytes junk) (num arg : Z) (s : dstate W)
    (Hgood : good (ds_world s)) (Hrealloc : no_realloc_failure (ds_heap s)) :
  Forall (fun m : M (dstate W) config_result =>
      exists r c s', m s = Ok ((r, c), s') /\
        match c with
        | None => r < 0 /\ live (ds_heap s') = live (ds_heap s)
        | Some (b, c) => r = LIBUSB_SUCCESS /\ wf_cfg c /\
            live (ds_heap s') = {[+ b +]} ⊎ own_cfg c ⊎ live (ds_heap s)
        end)
    [libusb_get_active_config_descriptor be big junk;
     libusb_get_config_descriptor be big junk num arg;
     libusb_get_config_descriptor_by_value be big junk num arg].
Proof.
  assert (forall m : M (dstate W) config_result,
    wp m s (fun res s' => fetched (live (ds_heap s)) res (ds_heap s')) ->
    exists r c s', m s = Ok ((r, c), s') /\
        match c with
        | None => r < 0 /\ live (ds_heap s') = live (ds_heap s)
        | Some (b, c) => r = LIBUSB_SUCCESS /\ wf_cfg c /\
            live (ds_heap s') = {[+ b +]} ⊎ own_cfg c ⊎ live (ds_heap s)
        end) as Hwp.
  { intros m ([r c] & s' & Heq & Hpost)%wp_ok. exists r, c, s'. split; [done|].
    destruct c as [[b c]|]; [|done]. destruct Hpost as (? & ? & ? & _). done. }
  assert (forall n, length (junk n) = n) as Hj by apply Hjunk.
  assert (forall n, is_bytes (junk n)) as Hjb by apply Hjunk.
  repeat constructor; apply Hwp.
  - apply (fetch_config_wp good big junk Hj Hjb (get_active_config_descriptor be)); [apply active_law|done..].
  - by apply (config_descriptor_wp be good).
  - by apply (config_descriptor_by_value_wp be good).
Qed.

Lemma zeros_bytes : junk_bytes zeros.
Proof. intros n. split; [apply is_bytes_zeros|apply length_replicate]. Qed.

Lemma fetch_configuration_safe_witness :
  let s := mk_ds fresh_heap tt in
  Forall (fun m : M (dstate unit) config_result =>
      exists r c s', m s = Ok ((r, c), s') /\
        match c with
        | None => r < 0 /\ live (ds_heap s') = live (ds_heap s)
        | Some (b, c) => r = LIBUSB_SUCCESS /\ wf_cfg c /\
            live (ds_heap s') = {[+ b +]} ⊎ own_cfg c ⊎ live (ds_heap s)
        end)
    [libusb_get_active_config_descriptor (device_of keyboard) false zeros;
     libusb_get_config_descriptor (device_of keyboard) false zeros 1 0;
     libusb_get_config_descriptor_by_value (device_of keyboard) false zeros 1 0].
Proof.
  apply (fetch_configuration_safe _ (fun _ => True)); [apply device_of_laws; constructor|apply zeros_bytes|done|done].
Defined.

(** On a device whose descriptors do not change,
    [usbi_get_config_index_by_value] returns the first configuration index
    below the number of configurations with the value asked for, and -1
    exactly when there is none. *)
Theorem config_index_by_value_first {W} (be : desc_backend W) (junk : nat -> list Z) (raw : Z -> list Z)
    (num value : Z) (s : dstate W) (Hjunk : forall n, length (junk n) = n)
    (Hbe : static_configs be raw) (Hnum : 0 <= num) :
  exists idx, usbi_get_config_index_by_value be junk num value s = Ok ((0, idx), s) /\
    ((idx = -1 /\ forall j, 0 <= j < num -> config_value (raw j) <> value) \/
     (0 <= idx < num /\ config_value (raw idx) = value /\
      forall j, 0 <= j < idx -> config_value (raw j) <> value)).
Proof.
  destruct (config_index_loop_first be junk raw (Z.to_nat num) 0 value false s Hjunk Hbe)
    as (idx & Heq & Hidx).
  exists idx. split; [exact Heq|]. rewrite Z2Nat.id in Hidx by done. exact Hidx.
Qed.

(** A device with configurations of values 1, 2, 3, ... *)
Definition numbered : desc_backend unit := mk_desc_backend unit
  (fun buf he => mret (0, buf, true))
  (fun buf he => mret (-5, buf, he))
  (fun i buf he => mret (6, [9; 2; 0; 0; 0; i + 1], he))
  None.

Lemma config_index_by_value_first_witness :
  usbi_get_config_index_by_value numbered zeros 4 3 (mk_ds fresh_heap tt) = Ok ((0, 2), mk_ds fresh_heap tt) /\
  exists idx, usbi_get_config_index_by_value numbered zeros 4 3 (mk_ds fresh_heap tt)
      = Ok ((0, idx), mk_ds fresh_heap tt) /\
    ((idx = -1 /\ forall j, 0 <= j < 4 -> config_value [9; 2; 0; 0; 0; j + 1] <> 3) \/
     (0 <= idx < 4 /\ config_value [9; 2; 0; 0; 0; idx + 1] = 3 /\
      forall j, 0 <= j < idx -> config_value [9; 2; 0; 0; 0; j + 1] <> 3)).
Proof.
  split; [by vm_compute|].
  apply (config_index_by_value_first numbered zeros (fun i => [9; 2; 0; 0; 0; i + 1]));
    [apply length_zeros|by split|lia].
Defined.

(** ** The generic reader *)

(** [usbi_parse_descriptor] on a source that holds all the bytes of the
    format: it reads nothing behind them, consumes exactly them, writes
    nothing behind the structure, and each member holds the field of the
    source, little endian on the bus or in host order as asked, on hosts of
    either byte order. *)
Theorem parse_descriptor_fields (big : bool) (format : string) (host_endian : bool) (source dest : list Z)
    (Hbytes : is_bytes source) (Hsource : (format_size format <= length source)%nat)
    (Hdest : (format_end format 0 <= length dest)%nat) :
  exists d, usbi_parse_descriptor big source format dest host_endian = Ok (Z.of_nat (format_size format), d) /\
    usbi_parse_descriptor big (take (format_size format) source) format dest host_endian
      = Ok (Z.of_nat (format_size format), d) /\
    length d = length dest /\ drop (format_end format 0) d = drop (format_end format 0) dest /\
    struct_fields big format d 0 = source_fields big format source host_endian.
Proof.
  destruct (parse_loop_ok big format host_endian source 0 dest 0 Hbytes Hsource Hdest)
    as (d & Heq & Hl & _ & Hf & Hd).
  exists d. split; [exact Heq|]. split; [|done].
  unfold usbi_parse_descriptor. simpl Nat.add in Heq. rewrite <- Heq.
  rewrite <- (take_drop (format_size format) source) at 2. symmetry. apply parse_loop_app.
  rewrite length_take. lia.
Qed.

Lemma parse_descriptor_fields_witness :
  exists d, usbi_parse_descriptor true keyboard "bbwbbbbb" (zeros 9) false = Ok (9, d) /\
    usbi_parse_descriptor true (take 9 keyboard) "bbwbbbbb" (zeros 9) false = Ok (9, d) /\
    length d = 9%nat /\ drop 9 d = drop 9 (zeros 9) /\
    struct_fields true "bbwbbbbb" d 0 = source_fields true "bbwbbbbb" keyboard false.
Proof.
  apply (parse_descriptor_fields true "bbwbbbbb" false keyboard (zeros 9));
    [by apply raw_ok_bytes|change (9 <= 43)%nat; lia|change (9 <= 9)%nat; lia].
Defined.

(** ** BOS descriptors *)

(** A device that answers every control transfer with the same bytes. *)
Definition answer (resp : list Z) : ControlTransfer unit :=
  fun _ _ _ _ data n _ w =>
    let k := Nat.min (Z.to_nat n) (Nat.min (length resp) (length data)) in
    Ok ((Z.of_nat k, take k resp ++ drop k data), w).

#[export] Instance answer_laws resp (Hresp : TCEq (raw_ok resp) true) :
  @ControlTransferLaws unit (answer resp).
Proof.
  intros rt br v i data n t w Hd Hn. unfold wp, control_transfer, answer. simpl.
  assert (is_bytes resp) as Hb by (apply raw_ok_bytes; by destruct Hresp).
  split; [apply Forall_app_2; auto|]. rewrite length_app, length_take, length_drop. split; lia.
Qed.

Definition example_caps : list (list Z) :=
  [[7; 16; 2; 6; 0; 0; 0]; [10; 16; 3; 0; 14; 0; 1; 10; 255; 7]].

(** C34: [libusb_get_bos_descriptor] against any device and any allocation
    failure: it returns; on an error nothing stays allocated; on success
    each counted capability is a complete device capability descriptor, and
    [libusb_free_bos_descriptor] gives back exactly what was allocated. *)
Theorem get_bos_descriptor_safe {W} (ct : ControlTransfer W) (Hct : ControlTransferLaws W) (big : bool)
    (junk : nat -> list Z) (Hjunk : forall n, length (junk n) = n) (s : dstate W) :
  exists r bos s' h, libusb_get_bos_descriptor big junk s = Ok ((r, bos), s') /\
    (bos = None -> r < 0 /\ live (ds_heap s') = live (ds_heap s)) /\
    (forall b d, bos = Some (b, d) -> r = LIBUSB_SUCCESS /\ wf_bos d) /\
    libusb_free_bos_descriptor bos (ds_heap s') = Ok (tt, h) /\ live h = live (ds_heap s).
Proof.
  destruct (proj1 (wp_ok _ _ _) (get_bos_descriptor_wp big junk Hjunk s (live (ds_heap s)) eq_refl))
    as ([r [[b d]|]] & s' & Heq & Hpost).
  - destruct Hpost as (Hr & Hwf & Hl). pose proof Hwf as (_ & _ & Hn & Hnone & _).
    destruct (proj1 (wp_ok _ _ _) (free_bos_wp b d (ds_heap s') (live (ds_heap s)) Hn Hnone Hl))
      as ([] & h & Hfree & Hl' & _).
    exists r, (Some (b, d)), s', h. split_and!; try done. by intros b' d' [= <- <-].
  - destruct Hpost as [Hr Hl]. by exists r, None, s', (ds_heap s').
Qed.

Lemma get_bos_descriptor_safe_witness :
  let ct := answer (encode_bos example_caps) in let s := mk_ds fresh_heap tt in
  exists r bos s' h, libusb_get_bos_descriptor false zeros s = Ok ((r, bos), s') /\
    (bos = None -> r < 0 /\ live (ds_heap s') = live (ds_heap s)) /\
    (forall b d, bos = Some (b, d) -> r = LIBUSB_SUCCESS /\ wf_bos d) /\
    libusb_free_bos_descriptor bos (ds_heap s') = Ok (tt, h) /\ live h = live (ds_heap s).
Proof.
  intros ct s. apply (get_bos_descriptor_safe ct); [apply answer_laws; constructor|apply length_zeros].
Defined.

(** Round trip: a BOS descriptor that encodes a list of complete device
    capability descriptors is parsed, on hosts of either byte order, into
    exactly that list, in order and with every byte. *)
Theorem bos_roundtrip (big : bool) (junk : nat -> list Z) (caps : list (list Z)) (h : heap)
    (Hjunk : forall n, length (junk n) = n) (Hmalloc : no_malloc_failure h)
    (Hcaps : Forall wf_cap caps) (Hcount : (length caps < 256)%nat) :
  exists b d h', parse_bos big junk (encode_bos caps) (Z.of_nat (length (encode_bos caps))) false h
      = Ok ((LIBUSB_SUCCESS, Some (b, d)), h') /\
    bNumDeviceCaps (bos_raw d) = Z.of_nat (length caps) /\ caps_data (bos_caps d) = Some <$> caps.
Proof.
  destruct (proj1 (wp_ok _ _ _) (parse_bos_roundtrip big junk Hjunk caps h Hmalloc Hcaps Hcount))
    as (res & h' & Heq & b & d & -> & Hd).
  by exists b, d, h'.
Qed.

Lemma example_caps_wf : Forall wf_cap example_caps.
Proof.
  repeat constructor; try (by vm_compute); try (simpl; lia).
Qed.

Lemma bos_roundtrip_witness :
  exists b d h', parse_bos true zeros (encode_bos example_caps) (Z.of_nat (length (encode_bos example_caps)))
      false fresh_heap = Ok ((LIBUSB_SUCCESS, Some (b, d)), h') /\
    bNumDeviceCaps (bos_raw d) = 2 /\ caps_data (bos_caps d) = Some <$> example_caps.
Proof.
  apply (bos_roundtrip true zeros example_caps fresh_heap);
    [apply length_zeros|done|apply example_caps_wf|simpl; lia].
Defined.

(** The readers of the three device capabilities accept exactly a
    capability of their type that is long enough; a wrong type is an
    invalid parameter and a short one an I/O error, with nothing allocated;
    otherwise the returned block holds the fields of the capability. *)
Theorem capability_readers (big : bool) (junk : nat -> list Z) (dc : list Z) (h : heap)
    (Hjunk : forall n, length (junk n) = n) (Hdc : wf_cap dc) :
  Forall (fun '(reader, type, size, format) =>
      exists r d h', (reader : M heap desc_result) h = Ok ((r, d), h') /\
        capability_post big (live h) type size format dc (r, d) h')
    [(libusb_get_usb_2_0_extension_descriptor big junk dc, 2, 7, "bbbd"%string);
     (libusb_get_ss_usb_device_capability_descriptor big junk dc, 3, 10, "bbbbwbbw"%string);
     (libusb_get_container_id_descriptor big junk dc, 4, 20, "bbbbu"%string)].
Proof.
  assert (forall type size f n, Z.of_nat (format_size f) = size -> format_end f 0 = n ->
    exists r d h', get_capability big junk type size f n dc h = Ok ((r, d), h') /\
      capability_post big (live h) type size f dc (r, d) h') as Hwp.
  { intros type size f n Hs Hn.
    destruct (proj1 (wp_ok _ _ _) (capability_wp big junk Hjunk type size f n dc h (live h) Hdc Hs Hn eq_refl))
      as ([r d] & h' & Heq & Hpost & _). by exists r, d, h'. }
  repeat constructor; by apply Hwp.
Qed.

Lemma capability_readers_witness :
  let dc := [7; 16; 2; 6; 0; 0; 0] in
  wf_cap dc /\
  Forall (fun '(reader, type, size, format) =>
      exists r d h', (reader : M heap desc_result) fresh_heap = Ok ((r, d), h') /\
        capability_post false (live fresh_heap) type size format dc (r, d) h')
    [(libusb_get_usb_2_0_extension_descriptor false zeros dc, 2, 7, "bbbd"%string);
     (libusb_get_ss_usb_device_capability_descriptor false zeros dc, 3, 10, "bbbbwbbw"%string);
     (libusb_get_container_id_descriptor false zeros dc, 4, 20, "bbbbu"%string)].
Proof.
  assert (wf_cap [7; 16; 2; 6; 0; 0; 0]) as Hwf by exact (Forall_inv example_caps_wf).
  split; [exact Hwf|]. apply capability_readers; [apply length_zeros|exact Hwf].
Defined.

(** ** String descriptors *)

(** A device with two answers: the language identifiers for index 0, the
    string for the others. *)
Definition string_device (resp : list Z) : ControlTransfer unit :=
  fun _ _ v _ data n _ w =>
    let src := if v =? 768 then [4; 3; 9; 4] else resp in
    let k := Nat.min (Z.to_nat n) (Nat.min (length src) (length data)) in
    Ok ((Z.of_nat k, take k src ++ drop k data), w).

(** The ASCII conversion: when the second answer is a string descriptor
    of even length that was received in full, the function returns the
    number of characters that fit the buffer with the terminator, and the
    buffer holds them, one per UTF-16 unit with a question mark for what is
    not ASCII, the terminator behind them, and the old bytes behind that. *)
Theorem string_ascii_conversion {W} (ct : ControlTransfer W) (junk tbuf1 tbuf : list Z)
    (index r1 r len : Z) (data : list Z) (w w1 w2 : W) (b2 b3 : Z)
    (Hindex : index <> 0)
    (Hlangs : libusb_get_string_descriptor 0 0 junk 255 w = Ok ((r1, tbuf1), w1)) (Hr1 : 4 <= r1)
    (Hb2 : tbuf1 !! 2%nat = Some b2) (Hb3 : tbuf1 !! 3%nat = Some b3)
    (Hstring : libusb_get_string_descriptor index (Z.lor b2 (Z.shiftl b3 8)) tbuf1 255 w1 = Ok ((r, tbuf), w2))
    (Hbytes : is_bytes tbuf) (Htype : bDescriptorType tbuf = LIBUSB_DT_STRING)
    (Hlength : 2 <= bLength tbuf <= r) (Heven : Z.even (bLength tbuf) = true)
    (Hr : r <= Z.of_nat (length tbuf) <= 255)
    (Hlen : 1 <= len <= Z.of_nat (length data)) :
  let n := Nat.min (Z.to_nat (len - 1)) (length (ascii_string tbuf)) in
  libusb_get_string_descriptor_ascii junk index data len w
    = Ok ((Z.of_nat n, take n (ascii_string tbuf) ++ 0 :: drop (S n) data), w2).
Proof.
  intros n. unfold libusb_get_string_descriptor_ascii.
  destruct (Z.eqb_spec index 0); [done|]. unfold mbind at 1, M_bind at 1. rewrite Hlangs.
  destruct (Z.ltb_spec r1 0); [lia|]. destruct (Z.ltb_spec r1 4); [lia|].
  unfold mbind, M_bind, lift. rewrite (rd_ok _ _ _ Hb2 : rd tbuf1 2 = _), (rd_ok _ _ _ Hb3 : rd tbuf1 3 = _), Hstring.
  destruct (Z.ltb_spec r 0); [lia|].
  assert (rd tbuf 1 = Ok (bDescriptorType tbuf) /\ rd tbuf 0 = Ok (bLength tbuf)) as [-> ->]
    by (destruct tbuf as [|? [|? ?]]; simpl in Hr; try lia; done).
  rewrite Htype. change (negb _) with false. cbv iota.
  destruct (Z.ltb_spec r (bLength tbuf)); [lia|].
  destruct (ascii_loop_ok 128 tbuf 0 data len) as (data' & Heq & Htake & Hdrop); try done; try lia.
  { rewrite ascii_string_length by lia.
    assert ((Z.to_nat (bLength tbuf) - 2) / 2 <= 127)%nat by (apply Nat.Div0.div_le_upper_bound; lia). lia. }
  change (2 + 2 * Z.of_nat 0) with 2 in Heq. change (Z.of_nat 0) with 0 in Heq. fold n in Heq, Htake, Hdrop.
  rewrite Heq. unfold ascii_end. cbn [fst snd]. rewrite Nat2Z.id.
  assert (length data' = length data) as Hl.
  { rewrite <- (take_drop n data'), <- (take_drop n data), Hdrop, !length_app, Htake, !length_take.
    assert (n <= length data)%nat by lia. lia. }
  rewrite store_one by lia. cbn [mbind outcome_bind].
  rewrite insert_take_drop, Htake by lia. do 5 f_equal. apply (drop_eq_le _ _ _ n); [done|lia].
Qed.

Lemma string_ascii_conversion_witness :
  let ct := string_device [10; 3; 85; 0; 83; 0; 233; 0; 66; 0] in
  let tbuf := [10; 3; 85; 0; 83; 0; 233; 0; 66; 0] ++ zeros 245 in
  @libusb_get_string_descriptor_ascii unit ct (zeros 255) 1 (zeros 16) 16 tt = Ok ((4, [85; 83; 63; 66] ++ zeros 12), tt) /\
  let n := Nat.min (Z.to_nat (16 - 1)) (length (ascii_string tbuf)) in
  libusb_get_string_descriptor_ascii (zeros 255) 1 (zeros 16) 16 tt
    = Ok ((Z.of_nat n, take n (ascii_string tbuf) ++ 0 :: drop (S n) (zeros 16)), tt).
Proof.
  intros ct tbuf. split; [vm_compute; reflexivity|].
  apply (string_ascii_conversion ct (zeros 255) ([4; 3; 9; 4] ++ zeros 251) tbuf 1 4 10 16 (zeros 16) tt tt tt 9 4);
    first [lia|vm_compute; reflexivity|vm_compute; intuition congruence|by apply raw_ok_bytes].
Defined.

(** The conversion is not safe for every device: an answer that
    declares the odd length 255 makes the loop read one byte behind the
    255 byte buffer, while up to 127 bytes of output can never do so. *)
Theorem string_ascii_bounds :
  @libusb_get_string_descriptor_ascii unit (string_device ([255; 3] ++ zeros 253)) (zeros 255) 1 (zeros 255) 255 tt
    = Fault OutOfBounds /\
  forall (tbuf data : list Z) (len : Z), is_bytes tbuf -> length tbuf = 255%nat ->
    1 <= len <= 127 -> len <= Z.of_nat (length data) ->
    exists di data', ascii_loop 128 tbuf 2 0 data len ≫= ascii_end = Ok (di, data') /\
      0 <= di < len /\ length data' = length data.
Proof.
  split; [vm_compute; reflexivity|]. intros tbuf data len Hb Hl Hlen Hdata.
  destruct (ascii_loop_safe 128 tbuf 0 data len) as (di & data' & Heq & Hdi & Hl'); try done; try lia.
  change (2 + 2 * 0) with 2 in Heq. rewrite Heq. cbn [mbind outcome_bind].
  unfold ascii_end. cbn [fst snd]. rewrite store_one by lia. cbn [mbind outcome_bind].
  exists di, (<[Z.to_nat di := 0]> data'). rewrite length_insert. split; [done|]. split; [lia|done].
Qed.
