(* ===== verification/TreeProps.v ===== *)
(** * Properties of configurations as trees

    The round trip of the configuration parser, and the functions that fetch
    a configuration, parse it, look an endpoint up and release everything. *)

From S2P Require Import Prelude Heap ParseDesc Config ConfigSafety DescApi ConfigTree DescProps.

(** The keyboard of DescProps.v as a tree. *)
Definition keyboard_tree : cfg_tree :=
  mk_ct [9;2;43;0;1;1;0;128;50] []
    [[mk_at [9;4;0;0;1;3;1;1;0] [[9;33;16;1;0;1;34;63;0]] [mk_et [7;5;129;3;8;0;10] []];
      mk_at [9;4;0;1;0;3;1;1;0] [] []]].

Lemma descriptor_check t n raw :
  raw_ok raw && (bDescriptorType raw =? t) && (bLength raw =? len raw) && (n <=? len raw) = true -> descriptor t n raw.
Proof.
  rewrite !andb_true_iff, !Z.eqb_eq, Z.leb_le. intros [[[Hb Ht] Hl] Hn].
  split; [by apply raw_ok_bytes|]. done.
Qed.
Lemma extra_check x :
  raw_ok x && negb (is_proper (bDescriptorType x)) && (bLength x =? len x) && (2 <=? len x) = true -> extra_ok x.
Proof.
  rewrite !andb_true_iff, Z.eqb_eq, Z.leb_le, negb_true_iff. intros [[[Hb Ht] Hl] Hn].
  split; [by apply raw_ok_bytes|]. done.
Qed.

Lemma keyboard_tree_ok : cfg_ok keyboard_tree.
Proof.
  split; [by apply descriptor_check|]. split; [constructor|]. split; [done|]. split; [by vm_compute|].
  split; [done|]. exists [0]. split; [apply NoDup_singleton|]. constructor; [|constructor].
  split; [done|]. repeat constructor; try (by apply descriptor_check); try (by apply extra_check);
    try (by vm_compute); by eapply descriptor_check.
Qed.

(** C13: round trip of the configuration parser.  The bytes of any tree of
    interfaces, alternate settings and endpoints, with any class descriptors
    between them, are parsed, on hosts of either byte order, into structures
    that read back as exactly that tree: every member of every descriptor,
    every class descriptor, and the order of everything. *)
Theorem config_roundtrip (big : bool) (junk : list Z) (t : cfg_tree) (h : heap)
    (Hjunk : (9 <= length junk)%nat) (Hok : cfg_ok t) (Hheap : plenty h) :
  exists b d h', raw_desc_to_config big junk (cfg_bytes t) (len (cfg_bytes t)) false h
      = Ok ((LIBUSB_SUCCESS, Some (b, d)), h') /\
    read_cfg big d = cfg_meaning t /\ bNumInterfaces d = len (ct_ifs t) /\
    live h' = {[+ b +]} ⊎ own_cfg d ⊎ live h.
Proof.
  assert (is_bytes (cfg_bytes t)) as Hb by (by apply cfg_ok_bytes).
  destruct (proj1 (wp_ok _ _ _) (raw_desc_to_config_wp big junk Hjunk (cfg_bytes t) (len (cfg_bytes t)) false h (live h)
    (proj2 Hheap) Hb ltac:(lia) eq_refl)) as ([r c] & h' & Heq & Hpost & _).
  destruct (raw_desc_to_config_tree big junk Hjunk t h Hok Hheap _ _ Heq) as (-> & b & d & -> & Hread & _ & Hn & _).
  destruct Hpost as (_ & _ & Hl & _). exists b, d, h'. done.
Qed.

Lemma config_roundtrip_witness :
  cfg_bytes keyboard_tree = keyboard /\
  exists b d h', raw_desc_to_config true (zeros 9) (cfg_bytes keyboard_tree) (len (cfg_bytes keyboard_tree)) false fresh_heap
      = Ok ((LIBUSB_SUCCESS, Some (b, d)), h') /\
    read_cfg true d = cfg_meaning keyboard_tree /\ bNumInterfaces d = len (ct_ifs keyboard_tree) /\
    live h' = {[+ b +]} ⊎ own_cfg d ⊎ live fresh_heap.
Proof.
  split; [reflexivity|].
  apply (config_roundtrip true (zeros 9) keyboard_tree fresh_heap); [simpl; lia|apply keyboard_tree_ok|by split].
Defined.

(** The size of the packets an isochronous or interrupt endpoint moves in one
    microframe: bits 0 to 10 of [wMaxPacketSize], times the number of
    transactions in bits 11 and 12. *)
Definition tree_iso_size (e : ep_tree) : Z :=
  let w := word_at 4 (et_raw e) in
  let base := w mod 2048 in
  if decide (nth 3 (et_raw e) 0 mod 4 = 1 \/ nth 3 (et_raw e) 0 mod 4 = 3)
  then base * (1 + (w / 2048) mod 4) else base.

Lemma read_ep_fields big ep e : read_ep big ep = ep_meaning e ->
  wMaxPacketSize big ep = word_at 4 (et_raw e) /\ bmAttributes ep = nth 3 (et_raw e) 0.
Proof.
  intros Hr%(f_equal fst). cbn [read_ep ep_meaning fst] in Hr. split.
  - apply (f_equal (fun l => nth 4 l 0)) in Hr. exact Hr.
  - apply (f_equal (fun l => nth 3 l 0)) in Hr. cbn [ep_fields app nth] in Hr. rewrite <- Hr.
    unfold bmAttributes. generalize (ep_raw ep). intros raw.
    transitivity (le_value (take 1 (drop 3 raw))); [|reflexivity].
    destruct raw as [|? [|? [|? [|x raw]]]]; [done..|]. cbn [drop take nth]. by rewrite le_value_single.
Qed.

Lemma iso_size_eq big ep e : wMaxPacketSize big ep = word_at 4 (et_raw e) -> bmAttributes ep = nth 3 (et_raw e) 0 ->
  iso_packet_size big ep = tree_iso_size e.
Proof.
  intros Hw Ha. unfold iso_packet_size, tree_iso_size. rewrite Hw, Ha.
  assert (forall z, Z.land z 3 = z mod 4) as H3 by (intros; by apply (Z.land_ones z 2)).
  assert (forall z, Z.land z 2047 = z mod 2048) as H2047 by (intros; by apply (Z.land_ones z 11)).
  rewrite !H3, H2047, Z.shiftr_div_pow2 by lia. change (2 ^ 11) with 2048.
  unfold LIBUSB_TRANSFER_TYPE_ISOCHRONOUS, LIBUSB_TRANSFER_TYPE_INTERRUPT.
  destruct (Z.eqb_spec (nth 3 (et_raw e) 0 mod 4) 1), (Z.eqb_spec (nth 3 (et_raw e) 0 mod 4) 3);
    case_decide; cbn [orb]; (done || tauto).
Qed.

(** From the device to the packet size.  On a device that answers with
    the bytes of a configuration, [libusb_get_max_packet_size] and
    [libusb_get_max_iso_packet_size] fetch the configuration, parse it and
    find the first endpoint with the address, in the order of the
    descriptors; they return its packet size (times the transactions in a
    microframe) or "not found" when there is none, and release all memory. *)
Theorem packet_sizes_of_device {W} (be : desc_backend W) (good : W -> Prop) (Hbe : DescBackendLaws be good) (big : bool)
    (junk : nat -> list Z) (Hjunk : junk_bytes junk) (t : cfg_tree) (address : Z) (s : dstate W)
    (Hok : cfg_ok t) (Hann : announced t) (Hserve : op_serves good (get_active_config_descriptor be) (cfg_bytes t)) (Hheap : plenty (ds_heap s))
    (Hgood : good (ds_world s)) :
  (exists s', libusb_get_max_packet_size be big junk address s
      = Ok (match tree_endpoint t address with
            | None => LIBUSB_ERROR_NOT_FOUND
            | Some e => word_at 4 (et_raw e)
            end, s') /\ live (ds_heap s') = live (ds_heap s)) /\
  (exists s', libusb_get_max_iso_packet_size be big junk address s
      = Ok (match tree_endpoint t address with
            | None => LIBUSB_ERROR_NOT_FOUND
            | Some e => tree_iso_size e
            end, s') /\ live (ds_heap s') = live (ds_heap s)).
Proof.
  assert (forall n, length (junk n) = n) as Hj by apply Hjunk.
  assert (forall n, is_bytes (junk n)) as Hjb by apply Hjunk.
  split.
  - destruct (with_active_config be good big junk Hj Hjb t s address (fun ep => match ep with
      | None => LIBUSB_ERROR_NOT_FOUND | Some ep => wMaxPacketSize big ep end) Hok Hann Hserve Hheap Hgood)
      as (ep & s' & Heq & Hep & Hl).
    exists s'. split; [|done]. etransitivity; [exact Heq|]. do 2 f_equal.
    destruct ep as [ep|], (tree_endpoint t address) as [e|]; try done. apply (read_ep_fields big ep e).
    exact (inj Some _ _ Hep).
  - destruct (with_active_config be good big junk Hj Hjb t s address (fun ep => match ep with
      | None => LIBUSB_ERROR_NOT_FOUND | Some ep => iso_packet_size big ep end) Hok Hann Hserve Hheap Hgood)
      as (ep & s' & Heq & Hep & Hl).
    exists s'. split; [|done]. etransitivity; [exact Heq|]. do 2 f_equal.
    destruct ep as [ep|], (tree_endpoint t address) as [e|]; try done.
    destruct (read_ep_fields big ep e) as [Hw Ha]; [exact (inj Some _ _ Hep)|].
    by apply iso_size_eq.
Qed.

Lemma packet_sizes_of_device_witness :
  tree_endpoint keyboard_tree 129 = Some (mk_et [7;5;129;3;8;0;10] []) /\
  (exists s', libusb_get_max_packet_size (device_of (cfg_bytes keyboard_tree)) false zeros 129 (mk_ds fresh_heap tt)
      = Ok (match tree_endpoint keyboard_tree 129 with
            | None => LIBUSB_ERROR_NOT_FOUND
            | Some e => word_at 4 (et_raw e)
            end, s') /\ live (ds_heap s') = live (ds_heap (mk_ds fresh_heap tt))) /\
  (exists s', libusb_get_max_iso_packet_size (device_of (cfg_bytes keyboard_tree)) false zeros 129 (mk_ds fresh_heap tt)
      = Ok (match tree_endpoint keyboard_tree 129 with
            | None => LIBUSB_ERROR_NOT_FOUND
            | Some e => tree_iso_size e
            end, s') /\ live (ds_heap s') = live (ds_heap (mk_ds fresh_heap tt))).
Proof.
  split; [reflexivity|].
  apply (packet_sizes_of_device (device_of (cfg_bytes keyboard_tree)) (fun _ => True) _ false zeros zeros_bytes keyboard_tree 129
    (mk_ds fresh_heap tt)); [apply keyboard_tree_ok|by vm_compute|by intros w buf he _; eexists|by split|done].
Defined.
