(* ===== verification/Core.v ===== *)
(** * The state of the library (libusbi.h, libusb.h, hotplug.h)

    The structures of the library as records, one library state that holds
    all of them, and the interface to the operating system backend.  An
    object is named by the number of its heap block; an access to an object
    that was released is a [Fault].

    One context is modelled: [dev->ctx] of every device is that context.
    The mutexes are not part of the state: the operations here run without
    interruption, and the protocol that needs interleaving (the event pipe)
    has a step relation of its own. *)

From S2P Require Import Prelude Heap ParseDesc DescApi Bos.

(** [struct timeval] *)
Record timeval : Type := mk_tv {
  tv_sec : Z;
  tv_usec : Z
}.

(** [struct timespec] *)
Record timespec : Type := mk_ts {
  ts_sec : Z;
  ts_nsec : Z
}.

(** [struct libusb_device]; the descriptor is its 18 bytes *)
Record device : Type := mk_device {
  refcnt : Z;
  bus_number : Z;
  port_number : Z;
  parent_dev : option nat;
  device_address : Z;
  num_configurations : Z;
  speed : Z;
  session_data : Z;
  device_descriptor : list Z;
  attached : bool
}.
Definition set_refcnt (v : Z) (r : device) : device :=
  mk_device v (bus_number r) (port_number r) (parent_dev r) (device_address r) (num_configurations r)
    (speed r) (session_data r) (device_descriptor r) (attached r).
Definition set_parent_dev (v : option nat) (r : device) : device :=
  mk_device (refcnt r) (bus_number r) (port_number r) v (device_address r) (num_configurations r)
    (speed r) (session_data r) (device_descriptor r) (attached r).
Definition set_num_configurations (v : Z) (r : device) : device :=
  mk_device (refcnt r) (bus_number r) (port_number r) (parent_dev r) (device_address r) v (speed r)
    (session_data r) (device_descriptor r) (attached r).
Definition set_device_descriptor (v : list Z) (r : device) : device :=
  mk_device (refcnt r) (bus_number r) (port_number r) (parent_dev r) (device_address r)
    (num_configurations r) (speed r) (session_data r) v (attached r).
Definition set_bus_number (v : Z) (r : device) : device :=
  mk_device (refcnt r) v (port_number r) (parent_dev r) (device_address r)
    (num_configurations r) (speed r) (session_data r) (device_descriptor r) (attached r).
Definition set_port_number (v : Z) (r : device) : device :=
  mk_device (refcnt r) (bus_number r) v (parent_dev r) (device_address r)
    (num_configurations r) (speed r) (session_data r) (device_descriptor r) (attached r).
Definition set_device_address (v : Z) (r : device) : device :=
  mk_device (refcnt r) (bus_number r) (port_number r) (parent_dev r) v
    (num_configurations r) (speed r) (session_data r) (device_descriptor r) (attached r).
Definition set_speed (v : Z) (r : device) : device :=
  mk_device (refcnt r) (bus_number r) (port_number r) (parent_dev r) (device_address r)
    (num_configurations r) v (session_data r) (device_descriptor r) (attached r).
Definition set_attached (v : bool) (r : device) : device :=
  mk_device (refcnt r) (bus_number r) (port_number r) (parent_dev r) (device_address r)
    (num_configurations r) (speed r) (session_data r) (device_descriptor r) v.

(** [struct libusb_device_handle] *)
Record device_handle : Type := mk_handle {
  claimed_interfaces : Z;
  h_dev : nat;
  auto_detach_kernel_driver : Z
}.
Definition set_claimed_interfaces (v : Z) (r : device_handle) : device_handle :=
  mk_handle v (h_dev r) (auto_detach_kernel_driver r).
Definition set_auto_detach_kernel_driver (v : Z) (r : device_handle) : device_handle :=
  mk_handle (claimed_interfaces r) (h_dev r) v.

(** [struct libusb_iso_packet_descriptor] *)
Record iso_packet : Type := mk_iso {
  iso_length : Z;
  iso_actual_length : Z;
  iso_status : Z
}.
Definition set_iso_length (v : Z) (r : iso_packet) : iso_packet :=
  mk_iso v (iso_actual_length r) (iso_status r).

(** A transfer callback: the one of the synchronous API, or the number of
    one of the application's. *)
Inductive transfer_cb : Type :=
| SyncTransferCb
| UserCb (n : nat).

(** [struct libusb_transfer] together with the [struct usbi_transfer] in
    front of it: [t_] and [it_] members.  [t_buffer] is the block of the
    buffer and [t_data] its bytes. *)
Record transfer : Type := mk_transfer {
  t_dev_handle : option nat;
  t_flags : Z;
  t_endpoint : Z;
  t_type : Z;
  t_timeout : Z;
  t_status : Z;
  t_length : Z;
  t_actual_length : Z;
  t_callback : option transfer_cb;
  t_user_data : nat;
  t_buffer : option nat;
  t_data : list Z;
  t_num_iso_packets : Z;
  t_iso_packets : list iso_packet;
  it_timeout : timeval;
  it_transferred : Z;
  it_stream_id : Z;
  it_state_flags : Z;
  it_timeout_flags : Z
}.
Definition set_t_dev_handle (v : option nat) (r : transfer) : transfer :=
  mk_transfer v (t_flags r) (t_endpoint r) (t_type r) (t_timeout r) (t_status r) (t_length r)
    (t_actual_length r) (t_callback r) (t_user_data r) (t_buffer r) (t_data r)
    (t_num_iso_packets r) (t_iso_packets r) (it_timeout r) (it_transferred r)
    (it_stream_id r) (it_state_flags r) (it_timeout_flags r).
Definition set_t_flags (v : Z) (r : transfer) : transfer :=
  mk_transfer (t_dev_handle r) v (t_endpoint r) (t_type r) (t_timeout r) (t_status r) (t_length r)
    (t_actual_length r) (t_callback r) (t_user_data r) (t_buffer r) (t_data r)
    (t_num_iso_packets r) (t_iso_packets r) (it_timeout r) (it_transferred r)
    (it_stream_id r) (it_state_flags r) (it_timeout_flags r).
Definition set_t_endpoint (v : Z) (r : transfer) : transfer :=
  mk_transfer (t_dev_handle r) (t_flags r) v (t_type r) (t_timeout r) (t_status r) (t_length r)
    (t_actual_length r) (t_callback r) (t_user_data r) (t_buffer r) (t_data r)
    (t_num_iso_packets r) (t_iso_packets r) (it_timeout r) (it_transferred r)
    (it_stream_id r) (it_state_flags r) (it_timeout_flags r).
Definition set_t_type (v : Z) (r : transfer) : transfer :=
  mk_transfer (t_dev_handle r) (t_flags r) (t_endpoint r) v (t_timeout r) (t_status r) (t_length r)
    (t_actual_length r) (t_callback r) (t_user_data r) (t_buffer r) (t_data r)
    (t_num_iso_packets r) (t_iso_packets r) (it_timeout r) (it_transferred r)
    (it_stream_id r) (it_state_flags r) (it_timeout_flags r).
Definition set_t_timeout (v : Z) (r : transfer) : transfer :=
  mk_transfer (t_dev_handle r) (t_flags r) (t_endpoint r) (t_type r) v (t_status r) (t_length r)
    (t_actual_length r) (t_callback r) (t_user_data r) (t_buffer r) (t_data r)
    (t_num_iso_packets r) (t_iso_packets r) (it_timeout r) (it_transferred r)
    (it_stream_id r) (it_state_flags r) (it_timeout_flags r).
Definition set_t_status (v : Z) (r : transfer) : transfer :=
  mk_transfer (t_dev_handle r) (t_flags r) (t_endpoint r) (t_type r) (t_timeout r) v (t_length r)
    (t_actual_length r) (t_callback r) (t_user_data r) (t_buffer r) (t_data r)
    (t_num_iso_packets r) (t_iso_packets r) (it_timeout r) (it_transferred r)
    (it_stream_id r) (it_state_flags r) (it_timeout_flags r).
Definition set_t_length (v : Z) (r : transfer) : transfer :=
  mk_transfer (t_dev_handle r) (t_flags r) (t_endpoint r) (t_type r) (t_timeout r) (t_status r) v
    (t_actual_length r) (t_callback r) (t_user_data r) (t_buffer r) (t_data r)
    (t_num_iso_packets r) (t_iso_packets r) (it_timeout r) (it_transferred r)
    (it_stream_id r) (it_state_flags r) (it_timeout_flags r).
Definition set_t_actual_length (v : Z) (r : transfer) : transfer :=
  mk_transfer (t_dev_handle r) (t_flags r) (t_endpoint r) (t_type r) (t_timeout r) (t_status r)
    (t_length r) v (t_callback r) (t_user_data r) (t_buffer r) (t_data r)
    (t_num_iso_packets r) (t_iso_packets r) (it_timeout r) (it_transferred r)
    (it_stream_id r) (it_state_flags r) (it_timeout_flags r).
Definition set_t_callback (v : option transfer_cb) (r : transfer) : transfer :=
  mk_transfer (t_dev_handle r) (t_flags r) (t_endpoint r) (t_type r) (t_timeout r) (t_status r)
    (t_length r) (t_actual_length r) v (t_user_data r) (t_buffer r) (t_data r)
    (t_num_iso_packets r) (t_iso_packets r) (it_timeout r) (it_transferred r)
    (it_stream_id r) (it_state_flags r) (it_timeout_flags r).
Definition set_t_user_data (v : nat) (r : transfer) : transfer :=
  mk_transfer (t_dev_handle r) (t_flags r) (t_endpoint r) (t_type r) (t_timeout r) (t_status r)
    (t_length r) (t_actual_length r) (t_callback r) v (t_buffer r) (t_data r)
    (t_num_iso_packets r) (t_iso_packets r) (it_timeout r) (it_transferred r)
    (it_stream_id r) (it_state_flags r) (it_timeout_flags r).
Definition set_t_buffer (v : option nat) (r : transfer) : transfer :=
  mk_transfer (t_dev_handle r) (t_flags r) (t_endpoint r) (t_type r) (t_timeout r) (t_status r)
    (t_length r) (t_actual_length r) (t_callback r) (t_user_data r) v (t_data r)
    (t_num_iso_packets r) (t_iso_packets r) (it_timeout r) (it_transferred r)
    (it_stream_id r) (it_state_flags r) (it_timeout_flags r).
Definition set_t_data (v : list Z) (r : transfer) : transfer :=
  mk_transfer (t_dev_handle r) (t_flags r) (t_endpoint r) (t_type r) (t_timeout r) (t_status r)
    (t_length r) (t_actual_length r) (t_callback r) (t_user_data r) (t_buffer r) v
    (t_num_iso_packets r) (t_iso_packets r) (it_timeout r) (it_transferred r)
    (it_stream_id r) (it_state_flags r) (it_timeout_flags r).
Definition set_t_num_iso_packets (v : Z) (r : transfer) : transfer :=
  mk_transfer (t_dev_handle r) (t_flags r) (t_endpoint r) (t_type r) (t_timeout r) (t_status r)
    (t_length r) (t_actual_length r) (t_callback r) (t_user_data r) (t_buffer r) (t_data r) v
    (t_iso_packets r) (it_timeout r) (it_transferred r) (it_stream_id r) (it_state_flags r)
    (it_timeout_flags r).
Definition set_t_iso_packets (v : list iso_packet) (r : transfer) : transfer :=
  mk_transfer (t_dev_handle r) (t_flags r) (t_endpoint r) (t_type r) (t_timeout r) (t_status r)
    (t_length r) (t_actual_length r) (t_callback r) (t_user_data r) (t_buffer r) (t_data r)
    (t_num_iso_packets r) v (it_timeout r) (it_transferred r) (it_stream_id r)
    (it_state_flags r) (it_timeout_flags r).
Definition set_it_timeout (v : timeval) (r : transfer) : transfer :=
  mk_transfer (t_dev_handle r) (t_flags r) (t_endpoint r) (t_type r) (t_timeout r) (t_status r)
    (t_length r) (t_actual_length r) (t_callback r) (t_user_data r) (t_buffer r) (t_data r)
    (t_num_iso_packets r) (t_iso_packets r) v (it_transferred r) (it_stream_id r)
    (it_state_flags r) (it_timeout_flags r).
Definition set_it_transferred (v : Z) (r : transfer) : transfer :=
  mk_transfer (t_dev_handle r) (t_flags r) (t_endpoint r) (t_type r) (t_timeout r) (t_status r)
    (t_length r) (t_actual_length r) (t_callback r) (t_user_data r) (t_buffer r) (t_data r)
    (t_num_iso_packets r) (t_iso_packets r) (it_timeout r) v (it_stream_id r)
    (it_state_flags r) (it_timeout_flags r).
Definition set_it_stream_id (v : Z) (r : transfer) : transfer :=
  mk_transfer (t_dev_handle r) (t_flags r) (t_endpoint r) (t_type r) (t_timeout r) (t_status r)
    (t_length r) (t_actual_length r) (t_callback r) (t_user_data r) (t_buffer r) (t_data r)
    (t_num_iso_packets r) (t_iso_packets r) (it_timeout r) (it_transferred r) v
    (it_state_flags r) (it_timeout_flags r).
Definition set_it_state_flags (v : Z) (r : transfer) : transfer :=
  mk_transfer (t_dev_handle r) (t_flags r) (t_endpoint r) (t_type r) (t_timeout r) (t_status r)
    (t_length r) (t_actual_length r) (t_callback r) (t_user_data r) (t_buffer r) (t_data r)
    (t_num_iso_packets r) (t_iso_packets r) (it_timeout r) (it_transferred r)
    (it_stream_id r) v (it_timeout_flags r).
Definition set_it_timeout_flags (v : Z) (r : transfer) : transfer :=
  mk_transfer (t_dev_handle r) (t_flags r) (t_endpoint r) (t_type r) (t_timeout r) (t_status r)
    (t_length r) (t_actual_length r) (t_callback r) (t_user_data r) (t_buffer r) (t_data r)
    (t_num_iso_packets r) (t_iso_packets r) (it_timeout r) (it_transferred r)
    (it_stream_id r) (it_state_flags r) v.

(** [struct libusb_hotplug_callback] *)
Record hotplug_callback : Type := mk_cb {
  cb_block : nat;
  cb_vendor_id : Z;
  cb_product_id : Z;
  cb_dev_class : Z;
  cb_events : Z;
  cb_fn : nat;
  cb_handle : Z;
  cb_needs_free : bool
}.
Definition set_cb_needs_free (v : bool) (r : hotplug_callback) : hotplug_callback :=
  mk_cb (cb_block r) (cb_vendor_id r) (cb_product_id r) (cb_dev_class r) (cb_events r) (cb_fn r)
    (cb_handle r) v.

(** [struct libusb_hotplug_message] *)
Record hotplug_message : Type := mk_msg {
  msg_block : nat;
  msg_event : Z;
  msg_device : option nat
}.

(** [struct usbi_pollfd] *)
Record pollfd : Type := mk_pollfd {
  pfd_block : nat;
  pfd_fd : Z;
  pfd_events : Z
}.

(** What [event_data_lock] protects in [struct libusb_context], and the
    number of bytes in the event pipe.  [pollfds] is the array passed to
    [poll]: its block with the descriptors and events. *)
Record event_data : Type := mk_ev {
  event_flags : Z;
  device_close : Z;
  hotplug_msgs : list hotplug_message;
  completed_transfers : list nat;
  ipollfds : list pollfd;
  pollfds_cnt : Z;
  pollfds : option (nat * list (Z * Z));
  pipe_bytes : Z
}.
Definition set_event_flags (v : Z) (r : event_data) : event_data :=
  mk_ev v (device_close r) (hotplug_msgs r) (completed_transfers r) (ipollfds r) (pollfds_cnt r)
    (pollfds r) (pipe_bytes r).
Definition set_device_close (v : Z) (r : event_data) : event_data :=
  mk_ev (event_flags r) v (hotplug_msgs r) (completed_transfers r) (ipollfds r) (pollfds_cnt r)
    (pollfds r) (pipe_bytes r).
Definition set_hotplug_msgs (v : list hotplug_message) (r : event_data) : event_data :=
  mk_ev (event_flags r) (device_close r) v (completed_transfers r) (ipollfds r) (pollfds_cnt r)
    (pollfds r) (pipe_bytes r).
Definition set_completed_transfers (v : list nat) (r : event_data) : event_data :=
  mk_ev (event_flags r) (device_close r) (hotplug_msgs r) v (ipollfds r) (pollfds_cnt r)
    (pollfds r) (pipe_bytes r).
Definition set_ipollfds (v : list pollfd) (r : event_data) : event_data :=
  mk_ev (event_flags r) (device_close r) (hotplug_msgs r) (completed_transfers r) v
    (pollfds_cnt r) (pollfds r) (pipe_bytes r).
Definition set_pollfds_cnt (v : Z) (r : event_data) : event_data :=
  mk_ev (event_flags r) (device_close r) (hotplug_msgs r) (completed_transfers r) (ipollfds r) v
    (pollfds r) (pipe_bytes r).
Definition set_pollfds (v : option (nat * list (Z * Z))) (r : event_data) : event_data :=
  mk_ev (event_flags r) (device_close r) (hotplug_msgs r) (completed_transfers r) (ipollfds r)
    (pollfds_cnt r) v (pipe_bytes r).
Definition set_pipe_bytes (v : Z) (r : event_data) : event_data :=
  mk_ev (event_flags r) (device_close r) (hotplug_msgs r) (completed_transfers r) (ipollfds r)
    (pollfds_cnt r) (pollfds r) v.

(** The library with its context.  [io_ready]: [usbi_io_init] has run, so
    that [hotplug_msgs.next] is not null.  [handling_events] is the thread-local
    key of the running thread; [timerfd] is [None] without a timer file
    descriptor, and holds the time it is armed for otherwise;
    [next_cb_handle] is the static [handle_id] of hotplug.c; [ints] are
    the [int] variables that pointers are taken of;
    [events_locked] is the state of [events_lock]; the notifiers of poll
    descriptors are numbers of functions of the application; [W] is the
    state of the backend, the devices and the clock. *)
Record lib (W : Type) : Type := mk_lib {
  mem : heap;
  devices : gmap nat device;
  handles : gmap nat device_handle;
  transfers : gmap nat transfer;
  usb_devs : list nat;
  open_devs : list nat;
  hotplug_cbs : list hotplug_callback;
  flying_transfers : list nat;
  ev : event_data;
  io_ready : bool;
  handling_events : bool;
  event_handler_active : bool;
  timerfd : option (option timeval);
  next_cb_handle : Z;
  ints : gmap nat Z;
  event_pipe : Z * Z;
  timerfd_fd : Z;
  events_locked : bool;
  fd_added_cb : option nat;
  fd_removed_cb : option nat;
  debug : Z;
  debug_fixed : bool;
  world : W
}.
Arguments mk_lib {W}.
Arguments mem {W}.
Arguments devices {W}.
Arguments handles {W}.
Arguments transfers {W}.
Arguments usb_devs {W}.
Arguments open_devs {W}.
Arguments hotplug_cbs {W}.
Arguments flying_transfers {W}.
Arguments ev {W}.
Arguments io_ready {W}.
Arguments handling_events {W}.
Arguments event_handler_active {W}.
Arguments timerfd {W}.
Arguments next_cb_handle {W}.
Arguments ints {W}.
Arguments event_pipe {W}.
Arguments timerfd_fd {W}.
Arguments events_locked {W}.
Arguments fd_added_cb {W}.
Arguments fd_removed_cb {W}.
Arguments debug {W}.
Arguments debug_fixed {W}.
Arguments world {W}.
Definition set_mem {W} (v : heap) (r : lib W) : lib W :=
  mk_lib v (devices r) (handles r) (transfers r) (usb_devs r) (open_devs r) (hotplug_cbs r)
    (flying_transfers r) (ev r) (io_ready r) (handling_events r) (event_handler_active r)
    (timerfd r) (next_cb_handle r) (ints r) (event_pipe r) (timerfd_fd r) (events_locked r)
    (fd_added_cb r) (fd_removed_cb r) (debug r) (debug_fixed r) (world r).
Definition set_devices {W} (v : gmap nat device) (r : lib W) : lib W :=
  mk_lib (mem r) v (handles r) (transfers r) (usb_devs r) (open_devs r) (hotplug_cbs r)
    (flying_transfers r) (ev r) (io_ready r) (handling_events r) (event_handler_active r)
    (timerfd r) (next_cb_handle r) (ints r) (event_pipe r) (timerfd_fd r) (events_locked r)
    (fd_added_cb r) (fd_removed_cb r) (debug r) (debug_fixed r) (world r).
Definition set_handles {W} (v : gmap nat device_handle) (r : lib W) : lib W :=
  mk_lib (mem r) (devices r) v (transfers r) (usb_devs r) (open_devs r) (hotplug_cbs r)
    (flying_transfers r) (ev r) (io_ready r) (handling_events r) (event_handler_active r)
    (timerfd r) (next_cb_handle r) (ints r) (event_pipe r) (timerfd_fd r) (events_locked r)
    (fd_added_cb r) (fd_removed_cb r) (debug r) (debug_fixed r) (world r).
Definition set_transfers {W} (v : gmap nat transfer) (r : lib W) : lib W :=
  mk_lib (mem r) (devices r) (handles r) v (usb_devs r) (open_devs r) (hotplug_cbs r)
    (flying_transfers r) (ev r) (io_ready r) (handling_events r) (event_handler_active r)
    (timerfd r) (next_cb_handle r) (ints r) (event_pipe r) (timerfd_fd r) (events_locked r)
    (fd_added_cb r) (fd_removed_cb r) (debug r) (debug_fixed r) (world r).
Definition set_usb_devs {W} (v : list nat) (r : lib W) : lib W :=
  mk_lib (mem r) (devices r) (handles r) (transfers r) v (open_devs r) (hotplug_cbs r)
    (flying_transfers r) (ev r) (io_ready r) (handling_events r) (event_handler_active r)
    (timerfd r) (next_cb_handle r) (ints r) (event_pipe r) (timerfd_fd r) (events_locked r)
    (fd_added_cb r) (fd_removed_cb r) (debug r) (debug_fixed r) (world r).
Definition set_open_devs {W} (v : list nat) (r : lib W) : lib W :=
  mk_lib (mem r) (devices r) (handles r) (transfers r) (usb_devs r) v (hotplug_cbs r)
    (flying_transfers r) (ev r) (io_ready r) (handling_events r) (event_handler_active r)
    (timerfd r) (next_cb_handle r) (ints r) (event_pipe r) (timerfd_fd r) (events_locked r)
    (fd_added_cb r) (fd_removed_cb r) (debug r) (debug_fixed r) (world r).
Definition set_hotplug_cbs {W} (v : list hotplug_callback) (r : lib W) : lib W :=
  mk_lib (mem r) (devices r) (handles r) (transfers r) (usb_devs r) (open_devs r) v
    (flying_transfers r) (ev r) (io_ready r) (handling_events r) (event_handler_active r)
    (timerfd r) (next_cb_handle r) (ints r) (event_pipe r) (timerfd_fd r) (events_locked r)
    (fd_added_cb r) (fd_removed_cb r) (debug r) (debug_fixed r) (world r).
Definition set_flying_transfers {W} (v : list nat) (r : lib W) : lib W :=
  mk_lib (mem r) (devices r) (handles r) (transfers r) (usb_devs r) (open_devs r)
    (hotplug_cbs r) v (ev r) (io_ready r) (handling_events r) (event_handler_active r)
    (timerfd r) (next_cb_handle r) (ints r) (event_pipe r) (timerfd_fd r) (events_locked r)
    (fd_added_cb r) (fd_removed_cb r) (debug r) (debug_fixed r) (world r).
Definition set_ev {W} (v : event_data) (r : lib W) : lib W :=
  mk_lib (mem r) (devices r) (handles r) (transfers r) (usb_devs r) (open_devs r) (hotplug_cbs r)
    (flying_transfers r) v (io_ready r) (handling_events r) (event_handler_active r)
    (timerfd r) (next_cb_handle r) (ints r) (event_pipe r) (timerfd_fd r) (events_locked r)
    (fd_added_cb r) (fd_removed_cb r) (debug r) (debug_fixed r) (world r).
Definition set_io_ready {W} (v : bool) (r : lib W) : lib W :=
  mk_lib (mem r) (devices r) (handles r) (transfers r) (usb_devs r) (open_devs r) (hotplug_cbs r)
    (flying_transfers r) (ev r) v (handling_events r) (event_handler_active r) (timerfd r)
    (next_cb_handle r) (ints r) (event_pipe r) (timerfd_fd r) (events_locked r)
    (fd_added_cb r) (fd_removed_cb r) (debug r) (debug_fixed r) (world r).
Definition set_handling_events {W} (v : bool) (r : lib W) : lib W :=
  mk_lib (mem r) (devices r) (handles r) (transfers r) (usb_devs r) (open_devs r) (hotplug_cbs r)
    (flying_transfers r) (ev r) (io_ready r) v (event_handler_active r) (timerfd r)
    (next_cb_handle r) (ints r) (event_pipe r) (timerfd_fd r) (events_locked r)
    (fd_added_cb r) (fd_removed_cb r) (debug r) (debug_fixed r) (world r).
Definition set_event_handler_active {W} (v : bool) (r : lib W) : lib W :=
  mk_lib (mem r) (devices r) (handles r) (transfers r) (usb_devs r) (open_devs r) (hotplug_cbs r)
    (flying_transfers r) (ev r) (io_ready r) (handling_events r) v (timerfd r)
    (next_cb_handle r) (ints r) (event_pipe r) (timerfd_fd r) (events_locked r)
    (fd_added_cb r) (fd_removed_cb r) (debug r) (debug_fixed r) (world r).
Definition set_timerfd {W} (v : option (option timeval)) (r : lib W) : lib W :=
  mk_lib (mem r) (devices r) (handles r) (transfers r) (usb_devs r) (open_devs r) (hotplug_cbs r)
    (flying_transfers r) (ev r) (io_ready r) (handling_events r) (event_handler_active r) v
    (next_cb_handle r) (ints r) (event_pipe r) (timerfd_fd r) (events_locked r)
    (fd_added_cb r) (fd_removed_cb r) (debug r) (debug_fixed r) (world r).
Definition set_next_cb_handle {W} (v : Z) (r : lib W) : lib W :=
  mk_lib (mem r) (devices r) (handles r) (transfers r) (usb_devs r) (open_devs r) (hotplug_cbs r)
    (flying_transfers r) (ev r) (io_ready r) (handling_events r) (event_handler_active r)
    (timerfd r) v (ints r) (event_pipe r) (timerfd_fd r) (events_locked r) (fd_added_cb r)
    (fd_removed_cb r) (debug r) (debug_fixed r) (world r).
Definition set_ints {W} (v : gmap nat Z) (r : lib W) : lib W :=
  mk_lib (mem r) (devices r) (handles r) (transfers r) (usb_devs r) (open_devs r) (hotplug_cbs r)
    (flying_transfers r) (ev r) (io_ready r) (handling_events r) (event_handler_active r)
    (timerfd r) (next_cb_handle r) v (event_pipe r) (timerfd_fd r) (events_locked r)
    (fd_added_cb r) (fd_removed_cb r) (debug r) (debug_fixed r) (world r).
Definition set_event_pipe {W} (v : Z * Z) (r : lib W) : lib W :=
  mk_lib (mem r) (devices r) (handles r) (transfers r) (usb_devs r) (open_devs r) (hotplug_cbs r)
    (flying_transfers r) (ev r) (io_ready r) (handling_events r) (event_handler_active r)
    (timerfd r) (next_cb_handle r) (ints r) v (timerfd_fd r) (events_locked r)
    (fd_added_cb r) (fd_removed_cb r) (debug r) (debug_fixed r) (world r).
Definition set_timerfd_fd {W} (v : Z) (r : lib W) : lib W :=
  mk_lib (mem r) (devices r) (handles r) (transfers r) (usb_devs r) (open_devs r) (hotplug_cbs r)
    (flying_transfers r) (ev r) (io_ready r) (handling_events r) (event_handler_active r)
    (timerfd r) (next_cb_handle r) (ints r) (event_pipe r) v (events_locked r)
    (fd_added_cb r) (fd_removed_cb r) (debug r) (debug_fixed r) (world r).
Definition set_events_locked {W} (v : bool) (r : lib W) : lib W :=
  mk_lib (mem r) (devices r) (handles r) (transfers r) (usb_devs r) (open_devs r) (hotplug_cbs r)
    (flying_transfers r) (ev r) (io_ready r) (handling_events r) (event_handler_active r)
    (timerfd r) (next_cb_handle r) (ints r) (event_pipe r) (timerfd_fd r) v (fd_added_cb r)
    (fd_removed_cb r) (debug r) (debug_fixed r) (world r).
Definition set_fd_added_cb {W} (v : option nat) (r : lib W) : lib W :=
  mk_lib (mem r) (devices r) (handles r) (transfers r) (usb_devs r) (open_devs r) (hotplug_cbs r)
    (flying_transfers r) (ev r) (io_ready r) (handling_events r) (event_handler_active r)
    (timerfd r) (next_cb_handle r) (ints r) (event_pipe r) (timerfd_fd r) (events_locked r) v
    (fd_removed_cb r) (debug r) (debug_fixed r) (world r).
Definition set_fd_removed_cb {W} (v : option nat) (r : lib W) : lib W :=
  mk_lib (mem r) (devices r) (handles r) (transfers r) (usb_devs r) (open_devs r) (hotplug_cbs r)
    (flying_transfers r) (ev r) (io_ready r) (handling_events r) (event_handler_active r)
    (timerfd r) (next_cb_handle r) (ints r) (event_pipe r) (timerfd_fd r) (events_locked r)
    (fd_added_cb r) v (debug r) (debug_fixed r) (world r).
Definition set_debug {W} (v : Z) (r : lib W) : lib W :=
  mk_lib (mem r) (devices r) (handles r) (transfers r) (usb_devs r) (open_devs r) (hotplug_cbs r)
    (flying_transfers r) (ev r) (io_ready r) (handling_events r) (event_handler_active r)
    (timerfd r) (next_cb_handle r) (ints r) (event_pipe r) (timerfd_fd r) (events_locked r)
    (fd_added_cb r) (fd_removed_cb r) v (debug_fixed r) (world r).
Definition set_debug_fixed {W} (v : bool) (r : lib W) : lib W :=
  mk_lib (mem r) (devices r) (handles r) (transfers r) (usb_devs r) (open_devs r) (hotplug_cbs r)
    (flying_transfers r) (ev r) (io_ready r) (handling_events r) (event_handler_active r)
    (timerfd r) (next_cb_handle r) (ints r) (event_pipe r) (timerfd_fd r) (events_locked r)
    (fd_added_cb r) (fd_removed_cb r) (debug r) v (world r).
Definition set_world {W} (v : W) (r : lib W) : lib W :=
  mk_lib (mem r) (devices r) (handles r) (transfers r) (usb_devs r) (open_devs r) (hotplug_cbs r)
    (flying_transfers r) (ev r) (io_ready r) (handling_events r) (event_handler_active r)
    (timerfd r) (next_cb_handle r) (ints r) (event_pipe r) (timerfd_fd r) (events_locked r)
    (fd_added_cb r) (fd_removed_cb r) (debug r) (debug_fixed r) v.

(** ** The event pipe *)

(** A read from the empty pipe blocks for ever; a write to the full one
    fails, the write end being non-blocking (os/poll_posix.c). *)
Definition PIPE_CAPACITY : Z := 65536.

Definition USBI_EVENT_POLLFDS_MODIFIED : Z := 1.
Definition USBI_EVENT_USER_INTERRUPT : Z := 2.

(** The macro [usbi_pending_events]. *)
Definition usbi_pending_events (e : event_data) : bool :=
  negb (event_flags e =? 0) || negb (device_close e =? 0) ||
  match hotplug_msgs e with [] => false | _ => true end ||
  match completed_transfers e with [] => false | _ => true end.

(** ** Capabilities *)

Definition USBI_CAP_HAS_HID_ACCESS : Z := 65536.
Definition USBI_CAP_SUPPORTS_DETACH_KERNEL_DRIVER : Z := 131072.
Definition LIBUSB_CAP_HAS_CAPABILITY : Z := 0.
Definition LIBUSB_CAP_HAS_HOTPLUG : Z := 1.
Definition LIBUSB_CAP_HAS_HID_ACCESS : Z := 256.
Definition LIBUSB_CAP_SUPPORTS_DETACH_KERNEL_DRIVER : Z := 257.

(** [struct discovered_devs]: its block, its capacity and the devices. *)
Record discovered_devs : Type := mk_disc {
  dd_block : nat;
  dd_capacity : Z;
  dd_devices : list nat
}.

Section lib_monad.
Context {W : Type}.

Definition Lib (A : Type) : Type := M (lib W) A.

Definition on_mem {A} (m : M heap A) : Lib A := fun s =>
  match m (mem s) with
  | Ok (a, h) => Ok (a, set_mem h s)
  | Fault f => Fault f
  end.

Definition backend_op {A} (op : W -> A * W) : Lib A := fun s =>
  let '(a, w) := op (world s) in Ok (a, set_world w s).

(** Computations of the backend on its own state, and those of DescApi.v. *)
Definition on_world {A} (m : M W A) : Lib A := fun s =>
  match m (world s) with
  | Ok (a, w) => Ok (a, set_world w s)
  | Fault f => Fault f
  end.
Definition on_dstate {A} (m : M (dstate W) A) : Lib A := fun s =>
  match m (mk_ds (mem s) (world s)) with
  | Ok (a, d) => Ok (a, set_world (ds_world d) (set_mem (ds_heap d) s))
  | Fault f => Fault f
  end.

(** Access through a pointer to an object. *)
Definition lookup_obj {A} (tbl : lib W -> gmap nat A) (p : nat) : Lib A := fun s =>
  match tbl s !! p with
  | Some x => Ok (x, s)
  | None => Fault UseAfterFree
  end.
Definition get_device (d : nat) : Lib device := lookup_obj devices d.
Definition get_handle (h : nat) : Lib device_handle := lookup_obj handles h.
Definition get_transfer (t : nat) : Lib transfer := lookup_obj transfers t.

Definition put_device (d : nat) (x : device) : Lib unit := modify (fun s => set_devices (<[d := x]> (devices s)) s).
Definition put_handle (h : nat) (x : device_handle) : Lib unit := modify (fun s => set_handles (<[h := x]> (handles s)) s).
Definition put_transfer (t : nat) (x : transfer) : Lib unit := modify (fun s => set_transfers (<[t := x]> (transfers s)) s).
Definition upd_device (d : nat) (f : device -> device) : Lib unit :=
  x ← get_device d; put_device d (f x).
Definition upd_transfer (t : nat) (f : transfer -> transfer) : Lib unit :=
  x ← get_transfer t; put_transfer t (f x).

Definition put_ev (e : event_data) : Lib unit := modify (set_ev e).

(** [list_del]: an entry that is in no list has null links. *)
Definition list_del (p : nat) (l : list nat) : outcome (list nat) :=
  if decide (p ∈ l) then Ok (filter (fun q => q <> p) l) else Fault NullDeref.

(** [usbi_signal_event] and [usbi_clear_event] *)
Definition usbi_signal_event : Lib Z :=
  e ← gets ev;
  if pipe_bytes e <? PIPE_CAPACITY
  then put_ev (set_pipe_bytes (pipe_bytes e + 1) e) ;; mret 0
  else mret LIBUSB_ERROR_IO.

Definition usbi_clear_event : Lib Z :=
  e ← gets ev;
  if 0 <? pipe_bytes e
  then put_ev (set_pipe_bytes (pipe_bytes e - 1) e) ;; mret 0
  else fail Blocked.

(** The pattern "record an event, and signal it only if there are no prior
    pending events". *)
Definition record_event (f : event_data -> event_data) : Lib unit :=
  e ← gets ev;
  put_ev (f e) ;;
  if usbi_pending_events e then mret tt else usbi_signal_event ;; mret tt.
End lib_monad.
Arguments Lib : clear implicits.

(** ** [struct usbi_os_backend] *)

(** What [poll] returns: the code, whether [errno] is [EINTR], and the
    [revents] of the descriptors. *)
Record poll_result : Type := mk_poll {
  poll_code : Z;
  poll_eintr : bool;
  poll_revents : list Z
}.

(** Operations on handles and transfers act on the whole state, because a
    backend reads the objects of the library and calls back into it; the
    others only concern the backend and the hardware, and act on [W].  The last
    ones are calls of the system: [os_poll] is told whether the event pipe
    can be read, and [os_cond_wait] returns 1 when the time ran out. *)
Record os_backend (W : Type) : Type := mk_backend {
  be_caps : Z;
  be_init : option (Lib W Z);
  be_exit : option (Lib W unit);
  be_get_device_list : option (discovered_devs -> Lib W (Z * option discovered_devs));
  be_hotplug_poll : option (Lib W unit);
  be_destroy_device : option (nat -> W -> unit * W);
  be_open : nat -> Lib W Z;
  be_close : nat -> Lib W unit;
  be_get_configuration : option (nat -> Z -> Lib W (Z * Z));
  be_set_configuration : nat -> Z -> Lib W Z;
  be_claim_interface : nat -> Z -> Lib W Z;
  be_release_interface : nat -> Z -> Lib W Z;
  be_set_interface_altsetting : nat -> Z -> Z -> Lib W Z;
  be_clear_halt : nat -> Z -> Lib W Z;
  be_reset_device : nat -> Lib W Z;
  be_alloc_streams : option (nat -> Z -> list Z -> Z -> Lib W Z);
  be_free_streams : option (nat -> list Z -> Z -> Lib W Z);
  be_dev_mem_alloc : option (nat -> Z -> Lib W (option nat));
  be_dev_mem_free : option (nat -> nat -> Z -> Lib W Z);
  be_kernel_driver_active : option (nat -> Z -> Lib W Z);
  be_detach_kernel_driver : option (nat -> Z -> Lib W Z);
  be_attach_kernel_driver : option (nat -> Z -> Lib W Z);
  be_submit_transfer : nat -> Lib W Z;
  be_cancel_transfer : nat -> Lib W Z;
  be_clear_transfer_priv : nat -> Lib W unit;
  be_handle_events : list (Z * Z) -> Z -> Lib W Z;
  be_handle_transfer_completion : nat -> Lib W Z;
  be_clock_gettime : W -> (Z * timespec) * W;
  os_mutex_init : W -> Z * W;
  os_timerfd_settime : option timeval -> W -> Z * W;
  os_timerfd_create : W -> Z * W;
  os_pipe : W -> (Z * (Z * Z)) * W;
  os_close : Z -> W -> unit * W;
  os_poll : list (Z * Z) -> Z -> bool -> W -> poll_result * W;
  os_cond_wait : option timeval -> W -> Z * W
}.
Arguments be_caps {W}.
Arguments be_init {W}.
Arguments be_exit {W}.
Arguments be_get_device_list {W}.
Arguments be_hotplug_poll {W}.
Arguments be_destroy_device {W}.
Arguments be_open {W}.
Arguments be_close {W}.
Arguments be_get_configuration {W}.
Arguments be_set_configuration {W}.
Arguments be_claim_interface {W}.
Arguments be_release_interface {W}.
Arguments be_set_interface_altsetting {W}.
Arguments be_clear_halt {W}.
Arguments be_reset_device {W}.
Arguments be_alloc_streams {W}.
Arguments be_free_streams {W}.
Arguments be_dev_mem_alloc {W}.
Arguments be_dev_mem_free {W}.
Arguments be_kernel_driver_active {W}.
Arguments be_detach_kernel_driver {W}.
Arguments be_attach_kernel_driver {W}.
Arguments be_submit_transfer {W}.
Arguments be_cancel_transfer {W}.
Arguments be_clear_transfer_priv {W}.
Arguments be_handle_events {W}.
Arguments be_handle_transfer_completion {W}.
Arguments be_clock_gettime {W}.
Arguments os_mutex_init {W}.
Arguments os_timerfd_settime {W}.
Arguments os_timerfd_create {W}.
Arguments os_pipe {W}.
Arguments os_close {W}.
Arguments os_poll {W}.
Arguments os_cond_wait {W}.

(** [libusb_has_capability] (core.c) *)
Definition libusb_has_capability {W} (be : os_backend W) (capability : Z) : Z :=
  if capability =? LIBUSB_CAP_HAS_CAPABILITY then 1
  else if capability =? LIBUSB_CAP_HAS_HOTPLUG then
    match be_get_device_list be with None => 1 | Some _ => 0 end
  else if capability =? LIBUSB_CAP_HAS_HID_ACCESS then Z.land (be_caps be) USBI_CAP_HAS_HID_ACCESS
  else if capability =? LIBUSB_CAP_SUPPORTS_DETACH_KERNEL_DRIVER then
    Z.land (be_caps be) USBI_CAP_SUPPORTS_DETACH_KERNEL_DRIVER
  else 0.

Definition has_hotplug {W} (be : os_backend W) : bool :=
  negb (libusb_has_capability be LIBUSB_CAP_HAS_HOTPLUG =? 0).

Lemma filter_ne_id (l : list nat) d : d ∉ l -> filter (fun q => q <> d) l = l.
Proof.
  induction l as [|a l IH]; intros Hd; [done|]. rewrite filter_cons_True by set_solver.
  rewrite IH; [done|set_solver].
Qed.

(** ** The state monad at work *)

Section lib_wp.
Context {W : Type}.
Implicit Types (s : lib W).

Lemma wp_get_device d x s (Q : device -> lib W -> Prop) :
  devices s !! d = Some x -> Q x s -> wp (get_device d) s Q.
Proof. intros Hd HQ. unfold wp, get_device, lookup_obj. by rewrite Hd. Qed.

Lemma wp_put_device d x s (Q : unit -> lib W -> Prop) :
  Q tt (set_devices (<[d := x]> (devices s)) s) -> wp (put_device d x) s Q.
Proof. done. Qed.

Lemma wp_on_mem {A} (m : M heap A) s Q :
  wp m (mem s) (fun a h => Q a (set_mem h s)) -> wp (on_mem m) s Q.
Proof. unfold wp, on_mem. destruct (m (mem s)) as [[a h]|]; done. Qed.

Lemma wp_backend_op {A} (op : W -> A * W) s Q :
  (forall a w, op (world s) = (a, w) -> Q a (set_world w s)) -> wp (backend_op op) s Q.
Proof. unfold wp, backend_op. intros HQ. destruct (op (world s)) as [a w] eqn:Hop. by apply HQ. Qed.
End lib_wp.
