(* ===== verification/Devices.v ===== *)
(** * Devices and their references (core.c, hotplug.c)

    The reference counts with the parent chain, the list of known devices,
    discovery, and the accessors. *)

From S2P Require Import Prelude Heap ParseDesc DescApi Core.

Definition LIBUSB_SPEED_UNKNOWN : Z := 0.
Definition LIBUSB_HOTPLUG_EVENT_DEVICE_ARRIVED : Z := 1.
Definition LIBUSB_HOTPLUG_EVENT_DEVICE_LEFT : Z := 2.
Definition DISCOVERED_DEVICES_SIZE_STEP : Z := 8.

Section devices.
Context {W : Type} (be : os_backend W).

(** [usbi_hotplug_notification] (hotplug.c): a null device is [None]. *)
Definition usbi_hotplug_notification (dev : option nat) (event : Z) : Lib W unit :=
  message ← on_mem malloc;
  match message with
  | None => mret tt
  | Some b => record_event (fun e => set_hotplug_msgs (hotplug_msgs e ++ [mk_msg b event dev]) e)
  end.

Definition usbi_connect_device (dev : nat) : Lib W unit :=
  x ← get_device dev;
  put_device dev (set_attached true x) ;;
  modify (fun s => set_usb_devs (dev :: usb_devs s) s) ;;
  ready ← gets io_ready;
  if has_hotplug be && ready
  then usbi_hotplug_notification (Some dev) LIBUSB_HOTPLUG_EVENT_DEVICE_ARRIVED
  else mret tt.

Definition usbi_disconnect_device (dev : nat) : Lib W unit :=
  x ← get_device dev;
  put_device dev (set_attached false x) ;;
  l ← gets usb_devs;
  l ← lift (list_del dev l);
  modify (set_usb_devs l) ;;
  ready ← gets io_ready;
  if has_hotplug be && ready
  then usbi_hotplug_notification (Some dev) LIBUSB_HOTPLUG_EVENT_DEVICE_LEFT
  else mret tt.

Definition libusb_ref_device (dev : nat) : Lib W nat :=
  x ← get_device dev;
  put_device dev (set_refcnt (refcnt x + 1) x) ;;
  mret dev.

(** [free(dev)] *)
Definition free_device (dev : nat) : Lib W unit :=
  on_mem (free (Some dev)) ;;
  modify (fun s => set_devices (delete dev (devices s)) s).

(** [libusb_unref_device] calls itself on the parent. *)
Fixpoint unref_device (fuel : nat) (dev : option nat) : Lib W unit :=
  match dev with
  | None => mret tt
  | Some d =>
      match fuel with
      | O => fail OutOfFuel
      | S fuel =>
          x ← get_device d;
          let n := refcnt x - 1 in
          put_device d (set_refcnt n x) ;;
          if n =? 0 then
            unref_device fuel (parent_dev x) ;;
            (match be_destroy_device be with
             | Some destroy => backend_op (destroy d)
             | None => mret tt
             end) ;;
            (if has_hotplug be then mret tt else usbi_disconnect_device d) ;;
            free_device d
          else mret tt
      end
  end.

(** The recursion visits a device at most once, so the number of devices is
    enough fuel. *)
Definition libusb_unref_device (dev : option nat) : Lib W unit :=
  n ← gets (fun s => size (devices s));
  unref_device (S n) dev.

Definition usbi_alloc_device (session_id : Z) : Lib W (option nat) :=
  dev ← on_mem malloc;
  match dev with
  | None => mret None
  | Some d =>
      r ← backend_op (os_mutex_init be);
      if negb (r =? 0) then on_mem (free (Some d)) ;; mret None else
      put_device d (mk_device 1 0 0 None 0 0 LIBUSB_SPEED_UNKNOWN session_id (replicate 18 0) false) ;;
      (if has_hotplug be then mret tt else usbi_connect_device d) ;;
      mret (Some d)
  end.

(** The loop of [usbi_get_device_by_session_id] over the list of devices. *)
Fixpoint find_session (session_id : Z) (l : list nat) : Lib W (option nat) :=
  match l with
  | [] => mret None
  | d :: l =>
      x ← get_device d;
      if session_data x =? session_id then (d ← libusb_ref_device d; mret (Some d))
      else find_session session_id l
  end.
Definition usbi_get_device_by_session_id (session_id : Z) : Lib W (option nat) :=
  l ← gets usb_devs;
  find_session session_id l.

(** ** Discovery *)

Definition discovered_devs_alloc : Lib W (option discovered_devs) :=
  p ← on_mem malloc;
  mret (match p with
        | Some b => Some (mk_disc b DISCOVERED_DEVICES_SIZE_STEP [])
        | None => None
        end).

Definition discovered_devs_free (discdevs : discovered_devs) : Lib W unit :=
  for_each (fun d => libusb_unref_device (Some d)) (dd_devices discdevs) ;;
  on_mem (free (Some (dd_block discdevs))).

Definition discovered_devs_append (discdevs : discovered_devs) (dev : nat)
    : Lib W (option discovered_devs) :=
  if Z.of_nat (length (dd_devices discdevs)) <? dd_capacity discdevs then
    d ← libusb_ref_device dev;
    mret (Some (mk_disc (dd_block discdevs) (dd_capacity discdevs) (dd_devices discdevs ++ [d])))
  else
    let capacity := dd_capacity discdevs + DISCOVERED_DEVICES_SIZE_STEP in
    p ← on_mem (realloc (Some (dd_block discdevs)));
    match p with
    | None => discovered_devs_free discdevs ;; mret None
    | Some b =>
        d ← libusb_ref_device dev;
        mret (Some (mk_disc b capacity (dd_devices discdevs ++ [d])))
    end.

(** The loop over [ctx->usb_devs]. *)
Fixpoint append_all (discdevs : discovered_devs) (l : list nat) : Lib W (option discovered_devs) :=
  match l with
  | [] => mret (Some discdevs)
  | d :: l =>
      r ← discovered_devs_append discdevs d;
      match r with
      | None => mret None
      | Some discdevs => append_all discdevs l
      end
  end.

(** The result list: its block and its devices; the code is the length. *)
Definition device_list : Type := nat * list nat.

(** The end of [libusb_get_device_list], from [if (r < 0)] on. *)
Definition make_device_list (r : Z) (discdevs : option discovered_devs)
    : Lib W (Z * option device_list) :=
  res ← (if r <? 0 then mret (r, None) else
    match discdevs with
    | None => fail NullDeref
    | Some disc =>
        ret ← on_mem malloc;
        match ret with
        | None => mret (LIBUSB_ERROR_NO_MEM, None)
        | Some b =>
            for_each (fun d => libusb_ref_device d ;; mret tt) (dd_devices disc) ;;
            mret (Z.of_nat (length (dd_devices disc)), Some (b, dd_devices disc))
        end
    end);
  (match discdevs with
   | Some disc => discovered_devs_free disc
   | None => mret tt
   end) ;;
  mret res.

Definition libusb_get_device_list : Lib W (Z * option device_list) :=
  discdevs ← discovered_devs_alloc;
  match discdevs with
  | None => mret (LIBUSB_ERROR_NO_MEM, None)
  | Some disc =>
      match be_get_device_list be with
      | None =>
          (match be_hotplug_poll be with Some poll => poll | None => mret tt end) ;;
          l ← gets usb_devs;
          r ← append_all disc l;
          make_device_list (match r with Some _ => 0 | None => LIBUSB_ERROR_NO_MEM end) r
      | Some get_device_list =>
          '(r, discdevs) ← get_device_list disc;
          make_device_list r discdevs
      end
  end.

Definition libusb_free_device_list (list : option device_list) (unref_devices : bool) : Lib W unit :=
  match list with
  | None => mret tt
  | Some (b, devs) =>
      (if unref_devices then for_each (fun d => libusb_unref_device (Some d)) devs else mret tt) ;;
      on_mem (free (Some b))
  end.

(** ** Accessors *)

Definition libusb_get_bus_number (dev : nat) : Lib W Z := x ← get_device dev; mret (bus_number x).
Definition libusb_get_port_number (dev : nat) : Lib W Z := x ← get_device dev; mret (port_number x).
Definition libusb_get_parent (dev : nat) : Lib W (option nat) := x ← get_device dev; mret (parent_dev x).
Definition libusb_get_device_address (dev : nat) : Lib W Z := x ← get_device dev; mret (device_address x).
Definition libusb_get_device_speed (dev : nat) : Lib W Z := x ← get_device dev; mret (speed x).

(** The loop of [libusb_get_port_numbers], from the leaf to the root: the
    array is filled from its end; [i] is the index of the C code. *)
Fixpoint port_numbers_loop (i : nat) (dev : option nat) (port_numbers : list Z) : Lib W (Z * nat * list Z) :=
  match dev with
  | None => mret (0, i, port_numbers)
  | Some d =>
      x ← get_device d;
      if port_number x =? 0 then mret (0, i, port_numbers)
      else match i with
           | O => mret (LIBUSB_ERROR_OVERFLOW, O, port_numbers)
           | S i =>
               p ← lift (store port_numbers i [port_number x]);
               port_numbers_loop i (parent_dev x) p
           end
  end.

Definition libusb_get_port_numbers (dev : nat) (port_numbers : list Z) (port_numbers_len : Z)
    : Lib W (Z * list Z) :=
  if port_numbers_len <=? 0 then mret (LIBUSB_ERROR_INVALID_PARAM, port_numbers) else
  let len := Z.to_nat port_numbers_len in
  '(r, i, p) ← port_numbers_loop len (Some dev) port_numbers;
  if r <? 0 then mret (r, p)
  else
    p ← lift (if (i <? len)%nat
              then bs ← rd_n (drop i p) (len - i); store p 0 bs
              else mret p);
    mret (Z.of_nat (len - i), p).

Definition libusb_get_port_path (dev : nat) (port_numbers : list Z) (port_numbers_len : Z)
    : Lib W (Z * list Z) :=
  libusb_get_port_numbers dev port_numbers port_numbers_len.
End devices.
