(* ===== verification/DeviceRefs.v ===== *)
(** * Reference counting is sound

    The invariant that ties the reference count of every device to the
    references that exist: those of the clients and the parent pointers of
    the devices.  Taking and dropping references keeps it, so that no device
    is released while it is referenced and every unreferenced device is. *)

From S2P Require Import Prelude Heap ParseDesc DescApi Core Devices.

(** The references that the devices hold on their parents. *)
Definition parent_refs (m : gmap nat device) : gmultiset nat :=
  map_sum (fun _ x => own (parent_dev x)) m.

(** [E] are the references of the clients: handles, device lists, backend,
    transfers and the application. *)
Definition refs_ok (m : gmap nat device) (E : gmultiset nat) : Prop :=
  (forall d x, m !! d = Some x ->
     refcnt x = Z.of_nat (multiplicity d (E ⊎ parent_refs m)) /\ 0 < refcnt x) /\
  (forall d, d ∈ E ⊎ parent_refs m -> is_Some (m !! d)) /\
  (exists rank : nat -> nat, forall d x p, m !! d = Some x -> parent_dev x = Some p -> (rank p < rank d)%nat).

(** A backend without hotplug support keeps every device connected. *)
Definition connected {W} (be : os_backend W) (s : lib W) : Prop :=
  has_hotplug be = false -> forall d, is_Some (devices s !! d) -> d ∈ usb_devs s.

(** [F]: the blocks that are not devices. *)
Definition devices_ok {W} (be : os_backend W) (F E : gmultiset nat) (s : lib W) : Prop :=
  refs_ok (devices s) E /\ live (mem s) = blocks (devices s) ⊎ F /\ connected be s.

(** What taking and dropping references leaves alone. *)
Definition same_rest {W} (be : os_backend W) (s s' : lib W) : Prop :=
  s' = set_world (world s') (set_mem (mem s') (set_usb_devs (usb_devs s') (set_devices (devices s') s))) /\
  same_oracles (mem s) (mem s') /\ usb_devs s' ⊆ usb_devs s /\
  (has_hotplug be = true -> usb_devs s' = usb_devs s).

#[export] Instance same_rest_refl {W} (be : os_backend W) : Reflexive (same_rest be).
Proof. intros s. split; [by destruct s|done]. Qed.
#[export] Instance same_rest_trans {W} (be : os_backend W) : Transitive (same_rest be).
Proof.
  intros x y z (Hy & Ho1 & Hu1 & Hh1) (Hz & Ho2 & Hu2 & Hh2). split_and!; [|by etrans|by etrans|].
  2:{ intros Hhot. by rewrite Hh2, Hh1. }
  rewrite Hz. rewrite Hy. by destruct x, y, z.
Qed.

(** The survivors keep everything but their count. *)
Definition only_counts (m m' : gmap nat device) : Prop :=
  forall d x', m' !! d = Some x' -> exists x, m !! d = Some x /\ x' = set_refcnt (refcnt x') x.

Lemma only_counts_refl m : only_counts m m.
Proof. intros d [] Hd. eauto. Qed.
Lemma only_counts_trans m1 m2 m3 : only_counts m1 m2 -> only_counts m2 m3 -> only_counts m1 m3.
Proof.
  intros H12 H23 d x3 Hd. destruct (H23 d x3 Hd) as (x2 & Hx2 & ->).
  destruct (H12 d x2 Hx2) as (x1 & Hx1 & Heq). exists x1. split; [done|]. rewrite Heq. done.
Qed.

(** ** The counts *)

Lemma parent_refs_update m d x n :
  m !! d = Some x -> parent_refs (<[d := set_refcnt n x]> m) = parent_refs m.
Proof. intros Hd. by apply (map_sum_update _ m d x). Qed.

Lemma refs_incr m E d x :
  refs_ok m E -> m !! d = Some x ->
  refs_ok (<[d := set_refcnt (refcnt x + 1) x]> m) ({[+ d +]} ⊎ E).
Proof.
  intros (Hc & He & rank & Hr) Hd. split; [|split].
  - intros k y Hk. rewrite (parent_refs_update m d x) by done.
    rewrite <- (assoc_L (⊎)), multiplicity_disj_union.
    destruct (decide (k = d)) as [->|Hne].
    + rewrite lookup_insert_eq in Hk. simplify_eq/=. destruct (Hc d x Hd).
      rewrite multiplicity_singleton_eq. lia.
    + rewrite lookup_insert_ne in Hk by done. rewrite multiplicity_singleton_ne by done. by apply Hc.
  - intros k Hk. rewrite (parent_refs_update m d x) in Hk by done. rewrite lookup_insert_is_Some.
    destruct (decide (d = k)); [by left|]. right. split; [done|]. apply He. multiset_solver.
  - exists rank. intros k y p Hk Hp. destruct (decide (k = d)) as [->|Hne].
    + rewrite lookup_insert_eq in Hk. simplify_eq/=. by apply (Hr d x).
    + rewrite lookup_insert_ne in Hk by done. by apply (Hr k y).
Qed.

Lemma refs_decr m E d x :
  refs_ok m ({[+ d +]} ⊎ E) -> m !! d = Some x -> refcnt x - 1 <> 0 ->
  refs_ok (<[d := set_refcnt (refcnt x - 1) x]> m) E.
Proof.
  intros (Hc & He & rank & Hr) Hd Hn. split; [|split].
  - intros k y Hk. rewrite (parent_refs_update m d x) by done.
    destruct (decide (k = d)) as [->|Hne].
    + rewrite lookup_insert_eq in Hk. simplify_eq/=. destruct (Hc d x Hd) as [Heq Hpos].
      rewrite <- (assoc_L (⊎)), multiplicity_disj_union, multiplicity_singleton_eq in Heq. lia.
    + rewrite lookup_insert_ne in Hk by done. destruct (Hc k y Hk) as [Heq Hpos].
      rewrite <- (assoc_L (⊎)), multiplicity_disj_union, multiplicity_singleton_ne in Heq by done.
      split; [|done]. rewrite Heq. lia.
  - intros k Hk. rewrite (parent_refs_update m d x) in Hk by done. rewrite lookup_insert_is_Some.
    destruct (decide (d = k)); [by left|]. right. split; [done|]. apply He. multiset_solver.
  - exists rank. intros k y p Hk Hp. destruct (decide (k = d)) as [->|Hne].
    + rewrite lookup_insert_eq in Hk. simplify_eq/=. by apply (Hr d x).
    + rewrite lookup_insert_ne in Hk by done. by apply (Hr k y).
Qed.

(** A new device with the one reference of its creator. *)
Lemma refs_new m E d x :
  refs_ok m E -> m !! d = None -> refcnt x = 1 -> parent_dev x = None ->
  refs_ok (<[d := x]> m) ({[+ d +]} ⊎ E).
Proof.
  intros (Hc & He & rank & Hr) Hd Hone Hpar.
  assert (parent_refs (<[d := x]> m) = parent_refs m) as Hpr.
  { unfold parent_refs. rewrite map_sum_insert by done. rewrite Hpar. simpl. by rewrite (left_id_L ∅ (⊎)). }
  split; [|split].
  - intros k y Hk. rewrite Hpr, <- (assoc_L (⊎)), multiplicity_disj_union.
    destruct (decide (k = d)) as [->|Hne].
    + rewrite lookup_insert_eq in Hk. simplify_eq. rewrite multiplicity_singleton_eq.
      assert (d ∉ E ⊎ parent_refs m) as Hz by (intros Hin; apply He in Hin as [? Hin]; congruence).
      rewrite elem_of_multiplicity in Hz. lia.
    + rewrite lookup_insert_ne in Hk by done. rewrite multiplicity_singleton_ne by done. by apply Hc.
  - intros k Hk. rewrite Hpr in Hk. rewrite lookup_insert_is_Some.
    destruct (decide (d = k)); [by left|]. right. split; [done|]. apply He. multiset_solver.
  - exists rank. intros k y p Hk Hp. destruct (decide (k = d)) as [->|Hne].
    + rewrite lookup_insert_eq in Hk. congruence.
    + rewrite lookup_insert_ne in Hk by done. by apply (Hr k y).
Qed.

(** Other members of a device do not matter. *)
Lemma refs_update m E d x y :
  refs_ok m E -> m !! d = Some x -> refcnt y = refcnt x -> parent_dev y = parent_dev x ->
  refs_ok (<[d := y]> m) E.
Proof.
  intros (Hc & He & rank & Hr) Hd Hcnt Hpar.
  assert (parent_refs (<[d := y]> m) = parent_refs m) as Hpr.
  { apply (map_sum_update _ m d x y Hd). by rewrite Hpar. }
  split; [|split].
  - intros k z Hk. rewrite Hpr. destruct (decide (k = d)) as [->|Hne].
    + rewrite lookup_insert_eq in Hk. simplify_eq. rewrite Hcnt. by apply Hc.
    + rewrite lookup_insert_ne in Hk by done. by apply Hc.
  - intros k Hk. rewrite Hpr in Hk. rewrite lookup_insert_is_Some.
    destruct (decide (d = k)); [by left|]. right. auto.
  - exists rank. intros k z p Hk Hp. destruct (decide (k = d)) as [->|Hne].
    + rewrite lookup_insert_eq in Hk. simplify_eq. rewrite Hpar in Hp. by apply (Hr d x).
    + rewrite lookup_insert_ne in Hk by done. by apply (Hr k z).
Qed.

(** The last reference: without the device, its reference on the parent
    becomes one that a client has to drop. *)
Lemma refs_last m E d x :
  refs_ok m ({[+ d +]} ⊎ E) -> m !! d = Some x -> refcnt x - 1 = 0 ->
  refs_ok (delete d m) (own (parent_dev x) ⊎ E).
Proof.
  intros (Hc & He & rank & Hr) Hd Hn.
  assert (parent_refs m = own (parent_dev x) ⊎ parent_refs (delete d m)) as HP
    by exact (map_sum_delete _ m d x Hd).
  assert (own (parent_dev x) ⊎ E ⊎ parent_refs (delete d m) = E ⊎ parent_refs m) as HEP
    by (rewrite HP; multiset_solver).
  assert (multiplicity d (E ⊎ parent_refs m) = 0%nat) as Hz.
  { destruct (Hc d x Hd) as [Heq _].
    rewrite <- (assoc_L (⊎)), multiplicity_disj_union, multiplicity_singleton_eq in Heq. lia. }
  split; [|split].
  - intros k y Hk. rewrite lookup_delete_Some in Hk. destruct Hk as [Hne Hk].
    destruct (Hc k y Hk) as [Heq Hpos]. split; [|done]. rewrite HEP.
    rewrite <- (assoc_L (⊎)), multiplicity_disj_union, multiplicity_singleton_ne in Heq by done. done.
  - intros k Hk. rewrite HEP in Hk. destruct (decide (k = d)) as [->|Hne].
    + rewrite elem_of_multiplicity in Hk. lia.
    + rewrite lookup_delete_ne by done. apply He. multiset_solver.
  - exists rank. intros k y p Hk Hp. apply lookup_delete_Some in Hk as [_ Hk]. by apply (Hr k y).
Qed.

(** ** Dropping a reference *)

Section unref.
Context {W : Type} (be : os_backend W).
Implicit Types (s : lib W).

Lemma list_del_wp d l : d ∈ l -> list_del d l = Ok (filter (fun q => q <> d) l).
Proof. intros Hd. unfold list_del. by rewrite decide_True. Qed.

(** The end of a device without references: [destroy_device], the
    disconnection when there is no hotplug support, and [free]. *)
Definition release_device (d : nat) : Lib W unit :=
  (match be_destroy_device be with
   | Some destroy => backend_op (destroy d)
   | None => mret tt
   end) ;;
  (if has_hotplug be then mret tt else usbi_disconnect_device be d) ;;
  free_device d.

Lemma free_device_wp d x F s :
  devices s !! d = Some x -> live (mem s) = blocks (devices s) ⊎ F ->
  wp (free_device d) s (fun _ s' => devices s' = delete d (devices s) /\
    live (mem s') = blocks (devices s') ⊎ F /\ usb_devs s' = usb_devs s /\ same_rest be s s').
Proof.
  intros Hd HF. unfold free_device. apply wp_bind, wp_on_mem.
  apply (free_wp _ _ (blocks (delete d (devices s)) ⊎ F)).
  - rewrite HF. unfold blocks. rewrite (map_sum_delete _ _ d x Hd). simpl. by rewrite (assoc_L (⊎)).
  - intros h Hl Ho. apply wp_modify. simpl. split; [done|]. split; [done|]. split; [done|].
    by repeat (split; [done|]).
Qed.

Lemma release_device_wp d x F s :
  devices s !! d = Some x -> live (mem s) = blocks (devices s) ⊎ F -> connected be s ->
  wp (release_device d) s (fun _ s' => devices s' = delete d (devices s) /\
    live (mem s') = blocks (devices s') ⊎ F /\ connected be s' /\ same_rest be s s').
Proof.
  intros Hd HF Hcon. unfold release_device.
  apply wp_bind. eapply (wp_mono _ _ (fun _ s' => exists w, s' = set_world w s)).
  { destruct (be_destroy_device be) as [destroy|]; [|apply wp_ret; exists (world s); by destruct s].
    apply wp_backend_op. intros ? w _. by exists w. }
  intros [] s1 [w ->]. apply wp_bind. unfold usbi_disconnect_device, connected in *.
  destruct (has_hotplug be) eqn:Hhot; simpl.
  - apply wp_ret. eapply wp_mono; [by apply (free_device_wp d x F)|].
    intros [] s2 (? & ? & _ & ?). by repeat (split; [done|]).
  - apply wp_bind, (wp_get_device _ x); [done|]. apply wp_bind, wp_put_device.
    apply wp_bind, wp_gets, wp_bind. simpl.
    eapply wp_lift; [apply list_del_wp, Hcon; [done|by eexists]|].
    apply wp_bind, wp_modify, wp_bind, wp_gets, wp_ret.
    eapply wp_mono; [apply (free_device_wp d (set_attached false x) F); simpl|].
    + apply lookup_insert_eq.
    + unfold blocks. by rewrite (map_sum_update _ _ d x).
    + intros [] s2 (Hdev & Hl & Hu & Hsame). simpl in *.
      rewrite delete_insert_eq in Hdev. split; [done|]. split; [done|]. split.
      2:{ destruct Hsame as (Heq & Ho & _). split; [exact Heq|]. split; [exact Ho|]. split; [|intros; congruence]. rewrite Hu.
          intros k Hk. by apply list_elem_of_filter in Hk as [_ Hk]. }
      intros _ k Hk. rewrite Hu, list_elem_of_filter. rewrite Hdev in Hk.
      apply lookup_delete_is_Some in Hk as [Hne Hk]. split; [done|]. by apply Hcon.
Qed.

Lemma rank_filter_size (rank : nat -> nat) (m : gmap nat device) d p x :
  m !! d = Some x -> (rank p < rank d)%nat ->
  (size (filter (fun kx => rank kx.1 <= rank p)%nat (delete d m))
    < size (filter (fun kx => rank kx.1 <= rank d)%nat m))%nat.
Proof.
  intros Hd Hlt. apply map_subset_size, map_subset_alt. split.
  - apply map_subseteq_spec. intros k y. rewrite !map_lookup_filter_Some, lookup_delete_Some. simpl.
    intros [[_ ?] ?]. split; [done|lia].
  - exists d. rewrite !map_lookup_filter. rewrite lookup_delete_eq, Hd. simpl.
    split; [done|]. rewrite option_guard_True by lia. by eexists.
Qed.

(** [m]: the devices that are in use; [dy]: those further up the recursion,
    which are about to be released. *)
Definition unref_post (m dy : gmap nat device) (E F : gmultiset nat) s s' : Prop :=
  exists m', devices s' = m' ∪ dy /\ m' ##ₘ dy /\ refs_ok m' E /\ only_counts m m' /\
    live (mem s') = blocks (devices s') ⊎ F /\ connected be s' /\ same_rest be s s'.

Definition dev_rank (rank : nat -> nat) (o : option nat) : nat :=
  match o with Some d => rank d | None => 0%nat end.

Lemma unref_device_wp fuel (rank : nat -> nat) o m dy E F s :
  (forall d x p, m !! d = Some x -> parent_dev x = Some p -> (rank p < rank d)%nat) ->
  devices s = m ∪ dy -> m ##ₘ dy -> refs_ok m (own o ⊎ E) ->
  (o <> None -> size (filter (fun kx => rank kx.1 <= dev_rank rank o)%nat m) < fuel)%nat ->
  live (mem s) = blocks (devices s) ⊎ F -> connected be s ->
  wp (unref_device be fuel o) s (fun _ s' => unref_post m dy E F s s').
Proof.
  revert o m dy s. induction fuel as [|fuel IH]; intros o m dy s Hrank Hdev Hdisj Hrefs Hfuel HF Hcon.
  { destruct o as [d|]; [specialize (Hfuel ltac:(done)); lia|]. exists m. simpl in Hrefs.
    rewrite (left_id_L ∅ (⊎)) in Hrefs. split_and!; try done. apply only_counts_refl. }
  destruct o as [d|]; cbn [unref_device]; simpl own in Hrefs.
  2:{ apply wp_ret. exists m. rewrite (left_id_L ∅ (⊎)) in Hrefs. split_and!; try done. apply only_counts_refl. }
  specialize (Hfuel ltac:(done)). simpl in Hfuel.
  assert (is_Some (m !! d)) as [x Hd] by (apply Hrefs; multiset_solver).
  assert (dy !! d = None) as Hdy by (eapply map_disjoint_Some_l; eauto).
  assert (devices s !! d = Some x) as Hsd by (rewrite Hdev; by apply lookup_union_Some_l).
  apply wp_bind, (wp_get_device _ x); [done|]. apply wp_bind, wp_put_device.
  set (x1 := set_refcnt (refcnt x - 1) x).
  assert (blocks (<[d := x1]> (devices s)) = blocks (devices s)) as Hbl by by apply (map_sum_update _ _ d x).
  assert (forall d', is_Some (<[d := x1]> (devices s) !! d') -> is_Some (devices s !! d')) as Hsub.
  { intros d' Hd'. apply lookup_insert_is_Some in Hd' as [<-|[_ ?]]; [by eexists|done]. }
  destruct (Z.eqb_spec (refcnt x - 1) 0) as [Hlast|Hmore].
  2:{ apply wp_ret. exists (<[d := x1]> m). simpl. split; [by rewrite Hdev, insert_union_l|].
      split; [apply map_disjoint_insert_l_2; done|]. split; [by apply refs_decr|]. split; [|split; [|split]].
      - intros k y Hk. destruct (decide (k = d)) as [->|]; [rewrite lookup_insert_eq in Hk; simplify_eq; eauto|].
        rewrite lookup_insert_ne in Hk by done. destruct y. eauto.
      - by rewrite Hbl.
      - intros Hhot d' Hd'. apply Hcon, Hsub; [done|]. simpl in Hd'. done.
      - by repeat (split; [done|]). }
  apply wp_bind. eapply wp_mono.
  - apply (IH (parent_dev x) (delete d m) (<[d := x1]> dy)); simpl.
    + intros k y p Hk. apply lookup_delete_Some in Hk as [_ Hk]. by apply Hrank.
    + rewrite Hdev. rewrite <- insert_union_r by apply lookup_delete_eq.
      rewrite <- insert_delete_eq, delete_union, (delete_id dy) by done.
      rewrite <- (insert_delete_eq (delete d m ∪ dy)), delete_union, delete_delete_eq, (delete_id dy) by done. done.
    + apply map_disjoint_insert_r_2; [apply lookup_delete_eq|]. by apply map_disjoint_delete_l.
    + by apply (refs_last m E d x).
    + intros Hp. destruct (parent_dev x) as [p|] eqn:Hpar; [|done]. simpl.
      pose proof (rank_filter_size rank m d p x Hd (Hrank d x p Hd Hpar)). lia.
    + rewrite Hbl. done.
    + intros Hhot d' Hd'. by apply Hcon, Hsub.
  - intros [] s2 (m2 & Hdev2 & Hdisj2 & Hrefs2 & Honly & HF2 & Hcon2 & Hsame2).
    assert (m2 !! d = None) as Hm2 by (eapply map_disjoint_Some_r; [done|apply lookup_insert_eq]).
    eapply wp_mono; [apply (release_device_wp d x1 F)|].
    + rewrite Hdev2, lookup_union_r by done. apply lookup_insert_eq.
    + done.
    + done.
    + intros [] s3 (Hdev3 & HF3 & Hcon3 & Hsame3). exists m2.
      assert (devices s3 = m2 ∪ dy) as Hdev3'.
      { rewrite Hdev3, Hdev2, delete_union, delete_insert_eq, !delete_id by done. done. }
      split; [done|]. split; [by eapply map_disjoint_insert_r|]. split; [done|]. split; [|split; [done|split; [done|]]].
      * eapply only_counts_trans; [|exact Honly]. intros k y Hk. rewrite lookup_delete_Some in Hk.
        destruct Hk as [_ Hk]. exists y. split; [done|]. by destruct y.
      * etrans; [|exact Hsame3]. etrans; [|exact Hsame2]. by repeat (split; [done|]).
Qed.

(** Dropping and taking one reference. *)
Lemma libusb_unref_device_wp o E F s :
  devices_ok be F (own o ⊎ E) s ->
  wp (libusb_unref_device be o) s (fun _ s' => devices_ok be F E s' /\
    only_counts (devices s) (devices s') /\ same_rest be s s').
Proof.
  intros (Hrefs & HF & Hcon). pose proof Hrefs as (_ & _ & rank & Hrank).
  unfold libusb_unref_device. apply wp_bind, wp_gets.
  eapply wp_mono; [apply (unref_device_wp _ rank o (devices s) ∅ E F); try done|].
  - by rewrite (right_id_L ∅ (∪)).
  - apply map_disjoint_empty_r.
  - intros _. apply Nat.lt_succ_r, map_subseteq_size, map_filter_subseteq.
  - intros [] s' (m' & Hdev & _ & Hrefs' & Honly & HF' & Hcon' & Hsame).
    rewrite (right_id_L ∅ (∪)) in Hdev. subst m'. by repeat (split; [done|]).
Qed.

Lemma libusb_ref_device_wp d E F s :
  devices_ok be F E s -> is_Some (devices s !! d) ->
  wp (libusb_ref_device d) s (fun r s' => r = d /\ devices_ok be F ({[+ d +]} ⊎ E) s' /\
    only_counts (devices s) (devices s') /\ dom (devices s') = dom (devices s) /\
    usb_devs s' = usb_devs s /\ same_rest be s s').
Proof.
  intros (Hrefs & HF & Hcon) [x Hd]. unfold libusb_ref_device.
  apply wp_bind, (wp_get_device _ x); [done|]. apply wp_bind, wp_put_device, wp_ret.
  split; [done|]. split; [|split; [|split; [|split; [done|by repeat (split; [done|])]]]].
  - split; [by apply refs_incr|]. split; simpl.
    + unfold blocks. by rewrite (map_sum_update _ _ d x).
    + intros Hhot k Hk. apply Hcon; [done|]. simpl in Hk.
      apply lookup_insert_is_Some in Hk as [<-|[_ ?]]; [by eexists|done].
  - intros k y Hk. simpl in Hk. destruct (decide (k = d)) as [->|].
    + rewrite lookup_insert_eq in Hk. simplify_eq. eauto.
    + rewrite lookup_insert_ne in Hk by done. destruct y. eauto.
  - simpl. rewrite dom_insert_L. apply elem_of_dom_2 in Hd. set_solver.
Qed.
End unref.

(** ** Nothing referenced, nothing left *)

Lemma refs_ok_empty m : refs_ok m ∅ -> m = ∅.
Proof.
  intros (Hc & He & rank & Hrank). apply map_empty. intros d.
  destruct (m !! d) as [x|] eqn:Hd; [exfalso|done].
  remember (size (filter (fun kx => rank d < rank kx.1)%nat m)) as n eqn:Hn.
  revert d x Hd Hn. induction n as [n IH] using lt_wf_ind. intros d x Hd ->.
  destruct (Hc d x Hd) as [Heq Hpos]. rewrite (left_id_L ∅ (⊎)) in Heq.
  assert (d ∈ parent_refs m) as Hin by (rewrite elem_of_multiplicity; lia).
  apply map_sum_elem_inv in Hin as (k & y & Hk & Hy).
  destruct (parent_dev y) as [p|] eqn:Hp; simpl in Hy; [|multiset_solver].
  assert (p = d) as -> by multiset_solver.
  pose proof (Hrank k y d Hk Hp) as Hlt.
  eapply (IH (size (filter (fun kx => rank k < rank kx.1)%nat m))); [|exact Hk|done].
  apply map_subset_size, map_subset_alt. split.
  - apply map_subseteq_spec. intros j z. rewrite !map_lookup_filter_Some. simpl. intros [? ?]. split; [done|lia].
  - exists k. rewrite !map_lookup_filter, Hk. simpl. rewrite option_guard_False, option_guard_True by lia.
    split; [done|by eexists].
Qed.

(** ** Discovery *)

(** The references of a list of devices. *)
Definition list_refs (l : list nat) : gmultiset nat := list_to_set_disj l.

Lemma list_refs_nil : list_refs [] = ∅.
Proof. done. Qed.
Lemma list_refs_cons d l : list_refs (d :: l) = {[+ d +]} ⊎ list_refs l.
Proof. apply list_to_set_disj_cons. Qed.
Lemma list_refs_app l1 l2 : list_refs (l1 ++ l2) = list_refs l1 ⊎ list_refs l2.
Proof. apply list_to_set_disj_app. Qed.
Lemma list_refs_elem d l : d ∈ list_refs l <-> d ∈ l.
Proof. apply elem_of_list_to_set_disj. Qed.

Section discovery.
Context {W : Type} (be : os_backend W).
Implicit Types (s : lib W).

Lemma devices_ok_live F E s d : devices_ok be F E s -> d ∈ E -> is_Some (devices s !! d).
Proof. intros ((_ & He & _) & _) Hd. apply He. multiset_solver. Qed.

Lemma unref_all_wp l E F s :
  devices_ok be F (list_refs l ⊎ E) s ->
  wp (for_each (fun d => libusb_unref_device be (Some d)) l) s (fun _ s' =>
    devices_ok be F E s' /\ same_rest be s s').
Proof.
  revert s. induction l as [|d l IH]; intros s Hok; cbn [for_each].
  - apply wp_ret. split; [|done]. by rewrite list_refs_nil, (left_id_L ∅ (⊎)) in Hok.
  - apply wp_bind. eapply wp_mono; [apply (libusb_unref_device_wp be (Some d) (list_refs l ⊎ E) F)|].
    + simpl own. rewrite (assoc_L (⊎)), <- list_refs_cons. exact Hok.
    + intros [] s1 (Hok1 & _ & Hsame). eapply wp_mono; [by apply IH|].
      intros [] s2 [Hok2 Hsame2]. split; [done|by etrans].
Qed.

(** [same_rest] and the list of devices. *)
Definition same_list s s' : Prop := usb_devs s' = usb_devs s /\ same_rest be s s'.
#[local] Instance same_list_refl : Reflexive same_list.
Proof. intros s. by split. Qed.
#[local] Instance same_list_trans : Transitive same_list.
Proof. intros s1 s2 s3 [H1 H2] [H3 H4]. split; [congruence|by etrans]. Qed.

Lemma ref_all_wp l E F s :
  devices_ok be F E s -> (forall d, d ∈ l -> d ∈ E) ->
  wp (for_each (fun d => libusb_ref_device d ;; mret tt) l) s (fun _ s' =>
    devices_ok be F (list_refs l ⊎ E) s' /\ same_list s s').
Proof.
  revert E s. induction l as [|d l IH]; intros E s Hok Hl; cbn [for_each].
  - apply wp_ret. split; [|done]. by rewrite list_refs_nil, (left_id_L ∅ (⊎)).
  - apply wp_bind, wp_bind. eapply wp_mono; [apply (libusb_ref_device_wp be d E F)|].
    + done.
    + eapply devices_ok_live; [done|apply Hl; set_solver].
    + intros ? s1 (-> & Hok1 & _ & _ & Hu & Hsame). apply wp_ret.
      eapply wp_mono; [apply (IH ({[+ d +]} ⊎ E)); [done|]|].
      * intros d' Hd'. apply gmultiset_elem_of_disj_union. right. apply Hl. set_solver.
      * intros [] s2 [Hok2 Hsame2]. split; [|etrans; [split; [exact Hu|exact Hsame]|done]].
        rewrite list_refs_cons, (comm_L (⊎) {[+ d +]}), <- (assoc_L (⊎)). done.
Qed.

(** Memory operations: the devices stay. *)
Lemma devices_ok_mem F F' E s h :
  devices_ok be F E s -> live h = blocks (devices s) ⊎ F' -> devices_ok be F' E (set_mem h s).
Proof. intros (? & _ & ?) Hh. by split_and!. Qed.

Lemma same_list_mem s h : same_oracles (mem s) h -> same_list s (set_mem h s).
Proof. intros Ho. split; [done|]. by repeat (split; [done|]). Qed.

Definition disc_ok (F E : gmultiset nat) (disc : discovered_devs) s : Prop :=
  devices_ok be ({[+ dd_block disc +]} ⊎ F) (list_refs (dd_devices disc) ⊎ E) s.

Lemma discovered_devs_free_wp disc E F s :
  disc_ok F E disc s ->
  wp (discovered_devs_free be disc) s (fun _ s' => devices_ok be F E s' /\ same_rest be s s').
Proof.
  intros Hok. unfold discovered_devs_free. apply wp_bind. eapply wp_mono; [by apply unref_all_wp|].
  intros [] s1 [Hok1 Hsame1]. pose proof Hok1 as (_ & HF1 & _).
  apply wp_on_mem, (free_wp _ _ (blocks (devices s1) ⊎ F)); [rewrite HF1; simpl; multiset_solver|].
  intros h Hl Ho. split; [by eapply devices_ok_mem|].
  etrans; [exact Hsame1|apply same_list_mem; done].
Qed.

Lemma discovered_devs_append_wp disc d E F s :
  disc_ok F E disc s -> d ∈ E ->
  wp (discovered_devs_append be disc d) s (fun r s' =>
    match r with
    | Some disc' => disc_ok F E disc' s' /\ dd_devices disc' = dd_devices disc ++ [d] /\ same_list s s'
    | None => devices_ok be F E s' /\ same_rest be s s'
    end).
Proof.
  intros Hok Hd. unfold discovered_devs_append.
  assert (forall b cap s1 h, same_list s s1 -> s1 = set_mem h s ->
    devices_ok be ({[+ b +]} ⊎ F) (list_refs (dd_devices disc) ⊎ E) s1 ->
    wp (d ← libusb_ref_device d; mret (Some (mk_disc b cap (dd_devices disc ++ [d])))) s1 (fun r s' =>
      match r with
      | Some disc' => disc_ok F E disc' s' /\ dd_devices disc' = dd_devices disc ++ [d] /\ same_list s s'
      | None => devices_ok be F E s' /\ same_rest be s s'
      end)) as Hgrow.
  { intros b cap s1 h Hsame Hs1 Hok1. apply wp_bind.
    eapply wp_mono; [apply (libusb_ref_device_wp be d _ _ _ Hok1)|].
    - eapply devices_ok_live; [exact Hok1|multiset_solver].
    - intros ? s2 (-> & Hok2 & _ & _ & Hu & Hsame2). apply wp_ret. split; [|split; [done|]].
      + unfold disc_ok in *. simpl. rewrite list_refs_app, list_refs_cons, list_refs_nil.
        replace (list_refs (dd_devices disc) ⊎ ({[+ d +]} ⊎ ∅) ⊎ E)
          with ({[+ d +]} ⊎ (list_refs (dd_devices disc) ⊎ E)) by multiset_solver. done.
      + etrans; [exact Hsame|]. by split. }
  case_match.
  - apply (Hgrow _ _ s (mem s)); [done|by destruct s|exact Hok].
  - pose proof Hok as (_ & HF & _). unfold realloc.
    apply wp_bind, wp_on_mem, wp_bind. unfold wp at 1, get. destruct (oom_realloc (mem s) (next (mem s))).
    + apply wp_bind. unfold wp at 1, put. apply wp_ret.
      apply wp_bind. eapply wp_mono; [apply (discovered_devs_free_wp disc E F)|].
      * eapply devices_ok_mem; [exact Hok|exact HF].
      * intros [] s1 [Hok1 Hsame1]. apply wp_ret. split; [done|]. etrans; [|exact Hsame1].
        apply same_list_mem. apply same_oracles_fail.
    + apply wp_bind. apply (free_wp _ _ (blocks (devices s) ⊎ F)); [rewrite HF; simpl; multiset_solver|].
      intros h Hl Ho. unfold wp, new_block.
      apply (Hgrow _ _ _ (set_live h ({[+ next h +]} ⊎ live h))); [|done|].
      * apply same_list_mem. etrans; [exact Ho|apply same_oracles_new].
      * eapply devices_ok_mem; [exact Hok|]. simpl. rewrite Hl. multiset_solver.
Qed.

Lemma append_all_wp l disc E F s :
  disc_ok F E disc s -> (forall d, d ∈ l -> d ∈ E) ->
  wp (append_all be disc l) s (fun r s' =>
    match r with
    | Some disc' => disc_ok F E disc' s' /\ dd_devices disc' = dd_devices disc ++ l /\ same_list s s'
    | None => devices_ok be F E s' /\ same_rest be s s'
    end).
Proof.
  revert disc s. induction l as [|d l IH]; intros disc s Hok Hl; cbn [append_all].
  - apply wp_ret. by rewrite app_nil_r.
  - apply wp_bind. eapply wp_mono; [apply (discovered_devs_append_wp disc d E F); [done|apply Hl; set_solver]|].
    intros [disc1|] s1 Hpost; [|by apply wp_ret].
    destruct Hpost as (Hok1 & Hdev1 & Hsame1).
    eapply wp_mono; [apply (IH disc1); [done|intros; apply Hl; set_solver]|].
    intros [disc2|] s2; [|intros [? ?]; split; [done|etrans; [apply Hsame1|done]]].
    intros (Hok2 & Hdev2 & Hsame2). split; [done|]. split; [|by etrans].
    by rewrite Hdev2, Hdev1, <- app_assoc.
Qed.

Definition list_post (F E : gmultiset nat) (l : list nat) (res : Z * option device_list) s' : Prop :=
  match res with
  | (r, None) => r = LIBUSB_ERROR_NO_MEM /\ devices_ok be F E s'
  | (r, Some (b, devs)) => r = Z.of_nat (length devs) /\ devs = l /\
      devices_ok be ({[+ b +]} ⊎ F) (list_refs devs ⊎ E) s'
  end.

Lemma make_device_list_wp disc E F s :
  disc_ok F E disc s -> (forall d, d ∈ dd_devices disc -> d ∈ E) ->
  wp (make_device_list be 0 (Some disc)) s (fun res s' =>
    list_post F E (dd_devices disc) res s' /\ same_rest be s s').
Proof.
  intros Hok Hl. unfold make_device_list. simpl. pose proof Hok as (_ & HF & _).
  apply wp_bind, wp_bind, wp_on_mem, (malloc_wp _ _ _ HF). intros [b|] h Hlh Ho; simpl in Hlh.
  - apply wp_bind. eapply wp_mono; [apply (ref_all_wp (dd_devices disc) (list_refs (dd_devices disc) ⊎ E) ({[+ b +]} ⊎ ({[+ dd_block disc +]} ⊎ F)))|].
    + eapply devices_ok_mem; [exact Hok|]. rewrite Hlh. multiset_solver.
    + intros d Hd. apply gmultiset_elem_of_disj_union. right. by apply Hl.
    + intros [] s1 [Hok1 [_ Hsame1]]. apply wp_ret, wp_bind.
      eapply wp_mono; [apply (discovered_devs_free_wp disc (list_refs (dd_devices disc) ⊎ E) ({[+ b +]} ⊎ F))|].
      * unfold disc_ok. replace ({[+ dd_block disc +]} ⊎ ({[+ b +]} ⊎ F))
          with ({[+ b +]} ⊎ ({[+ dd_block disc +]} ⊎ F)) by multiset_solver. done.
      * intros [] s2 [Hok2 Hsame2]. apply wp_ret. split; [done|]. etrans; [|exact Hsame2].
        etrans; [|exact Hsame1]. by apply same_list_mem.
  - apply wp_ret, wp_bind. eapply wp_mono; [apply (discovered_devs_free_wp disc E F)|].
    + eapply devices_ok_mem; [exact Hok|]. rewrite Hlh. multiset_solver.
    + intros [] s2 [Hok2 Hsame2]. apply wp_ret. split; [done|]. etrans; [|exact Hsame2].
      by apply same_list_mem.
Qed.

Lemma free_device_list_wp b devs E F s :
  devices_ok be ({[+ b +]} ⊎ F) (list_refs devs ⊎ E) s ->
  wp (libusb_free_device_list be (Some (b, devs)) true) s (fun _ s' =>
    devices_ok be F E s' /\ same_rest be s s').
Proof. intros Hok. by apply (discovered_devs_free_wp (mk_disc b 0 devs) E F). Qed.

(** With hotplug support: the devices are those of the list, in order. *)
Lemma get_device_list_wp E F s :
  be_get_device_list be = None -> be_hotplug_poll be = None ->
  devices_ok be F E s -> (forall d, d ∈ usb_devs s -> d ∈ E) ->
  wp (libusb_get_device_list be) s (fun res s' => list_post F E (usb_devs s) res s' /\ same_rest be s s').
Proof.
  intros Hbe Hpoll Hok Hu. unfold libusb_get_device_list. rewrite Hbe, Hpoll.
  pose proof Hok as (_ & HF & _).
  apply wp_bind. unfold discovered_devs_alloc. apply wp_bind, wp_on_mem, (malloc_wp _ _ _ HF).
  intros [b|] h Hl Ho; simpl in Hl; apply wp_ret.
  2:{ apply wp_ret. split; [|by apply same_list_mem]. split; [done|].
      eapply devices_ok_mem; [done|]. rewrite Hl. multiset_solver. }
  apply wp_bind, wp_ret, wp_bind, wp_gets, wp_bind.
  eapply wp_mono; [apply (append_all_wp _ _ E F)|].
  - unfold disc_ok. simpl. rewrite list_refs_nil, (left_id_L ∅ (⊎)). eapply devices_ok_mem; [exact Hok|].
    rewrite Hl. multiset_solver.
  - simpl. done.
  - intros [disc|] s1.
    + intros (Hok1 & Hdev & [Hu1 Hsame1]). simpl in Hdev.
      eapply wp_mono; [apply (make_device_list_wp disc E F); [done|by rewrite Hdev]|].
      intros res s2 [Hpost Hsame2]. rewrite Hdev in Hpost. split; [done|].
      etrans; [|exact Hsame2]. etrans; [|exact Hsame1]. by apply same_list_mem.
    + intros [Hok1 Hsame1]. unfold make_device_list. simpl. apply wp_bind, wp_ret, wp_bind, wp_ret, wp_ret.
      split; [done|]. etrans; [|exact Hsame1]. by apply same_list_mem.
Qed.
End discovery.

(** ** What clients do with references *)

Inductive client_op : Type :=
| ClientRef (d : nat)
| ClientUnref (d : nat)
| ClientList.    (** get the list of devices and free it with its references *)

Section client.
Context {W : Type} (be : os_backend W).

Definition run_client_op (op : client_op) : Lib W unit :=
  match op with
  | ClientRef d => libusb_ref_device d ;; mret tt
  | ClientUnref d => libusb_unref_device be (Some d)
  | ClientList => '(_, l) ← libusb_get_device_list be; libusb_free_device_list be l true
  end.

(** The references after the operation; [None]: a client may only use a
    device it holds a reference on. *)
Definition client_refs (C : gmultiset nat) (op : client_op) : option (gmultiset nat) :=
  match op with
  | ClientRef d => if decide (d ∈ C) then Some ({[+ d +]} ⊎ C) else None
  | ClientUnref d => if decide (d ∈ C) then Some (C ∖ {[+ d +]}) else None
  | ClientList => Some C
  end.
Fixpoint client_refs_all (C : gmultiset nat) (ops : list client_op) : option (gmultiset nat) :=
  match ops with
  | [] => Some C
  | op :: ops => C' ← client_refs C op; client_refs_all C' ops
  end.

(** [B] are the references of the backend: one for each device of the list. *)
Definition client_ok (F B C : gmultiset nat) (s : lib W) : Prop :=
  devices_ok be F (B ⊎ C) s /\ (forall d, d ∈ usb_devs s -> d ∈ B).

Lemma client_op_wp op F B C C' s :
  be_get_device_list be = None -> be_hotplug_poll be = None ->
  client_ok F B C s -> client_refs C op = Some C' ->
  wp (run_client_op op) s (fun _ s' => client_ok F B C' s' /\ same_rest be s s').
Proof.
  intros Hlist Hpoll [Hok HB] Hop. destruct op as [d|d|]; simpl in *; try case_decide; simplify_eq.
  - apply wp_bind. eapply wp_mono; [apply (libusb_ref_device_wp be _ _ _ _ Hok)|].
    { eapply devices_ok_live; [exact Hok|multiset_solver]. }
    intros r s' (-> & Hok' & _ & _ & Hu & Hsame). apply wp_ret. split; [|done]. split; [|by rewrite Hu].
    by replace (B ⊎ ({[+ d +]} ⊎ C)) with ({[+ d +]} ⊎ (B ⊎ C)) by multiset_solver.
  - eapply wp_mono; [apply (libusb_unref_device_wp be _ (B ⊎ (C ∖ {[+ d +]})) F)|].
    { simpl. replace ({[+ d +]} ⊎ (B ⊎ C ∖ {[+ d +]})) with (B ⊎ C) by multiset_solver. done. }
    intros [] s' (Hok' & _ & Hsame). split; [|done]. split; [done|]. intros k Hk. by apply HB, Hsame.
  - apply wp_bind. eapply wp_mono.
    { apply (get_device_list_wp be _ _ _ Hlist Hpoll Hok). intros d Hd. specialize (HB d Hd). multiset_solver. }
    intros [r [[b devs]|]] s1 [Hpost Hsame1]; simpl in Hpost.
    + destruct Hpost as (_ & -> & Hok1).
      eapply wp_mono; [by apply (free_device_list_wp be b _ (B ⊎ C'))|].
      intros [] s2 [Hok2 Hsame2]. split; [|by etrans]. split; [done|].
      intros k Hk. by apply HB, Hsame1, Hsame2.
    + destruct Hpost as [_ Hok1]. apply wp_ret. split; [|done]. split; [done|].
      intros k Hk. by apply HB, Hsame1.
Qed.

Lemma client_ops_wp ops F B C C' s :
  be_get_device_list be = None -> be_hotplug_poll be = None ->
  client_ok F B C s -> client_refs_all C ops = Some C' ->
  wp (for_each run_client_op ops) s (fun _ s' => client_ok F B C' s').
Proof.
  intros Hlist Hpoll. revert C s. induction ops as [|op ops IH]; intros C s Hok Hops; simpl in *.
  { simplify_eq. by apply wp_ret. }
  destruct (client_refs C op) as [C1|] eqn:Hop; [|done]. simpl in Hops.
  apply wp_bind. eapply wp_mono; [by apply (client_op_wp _ F B C C1)|].
  intros [] s1 [Hok1 _]. by apply (IH C1).
Qed.
End client.
