(* ===== verification/Hotplug.v ===== *)
(** * Hotplug callbacks (hotplug.c)

    Registration, lazy deregistration and matching of hotplug callbacks.
    The callbacks themselves belong to the application: [hotplug_fn] gives
    the effect and the result of each. *)

From S2P Require Import Prelude Heap ParseDesc DescApi Core Devices.

Definition LIBUSB_HOTPLUG_MATCH_ANY : Z := -1.
Definition LIBUSB_HOTPLUG_ENUMERATE : Z := 1.

Section hotplug.
Context {W : Type} (be : os_backend W) (big : bool).
Variable hotplug_fn : nat -> option nat -> Z -> Lib W Z.

(** The callback structure behind a pointer. *)
Definition get_callback (b : nat) : Lib W hotplug_callback := fun s =>
  match find (fun c => (cb_block c =? b)%nat) (hotplug_cbs s) with
  | Some c => Ok (c, s)
  | None => Fault UseAfterFree
  end.

(** [dev->device_descriptor]: a null device is an error. *)
Definition dev_descriptor (dev : option nat) : Lib W (list Z) :=
  match dev with
  | None => fail NullDeref
  | Some d => x ← get_device d; mret (device_descriptor x)
  end.

(** A filter member is compared only when it is not "any": the device is
    not looked at otherwise. *)
Definition filter_passes (wanted : Z) (dev : option nat) (field : list Z -> Z) : Lib W bool :=
  if wanted =? LIBUSB_HOTPLUG_MATCH_ANY then mret true
  else (raw ← dev_descriptor dev; mret (wanted =? field raw)).

Definition usbi_hotplug_match_cb (dev : option nat) (event : Z) (hotplug_cb : nat) : Lib W Z :=
  cb ← get_callback hotplug_cb;
  if (cb_needs_free cb : bool) then mret 1
  else if Z.land (cb_events cb) event =? 0 then mret 0
  else
    vendor ← filter_passes (cb_vendor_id cb) dev (idVendor big);
    if negb vendor then mret 0 else
    product ← filter_passes (cb_product_id cb) dev (idProduct big);
    if negb product then mret 0 else
    class ← filter_passes (cb_dev_class cb) dev bDeviceClass;
    if negb class then mret 0 else
    hotplug_fn (cb_fn cb) dev event.

(** [list_entry(pos->list.next)]: [None] is the list head. *)
Fixpoint next_cb (b : nat) (l : list hotplug_callback) : option (option nat) :=
  match l with
  | [] => None
  | c :: l' => if (cb_block c =? b)%nat
               then Some (match l' with [] => None | c' :: _ => Some (cb_block c') end)
               else next_cb b l'
  end.
Definition first_cb (l : list hotplug_callback) : option nat :=
  match l with [] => None | c :: _ => Some (cb_block c) end.

(** [list_del(&hotplug_cb->list); free(hotplug_cb);] *)
Definition remove_cb (b : nat) : Lib W unit :=
  modify (fun s => set_hotplug_cbs (filter (fun c => cb_block c <> b) (hotplug_cbs s)) s) ;;
  on_mem (free (Some b)).

(** [list_for_each_entry_safe]: the successor is read before the body runs. *)
Fixpoint match_loop (fuel : nat) (pos : option nat) (dev : option nat) (event : Z) : Lib W unit :=
  match pos with
  | None => mret tt
  | Some b =>
      match fuel with
      | O => fail OutOfFuel
      | S fuel =>
          l ← gets hotplug_cbs;
          match next_cb b l with
          | None => fail UseAfterFree
          | Some next =>
              ret ← usbi_hotplug_match_cb dev event b;
              (if ret =? 0 then mret tt else remove_cb b) ;;
              match_loop fuel next dev event
          end
      end
  end.

Definition usbi_hotplug_match (dev : option nat) (event : Z) : Lib W unit :=
  l ← gets hotplug_cbs;
  match_loop (S (length l)) (first_cb l) dev event.

Definition mark_needs_free (handle : Z) (c : hotplug_callback) : hotplug_callback :=
  if cb_handle c =? handle then set_cb_needs_free true c else c.

Definition libusb_hotplug_deregister_callback (callback_handle : Z) : Lib W unit :=
  if negb (has_hotplug be) then mret tt else
  modify (fun s => set_hotplug_cbs (map (mark_needs_free callback_handle) (hotplug_cbs s)) s) ;;
  usbi_hotplug_notification None 0.

(** [~0xffff & v]: the value does not fit the member it is compared with. *)
Definition bad_filter (mask v : Z) : bool :=
  negb (v =? LIBUSB_HOTPLUG_MATCH_ANY) && negb (Z.land (Z.lnot mask) v =? 0).

(** The loop of [LIBUSB_HOTPLUG_ENUMERATE]; what the callback returns is
    not used. *)
Definition enumerate_callback (b : nat) (devs : list nat) : Lib W unit :=
  for_each (fun d => usbi_hotplug_match_cb (Some d) LIBUSB_HOTPLUG_EVENT_DEVICE_ARRIVED b ;; mret tt) devs.

(** Returns the code and the handle. *)
Definition libusb_hotplug_register_callback (events flags vendor_id product_id dev_class : Z)
    (cb_fn : option nat) : Lib W (Z * option Z) :=
  if negb (has_hotplug be) then mret (LIBUSB_ERROR_NOT_SUPPORTED, None) else
  match cb_fn with
  | None => mret (LIBUSB_ERROR_INVALID_PARAM, None)
  | Some fn =>
      if bad_filter 65535 vendor_id || bad_filter 65535 product_id || bad_filter 255 dev_class
      then mret (LIBUSB_ERROR_INVALID_PARAM, None) else
      new_callback ← on_mem malloc;
      match new_callback with
      | None => mret (LIBUSB_ERROR_NO_MEM, None)
      | Some b =>
          handle ← gets next_cb_handle;
          modify (set_next_cb_handle (handle + 1)) ;;
          modify (fun s => set_hotplug_cbs
            (mk_cb b vendor_id product_id dev_class events fn handle false :: hotplug_cbs s) s) ;;
          if Z.land flags LIBUSB_HOTPLUG_ENUMERATE =? 0 then mret (LIBUSB_SUCCESS, Some handle) else
          '(len, devs) ← libusb_get_device_list be;
          match devs with
          | None => libusb_hotplug_deregister_callback handle ;; mret (len, None)
          | Some (l, devs) =>
              enumerate_callback b devs ;;
              libusb_free_device_list be (Some (l, devs)) true ;;
              mret (LIBUSB_SUCCESS, Some handle)
          end
      end
  end.

Definition usbi_hotplug_deregister_all : Lib W unit :=
  l ← gets hotplug_cbs;
  for_each (fun c => remove_cb (cb_block c)) l.
End hotplug.

(** ** Reference: one pass over the callbacks *)

Section hotplug_specs.
Context {W : Type} (be : os_backend W) (big : bool).
(** The callbacks of the application act on [W] only. *)
Variable app : nat -> option nat -> Z -> W -> Z * W.
Definition app_fn (n : nat) (dev : option nat) (event : Z) : Lib W Z := backend_op (app n dev event).

Definition field_ok (wanted value : Z) : bool := (wanted =? LIBUSB_HOTPLUG_MATCH_ANY) || (wanted =? value).

(** The callback is registered for the event and its filters pass. *)
Definition cb_wants (c : hotplug_callback) (raw : list Z) (event : Z) : bool :=
  negb (Z.land (cb_events c) event =? 0) && field_ok (cb_vendor_id c) (idVendor big raw) &&
  field_ok (cb_product_id c) (idProduct big raw) && field_ok (cb_dev_class c) (bDeviceClass raw).

(** Whether the callback is finished, and the new world. *)
Definition cb_result (c : hotplug_callback) (dev : option nat) (raw : list Z) (event : Z) (w : W) : bool * W :=
  if cb_needs_free c then (true, w)
  else if cb_wants c raw event then
    let '(r, w) := app (cb_fn c) dev event w in (negb (r =? 0), w)
  else (false, w).

(** The callbacks that stay, the others, and the new world. *)
Fixpoint match_spec (l : list hotplug_callback) (dev : option nat) (raw : list Z) (event : Z) (w : W)
    : list hotplug_callback * W :=
  match l with
  | [] => ([], w)
  | c :: l =>
      let '(finished, w) := cb_result c dev raw event w in
      let '(kept, w) := match_spec l dev raw event w in
      (if finished then kept else c :: kept, w)
  end.

(** The blocks of the callbacks. *)
Definition cb_blocks (l : list hotplug_callback) : gmultiset nat := msum (fun c => {[+ cb_block c +]}) l.

(** The device of the event: there is one, except for event 0. *)
Definition event_device (s : lib W) (dev : option nat) (raw : list Z) (event : Z) : Prop :=
  match dev with
  | Some d => exists x, devices s !! d = Some x /\ device_descriptor x = raw
  | None => event = 0
  end.

Lemma filter_passes_eq wanted d x field (s : lib W) :
  devices s !! d = Some x ->
  filter_passes wanted (Some d) field s = Ok (field_ok wanted (field (device_descriptor x)), s).
Proof.
  intros Hd. unfold filter_passes, field_ok. destruct (wanted =? LIBUSB_HOTPLUG_MATCH_ANY); [done|].
  unfold dev_descriptor, get_device, lookup_obj, mbind, M_bind. by rewrite Hd.
Qed.

Lemma match_cb_eq dev raw event c (s : lib W) :
  find (fun c' => (cb_block c' =? cb_block c)%nat) (hotplug_cbs s) = Some c ->
  event_device s dev raw event ->
  exists r, usbi_hotplug_match_cb big app_fn dev event (cb_block c) s
    = Ok (r, set_world (cb_result c dev raw event (world s)).2 s) /\
    negb (r =? 0) = (cb_result c dev raw event (world s)).1.
Proof.
  intros Hc Hdev. assert (set_world (world s) s = s) as Hid by by destruct s.
  unfold usbi_hotplug_match_cb, get_callback, cb_result, cb_wants. unfold mbind, M_bind. rewrite Hc.
  destruct (cb_needs_free c); [exists 1; cbn [fst snd]; by rewrite Hid|].
  destruct (Z.land (cb_events c) event =? 0) eqn:Hev; [exists 0; cbn [fst snd negb andb]; by rewrite Hid|].
  destruct dev as [d|]; [|unfold event_device in Hdev; subst event; by rewrite Z.land_0_r in Hev].
  destruct Hdev as (x & Hd & <-). cbn [negb andb].
  rewrite (filter_passes_eq _ _ x) by done.
  destruct (field_ok (cb_vendor_id c) _); cbn [negb andb]; [|exists 0; cbn [fst snd]; by rewrite Hid].
  rewrite (filter_passes_eq _ _ x) by done.
  destruct (field_ok (cb_product_id c) _); cbn [negb andb]; [|exists 0; cbn [fst snd]; by rewrite Hid].
  rewrite (filter_passes_eq _ _ x) by done.
  destruct (field_ok (cb_dev_class c) _); cbn [negb andb]; [|exists 0; cbn [fst snd]; by rewrite Hid].
  unfold app_fn, backend_op. destruct (app _ _ _ _) as [r w]. by exists r.
Qed.

Lemma find_block (l1 l2 : list hotplug_callback) c :
  NoDup (map cb_block (l1 ++ c :: l2)) ->
  find (fun c' => (cb_block c' =? cb_block c)%nat) (l1 ++ c :: l2) = Some c.
Proof.
  intros Hnd. induction l1 as [|a l1 IH]; simpl in *; [by rewrite Nat.eqb_refl|].
  apply NoDup_cons in Hnd as [Ha Hnd]. destruct (Nat.eqb_spec (cb_block a) (cb_block c)) as [Heq|]; [|by apply IH].
  destruct Ha. rewrite Heq, map_app. simpl. set_solver.
Qed.

Lemma next_cb_app (l1 l2 : list hotplug_callback) c :
  NoDup (map cb_block (l1 ++ c :: l2)) ->
  next_cb (cb_block c) (l1 ++ c :: l2) = Some (first_cb l2).
Proof.
  intros Hnd. induction l1 as [|a l1 IH]; simpl in *; [by rewrite Nat.eqb_refl|].
  apply NoDup_cons in Hnd as [Ha Hnd]. destruct (Nat.eqb_spec (cb_block a) (cb_block c)) as [Heq|]; [|by apply IH].
  destruct Ha. rewrite Heq, map_app. simpl. set_solver.
Qed.

Lemma filter_block (l1 l2 : list hotplug_callback) c :
  NoDup (map cb_block (l1 ++ c :: l2)) ->
  filter (fun c' => cb_block c' <> cb_block c) (l1 ++ c :: l2) = l1 ++ l2.
Proof.
  intros Hnd. assert (forall l : list hotplug_callback, (forall a, a ∈ l -> cb_block a <> cb_block c) ->
    filter (fun c' => cb_block c' <> cb_block c) l = l) as Hid.
  { induction l as [|a l IH]; intros Hl; [done|]. rewrite filter_cons_True by (apply Hl; set_solver).
    rewrite IH; [done|]. intros; apply Hl; set_solver. }
  rewrite map_app, NoDup_app in Hnd. destruct Hnd as (_ & Hd1 & Hd2). simpl in *. apply NoDup_cons in Hd2 as [Hd2 _].
  rewrite filter_app, filter_cons_False by tauto. rewrite !Hid; [done| |].
  - intros a Ha Heq. apply Hd2. rewrite <- Heq. by apply list_elem_of_fmap_2.
  - intros a Ha Heq. eapply (Hd1 (cb_block a)); [by apply list_elem_of_fmap_2|]. rewrite Heq. set_solver.
Qed.

(** [pre]: the callbacks before the current position that stayed. *)
Lemma match_loop_wp fuel pre rest dev raw event F s :
  hotplug_cbs s = pre ++ rest -> NoDup (map cb_block (pre ++ rest)) ->
  event_device s dev raw event -> live (mem s) = cb_blocks (pre ++ rest) ⊎ F ->
  (length rest < fuel)%nat ->
  wp (match_loop big app_fn fuel (first_cb rest) dev event) s (fun _ s' =>
    let spec := match_spec rest dev raw event (world s) in
    hotplug_cbs s' = pre ++ spec.1 /\ world s' = spec.2 /\
    live (mem s') = cb_blocks (pre ++ spec.1) ⊎ F /\ same_oracles (mem s) (mem s') /\
    s' = set_mem (mem s') (set_world (world s') (set_hotplug_cbs (hotplug_cbs s') s))).
Proof.
  revert fuel pre s. induction rest as [|c rest IH]; intros fuel pre s Hcbs Hnd Hdev HF Hfuel.
  { destruct fuel; [simpl in Hfuel; lia|]. simpl. apply wp_ret. repeat (split; [done|]). by destruct s. }
  destruct fuel as [|fuel]; [simpl in Hfuel; lia|]. cbn [first_cb match_loop].
  apply wp_bind, wp_gets. rewrite Hcbs, next_cb_app by done.
  destruct (match_cb_eq dev raw event c s) as (r & Hrun & Hr); [rewrite Hcbs; by apply find_block|done|].
  apply wp_bind. unfold wp at 1. rewrite Hrun. clear Hrun. cbn [match_spec].
  destruct (cb_result c dev raw event (world s)) as [fin w1] eqn:Hres. simpl in Hr. cbn [snd fst].
  destruct (r =? 0); simpl in Hr; subst fin; apply wp_bind.
  - apply wp_ret. replace (pre ++ c :: rest) with ((pre ++ [c]) ++ rest) in * by by rewrite <- app_assoc.
    eapply wp_mono; [apply (IH _ (pre ++ [c])); simpl in *; try done; lia|].
    intros [] s' Hpost. cbn [world set_world] in Hpost.
    destruct (match_spec rest dev raw event w1) as [kept w2]. simpl in *.
    rewrite <- app_assoc in Hpost. simpl in Hpost. destruct Hpost as (H1 & H2 & H3 & H5 & H4).
    split; [done|]. split; [done|]. split; [done|]. split; [done|]. rewrite H4. by destruct s.
  - unfold remove_cb. apply wp_bind, wp_modify. simpl. rewrite Hcbs, filter_block by done.
    apply wp_on_mem, (free_wp _ _ (cb_blocks (pre ++ rest) ⊎ F)).
    { cbn [mem set_hotplug_cbs set_world]. rewrite HF. unfold cb_blocks. rewrite !msum_app. simpl. multiset_solver. }
    intros h Hl Ho.
    eapply wp_mono; [apply (IH _ pre); simpl in *; try done; [|lia]|].
    + rewrite map_app, NoDup_app in *. simpl in Hnd. destruct Hnd as (H1 & H2 & H3).
      apply NoDup_cons in H3 as [_ H3]. split; [done|]. split; [|done]. intros x Hx Hx'.
      eapply H2; [done|]. set_solver.
    + intros [] s' Hpost. cbn [world set_world set_hotplug_cbs set_mem] in Hpost.
      destruct (match_spec rest dev raw event w1) as [kept w2]. simpl in *.
      destruct Hpost as (H1 & H2 & H3 & H5 & H4). split; [done|]. split; [done|]. split; [done|].
      split; [by etrans|].
      rewrite H4. by destruct s.
Qed.

Lemma hotplug_match_wp dev raw event F s :
  NoDup (map cb_block (hotplug_cbs s)) -> event_device s dev raw event ->
  live (mem s) = cb_blocks (hotplug_cbs s) ⊎ F ->
  wp (usbi_hotplug_match big app_fn dev event) s (fun _ s' =>
    let spec := match_spec (hotplug_cbs s) dev raw event (world s) in
    hotplug_cbs s' = spec.1 /\ world s' = spec.2 /\ live (mem s') = cb_blocks spec.1 ⊎ F /\
    same_oracles (mem s) (mem s') /\
    s' = set_mem (mem s') (set_world (world s') (set_hotplug_cbs (hotplug_cbs s') s))).
Proof.
  intros Hnd Hdev HF. unfold usbi_hotplug_match. apply wp_bind, wp_gets.
  apply (match_loop_wp _ [] _ dev raw event F s); try done. lia.
Qed.

(** Event 0 only collects the callbacks that were deregistered. *)
Lemma match_spec_collect l dev raw w :
  match_spec l dev raw 0 w = (filter (fun c => cb_needs_free c = false) l, w).
Proof.
  induction l as [|c l IH]; [done|]. simpl. unfold cb_result, cb_wants. rewrite Z.land_0_r. simpl.
  rewrite filter_cons. destruct (cb_needs_free c); rewrite IH; [by case_decide|by rewrite decide_True].
Qed.
End hotplug_specs.
