(* ===== verification/LibSteps.v ===== *)
(** * Relations that the operations on devices keep

    What holds between the states before and after every elementary step of
    the library holds around its operations on devices: shown once, along the
    structure of the operations, for every relation of this kind. *)

From S2P Require Import Prelude Keeps Heap ParseDesc DescApi Bos Core Devices DeviceRefs Hotplug.

(** ** Relations between states *)


(** [R] allows every step that operations on devices take in the library; events are
    only recorded once the context can signal them. *)
Class StepRelation {W : Type} (R : lib W -> lib W -> Prop) : Prop := {
  step_preorder :: PreOrder R;
  step_heap s h : same_oracles (mem s) h -> R s (set_mem h s);
  step_devices s m : R s (set_devices m s);
  step_usb_devs s l : R s (set_usb_devs l s);
  step_events s e : io_ready s = true -> R s (set_ev e s)
}.

(** What it allows in the world of the backend. *)
Definition world_rel {W} (R : lib W -> lib W -> Prop) (w w' : W) : Prop := forall s, world s = w -> R s (set_world w' s).
#[export] Instance world_rel_preorder {W} (R : lib W -> lib W -> Prop) `{!StepRelation R} : PreOrder (world_rel R).
Proof.
  split; [intros w s <-; destruct s; reflexivity|]. intros w1 w2 w3 H12 H23 s Hs.
  exact (PreOrder_Transitive _ _ _ (H12 s Hs) (H23 (set_world w2 s) eq_refl)).
Qed.
Lemma step_on_world {W} (R : lib W -> lib W -> Prop) {A} (m : M W A) : keeps (world_rel R) m -> keeps R (on_world m).
Proof.
  intros Hm s a s' Hrun. unfold on_world in Hrun. destruct (m (world s)) as [[b w]|] eqn:Heq; [|done]. injection Hrun as _ <-.
  exact (Hm _ _ _ Heq s eq_refl).
Qed.
(** Two steps of the backend that devices need. *)
Class BackendSteps {W : Type} (be : os_backend W) (R : lib W -> lib W -> Prop) : Prop := {
  bs_mutex w : world_rel R w (os_mutex_init be w).2;
  bs_destroy f d w : be_destroy_device be = Some f -> world_rel R w (f d w).2
}.

#[export] Instance same_oracles_preorder : PreOrder same_oracles.
Proof. split; exact _. Qed.
Lemma keeps_malloc : keeps same_oracles malloc.
Proof. intros h a h' Hrun. unfold malloc in Hrun. destruct (oom h (next h)); injection Hrun as _ <-; auto with heap. Qed.
Lemma keeps_free p : keeps same_oracles (free p).
Proof.
  intros h a h' Hrun. unfold free in Hrun. destruct p; [case_decide; [|done]|]; injection Hrun as _ <-; [|done].
  apply same_oracles_less. intros b Hb. multiset_solver.
Qed.

Section steps.
Context {W : Type} (be : os_backend W) (R : lib W -> lib W -> Prop) {HR : StepRelation R} {HB : BackendSteps be R}.

Lemma step_on_mem {A} (m : M heap A) : keeps same_oracles m -> keeps R (on_mem m).
Proof.
  intros Hm s a s' Hrun. unfold on_mem in Hrun. destruct (m (mem s)) as [[b h]|] eqn:Heq; [|done]. injection Hrun as _ <-.
  apply step_heap. exact (Hm _ _ _ Heq).
Qed.
Lemma step_malloc : keeps R (on_mem malloc).
Proof. apply step_on_mem, keeps_malloc. Qed.
Lemma step_free p : keeps R (on_mem (free p)).
Proof. apply step_on_mem, keeps_free. Qed.
Lemma step_backend_op {A} (op : W -> A * W) : (forall w, world_rel R w (op w).2) -> keeps R (backend_op op).
Proof.
  intros Hop s a s' Hrun. unfold backend_op in Hrun. pose proof (Hop (world s) s eq_refl) as HR'. destruct (op (world s)). by injection Hrun as _ <-.
Qed.
Lemma step_get_device d : keeps R (get_device d).
Proof. intros s a s' Hrun. unfold get_device, lookup_obj in Hrun. destruct (devices s !! d); [|done]. injection Hrun as _ <-. reflexivity. Qed.
Lemma step_put_device d x : keeps R (put_device d x).
Proof. apply keeps_modify. intros s. apply step_devices. Qed.
Lemma step_upd_device d f : keeps R (upd_device d f).
Proof. unfold upd_device. keeps; [apply step_get_device|apply step_put_device]. Qed.
Lemma step_set_usb_devs f : keeps R (modify (fun s => set_usb_devs (f s) s)).
Proof. apply keeps_modify. intros s. apply step_usb_devs. Qed.

(** A notification, where events are recorded. *)
Definition while_ready (s s' : lib W) : Prop := io_ready s = true -> R s s' /\ io_ready s' = true.
#[export] Instance while_ready_preorder : PreOrder while_ready.
Proof.
  split; [by intros s; split|]. intros s1 s2 s3 H1 H2 Hr. destruct (H1 Hr) as [H12 Hr2]. destruct (H2 Hr2) as [H23 Hr3].
  split; [by etransitivity|done].
Qed.
Lemma ready_put_ev e : keeps while_ready (put_ev e).
Proof. apply keeps_modify. intros s Hr. split; [by apply step_events|done]. Qed.
Lemma ready_notification dev event : keeps while_ready (usbi_hotplug_notification dev event).
Proof.
  unfold usbi_hotplug_notification, record_event, usbi_signal_event. keeps; try apply ready_put_ev.
  intros s b s' Hrun Hr. split; [exact (step_malloc _ _ _ Hrun)|]. unfold on_mem in Hrun. destruct (malloc (mem s)) as [[? h]|]; [|done].
  by injection Hrun as _ <-.
Qed.
Lemma step_notify dev event : keeps R (ready ← gets io_ready;
  if has_hotplug be && ready then usbi_hotplug_notification dev event else mret tt).
Proof.
  intros s. apply wlp_bind. intros ready s1 [= <- <-]. destruct (has_hotplug be); [|by intros b s' [= _ <-]].
  destruct (io_ready s) eqn:Hr; [|by intros b s' [= _ <-]]. intros b s' Hrun. by destruct (ready_notification _ _ _ _ _ Hrun Hr).
Qed.

Lemma step_ref d : keeps R (libusb_ref_device d).
Proof. unfold libusb_ref_device. keeps; [apply step_get_device|apply step_put_device]. Qed.
Lemma step_connect d : keeps R (usbi_connect_device be d).
Proof.
  unfold usbi_connect_device. keeps_step; [apply step_get_device|]. keeps_step; [apply step_put_device|].
  keeps_step; [apply step_set_usb_devs|apply step_notify].
Qed.
Lemma step_disconnect d : keeps R (usbi_disconnect_device be d).
Proof.
  unfold usbi_disconnect_device. keeps_step; [apply step_get_device|]. keeps_step; [apply step_put_device|].
  do 2 (keeps_step; [keeps|]). keeps_step; [apply (step_set_usb_devs (fun _ => _))|apply step_notify].
Qed.
Lemma step_free_device d : keeps R (free_device d).
Proof. unfold free_device. keeps; [apply step_free|apply keeps_modify; intros s; apply step_devices]. Qed.
Lemma step_unref d : keeps R (libusb_unref_device be d).
Proof.
  unfold libusb_unref_device. apply keeps_bind; [typeclasses eauto|apply keeps_gets; typeclasses eauto|]. intros n. generalize (S n). clear n.
  intros n. revert d. induction n as [|n IH]; intros [d|]; cbn [unref_device]; keeps; try apply IH;
    [apply step_get_device|apply step_put_device|apply step_backend_op; intros w; by eapply bs_destroy|apply step_disconnect|apply step_free_device].
Qed.
Lemma step_alloc sid : keeps R (usbi_alloc_device be sid).
Proof.
  unfold usbi_alloc_device.
  keeps; first [apply step_malloc|apply step_backend_op; intros w; apply bs_mutex|apply step_free|apply step_put_device|apply step_connect].
Qed.
Lemma step_session sid : keeps R (usbi_get_device_by_session_id sid).
Proof.
  unfold usbi_get_device_by_session_id. keeps. induction a as [|d l IH]; cbn [find_session]; keeps;
    [apply step_get_device|apply step_ref|apply IH].
Qed.
End steps.
