(* ===== verification/Transfers.v ===== *)
(** * Asynchronous transfers (io.c)

    The list of transfers in flight, sorted by timeout, and the life of a
    transfer: allocation, submission, cancellation, completion, timeout and
    disconnection. *)

From S2P Require Import Prelude Heap ParseDesc DescApi Core Devices.

(** [enum libusb_transfer_status], [libusb_transfer_type],
    [libusb_transfer_flags] *)
Definition LIBUSB_TRANSFER_COMPLETED : Z := 0.
Definition LIBUSB_TRANSFER_ERROR : Z := 1.
Definition LIBUSB_TRANSFER_TIMED_OUT : Z := 2.
Definition LIBUSB_TRANSFER_CANCELLED : Z := 3.
Definition LIBUSB_TRANSFER_STALL : Z := 4.
Definition LIBUSB_TRANSFER_NO_DEVICE : Z := 5.
Definition LIBUSB_TRANSFER_OVERFLOW : Z := 6.
Definition LIBUSB_TRANSFER_TYPE_CONTROL : Z := 0.
Definition LIBUSB_TRANSFER_TYPE_BULK : Z := 2.
Definition LIBUSB_TRANSFER_TYPE_BULK_STREAM : Z := 4.
Definition LIBUSB_TRANSFER_SHORT_NOT_OK : Z := 1.
Definition LIBUSB_TRANSFER_FREE_BUFFER : Z := 2.
Definition LIBUSB_TRANSFER_FREE_TRANSFER : Z := 4.
Definition LIBUSB_CONTROL_SETUP_SIZE : Z := 8.

(** [enum usbi_transfer_state_flags] and [usbi_transfer_timeout_flags] *)
Definition USBI_TRANSFER_IN_FLIGHT : Z := 1.
Definition USBI_TRANSFER_CANCELLING : Z := 2.
Definition USBI_TRANSFER_DEVICE_DISAPPEARED : Z := 4.
Definition USBI_TRANSFER_OS_HANDLES_TIMEOUT : Z := 1.
Definition USBI_TRANSFER_TIMEOUT_HANDLED : Z := 2.
Definition USBI_TRANSFER_TIMED_OUT : Z := 4.

Definition has_flag (flags f : Z) : bool := negb (Z.land flags f =? 0).

(** ** Times *)

Definition timerisset (tv : timeval) : bool := negb (tv_sec tv =? 0) || negb (tv_usec tv =? 0).
Definition timer_lt (a b : timeval) : bool :=
  if tv_sec a =? tv_sec b then tv_usec a <? tv_usec b else tv_sec a <? tv_sec b.
Definition timersub (a b : timeval) : timeval :=
  let sec := tv_sec a - tv_sec b in
  let usec := tv_usec a - tv_usec b in
  if usec <? 0 then mk_tv (sec - 1) (usec + 1000000) else mk_tv sec usec.
(** [TIMESPEC_TO_TIMEVAL] *)
Definition timespec_to_timeval (ts : timespec) : timeval := mk_tv (ts_sec ts) (Z.quot (ts_nsec ts) 1000).

(** The loop [while (current_time.tv_nsec >= 1000000000)]. *)
Fixpoint normalize (fuel : nat) (ts : timespec) : outcome timespec :=
  if ts_nsec ts <? 1000000000 then Ok ts
  else match fuel with
       | O => Fault OutOfFuel
       | S fuel => normalize fuel (mk_ts (ts_sec ts + 1) (ts_nsec ts - 1000000000))
       end.

(** The deadline of a transfer that starts at [now]. *)
Definition deadline (now : timespec) (timeout : Z) : outcome timeval :=
  let ts := mk_ts (ts_sec now + timeout / 1000) (ts_nsec now + (timeout mod 1000) * 1000000) in
  ts ← normalize (Z.to_nat (ts_nsec ts)) ts;
  mret (timespec_to_timeval ts).

(** [cur] comes after a transfer with timeout [tv]: no timeout at all, or a
    later one. *)
Definition later (cur tv : timeval) : bool :=
  negb (timerisset cur) || (tv_sec tv <? tv_sec cur) ||
  ((tv_sec cur =? tv_sec tv) && (tv_usec tv <? tv_usec cur)).

Section transfers.
Context {W : Type} (be : os_backend W).
(** The callbacks of the application. *)
Variable user_cb : nat -> nat -> Lib W unit.

Definition zero_transfer (iso_packets : Z) : transfer :=
  mk_transfer None 0 0 0 0 0 0 0 None 0 None [] 0
    (replicate (Z.to_nat iso_packets) (mk_iso 0 0 0)) (mk_tv 0 0) 0 0 0 0.

Definition libusb_alloc_transfer (iso_packets : Z) : Lib W (option nat) :=
  p ← on_mem malloc;
  match p with
  | None => mret None
  | Some t => put_transfer t (zero_transfer iso_packets) ;; mret (Some t)
  end.

Definition libusb_free_transfer (transfer : option nat) : Lib W unit :=
  match transfer with
  | None => mret tt
  | Some t =>
      x ← get_transfer t;
      (match t_buffer x with
       | Some b => if has_flag (t_flags x) LIBUSB_TRANSFER_FREE_BUFFER then on_mem (free (Some b)) else mret tt
       | None => mret tt
       end) ;;
      on_mem (free (Some t)) ;;
      modify (fun s => set_transfers (delete t (transfers s)) s)
  end.

(** [ITRANSFER_CTX]: follows the handle and the device. *)
Definition transfer_ctx (t : nat) : Lib W unit :=
  x ← get_transfer t;
  match t_dev_handle x with
  | None => fail NullDeref
  | Some h => y ← get_handle h; get_device (h_dev y) ;; mret tt
  end.

Definition calculate_timeout (t : nat) : Lib W Z :=
  x ← get_transfer t;
  if t_timeout x =? 0 then mret 0 else
  '(r, current_time) ← backend_op (be_clock_gettime be);
  if r <? 0 then mret r else
  tv ← lift (deadline current_time (t_timeout x));
  upd_transfer t (set_it_timeout tv) ;;
  mret 0.

(** ** The timer file descriptor *)

Definition timerfd_settime (tv : option timeval) : Lib W Z :=
  r ← backend_op (os_timerfd_settime be tv);
  if r <? 0 then mret LIBUSB_ERROR_OTHER
  else modify (set_timerfd (Some tv)) ;; mret 0.

Definition usbi_using_timerfd (s : lib W) : bool :=
  match timerfd s with Some _ => true | None => false end.

Definition disarm_timerfd : Lib W Z := timerfd_settime None.

Definition timeout_done (x : transfer) : bool :=
  has_flag (it_timeout_flags x) (Z.lor USBI_TRANSFER_TIMEOUT_HANDLED USBI_TRANSFER_OS_HANDLES_TIMEOUT).

Fixpoint arm_loop (l : list nat) : Lib W Z :=
  match l with
  | [] => disarm_timerfd
  | t :: l =>
      x ← get_transfer t;
      if negb (timerisset (it_timeout x)) then disarm_timerfd
      else if timeout_done x then arm_loop l
      else timerfd_settime (Some (it_timeout x))
  end.
Definition arm_timerfd_for_next_timeout : Lib W Z := l ← gets flying_transfers; arm_loop l.

(** ** The flying list *)

(** The search for the place: returns the new list, and [first]. *)
Fixpoint insert_flying (t : nat) (tv : timeval) (l : list nat) (first : bool) : Lib W (list nat * bool) :=
  match l with
  | [] => mret ([t], first)
  | cur :: l' =>
      x ← get_transfer cur;
      if later (it_timeout x) tv then mret (t :: cur :: l', first)
      else ('(l', first) ← insert_flying t tv l' false; mret (cur :: l', first))
  end.

Definition add_to_flying_list (t : nat) : Lib W Z :=
  transfer_ctx t ;;
  r ← calculate_timeout t;
  if negb (r =? 0) then mret r else
  x ← get_transfer t;
  let timeout := it_timeout x in
  l ← gets flying_transfers;
  '(l, first) ← (match l with
                 | [] => mret ([t], true)
                 | _ => if negb (timerisset timeout) then mret (l ++ [t], true)
                        else insert_flying t timeout l true
                 end);
  modify (set_flying_transfers l) ;;
  timerfd_used ← gets usbi_using_timerfd;
  r ← (if first && timerfd_used && timerisset timeout then timerfd_settime (Some timeout) else mret 0);
  if r =? 0 then mret r
  else (l ← lift (list_del t l); modify (set_flying_transfers l) ;; mret r).

Definition remove_from_flying_list (t : nat) : Lib W Z :=
  transfer_ctx t ;;
  x ← get_transfer t;
  l ← gets flying_transfers;
  let rearm_timerfd := timerisset (it_timeout x) &&
    match l with first :: _ => (first =? t)%nat | [] => false end in
  l ← lift (list_del t l);
  modify (set_flying_transfers l) ;;
  timerfd_used ← gets usbi_using_timerfd;
  if timerfd_used && rearm_timerfd then arm_timerfd_for_next_timeout else mret 0.

(** ** Submission and cancellation *)

Definition libusb_submit_transfer (t : nat) : Lib W Z :=
  transfer_ctx t ;;
  x ← get_transfer t;
  if has_flag (it_state_flags x) USBI_TRANSFER_IN_FLIGHT then mret LIBUSB_ERROR_BUSY else
  put_transfer t (set_it_timeout_flags 0 (set_it_state_flags 0 (set_it_transferred 0 x))) ;;
  r ← add_to_flying_list t;
  if negb (r =? 0) then mret r else
  r ← be_submit_transfer be t;
  (if r =? LIBUSB_SUCCESS then
     x ← get_transfer t;
     put_transfer t (set_it_state_flags (Z.lor (it_state_flags x) USBI_TRANSFER_IN_FLIGHT) x) ;;
     match t_dev_handle x with
     | None => fail NullDeref
     | Some h => y ← get_handle h; libusb_ref_device (h_dev y) ;; mret tt
     end
   else remove_from_flying_list t ;; mret tt) ;;
  mret r.

Definition libusb_cancel_transfer (t : nat) : Lib W Z :=
  x ← get_transfer t;
  if negb (has_flag (it_state_flags x) USBI_TRANSFER_IN_FLIGHT) ||
     has_flag (it_state_flags x) USBI_TRANSFER_CANCELLING
  then mret LIBUSB_ERROR_NOT_FOUND else
  r ← be_cancel_transfer be t;
  let disappeared := if r =? LIBUSB_ERROR_NO_DEVICE then USBI_TRANSFER_DEVICE_DISAPPEARED else 0 in
  upd_transfer t (fun x => set_it_state_flags
    (Z.lor (Z.lor (it_state_flags x) disappeared) USBI_TRANSFER_CANCELLING) x) ;;
  mret r.

Definition libusb_transfer_set_stream_id (t : nat) (stream_id : Z) : Lib W unit :=
  upd_transfer t (set_it_stream_id stream_id).
Definition libusb_transfer_get_stream_id (t : nat) : Lib W Z := x ← get_transfer t; mret (it_stream_id x).

(** ** Completion *)

(** [transfer->callback(transfer)]; the callback of the synchronous API
    (sync.c) sets the variable [user_data] points to. *)
Definition sync_transfer_cb (t : nat) : Lib W unit :=
  x ← get_transfer t;
  modify (fun s => set_ints (<[t_user_data x := 1]> (ints s)) s).
Definition run_callback (t : nat) (cb : option transfer_cb) : Lib W unit :=
  match cb with
  | None => mret tt
  | Some SyncTransferCb => sync_transfer_cb t
  | Some (UserCb n) => user_cb n t
  end.

(** A short transfer counts as an error when the caller asked for that. *)
Definition completion_status (x : transfer) (status : Z) : Z :=
  if (status =? LIBUSB_TRANSFER_COMPLETED) && has_flag (t_flags x) LIBUSB_TRANSFER_SHORT_NOT_OK then
    let rqlen := if t_type x =? LIBUSB_TRANSFER_TYPE_CONTROL
                 then t_length x - LIBUSB_CONTROL_SETUP_SIZE else t_length x in
    if rqlen =? it_transferred x then status else LIBUSB_TRANSFER_ERROR
  else status.

Definition usbi_handle_transfer_completion (t : nat) (status : Z) : Lib W Z :=
  x ← get_transfer t;
  let dev_handle := t_dev_handle x in
  r ← remove_from_flying_list t;
  upd_transfer t (fun x => set_it_state_flags (Z.land (it_state_flags x) (Z.lnot USBI_TRANSFER_IN_FLIGHT)) x) ;;
  x ← get_transfer t;
  let flags := t_flags x in
  put_transfer t (set_t_actual_length (it_transferred x) (set_t_status (completion_status x status) x)) ;;
  run_callback t (t_callback x) ;;
  (if has_flag flags LIBUSB_TRANSFER_FREE_TRANSFER then libusb_free_transfer (Some t) else mret tt) ;;
  match dev_handle with
  | None => fail NullDeref
  | Some h => y ← get_handle h; libusb_unref_device be (Some (h_dev y)) ;; mret r
  end.

Definition usbi_handle_transfer_cancellation (t : nat) : Lib W Z :=
  transfer_ctx t ;;
  x ← get_transfer t;
  usbi_handle_transfer_completion t
    (if has_flag (it_timeout_flags x) USBI_TRANSFER_TIMED_OUT
     then LIBUSB_TRANSFER_TIMED_OUT else LIBUSB_TRANSFER_CANCELLED).

Definition usbi_signal_transfer_completion (t : nat) : Lib W unit :=
  transfer_ctx t ;;
  record_event (fun e => set_completed_transfers (completed_transfers e ++ [t]) e).

(** ** Timeouts *)

Definition handle_timeout (t : nat) : Lib W unit :=
  upd_transfer t (fun x => set_it_timeout_flags (Z.lor (it_timeout_flags x) USBI_TRANSFER_TIMEOUT_HANDLED) x) ;;
  r ← libusb_cancel_transfer t;
  if r =? LIBUSB_SUCCESS then
    upd_transfer t (fun x => set_it_timeout_flags (Z.lor (it_timeout_flags x) USBI_TRANSFER_TIMED_OUT) x)
  else mret tt.

(** [pos->member.next] on the list of transfers. *)
Fixpoint next_flying (t : nat) (l : list nat) : option (option nat) :=
  match l with
  | [] => None
  | u :: l' => if (u =? t)%nat then Some (head l') else next_flying t l'
  end.

Fixpoint timeouts_loop (fuel : nat) (pos : option nat) (systime : timeval) : Lib W unit :=
  match pos with
  | None => mret tt
  | Some t =>
      match fuel with
      | O => fail OutOfFuel
      | S fuel =>
          x ← get_transfer t;
          let next :=
            l ← gets flying_transfers;
            match next_flying t l with
            | None => fail NullDeref
            | Some next => timeouts_loop fuel next systime
            end in
          if negb (timerisset (it_timeout x)) then mret tt
          else if timeout_done x then next
          else if timer_lt systime (it_timeout x) then mret tt
          else handle_timeout t ;; next
      end
  end.

Definition handle_timeouts_locked : Lib W Z :=
  l ← gets flying_transfers;
  match l with
  | [] => mret 0
  | _ =>
      '(r, systime_ts) ← backend_op (be_clock_gettime be);
      if r <? 0 then mret r
      else timeouts_loop (S (length l)) (head l) (timespec_to_timeval systime_ts) ;; mret 0
  end.
Definition handle_timeouts : Lib W Z := handle_timeouts_locked.

Definition handle_timerfd_trigger : Lib W Z :=
  r ← handle_timeouts_locked;
  if r <? 0 then mret r else arm_timerfd_for_next_timeout.

(** The search of [libusb_get_next_timeout]. *)
Fixpoint first_timeout (l : list nat) : Lib W timeval :=
  match l with
  | [] => mret (mk_tv 0 0)
  | t :: l =>
      x ← get_transfer t;
      if timeout_done x then first_timeout l
      else mret (if timerisset (it_timeout x) then it_timeout x else mk_tv 0 0)
  end.

(** Returns the code and [*tv], unset when the code is 0. *)
Definition libusb_get_next_timeout : Lib W (Z * option timeval) :=
  timerfd_used ← gets usbi_using_timerfd;
  if (timerfd_used : bool) then mret (0, None) else
  l ← gets flying_transfers;
  match l with
  | [] => mret (0, None)
  | _ =>
      next_timeout ← first_timeout l;
      if negb (timerisset next_timeout) then mret (0, None) else
      '(r, cur_ts) ← backend_op (be_clock_gettime be);
      if r <? 0 then mret (0, None) else
      let cur_tv := timespec_to_timeval cur_ts in
      if timer_lt cur_tv next_timeout then mret (1, Some (timersub next_timeout cur_tv))
      else mret (1, Some (mk_tv 0 0))
  end.

(** [get_next_timeout]: the code and [*out]. *)
Definition get_next_timeout (tv : timeval) : Lib W (Z * timeval) :=
  '(r, timeout) ← libusb_get_next_timeout;
  match timeout with
  | Some timeout =>
      if negb (timerisset timeout) then mret (1, tv)
      else mret (0, if timer_lt timeout tv then timeout else tv)
  | None => mret (0, tv)
  end.

Definition libusb_pollfds_handle_timeouts : Lib W Z :=
  timerfd_used ← gets usbi_using_timerfd; mret (if (timerfd_used : bool) then 1 else 0).

(** ** Disconnection *)

(** The first transfer of the handle that is in flight. *)
Fixpoint find_in_flight (h : nat) (l : list nat) : Lib W (option nat) :=
  match l with
  | [] => mret None
  | t :: l =>
      x ← get_transfer t;
      if bool_decide (t_dev_handle x = Some h) && has_flag (it_state_flags x) USBI_TRANSFER_IN_FLIGHT
      then mret (Some t) else find_in_flight h l
  end.

Fixpoint disconnect_loop (fuel : nat) (h : nat) : Lib W unit :=
  match fuel with
  | O => fail OutOfFuel
  | S fuel =>
      y ← get_handle h;
      get_device (h_dev y) ;;
      l ← gets flying_transfers;
      to_cancel ← find_in_flight h l;
      match to_cancel with
      | None => mret tt
      | Some t =>
          be_clear_transfer_priv be t ;;
          usbi_handle_transfer_completion t LIBUSB_TRANSFER_NO_DEVICE ;;
          disconnect_loop fuel h
      end
  end.

(** Every turn takes a transfer off the list. *)
Definition usbi_handle_disconnect (h : nat) : Lib W unit :=
  n ← gets (fun s => length (flying_transfers s));
  disconnect_loop (S n) h.
End transfers.
