(* ===== verification/Events.v ===== *)
(** * Event handling (io.c)

    The poll descriptors, the event lock, [handle_events] and the functions
    around it, and the set-up and tear-down of a context's I/O. *)

From S2P Require Import Prelude Heap ParseDesc DescApi Core Devices Hotplug Transfers.

Definition POLLIN : Z := 1.

Section events.
Context {W : Type} (be : os_backend W) (big : bool).
(** What belongs to the application: transfer callbacks, hotplug callbacks
    and the notifiers of poll descriptors ([true]: added). *)
Variable user_cb : nat -> nat -> Lib W unit.
Variable hotplug_fn : nat -> option nat -> Z -> Lib W Z.
Variable fd_cb : nat -> bool -> Z -> Z -> Lib W unit.

(** ** Poll descriptors *)

Definition libusb_set_pollfd_notifiers (added_cb removed_cb : option nat) : Lib W unit :=
  modify (fun s => set_fd_removed_cb removed_cb (set_fd_added_cb added_cb s)).

(** [usbi_fd_notification], together with the change of the list that both
    callers make just before it. *)
Definition usbi_fd_notification : Lib W unit :=
  record_event (fun e => set_event_flags (Z.lor (event_flags e) USBI_EVENT_POLLFDS_MODIFIED) e).

Definition usbi_add_pollfd (fd events : Z) : Lib W Z :=
  p ← on_mem malloc;
  match p with
  | None => mret LIBUSB_ERROR_NO_MEM
  | Some b =>
      modify (fun s => set_ev (set_pollfds_cnt (pollfds_cnt (ev s) + 1)
        (set_ipollfds (ipollfds (ev s) ++ [mk_pollfd b fd events]) (ev s))) s) ;;
      usbi_fd_notification ;;
      cb ← gets fd_added_cb;
      (match cb with Some n => fd_cb n true fd events | None => mret tt end) ;;
      mret 0
  end.

Definition usbi_remove_pollfd (fd : Z) : Lib W unit :=
  e ← gets ev;
  match find (fun p => pfd_fd p =? fd) (ipollfds e) with
  | None => mret tt
  | Some p =>
      put_ev (set_pollfds_cnt (pollfds_cnt e - 1)
        (set_ipollfds (filter (fun q => pfd_block q <> pfd_block p) (ipollfds e)) e)) ;;
      usbi_fd_notification ;;
      on_mem (free (Some (pfd_block p))) ;;
      cb ← gets fd_removed_cb;
      match cb with Some n => fd_cb n false fd 0 | None => mret tt end
  end.

(** The array of [libusb_get_pollfds]: [pollfds_cnt + 1] pointers, the last
    one null. *)
Definition libusb_get_pollfds : Lib W (option (nat * list (option pollfd))) :=
  e ← gets ev;
  p ← on_mem malloc;
  match p with
  | None => mret None
  | Some b =>
      let size := Z.to_nat (pollfds_cnt e + 1) in
      if decide (length (ipollfds e) <= size)%nat then
        let a := map Some (ipollfds e) ++ replicate (size - length (ipollfds e)) None in
        if decide (0 <= pollfds_cnt e) then mret (Some (b, <[Z.to_nat (pollfds_cnt e) := None]> a))
        else fail OutOfBounds
      else fail OutOfBounds
  end.
Definition libusb_free_pollfds (p : option (nat * list (option pollfd))) : Lib W unit :=
  on_mem (free (fst <$> p)).

(** ** The event lock *)

Definition libusb_try_lock_events : Lib W Z :=
  e ← gets ev;
  if negb (device_close e =? 0) then mret 1 else
  locked ← gets events_locked;
  if (locked : bool) then mret 1
  else modify (fun s => set_event_handler_active true (set_events_locked true s)) ;; mret 0.

(** [pthread_mutex_lock] on a mutex the thread holds never returns. *)
Definition libusb_lock_events : Lib W unit :=
  locked ← gets events_locked;
  if (locked : bool) then fail Blocked
  else modify (fun s => set_event_handler_active true (set_events_locked true s)).
Definition libusb_unlock_events : Lib W unit :=
  modify (fun s => set_events_locked false (set_event_handler_active false s)).

Definition libusb_event_handling_ok : Lib W Z :=
  e ← gets ev; mret (if device_close e =? 0 then 1 else 0).
Definition libusb_event_handler_active : Lib W Z :=
  e ← gets ev;
  if negb (device_close e =? 0) then mret 1
  else a ← gets event_handler_active; mret (if (a : bool) then 1 else 0).

Definition libusb_interrupt_event_handler : Lib W unit :=
  e ← gets ev;
  if usbi_pending_events e then mret tt
  else
    put_ev (set_event_flags (Z.lor (event_flags e) USBI_EVENT_USER_INTERRUPT) e) ;;
    usbi_signal_event ;; mret tt.

Definition libusb_wait_for_event (tv : option timeval) : Lib W Z :=
  r ← backend_op (os_cond_wait be tv);
  match tv with
  | None => mret 0
  | Some _ => mret (if r <? 0 then r else if r =? 1 then 1 else 0)
  end.

(** ** handle_events *)

(** The time for [poll], in an [int]. *)
Definition poll_timeout_ms (tv : timeval) : Z :=
  let ms := i32 (i32 (tv_sec tv * 1000) + Z.quot (tv_usec tv) 1000) in
  if Z.rem (tv_usec tv) 1000 =? 0 then ms else i32 (ms + 1).

(** "if no further pending events, clear the event pipe" *)
Definition clear_if_idle : Lib W unit :=
  e ← gets ev;
  if usbi_pending_events e then mret tt else usbi_clear_event ;; mret tt.

(** The reallocation of the poll descriptors; [false]: out of memory. *)
Definition refresh_pollfds (internal_nfds : Z) : Lib W bool :=
  e ← gets ev;
  if negb (has_flag (event_flags e) USBI_EVENT_POLLFDS_MODIFIED) then mret true else
  (match pollfds e with
   | Some (b, _) => on_mem (free (Some b))
   | None => mret tt
   end) ;;
  put_ev (set_pollfds None e) ;;
  if pollfds_cnt e <? internal_nfds then fail AssertFail else
  p ← on_mem malloc;
  match p with
  | None => mret false
  | Some b =>
      let n := Z.to_nat (pollfds_cnt e) in
      if decide (length (ipollfds e) <= n)%nat then
        let fds := map (fun p => (pfd_fd p, pfd_events p)) (ipollfds e) ++
                   replicate (n - length (ipollfds e)) (0, 0) in
        put_ev (set_pollfds (Some (b, fds))
          (set_event_flags (Z.land (event_flags e) (Z.lnot USBI_EVENT_POLLFDS_MODIFIED)) e)) ;;
        clear_if_idle ;;
        mret true
      else fail OutOfBounds
  end.

(** The first completed transfer leaves the list. *)
Definition take_completed : Lib W (option nat) :=
  e ← gets ev;
  match completed_transfers e with
  | [] => mret None
  | t :: rest => put_ev (set_completed_transfers rest e) ;; mret (Some t)
  end.

(** The loop over the completed transfers; [fuel] bounds its turns. *)
Fixpoint complete_loop (fuel : nat) : Lib W Z :=
  itransfer ← take_completed;
  match itransfer with
  | None => mret 0
  | Some t =>
      match fuel with
      | O => fail OutOfFuel
      | S fuel =>
          ret ← be_handle_transfer_completion be t;
          if ret =? 0 then complete_loop fuel else mret ret
      end
  end.

(** The user interrupt is consumed and the first hotplug message leaves the
    list. *)
Definition take_message : Lib W (option hotplug_message) :=
  e ← gets ev;
  let e := if has_flag (event_flags e) USBI_EVENT_USER_INTERRUPT
           then set_event_flags (Z.land (event_flags e) (Z.lnot USBI_EVENT_USER_INTERRUPT)) e else e in
  put_ev (set_hotplug_msgs (tail (hotplug_msgs e)) e) ;;
  mret (head (hotplug_msgs e)).

Definition process_message (m : hotplug_message) : Lib W unit :=
  usbi_hotplug_match big hotplug_fn (msg_device m) (msg_event m) ;;
  (if msg_event m =? LIBUSB_HOTPLUG_EVENT_DEVICE_LEFT then libusb_unref_device be (msg_device m) else mret tt) ;;
  on_mem (free (Some (msg_block m))).

(** The branch for the event pipe: the code of the backend, and whether a
    hotplug message was received. *)
Definition handle_event_pipe (fuel : nat) : Lib W (Z * bool) :=
  message ← take_message;
  ret ← complete_loop fuel;
  clear_if_idle ;;
  (match message with
   | Some m => process_message m
   | None => mret tt
   end) ;;
  mret (ret, match message with Some _ => true | None => false end).

(** The poll descriptors with their results. *)
Definition with_revents (fds : list (Z * Z)) (revents : list Z) : list (Z * Z) :=
  zip_with (fun fd rev => (fst fd, rev)) fds revents.

(** From [redo_poll] to [done]. *)
Fixpoint poll_loop (fuel : nat) (fds : option (list (Z * Z))) (internal_nfds timeout_ms : Z) : Lib W Z :=
  match fuel with
  | O => fail OutOfFuel
  | S fuel' =>
      s ← get;
      let readable := 0 <? pipe_bytes (ev s) in
      res ← backend_op (os_poll be (default [] fds) timeout_ms readable);
      let r := poll_code res in
      if r =? 0 then handle_timeouts be
      else if (r =? -1) && poll_eintr res then mret LIBUSB_ERROR_INTERRUPTED
      else if r <? 0 then mret LIBUSB_ERROR_IO
      else
      match fds with
      | None => fail NullDeref
      | Some fds' =>
          rev0 ← lift (rd (poll_revents res) 0);
          '(ret, special, r) ← (if rev0 =? 0 then mret (0, false, r)
                                else '(ret, special) ← handle_event_pipe fuel; mret (ret, special, r - 1));
          if negb (ret =? 0) then mret ret else
          let handled (r : Z) (special : bool) : Lib W Z :=
            if (r =? 0) && special then poll_loop fuel' fds internal_nfds 0 else mret r in
          if negb (rev0 =? 0) && (r =? 0) then handled r special else
          s ← get;
          rev1 ← (if usbi_using_timerfd s then lift (rd (poll_revents res) 1) else mret 0);
          '(ret, special, r) ← (if rev1 =? 0 then mret (0, special, r)
                                else ret ← handle_timerfd_trigger be; mret (ret, true, r - 1));
          if ret <? 0 then mret ret
          else if negb (rev1 =? 0) && (r =? 0) then handled r special
          else
            r ← be_handle_events be
              (drop (Z.to_nat internal_nfds) (with_revents fds' (poll_revents res))) r;
            handled r special
      end
  end.

Definition handle_events (fuel : nat) (tv : timeval) : Lib W Z :=
  handling ← gets handling_events;
  if (handling : bool) then mret LIBUSB_ERROR_BUSY else
  modify (set_handling_events true) ;;
  timerfd_used ← gets usbi_using_timerfd;
  let internal_nfds := if (timerfd_used : bool) then 2 else 1 in
  ok ← refresh_pollfds internal_nfds;
  r ← (if (ok : bool) then
         e ← gets ev;
         poll_loop fuel (snd <$> pollfds e) internal_nfds (poll_timeout_ms tv)
       else mret LIBUSB_ERROR_NO_MEM);
  modify (set_handling_events false) ;;
  mret r.

(** ** The entry points *)

(** [*completed]; a null pointer never completes. *)
Definition is_completed (completed : option nat) : Lib W bool :=
  match completed with
  | None => mret false
  | Some v => s ← get; mret (negb (default 0 (ints s !! v) =? 0))
  end.

(** From the label [retry] on; [r0] is the value of [r] there. *)
Fixpoint handle_events_retry (fuel : nat) (poll_timeout : timeval) (completed : option nat) : Lib W Z :=
  match fuel with
  | O => fail OutOfFuel
  | S fuel =>
      r ← libusb_try_lock_events;
      if r =? 0 then
        c ← is_completed completed;
        r ← (if (c : bool) then mret 0 else handle_events fuel poll_timeout);
        libusb_unlock_events ;;
        mret r
      else
        c ← is_completed completed;
        if (c : bool) then mret 0 else
        active ← libusb_event_handler_active;
        if active =? 0 then handle_events_retry fuel poll_timeout completed
        else
          r ← libusb_wait_for_event (Some poll_timeout);
          if r <? 0 then mret r
          else if r =? 1 then handle_timeouts be
          else mret 0
  end.

Definition libusb_handle_events_timeout_completed (fuel : nat) (tv : timeval) (completed : option nat) : Lib W Z :=
  '(r, poll_timeout) ← get_next_timeout be tv;
  if negb (r =? 0) then handle_timeouts be else handle_events_retry fuel poll_timeout completed.

Definition libusb_handle_events_timeout (fuel : nat) (tv : timeval) : Lib W Z :=
  libusb_handle_events_timeout_completed fuel tv None.
Definition libusb_handle_events (fuel : nat) : Lib W Z :=
  libusb_handle_events_timeout_completed fuel (mk_tv 60 0) None.
Definition libusb_handle_events_completed (fuel : nat) (completed : option nat) : Lib W Z :=
  libusb_handle_events_timeout_completed fuel (mk_tv 60 0) completed.

Definition libusb_handle_events_locked (fuel : nat) (tv : timeval) : Lib W Z :=
  '(r, poll_timeout) ← get_next_timeout be tv;
  if negb (r =? 0) then handle_timeouts be else handle_events fuel poll_timeout.

(** ** Set-up and tear-down *)

(** [usbi_pipe] (os/poll_posix.c) is the system's; it is empty at first. *)
Definition usbi_io_init : Lib W Z :=
  modify (fun s => set_io_ready true (set_flying_transfers [] (set_ev (set_ipollfds [] (set_hotplug_msgs []
    (set_completed_transfers [] (ev s)))) s))) ;;
  '(r, (fd0, fd1)) ← backend_op (os_pipe be);
  if r <? 0 then mret LIBUSB_ERROR_OTHER else
  modify (fun s => set_event_pipe (fd0, fd1) (set_ev (set_pipe_bytes 0 (ev s)) s)) ;;
  r ← usbi_add_pollfd fd0 POLLIN;
  if r <? 0 then backend_op (os_close be fd0) ;; backend_op (os_close be fd1) ;; mret r else
  fd ← backend_op (os_timerfd_create be);
  if fd <? 0 then modify (set_timerfd None) ;; mret 0 else
  modify (fun s => set_timerfd_fd fd (set_timerfd (Some None) s)) ;;
  r ← usbi_add_pollfd fd POLLIN;
  if r <? 0 then
    backend_op (os_close be fd) ;;
    usbi_remove_pollfd fd0 ;;
    backend_op (os_close be fd0) ;; backend_op (os_close be fd1) ;;
    mret r
  else mret 0.

Definition usbi_io_exit : Lib W unit :=
  s ← get;
  usbi_remove_pollfd (fst (event_pipe s)) ;;
  backend_op (os_close be (fst (event_pipe s))) ;;
  backend_op (os_close be (snd (event_pipe s))) ;;
  (if usbi_using_timerfd s then
     usbi_remove_pollfd (timerfd_fd s) ;;
     backend_op (os_close be (timerfd_fd s))
   else mret tt) ;;
  s ← get;
  match pollfds (ev s) with
  | Some (b, _) => on_mem (free (Some b))
  | None => mret tt
  end.
End events.
