(* ===== verification/Handles.v ===== *)
(** * Device handles (core.c)

    Opening and closing devices, the bit mask of claimed interfaces, and the
    operations that are passed to the backend after checks. *)

From S2P Require Import Prelude Heap ParseDesc DescApi Bos Core Devices Hotplug Transfers Events.

Definition LIBUSB_REQUEST_GET_CONFIGURATION : Z := 8.

(** ** The bit mask *)

(** [1 << n] in [int]; the shift into the sign bit is taken as the negative
    number every compiler makes of it. *)
Definition shl_int (n : Z) : outcome Z :=
  if (n <? 0) || (32 <=? n) then Fault ShiftUB else Ok (i32 (Z.shiftl 1 n)).

Section handles.
Context {W : Type} (be : os_backend W) (big : bool).

(** [dev_handle->dev->attached] *)
Definition is_attached (h : nat) : Lib W bool :=
  y ← get_handle h; x ← get_device (h_dev y); mret (attached x).

Definition libusb_open (dev : nat) : Lib W (Z * option nat) :=
  x ← get_device dev;
  if negb (attached x) then mret (LIBUSB_ERROR_NO_DEVICE, None) else
  p ← on_mem malloc;
  match p with
  | None => mret (LIBUSB_ERROR_NO_MEM, None)
  | Some h =>
      r ← backend_op (os_mutex_init be);
      if negb (r =? 0) then on_mem (free (Some h)) ;; mret (LIBUSB_ERROR_OTHER, None) else
      d ← libusb_ref_device dev;
      put_handle h (mk_handle 0 d 0) ;;
      r ← be_open be h;
      if r <? 0 then
        libusb_unref_device be (Some dev) ;;
        on_mem (free (Some h)) ;;
        modify (fun s => set_handles (delete h (handles s)) s) ;;
        mret (r, None)
      else
        modify (fun s => set_open_devs (h :: open_devs s) s) ;;
        mret (0, Some h)
  end.

(** The search of [libusb_open_device_with_vid_pid]. *)
Fixpoint find_vid_pid (vendor_id product_id : Z) (devs : list nat) : Lib W (option nat) :=
  match devs with
  | [] => mret None
  | d :: devs =>
      x ← get_device d;
      if (idVendor big (device_descriptor x) =? vendor_id) && (idProduct big (device_descriptor x) =? product_id)
      then mret (Some d) else find_vid_pid vendor_id product_id devs
  end.

Definition libusb_open_device_with_vid_pid (vendor_id product_id : Z) : Lib W (option nat) :=
  '(_, devs) ← libusb_get_device_list be;
  match devs with
  | None => mret None
  | Some (b, devs) =>
      found ← find_vid_pid vendor_id product_id devs;
      dev_handle ← (match found with
                    | None => mret None
                    | Some dev => '(r, h) ← libusb_open dev; mret (if r <? 0 then None else h)
                    end);
      libusb_free_device_list be (Some (b, devs)) true ;;
      mret dev_handle
  end.

(** Every transfer of the handle leaves the flying list and forgets the
    handle; [l] is the rest of the list (safe iteration). *)
Fixpoint detach_transfers (h : nat) (l : list nat) : Lib W unit :=
  match l with
  | [] => mret tt
  | t :: l =>
      x ← get_transfer t;
      (if bool_decide (t_dev_handle x = Some h) then
         fl ← gets flying_transfers;
         fl ← lift (list_del t fl);
         modify (set_flying_transfers fl) ;;
         put_transfer t (set_t_dev_handle None x)
       else mret tt) ;;
      detach_transfers h l
  end.

Definition do_close (h : nat) : Lib W unit :=
  l ← gets flying_transfers;
  detach_transfers h l ;;
  od ← gets open_devs;
  od ← lift (list_del h od);
  modify (set_open_devs od) ;;
  be_close be h ;;
  y ← get_handle h;
  libusb_unref_device be (Some (h_dev y)) ;;
  on_mem (free (Some h)) ;;
  modify (fun s => set_handles (delete h (handles s)) s).

(** [ctx->device_close++] with the event, and [--] with the clearing of the
    pipe: the two critical sections of [libusb_close]. *)
Definition close_begin : Lib W unit :=
  record_event (fun e => set_device_close (device_close e + 1) e).
Definition close_end : Lib W unit :=
  modify (fun s => set_ev (set_device_close (device_close (ev s) - 1) (ev s)) s) ;;
  e ← gets ev;
  if usbi_pending_events e then mret tt else usbi_clear_event ;; mret tt.

Definition libusb_close (dev_handle : option nat) : Lib W unit :=
  match dev_handle with
  | None => mret tt
  | Some h =>
      y ← get_handle h;
      get_device (h_dev y) ;;
      handling ← gets handling_events;
      if (handling : bool) then do_close h
      else
        close_begin ;;
        libusb_lock_events ;;
        do_close h ;;
        close_end ;;
        libusb_unlock_events
  end.

Definition libusb_get_device (h : nat) : Lib W nat := y ← get_handle h; mret (h_dev y).

(** ** Configuration and interfaces *)

(** Returns the code and [*config]. *)
Definition libusb_get_configuration `{ControlTransfer (lib W)} (h : nat) (config : Z) : Lib W (Z * Z) :=
  '(r, config) ← (match be_get_configuration be with
                  | Some op => op h config
                  | None => mret (LIBUSB_ERROR_NOT_SUPPORTED, config)
                  end);
  if r =? LIBUSB_ERROR_NOT_SUPPORTED then
    '(r, tmp) ← control_transfer LIBUSB_ENDPOINT_IN LIBUSB_REQUEST_GET_CONFIGURATION 0 0 [0] 1 1000;
    if r =? 0 then mret (LIBUSB_ERROR_IO, config)
    else if r =? 1 then v ← lift (rd tmp 0); mret (0, v)
    else mret (r, config)
  else mret (r, config).

Definition libusb_set_configuration (h : nat) (configuration : Z) : Lib W Z :=
  be_set_configuration be h configuration.

(** [claimed_interfaces & (1 << interface_number)] *)
Definition is_claimed (y : device_handle) (interface_number : Z) : outcome bool :=
  bit ← shl_int interface_number;
  mret (negb (Z.land (claimed_interfaces y) (ulong bit) =? 0)).

Definition libusb_claim_interface (h : nat) (interface_number : Z) : Lib W Z :=
  if USB_MAXINTERFACES <=? interface_number then mret LIBUSB_ERROR_INVALID_PARAM else
  att ← is_attached h;
  if negb att then mret LIBUSB_ERROR_NO_DEVICE else
  y ← get_handle h;
  claimed ← lift (is_claimed y interface_number);
  if (claimed : bool) then mret 0 else
  r ← be_claim_interface be h interface_number;
  (if r =? 0 then
     bit ← lift (shl_int interface_number);
     put_handle h (set_claimed_interfaces (Z.lor (claimed_interfaces y) (ulong bit)) y)
   else mret tt) ;;
  mret r.

Definition libusb_release_interface (h : nat) (interface_number : Z) : Lib W Z :=
  if USB_MAXINTERFACES <=? interface_number then mret LIBUSB_ERROR_INVALID_PARAM else
  y ← get_handle h;
  claimed ← lift (is_claimed y interface_number);
  if negb claimed then mret LIBUSB_ERROR_NOT_FOUND else
  r ← be_release_interface be h interface_number;
  (if r =? 0 then
     bit ← lift (shl_int interface_number);
     put_handle h (set_claimed_interfaces (Z.land (claimed_interfaces y) (ulong (Z.lnot bit))) y)
   else mret tt) ;;
  mret r.

Definition libusb_set_interface_alt_setting (h : nat) (interface_number alternate_setting : Z) : Lib W Z :=
  if USB_MAXINTERFACES <=? interface_number then mret LIBUSB_ERROR_INVALID_PARAM else
  att ← is_attached h;
  if negb att then mret LIBUSB_ERROR_NO_DEVICE else
  y ← get_handle h;
  claimed ← lift (is_claimed y interface_number);
  if negb claimed then mret LIBUSB_ERROR_NOT_FOUND else
  be_set_interface_altsetting be h interface_number alternate_setting.

(** ** Operations of the backend behind a check *)

(** [if (!dev_handle->dev->attached) return gone;] *)
Definition when_attached {A} (h : nat) (gone : A) (m : Lib W A) : Lib W A :=
  att ← is_attached h;
  if negb att then mret gone else m.
Definition optional_op {A} (op : option (Lib W A)) (missing : A) : Lib W A :=
  match op with
  | Some op => op
  | None => mret missing
  end.

Definition libusb_clear_halt (h : nat) (endpoint : Z) : Lib W Z :=
  when_attached h LIBUSB_ERROR_NO_DEVICE (be_clear_halt be h endpoint).
Definition libusb_reset_device (h : nat) : Lib W Z :=
  when_attached h LIBUSB_ERROR_NO_DEVICE (be_reset_device be h).
Definition libusb_alloc_streams (h : nat) (num_streams : Z) (endpoints : list Z) (num_endpoints : Z) : Lib W Z :=
  when_attached h LIBUSB_ERROR_NO_DEVICE
    (optional_op (option_map (fun op => op h num_streams endpoints num_endpoints) (be_alloc_streams be)) LIBUSB_ERROR_NOT_SUPPORTED).
Definition libusb_free_streams (h : nat) (endpoints : list Z) (num_endpoints : Z) : Lib W Z :=
  when_attached h LIBUSB_ERROR_NO_DEVICE
    (optional_op (option_map (fun op => op h endpoints num_endpoints) (be_free_streams be)) LIBUSB_ERROR_NOT_SUPPORTED).
Definition libusb_dev_mem_alloc (h : nat) (length : Z) : Lib W (option nat) :=
  when_attached h None (optional_op (option_map (fun op => op h length) (be_dev_mem_alloc be)) None).
Definition libusb_dev_mem_free (h buffer : nat) (length : Z) : Lib W Z :=
  optional_op (option_map (fun op => op h buffer length) (be_dev_mem_free be)) LIBUSB_ERROR_NOT_SUPPORTED.
Definition libusb_kernel_driver_active (h : nat) (interface_number : Z) : Lib W Z :=
  when_attached h LIBUSB_ERROR_NO_DEVICE
    (optional_op (option_map (fun op => op h interface_number) (be_kernel_driver_active be)) LIBUSB_ERROR_NOT_SUPPORTED).
Definition libusb_detach_kernel_driver (h : nat) (interface_number : Z) : Lib W Z :=
  when_attached h LIBUSB_ERROR_NO_DEVICE
    (optional_op (option_map (fun op => op h interface_number) (be_detach_kernel_driver be)) LIBUSB_ERROR_NOT_SUPPORTED).
Definition libusb_attach_kernel_driver (h : nat) (interface_number : Z) : Lib W Z :=
  when_attached h LIBUSB_ERROR_NO_DEVICE
    (optional_op (option_map (fun op => op h interface_number) (be_attach_kernel_driver be)) LIBUSB_ERROR_NOT_SUPPORTED).

Definition libusb_set_auto_detach_kernel_driver (h : nat) (enable : Z) : Lib W Z :=
  if Z.land (be_caps be) USBI_CAP_SUPPORTS_DETACH_KERNEL_DRIVER =? 0 then mret LIBUSB_ERROR_NOT_SUPPORTED
  else (y ← get_handle h; put_handle h (set_auto_detach_kernel_driver enable y) ;; mret LIBUSB_SUCCESS).
End handles.
