(* ===== verification/Sync.v ===== *)
(** * Synchronous transfers (sync.c, libusb.h)

    The blocking control, bulk and interrupt transfers on top of the
    asynchronous interface, with the helpers of libusb.h that fill in a
    transfer. *)

From S2P Require Import Prelude Heap ParseDesc DescApi Bos Core Devices Transfers Events.

Definition LIBUSB_ENDPOINT_OUT : Z := 0.
Definition LIBUSB_ENDPOINT_DIR_MASK : Z := 128.

(** ** Filling in a transfer (libusb.h) *)

(** The eight bytes of [struct libusb_control_setup]. *)
Definition libusb_fill_control_setup (big : bool) (bmRequestType bRequest wValue wIndex wLength : Z) : list Z :=
  let le16 x := host_bytes big 2 (libusb_le16_to_cpu big x) in
  [bmRequestType; bRequest] ++ le16 wValue ++ le16 wIndex ++ le16 wLength.

(** [setup->wLength], converted to the host's order. *)
Definition setup_wLength (big : bool) (buffer : list Z) : Z :=
  libusb_le16_to_cpu big (host_value big (take 2 (drop 6 buffer))).

Definition libusb_control_transfer_get_data (buffer : list Z) : outcome (list Z) :=
  advance buffer LIBUSB_CONTROL_SETUP_SIZE.

(** [buffer]: the block with its bytes. *)
Definition libusb_fill_control_transfer (big : bool) (dev_handle : nat) (buffer : option (nat * list Z))
    (callback : option transfer_cb) (user_data : nat) (timeout : Z) (t : transfer) : transfer :=
  let t := set_t_timeout timeout (set_t_type LIBUSB_TRANSFER_TYPE_CONTROL (set_t_endpoint 0
    (set_t_dev_handle (Some dev_handle) t))) in
  let t := match buffer with
           | None => set_t_buffer None t
           | Some (b, bytes) =>
               set_t_length (LIBUSB_CONTROL_SETUP_SIZE + setup_wLength big bytes)
                 (set_t_data bytes (set_t_buffer (Some b) t))
           end in
  set_t_callback callback (set_t_user_data user_data t).

Definition libusb_fill_bulk_transfer (dev_handle : nat) (endpoint : Z) (buffer : option nat) (data : list Z)
    (length : Z) (callback : option transfer_cb) (user_data : nat) (timeout : Z) (t : transfer) : transfer :=
  set_t_callback callback (set_t_user_data user_data (set_t_length length (set_t_data data
    (set_t_buffer buffer (set_t_timeout timeout (set_t_type LIBUSB_TRANSFER_TYPE_BULK
      (set_t_endpoint endpoint (set_t_dev_handle (Some dev_handle) t)))))))).

Definition libusb_fill_bulk_stream_transfer (dev_handle : nat) (endpoint stream_id : Z) (buffer : option nat)
    (data : list Z) (length : Z) (callback : option transfer_cb) (user_data : nat) (timeout : Z) (t : transfer)
    : transfer :=
  set_it_stream_id stream_id (set_t_type LIBUSB_TRANSFER_TYPE_BULK_STREAM
    (libusb_fill_bulk_transfer dev_handle endpoint buffer data length callback user_data timeout t)).

Definition libusb_fill_interrupt_transfer (dev_handle : nat) (endpoint : Z) (buffer : option nat) (data : list Z)
    (length : Z) (callback : option transfer_cb) (user_data : nat) (timeout : Z) (t : transfer) : transfer :=
  set_t_callback callback (set_t_user_data user_data (set_t_length length (set_t_data data
    (set_t_buffer buffer (set_t_timeout timeout (set_t_type LIBUSB_TRANSFER_TYPE_INTERRUPT
      (set_t_endpoint endpoint (set_t_dev_handle (Some dev_handle) t)))))))).

Definition libusb_fill_iso_transfer (dev_handle : nat) (endpoint : Z) (buffer : option nat) (data : list Z)
    (length num_iso_packets : Z) (callback : option transfer_cb) (user_data : nat) (timeout : Z) (t : transfer)
    : transfer :=
  set_t_callback callback (set_t_user_data user_data (set_t_num_iso_packets num_iso_packets
    (set_t_length length (set_t_data data (set_t_buffer buffer (set_t_timeout timeout
      (set_t_type LIBUSB_TRANSFER_TYPE_ISOCHRONOUS (set_t_endpoint endpoint
        (set_t_dev_handle (Some dev_handle) t))))))))).

(** The loop writes [num_iso_packets] descriptors. *)
Definition libusb_set_iso_packet_lengths (length : Z) (t : transfer) : outcome transfer :=
  let n := Z.to_nat (t_num_iso_packets t) in
  l ← rd_n (t_iso_packets t) n;
  mret (set_t_iso_packets (map (set_iso_length length) l ++ drop n (t_iso_packets t)) t).

Definition INT_MAX : Z := 2 ^ 31 - 1.

(** The offset of a packet in the buffer; [None] is the null pointer. *)
Definition libusb_get_iso_packet_buffer (t : transfer) (packet : Z) : outcome (option Z) :=
  if INT_MAX <? packet then mret None
  else if t_num_iso_packets t <=? packet then mret None
  else
    l ← rd_n (t_iso_packets t) (Z.to_nat packet);
    mret (Some (foldl (fun offset p => offset + iso_length p) 0 l)).

Definition libusb_get_iso_packet_buffer_simple (t : transfer) (packet : Z) : outcome (option Z) :=
  if INT_MAX <? packet then mret None
  else if t_num_iso_packets t <=? packet then mret None
  else
    l ← rd_n (t_iso_packets t) 1;
    mret (Some (i32 (i32 (iso_length (hd (mk_iso 0 0 0) l)) * packet))).

(** ** Waiting *)

Section sync.
Context {W : Type} (be : os_backend W) (big : bool).
Variable user_cb : nat -> nat -> Lib W unit.
Variable hotplug_fn : nat -> option nat -> Z -> Lib W Z.
(** [fuel]: the turns of the loops that wait; [junk]: fresh memory. *)
Variable fuel : nat.
Variable junk : nat -> list Z.

(** The variable [int completed = 0] on the stack, and its end of life. *)
Definition new_int : Lib W nat := fun s =>
  let v := fresh (dom (ints s)) in Ok (v, set_ints (<[v := 0]> (ints s)) s).
Definition drop_int (v : nat) : Lib W unit := modify (fun s => set_ints (delete v (ints s)) s).

Fixpoint wait_loop (n : nat) (t completed : nat) : Lib W unit :=
  match n with
  | O => fail OutOfFuel
  | S n =>
      c ← is_completed (Some completed);
      if (c : bool) then mret tt else
      r ← libusb_handle_events_completed be big hotplug_fn fuel (Some completed);
      (if (r <? 0) && negb (r =? LIBUSB_ERROR_INTERRUPTED)
       then libusb_cancel_transfer be t ;; mret tt else mret tt) ;;
      wait_loop n t completed
  end.

Definition sync_transfer_wait_for_completion (t : nat) : Lib W unit :=
  x ← get_transfer t;
  transfer_ctx t ;;
  wait_loop fuel t (t_user_data x).

(** The switch over the status; [ok] is the result of a completed one. *)
Definition sync_status (status ok : Z) : Z :=
  if status =? LIBUSB_TRANSFER_COMPLETED then ok
  else if status =? LIBUSB_TRANSFER_TIMED_OUT then LIBUSB_ERROR_TIMEOUT
  else if status =? LIBUSB_TRANSFER_STALL then LIBUSB_ERROR_PIPE
  else if status =? LIBUSB_TRANSFER_NO_DEVICE then LIBUSB_ERROR_NO_DEVICE
  else if status =? LIBUSB_TRANSFER_OVERFLOW then LIBUSB_ERROR_OVERFLOW
  else if (status =? LIBUSB_TRANSFER_ERROR) || (status =? LIBUSB_TRANSFER_CANCELLED) then LIBUSB_ERROR_IO
  else LIBUSB_ERROR_OTHER.

(** ** Control transfers *)

Definition libusb_control_transfer (dev_handle : nat) (bmRequestType bRequest wValue wIndex : Z)
    (data : list Z) (wLength timeout : Z) : Lib W (Z * list Z) :=
  y ← get_handle dev_handle;
  get_device (h_dev y) ;;
  handling ← gets handling_events;
  if (handling : bool) then mret (LIBUSB_ERROR_BUSY, data) else
  transfer ← libusb_alloc_transfer 0;
  match transfer with
  | None => mret (LIBUSB_ERROR_NO_MEM, data)
  | Some t =>
      buffer ← on_mem malloc;
      match buffer with
      | None => libusb_free_transfer (Some t) ;; mret (LIBUSB_ERROR_NO_MEM, data)
      | Some b =>
          let setup := libusb_fill_control_setup big bmRequestType bRequest wValue wIndex wLength in
          payload ← (if Z.land bmRequestType LIBUSB_ENDPOINT_DIR_MASK =? LIBUSB_ENDPOINT_OUT
                     then lift (rd_n data (Z.to_nat wLength)) else mret (junk (Z.to_nat wLength)));
          completed ← new_int;
          upd_transfer t (fun x => set_t_flags LIBUSB_TRANSFER_FREE_BUFFER
            (libusb_fill_control_transfer big dev_handle (Some (b, setup ++ payload))
               (Some SyncTransferCb) completed timeout x)) ;;
          r ← libusb_submit_transfer be t;
          if r <? 0 then libusb_free_transfer (Some t) ;; drop_int completed ;; mret (r, data) else
          sync_transfer_wait_for_completion t ;;
          x ← get_transfer t;
          data ← (if Z.land bmRequestType LIBUSB_ENDPOINT_DIR_MASK =? LIBUSB_ENDPOINT_IN
                  then
                    src ← lift (libusb_control_transfer_get_data (t_data x));
                    bytes ← lift (rd_n src (Z.to_nat (t_actual_length x)));
                    lift (store data 0 bytes)
                  else mret data);
          let r := sync_status (t_status x) (t_actual_length x) in
          libusb_free_transfer (Some t) ;;
          drop_int completed ;;
          mret (r, data)
      end
  end.

(** ** Bulk and interrupt transfers *)

(** [buffer] is the caller's block with its bytes.  Returns the code, the
    new value of [*transferred] if one is stored, and the bytes. *)
Definition do_sync_bulk_transfer (dev_handle : nat) (endpoint : Z) (buffer : nat) (data : list Z)
    (length timeout type : Z) : Lib W (Z * option Z * list Z) :=
  y ← get_handle dev_handle;
  get_device (h_dev y) ;;
  handling ← gets handling_events;
  if (handling : bool) then mret (LIBUSB_ERROR_BUSY, None, data) else
  transfer ← libusb_alloc_transfer 0;
  match transfer with
  | None => mret (LIBUSB_ERROR_NO_MEM, None, data)
  | Some t =>
      completed ← new_int;
      upd_transfer t (fun x => set_t_type type
        (libusb_fill_bulk_transfer dev_handle endpoint (Some buffer) data length
           (Some SyncTransferCb) completed timeout x)) ;;
      r ← libusb_submit_transfer be t;
      if r <? 0 then libusb_free_transfer (Some t) ;; drop_int completed ;; mret (r, None, data) else
      sync_transfer_wait_for_completion t ;;
      x ← get_transfer t;
      let transferred := t_actual_length x in
      let r := sync_status (t_status x) 0 in
      libusb_free_transfer (Some t) ;;
      drop_int completed ;;
      mret (r, Some transferred, t_data x)
  end.

Definition libusb_bulk_transfer (dev_handle : nat) (endpoint : Z) (buffer : nat) (data : list Z)
    (length timeout : Z) : Lib W (Z * option Z * list Z) :=
  do_sync_bulk_transfer dev_handle endpoint buffer data length timeout LIBUSB_TRANSFER_TYPE_BULK.

Definition libusb_interrupt_transfer (dev_handle : nat) (endpoint : Z) (buffer : nat) (data : list Z)
    (length timeout : Z) : Lib W (Z * option Z * list Z) :=
  do_sync_bulk_transfer dev_handle endpoint buffer data length timeout LIBUSB_TRANSFER_TYPE_INTERRUPT.
End sync.
