(* ===== verification/Strerror.v ===== *)
(** * Error messages (strerror.c)

    The message tables of [libusb_strerror], in UTF-8, and the choice of the
    language by [libusb_setlocale]. *)

From S2P Require Import Prelude.
From Stdlib Require Import Ascii.

Local Open Scope string_scope.

Definition usbi_locale_supported : list string := ["en"; "nl"; "fr"; "ru"].

Definition usbi_localized_errors : list (list string) := [
  (* English (en) *)
  ["Success";
   "Input/Output Error";
   "Invalid parameter";
   "Access denied (insufficient permissions)";
   "No such device (it may have been disconnected)";
   "Entity not found";
   "Resource busy";
   "Operation timed out";
   "Overflow";
   "Pipe error";
   "System call interrupted (perhaps due to signal)";
   "Insufficient memory";
   "Operation not supported or unimplemented on this platform";
   "Other error"];
  (* Dutch (nl) *)
  ["Gelukt";
   "Invoer-/uitvoerfout";
   "Ongeldig argument";
   "Toegang geweigerd (onvoldoende toegangsrechten)";
   "Apparaat bestaat niet (verbinding met apparaat verbroken?)";
   "Niet gevonden";
   "Apparaat of hulpbron is bezig";
   "Bewerking verlopen";
   "Waarde is te groot";
   "Gebroken pijp";
   "Onderbroken systeemaanroep";
   "Onvoldoende geheugen beschikbaar";
   "Bewerking wordt niet ondersteund";
   "Andere fout"];
  (* French (fr) *)
  ["Succès";
   "Erreur d'entrée/sortie";
   "Paramètre invalide";
   "Accès refusé (permissions insuffisantes)";
   "Périphérique introuvable (peut-être déconnecté)";
   "Elément introuvable";
   "Resource déjà occupée";
   "Operation expirée";
   "Débordement";
   "Erreur de pipe";
   "Appel système abandonné (peut-être à cause d’un signal)";
   "Mémoire insuffisante";
   "Opération non supportée or non implémentée sur cette plateforme";
   "Autre erreur"];
  (* Russian (ru) *)
  ["Успех";
   "Ошибка ввода/вывода";
   "Неверный параметр";
   "Доступ запрещён (не хватает прав)";
   "Устройство отсутствует (возможно, оно было отсоединено)";
   "Элемент не найден";
   "Ресурс занят";
   "Истекло время ожидания операции";
   "Переполнение";
   "Ошибка канала";
   "Системный вызов прерван (возможно, сигналом)";
   "Память исчерпана";
   "Операция не поддерживается данной платформой";
   "Неизвестная ошибка"]
].

Local Open Scope Z_scope.

(** ASCII case folding of [strncasecmp]. *)
Definition tolower (c : ascii) : ascii :=
  let n := N_of_ascii c in
  if ((65 <=? n) && (n <=? 90))%N then ascii_of_N (n + 32) else c.
Fixpoint strncasecmp_eq (n : nat) (a b : string) : bool :=
  match n with
  | O => true
  | S n =>
      match a, b with
      | String x a, String y b => bool_decide (tolower x = tolower y) && strncasecmp_eq n a b
      | EmptyString, EmptyString => true
      | _, _ => false
      end
  end.

(** The loop over the supported languages. *)
Fixpoint find_locale (i : nat) (l : list string) (locale : string) : option nat :=
  match l with
  | [] => None
  | s :: l => if strncasecmp_eq 2 s locale then Some i else find_locale (S i) l locale
  end.

Definition locale_separator (c : ascii) : bool :=
  bool_decide (c = "-"%char \/ c = "_"%char \/ c = "."%char).

(** The state is [usbi_locale]. *)
Definition libusb_setlocale (locale : option string) (usbi_locale : nat) : Z * nat :=
  match locale with
  | None => (LIBUSB_ERROR_INVALID_PARAM, usbi_locale)
  | Some s =>
      if (String.length s <? 2)%nat ||
         ((2 <? String.length s)%nat &&
          match String.get 2 s with Some c => negb (locale_separator c) | None => false end)
      then (LIBUSB_ERROR_INVALID_PARAM, usbi_locale)
      else match find_locale 0 usbi_locale_supported s with
           | None => (LIBUSB_ERROR_NOT_FOUND, usbi_locale)
           | Some i => (LIBUSB_SUCCESS, i)
           end
  end.

Definition libusb_strerror (usbi_locale : nat) (errcode : Z) : outcome string :=
  let errcode_index := i32 (- errcode) in
  let errcode_index := if (errcode_index <? 0) || (LIBUSB_ERROR_COUNT <=? errcode_index)
                       then LIBUSB_ERROR_COUNT - 1 else errcode_index in
  match usbi_localized_errors !! usbi_locale with
  | None => Fault OutOfBounds
  | Some messages =>
      match messages !! Z.to_nat errcode_index with
      | Some m => Ok m
      | None => Fault OutOfBounds
      end
  end.
