(* ===== verification/Log.v ===== *)
(** * Logging (core.c)

    [usbi_log_v] with the buffer of 1024 bytes it formats a line in, the
    log levels, and the names of the error codes. *)

From S2P Require Import Prelude Text ParseDesc.
From Stdlib Require Import Ascii.

Definition USBI_MAX_LOG_LEN : nat := 1024.
Definition LIBUSB_LOG_LEVEL_NONE : Z := 0.
Definition LIBUSB_LOG_LEVEL_ERROR : Z := 1.
Definition LIBUSB_LOG_LEVEL_WARNING : Z := 2.
Definition LIBUSB_LOG_LEVEL_INFO : Z := 3.
Definition LIBUSB_LOG_LEVEL_DEBUG : Z := 4.

(** Strings as the bytes of C strings. *)
Definition bytes_of (s : string) : list Z :=
  map (fun c => Z.of_nat (nat_of_ascii c)) (String.list_ascii_of_string s).
Definition USBI_LOG_LINE_END : list Z := [10].
(** [sizeof(USBI_LOG_LINE_END)] counts the terminator. *)
Definition LINE_END_SIZE : Z := 2.

(** The C library: [snprintf] of the text [s] at offset [off] of a buffer,
    with room for [size] bytes. *)
Definition snprintf (buf : list Z) (off size : nat) (s : list Z) : outcome (Z * list Z) :=
  match size with
  | O => Ok (Z.of_nat (length s), buf)
  | S n => d ← store buf off (take n s ++ [0]); Ok (Z.of_nat (length s), d)
  end.

(** The conversions of the header: decimal digits, padded on the left. *)
Fixpoint digits (base : Z) (fuel : nat) (n : Z) (acc : list Z) : list Z :=
  match fuel with
  | O => acc
  | S fuel =>
      let d := n mod base in
      let acc := (if d <? 10 then 48 + d else 87 + d) :: acc in
      if n <? base then acc else digits base fuel (n / base) acc
  end.
Definition pad (width : nat) (fill : Z) (l : list Z) : list Z :=
  replicate (width - length l) fill ++ l.
Definition fmt_dec (width : nat) (fill n : Z) : list Z :=
  if n <? 0 then pad width fill (45 :: digits 10 20 (- n) []) else pad width fill (digits 10 20 n []).
Definition fmt_hex8 (n : Z) : list Z := pad 8 48 (digits 16 16 (u32 n) []).

Record log_env : Type := mk_log_env {
  ctx_debug : option Z;          (** [ctx->debug] of the context, if there is one *)
  env_debug : option Z;          (** [atoi(getenv("LIBUSB_DEBUG"))] *)
  log_sec : Z;                   (** [gettimeofday] *)
  log_usec : Z;
  origin_sec : Z;                (** [timestamp_origin] *)
  origin_usec : Z;
  log_tid : Z                    (** [usbi_get_tid()] *)
}.

Definition log_level (e : log_env) : Z :=
  match ctx_debug e with
  | Some d => d
  | None => default 0 (env_debug e)
  end.

(** The early returns. *)
Definition log_suppressed (ctx_level level : Z) : bool :=
  (ctx_level =? 0) ||
  ((level =? LIBUSB_LOG_LEVEL_WARNING) && (ctx_level <? LIBUSB_LOG_LEVEL_WARNING)) ||
  ((level =? LIBUSB_LOG_LEVEL_INFO) && (ctx_level <? LIBUSB_LOG_LEVEL_INFO)) ||
  ((level =? LIBUSB_LOG_LEVEL_DEBUG) && (ctx_level <? LIBUSB_LOG_LEVEL_DEBUG)).

(** The switch over the level; [None] is the [return]. *)
Definition log_prefix (level : Z) : option string :=
  if level =? LIBUSB_LOG_LEVEL_INFO then Some "info"%string
  else if level =? LIBUSB_LOG_LEVEL_WARNING then Some "warning"%string
  else if level =? LIBUSB_LOG_LEVEL_ERROR then Some "error"%string
  else if level =? LIBUSB_LOG_LEVEL_DEBUG then Some "debug"%string
  else if level =? LIBUSB_LOG_LEVEL_NONE then None
  else Some "unknown"%string.

(** The time since the origin, in seconds and microseconds. *)
Definition log_time (e : log_env) : Z * Z :=
  let '(sec, usec) := if log_usec e <? origin_usec e then (log_sec e - 1, log_usec e + 1000000)
                      else (log_sec e, log_usec e) in
  (sec - origin_sec e, usec - origin_usec e).

Definition log_header (e : log_env) (global_debug : bool) (prefix function : string) : list Z :=
  if global_debug then
    bytes_of "[" ++ fmt_dec 2 32 (log_time e).1 ++ bytes_of "." ++ fmt_dec 6 48 (log_time e).2 ++
    bytes_of "] [" ++ fmt_hex8 (log_tid e) ++ bytes_of "] libusb: " ++ bytes_of prefix ++
    bytes_of " [" ++ bytes_of function ++ bytes_of "] "
  else bytes_of "libusb: " ++ bytes_of prefix ++ bytes_of " [" ++ bytes_of function ++ bytes_of "] ".

(** From the first [snprintf] to the [strcpy]: the buffer afterwards. *)
Definition format_line (buf header text : list Z) : outcome (list Z) :=
  '(header_len, buf) ← snprintf buf 0 USBI_MAX_LOG_LEN header;
  let size := Z.of_nat USBI_MAX_LOG_LEN in
  let header_len := if (header_len <? 0) || (size <=? header_len) then 0 else header_len in
  buf ← store buf (Z.to_nat header_len) [0];
  '(text_len, buf) ← snprintf buf (Z.to_nat header_len) (Z.to_nat (size - header_len)) text;
  let text_len := if (text_len <? 0) || (size <=? text_len + header_len) then size - header_len else text_len in
  let text_len := if size <=? header_len + text_len + LINE_END_SIZE
                  then text_len - (header_len + text_len + LINE_END_SIZE - size) else text_len in
  if header_len + text_len <? 0 then Fault OutOfBounds
  else store buf (Z.to_nat (header_len + text_len)) (USBI_LOG_LINE_END ++ [0]).

Definition DEBUG_HEADER : list (list Z) :=
  [bytes_of "[timestamp] [threadID] facility level [function call] <message>" ++ USBI_LOG_LINE_END;
   bytes_of "--------------------------------------------------------------------------------" ++ USBI_LOG_LINE_END].

(** [usbi_log_v]: the lines passed to [usbi_log_str], and the new value of
    [has_debug_header_been_displayed].  [text] is the message that [format]
    and its arguments stand for, [junk] the buffer on the stack. *)
Definition usbi_log_v (junk : list Z) (e : log_env) (displayed : bool) (level : Z) (function : string) (text : list Z)
    : outcome (list (list Z) * bool) :=
  let ctx_level := log_level e in
  let global_debug := ctx_level =? LIBUSB_LOG_LEVEL_DEBUG in
  if log_suppressed ctx_level level then mret ([], displayed) else
  let '(lines, displayed) := if global_debug && negb displayed then (DEBUG_HEADER, true) else ([], displayed) in
  match log_prefix level with
  | None => mret (lines, displayed)
  | Some prefix =>
      buf ← format_line junk (log_header e global_debug prefix function) text;
      mret (lines ++ [cstring buf], displayed)
  end.

(** [libusb_set_debug] on [ctx->debug] and [ctx->debug_fixed]. *)
Definition libusb_set_debug (debug : Z) (debug_fixed : bool) (level : Z) : Z :=
  if debug_fixed then debug else level.

Definition libusb_error_name (error_code : Z) : string :=
  (if (error_code =? LIBUSB_ERROR_IO)%Z then "LIBUSB_ERROR_IO"
  else if (error_code =? LIBUSB_ERROR_INVALID_PARAM)%Z then "LIBUSB_ERROR_INVALID_PARAM"
  else if (error_code =? LIBUSB_ERROR_ACCESS)%Z then "LIBUSB_ERROR_ACCESS"
  else if (error_code =? LIBUSB_ERROR_NO_DEVICE)%Z then "LIBUSB_ERROR_NO_DEVICE"
  else if (error_code =? LIBUSB_ERROR_NOT_FOUND)%Z then "LIBUSB_ERROR_NOT_FOUND"
  else if (error_code =? LIBUSB_ERROR_BUSY)%Z then "LIBUSB_ERROR_BUSY"
  else if (error_code =? LIBUSB_ERROR_TIMEOUT)%Z then "LIBUSB_ERROR_TIMEOUT"
  else if (error_code =? LIBUSB_ERROR_OVERFLOW)%Z then "LIBUSB_ERROR_OVERFLOW"
  else if (error_code =? LIBUSB_ERROR_PIPE)%Z then "LIBUSB_ERROR_PIPE"
  else if (error_code =? LIBUSB_ERROR_INTERRUPTED)%Z then "LIBUSB_ERROR_INTERRUPTED"
  else if (error_code =? LIBUSB_ERROR_NO_MEM)%Z then "LIBUSB_ERROR_NO_MEM"
  else if (error_code =? LIBUSB_ERROR_NOT_SUPPORTED)%Z then "LIBUSB_ERROR_NOT_SUPPORTED"
  else if (error_code =? LIBUSB_ERROR_OTHER)%Z then "LIBUSB_ERROR_OTHER"
  else if (error_code =? 1)%Z then "LIBUSB_TRANSFER_ERROR"
  else if (error_code =? 2)%Z then "LIBUSB_TRANSFER_TIMED_OUT"
  else if (error_code =? 3)%Z then "LIBUSB_TRANSFER_CANCELLED"
  else if (error_code =? 4)%Z then "LIBUSB_TRANSFER_STALL"
  else if (error_code =? 5)%Z then "LIBUSB_TRANSFER_NO_DEVICE"
  else if (error_code =? 6)%Z then "LIBUSB_TRANSFER_OVERFLOW"
  else if (error_code =? 0)%Z then "LIBUSB_SUCCESS / LIBUSB_TRANSFER_COMPLETED"
  else "**UNKNOWN**")%string.
