(* ===== verification/Demo.v ===== *)
(** * A concrete backend

    A backend whose operations record themselves and return a fixed code,
    with a clock that stands still, and a library state on top of it: the
    concrete input of the examples. *)

From S2P Require Import Prelude Heap ParseDesc DescApi Core Devices DeviceRefs.

Inductive demo_op : Type :=
| DemoDestroy (d : nat) | DemoOpen (h : nat) | DemoClose (h : nat)
| DemoClaim (h : nat) (i : Z) | DemoRelease (h : nat) (i : Z)
| DemoSubmit (t : nat) | DemoCancel (t : nat) | DemoClearPriv (t : nat)
| DemoTimer (tv : option timeval) | DemoOther.

(** The time in nanoseconds, the code of the operations, and what they were. *)
Record demo : Type := mk_demo {
  demo_now : Z;
  demo_code : Z;
  demo_log : list demo_op
}.

Definition demo_do (op : demo_op) (w : demo) : Z * demo :=
  (demo_code w, mk_demo (demo_now w) (demo_code w) (demo_log w ++ [op])).
Definition demo_do_ (op : demo_op) (w : demo) : unit * demo := (tt, (demo_do op w).2).

Definition demo_backend : os_backend demo := {|
  be_caps := 0;
  be_init := None;
  be_exit := None;
  be_get_device_list := None;
  be_hotplug_poll := None;
  be_destroy_device := Some (fun d => demo_do_ (DemoDestroy d));
  be_open h := backend_op (demo_do (DemoOpen h));
  be_close h := backend_op (demo_do_ (DemoClose h));
  be_get_configuration := None;
  be_set_configuration _ _ := backend_op (demo_do DemoOther);
  be_claim_interface h i := backend_op (demo_do (DemoClaim h i));
  be_release_interface h i := backend_op (demo_do (DemoRelease h i));
  be_set_interface_altsetting _ _ _ := backend_op (demo_do DemoOther);
  be_clear_halt _ _ := backend_op (demo_do DemoOther);
  be_reset_device _ := backend_op (demo_do DemoOther);
  be_alloc_streams := None;
  be_free_streams := None;
  be_dev_mem_alloc := None;
  be_dev_mem_free := None;
  be_kernel_driver_active := None;
  be_detach_kernel_driver := None;
  be_attach_kernel_driver := None;
  be_submit_transfer t := backend_op (demo_do (DemoSubmit t));
  be_cancel_transfer t := backend_op (demo_do (DemoCancel t));
  be_clear_transfer_priv t := backend_op (demo_do_ (DemoClearPriv t));
  be_handle_events _ _ := backend_op (demo_do DemoOther);
  be_handle_transfer_completion _ := backend_op (demo_do DemoOther);
  be_clock_gettime w := ((0, mk_ts (Z.abs (demo_now w) / 1000000000) (Z.abs (demo_now w) mod 1000000000)), w);
  os_mutex_init w := (0, w);
  os_timerfd_settime tv := demo_do (DemoTimer tv);
  os_timerfd_create w := (-1, w);
  os_pipe w := ((0, (3, 4)), w);
  os_close _ w := (tt, w);
  os_poll fds _ readable w :=
    (mk_poll (if readable : bool then 1 else 0) false
       (map (fun fd => if readable && (fst fd =? 3) then 1 else 0) fds), w);
  os_cond_wait _ w := (1, w)
|}.

(** A backend that does nothing. *)
Definition idle_backend {W : Type} : os_backend W := {|
  be_caps := 0;
  be_init := None;
  be_exit := None;
  be_get_device_list := None;
  be_hotplug_poll := None;
  be_destroy_device := None;
  be_open _ := mret 0;
  be_close _ := mret tt;
  be_get_configuration := None;
  be_set_configuration _ _ := mret 0;
  be_claim_interface _ _ := mret 0;
  be_release_interface _ _ := mret 0;
  be_set_interface_altsetting _ _ _ := mret 0;
  be_clear_halt _ _ := mret 0;
  be_reset_device _ := mret 0;
  be_alloc_streams := None;
  be_free_streams := None;
  be_dev_mem_alloc := None;
  be_dev_mem_free := None;
  be_kernel_driver_active := None;
  be_detach_kernel_driver := None;
  be_attach_kernel_driver := None;
  be_submit_transfer _ := mret 0;
  be_cancel_transfer _ := mret 0;
  be_clear_transfer_priv _ := mret tt;
  be_handle_events _ _ := mret 0;
  be_handle_transfer_completion _ := mret 0;
  be_clock_gettime w := ((0, mk_ts 100 0), w);
  os_mutex_init w := (0, w);
  os_timerfd_settime _ w := (0, w);
  os_timerfd_create w := (-1, w);
  os_pipe w := ((0, (3, 4)), w);
  os_close _ w := (tt, w);
  os_poll fds _ readable w := (mk_poll 0 false (map (fun _ => 0) fds), w);
  os_cond_wait _ w := (1, w)
|}.

(** The blocks below [n] are in use; no allocation fails. *)
Definition demo_heap (n : nat) : heap :=
  mk_heap (list_to_set_disj (seq 0 n)) n (fun _ => false) (fun _ => false).

Definition demo_event_data : event_data := mk_ev 0 0 [] [] [] 0 None 0.

Definition demo_lib (h : heap) : lib demo :=
  mk_lib h ∅ ∅ ∅ [] [] [] [] demo_event_data true false false None 1 ∅ (3, 4) (-1) false None None 0 false
    (mk_demo 100000000000 0 []).

(** A root hub (block 0) and a device behind it (block 1): the backend and
    the application hold a reference on each. *)
Definition demo_hub : device := mk_device 3 1 0 None 1 1 3 11 (replicate 18 0) true.
Definition demo_dev : device := mk_device 2 1 4 (Some 0%nat) 2 1 3 12 (replicate 18 0) true.
Definition demo_devices : gmap nat device := {[ 0%nat := demo_hub; 1%nat := demo_dev ]}.
Definition demo_two : lib demo := set_devices demo_devices (set_usb_devs [1; 0]%nat (demo_lib (demo_heap 2))).

(** A device (block 1) that is open (handle 5), with two transfers in flight
    (6 and 7, the second without a timeout) and one to submit (8). *)
Definition demo_transfer (timeout : Z) (tv : timeval) (state_flags : Z) : transfer :=
  mk_transfer (Some 5%nat) 0 129 2 timeout 0 64 0 (Some (UserCb 0)) 0 None [] 0 [] tv 0 0 state_flags 0.
Definition demo_io : lib demo :=
  set_devices {[ 1%nat := mk_device 3 1 0 None 2 1 3 12 (replicate 18 0) true ]} (set_usb_devs [1%nat]
    (set_handles {[ 5%nat := mk_handle 0 1 0 ]} (set_open_devs [5%nat]
      (set_transfers {[ 6%nat := demo_transfer 500 (mk_tv 100 500000) 1; 7%nat := demo_transfer 0 (mk_tv 0 0) 1;
                        8%nat := demo_transfer 250 (mk_tv 0 0) 0 ]} (set_flying_transfers [6; 7]%nat
        (demo_lib (demo_heap 9))))))).
Definition demo_io_blocks : gmultiset nat := list_to_set_disj [0; 2; 3; 4; 5; 6; 7; 8]%nat.

(** ** The example state satisfies the invariant *)

Lemma demo_refs_ok : refs_ok demo_devices {[+ 0%nat; 0%nat; 1%nat; 1%nat +]}.
Proof.
  split; [|split].
  - assert (map_Forall (fun d x => refcnt x = Z.of_nat (multiplicity d ({[+ 0%nat; 0%nat; 1%nat; 1%nat +]} ⊎ parent_refs demo_devices))
      /\ 0 < refcnt x) demo_devices) as H; [|exact H].
    eapply bool_decide_unpack. vm_compute. exact I.
  - assert (set_Forall (fun d => is_Some (demo_devices !! d))
      (dom ({[+ 0%nat; 0%nat; 1%nat; 1%nat +]} ⊎ parent_refs demo_devices))) as H.
    { eapply bool_decide_unpack. vm_compute. exact I. }
    intros d Hd. apply H. by apply gmultiset_elem_of_dom.
  - exists (fun n => n). intros d x p Hd Hp. unfold demo_devices in Hd.
    apply lookup_insert_Some in Hd as [[<- <-]|[_ Hd]]; [done|].
    apply lookup_singleton_Some in Hd as [<- <-]. simplify_eq/=. lia.
Qed.
Lemma demo_devices_ok : devices_ok demo_backend ∅ {[+ 0%nat; 0%nat; 1%nat; 1%nat +]} demo_two.
Proof. split; [exact demo_refs_ok|]. split; [by vm_compute|done]. Qed.

Lemma demo_heap_fresh n : heap_fresh (demo_heap n).
Proof. intros b Hb. simpl in Hb. rewrite elem_of_list_to_set_disj in Hb. apply elem_of_seq in Hb. simpl. lia. Qed.
