(* ===== verification/EventPipe.v ===== *)
(** * The protocol of the event pipe (io.c, core.c, hotplug.c)

    Any thread may record an event; it writes a byte to the event pipe only
    when no event is pending.  The thread that holds the events lock takes
    the events and, when none is left, reads a byte.  A read from the empty
    pipe would block for ever.  This file has the specifications of the
    operations, and the interleavings of the threads as a step relation:
    every step is one critical section of [event_data_lock]. *)

From S2P Require Import Prelude Heap ParseDesc DescApi Core Devices Hotplug Transfers Events Handles.

(** A pending event is announced by a byte in the pipe. *)
Definition pipe_ok (e : event_data) : Prop :=
  0 <= pipe_bytes e /\ (usbi_pending_events e = true -> 0 < pipe_bytes e).

Section pipe_specs.
Context {W : Type}.
Implicit Types (s : lib W) (e : event_data).

Lemma record_event_wp (f : event_data -> event_data) s (Q : unit -> lib W -> Prop) :
  pipe_ok (ev s) -> pipe_bytes (f (ev s)) = pipe_bytes (ev s) ->
  (forall n, 0 < n -> Q tt (set_ev (set_pipe_bytes n (f (ev s))) s)) ->
  wp (record_event f) s Q.
Proof.
  intros [Hnn Hpend] Hf HQ. unfold record_event. apply wp_bind, wp_gets, wp_bind, wp_modify.
  destruct (usbi_pending_events (ev s)).
  - apply wp_ret. specialize (HQ (pipe_bytes (ev s)) (Hpend eq_refl)). rewrite <- Hf in HQ.
    by destruct (f (ev s)).
  - unfold usbi_signal_event. apply wp_bind, wp_bind, wp_gets. simpl.
    destruct (Z.ltb_spec (pipe_bytes (f (ev s))) PIPE_CAPACITY) as [Hlt|Hge].
    + apply wp_bind, wp_modify, wp_ret, wp_ret. simpl. apply HQ. lia.
    + apply wp_ret, wp_ret. specialize (HQ (pipe_bytes (f (ev s)))). unfold PIPE_CAPACITY in Hge.
      destruct (f (ev s)). apply HQ. simpl in *. lia.
Qed.

(** Before the event pipe is cleared it can be read, whether or not an
    event is pending. *)
Lemma clear_if_idle_wp s (Q : unit -> lib W -> Prop) :
  0 < pipe_bytes (ev s) ->
  (forall n, pipe_ok (set_pipe_bytes n (ev s)) -> Q tt (set_ev (set_pipe_bytes n (ev s)) s)) ->
  wp clear_if_idle s Q.
Proof.
  intros Hpos HQ. unfold clear_if_idle. apply wp_bind, wp_gets.
  assert (set_pipe_bytes (pipe_bytes (ev s)) (ev s) = ev s) as Hid by by destruct (ev s).
  destruct (usbi_pending_events (ev s)) eqn:Hp.
  - apply wp_ret. specialize (HQ (pipe_bytes (ev s))). rewrite Hid in HQ.
    replace s with (set_ev (ev s) s) by by destruct s. apply HQ. split; [lia|done].
  - unfold usbi_clear_event. apply wp_bind, wp_bind, wp_gets.
    rewrite (proj2 (Z.ltb_lt _ _)) by done. apply wp_bind, wp_modify, wp_ret, wp_ret. apply HQ.
    split; simpl; [lia|]. unfold usbi_pending_events in *. simpl. by rewrite Hp.
Qed.

Lemma take_message_wp s (Q : option hotplug_message -> lib W -> Prop) :
  (forall fl, Q (head (hotplug_msgs (ev s)))
     (set_ev (set_event_flags fl (set_hotplug_msgs (tail (hotplug_msgs (ev s))) (ev s))) s)) ->
  wp take_message s Q.
Proof.
  intros HQ. unfold take_message. apply wp_bind, wp_gets, wp_bind, wp_modify, wp_ret. case_match; simpl.
  - apply HQ.
  - specialize (HQ (event_flags (ev s))). by destruct (ev s).
Qed.
End pipe_specs.

(** ** The interleavings *)

(** What the holder of the events lock is doing. *)
Inductive phase : Type :=
| Unlocked       (** nobody holds the events lock *)
| Handling       (** in [handle_events], outside the branch of the event pipe *)
| Readable       (** [poll] reported the event pipe *)
| Completing     (** in the loop over the completed transfers *)
| Closing.       (** in [libusb_close], between the lock and the clearing *)

Section protocol.
Context {W : Type}.

(** The operations that record an event. *)
Inductive recorder : Lib W unit -> Prop :=
| RecordFd : recorder usbi_fd_notification
| RecordInterrupt : recorder libusb_interrupt_event_handler
| RecordHotplug dev event : recorder (usbi_hotplug_notification dev event)
| RecordCompletion t : recorder (usbi_signal_transfer_completion t).

(** The state, the phase of the lock holder, and the number of threads
    inside [libusb_close]. *)
Definition pstate : Type := lib W * phase * nat.

Inductive pipe_step : pstate -> pstate -> Prop :=
| StepRecord m s s' p n : recorder m -> m s = Ok (tt, s') -> pipe_step (s, p, n) (s', p, n)
| StepOther s s' p n : ev s' = ev s -> pipe_step (s, p, n) (s', p, n)
| StepCloseBegin s s' p n : close_begin s = Ok (tt, s') -> pipe_step (s, p, n) (s', p, S n)
| StepCloseLock s n : pipe_step (s, Unlocked, S n) (s, Closing, S n)
| StepCloseEnd s s' n : close_end s = Ok (tt, s') -> pipe_step (s, Closing, S n) (s', Unlocked, n)
| StepLock s n : pipe_step (s, Unlocked, n) (s, Handling, n)
| StepRefresh s s' b k n : refresh_pollfds k s = Ok (b, s') -> pipe_step (s, Handling, n) (s', Handling, n)
| StepPoll s n : 0 < pipe_bytes (ev s) -> pipe_step (s, Handling, n) (s, Readable, n)
| StepMessage s s' m n : take_message s = Ok (m, s') -> pipe_step (s, Readable, n) (s', Completing, n)
| StepComplete s s' t n : take_completed s = Ok (t, s') -> pipe_step (s, Completing, n) (s', Completing, n)
| StepClear s s' n : clear_if_idle s = Ok (tt, s') -> pipe_step (s, Completing, n) (s', Handling, n)
| StepUnlock s n : pipe_step (s, Handling, n) (s, Unlocked, n).

(** The invariant: a thread that is going to clear the pipe finds a byte. *)
Definition pipe_inv (x : pstate) : Prop :=
  let '(s, p, n) := x in
  pipe_ok (ev s) /\ device_close (ev s) = Z.of_nat n /\
  match p with
  | Readable | Completing => 0 < pipe_bytes (ev s)
  | Closing => n <> O
  | _ => True
  end.

Lemma pending_close e : device_close e <> 0 -> usbi_pending_events e = true.
Proof.
  intros Hd. unfold usbi_pending_events. rewrite (proj2 (Z.eqb_neq _ _) Hd). by rewrite orb_true_r.
Qed.

(** What recording an event does to the event data. *)
Definition recorded (e e' : event_data) : Prop :=
  device_close e' = device_close e /\ pipe_ok e' /\ (0 < pipe_bytes e -> 0 < pipe_bytes e').

Lemma record_event_recorded f (s : lib W) :
  pipe_ok (ev s) -> pipe_bytes (f (ev s)) = pipe_bytes (ev s) ->
  device_close (f (ev s)) = device_close (ev s) ->
  wp (record_event f) s (fun _ s' => recorded (ev s) (ev s')).
Proof.
  intros Hok Hb Hd. apply record_event_wp; [done|done|]. intros n Hn. simpl.
  split; [done|]. split; [split; [simpl; lia|done]|done].
Qed.

Lemma transfer_ctx_same t (s : lib W) r s' : transfer_ctx t s = Ok (r, s') -> s' = s.
Proof.
  unfold transfer_ctx, get_transfer, get_handle, get_device, lookup_obj, fail, mret, M_ret.
  unfold mbind, M_bind. intros Hrun. repeat case_match; by simplify_eq.
Qed.

Lemma recorder_recorded m (s s' : lib W) :
  recorder m -> pipe_ok (ev s) -> m s = Ok (tt, s') -> recorded (ev s) (ev s').
Proof.
  intros Hm Hok Hrun.
  assert (forall m, wp m s (fun _ s' => recorded (ev s) (ev s')) -> m s = Ok (tt, s') -> recorded (ev s) (ev s'))
    as Hwp by (intros m' Hm' Hr; unfold wp in Hm'; by rewrite Hr in Hm').
  destruct Hm as [| |dev event|t].
  - revert Hrun. by apply Hwp, record_event_recorded.
  - revert Hrun. apply Hwp. unfold libusb_interrupt_event_handler, usbi_signal_event.
    apply wp_bind, wp_gets. destruct (usbi_pending_events (ev s)) eqn:Hp; [by apply wp_ret|].
    apply wp_bind, wp_modify, wp_bind, wp_bind, wp_gets. simpl. destruct Hok as [Hnn _].
    destruct (Z.ltb_spec (pipe_bytes (ev s)) PIPE_CAPACITY) as [Hlt|Hge]; unfold PIPE_CAPACITY in *.
    + apply wp_bind, wp_modify, wp_ret, wp_ret. split; [done|]. split; [split; simpl; lia|simpl; lia].
    + apply wp_ret, wp_ret. split; [done|]. split; [split; simpl; lia|simpl; lia].
  - revert Hrun. apply Hwp. unfold usbi_hotplug_notification. apply wp_bind, wp_on_mem.
    apply (malloc_wp _ (live (mem s))); [done|]. intros [b|] h _ _; [|by apply wp_ret].
    by apply (record_event_recorded _ (set_mem h s)).
  - unfold usbi_signal_transfer_completion in Hrun. unfold mbind, M_bind in Hrun.
    destruct (transfer_ctx t s) as [[r s1]|] eqn:Hctx; [|done]. apply transfer_ctx_same in Hctx as ->.
    revert Hrun. by apply Hwp, record_event_recorded.
Qed.

(** [close_end] where a byte is in the pipe. *)
Lemma close_end_wp (s : lib W) :
  0 < pipe_bytes (ev s) ->
  wp close_end s (fun _ s' => pipe_ok (ev s') /\ device_close (ev s') = device_close (ev s) - 1).
Proof.
  intros Hpos. unfold close_end. apply wp_bind, wp_modify. fold (@clear_if_idle W).
  apply clear_if_idle_wp; [done|]. intros n Hn. done.
Qed.

(** The operation does not block; its other faults are not excluded. *)
Definition no_block {A} (m : Lib W A) (s : lib W) (Q : A -> lib W -> Prop) : Prop :=
  match m s with
  | Ok (a, s') => Q a s'
  | Fault f => f <> Blocked
  end.
Lemma no_block_bind {A B} (m : Lib W A) (f : A -> Lib W B) s Q :
  no_block m s (fun a s' => no_block (f a) s' Q) -> no_block (m ≫= f) s Q.
Proof. unfold no_block, mbind, M_bind. by destruct (m s) as [[a s']|]. Qed.
Lemma no_block_mono {A} (m : Lib W A) s (P Q : A -> lib W -> Prop) :
  no_block m s P -> (forall a s', P a s' -> Q a s') -> no_block m s Q.
Proof. unfold no_block. destruct (m s) as [[a s']|]; auto. Qed.
Lemma no_block_wp {A} (m : Lib W A) s Q : wp m s Q -> no_block m s Q.
Proof. unfold no_block, wp. by destruct (m s) as [[a s']|]. Qed.

(** The refresh never blocks: when it clears the pipe, the flag it has just
    reset was a pending event. *)
Lemma refresh_pipe k (s : lib W) :
  pipe_ok (ev s) ->
  no_block (refresh_pollfds k) s (fun _ s' => pipe_ok (ev s') /\ device_close (ev s') = device_close (ev s)).
Proof.
  intros Hok. unfold refresh_pollfds. apply no_block_bind, no_block_wp, wp_gets.
  destruct (has_flag (event_flags (ev s)) USBI_EVENT_POLLFDS_MODIFIED) eqn:Hfl; [|by apply no_block_wp, wp_ret].
  assert (0 < pipe_bytes (ev s)) as Hpos.
  { destruct Hok as [_ Hp]. apply Hp. unfold usbi_pending_events, has_flag in *.
    destruct (Z.eqb_spec (event_flags (ev s)) 0) as [Hz|]; [|done]. rewrite Hz in Hfl. done. }
  cbn [negb]. apply no_block_bind.
  assert (no_block (match pollfds (ev s) with
      | Some (b, _) => on_mem (free (Some b)) | None => mret tt end) s (fun _ s' => exists h, s' = set_mem h s)) as Hfree.
  { destruct (pollfds (ev s)) as [[b ?]|].
    - unfold no_block, on_mem, free. destruct (decide _); [by eexists|done].
    - exists (mem s). by destruct s. }
  eapply no_block_mono; [exact Hfree|]. intros [] s1 [h ->]. apply no_block_bind, no_block_wp, wp_modify.
  destruct (pollfds_cnt (ev s) <? k); [done|]. apply no_block_bind, no_block_wp, wp_on_mem.
  eapply malloc_wp; [done|]. intros [b|] h' _ _; [|by apply no_block_wp, wp_ret].
  destruct (decide _); [|done]. apply no_block_wp, wp_bind, wp_modify, wp_bind.
  apply clear_if_idle_wp; [done|]. intros n Hn. by apply wp_ret.
Qed.

Lemma pipe_step_inv x y : pipe_inv x -> pipe_step x y -> pipe_inv y.
Proof.
  intros Hx Hstep.
  destruct Hstep as [m s s' p n Hm Hrun|s s' p n He|s s' p n Hrun|s n|s s' n Hrun|s n|s s' b k n Hrun
    |s n Hpos|s s' m n Hrun|s s' t n Hrun|s s' n Hrun|s n]; destruct Hx as (Hok & Hclose & Hphase).
  - destruct (recorder_recorded m s s' Hm Hok Hrun) as (Hd & Hok' & Hpos).
    split; [done|]. split; [congruence|]. destruct p; auto.
  - unfold pipe_inv. by rewrite He.
  - assert (wp close_begin s (fun _ s' => pipe_ok (ev s') /\ device_close (ev s') = device_close (ev s) + 1 /\
        0 < pipe_bytes (ev s'))) as Hwp.
    { apply record_event_wp; [done|done|].
      intros k Hk. split; [split; [simpl; lia|done]|done]. }
    unfold wp in Hwp. rewrite Hrun in Hwp. destruct Hwp as (Hok' & Hd & Hpos).
    split; [done|]. split; [lia|]. destruct p; auto.
  - by conj3.
  - assert (0 < pipe_bytes (ev s)) as Hpos by (apply Hok, pending_close; lia).
    pose proof (close_end_wp s Hpos) as Hwp. unfold wp in Hwp. rewrite Hrun in Hwp.
    split; [apply Hwp|]. split; [lia|done].
  - by conj3.
  - pose proof (refresh_pipe k s Hok) as Hr. unfold no_block in Hr. rewrite Hrun in Hr. split; [apply Hr|]. split; [lia|done].
  - by conj3.
  - assert (wp take_message s (fun _ s' => exists fl, ev s' = set_event_flags fl
      (set_hotplug_msgs (tail (hotplug_msgs (ev s))) (ev s)))) as Hwp by (apply take_message_wp; eauto).
    unfold wp in Hwp. rewrite Hrun in Hwp. destruct Hwp as [fl He].
    unfold pipe_inv. rewrite He. simpl. split; [split; simpl; [lia|done]|done].
  - unfold take_completed, gets, put_ev, modify, mret, M_ret in Hrun. unfold mbind, M_bind in Hrun.
    destruct (completed_transfers (ev s)); simplify_eq; [done|]. simpl.
    split; [split; simpl; [lia|done]|done].
  - assert (wp clear_if_idle s (fun _ s' => pipe_ok (ev s') /\ device_close (ev s') = device_close (ev s))) as Hwp
      by (apply clear_if_idle_wp; [done|intros; done]).
    unfold wp in Hwp. rewrite Hrun in Hwp. split; [apply Hwp|]. split; [lia|done].
  - by conj3.
Qed.

Lemma pipe_reachable_inv x y : pipe_inv x -> rtc pipe_step x y -> pipe_inv y.
Proof. intros Hx Hsteps. induction Hsteps; [done|]. eauto using pipe_step_inv. Qed.
End protocol.
