(* ===== verification/HotplugLife.v ===== *)
(** * Devices that come and go (core.c, hotplug.c, io.c, os/linux_usbfs.c)

    The life of a device with a backend that supports hotplug: the backend
    allocates and connects it, disconnects it, and the event handler matches
    the messages with the callbacks and drops the reference of a device that
    left.  The invariant says which references the list of devices and the
    queue of messages hold; every operation keeps it. *)

From S2P Require Import Prelude Heap ParseDesc DescApi Core Devices DeviceRefs Hotplug Transfers Events Handles EventPipe.

Section linux.
Context {W : Type} (be : os_backend W).

(** The steps of [linux_enumerate_device] that fill in the new device:
    [initialize_device], [usbi_sanitize_device] and
    [linux_get_parent_info]. *)
Variable probe : nat -> Z -> Z -> Lib W Z.

(** [busnum << 8 | devaddr] *)
Definition linux_session_id (busnum devaddr : Z) : Z := Z.lor (Z.shiftl busnum 8) devaddr.

Definition linux_enumerate_device (busnum devaddr : Z) : Lib W Z :=
  let session_id := linux_session_id busnum devaddr in
  dev ← usbi_get_device_by_session_id session_id;
  match dev with
  | Some d => libusb_unref_device be (Some d) ;; mret LIBUSB_SUCCESS
  | None =>
      dev ← usbi_alloc_device be session_id;
      match dev with
      | None => mret LIBUSB_ERROR_NO_MEM
      | Some d =>
          r ← probe d busnum devaddr;
          (if r <? 0 then libusb_unref_device be (Some d) else usbi_connect_device be d) ;;
          mret r
      end
  end.

(** [linux_device_disconnected], for the one context. *)
Definition linux_device_disconnected (busnum devaddr : Z) : Lib W unit :=
  dev ← usbi_get_device_by_session_id (linux_session_id busnum devaddr);
  match dev with
  | Some d => usbi_disconnect_device be d ;; libusb_unref_device be (Some d)
  | None => mret tt
  end.
End linux.

(** ** What the messages hold *)

Definition msg_refs (l : list hotplug_message) : gmultiset nat :=
  msum (fun m => if msg_event m =? LIBUSB_HOTPLUG_EVENT_DEVICE_LEFT then own (msg_device m) else ∅) l.
Definition msg_blocks (l : list hotplug_message) : gmultiset nat := msum (fun m => {[+ msg_block m +]}) l.

Definition left_message (d : nat) (m : hotplug_message) : Prop :=
  msg_event m = LIBUSB_HOTPLUG_EVENT_DEVICE_LEFT /\ msg_device m = Some d.

(** A message about an arrival holds no reference: its device is [alive] for
    another reason, or a later message about its leaving holds one. *)
Definition msg_ok (alive : nat -> Prop) (rest : list hotplug_message) (m : hotplug_message) : Prop :=
  match msg_device m with
  | None => msg_event m = 0
  | Some d => msg_event m = LIBUSB_HOTPLUG_EVENT_DEVICE_LEFT \/
      (msg_event m = LIBUSB_HOTPLUG_EVENT_DEVICE_ARRIVED /\ (alive d \/ Exists (left_message d) rest))
  end.
Fixpoint msgs_ok (alive : nat -> Prop) (l : list hotplug_message) : Prop :=
  match l with
  | [] => True
  | m :: l => msg_ok alive l m /\ msgs_ok alive l
  end.

Lemma msg_refs_app l m : msg_refs (l ++ [m]) = msg_refs [m] ⊎ msg_refs l.
Proof. unfold msg_refs. rewrite msum_app. multiset_solver. Qed.
Lemma msg_blocks_app l m : msg_blocks (l ++ [m]) = {[+ msg_block m +]} ⊎ msg_blocks l.
Proof. unfold msg_blocks. rewrite msum_app. simpl. multiset_solver. Qed.

Lemma left_message_refs d l : Exists (left_message d) l -> d ∈ msg_refs l.
Proof.
  induction 1 as [m l [He Hd]|m l Hl IH]; unfold msg_refs in *; simpl.
  - rewrite He, Hd. simpl. multiset_solver.
  - multiset_solver.
Qed.

Lemma msgs_ok_app (alive alive' : nat -> Prop) l m :
  msgs_ok alive l -> msg_ok alive' [] m -> (forall d, alive d -> alive' d \/ left_message d m) ->
  msgs_ok alive' (l ++ [m]).
Proof.
  intros Hl Hm Halive. induction l as [|a l IH]; simpl in *; [by split|]. destruct Hl as [Ha Hl].
  split; [|by apply IH]. unfold msg_ok in *. destruct (msg_device a) as [d|]; [|done].
  destruct Ha as [Ha|[He [Ha|Ha]]]; [by left| |]; right; (split; [done|]).
  - destruct (Halive d Ha); [by left|]. right. apply Exists_app. right. by left.
  - right. apply Exists_app. by left.
Qed.

Lemma msgs_ok_mono (alive alive' : nat -> Prop) l :
  msgs_ok alive l -> (forall d, alive d -> alive' d) -> msgs_ok alive' l.
Proof.
  intros Hl Halive. induction l as [|a l IH]; simpl in *; [done|]. destruct Hl as [Ha Hl].
  split; [|by apply IH]. unfold msg_ok in *. destruct (msg_device a) as [d|]; [|done].
  destruct Ha as [Ha|[He [Ha|Ha]]]; [by left| |]; right; (split; [done|]); [left; by apply Halive|by right].
Qed.

(** ** The invariant *)

Section life.
Context {W : Type} (be : os_backend W) (ready big : bool).
Context (Hhot : has_hotplug be = true).
Implicit Types (s : lib W) (F L C E : gmultiset nat).

Abbreviation msgs s := (hotplug_msgs (ev s)).

(** [ready]: whether the event pipe is there, which it is after the start of
    the context; [C]: the references of the application; [L]: references that were lost
    because there was no memory for a message; [F]: the other blocks. *)
Record hot_inv (F L C : gmultiset nat) (s : lib W) : Prop := mk_hot_inv {
  hot_devices : devices_ok be (cb_blocks (hotplug_cbs s) ⊎ msg_blocks (msgs s) ⊎ F)
                  (list_refs (usb_devs s) ⊎ msg_refs (msgs s) ⊎ L ⊎ C) s;
  hot_fresh : heap_fresh (mem s);
  hot_nodup : NoDup (usb_devs s);
  hot_cbs : NoDup (map cb_block (hotplug_cbs s));
  hot_msgs : msgs_ok (fun d => d ∈ usb_devs s \/ d ∈ L) (msgs s);
  hot_pipe : pipe_ok (ev s);
  hot_transfers : completed_transfers (ev s) = [];
  hot_ready : io_ready s = ready
}.

(** References move between the clients and nothing else changes. *)
Lemma hot_inv_same F L C C' s s' :
  hot_inv F L C s -> same_rest be s s' ->
  devices_ok be (cb_blocks (hotplug_cbs s) ⊎ msg_blocks (msgs s) ⊎ F)
    (list_refs (usb_devs s) ⊎ msg_refs (msgs s) ⊎ L ⊎ C') s' ->
  hot_inv F L C' s'.
Proof.
  intros Hinv (Heq & Ho & _ & Hu) Hok. specialize (Hu Hhot). destruct Hinv.
  assert (ev s' = ev s /\ hotplug_cbs s' = hotplug_cbs s /\ io_ready s' = io_ready s) as (He & Hc & Hr)
    by (rewrite Heq; done).
  split; rewrite ?He, ?Hc, ?Hu, ?Hr; try done. apply Ho, hot_fresh0.
Qed.

Lemma hot_unref_wp F L C d s :
  hot_inv F L ({[+ d +]} ⊎ C) s ->
  wp (libusb_unref_device be (Some d)) s (fun _ s' => hot_inv F L C s' /\ same_rest be s s').
Proof.
  intros Hinv. pose proof (hot_devices _ _ _ _ Hinv) as Hok.
  eapply wp_mono; [eapply (libusb_unref_device_wp be (Some d))|].
  - rewrite (disj_union_swap _ {[+ d +]}) in Hok. exact Hok.
  - intros [] s' (Hok' & _ & Hsame). split; [|done]. by apply (hot_inv_same _ _ _ _ _ _ Hinv Hsame).
Qed.

Lemma hot_inv_elem F L C s d :
  hot_inv F L C s -> d ∈ usb_devs s \/ d ∈ L \/ d ∈ C \/ d ∈ msg_refs (msgs s) -> is_Some (devices s !! d).
Proof.
  intros Hinv Hd. eapply devices_ok_live; [apply (hot_devices _ _ _ _ Hinv)|].
  rewrite <- list_refs_elem in Hd. multiset_solver.
Qed.

Lemma hot_ref_wp F L C d s :
  hot_inv F L C s -> is_Some (devices s !! d) ->
  wp (libusb_ref_device d) s (fun r s' => r = d /\ hot_inv F L ({[+ d +]} ⊎ C) s' /\ same_rest be s s').
Proof.
  intros Hinv Hd. pose proof (hot_devices _ _ _ _ Hinv) as Hok.
  eapply wp_mono; [by apply (libusb_ref_device_wp be d _ _ _ Hok)|].
  intros r s' (-> & Hok' & _ & _ & _ & Hsame). split; [done|]. split; [|done].
  apply (hot_inv_same _ _ C _ _ _ Hinv Hsame).
  by rewrite (disj_union_swap _ {[+ d +]}).
Qed.

(** ** The operations *)

Lemma hot_devices_ok F E s :
  refs_ok (devices s) E -> live (mem s) = blocks (devices s) ⊎ F -> devices_ok be F E s.
Proof. intros Hr Hl. split; [done|]. split; [done|]. intros Hf. congruence. Qed.

Lemma notification_wp dev event s F (Q : unit -> lib W -> Prop) :
  live (mem s) = F -> heap_fresh (mem s) -> pipe_ok (ev s) ->
  (forall h, live h = F -> same_oracles (mem s) h -> ~ no_malloc_failure (mem s) -> Q tt (set_mem h s)) ->
  (forall b h n, live h = {[+ b +]} ⊎ F -> same_oracles (mem s) h -> 0 < n ->
     Q tt (set_ev (set_pipe_bytes n (set_hotplug_msgs (msgs s ++ [mk_msg b event dev]) (ev s))) (set_mem h s))) ->
  wp (usbi_hotplug_notification dev event) s Q.
Proof.
  intros HF Hfresh Hpipe Hfail Hok. unfold usbi_hotplug_notification. apply wp_bind, wp_on_mem.
  apply (malloc_fresh_wp _ F); [done|done| |].
  - intros b h Hl Ho _. apply record_event_wp; [done|done|]. intros n Hn. by apply (Hok b).
  - intros h Hl Ho Hn. by apply wp_ret, Hfail.
Qed.

Lemma hot_alloc_wp F L C session_id s :
  hot_inv F L C s ->
  wp (usbi_alloc_device be session_id) s (fun r s' => same_oracles (mem s) (mem s') /\
    match r with
    | None => hot_inv F L C s'
    | Some d => hot_inv F L ({[+ d +]} ⊎ C) s' /\ d ∉ usb_devs s'
    end).
Proof.
  intros [[Hrefs [Hl Hcon]] Hfresh Hnd Hcbs Hmsgs Hpipe Htr Hready]. unfold usbi_alloc_device.
  apply wp_bind, wp_on_mem. eapply malloc_fresh_wp; [exact Hl|done| |].
  2:{ intros h Hlh Ho _. apply wp_ret. split; [done|].
      split; try done. by apply Ho. }
  intros b h Hlh Ho Hb. apply wp_bind, wp_backend_op. intros r w _. destruct (negb (r =? 0)).
  { apply wp_bind, wp_on_mem. eapply free_wp; [exact Hlh|]. intros h2 Hl2 Ho2. apply wp_ret.
    split; [by etrans|]. split; try done. by apply Ho2, Ho. }
  assert (devices s !! b = None) as Hnone.
  { destruct (devices s !! b) as [x|] eqn:Hx; [|done]. destruct Hb. unfold blocks.
    apply gmultiset_elem_of_disj_union. left. eapply map_sum_elem; [exact Hx|multiset_solver]. }
  apply wp_bind, wp_put_device. rewrite Hhot. apply wp_bind, wp_ret, wp_ret. split; [done|].
  set (x := mk_device _ _ _ _ _ _ _ _ _ _). split; [split; try done|].
  - apply hot_devices_ok; simpl.
    + rewrite (disj_union_swap _ {[+ b +]}). by apply refs_new.
    + rewrite Hlh. unfold blocks. rewrite map_sum_insert by done. by rewrite (assoc_L (⊎)).
  - simpl. by apply Ho.
  - simpl. intros Hin. destruct Hrefs as (_ & He & _). rewrite <- list_refs_elem in Hin.
    destruct (He b) as [y Hy]; [multiset_solver|congruence].
Qed.

Lemma hot_connect_wp F L C d s :
  hot_inv F L ({[+ d +]} ⊎ C) s -> d ∉ usb_devs s ->
  wp (usbi_connect_device be d) s (fun _ s' => hot_inv F L C s' /\ same_oracles (mem s) (mem s')).
Proof.
  intros Hinv Hd. pose proof (hot_inv_elem _ _ _ _ d Hinv ltac:(multiset_solver)) as [x Hx].
  destruct Hinv as [[Hrefs [Hl Hcon]] Hfresh Hnd Hcbs Hmsgs Hpipe Htr Hready]. unfold usbi_connect_device.
  apply wp_bind, (wp_get_device _ x); [done|]. apply wp_bind, wp_put_device, wp_bind, wp_modify, wp_bind, wp_gets.
  cbn [io_ready set_usb_devs set_devices]. rewrite Hhot.
  assert (refs_ok (<[d := set_attached true x]> (devices s)) (list_refs (d :: usb_devs s) ⊎ msg_refs (msgs s) ⊎ L ⊎ C)) as Hrefs'.
  { rewrite list_refs_cons. replace ({[+ d +]} ⊎ list_refs (usb_devs s) ⊎ msg_refs (msgs s) ⊎ L ⊎ C)
      with (list_refs (usb_devs s) ⊎ msg_refs (msgs s) ⊎ L ⊎ ({[+ d +]} ⊎ C)) by multiset_solver.
    by eapply refs_update. }
  assert (blocks (<[d := set_attached true x]> (devices s)) = blocks (devices s)) as Hbl by by apply (map_sum_update _ _ d x).
  assert (forall l, msgs_ok (fun k => k ∈ usb_devs s \/ k ∈ L) l -> msgs_ok (fun k => k ∈ d :: usb_devs s \/ k ∈ L) l) as Hmono.
  { intros l Hm. eapply msgs_ok_mono; [exact Hm|]. intros k [?|?]; [left; set_solver|by right]. }
  destruct (io_ready s) eqn:Hio; cbn [andb].
  2:{ apply wp_ret. split; [|done]. split; try done; try (simpl; congruence); simpl.
      - apply hot_devices_ok; [done|]. simpl. by rewrite Hbl.
      - by constructor.
      - by apply Hmono. }
  eapply notification_wp; [exact Hl|done|done| |].
  - intros h Hlh Ho _. split; [|done]. split; try done; try (simpl; congruence); simpl.
    + apply hot_devices_ok; [done|]. simpl. by rewrite Hbl.
    + by apply Ho.
    + by constructor.
    + by apply Hmono.
  - intros b h n Hlh Ho Hn. split; [|done]. split; try done; try (simpl; congruence); simpl.
    + apply hot_devices_ok; simpl; [by rewrite msg_refs_app; unfold msg_refs at 1; simpl; rewrite !(left_id_L ∅ (⊎))|].
      rewrite Hbl, Hlh, msg_blocks_app. simpl. multiset_solver.
    + by apply Ho.
    + by constructor.
    + eapply msgs_ok_app; [exact Hmsgs| |].
      * right. split; [done|]. left. left. set_solver.
      * intros k [?|?]; left; [left; set_solver|by right].
    + split; [simpl; lia|done].
Qed.

Lemma list_refs_remove d l :
  NoDup l -> d ∈ l -> list_refs l = {[+ d +]} ⊎ list_refs (filter (fun q => q <> d) l).
Proof.
  intros Hnd Hd. apply list_elem_of_split in Hd as (l1 & l2 & ->).
  apply NoDup_app in Hnd as (H1 & Hd1 & H2). apply NoDup_cons in H2 as [H2 _].
  assert (forall l : list nat, d ∉ l -> filter (fun q => q <> d) l = l) as Hid.
  { induction l as [|a l IH]; intros Hn; [done|]. rewrite filter_cons_True by set_solver.
    rewrite IH by set_solver. done. }
  rewrite filter_app, filter_cons_False, !Hid by set_solver.
  rewrite !list_refs_app, list_refs_cons. multiset_solver.
Qed.

Lemma hot_disconnect_wp F L C d s :
  ready = true -> hot_inv F L C s -> d ∈ usb_devs s ->
  wp (usbi_disconnect_device be d) s (fun _ s' => same_oracles (mem s) (mem s') /\
    (d ∉ usb_devs s') /\ exists L', hot_inv F L' C s' /\ (no_malloc_failure (mem s) -> L' = L)).
Proof.
  intros Hnow Hinv Hd. pose proof (hot_inv_elem _ _ _ _ d Hinv ltac:(by left)) as [x Hx].
  destruct Hinv as [[Hrefs [Hl Hcon]] Hfresh Hnd Hcbs Hmsgs Hpipe Htr Hready]. unfold usbi_disconnect_device.
  apply wp_bind, (wp_get_device _ x); [done|]. apply wp_bind, wp_put_device, wp_bind, wp_gets, wp_bind.
  cbn [usb_devs set_devices]. eapply wp_lift; [by apply list_del_wp|].
  apply wp_bind, wp_modify, wp_bind, wp_gets.
  cbn [io_ready set_usb_devs set_devices]. rewrite Hhot, Hready, Hnow. cbn [andb].
  set (rest := filter (fun q => q <> d) (usb_devs s)).
  assert (refs_ok (<[d := set_attached false x]> (devices s)) ({[+ d +]} ⊎ (list_refs rest ⊎ msg_refs (msgs s) ⊎ L ⊎ C))) as Hrefs'.
  { rewrite (list_refs_remove d) in Hrefs by done. fold rest in Hrefs.
    rewrite !(assoc_L (⊎)). by eapply refs_update. }
  assert (blocks (<[d := set_attached false x]> (devices s)) = blocks (devices s)) as Hbl by by apply (map_sum_update _ _ d x).
  assert (forall k, k ∈ usb_devs s -> k = d \/ k ∈ rest) as Hrest.
  { intros k Hk. destruct (decide (k = d)); [by left|]. right. by apply list_elem_of_filter. }
  assert (d ∉ rest) as Hdrest by (intros Hin; by apply list_elem_of_filter in Hin as [? _]).
  eapply notification_wp; [exact Hl|done|done| |].
  - intros h Hlh Ho Hoom. split; [done|]. split; [done|]. exists ({[+ d +]} ⊎ L). split; [|done]. split; try done; simpl.
    + apply hot_devices_ok; simpl; [|by rewrite Hbl].
      replace (list_refs rest ⊎ msg_refs (msgs s) ⊎ ({[+ d +]} ⊎ L) ⊎ C)
        with ({[+ d +]} ⊎ (list_refs rest ⊎ msg_refs (msgs s) ⊎ L ⊎ C)) by multiset_solver. done.
    + by apply Ho.
    + by apply NoDup_filter.
    + eapply msgs_ok_mono; [exact Hmsgs|]. intros k [Hk|Hk]; [|right; multiset_solver].
      destruct (Hrest k Hk) as [->|]; [right; multiset_solver|by left].
  - intros b h n Hlh Ho Hn. split; [done|]. split; [done|]. exists L. split; [|done]. split; try done; simpl.
    + apply hot_devices_ok; simpl.
      * rewrite msg_refs_app. unfold msg_refs at 1. simpl.
        replace (list_refs rest ⊎ ({[+ d +]} ⊎ ∅ ⊎ msg_refs (msgs s)) ⊎ L ⊎ C)
          with ({[+ d +]} ⊎ (list_refs rest ⊎ msg_refs (msgs s) ⊎ L ⊎ C)) by multiset_solver. done.
      * rewrite Hbl, Hlh, msg_blocks_app. simpl. multiset_solver.
    + by apply Ho.
    + by apply NoDup_filter.
    + eapply msgs_ok_app; [exact Hmsgs|by left|]. intros k [Hk|Hk]; [|left; by right].
      destruct (Hrest k Hk) as [->|]; [by right|left; by left].
    + split; [simpl; lia|done].
Qed.

(** ** The backend *)

Lemma find_session_wp F L C sid l s :
  hot_inv F L C s -> (forall d, d ∈ l -> d ∈ usb_devs s) ->
  wp (find_session sid l) s (fun r s' =>
    match r with
    | None => s' = s
    | Some d => d ∈ usb_devs s /\ hot_inv F L ({[+ d +]} ⊎ C) s' /\ same_rest be s s'
    end).
Proof.
  intros Hinv. induction l as [|d l IH]; intros Hl; [by apply wp_ret|]. cbn [find_session].
  assert (d ∈ usb_devs s) as Hd by (apply Hl; set_solver).
  destruct (hot_inv_elem _ _ _ _ d Hinv (or_introl Hd)) as [x Hx].
  apply wp_bind, (wp_get_device _ x); [done|]. case_match.
  - apply wp_bind. eapply wp_mono; [by apply (hot_ref_wp F L C d s Hinv); eexists|].
    intros r s' (-> & Hinv' & Hsame). by apply wp_ret.
  - apply IH. intros; apply Hl; set_solver.
Qed.

Lemma hot_session_wp F L C sid s :
  hot_inv F L C s ->
  wp (usbi_get_device_by_session_id sid) s (fun r s' =>
    match r with
    | None => s' = s
    | Some d => d ∈ usb_devs s /\ hot_inv F L ({[+ d +]} ⊎ C) s' /\ same_rest be s s'
    end).
Proof. intros Hinv. unfold usbi_get_device_by_session_id. apply wp_bind, wp_gets. by apply find_session_wp. Qed.

(** [hot_grow]: the invariant, possibly with more lost references, which is
    only possible where an allocation failed. *)
Definition hot_grow F L C s s' : Prop :=
  same_oracles (mem s) (mem s') /\
  exists L', hot_inv F L' C s' /\ (no_malloc_failure (mem s) -> L' = L).

Lemma hot_grow_intro F L C s s' : same_oracles (mem s) (mem s') -> hot_inv F L C s' -> hot_grow F L C s s'.
Proof. intros Ho Hinv. split; [done|]. by exists L. Qed.

Lemma same_rest_oracles s s' : same_rest be s s' -> same_oracles (mem s) (mem s').
Proof. intros (_ & Ho & _). done. Qed.

Lemma hot_disconnected_wp F L C busnum devaddr s :
  ready = true -> hot_inv F L C s -> wp (linux_device_disconnected be busnum devaddr) s (fun _ s' => hot_grow F L C s s').
Proof.
  intros Hnow Hinv. unfold linux_device_disconnected. apply wp_bind.
  eapply wp_mono; [by apply (hot_session_wp F L C)|]. intros [d|] s1; [|intros ->; by apply wp_ret, hot_grow_intro].
  intros (Hd & Hinv1 & Hsame1). pose proof (same_rest_oracles _ _ Hsame1) as Ho1.
  apply wp_bind. eapply wp_mono; [apply (hot_disconnect_wp F L ({[+ d +]} ⊎ C) d); [done|done|]|].
  { destruct Hsame1 as (_ & _ & _ & Hu). by rewrite Hu. }
  intros [] s2 (Ho2 & _ & L' & Hinv2 & HL). eapply wp_mono; [by apply (hot_unref_wp F L' C d)|].
  intros [] s3 [Hinv3 Hsame3]. pose proof (same_rest_oracles _ _ Hsame3) as Ho3.
  split; [by etrans; [exact Ho1|]; etrans|]. exists L'. split; [done|].
  intros Hn. by eapply HL, no_malloc_failure_same.
Qed.

Variable app : nat -> option nat -> Z -> W -> Z * W.

(** ** The event handler *)

Lemma sublist_map {A B} (f : A -> B) (l k : list A) : sublist l k -> sublist (map f l) (map f k).
Proof. induction 1; simpl; by constructor. Qed.

Lemma match_spec_sublist l dev raw event w : sublist (match_spec big app l dev raw event w).1 l.
Proof.
  revert w. induction l as [|c l IH]; intros w; [done|]. simpl.
  destruct (cb_result big app c dev raw event w) as [fin w1]. specialize (IH w1).
  destruct (match_spec big app l dev raw event w1) as [kept w2]. destruct fin; by constructor.
Qed.

Lemma hot_message_wp F L C m rest b fl s :
  let s1 := set_ev (set_pipe_bytes b (set_event_flags fl (set_hotplug_msgs rest (ev s)))) s in
  hot_inv F L C s -> msgs s = m :: rest -> pipe_ok (ev s1) ->
  wp (process_message be big (app_fn app) m) s1 (fun _ s' => hot_inv F L C s' /\ same_oracles (mem s) (mem s') /\
    msgs s' = rest).
Proof.
  intros s1 Hinv Hm Hpipe1. pose proof (hot_inv_elem F L C s) as Halive. specialize (fun d => Halive d Hinv).
  destruct Hinv as [[Hrefs [Hl Hcon]] Hfresh Hnd Hcbs Hmsgs Hpipe Htr Hready].
  rewrite Hm in Hmsgs, Hl, Hrefs, Halive. destruct Hmsgs as [Hmok Hmsgs]. unfold process_message.
  assert (exists raw, event_device s1 (msg_device m) raw (msg_event m)) as [raw Hdev].
  { unfold msg_ok in Hmok. unfold event_device. destruct (msg_device m) as [d|] eqn:Hd; [|by exists []].
    assert (is_Some (devices s !! d)) as [x Hx]; [|by exists (device_descriptor x), x].
    apply Halive. unfold msg_refs. simpl. rewrite Hd.
    destruct Hmok as [->|[_ [[?|?]|Hleft]]]; [|by left|by right; left|].
    - right; right; right. simpl. multiset_solver.
    - right; right; right. apply left_message_refs in Hleft. unfold msg_refs in Hleft. multiset_solver. }
  apply wp_bind. eapply wp_mono.
  { apply (hotplug_match_wp big app _ raw _ (blocks (devices s) ⊎ ({[+ msg_block m +]} ⊎ msg_blocks rest ⊎ F)) s1 Hcbs Hdev).
    simpl. rewrite Hl. unfold msg_blocks. simpl. multiset_solver. }
  intros [] s2 (Hc2 & Hw2 & Hl2 & Ho2 & Hs2). cbn zeta in *.
  set (kept := (match_spec _ _ _ _ _ _ _).1) in *.
  assert (devices s2 = devices s /\ usb_devs s2 = usb_devs s /\ ev s2 = ev s1 /\ io_ready s2 = io_ready s)
    as (Hd2 & Hu2 & He2 & Hr2) by (rewrite Hs2; done).
  set (left := if msg_event m =? LIBUSB_HOTPLUG_EVENT_DEVICE_LEFT then own (msg_device m) else ∅).
  assert (msg_refs (m :: rest) = left ⊎ msg_refs rest) as Hmr by done. rewrite Hmr in Hrefs.
  assert (devices_ok be ({[+ msg_block m +]} ⊎ (cb_blocks kept ⊎ msg_blocks rest ⊎ F))
    (left ⊎ (list_refs (usb_devs s) ⊎ msg_refs rest ⊎ L ⊎ C)) s2) as Hok2.
  { apply hot_devices_ok; rewrite Hd2; [|rewrite Hl2; multiset_solver].
    replace (left ⊎ (list_refs (usb_devs s) ⊎ msg_refs rest ⊎ L ⊎ C))
      with (list_refs (usb_devs s) ⊎ (left ⊎ msg_refs rest) ⊎ L ⊎ C) by multiset_solver. done. }
  apply wp_bind. eapply (wp_mono _ _ (fun _ s3 => devices_ok be ({[+ msg_block m +]} ⊎ (cb_blocks kept ⊎ msg_blocks rest ⊎ F))
    (list_refs (usb_devs s) ⊎ msg_refs rest ⊎ L ⊎ C) s3 /\ same_rest be s2 s3)).
  { unfold left in Hok2. destruct (msg_event m =? LIBUSB_HOTPLUG_EVENT_DEVICE_LEFT).
    - eapply wp_mono; [by apply (libusb_unref_device_wp be _ _ _ _ Hok2)|]. by intros [] s3 (? & _ & ?).
    - apply wp_ret. rewrite (left_id_L ∅ (⊎)) in Hok2. done. }
  intros [] s3 [(Hrefs3 & Hl3 & Hcon3) (Heq3 & Ho3 & _ & Hu3)]. specialize (Hu3 Hhot).
  apply wp_on_mem. apply (free_wp _ _ (blocks (devices s3) ⊎ (cb_blocks kept ⊎ msg_blocks rest ⊎ F))).
  { rewrite Hl3. simpl. multiset_solver. }
  intros h Hlh Hoh.
  assert (ev s3 = ev s1 /\ hotplug_cbs s3 = kept /\ io_ready s3 = ready) as (He3 & Hc3 & Hr3)
    by (rewrite Heq3; simpl; rewrite He2, Hc2, Hr2; done).
  assert (same_oracles (mem s) h) as Hos by (etrans; [exact Ho2|]; etrans; [exact Ho3|exact Hoh]).
  split; [|split; [done|by simpl; rewrite He3]].
  split; simpl; rewrite ?He3, ?Hc3, ?Hu3, ?Hu2; try done.
  - by apply Hos.
  - eapply sublist_NoDup; [exact Hcbs|]. apply sublist_map, match_spec_sublist.
Qed.

(** A turn of the event handler, when [poll] finds the event pipe readable. *)
Definition event_turn (fuel : nat) : Lib W unit :=
  s ← get;
  if 0 <? pipe_bytes (ev s) then handle_event_pipe be big (app_fn app) fuel ;; mret tt else mret tt.

Lemma hot_event_wp F L C fuel s :
  hot_inv F L C s ->
  wp (event_turn fuel) s (fun _ s' => hot_inv F L C s' /\ same_oracles (mem s) (mem s') /\
    (0 < pipe_bytes (ev s) -> msgs s' = tail (msgs s))).
Proof.
  intros Hinv. unfold event_turn. apply wp_bind. unfold wp at 1, get.
  destruct (Z.ltb_spec 0 (pipe_bytes (ev s))) as [Hpos|Hneg]; [|apply wp_ret; by split_and!; [| |lia]].
  apply wp_bind. unfold handle_event_pipe. apply wp_bind, take_message_wp. intros fl.
  apply wp_bind. assert (completed_transfers (ev s) = []) as Hnone by apply Hinv.
  assert (forall s1, completed_transfers (ev s1) = [] -> complete_loop be fuel s1 = Ok (0, s1)) as Hloop.
  { intros s1 Hs1. destruct fuel; simpl; unfold take_completed, gets; unfold mbind, M_bind; by rewrite Hs1. }
  unfold wp at 1. rewrite Hloop by done. apply wp_bind, clear_if_idle_wp; [done|]. intros n Hok. cbn [ev set_ev] in *.
  destruct (msgs s) as [|m rest] eqn:Hm; cbn [head tail].
  - apply wp_bind, wp_ret, wp_ret, wp_ret. split; [|by split]. destruct Hinv. rewrite Hm in *.
    by split.
  - apply wp_bind. eapply wp_mono; [by apply (hot_message_wp F L C m rest n fl s)|].
    intros [] s' (Hinv' & Ho & Hrest). by apply wp_ret, wp_ret.
Qed.

(** ** The application *)

Lemma hot_deregister_wp F L C handle s :
  hot_inv F L C s ->
  wp (libusb_hotplug_deregister_callback be handle) s (fun _ s' => hot_inv F L C s' /\ same_oracles (mem s) (mem s')).
Proof.
  intros [[Hrefs [Hl Hcon]] Hfresh Hnd Hcbs Hmsgs Hpipe Htr Hready]. unfold libusb_hotplug_deregister_callback.
  rewrite Hhot. apply wp_bind, wp_modify.
  assert (forall l, map cb_block (map (mark_needs_free handle) l) = map cb_block l) as Hblocks.
  { intros l. rewrite map_map. apply map_ext. intros c. unfold mark_needs_free. by case_match. }
  assert (forall l, cb_blocks (map (mark_needs_free handle) l) = cb_blocks l) as Hsum.
  { induction l as [|c l IH]; [done|]. unfold cb_blocks in *. simpl. rewrite IH.
    unfold mark_needs_free. by case_match. }
  eapply notification_wp; [exact Hl|done|done| |].
  - intros h Hlh Ho _. split; [|done]. split; simpl; rewrite ?Hblocks, ?Hsum; try done. by apply Ho.
  - intros b h n Hlh Ho Hn. split; [|done]. split; simpl; rewrite ?Hblocks, ?Hsum; try done.
    + apply hot_devices_ok; simpl.
      * rewrite msg_refs_app. unfold msg_refs at 1. simpl. by rewrite !(left_id_L ∅ (⊎)).
      * rewrite Hlh, msg_blocks_app. simpl. multiset_solver.
    + by apply Ho.
    + eapply msgs_ok_app; [exact Hmsgs|done|]. intros k Hk. by left.
    + split; [simpl; lia|done].
Qed.

Lemma enumerate_callback_wp b c devs s :
  find (fun c' => (cb_block c' =? b)%nat) (hotplug_cbs s) = Some c -> cb_block c = b ->
  (forall d, d ∈ devs -> is_Some (devices s !! d)) ->
  wp (enumerate_callback big (app_fn app) b devs) s (fun _ s' => exists w, s' = set_world w s).
Proof.
  intros Hc Hb. unfold enumerate_callback. revert s Hc. induction devs as [|d devs IH]; intros s Hc Hdevs.
  { apply wp_ret. exists (world s). by destruct s. }
  destruct (Hdevs d) as [x Hx]; [set_solver|]. cbn [for_each]. apply wp_bind, wp_bind. subst b.
  destruct (match_cb_eq big app (Some d) (device_descriptor x) LIBUSB_HOTPLUG_EVENT_DEVICE_ARRIVED c s Hc)
    as (r & Hrun & _); [by exists x|].
  unfold wp at 1. rewrite Hrun. apply wp_ret. eapply wp_mono; [apply IH; [done|]|].
  - intros k Hk. apply Hdevs. set_solver.
  - intros [] s' [w ->]. by exists w.
Qed.

Lemma hotplug_no_list : be_get_device_list be = None.
Proof. unfold has_hotplug, libusb_has_capability in Hhot. simpl in Hhot. by destruct (be_get_device_list be). Qed.
Context (Hpoll : be_hotplug_poll be = None).

(** A callback that is added to the list. *)
Lemma hot_add_cb F L C b c next h s :
  hot_inv F L C s -> cb_block c = b -> live h = {[+ b +]} ⊎ live (mem s) -> same_oracles (mem s) h ->
  b ∉ live (mem s) ->
  hot_inv F L C (set_hotplug_cbs (c :: hotplug_cbs s) (set_next_cb_handle next (set_mem h s))).
Proof.
  intros [[Hrefs [Hl Hcon]] Hfresh Hnd Hcbs Hmsgs Hpipe Htr Hready] <- Hlh Ho Hb.
  split; simpl; try done.
  - apply hot_devices_ok; [done|]. simpl. rewrite Hlh, Hl. unfold cb_blocks. simpl. multiset_solver.
  - by apply Ho.
  - constructor; [|done]. intros Hin. apply Hb. rewrite Hl.
    assert (forall l, cb_block c ∈ map cb_block l -> cb_block c ∈ cb_blocks l) as Hel.
    { unfold cb_blocks. induction l as [|a l IH]; simpl; [set_solver|].
      rewrite elem_of_cons. intros [->|?]; [multiset_solver|]. specialize (IH ltac:(done)). multiset_solver. }
    specialize (Hel _ Hin). multiset_solver.
Qed.

Lemma hot_register_wp F L C events flags vendor_id product_id dev_class cb_fn s :
  hot_inv F L C s ->
  wp (libusb_hotplug_register_callback be big (app_fn app) events flags vendor_id product_id dev_class cb_fn) s
    (fun _ s' => hot_inv F L C s' /\ same_oracles (mem s) (mem s')).
Proof.
  intros Hinv. unfold libusb_hotplug_register_callback. rewrite Hhot. cbn [negb].
  destruct cb_fn as [fn|]; [|by apply wp_ret]. case_match; [by apply wp_ret|].
  apply wp_bind, wp_on_mem.
  apply (malloc_fresh_wp _ (live (mem s))); [done|apply Hinv| |].
  2:{ intros h Hlh Ho _. apply wp_ret. split; [|done]. destruct Hinv as [[? [? ?]]]. split; simpl; try done.
      - apply hot_devices_ok; [done|]. simpl. by rewrite Hlh.
      - by apply Ho. }
  intros b h Hlh Ho Hb. apply wp_bind, wp_gets, wp_bind, wp_modify, wp_bind, wp_modify. simpl.
  set (c := mk_cb b _ _ _ _ _ _ _). set (s1 := set_hotplug_cbs _ _).
  assert (hot_inv F L C s1) as Hinv1 by by apply (hot_add_cb F L C b c).
  destruct (Z.land flags LIBUSB_HOTPLUG_ENUMERATE =? 0); [by apply wp_ret|].
  apply wp_bind. eapply wp_mono.
  { eapply (get_device_list_wp be _ _ s1 hotplug_no_list Hpoll (hot_devices _ _ _ _ Hinv1)).
    intros d Hd. apply list_refs_elem in Hd. multiset_solver. }
  intros [len [[l devs]|]] s2 [Hpost Hsame2]; simpl in Hpost; pose proof (same_rest_oracles _ _ Hsame2) as Ho2.
  2:{ destruct Hpost as [_ Hok2].
      apply wp_bind. eapply wp_mono; [apply (hot_deregister_wp F L C)|].
      - by apply (hot_inv_same F L C C s1).
      - intros [] s3 [Hinv3 Ho3]. apply wp_ret. split; [done|]. by etrans; [exact Ho|]; etrans. }
  destruct Hpost as (_ & Hdevs & Hok2). apply wp_bind.
  destruct Hsame2 as (Heq2 & _ & _ & Hu2).
  assert (hotplug_cbs s2 = c :: hotplug_cbs s) as Hc2 by (rewrite Heq2; done).
  eapply wp_mono; [apply (enumerate_callback_wp b c devs)|].
  { rewrite Hc2. simpl. by rewrite Nat.eqb_refl. }
  { done. }
  { intros d Hd. eapply devices_ok_live; [exact Hok2|]. apply list_refs_elem in Hd. multiset_solver. }
  intros [] s3 [w ->]. apply wp_bind. eapply wp_mono; [apply (free_device_list_wp be l devs); exact Hok2|].
  intros [] s4 [Hok4 Hsame4]. apply wp_ret. split.
  - apply (hot_inv_same F L C C s1); [done| |done]. etrans; [|etrans; [|exact Hsame4]].
    + split; [exact Heq2|]. split; [exact Ho2|]. split; [rewrite Hu2 by done; done|exact Hu2].
    + split; [by destruct s2|done].
  - etrans; [exact Ho|]. etrans; [exact Ho2|]. by apply same_rest_oracles in Hsame4.
Qed.

Lemma hot_client_wp F L C C' op s :
  hot_inv F L C s -> client_refs C op = Some C' ->
  wp (run_client_op be op) s (fun _ s' => hot_inv F L C' s' /\ same_oracles (mem s) (mem s')).
Proof.
  intros Hinv Hop. eapply wp_mono.
  { eapply (client_op_wp be op _ _ C C' s hotplug_no_list Hpoll); [|done]. split; [apply (hot_devices _ _ _ _ Hinv)|].
    intros d Hd. apply list_refs_elem in Hd. multiset_solver. }
  intros [] s' [[Hok' _] Hsame]. split; [by apply (hot_inv_same F L C C' s)|]. by apply same_rest_oracles.
Qed.

(** ** Sequences of operations *)

(** What the initialisation of a new device may do: anything that keeps the
    invariant, except connecting the device. *)
Variable probe : nat -> Z -> Z -> Lib W Z.
Definition probe_law : Prop := forall d busnum devaddr F L C s,
  hot_inv F L ({[+ d +]} ⊎ C) s -> d ∉ usb_devs s ->
  wp (probe d busnum devaddr) s (fun _ s' => hot_grow F L ({[+ d +]} ⊎ C) s s' /\ d ∉ usb_devs s').

Lemma hot_enumerate_wp F L C busnum devaddr s :
  probe_law -> hot_inv F L C s ->
  wp (linux_enumerate_device be probe busnum devaddr) s (fun _ s' => hot_grow F L C s s').
Proof.
  intros Hprobe Hinv. unfold linux_enumerate_device. apply wp_bind.
  eapply wp_mono; [by apply (hot_session_wp F L C)|]. intros [d|] s1.
  { intros (_ & Hinv1 & Hsame1). apply wp_bind. eapply wp_mono; [by apply (hot_unref_wp F L C d)|].
    intros [] s2 [Hinv2 Hsame2]. apply wp_ret, hot_grow_intro; [|done].
    etrans; by apply same_rest_oracles. }
  intros ->. apply wp_bind. eapply wp_mono; [by apply (hot_alloc_wp F L C)|].
  intros [d|] s1 [Ho1 Hinv1]; [|by apply wp_ret, hot_grow_intro]. destruct Hinv1 as [Hinv1 Hd1].
  apply wp_bind. eapply wp_mono; [by apply (Hprobe d busnum devaddr F L C)|].
  intros r s2 [[Ho2 (L' & Hinv2 & HL)] Hd2]. apply wp_bind.
  eapply (wp_mono _ _ (fun _ s3 => hot_inv F L' C s3 /\ same_oracles (mem s2) (mem s3))).
  { destruct (r <? 0); [|by apply hot_connect_wp]. eapply wp_mono; [by apply (hot_unref_wp F L' C d)|].
    intros [] s3 [? ?]. split; [done|]. by apply same_rest_oracles. }
  intros [] s3 [Hinv3 Ho3]. apply wp_ret. split; [by etrans; [exact Ho1|]; etrans|]. exists L'. split; [done|].
  intros Hn. by eapply HL, no_malloc_failure_same.
Qed.


Inductive hot_op : Type :=
| HotArrive (busnum devaddr : Z)      (** the kernel reports a new device *)
| HotLeave (busnum devaddr : Z)       (** or that one is gone *)
| HotEvent (fuel : nat)               (** the event handler runs *)
| HotClient (op : client_op)
| HotRegister (events flags vendor_id product_id dev_class : Z) (cb_fn : option nat)
| HotDeregister (handle : Z).

Definition run_hot_op (op : hot_op) : Lib W unit :=
  match op with
  | HotArrive busnum devaddr => linux_enumerate_device be probe busnum devaddr ;; mret tt
  | HotLeave busnum devaddr => linux_device_disconnected be busnum devaddr
  | HotEvent fuel => event_turn fuel
  | HotClient op => run_client_op be op
  | HotRegister events flags vendor_id product_id dev_class cb_fn =>
      libusb_hotplug_register_callback be big (app_fn app) events flags vendor_id product_id dev_class cb_fn ;; mret tt
  | HotDeregister handle => libusb_hotplug_deregister_callback be handle
  end.

(** The references of the application afterwards. *)
Definition hot_refs (C : gmultiset nat) (op : hot_op) : option (gmultiset nat) :=
  match op with
  | HotClient op => client_refs C op
  | _ => Some C
  end.
Fixpoint hot_refs_all (C : gmultiset nat) (ops : list hot_op) : option (gmultiset nat) :=
  match ops with
  | [] => Some C
  | op :: ops => C' ← hot_refs C op; hot_refs_all C' ops
  end.

Lemma hot_op_wp F L C C' op s :
  ready = true -> probe_law -> hot_inv F L C s -> hot_refs C op = Some C' ->
  wp (run_hot_op op) s (fun _ s' => hot_grow F L C' s s').
Proof.
  intros Hnow Hprobe Hinv Hop. destruct op as [bus addr|bus addr|fuel|op|e fl v p c fn|h]; simpl in *; simplify_eq.
  - apply wp_bind. eapply wp_mono; [by apply (hot_enumerate_wp F L C')|]. intros r s' Hgrow. by apply wp_ret.
  - by apply hot_disconnected_wp.
  - eapply wp_mono; [by apply (hot_event_wp F L C')|]. intros [] s' (? & ? & _). by apply hot_grow_intro.
  - eapply wp_mono; [by apply (hot_client_wp F L C C')|]. intros [] s' [? ?]. by apply hot_grow_intro.
  - apply wp_bind. eapply wp_mono; [by apply (hot_register_wp F L C')|]. intros r s' [? ?].
    by apply wp_ret, hot_grow_intro.
  - eapply wp_mono; [by apply (hot_deregister_wp F L C')|]. intros [] s' [? ?]. by apply hot_grow_intro.
Qed.

Lemma hot_ops_wp F L C C' ops s :
  ready = true -> probe_law -> hot_inv F L C s -> hot_refs_all C ops = Some C' ->
  wp (for_each run_hot_op ops) s (fun _ s' => hot_grow F L C' s s').
Proof.
  intros Hnow Hprobe. revert L C s. induction ops as [|op ops IH]; intros L C s Hinv Hops; simpl in *.
  { simplify_eq. by apply wp_ret, hot_grow_intro. }
  destruct (hot_refs C op) as [C1|] eqn:Hop; [|done]. apply wp_bind.
  eapply wp_mono; [by apply (hot_op_wp F L C C1)|]. intros [] s1 (Ho1 & L1 & Hinv1 & HL1).
  eapply wp_mono; [by apply (IH L1 C1)|]. intros [] s2 (Ho2 & L2 & Hinv2 & HL2).
  split; [by etrans|]. exists L2. split; [done|]. intros Hn.
  rewrite <- HL1 by done. by eapply HL2, no_malloc_failure_same.
Qed.
End life.
