(* ===== verification/TransferSpecs.v ===== *)
(** * Specifications of asynchronous transfers

    The order of the flying list, the deadlines, and what the operations of
    Transfers.v do to the list, to the flags and to the references. *)

From S2P Require Import Prelude Heap ParseDesc DescApi Core Devices DeviceRefs Transfers.
From Stdlib Require Import Sorted.

(** ** Deadlines *)

Definition tv_ok (tv : timeval) : Prop := 0 <= tv_sec tv /\ 0 <= tv_usec tv < 1000000.
Definition tv_micros (tv : timeval) : Z := tv_sec tv * 1000000 + tv_usec tv.
Definition ts_nanos (ts : timespec) : Z := ts_sec ts * 1000000000 + ts_nsec ts.

Lemma normalize_ok fuel ts :
  0 <= ts_nsec ts -> ts_nsec ts <= Z.of_nat fuel ->
  exists ts', normalize fuel ts = Ok ts' /\ ts_nanos ts' = ts_nanos ts /\ 0 <= ts_nsec ts' < 1000000000 /\
    ts_sec ts <= ts_sec ts'.
Proof.
  revert ts. induction fuel as [|fuel IH]; intros ts Hn Hf; simpl.
  - rewrite (proj2 (Z.ltb_lt _ _)) by lia. exists ts. split_and!; [done|done|lia|lia|lia].
  - destruct (Z.ltb_spec (ts_nsec ts) 1000000000); [exists ts; split_and!; [done|done|lia|lia|lia]|].
    destruct (IH (mk_ts (ts_sec ts + 1) (ts_nsec ts - 1000000000))) as (ts' & Hrun & Hv & Hb & Hs); simpl in *; [lia|lia|].
    exists ts'. split; [done|]. unfold ts_nanos in *. simpl in *. split_and!; lia.
Qed.

Lemma deadline_ok now timeout :
  0 <= ts_sec now -> 0 <= ts_nsec now < 1000000000 -> 0 <= timeout ->
  exists tv, deadline now timeout = Ok tv /\ tv_ok tv /\
    tv_micros tv = (ts_nanos now + timeout * 1000000) / 1000.
Proof.
  intros Hs Hn Ht. unfold deadline.
  pose proof (Z.mod_pos_bound timeout 1000 ltac:(lia)) as Hm. pose proof (Z.div_pos timeout 1000 Ht ltac:(lia)) as Hd.
  set (ts := mk_ts _ _). destruct (normalize_ok (Z.to_nat (ts_nsec ts)) ts) as (ts' & Hrun & Hv & Hb & Hs').
  { subst ts. simpl. lia. }
  { subst ts. simpl. lia. }
  rewrite Hrun. eexists. split; [done|]. unfold ts_nanos in *. subst ts. simpl in *.
  pose proof (Z.div_mod timeout 1000 ltac:(lia)) as Heq. unfold tv_ok, tv_micros. simpl.
  rewrite Z.quot_div_nonneg by lia. split.
  - split; [lia|]. split; [apply Z.div_pos; lia|]. apply Z.div_lt_upper_bound; lia.
  - replace (ts_sec now * 1000000000 + ts_nsec now + timeout * 1000000)
      with (ts_nsec ts' + ts_sec ts' * 1000000 * 1000) by lia.
    rewrite Z.div_add by lia. lia.
Qed.

Lemma timer_lt_micros a b : tv_ok a -> tv_ok b -> timer_lt a b = (tv_micros a <? tv_micros b).
Proof.
  intros [Ha1 Ha2] [Hb1 Hb2]. unfold timer_lt, tv_micros.
  destruct (Z.eqb_spec (tv_sec a) (tv_sec b)) as [Heq|Hne].
  - rewrite Heq. destruct (Z.ltb_spec (tv_usec a) (tv_usec b)); symmetry; [apply Z.ltb_lt|apply Z.ltb_ge]; lia.
  - destruct (Z.ltb_spec (tv_sec a) (tv_sec b)); symmetry; [apply Z.ltb_lt|apply Z.ltb_ge]; nia.
Qed.

Lemma timerisset_micros tv : tv_ok tv -> timerisset tv = (0 <? tv_micros tv).
Proof.
  intros [H1 H2]. unfold timerisset, tv_micros.
  destruct (Z.eqb_spec (tv_sec tv) 0), (Z.eqb_spec (tv_usec tv) 0); simpl; symmetry; try apply Z.ltb_lt; try apply Z.ltb_ge; lia.
Qed.

Lemma later_micros cur tv : tv_ok cur -> tv_ok tv -> later cur tv = negb (timerisset cur) || (tv_micros tv <? tv_micros cur).
Proof.
  intros Hc Ht. rewrite <- timer_lt_micros by done. unfold later, timer_lt. rewrite <- orb_assoc. f_equal.
  destruct (Z.eqb_spec (tv_sec cur) (tv_sec tv)) as [Heq|Hne].
  - rewrite Heq, Z.eqb_refl. simpl. by rewrite Z.ltb_irrefl.
  - rewrite (proj2 (Z.eqb_neq (tv_sec tv) _)) by done. by rewrite orb_false_r.
Qed.

(** The order of the list: no timeout counts as the latest of all. *)
Definition tv_before (a b : timeval) : Prop :=
  timerisset b = true -> timerisset a = true /\ tv_micros a <= tv_micros b.

#[export] Instance tv_before_trans : Transitive tv_before.
Proof. intros a b c Hab Hbc Hc. destruct (Hbc Hc) as [Hb ?]. destruct (Hab Hb). split; [done|lia]. Qed.

(** ** Lists and flags *)

Lemma StronglySorted_insert (R : nat -> nat -> Prop) l1 l2 t :
  StronglySorted R (l1 ++ l2) -> (forall u, u ∈ l1 -> R u t) -> (forall u, u ∈ l2 -> R t u) ->
  StronglySorted R (l1 ++ t :: l2).
Proof.
  intros Hs H1 H2. induction l1 as [|u l1 IH]; simpl in *.
  - constructor; [done|]. by apply Forall_forall.
  - apply StronglySorted_inv in Hs as [Hs Hu]. constructor; [apply IH; [done|intros; apply H1; set_solver]|].
    apply Forall_app in Hu as [Hu1 Hu2]. apply Forall_app. split; [done|]. constructor; [apply H1; set_solver|done].
Qed.

Lemma filter_out t (l1 l2 : list nat) :
  t ∉ l1 ++ l2 -> filter (fun q => q <> t) (l1 ++ t :: l2) = l1 ++ l2.
Proof.
  intros Ht. assert (forall l : list nat, t ∉ l -> filter (fun q => q <> t) l = l) as Hid.
  { induction l as [|a l IH]; intros Hn; [done|]. rewrite filter_cons_True by set_solver.
    rewrite IH by set_solver. done. }
  rewrite filter_app, filter_cons_False by tauto. rewrite !Hid by set_solver. done.
Qed.

Lemma StronglySorted_ext (R R' : nat -> nat -> Prop) l :
  StronglySorted R l -> (forall t u, t ∈ l -> u ∈ l -> R t u -> R' t u) -> StronglySorted R' l.
Proof.
  induction 1 as [|t l Hs IH Hf]; intros HR; constructor.
  - apply IH. intros; apply HR; set_solver.
  - rewrite Forall_forall in *. intros u Hu. apply HR; [set_solver|set_solver|by apply Hf].
Qed.

Lemma StronglySorted_filter (R : nat -> nat -> Prop) (P : nat -> Prop) `{forall n, Decision (P n)} l :
  StronglySorted R l -> StronglySorted R (filter P l).
Proof.
  induction 1 as [|t l Hs IH Hf]; [constructor|]. rewrite filter_cons. case_decide; [|done].
  constructor; [done|]. rewrite Forall_forall in *. intros u Hu. apply list_elem_of_filter in Hu as [_ Hu]. by apply Hf.
Qed.

Lemma has_flag_lor_r a f : f <> 0 -> has_flag (Z.lor a f) f = true.
Proof.
  intros Hf. unfold has_flag. assert (Z.land (Z.lor a f) f = f) as ->.
  { apply Z.bits_inj'. intros i _. rewrite Z.land_spec, Z.lor_spec.
    by destruct (Z.testbit a i), (Z.testbit f i). }
  by rewrite (proj2 (Z.eqb_neq _ _)).
Qed.

Lemma has_flag_lor_l a b f : has_flag a f = true -> has_flag (Z.lor a b) f = true.
Proof.
  unfold has_flag. rewrite Z.land_lor_distr_l. intros Ha. apply negb_true_iff in Ha. apply Z.eqb_neq in Ha.
  apply negb_true_iff, Z.eqb_neq. intros Hz. apply Ha. by apply Z.lor_eq_0_iff in Hz as [? _].
Qed.

Lemma next_flying_app (pre rest : list nat) t :
  NoDup (pre ++ t :: rest) -> next_flying t (pre ++ t :: rest) = Some (head rest).
Proof.
  intros Hnd. induction pre as [|a pre IH]; simpl in *; [by rewrite Nat.eqb_refl|].
  apply NoDup_cons in Hnd as [Ha Hnd]. destruct (Nat.eqb_spec a t) as [->|]; [set_solver|by apply IH].
Qed.

Lemma filter_filter_comm (P Q : nat -> Prop) `{forall n, Decision (P n), forall n, Decision (Q n)} (l : list nat) :
  filter P (filter Q l) = filter Q (filter P l).
Proof.
  induction l as [|a l IH]; [done|].
  rewrite (filter_cons Q), (filter_cons P). destruct (decide (P a)), (decide (Q a));
    rewrite ?filter_cons_True, ?filter_cons_False by done; by rewrite ?IH.
Qed.

Lemma filter_ext_in (P Q : nat -> Prop) `{forall n, Decision (P n), forall n, Decision (Q n)} (l : list nat) :
  (forall a, a ∈ l -> P a <-> Q a) -> filter P l = filter Q l.
Proof.
  induction l as [|a l IH]; intros Hl; [done|]. rewrite !filter_cons, IH by (intros; apply Hl; set_solver).
  pose proof (Hl a ltac:(set_solver)). repeat case_decide; tauto || done.
Qed.

Lemma remove_one t (l : list nat) (d : nat) :
  NoDup l -> t ∈ l -> map (fun _ => d) l ≡ₚ d :: map (fun _ => d) (filter (fun q => q <> t) l).
Proof.
  intros Hnd Ht. apply list_elem_of_split in Ht as (l1 & l2 & ->).
  rewrite filter_out.
  - rewrite !map_app. simpl. by rewrite <- Permutation_middle.
  - apply NoDup_app in Hnd as (_ & Hd & Hnd). apply NoDup_cons in Hnd as [Hnd _]. set_solver.
Qed.

Lemma list_refs_perm l l' : l ≡ₚ l' -> list_refs l = list_refs l'.
Proof. intros Hp. unfold list_refs. by rewrite Hp. Qed.

Set Default Proof Using "Type".

Section specs.
Context {W : Type} (be : os_backend W).
Implicit Types (s : lib W) (t : nat) (x : transfer).

(** The deadline of a transfer of the list. *)
Definition deadline_of s t : timeval :=
  match transfers s !! t with Some x => it_timeout x | None => mk_tv 0 0 end.

(** The flying list: transfers that exist, without duplicates, in the order
    of their deadlines. *)
Record flying_ok s : Prop := mk_flying {
  fl_exist : forall t, t ∈ flying_transfers s -> is_Some (transfers s !! t);
  fl_nodup : NoDup (flying_transfers s);
  fl_tv : forall t, t ∈ flying_transfers s -> tv_ok (deadline_of s t);
  fl_sorted : StronglySorted (fun t u => tv_before (deadline_of s t) (deadline_of s u)) (flying_transfers s)
}.

Lemma wp_get_transfer t x s (Q : transfer -> lib W -> Prop) :
  transfers s !! t = Some x -> Q x s -> wp (get_transfer t) s Q.
Proof. intros Ht HQ. unfold wp, get_transfer, lookup_obj. by rewrite Ht. Qed.

Lemma wp_get_handle h y s (Q : device_handle -> lib W -> Prop) :
  handles s !! h = Some y -> Q y s -> wp (get_handle h) s Q.
Proof. intros Hh HQ. unfold wp, get_handle, lookup_obj. by rewrite Hh. Qed.

Lemma wp_upd_transfer t f x s (Q : unit -> lib W -> Prop) :
  transfers s !! t = Some x -> Q tt (set_transfers (<[t := f x]> (transfers s)) s) -> wp (upd_transfer t f) s Q.
Proof. intros Ht HQ. unfold upd_transfer. apply wp_bind. by eapply wp_get_transfer. Qed.

Lemma wp_put_transfer t x s (Q : unit -> lib W -> Prop) :
  Q tt (set_transfers (<[t := x]> (transfers s)) s) -> wp (put_transfer t x) s Q.
Proof. done. Qed.

Lemma upd_transfer_eq t f x s :
  transfers s !! t = Some x -> upd_transfer t f s = Ok (tt, set_transfers (<[t := f x]> (transfers s)) s).
Proof. intros Ht. unfold upd_transfer, get_transfer, lookup_obj, put_transfer, modify. unfold mbind, M_bind. by rewrite Ht. Qed.

Lemma deadline_of_eq s t x : transfers s !! t = Some x -> deadline_of s t = it_timeout x.
Proof. intros Ht. unfold deadline_of. by rewrite Ht. Qed.

(** ** The place of a transfer in the list *)

Lemma insert_flying_wp t tv l first s :
  (forall u, u ∈ l -> is_Some (transfers s !! u)) ->
  wp (insert_flying t tv l first) s (fun r s' => s' = s /\
    exists l1 l2, l = l1 ++ l2 /\ r = (l1 ++ t :: l2, first && bool_decide (l1 = [])) /\
      Forall (fun u => later (deadline_of s u) tv = false) l1 /\
      (forall u l3, l2 = u :: l3 -> later (deadline_of s u) tv = true)).
Proof.
  revert first. induction l as [|u l IH]; intros first Hl; cbn [insert_flying].
  { apply wp_ret. split; [done|]. exists [], []. rewrite andb_true_r. by split_and!. }
  destruct (Hl u ltac:(set_solver)) as [x Hx]. pose proof (deadline_of_eq s u x Hx) as Hd.
  apply wp_bind. eapply wp_get_transfer; [exact Hx|]. destruct (later (it_timeout x) tv) eqn:Hlate.
  { apply wp_ret. split; [done|]. exists [], (u :: l). rewrite andb_true_r.
    split_and!; [done|done|done|]. intros ? ? [= -> ->]. by rewrite Hd. }
  apply wp_bind. eapply wp_mono; [apply IH; intros; apply Hl; set_solver|].
  intros r s' (-> & l1 & l2 & -> & -> & Hl1 & Hl2). apply wp_ret. split; [done|].
  exists (u :: l1), l2. simpl. rewrite andb_false_r. split_and!; [done|done| |done].
  constructor; [by rewrite Hd|done].
Qed.

Lemma insert_sorted s t tv l1 l2 :
  StronglySorted (fun t u => tv_before (deadline_of s t) (deadline_of s u)) (l1 ++ l2) ->
  (forall u, u ∈ l1 ++ l2 -> tv_ok (deadline_of s u)) -> tv_ok tv -> timerisset tv = true -> deadline_of s t = tv ->
  Forall (fun u => later (deadline_of s u) tv = false) l1 ->
  (forall u l3, l2 = u :: l3 -> later (deadline_of s u) tv = true) ->
  StronglySorted (fun t u => tv_before (deadline_of s t) (deadline_of s u)) (l1 ++ t :: l2).
Proof.
  intros Hs Hok Htv Hset Ht Hl1 Hl2. apply StronglySorted_insert; [done| |].
  - intros u Hu. rewrite Ht. rewrite Forall_forall in Hl1. specialize (Hl1 u Hu).
    rewrite later_micros in Hl1 by (auto; apply Hok; set_solver). apply orb_false_iff in Hl1 as [Hset1 Hle].
    apply negb_false_iff in Hset1. apply Z.ltb_ge in Hle. intros _. by split.
  - destruct l2 as [|v l3]; [intros u Hu; by apply elem_of_nil in Hu|]. specialize (Hl2 v l3 eq_refl).
    assert (tv_before tv (deadline_of s v)) as Hv.
    { rewrite later_micros in Hl2 by (first [done|apply Hok; set_solver]). intros Hset2. rewrite Hset2 in Hl2. simpl in Hl2.
      apply Z.ltb_lt in Hl2. split; [done|lia]. }
    intros u Hu. rewrite Ht. apply elem_of_cons in Hu as [->|Hu]; [done|]. etrans; [exact Hv|].
    assert (StronglySorted (fun t u => tv_before (deadline_of s t) (deadline_of s u)) (v :: l3)) as Hs2.
    { clear -Hs. induction l1 as [|a l1 IH]; [done|]. apply IH. by apply StronglySorted_inv in Hs as [Hs _]. }
    apply StronglySorted_inv in Hs2 as [_ Hf]. rewrite Forall_forall in Hf. by apply Hf.
Qed.

(** ** Adding and removing *)

(** The monotonic clock reports times that are well formed. *)
Definition clock_ok : Prop := forall w, let '((r, ts), _) := be_clock_gettime be w in
  r < 0 \/ (r = 0 /\ 0 <= ts_sec ts /\ 0 <= ts_nsec ts < 1000000000).

(** The objects behind a transfer exist. *)
Definition transfer_live s x h y : Prop :=
  t_dev_handle x = Some h /\ handles s !! h = Some y /\ is_Some (devices s !! h_dev y).

Lemma transfer_ctx_wp t x h y s (Q : unit -> lib W -> Prop) :
  transfers s !! t = Some x -> transfer_live s x h y -> Q tt s -> wp (transfer_ctx t) s Q.
Proof.
  intros Ht (Hh & Hy & [d Hd]) HQ. unfold transfer_ctx. apply wp_bind. eapply wp_get_transfer; [done|].
  rewrite Hh. apply wp_bind. eapply wp_get_handle; [done|]. apply wp_bind. by apply (wp_get_device _ d).
Qed.

Lemma set_it_timeout_id x : set_it_timeout (it_timeout x) x = x.
Proof. by destruct x. Qed.

(** The deadline a transfer gets; without a timeout it keeps the old one. *)
Definition new_deadline x (now : timespec) (tv : timeval) : Prop :=
  (t_timeout x = 0 -> tv = it_timeout x) /\
  (t_timeout x <> 0 -> tv_micros tv = (ts_nanos now + t_timeout x * 1000000) / 1000).

Lemma calculate_timeout_wp t x s :
  clock_ok -> transfers s !! t = Some x -> 0 <= t_timeout x -> tv_ok (it_timeout x) ->
  wp (calculate_timeout be t) s (fun r s' => exists tv w, tv_ok tv /\
    s' = set_world w (set_transfers (<[t := set_it_timeout tv x]> (transfers s)) s) /\
    (r = 0 -> exists now, (t_timeout x <> 0 -> be_clock_gettime be (world s) = ((0, now), w)) /\ new_deadline x now tv)).
Proof.
  intros Hclock Ht Hto Htv. unfold calculate_timeout. apply wp_bind. eapply wp_get_transfer; [done|].
  assert (s = set_world (world s) (set_transfers (<[t := set_it_timeout (it_timeout x) x]> (transfers s)) s)) as Hid.
  { rewrite set_it_timeout_id, insert_id by done. by destruct s. }
  destruct (Z.eqb_spec (t_timeout x) 0) as [Hz|Hnz].
  { apply wp_ret. exists (it_timeout x), (world s). split; [done|]. split; [done|].
    intros _. exists (mk_ts 0 0). by repeat split. }
  apply wp_bind, wp_backend_op. intros [r now] w Hget. pose proof (Hclock (world s)) as Hc. rewrite Hget in Hc.
  destruct (Z.ltb_spec r 0) as [Hneg|Hpos].
  { apply wp_ret. exists (it_timeout x), w. split; [done|]. split; [|lia].
    rewrite set_it_timeout_id, insert_id by done. by destruct s. }
  destruct Hc as [?|(-> & Hs & Hn)]; [lia|].
  destruct (deadline_ok now (t_timeout x) Hs Hn Hto) as (tv & Hrun & Hok & Hv).
  apply wp_bind. eapply wp_lift; [exact Hrun|]. apply wp_bind. eapply wp_upd_transfer; [done|]. apply wp_ret.
  exists tv, w. split; [done|]. split; [by destruct s|]. intros _. exists now. split; [done|]. by split.
Qed.

Lemma timerfd_settime_wp tv s :
  wp (timerfd_settime be tv) s (fun r s' => exists w tf, s' = set_world w (set_timerfd tf s) /\ r <= 0).
Proof.
  unfold timerfd_settime. apply wp_bind, wp_backend_op. intros r w _. destruct (r <? 0).
  - apply wp_ret. exists w, (timerfd s). split; [by destruct s|done].
  - apply wp_bind, wp_modify, wp_ret. exists w, (Some tv). split; [by destruct s|done].
Qed.

(** The list with [t] at its place. *)
Lemma flying_insert s t x tv l1 l2 :
  flying_ok s -> flying_transfers s = l1 ++ l2 -> t ∉ flying_transfers s -> tv_ok tv ->
  (timerisset tv = true -> Forall (fun u => later (deadline_of s u) tv = false) l1 /\
     (forall u l3, l2 = u :: l3 -> later (deadline_of s u) tv = true)) ->
  (timerisset tv = false -> l2 = []) ->
  flying_ok (set_flying_transfers (l1 ++ t :: l2) (set_transfers (<[t := set_it_timeout tv x]> (transfers s)) s)).
Proof.
  intros [Hex Hnd Htv Hs] Hfl Hnot Hok Hset Hunset. rewrite Hfl in *.
  set (s' := set_flying_transfers _ _).
  assert (deadline_of s' t = tv) as Ht by (unfold deadline_of; simpl; by rewrite lookup_insert_eq).
  assert (forall u, u ∈ l1 ++ l2 -> deadline_of s' u = deadline_of s u) as Hu.
  { intros u Hu. unfold deadline_of. simpl. rewrite lookup_insert_ne; [done|]. by intros ->. }
  assert (forall u, u ∈ l1 ++ t :: l2 <-> u = t \/ u ∈ l1 ++ l2) as Hel by set_solver.
  assert (StronglySorted (fun t u => tv_before (deadline_of s' t) (deadline_of s' u)) (l1 ++ l2)) as Hs'.
  { eapply StronglySorted_ext; [exact Hs|]. intros a b Ha Hb. by rewrite !Hu. }
  split; simpl.
  - intros u Hin. apply Hel in Hin as [->|Hin]; [rewrite lookup_insert_eq; by eexists|].
    rewrite lookup_insert_ne by (by intros ->). by apply Hex.
  - apply NoDup_app in Hnd as (H1 & H2 & H3). apply NoDup_app. split; [done|]. split.
    + intros u Hin. specialize (H2 u Hin). set_solver.
    + constructor; set_solver.
  - intros u Hin. apply Hel in Hin as [->|Hin]; [by rewrite Ht|]. rewrite Hu by done. by apply Htv.
  - destruct (timerisset tv) eqn:Hts.
    + destruct (Hset eq_refl) as [Hl1 Hl2]. eapply (insert_sorted s' t tv); try done.
      * intros u Hin. rewrite Hu by done. by apply Htv.
      * rewrite Forall_forall in *. intros u Hin. rewrite Hu by set_solver. by apply Hl1.
      * intros u l3 ->. rewrite Hu by set_solver. by eapply Hl2.
    + rewrite (Hunset eq_refl) in *. apply StronglySorted_insert; [done| |set_solver].
      intros u _. rewrite Ht. intros Htrue. congruence.
Qed.

Definition add_post s t x (r : Z) s' : Prop := exists tv w tf l1 l2,
  flying_transfers s = l1 ++ l2 /\ tv_ok tv /\
  s' = set_world w (set_timerfd tf (set_flying_transfers (if r =? 0 then l1 ++ t :: l2 else l1 ++ l2)
         (set_transfers (<[t := set_it_timeout tv x]> (transfers s)) s))) /\
  (r = 0 -> flying_ok s' /\ exists now, new_deadline x now tv).

(** Only the deadlines of the list matter. *)
Lemma flying_ok_ext s s' :
  flying_transfers s' = flying_transfers s ->
  (forall u, u ∈ flying_transfers s -> it_timeout <$> (transfers s' !! u) = it_timeout <$> (transfers s !! u)) ->
  flying_ok s -> flying_ok s'.
Proof.
  clear. intros Hf Ht [H1 H2 H3 H4].
  assert (forall t, t ∈ flying_transfers s -> deadline_of s' t = deadline_of s t) as Hd.
  { intros t Hin. specialize (Ht t Hin). unfold deadline_of. destruct (transfers s' !! t), (transfers s !! t); simpl in Ht; by simplify_eq. }
  split; rewrite ?Hf; try done.
  - intros t Hin. specialize (Ht t Hin). destruct (H1 t Hin) as [x Hx]. rewrite Hx in Ht.
    destruct (transfers s' !! t); [by eexists|done].
  - intros t Hin. rewrite Hd by done. by apply H3.
  - eapply StronglySorted_ext; [exact H4|]. intros a b Ha Hb. by rewrite !Hd.
Qed.
Lemma flying_ok_same s s' :
  flying_transfers s' = flying_transfers s -> transfers s' = transfers s -> flying_ok s -> flying_ok s'.
Proof. clear. intros Hf Ht. apply flying_ok_ext; [done|]. intros u _. by rewrite Ht. Qed.

Lemma add_to_flying_list_wp t x h y s :
  clock_ok -> flying_ok s -> transfers s !! t = Some x -> transfer_live s x h y -> t ∉ flying_transfers s ->
  0 <= t_timeout x -> tv_ok (it_timeout x) ->
  wp (add_to_flying_list be t) s (add_post s t x).
Proof.
  intros Hclock Hfl Ht Hlive Hnot Hto Hold. unfold add_to_flying_list.
  apply wp_bind. eapply transfer_ctx_wp; [done|done|]. apply wp_bind.
  eapply wp_mono; [by apply (calculate_timeout_wp t x)|]. intros r s1 (tv & w & Htv & -> & Hr).
  destruct (Z.eqb_spec r 0) as [->|Hnz]; cbn [negb].
  2:{ apply wp_ret. exists tv, w, (timerfd s), (flying_transfers s), [].
      rewrite (proj2 (Z.eqb_neq _ _)), app_nil_r by done. split; [done|]. split; [done|]. split; [by destruct s|done]. }
  destruct (Hr eq_refl) as (now & _ & Hdl). clear Hr.
  apply wp_bind. eapply wp_get_transfer; [simpl; apply lookup_insert_eq|]. cbn [it_timeout set_it_timeout].
  apply wp_bind, wp_gets. cbn [flying_transfers set_world set_transfers].
  set (s1 := set_world w _). apply wp_bind.
  eapply (wp_mono _ _ (fun r s' => s' = s1 /\ exists l1 l2 first, flying_transfers s = l1 ++ l2 /\ r = (l1 ++ t :: l2, first) /\
    flying_ok (set_flying_transfers (l1 ++ t :: l2) s1))).
  { assert (forall l1 l2, flying_ok (set_flying_transfers (l1 ++ t :: l2) (set_transfers (<[t := set_it_timeout tv x]> (transfers s)) s))
      -> flying_ok (set_flying_transfers (l1 ++ t :: l2) s1)) as Hw by (intros l1 l2; by apply flying_ok_same).
    destruct (flying_transfers s) as [|u l] eqn:Hl.
    - apply wp_ret. split; [done|]. exists [], [], true. split; [done|]. split; [done|]. apply (Hw [] []).
      rewrite <- Hl in Hnot. eapply flying_insert; done.
    - rewrite <- Hl in *. destruct (timerisset tv) eqn:Hset; cbn [negb].
      + eapply wp_mono; [apply (insert_flying_wp t tv (flying_transfers s) true s1)|].
        { intros v Hv. destruct (fl_exist _ Hfl v Hv) as [z Hz]. subst s1. simpl.
          rewrite lookup_insert_is_Some. destruct (decide (t = v)); [by left|]. right. split; [done|]. by eexists. }
        intros r s' (-> & l1 & l2 & Heq & -> & Hl1 & Hl2). split; [done|]. exists l1, l2, (true && bool_decide (l1 = [])).
        assert (forall v, v ∈ flying_transfers s -> deadline_of s1 v = deadline_of s v) as Hd.
        { intros v Hv. unfold deadline_of. subst s1. simpl. rewrite lookup_insert_ne; [done|]. by intros ->. }
        split; [done|]. split; [done|]. apply Hw. eapply flying_insert; try done; [|congruence]. intros _. split.
        * rewrite Forall_forall in *. intros v Hv. rewrite <- Hd by (rewrite Heq; set_solver). by apply Hl1.
        * intros v l3 ->. rewrite <- Hd by (rewrite Heq; set_solver). by eapply Hl2.
      + apply wp_ret. split; [done|]. exists (flying_transfers s), [], true. rewrite app_nil_r.
        split; [done|]. split; [done|]. apply Hw. eapply flying_insert; try done; [by rewrite app_nil_r|congruence]. }
  intros r s' (-> & l1 & l2 & first & Hl & -> & Hok). apply wp_bind, wp_modify, wp_bind, wp_gets, wp_bind.
  eapply (wp_mono _ _ (fun r s' => exists w' tf, s' = set_world w' (set_timerfd tf (set_flying_transfers (l1 ++ t :: l2) s1)))).
  { case_match; [eapply wp_mono; [apply timerfd_settime_wp|]; intros r s' (? & ? & -> & _); eauto|].
    apply wp_ret. exists w, (timerfd s). subst s1. by destruct s. }
  intros r s' (w' & tf & ->). destruct (Z.eqb_spec r 0) as [->|Hnz].
  - apply wp_ret. exists tv, w', tf, l1, l2. split; [done|]. split; [done|]. split; [subst s1; by destruct s|].
    intros _. split; [|by exists now]. eapply flying_ok_same; [| |exact Hok]; done.
  - apply wp_bind.
    eapply wp_lift; [apply list_del_wp; set_solver|]. apply wp_bind, wp_modify, wp_ret.
    rewrite Hl in Hnot. rewrite filter_out by done. exists tv, w', tf, l1, l2.
    rewrite (proj2 (Z.eqb_neq _ _)) by done. split; [done|]. split; [done|]. split; [subst s1; by destruct s|done].
Qed.

(** [arm_timerfd_for_next_timeout] only concerns the timer. *)
Lemma arm_loop_wp l s :
  (forall u, u ∈ l -> is_Some (transfers s !! u)) ->
  wp (arm_loop be l) s (fun _ s' => exists w tf, s' = set_world w (set_timerfd tf s)).
Proof.
  assert (wp (disarm_timerfd be) s (fun _ s' => exists w tf, s' = set_world w (set_timerfd tf s))) as Hdis.
  { eapply wp_mono; [apply timerfd_settime_wp|]. intros r s' (? & ? & -> & _). eauto. }
  induction l as [|u l IH]; intros Hl; [exact Hdis|]. cbn [arm_loop].
  destruct (Hl u ltac:(set_solver)) as [x Hx]. apply wp_bind. eapply wp_get_transfer; [exact Hx|].
  case_match; [exact Hdis|]. case_match; [apply IH; intros; apply Hl; set_solver|].
  eapply wp_mono; [apply timerfd_settime_wp|]. intros r s' (? & ? & -> & _). eauto.
Qed.

Lemma remove_from_flying_list_wp t x h y s :
  flying_ok s -> transfers s !! t = Some x -> transfer_live s x h y -> t ∈ flying_transfers s ->
  wp (remove_from_flying_list be t) s (fun r s' => exists w tf,
    s' = set_world w (set_timerfd tf (set_flying_transfers (filter (fun q => q <> t) (flying_transfers s)) s))).
Proof.
  intros Hfl Ht Hlive Hin. unfold remove_from_flying_list.
  apply wp_bind. eapply transfer_ctx_wp; [done|done|]. apply wp_bind. eapply wp_get_transfer; [done|].
  apply wp_bind, wp_gets, wp_bind. eapply wp_lift; [by apply list_del_wp|].
  apply wp_bind, wp_modify, wp_bind, wp_gets. set (s1 := set_flying_transfers _ s).
  case_match; [|apply wp_ret; exists (world s), (timerfd s); subst s1; by destruct s].
  unfold arm_timerfd_for_next_timeout. apply wp_bind, wp_gets. apply (arm_loop_wp _ s1).
  intros u Hu. simpl in *. apply list_elem_of_filter in Hu as [_ Hu]. by apply (fl_exist _ Hfl).
Qed.

(** Without one transfer the list stays in order, and the other members of
    the remaining transfers do not matter. *)
Lemma flying_remove t s s' :
  flying_ok s -> flying_transfers s' = filter (fun q => q <> t) (flying_transfers s) ->
  (forall u, u <> t -> it_timeout <$> (transfers s' !! u) = it_timeout <$> (transfers s !! u)) ->
  flying_ok s'.
Proof.
  intros [H1 H2 H3 H4] Hf Ht.
  assert (forall u, u ∈ flying_transfers s' -> u <> t /\ u ∈ flying_transfers s) as Hin.
  { intros u Hu. rewrite Hf in Hu. by apply list_elem_of_filter in Hu. }
  assert (forall u, u ∈ flying_transfers s' -> deadline_of s' u = deadline_of s u) as Hd.
  { intros u Hu. destruct (Hin u Hu) as [Hne Hu2]. specialize (Ht u Hne). unfold deadline_of.
    destruct (transfers s' !! u), (transfers s !! u); simpl in Ht; by simplify_eq. }
  split.
  - intros u Hu. destruct (Hin u Hu) as [Hne Hu2]. specialize (Ht u Hne). destruct (H1 u Hu2) as [x Hx].
    rewrite Hx in Ht. destruct (transfers s' !! u); [by eexists|done].
  - rewrite Hf. by apply NoDup_filter.
  - intros u Hu. rewrite Hd by done. apply H3. by apply Hin.
  - rewrite Hf in *. eapply StronglySorted_ext; [by apply StronglySorted_filter|].
    intros a b Ha Hb. by rewrite !Hd.
Qed.

(** ** Cancellation and timeouts *)

Variable cancel : nat -> W -> Z * W.
Context (Hcancel : forall t, be_cancel_transfer be t = backend_op (cancel t)).

(** The result of [libusb_cancel_transfer] on a transfer. *)
Definition cancel_result t x (w : W) : Z * transfer * W :=
  if negb (has_flag (it_state_flags x) USBI_TRANSFER_IN_FLIGHT) || has_flag (it_state_flags x) USBI_TRANSFER_CANCELLING
  then (LIBUSB_ERROR_NOT_FOUND, x, w)
  else
    let '(r, w) := cancel t w in
    let gone := if r =? LIBUSB_ERROR_NO_DEVICE then USBI_TRANSFER_DEVICE_DISAPPEARED else 0 in
    (r, set_it_state_flags (Z.lor (Z.lor (it_state_flags x) gone) USBI_TRANSFER_CANCELLING) x, w).

Lemma cancel_eq t x s :
  transfers s !! t = Some x ->
  libusb_cancel_transfer be t s
  = let '(r, x', w) := cancel_result t x (world s) in
    Ok (r, set_world w (set_transfers (<[t := x']> (transfers s)) s)).
Proof using Hcancel.
  intros Ht. unfold libusb_cancel_transfer, cancel_result, get_transfer, lookup_obj. unfold mbind, M_bind. rewrite Ht.
  case_match.
  { rewrite insert_id by done. by destruct s. }
  rewrite Hcancel. unfold backend_op. destruct (cancel t (world s)) as [r w].
  rewrite (upd_transfer_eq _ _ x) by done. by destruct s.
Qed.

(** What a timeout does to a transfer. *)
Definition timeout_result t x (w : W) : transfer * W :=
  let x := set_it_timeout_flags (Z.lor (it_timeout_flags x) USBI_TRANSFER_TIMEOUT_HANDLED) x in
  let '(r, x, w) := cancel_result t x w in
  (if r =? LIBUSB_SUCCESS
   then set_it_timeout_flags (Z.lor (it_timeout_flags x) USBI_TRANSFER_TIMED_OUT) x else x, w).

Lemma handle_timeout_eq t x s :
  transfers s !! t = Some x ->
  handle_timeout be t s
  = let '(x', w) := timeout_result t x (world s) in
    Ok (tt, set_world w (set_transfers (<[t := x']> (transfers s)) s)).
Proof using Hcancel.
  intros Ht. unfold handle_timeout, timeout_result. unfold mbind, M_bind. rewrite (upd_transfer_eq _ _ x) by done.
  set (x1 := set_it_timeout_flags _ x). set (s1 := set_transfers _ s).
  assert (transfers s1 !! t = Some x1) as Ht1 by apply lookup_insert_eq.
  rewrite (cancel_eq t x1 s1 Ht1). cbn [world set_transfers s1].
  destruct (cancel_result t x1 (world s)) as [[r x2] w]. destruct (r =? LIBUSB_SUCCESS).
  - rewrite (upd_transfer_eq _ _ x2) by apply lookup_insert_eq. subst s1. simpl.
    rewrite !insert_insert_eq. by destruct s.
  - subst s1. simpl. rewrite insert_insert_eq. by destruct s.
Qed.

Lemma cancel_result_timeout t x w : let '(_, x', _) := cancel_result t x w in
  it_timeout x' = it_timeout x /\ it_timeout_flags x' = it_timeout_flags x.
Proof. unfold cancel_result. destruct (_ || _); [done|]. by destruct (cancel t w). Qed.

Lemma timeout_result_ok t x w : let '(x', _) := timeout_result t x w in
  it_timeout x' = it_timeout x /\ has_flag (it_timeout_flags x') USBI_TRANSFER_TIMEOUT_HANDLED = true.
Proof.
  unfold timeout_result. set (x1 := set_it_timeout_flags _ x). pose proof (cancel_result_timeout t x1 w) as Hc.
  destruct (cancel_result t x1 w) as [[r x2] w2]. destruct Hc as [Ht Hf].
  assert (has_flag (it_timeout_flags x2) USBI_TRANSFER_TIMEOUT_HANDLED = true) as Hh
    by (rewrite Hf; by apply has_flag_lor_r).
  destruct (r =? LIBUSB_SUCCESS); cbn [it_timeout it_timeout_flags set_it_timeout_flags]; rewrite Ht; (split; [done|]).
  - by apply has_flag_lor_l.
  - done.
Qed.

(** The transfers whose time is up and was not handled yet. *)
Definition expired s (now : timeval) t : bool :=
  match transfers s !! t with
  | Some x => timerisset (it_timeout x) && negb (timeout_done x) && negb (timer_lt now (it_timeout x))
  | None => false
  end.
Definition is_expired s now t : Prop := expired s now t = true.
#[global] Instance is_expired_dec s now t : Decision (is_expired s now t).
Proof. unfold is_expired. apply _. Defined.

Lemma filter_expired_none s now (l : list nat) : (forall u, u ∈ l -> expired s now u = false) -> filter (is_expired s now) l = [].
Proof. clear Hcancel cancel.
  induction l as [|a l IH]; intros Hl; [done|]. rewrite filter_cons_False.
  - apply IH. intros; apply Hl; set_solver.
  - unfold is_expired. rewrite Hl by set_solver. done.
Qed.

Lemma filter_expired_ext s s' now (l : list nat) :
  (forall u, u ∈ l -> expired s' now u = expired s now u) ->
  filter (is_expired s' now) l = filter (is_expired s now) l.
Proof. clear Hcancel cancel.
  induction l as [|a l IH]; intros Hl; [done|]. rewrite !filter_cons, IH by (intros; apply Hl; set_solver).
  unfold is_expired. pose proof (Hl a ltac:(set_solver)) as Ha. repeat case_decide; congruence || done.
Qed.

(** After a transfer that is not due, none is. *)
Lemma later_not_expired s now t l :
  tv_ok now -> (forall u, u ∈ t :: l -> tv_ok (deadline_of s u)) ->
  Forall (fun u => tv_before (deadline_of s t) (deadline_of s u)) l ->
  timerisset (deadline_of s t) = false \/ timer_lt now (deadline_of s t) = true ->
  forall u, u ∈ l -> expired s now u = false.
Proof. clear Hcancel cancel.
  intros Hnow Hok Hf Ht u Hu. rewrite Forall_forall in Hf. specialize (Hf u Hu). unfold expired.
  destruct (transfers s !! u) as [x|] eqn:Hx; [|done]. rewrite (deadline_of_eq s u x Hx) in Hf.
  pose proof (Hok u ltac:(set_solver)) as Hoku. rewrite (deadline_of_eq s u x Hx) in Hoku.
  destruct (timerisset (it_timeout x)) eqn:Hset; [|done]. destruct (Hf Hset) as [Hsett Hle]. simpl.
  destruct Ht as [Ht|Ht]; [congruence|]. rewrite timer_lt_micros in Ht by (try done; apply Hok; set_solver).
  rewrite (timer_lt_micros now) by done. apply Z.ltb_lt in Ht. rewrite (proj2 (Z.ltb_lt _ _)) by lia.
  by rewrite andb_false_r.
Qed.

Lemma timeouts_loop_eq fuel now pre rest s :
  tv_ok now -> flying_ok s -> flying_transfers s = pre ++ rest -> (length rest < fuel)%nat ->
  timeouts_loop be fuel (head rest) now s = for_each (handle_timeout be) (filter (is_expired s now) rest) s.
Proof using Hcancel.
  intros Hnow. revert fuel pre s. induction rest as [|t rest IH]; intros fuel pre s Hfl Hl Hfuel; [by destruct fuel|].
  destruct fuel as [|fuel]; [simpl in Hfuel; lia|]. simpl in Hfuel. cbn [head timeouts_loop].
  assert (t ∈ flying_transfers s) as Hin by (rewrite Hl; set_solver).
  destruct (fl_exist _ Hfl t Hin) as [x Hx]. pose proof (deadline_of_eq s t x Hx) as Hd.
  assert (StronglySorted (fun t u => tv_before (deadline_of s t) (deadline_of s u)) (t :: rest)) as Hs.
  { pose proof (fl_sorted _ Hfl) as Hs. rewrite Hl in Hs. clear -Hs.
    induction pre as [|a pre IH]; [done|]. apply IH. by apply StronglySorted_inv in Hs as [Hs _]. }
  apply StronglySorted_inv in Hs as [_ Hafter].
  assert (forall u, u ∈ t :: rest -> tv_ok (deadline_of s u)) as Hok.
  { intros u Hu. apply (fl_tv _ Hfl). rewrite Hl. set_solver. }
  assert (expired s now t = timerisset (it_timeout x) && negb (timeout_done x) && negb (timer_lt now (it_timeout x)))
    as Hexp by (unfold expired; by rewrite Hx).
  unfold get_transfer at 1, lookup_obj at 1. unfold mbind at 1, M_bind at 1. rewrite Hx.
  assert (next_flying t (flying_transfers s) = Some (head rest)) as Hnext
    by (rewrite Hl; apply next_flying_app; rewrite <- Hl; apply Hfl).
  destruct (timerisset (it_timeout x)) eqn:Hset; cbn [negb].
  2:{ rewrite filter_cons_False by (unfold is_expired; by rewrite Hexp).
      rewrite filter_expired_none; [done|]. eapply later_not_expired; try done. left. by rewrite Hd. }
  destruct (timeout_done x) eqn:Hdone.
  { rewrite filter_cons_False by (unfold is_expired; by rewrite Hexp).
    unfold gets. unfold mbind at 1, M_bind at 1. rewrite Hnext. eapply (IH _ (pre ++ [t])); [done| |lia].
    by rewrite <- app_assoc. }
  destruct (timer_lt now (it_timeout x)) eqn:Hlt.
  { rewrite filter_cons_False by (unfold is_expired; by rewrite Hexp).
    rewrite filter_expired_none; [done|]. eapply later_not_expired; try done. right. by rewrite Hd. }
  rewrite filter_cons_True by (unfold is_expired; by rewrite Hexp). cbn [for_each].
  unfold mbind at 1 3, M_bind at 1 3. rewrite (handle_timeout_eq t x s Hx).
  pose proof (timeout_result_ok t x (world s)) as Hres. destruct (timeout_result t x (world s)) as [x' w].
  destruct Hres as [Htv _]. unfold gets. unfold mbind at 1, M_bind at 1.
  cbn [flying_transfers set_world set_transfers]. rewrite Hnext.
  set (s' := set_world w _).
  assert (forall u, u <> t -> transfers s' !! u = transfers s !! u) as Hother by (intros u Hne; by apply lookup_insert_ne).
  assert (t ∉ rest) as Hnot.
  { pose proof (fl_nodup _ Hfl) as Hnd. rewrite Hl in Hnd. apply NoDup_app in Hnd as (_ & _ & Hnd).
    by apply NoDup_cons in Hnd as [? _]. }
  rewrite (IH fuel (pre ++ [t]) s').
  - rewrite (filter_expired_ext s s'); [done|]. intros u Hu. unfold expired.
    rewrite Hother by (by intros ->). done.
  - assert (forall u, it_timeout <$> (transfers s' !! u) = it_timeout <$> (transfers s !! u)) as Hsame.
    { intros u. destruct (decide (u = t)) as [->|Hne]; [|by rewrite Hother]. subst s'. simpl.
      rewrite lookup_insert_eq, Hx. simpl. by rewrite Htv. }
    assert (forall u, deadline_of s' u = deadline_of s u) as Hds.
    { intros u. specialize (Hsame u). unfold deadline_of. destruct (transfers s' !! u), (transfers s !! u); simpl in Hsame; by simplify_eq. }
    destruct Hfl as [H1 H2 H3 H4]. split; [| |intros u Hu; rewrite Hds; by apply H3|].
    + intros u Hu. destruct (H1 u Hu) as [z Hz]. specialize (Hsame u). rewrite Hz in Hsame.
      destruct (transfers s' !! u); [by eexists|done].
    + done.
    + eapply StronglySorted_ext; [exact H4|]. intros a b _ _. by rewrite !Hds.
  - simpl. by rewrite Hl, <- app_assoc.
  - lia.
Qed.

(** The handled transfers: every expired one carries the flag, the others
    are as before. *)
Lemma for_each_timeout_wp l s :
  NoDup l -> (forall t, t ∈ l -> is_Some (transfers s !! t)) ->
  wp (for_each (handle_timeout be) l) s (fun _ s' =>
    (exists w m, s' = set_world w (set_transfers m s)) /\
    (forall t, t ∉ l -> transfers s' !! t = transfers s !! t) /\
    (forall t, t ∈ l -> exists x x' w, transfers s !! t = Some x /\ transfers s' !! t = Some x' /\
       x' = (timeout_result t x w).1)).
Proof using Hcancel.
  revert s. induction l as [|t l IH]; intros s Hnd Hl; cbn [for_each].
  { apply wp_ret. split; [exists (world s), (transfers s); by destruct s|]. split; [done|].
    intros t Ht. by apply elem_of_nil in Ht. }
  apply NoDup_cons in Hnd as [Hnot Hnd]. destruct (Hl t ltac:(set_solver)) as [x Hx]. apply wp_bind.
  unfold wp at 1. rewrite (handle_timeout_eq t x s Hx).
  destruct (timeout_result t x (world s)) as [x' w] eqn:Hres. set (s1 := set_world w _).
  assert (forall u, u <> t -> transfers s1 !! u = transfers s !! u) as Hother by (intros u Hne; by apply lookup_insert_ne).
  eapply wp_mono; [apply (IH s1 Hnd)|].
  - intros u Hu. rewrite Hother by (by intros ->). apply Hl. set_solver.
  - intros [] s' ((w' & m & Hs') & Hout & Hin). split; [exists w', m; subst s'; by destruct s|]. split.
    + intros u Hu. rewrite Hout by set_solver. apply Hother. set_solver.
    + intros u Hu. apply elem_of_cons in Hu as [->|Hu].
      * exists x, x', (world s). split; [done|]. split; [|by rewrite Hres].
        rewrite Hout by done. apply lookup_insert_eq.
      * destruct (Hin u Hu) as (z & z' & wz & Hz & Hz' & Heq). exists z, z', wz.
        rewrite Hother in Hz by (by intros ->). done.
Qed.

(** ** The next timeout *)

(** A transfer whose timeout the library still has to watch. *)
Definition watched s t : Prop := exists x, transfers s !! t = Some x /\
  timeout_done x = false /\ timerisset (it_timeout x) = true.

Lemma first_timeout_wp l s :
  (forall t, t ∈ l -> is_Some (transfers s !! t)) ->
  StronglySorted (fun t u => tv_before (deadline_of s t) (deadline_of s u)) l ->
  wp (first_timeout l) s (fun tv s' => s' = s /\
    if timerisset tv
    then exists t, t ∈ l /\ watched s t /\ tv = deadline_of s t /\
      forall u, u ∈ l -> watched s u -> tv_micros tv <= tv_micros (deadline_of s u)
    else forall u, u ∈ l -> ~ watched s u).
Proof. clear Hcancel cancel.
  intros Hl Hs. induction Hs as [|t l Hs IH Hf]; cbn [first_timeout].
  { apply wp_ret. split; [done|]. simpl. intros u Hu. by apply elem_of_nil in Hu. }
  destruct (Hl t ltac:(set_solver)) as [x Hx]. apply wp_bind. eapply wp_get_transfer; [exact Hx|].
  destruct (timeout_done x) eqn:Hdone.
  { assert (~ watched s t) as Ht by (intros (z & Hz & Hzd & _); congruence).
    eapply wp_mono; [apply IH; intros; apply Hl; set_solver|]. intros tv s' [-> Htv]. split; [done|].
    destruct (timerisset tv).
    - destruct Htv as (u & Hu & Hw & Heq & Hmin). exists u. split; [set_solver|]. split; [done|]. split; [done|].
      intros v Hv Hwv. apply elem_of_cons in Hv as [->|Hv]; [done|by apply Hmin].
    - intros v Hv. apply elem_of_cons in Hv as [->|Hv]; [done|by apply Htv]. }
  apply wp_ret. split; [done|]. pose proof (deadline_of_eq s t x Hx) as Hd. rewrite Forall_forall in Hf.
  destruct (timerisset (it_timeout x)) eqn:Hset.
  - rewrite Hset. exists t. split; [set_solver|]. split; [by exists x|]. split; [done|].
    intros u Hu (z & Hz & _ & Hzs). apply elem_of_cons in Hu as [->|Hu]; [rewrite Hd; lia|].
    rewrite <- Hd. apply (Hf u Hu). by rewrite (deadline_of_eq s u z Hz).
  - simpl. intros u Hu (z & Hz & _ & Hzs). apply elem_of_cons in Hu as [->|Hu]; [congruence|].
    destruct (Hf u Hu) as [Hcontra _]; [by rewrite (deadline_of_eq s u z Hz)|]. congruence.
Qed.

Lemma timersub_micros a b : tv_ok a -> tv_ok b -> tv_micros b <= tv_micros a ->
  tv_ok (timersub a b) /\ tv_micros (timersub a b) = tv_micros a - tv_micros b.
Proof.
  intros [Ha1 Ha2] [Hb1 Hb2] Hle. unfold timersub, tv_micros, tv_ok in *.
  destruct (Z.ltb_spec (tv_usec a - tv_usec b) 0); simpl; lia.
Qed.

Lemma timespec_to_timeval_ok ts :
  0 <= ts_sec ts -> 0 <= ts_nsec ts < 1000000000 -> tv_ok (timespec_to_timeval ts).
Proof.
  intros Hs Hn. unfold timespec_to_timeval, tv_ok. simpl. rewrite Z.quot_div_nonneg by lia.
  split; [done|]. split; [apply Z.div_pos; lia|apply Z.div_lt_upper_bound; lia].
Qed.

(** ** Completion *)

Variable app_cb : nat -> nat -> W -> W.
Definition w_user_cb (n t : nat) : Lib W unit := modify (fun s => set_world (app_cb n t (world s)) s).

(** The transfer as its callback sees it. *)
Definition completed_transfer x (status : Z) : transfer :=
  set_t_actual_length (it_transferred x) (set_t_status (completion_status x status)
    (set_it_state_flags (Z.land (it_state_flags x) (Z.lnot USBI_TRANSFER_IN_FLIGHT)) x)).

Lemma completion_status_flags x f status : completion_status (set_it_state_flags f x) status = completion_status x status.
Proof. done. Qed.

(** [F] are the blocks that are neither devices nor freed with the
    transfer. *)
Lemma completion_wp t x h y status F E s :
  flying_ok s -> transfers s !! t = Some x -> transfer_live s x h y -> t ∈ flying_transfers s ->
  has_flag (t_flags x) LIBUSB_TRANSFER_FREE_TRANSFER = false ->
  devices_ok be F ({[+ h_dev y +]} ⊎ E) s ->
  wp (usbi_handle_transfer_completion be w_user_cb t status) s (fun _ s' =>
    flying_transfers s' = filter (fun q => q <> t) (flying_transfers s) /\
    transfers s' = <[t := completed_transfer x status]> (transfers s) /\
    handles s' = handles s /\ open_devs s' = open_devs s /\
    only_counts (devices s) (devices s') /\ devices_ok be F E s').
Proof.
  intros Hfl Ht Hlive Hin Hkeep Hok. unfold usbi_handle_transfer_completion.
  apply wp_bind. eapply wp_get_transfer; [exact Ht|]. apply wp_bind.
  eapply wp_mono; [by apply (remove_from_flying_list_wp t x h y)|]. intros r s1 (w & tf & ->).
  set (s1 := set_world w _). apply wp_bind.
  eapply wp_upd_transfer; [exact Ht|]. set (x1 := set_it_state_flags _ x). set (s2 := set_transfers _ s1).
  assert (transfers s2 !! t = Some x1) as Ht2 by apply lookup_insert_eq.
  apply wp_bind. eapply wp_get_transfer; [exact Ht2|]. apply wp_bind, wp_put_transfer.
  change (t_flags x1) with (t_flags x). change (t_callback x1) with (t_callback x).
  change (completion_status x1 status) with (completion_status x status). change (it_transferred x1) with (it_transferred x).
  change (set_t_actual_length (it_transferred x) (set_t_status (completion_status x status) x1)) with (completed_transfer x status). set (s3 := set_transfers _ s2).
  assert (transfers s3 = <[t := completed_transfer x status]> (transfers s)) as Ht3
    by (subst s3 s2; simpl; by rewrite insert_insert_eq).
  assert (flying_transfers s3 = filter (fun q => q <> t) (flying_transfers s)) as Hf3 by done.
  assert (handles s3 = handles s /\ open_devs s3 = open_devs s /\ devices s3 = devices s) as (Hh3 & Ho3 & Hd3) by done.
  assert (devices_ok be F (own (Some (h_dev y)) ⊎ E) s3) as Hok3 by exact Hok.
  clearbody s3. clear s1 s2 Ht2. apply wp_bind.
  eapply (wp_mono _ _ (fun _ s4 => exists w4 i4, s4 = set_world w4 (set_ints i4 s3))).
  { destruct (t_callback x) as [[|n]|]; cbn [run_callback].
    - unfold sync_transfer_cb. apply wp_bind.
      apply (wp_get_transfer t (completed_transfer x status)); [rewrite Ht3; apply lookup_insert_eq|].
      apply wp_modify. exists (world s3), (<[t_user_data (completed_transfer x status) := 1]> (ints s3)). by destruct s3.
    - apply wp_modify. exists (app_cb n t (world s3)), (ints s3). by destruct s3.
    - apply wp_ret. exists (world s3), (ints s3). by destruct s3. }
  intros [] s4 (w4 & i4 & ->). rewrite Hkeep. apply wp_bind, wp_ret.
  destruct Hlive as (Hh & Hy & _). rewrite Hh. apply wp_bind. apply (wp_get_handle h y); [simpl; by rewrite Hh3|].
  assert (devices_ok be F (own (Some (h_dev y)) ⊎ E) (set_world w4 (set_ints i4 s3))) as Hok4 by exact Hok3.
  apply wp_bind. eapply wp_mono; [apply (libusb_unref_device_wp be _ _ _ _ Hok4)|].
  intros [] s5 (Hok5 & Honly & Heq & _). apply wp_ret.
  assert (flying_transfers s5 = flying_transfers s3 /\ transfers s5 = transfers s3 /\ handles s5 = handles s3 /\
    open_devs s5 = open_devs s3) as (-> & -> & -> & ->) by (rewrite Heq; done).
  simpl in Honly. rewrite Hd3 in Honly. by rewrite Hf3, Ht3, Hh3, Ho3.
Qed.

(** ** Disconnection *)

(** The transfers that [usbi_handle_disconnect] completes. *)
Definition in_flight_on s (h t : nat) : bool :=
  match transfers s !! t with
  | Some x => bool_decide (t_dev_handle x = Some h) && has_flag (it_state_flags x) USBI_TRANSFER_IN_FLIGHT
  | None => false
  end.
Definition on_handle s (h t : nat) : Prop := in_flight_on s h t = true.
#[global] Instance on_handle_dec s h t : Decision (on_handle s h t).
Proof. unfold on_handle. apply _. Defined.
Definition targets s h : list nat := filter (on_handle s h) (flying_transfers s).

Lemma find_in_flight_wp h l s :
  (forall t, t ∈ l -> is_Some (transfers s !! t)) ->
  wp (find_in_flight h l) s (fun r s' => s' = s /\
    match r with
    | Some t => t ∈ l /\ on_handle s h t
    | None => forall t, t ∈ l -> ~ on_handle s h t
    end).
Proof. clear Hcancel cancel app_cb.
  intros Hl. induction l as [|t l IH]; cbn [find_in_flight].
  { apply wp_ret. split; [done|]. intros t Ht. by apply elem_of_nil in Ht. }
  destruct (Hl t ltac:(set_solver)) as [x Hx]. apply wp_bind. eapply wp_get_transfer; [exact Hx|].
  assert (in_flight_on s h t = bool_decide (t_dev_handle x = Some h) && has_flag (it_state_flags x) USBI_TRANSFER_IN_FLIGHT)
    as Ht by (unfold in_flight_on; by rewrite Hx).
  rewrite <- Ht. destruct (in_flight_on s h t) eqn:Hon.
  - apply wp_ret. split; [done|]. split; [set_solver|done].
  - eapply wp_mono; [apply IH; intros; apply Hl; set_solver|]. intros [u|] s' [-> Hr]; (split; [done|]).
    + split; [set_solver|apply Hr].
    + intros u Hu. apply elem_of_cons in Hu as [->|Hu]; [unfold on_handle; congruence|by apply Hr].
Qed.

Lemma completed_not_in_flight x status :
  has_flag (it_state_flags (completed_transfer x status)) USBI_TRANSFER_IN_FLIGHT = false.
Proof.
  unfold has_flag. simpl. apply negb_false_iff, Z.eqb_eq. apply Z.bits_inj'. intros i Hi.
  rewrite Z.bits_0, !Z.land_spec, Z.lnot_spec by done. by destruct (Z.testbit USBI_TRANSFER_IN_FLIGHT i); rewrite ?andb_false_r.
Qed.

(** What holds of the handle [h] and its transfers. *)
Record handle_ok (h : nat) (y : device_handle) (F E : gmultiset nat) s : Prop := mk_handle_ok {
  ho_flying : flying_ok s;
  ho_handle : handles s !! h = Some y;
  ho_client : h_dev y ∈ E;
  ho_refs : devices_ok be F (list_refs (map (fun _ => h_dev y) (targets s h)) ⊎ E) s;
  ho_keep : forall t x, t ∈ flying_transfers s -> transfers s !! t = Some x -> t_dev_handle x = Some h ->
    has_flag (t_flags x) LIBUSB_TRANSFER_FREE_TRANSFER = false
}.

(** One transfer completes. *)
Lemma disconnect_step t x h y F E s s' :
  handle_ok h y F E s -> t ∈ flying_transfers s -> transfers s !! t = Some x -> on_handle s h t ->
  flying_transfers s' = filter (fun q => q <> t) (flying_transfers s) ->
  transfers s' = <[t := completed_transfer x LIBUSB_TRANSFER_NO_DEVICE]> (transfers s) ->
  handles s' = handles s ->
  devices_ok be F (list_refs (map (fun _ => h_dev y) (filter (fun q => q <> t) (targets s h))) ⊎ E) s' ->
  handle_ok h y F E s' /\ targets s' h = filter (fun q => q <> t) (targets s h).
Proof.
  intros [H1 H2 H3 H4 H5] Hin Hx Hon Hf Ht Hh Hok.
  assert (forall u, u <> t -> transfers s' !! u = transfers s !! u) as Hother
    by (intros u Hne; rewrite Ht; by apply lookup_insert_ne).
  assert (targets s' h = filter (fun q => q <> t) (targets s h)) as Htar.
  { unfold targets. rewrite Hf, (filter_filter_comm (fun q => q <> t)).
    apply filter_ext_in. intros u Hu. apply list_elem_of_filter in Hu as [Hne _].
    unfold on_handle, in_flight_on. by rewrite Hother. }
  split; [|done]. split.
  - eapply flying_remove; [exact H1|exact Hf|]. intros u Hne. by rewrite Hother.
  - by rewrite Hh.
  - done.
  - by rewrite Htar.
  - intros u z Hu Hz. rewrite Hf in Hu. apply list_elem_of_filter in Hu as [Hne Hu]. rewrite Hother in Hz by done.
    by eapply H5.
Qed.

Lemma disconnect_loop_wp (clear : nat -> W -> unit * W) fuel h y F E s :
  (forall t, be_clear_transfer_priv be t = backend_op (clear t)) ->
  handle_ok h y F E s -> (length (targets s h) < fuel)%nat ->
  wp (disconnect_loop be w_user_cb fuel h) s (fun _ s' =>
    handle_ok h y F E s' /\ targets s' h = [] /\
    flying_transfers s' = filter (fun t => ~ on_handle s h t) (flying_transfers s) /\
    (forall t, ~ t ∈ targets s h -> transfers s' !! t = transfers s !! t) /\
    (forall t, t ∈ targets s h -> transfers s' !! t
       = (fun x => completed_transfer x LIBUSB_TRANSFER_NO_DEVICE) <$> (transfers s !! t))).
Proof. clear Hcancel cancel.
  intros Hclear. revert s. induction fuel as [|fuel IH]; intros s Hok Hfuel; [lia|]. cbn [disconnect_loop].
  pose proof Hok as [Hfl Hh Hclient Hrefs Hkeep].
  destruct (devices_ok_live be _ _ _ (h_dev y) Hrefs) as [d Hd]; [multiset_solver|].
  apply wp_bind. eapply wp_get_handle; [exact Hh|]. apply wp_bind, (wp_get_device _ d); [done|].
  apply wp_bind, wp_gets, wp_bind. eapply wp_mono; [apply find_in_flight_wp; apply Hfl|].
  intros [t|] s0 [-> Hr].
  2:{ apply wp_ret. split; [done|].
      assert (targets s h = []) as Hnone.
      { unfold targets. clear -Hr. induction (flying_transfers s) as [|a l IHl]; [done|].
        rewrite filter_cons_False by (apply Hr; set_solver). apply IHl. intros; apply Hr; set_solver. }
      split; [done|]. rewrite Hnone. split; [|split; [done|intros t Ht; by apply elem_of_nil in Ht]].
      symmetry. clear -Hr. induction (flying_transfers s) as [|a l IHl]; [done|].
      rewrite filter_cons_True by (apply Hr; set_solver). f_equal. apply IHl. intros; apply Hr; set_solver. }
  destruct Hr as [Hin Hon]. destruct (fl_exist _ Hfl t Hin) as [x Hx].
  assert (t_dev_handle x = Some h) as Hth.
  { unfold on_handle, in_flight_on in Hon. rewrite Hx in Hon. apply andb_true_iff in Hon as [Hon _].
    by apply bool_decide_eq_true in Hon. }
  assert (NoDup (targets s h)) as Hnd by apply NoDup_filter, Hfl.
  assert (t ∈ targets s h) as Htar by (by apply list_elem_of_filter).
  rewrite Hclear. apply wp_bind, wp_backend_op. intros [] w _. set (s1 := set_world w s).
  assert (devices_ok be F ({[+ h_dev y +]} ⊎ (list_refs (map (fun _ => h_dev y) (filter (fun q => q <> t) (targets s h))) ⊎ E)) s1) as Hok1.
  { rewrite (assoc_L (⊎)), <- list_refs_cons. rewrite <- (list_refs_perm _ _ (remove_one t (targets s h) (h_dev y) Hnd Htar)).
    exact Hrefs. }
  apply wp_bind. eapply wp_mono; [eapply (completion_wp t x h y LIBUSB_TRANSFER_NO_DEVICE F _ s1)|].
  { by eapply flying_ok_same; [| |exact Hfl]. }
  { done. }
  { split; [done|]. split; [done|]. by exists d. }
  { done. }
  { by eapply Hkeep. }
  { exact Hok1. }
  intros r s2 (Hf2 & Ht2 & Hh2 & _ & _ & Hok2). simpl in Hf2, Ht2, Hh2.
  destruct (disconnect_step t x h y F E s s2 Hok Hin Hx Hon Hf2 Ht2 Hh2 Hok2) as [Hinv2 Htar2].
  eapply wp_mono; [apply (IH s2 Hinv2)|].
  { rewrite Htar2. apply list_elem_of_split in Htar as (l1 & l2 & Heq). rewrite Heq in *.
    rewrite filter_out; [rewrite length_app in *; simpl in *; lia|].
    apply NoDup_app in Hnd as (_ & Hdj & Hnd). apply NoDup_cons in Hnd as [Hnd _]. set_solver. }
  intros [] s3 (Hinv3 & Hnone & Hf3 & Hout & Hins). split; [done|]. split; [done|].
  assert (forall u, u <> t -> transfers s2 !! u = transfers s !! u) as Hother
    by (intros u Hne; rewrite Ht2; by apply lookup_insert_ne).
  split; [|split].
  - rewrite Hf3, Hf2. clear -Hon Hother. induction (flying_transfers s) as [|a l IHl]; [done|].
    destruct (decide (a = t)) as [->|Hne].
    + rewrite filter_cons_False by tauto. rewrite (filter_cons_False (fun t => ~ on_handle s h t)) by tauto. done.
    + rewrite filter_cons_True by done. rewrite !(filter_cons (fun u => ~ on_handle _ h u)), IHl.
      assert (on_handle s2 h a <-> on_handle s h a) by (unfold on_handle, in_flight_on; by rewrite Hother).
      repeat case_decide; tauto || done.
  - intros u Hu. rewrite Hout; [|rewrite Htar2; intros Hu2; by apply list_elem_of_filter in Hu2 as [_ Hu2]].
    apply Hother. by intros ->.
  - intros u Hu. destruct (decide (u = t)) as [->|Hne].
    + rewrite Hout, Ht2, lookup_insert_eq, Hx; [done|]. rewrite Htar2. intros Hu2.
      by apply list_elem_of_filter in Hu2 as [? _].
    + rewrite Hins, Hother; [done|done|]. rewrite Htar2. by apply list_elem_of_filter.
Qed.

(** ** Submission *)

(** A transfer with as many packet descriptors as it says. *)
Definition packets_fit x : Prop := t_num_iso_packets x <= Z.of_nat (length (t_iso_packets x)).

(** What the library relies on when it hands a transfer to the backend: the
    backend keeps to its own state and to memory, and a refusal leaves no
    block behind. *)
Class SubmitContract : Prop := submit_contract : forall t x h y s,
  transfers s !! t = Some x -> t_dev_handle x = Some h -> handles s !! h = Some y -> packets_fit x ->
  heap_fresh (mem s) ->
  wp (be_submit_transfer be t) s (fun r s' => exists m w B,
    s' = set_mem m (set_world w s) /\ same_oracles (mem s) m /\ live m = B ⊎ live (mem s) /\ (r <> 0 -> B = ∅)).

(** The transfer when it enters the list. *)
Definition cleared_transfer x : transfer := set_it_timeout_flags 0 (set_it_state_flags 0 (set_it_transferred 0 x)).

Lemma not_in_flight_on s h t x :
  transfers s !! t = Some x -> it_state_flags x = 0 -> in_flight_on s h t = false.
Proof. clear. intros Ht Hx. unfold in_flight_on. by rewrite Ht, Hx, andb_false_r. Qed.

(** After the backend took it: the flag and the reference. *)
Lemma submit_accepted_wp t x h y F E s :
  flying_ok s -> transfers s !! t = Some x -> transfer_live s x h y -> devices_ok be F E s ->
  wp (x ← get_transfer t;
      put_transfer t (set_it_state_flags (Z.lor (it_state_flags x) USBI_TRANSFER_IN_FLIGHT) x) ;;
      match t_dev_handle x with
      | None => fail NullDeref
      | Some h => y ← get_handle h; libusb_ref_device (h_dev y) ;; mret tt
      end) s (fun _ s' => flying_ok s' /\ flying_transfers s' = flying_transfers s /\
        transfers s' = <[t := set_it_state_flags (Z.lor (it_state_flags x) USBI_TRANSFER_IN_FLIGHT) x]> (transfers s) /\
        devices_ok be F ({[+ h_dev y +]} ⊎ E) s').
Proof.
  clear. intros Hfl Ht (Hth & Hy & Hd) Hok. apply wp_bind. eapply wp_get_transfer; [exact Ht|].
  apply wp_bind, wp_put_transfer. set (s4 := set_transfers _ s). rewrite Hth.
  apply wp_bind. apply (wp_get_handle h y); [done|]. apply wp_bind.
  eapply wp_mono; [apply (libusb_ref_device_wp be (h_dev y) E F s4 Hok Hd)|].
  intros ? s5 (_ & Hok5 & _ & _ & _ & (Heq & _)). apply wp_ret.
  assert (flying_transfers s5 = flying_transfers s /\ transfers s5 = transfers s4) as [Hf5 Ht5] by (rewrite Heq; done).
  assert (forall x' : transfer, it_timeout x' = it_timeout x ->
    flying_ok (set_transfers (<[t := x']> (transfers s)) s)) as Hkeep.
  { intros x' Hx'. eapply (flying_ok_ext s); [done| |exact Hfl]. intros u _. simpl.
    destruct (decide (u = t)) as [->|]; [|by rewrite lookup_insert_ne]. rewrite lookup_insert_eq, Ht. simpl. by rewrite Hx'. }
  split; [|by rewrite Ht5]. apply (flying_ok_same s4 s5); [done|done|]. by apply Hkeep.
Qed.

Lemma submit_wp `{!SubmitContract} t x h y F E s :
  clock_ok -> flying_ok s -> transfers s !! t = Some x -> transfer_live s x h y -> t ∉ flying_transfers s ->
  0 <= t_timeout x -> tv_ok (it_timeout x) -> packets_fit x -> heap_fresh (mem s) -> devices_ok be F E s ->
  has_flag (it_state_flags x) USBI_TRANSFER_IN_FLIGHT = false ->
  wp (libusb_submit_transfer be t) s (fun r s' => flying_ok s' /\
    if r =? 0
    then exists l1 l2 tv now B, flying_transfers s = l1 ++ l2 /\ flying_transfers s' = l1 ++ t :: l2 /\
      new_deadline x now tv /\
      transfers s' = <[t := set_it_state_flags USBI_TRANSFER_IN_FLIGHT (set_it_timeout tv (cleared_transfer x))]> (transfers s) /\
      devices_ok be (B ⊎ F) ({[+ h_dev y +]} ⊎ E) s'
    else flying_transfers s' = flying_transfers s /\ devices_ok be F E s' /\
      in_flight_on s' h t = false).
Proof. clear Hcancel cancel app_cb.
  intros Hclock Hfl Ht Hlive Hnot Hto Htv Hfit Hfresh Hok Hidle. unfold libusb_submit_transfer.
  apply wp_bind. eapply transfer_ctx_wp; [done|done|]. apply wp_bind. eapply wp_get_transfer; [done|].
  rewrite Hidle. apply wp_bind, wp_put_transfer. fold (cleared_transfer x). set (s1 := set_transfers _ s).
  assert (transfers s1 !! t = Some (cleared_transfer x)) as Ht1 by apply lookup_insert_eq.
  assert (flying_ok s1) as Hfl1.
  { eapply (flying_ok_ext s); [done| |exact Hfl]. intros u Hu. simpl. rewrite lookup_insert_ne; [done|]. by intros ->. }
  apply wp_bind. eapply wp_mono; [by apply (add_to_flying_list_wp t (cleared_transfer x) h y s1)|].
  intros r s2 (tv & w & tf & l1 & l2 & Hl & Htv2 & Hs2 & Hr).
  change (flying_transfers s1) with (flying_transfers s) in Hl.
  assert (transfers s2 = <[t := set_it_timeout tv (cleared_transfer x)]> (transfers s)) as Ht2.
  { rewrite Hs2. simpl. by rewrite insert_insert_eq. }
  assert (flying_transfers s2 = if r =? 0 then l1 ++ t :: l2 else l1 ++ l2) as Hf2 by (by rewrite Hs2).
  assert (devices_ok be F E s2) as Hok2 by (rewrite Hs2; exact Hok).
  assert (handles s2 = handles s /\ devices s2 = devices s) as [Hh2 Hd2] by (by rewrite Hs2).
  assert (heap_fresh (mem s2)) as Hfresh2 by (rewrite Hs2; exact Hfresh). clear Hs2.
  assert (forall s', flying_transfers s' = flying_transfers s -> transfers s' = transfers s2 -> flying_ok s') as Hback.
  { intros s' Hf' Ht'. eapply (flying_ok_ext s); [exact Hf'| |exact Hfl]. intros u Hu. rewrite Ht', Ht2.
    rewrite lookup_insert_ne; [done|]. by intros ->. }
  destruct (Z.eqb_spec r 0) as [->|Hnz]; cbn [negb].
  2:{ apply wp_ret. rewrite (proj2 (Z.eqb_neq _ _)) by done. rewrite <- Hl in Hf2. split; [by apply Hback|].
      split; [done|]. split; [done|]. eapply not_in_flight_on; [rewrite Ht2; apply lookup_insert_eq|done]. }
  destruct (Hr eq_refl) as [Hfl2 [now Hdl]]. clear Hr.
  assert (transfer_live s2 (set_it_timeout tv (cleared_transfer x)) h y) as Hlive2.
  { destruct Hlive as (? & ? & ?). split; [done|]. by rewrite Hh2, Hd2. }
  apply wp_bind. eapply wp_mono.
  { eapply (submit_contract t _ h y); [rewrite Ht2; apply lookup_insert_eq|apply Hlive2|apply Hlive2|exact Hfit|exact Hfresh2]. }
  intros r s3 (m & w3 & B & -> & Ho & Hm & HB). apply wp_bind.
  assert (live m = blocks (devices s2) ⊎ (B ⊎ F)) as Hm2.
  { rewrite Hm. destruct Hok2 as (_ & -> & _). apply disj_union_swap. }
  destruct (Z.eqb_spec r LIBUSB_SUCCESS) as [->|Hfail].
  - assert (devices_ok be (B ⊎ F) E (set_mem m (set_world w3 s2))) as Hok3 by (split; [apply Hok2|split; [exact Hm2|apply Hok2]]).
    eapply wp_mono.
    { apply (submit_accepted_wp t (set_it_timeout tv (cleared_transfer x)) h y (B ⊎ F) E); [|simpl; rewrite Ht2; apply lookup_insert_eq|done|done].
      by eapply (flying_ok_same s2); [| |exact Hfl2]. }
    intros _ s5 (Hfl5 & Hf5 & Ht5 & Hok5). apply wp_ret. split; [done|]. simpl. exists l1, l2, tv, now, B.
    split; [done|]. split; [by rewrite Hf5|]. split; [done|]. split; [|done]. rewrite Ht5. simpl. by rewrite Ht2, insert_insert_eq.
  - rewrite (HB Hfail) in *. rewrite gmultiset_disj_union_left_id in Hm2.
    apply wp_bind. eapply wp_mono.
    { apply (remove_from_flying_list_wp t (set_it_timeout tv (cleared_transfer x)) h y);
        [by eapply (flying_ok_same s2); [| |exact Hfl2]|simpl; rewrite Ht2; apply lookup_insert_eq|done|]. simpl. rewrite Hf2. set_solver. }
    intros r' s4 (w4 & tf4 & Hs4). apply wp_ret, wp_ret. rewrite (proj2 (Z.eqb_neq _ _)) by done.
    assert (flying_transfers s4 = flying_transfers s) as Hf4.
    { rewrite Hs4. simpl. rewrite Hf2. rewrite filter_out by (by rewrite <- Hl). done. }
    assert (transfers s4 = transfers s2) as Ht4 by (rewrite Hs4; done).
    split; [by apply Hback|]. split; [done|]. split.
    + rewrite Hs4. split; [apply Hok2|split; [exact Hm2|apply Hok2]].
    + eapply not_in_flight_on; [rewrite Ht4, Ht2; apply lookup_insert_eq|done].
Qed.
End specs.
