(* ===== verification/SyncSpecs.v ===== *)
(** * Specifications of the blocking transfers

    What a blocking transfer needs from the system and from the backend, as
    an interface; the three stages of the wait; and the rules of event
    handling and of the loop that waits, by a measure that every turn
    decreases. *)

From S2P Require Import Prelude Keeps Heap ParseDesc Config ConfigSafety DescApi Bos Core Devices DeviceRefs LibSteps Hotplug Transfers TransferSpecs Events Sync.

(** ** The interface *)

(** The answer of a device: the status, the number of bytes transferred, and
    the bytes of the transfer's buffer afterwards. *)
Record reply : Type := mk_reply {
  rp_status : Z;
  rp_count : Z;
  rp_data : list Z
}.

(** What can be seen of the world of the backend: the transfer it has taken
    and not reported; how many calls of [poll] can pass before its answer is
    there; whether the answer is there; the blocks the backend keeps meanwhile; the status it reports; whether it was asked to
    cancel; whether a call has failed; and how the device answers on an
    endpoint, by the type and the bytes of the transfer. *)
Record watch (W : Type) : Type := mk_watch {
  due : W -> option nat;
  patience : W -> nat;
  ripe : W -> bool;
  held : W -> gmultiset nat;
  verdict : W -> Z;
  cancelled : W -> bool;
  faulty : W -> bool;
  respond : W -> Z -> Z -> list Z -> reply
}.
Arguments due {W}.
Arguments patience {W}.
Arguments ripe {W}.
Arguments held {W}.
Arguments verdict {W}.
Arguments cancelled {W}.
Arguments faulty {W}.
Arguments respond {W}.

(** The bytes before the data in the buffer of a transfer. *)
Definition setup_size (type : Z) : Z :=
  if type =? LIBUSB_TRANSFER_TYPE_CONTROL then LIBUSB_CONTROL_SETUP_SIZE else 0.

Definition has_room (x : transfer) : Prop := setup_size (t_type x) <= Z.of_nat (length (t_data x)).

(** An answer fills the buffer and no more. *)
Definition fits (x : transfer) (rep : reply) : Prop :=
  length (rp_data rep) = length (t_data x) /\
  0 <= rp_count rep <= Z.of_nat (length (t_data x)) - setup_size (t_type x).

(** The transfer when its data have arrived. *)
Definition deliver (rep : reply) (x : transfer) : transfer :=
  set_it_transferred (rp_count rep) (set_t_data (rp_data rep) x).

Section interface.
Context {W : Type} (be : os_backend W) (user_cb : nat -> nat -> Lib W unit) (o : watch W) (timer : bool).
Implicit Types (s : lib W) (w : W).

(** Steps of the world that have nothing to do with the transfer, apart from
    a request to cancel it, ... *)
Record quiet w w' : Prop := mk_quiet {
  q_due : due o w' = due o w;
  q_held : held o w' = held o w;
  q_verdict : verdict o w' = verdict o w;
  q_respond : respond o w' = respond o w;
  q_patience : (patience o w' <= patience o w)%nat;
  q_ripe : ripe o w = true -> ripe o w' = true;
  q_faulty : faulty o w = true -> faulty o w' = true;
  q_cancelled : cancelled o w = true -> cancelled o w' = true
}.
(** ... and without one. *)
Definition still w w' : Prop := quiet w w' /\ cancelled o w' = cancelled o w.

#[export] Instance quiet_preorder : PreOrder quiet.
Proof.
  split; [by intros w; split|]. intros w1 w2 w3 [] []. split; try congruence; [lia|auto|auto|auto].
Qed.

(** The backend hands a transfer back with its status, or as a cancelled
    one. *)
Definition concludes w t (m : Lib W Z) : Prop :=
  m = usbi_handle_transfer_completion be user_cb t (verdict o w) \/
  (cancelled o w = true /\ m = usbi_handle_transfer_cancellation be user_cb t).

(** The data have arrived: the backend gives up its blocks and reports the
    transfer to the event handler, or completes it at once. *)
Definition reported t x s s' : Prop := exists rep m w, fits x rep /\
  (cancelled o (world s) = false -> rep = respond o (world s) (t_endpoint x) (t_type x) (t_data x)) /\
  live (mem s) = held o (world s) ⊎ live m /\ same_oracles (mem s) m /\
  due o w = None /\ held o w = ∅ /\ verdict o w = rp_status rep /\ respond o w = respond o (world s) /\
  (patience o w <= patience o (world s))%nat /\ faulty o w = faulty o (world s) /\ cancelled o w = cancelled o (world s) /\
  let s1 := set_transfers (<[t := deliver rep x]> (transfers s)) (set_mem m (set_world w s)) in
  (usbi_signal_transfer_completion t s1 = Ok (tt, s') \/
   exists op r, concludes w t op /\ op s1 = Ok (r, s')).

(** What a blocking transfer relies on.  Signals, other descriptors and the
    timer may end a [poll], as often as [patience] says; then the device is
    reported, and the backend has its answer.  The event pipe is reported only
    if it can be read.  [timer]: the second descriptor is that of the timer. *)
Class Answering : Prop := {
  an_clock w : let '((r, ts), w') := be_clock_gettime be w in still w w' /\
    (r < 0 /\ faulty o w' = true \/ r = 0 /\ 0 <= ts_sec ts /\ 0 <= ts_nsec ts < 1000000000);
  an_timer tv w : let '(r, w') := os_timerfd_settime be tv w in still w w' /\ (r < 0 -> faulty o w' = true);
  an_mutex w : still w (os_mutex_init be w).2;
  an_destroy f d w : be_destroy_device be = Some f -> still w (f d w).2;
  an_poll fds ms (readable : bool) w : (2 <= length fds)%nat -> let '(res, w') := os_poll be fds ms readable w in still w w' /\
    (0 < poll_code res -> length (poll_revents res) = length fds /\
       (readable = false -> poll_revents res !! 0%nat = Some 0)) /\
    ((patience o w' < patience o w)%nat \/
     due o w <> None /\ ripe o w' = true /\ 0 < poll_code res /\ poll_revents res !! 0%nat = Some 0 /\
       (timer = true -> poll_revents res !! 1%nat = Some 0) \/
     readable = true /\ 0 < poll_code res /\ poll_revents res !! 0%nat <> Some 0 \/
     due o w = None /\ readable = false /\ poll_code res = 0);
  an_submit t x h y s : transfers s !! t = Some x -> transfer_live s x h y -> heap_fresh (mem s) ->
    due o (world s) = None -> held o (world s) = ∅ ->
    wp (be_submit_transfer be t) s (fun r s' => r <= 0 /\ exists m w, s' = set_mem m (set_world w s) /\
      same_oracles (mem s) m /\ live m = held o w ⊎ live (mem s) /\
      (patience o w <= patience o (world s))%nat /\ respond o w = respond o (world s) /\
      (faulty o (world s) = true -> faulty o w = true) /\
      (if r =? 0 then due o w = Some t /\ cancelled o w = false
       else due o w = None /\ held o w = ∅ /\ faulty o w = true));
  an_cancel t s : wp (be_cancel_transfer be t) s (fun _ s' => exists w, s' = set_world w s /\ quiet (world s) w);
  an_events fds n s : (forall t, due o (world s) = Some t -> exists x h y, transfers s !! t = Some x /\ transfer_live s x h y /\ has_room x) ->
    (exists F, live (mem s) = held o (world s) ⊎ F) ->
    wp (be_handle_events be fds n) s (fun _ s' =>
      (exists w, s' = set_world w s /\ still (world s) w /\ (due o (world s) = None \/ ripe o (world s) = false)) \/
      exists t x, due o (world s) = Some t /\ transfers s !! t = Some x /\ reported t x s s');
  an_completion t s : due o (world s) = None ->
    exists m, concludes (world s) t m /\ be_handle_transfer_completion be t s = m s
}.
End interface.

(** ** Steps beside the transfer *)

(** The transfer differs in the flags of its state and of its timeout. *)
Definition like (x x' : transfer) : Prop := exists a b, x' = set_it_timeout_flags a (set_it_state_flags b x).
#[export] Instance like_preorder : PreOrder like.
Proof.
  split; [intros x; exists (it_timeout_flags x), (it_state_flags x); by destruct x|].
  intros x1 x2 x3 (a & b & ->) (a' & b' & ->). by exists a', b'.
Qed.
Lemma like_timeout_flags a x : like x (set_it_timeout_flags a x).
Proof. exists a, (it_state_flags x). by destruct x. Qed.
Lemma like_state_flags b x : like x (set_it_state_flags b x).
Proof. exists (it_timeout_flags x), b. by destruct x. Qed.
Lemma like_fields x x' : like x x' ->
  t_dev_handle x' = t_dev_handle x /\ t_flags x' = t_flags x /\ t_endpoint x' = t_endpoint x /\ t_type x' = t_type x /\
  t_data x' = t_data x /\ t_callback x' = t_callback x /\ t_user_data x' = t_user_data x /\ t_buffer x' = t_buffer x /\
  it_timeout x' = it_timeout x /\ it_transferred x' = it_transferred x /\ t_status x' = t_status x /\
  t_actual_length x' = t_actual_length x.
Proof. by intros (a & b & ->). Qed.
Lemma like_deliver rep x x' : like x x' -> like (deliver rep x) (deliver rep x').
Proof. intros (a & b & ->). by exists a, b. Qed.

Section stirs.
Context {W : Type} (be : os_backend W) (user_cb : nat -> nat -> Lib W unit) (o : watch W) (timer : bool) {HA : Answering be user_cb o timer}.
Context (t : nat).
Implicit Types (s : lib W) (w : W) (x : transfer).

(** What may happen while the event handler looks after the timers. *)
Definition stirs s s' : Prop := exists x x' w tf, transfers s !! t = Some x /\ like x x' /\
  s' = set_world w (set_timerfd tf (set_transfers (<[t := x']> (transfers s)) s)) /\
  quiet o (world s) w /\ (timerfd s = None <-> tf = None).

Lemma stirs_refl s x : transfers s !! t = Some x -> stirs s s.
Proof. intros Ht. exists x, x, (world s), (timerfd s). split_and!; try done. rewrite insert_id by done. by destruct s. Qed.
#[export] Instance stirs_trans : Transitive stirs.
Proof.
  intros s1 s2 s3 (x & x' & w & tf & Ht & Hl & -> & Hq & Htf) (z & z' & w' & tf' & Ht' & Hl' & -> & Hq' & Htf').
  cbn in Ht'. rewrite lookup_insert_eq in Ht'. injection Ht' as <-. exists x, z', w', tf'. split; [done|]. split; [by etrans|].
  split; [cbn; by rewrite insert_insert_eq|]. split; [by etrans|]. cbn in Htf'. by etrans.
Qed.
Lemma stirs_lookup s s' : stirs s s' -> exists x', transfers s' !! t = Some x'.
Proof. intros (x & x' & w & tf & _ & _ & -> & _). exists x'. apply lookup_insert_eq. Qed.

Lemma stirs_timer s s' : stirs s s' -> timerfd s = None <-> timerfd s' = None.
Proof. intros (x & x' & w & tf & _ & _ & -> & _ & Htf). exact Htf. Qed.

(** The rule of sequencing for computations that only stir. *)
Lemma stirs_bind {A B} (m : Lib W A) (f : A -> Lib W B) s :
  wp m s (fun _ => stirs s) -> (forall a s', stirs s s' -> wp (f a) s' (fun _ => stirs s')) -> wp (m ≫= f) s (fun _ => stirs s).
Proof.
  intros Hm Hf. apply wp_bind. eapply wp_mono; [exact Hm|]. intros a s' H1. eapply wp_mono; [by apply Hf|].
  intros b s2 H2. exact (stirs_trans _ _ _ H1 H2).
Qed.

Lemma stirs_world {A} (op : W -> A * W) s x : transfers s !! t = Some x -> quiet o (world s) (op (world s)).2 ->
  wp (backend_op op) s (fun _ => stirs s).
Proof.
  intros Ht Hq. apply wp_backend_op. intros a w Hop. rewrite Hop in Hq. exists x, x, w, (timerfd s).
  split_and!; try done. rewrite insert_id by done. by destruct s.
Qed.
Lemma stirs_upd f s x : transfers s !! t = Some x -> like x (f x) -> wp (upd_transfer t f) s (fun _ => stirs s).
Proof.
  intros Ht Hl. eapply wp_upd_transfer; [exact Ht|]. exists x, (f x), (world s), (timerfd s). split_and!; try done.
Qed.

Lemma clock_stirs s x : transfers s !! t = Some x ->
  wp (backend_op (be_clock_gettime be)) s (fun _ => stirs s).
Proof.
  intros Ht. apply (stirs_world _ s x); [done|]. pose proof (an_clock _ _ _ _ (world s)) as Hc.
  destruct (be_clock_gettime be (world s)) as [[r ts] w]. apply Hc.
Qed.
Lemma settime_stirs tv s x : transfers s !! t = Some x -> timerfd s <> None -> wp (timerfd_settime be tv) s (fun _ => stirs s).
Proof.
  intros Ht Htf. unfold timerfd_settime. apply stirs_bind.
  - apply (stirs_world _ s x); [done|]. pose proof (an_timer _ _ _ _ tv (world s)) as Hc.
    destruct (os_timerfd_settime be tv (world s)) as [r w]. apply Hc.
  - intros r s' H1. pose proof (stirs_timer _ _ H1) as Htf'. apply stirs_lookup in H1 as [x' Ht'].
    destruct (r <? 0); [apply wp_ret; by apply (stirs_refl _ x')|].
    apply wp_bind, wp_modify, wp_ret. exists x', x', (world s'), (Some tv). split_and!; try done.
    + rewrite insert_id by done. by destruct s'.
    + split; [|done]. intros Hn. exfalso. by apply Htf, Htf'.
Qed.
Lemma arm_stirs l s x : transfers s !! t = Some x -> timerfd s <> None -> (forall u, u ∈ l -> u = t) ->
  wp (arm_loop be l) s (fun _ => stirs s).
Proof.
  intros Ht Htf. induction l as [|u l IH]; intros Hl; [by apply (settime_stirs _ _ x)|]. cbn [arm_loop].
  rewrite (Hl u) by set_solver. apply wp_bind. eapply wp_get_transfer; [exact Ht|]. case_match; [by apply (settime_stirs _ _ x)|].
  case_match; [apply IH; intros; apply Hl; set_solver|by apply (settime_stirs _ _ x)].
Qed.

Lemma cancel_stirs s x : transfers s !! t = Some x -> wp (libusb_cancel_transfer be t) s (fun _ => stirs s).
Proof.
  intros Ht. unfold libusb_cancel_transfer. apply wp_bind. eapply wp_get_transfer; [exact Ht|].
  case_match; [apply wp_ret; by apply (stirs_refl _ x)|]. apply stirs_bind.
  - eapply wp_mono; [apply (an_cancel _ _ _ _ t s)|]. intros r s' (w & -> & Hq). exists x, x, w, (timerfd s).
    split_and!; try done. rewrite insert_id by done. by destruct s.
  - intros r s' H1. apply stirs_lookup in H1 as [x' Ht']. apply stirs_bind.
    + apply (stirs_upd _ _ x'); [done|]. apply like_state_flags.
    + intros [] s2 H2. apply stirs_lookup in H2 as [x2 Ht2]. apply wp_ret. by apply (stirs_refl _ x2).
Qed.

Lemma handle_timeout_stirs s x : transfers s !! t = Some x -> wp (handle_timeout be t) s (fun _ => stirs s).
Proof.
  intros Ht. unfold handle_timeout. apply stirs_bind.
  { apply (stirs_upd _ _ x); [done|]. apply like_timeout_flags. }
  intros [] s1 H1. apply stirs_lookup in H1 as [x1 Ht1]. apply stirs_bind; [by apply (cancel_stirs _ x1)|].
  intros r s2 H2. apply stirs_lookup in H2 as [x2 Ht2]. destruct (r =? LIBUSB_SUCCESS); [|apply wp_ret; by apply (stirs_refl _ x2)].
  apply (stirs_upd _ _ x2); [done|]. apply like_timeout_flags.
Qed.

(** The list of transfers in flight holds at most this one. *)
Definition alone s : Prop := flying_transfers s = [t] \/ flying_transfers s = [].
Lemma alone_stirs s s' : alone s -> stirs s s' -> alone s'.
Proof. intros Ha (x & x' & w & tf & _ & _ & -> & _). exact Ha. Qed.

Lemma timeouts_stirs s x : alone s -> transfers s !! t = Some x -> wp (handle_timeouts be) s (fun _ => stirs s).
Proof.
  intros Ha Ht. unfold handle_timeouts, handle_timeouts_locked. apply wp_bind, wp_gets.
  destruct (flying_transfers s) as [|u l] eqn:Hf; [apply wp_ret; by apply (stirs_refl _ x)|].
  assert (u = t /\ l = []) as [-> ->] by (by destruct Ha as [Ha|Ha]; rewrite Hf in Ha; simplify_eq).
  apply stirs_bind; [by apply (clock_stirs _ x)|]. intros [r ts] s1 H1.
  assert (flying_transfers s1 = [t]) as Hf1 by (destruct H1 as (? & ? & ? & ? & _ & _ & -> & _); exact Hf).
  apply stirs_lookup in H1 as [x1 Ht1]. destruct (r <? 0); [apply wp_ret; by apply (stirs_refl _ x1)|].
  cbn [length head]. apply stirs_bind.
  2:{ intros [] s2 H2. apply stirs_lookup in H2 as [x2 Ht2]. apply wp_ret. by apply (stirs_refl _ x2). }
  cbn [timeouts_loop]. apply wp_bind. eapply wp_get_transfer; [exact Ht1|].
  assert (forall s2, flying_transfers s2 = [t] -> wp (l ← gets flying_transfers;
    match next_flying t l with None => fail NullDeref
    | Some next => timeouts_loop be 1 next (timespec_to_timeval ts) end) s2 (fun _ s' => s' = s2)) as Hnext.
  { intros s2 Hf2. apply wp_bind, wp_gets. rewrite Hf2. cbn [next_flying head]. rewrite Nat.eqb_refl. by apply wp_ret. }
  case_match; [apply wp_ret; by apply (stirs_refl _ x1)|]. case_match.
  - eapply wp_mono; [by apply Hnext|]. intros [] s2 ->. by apply (stirs_refl _ x1).
  - case_match; [apply wp_ret; by apply (stirs_refl _ x1)|]. apply stirs_bind; [by apply (handle_timeout_stirs _ x1)|].
    intros [] s2 H2. eapply wp_mono; [apply Hnext; destruct H2 as (? & ? & ? & ? & _ & _ & -> & _); exact Hf1|].
    intros [] s3 ->. apply stirs_lookup in H2 as [x2 Ht2]. by apply (stirs_refl _ x2).
Qed.

Lemma trigger_stirs s x : alone s -> transfers s !! t = Some x -> timerfd s <> None -> wp (handle_timerfd_trigger be) s (fun _ => stirs s).
Proof.
  intros Ha Ht Htf. unfold handle_timerfd_trigger. apply stirs_bind; [by apply (timeouts_stirs _ x)|].
  intros r s1 H1. pose proof (alone_stirs _ _ Ha H1) as Ha1. pose proof (stirs_timer _ _ H1) as Htf1. apply stirs_lookup in H1 as [x1 Ht1].
  destruct (r <? 0); [apply wp_ret; by apply (stirs_refl _ x1)|].
  unfold arm_timerfd_for_next_timeout. apply wp_bind, wp_gets. apply (arm_stirs _ _ x1); [done|by rewrite <- Htf1|].
  intros u Hu. destruct Ha1 as [Hf|Hf]; rewrite Hf in Hu; set_solver.
Qed.
End stirs.

(** ** The stages of a blocking transfer *)

(** What no step of the wait touches. *)
Definition rest {W} (s : lib W) :=
  (handles s, open_devs s, hotplug_cbs s, io_ready s, next_cb_handle s, (event_pipe s, timerfd_fd s),
   (fd_added_cb s, fd_removed_cb s), (debug s, debug_fixed s)).

(** Taking and dropping references of devices does not touch these. *)
Lemma same_rest_frame {W} (be : os_backend W) (s s' : lib W) : same_rest be s s' ->
  rest s' = rest s /\ transfers s' = transfers s /\ ints s' = ints s /\ flying_transfers s' = flying_transfers s /\
  ev s' = ev s /\ timerfd s' = timerfd s /\ handling_events s' = handling_events s /\ events_locked s' = events_locked s /\
  event_handler_active s' = event_handler_active s.
Proof. intros [Heq _]. rewrite Heq. done. Qed.

(** No event is pending, and [poll] has the event pipe and at least one
    descriptor of a timer or a device. *)
Record idle_events (e : event_data) : Prop := mk_idle_events {
  ie_flags : event_flags e = 0;
  ie_close : device_close e = 0;
  ie_messages : hotplug_msgs e = [];
  ie_completed : completed_transfers e = [];
  ie_pipe : pipe_bytes e = 0;
  ie_pollfds : exists b fds, pollfds e = Some (b, fds) /\ (2 <= length fds)%nat
}.

(** Taken by the backend; reported to the event handler; completed. *)
Inductive stage : Type :=
| Pending
| Reported (rep : reply)
| Finished (status : Z) (rep : reply).
Definition to_come (p : stage) : nat := match p with Pending => 2 | Reported _ => 1 | Finished _ _ => 0 end.

(** A transfer of the synchronous interface on handle [h] that sets [v]. *)
Record sync_transfer (h v : nat) (x : transfer) : Prop := mk_sync_transfer {
  sy_handle : t_dev_handle x = Some h;
  sy_callback : t_callback x = Some SyncTransferCb;
  sy_data : t_user_data x = v;
  sy_keep : has_flag (t_flags x) LIBUSB_TRANSFER_FREE_TRANSFER = false;
  sy_short : has_flag (t_flags x) LIBUSB_TRANSFER_SHORT_NOT_OK = false;
  sy_room : has_room x
}.

Section stages.
Context {W : Type} (be : os_backend W) (user_cb : nat -> nat -> Lib W unit) (o : watch W) (timer : bool) {HA : Answering be user_cb o timer}.
(** The state [s0] in which the library waits for transfer [t], with members
    [x0], on handle [h]; [v] is the variable that its callback sets; [F] are
    the blocks beside the devices, [E] the references beside its own. *)
Context (s0 : lib W) (t : nat) (x0 : transfer) (h : nat) (y : device_handle) (v : nat) (E F : gmultiset nat).
Context (Hsync : sync_transfer h v x0) (Hy : handles s0 !! h = Some y) (Hidle : idle_events (ev s0)).
(** The timer watches over the transfer, or the transfer has no timeout. *)
Context (Hwatch : timerfd s0 <> None \/ timerisset (it_timeout x0) = false) (Htimer : timerfd s0 <> None -> timer = true).
Implicit Types (s : lib W) (w : W).

(** The answer is the device's, unless the transfer was cancelled; its
    status is the reported one, or that of a cancelled transfer. *)
Definition answers (rep : reply) w : Prop := fits x0 rep /\
  (cancelled o w = false -> rep = respond o (world s0) (t_endpoint x0) (t_type x0) (t_data x0)).
Definition answers_with (status : Z) (rep : reply) w : Prop := status = rp_status rep \/
  (cancelled o w = true /\ (status = LIBUSB_TRANSFER_TIMED_OUT \/ status = LIBUSB_TRANSFER_CANCELLED)).

Record common (x : transfer) (c : Z) s : Prop := mk_common {
  co_rest : rest s = rest s0;
  co_transfers : transfers s = <[t := x]> (transfers s0);
  co_ints : ints s = <[v := c]> (ints s0);
  co_mem : same_oracles (mem s0) (mem s);
  co_devices : only_counts (devices s0) (devices s);
  co_respond : respond o (world s) = respond o (world s0);
  co_faulty : faulty o (world s0) = true -> faulty o (world s) = true;
  co_timer : timerfd s = None <-> timerfd s0 = None
}.

Definition reported_events : event_data := set_pipe_bytes 1 (set_completed_transfers [t] (ev s0)).
Definition own_ref : gmultiset nat := {[+ h_dev y +]}.

(** Completed, with the events [e]. *)
Definition ended (e : event_data) (status : Z) (rep : reply) s : Prop := exists x, common x 1 s /\
  like (set_t_actual_length (rp_count rep) (set_t_status status (deliver rep x0))) x /\
  due o (world s) = None /\ held o (world s) = ∅ /\ answers rep (world s) /\ answers_with status rep (world s) /\
  flying_transfers s = [] /\ ev s = e /\ devices_ok be F E s.
(** The data are there, the transfer is not completed. *)
Definition delivered (e : event_data) (rep : reply) s : Prop := exists x, common x 0 s /\ like (deliver rep x0) x /\
  due o (world s) = None /\ held o (world s) = ∅ /\ verdict o (world s) = rp_status rep /\ answers rep (world s) /\
  flying_transfers s = [t] /\ ev s = e /\ devices_ok be F (own_ref ⊎ E) s.

Definition at_stage (p : stage) s : Prop :=
  match p with
  | Pending => exists x, common x 0 s /\ like x0 x /\ due o (world s) = Some t /\ flying_transfers s = [t] /\
      ev s = ev s0 /\ devices_ok be (held o (world s) ⊎ F) (own_ref ⊎ E) s
  | Reported rep => delivered reported_events rep s
  | Finished status rep => ended (ev s0) status rep s
  end.

(** The measure: what has to happen at most before the end. *)
Definition within (k : nat) s : Prop := exists p, at_stage p s /\ (patience o (world s) + to_come p <= k)%nat.
Definition finished s : Prop := exists status rep, at_stage (Finished status rep) s.

Lemma common_stirs x c s s' : common x c s -> transfers s !! t = Some x -> stirs o t s s' ->
  exists x', common x' c s' /\ like x x' /\ quiet o (world s) (world s') /\
    (flying_transfers s', ev s', devices s', mem s', usb_devs s', handling_events s', events_locked s') =
    (flying_transfers s, ev s, devices s, mem s, usb_devs s, handling_events s, events_locked s).
Proof.
  intros [] Ht (z & x' & w & tf & Ht' & Hl & -> & Hq & Htf). rewrite Ht in Ht'. injection Ht' as <-.
  exists x'. split; [|by split_and!]. split; cbn; try done.
  - rewrite co_transfers0. by rewrite insert_insert_eq.
  - by rewrite (q_respond _ _ _ Hq).
  - intros Hf. by apply (q_faulty _ _ _ Hq), co_faulty0.
  - etrans; [symmetry; exact Htf|exact co_timer0].
Qed.

Lemma answers_quiet rep w w' : quiet o w w' -> answers rep w -> answers rep w'.
Proof.
  intros Hq [Hf Hr]. split; [done|]. intros Hc. apply Hr. destruct (cancelled o w) eqn:Hcw; [|done].
  by rewrite (q_cancelled _ _ _ Hq Hcw) in Hc.
Qed.
Lemma answers_with_quiet status rep w w' : quiet o w w' -> answers_with status rep w -> answers_with status rep w'.
Proof. intros Hq [?|[Hc ?]]; [by left|]. right. split; [by apply (q_cancelled _ _ _ Hq)|done]. Qed.

Lemma common_lookup x c s : common x c s -> transfers s !! t = Some x.
Proof. intros Hc. rewrite (co_transfers _ _ _ Hc). apply lookup_insert_eq. Qed.

Lemma stage_lookup p s : at_stage p s -> exists x, transfers s !! t = Some x.
Proof. destruct p; intros (x & Hc & _); exists x; by eapply common_lookup. Qed.
Lemma stage_alone p s : at_stage p s -> alone t s.
Proof.
  destruct p; intros (x & Hc & Hs); [left|left|right]; apply Hs.
Qed.

Lemma stage_stirs p s s' : at_stage p s -> stirs o t s s' -> at_stage p s' /\ quiet o (world s) (world s').
Proof.
  intros Hp Hst. destruct p; destruct Hp as (x & Hc & Hl & Hp);
    destruct (common_stirs _ _ _ _ Hc (common_lookup _ _ _ Hc) Hst) as (x' & Hc' & Hl' & Hq & Heq); (split; [|exact Hq]);
    injection Heq as Hf He Hd Hm Hu _ _; exists x'; (split; [done|]); (split; [by etrans|]); rewrite Hf, He, (q_due _ _ _ Hq), (q_held _ _ _ Hq).
  - destruct Hp as (? & ? & ? & Hok). split_and!; try done. unfold devices_ok, connected in *. by rewrite Hd, Hm, Hu.
  - destruct Hp as (? & ? & ? & ? & ? & ? & Hok). rewrite (q_verdict _ _ _ Hq). split_and!; try done; [by eapply answers_quiet|].
    unfold devices_ok, connected in *. by rewrite Hd, Hm, Hu.
  - destruct Hp as (? & ? & ? & ? & ? & ? & Hok). split_and!; try done; [by eapply answers_quiet|by eapply answers_with_quiet|].
    unfold devices_ok, connected in *. by rewrite Hd, Hm, Hu.
Qed.
Lemma within_stirs k s s' : within k s -> stirs o t s s' -> within k s'.
Proof.
  intros (p & Hp & Hk) Hst. destruct (stage_stirs _ _ _ Hp Hst) as [Hp' Hq]. exists p. split; [done|].
  pose proof (q_patience _ _ _ Hq). lia.
Qed.
Lemma finished_stirs s s' : finished s -> stirs o t s s' -> finished s'.
Proof. intros (st & rep & Hp) Hst. exists st, rep. by destruct (stage_stirs _ _ _ Hp Hst). Qed.

(** ** Completion *)

Definition calm s s' : Prop := quiet o (world s) (world s').
#[local] Instance calm_steps : StepRelation calm.
Proof.
  split; try (intros; unfold calm; cbn; reflexivity). unfold calm. split; [by intros s|].
  intros s1 s2 s3 H1 H2. by etrans.
Qed.
#[local] Instance calm_backend : BackendSteps be calm.
Proof.
  split; [intros w s <-; apply (an_mutex _ _ _ _ (world s))|]. intros f d w Hf s <-. by apply (an_destroy _ _ _ _ f d (world s)).
Qed.

Lemma rest_live p_x s : t_dev_handle p_x = Some h -> rest s = rest s0 -> is_Some (devices s !! h_dev y) -> transfer_live s p_x h y.
Proof. intros Hh Hr Hd. injection Hr as Hhs _. split; [done|]. split; [by rewrite Hhs|done]. Qed.
Lemma devices_ok_own F' s : devices_ok be F' (own_ref ⊎ E) s -> is_Some (devices s !! h_dev y).
Proof. intros Hok. eapply devices_ok_live; [exact Hok|]. unfold own_ref. multiset_solver. Qed.

Lemma remove_alone_wp x s : transfers s !! t = Some x -> transfer_live s x h y -> flying_transfers s = [t] ->
  wp (remove_from_flying_list be t) s (fun _ s' => stirs o t (set_flying_transfers [] s) s').
Proof. clear -HA.
  intros Ht Hlive Hf. unfold remove_from_flying_list. apply wp_bind. eapply transfer_ctx_wp; [done|done|].
  apply wp_bind. eapply wp_get_transfer; [done|]. apply wp_bind, wp_gets. rewrite Hf. apply wp_bind.
  eapply wp_lift; [apply list_del_wp; set_solver|]. rewrite filter_cons_False by tauto. cbn.
  apply wp_bind, wp_modify, wp_bind, wp_gets. destruct (usbi_using_timerfd _ && _) eqn:Hu; [|by apply wp_ret, (stirs_refl _ _ _ x)].
  apply andb_true_iff in Hu as [Hu _]. unfold usbi_using_timerfd in Hu. cbn in Hu.
  unfold arm_timerfd_for_next_timeout. apply wp_bind, wp_gets. apply (settime_stirs be user_cb o timer t _ _ x); [done|]. cbn. by destruct (timerfd s).
Qed.

Lemma sync_completion_wp e rep status s : delivered e rep s -> answers_with status rep (world s) ->
  wp (usbi_handle_transfer_completion be user_cb t status) s (fun _ s' => ended e status rep s' /\ calm s s').
Proof.
  intros (x & Hc & Hl & Hdue & Hheld & Hv & Hans & Hf & He & Hok) Hw. pose proof (common_lookup _ _ _ Hc) as Ht.
  pose proof (like_fields _ _ Hl) as (Lh & Lf & _ & _ & _ & Lcb & Lud & _). cbn in Lh, Lf, Lcb, Lud.
  rewrite (sy_handle _ _ _ Hsync) in Lh. rewrite (sy_callback _ _ _ Hsync) in Lcb. rewrite (sy_data _ _ _ Hsync) in Lud.
  unfold usbi_handle_transfer_completion. apply wp_bind. eapply wp_get_transfer; [exact Ht|]. apply wp_bind.
  eapply wp_mono; [apply (remove_alone_wp x); [done|apply rest_live; [done|apply Hc|by eapply devices_ok_own]|done]|].
  intros r s1 H1. destruct (stirs_lookup _ _ _ _ H1) as [x1 Ht1]. apply wp_bind.
  eapply wp_mono; [apply (stirs_upd o t _ _ x1 Ht1), like_state_flags|]. intros [] s2 H2.
  assert (common x 0 (set_flying_transfers [] s)) as Hc0 by (destruct Hc; by split).
  destruct (common_stirs _ _ _ _ Hc0 Ht (stirs_trans _ _ _ _ _ H1 H2)) as (x2 & Hc2 & Hl2 & Hq2 & Heq). cbn in Heq, Hq2.
  injection Heq as Hf2 He2 Hd2 Hm2 Hu2 _ _. apply wp_bind. eapply wp_get_transfer; [by eapply common_lookup|].
  pose proof (like_fields _ _ Hl2) as (_ & Lf2 & _ & _ & _ & Lcb2 & Lud2 & _ & _ & Lt2 & _).
  pose proof (like_fields _ _ Hl) as (_ & _ & _ & _ & _ & _ & _ & _ & _ & Lt & _). cbn in Lt.
  assert (completion_status x2 status = status) as ->.
  { unfold completion_status. rewrite Lf2, Lf, (sy_short _ _ _ Hsync). by rewrite andb_false_r. }
  apply wp_bind, wp_put_transfer. rewrite Lcb2, Lcb. cbn [run_callback]. apply wp_bind. unfold sync_transfer_cb. apply wp_bind.
  eapply wp_get_transfer; [apply lookup_insert_eq|]. cbn [t_user_data set_t_actual_length set_t_status]. rewrite Lud2, Lud.
  apply wp_modify. rewrite Lf2, Lf, (sy_keep _ _ _ Hsync). apply wp_bind, wp_ret. rewrite Lh. apply wp_bind.
  eapply wp_get_handle; [cbn; pose proof (co_rest _ _ _ Hc2) as Hr; injection Hr as Hhs; rewrite Hhs; exact Hy|].
  apply wp_bind. rewrite Lt2, Lt. set (s3 := set_ints _ _).
  assert (devices_ok be F (own (Some (h_dev y)) ⊎ E) s3) as Hok3.
  { unfold devices_ok, connected in *. subst s3. cbn. rewrite Hd2, Hm2, Hu2. exact Hok. }
  eapply wp_mono; [apply wp_wlp; [apply (libusb_unref_device_wp be _ _ _ _ Hok3)|apply (step_unref be calm)]|].
  intros [] s4 [(Hok4 & Hoc & Hsame & Horc & Husb) Hcalm]. apply wp_ret.
  assert (quiet o (world s) (world s4)) as Hq by (etrans; [exact Hq2|exact Hcalm]). split; [|exact Hq].
  destruct (same_rest_frame be s3 s4 (conj Hsame (conj Horc Husb))) as (Hr4 & Ht4 & Hi4 & Hf4 & He4 & Htf4 & _).
  exists (set_t_actual_length (rp_count rep) (set_t_status status x2)). split; [split|].
  - rewrite Hr4. exact (co_rest _ _ _ Hc2).
  - rewrite Ht4. cbn. by rewrite (co_transfers _ _ _ Hc2), insert_insert_eq.
  - rewrite Hi4. cbn. by rewrite (co_ints _ _ _ Hc2), insert_insert_eq.
  - etrans; [apply (co_mem _ _ _ Hc2)|exact Horc].
  - eapply only_counts_trans; [apply (co_devices _ _ _ Hc2)|exact Hoc].
  - by rewrite (q_respond _ _ _ Hcalm), <- (co_respond _ _ _ Hc2).
  - intros Hfl. by apply (q_faulty _ _ _ Hcalm), (co_faulty _ _ _ Hc2).
  - rewrite Htf4. exact (co_timer _ _ _ Hc2).
  - rewrite (q_due _ _ _ Hq), (q_held _ _ _ Hq), Hf4, He4. cbn. rewrite Hf2, He2. split_and!; try done.
    + assert (like (deliver rep x0) x2) as (a & b & ->) by (by etrans). by exists a, b.
    + by eapply answers_quiet.
    + by eapply answers_with_quiet.
Qed.

Lemma concludes_wp e rep m s : delivered e rep s -> concludes be user_cb o (world s) t m ->
  wp m s (fun _ s' => (exists status, ended e status rep s') /\ calm s s').
Proof.
  intros Hd [->|[Hc ->]].
  - eapply wp_mono; [apply (sync_completion_wp e rep); [done|]|].
    + left. by destruct Hd as (? & _ & _ & _ & _ & ? & _).
    + intros r s' [? ?]. eauto.
  - pose proof Hd as (x & Hx & Hl & _ & _ & _ & _ & _ & _ & Hok). pose proof (common_lookup _ _ _ Hx) as Ht.
    unfold usbi_handle_transfer_cancellation. apply wp_bind. apply (transfer_ctx_wp t x h y); [done| |].
    { apply rest_live; [|apply Hx|by eapply devices_ok_own]. apply like_fields in Hl as [-> _]. apply Hsync. }
    apply wp_bind. eapply wp_get_transfer; [done|]. eapply wp_mono; [apply (sync_completion_wp e rep); [done|]|].
    + right. split; [done|]. case_match; [by left|by right].
    + intros r s' [? ?]. eauto.
Qed.

(** ** The event pipe *)

Lemma idle_eq : ev s0 = mk_ev 0 0 [] [] (ipollfds (ev s0)) (pollfds_cnt (ev s0)) (pollfds (ev s0)) 0.
Proof. destruct Hidle as [H1 H2 H3 H4 H5 _]. destruct (ev s0). simpl in *. by subst. Qed.

(** Taken off the list, with the byte still in the pipe. *)
Definition drained : event_data := set_pipe_bytes 1 (ev s0).

Lemma take_message_reported s : ev s = reported_events -> take_message s = Ok (None, s).
Proof.
  intros He. unfold take_message, gets, put_ev, modify. unfold mbind, M_bind. rewrite He. unfold reported_events.
  rewrite idle_eq. cbn. do 2 f_equal. destruct s. cbn in *. subst. unfold reported_events. by rewrite idle_eq.
Qed.
Lemma complete_loop_wp n rep s : delivered reported_events rep s ->
  wp (complete_loop be (S n)) s (fun _ s' => (exists status, ended drained status rep s') /\ calm s s').
Proof.
  intros Hd. cbn [complete_loop]. apply wp_bind. unfold take_completed at 1. apply wp_bind, wp_gets.
  pose proof Hd as (x & Hx & Hl & Hdue & Hheld & Hv & Hans & Hf & He & Hok).
  assert (completed_transfers (ev s) = [t]) as -> by by rewrite He.
  apply wp_bind, wp_modify, wp_ret. rewrite He. set (s1 := set_ev _ s).
  assert (delivered drained rep s1) as Hd1.
  { exists x. split; [by destruct Hx; split|]. split_and!; try done. subst s1. cbn. unfold reported_events, drained. by rewrite idle_eq. }
  destruct (an_completion _ _ _ _ t s1 Hdue) as (m & Hm & Heq). apply wp_bind.
  assert (forall A (m1 m2 : Lib W A) Q, m1 s1 = m2 s1 -> wp m2 s1 Q -> wp m1 s1 Q) as Hcong by (intros A m1 m2 Q Hms; unfold wp; by rewrite Hms).
  eapply Hcong; [exact Heq|]. eapply wp_mono; [by apply (concludes_wp drained rep)|].
  intros r s2 [[status Hend] Hcalm]. destruct (r =? 0); [|apply wp_ret; eauto].
  assert (take_completed s2 = Ok (None, s2)) as Htake.
  { unfold take_completed, gets. unfold mbind, M_bind. destruct Hend as (? & _ & _ & _ & _ & _ & _ & _ & He2 & _). rewrite He2.
    unfold drained. by rewrite idle_eq. }
  assert (complete_loop be n s2 = Ok (0, s2)) as Hl2 by (destruct n; cbn [complete_loop]; unfold mbind, M_bind; by rewrite Htake).
  unfold wp. rewrite Hl2. eauto.
Qed.

Lemma event_pipe_wp big hotplug_fn n rep s : at_stage (Reported rep) s ->
  wp (handle_event_pipe be big hotplug_fn (S n)) s (fun _ s' => (exists status, at_stage (Finished status rep) s') /\ calm s s').
Proof.
  intros Hd. pose proof Hd as (_ & _ & _ & _ & _ & _ & _ & _ & He & _). unfold handle_event_pipe.
  apply wp_bind. unfold wp at 1. rewrite take_message_reported by done.
  apply wp_bind. eapply wp_mono; [by apply (complete_loop_wp n rep)|]. intros r s1 [[status Hend] Hcalm].
  apply wp_bind. unfold clear_if_idle, usbi_clear_event. apply wp_bind, wp_gets.
  destruct Hend as (x & Hx & Hl & Hdue & Hheld & Hans & Hst & Hf & He1 & Hok). rewrite He1.
  assert (usbi_pending_events drained = false) as -> by (unfold drained; by rewrite idle_eq).
  apply wp_bind, wp_bind, wp_gets. rewrite He1. cbn [pipe_bytes drained set_pipe_bytes Z.ltb Z.compare].
  apply wp_bind, wp_modify, wp_ret, wp_ret, wp_bind, wp_ret, wp_ret. split; [|exact Hcalm]. exists status, x.
  split; [by destruct Hx; split|]. split_and!; try done. cbn. unfold drained. by rewrite idle_eq.
Qed.

(** ** The events of the backend *)

Lemma within_weaken k k' s : (k <= k')%nat -> within k s -> within k' s.
Proof. intros Hk (p & Hp & Hle). exists p. split; [done|lia]. Qed.

Lemma signal_wp rep s : delivered (ev s0) rep s ->
  wp (usbi_signal_transfer_completion t) s (fun _ s' => at_stage (Reported rep) s' /\ calm s s').
Proof.
  intros (x & Hx & Hl & Hdue & Hheld & Hv & Hans & Hf & He & Hok). pose proof (common_lookup _ _ _ Hx) as Ht.
  unfold usbi_signal_transfer_completion. apply wp_bind. apply (transfer_ctx_wp t x h y); [done| |].
  { apply rest_live; [|apply Hx|by eapply devices_ok_own]. apply like_fields in Hl as [-> _]. apply Hsync. }
  unfold record_event. apply wp_bind, wp_gets, wp_bind, wp_modify. rewrite He.
  assert (usbi_pending_events (ev s0) = false) as -> by by rewrite idle_eq.
  unfold usbi_signal_event. apply wp_bind, wp_bind, wp_gets. cbn [ev set_ev].
  assert (pipe_bytes (set_completed_transfers (completed_transfers (ev s0) ++ [t]) (ev s0)) = 0) as -> by (by rewrite idle_eq).
  cbn [Z.ltb Z.compare PIPE_CAPACITY]. apply wp_bind, wp_modify, wp_ret, wp_ret. split; [|unfold calm; cbn; reflexivity].
  exists x. split; [by destruct Hx; split|]. split_and!; try done. cbn. unfold reported_events. by rewrite idle_eq.
Qed.

Lemma reported_within s s' x : common x 0 s -> like x0 x -> due o (world s) = Some t -> flying_transfers s = [t] ->
  ev s = ev s0 -> devices_ok be (held o (world s) ⊎ F) (own_ref ⊎ E) s -> reported be user_cb o t x s s' ->
  within (patience o (world s) + 1) s'.
Proof.
  intros Hx Hl Hdue Hf He Hok (rep & m & w & Hfit & Hrep & Hm & Ho & Hdue' & Hheld & Hv & Hr & Hpat & Hfl & Hc & Hrun).
  pose proof (like_fields _ _ Hl) as (_ & _ & Le & Lt & Ld & _). set (s1 := set_transfers _ _) in Hrun.
  assert (delivered (ev s0) rep s1) as Hd.
  { exists (deliver rep x). destruct Hx. split; [split; subst s1; cbn; try done|].
    - by rewrite co_transfers0, insert_insert_eq.
    - by etrans.
    - by rewrite Hr.
    - by rewrite Hfl.
    - split; [by apply like_deliver|]. split_and!; try done.
      + split; [unfold fits in *; by rewrite Lt, Ld in Hfit|]. intros Hcc. cbn in Hcc. rewrite Hc in Hcc. rewrite <- Le, <- Lt, <- Ld, <- co_respond0. auto.
      + destruct Hok as (H1 & H2 & H3). split; [done|]. split; [|done]. cbn. rewrite Hm in H2. clear -H2. multiset_solver. }
  destruct Hrun as [Hrun|(op & r & Hop & Hrun)].
  - pose proof (signal_wp rep s1 Hd) as Hwp. unfold wp in Hwp. rewrite Hrun in Hwp. destruct Hwp as [Hst Hcalm].
    exists (Reported rep). split; [done|]. apply q_patience in Hcalm. subst s1. cbn in *. lia.
  - pose proof (concludes_wp _ _ op s1 Hd Hop) as Hwp. unfold wp in Hwp. rewrite Hrun in Hwp. destruct Hwp as [[status Hst] Hcalm].
    exists (Finished status rep). split; [done|]. apply q_patience in Hcalm. subst s1. cbn in *. lia.
Qed.

Lemma set_world_stirs w s x : transfers s !! t = Some x -> quiet o (world s) w -> stirs o t s (set_world w s).
Proof. intros Ht Hq. exists x, x, w, (timerfd s). split_and!; try done. rewrite insert_id by done. by destruct s. Qed.

Lemma handle_events_op_wp fds n p s : at_stage p s -> wp (be_handle_events be fds n) s (fun _ s' =>
  (exists w, s' = set_world w s /\ still o (world s) w /\ (due o (world s) = None \/ ripe o (world s) = false)) \/
  p = Pending /\ within (patience o (world s) + 1) s').
Proof.
  intros Hp. eapply wp_mono; [apply (an_events _ _ _ _ fds n s)|].
  - intros u Hu. destruct p; destruct Hp as (x & Hx & Hl & Hdue & Hrest); [|congruence|congruence].
    assert (u = t) as -> by congruence. exists x, h, y. split; [by eapply common_lookup|].
    apply like_fields in Hl as (Lh & _ & _ & Lt & Ld & _). split; [|unfold has_room; rewrite Lt, Ld; apply Hsync].
    apply rest_live; [|apply Hx|eapply devices_ok_own; apply Hrest]. rewrite Lh. apply Hsync.
  - destruct p; destruct Hp as (x & _ & _ & _ & Hrest).
    + destruct Hrest as (_ & _ & _ & -> & _). exists (blocks (devices s) ⊎ F). multiset_solver.
    + destruct Hrest as (-> & _). exists (live (mem s)). multiset_solver.
    + destruct Hrest as (-> & _). exists (live (mem s)). multiset_solver.
  - intros _ s' [Hw|(u & x & Hu & Hx & Hrep)]; [by left|]. right.
    destruct p; destruct Hp as (z & Hz & Hl & Hdue & Hrest); [|congruence|congruence]. split; [done|].
    assert (u = t) as -> by congruence. pose proof (common_lookup _ _ _ Hz) as Hz'. rewrite Hx in Hz'. injection Hz' as ->.
    destruct Hrest as (Hf & He & Hok). by eapply reported_within.
Qed.
Lemma events_within fds n k s : within k s -> wp (be_handle_events be fds n) s (fun _ => within k).
Proof.
  intros Hk. pose proof Hk as (p & Hp & Hle). eapply wp_mono; [by apply (handle_events_op_wp fds n p)|].
  intros _ s' [(w & -> & Hst & _)|[-> Hw]].
  - destruct (stage_lookup _ _ Hp) as [x Hx]. eapply within_stirs; [done|]. apply (set_world_stirs _ _ x); [done|apply Hst].
  - eapply within_weaken; [|exact Hw]. cbn in Hle. lia.
Qed.
Lemma events_ripe fds n s : at_stage Pending s -> ripe o (world s) = true ->
  wp (be_handle_events be fds n) s (fun _ => within (patience o (world s) + 1)).
Proof.
  intros Hp Hr. eapply wp_mono; [by apply (handle_events_op_wp fds n Pending)|].
  intros _ s' [(w & _ & _ & [Hd|Hd])|[_ Hw]]; [|congruence|done]. destruct Hp as (_ & _ & _ & ? & _). congruence.
Qed.

(** ** The poll loop *)

(** A turn ends the transfer, or brings its end nearer. *)
Definition progress (k : nat) s : Prop := (within k s /\ finished s) \/ exists j, (j < k)%nat /\ within j s.

Lemma stage_readable p s : at_stage p s -> (0 <? pipe_bytes (ev s)) = match p with Reported _ => true | _ => false end.
Proof.
  destruct p; intros (x & Hp).
  - destruct Hp as (_ & _ & _ & _ & -> & _). by rewrite idle_eq.
  - by destruct Hp as (_ & _ & _ & _ & _ & _ & _ & -> & _).
  - destruct Hp as (_ & _ & _ & _ & _ & _ & _ & -> & _). by rewrite idle_eq.
Qed.

(** What [poll] reports at a stage: nothing, with the end of the transfer
    there or nearer; the device, with its answer; or the event pipe, with the
    report in it. *)
Definition poll_quiet (k : nat) (res : poll_result) s : Prop :=
  (progress k s /\ poll_code res = 0) \/
  (exists j, (j < k)%nat /\ within j s) /\
    (0 < poll_code res -> poll_revents res !! 0%nat <> Some 0 -> exists rep, at_stage (Reported rep) s).
Definition poll_device (k : nat) (res : poll_result) s : Prop :=
  at_stage Pending s /\ ripe o (world s) = true /\ (patience o (world s) + 1 < k)%nat /\ 0 < poll_code res /\
  poll_revents res !! 0%nat = Some 0 /\ (timer = true -> poll_revents res !! 1%nat = Some 0).
Definition poll_pipe (k : nat) (res : poll_result) s : Prop :=
  (exists rep, at_stage (Reported rep) s /\ (patience o (world s) < k)%nat) /\ 0 < poll_code res /\
  poll_revents res !! 0%nat <> Some 0.

Lemma poll_stage_wp fds ms k s : within k s -> (2 <= length fds)%nat ->
  wp (backend_op (os_poll be fds ms (0 <? pipe_bytes (ev s)))) s (fun res s1 =>
    (0 < poll_code res -> length (poll_revents res) = length fds) /\
    (poll_quiet k res s1 \/ poll_device k res s1 \/ poll_pipe k res s1)).
Proof.
  intros Hk Hlen2. pose proof Hk as (p & Hp & Hle). destruct (stage_lookup _ _ Hp) as [x Hx]. pose proof (stage_readable p s Hp) as Hread.
  rewrite Hread. apply wp_backend_op. intros res w Hop.
  pose proof (an_poll _ _ _ _ fds ms (match p with Reported _ => true | _ => false end) (world s) Hlen2) as Hlaw. rewrite Hop in Hlaw.
  destruct Hlaw as ([Hq _] & Hlen & Halt). pose proof (set_world_stirs w s x Hx Hq) as Hst.
  destruct (stage_stirs _ _ _ Hp Hst) as [Hp1 _]. pose proof (q_patience _ _ _ Hq) as Hpat. split; [intros Hpos; by apply Hlen|].
  destruct Halt as [Hless|[(Hdue & Hripe & Hpos & Hrev & Htm)|[(Hr & Hpos & Hrev)|(Hdue & Hr & Hz)]]].
  - left. right. split; [exists (k - 1)%nat; split; [lia|]; exists p; split; [done|]; cbn; lia|].
    intros Hpos Hrev. destruct p; [|by eexists|]; destruct (Hlen Hpos) as [_ Hzero]; by rewrite Hzero in Hrev.
  - right. left. destruct p as [|rep|st rep]; [|exfalso; apply Hdue; by destruct Hp as (? & _ & _ & ? & _)..].
    split_and!; try done. cbn in *. lia.
  - right. right. split; [|done]. destruct p as [|rep|]; [done| |done]. exists rep. split; [done|]. cbn in *. lia.
  - left. left. split; [|done]. left. split; [by eapply within_stirs|].
    destruct p as [|rep|st rep]; [|done|by exists st, rep]. destruct Hp as (? & _ & _ & Hdue' & _). congruence.
Qed.

(** The second descriptor, where it is the timer's. *)
Lemma timer_revents_wp revs s : (2 <= length revs)%nat ->
  wp (if usbi_using_timerfd s then lift (rd revs 1) else mret 0) s (fun rev1 s' => s' = s /\
    (rev1 <> 0 -> timerfd s <> None) /\ (rev1 <> 0 -> revs !! 1%nat <> Some 0)).
Proof.
  intros Hlen. unfold usbi_using_timerfd. destruct (timerfd s); [|by apply wp_ret].
  destruct (rd_lookup revs 1 ltac:(lia)) as [b Hb]. eapply wp_lift; [exact Hb|]. split; [done|]. split; [done|].
  intros Hnz. unfold rd in Hb. change (Z.to_nat 1) with 1%nat in Hb. cbn [Z.ltb Z.compare] in Hb.
  destruct (revs !! 1%nat); [|done]. injection Hb as ->. congruence.
Qed.
Lemma stage_timer p s : at_stage p s -> timerfd s <> None -> timer = true.
Proof. intros Hp Hn. apply Htimer. destruct p; destruct Hp as (x & Hx & _); by rewrite <- (co_timer _ _ _ Hx). Qed.

(** From the timer on; [K] ends the turn. *)
Lemma poll_rest_wp (K : Z -> bool -> Lib W Z) l revs r0 sp0 k s :
  (forall r special j s, (j < k)%nat -> within j s -> wp (K r special) s (fun _ => progress k)) ->
  (2 <= length revs)%nat ->
  (exists j, (j < k)%nat /\ within j s) \/
    (at_stage Pending s /\ ripe o (world s) = true /\ (patience o (world s) + 1 < k)%nat /\ (timer = true -> revs !! 1%nat = Some 0)) ->
  wp (s ← get;
      rev1 ← (if usbi_using_timerfd s then lift (rd revs 1) else mret 0);
      '(ret, special, r) ← (if rev1 =? 0 then mret (0, sp0, r0) else ret ← handle_timerfd_trigger be; mret (ret, true, r0 - 1));
      if ret <? 0 then mret ret
      else if negb (rev1 =? 0) && (r =? 0) then K r special
      else r ← be_handle_events be l r; K r special) s (fun _ => progress k).
Proof.
  intros HK Hlen Hs. apply wp_bind. change (wp get s ?Q) with (Q s s). cbv beta.
  apply wp_bind. eapply wp_mono; [by apply timer_revents_wp|]. intros rev1 ? (-> & Htf & Hrev).
  destruct Hs as [(j & Hj & Hs)|(Hp & Hripe & Hpat & Htm)].
  - apply wp_bind. eapply (wp_mono _ _ (fun _ => within j)).
    { destruct (Z.eqb_spec rev1 0) as [_|Hnz]; [by apply wp_ret|]. pose proof Hs as (p & Hp & Hle). destruct (stage_lookup _ _ Hp) as [x Hx].
      apply wp_bind. eapply wp_mono; [apply (trigger_stirs be user_cb o timer t _ x); [by eapply stage_alone|done|auto]|].
      intros ret s1 Hst. apply wp_ret. by eapply within_stirs. }
    intros [[ret special] r] s1 Hs1. case_match; [apply wp_ret; right; eauto|]. case_match; [by eapply HK|].
    apply wp_bind. eapply wp_mono; [by apply (events_within _ _ j)|]. intros r' s2 Hs2. by eapply HK.
  - destruct (Z.eqb_spec rev1 0) as [_|Hnz]; [|exfalso; apply (Hrev Hnz), Htm; eapply stage_timer; eauto].
    apply wp_bind, wp_ret. cbn [Z.ltb Z.compare negb andb]. apply wp_bind.
    eapply wp_mono; [by apply events_ripe|]. intros r' s2 Hs2. by eapply HK.
Qed.

Lemma timeouts_progress k s : progress k s -> wp (handle_timeouts be) s (fun _ => progress k).
Proof.
  intros Hs. assert (exists p, at_stage p s) as [p Hp] by (destruct Hs as [[(p & ? & _) _]|(j & _ & p & ? & _)]; eauto).
  destruct (stage_lookup _ _ Hp) as [x Hx].
  eapply wp_mono; [apply (timeouts_stirs be user_cb o timer t _ x); [by eapply stage_alone|done]|]. intros r s2 Hst.
  destruct Hs as [[Hw Hf]|(j & Hj & Hw)]; [left; split; [by eapply within_stirs|by eapply finished_stirs]|right].
  exists j. split; [done|by eapply within_stirs].
Qed.
Lemma poll_loop_wp n big hotplug_fn fds nfds ms k s : within k s -> (k < n)%nat -> (2 <= length fds)%nat ->
  wp (poll_loop be big hotplug_fn n (Some fds) nfds ms) s (fun _ => progress k).
Proof.
  revert ms k s. induction n as [|n IH]; intros ms k s Hk Hn Hlen; [lia|]. cbn [poll_loop]. cbv zeta.
  apply wp_bind. change (wp get s ?Q) with (Q s s). cbv beta.
  apply wp_bind. eapply wp_mono; [by apply (poll_stage_wp _ _ k)|]. intros res s1 (Hrl & Halt). cbn [default] in Hrl.
  destruct (Z.eqb_spec (poll_code res) 0) as [Hz|Hnz].
  { destruct Halt as [Halt|[(_ & _ & _ & ? & _)|(_ & ? & _)]]; [|lia|lia]. apply timeouts_progress. by destruct Halt as [[? _]|[? _]]; [|right]. }
  destruct (Z.ltb_spec (poll_code res) 0) as [Hneg|Hpos].
  { destruct Halt as [[[_ ?]|[Hw _]]|[(_ & _ & _ & ? & _)|(_ & ? & _)]]; [done| |lia|lia]. case_match; apply wp_ret; by right. }
  rewrite (proj2 (Z.eqb_neq (poll_code res) (-1))) by lia. cbn [andb]. specialize (Hrl ltac:(lia)). cbn in Hrl.
  destruct (rd_lookup (poll_revents res) 0 ltac:(lia)) as [b Hb].
  assert (poll_revents res !! 0%nat = Some b) as Hb0.
  { unfold rd in Hb. change (Z.to_nat 0) with 0%nat in Hb. cbn [Z.ltb Z.compare] in Hb. destruct (poll_revents res !! 0%nat); [by injection Hb as ->|done]. }
  assert (forall r (special : bool) j s, (j < k)%nat -> within j s ->
    wp (if (r =? 0) && special then poll_loop be big hotplug_fn n (Some fds) nfds 0 else mret r) s (fun _ => progress k)) as HK.
  { intros r' special' j s' Hj Hs'. case_match; [|apply wp_ret; right; eauto]. eapply wp_mono; [apply (IH 0 j); [done|lia|done]|].
    intros r'' s'' [[Hin _]|(j' & Hj' & Hin)]; right; [eauto|exists j'; split; [lia|done]]. }
  apply wp_bind. eapply wp_lift; [exact Hb|]. destruct (Z.eqb_spec b 0) as [->|Hnb].
  - apply wp_bind, wp_ret. cbn [negb Z.eqb andb].
    apply (poll_rest_wp (fun r special => if (r =? 0) && special then _ else _) _ _ _ _ k); [done|lia|].
    destruct Halt as [[[_ ?]|[Hw _]]|[(H1 & H2 & H3 & _ & _ & H4)|(_ & _ & ?)]]; [done|by left|by right|done].
  - assert (exists rep, at_stage (Reported rep) s1 /\ (patience o (world s1) < k)%nat) as (rep & Hrep & Hpat).
    { destruct Halt as [[[_ ?]|[(j & Hj & p & _ & Hle) Hrep]]|[(_ & _ & _ & _ & ? & _)|[? _]]]; [done| |congruence|done].
      destruct Hrep as [rep Hrep]; [lia|congruence|]. exists rep. split; [done|lia]. }
    apply wp_bind, wp_bind. eapply wp_mono; [by apply (event_pipe_wp big hotplug_fn n rep)|].
    intros [ret special] s2 [[status Hst] Hcalm]. apply wp_ret. apply q_patience in Hcalm.
    assert (within (patience o (world s2)) s2) as Hw by (exists (Finished status rep); split; [done|cbn; lia]).
    case_match; [apply wp_ret; right; exists (patience o (world s2)); split; [lia|done]|].
    case_match; [apply (HK _ _ (patience o (world s2))); [lia|done]|].
    apply (poll_rest_wp (fun r special => if (r =? 0) && special then _ else _) _ _ _ _ k); [done|lia|].
    left. exists (patience o (world s2)). split; [lia|done].
Qed.

(** ** One call of the event handler *)

(** The locks of the event handler do not concern the stages. *)
Lemma stage_locks p s b1 b2 b3 : at_stage p s -> at_stage p (set_handling_events b1 (set_events_locked b2 (set_event_handler_active b3 s))).
Proof. destruct p; intros (x & [] & Hs); exists x; (split; [by split|exact Hs]). Qed.
Lemma within_locks k s b1 b2 b3 : within k s -> within k (set_handling_events b1 (set_events_locked b2 (set_event_handler_active b3 s))).
Proof. intros (p & Hp & Hle). exists p. split; [by apply stage_locks|done]. Qed.
Lemma progress_locks k s b1 b2 b3 : progress k s -> progress k (set_handling_events b1 (set_events_locked b2 (set_event_handler_active b3 s))).
Proof.
  intros [[Hw (st & rep & Hp)]|(j & Hj & Hw)]; [left; split; [by apply within_locks|exists st, rep; by apply (stage_locks (Finished st rep))]|].
  right. exists j. split; [done|by apply within_locks].
Qed.

(** Nobody else handles events. *)
Definition unlocked s : Prop := handling_events s = false /\ events_locked s = false /\ event_handler_active s = false.
Lemma unlocked_stirs s s' : unlocked s -> stirs o t s s' -> unlocked s'.
Proof. intros Hu (x & x' & w & tf & _ & _ & -> & _). exact Hu. Qed.

Lemma stage_events p s : at_stage p s -> event_flags (ev s) = 0 /\ device_close (ev s) = 0 /\
  exists b fds, pollfds (ev s) = Some (b, fds) /\ (2 <= length fds)%nat.
Proof.
  destruct Hidle. destruct p; intros (x & Hp).
  - destruct Hp as (_ & _ & _ & _ & -> & _). eauto.
  - destruct Hp as (_ & _ & _ & _ & _ & _ & _ & -> & _). eauto.
  - destruct Hp as (_ & _ & _ & _ & _ & _ & _ & -> & _). eauto.
Qed.

Lemma handle_events_wp n big hotplug_fn tv k s : within k s -> (k < n)%nat -> handling_events s = false ->
  wp (handle_events be big hotplug_fn n tv) s (fun _ s' => progress k s' /\ handling_events s' = false).
Proof.
  intros Hk Hn Hhand. unfold handle_events. apply wp_bind, wp_gets. rewrite Hhand. apply wp_bind, wp_modify, wp_bind, wp_gets.
  cbv zeta. set (s1 := set_handling_events true s).
  assert (within k s1) as Hk1 by (pose proof (within_locks k s true (events_locked s) (event_handler_active s) Hk) as Hw; by destruct s).
  pose proof Hk1 as (p & Hp & _). destruct (stage_events _ _ Hp) as (Hfl & _ & b & fds & Hfds & Hlen).
  apply wp_bind. eapply (wp_mono _ _ (fun ok s' => ok = true /\ s' = s1)).
  { unfold refresh_pollfds. apply wp_bind, wp_gets. rewrite Hfl. by apply wp_ret. }
  intros ok s2 [-> ->]. apply wp_bind. eapply (wp_mono _ _ (fun _ => progress k)).
  { apply wp_bind, wp_gets. rewrite Hfds. by apply (poll_loop_wp n). }
  intros r s2 Hs2. apply wp_bind, wp_modify, wp_ret. split; [|done].
  pose proof (progress_locks k s2 false (events_locked s2) (event_handler_active s2) Hs2) as Hw. by destruct s2.
Qed.

(** There is no timeout that the event handler would have to watch. *)
Lemma next_timeout_none p tv s : at_stage p s -> wp (get_next_timeout be tv) s (fun r s' => r = (0, tv) /\ s' = s).
Proof.
  intros Hp. unfold get_next_timeout. apply wp_bind. eapply (wp_mono _ _ (fun r s' => r = (0, None) /\ s' = s)).
  2:{ intros r s' [-> ->]. by apply wp_ret. }
  unfold libusb_get_next_timeout. apply wp_bind, wp_gets. unfold usbi_using_timerfd. destruct (timerfd s) as [tf|] eqn:Htf; [by apply wp_ret|].
  apply wp_bind, wp_gets. destruct (stage_alone _ _ Hp) as [Hf|Hf]; rewrite Hf; [|by apply wp_ret].
  assert (exists x c, common x c s /\ it_timeout x = it_timeout x0) as (x & c & Hx & Hto).
  { destruct p; destruct Hp as (x & Hx & Hl & _); exists x; eexists; (split; [exact Hx|]); by apply like_fields in Hl as (_ & _ & _ & _ & _ & _ & _ & _ & -> & _). }
  assert (timerisset (it_timeout x) = false) as Hunset.
  { rewrite Hto. destruct Hwatch as [Hn|?]; [|done]. by apply (co_timer _ _ _ Hx) in Htf. }
  apply wp_bind. eapply (wp_mono _ _ (fun tv s' => tv = mk_tv 0 0 /\ s' = s)); [|by intros ? ? [-> ->]; apply wp_ret].
  cbn [first_timeout]. apply wp_bind. eapply wp_get_transfer; [by eapply common_lookup|]. rewrite Hunset.
  case_match; by apply wp_ret.
Qed.

Lemma is_completed_wp p s : at_stage p s ->
  wp (is_completed (Some v)) s (fun c s' => s' = s /\ c = match p with Finished _ _ => true | _ => false end).
Proof.
  intros Hp. unfold is_completed. apply wp_bind. change (wp get s ?Q) with (Q s s). cbv beta. apply wp_ret. split; [done|].
  destruct p; destruct Hp as (x & Hx & _); rewrite (co_ints _ _ _ Hx), lookup_insert_eq; done.
Qed.

Lemma handle_events_completed_wp n big hotplug_fn k s : within k s -> unlocked s -> (k < n)%nat ->
  wp (libusb_handle_events_completed be big hotplug_fn (S n) (Some v)) s (fun _ s' => progress k s' /\ unlocked s').
Proof.
  intros Hk (Hhand & Hlock & Hact) Hn. pose proof Hk as (p & Hp & Hle).
  unfold libusb_handle_events_completed, libusb_handle_events_timeout_completed. apply wp_bind.
  eapply wp_mono; [by apply (next_timeout_none p)|]. intros ? ? [-> ->]. cbn [negb Z.eqb handle_events_retry].
  destruct (stage_events _ _ Hp) as (_ & Hclose & _). apply wp_bind. unfold libusb_try_lock_events. apply wp_bind, wp_gets.
  rewrite Hclose. apply wp_bind, wp_gets. rewrite Hlock. apply wp_bind, wp_modify, wp_ret. cbn [Z.eqb].
  set (s1 := set_event_handler_active true (set_events_locked true s)).
  assert (forall p, at_stage p s -> at_stage p s1) as Hs1.
  { intros q Hq. pose proof (stage_locks q s false true true Hq) as Hw. subst s1. destruct s. cbn in *. by subst. }
  assert (within k s1) as Hk1 by (exists p; split; [by apply Hs1|done]).
  apply wp_bind. eapply wp_mono; [by apply (is_completed_wp p), Hs1|]. intros c ? [-> ->]. apply wp_bind.
  eapply (wp_mono _ _ (fun _ s' => progress k s' /\ handling_events s' = false)).
  { destruct p as [| |st rep]; [by apply handle_events_wp|by apply handle_events_wp|]. apply wp_ret. split; [|done].
    left. split; [done|]. exists st, rep. by apply Hs1. }
  intros r s2 [Hs2 Hh2]. apply wp_bind, wp_modify, wp_ret. split; [|by split].
  pose proof (progress_locks k s2 false false false Hs2) as Hw. destruct s2. cbn in *. by subst.
Qed.

(** ** The loop that waits *)

Lemma wait_finished n fuel big hotplug_fn st rep s : at_stage (Finished st rep) s ->
  wp (wait_loop be big hotplug_fn fuel (S n) t v) s (fun _ s' => s' = s).
Proof. intros Hp. cbn [wait_loop]. apply wp_bind. eapply wp_mono; [by apply is_completed_wp|]. intros c ? [-> ->]. by apply wp_ret. Qed.

(** The end of a turn. *)
Lemma wait_turn_wp n m big hotplug_fn k r s : (1 <= n)%nat -> progress k s -> unlocked s ->
  (forall j s, (j < k)%nat -> within j s -> unlocked s ->
     wp (wait_loop be big hotplug_fn (S m) n t v) s (fun _ s' => finished s' /\ unlocked s')) ->
  wp ((if (r <? 0) && negb (r =? LIBUSB_ERROR_INTERRUPTED) then libusb_cancel_transfer be t ;; mret tt else mret tt) ;;
      wait_loop be big hotplug_fn (S m) n t v) s (fun _ s' => finished s' /\ unlocked s').
Proof.
  intros Hn Hs Hu IH.
  assert (exists p, at_stage p s) as [p Hp] by (destruct Hs as [[(p & ? & _) _]|(j & _ & p & ? & _)]; eauto).
  destruct (stage_lookup _ _ Hp) as [x Hx]. apply wp_bind. eapply (wp_mono _ _ (fun _ => stirs o t s)).
  { case_match; [|apply wp_ret; by apply (stirs_refl _ _ _ x)]. apply wp_bind.
    eapply wp_mono; [by apply (cancel_stirs be user_cb o timer t _ x)|]. intros ? ? ?. by apply wp_ret. }
  intros [] s1 Hst. pose proof (unlocked_stirs _ _ Hu Hst) as Hu1. destruct Hs as [[_ Hf]|(j & Hj & Hw)].
  - destruct (finished_stirs _ _ Hf Hst) as (st & rep & Hend). destruct n as [|n]; [lia|].
    eapply wp_mono; [by apply (wait_finished _ _ _ _ st rep)|]. intros [] ? ->. split; [by exists st, rep|done].
  - apply (IH j); [done|by eapply within_stirs|done].
Qed.

Lemma wait_loop_wp n m big hotplug_fn k s : within k s -> unlocked s -> (k < n)%nat -> (k < m)%nat ->
  wp (wait_loop be big hotplug_fn (S m) n t v) s (fun _ s' => finished s' /\ unlocked s').
Proof.
  revert k s. induction n as [|n IH]; intros k s Hk Hu Hn Hm; [lia|]. pose proof Hk as (p & Hp & Hle).
  destruct p as [|rep|st rep].
  3:{ eapply wp_mono; [by apply (wait_finished _ _ _ _ st rep)|]. intros [] ? ->. split; [by exists st, rep|done]. }
  1,2: cbn [wait_loop]; apply wp_bind; (eapply wp_mono; [by apply is_completed_wp|]); intros c ? [-> ->];
    apply wp_bind; (eapply wp_mono; [by apply (handle_events_completed_wp m big hotplug_fn k)|]); intros r s1 [Hs1 Hu1];
    apply (wait_turn_wp n m big hotplug_fn k); [cbn in Hle; lia|done|done|]; intros j s2 ? ? ?; apply (IH j); [done|done|lia|lia].
Qed.
End stages.

(** ** Submission *)

Section submission.
Context {W : Type} (be : os_backend W) (user_cb : nat -> nat -> Lib W unit) (o : watch W) (timer : bool) {HA : Answering be user_cb o timer}.
Context (t : nat) (h : nat) (y : device_handle) (v : nat) (E F : gmultiset nat).
Implicit Types (s : lib W) (w : W) (x : transfer).

Lemma settime_wp tv s : timerfd s <> None -> wp (timerfd_settime be tv) s (fun r s' => exists w tf, s' = set_world w (set_timerfd tf s) /\
  quiet o (world s) w /\ (timerfd s = None <-> tf = None) /\ r <= 0 /\ (r <> 0 -> faulty o w = true)).
Proof.
  intros Htf. unfold timerfd_settime. apply wp_bind, wp_backend_op. intros r w Hop.
  pose proof (an_timer _ _ _ _ tv (world s)) as Hlaw. rewrite Hop in Hlaw. destruct Hlaw as [[Hq _] Hf].
  destruct (Z.ltb_spec r 0) as [Hneg|Hpos].
  - apply wp_ret. exists w, (timerfd s). split; [by destruct s|]. split_and!; try done; auto.
  - apply wp_bind, wp_modify, wp_ret. exists w, (Some tv). split; [by destruct s|]. split_and!; try done; auto.
Qed.

(** The transfer as it is in the list, with its deadline. *)
Definition listed x (tv : timeval) : transfer := set_it_timeout tv (cleared_transfer x).

Lemma calculate_timeout_alone_wp x s : transfers s !! t = Some x -> 0 <= t_timeout x ->
  wp (calculate_timeout be t) s (fun r s' => exists tv w,
    s' = set_world w (set_transfers (<[t := set_it_timeout tv x]> (transfers s)) s) /\ quiet o (world s) w /\
    (t_timeout x = 0 -> tv = it_timeout x) /\ r <= 0 /\ (r <> 0 -> faulty o w = true)).
Proof.
  intros Ht Hto. assert (forall w, set_world w s = set_world w (set_transfers (<[t := set_it_timeout (it_timeout x) x]> (transfers s)) s)) as Hid.
  { intros w. rewrite set_it_timeout_id, insert_id by done. by destruct s. }
  unfold calculate_timeout. apply wp_bind. eapply wp_get_transfer; [exact Ht|].
  destruct (Z.eqb_spec (t_timeout x) 0) as [Hz|Hnz].
  { apply wp_ret. exists (it_timeout x), (world s). rewrite <- Hid. split; [by destruct s|]. split_and!; try done; auto. }
  apply wp_bind, wp_backend_op. intros [r ts] w Hop. pose proof (an_clock _ _ _ _ (world s)) as Hlaw. rewrite Hop in Hlaw.
  destruct Hlaw as [[Hq _] Hr]. destruct (Z.ltb_spec r 0) as [Hneg|Hpos].
  { apply wp_ret. exists (it_timeout x), w. rewrite <- Hid. split_and!; try done; [lia|]. intros _. by destruct Hr as [[_ ?]|[? _]]; [|lia]. }
  destruct Hr as [[? _]|(-> & Hs & Hn)]; [lia|]. destruct (deadline_ok ts (t_timeout x) Hs Hn Hto) as (tv & Hrun & _ & _).
  apply wp_bind. eapply wp_lift; [exact Hrun|]. apply wp_bind. eapply wp_upd_transfer; [done|]. apply wp_ret.
  exists tv, w. split; [by destruct s|]. split_and!; try done; auto.
Qed.

Lemma add_alone_wp x s : transfers s !! t = Some x -> transfer_live s x h y -> flying_transfers s = [] -> 0 <= t_timeout x ->
  wp (add_to_flying_list be t) s (fun r s' => exists tv w tf,
    s' = set_world w (set_timerfd tf (set_flying_transfers (if r =? 0 then [t] else [])
           (set_transfers (<[t := set_it_timeout tv x]> (transfers s)) s))) /\
    quiet o (world s) w /\ (timerfd s = None <-> tf = None) /\ (t_timeout x = 0 -> tv = it_timeout x) /\
    r <= 0 /\ (r <> 0 -> faulty o w = true)).
Proof.
  intros Ht Hlive Hf Hto. unfold add_to_flying_list. apply wp_bind. eapply transfer_ctx_wp; [done|done|].
  apply wp_bind. eapply wp_mono; [by apply (calculate_timeout_alone_wp x)|]. intros r s1 (tv & w & -> & Hq & Htv & Hr & Hfl).
  destruct (Z.eqb_spec r 0) as [->|Hnz]; cbn [negb].
  2:{ apply wp_ret. exists tv, w, (timerfd s). rewrite (proj2 (Z.eqb_neq _ _)) by done.
      split; [by destruct s; cbn in *; subst|]. split_and!; try done; auto. }
  apply wp_bind. eapply wp_get_transfer; [apply lookup_insert_eq|]. apply wp_bind, wp_gets. cbn [flying_transfers set_world set_transfers].
  rewrite Hf. apply wp_bind, wp_ret, wp_bind, wp_modify, wp_bind, wp_gets. set (s2 := set_flying_transfers _ _).
  apply wp_bind. eapply (wp_mono _ _ (fun r s' => exists w' tf, s' = set_world w' (set_timerfd tf s2) /\
    quiet o w w' /\ (timerfd s = None <-> tf = None) /\ r <= 0 /\ (r <> 0 -> faulty o w' = true))).
  { destruct (_ && _ && _) eqn:Hu.
    - apply andb_true_iff in Hu as [Hu _]. apply andb_true_iff in Hu as [_ Hu]. unfold usbi_using_timerfd in Hu. cbn in Hu.
      eapply wp_mono; [apply settime_wp; cbn; by destruct (timerfd s)|]. intros r s' (w' & tf & -> & ?). by exists w', tf.
    -
    apply wp_ret. exists w, (timerfd s). split; [by destruct s|]. split_and!; try done; auto. }
  intros r s3 (w' & tf & -> & Hq' & Htf & Hr' & Hfl'). assert (quiet o (world s) w') as Hqq by (etrans; [exact Hq|exact Hq']).
  destruct (Z.eqb_spec r 0) as [->|Hnz].
  - apply wp_ret. exists tv, w', tf. split; [by destruct s|]. split_and!; try done; auto.
  - apply wp_bind.
    eapply wp_lift; [apply list_del_wp; set_solver|]. rewrite filter_cons_False by tauto. cbn [filter list_filter].
    apply wp_bind, wp_modify, wp_ret. exists tv, w', tf. rewrite (proj2 (Z.eqb_neq _ _)) by done.
    split; [by destruct s|]. split_and!; try done; auto.
Qed.

(** A context in which a blocking transfer can start. *)
Record at_rest s : Prop := mk_at_rest {
  ar_events : idle_events (ev s);
  ar_locks : unlocked s;
  ar_flying : flying_transfers s = [];
  ar_due : due o (world s) = None;
  ar_held : held o (world s) = ∅;
  ar_fresh : heap_fresh (mem s)
}.

(** After a refused submission only the transfer has changed. *)
Record refused x s s' : Prop := mk_refused {
  re_rest : rest s' = rest s;
  re_transfers : exists x', transfers s' = <[t := x']> (transfers s) /\ t_buffer x' = t_buffer x /\ t_flags x' = t_flags x;
  re_ints : ints s' = ints s;
  re_mem : same_oracles (mem s) (mem s');
  re_devices : devices s' = devices s;
  re_respond : respond o (world s') = respond o (world s);
  re_faulty : faulty o (world s') = true;
  re_at_rest : at_rest s';
  re_events : ev s' = ev s;
  re_ok : devices_ok be F E s'
}.

(** After the backend took it. *)
Lemma taken_wp x tv w tf m s : let s2 := set_mem m (set_world w (set_timerfd tf (set_flying_transfers [t]
    (set_transfers (<[t := listed x tv]> (transfers s)) s)))) in
  sync_transfer h v x -> handles s !! h = Some y -> is_Some (devices s !! h_dev y) -> at_rest s -> ints s !! v = Some 0 ->
  (timerfd s = None <-> tf = None) -> same_oracles (mem s) m -> live m = held o w ⊎ live (mem s) ->
  respond o w = respond o (world s) -> (faulty o (world s) = true -> faulty o w = true) -> due o w = Some t ->
  devices_ok be F E s ->
  wp (x ← get_transfer t;
      put_transfer t (set_it_state_flags (Z.lor (it_state_flags x) USBI_TRANSFER_IN_FLIGHT) x) ;;
      match t_dev_handle x with
      | None => fail NullDeref
      | Some h => y ← get_handle h; libusb_ref_device (h_dev y) ;; mret tt
      end) s2 (fun _ s' => at_stage be o s t (listed x tv) y v E F Pending s' /\ unlocked s' /\ quiet o w (world s')).
Proof.
  intros s2 Hsync Hy Hd Hrest Hv Htf Ho Hm Hresp Hfl Hdue Hok. pose proof (calm_steps o) as Hcs.
  assert (BackendSteps be (calm o)) as Hcb by exact (calm_backend be user_cb o timer).
  apply wp_bind. eapply wp_get_transfer; [apply lookup_insert_eq|]. apply wp_bind, wp_put_transfer.
  cbn [t_dev_handle listed set_it_timeout cleared_transfer set_it_timeout_flags set_it_state_flags set_it_transferred].
  rewrite (sy_handle _ _ _ Hsync). apply wp_bind. apply (wp_get_handle h y); [done|]. set (s3 := set_transfers _ s2).
  assert (devices_ok be (held o w ⊎ F) E s3) as Hok3.
  { destruct Hok as (H1 & H2 & H3). split; [done|]. split; [|done]. cbn. rewrite Hm, H2. clear. multiset_solver. }
  apply wp_bind. eapply wp_mono; [apply wp_wlp; [apply (libusb_ref_device_wp be (h_dev y) E _ s3 Hok3 Hd)|apply (step_ref (calm o))]|].
  intros r s4 [(_ & Hok4 & Hoc & _ & _ & Hsame & Horc & Husb) Hcalm]. apply wp_ret.
  destruct (same_rest_frame be s3 s4 (conj Hsame (conj Horc Husb))) as (Hr4 & Ht4 & Hi4 & Hf4 & He4 & Htf4 & Hh4 & Hl4 & Ha4).
  split; [|split; [|exact Hcalm]]; [|unfold unlocked; rewrite Hh4, Hl4, Ha4; exact (ar_locks _ Hrest)].
  eexists. split; [split|split; [apply like_state_flags|]].
  - rewrite Hr4. done.
  - rewrite Ht4. cbn. rewrite insert_insert_eq. done.
  - rewrite Hi4. cbn. by rewrite insert_id.
  - etrans; [exact Ho|exact Horc].
  - exact Hoc.
  - by rewrite (q_respond _ _ _ Hcalm).
  - intros Hfs. apply (q_faulty _ _ _ Hcalm). auto.
  - rewrite Htf4. symmetry. exact Htf.
  - rewrite (q_due _ _ _ Hcalm), (q_held _ _ _ Hcalm), Hf4, He4. split_and!; done.
Qed.

Lemma refused_intro x x' w tf m s s' : at_rest s -> devices_ok be F E s -> t_buffer x' = t_buffer x -> t_flags x' = t_flags x ->
  faulty o w = true -> respond o w = respond o (world s) -> due o w = None -> held o w = ∅ ->
  same_oracles (mem s) m -> live m = live (mem s) ->
  s' = set_mem m (set_world w (set_timerfd tf (set_transfers (<[t := x']> (transfers s)) s))) -> refused x s s'.
Proof.
  intros [] Hok Hb Hfl Hf Hr Hd Hh Ho Hl ->. split; cbn; try done; [by exists x'| |].
  - split; cbn; try done. by apply Ho.
  - destruct Hok as (H1 & H2 & H3). split; [done|]. split; [cbn; by rewrite Hl|done].
Qed.

Lemma submit_alone_wp x s : sync_transfer h v x -> transfers s !! t = Some x -> handles s !! h = Some y ->
  is_Some (devices s !! h_dev y) -> at_rest s -> ints s !! v = Some 0 -> 0 <= t_timeout x -> it_state_flags x = 0 ->
  (timerfd s <> None \/ t_timeout x = 0 /\ timerisset (it_timeout x) = false) -> devices_ok be F E s ->
  wp (libusb_submit_transfer be t) s (fun r s' => r <= 0 /\
    if r =? 0 then (patience o (world s') <= patience o (world s))%nat /\ unlocked s' /\
      exists tv, (timerfd s <> None \/ timerisset tv = false) /\ at_stage be o s t (listed x tv) y v E F Pending s'
    else refused x s s').
Proof.
  intros Hsync Ht Hy Hd Hrest Hv Hto Hidle Htimer Hok. pose proof Hrest as [He Hu Hf Hdue Hheld Hfresh].
  assert (forall s x, transfers s !! t = Some x -> t_dev_handle x = Some h -> handles s !! h = Some y -> is_Some (devices s !! h_dev y) ->
    transfer_live s x h y) as Hlive by (by intros; split).
  unfold libusb_submit_transfer. apply wp_bind. eapply transfer_ctx_wp; [done|by apply Hlive; [..|apply Hsync| |]|].
  apply wp_bind. eapply wp_get_transfer; [done|]. rewrite Hidle. cbn [has_flag Z.land Z.eqb negb].
  apply wp_bind, wp_put_transfer. fold (cleared_transfer x). set (s1 := set_transfers _ s).
  apply wp_bind. eapply wp_mono; [apply (add_alone_wp (cleared_transfer x) s1)|].
  { apply lookup_insert_eq. } { apply Hlive; [apply lookup_insert_eq|apply Hsync|done|done]. } { exact Hf. } { exact Hto. }
  intros r s2 (tv & w & tf & -> & Hq & Htf & Htv & Hr & Hfl). fold (listed x tv).
  destruct (Z.eqb_spec r 0) as [->|Hnz]; cbn [negb].
  2:{ apply wp_ret. rewrite (proj2 (Z.eqb_neq _ _)) by done. split; [done|].
      apply (refused_intro x (listed x tv) w tf (mem s)); try done; [auto|apply (q_respond _ _ _ Hq)|by rewrite (q_due _ _ _ Hq)|by rewrite (q_held _ _ _ Hq)|].
      destruct s. cbn in *. subst. by rewrite insert_insert_eq. }
  set (s2 := set_world w _). apply wp_bind. eapply wp_mono.
  { apply (an_submit _ _ _ _ t (listed x tv) h y s2); [apply lookup_insert_eq| |exact Hfresh|cbn; by rewrite (q_due _ _ _ Hq)|cbn; by rewrite (q_held _ _ _ Hq)].
    apply Hlive; [apply lookup_insert_eq|apply Hsync|done|done]. }
  intros r s3 (Hr3 & m & w3 & -> & Ho & Hm & Hpat & Hresp & Hfaulty & Hcase). apply wp_bind.
  assert (set_mem m (set_world w3 s2) = set_mem m (set_world w3 (set_timerfd tf (set_flying_transfers [t]
    (set_transfers (<[t := listed x tv]> (transfers s)) s))))) as Heq by (subst s2 s1; cbn; by rewrite insert_insert_eq).
  destruct (Z.eqb_spec r 0) as [->|Hnz].
  - change (0 =? LIBUSB_SUCCESS) with true. cbv iota. rewrite Heq. destruct Hcase as [Hdue3 _].
    eapply wp_mono.
    { apply (taken_wp x tv w3 tf m s); try done.
      - etrans; [exact Hresp|]. apply (q_respond _ _ _ Hq).
      - intros Hf0. apply Hfaulty, (q_faulty _ _ _ Hq), Hf0. }
    intros [] s4 (Hst & Hu4 & Hq4). apply wp_ret. split; [done|]. change (0 =? 0) with true. cbv iota.
    split; [|split; [exact Hu4|exists tv; split; [|exact Hst]; destruct Htimer as [?|[Hz Hunset]]; [by left|right; by rewrite (Htv Hz)]]]. apply q_patience in Hq4, Hq. cbn in *. lia.
  - destruct Hcase as (Hdue3 & Hheld3 & Hf3). rewrite (proj2 (Z.eqb_neq r LIBUSB_SUCCESS)) by done. rewrite Heq. set (s3 := set_mem m _).
    apply wp_bind. eapply wp_mono; [apply (remove_alone_wp be user_cb o timer t h y (listed x tv) s3)|].
    { apply lookup_insert_eq. } { apply Hlive; [apply lookup_insert_eq|apply Hsync|done|done]. } { done. }
    intros r' s4 Hst. apply wp_ret, wp_ret. rewrite (proj2 (Z.eqb_neq _ _)) by done. split; [done|].
    destruct Hst as (z & z' & w' & tf' & Hz & Hl & -> & Hq' & _). cbn in Hz. rewrite lookup_insert_eq in Hz. injection Hz as <-.
    pose proof (like_fields _ _ Hl) as (_ & Lf & _ & _ & _ & _ & _ & Lb & _). cbn in Hq'.
    apply (refused_intro x z' w' tf' m); try done.
    + by apply (q_faulty _ _ _ Hq').
    + rewrite (q_respond _ _ _ Hq'), Hresp. apply (q_respond _ _ _ Hq).
    + by rewrite (q_due _ _ _ Hq').
    + by rewrite (q_held _ _ _ Hq').
    + rewrite Hm, Hheld3. clear. multiset_solver.
    + destruct s. cbn in *. subst. by rewrite insert_insert_eq.
Qed.
End submission.
