(* ===== verification/PollSpecs.v ===== *)
(** * Specifications of the poll descriptors

    The list of descriptors, its count, and the array that [handle_events]
    hands to [poll]: the invariant and the rules of the functions that change
    them. *)

From S2P Require Import Prelude Heap ParseDesc DescApi Core Devices DeviceRefs Hotplug Transfers TransferSpecs Events Handles EventPipe.

Section pollfds.
Context {W : Type}.
Implicit Types (s : lib W) (e : event_data) (F : gmultiset nat).
(** The notifiers of the application act on [W] only. *)
Variable app_fd : nat -> bool -> Z -> Z -> W -> W.
Definition w_fd_cb (n : nat) (added : bool) (fd events : Z) : Lib W unit :=
  modify (fun s => set_world (app_fd n added fd events (world s)) s).

Definition pfd_blocks (l : list pollfd) : gmultiset nat := msum (fun p => {[+ pfd_block p +]}) l.
Definition poll_entry (p : pollfd) : Z * Z := (pfd_fd p, pfd_events p).

(** The count is that of the list, the blocks are in use, and the array for
    [poll] is that of the list unless the flag says it has to be rebuilt. *)
Record pollfds_inv (F : gmultiset nat) s : Prop := mk_pollfds_inv {
  pf_count : pollfds_cnt (ev s) = Z.of_nat (length (ipollfds (ev s)));
  pf_live : live (mem s) = pfd_blocks (ipollfds (ev s)) ⊎ own (fst <$> pollfds (ev s)) ⊎ F;
  pf_nodup : NoDup (map pfd_block (ipollfds (ev s)));
  pf_fresh : heap_fresh (mem s);
  pf_pipe : pipe_ok (ev s);
  pf_array : has_flag (event_flags (ev s)) USBI_EVENT_POLLFDS_MODIFIED = false ->
    snd <$> pollfds (ev s) = Some (map poll_entry (ipollfds (ev s)))
}.

Lemma modified_flag fl : has_flag (Z.lor fl USBI_EVENT_POLLFDS_MODIFIED) USBI_EVENT_POLLFDS_MODIFIED = true.
Proof. by apply has_flag_lor_r. Qed.

Lemma pfd_block_live p l : p ∈ l -> pfd_block p ∈ pfd_blocks l.
Proof.
  unfold pfd_blocks. induction l as [|q l IH]; simpl; [set_solver|]. rewrite elem_of_cons.
  intros [->|Hp]; [multiset_solver|]. specialize (IH Hp). multiset_solver.
Qed.

(** The list changes, the flag is set, and the event handler is woken; the
    array need not be that of the list before. *)
Lemma fd_notification_wp F' l s :
  heap_fresh (mem s) -> pipe_ok (ev s) ->
  live (mem s) = pfd_blocks l ⊎ own (fst <$> pollfds (ev s)) ⊎ F' -> NoDup (map pfd_block l) ->
  let s0 := set_ev (set_pollfds_cnt (Z.of_nat (length l)) (set_ipollfds l (ev s))) s in
  wp usbi_fd_notification s0 (fun _ s' => pollfds_inv F' s' /\ ipollfds (ev s') = l /\ exists e, s' = set_ev e s /\ pollfds e = pollfds (ev s)).
Proof.
  intros H4 H5 Hl Hnd s0. apply (record_event_wp _ s0); [exact H5|done|]. intros n Hn.
  split; [|split; [done|by eexists; split]]. split; simpl; try done.
  - split; [simpl; lia|done].
  - rewrite modified_flag. done.
Qed.

Lemma fd_cb_wp F cb added fd events s :
  pollfds_inv F s ->
  wp (match cb with Some n => w_fd_cb n added fd events | None => mret tt end) s (fun _ s' =>
    pollfds_inv F s' /\ ev s' = ev s /\ exists w, s' = set_world w s /\ (cb = None -> w = world s)).
Proof.
  intros Hinv. destruct cb as [n|]; [apply wp_modify|apply wp_ret]; (split; [|split; [done|]]).
  - by destruct Hinv.
  - by eexists.
  - done.
  - exists (world s). split; [by destruct s|done].
Qed.

(** What adding a descriptor needs, and what it leaves alone. *)
Record pollfds_pre (F : gmultiset nat) s : Prop := mk_pollfds_pre {
  pre_count : pollfds_cnt (ev s) = Z.of_nat (length (ipollfds (ev s)));
  pre_live : live (mem s) = pfd_blocks (ipollfds (ev s)) ⊎ own (fst <$> pollfds (ev s)) ⊎ F;
  pre_nodup : NoDup (map pfd_block (ipollfds (ev s)));
  pre_fresh : heap_fresh (mem s);
  pre_pipe : pipe_ok (ev s)
}.
Definition events_only s s' : Prop := exists e h w, s' = set_ev e (set_mem h (set_world w s)) /\
  pollfds e = pollfds (ev s) /\
  (fd_added_cb s = None -> fd_removed_cb s = None -> w = world s).

Lemma pollfds_inv_pre F s : pollfds_inv F s -> pollfds_pre F s.
Proof. by intros []. Qed.
#[local] Instance events_only_trans : Transitive events_only.
Proof.
  intros s1 s2 s3 (e1 & h1 & w1 & -> & Hp1 & Hw1) (e2 & h2 & w2 & -> & Hp2 & Hw2). exists e2, h2, w2.
  split; [done|]. split; [by rewrite Hp2|].
  simpl in Hw2. intros Ha Hr. rewrite Hw2 by done. by apply Hw1.
Qed.

Lemma add_pollfd_pre_wp F fd events s :
  pollfds_pre F s ->
  wp (usbi_add_pollfd w_fd_cb fd events) s (fun r s' => events_only s s' /\
    if r =? 0 then pollfds_inv F s' /\ exists b, ipollfds (ev s') = ipollfds (ev s) ++ [mk_pollfd b fd events]
    else r = LIBUSB_ERROR_NO_MEM /\ exists h, s' = set_mem h s /\ live h = live (mem s) /\ same_oracles (mem s) h).
Proof.
  intros [H1 H2 H3 H4 H5]. unfold usbi_add_pollfd. apply wp_bind, wp_on_mem.
  eapply malloc_fresh_wp; [exact H2|done| |].
  2:{ intros h Hl Ho _. apply wp_ret. split; [exists (ev s), h, (world s); split; [by destruct s|by split]|]. split; [done|].
      exists h. split; [done|]. split; [by rewrite Hl|done]. }
  intros b h Hl Ho Hb. apply wp_bind, wp_modify. set (p := mk_pollfd b fd events).
  assert (length (ipollfds (ev s) ++ [p]) = S (length (ipollfds (ev s)))) as Hlen by (rewrite length_app; simpl; lia).
  replace (set_pollfds_cnt _ _) with (set_pollfds_cnt (Z.of_nat (length (ipollfds (ev s) ++ [p])))
    (set_ipollfds (ipollfds (ev s) ++ [p]) (ev (set_mem h s)))) by (rewrite Hlen; simpl; f_equal; lia).
  change (set_ev ?e ?s0) with (set_ev e s0).
  apply wp_bind. eapply wp_mono; [apply (fd_notification_wp F _ (set_mem h s))|].
  - simpl. by apply Ho.
  - exact H5.
  - simpl. rewrite Hl. unfold pfd_blocks. rewrite msum_app. simpl. multiset_solver.
  - rewrite map_app. apply NoDup_app. split; [done|]. split; [|apply NoDup_singleton].
    intros q Hq Hin. apply list_elem_of_singleton in Hin as ->. apply Hb.
    apply list_elem_of_fmap in Hq as (p' & Heq & Hp'). apply pfd_block_live in Hp'. simpl in Heq. subst b. multiset_solver.
  - intros [] s1 (Hinv2 & Hi & e1 & -> & Hp1). apply wp_bind, wp_gets, wp_bind.
    eapply wp_mono; [by apply (fd_cb_wp F)|]. intros [] s2 (Hinv3 & He & w2 & -> & Hw2). apply wp_ret.
    split; [exists e1, h, w2; split; [by destruct s|]; split; [done|]; intros Ha _; by apply Hw2|]. split; [done|]. exists b. rewrite He. exact Hi.
Qed.

Lemma add_pollfd_wp F fd events s :
  pollfds_inv F s ->
  wp (usbi_add_pollfd w_fd_cb fd events) s (fun r s' => pollfds_inv F s' /\
    if r =? 0 then exists b, ipollfds (ev s') = ipollfds (ev s) ++ [mk_pollfd b fd events]
    else r = LIBUSB_ERROR_NO_MEM /\ ipollfds (ev s') = ipollfds (ev s)).
Proof.
  intros Hinv. eapply wp_mono; [by apply add_pollfd_pre_wp, pollfds_inv_pre|]. intros r s' [_ Hr].
  destruct (r =? 0); [done|]. destruct Hr as (-> & h & -> & Hl & Ho). split; [|done].
  destruct Hinv. split; simpl; try done; [by rewrite Hl|by apply Ho].
Qed.

Lemma find_split (l : list pollfd) fd p :
  find (fun q => pfd_fd q =? fd) l = Some p -> NoDup (map pfd_block l) ->
  exists l1 l2, l = l1 ++ p :: l2 /\ pfd_fd p = fd /\ Forall (fun q => pfd_fd q <> fd) l1 /\
    filter (fun q => pfd_block q <> pfd_block p) l = l1 ++ l2.
Proof.
  intros Hf Hnd. assert (exists l1 l2, l = l1 ++ p :: l2 /\ pfd_fd p = fd /\ Forall (fun q => pfd_fd q <> fd) l1)
    as (l1 & l2 & -> & Hfd & Hl1).
  { clear Hnd. induction l as [|a l IH]; [done|]. simpl in Hf. destruct (Z.eqb_spec (pfd_fd a) fd) as [Ha|Ha].
    - simplify_eq. by exists [], l.
    - destruct (IH Hf) as (l1 & l2 & -> & ? & ?). exists (a :: l1), l2. split; [done|]. split; [done|]. by constructor. }
  exists l1, l2. split; [done|]. split; [done|]. split; [done|].
  assert (forall l : list pollfd, (forall a, a ∈ l -> pfd_block a <> pfd_block p) ->
    filter (fun q => pfd_block q <> pfd_block p) l = l) as Hid.
  { induction l as [|a l IH]; intros Hl; [done|]. rewrite filter_cons_True by (apply Hl; set_solver).
    rewrite IH; [done|]. intros; apply Hl; set_solver. }
  rewrite map_app, NoDup_app in Hnd. destruct Hnd as (_ & Hd1 & Hd2). simpl in *. apply NoDup_cons in Hd2 as [Hd2 _].
  rewrite filter_app, filter_cons_False by tauto. rewrite !Hid; [done| |].
  - intros a Ha Heq. apply Hd2. rewrite <- Heq. by apply list_elem_of_fmap_2.
  - intros a Ha Heq. eapply (Hd1 (pfd_block a)); [by apply list_elem_of_fmap_2|]. rewrite Heq. set_solver.
Qed.

Lemma remove_pollfd_wp F fd s :
  pollfds_inv F s ->
  wp (usbi_remove_pollfd w_fd_cb fd) s (fun _ s' => pollfds_inv F s' /\ events_only s s' /\
    match find (fun p => pfd_fd p =? fd) (ipollfds (ev s)) with
    | None => s' = s
    | Some p => exists l1 l2, ipollfds (ev s) = l1 ++ p :: l2 /\ ipollfds (ev s') = l1 ++ l2 /\
        Forall (fun q => pfd_fd q <> fd) l1
    end).
Proof.
  intros Hinv. pose proof Hinv as [H1 H2 H3 H4 H5 H6]. unfold usbi_remove_pollfd. apply wp_bind, wp_gets.
  destruct (find (fun p => pfd_fd p =? fd) (ipollfds (ev s))) as [p|] eqn:Hf; [|apply wp_ret; split; [done|]; split; [exists (ev s), (mem s), (world s); split; [by destruct s|by split]|done]].
  destruct (find_split _ _ _ Hf H3) as (l1 & l2 & Hl & Hfd & Hl1 & ->). apply wp_bind, wp_modify.
  assert (pollfds_cnt (ev s) - 1 = Z.of_nat (length (l1 ++ l2))) as ->
    by (rewrite H1, Hl, !length_app; simpl; lia).
  apply wp_bind. eapply wp_mono; [apply (fd_notification_wp ({[+ pfd_block p +]} ⊎ F) (l1 ++ l2) s); [done|done| |]|].
  - rewrite H2, Hl. unfold pfd_blocks. rewrite !msum_app. simpl. multiset_solver.
  - rewrite Hl, map_app in H3. rewrite map_app. simpl in H3. apply NoDup_app in H3 as (K1 & K2 & K3).
    apply NoDup_cons in K3 as [_ K3]. apply NoDup_app. split; [done|]. split; [|done].
    intros x Hx Hx2. eapply K2; [done|]. set_solver.
  - intros [] s1 (Hinv1 & Hi & e1 & -> & Hp1). apply wp_bind, wp_on_mem. pose proof Hinv1 as [J1 J2 J3 J4 J5 J6].
    apply (free_wp _ _ (pfd_blocks (ipollfds (ev (set_ev e1 s))) ⊎ own (fst <$> pollfds (ev (set_ev e1 s))) ⊎ F)); [rewrite J2; simpl; multiset_solver|].
    intros h Hh Ho. apply wp_bind, wp_gets. eapply wp_mono; [apply (fd_cb_wp F)|].
    + split; simpl; try done. by apply Ho.
    + intros [] s2 (Hinv2 & He & w2 & -> & Hw2). split; [done|].
      split; [exists e1, h, w2; split; [by destruct s|]; split; [done|]; intros _ Hr; by apply Hw2|]. exists l1, l2. split; [done|]. split; [|done]. rewrite He. exact Hi.
Qed.

Lemma refresh_pollfds_wp F k s :
  pollfds_inv F s -> k <= Z.of_nat (length (ipollfds (ev s))) ->
  wp (refresh_pollfds k) s (fun ok s' => pollfds_inv F s' /\ ipollfds (ev s') = ipollfds (ev s) /\
    if ok : bool then snd <$> pollfds (ev s') = Some (map poll_entry (ipollfds (ev s))) else ~ no_malloc_failure (mem s)).
Proof.
  intros Hinv Hk. pose proof Hinv as [H1 H2 H3 H4 H5 H6]. unfold refresh_pollfds. apply wp_bind, wp_gets.
  destruct (has_flag (event_flags (ev s)) USBI_EVENT_POLLFDS_MODIFIED) eqn:Hfl; cbn [negb].
  2:{ apply wp_ret. split; [done|]. split; [done|]. by apply H6. }
  assert (0 < pipe_bytes (ev s)) as Hpos.
  { apply H5. unfold usbi_pending_events, has_flag in *.
    destruct (Z.eqb_spec (event_flags (ev s)) 0) as [Hz|]; [|done]. rewrite Hz in Hfl. done. }
  apply wp_bind. eapply (wp_mono _ _ (fun _ s1 => exists h, s1 = set_mem h s /\
    live h = pfd_blocks (ipollfds (ev s)) ⊎ F /\ same_oracles (mem s) h)).
  { destruct (pollfds (ev s)) as [[b fds]|]; simpl in H2.
    - apply wp_on_mem, (free_wp _ _ (pfd_blocks (ipollfds (ev s)) ⊎ F)); [rewrite H2; simpl; multiset_solver|].
      intros h Hh Ho. by exists h.
    - apply wp_ret. exists (mem s). split; [by destruct s|]. split; [rewrite H2; multiset_solver|done]. }
  intros [] s1 (h & -> & Hl & Ho). apply wp_bind, wp_modify. rewrite (proj2 (Z.ltb_ge _ _)) by lia.
  apply wp_bind, wp_on_mem. apply (malloc_fresh_wp _ (pfd_blocks (ipollfds (ev s)) ⊎ F)); [exact Hl|by apply Ho| |].
  2:{ intros h2 Hl2 Ho2 Hoom. apply wp_ret. split; [|split; [done|]].
      - split; simpl; try done; [rewrite Hl2; multiset_solver|by apply Ho2, Ho|congruence].
      - intros Hn. apply Hoom. simpl. by eapply no_malloc_failure_same. }
  intros b h2 Hl2 Ho2 _. rewrite H1, Nat2Z.id, decide_True by done. rewrite Nat.sub_diag. simpl replicate.
  rewrite app_nil_r. apply wp_bind, wp_modify, wp_bind. apply clear_if_idle_wp; [done|].
  intros n Hn. apply wp_ret. split; [|by split]. split; simpl; try done.
  - rewrite Hl2. multiset_solver.
  - by apply Ho2, Ho.
Qed.
End pollfds.
