(* ===== verification/Ctx.v ===== *)
(** * Contexts (core.c)

    Start and end of the library.  The other files work inside one context;
    here there are several, which share the memory, the backend and the
    counter of hotplug callbacks, next to the default context with the number
    of its users and the list of active contexts. *)

From S2P Require Import Prelude Heap ParseDesc DescApi Core Devices DeviceRefs Hotplug Transfers Events EventPipe.

Record libusb (W : Type) : Type := mk_libusb {
  all_mem : heap;
  all_world : W;
  handle_id : Z;
  contexts : gmap nat (lib W);
  usbi_default_context : option nat;
  default_context_refcnt : Z;
  active_contexts_list : list nat
}.
Arguments mk_libusb {W}.
Arguments all_mem {W}.
Arguments all_world {W}.
Arguments handle_id {W}.
Arguments contexts {W}.
Arguments usbi_default_context {W}.
Arguments default_context_refcnt {W}.
Arguments active_contexts_list {W}.

Definition set_contexts {W} (v : gmap nat (lib W)) (g : libusb W) : libusb W :=
  mk_libusb (all_mem g) (all_world g) (handle_id g) v (usbi_default_context g) (default_context_refcnt g) (active_contexts_list g).
Definition set_default {W} (ctx : option nat) (n : Z) (g : libusb W) : libusb W :=
  mk_libusb (all_mem g) (all_world g) (handle_id g) (contexts g) ctx n (active_contexts_list g).
Definition set_active {W} (v : list nat) (g : libusb W) : libusb W :=
  mk_libusb (all_mem g) (all_world g) (handle_id g) (contexts g) (usbi_default_context g) (default_context_refcnt g) v.

(** What [calloc] and the first assignments of [libusb_init] make of a
    context. *)
Definition new_context {W} (h : heap) (id : Z) (w : W) (debug : Z) (debug_fixed : bool) : lib W :=
  mk_lib h ∅ ∅ ∅ [] [] [] [] (mk_ev 0 0 [] [] [] 0 None 0) false false false None id ∅ (0, 0) 0 false None None
    debug debug_fixed w.

Section ctx.
Context {W : Type} (be : os_backend W) (big : bool).
Variable hotplug_fn : nat -> option nat -> Z -> Lib W Z.
Variable fd_cb : nat -> bool -> Z -> Z -> Lib W unit.
Abbreviation G := (M (libusb W)).

(** The context [ctx] with what all contexts share. *)
Definition in_context {A} (ctx : nat) (op : Lib W A) : G A := fun g =>
  match contexts g !! ctx with
  | None => Fault UseAfterFree
  | Some s =>
      match op (set_next_cb_handle (handle_id g) (set_world (all_world g) (set_mem (all_mem g) s))) with
      | Fault f => Fault f
      | Ok (a, s) =>
          Ok (a, mk_libusb (mem s) (world s) (next_cb_handle s) (<[ctx := s]> (contexts g))
                   (usbi_default_context g) (default_context_refcnt g) (active_contexts_list g))
      end
  end.
Definition on_all_mem {A} (m : M heap A) : G A := fun g =>
  match m (all_mem g) with
  | Ok (a, h) => Ok (a, mk_libusb h (all_world g) (handle_id g) (contexts g) (usbi_default_context g)
                          (default_context_refcnt g) (active_contexts_list g))
  | Fault f => Fault f
  end.

(** Every device leaves the list and loses the reference that the list held.
    The list still refers to the entries that follow, so that none of them is
    released meanwhile. *)
Definition drop_devices : Lib W unit :=
  l ← gets usb_devs;
  for_each (fun d =>
    l ← gets usb_devs;
    l ← lift (list_del d l);
    modify (set_usb_devs l) ;;
    libusb_unref_device be (Some d)) l.

Definition leave_active (ctx : nat) : G unit :=
  g ← get;
  l ← lift (list_del ctx (active_contexts_list g));
  modify (set_active l).
(** [free(ctx)] *)
Definition free_context (ctx : nat) : G unit :=
  on_all_mem (free (Some ctx)) ;;
  modify (fun g => set_contexts (delete ctx (contexts g)) g).

(** The label [err_free_ctx]. *)
Definition abandon_context (ctx : nat) : G unit :=
  g ← get;
  (if bool_decide (usbi_default_context g = Some ctx)
   then modify (set_default None (default_context_refcnt g - 1)) else mret tt) ;;
  leave_active ctx ;;
  in_context ctx drop_devices ;;
  free_context ctx.

Definition run_backend_exit : Lib W unit := match be_exit be with Some exit => exit | None => mret tt end.

(** [context]: whether the caller wants the context; [dbg]: the number in the
    environment variable LIBUSB_DEBUG.  Returns the code and [*context]. *)
Definition libusb_init (context : bool) (dbg : option Z) : G (Z * option nat) :=
  g ← get;
  if negb context && bool_decide (is_Some (usbi_default_context g)) then
    modify (set_default (usbi_default_context g) (default_context_refcnt g + 1)) ;;
    mret (0, None)
  else
    p ← on_all_mem malloc;
    match p with
    | None => mret (LIBUSB_ERROR_NO_MEM, None)
    | Some ctx =>
        let debug := default 0 dbg in
        modify (fun g => set_contexts
          (<[ctx := new_context (all_mem g) (handle_id g) (all_world g) debug (negb (debug =? 0))]> (contexts g)) g) ;;
        (match usbi_default_context g with
         | None => modify (set_default (Some ctx) (default_context_refcnt g + 1))
         | Some _ => mret tt
         end) ;;
        modify (fun g => set_active (ctx :: active_contexts_list g) g) ;;
        r ← (match be_init be with Some init => in_context ctx init | None => mret 0 end);
        if negb (r =? 0) then abandon_context ctx ;; mret (r, None) else
        r ← in_context ctx (usbi_io_init be fd_cb);
        if r <? 0 then in_context ctx run_backend_exit ;; abandon_context ctx ;; mret (r, None)
        else mret (0, if context then Some ctx else None)
    end.

(** The part of [libusb_exit] for backends with hotplug support. *)
Definition exit_hotplug (fuel : nat) : Lib W unit :=
  usbi_hotplug_deregister_all ;;
  od ← gets open_devs;
  (match od with
   | [] => libusb_handle_events_timeout be big hotplug_fn fuel (mk_tv 0 0) ;; mret tt
   | _ => mret tt
   end) ;;
  drop_devices.

(** A null pointer stands for the default context. *)
Definition libusb_exit (fuel : nat) (ctx : option nat) : G unit :=
  g ← get;
  match (match ctx with Some c => Some c | None => usbi_default_context g end) with
  | None => fail NullDeref
  | Some c =>
      let is_default := bool_decide (usbi_default_context g = Some c) in
      let n := default_context_refcnt g - 1 in
      if is_default && (0 <? n) then modify (set_default (Some c) n)
      else
        (if is_default then modify (set_default None n) else mret tt) ;;
        leave_active c ;;
        (if has_hotplug be then in_context c (exit_hotplug fuel) else mret tt) ;;
        in_context c (usbi_io_exit be fd_cb) ;;
        in_context c run_backend_exit ;;
        free_context c
  end.
End ctx.
