(* ===== verification/DeviceProps.v ===== *)
(** * Properties of devices and references *)

From S2P Require Import Prelude Heap ParseDesc DescApi Core Devices DeviceRefs Demo.

(** C2: reference counting is sound.  Whatever sequence of referencing,
    unreferencing and listing clients run, as long as each only drops
    references it holds, every operation returns (no access to a released
    device, no double free, and the recursion of [libusb_unref_device] over
    the parents ends), whichever allocations fail; the count of every device
    stays the number of the references to it, a device with references is
    alive, and when the last reference is gone all devices are released. *)
Theorem device_references_sound {W : Type} (be : os_backend W) (ops : list client_op) (F B C C' : gmultiset nat)
    (s : lib W) (Hlist : be_get_device_list be = None) (Hpoll : be_hotplug_poll be = None)
    (Hok : client_ok be F B C s) (Hops : client_refs_all C ops = Some C') :
  exists s', for_each (run_client_op be) ops s = Ok (tt, s') /\ client_ok be F B C' s' /\
    (forall d, d ∈ B ⊎ C' -> is_Some (devices s' !! d)) /\
    (B ⊎ C' = ∅ -> devices s' = ∅ /\ live (mem s') = F).
Proof.
  pose proof (client_ops_wp be ops F B C C' s Hlist Hpoll Hok Hops) as Hrun.
  apply wp_ok in Hrun as ([] & s' & Hrun & Hok'). exists s'. split; [done|]. split; [done|].
  destruct Hok' as [Hdev HB]. split; [intros d; by eapply devices_ok_live|].
  intros Hnone. rewrite Hnone in Hdev. destruct Hdev as (Hrefs & Hl & _).
  apply refs_ok_empty in Hrefs as Hd. split; [done|]. rewrite Hl, Hd. unfold blocks. rewrite map_sum_empty.
  by rewrite (left_id_L ∅ (⊎)).
Qed.

Lemma device_references_sound_witness :
  exists s', for_each (run_client_op demo_backend)
      [ClientList; ClientRef 1%nat; ClientUnref 1%nat; ClientUnref 1%nat; ClientUnref 0%nat] demo_two = Ok (tt, s') /\
    client_ok demo_backend ∅ {[+ 0%nat; 1%nat +]} ∅ s' /\
    (forall d, d ∈ {[+ 0%nat; 1%nat +]} ⊎ (∅ : gmultiset nat) -> is_Some (devices s' !! d)) /\
    ({[+ 0%nat; 1%nat +]} ⊎ (∅ : gmultiset nat) = ∅ -> devices s' = ∅ /\ live (mem s') = ∅).
Proof.
  apply (device_references_sound demo_backend _ ∅ {[+ 0%nat; 1%nat +]} {[+ 0%nat; 1%nat +]} ∅ demo_two); [done|done| |by vm_compute].
  split; [|intros d Hd; vm_compute in Hd; set_solver].
  replace ({[+ 0%nat; 1%nat +]} ⊎ {[+ 0%nat; 1%nat +]}) with ({[+ 0%nat; 0%nat; 1%nat; 1%nat +]} : gmultiset nat) by multiset_solver.
  exact demo_devices_ok.
Defined.

(** ** The device list *)

(** [libusb_get_device_list] returns the known devices in order, their
    number, and one new reference on each; when an allocation fails, at
    whatever point, it returns [LIBUSB_ERROR_NO_MEM] and has released every
    reference and block it had taken.  Freeing the list gives the
    references and the block back. *)
Theorem device_list_complete {W : Type} (be : os_backend W) (E F : gmultiset nat) (s : lib W)
    (Hlist : be_get_device_list be = None) (Hpoll : be_hotplug_poll be = None)
    (Hok : devices_ok be F E s) (Hknown : forall d, d ∈ usb_devs s -> d ∈ E) :
  exists r l s', libusb_get_device_list be s = Ok ((r, l), s') /\
    match l with
    | None => r = LIBUSB_ERROR_NO_MEM /\ devices_ok be F E s'
    | Some (b, devs) => r = Z.of_nat (length devs) /\ devs = usb_devs s /\
        devices_ok be ({[+ b +]} ⊎ F) (list_refs devs ⊎ E) s' /\
        exists s'', libusb_free_device_list be (Some (b, devs)) true s' = Ok (tt, s'') /\ devices_ok be F E s''
    end.
Proof.
  pose proof (get_device_list_wp be E F s Hlist Hpoll Hok Hknown) as Hrun.
  apply wp_ok in Hrun as ([r l] & s' & Hrun & Hpost & _). exists r, l, s'. split; [done|].
  destruct l as [[b devs]|]; simpl in Hpost; [|done]. destruct Hpost as (-> & Hdevs & Hok').
  split; [done|]. split; [done|]. split; [done|].
  pose proof (free_device_list_wp be b devs E F s' Hok') as Hfree.
  apply wp_ok in Hfree as ([] & s'' & Hfree & Hok'' & _). eauto.
Qed.

Lemma device_list_complete_witness :
  exists r l s', libusb_get_device_list demo_backend demo_two = Ok ((r, l), s') /\
    match l with
    | None => r = LIBUSB_ERROR_NO_MEM /\ devices_ok demo_backend ∅ {[+ 0%nat; 0%nat; 1%nat; 1%nat +]} s'
    | Some (b, devs) => r = Z.of_nat (length devs) /\ devs = [1; 0]%nat /\
        devices_ok demo_backend ({[+ b +]} ⊎ ∅) (list_refs devs ⊎ {[+ 0%nat; 0%nat; 1%nat; 1%nat +]}) s' /\
        exists s'', libusb_free_device_list demo_backend (Some (b, devs)) true s' = Ok (tt, s'') /\
          devices_ok demo_backend ∅ {[+ 0%nat; 0%nat; 1%nat; 1%nat +]} s''
    end.
Proof.
  apply (device_list_complete demo_backend _ ∅ demo_two); [done|done|exact demo_devices_ok|].
  intros d Hd. change (d ∈ [1; 0]%nat) in Hd. rewrite !elem_of_cons in Hd. destruct Hd as [->|[->|Hd]];
    [multiset_solver|multiset_solver|by apply elem_of_nil in Hd].
Defined.

(** ** Port numbers *)

(** The ports from the root hub, which has number 0, down to a device. *)
Inductive port_path (m : gmap nat device) : option nat -> list Z -> Prop :=
| PathEnd : port_path m None []
| PathRoot d x : m !! d = Some x -> port_number x = 0 -> port_path m (Some d) []
| PathStep d x l : m !! d = Some x -> port_number x <> 0 -> port_path m (parent_dev x) l ->
    port_path m (Some d) (l ++ [port_number x]).

Lemma port_numbers_loop_eq {W} (s : lib W) dev l i p :
  port_path (devices s) dev l -> (i <= length p)%nat ->
  if (length l <=? i)%nat
  then port_numbers_loop i dev p s = Ok ((0, (i - length l)%nat, take (i - length l) p ++ l ++ drop i p), s)
  else exists p', length p' = length p /\ port_numbers_loop i dev p s = Ok ((LIBUSB_ERROR_OVERFLOW, O, p'), s).
Proof.
  intros Hpath. revert i p. induction Hpath as [|d x Hd Hx|d x l Hd Hx Hpath IH]; intros i p Hi.
  - simpl. rewrite Nat.sub_0_r, take_drop. by destruct i.
  - simpl. rewrite Nat.sub_0_r, take_drop.
    destruct i; simpl; unfold get_device, lookup_obj, mbind, M_bind; rewrite Hd, Hx; done.
  - rewrite length_app. simpl length.
    destruct i as [|i]; cbn [port_numbers_loop]; unfold get_device, lookup_obj, lift; unfold mbind, M_bind.
    { rewrite (proj2 (Nat.leb_gt _ _)) by lia. exists p. split; [done|]. rewrite Hd.
      by rewrite (proj2 (Z.eqb_neq _ _) Hx). }
    rewrite Hd, (proj2 (Z.eqb_neq _ _) Hx).
    unfold store. rewrite decide_True by (simpl; lia). cbn [length].
    assert (length (take i p ++ [port_number x] ++ drop (i + 1) p) = length p) as Hlen
      by (rewrite !length_app, length_take, length_drop; simpl; lia).
    assert (length (take i p) = i) as Hti by (rewrite length_take; lia).
    specialize (IH i (take i p ++ [port_number x] ++ drop (i + 1) p)). rewrite Hlen in IH. specialize (IH ltac:(lia)).
    replace (length l + 1 <=? S i)%nat with (length l <=? i)%nat
      by (destruct (Nat.leb_spec (length l) i), (Nat.leb_spec (length l + 1) (S i)); lia).
    destruct (length l <=? i)%nat eqn:Hle; [|exact IH]. apply Nat.leb_le in Hle. rewrite IH.
    replace (S i - (length l + 1))%nat with (i - length l)%nat by lia. do 3 f_equal.
    rewrite take_app_le by lia. rewrite take_take, Nat.min_l by lia.
    rewrite drop_app_length' by done. rewrite <- !app_assoc. simpl. by rewrite Nat.add_1_r.
Qed.

(** [libusb_get_port_numbers] stores the ports on the way from the root
    hub to the device, in that order, at the start of the caller's array and
    returns how many there are; a way longer than the array is reported as
    [LIBUSB_ERROR_OVERFLOW].  It writes nowhere else, changes no device and
    ends for every device whose chain of parents is finite. *)
Theorem port_numbers_path {W : Type} (s : lib W) (d : nat) (path port_numbers : list Z) (port_numbers_len : Z)
    (Hlen : 0 < port_numbers_len <= Z.of_nat (length port_numbers))
    (Hpath : port_path (devices s) (Some d) path) :
  exists r p, libusb_get_port_numbers d port_numbers port_numbers_len s = Ok ((r, p), s) /\
    length p = length port_numbers /\
    if Z.of_nat (length path) <=? port_numbers_len
    then r = Z.of_nat (length path) /\ take (length path) p = path
    else r = LIBUSB_ERROR_OVERFLOW.
Proof.
  unfold libusb_get_port_numbers. rewrite (proj2 (Z.leb_gt _ _)) by lia.
  set (n := Z.to_nat port_numbers_len).
  pose proof (port_numbers_loop_eq s (Some d) path n port_numbers Hpath ltac:(lia)) as Hloop.
  destruct (Nat.leb_spec (length path) n) as [Hle|Hgt].
  2:{ destruct Hloop as (p & Hp & Hloop). exists LIBUSB_ERROR_OVERFLOW, p. unfold mbind, M_bind. rewrite Hloop.
      split; [done|]. split; [done|]. by rewrite (proj2 (Z.leb_gt _ _)) by lia. }
  unfold mbind, M_bind. rewrite Hloop. cbn [Z.ltb Z.compare]. rewrite (proj2 (Z.leb_le (Z.of_nat _) _)) by lia.
  set (p := take (n - length path) port_numbers ++ path ++ drop n port_numbers).
  assert (length (take (n - length path) port_numbers) = (n - length path)%nat) as Ht by (rewrite length_take; lia).
  assert (length p = length port_numbers) as Hp by (unfold p; rewrite !length_app, Ht, length_drop; lia).
  destruct (Nat.ltb_spec (n - length path) n) as [Hlt|Hge].
  - unfold lift, rd_n. rewrite length_drop, decide_True by lia. cbn [mbind outcome_bind].
    replace (n - (n - length path))%nat with (length path) by lia.
    assert (take (length path) (drop (n - length path) p) = path) as ->.
    { unfold p. rewrite drop_app_length' by done. by rewrite take_app_length' by done. }
    unfold store. rewrite decide_True by lia. eexists _, _. split; [done|]. split; [|split; [done|]].
    + rewrite !length_app, length_drop. simpl. lia.
    + simpl. by rewrite take_app_length.
  - assert (length path = O) as Hnil by lia. exists 0, p. unfold lift. rewrite Hnil.
    cbn [mret outcome_ret]. replace (n - (n - 0))%nat with O by lia. destruct path; done.
Qed.

Lemma port_numbers_path_witness :
  exists r p, libusb_get_port_numbers 1 [9; 9; 9] 3 demo_two = Ok ((r, p), demo_two) /\ length p = 3%nat /\
    if Z.of_nat (length [4]) <=? 3 then r = 1 /\ take 1 p = [4] else r = LIBUSB_ERROR_OVERFLOW.
Proof.
  apply (port_numbers_path demo_two 1 [4] [9; 9; 9] 3); [simpl; lia|].
  apply (PathStep demo_devices 1 demo_dev []); [done|done|]. by apply (PathRoot demo_devices 0 demo_hub).
Defined.
