(* ===== verification/TransferProps.v ===== *)
(** * Properties of asynchronous transfers *)

From S2P Require Import Prelude Heap ParseDesc DescApi Core Devices DeviceRefs Transfers TransferSpecs Demo.
From Stdlib Require Import Sorted.

(** ** The example state *)

Lemma demo_flying_ok : flying_ok demo_io.
Proof.
  assert (forall t, t ∈ flying_transfers demo_io -> t = 6%nat \/ t = 7%nat) as Hin.
  { intros t Ht. change (t ∈ [6; 7]%nat) in Ht. rewrite !elem_of_cons, elem_of_nil in Ht. tauto. }
  split.
  - intros t Ht. destruct (Hin t Ht) as [-> | ->]; by eexists.
  - by apply (bool_decide_unpack _).
  - intros t Ht. destruct (Hin t Ht) as [-> | ->]; by vm_compute.
  - repeat constructor. intros Hset. vm_compute in Hset. done.
Qed.

Lemma demo_io_ok E : E = {[+ 1%nat; 1%nat; 1%nat +]} -> devices_ok demo_backend demo_io_blocks E demo_io.
Proof.
  intros ->. split; [|split; [by vm_compute|done]]. split; [|split].
  - assert (map_Forall (fun d x => refcnt x = Z.of_nat (multiplicity d
      ({[+ 1%nat; 1%nat; 1%nat +]} ⊎ parent_refs (devices demo_io))) /\ 0 < refcnt x) (devices demo_io)) as H; [|exact H].
    eapply bool_decide_unpack. vm_compute. exact I.
  - assert (set_Forall (fun d => is_Some (devices demo_io !! d))
      (dom ({[+ 1%nat; 1%nat; 1%nat +]} ⊎ parent_refs (devices demo_io)))) as H.
    { eapply bool_decide_unpack. vm_compute. exact I. }
    intros d Hd. apply H. by apply gmultiset_elem_of_dom.
  - exists (fun n => n). intros d x p Hd Hp. unfold demo_io in Hd; cbn [devices set_devices] in Hd. apply lookup_singleton_Some in Hd as [<- <-]. done.
Qed.

Lemma demo_clock_ok : clock_ok demo_backend.
Proof.
  intros w. simpl. right. pose proof (Z.mod_pos_bound (Z.abs (demo_now w)) 1000000000 ltac:(lia)).
  split; [done|]. split; [apply Z.div_pos; lia|lia].
Qed.

(** ** Deadlines *)

(** The deadline of a transfer is the time of its submission plus its
    timeout, rounded down to microseconds, in normal form; the loop that
    carries nanoseconds over to seconds ends. *)
Theorem deadline_correct (now : timespec) (timeout : Z)
    (Hsec : 0 <= ts_sec now) (Hnsec : 0 <= ts_nsec now < 1000000000) (Htimeout : 0 <= timeout) :
  exists tv, deadline now timeout = Ok tv /\ 0 <= tv_usec tv < 1000000 /\
    tv_sec tv * 1000000 + tv_usec tv = (ts_sec now * 1000000000 + ts_nsec now + timeout * 1000000) / 1000.
Proof.
  destruct (deadline_ok now timeout Hsec Hnsec Htimeout) as (tv & Hrun & [_ Hu] & Hv). by exists tv.
Qed.

Lemma deadline_correct_witness :
  exists tv, deadline (mk_ts 9 999999999) 2500 = Ok tv /\ 0 <= tv_usec tv < 1000000 /\
    tv_sec tv * 1000000 + tv_usec tv = (9 * 1000000000 + 999999999 + 2500 * 1000000) / 1000.
Proof. apply (deadline_correct (mk_ts 9 999999999) 2500); simpl; lia. Defined.

(** ** Submission *)

Lemma demo_submit_contract : SubmitContract demo_backend.
Proof.
  intros t x h y s _ _ _ _ _. apply wp_backend_op. intros r w _. exists (mem s), w, ∅.
  split; [by destruct s|]. split; [done|]. split; [by rewrite gmultiset_disj_union_left_id|done].
Qed.

(** C11: [libusb_submit_transfer] puts a transfer that is not in flight on
    the list of transfers in flight, after every transfer whose deadline is
    not later than its own, so that the list stays ordered by deadline with
    the transfers without a timeout at the end; it marks the transfer and
    takes a reference on the device.  When anything fails (the clock, the
    timer, the backend) the list is as before and no reference is kept.  The
    backend may keep blocks [B] of its own when it takes the transfer. *)
Theorem submit_transfer {W : Type} (be : os_backend W) (t h : nat) (x : transfer)
    (y : device_handle) (F E : gmultiset nat) (s : lib W)
    (Hsubmit : SubmitContract be) (Hclock : clock_ok be) (Hfit : packets_fit x) (Hfresh : heap_fresh (mem s))
    (Hfl : flying_ok s) (Ht : transfers s !! t = Some x) (Hlive : transfer_live s x h y)
    (Hnot : t ∉ flying_transfers s) (Hto : 0 <= t_timeout x) (Htv : tv_ok (it_timeout x))
    (Hok : devices_ok be F E s) (Hidle : has_flag (it_state_flags x) USBI_TRANSFER_IN_FLIGHT = false) :
  exists r s', libusb_submit_transfer be t s = Ok (r, s') /\ flying_ok s' /\
    if r =? 0
    then exists l1 l2 tv now B, flying_transfers s = l1 ++ l2 /\ flying_transfers s' = l1 ++ t :: l2 /\
      new_deadline x now tv /\
      transfers s' = <[t := set_it_state_flags USBI_TRANSFER_IN_FLIGHT (set_it_timeout tv (cleared_transfer x))]> (transfers s) /\
      devices_ok be (B ⊎ F) ({[+ h_dev y +]} ⊎ E) s'
    else flying_transfers s' = flying_transfers s /\ devices_ok be F E s' /\ in_flight_on s' h t = false.
Proof.
  pose proof (submit_wp be t x h y F E s Hclock Hfl Ht Hlive Hnot Hto Htv Hfit Hfresh Hok Hidle) as Hrun.
  apply wp_ok in Hrun as (r & s' & Hrun & Hpost). by exists r, s'.
Qed.

Lemma submit_transfer_witness :
  exists r s', libusb_submit_transfer demo_backend 8 demo_io = Ok (r, s') /\ flying_ok s' /\
    if r =? 0
    then exists l1 l2 tv now B, [6; 7]%nat = l1 ++ l2 /\ flying_transfers s' = l1 ++ 8%nat :: l2 /\
      new_deadline (demo_transfer 250 (mk_tv 0 0) 0) now tv /\
      transfers s' = <[8%nat := set_it_state_flags USBI_TRANSFER_IN_FLIGHT
        (set_it_timeout tv (cleared_transfer (demo_transfer 250 (mk_tv 0 0) 0)))]> (transfers demo_io) /\
      devices_ok demo_backend (B ⊎ demo_io_blocks) ({[+ 1%nat +]} ⊎ {[+ 1%nat; 1%nat; 1%nat +]}) s'
    else flying_transfers s' = [6; 7]%nat /\ devices_ok demo_backend demo_io_blocks {[+ 1%nat; 1%nat; 1%nat +]} s' /\
      in_flight_on s' 5 8 = false.
Proof.
  apply (submit_transfer demo_backend 8 5 (demo_transfer 250 (mk_tv 0 0) 0)
    (mk_handle 0 1 0) demo_io_blocks {[+ 1%nat; 1%nat; 1%nat +]} demo_io).
  - exact demo_submit_contract.
  - exact demo_clock_ok.
  - by vm_compute.
  - apply (demo_heap_fresh 9).
  - exact demo_flying_ok.
  - done.
  - split; [done|]. split; [done|]. by eexists.
  - by apply (bool_decide_unpack _).
  - by vm_compute.
  - by vm_compute.
  - by apply demo_io_ok.
  - done.
Defined.

(** ** Timeouts *)

(** C19: when the timers are handled, exactly the transfers whose deadline
    has passed, and whose timeout was neither handled before nor left to the
    operating system, are cancelled, in the order of the list and each once:
    the loop that stops at the first transfer that is not due, because the
    list is ordered, is equivalent to visiting every transfer.  Each expired
    transfer is marked, so that no later run cancels it again; the others
    stay as they were. *)
Theorem timeouts_exact {W : Type} (be : os_backend W) (cancel : nat -> W -> Z * W) (s : lib W) (now : timespec) (w : W)
    (Hcancel : forall t, be_cancel_transfer be t = backend_op (cancel t))
    (Hclock : be_clock_gettime be (world s) = ((0, now), w))
    (Hnow : 0 <= ts_sec now /\ 0 <= ts_nsec now < 1000000000) (Hfl : flying_ok s) :
  let due := filter (is_expired s (timespec_to_timeval now)) (flying_transfers s) in
  handle_timeouts be s
    = match flying_transfers s with
      | [] => Ok (0, s)
      | _ => (for_each (handle_timeout be) due ;; mret 0) (set_world w s)
      end /\
  exists s', handle_timeouts be s = Ok (0, s') /\ flying_transfers s' = flying_transfers s /\
    (forall t, t ∉ due -> transfers s' !! t = transfers s !! t) /\
    (forall t, t ∈ due -> exists x', transfers s' !! t = Some x' /\ timeout_done x' = true).
Proof.
  intros due. set (tv := timespec_to_timeval now).
  assert (tv_ok tv) as Htv by (apply timespec_to_timeval_ok; lia).
  assert (handle_timeouts be s = match flying_transfers s with
      | [] => Ok (0, s) | _ => (for_each (handle_timeout be) due ;; mret 0) (set_world w s) end) as Heq.
  { unfold handle_timeouts, handle_timeouts_locked, gets, backend_op. unfold mbind, M_bind.
    destruct (flying_transfers s) as [|t l] eqn:Hl; [done|]. rewrite Hclock. cbn [Z.ltb Z.compare fst snd].
    rewrite (timeouts_loop_eq be cancel Hcancel _ tv [] (t :: l) (set_world w s)); [|done| | |lia].
    - reflexivity.
    - by eapply flying_ok_same; [| |exact Hfl].
    - done. }
  split; [exact Heq|]. rewrite Heq. clear Heq.
  assert (forall t, t ∈ due -> t ∈ flying_transfers s) as Hsub by (intros t Ht; by apply list_elem_of_filter in Ht as [_ ?]).
  destruct (flying_transfers s) as [|t0 l] eqn:Hl.
  { exists s. split; [done|]. split; [done|]. split; [done|]. intros t Ht. by apply Hsub, elem_of_nil in Ht. }
  assert (NoDup due) as Hnd by (subst due; rewrite <- Hl; apply NoDup_filter, Hfl).
  pose proof (for_each_timeout_wp be cancel Hcancel due (set_world w s) Hnd
    ltac:(intros t Ht; apply (fl_exist _ Hfl); rewrite Hl; by apply Hsub)) as Hrun.
  apply wp_ok in Hrun as ([] & s' & Hrun & (w' & m & Hs') & Hout & Hin). exists s'.
  unfold mbind, M_bind. rewrite Hrun. split; [done|]. split; [rewrite Hs'; simpl; by rewrite Hl|]. split; [exact Hout|].
  intros t Ht. destruct (Hin t Ht) as (x & x' & wx & _ & Hx' & ->). exists (timeout_result cancel t x wx).1.
  split; [done|]. pose proof (timeout_result_ok cancel t x wx) as Hres.
  destruct (timeout_result cancel t x wx) as [x' ?]. destruct Hres as [_ Hflag]. unfold timeout_done, has_flag in *.
  simpl. apply negb_true_iff, Z.eqb_neq in Hflag. apply negb_true_iff, Z.eqb_neq. intros Hz. apply Hflag.
  rewrite Z.land_lor_distr_r in Hz. by apply Z.lor_eq_0_iff in Hz as [? _].
Qed.

Lemma timeouts_exact_witness :
  let s := set_world (mk_demo 101000000000 0 []) demo_io in
  let due := filter (is_expired s (timespec_to_timeval (mk_ts 101 0))) [6; 7]%nat in
  handle_timeouts demo_backend s = (for_each (handle_timeout demo_backend) due ;; mret 0) s /\
  exists s', handle_timeouts demo_backend s = Ok (0, s') /\ flying_transfers s' = [6; 7]%nat /\
    (forall t, t ∉ due -> transfers s' !! t = transfers s !! t) /\
    (forall t, t ∈ due -> exists x', transfers s' !! t = Some x' /\ timeout_done x' = true).
Proof.
  apply (timeouts_exact demo_backend (fun t => demo_do (DemoCancel t))
    (set_world (mk_demo 101000000000 0 []) demo_io) (mk_ts 101 0) (mk_demo 101000000000 0 [])).
  - done.
  - done.
  - simpl. lia.
  - eapply flying_ok_same; [| |exact demo_flying_ok]; done.
Defined.

(** In the example the first transfer is due, and only it is cancelled. *)
Example timeouts_run :
  match handle_timeouts demo_backend (set_world (mk_demo 101000000000 0 []) demo_io) with
  | Ok (_, s) => demo_log (world s)
  | Fault _ => []
  end = [DemoCancel 6].
Proof. vm_compute. reflexivity. Qed.

(** Without a timer descriptor [libusb_get_next_timeout] returns the
    smallest time that is left to any transfer whose timeout the library has
    to watch (zero when one has already expired); it returns 0 exactly when
    there is none. *)
Theorem next_timeout_minimal {W : Type} (be : os_backend W) (s : lib W) (now : timespec) (w : W)
    (Htimer : timerfd s = None) (Hclock : be_clock_gettime be (world s) = ((0, now), w))
    (Hnow : 0 <= ts_sec now /\ 0 <= ts_nsec now < 1000000000) (Hfl : flying_ok s) :
  let remaining t := Z.max 0 (tv_micros (deadline_of s t) - tv_micros (timespec_to_timeval now)) in
  exists r tv s', libusb_get_next_timeout be s = Ok ((r, tv), s') /\
    match tv with
    | None => r = 0 /\ forall t, t ∈ flying_transfers s -> ~ watched s t
    | Some tv => r = 1 /\ tv_ok tv /\
        (exists t, t ∈ flying_transfers s /\ watched s t /\ tv_micros tv = remaining t) /\
        forall t, t ∈ flying_transfers s -> watched s t -> tv_micros tv <= remaining t
    end.
Proof.
  intros remaining. pose proof (timespec_to_timeval_ok now ltac:(lia) ltac:(lia)) as Hnowok.
  pose proof (first_timeout_wp (flying_transfers s) s (fl_exist _ Hfl) (fl_sorted _ Hfl)) as Hfirst.
  apply wp_ok in Hfirst as (tv & s' & Hfirst & -> & Htv).
  assert (timerisset tv = true -> tv_ok tv) as Hok.
  { intros Hset. rewrite Hset in Htv. destruct Htv as (t & Ht & _ & -> & _). by apply (fl_tv _ Hfl). }
  unfold libusb_get_next_timeout, usbi_using_timerfd, gets, backend_op. unfold mbind, M_bind. rewrite Htimer.
  destruct (flying_transfers s) as [|t0 l] eqn:Hl.
  { eexists _, _, _. split; [done|]. split; [done|]. intros t Ht. by apply elem_of_nil in Ht. }
  rewrite Hfirst. destruct (timerisset tv) eqn:Hset; cbn [negb].
  2:{ eexists _, _, _. split; [done|]. by split. }
  specialize (Hok eq_refl). destruct Htv as (t & Ht & Hwt & Heq & Hmin). rewrite Hclock. cbn [Z.ltb Z.compare].
  rewrite timer_lt_micros by done.
  destruct (Z.ltb_spec (tv_micros (timespec_to_timeval now)) (tv_micros tv)) as [Hlt|Hge].
  - destruct (timersub_micros tv (timespec_to_timeval now) Hok Hnowok ltac:(lia)) as [Hsub Hval].
    eexists _, _, _. split; [done|]. split; [done|]. split; [done|]. unfold remaining. rewrite Hval. split.
    + exists t. split; [done|]. split; [done|]. rewrite <- Heq. lia.
    + intros u Hu Hwu. specialize (Hmin u Hu Hwu). lia.
  - eexists _, _, _. split; [done|]. split; [done|]. split; [split; simpl; lia|]. split.
    + exists t. split; [done|]. split; [done|]. unfold remaining. rewrite <- Heq. unfold tv_micros at 1. simpl. lia.
    + intros u Hu Hwu. unfold remaining. unfold tv_micros at 1. simpl. lia.
Qed.

Lemma next_timeout_minimal_witness :
  let remaining t := Z.max 0 (tv_micros (deadline_of demo_io t) - tv_micros (timespec_to_timeval (mk_ts 100 0))) in
  exists r tv s', libusb_get_next_timeout demo_backend demo_io = Ok ((r, tv), s') /\
    match tv with
    | None => r = 0 /\ forall t, t ∈ flying_transfers demo_io -> ~ watched demo_io t
    | Some tv => r = 1 /\ tv_ok tv /\
        (exists t, t ∈ flying_transfers demo_io /\ watched demo_io t /\ tv_micros tv = remaining t) /\
        forall t, t ∈ flying_transfers demo_io -> watched demo_io t -> tv_micros tv <= remaining t
    end.
Proof.
  apply (next_timeout_minimal demo_backend demo_io (mk_ts 100 0) (world demo_io)); [done|done|simpl; lia|exact demo_flying_ok].
Defined.

(** A transfer that is submitted again without a timeout keeps the
    deadline of its previous submission: [calculate_timeout] returns before
    it resets [timeout].  The transfer is then cancelled with the status
    "timed out" although it was to wait without limit. *)
Theorem stale_deadline :
  let again := set_transfers {[ 8%nat := demo_transfer 0 (mk_tv 50 0) 0 ]} (set_flying_transfers [] demo_io) in
  match (r ← libusb_submit_transfer demo_backend 8; handle_timeouts demo_backend ;; mret r) again with
  | Ok (r, s) => r = 0 /\ t_timeout <$> (transfers s !! 8%nat) = Some 0 /\
      demo_log (world s) = [DemoSubmit 8; DemoCancel 8] /\
      (fun x => has_flag (it_timeout_flags x) USBI_TRANSFER_TIMED_OUT) <$> (transfers s !! 8%nat) = Some true
  | Fault _ => False
  end.
Proof. vm_compute. auto. Qed.

(** ** Cancellation *)

(** [libusb_cancel_transfer] asks the backend exactly once: a transfer
    that is not in flight, or that is being cancelled, is reported as not
    found, without a call of the backend and without any change; otherwise
    the backend's answer is returned, the transfer is marked, and a second
    call reports it as not found. *)
Theorem cancel_once {W : Type} (be : os_backend W) (cancel : nat -> W -> Z * W) (t : nat) (x : transfer) (s : lib W)
    (Hcancel : forall t, be_cancel_transfer be t = backend_op (cancel t)) (Ht : transfers s !! t = Some x) :
  if has_flag (it_state_flags x) USBI_TRANSFER_IN_FLIGHT && negb (has_flag (it_state_flags x) USBI_TRANSFER_CANCELLING)
  then exists s', let '(r, w) := cancel t (world s) in
    libusb_cancel_transfer be t s = Ok (r, s') /\ world s' = w /\
    (forall u, u <> t -> transfers s' !! u = transfers s !! u) /\
    libusb_cancel_transfer be t s' = Ok (LIBUSB_ERROR_NOT_FOUND, s')
  else libusb_cancel_transfer be t s = Ok (LIBUSB_ERROR_NOT_FOUND, s).
Proof.
  rewrite (cancel_eq be cancel Hcancel t x s Ht). unfold cancel_result.
  destruct (has_flag (it_state_flags x) USBI_TRANSFER_IN_FLIGHT),
    (has_flag (it_state_flags x) USBI_TRANSFER_CANCELLING); cbn [negb orb andb];
    try (rewrite insert_id by done; by destruct s).
  destruct (cancel t (world s)) as [r w]. eexists. split; [done|]. split; [done|]. split.
  - intros u Hu. by apply lookup_insert_ne.
  - match goal with |- libusb_cancel_transfer _ _ ?s1 = _ => set (s' := s1) end.
    erewrite (cancel_eq be cancel Hcancel t _ s'); [|apply lookup_insert_eq]. unfold cancel_result.
    cbn [it_state_flags set_it_state_flags]. rewrite (has_flag_lor_r _ USBI_TRANSFER_CANCELLING) by done. rewrite orb_true_r. rewrite insert_id by apply lookup_insert_eq. by destruct s.
Qed.

Lemma cancel_once_witness :
  exists s', let '(r, w) := demo_do (DemoCancel 6) (world demo_io) in
    libusb_cancel_transfer demo_backend 6 demo_io = Ok (r, s') /\ world s' = w /\
    (forall u, u <> 6%nat -> transfers s' !! u = transfers demo_io !! u) /\
    libusb_cancel_transfer demo_backend 6 s' = Ok (LIBUSB_ERROR_NOT_FOUND, s').
Proof.
  apply (cancel_once demo_backend (fun t => demo_do (DemoCancel t)) 6 (demo_transfer 500 (mk_tv 100 500000) 1) demo_io);
    done.
Defined.

(** ** Completion and disconnection *)

(** C32: [usbi_handle_transfer_completion] takes the transfer off the list,
    reports its status (an incomplete transfer counts as an error when the
    caller set SHORT_NOT_OK) and the number of bytes transferred, leaves the
    transfer ready to be submitted again, and drops the reference on the
    device that the submission took; the other transfers are untouched. *)
Theorem transfer_completion {W : Type} (be : os_backend W) (app_cb : nat -> nat -> W -> W) (t h : nat) (x : transfer)
    (y : device_handle) (status : Z) (F E : gmultiset nat) (s : lib W)
    (Hfl : flying_ok s) (Ht : transfers s !! t = Some x) (Hlive : transfer_live s x h y)
    (Hin : t ∈ flying_transfers s) (Hkeep : has_flag (t_flags x) LIBUSB_TRANSFER_FREE_TRANSFER = false)
    (Hok : devices_ok be F ({[+ h_dev y +]} ⊎ E) s) :
  let requested := if t_type x =? LIBUSB_TRANSFER_TYPE_CONTROL then t_length x - 8 else t_length x in
  exists r s' x', usbi_handle_transfer_completion be (w_user_cb app_cb) t status s = Ok (r, s') /\
    flying_transfers s' = filter (fun q => q <> t) (flying_transfers s) /\
    transfers s' = <[t := x']> (transfers s) /\ devices_ok be F E s' /\
    t_actual_length x' = it_transferred x /\ has_flag (it_state_flags x') USBI_TRANSFER_IN_FLIGHT = false /\
    t_status x' = if decide (status = LIBUSB_TRANSFER_COMPLETED /\
                             has_flag (t_flags x) LIBUSB_TRANSFER_SHORT_NOT_OK = true /\ it_transferred x <> requested)
                  then LIBUSB_TRANSFER_ERROR else status.
Proof.
  intros requested. pose proof (completion_wp be app_cb t x h y status F E s Hfl Ht Hlive Hin Hkeep Hok) as Hrun.
  apply wp_ok in Hrun as (r & s' & Hrun & Hf & Htr & _ & _ & _ & Hok').
  exists r, s', (completed_transfer x status). split_and!; try done.
  - apply completed_not_in_flight.
  - simpl. unfold completion_status. fold requested.
    destruct (Z.eqb_spec status LIBUSB_TRANSFER_COMPLETED) as [Hs|Hs]; simpl; [|rewrite decide_False; [done|tauto]].
    destruct (has_flag (t_flags x) LIBUSB_TRANSFER_SHORT_NOT_OK); simpl; [|rewrite decide_False; [done|naive_solver]].
    fold requested. change LIBUSB_CONTROL_SETUP_SIZE with 8. fold requested.
    destruct (Z.eqb_spec requested (it_transferred x)) as [He|He].
    + rewrite decide_False; [done|]. intros (_ & _ & Hne). by apply Hne.
    + rewrite decide_True; [done|]. split; [done|]. split; [done|]. by intros Heq.
Qed.

Lemma transfer_completion_witness :
  exists r s' x', usbi_handle_transfer_completion demo_backend (w_user_cb (fun _ _ w => w)) 7 0 demo_io = Ok (r, s') /\
    flying_transfers s' = filter (fun q => q <> 7%nat) [6; 7]%nat /\
    transfers s' = <[7%nat := x']> (transfers demo_io) /\
    devices_ok demo_backend demo_io_blocks {[+ 1%nat; 1%nat +]} s' /\
    t_actual_length x' = 0 /\ has_flag (it_state_flags x') USBI_TRANSFER_IN_FLIGHT = false /\
    t_status x' = if decide (0 = LIBUSB_TRANSFER_COMPLETED /\
                             has_flag 0 LIBUSB_TRANSFER_SHORT_NOT_OK = true /\ 0 <> 64)
                  then LIBUSB_TRANSFER_ERROR else 0.
Proof.
  apply (transfer_completion demo_backend (fun _ _ w => w) 7 5 (demo_transfer 0 (mk_tv 0 0) 1) (mk_handle 0 1 0) 0
    demo_io_blocks {[+ 1%nat; 1%nat +]} demo_io).
  - exact demo_flying_ok.
  - done.
  - split; [done|]. split; [done|]. by eexists.
  - by apply (bool_decide_unpack _).
  - done.
  - apply demo_io_ok. simpl. multiset_solver.
Defined.


