(* ===== verification/HandleProps.v ===== *)
(** * Properties of device handles *)

From S2P Require Import Prelude Heap ParseDesc DescApi Bos Core Devices DeviceRefs Hotplug Transfers TransferSpecs Events EventPipe Handles Demo.

(** ** The mask of claimed interfaces *)

(** Claiming interface 31 sets bit 31 of an [int], which the conversion to
    [unsigned long] extends to the bits above. *)
Definition wf_mask (m : Z) : Prop :=
  0 <= m < 2 ^ 64 /\ forall j, 31 <= j < 64 -> Z.testbit m j = Z.testbit m 31.

(** The mask as a set of interface numbers. *)
Definition claims (y : device_handle) (i : Z) : bool := Z.testbit (claimed_interfaces y) i.

Definition int_bit (i : Z) : Z := i32 (Z.shiftl 1 i).

Lemma below_64 (P : Z -> Z -> bool) :
  forallb (fun i => forallb (P (Z.of_nat i)) (map Z.of_nat (seq 0 64))) (seq 0 32) = true ->
  forall i j, 0 <= i < 32 -> 0 <= j < 64 -> P i j = true.
Proof.
  intros Hall i j Hi Hj. rewrite forallb_forall in Hall. specialize (Hall (Z.to_nat i)).
  rewrite Z2Nat.id in Hall by lia. rewrite forallb_forall in Hall. apply Hall.
  - apply in_seq. lia.
  - apply in_map_iff. exists (Z.to_nat j). split; [lia|]. apply in_seq. lia.
Qed.

Lemma int_bit_testbit i j : 0 <= i < 32 -> 0 <= j < 64 ->
  Z.testbit (ulong (int_bit i)) j = (if i =? 31 then 31 <=? j else j =? i) /\
  Z.testbit (ulong (Z.lnot (int_bit i))) j = negb (if i =? 31 then 31 <=? j else j =? i).
Proof.
  intros Hi Hj. pose proof (below_64 (fun i j =>
    Bool.eqb (Z.testbit (ulong (int_bit i)) j) (if i =? 31 then 31 <=? j else j =? i) &&
    Bool.eqb (Z.testbit (ulong (Z.lnot (int_bit i))) j) (negb (if i =? 31 then 31 <=? j else j =? i)))
    ltac:(vm_compute; reflexivity) i j Hi Hj) as H.
  apply andb_true_iff in H as [H1 H2]. by apply eqb_prop in H1, H2.
Qed.

Lemma ulong_bound z : 0 <= ulong z < 2 ^ 64.
Proof. apply Z.mod_pos_bound. lia. Qed.

Lemma testbit_high m j : 0 <= m < 2 ^ 64 -> 64 <= j -> Z.testbit m j = false.
Proof.
  intros Hm Hj. destruct (decide (m = 0)) as [->|]; [apply Z.bits_0|].
  apply Z.bits_above_log2; [lia|]. apply Z.log2_lt_pow2; [lia|]. eapply Z.lt_le_trans; [apply Hm|].
  apply Z.pow_le_mono_r; lia.
Qed.

Lemma shl_int_ok i : 0 <= i < 32 -> shl_int i = Ok (int_bit i).
Proof. intros Hi. unfold shl_int. by rewrite (proj2 (Z.ltb_ge _ _)), (proj2 (Z.leb_gt _ _)) by lia. Qed.

Lemma is_claimed_ok y i : 0 <= i < 32 -> wf_mask (claimed_interfaces y) -> is_claimed y i = Ok (claims y i).
Proof.
  intros Hi [Hm Hhigh]. unfold is_claimed, claims. rewrite shl_int_ok by done. cbn [mbind outcome_bind]. f_equal.
  set (m := claimed_interfaces y) in *. destruct (Z.testbit m i) eqn:Hbit.
  - apply negb_true_iff, Z.eqb_neq. intros Hz. assert (Z.testbit (Z.land m (ulong (int_bit i))) i = true) as Ht.
    { rewrite Z.land_spec, Hbit. destruct (int_bit_testbit i i) as [-> _]; [lia|lia|].
      destruct (Z.eqb_spec i 31); [subst i; done|by rewrite Z.eqb_refl]. }
    rewrite Hz, Z.bits_0 in Ht. done.
  - apply negb_false_iff, Z.eqb_eq. apply Z.bits_inj'. intros j Hj. rewrite Z.land_spec, Z.bits_0.
    destruct (Z.lt_ge_cases j 64) as [Hlt|Hge]; [|by rewrite testbit_high].
    destruct (int_bit_testbit i j) as [-> _]; [lia|lia|]. destruct (Z.eqb_spec i 31) as [->|].
    + destruct (Z.leb_spec 31 j); [|apply andb_false_r]. by rewrite Hhigh, Hbit.
    + destruct (Z.eqb_spec j i) as [->|]; [by rewrite Hbit|apply andb_false_r].
Qed.

Lemma mask_bound (m : Z) : 0 <= m -> (forall j, 64 <= j -> Z.testbit m j = false) -> m < 2 ^ 64.
Proof.
  intros Hm Hhigh. destruct (decide (m = 0)) as [->|]; [lia|]. apply Z.log2_lt_pow2; [lia|].
  destruct (Z.lt_ge_cases (Z.log2 m) 64) as [|Hge]; [done|]. specialize (Hhigh _ Hge).
  rewrite Z.bit_log2 in Hhigh by lia. done.
Qed.

(** Setting and clearing one interface. *)
Lemma claim_mask m i : 0 <= i < 32 -> wf_mask m ->
  let m' := Z.lor m (ulong (int_bit i)) in
  wf_mask m' /\ forall j, 0 <= j < 32 -> Z.testbit m' j = Z.testbit m j || (j =? i).
Proof.
  intros Hi [Hm Hhigh] m'. pose proof (ulong_bound (int_bit i)) as Hb.
  assert (forall j, 0 <= j < 64 -> Z.testbit m' j = Z.testbit m j || (if i =? 31 then 31 <=? j else j =? i)) as Ht.
  { intros j Hj. unfold m'. rewrite Z.lor_spec. by destruct (int_bit_testbit i j) as [-> _]. }
  split; [split|].
  - assert (0 <= m') by (apply Z.lor_nonneg; lia). split; [done|]. apply mask_bound; [done|].
    intros j Hj. unfold m'. by rewrite Z.lor_spec, !testbit_high.
  - intros j Hj. rewrite !Ht by lia. rewrite (Hhigh j) by done. f_equal. destruct (Z.eqb_spec i 31); [|].
    + by rewrite !(proj2 (Z.leb_le _ _)) by lia.
    + by rewrite !(proj2 (Z.eqb_neq _ _)) by lia.
  - intros j Hj. rewrite Ht by lia. f_equal. destruct (Z.eqb_spec i 31) as [->|]; [|done].
    destruct (Z.leb_spec 31 j), (Z.eqb_spec j 31); done || lia.
Qed.
Lemma release_mask m i : 0 <= i < 32 -> wf_mask m ->
  let m' := Z.land m (ulong (Z.lnot (int_bit i))) in
  wf_mask m' /\ forall j, 0 <= j < 32 -> Z.testbit m' j = Z.testbit m j && negb (j =? i).
Proof.
  intros Hi [Hm Hhigh] m'.
  assert (forall j, 0 <= j < 64 -> Z.testbit m' j = Z.testbit m j && negb (if i =? 31 then 31 <=? j else j =? i)) as Ht.
  { intros j Hj. unfold m'. rewrite Z.land_spec. by destruct (int_bit_testbit i j) as [_ ->]. }
  split; [split|].
  - assert (0 <= m') by (apply Z.land_nonneg; left; lia). split; [done|]. apply mask_bound; [done|].
    intros j Hj. unfold m'. by rewrite Z.land_spec, testbit_high.
  - intros j Hj. rewrite !Ht by lia. rewrite (Hhigh j) by done. do 2 f_equal. destruct (Z.eqb_spec i 31); [|].
    + by rewrite !(proj2 (Z.leb_le _ _)) by lia.
    + by rewrite !(proj2 (Z.eqb_neq _ _)) by lia.
  - intros j Hj. rewrite Ht by lia. do 2 f_equal. destruct (Z.eqb_spec i 31) as [->|]; [|done].
    destruct (Z.leb_spec 31 j), (Z.eqb_spec j 31); done || lia.
Qed.

(** What the two operations do to a handle. *)
Definition claim_spec (i r : Z) (y y' : device_handle) : Prop :=
  wf_mask (claimed_interfaces y') /\ h_dev y' = h_dev y /\
  forall j, 0 <= j < 32 -> claims y' j = claims y j || ((r =? 0) && (j =? i)).
Definition release_spec (i r : Z) (y y' : device_handle) : Prop :=
  wf_mask (claimed_interfaces y') /\ h_dev y' = h_dev y /\
  forall j, 0 <= j < 32 -> claims y' j = claims y j && negb ((r =? 0) && (j =? i)).

(** What a backend promises about interfaces: it only changes its own state
    (the handle being open). *)
Class InterfaceContract {W : Type} (be : os_backend W) : Prop := {
  claim_law h i s : is_Some (handles s !! h) -> exists r w, be_claim_interface be h i s = Ok (r, set_world w s);
  release_law h i s : is_Some (handles s !! h) -> exists r w, be_release_interface be h i s = Ok (r, set_world w s)
}.

(** The mask of claimed interfaces implements a set of the numbers 0 to
    31, all 32 of them, although bit 31 is the sign of the [int] it is
    computed in.  [libusb_claim_interface] answers an interface that is
    claimed without calling the backend, and adds an interface exactly when
    the backend succeeds; [libusb_release_interface] refuses an interface
    that is not claimed, and removes one exactly when the backend succeeds. *)
Theorem claimed_interfaces_set {W : Type} (be : os_backend W) (h : nat) (i : Z) (y : device_handle) (x : device) (s : lib W)
    (Hbe : InterfaceContract be) (Hi : 0 <= i < 32) (Hh : handles s !! h = Some y) (Hd : devices s !! h_dev y = Some x)
    (Hatt : attached x = true) (Hwf : wf_mask (claimed_interfaces y)) :
  (if claims y i then (libusb_claim_interface be h i s = Ok (0, s))
   else exists r w y', be_claim_interface be h i s = Ok (r, set_world w s) /\ claim_spec i r y y' /\
       libusb_claim_interface be h i s = Ok (r, set_handles (<[h := y']> (handles s)) (set_world w s))) /\
  (if claims y i then (exists r w y', be_release_interface be h i s = Ok (r, set_world w s) /\ release_spec i r y y' /\
       libusb_release_interface be h i s = Ok (r, set_handles (<[h := y']> (handles s)) (set_world w s)))
   else libusb_release_interface be h i s = Ok (LIBUSB_ERROR_NOT_FOUND, s)).
Proof.
  assert ((USB_MAXINTERFACES <=? i) = false) as Hmax by (apply Z.leb_gt; unfold USB_MAXINTERFACES; lia).
  assert (forall w, set_handles (<[h := y]> (handles s)) (set_world w s) = set_world w s) as Hsame
    by (intros w; rewrite insert_id by done; by destruct s).
  split.
  - unfold libusb_claim_interface. rewrite Hmax. unfold is_attached, get_handle, get_device, lookup_obj, lift.
    unfold mbind, M_bind, mret, M_ret. rewrite Hh, Hd, Hatt. cbn [negb]. rewrite Hh, is_claimed_ok by done.
    destruct (claims y i) eqn:Hc; [done|]. destruct (claim_law h i s ltac:(by eexists)) as (r & w & Hop).
    rewrite Hop. exists r, w. destruct (Z.eqb_spec r 0) as [->|Hr].
    + rewrite shl_int_ok by done. destruct (claim_mask _ i Hi Hwf) as [Hwf' Hbits].
      exists (set_claimed_interfaces (Z.lor (claimed_interfaces y) (ulong (int_bit i))) y). split; [done|]. split; [|done].
      split; [done|]. split; [done|]. exact Hbits.
    + exists y. rewrite Hsame. split; [done|]. split; [|done]. split; [done|]. split; [done|]. intros j _.
      rewrite (proj2 (Z.eqb_neq _ _)) by done. by rewrite orb_false_r.
  - unfold libusb_release_interface. rewrite Hmax. unfold get_handle, lookup_obj, lift. unfold mbind, M_bind, mret, M_ret.
    rewrite Hh, is_claimed_ok by done. destruct (claims y i) eqn:Hc; [|done]. cbn [negb].
    destruct (release_law h i s ltac:(by eexists)) as (r & w & Hop).
    rewrite Hop. exists r, w. destruct (Z.eqb_spec r 0) as [->|Hr].
    + rewrite shl_int_ok by done. destruct (release_mask _ i Hi Hwf) as [Hwf' Hbits].
      exists (set_claimed_interfaces (Z.land (claimed_interfaces y) (ulong (Z.lnot (int_bit i)))) y). split; [done|]. split; [|done].
      split; [done|]. split; [done|]. exact Hbits.
    + exists y. rewrite Hsame. split; [done|]. split; [|done]. split; [done|]. split; [done|]. intros j _.
      rewrite (proj2 (Z.eqb_neq _ _)) by done. by rewrite andb_true_r.
Qed.

#[export] Instance demo_interface_contract : InterfaceContract demo_backend.
Proof. split; intros h i s _; by eexists _, _. Qed.

Lemma claimed_interfaces_set_witness :
  (exists r w y', be_claim_interface demo_backend 5 31 demo_io = Ok (r, set_world w demo_io) /\
     claim_spec 31 r (mk_handle 0 1 0) y' /\ libusb_claim_interface demo_backend 5 31 demo_io = Ok (r, set_handles (<[5%nat := y']> (handles demo_io)) (set_world w demo_io))) /\
  libusb_release_interface demo_backend 5 31 demo_io = Ok (LIBUSB_ERROR_NOT_FOUND, demo_io).
Proof.
  apply (claimed_interfaces_set demo_backend 5 31 (mk_handle 0 1 0) (mk_device 3 1 0 None 2 1 3 12 (replicate 18 0) true) demo_io);
    [exact _|lia|done|done|done|]. split; [simpl; lia|]. intros j Hj. simpl. by rewrite !Z.bits_0.
Defined.

(** Only interface numbers above 31 are rejected: a negative number is
    shifted by, which C leaves undefined. *)
Theorem negative_interface_undefined :
  libusb_claim_interface demo_backend 5 (-1) demo_io = Fault ShiftUB /\
  libusb_release_interface demo_backend 5 (-1) demo_io = Fault ShiftUB /\
  libusb_set_interface_alt_setting demo_backend 5 (-1) 0 demo_io = Fault ShiftUB.
Proof. vm_compute. auto. Qed.

(** ** Opening and closing *)

(** A backend that keeps all it needs for an open handle in its own state. *)
Class OpenContract {W : Type} (be : os_backend W) : Prop := {
  open_law h s : is_Some (handles s !! h) -> exists r w, be_open be h s = Ok (r, set_world w s);
  close_law h s : is_Some (handles s !! h) -> exists w, be_close be h s = Ok (tt, set_world w s)
}.

Section open_close.
Context {W : Type} (be : os_backend W) `{!OpenContract be}.
Implicit Types (s : lib W) (F E : gmultiset nat).








End open_close.


#[export] Instance demo_open_contract : OpenContract demo_backend.
Proof. split; intros h s _; by repeat eexists. Qed.

