(* ===== verification/SyncProps.v ===== *)
(** * Properties of the transfer helpers (libusb.h) *)

From S2P Require Import Prelude Heap ParseDesc DescApi Bos Core Devices Transfers Events Sync Demo.

(** ** Control setup packets *)

(** The two bytes of a 16 bit field on the bus: low byte first. *)
Definition bus16 (x : Z) : list Z := [x mod 256; x / 256].

Lemma le_bytes_value bs : is_bytes bs -> le_bytes (length bs) (le_value bs) = bs.
Proof.
  induction bs as [|b bs IH]; intros Hb; [done|]. apply Forall_cons in Hb as [Hb Hbs]. simpl.
  change 255 with (Z.ones 8). rewrite Z.land_ones by lia. change (2 ^ 8) with 256.
  unfold is_byte in Hb. f_equal.
  - rewrite Z.mul_comm, Z_mod_plus_full. by apply Z.mod_small.
  - rewrite Z.shiftr_div_pow2 by lia. change (2 ^ 8) with 256.
    rewrite Z.mul_comm, Z.div_add by lia. rewrite Z.div_small by done. by rewrite Z.add_0_l, IH.
Qed.

Lemma host_bytes_value big bs : is_bytes bs -> host_bytes big (length bs) (host_value big bs) = bs.
Proof.
  intros Hb. unfold host_bytes, host_value. destruct big; [|by apply le_bytes_value].
  rewrite <- (length_rev bs), le_bytes_value by (by apply Forall_rev). by rewrite rev_involutive.
Qed.

Lemma le16_bus big x : 0 <= x < 65536 -> host_bytes big 2 (libusb_le16_to_cpu big x) = bus16 x.
Proof.
  intros Hx. unfold libusb_le16_to_cpu, bus16. change 255 with (Z.ones 8).
  rewrite Z.land_ones, Z.shiftr_div_pow2 by lia. change (2 ^ 8) with 256.
  apply (host_bytes_value big [x mod 256; x / 256]). repeat constructor.
  - apply Z.mod_pos_bound. lia.
  - apply Z.mod_pos_bound. lia.
  - apply Z.div_pos; lia.
  - apply Z.div_lt_upper_bound; lia.
Qed.

Lemma le16_value big x : 0 <= x < 65536 -> libusb_le16_to_cpu big (host_value big (bus16 x)) = x.
Proof.
  intros Hx. assert (is_bytes (bus16 x)) as Hb.
  { repeat constructor; unfold is_byte; try (apply Z.mod_pos_bound; lia); [apply Z.div_pos; lia|apply Z.div_lt_upper_bound; lia]. }
  pose proof (Z.div_mod x 256 ltac:(lia)) as Heq. pose proof (Z.mod_pos_bound x 256 ltac:(lia)) as Hm.
  assert (0 <= x / 256 < 256) as Hd by (split; [apply Z.div_pos; lia|apply Z.div_lt_upper_bound; lia]).
  assert (forall a b, 0 <= a < 256 -> 0 <= b < 256 -> Z.land (a + 256 * b) 255 = a /\ Z.shiftr (a + 256 * b) 8 = b) as Hsplit.
  { intros a b Ha Hbb. change 255 with (Z.ones 8). rewrite Z.land_ones, Z.shiftr_div_pow2 by lia. change (2 ^ 8) with 256.
    rewrite Z.mul_comm, Z_mod_plus_full, Z.div_add, Z.mod_small, Z.div_small by lia. done. }
  unfold libusb_le16_to_cpu, host_value, bus16. destruct big; simpl; rewrite !Z.mul_0_r, !Z.add_0_r.
  - destruct (Hsplit (x / 256) (x mod 256) Hd Hm) as [-> ->]. simpl. lia.
  - destruct (Hsplit (x mod 256) (x / 256) Hm Hd) as [-> ->]. simpl. lia.
Qed.

(** On hosts of either byte order, [libusb_fill_control_setup] stores
    the eight bytes of a setup packet as the USB specification lays them
    out, and [libusb_fill_control_transfer] reads the length of the data
    stage back from such a packet: the transfer is 8 bytes longer. *)
Theorem setup_packet_layout (big : bool) (bmRequestType bRequest wValue wIndex wLength : Z) (payload : list Z)
    (dev_handle b user_data : nat) (cb : option transfer_cb) (timeout : Z) (t : transfer)
    (Hv : 0 <= wValue < 65536) (Hi : 0 <= wIndex < 65536) (Hl : 0 <= wLength < 65536) :
  let setup := libusb_fill_control_setup big bmRequestType bRequest wValue wIndex wLength in
  setup = [bmRequestType; bRequest] ++ bus16 wValue ++ bus16 wIndex ++ bus16 wLength /\
  t_length (libusb_fill_control_transfer big dev_handle (Some (b, setup ++ payload)) cb user_data timeout t) = 8 + wLength /\
  libusb_control_transfer_get_data (setup ++ payload) = Ok payload.
Proof.
  intros setup. assert (setup = [bmRequestType; bRequest] ++ bus16 wValue ++ bus16 wIndex ++ bus16 wLength) as Hs.
  { unfold setup, libusb_fill_control_setup. by rewrite !le16_bus. }
  split; [exact Hs|]. rewrite Hs. split.
  - cbn [t_length libusb_fill_control_transfer set_t_callback set_t_user_data set_t_length].
    unfold setup_wLength. change (take 2 (drop 6 _)) with (bus16 wLength). by rewrite le16_value.
  - unfold libusb_control_transfer_get_data, advance, LIBUSB_CONTROL_SETUP_SIZE.
    rewrite decide_True by (rewrite !length_app; simpl; lia). done.
Qed.

Lemma setup_packet_layout_witness :
  let setup := libusb_fill_control_setup true 128 6 258 1033 18 in
  setup = [128; 6] ++ bus16 258 ++ bus16 1033 ++ bus16 18 /\
  t_length (libusb_fill_control_transfer true 5 (Some (2%nat, setup ++ [1; 2])) None 0 1000
    (demo_transfer 0 (mk_tv 0 0) 0)) = 8 + 18 /\
  libusb_control_transfer_get_data (setup ++ [1; 2]) = Ok [1; 2].
Proof. apply (setup_packet_layout true 128 6 258 1033 18 [1; 2] 5 2 0 None 1000); lia. Defined.

(** ** Isochronous packets *)

Lemma foldl_iso_lengths (L : Z) l : forall off, Forall (fun p => iso_length p = L) l ->
  foldl (fun offset p => offset + iso_length p) off l = off + L * Z.of_nat (length l).
Proof.
  induction l as [|p l IH]; intros off Hl; simpl; [lia|]. apply Forall_cons in Hl as [Hp Hl].
  rewrite IH by done. rewrite Hp. lia.
Qed.

(** After [libusb_set_iso_packet_lengths] the two functions that find
    the data of a packet agree, the general one, which adds up the lengths
    of the packets before, and the simple one, which multiplies; packet
    number [i] begins at [L * i], so that the packets follow each other
    without gaps and end at [L] times their number.  A packet number that is
    too large gets the null pointer. *)
Theorem iso_packet_buffers (t : transfer) (L packet : Z)
    (Hnum : 0 <= t_num_iso_packets t <= Z.of_nat (length (t_iso_packets t)))
    (HL : 0 <= L < 2 ^ 31) (Hfit : L * t_num_iso_packets t < 2 ^ 31) (Hp : 0 <= packet) :
  exists t', libusb_set_iso_packet_lengths L t = Ok t' /\
    libusb_get_iso_packet_buffer t' packet = libusb_get_iso_packet_buffer_simple t' packet /\
    (if (packet <? t_num_iso_packets t) && (packet <=? INT_MAX)
     then libusb_get_iso_packet_buffer t' packet = Ok (Some (L * packet)) /\ L * packet + L <= L * t_num_iso_packets t
     else libusb_get_iso_packet_buffer t' packet = Ok None).
Proof.
  unfold libusb_set_iso_packet_lengths, rd_n. rewrite decide_True by lia. eexists. split; [done|].
  set (n := Z.to_nat (t_num_iso_packets t)). set (l := map (set_iso_length L) (take n (t_iso_packets t))).
  assert (length l = n) as Hln by (unfold l; rewrite length_map, length_take; lia).
  assert (Forall (fun p => iso_length p = L) l) as Hall.
  { unfold l. apply Forall_forall. intros p Hin. apply list_elem_of_fmap in Hin as (q & -> & _). done. }
  unfold libusb_get_iso_packet_buffer, libusb_get_iso_packet_buffer_simple.
  cbn [t_num_iso_packets t_iso_packets set_t_iso_packets].
  destruct (Z.leb_spec packet INT_MAX) as [Hmax|Hmax].
  2:{ rewrite (proj2 (Z.ltb_lt _ _)) by done. by rewrite andb_false_r. }
  rewrite (proj2 (Z.ltb_ge INT_MAX _)) by done.
  destruct (Z.ltb_spec packet (t_num_iso_packets t)) as [Hlt|Hge].
  2:{ rewrite (proj2 (Z.leb_le _ _)) by done. done. }
  rewrite (proj2 (Z.leb_gt _ _)) by done. unfold rd_n.
  assert (length (l ++ drop n (t_iso_packets t)) = length (t_iso_packets t)) as Hlen
    by (rewrite length_app, length_drop, Hln; lia).
  rewrite Hlen, !decide_True by lia. cbn [mbind outcome_bind andb].
  rewrite take_app_le by lia. rewrite (foldl_iso_lengths L) by (by apply Forall_take).
  rewrite length_take, Hln, Nat.min_l by lia. rewrite Z2Nat.id, Z.add_0_l by lia.
  assert (0 <= L * packet /\ L * packet + L <= L * t_num_iso_packets t) as [Hlo Hhi] by nia.
  destruct l as [|p l]; [simpl in Hln; lia|]. apply Forall_cons in Hall as [Hpl _]. cbn [app take hd].
  rewrite Hpl, (i32_small L), i32_small by lia. done.
Qed.

Lemma iso_packet_buffers_witness :
  let t := set_t_num_iso_packets 3 (set_t_iso_packets (replicate 3 (mk_iso 0 0 0)) (demo_transfer 0 (mk_tv 0 0) 0)) in
  exists t', libusb_set_iso_packet_lengths 192 t = Ok t' /\
    libusb_get_iso_packet_buffer t' 2 = libusb_get_iso_packet_buffer_simple t' 2 /\
    (libusb_get_iso_packet_buffer t' 2 = Ok (Some (192 * 2)) /\ 192 * 2 + 192 <= 192 * 3).
Proof.
  apply (iso_packet_buffers (set_t_num_iso_packets 3 (set_t_iso_packets (replicate 3 (mk_iso 0 0 0))
    (demo_transfer 0 (mk_tv 0 0) 0))) 192 2); simpl; lia.
Defined.
