(* ===== verification/BlockingProps.v ===== *)
(** * Properties of the blocking transfers (sync.c)

    A blocking transfer returns what the device answered and leaves the
    library as it was, whatever interrupts the wait. *)

From S2P Require Import Prelude Heap ParseDesc DescApi Bos Core Devices DeviceRefs Transfers TransferSpecs Events Sync SyncSpecs SyncProps Demo.

Section run.
Context {W : Type} (be : os_backend W) (user_cb : nat -> nat -> Lib W unit) (o : watch W) (timer : bool) {HA : Answering be user_cb o timer}.
Context (big : bool) (hotplug_fn : nat -> option nat -> Z -> Lib W Z) (fuel : nat).
Implicit Types (s : lib W) (w : W) (x : transfer).

(** ** From submission to completion *)





(** ** Before and after *)











(** ** Allocation *)





(** ** Control transfers *)








(** ** Bulk and interrupt transfers *)


End run.

(** ** A device that answers *)

(** The transfer it was given, the interruptions still to come, whether the
    answer is there, the status reported, and whether it was asked to
    cancel. *)
Record echo : Type := mk_echo {
  e_due : option nat;
  e_polls : nat;
  e_ready : bool;
  e_status : Z;
  e_cancelled : bool
}.

(** It fills the data with sevens. *)
Definition echo_reply (type : Z) (bytes : list Z) : reply :=
  let n := setup_size type in
  mk_reply LIBUSB_TRANSFER_COMPLETED (Z.of_nat (length bytes) - n)
    (take (Z.to_nat n) bytes ++ replicate (length bytes - Z.to_nat n) 7).

Definition echo_poll (fds : list (Z * Z)) (readable : bool) (w : echo) : poll_result * echo :=
  match e_polls w with
  | S n => (mk_poll (-1) true [], mk_echo (e_due w) n (e_ready w) (e_status w) (e_cancelled w))
  | O =>
      if readable then (mk_poll 1 false (1 :: map (fun _ => 0) (tail fds)), w)
      else match e_due w with
           | Some _ => (mk_poll 1 false (0 :: 0 :: map (fun _ => 1) (drop 2 fds)),
                        mk_echo (e_due w) 0 true (e_status w) (e_cancelled w))
           | None => (mk_poll 0 false [], w)
           end
  end.
Definition echo_events : Lib echo Z :=
  w ← gets world;
  match e_due w with
  | Some t =>
      if e_ready w then
        x ← get_transfer t;
        let rep := echo_reply (t_type x) (t_data x) in
        put_transfer t (deliver rep x) ;;
        modify (set_world (mk_echo None (e_polls w) false (rp_status rep) (e_cancelled w))) ;;
        usbi_signal_transfer_completion t ;;
        mret 0
      else mret 0
  | None => mret 0
  end.
Definition echo_over (complete : nat -> Lib echo Z) : os_backend echo := {|
  be_caps := 0;
  be_init := None;
  be_exit := None;
  be_get_device_list := None;
  be_hotplug_poll := None;
  be_destroy_device := None;
  be_open _ := mret 0;
  be_close _ := mret tt;
  be_get_configuration := None;
  be_set_configuration _ _ := mret 0;
  be_claim_interface _ _ := mret 0;
  be_release_interface _ _ := mret 0;
  be_set_interface_altsetting _ _ _ := mret 0;
  be_clear_halt _ _ := mret 0;
  be_reset_device _ := mret 0;
  be_alloc_streams := None;
  be_free_streams := None;
  be_dev_mem_alloc := None;
  be_dev_mem_free := None;
  be_kernel_driver_active := None;
  be_detach_kernel_driver := None;
  be_attach_kernel_driver := None;
  be_submit_transfer t := backend_op (fun w => (0, mk_echo (Some t) (e_polls w) (e_ready w) (e_status w) false));
  be_cancel_transfer t := backend_op (fun w => (0, mk_echo (e_due w) (e_polls w) (e_ready w) (e_status w) true));
  be_clear_transfer_priv _ := mret tt;
  be_handle_events _ _ := echo_events;
  be_handle_transfer_completion := complete;
  be_clock_gettime w := ((0, mk_ts 100 0), w);
  os_mutex_init w := (0, w);
  os_timerfd_settime _ w := (0, w);
  os_timerfd_create w := (-1, w);
  os_pipe w := ((0, (3, 4)), w);
  os_close _ w := (tt, w);
  os_poll fds _ readable w := echo_poll fds readable w;
  os_cond_wait _ w := (1, w)
|}.
Definition echo_cb (n t : nat) : Lib echo unit := mret tt.
Definition echo_backend : os_backend echo := echo_over (fun t s =>
  usbi_handle_transfer_completion (echo_over (fun _ => mret 0)) echo_cb t (e_status (world s)) s).






(** A state in which it is open as handle 5, and which polls the event pipe,
    the timer and the device; three interruptions are to come. *)
Definition echo_lib : lib echo :=
  mk_lib (demo_heap 9) (devices demo_io) (handles demo_io) ∅ [1%nat] [5%nat] [] []
    (set_pollfds (Some (7%nat, [(3, 1); (6, 1); (9, 4)])) demo_event_data)
    true false false (Some None) 1 ∅ (3, 4) 6 false None None 0 false (mk_echo None 3 false 0 false).


(** ** The theorems *)



(** In the example three calls of [poll] are interrupted, then four bytes
    arrive. *)
Example control_transfer_run :
  match libusb_control_transfer echo_backend false (fun _ _ _ => mret 0) 7 (fun n => replicate n 0) 5 128 6 256 0 [1; 2; 3; 4; 5; 6] 4 1000 echo_lib with
  | Ok (result, _) => result = (4, [7; 7; 7; 7; 5; 6])
  | Fault _ => False
  end.
Proof. vm_compute. reflexivity. Qed.


