(* ===== verification/MessageProps.v ===== *)
(** * Properties of the messages and the log (strerror.c, core.c) *)

From S2P Require Import Prelude ParseDesc Strerror Text Log.

(** ** Error messages *)

(** A sequence of calls of [libusb_setlocale]. *)
Definition set_locales (l : list (option string)) (usbi_locale : nat) : nat :=
  foldl (fun loc s => (libusb_setlocale s loc).2) usbi_locale l.

Lemma find_locale_bound i l s j : find_locale i l s = Some j -> (j < i + length l)%nat.
Proof.
  revert i. induction l as [|a l IH]; intros i Hf; [done|]. cbn [find_locale] in Hf.
  destruct (strncasecmp_eq 2 a s); [simplify_eq; simpl; lia|]. specialize (IH _ Hf). simpl. lia.
Qed.

Lemma setlocale_bound s loc : (loc < 4)%nat -> ((libusb_setlocale s loc).2 < 4)%nat.
Proof.
  intros Hloc. unfold libusb_setlocale. destruct s as [s|]; [|done]. case_match; [done|].
  destruct (find_locale 0 usbi_locale_supported s) as [i|] eqn:Hf; [|done]. apply find_locale_bound in Hf. simpl in *. lia.
Qed.

Lemma set_locales_bound l loc : (loc < 4)%nat -> (set_locales l loc < 4)%nat.
Proof. revert loc. induction l as [|s l IH]; intros loc Hloc; [done|]. by apply IH, setlocale_bound. Qed.

(** The index of a code in the tables. *)
Definition message_index (errcode : Z) : nat :=
  if decide (- 13 < errcode <= 0) then Z.to_nat (- errcode) else 13.

(** [libusb_strerror] never leaves its tables, whatever the code, an
    [int] without any restriction (the smallest one, whose negation
    overflows, included), and whatever calls of [libusb_setlocale] came
    before: it returns the message of a known code, and that of "other
    error" for all others, in the chosen language. *)
Theorem strerror_total (locales : list (option string)) (errcode : Z) (Hint : - 2 ^ 31 <= errcode < 2 ^ 31) :
  exists table m, usbi_localized_errors !! set_locales locales 0 = Some table /\
    table !! message_index errcode = Some m /\
    libusb_strerror (set_locales locales 0) errcode = Ok m.
Proof.
  pose proof (set_locales_bound locales 0 ltac:(lia)) as Hloc. set (loc := set_locales locales 0) in *.
  assert (exists table, usbi_localized_errors !! loc = Some table /\ length table = 14%nat) as (table & Ht & Hlen).
  { clearbody loc. do 4 (destruct loc as [|loc]; [by eexists|]). lia. }
  assert (message_index errcode < 14)%nat as Hidx by (unfold message_index; case_decide; lia).
  destruct (lookup_lt_is_Some_2 table (message_index errcode)) as [m Hm]; [lia|].
  exists table, m. split; [done|]. split; [done|]. unfold libusb_strerror. rewrite Ht.
  match goal with |- match table !! ?n with _ => _ end = _ => assert (n = message_index errcode) as -> end.
  2:{ by rewrite Hm. }
  unfold message_index, LIBUSB_ERROR_COUNT. destruct (decide (errcode = - 2 ^ 31)) as [->|Hmin]; [by vm_compute|].
  rewrite i32_small by lia.
  destruct (Z.ltb_spec (- errcode) 0), (Z.leb_spec 14 (- errcode)); cbn [orb]; case_decide; lia || done.
Qed.

Lemma strerror_total_witness :
  exists table m, usbi_localized_errors !! set_locales [Some "fr-FR"%string; Some "zz"%string; None] 0 = Some table /\
    table !! message_index (-4) = Some m /\
    libusb_strerror (set_locales [Some "fr-FR"%string; Some "zz"%string; None] 0) (-4) = Ok m.
Proof. apply (strerror_total [Some "fr-FR"%string; Some "zz"%string; None] (-4)). lia. Defined.

Example strerror_french :
  libusb_strerror (set_locales [Some "fr-FR"%string; Some "zz"%string; None] 0) (-6) = Ok "Resource déjà occupée"%string.
Proof. vm_compute. reflexivity. Qed.

(** ** The log *)

Lemma store_eq buf pre mid post bs :
  buf = pre ++ mid ++ post -> length mid = length bs -> store buf (length pre) bs = Ok (pre ++ bs ++ post).
Proof.
  intros -> Hl. unfold store. rewrite decide_True by (rewrite !length_app; lia).
  rewrite take_app_length. do 3 f_equal. rewrite <- Hl, <- drop_drop, drop_app_length. by rewrite drop_app_length.
Qed.

(** Where [store] fits, splitting the buffer. *)
Lemma split_at (buf : list Z) n m : (n + m <= length buf)%nat ->
  exists pre mid post, buf = pre ++ mid ++ post /\ length pre = n /\ length mid = m.
Proof.
  intros Hle. exists (take n buf), (take m (drop n buf)), (drop m (drop n buf)).
  rewrite take_drop, take_drop. split; [done|]. rewrite !length_take, length_drop. lia.
Qed.

(** [snprintf] with room for the terminator. *)
Lemma snprintf_eq pre rest size s :
  (0 < size)%nat -> (size <= length rest)%nat ->
  exists rest', snprintf (pre ++ rest) (length pre) size s
    = Ok (Z.of_nat (length s), pre ++ take (size - 1) s ++ 0 :: rest') /\
    length (take (size - 1) s ++ 0 :: rest') = length rest.
Proof.
  intros Hpos Hle. destruct size as [|n]; [lia|]. unfold snprintf. simpl Nat.sub. rewrite Nat.sub_0_r.
  assert (length (take n s ++ [0%Z]) <= S n)%nat as Hlen by (rewrite length_app, length_take; simpl; lia).
  destruct (split_at rest 0 (length (take n s ++ [0]))) as (p & mid & post & -> & Hp & Hm); [lia|].
  destruct p; [|done]. exists post. rewrite (store_eq _ pre mid post (take n s ++ [0])) by done.
  cbn [mbind outcome_bind app]. rewrite <- app_assoc. split; [done|].
  rewrite !length_app in *. simpl in *. lia.
Qed.

(** Formatting a line of the log stays inside its buffer of 1024 bytes
    for every header and message, and always yields a string that ends in a
    line feed: the header and the message cut to 1022 bytes, where a header
    that does not fit on its own is left out. *)
Theorem log_line_bounded (junk header text : list Z)
    (Hjunk : length junk = USBI_MAX_LOG_LEN) (Hh : Forall (fun b => b <> 0) header) (Ht : Forall (fun b => b <> 0) text) :
  exists buf, format_line junk header text = Ok buf /\ length buf = USBI_MAX_LOG_LEN /\
    cstring buf = take 1022 ((if decide (length header < 1024)%nat then header else []) ++ text) ++ [10].
Proof.
  unfold format_line. unfold USBI_MAX_LOG_LEN in *.
  destruct (snprintf_eq [] junk 1024 header) as (r1 & Hs1 & Hl1); [lia|lia|]. cbn [app length] in Hs1. rewrite Hs1. clear Hs1.
  cbn [mbind outcome_bind]. change (Z.of_nat 1024) with 1024. change (1024 - 1)%nat with 1023%nat in *.
  set (h := if decide (length header < 1024)%nat then header else []).
  set (hl := if (Z.of_nat (length header) <? 0) || (1024 <=? Z.of_nat (length header)) then 0 else Z.of_nat (length header)).
  assert (hl = Z.of_nat (length h) /\ (length h < 1024)%nat) as [-> Hhl].
  { unfold hl, h. rewrite (proj2 (Z.ltb_ge _ _)) by lia. simpl. case_decide as Hd.
    - rewrite (proj2 (Z.leb_gt _ _)) by lia. done.
    - rewrite (proj2 (Z.leb_le _ _)) by lia. simpl. lia. }
  assert (exists x r2, take 1023 header ++ 0 :: r1 = h ++ x :: r2) as (x & r2 & Hbuf).
  { unfold h. case_decide as Hd; [rewrite take_ge by lia; by eexists _, _|].
    destruct (take 1023 header); by eexists _, _. }
  rewrite Hbuf in *. rewrite Nat2Z.id, (store_eq _ h [x] r2 [0]) by done. cbn [mbind outcome_bind].
  assert (length (h ++ [0] ++ r2) = 1024%nat) as Hl2.
  { rewrite Hjunk in Hl1. rewrite length_app in *. simpl in *. lia. }
  destruct (snprintf_eq h ([0] ++ r2) (Z.to_nat (1024 - Z.of_nat (length h))) text) as (r3 & Hs3 & Hl3);
    [lia|rewrite length_app in Hl2; lia|].
  rewrite Hs3. cbn [mbind outcome_bind]. clear Hs3.
  set (k := (Z.to_nat (1024 - Z.of_nat (length h)) - 1)%nat) in *.
  set (buf3 := h ++ take k text ++ 0 :: r3).
  assert (length buf3 = 1024%nat) as Hb3 by (unfold buf3; rewrite length_app, Hl3; rewrite length_app in Hl2; lia).
  set (e := Nat.min (length h + length text) 1022).
  match goal with |- context [if 1024 <=? _ + ?tl + LINE_END_SIZE then _ else _] => set (tlen := tl) end.
  assert (Z.of_nat (length h) + (if 1024 <=? Z.of_nat (length h) + tlen + LINE_END_SIZE
    then tlen - (Z.of_nat (length h) + tlen + LINE_END_SIZE - 1024) else tlen) = Z.of_nat e) as ->.
  { unfold tlen, e, LINE_END_SIZE. rewrite (proj2 (Z.ltb_ge (Z.of_nat (length text)) 0)) by lia. simpl.
    destruct (Z.leb_spec 1024 (Z.of_nat (length text) + Z.of_nat (length h)));
      match goal with |- context [1024 <=? ?z] => destruct (Z.leb_spec 1024 z) end; lia. }
  rewrite (proj2 (Z.ltb_ge _ 0)) by lia. rewrite Nat2Z.id. cbn [USBI_LOG_LINE_END app].
  destruct (split_at buf3 e 2) as (pre & mid & post & Hsp & Hpre & Hmid); [lia|].
  rewrite <- Hpre, (store_eq _ pre mid post [10; 0]) by done.
  eexists. split; [done|]. split.
  { rewrite Hsp in Hb3. rewrite !length_app in *. simpl. lia. }
  assert (pre = take 1022 (h ++ text)) as Hprefix.
  { assert (pre = take e buf3) as -> by (by rewrite Hsp, <- Hpre, take_app_length).
    unfold buf3. rewrite app_assoc. rewrite take_app_le by (rewrite length_app, length_take; lia).
    unfold e. destruct (decide (length h + length text <= 1022)%nat).
    - rewrite Nat.min_l by lia. rewrite (take_ge text k) by lia.
      rewrite !take_ge by (rewrite length_app; lia). done.
    - rewrite Nat.min_r by lia. rewrite !take_app, take_take, Nat.min_l by lia. done. }
  rewrite <- Hprefix. change (pre ++ [10; 0] ++ post) with (pre ++ [10] ++ 0 :: post). rewrite app_assoc.
  rewrite cstring_prefix; [done|]. apply Forall_app. split; [|by repeat constructor].
  rewrite Hprefix. apply Forall_take, Forall_app. split; [|done]. unfold h. by case_decide.
Qed.

Lemma log_line_bounded_witness :
  exists buf, format_line (replicate 1024 7) (bytes_of "libusb: info [f] ") (replicate 2000 65) = Ok buf /\
    length buf = 1024%nat /\
    cstring buf = take 1022 (bytes_of "libusb: info [f] " ++ replicate 2000 65) ++ [10].
Proof.
  apply (log_line_bounded (replicate 1024 7) (bytes_of "libusb: info [f] ") (replicate 2000 65)).
  - apply length_replicate.
  - by apply (bool_decide_unpack _).
  - apply Forall_replicate. done.
Defined.
