(* ===== verification/EventProps.v ===== *)
(** * Properties of event handling *)

From S2P Require Import Prelude Heap ParseDesc DescApi Core Devices DeviceRefs Hotplug Transfers TransferSpecs Events Handles EventPipe PollSpecs Demo.

(** ** The event pipe *)




(** ** Poll descriptors *)

(** C35: the poll descriptors of a context stay consistent.  Adding and
    removing a descriptor keep the count equal to the number of entries,
    each entry a block of its own, and ask for the array to be rebuilt;
    removing takes out the first entry with that descriptor, and only that
    one.  The rebuilding in [handle_events] then runs neither into its
    assertion nor over the end of the array, and yields exactly the current
    entries; only when there is no memory does it fail, and then the old
    array is gone and the request stands. *)
Theorem pollfds_consistent {W : Type} (app_fd : nat -> bool -> Z -> Z -> W -> W) (F : gmultiset nat) (s : lib W)
    (fd events k : Z) (Hinv : pollfds_inv F s) (Hk : k <= Z.of_nat (length (ipollfds (ev s)))) :
  (exists r s', usbi_add_pollfd (w_fd_cb app_fd) fd events s = Ok (r, s') /\ pollfds_inv F s' /\
     if r =? 0 then exists b, ipollfds (ev s') = ipollfds (ev s) ++ [mk_pollfd b fd events]
     else r = LIBUSB_ERROR_NO_MEM /\ ipollfds (ev s') = ipollfds (ev s)) /\
  (exists s', usbi_remove_pollfd (w_fd_cb app_fd) fd s = Ok (tt, s') /\ pollfds_inv F s' /\
     match find (fun p => pfd_fd p =? fd) (ipollfds (ev s)) with
     | None => s' = s
     | Some p => exists l1 l2, ipollfds (ev s) = l1 ++ p :: l2 /\ ipollfds (ev s') = l1 ++ l2 /\
         Forall (fun q => pfd_fd q <> fd) l1
     end) /\
  (exists ok s', refresh_pollfds k s = Ok (ok, s') /\ pollfds_inv F s' /\ ipollfds (ev s') = ipollfds (ev s) /\
     if ok : bool then snd <$> pollfds (ev s') = Some (map poll_entry (ipollfds (ev s)))
     else ~ no_malloc_failure (mem s)).
Proof.
  split; [|split].
  - pose proof (add_pollfd_wp app_fd F fd events s Hinv) as Hrun.
    apply wp_ok in Hrun as (r & s' & Hrun & Hpost). by exists r, s'.
  - pose proof (remove_pollfd_wp app_fd F fd s Hinv) as Hrun.
    apply wp_ok in Hrun as ([] & s' & Hrun & Hinv' & _ & Hpost). by exists s'.
  - pose proof (refresh_pollfds_wp app_fd F k s Hinv Hk) as Hrun.
    apply wp_ok in Hrun as (r & s' & Hrun & Hpost). by exists r, s'.
Qed.

(** A context with the descriptors 3 (the event pipe) and 9. *)
Definition demo_polled : lib demo :=
  set_ev (mk_ev 1 0 [] [] [mk_pollfd 0 3 1; mk_pollfd 1 9 4] 2 (Some (2%nat, [(3, 1)])) 1) (demo_lib (demo_heap 4)).

Lemma pollfds_consistent_witness :
  (exists r s', usbi_add_pollfd (w_fd_cb (fun _ _ _ _ w => w)) 9 1 demo_polled = Ok (r, s') /\
     pollfds_inv {[+ 3%nat +]} s' /\
     if r =? 0 then exists b, ipollfds (ev s') = [mk_pollfd 0 3 1; mk_pollfd 1 9 4] ++ [mk_pollfd b 9 1]
     else r = LIBUSB_ERROR_NO_MEM /\ ipollfds (ev s') = [mk_pollfd 0 3 1; mk_pollfd 1 9 4]) /\
  (exists s', usbi_remove_pollfd (w_fd_cb (fun _ _ _ _ w => w)) 9 demo_polled = Ok (tt, s') /\ pollfds_inv {[+ 3%nat +]} s' /\
     exists l1 l2, [mk_pollfd 0 3 1; mk_pollfd 1 9 4] = l1 ++ mk_pollfd 1 9 4 :: l2 /\ ipollfds (ev s') = l1 ++ l2 /\
         Forall (fun q => pfd_fd q <> 9) l1) /\
  (exists ok s', refresh_pollfds 1 demo_polled = Ok (ok, s') /\ pollfds_inv {[+ 3%nat +]} s' /\
     ipollfds (ev s') = [mk_pollfd 0 3 1; mk_pollfd 1 9 4] /\
     if ok : bool then snd <$> pollfds (ev s') = Some [(3, 1); (9, 4)] else ~ no_malloc_failure (demo_heap 4)).
Proof.
  apply (pollfds_consistent (fun _ _ _ _ w => w) {[+ 3%nat +]} demo_polled 9 1 1); [|simpl; lia].
  split.
  - done.
  - by vm_compute.
  - by apply (bool_decide_unpack _).
  - exact (demo_heap_fresh 4).
  - by split.
  - done.
Defined.

(** ** The time for poll *)

(** [handle_events] rounds the time it may wait up to milliseconds: it
    never polls for less than the caller allowed, and for less than one
    millisecond more, as long as the time in milliseconds fits an [int]. *)
Theorem poll_timeout_rounds_up (tv : timeval) (Hsec : 0 <= tv_sec tv) (Husec : 0 <= tv_usec tv < 1000000)
    (Hfits : tv_sec tv * 1000 + 1000 < 2 ^ 31) :
  let micros := tv_sec tv * 1000000 + tv_usec tv in
  micros <= poll_timeout_ms tv * 1000 < micros + 1000.
Proof.
  intros micros. unfold poll_timeout_ms. rewrite Z.quot_div_nonneg, Z.rem_mod_nonneg by lia.
  pose proof (Z.div_mod (tv_usec tv) 1000 ltac:(lia)) as Heq.
  pose proof (Z.mod_pos_bound (tv_usec tv) 1000 ltac:(lia)) as Hm.
  assert (0 <= tv_usec tv / 1000 < 1000) as Hd by (split; [apply Z.div_pos; lia|apply Z.div_lt_upper_bound; lia]).
  rewrite (i32_small (tv_sec tv * 1000)) by lia. rewrite (i32_small (_ + _)) by lia.
  destruct (Z.eqb_spec (tv_usec tv mod 1000) 0) as [Hz|Hnz]; [unfold micros; lia|].
  rewrite i32_small by lia. unfold micros. lia.
Qed.

Lemma poll_timeout_rounds_up_witness :
  2 * 1000000 + 1 <= poll_timeout_ms (mk_tv 2 1) * 1000 < 2 * 1000000 + 1 + 1000.
Proof. apply (poll_timeout_rounds_up (mk_tv 2 1)); simpl; lia. Defined.
