(* ===== verification/CtxProps.v ===== *)
(** * Properties of contexts *)

From S2P Require Import Prelude Heap ParseDesc DescApi Core Devices DeviceRefs Hotplug Transfers TransferSpecs Events EventPipe HotplugLife PollSpecs Ctx Demo.

(** Nothing has happened in the context yet. *)
Record new_events {W} (s : lib W) : Prop := mk_new_events {
  ne_flags : event_flags (ev s) = 0;
  ne_close : device_close (ev s) = 0;
  ne_count : pollfds_cnt (ev s) = 0;
  ne_array : pollfds (ev s) = None;
  ne_added : fd_added_cb s = None;
  ne_removed : fd_removed_cb s = None;
  ne_bytes : pipe_bytes (ev s) = 0;
  ne_messages : hotplug_msgs (ev s) = [];
  ne_completed : completed_transfers (ev s) = [];
  ne_callbacks : hotplug_cbs s = []
}.

(** What a backend promises about its start and end.  The initialisation only
    enumerates devices, whatever its result; once it has succeeded the world
    is [started], which the system calls keep, and then the end only changes
    the world. *)
Definition init_post {W} (be : os_backend W) (started : W -> Prop) (r : Z) (s s' : lib W) : Prop :=
  (exists m l h w, s' = set_devices m (set_usb_devs l (set_mem h (set_world w s)))) /\
  devices_ok be (live (mem s)) (list_refs (usb_devs s')) s' /\ NoDup (usb_devs s') /\
  same_oracles (mem s) (mem s') /\ (r = 0 -> started (world s')).
Class InitContract {W : Type} (be : os_backend W) (ready started : W -> Prop) : Prop := {
  init_law init s : be_init be = Some init -> devices s = ∅ -> usb_devs s = [] -> io_ready s = false -> new_events s ->
    heap_fresh (mem s) -> ready (world s) -> wp init s (fun r s' => init_post be started r s s');
  no_init_law w : be_init be = None -> ready w -> started w;
  exit_law exit s : be_exit be = Some exit -> started (world s) -> wp exit s (fun _ s' => exists w, s' = set_world w s);
  started_pipe w : started w -> started (os_pipe be w).2;
  started_timerfd w : started w -> started (os_timerfd_create be w).2;
  started_close fd w : started w -> started (os_close be fd w).2
}.

Lemma no_devices_ok {W} (be : os_backend W) s :
  has_hotplug be = true -> devices s = ∅ -> devices_ok be (live (mem s)) (list_refs []) s.
Proof.
  intros Hhot Hdev. rewrite list_refs_nil. split; [|split; [|intros ?; congruence]]; rewrite Hdev.
  - split; [done|]. split; [|by exists (fun _ => 0%nat)]. intros d Hd.
    unfold parent_refs in Hd. rewrite map_sum_empty in Hd. multiset_solver.
  - unfold blocks. by rewrite map_sum_empty, (left_id_L ∅ (⊎)).
Qed.

Section ctx.
Context {W : Type} (be : os_backend W) (ready started : W -> Prop) `{!InitContract be ready started}.
Variable app_fd : nat -> bool -> Z -> Z -> W -> W.
Context (Hhot : has_hotplug be = true).
Implicit Types (s : lib W) (g : libusb W) (F E : gmultiset nat).
Abbreviation fd_cb := (w_fd_cb app_fd).

(** ** The devices of the list *)

Lemma drop_devices_wp F s :
  devices_ok be F (list_refs (usb_devs s)) s -> NoDup (usb_devs s) ->
  wp (drop_devices be) s (fun _ s' => live (mem s') = F /\ same_oracles (mem s) (mem s')).
Proof.
  intros Hok Hnd. unfold drop_devices. apply wp_bind, wp_gets.
  assert (wp (for_each (fun d => l ← gets usb_devs; l ← lift (list_del d l); modify (set_usb_devs l) ;;
    libusb_unref_device be (Some d)) (usb_devs s)) s
    (fun _ s' => devices_ok be F ∅ s' /\ same_oracles (mem s) (mem s'))) as Hloop.
  { eapply wp_mono; [apply (wp_for_each _ (fun l s' => usb_devs s' = l /\ NoDup l /\
      devices_ok be F (list_refs l) s' /\ same_oracles (mem s) (mem s')))|].
    - done.
    - intros d l s1 (Hl & Hnd1 & Hok1 & Ho1). apply NoDup_cons in Hnd1 as [Hd Hnd1].
      apply wp_bind, wp_gets, wp_bind. rewrite Hl. eapply wp_lift; [apply list_del_wp; set_solver|].
      rewrite filter_cons_False by tauto.
      rewrite filter_ne_id by done.
      apply wp_bind, wp_modify. eapply wp_mono; [apply (libusb_unref_device_wp be (Some d) (list_refs l) F)|].
      + destruct Hok1 as (Hr & Hlive & Hc). split; [by rewrite list_refs_cons in Hr|]. split; [done|].
        intros Hf. congruence.
      + intros [] s2 (Hok2 & _ & (_ & Ho2 & _ & Hu2)). split; [by rewrite Hu2|]. split; [done|]. split; [done|].
        by etrans.
    - intros [] s1 (_ & _ & Hok1 & Ho1). by split. }
  eapply wp_mono; [exact Hloop|]. intros [] s' [(Hr & Hl & _) Ho]. split; [|done].
  rewrite Hl, (refs_ok_empty _ Hr). unfold blocks. rewrite map_sum_empty. by rewrite (left_id_L ∅ (⊎)).
Qed.

(** ** The descriptors of a new context *)

(** What the set-up of event handling leaves alone. *)
Definition io_frame s s' : Prop :=
  devices s' = devices s /\ usb_devs s' = usb_devs s /\ io_ready s' = io_ready s /\ pollfds (ev s') = pollfds (ev s) /\
  world s' = world s /\ fd_added_cb s' = None /\ fd_removed_cb s' = None.
Lemma events_only_frame s s' :
  events_only s s' -> fd_added_cb s = None -> fd_removed_cb s = None -> io_frame s s'.
Proof. intros (e & h & w & -> & Hp & Hw) Ha Hr. rewrite Hw by done. by split_and!. Qed.

Lemma add_first_wp F fd events s :
  pollfds_pre F s -> fd_added_cb s = None -> fd_removed_cb s = None ->
  wp (usbi_add_pollfd fd_cb fd events) s (fun r s' => io_frame s s' /\
    if r =? 0 then pollfds_inv F s' /\ exists b, ipollfds (ev s') = ipollfds (ev s) ++ [mk_pollfd b fd events]
    else r < 0 /\ exists h, s' = set_mem h s /\ live h = live (mem s) /\ same_oracles (mem s) h).
Proof.
  intros Hpre Ha Hr. eapply wp_mono; [by apply add_pollfd_pre_wp|]. intros r s' [Honly Hpost].
  split; [by apply events_only_frame|]. destruct (r =? 0); [done|]. by destruct Hpost as (-> & Hpost).
Qed.

Definition io_post s (r : Z) s' : Prop :=
  devices s' = devices s /\ usb_devs s' = usb_devs s /\
  (r < 0 -> live (mem s') = live (mem s) /\ started (world s')) /\
  (0 <= r -> r = 0 /\ io_ready s' = true /\ pollfds_inv (live (mem s)) s').

Lemma event_close_wp fd s : started (world s) ->
  wp (backend_op (os_close be fd)) s (fun _ s' => exists w, s' = set_world w s /\ started w).
Proof.
  intros Hst. apply wp_backend_op. intros a w Hc. exists w. split; [done|].
  pose proof (started_close fd _ Hst) as H. by rewrite Hc in H.
Qed.

(** The ends of the error paths. *)
Lemma event_close_pipe_wp fd0 fd1 (r : Z) s : started (world s) ->
  wp (backend_op (os_close be fd0) ;; backend_op (os_close be fd1) ;; mret r) s
    (fun r' s' => r' = r /\ exists w, s' = set_world w s /\ started w).
Proof.
  intros Hst. apply wp_bind. eapply wp_mono; [by apply event_close_wp|]. intros ? s1 (w1 & -> & Hw1).
  apply wp_bind. eapply wp_mono; [by apply event_close_wp|]. intros ? s2 (w2 & -> & Hw2). apply wp_ret.
  split; [done|]. by exists w2.
Qed.
Lemma remove_only_wp F fd0 b s : pollfds_inv F s -> ipollfds (ev s) = [mk_pollfd b fd0 POLLIN] -> pollfds (ev s) = None ->
  fd_added_cb s = None -> fd_removed_cb s = None ->
  wp (usbi_remove_pollfd fd_cb fd0) s (fun _ s' => io_frame s s' /\ live (mem s') = F).
Proof.
  intros Hinv Hi Hp Ha Hr. eapply wp_mono; [by apply remove_pollfd_wp|]. intros [] s' (Hinv' & Honly & Hfind).
  pose proof (events_only_frame _ _ Honly Ha Hr) as Hframe. split; [done|].
  rewrite Hi in Hfind. simpl in Hfind. rewrite Z.eqb_refl in Hfind. destruct Hfind as (l1 & l2 & Hl & Hi' & _).
  destruct Hframe as (_ & _ & _ & Hp' & _). rewrite (pf_live _ _ Hinv'), Hp', Hp, Hi'.
  assert (l1 = [] /\ l2 = []) as [-> ->] by (destruct l1 as [|? []]; naive_solver). unfold pfd_blocks. simpl. multiset_solver.
Qed.

Lemma io_init_wp s :
  new_events s -> heap_fresh (mem s) -> started (world s) -> wp (usbi_io_init be fd_cb) s (io_post s).
Proof.
  intros [N1 N2 N3 N4 N5 N6 _ _ _ _] Hfresh Hst. unfold usbi_io_init. apply wp_bind, wp_modify, wp_bind, wp_backend_op.
  intros [r [fd0 fd1]] w0 Hpipe. cbn [world set_io_ready set_flying_transfers set_ev] in Hpipe.
  assert (started w0) as Hst0 by (pose proof (started_pipe _ Hst) as H; by rewrite Hpipe in H).
  destruct (Z.ltb_spec r 0); [apply wp_ret; split; [done|]; split; [done|]; split; [done|unfold LIBUSB_ERROR_OTHER; lia]|].
  apply wp_bind, wp_modify. set (s0 := set_event_pipe _ _). apply wp_bind.
  eapply wp_mono; [apply (add_first_wp (live (mem s)) fd0 POLLIN s0)|]; [|done|done|].
  { split; simpl; try done; [by rewrite N4; multiset_solver|constructor|].
    split; [simpl; lia|]. unfold usbi_pending_events. simpl. by rewrite N1, N2. }
  intros r1 s1 [(D1 & U1 & I1 & P1 & W1 & A1 & R1) Hr1]. destruct (Z.eqb_spec r1 0) as [->|Hne].
  2:{ destruct Hr1 as (Hneg & h1 & -> & Hl1 & _). rewrite (proj2 (Z.ltb_lt r1 0)) by done.
      eapply wp_mono; [by apply event_close_pipe_wp|]. intros r' s2 (-> & w & -> & Hw).
      split; [done|]. split; [done|]. split; [done|lia]. }
  destruct Hr1 as (Hinv1 & b & Hb). simpl. apply wp_bind, wp_backend_op. intros fd w1 Ht.
  assert (started w1) as Hst1 by (pose proof (started_timerfd _ Hst0) as H'; rewrite W1 in Ht; simpl in Ht; by rewrite Ht in H').
  destruct (Z.ltb_spec fd 0).
  { apply wp_bind, wp_modify, wp_ret. split; [done|]. split; [done|]. split; [lia|]. intros _. split; [done|].
    split; [exact I1|]. by destruct Hinv1. }
  apply wp_bind, wp_modify, wp_bind. set (s2 := set_timerfd_fd _ _).
  eapply wp_mono; [apply (add_first_wp (live (mem s)) fd POLLIN s2)|]; [|done|done|].
  { by destruct (pollfds_inv_pre _ _ Hinv1). }
  intros r3 s3 [(D3 & U3 & I3 & P3 & W3 & A3 & R3) Hr3]. destruct (Z.eqb_spec r3 0) as [->|Hne].
  { destruct Hr3 as [Hinv3 _]. apply wp_ret. split; [by rewrite D3|]. split; [by rewrite U3|]. split; [simpl; lia|].
    intros _. split; [done|]. split; [by rewrite I3; simpl; rewrite I1|done]. }
  destruct Hr3 as (Hneg & h3 & -> & Hl3 & Ho3). rewrite (proj2 (Z.ltb_lt r3 0)) by done. apply wp_bind.
  eapply wp_mono; [apply event_close_wp; exact Hst1|]. intros [] s4 (w4 & -> & Hw4). apply wp_bind.
  eapply wp_mono; [apply (remove_only_wp (live (mem s)) fd0 b)|].
  - destruct Hinv1. split; simpl; try done; [by rewrite Hl3|by apply Ho3].
  - exact Hb.
  - simpl. by rewrite P1.
  - done.
  - done.
  - intros [] s5 [(D5 & U5 & _ & _ & W5 & _) Hl5]. eapply wp_mono; [apply event_close_pipe_wp; by rewrite W5|].
    intros r' s6 (-> & w6 & -> & Hw6). split; [simpl; by rewrite D5|]. split; [simpl; by rewrite U5|]. split; [done|lia].
Qed.

(** ** Contexts *)

(** Entering a context and leaving it. *)
Definition enter g s : lib W := set_next_cb_handle (handle_id g) (set_world (all_world g) (set_mem (all_mem g) s)).
Definition leave (ctx : nat) s g : libusb W :=
  mk_libusb (mem s) (world s) (next_cb_handle s) (<[ctx := s]> (contexts g))
    (usbi_default_context g) (default_context_refcnt g) (active_contexts_list g).

Lemma in_context_wp {A} ctx (op : Lib W A) g s Q :
  contexts g !! ctx = Some s -> wp op (enter g s) (fun a s' => Q a (leave ctx s' g)) -> wp (in_context ctx op) g Q.
Proof. intros Hc. unfold wp, in_context, enter. rewrite Hc. destruct (op _) as [[a s']|]; done. Qed.
Lemma on_all_mem_wp {A} (m : M heap A) g (Q : A -> libusb W -> Prop) :
  wp m (all_mem g) (fun a h => Q a (mk_libusb h (all_world g) (handle_id g) (contexts g) (usbi_default_context g)
    (default_context_refcnt g) (active_contexts_list g))) -> wp (on_all_mem m) g Q.
Proof. unfold wp, on_all_mem. destruct (m _) as [[a h]|]; done. Qed.

(** Every context is a block, the default context and the active ones
    exist. *)
Record contexts_ok g : Prop := mk_contexts_ok {
  co_blocks : forall c, is_Some (contexts g !! c) -> c ∈ live (all_mem g);
  co_active : forall c, c ∈ active_contexts_list g -> is_Some (contexts g !! c);
  co_default : forall c, usbi_default_context g = Some c -> is_Some (contexts g !! c);
  co_fresh : heap_fresh (all_mem g)
}.
Definition unchanged g g' : Prop :=
  live (all_mem g') = live (all_mem g) /\ contexts g' = contexts g /\ usbi_default_context g' = usbi_default_context g /\
  default_context_refcnt g' = default_context_refcnt g /\ active_contexts_list g' = active_contexts_list g.

(** [g1]: inside [libusb_init], where the new context [ctx] is registered. *)
Record registered (ctx : nat) g g1 : Prop := mk_registered {
  rg_contexts : exists s, contexts g1 = <[ctx := s]> (contexts g);
  rg_new : contexts g !! ctx = None;
  rg_default : usbi_default_context g1 = match usbi_default_context g with None => Some ctx | Some c => Some c end;
  rg_count : default_context_refcnt g1 = match usbi_default_context g with None => default_context_refcnt g + 1 | Some _ => default_context_refcnt g end;
  rg_active : active_contexts_list g1 = ctx :: active_contexts_list g;
  rg_live : ctx ∉ active_contexts_list g
}.

Lemma registered_leave ctx g g1 s : registered ctx g g1 -> registered ctx g (leave ctx s g1).
Proof. intros [[s1 H1] H2 H3 H4 H5 H6]. split; try done. exists s. simpl. by rewrite H1, insert_insert_eq. Qed.

Lemma abandon_wp ctx g g1 s :
  contexts_ok g -> registered ctx g g1 -> contexts g1 !! ctx = Some s ->
  devices_ok be ({[+ ctx +]} ⊎ live (all_mem g)) (list_refs (usb_devs s)) (enter g1 s) -> NoDup (usb_devs s) ->
  wp (abandon_context be ctx) g1 (fun _ g' => unchanged g g').
Proof.
  intros [_ _ Hdef _] [[s1 H1] H2 H3 H4 H5 H6] Hs Hok Hnd. unfold abandon_context.
  apply wp_bind. change (wp get g1 ?Q) with (Q g1 g1). cbv beta. apply wp_bind.
  set (g2 := if bool_decide (usbi_default_context g1 = Some ctx) then set_default None (default_context_refcnt g1 - 1) g1 else g1).
  assert (contexts g2 = contexts g1 /\ all_mem g2 = all_mem g1 /\ enter g2 s = enter g1 s /\
    active_contexts_list g2 = ctx :: active_contexts_list g /\
    usbi_default_context g2 = usbi_default_context g /\ default_context_refcnt g2 = default_context_refcnt g)
    as (C2 & M2 & E2 & A2 & U2 & N2).
  { unfold g2. destruct (usbi_default_context g) as [c|] eqn:Hg.
    - rewrite bool_decide_false; [by rewrite H3, H4|]. rewrite H3. intros [= ->].
      destruct (Hdef ctx eq_refl). congruence.
    - rewrite bool_decide_true by done. simpl. rewrite H4. split_and!; done || lia. }
  apply (wp_mono _ _ (fun _ g' => g' = g2)); [unfold g2; by case_bool_decide|]. intros [] g0 ->.
  apply wp_bind. unfold leave_active. apply wp_bind. change (wp get g2 ?Q) with (Q g2 g2). cbv beta.
  apply wp_bind. eapply wp_lift; [apply list_del_wp; rewrite A2; set_solver|]. apply wp_modify.
  apply wp_bind. eapply in_context_wp; [simpl; by rewrite C2|].
  eapply wp_mono; [apply (drop_devices_wp ({[+ ctx +]} ⊎ live (all_mem g)) (enter g2 s)); [by rewrite E2|done]|].
  intros [] s3 [Hl3 _]. unfold free_context. apply wp_bind, on_all_mem_wp. simpl.
  eapply free_wp; [exact Hl3|]. intros h Hh _. apply wp_modify. simpl.
  split; [done|]. split; [by rewrite C2, H1, insert_insert_eq, delete_insert_id|]. split; [done|]. split; [done|].
  by rewrite A2, filter_cons_False, filter_ne_id by tauto.
Qed.

(** After the registration: the backend, the event handling. *)
Definition init_result (context : bool) g (r : Z) (oc : option nat) g' : Prop :=
  if r =? 0 then
    exists ctx s, registered ctx g g' /\ contexts g' = <[ctx := s]> (contexts g) /\ (oc = if context then Some ctx else None) /\
      io_ready s = true /\ (exists F, pollfds_inv F s) /\ refs_ok (devices s) (list_refs (usb_devs s))
  else oc = None /\ unchanged g g'.

(** Between the backend's start and that of event handling. *)
Record started_context (ctx : nat) g (r : Z) g2 s : Prop := mk_started_context {
  sc_context : contexts g2 !! ctx = Some s;
  sc_registered : registered ctx g g2;
  sc_devices : devices_ok be ({[+ ctx +]} ⊎ live (all_mem g)) (list_refs (usb_devs s)) (enter g2 s);
  sc_nodup : NoDup (usb_devs s);
  sc_new : new_events s;
  sc_fresh : heap_fresh (all_mem g2);
  sc_started : r = 0 -> started (all_world g2)
}.

Lemma enter_leave ctx s g : enter (leave ctx s g) s = s.
Proof. by destruct s. Qed.

Lemma run_init_wp ctx g g1 s :
  registered ctx g g1 -> contexts g1 !! ctx = Some s -> devices s = ∅ -> usb_devs s = [] -> io_ready s = false ->
  new_events s -> heap_fresh (all_mem g1) -> live (all_mem g1) = {[+ ctx +]} ⊎ live (all_mem g) -> ready (all_world g1) ->
  wp (match be_init be with Some init => in_context ctx init | None => mret 0 end) g1
    (fun r g2 => exists s2, started_context ctx g r g2 s2).
Proof.
  intros Hreg Hs Hdev Husb Hio Hnew Hfresh Hlive Hready. destruct (be_init be) as [init|] eqn:Hinit.
  - eapply in_context_wp; [exact Hs|]. eapply wp_mono; [apply init_law; try done; by destruct Hnew|].
    intros r s2 ((m & l & h & w & Heq) & Hok & Hnd & Ho & Hst). exists s2. split.
    + simpl. apply lookup_insert_eq.
    + by apply registered_leave.
    + rewrite enter_leave. simpl in Hok. by rewrite Hlive in Hok.
    + done.
    + rewrite Heq. by destruct Hnew.
    + by apply Ho.
    + done.
  - apply wp_ret. exists s. split; try done.
    + rewrite Husb, <- Hlive. by apply no_devices_ok.
    + rewrite Husb. constructor.
    + intros _. by apply no_init_law.
Qed.

Lemma io_start_wp ctx context g g2 s :
  contexts_ok g -> started_context ctx g 0 g2 s ->
  wp (r ← in_context ctx (usbi_io_init be fd_cb);
      if r <? 0 then in_context ctx (run_backend_exit be) ;; abandon_context be ctx ;; mret (r, None)
      else mret (0, if context : bool then Some ctx else None)) g2
    (fun res g' => init_result context g res.1 res.2 g').
Proof.
  intros Hg [Hs Hreg Hok Hnd Hnew Hfresh Hst]. apply wp_bind. eapply in_context_wp; [exact Hs|].
  eapply wp_mono; [apply io_init_wp; [by destruct Hnew|done|by apply Hst]|].
  intros r s3 (D3 & U3 & Hfail & Hdone). destruct (Z.ltb_spec r 0) as [Hneg|Hpos].
  - destruct (Hfail Hneg) as [Hl3 Hst3]. apply wp_bind. eapply in_context_wp; [apply lookup_insert_eq|].
    apply (wp_mono _ _ (fun _ s4 => exists w, s4 = set_world w s3)).
    { unfold run_backend_exit. rewrite enter_leave. destruct (be_exit be) as [exit|] eqn:Hexit; [by apply exit_law|].
      apply wp_ret. exists (world s3). by destruct s3. }
    intros [] s4 [w4 ->]. apply wp_bind.
    eapply wp_mono; [apply (abandon_wp ctx g _ (set_world w4 s3)); [done|by do 2 apply registered_leave|apply lookup_insert_eq| |]|].
    + rewrite enter_leave. simpl. rewrite U3. destruct Hok as (Hr & Hl & _). split; [simpl; by rewrite D3|].
      split; [|intros Hf; congruence]. simpl. by rewrite D3, Hl3.
    + simpl. by rewrite U3.
    + intros [] g' Hun. apply wp_ret. unfold init_result. simpl. by rewrite (proj2 (Z.eqb_neq _ _)) by lia.
  - destruct (Hdone Hpos) as (-> & Hready & Hinv). apply wp_ret. exists ctx, s3. simpl.
    pose proof Hreg as [[s' Hc] _ _ _ _ _]. rewrite Hc, insert_insert_eq, D3, U3. split; [by apply registered_leave|].
    split; [done|]. split; [done|]. split; [done|]. split; [by eexists|]. by destruct Hok.
Qed.
End ctx.

(** C8: [libusb_init] is all or nothing.  Without a request for a context of
    its own the caller shares the default context, which counts its users.
    Otherwise, wherever the start fails (memory, the backend, the event
    pipe, the registration of its descriptors), every block that was
    allocated is released, the devices that the backend had enumerated are
    gone, and neither the list of active contexts nor the default context
    remembers the attempt; after a success the new context is active, is the
    default context if there was none, and is ready for events. *)
Theorem libusb_init_atomic {W : Type} (be : os_backend W) (ready started : W -> Prop) (app_fd : nat -> bool -> Z -> Z -> W -> W)
    (context : bool) (dbg : option Z) (g : libusb W)
    (Hbe : InitContract be ready started) (Hhot : has_hotplug be = true) (Hg : contexts_ok g) (Hready : ready (all_world g)) :
  exists r oc g', libusb_init be (w_fd_cb app_fd) context dbg g = Ok ((r, oc), g') /\
    if negb context && bool_decide (is_Some (usbi_default_context g))
    then r = 0 /\ oc = None /\ g' = set_default (usbi_default_context g) (default_context_refcnt g + 1) g
    else init_result context g r oc g'.
Proof.
  assert (wp (libusb_init be (w_fd_cb app_fd) context dbg) g (fun res g' =>
    if negb context && bool_decide (is_Some (usbi_default_context g))
    then res.1 = 0 /\ res.2 = None /\ g' = set_default (usbi_default_context g) (default_context_refcnt g + 1) g
    else init_result context g res.1 res.2 g')) as Hrun.
  2:{ apply wp_ok in Hrun as ([r oc] & g' & Hrun & Hpost). by exists r, oc, g'. }
  unfold libusb_init. apply wp_bind. change (wp get g ?Q) with (Q g g). cbv beta.
  destruct (negb context && bool_decide (is_Some (usbi_default_context g))); [by apply wp_bind, wp_modify, wp_ret|].
  apply wp_bind, on_all_mem_wp. pose proof Hg as [Hblocks Hact Hdef Hfresh].
  apply (malloc_fresh_wp _ (live (all_mem g))); [done|done| |].
  2:{ intros h Hl Ho _. apply wp_ret. by split. }
  intros ctx h Hl Ho Hnew. apply wp_bind, wp_modify. simpl.
  assert (contexts g !! ctx = None) as Hctx.
  { destruct (contexts g !! ctx) eqn:Hc; [|done]. destruct Hnew. apply Hblocks. by eexists. }
  set (s := new_context _ _ _ _ _). set (g1 := set_contexts _ _). apply wp_bind.
  apply (wp_mono _ _ (fun _ g2 => g2 = match usbi_default_context g with
    | None => set_default (Some ctx) (default_context_refcnt g + 1) g1 | Some _ => g1 end)).
  { by destruct (usbi_default_context g). }
  intros [] g2 Hg2. apply wp_bind, wp_modify. set (g3 := set_active _ _).
  assert (registered ctx g g3 /\ contexts g3 !! ctx = Some s /\ all_mem g3 = h /\ all_world g3 = all_world g)
    as (Hreg & Hs & Hm & Hw).
  { subst g2. split; [split; try done|].
    - exists s. by destruct (usbi_default_context g).
    - by destruct (usbi_default_context g) eqn:Hd.
    - by destruct (usbi_default_context g) eqn:Hd.
    - by destruct (usbi_default_context g) eqn:Hd.
    - intros Hin. apply Hact in Hin as [? Hin]. congruence.
    - destruct (usbi_default_context g); simpl; (split; [apply lookup_insert_eq|done]). }
  apply wp_bind. eapply wp_mono; [eapply (run_init_wp be ready started) with (s := s); try done|].
  - by rewrite Hm; apply Ho.
  - by rewrite Hm.
  - by rewrite Hw.
  - intros r g4 [s4 Hsc]. destruct (Z.eqb_spec r 0) as [->|Hr]; simpl; [by eapply io_start_wp|].
    destruct Hsc. apply wp_bind. eapply wp_mono; [by eapply abandon_wp|]. intros [] g' Hun. apply wp_ret.
    unfold init_result. simpl. by rewrite (proj2 (Z.eqb_neq _ _)).
Qed.

(** A backend whose start connects one device, on a system where the code of
    [pipe] is that of the demo. *)
Definition demo_init : Lib demo Z :=
  d ← usbi_alloc_device demo_backend 258;
  match d with
  | None => mret LIBUSB_ERROR_NO_MEM
  | Some d => usbi_connect_device demo_backend d ;; mret 0
  end.
Definition demo_start_backend : os_backend demo :=
  let b := demo_backend in
  mk_backend demo 0 (Some demo_init) None None None (be_destroy_device b) (be_open b) (be_close b) None (be_set_configuration b)
    (be_claim_interface b) (be_release_interface b) (be_set_interface_altsetting b) (be_clear_halt b) (be_reset_device b)
    None None None None None None None (be_submit_transfer b) (be_cancel_transfer b) (be_clear_transfer_priv b)
    (be_handle_events b) (be_handle_transfer_completion b) (be_clock_gettime b) (os_mutex_init b) (os_timerfd_settime b)
    (os_timerfd_create b) (fun w => ((demo_code w, (3, 4)), w)) (os_close b) (os_poll b) (os_cond_wait b).

#[export] Instance demo_init_contract : InitContract demo_start_backend (fun _ => True) (fun _ => True).
Proof.
  split; try done. intros init s [= <-] Hdev Husb Hio _ Hfresh _. unfold demo_init, usbi_alloc_device.
  apply wp_bind, wp_bind, wp_on_mem. apply (malloc_fresh_wp _ (live (mem s))); [done|done| |].
  2:{ intros h Hl Ho _. apply wp_ret. split; [|split; [|split; [|by split]]].
      - exists (devices s), (usb_devs s), h, (world s). by destruct s.
      - simpl. rewrite Husb, <- Hl. by apply no_devices_ok.
      - simpl. rewrite Husb. constructor. }
  intros b h Hl Ho Hb. apply wp_bind, wp_backend_op. intros r w [= <- <-]. simpl.
  apply wp_bind, wp_put_device, wp_bind, wp_ret, wp_ret. simpl.
  set (x := mk_device _ _ _ _ _ _ _ _ _ _). apply wp_bind. unfold usbi_connect_device.
  apply wp_bind, (wp_get_device _ x); [apply lookup_insert_eq|].
  apply wp_bind, wp_put_device, wp_bind, wp_modify, wp_bind, wp_gets. simpl. rewrite Hio. apply wp_ret, wp_ret.
  destruct (no_devices_ok demo_start_backend s eq_refl Hdev) as (Hrefs & Hlive & _).
  split; [|split; [|split; [|by split]]]; simpl; rewrite Husb.
  - exists (<[b := set_attached true x]> (<[b := x]> (devices s))), [b], h, (world s). by destruct s.
  - split; [|split; [|done]]; simpl; rewrite Hdev, insert_insert_eq in *.
    + rewrite list_refs_cons. by apply refs_new.
    + rewrite Hl. unfold blocks. rewrite map_sum_insert, map_sum_empty by done. multiset_solver.
  - apply NoDup_singleton.
Qed.

(** One context is active; the next one fails at the pipe. *)
Definition demo_contexts : libusb demo :=
  mk_libusb (demo_heap 1) (mk_demo 0 (-1) []) 1 {[ 0%nat := new_context (demo_heap 0) 1 (mk_demo 0 0 []) 0 false ]} (Some 0%nat) 2 [0%nat].
Lemma demo_contexts_ok : contexts_ok demo_contexts.
Proof.
  split; simpl.
  - intros c [s Hc]. apply lookup_singleton_Some in Hc as [<- _]. by vm_compute.
  - intros c Hc. apply list_elem_of_singleton in Hc as ->. by rewrite lookup_singleton_eq.
  - intros c [= <-]. by rewrite lookup_singleton_eq.
  - apply demo_heap_fresh.
Qed.

Lemma libusb_init_atomic_witness :
  exists r oc g', libusb_init demo_start_backend (w_fd_cb (fun _ _ _ _ w => w)) true None demo_contexts = Ok ((r, oc), g') /\
    init_result true demo_contexts r oc g'.
Proof.
  apply (libusb_init_atomic demo_start_backend (fun _ => True) (fun _ => True) (fun _ _ _ _ w => w) true None demo_contexts);
    [exact _|done|exact demo_contexts_ok|exact I].
Defined.

(** In that run the device that the backend had connected was released. *)
Example failed_init_releases :
  match libusb_init demo_start_backend (w_fd_cb (fun _ _ _ _ w => w)) true None demo_contexts with
  | Ok ((r, oc), g) => r = LIBUSB_ERROR_OTHER /\ demo_log (all_world g) = [DemoDestroy 2] /\ elements (live (all_mem g)) = [0%nat]
  | Fault _ => False
  end.
Proof. vm_compute. auto. Qed.
