(* ===== verification/HotplugProps.v ===== *)
(** * Properties of hotplug *)

From S2P Require Import Prelude Heap ParseDesc DescApi Core Devices DeviceRefs Hotplug Transfers Events Handles EventPipe HotplugLife Demo.

(** C3: devices that come and go are never used after their end, and none
    is lost.  In every sequence in which the kernel reports devices that
    arrive and leave, the event handler takes the messages, and the
    application registers and deregisters callbacks and uses references it
    holds, every operation returns without a fault, whichever allocations
    fail.  The invariant holds throughout: the list of devices owns one
    reference on each, a message about a device that left owns the one that
    the list gave up, and a message about an arrival refers to a device that
    is kept alive until the message has been handled.  A reference is lost
    only where an allocation failed. *)
Theorem hotplug_lifetimes {W : Type} (be : os_backend W) (big : bool) (app : nat -> option nat -> Z -> W -> Z * W)
    (probe : nat -> Z -> Z -> Lib W Z) (F C C' : gmultiset nat) (ops : list hot_op) (s : lib W)
    (Hhot : has_hotplug be = true) (Hpoll : be_hotplug_poll be = None) (Hprobe : probe_law be true probe)
    (Hinv : hot_inv be true F ∅ C s) (Hops : hot_refs_all C ops = Some C') :
  exists s' L, for_each (run_hot_op be big app probe) ops s = Ok (tt, s') /\ hot_inv be true F L C' s' /\
    (no_malloc_failure (mem s) -> L = ∅) /\
    (forall d, d ∈ usb_devs s' \/ d ∈ C' -> is_Some (devices s' !! d)) /\
    (no_malloc_failure (mem s) -> usb_devs s' = [] -> hotplug_msgs (ev s') = [] -> C' = ∅ -> devices s' = ∅).
Proof.
  pose proof (hot_ops_wp be true big Hhot app Hpoll probe F ∅ C C' ops s eq_refl Hprobe Hinv Hops) as Hrun.
  apply wp_ok in Hrun as ([] & s' & Hrun & _ & L & Hinv' & HL). exists s', L.
  split; [done|]. split; [done|]. split; [done|]. split.
  - intros d Hd. eapply hot_inv_elem; [exact Hhot|exact Hinv'|]. destruct Hd; [by left|by right; right; left].
  - intros Hn Hu Hm Hc. destruct (hot_devices _ _ _ _ _ _ Hinv') as [Hrefs _].
    rewrite Hu, Hm, (HL Hn), Hc in Hrefs. by apply refs_ok_empty.
Qed.

(** A device arrives and leaves while a callback is registered. *)
Definition demo_probe (d : nat) (busnum devaddr : Z) : Lib demo Z := mret 0.
Definition demo_app (n : nat) (dev : option nat) (event : Z) (w : demo) : Z * demo := demo_do DemoOther w.

Lemma hotplug_lifetimes_witness :
  exists s' L, for_each (run_hot_op demo_backend false demo_app demo_probe)
      [HotRegister 3 0 (-1) (-1) (-1) (Some 0%nat); HotArrive 1 2; HotEvent 1; HotClient ClientList;
       HotLeave 1 2; HotDeregister 1; HotEvent 1; HotEvent 1] (demo_lib (demo_heap 0)) = Ok (tt, s') /\
    hot_inv demo_backend true ∅ L ∅ s' /\ (no_malloc_failure (demo_heap 0) -> L = ∅) /\
    (forall d, d ∈ usb_devs s' \/ d ∈ (∅ : gmultiset nat) -> is_Some (devices s' !! d)) /\
    (no_malloc_failure (demo_heap 0) -> usb_devs s' = [] -> hotplug_msgs (ev s') = [] ->
     (∅ : gmultiset nat) = ∅ -> devices s' = ∅).
Proof.
  apply (hotplug_lifetimes demo_backend false demo_app demo_probe ∅ ∅ ∅ _ (demo_lib (demo_heap 0))); [done|done| | |done].
  - intros d busnum devaddr F L C s Hinv Hd. apply wp_ret. split; [|done]. by apply hot_grow_intro.
  - split; simpl; try done; try constructor.
    + split; [by intros d x Hx|]. split; [|by exists (fun n => n)].
      intros d Hd. vm_compute in Hd. lia.
    + split; [by vm_compute|done].
    + intros b Hb. by apply gmultiset_not_elem_of_empty in Hb.
Defined.

(** The run of the example ends with no device and no block in use. *)
Example hotplug_lifetimes_run :
  match for_each (run_hot_op demo_backend false demo_app demo_probe)
      [HotRegister 3 0 (-1) (-1) (-1) (Some 0%nat); HotArrive 1 2; HotEvent 1; HotClient ClientList;
       HotLeave 1 2; HotDeregister 1; HotEvent 1; HotEvent 1] (demo_lib (demo_heap 0)) with
  | Ok (_, s) => (map_to_list (devices s), elements (live (mem s)), hotplug_cbs s, demo_log (world s))
  | Fault _ => ([], [0%nat], [], [])
  end = ([], [], [], [DemoOther; DemoDestroy 1]).
Proof. vm_compute. reflexivity. Qed.

(** ** Callbacks *)

(** C20: [usbi_hotplug_match] implements one pass over the registered
    callbacks.  Each callback whose filters accept the event is called once,
    in the order of the list; a callback that was deregistered, or that
    returns a value other than 0, is unlinked and freed, the others stay in
    their order; nothing else changes.  The loop survives the removal of the
    entry it stands on. *)
Theorem hotplug_match_refines {W : Type} (big : bool) (app : nat -> option nat -> Z -> W -> Z * W)
    (dev : option nat) (raw : list Z) (event : Z) (F : gmultiset nat) (s : lib W)
    (Hnd : NoDup (map cb_block (hotplug_cbs s))) (Hdev : event_device s dev raw event)
    (Hmem : live (mem s) = cb_blocks (hotplug_cbs s) ⊎ F) :
  exists h, let '(kept, w) := match_spec big app (hotplug_cbs s) dev raw event (world s) in
    usbi_hotplug_match big (app_fn app) dev event s = Ok (tt, set_mem h (set_world w (set_hotplug_cbs kept s))) /\
    live h = cb_blocks kept ⊎ F.
Proof.
  pose proof (hotplug_match_wp big app dev raw event F s Hnd Hdev Hmem) as Hrun.
  apply wp_ok in Hrun as ([] & s' & Hrun & Hc & Hw & Hl & _ & Hs). exists (mem s').
  destruct (match_spec _ _ _ _ _ _ _) as [kept w]. simpl in *. subst kept w. by rewrite <- Hs.
Qed.

(** Two callbacks: the first wants another vendor, the second is finished
    after this event. *)
Definition demo_cbs : list hotplug_callback :=
  [mk_cb 2 7 (-1) (-1) 3 0 1 false; mk_cb 3 (-1) (-1) (-1) 1 1 2 false].
Definition demo_with_cbs : lib demo :=
  set_hotplug_cbs demo_cbs (set_devices demo_devices
    (set_world (mk_demo 0 1 []) (demo_lib (demo_heap 4)))).

Lemma hotplug_match_refines_witness :
  exists h, let '(kept, w) := match_spec false demo_app demo_cbs (Some 1%nat) (replicate 18 0) 1 (mk_demo 0 1 []) in
    usbi_hotplug_match false (app_fn demo_app) (Some 1%nat) 1 demo_with_cbs
      = Ok (tt, set_mem h (set_world w (set_hotplug_cbs kept demo_with_cbs))) /\
    live h = cb_blocks kept ⊎ {[+ 0%nat; 1%nat +]}.
Proof.
  apply (hotplug_match_refines false demo_app (Some 1%nat) (replicate 18 0) 1 {[+ 0%nat; 1%nat +]} demo_with_cbs).
  - by apply (bool_decide_unpack _).
  - by exists demo_dev.
  - by vm_compute.
Defined.

(** Deregistration is lazy and exact.  [libusb_hotplug_deregister_callback]
    only marks the callbacks of the handle and wakes the event handler; when
    the event handler has matched the wake-up message, exactly those
    callbacks (and the ones marked before) are gone and freed, and no
    callback was called and no device looked at. *)
Theorem hotplug_deregister_exact {W : Type} (be : os_backend W) (big : bool)
    (app : nat -> option nat -> Z -> W -> Z * W) (handle : Z) (F : gmultiset nat) (s : lib W)
    (Hhot : has_hotplug be = true) (Hfresh : heap_fresh (mem s)) (Hpipe : pipe_ok (ev s))
    (Hnd : NoDup (map cb_block (hotplug_cbs s))) (Hmem : live (mem s) = cb_blocks (hotplug_cbs s) ⊎ F) :
  let kept := filter (fun c => cb_handle c <> handle /\ cb_needs_free c = false) (hotplug_cbs s) in
  exists s1 s2 lost, libusb_hotplug_deregister_callback be handle s = Ok (tt, s1) /\
    usbi_hotplug_match big (app_fn app) None 0 s1 = Ok (tt, s2) /\
    hotplug_cbs s2 = kept /\ live (mem s2) = cb_blocks kept ⊎ lost ⊎ F /\ (base.size lost <= 1)%nat /\
    world s2 = world s /\ devices s2 = devices s.
Proof.
  intros kept.
  assert (forall l, map cb_block (map (mark_needs_free handle) l) = map cb_block l) as Hblocks.
  { intros l. rewrite map_map. apply map_ext. intros c. unfold mark_needs_free. by case_match. }
  assert (forall l, cb_blocks (map (mark_needs_free handle) l) = cb_blocks l) as Hsum.
  { induction l as [|c l IH]; [done|]. unfold cb_blocks in *. simpl. rewrite IH.
    unfold mark_needs_free. by case_match. }
  assert (forall l, filter (fun c => cb_needs_free c = false) (map (mark_needs_free handle) l)
      = filter (fun c => cb_handle c <> handle /\ cb_needs_free c = false) l) as Hkept.
  { induction l as [|c l IH]; [done|]. simpl. rewrite !filter_cons, IH. unfold mark_needs_free.
    destruct (Z.eqb_spec (cb_handle c) handle); simpl; repeat case_decide; tauto || done. }
  set (s0 := set_hotplug_cbs (map (mark_needs_free handle) (hotplug_cbs s)) s).
  assert (wp (usbi_hotplug_notification None 0) s0 (fun _ s1 => exists lost, (base.size lost <= 1)%nat /\
      live (mem s1) = lost ⊎ live (mem s) /\ hotplug_cbs s1 = hotplug_cbs s0 /\ world s1 = world s /\
      devices s1 = devices s)) as Hnote.
  { apply (notification_wp _ _ s0 (live (mem s))); [done|done|done| |].
    - intros h Hl _ _. exists ∅. split; [by rewrite gmultiset_size_empty; lia|].
      split; [|done]. by rewrite (left_id_L ∅ (⊎)).
    - intros b h n Hl _ _. exists {[+ b +]}. split; [by rewrite gmultiset_size_singleton|done]. }
  apply wp_ok in Hnote as ([] & s1 & Hrun1 & lost & Hlost & Hl1 & Hc1 & Hw1 & Hd1).
  assert (live (mem s1) = cb_blocks (hotplug_cbs s1) ⊎ (lost ⊎ F)) as Hmem1.
  { rewrite Hl1, Hc1, Hmem. simpl. rewrite Hsum. multiset_solver. }
  assert (NoDup (map cb_block (hotplug_cbs s1))) as Hnd1 by (rewrite Hc1; simpl; by rewrite Hblocks).
  pose proof (hotplug_match_wp big app None [] 0 (lost ⊎ F) s1 Hnd1 eq_refl Hmem1) as Hmatch.
  apply wp_ok in Hmatch as ([] & s2 & Hrun2 & Hc2 & Hw2 & Hl2 & _ & Hs2).
  rewrite match_spec_collect in Hc2, Hw2, Hl2. rewrite Hc1 in Hc2, Hl2. simpl in *. rewrite Hkept in Hc2, Hl2.
  exists s1, s2, lost. split_and!; try done.
  - unfold libusb_hotplug_deregister_callback. rewrite Hhot. done.
  - rewrite Hl2. unfold kept. multiset_solver.
  - by rewrite Hw2.
  - by rewrite Hs2.
Qed.

Lemma hotplug_deregister_exact_witness :
  exists s1 s2 lost, libusb_hotplug_deregister_callback demo_backend 1 demo_with_cbs = Ok (tt, s1) /\
    usbi_hotplug_match false (app_fn demo_app) None 0 s1 = Ok (tt, s2) /\
    hotplug_cbs s2 = filter (fun c => cb_handle c <> 1 /\ cb_needs_free c = false) demo_cbs /\
    live (mem s2) = cb_blocks (filter (fun c => cb_handle c <> 1 /\ cb_needs_free c = false) demo_cbs)
      ⊎ lost ⊎ {[+ 0%nat; 1%nat +]} /\ (base.size lost <= 1)%nat /\
    world s2 = world demo_with_cbs /\ devices s2 = devices demo_with_cbs.
Proof.
  apply (hotplug_deregister_exact demo_backend false demo_app 1 {[+ 0%nat; 1%nat +]} demo_with_cbs).
  - done.
  - exact (demo_heap_fresh 4).
  - done.
  - by apply (bool_decide_unpack _).
  - by vm_compute.
Defined.

(** With [LIBUSB_HOTPLUG_ENUMERATE] the callback is called for the
    devices that are already known, but its result is not looked at: a
    callback that returns 1 there, which according to libusb.h deregisters
    it, is called again for the next device and stays registered. *)
Theorem hotplug_enumerate_ignores_result :
  match libusb_hotplug_register_callback demo_backend false (app_fn demo_app) 1 LIBUSB_HOTPLUG_ENUMERATE
          (-1) (-1) (-1) (Some 0%nat) (set_world (mk_demo 0 1 []) demo_two) with
  | Ok ((r, handle), s) => r = LIBUSB_SUCCESS /\ handle = Some 1 /\ demo_log (world s) = [DemoOther; DemoOther] /\
      map cb_needs_free (hotplug_cbs s) = [false]
  | Fault _ => False
  end.
Proof. vm_compute. auto. Qed.

(** When there is no memory for the message that a device left, the
    reference that the list of devices gives up is taken over by nobody: the
    device is never released. *)
Theorem device_left_oom_leaks :
  match (linux_enumerate_device demo_backend demo_probe 1 2 ;;
         modify (fun s => set_mem (mk_heap (live (mem s)) (next (mem s)) (fun _ => true) (oom_realloc (mem s))) s) ;;
         linux_device_disconnected demo_backend 1 2 ;;
         event_turn demo_backend false demo_app 1) (demo_lib (demo_heap 0)) with
  | Ok (_, s) => usb_devs s = [] /\ hotplug_msgs (ev s) = [] /\
      refcnt <$> (devices s !! 0%nat) = Some 1 /\ elements (live (mem s)) = [0%nat]
  | Fault _ => False
  end.
Proof. vm_compute. auto. Qed.
