(* ===== verification/LinuxState.v ===== *)
(** * The state of the Linux backend (os/linux_usbfs.c, os/linux_usbfs.h)

    Constants and structures, the system calls on URBs as the record [usbfs],
    the private data of transfers, handles and devices, and the static
    variables. *)

From S2P Require Import Prelude Heap ParseDesc DescApi Bos Core.

(** ** linux_usbfs.h *)

Definition USBFS_URB_SHORT_NOT_OK : Z := 1.
Definition USBFS_URB_ISO_ASAP : Z := 2.
Definition USBFS_URB_BULK_CONTINUATION : Z := 4.
Definition USBFS_URB_ZERO_PACKET : Z := 64.
Definition USBFS_URB_TYPE_ISO : Z := 0.
Definition USBFS_URB_TYPE_INTERRUPT : Z := 1.
Definition USBFS_URB_TYPE_CONTROL : Z := 2.
Definition USBFS_URB_TYPE_BULK : Z := 3.
Definition USBFS_CAP_ZERO_PACKET : Z := 1.
Definition USBFS_CAP_BULK_CONTINUATION : Z := 2.
Definition USBFS_CAP_NO_PACKET_SIZE_LIM : Z := 4.
Definition USBFS_CAP_BULK_SCATTER_GATHER : Z := 8.
Definition USBFS_CAP_REAP_AFTER_DISCONNECT : Z := 16.
Definition MAX_ISO_BUFFER_LENGTH : Z := 49152 * 128.
Definition MAX_BULK_BUFFER_LENGTH : Z := 16384.
Definition MAX_CTRL_BUFFER_LENGTH : Z := 4096.

(** Of libusb.h and of the system's headers. *)
Definition LIBUSB_TRANSFER_ADD_ZERO_PACKET : Z := 8.
Definition POLLERR : Z := 8.
Definition ENOENT : Z := 2.
Definition EAGAIN : Z := 11.
Definition EXDEV : Z := 18.
Definition ENODEV : Z := 19.
Definition EINVAL : Z := 22.
Definition EPIPE : Z := 32.
Definition ETIME : Z := 62.
Definition ENOSR : Z := 63.
Definition ECOMM : Z := 70.
Definition EPROTO : Z := 71.
Definition EOVERFLOW : Z := 75.
Definition EILSEQ : Z := 84.
Definition ECONNRESET : Z := 104.
Definition ESHUTDOWN : Z := 108.
Definition EREMOTEIO : Z := 121.

(** [struct usbfs_iso_packet_desc] *)
Record usbfs_iso_packet_desc : Type := mk_frame {
  fr_length : Z;
  fr_actual_length : Z;
  fr_status : Z
}.

(** [struct usbfs_urb]; the union of [number_of_packets] and [stream_id] is
    [ub_number_of_packets].  The backend neither sets nor reads the members
    [start_frame], [error_count] and [signr]. *)
Record usbfs_urb : Type := mk_urb {
  ub_type : Z;
  ub_endpoint : Z;
  ub_status : Z;
  ub_flags : Z;
  ub_buffer : Z;
  ub_buffer_length : Z;
  ub_actual_length : Z;
  ub_number_of_packets : Z;
  ub_usercontext : nat;
  ub_iso_frame_desc : list usbfs_iso_packet_desc
}.

(** What [calloc] gives. *)
Definition zero_urb : usbfs_urb := mk_urb 0 0 0 0 0 0 0 0 0 [].

(** A pointer to a URB: the block of the array and the index. *)
Abbreviation urb_ptr := (nat * nat)%type.

(** What the kernel hands back: the URB, what it writes into it, and what it
    writes into the buffer of the URB. *)
Record reaped : Type := mk_reaped {
  rp_urb : urb_ptr;
  rp_status : Z;
  rp_actual_length : Z;
  rp_data : list Z;
  rp_frames : list usbfs_iso_packet_desc
}.

(** The system calls, with [errno] as their result (0: success).  The kernel
    reads the URB that is submitted, and knows a URB by its address. *)
Record usbfs (K : Type) : Type := mk_usbfs {
  ioctl_submiturb : Z -> urb_ptr -> usbfs_urb -> K -> Z * K;
  ioctl_discardurb : Z -> urb_ptr -> K -> Z * K;
  ioctl_reapurbndelay : Z -> K -> (Z * reaped) * K
}.
Arguments ioctl_submiturb {K}.
Arguments ioctl_discardurb {K}.
Arguments ioctl_reapurbndelay {K}.

(** ** The private data of handles and transfers *)

(** [enum reap_action] *)
Inductive reap_action : Type :=
| NORMAL
| SUBMIT_FAILED
| CANCELLED
| COMPLETED_EARLY
| ERROR.
#[export] Instance reap_action_eq_dec : EqDecision reap_action.
Proof. solve_decision. Defined.

(** The union of [urbs] and [iso_urbs]: the block of an array of URBs, or an
    array of pointers. *)
Inductive urbs_union : Type :=
| NoUrbs
| Urbs (b : nat)
| IsoUrbs (b : nat) (l : list (option nat)).

(** The union read as a pointer. *)
Definition urbs_block (u : urbs_union) : option nat :=
  match u with
  | NoUrbs => None
  | Urbs b => Some b
  | IsoUrbs b _ => Some b
  end.

(** [struct linux_transfer_priv] *)
Record linux_transfer_priv : Type := mk_tpriv {
  tp_urbs : urbs_union;
  tp_reap_action : reap_action;
  tp_num_urbs : Z;
  tp_num_retired : Z;
  tp_reap_status : Z;
  tp_iso_packet_offset : Z
}.
Definition set_tp_urbs (v : urbs_union) (r : linux_transfer_priv) : linux_transfer_priv :=
  mk_tpriv v (tp_reap_action r) (tp_num_urbs r) (tp_num_retired r) (tp_reap_status r) (tp_iso_packet_offset r).
Definition set_tp_reap_action (v : reap_action) (r : linux_transfer_priv) : linux_transfer_priv :=
  mk_tpriv (tp_urbs r) v (tp_num_urbs r) (tp_num_retired r) (tp_reap_status r) (tp_iso_packet_offset r).
Definition set_tp_num_retired (v : Z) (r : linux_transfer_priv) : linux_transfer_priv :=
  mk_tpriv (tp_urbs r) (tp_reap_action r) (tp_num_urbs r) v (tp_reap_status r) (tp_iso_packet_offset r).
Definition set_tp_reap_status (v : Z) (r : linux_transfer_priv) : linux_transfer_priv :=
  mk_tpriv (tp_urbs r) (tp_reap_action r) (tp_num_urbs r) (tp_num_retired r) v (tp_iso_packet_offset r).
Definition set_tp_iso_packet_offset (v : Z) (r : linux_transfer_priv) : linux_transfer_priv :=
  mk_tpriv (tp_urbs r) (tp_reap_action r) (tp_num_urbs r) (tp_num_retired r) (tp_reap_status r) v.

(** [calloc] cleared the private data of a transfer, [memset] that of a
    handle. *)
Definition zero_tpriv : linux_transfer_priv := mk_tpriv NoUrbs NORMAL 0 0 0 0.

(** [struct linux_device_handle_priv] *)
Record linux_device_handle_priv : Type := mk_hpriv {
  hp_fd : Z;
  hp_fd_removed : bool;
  hp_caps : Z
}.
Definition set_hp_fd_removed (v : bool) (r : linux_device_handle_priv) : linux_device_handle_priv :=
  mk_hpriv (hp_fd r) v (hp_caps r).
Definition set_hp_fd (v : Z) (r : linux_device_handle_priv) : linux_device_handle_priv :=
  mk_hpriv v (hp_fd_removed r) (hp_caps r).
Definition set_hp_caps (v : Z) (r : linux_device_handle_priv) : linux_device_handle_priv :=
  mk_hpriv (hp_fd r) (hp_fd_removed r) v.
Definition zero_hpriv : linux_device_handle_priv := mk_hpriv 0 false 0.

(** [struct linux_device_priv].  The two pointers are a block of [lx_mem]
    below with the characters of the name, and with the bytes of the array. *)
Record linux_device_priv : Type := mk_dpriv {
  dp_sysfs_dir : option (nat * list Z);
  dp_descriptors : option (nat * list Z);
  dp_descriptors_len : Z;
  dp_active_config : Z
}.
Definition set_dp_sysfs_dir (v : option (nat * list Z)) (r : linux_device_priv) : linux_device_priv :=
  mk_dpriv v (dp_descriptors r) (dp_descriptors_len r) (dp_active_config r).
Definition set_dp_descriptors (v : option (nat * list Z)) (r : linux_device_priv) : linux_device_priv :=
  mk_dpriv (dp_sysfs_dir r) v (dp_descriptors_len r) (dp_active_config r).
Definition set_dp_descriptors_len (v : Z) (r : linux_device_priv) : linux_device_priv :=
  mk_dpriv (dp_sysfs_dir r) (dp_descriptors r) v (dp_active_config r).
Definition set_dp_active_config (v : Z) (r : linux_device_priv) : linux_device_priv :=
  mk_dpriv (dp_sysfs_dir r) (dp_descriptors r) (dp_descriptors_len r) v.
Definition zero_dpriv : linux_device_priv := mk_dpriv None None 0 0.

(** The static variables of linux_udev.c; objects of libudev are numbers. *)
Record udev_globals : Type := mk_udev {
  udev_ctx : option nat;
  udev_monitor : option nat;
  udev_monitor_fd : Z;
  udev_control_pipe : Z * Z
}.
Definition set_udev_ctx (v : option nat) (u : udev_globals) : udev_globals :=
  mk_udev v (udev_monitor u) (udev_monitor_fd u) (udev_control_pipe u).
Definition set_udev_monitor (v : option nat) (u : udev_globals) : udev_globals :=
  mk_udev (udev_ctx u) v (udev_monitor_fd u) (udev_control_pipe u).
Definition set_udev_monitor_fd (v : Z) (u : udev_globals) : udev_globals :=
  mk_udev (udev_ctx u) (udev_monitor u) v (udev_control_pipe u).
Definition set_udev_control_pipe (v : Z * Z) (u : udev_globals) : udev_globals :=
  mk_udev (udev_ctx u) (udev_monitor u) (udev_monitor_fd u) v.
Definition no_udev : udev_globals := mk_udev None None (-1) (-1, -1).

(** The static variables of linux_usbfs.c, linux_netlink.c and linux_udev.c;
    [init_count] counts the contexts.  A build uses one of the two monitors. *)
Record linux_globals : Type := mk_globals {
  usbfs_path : option (list Z);
  usbdev_names : bool;
  supports_flag_bulk_continuation : Z;
  supports_flag_zero_packet : Z;
  monotonic_clkid : Z;
  sysfs_can_relate_devices : Z;
  sysfs_has_descriptors : Z;
  init_count : Z;
  linux_netlink_socket : Z;
  netlink_control_pipe : Z * Z;
  udev : udev_globals
}.
Definition set_usbfs_path (v : option (list Z)) (g : linux_globals) : linux_globals :=
  mk_globals v (usbdev_names g) (supports_flag_bulk_continuation g) (supports_flag_zero_packet g)
    (monotonic_clkid g) (sysfs_can_relate_devices g) (sysfs_has_descriptors g) (init_count g)
    (linux_netlink_socket g) (netlink_control_pipe g) (udev g).
Definition set_usbdev_names (v : bool) (g : linux_globals) : linux_globals :=
  mk_globals (usbfs_path g) v (supports_flag_bulk_continuation g) (supports_flag_zero_packet g)
    (monotonic_clkid g) (sysfs_can_relate_devices g) (sysfs_has_descriptors g) (init_count g)
    (linux_netlink_socket g) (netlink_control_pipe g) (udev g).
Definition set_supports_flag_bulk_continuation (v : Z) (g : linux_globals) : linux_globals :=
  mk_globals (usbfs_path g) (usbdev_names g) v (supports_flag_zero_packet g)
    (monotonic_clkid g) (sysfs_can_relate_devices g) (sysfs_has_descriptors g) (init_count g)
    (linux_netlink_socket g) (netlink_control_pipe g) (udev g).
Definition set_supports_flag_zero_packet (v : Z) (g : linux_globals) : linux_globals :=
  mk_globals (usbfs_path g) (usbdev_names g) (supports_flag_bulk_continuation g) v
    (monotonic_clkid g) (sysfs_can_relate_devices g) (sysfs_has_descriptors g) (init_count g)
    (linux_netlink_socket g) (netlink_control_pipe g) (udev g).
Definition set_monotonic_clkid (v : Z) (g : linux_globals) : linux_globals :=
  mk_globals (usbfs_path g) (usbdev_names g) (supports_flag_bulk_continuation g) (supports_flag_zero_packet g)
    v (sysfs_can_relate_devices g) (sysfs_has_descriptors g) (init_count g)
    (linux_netlink_socket g) (netlink_control_pipe g) (udev g).
Definition set_sysfs_can_relate_devices (v : Z) (g : linux_globals) : linux_globals :=
  mk_globals (usbfs_path g) (usbdev_names g) (supports_flag_bulk_continuation g) (supports_flag_zero_packet g)
    (monotonic_clkid g) v (sysfs_has_descriptors g) (init_count g)
    (linux_netlink_socket g) (netlink_control_pipe g) (udev g).
Definition set_sysfs_has_descriptors (v : Z) (g : linux_globals) : linux_globals :=
  mk_globals (usbfs_path g) (usbdev_names g) (supports_flag_bulk_continuation g) (supports_flag_zero_packet g)
    (monotonic_clkid g) (sysfs_can_relate_devices g) v (init_count g)
    (linux_netlink_socket g) (netlink_control_pipe g) (udev g).
Definition set_init_count (v : Z) (g : linux_globals) : linux_globals :=
  mk_globals (usbfs_path g) (usbdev_names g) (supports_flag_bulk_continuation g) (supports_flag_zero_packet g)
    (monotonic_clkid g) (sysfs_can_relate_devices g) (sysfs_has_descriptors g) v
    (linux_netlink_socket g) (netlink_control_pipe g) (udev g).
Definition set_linux_netlink_socket (v : Z) (g : linux_globals) : linux_globals :=
  mk_globals (usbfs_path g) (usbdev_names g) (supports_flag_bulk_continuation g) (supports_flag_zero_packet g)
    (monotonic_clkid g) (sysfs_can_relate_devices g) (sysfs_has_descriptors g) (init_count g) v (netlink_control_pipe g) (udev g).
Definition set_netlink_control_pipe (v : Z * Z) (g : linux_globals) : linux_globals :=
  mk_globals (usbfs_path g) (usbdev_names g) (supports_flag_bulk_continuation g) (supports_flag_zero_packet g)
    (monotonic_clkid g) (sysfs_can_relate_devices g) (sysfs_has_descriptors g) (init_count g)
    (linux_netlink_socket g) v (udev g).
Definition set_udev (v : udev_globals) (g : linux_globals) : linux_globals :=
  mk_globals (usbfs_path g) (usbdev_names g) (supports_flag_bulk_continuation g) (supports_flag_zero_packet g)
    (monotonic_clkid g) (sysfs_can_relate_devices g) (sysfs_has_descriptors g) (init_count g)
    (linux_netlink_socket g) (netlink_control_pipe g) v.
Definition initial_globals : linux_globals := mk_globals None false (-1) (-1) (-1) (-1) (-1) 0 (-1) (-1, -1) no_udev.

(** The state of the backend: the kernel, the memory of the URBs, the private
    data by transfer, by handle and by device, the memory the private data of
    devices points to, and the static variables. *)
Record linux (K : Type) : Type := mk_linux {
  lx_kernel : K;
  lx_urbs : gmap nat (list usbfs_urb);
  lx_tpriv : gmap nat linux_transfer_priv;
  lx_hpriv : gmap nat linux_device_handle_priv;
  lx_dpriv : gmap nat linux_device_priv;
  lx_mem : heap;
  lx_globals : linux_globals
}.
Arguments mk_linux {K}.
Arguments lx_kernel {K}.
Arguments lx_urbs {K}.
Arguments lx_tpriv {K}.
Arguments lx_hpriv {K}.
Arguments lx_dpriv {K}.
Arguments lx_mem {K}.
Arguments lx_globals {K}.
Definition set_lx_kernel {K} (v : K) (w : linux K) : linux K :=
  mk_linux v (lx_urbs w) (lx_tpriv w) (lx_hpriv w) (lx_dpriv w) (lx_mem w) (lx_globals w).
Definition set_lx_urbs {K} (v : gmap nat (list usbfs_urb)) (w : linux K) : linux K :=
  mk_linux (lx_kernel w) v (lx_tpriv w) (lx_hpriv w) (lx_dpriv w) (lx_mem w) (lx_globals w).
Definition set_lx_tpriv {K} (v : gmap nat linux_transfer_priv) (w : linux K) : linux K :=
  mk_linux (lx_kernel w) (lx_urbs w) v (lx_hpriv w) (lx_dpriv w) (lx_mem w) (lx_globals w).
Definition set_lx_hpriv {K} (v : gmap nat linux_device_handle_priv) (w : linux K) : linux K :=
  mk_linux (lx_kernel w) (lx_urbs w) (lx_tpriv w) v (lx_dpriv w) (lx_mem w) (lx_globals w).
Definition set_lx_dpriv {K} (v : gmap nat linux_device_priv) (w : linux K) : linux K :=
  mk_linux (lx_kernel w) (lx_urbs w) (lx_tpriv w) (lx_hpriv w) v (lx_mem w) (lx_globals w).
Definition set_lx_mem {K} (v : heap) (w : linux K) : linux K :=
  mk_linux (lx_kernel w) (lx_urbs w) (lx_tpriv w) (lx_hpriv w) (lx_dpriv w) v (lx_globals w).
Definition set_lx_globals {K} (v : linux_globals) (w : linux K) : linux K :=
  mk_linux (lx_kernel w) (lx_urbs w) (lx_tpriv w) (lx_hpriv w) (lx_dpriv w) (lx_mem w) v.

Definition kernel_op {K A} (op : K -> A * K) : Lib (linux K) A :=
  backend_op (fun w => let '(a, k) := op (lx_kernel w) in (a, set_lx_kernel k w)).

(** [usbi_transfer_get_os_priv], [_device_handle_priv] and [_device_priv] *)
Section private.
Context {K : Type}.
Abbreviation LX := (Lib (linux K)).
Definition get_tpriv (t : nat) : LX linux_transfer_priv :=
  get_transfer t ;; gets (fun s => default zero_tpriv (lx_tpriv (world s) !! t)).
Definition put_tpriv (t : nat) (p : linux_transfer_priv) : LX unit :=
  modify (fun s => set_world (set_lx_tpriv (<[t := p]> (lx_tpriv (world s))) (world s)) s).
Definition get_hpriv (h : nat) : LX linux_device_handle_priv :=
  get_handle h ;; gets (fun s => default zero_hpriv (lx_hpriv (world s) !! h)).
Definition put_hpriv (h : nat) (p : linux_device_handle_priv) : LX unit :=
  modify (fun s => set_world (set_lx_hpriv (<[h := p]> (lx_hpriv (world s))) (world s)) s).
Definition get_dpriv (d : nat) : LX linux_device_priv :=
  get_device d ;; gets (fun s => default zero_dpriv (lx_dpriv (world s) !! d)).
Definition put_dpriv (d : nat) (p : linux_device_priv) : LX unit :=
  modify (fun s => set_world (set_lx_dpriv (<[d := p]> (lx_dpriv (world s))) (world s)) s).
End private.
