(* ===== verification/LinuxSys.v ===== *)
(** * The system under the Linux backend (os/linux_usbfs.c)

    The system calls on files and devices as the record [linux_sys], and the
    functions that open the files of a device and read its attributes.

    Reading and writing goes through the state of the backend alone: the
    functions are computations on [linux K]. *)

From S2P Require Import Prelude Heap ParseDesc DescApi Bos Core Text Log LinuxState.

(** ** System calls *)

Definition EACCES : Z := 13.
Definition EBUSY : Z := 16.
Definition ENOTTY : Z := 25.
Definition ENODATA : Z := 61.
Definition O_RDONLY : Z := 0.
Definition O_RDWR : Z := 2.
Definition PATH_MAX : nat := 4096.
Definition CLOCK_REALTIME : Z := 0.
Definition CLOCK_MONOTONIC : Z := 1.

(** [struct usbfs_ctrltransfer], without the pointer *)
Record usbfs_ctrltransfer : Type := mk_ctrl {
  ct_bmRequestType : Z;
  ct_bRequest : Z;
  ct_wValue : Z;
  ct_wIndex : Z;
  ct_wLength : Z;
  ct_timeout : Z
}.

(** Each call has [errno] as its first result, 0 for success.  [sys_text] is
    [fopen] with all the text that can be read, [sys_entries] is [opendir]
    with all names up to the end, [sys_isdir] is [stat]. *)
Record linux_sys (K : Type) : Type := mk_sys {
  sys_open : list Z -> Z -> K -> (Z * Z) * K;
  sys_read : Z -> Z -> K -> (Z * list Z) * K;
  sys_close : Z -> K -> unit * K;
  sys_nanosleep : K -> unit * K;
  sys_text : list Z -> K -> (Z * list Z) * K;
  sys_entries : list Z -> K -> option (list (list Z)) * K;
  sys_isdir : list Z -> K -> bool * K;
  sys_uname : K -> option (list Z) * K;
  sys_clock_gettime : Z -> K -> (Z * timespec) * K;
  sys_mmap : Z -> Z -> K -> (Z * nat) * K;
  sys_munmap : nat -> Z -> K -> Z * K;
  ioctl_control : Z -> usbfs_ctrltransfer -> K -> (Z * list Z) * K;
  ioctl_get_capabilities : Z -> K -> (Z * Z) * K;
  ioctl_setconfig : Z -> Z -> K -> Z * K;
  ioctl_claimintf : Z -> Z -> K -> Z * K;
  ioctl_releaseintf : Z -> Z -> K -> Z * K;
  ioctl_setintf : Z -> Z -> Z -> K -> Z * K;
  ioctl_clear_halt : Z -> Z -> K -> Z * K;
  ioctl_reset : Z -> K -> Z * K;
  ioctl_streams : Z -> bool -> Z -> list Z -> K -> (Z * Z) * K;
  ioctl_getdriver : Z -> Z -> K -> (Z * list Z) * K;
  ioctl_disconnect : Z -> Z -> K -> Z * K;
  ioctl_connect : Z -> Z -> K -> (Z * Z) * K;
  ioctl_disconnect_claim : Z -> Z -> Z -> list Z -> K -> Z * K
}.
Arguments sys_open {K}.
Arguments sys_read {K}.
Arguments sys_close {K}.
Arguments sys_nanosleep {K}.
Arguments sys_text {K}.
Arguments sys_entries {K}.
Arguments sys_isdir {K}.
Arguments sys_uname {K}.
Arguments sys_clock_gettime {K}.
Arguments sys_mmap {K}.
Arguments sys_munmap {K}.
Arguments ioctl_control {K}.
Arguments ioctl_get_capabilities {K}.
Arguments ioctl_setconfig {K}.
Arguments ioctl_claimintf {K}.
Arguments ioctl_releaseintf {K}.
Arguments ioctl_setintf {K}.
Arguments ioctl_clear_halt {K}.
Arguments ioctl_reset {K}.
Arguments ioctl_streams {K}.
Arguments ioctl_getdriver {K}.
Arguments ioctl_disconnect {K}.
Arguments ioctl_connect {K}.
Arguments ioctl_disconnect_claim {K}.

Section files.
Context {K : Type} (sys : linux_sys K).
Abbreviation LM := (M (linux K)).

Definition sys_call {A} (op : K -> A * K) : LM A := fun w =>
  let '(a, k) := op (lx_kernel w) in Ok (a, set_lx_kernel k w).
Definition globals : LM linux_globals := gets lx_globals.
(** The private data of a device that exists. *)
Definition dpriv_of (d : nat) : LM linux_device_priv := gets (fun w => default zero_dpriv (lx_dpriv w !! d)).

(** [snprintf(path, PATH_MAX, ...)]: what is cut off is lost. *)
Definition path_text (s : list Z) : list Z := take (PATH_MAX - 1) s.
Definition SYSFS_DEVICE_PATH : list Z := bytes_of "/sys/bus/usb/devices".
Definition attr_path (dir attr : list Z) : list Z := path_text (SYSFS_DEVICE_PATH ++ [47] ++ dir ++ [47] ++ attr).

(** A null string as the argument of [%s] is undefined. *)
Definition text_of {A} (p : option A) : LM A := lift (match p with Some s => Ok s | None => Fault NullDeref end).

(** Returns the file descriptor or an error; [errno] in between is that of
    the last [open]. *)
Definition _get_usbfs_fd (busnum devaddr mode : Z) : LM Z :=
  g ← globals;
  dir ← text_of (usbfs_path g);
  let path := path_text
    (if usbdev_names g
     then dir ++ bytes_of "/usbdev" ++ fmt_dec 0 0 busnum ++ bytes_of "." ++ fmt_dec 0 0 devaddr
     else dir ++ bytes_of "/" ++ fmt_dec 3 48 busnum ++ bytes_of "/" ++ fmt_dec 3 48 devaddr) in
  '(errno, fd) ← sys_call (sys_open sys path mode);
  if errno =? 0 then mret fd else
  '(errno, fd) ← (if errno =? ENOENT then
                    sys_call (sys_nanosleep sys) ;;
                    sys_call (sys_open sys path mode)
                  else mret (errno, fd));
  if errno =? 0 then mret fd
  else if errno =? EACCES then mret LIBUSB_ERROR_ACCESS
  else if errno =? ENOENT then mret LIBUSB_ERROR_NO_DEVICE
  else mret LIBUSB_ERROR_IO.

Definition _open_sysfs_attr (d : nat) (attr : list Z) : LM Z :=
  priv ← dpriv_of d;
  dir ← text_of (dp_sysfs_dir priv);
  '(errno, fd) ← sys_call (sys_open sys (attr_path (snd dir) attr) O_RDONLY);
  if errno =? 0 then mret fd else mret LIBUSB_ERROR_IO.

Definition __read_sysfs_attr (devname attr : list Z) : LM Z :=
  '(errno, text) ← sys_call (sys_text sys (attr_path devname attr));
  if errno =? ENOENT then mret LIBUSB_ERROR_NO_DEVICE
  else if negb (errno =? 0) then mret LIBUSB_ERROR_IO
  else
    match scan_int text with
    | None => mret LIBUSB_ERROR_NO_DEVICE
    | Some value => if value <? 0 then mret LIBUSB_ERROR_IO else mret value
    end.

(** Returns the code and [*config]. *)
Definition sysfs_get_active_config (d : nat) (config : Z) : LM (Z * Z) :=
  fd ← _open_sysfs_attr d (bytes_of "bConfigurationValue");
  if fd <? 0 then mret (fd, config) else
  '(errno, bs) ← sys_call (sys_read sys fd 5);
  sys_call (sys_close sys fd) ;;
  if negb (errno =? 0) then mret (LIBUSB_ERROR_IO, config)
  else if (length bs =? 0)%nat then mret (0, -1)
  else
    let tmp := bs ++ replicate (5 - length bs) 0 in
    if negb (nth 4 tmp 0 =? 0) then mret (LIBUSB_ERROR_IO, config)
    else if nth 0 tmp 0 =? 0 then mret (LIBUSB_ERROR_IO, config)
    else
      let '(num, converted) := strtol tmp in
      if negb converted then mret (LIBUSB_ERROR_IO, config) else mret (0, i32 num).

(** Returns the code, [*busnum] and [*devaddr]. *)
Definition linux_get_device_address (detached : bool) (busnum devaddr : Z) (dev_node sys_name : option (list Z))
    : LM (Z * Z * Z) :=
  g ← globals;
  match (if (sysfs_can_relate_devices g =? 0) || detached then None else sys_name) with
  | None =>
      match dev_node with
      | None => mret (LIBUSB_ERROR_OTHER, busnum, devaddr)
      | Some node =>
          let '(busnum, devaddr) :=
            if has_prefix (bytes_of "/dev/bus/usb") node
            then scan_two_hhu (bytes_of "/dev/bus/usb/") node busnum devaddr
            else if has_prefix (bytes_of "/proc/bus/usb") node
            then scan_two_hhu (bytes_of "/proc/bus/usb/") node busnum devaddr
            else (busnum, devaddr) in
          mret (LIBUSB_SUCCESS, busnum, devaddr)
      end
  | Some name =>
      sysfs_attr ← __read_sysfs_attr name (bytes_of "busnum");
      if sysfs_attr <? 0 then mret (sysfs_attr, busnum, devaddr)
      else if 255 <? sysfs_attr then mret (LIBUSB_ERROR_INVALID_PARAM, busnum, devaddr)
      else
      let busnum := u8 sysfs_attr in
      sysfs_attr ← __read_sysfs_attr name (bytes_of "devnum");
      if sysfs_attr <? 0 then mret (sysfs_attr, busnum, devaddr)
      else if 255 <? sysfs_attr then mret (LIBUSB_ERROR_INVALID_PARAM, busnum, devaddr)
      else mret (LIBUSB_SUCCESS, busnum, u8 sysfs_attr)
  end.

(** [d]: the device; the configuration goes to its private data. *)
Definition usbfs_get_active_config (d : nat) (fd : Z) : LM Z :=
  '(errno, data) ← sys_call (ioctl_control sys fd
     (mk_ctrl LIBUSB_ENDPOINT_IN 8 0 0 1 1000));
  if errno =? ENODEV then mret LIBUSB_ERROR_NO_DEVICE else
  let active_config := match data with [] => 0 | b :: _ => b end in
  let value := if negb (errno =? 0) then -1 else if 0 <? active_config then active_config else -1 in
  modify (fun w => set_lx_dpriv (<[d := set_dp_active_config value (default zero_dpriv (lx_dpriv w !! d))]> (lx_dpriv w)) w) ;;
  mret LIBUSB_SUCCESS.
End files.
