(* ===== verification/LinuxDesc.v ===== *)
(** * The descriptor cache of the Linux backend (os/linux_usbfs.c)

    The backend keeps, for every device, the bytes of the device descriptor
    and of all configurations as the kernel gave them.  The functions here
    find a configuration in these bytes.  In sysfs the kernel wrote the
    descriptors one behind the other, in usbfs every configuration takes the
    length it announces. *)

From S2P Require Import Prelude Heap ParseDesc Config DescApi Bos Core Text Log LinuxState LinuxSys.

Definition DEVICE_DESC_LENGTH : Z := 18.

Section seek.
Context (big : bool).

(** The [for] loop of [seek_to_next_descriptor] at offset [i]; [buffer] is
    the rest of the buffer from there. *)
Fixpoint seek_descriptor_loop (fuel : nat) (descriptor_type : Z) (buffer : list Z) (i size : Z) : outcome Z :=
  if size <? 0 then Ok LIBUSB_ERROR_IO
  else if size =? 0 then Ok LIBUSB_ERROR_NOT_FOUND
  else if size <? 2 then Ok LIBUSB_ERROR_IO
  else
    '(_, header) ← usbi_parse_descriptor big buffer "bb" (replicate 2 0) false;
    if negb (i =? 0) && (bDescriptorType header =? descriptor_type) then Ok i
    else
      match fuel with
      | O => Fault OutOfFuel
      | S fuel =>
          seek_descriptor_loop fuel descriptor_type (drop (Z.to_nat (bLength header)) buffer)
            (i + bLength header) (size - bLength header)
      end.
Definition seek_to_next_descriptor (descriptor_type : Z) (buffer : list Z) (size : Z) : outcome Z :=
  seek_descriptor_loop (Z.to_nat size) descriptor_type buffer 0 size.

(** [has_descriptors]: the static [sysfs_has_descriptors]. *)
Definition seek_to_next_config (has_descriptors : Z) (buffer : list Z) (size : Z) : outcome Z :=
  if size =? 0 then Ok LIBUSB_ERROR_NOT_FOUND
  else if size <? LIBUSB_DT_CONFIG_SIZE then Ok LIBUSB_ERROR_IO
  else
    '(_, config) ← usbi_parse_descriptor big buffer "bbwbbbbb" (replicate 9 0) false;
    if negb (bDescriptorType config =? LIBUSB_DT_CONFIG) then Ok LIBUSB_ERROR_IO
    else if negb (has_descriptors =? 0) then
      next ← seek_to_next_descriptor LIBUSB_DT_CONFIG buffer size;
      let next := if next =? LIBUSB_ERROR_NOT_FOUND then size else next in
      Ok next
    else if wTotalLength big config <? LIBUSB_DT_CONFIG_SIZE then Ok LIBUSB_ERROR_IO
    else if size <? wTotalLength big config then Ok size
    else Ok (wTotalLength big config).

(** The endless loops that go from one configuration to the next: the length
    of the one that is wanted with the bytes from there on, or the error. *)
Fixpoint config_by_value_loop (fuel : nat) (has_descriptors value : Z) (descriptors : list Z) (size : Z)
    : outcome (Z * list Z) :=
  next ← seek_to_next_config has_descriptors descriptors size;
  if next <? 0 then Ok (next, [])
  else
    bConfigurationValue ← rd descriptors 5;
    if bConfigurationValue =? value then Ok (next, descriptors)
    else
      match fuel with
      | O => Fault OutOfFuel
      | S fuel => config_by_value_loop fuel has_descriptors value (drop (Z.to_nat next) descriptors) (size - next)
      end.
Fixpoint config_by_index_loop (fuel : nat) (has_descriptors i config_index : Z) (descriptors : list Z) (size : Z)
    : outcome (Z * list Z) :=
  r ← seek_to_next_config has_descriptors descriptors size;
  if r <? 0 then Ok (r, [])
  else if i =? config_index then Ok (r, descriptors)
  else
    match fuel with
    | O => Fault OutOfFuel
    | S fuel => config_by_index_loop fuel has_descriptors (i + 1) config_index (drop (Z.to_nat r) descriptors) (size - r)
    end.
End seek.

(** [memcpy(buffer, src, len)] *)
Definition copy_to (buffer src : list Z) (len : nat) : outcome (list Z) := bs ← rd_n src len; store buffer 0 bs.

Section desc.
Context {K : Type} (sys : linux_sys K) (big : bool).
Abbreviation LM := (M (linux K)).

(** [priv->descriptors], which nobody may follow when it is null. *)
Definition descriptors_of (priv : linux_device_priv) : outcome (list Z) :=
  match dp_descriptors priv with
  | None => Fault NullDeref
  | Some (_, bytes) => Ok bytes
  end.

Definition op_get_device_descriptor (d : nat) (buffer : list Z) (host_endian : bool) : LM (Z * list Z * bool) :=
  priv ← dpriv_of d;
  g ← globals;
  bytes ← lift (descriptors_of priv);
  buffer ← lift (copy_to buffer bytes (Z.to_nat DEVICE_DESC_LENGTH));
  mret (0, buffer, sysfs_has_descriptors g =? 0).

(** Returns the code, [*buffer] (empty for null) and [*host_endian]. *)
Definition op_get_config_descriptor_by_value (d : nat) (value : Z) (host_endian : bool) : LM (Z * list Z * bool) :=
  priv ← dpriv_of d;
  g ← globals;
  bytes ← lift (descriptors_of priv);
  let size := dp_descriptors_len priv - DEVICE_DESC_LENGTH in
  '(r, config) ← lift (config_by_value_loop big (Z.to_nat size) (sysfs_has_descriptors g) value
     (drop (Z.to_nat DEVICE_DESC_LENGTH) bytes) size);
  mret (r, config, false).

Definition op_get_active_config_descriptor (d : nat) (buffer : list Z) (host_endian : bool) : LM (Z * list Z * bool) :=
  g ← globals;
  '(r, config) ← (if negb (sysfs_can_relate_devices g =? 0) then sysfs_get_active_config sys d 0
                  else priv ← dpriv_of d; mret (0, dp_active_config priv));
  if r <? 0 then mret (r, buffer, host_endian)
  else if config =? -1 then mret (LIBUSB_ERROR_NOT_FOUND, buffer, host_endian)
  else
    '(r, config_desc, host_endian) ← op_get_config_descriptor_by_value d (u8 config) host_endian;
    if r <? 0 then mret (r, buffer, host_endian)
    else
      let len := Z.min (Z.of_nat (length buffer)) r in
      buffer ← lift (copy_to buffer config_desc (Z.to_nat len));
      mret (len, buffer, host_endian).

Definition op_get_config_descriptor (d : nat) (config_index : Z) (buffer : list Z) (host_endian : bool)
    : LM (Z * list Z * bool) :=
  priv ← dpriv_of d;
  g ← globals;
  bytes ← lift (descriptors_of priv);
  let size := dp_descriptors_len priv - DEVICE_DESC_LENGTH in
  '(r, descriptors) ← lift (config_by_index_loop big (Z.to_nat size) (sysfs_has_descriptors g) 0 config_index
     (drop (Z.to_nat DEVICE_DESC_LENGTH) bytes) size);
  if r <? 0 then mret (r, buffer, false)
  else
    let len := Z.min (Z.of_nat (length buffer)) r in
    buffer ← lift (copy_to buffer descriptors (Z.to_nat len));
    mret (len, buffer, false).

(** The descriptor operations of [linux_usbfs_backend] for the device [d]. *)
Definition linux_desc_backend (d : nat) : desc_backend (linux K) := {|
  get_device_descriptor := op_get_device_descriptor d;
  get_active_config_descriptor := op_get_active_config_descriptor d;
  get_config_descriptor := op_get_config_descriptor d;
  get_config_descriptor_by_value := Some (op_get_config_descriptor_by_value d)
|}.
End desc.
