(* ===== verification/LinuxEnum.v ===== *)
(** * Enumeration in the Linux backend (os/linux_usbfs.c, without udev)

    What kind of system it is, filling in a new device, its parent, and the
    walks through sysfs and usbfs.  [linux_enumerate_device] is that of
    HotplugLife.v with the steps defined here; the parent is enumerated first
    when it is not known yet, so that the functions call each other. *)

From S2P Require Import Prelude Heap ParseDesc DescApi Bos Core Text Log Devices Hotplug HotplugLife LinuxState LinuxSys LinuxDesc.

(** ** The system *)

(** [sscanf(name, "usbdev%d.%d", ...)] with both numbers converted. *)
Definition _is_usbdev_entry (name : list Z) : option (Z * Z) :=
  match strip_prefix (bytes_of "usbdev") name with
  | None => None
  | Some l =>
      match scan_number l with
      | Some (busnum, 46 :: rest) =>
          match scan_number rest with
          | Some (devnum, _) => Some (i32 (clamp_long busnum), i32 (clamp_long devnum))
          | None => None
          end
      | _ => None
      end
  end.

(** [sscanf(release, "%d.%d.%d", ...)]: the numbers that were converted. *)
Definition scan_release (release : list Z) : list Z :=
  match scan_number release with
  | None => []
  | Some (a, rest) => i32 (clamp_long a) ::
      match rest with
      | 46 :: rest =>
          match scan_number rest with
          | None => []
          | Some (b, rest) => i32 (clamp_long b) ::
              match rest with
              | 46 :: rest => match scan_number rest with None => [] | Some (c, _) => [i32 (clamp_long c)] end
              | _ => []
              end
          end
      | _ => []
      end
  end.

Section enum.
Context {K : Type} (sys : linux_sys K).
Abbreviation LM := (M (linux K)).
Abbreviation LX := (Lib (linux K)).

Definition upd_globals (f : linux_globals -> linux_globals) : LM unit :=
  modify (fun w => set_lx_globals (f (lx_globals w)) w).

Definition starts_with_dot (name : list Z) : bool := nth 0 name 0 =? 46.

Definition check_usb_vfs (dirname : list Z) : LM bool :=
  entries ← sys_call (sys_entries sys dirname);
  mret (match entries with
        | None => false
        | Some names => existsb (fun name => negb (starts_with_dot name)) names
        end).

(** Also sets [usbdev_names].  [fallback]: what a build with udev assumes
    when nothing is found, as the nodes may come later. *)
Definition find_usbfs_path (fallback : option (list Z)) : LM (option (list Z)) :=
  found ← check_usb_vfs (bytes_of "/dev/bus/usb");
  if (found : bool) then mret (Some (bytes_of "/dev/bus/usb")) else
  found ← check_usb_vfs (bytes_of "/proc/bus/usb");
  if (found : bool) then mret (Some (bytes_of "/proc/bus/usb")) else
  entries ← sys_call (sys_entries sys (bytes_of "/dev"));
  match entries with
  | None => mret fallback
  | Some names =>
      if existsb (fun name => bool_decide (is_Some (_is_usbdev_entry name))) names then
        upd_globals (set_usbdev_names true) ;;
        mret (Some (bytes_of "/dev"))
      else mret fallback
  end.

Definition find_monotonic_clock : LM Z :=
  '(errno, _) ← sys_call (sys_clock_gettime sys CLOCK_MONOTONIC);
  mret (if errno =? 0 then CLOCK_MONOTONIC else CLOCK_REALTIME).

(** -1 when the version is not known. *)
Definition version_ge (numbers : list Z) (major minor sublevel : Z) : Z :=
  match numbers with
  | [] => -1
  | kmajor :: numbers =>
      if major <? kmajor then 1
      else if kmajor <? major then 0
      else
        match numbers with
        | [] => Z.b2z ((0 =? minor) && (0 =? sublevel))
        | kminor :: numbers =>
            if minor <? kminor then 1
            else if kminor <? minor then 0
            else
              match numbers with
              | [] => Z.b2z (0 =? sublevel)
              | ksublevel :: _ => Z.b2z (sublevel <=? ksublevel)
              end
        end
  end.
Definition kernel_version_ge (major minor sublevel : Z) : LM Z :=
  release ← sys_call (sys_uname sys);
  mret (match release with
        | None => -1
        | Some release => version_ge (scan_release release) major minor sublevel
        end).

(** ** A new device *)

Variable big : bool.
(** What memory that was not written holds. *)
Variable junk : nat -> list Z.

Definition upd_dpriv (d : nat) (f : linux_device_priv -> linux_device_priv) : LM unit :=
  modify (fun w => set_lx_dpriv (<[d := f (default zero_dpriv (lx_dpriv w !! d))]> (lx_dpriv w)) w).
Definition on_lx_mem {A} (m : M heap A) : LM A := fun w =>
  match m (lx_mem w) with
  | Ok (a, h) => Ok (a, set_lx_mem h w)
  | Fault f => Fault f
  end.

(** The bytes of [priv->descriptors] after [usbi_reallocf] and [memset]. *)
Definition grown (priv : linux_device_priv) (zero : bool) (size : Z) : outcome (list Z) :=
  let old := match dp_descriptors priv with None => [] | Some (_, bs) => bs end in
  let bytes := take (Z.to_nat size) old ++ junk (Z.to_nat size - length old) in
  let len := Z.to_nat (dp_descriptors_len priv) in
  if zero then store bytes len (replicate (Z.to_nat size - len) 0) else Ok bytes.

(** [do ... while (priv->descriptors_len == descriptors_size)], with the
    [close] behind it.  The size doubles from 1024, so that 22 rounds pass
    the range of [int]. *)
Fixpoint read_descriptors_loop (fuel : nat) (d : nat) (fd descriptors_size : Z) : LM Z :=
  match fuel with
  | O => fail OutOfFuel
  | S fuel =>
      let descriptors_size := 2 * descriptors_size in
      if 2 ^ 31 <=? descriptors_size then fail IntOverflow else
      g ← globals;
      priv ← dpriv_of d;
      p ← on_lx_mem (usbi_reallocf (option_map fst (dp_descriptors priv)));
      match p with
      | None =>
          upd_dpriv d (set_dp_descriptors None) ;;
          sys_call (sys_close sys fd) ;;
          mret LIBUSB_ERROR_NO_MEM
      | Some b =>
          bytes ← lift (grown priv (sysfs_has_descriptors g =? 0) descriptors_size);
          upd_dpriv d (set_dp_descriptors (Some (b, bytes))) ;;
          let len := dp_descriptors_len priv in
          '(errno, data) ← sys_call (sys_read sys fd (descriptors_size - len));
          if negb (errno =? 0) then
            sys_call (sys_close sys fd) ;;
            mret LIBUSB_ERROR_IO
          else
            bytes ← lift (store bytes (Z.to_nat len) data);
            let len := len + Z.of_nat (length data) in
            upd_dpriv d (fun priv => set_dp_descriptors_len len (set_dp_descriptors (Some (b, bytes)) priv)) ;;
            if len =? descriptors_size then read_descriptors_loop fuel d fd descriptors_size
            else sys_call (sys_close sys fd) ;; mret 0
      end
  end.

(** The first configuration, when the device cannot be asked. *)
Definition assume_first_config (d : nat) : LM Z :=
  priv ← dpriv_of d;
  (if DEVICE_DESC_LENGTH + LIBUSB_DT_CONFIG_SIZE <=? dp_descriptors_len priv then
     bytes ← lift (descriptors_of priv);
     '(_, config) ← lift (usbi_parse_descriptor big (drop (Z.to_nat DEVICE_DESC_LENGTH) bytes) "bbwbbbbb" (junk 9) false);
     upd_dpriv d (set_dp_active_config (nth 5 config 0))
   else upd_dpriv d (set_dp_active_config (-1))) ;;
  mret LIBUSB_SUCCESS.

(** [priv->sysfs_dir] and the speed, which sysfs gives in Mbit/s. *)
Definition LIBUSB_SPEED_LOW : Z := 1.
Definition LIBUSB_SPEED_FULL : Z := 2.
Definition LIBUSB_SPEED_HIGH : Z := 3.
Definition LIBUSB_SPEED_SUPER : Z := 4.
Definition speed_of (mbps : Z) : option Z :=
  if mbps =? 1 then Some LIBUSB_SPEED_LOW
  else if mbps =? 12 then Some LIBUSB_SPEED_FULL
  else if mbps =? 480 then Some LIBUSB_SPEED_HIGH
  else if mbps =? 5000 then Some LIBUSB_SPEED_SUPER
  else None.
Definition initialize_sysfs (d : nat) (sysfs_dir : list Z) : LX Z :=
  p ← on_world (on_lx_mem malloc);
  match p with
  | None => on_world (upd_dpriv d (set_dp_sysfs_dir None)) ;; mret LIBUSB_ERROR_NO_MEM
  | Some b =>
      on_world (upd_dpriv d (set_dp_sysfs_dir (Some (b, sysfs_dir)))) ;;
      mbps ← on_world (__read_sysfs_attr sys sysfs_dir (bytes_of "speed"));
      (match (if 0 <=? mbps then speed_of mbps else None) with
       | Some v => upd_device d (set_speed v)
       | None => mret tt
       end) ;;
      mret LIBUSB_SUCCESS
  end.

Definition initialize_device (d : nat) (busnum devaddr : Z) (sysfs_dir : option (list Z)) : LX Z :=
  upd_device d (fun x => set_device_address devaddr (set_bus_number busnum x)) ;;
  r ← (match sysfs_dir with Some dir => initialize_sysfs d dir | None => mret LIBUSB_SUCCESS end);
  if r <? 0 then mret r else
  g ← on_world globals;
  fd ← on_world (if negb (sysfs_has_descriptors g =? 0) then _open_sysfs_attr sys d (bytes_of "descriptors")
                 else _get_usbfs_fd sys busnum devaddr O_RDONLY);
  if fd <? 0 then mret fd else
  r ← on_world (read_descriptors_loop 22 d fd 512);
  if r <? 0 then mret r else
  priv ← on_world (dpriv_of d);
  if dp_descriptors_len priv <? DEVICE_DESC_LENGTH then mret LIBUSB_ERROR_IO
  else if negb (sysfs_can_relate_devices g =? 0) then mret LIBUSB_SUCCESS
  else
    fd ← on_world (_get_usbfs_fd sys busnum devaddr O_RDWR);
    if fd <? 0 then on_world (assume_first_config d)
    else
      r ← on_world (usbfs_get_active_config sys d fd);
      on_world (sys_call (sys_close sys fd)) ;;
      mret r.

(** The two blocks of the private data; the private data itself goes with the
    device, which the caller releases next. *)
Definition release_block (p : option nat) (h : heap) : heap :=
  match p with
  | None => h
  | Some b => mk_heap (live h ∖ {[+ b +]}) (next h) (oom h) (oom_realloc h)
  end.
Definition op_destroy_device (d : nat) (w : linux K) : unit * linux K :=
  let priv := default zero_dpriv (lx_dpriv w !! d) in
  let h := release_block (option_map fst (dp_sysfs_dir priv)) (release_block (option_map fst (dp_descriptors priv)) (lx_mem w)) in
  (tt, set_lx_dpriv (delete d (lx_dpriv w)) (set_lx_mem h w)).

(** ** The parent *)

(** "2-1.4" is port 4 of "2-1"; "2-1" is port 1 of "2", which is the root hub
    "usb2". *)
Definition split_port (sysfs_dir : list Z) : option (list Z * Z) :=
  match (match strrchr sysfs_dir 46 with Some r => Some r | None => strrchr sysfs_dir 45 end) with
  | None => None
  | Some (parent, port) => Some (parent, u8 (atoi port))
  end.
Definition is_bus (parent : list Z) : bool := negb (bool_decide (45 ∈ parent)).
Definition parent_dir (parent : list Z) : list Z := if is_bus parent then bytes_of "usb" ++ parent else parent.

(** The search of the list of devices; [strcmp] follows [priv->sysfs_dir]. *)
Fixpoint find_sysfs_dir (dir : list Z) (l : list nat) : LX (option nat) :=
  match l with
  | [] => mret None
  | it :: l =>
      priv ← get_dpriv it;
      name ← on_world (text_of (dp_sysfs_dir priv));
      if bool_decide (snd name = dir) then (it ← libusb_ref_device it; mret (Some it)) else find_sysfs_dir dir l
  end.
Definition find_parent (d : nat) (dir : list Z) : LX (option nat) :=
  l ← gets usb_devs;
  it ← find_sysfs_dir dir l;
  match it with
  | None => mret None
  | Some p => upd_device d (set_parent_dev (Some p)) ;; mret (Some p)
  end.

(** [scan]: the function [sysfs_scan_device]. *)
Definition linux_get_parent_info (scan : list Z -> LX Z) (d : nat) (sysfs_dir : option (list Z)) : LX Z :=
  match sysfs_dir with
  | None => mret LIBUSB_SUCCESS
  | Some dir =>
      if has_prefix (bytes_of "usb") dir then mret LIBUSB_SUCCESS else
      copy ← on_world (on_lx_mem malloc);
      match copy, split_port dir with
      | None, _ => mret LIBUSB_ERROR_NO_MEM
      | Some b, None => on_world (on_lx_mem (free (Some b))) ;; mret LIBUSB_SUCCESS
      | Some b, Some (parent, port) =>
          upd_device d (set_port_number port) ;;
          copy ← (if is_bus parent then
                    copy ← on_world (on_lx_mem malloc);
                    on_world (on_lx_mem (free (Some b))) ;;
                    mret copy
                  else mret (Some b));
          match copy with
          | None => mret LIBUSB_ERROR_NO_MEM
          | Some b =>
              it ← find_parent d (parent_dir parent);
              (match it with
               | Some _ => mret tt
               | None => scan (parent_dir parent) ;; find_parent d (parent_dir parent) ;; mret tt
               end) ;;
              on_world (on_lx_mem (free (Some b))) ;;
              mret LIBUSB_SUCCESS
          end
      end
  end.

(** ** Devices of a context *)

Variable be : os_backend (linux K).

(** [usbi_sanitize_device] on the fields of the device. *)
Definition sanitize (d : nat) : LX Z :=
  x ← get_device d;
  '(r, desc, num) ← on_dstate (DescApi.usbi_sanitize_device (linux_desc_backend sys big d) big (device_descriptor x) (num_configurations x));
  upd_device d (fun x => set_num_configurations num (set_device_descriptor desc x)) ;;
  mret r.

(** The middle of [linux_enumerate_device]. *)
Definition linux_probe (scan : list Z -> LX Z) (sysfs_dir : option (list Z)) (d : nat) (busnum devaddr : Z) : LX Z :=
  r ← initialize_device d busnum devaddr sysfs_dir;
  if r <? 0 then mret r else
  r ← sanitize d;
  if r <? 0 then mret r else
  linux_get_parent_info scan d sysfs_dir.

(** Every parent has one separator less in its name. *)
Fixpoint sysfs_scan_device (fuel : nat) (devname : list Z) : LX Z :=
  match fuel with
  | O => fail OutOfFuel
  | S fuel =>
      '(ret, busnum, devaddr) ← on_world (linux_get_device_address sys false 0 0 None (Some devname));
      if negb (ret =? LIBUSB_SUCCESS) then mret ret
      else linux_enumerate_device be (linux_probe (sysfs_scan_device fuel) (Some devname)) busnum devaddr
  end.
Definition is_separator (c : Z) : bool := (c =? 46) || (c =? 45).
Definition scan_fuel (dir : list Z) : nat := S (length (List.filter is_separator dir)).

(** [linux_enumerate_device] with the whole of its recursion. *)
Definition linux_enumerate (busnum devaddr : Z) (sysfs_dir : option (list Z)) : LX Z :=
  let fuel := match sysfs_dir with Some dir => scan_fuel dir | None => O end in
  linux_enumerate_device be (linux_probe (sysfs_scan_device fuel) sysfs_dir) busnum devaddr.
(** For the one context. *)
Definition linux_hotplug_enumerate (busnum devaddr : Z) (sys_name : option (list Z)) : LX unit :=
  linux_enumerate busnum devaddr sys_name ;; mret tt.

(** ** The walks *)

(** The loop of [usbfs_scan_busdir] over the names; [r] is its result so
    far. *)
Fixpoint scan_busdir_loop (busnum : Z) (names : list (list Z)) (r : Z) : LX Z :=
  match names with
  | [] => mret r
  | name :: names =>
      if starts_with_dot name || (atoi name =? 0) then scan_busdir_loop busnum names r
      else
        e ← linux_enumerate busnum (u8 (atoi name)) None;
        scan_busdir_loop busnum names (if e =? 0 then 0 else r)
  end.
Definition usbfs_scan_busdir (busnum : Z) : LX Z :=
  g ← on_world globals;
  dir ← on_world (text_of (usbfs_path g));
  entries ← on_world (sys_call (sys_entries sys (path_text (dir ++ bytes_of "/" ++ fmt_dec 3 48 busnum))));
  match entries with
  | None => mret LIBUSB_ERROR_IO
  | Some names => scan_busdir_loop busnum names LIBUSB_ERROR_IO
  end.

Fixpoint usbfs_list_loop (names : list (list Z)) (r : Z) : LX Z :=
  match names with
  | [] => mret r
  | name :: names =>
      if starts_with_dot name then usbfs_list_loop names r else
      g ← on_world globals;
      if usbdev_names g then
        match _is_usbdev_entry name with
        | None => usbfs_list_loop names r
        | Some (busnum, devaddr) =>
            r ← linux_enumerate (u8 busnum) (u8 devaddr) None;
            usbfs_list_loop names r
        end
      else
        let busnum := atoi name in
        if busnum =? 0 then usbfs_list_loop names r
        else
          r ← usbfs_scan_busdir (u8 busnum);
          if r <? 0 then mret r else usbfs_list_loop names r
  end.
Definition usbfs_get_device_list : LX Z :=
  g ← on_world globals;
  dir ← on_world (text_of (usbfs_path g));
  entries ← on_world (sys_call (sys_entries sys dir));
  match entries with
  | None => mret LIBUSB_ERROR_IO
  | Some names => usbfs_list_loop names 0
  end.

(** Devices have names like "2-1.4" and "usb2"; interfaces have a colon. *)
Definition is_device_name (name : list Z) : bool :=
  (is_digit (nth 0 name 0) || has_prefix (bytes_of "usb") name) && negb (bool_decide (58 ∈ name)).
Fixpoint sysfs_list_loop (names : list (list Z)) (r : Z) : LX Z :=
  match names with
  | [] => mret r
  | name :: names =>
      if negb (is_device_name name) then sysfs_list_loop names r
      else
        e ← sysfs_scan_device (scan_fuel name) name;
        sysfs_list_loop names (if e =? 0 then 0 else r)
  end.
Definition sysfs_get_device_list : LX Z :=
  entries ← on_world (sys_call (sys_entries sys SYSFS_DEVICE_PATH));
  match entries with
  | None => mret LIBUSB_ERROR_IO
  | Some names => sysfs_list_loop names LIBUSB_ERROR_IO
  end.

Definition linux_default_scan_devices : LX Z :=
  g ← on_world globals;
  if negb (sysfs_can_relate_devices g =? 0) then sysfs_get_device_list else usbfs_get_device_list.
End enum.
