(* ===== verification/LinuxIface.v ===== *)
(** * Handles in the Linux backend (os/linux_usbfs.c)

    Opening and closing the device node, the configuration, the interfaces
    with the drivers bound to them, reset, bulk streams and memory mapped
    from the kernel.  Each is an [ioctl] with the translation of [errno]. *)

From S2P Require Import Prelude Heap ParseDesc DescApi Bos Core Text Log Devices Hotplug HotplugLife Transfers Events Handles LinuxState LinuxSys LinuxDesc.

Definition POLLOUT : Z := 4.
Definition USBFS_DISCONNECT_CLAIM_EXCEPT_DRIVER : Z := 2.
(** [sizeof(struct usbfs_streams)] *)
Definition STREAMS_SIZE : Z := 8.

(** [switch (errno)] *)
Fixpoint errno_code (table : list (Z * Z)) (errno : Z) : Z :=
  match table with
  | [] => LIBUSB_ERROR_OTHER
  | (e, code) :: table => if errno =? e then code else errno_code table errno
  end.

Section iface.
Context {K : Type} (sys : linux_sys K) (be : os_backend (linux K)).
Variable fd_cb : nat -> bool -> Z -> Z -> Lib (linux K) unit.
Abbreviation LX := (Lib (linux K)).

Definition system {A} (op : K -> A * K) : LX A := on_world (sys_call op).
Definition handle_fd (h : nat) : LX Z := hpriv ← get_hpriv h; mret (hp_fd hpriv).
Definition handle_dev (h : nat) : LX nat := y ← get_handle h; mret (h_dev y).

(** An [ioctl] on the handle that returns 0 or fails. *)
Definition simple_ioctl (h : nat) (op : Z -> K -> Z * K) (table : list (Z * Z)) : LX Z :=
  fd ← handle_fd h;
  errno ← system (op fd);
  mret (if errno =? 0 then LIBUSB_SUCCESS else errno_code table errno).

(** ** Open and close *)

(** The capabilities of an old kernel are those that its version tells. *)
Definition assumed_caps (g : linux_globals) : Z :=
  Z.lor (if negb (supports_flag_zero_packet g =? 0) then USBFS_CAP_ZERO_PACKET else 0)
        (if negb (supports_flag_bulk_continuation g =? 0) then USBFS_CAP_BULK_CONTINUATION else 0).

Definition op_open (h : nat) : LX Z :=
  d ← handle_dev h;
  x ← get_device d;
  fd ← on_world (_get_usbfs_fd sys (bus_number x) (device_address x) O_RDWR);
  hpriv ← get_hpriv h;
  put_hpriv h (set_hp_fd fd hpriv) ;;
  if fd <? 0 then
    (if fd =? LIBUSB_ERROR_NO_DEVICE then
       x ← get_device d;
       if attached x then linux_device_disconnected be (bus_number x) (device_address x) else mret tt
     else mret tt) ;;
    mret fd
  else
    '(errno, caps) ← system (ioctl_get_capabilities sys fd);
    g ← on_world globals;
    put_hpriv h (set_hp_caps (if errno =? 0 then caps else assumed_caps g) (set_hp_fd fd hpriv)) ;;
    r ← usbi_add_pollfd fd_cb fd POLLOUT;
    (if r <? 0 then system (sys_close sys fd) else mret tt) ;;
    mret r.

Definition op_close (h : nat) : LX unit :=
  hpriv ← get_hpriv h;
  (if hp_fd_removed hpriv then mret tt else usbi_remove_pollfd fd_cb (hp_fd hpriv)) ;;
  system (sys_close sys (hp_fd hpriv)).

(** ** Configuration *)

(** Returns the code and [*config]. *)
Definition op_get_configuration (h : nat) (config : Z) : LX (Z * Z) :=
  d ← handle_dev h;
  g ← on_world globals;
  '(r, config) ← (if negb (sysfs_can_relate_devices g =? 0) then on_world (sysfs_get_active_config sys d config)
                  else
                    fd ← handle_fd h;
                    r ← on_world (usbfs_get_active_config sys d fd);
                    priv ← get_dpriv d;
                    mret (r, if r =? LIBUSB_SUCCESS then dp_active_config priv else config));
  if r <? 0 then mret (r, config)
  else mret (0, if config =? -1 then 0 else config).

Definition op_set_configuration (h : nat) (config : Z) : LX Z :=
  r ← simple_ioctl h (fun fd => ioctl_setconfig sys fd config)
        [(EINVAL, LIBUSB_ERROR_NOT_FOUND); (EBUSY, LIBUSB_ERROR_BUSY); (ENODEV, LIBUSB_ERROR_NO_DEVICE)];
  if negb (r =? 0) then mret r else
  d ← handle_dev h;
  priv ← get_dpriv d;
  put_dpriv d (set_dp_active_config config priv) ;;
  mret LIBUSB_SUCCESS.

(** ** Interfaces *)

Definition claim_interface (h : nat) (iface : Z) : LX Z :=
  simple_ioctl h (fun fd => ioctl_claimintf sys fd iface)
    [(ENOENT, LIBUSB_ERROR_NOT_FOUND); (EBUSY, LIBUSB_ERROR_BUSY); (ENODEV, LIBUSB_ERROR_NO_DEVICE)].
Definition release_interface (h : nat) (iface : Z) : LX Z :=
  simple_ioctl h (fun fd => ioctl_releaseintf sys fd iface) [(ENODEV, LIBUSB_ERROR_NO_DEVICE)].
Definition op_set_interface (h : nat) (iface altsetting : Z) : LX Z :=
  simple_ioctl h (fun fd => ioctl_setintf sys fd iface altsetting)
    [(EINVAL, LIBUSB_ERROR_NOT_FOUND); (ENODEV, LIBUSB_ERROR_NO_DEVICE)].
Definition op_clear_halt (h : nat) (endpoint : Z) : LX Z :=
  simple_ioctl h (fun fd => ioctl_clear_halt sys fd endpoint)
    [(ENOENT, LIBUSB_ERROR_NOT_FOUND); (ENODEV, LIBUSB_ERROR_NO_DEVICE)].

(** [strcmp(getdrv.driver, "usbfs") == 0] *)
Definition is_usbfs (driver : list Z) : bool := bool_decide (cstring driver = bytes_of "usbfs").

Definition op_kernel_driver_active (h : nat) (interface : Z) : LX Z :=
  fd ← handle_fd h;
  '(errno, driver) ← system (ioctl_getdriver sys fd interface);
  if errno =? 0 then mret (if is_usbfs driver then 0 else 1)
  else mret (errno_code [(ENODATA, 0); (ENODEV, LIBUSB_ERROR_NO_DEVICE)] errno).

Definition op_detach_kernel_driver (h : nat) (interface : Z) : LX Z :=
  fd ← handle_fd h;
  '(errno, driver) ← system (ioctl_getdriver sys fd interface);
  if (errno =? 0) && is_usbfs driver then mret LIBUSB_ERROR_NOT_FOUND
  else simple_ioctl h (fun fd => ioctl_disconnect sys fd interface)
    [(ENODATA, LIBUSB_ERROR_NOT_FOUND); (EINVAL, LIBUSB_ERROR_INVALID_PARAM); (ENODEV, LIBUSB_ERROR_NO_DEVICE)].

Definition op_attach_kernel_driver (h : nat) (interface : Z) : LX Z :=
  fd ← handle_fd h;
  '(errno, r) ← system (ioctl_connect sys fd interface);
  if negb (errno =? 0) then
    mret (errno_code [(ENODATA, LIBUSB_ERROR_NOT_FOUND); (EINVAL, LIBUSB_ERROR_INVALID_PARAM);
                      (ENODEV, LIBUSB_ERROR_NO_DEVICE); (EBUSY, LIBUSB_ERROR_BUSY)] errno)
  else mret (if r =? 0 then LIBUSB_ERROR_NOT_FOUND else 0).

Definition detach_kernel_driver_and_claim (h : nat) (interface : Z) : LX Z :=
  fd ← handle_fd h;
  errno ← system (ioctl_disconnect_claim sys fd interface USBFS_DISCONNECT_CLAIM_EXCEPT_DRIVER (bytes_of "usbfs"));
  if errno =? 0 then mret 0
  else if negb (errno =? ENOTTY) then
    mret (errno_code [(EBUSY, LIBUSB_ERROR_BUSY); (EINVAL, LIBUSB_ERROR_INVALID_PARAM); (ENODEV, LIBUSB_ERROR_NO_DEVICE)] errno)
  else
    r ← op_detach_kernel_driver h interface;
    if negb (r =? 0) && negb (r =? LIBUSB_ERROR_NOT_FOUND) then mret r
    else claim_interface h interface.

Definition op_claim_interface (h : nat) (iface : Z) : LX Z :=
  y ← get_handle h;
  if negb (auto_detach_kernel_driver y =? 0) then detach_kernel_driver_and_claim h iface
  else claim_interface h iface.

Definition op_release_interface (h : nat) (iface : Z) : LX Z :=
  r ← release_interface h iface;
  if negb (r =? 0) then mret r else
  y ← get_handle h;
  (if negb (auto_detach_kernel_driver y =? 0) then op_attach_kernel_driver h iface ;; mret tt else mret tt) ;;
  mret 0.

(** ** Reset *)

(** [for (i = 0; i < USB_MAXINTERFACES; i++)] *)
Definition all_interfaces : list Z := map Z.of_nat (seq 0 (Z.to_nat USB_MAXINTERFACES)).
(** [handle->claimed_interfaces & (1L << i)] *)
Definition bit_of (y : device_handle) (i : Z) : bool := negb (Z.land (claimed_interfaces y) (Z.shiftl 1 i) =? 0).

Definition release_claimed (h : nat) : LX unit :=
  for_each (fun i => y ← get_handle h; if bit_of y i then release_interface h i ;; mret tt else mret tt) all_interfaces.

Fixpoint reclaim_loop (h : nat) (l : list Z) (ret : Z) : LX Z :=
  match l with
  | [] => mret ret
  | i :: l =>
      y ← get_handle h;
      if bit_of y i then
        r ← detach_kernel_driver_and_claim h i;
        if r =? 0 then reclaim_loop h l ret
        else
          put_handle h (set_claimed_interfaces (Z.land (claimed_interfaces y) (ulong (Z.lnot (Z.shiftl 1 i)))) y) ;;
          reclaim_loop h l LIBUSB_ERROR_NOT_FOUND
      else reclaim_loop h l ret
  end.

Definition op_reset_device (h : nat) : LX Z :=
  fd ← handle_fd h;
  release_claimed h ;;
  errno ← system (ioctl_reset sys fd);
  if errno =? 0 then reclaim_loop h all_interfaces 0
  else mret (errno_code [(ENODEV, LIBUSB_ERROR_NOT_FOUND)] errno).

(** ** Streams and memory *)

(** The size that [malloc] is asked for wraps around below -8; the bytes that
    [memcpy] is asked for wrap around below 0. *)
Definition do_streams_ioctl (h : nat) (alloc : bool) (num_streams : Z) (endpoints : list Z) (num_endpoints : Z) : LX Z :=
  fd ← handle_fd h;
  if 30 <? num_endpoints then mret LIBUSB_ERROR_INVALID_PARAM else
  streams ← (if STREAMS_SIZE + num_endpoints <? 0 then mret None else on_mem malloc);
  match streams with
  | None => mret LIBUSB_ERROR_NO_MEM
  | Some b =>
      if num_endpoints <? 0 then fail OutOfBounds else
      eps ← lift (rd_n endpoints (Z.to_nat num_endpoints));
      '(errno, r) ← system (ioctl_streams sys fd alloc num_streams eps);
      on_mem (free (Some b)) ;;
      mret (if errno =? 0 then r
            else errno_code [(ENOTTY, LIBUSB_ERROR_NOT_SUPPORTED); (EINVAL, LIBUSB_ERROR_INVALID_PARAM);
                             (ENODEV, LIBUSB_ERROR_NO_DEVICE)] errno)
  end.
Definition op_alloc_streams (h : nat) (num_streams : Z) (endpoints : list Z) (num_endpoints : Z) : LX Z :=
  do_streams_ioctl h true num_streams endpoints num_endpoints.
Definition op_free_streams (h : nat) (endpoints : list Z) (num_endpoints : Z) : LX Z :=
  do_streams_ioctl h false 0 endpoints num_endpoints.

Definition op_dev_mem_alloc (h : nat) (len : Z) : LX (option nat) :=
  fd ← handle_fd h;
  '(errno, buffer) ← system (sys_mmap sys len fd);
  mret (if errno =? 0 then Some buffer else None).
Definition op_dev_mem_free (h : nat) (buffer : nat) (len : Z) : LX Z :=
  errno ← system (sys_munmap sys buffer len);
  mret (if errno =? 0 then LIBUSB_SUCCESS else LIBUSB_ERROR_OTHER).
End iface.
