(* ===== verification/LinuxNetlink.v ===== *)
(** * The netlink monitor (os/linux_netlink.c)

    The socket on which the kernel announces devices: its start and stop, the
    parser of the messages, and what a message does.  A message is an array
    of 2048 bytes of which the kernel filled the first ones; reading behind
    the array is a fault. *)

From S2P Require Import Prelude Heap ParseDesc DescApi Bos Core Text Log Devices Hotplug HotplugLife LinuxState LinuxSys LinuxDesc LinuxEnum.

Definition NL_GROUP_KERNEL : Z := 1.
Definition FD_CLOEXEC : Z := 1.
Definition O_NONBLOCK : Z := 2048.
Definition SOCK_RAW : Z := 3.
Definition SOCK_CLOEXEC : Z := 524288.
Definition SOCK_NONBLOCK : Z := 2048.
Definition SCM_CREDENTIALS : Z := 2.
Definition MSG_BUFFER_SIZE : nat := 2048.

(** [recvmsg]: [errno], the bytes, [MSG_TRUNC], the sender's address, and
    the first control message with its type and user. *)
Record netlink_message : Type := mk_nl {
  nl_errno : Z;
  nl_data : list Z;
  nl_truncated : bool;
  nl_groups : Z;
  nl_pid : Z;
  nl_cred : option (Z * Z)
}.

(** The system calls, with [errno] first; [nl_poll] tells whether the control
    pipe and the socket can be read. *)
Record netlink_sys (K : Type) : Type := mk_nlsys {
  nl_socket : Z -> K -> (Z * Z) * K;
  nl_getfd : Z -> K -> (Z * Z) * K;
  nl_setfd : Z -> Z -> K -> Z * K;
  nl_getfl : Z -> K -> (Z * Z) * K;
  nl_setfl : Z -> Z -> K -> Z * K;
  nl_bind : Z -> Z -> K -> Z * K;
  nl_setsockopt : Z -> K -> Z * K;
  nl_pipe : K -> (Z * (Z * Z)) * K;
  nl_close : Z -> K -> unit * K;
  nl_thread_create : K -> Z * K;
  nl_thread_join : K -> unit * K;
  nl_write : Z -> list Z -> K -> Z * K;
  nl_read : Z -> K -> Z * K;
  nl_poll : K -> (Z * (bool * bool)) * K;
  nl_recvmsg : Z -> K -> netlink_message * K
}.
Arguments nl_socket {K}.
Arguments nl_getfd {K}.
Arguments nl_setfd {K}.
Arguments nl_getfl {K}.
Arguments nl_setfl {K}.
Arguments nl_bind {K}.
Arguments nl_setsockopt {K}.
Arguments nl_pipe {K}.
Arguments nl_close {K}.
Arguments nl_thread_create {K}.
Arguments nl_thread_join {K}.
Arguments nl_write {K}.
Arguments nl_read {K}.
Arguments nl_poll {K}.
Arguments nl_recvmsg {K}.

(** ** The parser *)

(** Whether [l] starts with [key] and the character [final]; characters are
    read up to the first that differs. *)
Fixpoint reads_as (key : list Z) (final : Z) (l : list Z) : outcome bool :=
  c ← rd l 0;
  match key with
  | [] => Ok (c =? final)
  | k :: key => if c =? k then reads_as key final (drop 1 l) else Ok false
  end.
(** [strcmp(l, text) == 0] *)
Definition strcmp_eq (text l : list Z) : outcome bool := reads_as text 0 l.

(** [strlen] *)
Fixpoint c_strlen (l : list Z) : outcome nat :=
  match l with
  | [] => Fault OutOfBounds
  | c :: l => if c =? 0 then Ok O else n ← c_strlen l; Ok (S n)
  end.

(** [strtoul(l, NULL, 10)], with whether [errno] is set. *)
Definition strtoul (l : list Z) : outcome (Z * bool) :=
  match scan_number l with
  | Some (_, []) => Fault OutOfBounds
  | Some (n, _) => if 2 ^ 64 <=? Z.abs n then Ok (2 ^ 64 - 1, true) else Ok (n mod 2 ^ 64, false)
  | None =>
      match skip_space l with
      | [] => Fault OutOfBounds
      | [c] => if is_sign c then Fault OutOfBounds else Ok (0, false)
      | _ => Ok (0, false)
      end
  end.

(** The loop from [off]: the offset behind the ['='], if the key is there. *)
Fixpoint netlink_find (fuel : nat) (buffer : list Z) (off len : nat) (key : list Z) : outcome (option nat) :=
  if (len <=? off)%nat then Ok None else
  let l := drop off buffer in
  c ← rd l 0;
  if c =? 0 then Ok None else
  found ← reads_as key 61 l;
  if (found : bool) then Ok (Some (off + length key + 1)%nat) else
  n ← c_strlen l;
  match fuel with
  | O => Fault OutOfFuel
  | S fuel => netlink_find fuel buffer (off + n + 1) len key
  end.
Definition netlink_message_parse (buffer : list Z) (len : nat) (key : list Z) : outcome (option nat) :=
  netlink_find len buffer 0 len key.

(** [strrchr(tmp, '/')], as an offset. *)
Definition last_slash (buffer : list Z) (tmp : nat) : outcome (option nat) :=
  n ← c_strlen (drop tmp buffer);
  Ok (match strrchr (take n (drop tmp buffer)) 47 with
      | Some (before, _) => Some (tmp + length before)%nat
      | None => None
      end).

(** What [linux_netlink_parse] gives back on success. *)
Record uevent : Type := mk_uevent {
  ue_detached : bool;
  ue_sys_name : option (list Z);
  ue_busnum : Z;
  ue_devaddr : Z
}.

(** A member of the message compared with a text. *)
Definition key_is (buffer : list Z) (len : nat) (key text : list Z) : outcome bool :=
  tmp ← netlink_message_parse buffer len key;
  match tmp with
  | None => Ok false
  | Some tmp => strcmp_eq text (drop tmp buffer)
  end.

(** The number at an offset, as [uint8_t]; [None] when [errno] is set. *)
Definition number_at (buffer : list Z) (off : nat) : outcome (option Z) :=
  '(n, erange) ← strtoul (drop off buffer);
  Ok (if (erange : bool) then None else Some (u8 (Z.land n 255))).

(** The branch without [BUSNUM]: a path such as /dev/bus/usb/003/004. *)
Definition parse_device_path (buffer : list Z) (len : nat) (detached : bool) : outcome (option uevent) :=
  tmp ← netlink_message_parse buffer len (bytes_of "DEVICE");
  match tmp with
  | None => Ok None
  | Some tmp =>
      slash ← last_slash buffer tmp;
      match slash with
      | None => Ok None
      | Some slash =>
          busnum ← number_at buffer (slash - 3);
          match busnum with
          | None => Ok None
          | Some busnum =>
              devaddr ← number_at buffer (slash + 1);
              Ok (match devaddr with
                  | None => None
                  | Some devaddr => Some (mk_uevent detached None busnum devaddr)
                  end)
          end
      end
  end.

(** The branch with [BUSNUM] at [tmp]. *)
Definition parse_numbers (buffer : list Z) (len : nat) (detached : bool) (tmp : nat) : outcome (option uevent) :=
  busnum ← number_at buffer tmp;
  match busnum with
  | None => Ok None
  | Some busnum =>
      tmp ← netlink_message_parse buffer len (bytes_of "DEVNUM");
      match tmp with
      | None => Ok None
      | Some tmp =>
          devaddr ← number_at buffer tmp;
          match devaddr with
          | None => Ok None
          | Some devaddr =>
              tmp ← netlink_message_parse buffer len (bytes_of "DEVPATH");
              match tmp with
              | None => Ok None
              | Some tmp =>
                  slash ← last_slash buffer tmp;
                  Ok (Some (mk_uevent detached
                    (option_map (fun slash => cstring (drop (slash + 1) buffer)) slash) busnum devaddr))
              end
          end
      end
  end.

(** [None]: the return value -1. *)
Definition linux_netlink_parse (buffer : list Z) (len : nat) : outcome (option uevent) :=
  tmp ← netlink_message_parse buffer len (bytes_of "ACTION");
  match tmp with
  | None => Ok None
  | Some tmp =>
      detached ← strcmp_eq (bytes_of "remove") (drop tmp buffer);
      added ← (if (detached : bool) then Ok true else strcmp_eq (bytes_of "add") (drop tmp buffer));
      if negb added then Ok None else
      usb ← key_is buffer len (bytes_of "SUBSYSTEM") (bytes_of "usb");
      if negb usb then Ok None else
      device ← key_is buffer len (bytes_of "DEVTYPE") (bytes_of "usb_device");
      if negb device then Ok None else
      tmp ← netlink_message_parse buffer len (bytes_of "BUSNUM");
      match tmp with
      | Some tmp => parse_numbers buffer len detached tmp
      | None => parse_device_path buffer len detached
      end
  end.

(** ** The monitor *)

Section netlink.
Context {K : Type} (sys : linux_sys K) (nl : netlink_sys K) (big : bool) (junk : nat -> list Z) (be : os_backend (linux K)).
Abbreviation LM := (M (linux K)).
Abbreviation LX := (Lib (linux K)).

(** 0, or -1. *)
Definition set_fd_cloexec_nb (fd : Z) : LM Z :=
  '(errno, flags) ← sys_call (nl_getfd nl fd);
  if negb (errno =? 0) then mret (-1) else
  errno ← (if Z.land flags FD_CLOEXEC =? 0 then sys_call (nl_setfd nl fd (Z.lor flags FD_CLOEXEC)) else mret 0);
  if negb (errno =? 0) then mret (-1) else
  '(errno, flags) ← sys_call (nl_getfl nl fd);
  if negb (errno =? 0) then mret (-1) else
  errno ← (if Z.land flags O_NONBLOCK =? 0 then sys_call (nl_setfl nl fd (Z.lor flags O_NONBLOCK)) else mret 0);
  mret (if errno =? 0 then 0 else -1).

Definition close_socket : LM Z :=
  g ← globals;
  sys_call (nl_close nl (linux_netlink_socket g)) ;;
  upd_globals (set_linux_netlink_socket (-1)) ;;
  mret LIBUSB_ERROR_OTHER.
Definition close_control_pipe : LM unit :=
  g ← globals;
  sys_call (nl_close nl (fst (netlink_control_pipe g))) ;;
  sys_call (nl_close nl (snd (netlink_control_pipe g))) ;;
  upd_globals (set_netlink_control_pipe (-1, -1)).

(** The socket, with the flags if the system knows them. *)
Definition open_socket : LM (Z * Z) :=
  let socktype := Z.lor (Z.lor SOCK_RAW SOCK_CLOEXEC) SOCK_NONBLOCK in
  '(errno, fd) ← sys_call (nl_socket nl socktype);
  if errno =? EINVAL then sys_call (nl_socket nl SOCK_RAW) else mret (errno, fd).

Definition linux_netlink_start_event_monitor : LM Z :=
  '(errno, fd) ← open_socket;
  upd_globals (set_linux_netlink_socket (if errno =? 0 then fd else -1)) ;;
  if negb (errno =? 0) then mret LIBUSB_ERROR_OTHER else
  ret ← set_fd_cloexec_nb fd;
  if ret =? -1 then close_socket else
  errno ← sys_call (nl_bind nl fd NL_GROUP_KERNEL);
  if negb (errno =? 0) then close_socket else
  errno ← sys_call (nl_setsockopt nl fd);
  if negb (errno =? 0) then close_socket else
  '(errno, fds) ← sys_call (nl_pipe nl);
  if negb (errno =? 0) then close_socket else
  upd_globals (set_netlink_control_pipe fds) ;;
  ret ← sys_call (nl_thread_create nl);
  if negb (ret =? 0) then close_control_pipe ;; close_socket
  else mret LIBUSB_SUCCESS.

Definition linux_netlink_stop_event_monitor : LM Z :=
  g ← globals;
  if linux_netlink_socket g =? -1 then fail AssertFail else
  sys_call (nl_write nl (snd (netlink_control_pipe g)) [1]) ;;
  sys_call (nl_thread_join nl) ;;
  sys_call (nl_close nl (linux_netlink_socket g)) ;;
  upd_globals (set_linux_netlink_socket (-1)) ;;
  close_control_pipe ;;
  mret LIBUSB_SUCCESS.

(** The checks in front of the parser. *)
Definition from_kernel (msg : netlink_message) : bool :=
  (nl_groups msg =? NL_GROUP_KERNEL) && (nl_pid msg =? 0) &&
  match nl_cred msg with
  | Some (kind, uid) => (kind =? SCM_CREDENTIALS) && (uid =? 0)
  | None => false
  end.

Definition linux_netlink_read_message : LX Z :=
  g ← on_world globals;
  msg ← on_world (sys_call (nl_recvmsg nl (linux_netlink_socket g)));
  let len := length (nl_data msg) in
  if negb (nl_errno msg =? 0) then mret (-1)
  else if (len <? 32)%nat || nl_truncated msg then mret (-1)
  else if negb (from_kernel msg) then mret (-1)
  else
    r ← lift (linux_netlink_parse (nl_data msg ++ junk (MSG_BUFFER_SIZE - len)) len);
    match r with
    | None => mret (-1)
    | Some ue =>
        (if ue_detached ue then linux_device_disconnected be (ue_busnum ue) (ue_devaddr ue)
         else linux_hotplug_enumerate sys big junk be (ue_busnum ue) (ue_devaddr ue) (ue_sys_name ue)) ;;
        mret 0
    end.

(** [do r = linux_netlink_read_message(); while (r == 0)] *)
Fixpoint linux_netlink_hotplug_poll (fuel : nat) : LX unit :=
  match fuel with
  | O => fail OutOfFuel
  | S fuel =>
      r ← linux_netlink_read_message;
      if r =? 0 then linux_netlink_hotplug_poll fuel else mret tt
  end.

(** The thread between its start and the byte in the control pipe. *)
Fixpoint linux_netlink_event_thread_main (fuel : nat) : LX unit :=
  match fuel with
  | O => fail OutOfFuel
  | S fuel =>
      '(errno, (control, socket)) ← on_world (sys_call (nl_poll nl));
      if negb (errno =? 0) then mret tt
      else if (control : bool) then
        g ← on_world globals;
        on_world (sys_call (nl_read nl (fst (netlink_control_pipe g)))) ;; mret tt
      else
        (if (socket : bool) then linux_netlink_read_message ;; mret tt else mret tt) ;;
        linux_netlink_event_thread_main fuel
  end.
End netlink.
