(* ===== verification/LinuxUdev.v ===== *)
(** * The udev monitor (os/linux_udev.c)

    The other monitor: a build with udev hears of devices through libudev,
    and asks it for those that are there.  libudev counts the references of
    its objects (contexts, monitors, enumerations, devices); an object is a
    number here, and what libudev does is the record [udev_sys]. *)

From S2P Require Import Prelude Heap ParseDesc DescApi Bos Core Text Log Devices Hotplug HotplugLife LinuxState LinuxSys LinuxDesc LinuxEnum LinuxNetlink.

(** The functions on devices accept null.  [ud_entries] is the list behind
    [udev_enumerate_get_list_entry] with the name of each entry. *)
Record udev_sys (K : Type) : Type := mk_udsys {
  ud_new : K -> option nat * K;
  ud_unref : nat -> K -> unit * K;
  ud_monitor_new_from_netlink : nat -> K -> option nat * K;
  ud_monitor_filter_add_match_subsystem_devtype : nat -> K -> Z * K;
  ud_monitor_enable_receiving : nat -> K -> Z * K;
  ud_monitor_get_fd : nat -> K -> Z * K;
  ud_monitor_receive_device : option nat -> K -> option nat * K;
  ud_monitor_unref : nat -> K -> unit * K;
  ud_enumerate_new : nat -> K -> option nat * K;
  ud_enumerate_add_match_subsystem : nat -> K -> unit * K;
  ud_enumerate_add_match_property : nat -> K -> unit * K;
  ud_enumerate_scan_devices : nat -> K -> unit * K;
  ud_entries : nat -> K -> list (list Z) * K;
  ud_enumerate_unref : nat -> K -> unit * K;
  ud_device_new_from_syspath : nat -> list Z -> K -> option nat * K;
  ud_device_get_action : option nat -> K -> option (list Z) * K;
  ud_device_get_devnode : option nat -> K -> option (list Z) * K;
  ud_device_get_sysname : option nat -> K -> option (list Z) * K;
  ud_device_unref : option nat -> K -> unit * K
}.
Arguments ud_new {K}.
Arguments ud_unref {K}.
Arguments ud_monitor_new_from_netlink {K}.
Arguments ud_monitor_filter_add_match_subsystem_devtype {K}.
Arguments ud_monitor_enable_receiving {K}.
Arguments ud_monitor_get_fd {K}.
Arguments ud_monitor_receive_device {K}.
Arguments ud_monitor_unref {K}.
Arguments ud_enumerate_new {K}.
Arguments ud_enumerate_add_match_subsystem {K}.
Arguments ud_enumerate_add_match_property {K}.
Arguments ud_enumerate_scan_devices {K}.
Arguments ud_entries {K}.
Arguments ud_enumerate_unref {K}.
Arguments ud_device_new_from_syspath {K}.
Arguments ud_device_get_action {K}.
Arguments ud_device_get_devnode {K}.
Arguments ud_device_get_sysname {K}.
Arguments ud_device_unref {K}.

Section udev.
Context {K : Type} (sys : linux_sys K) (nl : netlink_sys K) (ud : udev_sys K) (big : bool) (junk : nat -> list Z) (be : os_backend (linux K)).
Abbreviation LM := (M (linux K)).
Abbreviation LX := (Lib (linux K)).

Definition upd_udev (f : udev_globals -> udev_globals) : LM unit := upd_globals (fun g => set_udev (f (udev g)) g).

(** ** Start and stop *)

(** The labels [err_free_ctx] and [err_free_monitor], each with what follows
    it. *)
Definition err_free_ctx (ctx : nat) : LM Z :=
  sys_call (ud_unref ud ctx) ;;
  upd_udev (set_udev_ctx None) ;;
  mret LIBUSB_ERROR_OTHER.
Definition err_free_monitor (ctx mon : nat) : LM Z :=
  sys_call (ud_monitor_unref ud mon) ;;
  upd_udev (fun u => set_udev_monitor_fd (-1) (set_udev_monitor None u)) ;;
  err_free_ctx ctx.

(** From the pipe on. *)
Definition start_thread (ctx mon : nat) : LM Z :=
  '(errno, fds) ← sys_call (nl_pipe nl);
  if negb (errno =? 0) then err_free_monitor ctx mon else
  upd_udev (set_udev_control_pipe fds) ;;
  r ← sys_call (nl_thread_create nl);
  if negb (r =? 0) then
    sys_call (nl_close nl (fst fds)) ;;
    sys_call (nl_close nl (snd fds)) ;;
    err_free_monitor ctx mon
  else mret LIBUSB_SUCCESS.

Definition linux_udev_start_event_monitor : LM Z :=
  g ← globals;
  match udev_ctx (udev g) with Some _ => fail AssertFail | None =>
  ctx ← sys_call (ud_new ud);
  upd_udev (set_udev_ctx ctx) ;;
  match ctx with None => mret LIBUSB_ERROR_OTHER | Some ctx =>
  mon ← sys_call (ud_monitor_new_from_netlink ud ctx);
  upd_udev (set_udev_monitor mon) ;;
  match mon with None => err_free_ctx ctx | Some mon =>
  r ← sys_call (ud_monitor_filter_add_match_subsystem_devtype ud mon);
  if negb (r =? 0) then err_free_monitor ctx mon else
  r ← sys_call (ud_monitor_enable_receiving ud mon);
  if negb (r =? 0) then err_free_monitor ctx mon else
  fd ← sys_call (ud_monitor_get_fd ud mon);
  upd_udev (set_udev_monitor_fd fd) ;;
  '(errno, flags) ← sys_call (nl_getfl nl fd);
  if negb (errno =? 0) then err_free_monitor ctx mon else
  r ← sys_call (nl_setfl nl fd (Z.lor flags O_NONBLOCK));
  if negb (r =? 0) then err_free_monitor ctx mon else
  start_thread ctx mon
  end end end.

Definition linux_udev_stop_event_monitor : LM Z :=
  g ← globals;
  match udev_ctx (udev g), udev_monitor (udev g) with
  | Some ctx, Some mon =>
      if udev_monitor_fd (udev g) =? -1 then fail AssertFail else
      sys_call (nl_write nl (snd (udev_control_pipe (udev g))) [1]) ;;
      sys_call (nl_thread_join nl) ;;
      sys_call (ud_monitor_unref ud mon) ;;
      upd_udev (fun u => set_udev_monitor_fd (-1) (set_udev_monitor None u)) ;;
      sys_call (ud_unref ud ctx) ;;
      upd_udev (set_udev_ctx None) ;;
      sys_call (nl_close nl (fst (udev_control_pipe (udev g)))) ;;
      sys_call (nl_close nl (snd (udev_control_pipe (udev g)))) ;;
      upd_udev (set_udev_control_pipe (-1, -1)) ;;
      mret LIBUSB_SUCCESS
  | _, _ => fail AssertFail
  end.

(** ** Devices *)

(** The code, the bus and address, which begin as 0, and the name. *)
Definition udev_device_info (detached : bool) (udev_dev : option nat) : LM (Z * Z * Z * list Z) :=
  dev_node ← sys_call (ud_device_get_devnode ud udev_dev);
  match dev_node with
  | None => mret (LIBUSB_ERROR_OTHER, 0, 0, [])
  | Some dev_node =>
      sys_name ← sys_call (ud_device_get_sysname ud udev_dev);
      match sys_name with
      | None => mret (LIBUSB_ERROR_OTHER, 0, 0, [])
      | Some sys_name =>
          '(r, busnum, devaddr) ← linux_get_device_address sys detached 0 0 (Some dev_node) (Some sys_name);
          mret (r, busnum, devaddr, sys_name)
      end
  end.

(** [do ... while (0)]: what the event means. *)
Definition handle_udev_event (udev_dev : nat) : LX unit :=
  udev_action ← on_world (sys_call (ud_device_get_action ud (Some udev_dev)));
  match udev_action with
  | None => mret tt
  | Some udev_action =>
      let detached := has_prefix (bytes_of "remove") udev_action in
      '(r, busnum, devaddr, sys_name) ← on_world (udev_device_info detached (Some udev_dev));
      if negb (r =? LIBUSB_SUCCESS) then mret tt
      else if has_prefix (bytes_of "add") udev_action then linux_hotplug_enumerate sys big junk be busnum devaddr (Some sys_name)
      else if detached then linux_device_disconnected be busnum devaddr
      else mret tt
  end.
Definition udev_hotplug_event (udev_dev : nat) : LX unit :=
  handle_udev_event udev_dev ;;
  on_world (sys_call (ud_device_unref ud (Some udev_dev))).

(** One round under [linux_hotplug_lock]: whether there was an event. *)
Definition udev_receive : LX bool :=
  g ← on_world globals;
  udev_dev ← on_world (sys_call (ud_monitor_receive_device ud (udev_monitor (udev g))));
  match udev_dev with
  | Some udev_dev => udev_hotplug_event udev_dev ;; mret true
  | None => mret false
  end.

(** [do ... while (udev_dev)] *)
Fixpoint linux_udev_hotplug_poll (fuel : nat) : LX unit :=
  match fuel with
  | O => fail OutOfFuel
  | S fuel =>
      received ← udev_receive;
      if (received : bool) then linux_udev_hotplug_poll fuel else mret tt
  end.

(** The thread between its start and the byte in the control pipe. *)
Fixpoint linux_udev_event_thread_main (fuel : nat) : LX unit :=
  match fuel with
  | O => fail OutOfFuel
  | S fuel =>
      '(errno, (control, monitor)) ← on_world (sys_call (nl_poll nl));
      if negb (errno =? 0) then mret tt
      else if (control : bool) then
        g ← on_world globals;
        on_world (sys_call (nl_read nl (fst (udev_control_pipe (udev g))))) ;; mret tt
      else
        (if (monitor : bool) then udev_receive ;; mret tt else mret tt) ;;
        linux_udev_event_thread_main fuel
  end.

(** [udev_list_entry_foreach]; the value of [linux_enumerate_device] is not
    used. *)
Definition udev_scan_entry (ctx : nat) (path : list Z) : LX unit :=
  udev_dev ← on_world (sys_call (ud_device_new_from_syspath ud ctx path));
  '(r, busnum, devaddr, sys_name) ← on_world (udev_device_info false udev_dev);
  (if negb (r =? 0) then mret tt
   else linux_enumerate sys big junk be busnum devaddr (Some sys_name) ;; mret tt) ;;
  on_world (sys_call (ud_device_unref ud udev_dev)).
Definition linux_udev_scan_devices : LX Z :=
  g ← on_world globals;
  match udev_ctx (udev g) with
  | None => fail AssertFail
  | Some ctx =>
      enumerator ← on_world (sys_call (ud_enumerate_new ud ctx));
      match enumerator with
      | None => mret LIBUSB_ERROR_OTHER
      | Some enumerator =>
          on_world (sys_call (ud_enumerate_add_match_subsystem ud enumerator)) ;;
          on_world (sys_call (ud_enumerate_add_match_property ud enumerator)) ;;
          on_world (sys_call (ud_enumerate_scan_devices ud enumerator)) ;;
          devices ← on_world (sys_call (ud_entries ud enumerator));
          for_each (udev_scan_entry ctx) devices ;;
          on_world (sys_call (ud_enumerate_unref ud enumerator)) ;;
          mret LIBUSB_SUCCESS
      end
  end.
End udev.
