(* ===== verification/LinuxUrb.v ===== *)
(** * The URBs of the Linux backend (os/linux_usbfs.c, os/linux_usbfs.h)

    A transfer is handed to the kernel as one or more USB request blocks.
    The memory of the URBs is a store of its own: a block holds an array of
    URBs, a pointer to an URB is a block with an index, and every access
    needs a live block.  The kernel is the record [usbfs] of its three
    system calls: it may do what it likes with its own state.

    A URB's buffer is an offset into the buffer of its transfer.  Messages
    leave [errno] alone. *)

From S2P Require Import Prelude Heap ParseDesc DescApi Bos Core Devices DeviceRefs Transfers Events Handles HotplugLife LinuxState.

Section linux_urbs.
Context {K : Type} (kern : usbfs K) (be : os_backend (linux K)).
(** The callbacks of the application. *)
Variable user_cb : nat -> nat -> Lib (linux K) unit.
Abbreviation LX := (Lib (linux K)).

(** ** Memory *)

(** [_device_handle_priv(transfer->dev_handle)] *)
Definition transfer_hpriv (x : transfer) : LX linux_device_handle_priv :=
  match t_dev_handle x with
  | None => fail NullDeref
  | Some h => get_hpriv h
  end.

(** [calloc] of [n] URBs; it fails when the size is no [size_t]. *)
Definition calloc_urbs (n : Z) : LX (option nat) :=
  if n <? 0 then mret None else
  p ← on_mem malloc;
  (match p with
   | Some b => modify (fun s => set_world (set_lx_urbs (<[b := replicate (Z.to_nat n) zero_urb]> (lx_urbs (world s))) (world s)) s)
   | None => mret tt
   end) ;;
  mret p.

Definition get_urb (p : urb_ptr) : LX usbfs_urb :=
  on_mem (touch (Some (fst p))) ;;
  m ← gets (fun s => lx_urbs (world s));
  match m !! fst p with
  | Some l => match l !! snd p with Some u => mret u | None => fail OutOfBounds end
  | None => fail OutOfBounds
  end.
Definition put_urb (p : urb_ptr) (u : usbfs_urb) : LX unit :=
  get_urb p ;;
  modify (fun s => set_world (set_lx_urbs (alter (fun l => <[snd p := u]> l) (fst p) (lx_urbs (world s))) (world s)) s).

(** ** Discarding *)

(** The pointer to URB [i] of the transfer. *)
Definition nth_urb (x : transfer) (tpriv : linux_transfer_priv) (i : nat) : outcome urb_ptr :=
  if t_type x =? LIBUSB_TRANSFER_TYPE_ISOCHRONOUS then
    match tp_urbs tpriv with
    | IsoUrbs _ l => match l !! i with Some (Some b) => Ok (b, O) | _ => Fault NullDeref end
    | _ => Fault NullDeref
    end
  else
    match tp_urbs tpriv with
    | Urbs b => Ok (b, i)
    | _ => Fault NullDeref
    end.

(** The URBs [first + n - 1] down to [first]. *)
Fixpoint discard_loop (x : transfer) (tpriv : linux_transfer_priv) (fd : Z) (first n last : nat) (ret : Z) : LX Z :=
  match n with
  | O => mret ret
  | S n =>
      let i := (first + n)%nat in
      urb ← lift (nth_urb x tpriv i);
      errno ← kernel_op (ioctl_discardurb kern fd urb);
      discard_loop x tpriv fd first n last
        (if errno =? 0 then ret
         else if errno =? EINVAL then if (S i =? last)%nat then LIBUSB_ERROR_NOT_FOUND else ret
         else if errno =? ENODEV then LIBUSB_ERROR_NO_DEVICE
         else LIBUSB_ERROR_OTHER)
  end.

Definition discard_urbs (t : nat) (first last_plus_one : nat) : LX Z :=
  x ← get_transfer t;
  tpriv ← get_tpriv t;
  dpriv ← transfer_hpriv x;
  discard_loop x tpriv (hp_fd dpriv) first (last_plus_one - first) last_plus_one 0.

(** The loop of [free_iso_urbs] over the first [num_urbs] pointers. *)
Fixpoint free_iso_loop (l : list (option nat)) (n : nat) : LX unit :=
  match n with
  | O => mret tt
  | S n =>
      match l with
      | [] => fail OutOfBounds
      | None :: _ => mret tt
      | Some b :: l => on_mem (free (Some b)) ;; free_iso_loop l n
      end
  end.

Definition free_iso_urbs (t : nat) : LX unit :=
  tpriv ← get_tpriv t;
  (match tp_urbs tpriv with
   | IsoUrbs _ l => free_iso_loop l (Z.to_nat (tp_num_urbs tpriv))
   | _ => if 0 <? tp_num_urbs tpriv then fail NullDeref else mret tt
   end) ;;
  on_mem (free (urbs_block (tp_urbs tpriv))) ;;
  put_tpriv t (set_tp_urbs NoUrbs tpriv).

(** ** Bulk and interrupt transfers *)

Definition is_out (x : transfer) : bool := Z.land (t_endpoint x) LIBUSB_ENDPOINT_IN =? 0.

(** [bulk_buffer_len] and [use_bulk_continuation] *)
Definition bulk_split (caps length : Z) : Z * bool :=
  if has_flag caps USBFS_CAP_BULK_SCATTER_GATHER then (if length =? 0 then 1 else length, false)
  else if has_flag caps USBFS_CAP_BULK_CONTINUATION then (MAX_BULK_BUFFER_LENGTH, true)
  else if has_flag caps USBFS_CAP_NO_PACKET_SIZE_LIM then (if length =? 0 then 1 else length, false)
  else (MAX_BULK_BUFFER_LENGTH, false).

(** [num_urbs] and [last_urb_partial] *)
Definition bulk_num_urbs (length bulk_buffer_len : Z) : Z * bool :=
  if length =? 0 then (1, false)
  else if 0 <? Z.rem length bulk_buffer_len then (Z.quot length bulk_buffer_len + 1, true)
  else (Z.quot length bulk_buffer_len, false).

(** The assignments to URB [i]. *)
Definition bulk_urb (t : nat) (x : transfer) (caps : Z) (i : Z) : usbfs_urb :=
  let '(bulk_buffer_len, use_bulk_continuation) := bulk_split caps (t_length x) in
  let '(num_urbs, last_urb_partial) := bulk_num_urbs (t_length x) bulk_buffer_len in
  let '(type, stream_id) :=
    if t_type x =? LIBUSB_TRANSFER_TYPE_BULK then (USBFS_URB_TYPE_BULK, 0)
    else if t_type x =? LIBUSB_TRANSFER_TYPE_BULK_STREAM then (USBFS_URB_TYPE_BULK, it_stream_id x)
    else if t_type x =? LIBUSB_TRANSFER_TYPE_INTERRUPT then (USBFS_URB_TYPE_INTERRUPT, 0)
    else (0, 0) in
  let flags := if use_bulk_continuation && negb (is_out x) && (i <? num_urbs - 1)
               then USBFS_URB_SHORT_NOT_OK else 0 in
  let buffer_length :=
    if (i =? num_urbs - 1) && last_urb_partial then Z.rem (t_length x) bulk_buffer_len
    else if t_length x =? 0 then 0 else bulk_buffer_len in
  let flags := if (0 <? i) && use_bulk_continuation then Z.lor flags USBFS_URB_BULK_CONTINUATION else flags in
  let flags := if is_out x && (i =? num_urbs - 1) && has_flag (t_flags x) LIBUSB_TRANSFER_ADD_ZERO_PACKET
               then Z.lor flags USBFS_URB_ZERO_PACKET else flags in
  mk_urb type (t_endpoint x) 0 flags (i * bulk_buffer_len) buffer_length 0 stream_id t [].

(** From URB [i] on; [n] URBs are left. *)
Fixpoint submit_bulk_loop (t : nat) (x : transfer) (dpriv : linux_device_handle_priv) (b : nat) (i n : nat) : LX Z :=
  match n with
  | O => mret 0
  | S n =>
      let urb := bulk_urb t x (hp_caps dpriv) (Z.of_nat i) in
      put_urb (b, i) urb ;;
      errno ← kernel_op (ioctl_submiturb kern (hp_fd dpriv) (b, i) urb);
      if errno =? 0 then submit_bulk_loop t x dpriv b (S i) n
      else
        let r := if errno =? ENODEV then LIBUSB_ERROR_NO_DEVICE else LIBUSB_ERROR_IO in
        tpriv ← get_tpriv t;
        if (i =? 0)%nat then
          on_mem (free (Some b)) ;;
          put_tpriv t (set_tp_urbs NoUrbs tpriv) ;;
          mret r
        else
          let action := if errno =? EREMOTEIO then COMPLETED_EARLY else SUBMIT_FAILED in
          put_tpriv t (set_tp_num_retired (tp_num_retired tpriv + (tp_num_urbs tpriv - Z.of_nat i))
            (set_tp_reap_action action tpriv)) ;;
          if decide (action = COMPLETED_EARLY) then mret 0
          else discard_urbs t 0 i ;; mret 0
  end.

Definition submit_bulk_transfer (t : nat) : LX Z :=
  x ← get_transfer t;
  dpriv ← transfer_hpriv x;
  if is_out x && has_flag (t_flags x) LIBUSB_TRANSFER_ADD_ZERO_PACKET &&
     negb (has_flag (hp_caps dpriv) USBFS_CAP_ZERO_PACKET)
  then mret LIBUSB_ERROR_NOT_SUPPORTED else
  let bulk_buffer_len := fst (bulk_split (hp_caps dpriv) (t_length x)) in
  let num_urbs := fst (bulk_num_urbs (t_length x) bulk_buffer_len) in
  urbs ← calloc_urbs num_urbs;
  match urbs with
  | None => mret LIBUSB_ERROR_NO_MEM
  | Some b =>
      tpriv ← get_tpriv t;
      put_tpriv t (mk_tpriv (Urbs b) NORMAL num_urbs 0 LIBUSB_TRANSFER_COMPLETED (tp_iso_packet_offset tpriv)) ;;
      submit_bulk_loop t x dpriv b 0 (Z.to_nat num_urbs)
  end.

(** ** Isochronous transfers *)

(** The first loop: [num_urbs] and [this_urb_len], or [None] for a packet
    that is too long.  [space_remaining] is an [unsigned int],
    [this_urb_len] an [int]. *)
Fixpoint count_iso_urbs (packets : list iso_packet) (num_urbs this_urb_len : Z) : option Z :=
  match packets with
  | [] => Some num_urbs
  | p :: packets =>
      let space_remaining := u32 (MAX_ISO_BUFFER_LENGTH - this_urb_len) in
      let packet_len := iso_length p in
      if space_remaining <? packet_len then
        let this_urb_len := i32 packet_len in
        if MAX_ISO_BUFFER_LENGTH <? this_urb_len then None
        else count_iso_urbs packets (num_urbs + 1) this_urb_len
      else count_iso_urbs packets num_urbs (i32 (this_urb_len + packet_len))
  end.

(** "swallow up all the packets we can fit into this URB": the packets taken,
    those left, and the bytes they need. *)
Fixpoint swallow (packets : list iso_packet) (space : Z) : list iso_packet * list iso_packet * Z :=
  match packets with
  | [] => ([], [], 0)
  | p :: rest =>
      if iso_length p <=? space then
        let '(taken, remaining, size) := swallow rest (space - iso_length p) in
        (p :: taken, remaining, iso_length p + size)
      else ([], packets, 0)
  end.

Definition iso_urb (t : nat) (x : transfer) (taken : list iso_packet) (offset : Z) : usbfs_urb :=
  mk_urb USBFS_URB_TYPE_ISO (t_endpoint x) 0 USBFS_URB_ISO_ASAP offset 0 0 (Z.of_nat (length taken)) t
    (map (fun p => mk_frame (iso_length p) 0 0) taken).

(** "allocate + initialize each URB with the correct number of packets": URB
    [i] of [n] more, with the packets left and [urb_buffer]. *)
Fixpoint fill_iso_urbs (t : nat) (x : transfer) (i n : nat) (packets : list iso_packet) (urb_buffer : Z) : LX Z :=
  match n with
  | O => mret 0
  | S n =>
      let '(taken, remaining, size) := swallow packets MAX_ISO_BUFFER_LENGTH in
      urb ← calloc_urbs 1;
      match urb with
      | None => free_iso_urbs t ;; mret LIBUSB_ERROR_NO_MEM
      | Some b =>
          tpriv ← get_tpriv t;
          (match tp_urbs tpriv with
           | IsoUrbs a l => put_tpriv t (set_tp_urbs (IsoUrbs a (<[i := Some b]> l)) tpriv)
           | _ => fail NullDeref
           end) ;;
          put_urb (b, O) (iso_urb t x taken urb_buffer) ;;
          fill_iso_urbs t x (S i) n remaining (urb_buffer + size)
      end
  end.

Fixpoint submit_iso_loop (t : nat) (x : transfer) (dpriv : linux_device_handle_priv) (i n : nat) : LX Z :=
  match n with
  | O => mret 0
  | S n =>
      tpriv ← get_tpriv t;
      p ← lift (nth_urb (set_t_type LIBUSB_TRANSFER_TYPE_ISOCHRONOUS x) tpriv i);
      urb ← get_urb p;
      errno ← kernel_op (ioctl_submiturb kern (hp_fd dpriv) p urb);
      if errno =? 0 then submit_iso_loop t x dpriv (S i) n
      else
        let r := if errno =? ENODEV then LIBUSB_ERROR_NO_DEVICE
                 else if errno =? EINVAL then LIBUSB_ERROR_INVALID_PARAM
                 else LIBUSB_ERROR_IO in
        if (i =? 0)%nat then free_iso_urbs t ;; mret r
        else
          put_tpriv t (set_tp_num_retired (tp_num_urbs tpriv - Z.of_nat i) (set_tp_reap_action SUBMIT_FAILED tpriv)) ;;
          discard_urbs t 0 i ;;
          mret 0
  end.

Definition submit_iso_transfer (t : nat) : LX Z :=
  x ← get_transfer t;
  dpriv ← transfer_hpriv x;
  packets ← lift (if 0 <? t_num_iso_packets x then rd_n (t_iso_packets x) (Z.to_nat (t_num_iso_packets x)) else Ok []);
  match count_iso_urbs packets 1 0 with
  | None => mret LIBUSB_ERROR_INVALID_PARAM
  | Some num_urbs =>
      urbs ← on_mem malloc;
      match urbs with
      | None => mret LIBUSB_ERROR_NO_MEM
      | Some a =>
          tpriv ← get_tpriv t;
          put_tpriv t (mk_tpriv (IsoUrbs a (replicate (Z.to_nat num_urbs) None)) NORMAL num_urbs 0 (tp_reap_status tpriv) 0) ;;
          r ← fill_iso_urbs t x 0 (Z.to_nat num_urbs) packets 0;
          if r <? 0 then mret r else submit_iso_loop t x dpriv 0 (Z.to_nat num_urbs)
      end
  end.

(** ** Control transfers *)

(** The length of the data is a [size_t]. *)
Definition submit_control_transfer (t : nat) : LX Z :=
  x ← get_transfer t;
  dpriv ← transfer_hpriv x;
  if MAX_CTRL_BUFFER_LENGTH <? ulong (t_length x - LIBUSB_CONTROL_SETUP_SIZE) then mret LIBUSB_ERROR_INVALID_PARAM else
  p ← calloc_urbs 1;
  match p with
  | None => mret LIBUSB_ERROR_NO_MEM
  | Some b =>
      tpriv ← get_tpriv t;
      put_tpriv t (mk_tpriv (Urbs b) NORMAL 1 (tp_num_retired tpriv) (tp_reap_status tpriv) (tp_iso_packet_offset tpriv)) ;;
      let urb := mk_urb USBFS_URB_TYPE_CONTROL (t_endpoint x) 0 0 0 (t_length x) 0 0 t [] in
      put_urb (b, O) urb ;;
      errno ← kernel_op (ioctl_submiturb kern (hp_fd dpriv) (b, O) urb);
      if errno =? 0 then mret 0
      else
        on_mem (free (Some b)) ;;
        tpriv ← get_tpriv t;
        put_tpriv t (set_tp_urbs NoUrbs tpriv) ;;
        mret (if errno =? ENODEV then LIBUSB_ERROR_NO_DEVICE else LIBUSB_ERROR_IO)
  end.

Definition op_submit_transfer (t : nat) : LX Z :=
  x ← get_transfer t;
  if t_type x =? LIBUSB_TRANSFER_TYPE_CONTROL then submit_control_transfer t
  else if (t_type x =? LIBUSB_TRANSFER_TYPE_BULK) || (t_type x =? LIBUSB_TRANSFER_TYPE_BULK_STREAM) then submit_bulk_transfer t
  else if t_type x =? LIBUSB_TRANSFER_TYPE_INTERRUPT then submit_bulk_transfer t
  else if t_type x =? LIBUSB_TRANSFER_TYPE_ISOCHRONOUS then submit_iso_transfer t
  else mret LIBUSB_ERROR_INVALID_PARAM.

(** ** Cancellation *)

Definition op_cancel_transfer (t : nat) : LX Z :=
  tpriv ← get_tpriv t;
  x ← get_transfer t;
  match tp_urbs tpriv with
  | NoUrbs => mret LIBUSB_ERROR_NOT_FOUND
  | _ =>
      r ← discard_urbs t 0 (Z.to_nat (tp_num_urbs tpriv));
      if negb (r =? 0) then mret r else
      if ((t_type x =? LIBUSB_TRANSFER_TYPE_BULK) || (t_type x =? LIBUSB_TRANSFER_TYPE_BULK_STREAM)) &&
         bool_decide (tp_reap_action tpriv = ERROR)
      then mret 0
      else put_tpriv t (set_tp_reap_action CANCELLED tpriv) ;; mret 0
  end.

Definition op_clear_transfer_priv (t : nat) : LX unit :=
  x ← get_transfer t;
  tpriv ← get_tpriv t;
  if (t_type x =? LIBUSB_TRANSFER_TYPE_CONTROL) || (t_type x =? LIBUSB_TRANSFER_TYPE_BULK) ||
     (t_type x =? LIBUSB_TRANSFER_TYPE_BULK_STREAM) || (t_type x =? LIBUSB_TRANSFER_TYPE_INTERRUPT)
  then
    match urbs_block (tp_urbs tpriv) with
    | Some b => on_mem (free (Some b)) ;; put_tpriv t (set_tp_urbs NoUrbs tpriv)
    | None => mret tt
    end
  else if t_type x =? LIBUSB_TRANSFER_TYPE_ISOCHRONOUS then
    match urbs_block (tp_urbs tpriv) with
    | Some _ => free_iso_urbs t
    | None => mret tt
    end
  else mret tt.

(** ** Completions *)

(** [memmove] within the buffer of the transfer. *)
Definition move_data (t : nat) (target src n : Z) : LX unit :=
  x ← get_transfer t;
  bs ← lift (rd_n (drop (Z.to_nat src) (t_data x)) (Z.to_nat n));
  data ← lift (store (t_data x) (Z.to_nat target) bs);
  put_transfer t (set_t_data data x).

(** The [switch] over the status of a bulk URB: go on, or give up the rest
    of the transfer ([cancel_remaining]), or report now ([completed]); with
    the new action and status of the transfer. *)
Inductive urb_verdict : Type :=
| GoOn
| CancelRemaining
| Completed.

Definition bulk_status (status : Z) (action : reap_action) (reap_status : Z) : urb_verdict * reap_action * Z :=
  if (status =? 0) || (status =? - EREMOTEIO) || (status =? - ENOENT) || (status =? - ECONNRESET)
  then (GoOn, action, reap_status)
  else if (status =? - ENODEV) || (status =? - ESHUTDOWN)
  then (CancelRemaining, action, LIBUSB_TRANSFER_NO_DEVICE)
  else if status =? - EPIPE
  then (CancelRemaining, action, if reap_status =? LIBUSB_TRANSFER_COMPLETED then LIBUSB_TRANSFER_STALL else reap_status)
  else if status =? - EOVERFLOW
  then (Completed, action, if reap_status =? LIBUSB_TRANSFER_COMPLETED then LIBUSB_TRANSFER_OVERFLOW else reap_status)
  else (CancelRemaining, ERROR, reap_status).

(** From the label [completed] on. *)
Definition bulk_completed (t : nat) : LX Z :=
  tpriv ← get_tpriv t;
  on_mem (free (urbs_block (tp_urbs tpriv))) ;;
  put_tpriv t (set_tp_urbs NoUrbs tpriv) ;;
  if decide (tp_reap_action tpriv = CANCELLED)
  then usbi_handle_transfer_cancellation be user_cb t
  else usbi_handle_transfer_completion be user_cb t (tp_reap_status tpriv).

(** From the label [cancel_remaining] on. *)
Definition bulk_cancel_remaining (t urb_idx : nat) : LX Z :=
  tpriv ← get_tpriv t;
  (if decide (tp_reap_action tpriv = ERROR /\ tp_reap_status tpriv = LIBUSB_TRANSFER_COMPLETED)
   then put_tpriv t (set_tp_reap_status LIBUSB_TRANSFER_ERROR tpriv) else mret tt) ;;
  if tp_num_retired tpriv =? tp_num_urbs tpriv then bulk_completed t
  else discard_urbs t (S urb_idx) (Z.to_nat (tp_num_urbs tpriv)) ;; mret 0.

(** The branch for [reap_action != NORMAL]. *)
Definition bulk_abnormal_reap (t : nat) (urb : usbfs_urb) : LX Z :=
  x ← get_transfer t;
  (if 0 <? ub_actual_length urb then
     let target := it_transferred x in
     (if negb (ub_buffer urb =? target) then move_data t target (ub_buffer urb) (ub_actual_length urb) else mret tt) ;;
     upd_transfer t (fun x => set_it_transferred (it_transferred x + ub_actual_length urb) x)
   else mret tt) ;;
  tpriv ← get_tpriv t;
  if tp_num_retired tpriv =? tp_num_urbs tpriv then
    (if decide (tp_reap_action tpriv <> COMPLETED_EARLY /\ tp_reap_status tpriv = LIBUSB_TRANSFER_COMPLETED)
     then put_tpriv t (set_tp_reap_status LIBUSB_TRANSFER_ERROR tpriv) else mret tt) ;;
    bulk_completed t
  else mret 0.

Definition handle_bulk_completion (t : nat) (p : urb_ptr) : LX Z :=
  tpriv ← get_tpriv t;
  urb_idx ← lift (match tp_urbs tpriv with
                  | Urbs b => if (b =? fst p)%nat then Ok (snd p) else Fault OutOfBounds
                  | _ => Fault NullDeref
                  end);
  urb ← get_urb p;
  let tpriv := set_tp_num_retired (tp_num_retired tpriv + 1) tpriv in
  put_tpriv t tpriv ;;
  if decide (tp_reap_action tpriv <> NORMAL) then bulk_abnormal_reap t urb
  else
    upd_transfer t (fun x => set_it_transferred (it_transferred x + ub_actual_length urb) x) ;;
    let '(verdict, action, status) := bulk_status (ub_status urb) (tp_reap_action tpriv) (tp_reap_status tpriv) in
    put_tpriv t (set_tp_reap_status status (set_tp_reap_action action tpriv)) ;;
    match verdict with
    | Completed => bulk_completed t
    | CancelRemaining => bulk_cancel_remaining t urb_idx
    | GoOn =>
        if Z.of_nat urb_idx =? tp_num_urbs tpriv - 1 then bulk_completed t
        else if ub_actual_length urb <? ub_buffer_length urb then
          put_tpriv t (set_tp_reap_action COMPLETED_EARLY tpriv) ;;
          bulk_cancel_remaining t urb_idx
        else mret 0
    end.

(** The position of the URB in the array of pointers. *)
Fixpoint find_iso_urb (b : nat) (l : list (option nat)) (n i : nat) : outcome (option nat) :=
  match n with
  | O => Ok None
  | S n =>
      match l with
      | [] => Fault OutOfBounds
      | q :: l => if decide (q = Some b) then Ok (Some (S i)) else find_iso_urb b l n (S i)
      end
  end.

(** The status of a packet. *)
Definition iso_frame_status (status : Z) : Z :=
  if (status =? 0) || (status =? - ENOENT) || (status =? - ECONNRESET) then LIBUSB_TRANSFER_COMPLETED
  else if (status =? - ENODEV) || (status =? - ESHUTDOWN) then LIBUSB_TRANSFER_NO_DEVICE
  else if status =? - EPIPE then LIBUSB_TRANSFER_STALL
  else if status =? - EOVERFLOW then LIBUSB_TRANSFER_OVERFLOW
  else LIBUSB_TRANSFER_ERROR.

(** "copy isochronous results back in": the first [n] frames. *)
Fixpoint copy_iso_results (t : nat) (frames : list usbfs_iso_packet_desc) (n : nat) : LX unit :=
  match n with
  | O => mret tt
  | S n =>
      match frames with
      | [] => fail OutOfBounds
      | f :: frames =>
          tpriv ← get_tpriv t;
          let i := Z.to_nat (tp_iso_packet_offset tpriv) in
          put_tpriv t (set_tp_iso_packet_offset (tp_iso_packet_offset tpriv + 1) tpriv) ;;
          x ← get_transfer t;
          match t_iso_packets x !! i with
          | None => fail OutOfBounds
          | Some d =>
              put_transfer t (set_t_iso_packets
                (<[i := mk_iso (iso_length d) (fr_actual_length f) (iso_frame_status (i32 (fr_status f)))]> (t_iso_packets x)) x) ;;
              copy_iso_results t frames n
          end
      end
  end.

(** The status of the transfer by that of its last URB. *)
Definition iso_urb_status (status : Z) : Z :=
  if (status =? 0) || (status =? - ENOENT) || (status =? - ECONNRESET) then LIBUSB_TRANSFER_COMPLETED
  else if status =? - ESHUTDOWN then LIBUSB_TRANSFER_NO_DEVICE
  else LIBUSB_TRANSFER_ERROR.

Definition handle_iso_completion (t : nat) (p : urb_ptr) : LX Z :=
  tpriv ← get_tpriv t;
  let num_urbs := tp_num_urbs tpriv in
  urb_idx ← lift (match tp_urbs tpriv with
                  | IsoUrbs _ l => find_iso_urb (fst p) l (Z.to_nat num_urbs) 0
                  | _ => if 0 <? num_urbs then Fault NullDeref else Ok None
                  end);
  match urb_idx with
  | None => mret LIBUSB_ERROR_NOT_FOUND
  | Some urb_idx =>
      urb ← get_urb p;
      copy_iso_results t (ub_iso_frame_desc urb) (Z.to_nat (ub_number_of_packets urb)) ;;
      tpriv ← get_tpriv t;
      let tpriv := set_tp_num_retired (tp_num_retired tpriv + 1) tpriv in
      put_tpriv t tpriv ;;
      if decide (tp_reap_action tpriv <> NORMAL) then
        if tp_num_retired tpriv =? num_urbs then
          free_iso_urbs t ;;
          if decide (tp_reap_action tpriv = CANCELLED)
          then usbi_handle_transfer_cancellation be user_cb t
          else usbi_handle_transfer_completion be user_cb t LIBUSB_TRANSFER_ERROR
        else mret 0
      else
        let status := iso_urb_status (ub_status urb) in
        if Z.of_nat urb_idx =? num_urbs then
          free_iso_urbs t ;;
          usbi_handle_transfer_completion be user_cb t status
        else mret 0
  end.

Definition control_status (status : Z) : Z :=
  if status =? 0 then LIBUSB_TRANSFER_COMPLETED
  else if status =? - ENOENT then LIBUSB_TRANSFER_CANCELLED
  else if (status =? - ENODEV) || (status =? - ESHUTDOWN) then LIBUSB_TRANSFER_NO_DEVICE
  else if status =? - EPIPE then LIBUSB_TRANSFER_STALL
  else if status =? - EOVERFLOW then LIBUSB_TRANSFER_OVERFLOW
  else LIBUSB_TRANSFER_ERROR.

Definition handle_control_completion (t : nat) (p : urb_ptr) : LX Z :=
  tpriv ← get_tpriv t;
  urb ← get_urb p;
  upd_transfer t (fun x => set_it_transferred (it_transferred x + ub_actual_length urb) x) ;;
  on_mem (free (urbs_block (tp_urbs tpriv))) ;;
  put_tpriv t (set_tp_urbs NoUrbs tpriv) ;;
  if decide (tp_reap_action tpriv = CANCELLED)
  then usbi_handle_transfer_cancellation be user_cb t
  else usbi_handle_transfer_completion be user_cb t (control_status (ub_status urb)).

(** ** Reaping *)

(** What the kernel writes when it hands a URB back. *)
Definition write_back (r : reaped) : LX usbfs_urb :=
  u ← get_urb (rp_urb r);
  let u := mk_urb (ub_type u) (ub_endpoint u) (rp_status r) (ub_flags u) (ub_buffer u) (ub_buffer_length u)
             (rp_actual_length r) (ub_number_of_packets u) (ub_usercontext u) (rp_frames r) in
  put_urb (rp_urb r) u ;;
  x ← get_transfer (ub_usercontext u);
  data ← lift (store (t_data x) (Z.to_nat (ub_buffer u)) (rp_data r));
  put_transfer (ub_usercontext u) (set_t_data data x) ;;
  mret u.

(** [reap_for_handle] with the URB the system call returned. *)
Definition complete_urb (r : reaped) : LX Z :=
  urb ← write_back r;
  let t := ub_usercontext urb in
  x ← get_transfer t;
  if t_type x =? LIBUSB_TRANSFER_TYPE_ISOCHRONOUS then handle_iso_completion t (rp_urb r)
  else if (t_type x =? LIBUSB_TRANSFER_TYPE_BULK) || (t_type x =? LIBUSB_TRANSFER_TYPE_BULK_STREAM) ||
          (t_type x =? LIBUSB_TRANSFER_TYPE_INTERRUPT)
  then handle_bulk_completion t (rp_urb r)
  else if t_type x =? LIBUSB_TRANSFER_TYPE_CONTROL then handle_control_completion t (rp_urb r)
  else mret LIBUSB_ERROR_OTHER.

Definition reap_for_handle (handle : nat) : LX Z :=
  hpriv ← get_hpriv handle;
  '(errno, r) ← kernel_op (ioctl_reapurbndelay kern (hp_fd hpriv));
  if errno =? EAGAIN then mret 1
  else if errno =? ENODEV then mret LIBUSB_ERROR_NO_DEVICE
  else if negb (errno =? 0) then mret LIBUSB_ERROR_IO
  else complete_urb r.

(** [do r = reap_for_handle(handle); while (r == 0);] *)
Fixpoint reap_loop (fuel : nat) (handle : nat) : LX Z :=
  match fuel with
  | O => fail OutOfFuel
  | S fuel =>
      r ← reap_for_handle handle;
      if r =? 0 then reap_loop fuel handle else mret r
  end.

(** ** Events *)

(** The open handle with the file descriptor. *)
Fixpoint handle_of_fd (fd : Z) (l : list nat) : LX (option nat) :=
  match l with
  | [] => mret None
  | h :: l =>
      hpriv ← get_hpriv h;
      if hp_fd hpriv =? fd then mret (Some h) else handle_of_fd fd l
  end.

Variable fd_cb : nat -> bool -> Z -> Z -> LX unit.

(** The branch for [POLLERR]. *)
Definition handle_pollerr (fuel : nat) (h : nat) : LX unit :=
  hpriv ← get_hpriv h;
  usbi_remove_pollfd fd_cb (hp_fd hpriv) ;;
  put_hpriv h (set_hp_fd_removed true hpriv) ;;
  y ← get_handle h;
  d ← get_device (h_dev y);
  (if attached d then linux_device_disconnected be (bus_number d) (device_address d) else mret tt) ;;
  (if has_flag (hp_caps hpriv) USBFS_CAP_REAP_AFTER_DISCONNECT then reap_loop fuel h ;; mret tt else mret tt) ;;
  usbi_handle_disconnect be user_cb h.

(** The loop over the descriptors with their [revents]. *)
Fixpoint op_handle_events_loop (fuel : nat) (fds : list (Z * Z)) (num_ready : Z) : LX Z :=
  match fds with
  | [] => mret 0
  | (fd, revents) :: fds =>
      if num_ready <=? 0 then mret 0
      else if revents =? 0 then op_handle_events_loop fuel fds num_ready
      else
        l ← gets open_devs;
        handle ← handle_of_fd fd l;
        match handle with
        | None => op_handle_events_loop fuel fds (num_ready - 1)
        | Some h =>
            if has_flag revents POLLERR then
              handle_pollerr fuel h ;;
              op_handle_events_loop fuel fds (num_ready - 1)
            else
              r ← reap_loop fuel h;
              if (r =? 1) || (r =? LIBUSB_ERROR_NO_DEVICE) then op_handle_events_loop fuel fds (num_ready - 1)
              else if r <? 0 then mret r
              else op_handle_events_loop fuel fds (num_ready - 1)
        end
  end.
Definition op_handle_events (fuel : nat) (fds : list (Z * Z)) (num_ready : Z) : LX Z :=
  op_handle_events_loop fuel fds num_ready.
End linux_urbs.

(** [linux_usbfs_backend], as far as transfers are concerned; the other
    operations are those of [base]. *)
Definition linux_backend {K} (kern : usbfs K) (base : os_backend (linux K))
    (user_cb : nat -> nat -> Lib (linux K) unit) (fd_cb : nat -> bool -> Z -> Z -> Lib (linux K) unit)
    (fuel : nat) : os_backend (linux K) := {|
  be_caps := Z.lor USBI_CAP_HAS_HID_ACCESS USBI_CAP_SUPPORTS_DETACH_KERNEL_DRIVER;
  be_init := be_init base;
  be_exit := be_exit base;
  be_get_device_list := None;
  be_hotplug_poll := be_hotplug_poll base;
  be_destroy_device := be_destroy_device base;
  be_open := be_open base;
  be_close := be_close base;
  be_get_configuration := be_get_configuration base;
  be_set_configuration := be_set_configuration base;
  be_claim_interface := be_claim_interface base;
  be_release_interface := be_release_interface base;
  be_set_interface_altsetting := be_set_interface_altsetting base;
  be_clear_halt := be_clear_halt base;
  be_reset_device := be_reset_device base;
  be_alloc_streams := be_alloc_streams base;
  be_free_streams := be_free_streams base;
  be_dev_mem_alloc := be_dev_mem_alloc base;
  be_dev_mem_free := be_dev_mem_free base;
  be_kernel_driver_active := be_kernel_driver_active base;
  be_detach_kernel_driver := be_detach_kernel_driver base;
  be_attach_kernel_driver := be_attach_kernel_driver base;
  be_submit_transfer := op_submit_transfer kern;
  be_cancel_transfer := op_cancel_transfer kern;
  be_clear_transfer_priv := op_clear_transfer_priv;
  be_handle_events := op_handle_events kern base user_cb fd_cb fuel;
  be_handle_transfer_completion := be_handle_transfer_completion base;
  be_clock_gettime := be_clock_gettime base;
  os_mutex_init := os_mutex_init base;
  os_timerfd_settime := os_timerfd_settime base;
  os_timerfd_create := os_timerfd_create base;
  os_pipe := os_pipe base;
  os_close := os_close base;
  os_poll := os_poll base;
  os_cond_wait := os_cond_wait base
|}.
