(* ===== verification/LinuxBackend.v ===== *)
(** * The Linux backend as a whole (os/linux_usbfs.c)

    Start and end of the backend with the hotplug monitor, the clock, and the
    record of operations [linux_usbfs_backend]. *)

From S2P Require Import Prelude Heap ParseDesc DescApi Bos Core Text Log Devices Hotplug HotplugLife Transfers Events LinuxState LinuxSys LinuxDesc LinuxEnum LinuxIface LinuxNetlink LinuxUdev LinuxUrb.

Definition USBI_CLOCK_MONOTONIC : Z := 0.
Definition USBI_CLOCK_REALTIME : Z := 1.

(** The hotplug monitor of a build: the branches of [USE_UDEV].
    [mon_usbfs_path] is what is assumed when no place for device nodes is
    found. *)
Record hotplug_monitor (K : Type) : Type := mk_monitor {
  mon_start : M (linux K) Z;
  mon_stop : M (linux K) Z;
  mon_scan : Lib (linux K) Z;
  mon_poll : nat -> Lib (linux K) unit;
  mon_usbfs_path : option (list Z)
}.
Arguments mon_start {K}.
Arguments mon_stop {K}.
Arguments mon_scan {K}.
Arguments mon_poll {K}.
Arguments mon_usbfs_path {K}.

Section monitors.
Context {K : Type} (sys : linux_sys K) (nl : netlink_sys K) (ud : udev_sys K) (big : bool) (junk : nat -> list Z).
Context (devs : os_backend (linux K)).

Definition netlink_monitor : hotplug_monitor K := {|
  mon_start := linux_netlink_start_event_monitor nl;
  mon_stop := linux_netlink_stop_event_monitor nl;
  mon_scan := linux_default_scan_devices sys big junk devs;
  mon_poll := linux_netlink_hotplug_poll sys nl big junk devs;
  mon_usbfs_path := None
|}.
Definition udev_monitor_ops : hotplug_monitor K := {|
  mon_start := linux_udev_start_event_monitor nl ud;
  mon_stop := linux_udev_stop_event_monitor nl ud;
  mon_scan := linux_udev_scan_devices sys ud big junk devs;
  mon_poll := linux_udev_hotplug_poll sys ud big junk devs;
  mon_usbfs_path := Some (bytes_of "/dev/bus/usb")
|}.
Definition linux_monitor (use_udev : bool) : hotplug_monitor K := if use_udev then udev_monitor_ops else netlink_monitor.
End monitors.

Section backend.
Context {K : Type} (sys : linux_sys K) (mon : hotplug_monitor K) (kern : usbfs K).
Abbreviation LM := (M (linux K)).
Abbreviation LX := (Lib (linux K)).

(** One flag that depends on the version of the kernel: it is found out once.
    [false] when the version is not known. *)
Definition version_flag (flag : linux_globals -> Z) (set : Z -> linux_globals -> linux_globals) (sublevel : Z) : LM bool :=
  g ← globals;
  if negb (flag g =? -1) then mret true else
  v ← kernel_version_ge sys 2 6 sublevel;
  upd_globals (set v) ;;
  mret (negb (v =? -1)).

(** The four flags, up to the first that fails. *)
Definition version_flags : LM bool :=
  ok ← version_flag supports_flag_bulk_continuation set_supports_flag_bulk_continuation 32;
  if negb ok then mret false else
  ok ← version_flag supports_flag_zero_packet set_supports_flag_zero_packet 31;
  if negb ok then mret false else
  ok ← version_flag sysfs_has_descriptors set_sysfs_has_descriptors 26;
  if negb ok then mret false else
  version_flag sysfs_can_relate_devices set_sysfs_can_relate_devices 22.

(** Without sysfs the flags about it do not count. *)
Definition check_sysfs : LM unit :=
  g ← globals;
  if negb (sysfs_can_relate_devices g =? 0) || negb (sysfs_has_descriptors g =? 0) then
    isdir ← sys_call (sys_isdir sys SYSFS_DEVICE_PATH);
    if (isdir : bool) then mret tt
    else upd_globals (fun g => set_sysfs_has_descriptors 0 (set_sysfs_can_relate_devices 0 g))
  else mret tt.

(** What the release of a device needs of a backend; the system calls of the
    platform are those of [os]. *)
Variable os : os_backend (linux K).
Definition linux_devices : os_backend (linux K) := {|
  be_caps := Z.lor USBI_CAP_HAS_HID_ACCESS USBI_CAP_SUPPORTS_DETACH_KERNEL_DRIVER;
  be_init := be_init os;
  be_exit := be_exit os;
  be_get_device_list := None;
  be_hotplug_poll := be_hotplug_poll os;
  be_destroy_device := Some op_destroy_device;
  be_open := be_open os;
  be_close := be_close os;
  be_get_configuration := be_get_configuration os;
  be_set_configuration := be_set_configuration os;
  be_claim_interface := be_claim_interface os;
  be_release_interface := be_release_interface os;
  be_set_interface_altsetting := be_set_interface_altsetting os;
  be_clear_halt := be_clear_halt os;
  be_reset_device := be_reset_device os;
  be_alloc_streams := be_alloc_streams os;
  be_free_streams := be_free_streams os;
  be_dev_mem_alloc := be_dev_mem_alloc os;
  be_dev_mem_free := be_dev_mem_free os;
  be_kernel_driver_active := be_kernel_driver_active os;
  be_detach_kernel_driver := be_detach_kernel_driver os;
  be_attach_kernel_driver := be_attach_kernel_driver os;
  be_submit_transfer := be_submit_transfer os;
  be_cancel_transfer := be_cancel_transfer os;
  be_clear_transfer_priv := be_clear_transfer_priv os;
  be_handle_events := be_handle_events os;
  be_handle_transfer_completion := be_handle_transfer_completion os;
  be_clock_gettime := be_clock_gettime os;
  os_mutex_init := os_mutex_init os;
  os_timerfd_settime := os_timerfd_settime os;
  os_timerfd_create := os_timerfd_create os;
  os_pipe := os_pipe os;
  os_close := os_close os;
  os_poll := os_poll os;
  os_cond_wait := os_cond_wait os
|}.

Definition linux_start_event_monitor : LM Z := mon_start mon.
Definition linux_stop_event_monitor : LM Z := mon_stop mon.
Definition linux_scan_devices : LX Z := mon_scan mon.

(** The last part of [op_init]: the monitor runs for the first context. *)
Definition start_scan : LX Z :=
  g ← on_world globals;
  r ← (if init_count g =? 0 then on_world linux_start_event_monitor else mret LIBUSB_SUCCESS);
  if negb (r =? LIBUSB_SUCCESS) then mret r else
  r ← linux_scan_devices;
  g ← on_world globals;
  (if r =? LIBUSB_SUCCESS then on_world (upd_globals (set_init_count (init_count g + 1)))
   else if init_count g =? 0 then on_world linux_stop_event_monitor ;; mret tt
   else mret tt) ;;
  mret r.

Definition op_init : LX Z :=
  path ← on_world (find_usbfs_path sys (mon_usbfs_path mon));
  on_world (upd_globals (set_usbfs_path path)) ;;
  match path with
  | None => mret LIBUSB_ERROR_OTHER
  | Some _ =>
      g ← on_world globals;
      (if monotonic_clkid g =? -1 then
         clk ← on_world (find_monotonic_clock sys); on_world (upd_globals (set_monotonic_clkid clk))
       else mret tt) ;;
      ok ← on_world version_flags;
      if negb ok then mret LIBUSB_ERROR_OTHER else
      on_world check_sysfs ;;
      start_scan
  end.

Definition op_exit : LX unit :=
  g ← on_world globals;
  if init_count g =? 0 then fail AssertFail else
  on_world (upd_globals (set_init_count (init_count g - 1))) ;;
  if init_count g - 1 =? 0 then on_world linux_stop_event_monitor ;; mret tt else mret tt.

Definition op_hotplug_poll (fuel : nat) : LX unit := mon_poll mon fuel.

(** [clock_gettime] returns -1 and sets [errno]. *)
Definition op_clock_gettime (clk_id : Z) (w : linux K) : (Z * timespec) * linux K :=
  let read clk :=
    let '((errno, ts), k) := sys_clock_gettime sys clk (lx_kernel w) in
    ((if errno =? 0 then 0 else -1, ts), set_lx_kernel k w) in
  if clk_id =? USBI_CLOCK_MONOTONIC then read (monotonic_clkid (lx_globals w))
  else if clk_id =? USBI_CLOCK_REALTIME then read CLOCK_REALTIME
  else ((LIBUSB_ERROR_INVALID_PARAM, mk_ts 0 0), w).

(** [linux_usbfs_backend]; LinuxUrb.v adds the operations on transfers. *)
Variable user_cb : nat -> nat -> LX unit.
Variable fd_cb : nat -> bool -> Z -> Z -> LX unit.
Variable fuel : nat.

Definition linux_base : os_backend (linux K) := {|
  be_caps := be_caps linux_devices;
  be_init := Some op_init;
  be_exit := Some op_exit;
  be_get_device_list := None;
  be_hotplug_poll := Some (op_hotplug_poll fuel);
  be_destroy_device := Some op_destroy_device;
  be_open := op_open sys linux_devices fd_cb;
  be_close := op_close sys fd_cb;
  be_get_configuration := Some (op_get_configuration sys);
  be_set_configuration := op_set_configuration sys;
  be_claim_interface := op_claim_interface sys;
  be_release_interface := op_release_interface sys;
  be_set_interface_altsetting := op_set_interface sys;
  be_clear_halt := op_clear_halt sys;
  be_reset_device := op_reset_device sys;
  be_alloc_streams := Some (op_alloc_streams sys);
  be_free_streams := Some (op_free_streams sys);
  be_dev_mem_alloc := Some (op_dev_mem_alloc sys);
  be_dev_mem_free := Some (op_dev_mem_free sys);
  be_kernel_driver_active := Some (op_kernel_driver_active sys);
  be_detach_kernel_driver := Some (op_detach_kernel_driver sys);
  be_attach_kernel_driver := Some (op_attach_kernel_driver sys);
  be_submit_transfer := be_submit_transfer os;
  be_cancel_transfer := be_cancel_transfer os;
  be_clear_transfer_priv := be_clear_transfer_priv os;
  be_handle_events := be_handle_events os;
  be_handle_transfer_completion := be_handle_transfer_completion os;
  be_clock_gettime := op_clock_gettime USBI_CLOCK_MONOTONIC;
  os_mutex_init := os_mutex_init os;
  os_timerfd_settime := os_timerfd_settime os;
  os_timerfd_create := os_timerfd_create os;
  os_pipe := os_pipe os;
  os_close := os_close os;
  os_poll := os_poll os;
  os_cond_wait := os_cond_wait os
|}.
Definition linux_usbfs_backend : os_backend (linux K) := linux_backend kern linux_base user_cb fd_cb fuel.
End backend.
