(* ===== verification/LinuxDemo.v ===== *)
(** * Systems that refuse everything

    The parameters of the Linux backend with calls that fail, for the
    examples that need none, or few, of them. *)

From S2P Require Import Prelude Heap ParseDesc DescApi Bos Core LinuxState Text LinuxSys LinuxNetlink.

Definition no_sys {K : Type} : linux_sys K := {|
  sys_open _ _ k := ((ENOENT, -1), k);
  sys_read _ _ k := ((EINVAL, []), k);
  sys_close _ k := (tt, k);
  sys_nanosleep k := (tt, k);
  sys_text _ k := ((ENOENT, []), k);
  sys_entries _ k := (None, k);
  sys_isdir _ k := (false, k);
  sys_uname k := (None, k);
  sys_clock_gettime _ k := ((EINVAL, mk_ts 0 0), k);
  sys_mmap _ _ k := ((EINVAL, O), k);
  sys_munmap _ _ k := (EINVAL, k);
  ioctl_control _ _ k := ((ENODEV, []), k);
  ioctl_get_capabilities _ k := ((ENODEV, 0), k);
  ioctl_setconfig _ _ k := (ENODEV, k);
  ioctl_claimintf _ _ k := (ENODEV, k);
  ioctl_releaseintf _ _ k := (ENODEV, k);
  ioctl_setintf _ _ _ k := (ENODEV, k);
  ioctl_clear_halt _ _ k := (ENODEV, k);
  ioctl_reset _ k := (ENODEV, k);
  ioctl_streams _ _ _ _ k := ((ENODEV, 0), k);
  ioctl_getdriver _ _ k := ((ENODEV, []), k);
  ioctl_disconnect _ _ k := (ENODEV, k);
  ioctl_connect _ _ k := ((ENODEV, 0), k);
  ioctl_disconnect_claim _ _ _ _ k := (ENODEV, k)
|}.

Definition no_netlink {K : Type} : netlink_sys K := {|
  nl_socket _ k := ((EINVAL, -1), k);
  nl_getfd _ k := ((EINVAL, 0), k);
  nl_setfd _ _ k := (EINVAL, k);
  nl_getfl _ k := ((EINVAL, 0), k);
  nl_setfl _ _ k := (EINVAL, k);
  nl_bind _ _ k := (EINVAL, k);
  nl_setsockopt _ k := (EINVAL, k);
  nl_pipe k := ((-1, (0, 0)), k);
  nl_close _ k := (tt, k);
  nl_thread_create k := (EINVAL, k);
  nl_thread_join k := (tt, k);
  nl_write _ _ k := (-1, k);
  nl_read _ k := (-1, k);
  nl_poll k := ((EINVAL, (false, false)), k);
  nl_recvmsg _ k := (mk_nl EAGAIN [] false 0 0 None, k)
|}.

Definition no_usbfs {K : Type} : usbfs K := {|
  ioctl_submiturb _ _ _ k := (ENODEV, k);
  ioctl_discardurb _ _ k := (EINVAL, k);
  ioctl_reapurbndelay _ k := ((EAGAIN, mk_reaped (0, 0)%nat 0 0 [] []), k)
|}.
