(* ===== verification/SysSpecs.v ===== *)
(** * Rules for the system calls of the Linux backend

    A system call changes the kernel and nothing else. *)

From S2P Require Import Prelude Heap ParseDesc DescApi Bos Core Text Log LinuxState LinuxSys.

(** Only the kernel differs. *)
Definition same_private {K : Type} (w w' : linux K) : Prop := exists k, w' = set_lx_kernel k w.
#[export] Instance same_private_refl {K} : Reflexive (@same_private K).
Proof. intros w. exists (lx_kernel w). by destruct w. Qed.
#[export] Instance same_private_trans {K} : Transitive (@same_private K).
Proof. intros w1 w2 w3 [k1 ->] [k2 ->]. by exists k2. Qed.

Lemma strrchr_spec l c b a : strrchr l c = Some (b, a) -> l = b ++ c :: a.
Proof.
  revert b a. induction l as [|x l IH]; intros b a; simpl; [done|]. destruct (strrchr l c) as [[b' a']|].
  - intros [= <- <-]. simpl. f_equal. by apply IH.
  - destruct (Z.eqb_spec x c) as [->|]; [|done]. by intros [= <- <-].
Qed.

Section rules.
Context {K : Type} (sys : linux_sys K).
Implicit Types (w : linux K).

Lemma sys_call_wp {A} (op : K -> A * K) w (Q : A -> linux K -> Prop) :
  (forall a w', same_private w w' -> Q a w') -> wp (sys_call op) w Q.
Proof. intros HQ. unfold wp, sys_call. destruct (op (lx_kernel w)) as [a k]. apply HQ. by exists k. Qed.

Lemma text_of_wp {A} (p : option A) w (Q : A -> linux K -> Prop) : is_Some p -> (forall a, Q a w) -> wp (text_of p) w Q.
Proof. intros [a ->] HQ. eapply wp_lift; [done|]. apply HQ. Qed.

Lemma open_sysfs_attr_wp d attr w :
  is_Some (dp_sysfs_dir (default zero_dpriv (lx_dpriv w !! d))) ->
  wp (_open_sysfs_attr sys d attr) w (fun _ w' => same_private w w').
Proof.
  intros Hdir. unfold _open_sysfs_attr. apply wp_bind, wp_gets, wp_bind, text_of_wp; [done|]. intros dir.
  apply wp_bind, sys_call_wp. intros [errno fd] w1 Hw1. by destruct (errno =? 0); apply wp_ret.
Qed.

Lemma read_sysfs_attr_wp devname attr w :
  wp (__read_sysfs_attr sys devname attr) w (fun _ w' => same_private w w').
Proof.
  unfold __read_sysfs_attr. apply wp_bind, sys_call_wp. intros [errno txt] w1 Hw1.
  repeat case_match; by apply wp_ret.
Qed.

Lemma get_usbfs_fd_wp busnum devaddr mode w : is_Some (usbfs_path (lx_globals w)) ->
  wp (_get_usbfs_fd sys busnum devaddr mode) w (fun _ w' => same_private w w').
Proof.
  intros Hpath. unfold _get_usbfs_fd. apply wp_bind, wp_gets, wp_bind, text_of_wp; [done|]. intros dir.
  set (path := path_text _). clearbody path. apply wp_bind, sys_call_wp. intros [errno fd] w1 Hw1. case_match; [by apply wp_ret|].
  apply wp_bind. eapply (wp_mono _ _ (fun _ w' => same_private w w')).
  { case_match; [|by apply wp_ret]. apply wp_bind, sys_call_wp. intros [] w2 Hw2.
    apply sys_call_wp. intros a w3 Hw3. etrans; [exact Hw1|]. by etrans. }
  intros [errno2 fd2] w2 Hw2. repeat case_match; by apply wp_ret.
Qed.

Lemma u8_range z : 0 <= u8 z < 256.
Proof. unfold u8. apply Z.mod_pos_bound. lia. Qed.

Lemma hhu_range n : 0 <= hhu n < 256.
Proof. apply u8_range. Qed.
Lemma scan_two_hhu_range prefix l a b : 0 <= a < 256 -> 0 <= b < 256 ->
  0 <= (scan_two_hhu prefix l a b).1 < 256 /\ 0 <= (scan_two_hhu prefix l a b).2 < 256.
Proof. intros Ha Hb. unfold scan_two_hhu. repeat case_match; simpl; split; try done; apply hhu_range. Qed.

(** The numbers come from the device node or from sysfs. *)
Lemma get_device_address_wp detached busnum devaddr node name w : 0 <= busnum < 256 -> 0 <= devaddr < 256 ->
  wp (linux_get_device_address sys detached busnum devaddr node name) w (fun '(r, b, a) w' =>
    same_private w w' /\ (r = LIBUSB_SUCCESS -> 0 <= b < 256 /\ 0 <= a < 256)).
Proof.
  intros Hb Ha. unfold linux_get_device_address. apply wp_bind, wp_gets. case_match.
  2:{ destruct node as [node|]; [|by apply wp_ret].
      destruct (has_prefix (bytes_of "/dev/bus/usb") node); [|destruct (has_prefix _ node)]; [| |by apply wp_ret];
      match goal with |- context [scan_two_hhu ?p node _ _] => pose proof (scan_two_hhu_range p node busnum devaddr Hb Ha) as Hr end;
      destruct (scan_two_hhu _ node busnum devaddr) as [b a]; by apply wp_ret. }
  apply wp_bind. eapply wp_mono; [apply read_sysfs_attr_wp|]. intros r w1 Hw1. cbv beta in Hw1.
  destruct (Z.ltb_spec r 0); [apply wp_ret; split; [done|]; unfold LIBUSB_SUCCESS; lia|]. destruct (255 <? r); [by apply wp_ret|].
  apply wp_bind. eapply wp_mono; [apply read_sysfs_attr_wp|]. intros r2 w2 Hw2. cbv beta in Hw2.
  assert (same_private w w2) as Hw by by etrans.
  destruct (Z.ltb_spec r2 0); [apply wp_ret; split; [done|]; unfold LIBUSB_SUCCESS; lia|].
  destruct (255 <? r2); [by apply wp_ret|]. apply wp_ret. split; [done|]. intros _. split; apply u8_range.
Qed.
End rules.
