(* ===== verification/EnumSpecs.v ===== *)
(** * New devices of the Linux backend

    What filling in a new device does to the state: the memory of the backend
    stays accounted for, and nothing but this device changes. *)

From S2P Require Import Prelude Heap ParseDesc Config ConfigSafety DescApi ConfigTree DescProps Bos Core Text Log Devices DeviceRefs Hotplug HotplugLife LinuxState LinuxSys LinuxDesc LinuxEnum SysSpecs.

(** ** The system *)

(** [remaining k fd]: how many bytes can still be read from the open file.
    Files with descriptors are shorter than 2^30 bytes. *)
Class FileLaws {K : Type} (sys : linux_sys K) (remaining : K -> Z -> Z) : Prop := {
  remaining_nonneg k fd : 0 <= remaining k fd;
  open_law path mode k fd k' : sys_open sys path mode k = ((0, fd), k') -> remaining k' fd < 2 ^ 30;
  read_law fd n k data k' : 0 <= n -> sys_read sys fd n k = ((0, data), k') ->
    is_bytes data /\ len data <= n /\ len data + remaining k' fd <= remaining k fd
}.

Lemma store_bytes dest off bs d : is_bytes dest -> is_bytes bs -> store dest off bs = Ok d -> is_bytes d.
Proof.
  intros Hd Hb. unfold store. case_decide; [|done]. intros [= <-].
  repeat apply Forall_app_2; [by apply is_bytes_take|done|by apply is_bytes_drop].
Qed.

(** Whether [realloc] fails or not, [usbi_reallocf] gives the old block up. *)
Lemma reallocf_any_wp h p F (Q : option nat -> heap -> Prop) : live h = own p ⊎ F ->
  (forall r h', live h' = own r ⊎ F -> same_oracles h h' -> Q r h') -> wp (usbi_reallocf p) h Q.
Proof.
  intros HF HQ. destruct (oom_realloc h (next h)) eqn:Ho.
  - apply (reallocf_fail_wp _ _ F); [done|done|]. intros h' Hl' Ho'. apply HQ; [|done]. simpl. by rewrite (left_id_L ∅ (⊎)).
  - unfold usbi_reallocf, realloc. apply wp_bind, wp_bind. unfold wp at 1, get. rewrite Ho.
    apply wp_bind, (free_wp _ _ F); [done|]. intros h' Hl' Ho'. apply wp_ret, HQ; [by rewrite <- Hl'|].
    etrans; [exact Ho'|apply same_oracles_new].
Qed.

(** ** The memory of the backend *)

Section world.
Context {K : Type}.
Implicit Types (w : linux K) (G : gmultiset nat).

Definition dp_blocks (p : linux_device_priv) : gmultiset nat :=
  own (option_map fst (dp_sysfs_dir p)) ⊎ own (option_map fst (dp_descriptors p)).
Definition dpriv w (d : nat) : linux_device_priv := default zero_dpriv (lx_dpriv w !! d).
Definition other_blocks (d : nat) (m : gmap nat linux_device_priv) : gmultiset nat := map_sum (fun _ => dp_blocks) (delete d m).

(** [G]: the blocks that no device owns. *)
Definition lx_acc G w : Prop :=
  live (lx_mem w) = map_sum (fun _ => dp_blocks) (lx_dpriv w) ⊎ G /\ heap_fresh (lx_mem w).

(** Only the private data of the device [d], the kernel and the memory differ. *)
Definition only_priv (d : nat) w w' : Prop :=
  lx_globals w' = lx_globals w /\ delete d (lx_dpriv w') = delete d (lx_dpriv w).

#[export] Instance only_priv_refl d : Reflexive (only_priv d).
Proof. by intros w. Qed.
#[export] Instance only_priv_trans d : Transitive (only_priv d).
Proof. intros w1 w2 w3 [H1 H2] [H3 H4]. split; congruence. Qed.

Lemma only_priv_lookup d k w w' : only_priv d w w' -> k <> d -> lx_dpriv w' !! k = lx_dpriv w !! k.
Proof. intros [_ H] Hk. rewrite <- (lookup_delete_ne _ d k), H, lookup_delete_ne by done. done. Qed.

Lemma blocks_split d (m : gmap nat linux_device_priv) :
  map_sum (fun _ => dp_blocks) m = dp_blocks (default zero_dpriv (m !! d)) ⊎ other_blocks d m.
Proof.
  unfold other_blocks. destruct (m !! d) as [p|] eqn:Hp; simpl.
  - by rewrite (map_sum_delete _ m d p).
  - rewrite delete_id by done. unfold dp_blocks at 2. simpl. by rewrite !(left_id_L ∅ (⊎)).
Qed.

Lemma acc_split d G w : lx_acc G w <->
  live (lx_mem w) = dp_blocks (dpriv w d) ⊎ other_blocks d (lx_dpriv w) ⊎ G /\ heap_fresh (lx_mem w).
Proof. unfold lx_acc. by rewrite (blocks_split d (lx_dpriv w)). Qed.

(** The device [d] gets the private data [p]. *)
Lemma acc_insert d p G h w :
  live h = dp_blocks p ⊎ other_blocks d (lx_dpriv w) ⊎ G -> heap_fresh h ->
  lx_acc G (set_lx_dpriv (<[d := p]> (lx_dpriv w)) (set_lx_mem h w)).
Proof.
  intros Hl Hf. apply (acc_split d). simpl. unfold dpriv. simpl. rewrite lookup_insert_eq. simpl.
  unfold other_blocks in *. by rewrite delete_insert_eq.
Qed.

Lemma acc_kernel G w w' : same_private w w' -> lx_acc G w -> lx_acc G w'.
Proof. by intros [k ->]. Qed.
Lemma only_priv_kernel d w w' : same_private w w' -> only_priv d w w'.
Proof. by intros [k ->]. Qed.
Lemma dpriv_kernel d w w' : same_private w w' -> dpriv w' d = dpriv w d.
Proof. by intros [k ->]. Qed.

Lemma wp_on_lx_mem {A} (m : M heap A) w (Q : A -> linux K -> Prop) :
  wp m (lx_mem w) (fun a h => Q a (set_lx_mem h w)) -> wp (on_lx_mem m) w Q.
Proof. unfold wp, on_lx_mem. destruct (m (lx_mem w)) as [[a h]|]; done. Qed.

(** [upd_dpriv] where the blocks stay. *)
Lemma upd_dpriv_wp d f G w (Q : unit -> linux K -> Prop) :
  dp_blocks (f (dpriv w d)) = dp_blocks (dpriv w d) -> lx_acc G w ->
  (forall w', lx_acc G w' -> only_priv d w w' -> dpriv w' d = f (dpriv w d) -> lx_kernel w' = lx_kernel w -> Q tt w') ->
  wp (upd_dpriv d f) w Q.
Proof.
  intros Hf Hacc HQ. unfold upd_dpriv. apply wp_modify, HQ.
  - apply (acc_split d) in Hacc as [Hl Hfr]. assert (set_lx_mem (lx_mem w) w = w) as Hw by by destruct w.
    pose proof (acc_insert d (f (dpriv w d)) G (lx_mem w) w) as Hi. rewrite Hw in Hi. apply Hi; [|done]. by rewrite Hf.
  - split; [done|]. simpl. by rewrite delete_insert_eq.
  - unfold dpriv. simpl. by rewrite lookup_insert_eq.
  - done.
Qed.
End world.

(** ** Reading the descriptors *)

Section reading.
Context {K : Type} (sys : linux_sys K) (remaining : K -> Z -> Z) `{!FileLaws sys remaining}.
Context (big : bool) (junk : nat -> list Z) (Hjunk : junk_bytes junk).
Implicit Types (w : linux K) (G : gmultiset nat) (d : nat).

(** The bytes that were read lie in the array. *)
Definition holds_bytes (p : linux_device_priv) : Prop :=
  exists b bytes, dp_descriptors p = Some (b, bytes) /\ is_bytes bytes /\ 0 <= dp_descriptors_len p <= len bytes.
(** And the device descriptor is among them. *)
Definition filled (p : linux_device_priv) : Prop := holds_bytes p /\ DEVICE_DESC_LENGTH <= dp_descriptors_len p.

Lemma open_file_wp path mode w (Q : Z * Z -> linux K -> Prop) :
  (forall errno fd w', same_private w w' -> (errno = 0 -> remaining (lx_kernel w') fd < 2 ^ 30) -> Q (errno, fd) w') ->
  wp (sys_call (sys_open sys path mode)) w Q.
Proof.
  intros HQ. unfold wp, sys_call. destruct (sys_open sys path mode (lx_kernel w)) as [[errno fd] k] eqn:Ho.
  apply HQ; [by exists k|]. intros ->. by eapply open_law.
Qed.

(** The descriptor of an open file, if it is one. *)
Definition fd_ok (fd : Z) w : Prop := 0 <= fd -> remaining (lx_kernel w) fd < 2 ^ 30.

Lemma open_attr_fd d attr w : is_Some (dp_sysfs_dir (dpriv w d)) ->
  wp (_open_sysfs_attr sys d attr) w (fun fd w' => same_private w w' /\ fd_ok fd w').
Proof.
  intros Hdir. unfold _open_sysfs_attr. apply wp_bind, wp_gets, wp_bind, text_of_wp; [done|]. intros dir.
  apply wp_bind, open_file_wp. intros errno fd w1 Hw1 Hrem.
  destruct (Z.eqb_spec errno 0); apply wp_ret; (split; [done|]); [intros _; by apply Hrem|]. intros Hneg. unfold LIBUSB_ERROR_IO in Hneg. lia.
Qed.

Lemma usbfs_fd busnum devaddr mode w : is_Some (usbfs_path (lx_globals w)) ->
  wp (_get_usbfs_fd sys busnum devaddr mode) w (fun fd w' => same_private w w' /\ fd_ok fd w').
Proof.
  intros Hpath. unfold _get_usbfs_fd. apply wp_bind, wp_gets, wp_bind, text_of_wp; [done|]. intros dir.
  set (path := path_text _). clearbody path. apply wp_bind, open_file_wp. intros errno fd w1 Hw1 Hrem.
  destruct (Z.eqb_spec errno 0); [apply wp_ret; split; [done|]; intros _; by apply Hrem|].
  apply wp_bind. eapply (wp_mono _ _ (fun '(e, fd) w' => same_private w w' /\ (e = 0 -> remaining (lx_kernel w') fd < 2 ^ 30))).
  { destruct (errno =? ENOENT); [|by apply wp_ret]. apply wp_bind, sys_call_wp. intros [] w2 Hw2.
    apply open_file_wp. intros e fd2 w3 Hw3 Hrem3. split; [|done]. etrans; [exact Hw1|]. by etrans. }
  intros [e fd2] w2 [Hw2 Hrem2]. destruct (Z.eqb_spec e 0); [apply wp_ret; split; [done|]; intros _; by apply Hrem2|].
  repeat case_match; apply wp_ret; (split; [done|]); intros Hneg;
    unfold LIBUSB_ERROR_ACCESS, LIBUSB_ERROR_NO_DEVICE, LIBUSB_ERROR_IO in Hneg; lia.
Qed.

Lemma grown_ok p zero size : 0 <= dp_descriptors_len p <= size ->
  (match dp_descriptors p with Some (_, bs) => is_bytes bs | None => True end) ->
  exists bytes, grown junk p zero size = Ok bytes /\ is_bytes bytes /\ len bytes = size.
Proof.
  intros Hlen Hbs. unfold grown. set (old := match dp_descriptors p with None => [] | Some (_, bs) => bs end).
  assert (is_bytes old) as Hold by (unfold old; destruct (dp_descriptors p) as [[]|]; [done|constructor]). clearbody old.
  destruct (Hjunk (Z.to_nat size - length old)%nat) as [Hj1 Hj2].
  assert (is_bytes (take (Z.to_nat size) old ++ junk (Z.to_nat size - length old))) as Hb by (apply Forall_app_2; [by apply is_bytes_take|done]).
  assert (length (take (Z.to_nat size) old ++ junk (Z.to_nat size - length old)) = Z.to_nat size) as Hl
    by (rewrite length_app, length_take, Hj2; lia).
  destruct zero; [|eexists; split; [done|split; [done|rewrite Hl; lia]]].
  edestruct (store_ok (take (Z.to_nat size) old ++ junk (Z.to_nat size - length old)) (Z.to_nat (dp_descriptors_len p))
    (replicate (Z.to_nat size - Z.to_nat (dp_descriptors_len p)) 0)) as (d & Hd & Hld & _).
  { rewrite length_replicate, Hl. lia. }
  exists d. split; [done|]. split; [|rewrite Hld, Hl; lia]. eapply store_bytes; [exact Hb| |exact Hd].
  apply Forall_replicate. unfold is_byte. lia.
Qed.

(** What is known before a round: the array is full, or there is none. *)
Definition round_ok (size : Z) (p : linux_device_priv) : Prop :=
  512 <= size /\ 0 <= dp_descriptors_len p <= size /\ (size = 512 \/ size = dp_descriptors_len p) /\
  match dp_descriptors p with Some (_, bs) => is_bytes bs | None => True end.

Definition read_post d w r w' G : Prop :=
  lx_acc G w' /\ only_priv d w w' /\ dp_sysfs_dir (dpriv w' d) = dp_sysfs_dir (dpriv w d) /\
  (0 <= r -> holds_bytes (dpriv w' d)).

Lemma close_read_wp d fd r w w1 G (Q : Z -> linux K -> Prop) :
  read_post d w r w1 G -> (forall w2, read_post d w r w2 G -> Q r w2) -> wp (sys_call (sys_close sys fd) ;; mret r) w1 Q.
Proof.
  intros (H1 & H2 & H3 & H4) HQ. apply wp_bind, sys_call_wp. intros [] w2 Hw2. apply wp_ret, HQ.
  split; [by eapply acc_kernel|]. rewrite (dpriv_kernel d w1 w2 Hw2).
  split; [etrans; [exact H2|by apply only_priv_kernel]|done].
Qed.
(** The array of [size] bytes is there: one [read] into its rest. *)
Definition read_round (next : Z -> M (linux K) Z) d fd (b : nat) (bytes : list Z) (l size : Z) : M (linux K) Z :=
  '(errno, data) ← sys_call (sys_read sys fd (size - l));
  if negb (errno =? 0) then sys_call (sys_close sys fd) ;; mret LIBUSB_ERROR_IO
  else
    bytes ← lift (store bytes (Z.to_nat l) data);
    let l := l + Z.of_nat (length data) in
    upd_dpriv d (fun priv => set_dp_descriptors_len l (set_dp_descriptors (Some (b, bytes)) priv)) ;;
    if l =? size then next size else sys_call (sys_close sys fd) ;; mret 0.

Lemma read_round_wp next d fd b bytes l size w0 w G :
  lx_acc G w -> only_priv d w0 w -> dp_sysfs_dir (dpriv w d) = dp_sysfs_dir (dpriv w0 d) ->
  dp_descriptors (dpriv w d) = Some (b, bytes) -> dp_descriptors_len (dpriv w d) = l ->
  is_bytes bytes -> len bytes = size -> 0 <= l <= size -> 512 <= size -> l + remaining (lx_kernel w) fd < 2 ^ 30 ->
  (forall w1, lx_acc G w1 -> only_priv d w0 w1 -> dp_sysfs_dir (dpriv w1 d) = dp_sysfs_dir (dpriv w0 d) ->
     round_ok size (dpriv w1 d) -> dp_descriptors_len (dpriv w1 d) = size -> size + remaining (lx_kernel w1) fd < 2 ^ 30 ->
     wp (next size) w1 (fun r w' => read_post d w0 r w' G)) ->
  wp (read_round next d fd b bytes l size) w (fun r w' => read_post d w0 r w' G).
Proof.
  intros Hacc Honly Hdir Hdesc Hlen Hbytes Hsize Hl H512 Hrem Hnext. unfold read_round.
  apply wp_bind. unfold wp at 1, sys_call. destruct (sys_read sys fd (size - l) (lx_kernel w)) as [[errno data] k] eqn:Hread.
  set (w1 := set_lx_kernel k w). assert (same_private w w1) as Hw1 by by exists k.
  assert (lx_acc G w1 /\ only_priv d w0 w1 /\ dpriv w1 d = dpriv w d) as (Hacc1 & Honly1 & Hd1).
  { split; [by eapply acc_kernel|]. split; [etrans; [exact Honly|by apply only_priv_kernel]|done]. }
  destruct (Z.eqb_spec errno 0) as [->|]; cbn [negb].
  2:{ apply (close_read_wp d fd LIBUSB_ERROR_IO w0 w1 G); [|done]. split; [done|]. split; [done|]. rewrite Hd1. split; [done|].
      unfold LIBUSB_ERROR_IO. lia. }
  apply read_law in Hread as (Hdata & Hfit & Hleft); [|lia]. fold w1 in Hleft. apply wp_bind.
  edestruct (store_ok bytes (Z.to_nat l) data) as (bytes' & Hst & Hlb & _); [lia|].
  pose proof (store_bytes _ _ _ _ Hbytes Hdata Hst) as Hb'. eapply wp_lift; [exact Hst|].
  apply wp_bind. apply (upd_dpriv_wp d _ G); [|done|].
  { unfold dp_blocks. simpl. by rewrite Hd1, Hdesc. }
  intros w2 Hacc2 Honly2 Hd2 Hk2. assert (only_priv d w0 w2) as Honly02 by (etrans; [exact Honly1|done]).
  assert (dp_sysfs_dir (dpriv w2 d) = dp_sysfs_dir (dpriv w0 d)) as Hdir2 by (rewrite Hd2; simpl; by rewrite Hd1).
  destruct (Z.eqb_spec (l + len data) size) as [Heq|].
  - apply Hnext; [done|done|done| | |].
    + rewrite Hd2. unfold round_ok. simpl. split_and!; [lia|lia|lia|by right|done].
    + rewrite Hd2. simpl. done.
    + rewrite Hk2. simpl. lia.
  - apply (close_read_wp d fd 0 w0 w2 G); [|done]. split; [done|]. split; [done|]. split; [done|]. intros _. rewrite Hd2.
    exists b, bytes'. simpl. split; [done|]. split; [done|]. lia.
Qed.

Lemma read_descriptors_wp fuel d fd size w0 w G :
  lx_acc G w -> only_priv d w0 w -> dp_sysfs_dir (dpriv w d) = dp_sysfs_dir (dpriv w0 d) ->
  round_ok size (dpriv w d) -> dp_descriptors_len (dpriv w d) + remaining (lx_kernel w) fd < 2 ^ 30 ->
  2 ^ 31 <= size * 2 ^ Z.of_nat fuel ->
  wp (read_descriptors_loop sys junk fuel d fd size) w (fun r w' => read_post d w0 r w' G).
Proof.
  revert size w. induction fuel as [|fuel IH]; intros size w Hacc Honly Hdir Hround Hrem Hfuel;
    pose proof Hround as (H512 & Hlen & Hcase & Hbs); pose proof (remaining_nonneg (lx_kernel w) fd).
  { change (2 ^ Z.of_nat 0) with 1 in Hfuel. lia. }
  cbn [read_descriptors_loop]. rewrite (proj2 (Z.leb_gt _ _)) by lia. unfold globals, dpriv_of.
  apply wp_bind, wp_gets, wp_bind, wp_gets. fold (dpriv w d). set (p := dpriv w d) in *.
  apply (acc_split d) in Hacc as [Hl Hfr]. fold p in Hl.
  apply wp_bind, wp_on_lx_mem. apply (reallocf_any_wp _ _ (own (option_map fst (dp_sysfs_dir p)) ⊎ other_blocks d (lx_dpriv w) ⊎ G)).
  { rewrite Hl. unfold dp_blocks. by rewrite !(assoc_L (⊎)), (comm_L (⊎) (own (option_map fst (dp_sysfs_dir p)))). }
  intros r h Hlh Ho. pose proof (proj2 (proj2 Ho) Hfr) as Hfrh.
  assert (forall q, dp_blocks q = own r ⊎ own (option_map fst (dp_sysfs_dir p)) ->
    lx_acc G (set_lx_dpriv (<[d := q]> (lx_dpriv w)) (set_lx_mem h w))) as Hins.
  { intros q Hq. apply acc_insert; [|done]. by rewrite Hlh, Hq, !(assoc_L (⊎)). }
  destruct r as [b|].
  2:{ apply wp_bind. unfold upd_dpriv. apply wp_modify. cbn [lx_dpriv set_lx_mem]. fold (dpriv w d). fold p.
      eapply (close_read_wp d fd LIBUSB_ERROR_NO_MEM w0); [|intros w2 H2; exact H2]. split; [apply Hins; unfold dp_blocks; simpl; apply (comm_L (⊎))|].
      unfold dpriv at 1 2. simpl. rewrite lookup_insert_eq. simpl.
      split; [etrans; [exact Honly|]; split; [done|]; simpl; by rewrite delete_insert_eq|]. split; [done|]. unfold LIBUSB_ERROR_NO_MEM. lia. }
  apply wp_bind. destruct (grown_ok p (sysfs_has_descriptors (lx_globals w) =? 0) (2 * size)) as (bytes & Hgrown & Hbytes & Hsize); [lia|done|].
  eapply wp_lift; [exact Hgrown|]. apply wp_bind. unfold upd_dpriv at 1. apply wp_modify. cbn [lx_dpriv set_lx_mem]. fold (dpriv w d). fold p.
  set (w1 := set_lx_dpriv _ _). assert (dpriv w1 d = set_dp_descriptors (Some (b, bytes)) p) as Hd1
    by (unfold dpriv at 1; simpl; by rewrite lookup_insert_eq).
  apply (read_round_wp (fun n => read_descriptors_loop sys junk fuel d fd n) d fd b bytes (dp_descriptors_len p) (2 * size) w0 w1 G);
    rewrite ?Hd1; try done; try lia.
  - apply Hins. unfold dp_blocks. simpl. apply (comm_L (⊎)).
  - etrans; [exact Honly|]. split; [done|]. simpl. by rewrite delete_insert_eq.
  - intros w2 Hacc2 Honly2 Hdir2 Hround2 Hlen2 Hrem2. apply IH; try done; [by rewrite Hlen2|].
    rewrite Nat2Z.inj_succ, Z.pow_succ_r in Hfuel by lia. lia.
Qed.
End reading.

(** ** The state with a device being filled in *)

Section filling.
Context {K : Type} (sys : linux_sys K) (remaining : K -> Z -> Z) `{!FileLaws sys remaining}.
Context (big : bool) (junk : nat -> list Z) (Hjunk : junk_bytes junk).
Implicit Types (s : lib (linux K)) (w : linux K) (G : gmultiset nat) (d : nat) (x : device).

Definition filling d x w s : lib (linux K) := set_world w (set_devices (<[d := x]> (devices s)) s).

Lemma filling_start d x s : devices s !! d = Some x -> s = filling d x (world s) s.
Proof. intros Hd. unfold filling. rewrite insert_id by done. by destruct s. Qed.
Lemma filling_again d x w x0 w0 s : filling d x w (filling d x0 w0 s) = filling d x w s.
Proof. unfold filling. simpl. by rewrite insert_insert_eq. Qed.

Lemma wp_run_world {A} (m : M (linux K) A) s (Q : A -> lib (linux K) -> Prop) :
  wp m (world s) (fun a w => Q a (set_world w s)) -> wp (on_world m) s Q.
Proof. unfold wp, on_world. destruct (m (world s)) as [[a w]|]; done. Qed.
Lemma filling_on_world {A} (m : M (linux K) A) d x w s (Q : A -> lib (linux K) -> Prop) :
  wp m w (fun a w' => Q a (filling d x w' s)) -> wp (on_world m) (filling d x w s) Q.
Proof. intros Hm. by apply wp_run_world. Qed.
Lemma filling_upd f d x w s (Q : unit -> lib (linux K) -> Prop) :
  Q tt (filling d (f x) w s) -> wp (upd_device d f) (filling d x w s) Q.
Proof.
  intros HQ. unfold upd_device. apply wp_bind, (wp_get_device _ x); [simpl; apply lookup_insert_eq|].
  apply wp_put_device. replace (set_devices _ _) with (filling d (f x) w s); [done|].
  unfold filling. simpl. by rewrite insert_insert_eq.
Qed.

(** What stays as it was in a device that is filled in. *)
Definition same_links x x' : Prop :=
  refcnt x' = refcnt x /\ parent_dev x' = parent_dev x /\ session_data x' = session_data x /\ port_number x' = port_number x /\
  device_descriptor x' = device_descriptor x.
Definition same_address x x' : Prop :=
  same_links x x' /\ bus_number x' = bus_number x /\ device_address x' = device_address x.

(** A step of [initialize_device] on the device [d], from [w0]. *)
Definition step_post d x w0 G (P : device -> linux K -> Prop) s (s' : lib (linux K)) : Prop :=
  exists x' w', s' = filling d x' w' s /\ same_address x x' /\ lx_acc G w' /\ only_priv d w0 w' /\ P x' w'.

Lemma initialize_sysfs_wp d dir x w s G :
  lx_acc G w -> dpriv w d = zero_dpriv ->
  wp (initialize_sysfs sys d dir) (filling d x w s) (fun r =>
    step_post d x w G (fun _ w' => 0 <= r -> exists b, dpriv w' d = set_dp_sysfs_dir (Some (b, dir)) zero_dpriv) s).
Proof.
  intros Hacc Hz. unfold initialize_sysfs. pose proof Hacc as [Hl Hfr]%(acc_split d). rewrite Hz in Hl.
  apply wp_bind, filling_on_world, wp_on_lx_mem, (malloc_wp _ (other_blocks d (lx_dpriv w) ⊎ G)).
  { rewrite Hl. unfold dp_blocks. simpl. by rewrite !(left_id_L ∅ (⊎)). }
  intros p h Hlh Ho. pose proof (proj2 (proj2 Ho) Hfr) as Hfrh.
  assert (forall q, dp_blocks q = own p ->
    lx_acc G (set_lx_dpriv (<[d := q]> (lx_dpriv w)) (set_lx_mem h w))) as Hins.
  { intros q Hq. apply acc_insert; [|done]. by rewrite Hlh, Hq, (assoc_L (⊎)). }
  assert (forall q, dp_blocks (set_dp_sysfs_dir q zero_dpriv) = own (option_map fst q)) as Hdb
    by (intros q; unfold dp_blocks; simpl; by rewrite (right_id_L ∅ (⊎))).
  destruct p as [b|]; (apply wp_bind, filling_on_world; unfold upd_dpriv; apply wp_modify; cbn [lx_dpriv set_lx_mem]; fold (dpriv w d); rewrite Hz).
  2:{ apply wp_ret. eexists x, _. split; [done|]. split; [done|]. split; [apply Hins, Hdb|].
      split; [split; [done|]; simpl; by rewrite delete_insert_eq|]. unfold LIBUSB_ERROR_NO_MEM. lia. }
  set (w1 := set_lx_dpriv _ _). assert (lx_acc G w1) as Hacc1 by apply Hins, Hdb.
  assert (only_priv d w w1) as Honly1 by (split; [done|]; simpl; by rewrite delete_insert_eq).
  apply wp_bind, filling_on_world. eapply wp_mono; [apply read_sysfs_attr_wp|]. intros mbps w2 Hw2. cbv beta in Hw2.
  assert (forall x', same_address x x' -> step_post d x w G
    (fun _ w' => 0 <= LIBUSB_SUCCESS -> exists b, dpriv w' d = set_dp_sysfs_dir (Some (b, dir)) zero_dpriv) s (filling d x' w2 s)) as Hpost.
  { intros x' Hx'. exists x', w2. split; [done|]. split; [done|]. split; [by eapply acc_kernel|].
    split; [etrans; [exact Honly1|by apply only_priv_kernel]|]. intros _. exists b. rewrite (dpriv_kernel d w1 w2 Hw2).
    unfold dpriv. simpl. by rewrite lookup_insert_eq. }
  apply wp_bind. destruct (if 0 <=? mbps then speed_of mbps else None) as [v|].
  - apply filling_upd, wp_ret, Hpost. done.
  - by apply wp_ret, wp_ret, Hpost.
Qed.

(** The two ways to find the active configuration keep the descriptors. *)
Definition value_post d w G (r : Z) w' : Prop :=
  lx_acc G w' /\ only_priv d w w' /\ dp_sysfs_dir (dpriv w' d) = dp_sysfs_dir (dpriv w d) /\ filled (dpriv w' d).

Lemma set_active_wp d v w G (Q : unit -> linux K -> Prop) :
  lx_acc G w -> filled (dpriv w d) -> (forall r w', value_post d w G r w' -> Q tt w') ->
  wp (upd_dpriv d (set_dp_active_config v)) w Q.
Proof.
  intros Hacc Hfilled HQ. apply (upd_dpriv_wp d _ G); [done|done|]. intros w' Hacc' Honly Hd _. apply (HQ 0).
  split; [done|]. split; [done|]. by rewrite Hd.
Qed.

Lemma usbfs_config_wp d fd w G : lx_acc G w -> filled (dpriv w d) ->
  wp (usbfs_get_active_config sys d fd) w (value_post d w G).
Proof.
  intros Hacc Hfilled. unfold usbfs_get_active_config. apply wp_bind, sys_call_wp. intros [errno data] w1 Hw1.
  assert (value_post d w G 0 w1) as Hpost.
  { split; [by eapply acc_kernel|]. split; [by apply only_priv_kernel|]. by rewrite (dpriv_kernel d w w1 Hw1). }
  destruct (errno =? ENODEV); [by apply wp_ret|]. apply wp_bind. destruct Hpost as (Hacc1 & Honly1 & Hdir1 & Hf1).
  eapply (set_active_wp d _ w1 G); [done|done|]. intros _ w2 (Hacc2 & Honly2 & Hdir2 & Hf2). apply wp_ret.
  split; [done|]. split; [by etrans|]. split; [congruence|done].
Qed.

Lemma assume_first_wp d w G : lx_acc G w -> filled (dpriv w d) ->
  wp (assume_first_config big junk d) w (value_post d w G).
Proof.
  intros Hacc Hfilled. unfold assume_first_config, dpriv_of. apply wp_bind, wp_gets. fold (dpriv w d).
  apply wp_bind. eapply (wp_mono _ _ (fun _ => value_post d w G 0)).
  2:{ intros [] w' H. by apply wp_ret. }
  pose proof Hfilled as ((b & bytes & Hdesc & Hbytes & Hlen) & H18). unfold DEVICE_DESC_LENGTH in H18.
  destruct (Z.leb_spec (DEVICE_DESC_LENGTH + LIBUSB_DT_CONFIG_SIZE) (dp_descriptors_len (dpriv w d))) as [H27|].
  2:{ apply (set_active_wp d _ w G); [done|done|]. by intros r w'. }
  unfold DEVICE_DESC_LENGTH, LIBUSB_DT_CONFIG_SIZE in *.
  apply wp_bind. unfold descriptors_of. rewrite Hdesc. eapply wp_lift; [done|].
  destruct (parse_descriptor_ok big "bbwbbbbb" false (drop (Z.to_nat 18) bytes) (junk 9%nat)) as (cfg & Hcfg & _).
  { by apply is_bytes_drop. }
  { rewrite length_drop. change (9 <= length bytes - Z.to_nat 18)%nat. lia. }
  { destruct (Hjunk 9%nat) as [_ ->]. done. }
  apply wp_bind. eapply wp_lift; [exact Hcfg|]. apply (set_active_wp d _ w G); [done|done|]. by intros r w'.
Qed.

(** After [initialize_device]: the device has its address and, on success,
    its descriptors and its name. *)
Definition initialized (busnum devaddr : Z) (dir : option (list Z)) (r : Z) x' (p : linux_device_priv) : Prop :=
  bus_number x' = busnum /\ device_address x' = devaddr /\ (0 <= r -> filled p /\ (is_Some dir -> is_Some (dp_sysfs_dir p))).
Definition init_device_post d x w busnum devaddr dir G s (r : Z) (s' : lib (linux K)) : Prop :=
  exists x' w', s' = filling d x' w' s /\ same_links x x' /\ lx_acc G w' /\ only_priv d w w' /\
    initialized busnum devaddr dir r x' (dpriv w' d).

(** From [if (fd < 0)] on, with the file of the descriptors. *)
Definition read_device (g : linux_globals) d (busnum devaddr fd : Z) : Lib (linux K) Z :=
  if fd <? 0 then mret fd else
  r ← on_world (read_descriptors_loop sys junk 22 d fd 512);
  if r <? 0 then mret r else
  priv ← on_world (dpriv_of d);
  if dp_descriptors_len priv <? DEVICE_DESC_LENGTH then mret LIBUSB_ERROR_IO
  else if negb (sysfs_can_relate_devices g =? 0) then mret LIBUSB_SUCCESS
  else
      fd ← on_world (_get_usbfs_fd sys busnum devaddr O_RDWR);
      if fd <? 0 then on_world (assume_first_config big junk d)
      else
        r ← on_world (usbfs_get_active_config sys d fd);
        on_world (sys_call (sys_close sys fd)) ;;
        mret r.

Lemma read_device_wp g d busnum devaddr fd x w0 w s G :
  lx_acc G w -> only_priv d w0 w -> is_Some (usbfs_path (lx_globals w)) -> fd_ok remaining fd w ->
  dp_descriptors (dpriv w d) = None -> dp_descriptors_len (dpriv w d) = 0 ->
  wp (read_device g d busnum devaddr fd) (filling d x w s) (fun r s' => exists w', s' = filling d x w' s /\
    lx_acc G w' /\ only_priv d w0 w' /\ (0 <= r -> filled (dpriv w' d) /\ dp_sysfs_dir (dpriv w' d) = dp_sysfs_dir (dpriv w d))).
Proof.
  intros Hacc Honly Hpath Hfd Hnone Hzero. unfold read_device.
  destruct (Z.ltb_spec fd 0) as [|Hpos]; [apply wp_ret; exists w; split_and!; try done; lia|]. specialize (Hfd Hpos).
  apply wp_bind, filling_on_world. eapply wp_mono.
  { apply (read_descriptors_wp sys remaining junk Hjunk 22 d fd 512 w w G); [done|done|done| |rewrite Hzero; lia|].
    - unfold round_ok. rewrite Hzero, Hnone. split_and!; [lia|lia|lia|by left|done].
    - change (2 ^ 31 <= 512 * 2 ^ 22). lia. }
  intros r w1 (Hacc1 & Honly1 & Hdir1 & Hbytes1). assert (only_priv d w0 w1) as Honly01 by by etrans.
  destruct (Z.ltb_spec r 0) as [|Hr]; [apply wp_ret; exists w1; split_and!; try done; lia|]. specialize (Hbytes1 Hr).
  apply wp_bind, filling_on_world. unfold dpriv_of. apply wp_gets. fold (dpriv w1 d).
  destruct (Z.ltb_spec (dp_descriptors_len (dpriv w1 d)) DEVICE_DESC_LENGTH) as [|H18].
  { apply wp_ret. exists w1. unfold LIBUSB_ERROR_IO. split_and!; try done; lia. }
  assert (filled (dpriv w1 d)) as Hf1 by by split.
  destruct (negb (sysfs_can_relate_devices g =? 0)); [apply wp_ret; by exists w1|].
  apply wp_bind, filling_on_world. eapply wp_mono; [apply get_usbfs_fd_wp|].
  { destruct Honly1 as [-> _]. done. }
  intros fd2 w2 Hw2. cbv beta in Hw2. assert (lx_acc G w2) as Hacc2 by by eapply acc_kernel.
  assert (only_priv d w0 w2) as Honly2 by (etrans; [exact Honly01|by apply only_priv_kernel]).
  pose proof (dpriv_kernel d w1 w2 Hw2) as Hd2. assert (filled (dpriv w2 d)) as Hf2 by by rewrite Hd2.
  destruct (fd2 <? 0).
  - apply filling_on_world. eapply wp_mono; [by apply assume_first_wp|]. intros r3 w3 (Hacc3 & Honly3 & Hdir3 & Hf3).
    exists w3. split; [done|]. split; [done|]. split; [by etrans|]. intros _. split; [done|]. congruence.
  - apply wp_bind, filling_on_world. eapply wp_mono; [by apply usbfs_config_wp|]. intros r3 w3 (Hacc3 & Honly3 & Hdir3 & Hf3).
    apply wp_bind, filling_on_world, sys_call_wp. intros [] w4 Hw4. apply wp_ret. exists w4. split; [done|].
    split; [by eapply acc_kernel|]. split; [etrans; [exact Honly2|]; etrans; [exact Honly3|by apply only_priv_kernel]|].
    intros _. rewrite (dpriv_kernel d w3 w4 Hw4). split; [done|]. congruence.
Qed.


Lemma initialize_device_wp d busnum devaddr dir x w s G :
  lx_acc G w -> dpriv w d = zero_dpriv -> is_Some (usbfs_path (lx_globals w)) ->
  (sysfs_has_descriptors (lx_globals w) <> 0 -> is_Some dir) ->
  wp (initialize_device sys big junk d busnum devaddr dir) (filling d x w s) (init_device_post d x w busnum devaddr dir G s).
Proof.
  intros Hacc Hz Hpath Hdir. unfold initialize_device. apply wp_bind, filling_upd.
  set (x0 := set_device_address devaddr (set_bus_number busnum x)).
  apply wp_bind. eapply (wp_mono _ _ (fun r s' => exists x1 w1, s' = filling d x1 w1 s /\ same_address x0 x1 /\ lx_acc G w1 /\
    only_priv d w w1 /\ (0 <= r -> dp_descriptors (dpriv w1 d) = None /\ dp_descriptors_len (dpriv w1 d) = 0 /\
      (is_Some dir -> is_Some (dp_sysfs_dir (dpriv w1 d)))))).
  { destruct dir as [dir|].
    - eapply wp_mono; [by apply initialize_sysfs_wp|]. intros r s' (x1 & w1 & -> & Hx1 & Hacc1 & Honly1 & Hd1).
      exists x1, w1. split_and!; try done. intros Hr. destruct (Hd1 Hr) as [b ->]. done.
    - apply wp_ret. exists x0, w. split_and!; try done. intros _. rewrite Hz. done. }
  intros r s1 (x1 & w1 & -> & (Hlinks & Hbus & Haddr) & Hacc1 & Honly1 & Hd1).
  assert (forall r' w', lx_acc G w' -> only_priv d w w' ->
    (0 <= r' -> filled (dpriv w' d) /\ (is_Some dir -> is_Some (dp_sysfs_dir (dpriv w' d)))) ->
    init_device_post d x w busnum devaddr dir G s r' (filling d x1 w' s)) as Hpost.
  { intros r' w' Ha Ho Hf. exists x1, w'. split; [done|]. split; [done|]. split; [done|]. split; [done|].
    split; [exact Hbus|]. split; [exact Haddr|done]. }
  destruct (Z.ltb_spec r 0) as [|Hr]; [apply wp_ret, Hpost; try done; lia|]. destruct (Hd1 Hr) as (Hnone & Hzero & Hname).
  apply wp_bind, filling_on_world. unfold globals. apply wp_gets. apply wp_bind, filling_on_world.
  assert (lx_globals w1 = lx_globals w) as Hg by by destruct Honly1.
  eapply (wp_mono _ _ (fun fd w' => same_private w1 w' /\ fd_ok remaining fd w')).
  { rewrite Hg. destruct (Z.eqb_spec (sysfs_has_descriptors (lx_globals w)) 0) as [|Hhas]; cbn [negb].
    - apply usbfs_fd; [done|]. rewrite Hg. done.
    - apply open_attr_fd; [done|]. by apply Hname, Hdir. }
  intros fd w2 [Hw2 Hfd]. pose proof (dpriv_kernel d w1 w2 Hw2) as Hd2.
  change (wp (read_device (lx_globals w1) d busnum devaddr fd) (filling d x1 w2 s) (init_device_post d x w busnum devaddr dir G s)).
  eapply wp_mono; [apply (read_device_wp (lx_globals w1) d busnum devaddr fd x1 w w2 s G)|].
  - by eapply acc_kernel.
  - etrans; [exact Honly1|by apply only_priv_kernel].
  - destruct Hw2 as [k ->]. simpl. by rewrite Hg.
  - done.
  - by rewrite Hd2.
  - by rewrite Hd2.
  - intros r3 s3 (w3 & -> & Hacc3 & Honly3 & Hf3). apply Hpost; [done|done|]. intros Hr3. destruct (Hf3 Hr3) as [? Hdir3].
    split; [done|]. rewrite Hdir3, Hd2. done.
Qed.
End filling.
