(* ===== verification/EnumInv.v ===== *)
(** * The invariant of enumeration in the Linux backend

    Next to the invariant of HotplugLife.v: every device of the list is well
    formed, the memory of the backend is accounted for, and devices that are
    being filled in are left alone by everything else. *)

From S2P Require Import Prelude Heap ParseDesc Config ConfigSafety DescApi ConfigTree DescProps Bos Core Text Log Devices DeviceRefs Hotplug HotplugLife LinuxState LinuxSys LinuxDesc LinuxEnum SysSpecs EnumSpecs.

(** What enumeration relies on in the table of operations. *)
Class EnumBackend {K : Type} (be : os_backend (linux K)) : Prop := {
  eb_hotplug : has_hotplug be = true;
  eb_destroy : be_destroy_device be = Some op_destroy_device;
  eb_mutex w : same_private w (os_mutex_init be w).2
}.

Section frames.
Context {K : Type} (be : os_backend (linux K)) `{!EnumBackend be}.
Implicit Types (s : lib (linux K)) (w : linux K) (G : gmultiset nat) (d k : nat).

(** ** Release *)

Lemma release_block_live p F h : live h = own p ⊎ F -> heap_fresh h ->
  live (release_block p h) = F /\ heap_fresh (release_block p h).
Proof.
  intros Hl Hf. destruct p as [b|]; simpl in *; [|split; [rewrite Hl; multiset_solver|done]]. rewrite Hl.
  split; [multiset_solver|]. intros c Hc. simpl in *. apply Hf. rewrite Hl. multiset_solver.
Qed.

Lemma destroy_acc d G w : lx_acc G w -> lx_acc G (op_destroy_device d w).2.
Proof.
  intros [Hl Hf]%(acc_split d). unfold dp_blocks in Hl. rewrite <- !(assoc_L (⊎)), (disj_union_swap (own (option_map fst (dp_sysfs_dir _)))) in Hl.
  unfold op_destroy_device. fold (dpriv w d). cbn [snd].
  destruct (release_block_live _ _ _ Hl Hf) as [Hl1 Hf1]. by destruct (release_block_live _ _ _ Hl1 Hf1).
Qed.

(** No device has [k] as its parent. *)
Definition childless k (m : gmap nat device) : Prop := forall j y, m !! j = Some y -> parent_dev y <> Some k.
Definition priv_dom s : Prop := forall d, is_Some (lx_dpriv (world s) !! d) -> is_Some (devices s !! d).

(** What the release of devices leaves of the backend's state. *)
Record unref_frame s s' : Prop := mk_unref_frame {
  uf_dom k : is_Some (devices s' !! k) -> is_Some (devices s !! k);
  uf_priv k : is_Some (devices s' !! k) -> lx_dpriv (world s') !! k = lx_dpriv (world s) !! k;
  uf_globals : lx_globals (world s') = lx_globals (world s);
  uf_priv_dom : priv_dom s -> priv_dom s';
  uf_acc G : lx_acc G (world s) -> lx_acc G (world s')
}.
Lemma unref_frame_trans s1 s2 s3 : unref_frame s1 s2 -> unref_frame s2 s3 -> unref_frame s1 s3.
Proof.
  intros H1 H2. split; intros.
  - by apply (uf_dom _ _ H1), (uf_dom _ _ H2).
  - rewrite (uf_priv _ _ H2) by done. apply (uf_priv _ _ H1). by apply (uf_dom _ _ H2).
  - rewrite (uf_globals _ _ H2). apply (uf_globals _ _ H1).
  - by apply (uf_priv_dom _ _ H2), (uf_priv_dom _ _ H1).
  - by apply (uf_acc _ _ H2), (uf_acc _ _ H1).
Qed.
(** The backend's state is the same, and so are the devices but for the
    contents of their records. *)
Lemma unref_frame_world s s' : world s' = world s -> dom (devices s') = dom (devices s) -> unref_frame s s'.
Proof.
  intros Hw Hd. assert (forall k, is_Some (devices s' !! k) <-> is_Some (devices s !! k)) as Hiff
    by (intros k; by rewrite <- !elem_of_dom, Hd).
  split; unfold priv_dom; rewrite ?Hw; try done; [by intros k ?%Hiff|]. intros Hdom k Hk. by apply Hiff, Hdom.
Qed.
Lemma destroy_frame d h s :
  unref_frame s (set_devices (delete d (devices s)) (set_mem h (set_world (op_destroy_device d (world s)).2 s))).
Proof.
  split; simpl.
  - intros k [x Hx]. apply lookup_delete_Some in Hx as [_ Hx]. by exists x.
  - intros k [x Hx]. apply lookup_delete_Some in Hx as [Hk _]. by rewrite lookup_delete_ne.
  - done.
  - intros Hdom k [p Hp]. simpl in Hp. apply lookup_delete_Some in Hp as [Hk Hp]. simpl in *. rewrite lookup_delete_ne by done. apply Hdom. by exists p.
  - intros G. apply destroy_acc.
Qed.

(** The device [k] is not the one that is dropped, nor one of its parents. *)
Definition kept k s s' : Prop := devices s' !! k = devices s !! k /\ childless k (devices s').

Lemma childless_insert k d x m : childless k m -> parent_dev x <> Some k -> childless k (<[d := x]> m).
Proof. intros Hm Hx j y Hj. apply lookup_insert_Some in Hj as [[_ <-]|[_ Hj]]; [done|]. by apply (Hm j). Qed.
Lemma childless_delete k d m : childless k m -> childless k (delete d m).
Proof. intros Hm j y [_ Hj]%lookup_delete_Some. by apply (Hm j). Qed.

Lemma unref_device_frame fuel o s :
  wlp (unref_device be fuel o) s (fun _ s' => unref_frame s s' /\
    forall k, o <> Some k -> childless k (devices s) -> kept k s s').
Proof.
  revert o s. induction fuel as [|fuel IH]; intros o s; (destruct o as [d|]; cbn [unref_device];
    [|apply wlp_ret; split; [by apply unref_frame_world|]; intros k _ Hk; by split]); [done|].
  apply wlp_bind. intros x s0 Hx. unfold get_device, lookup_obj in Hx. destruct (devices s !! d) as [y|] eqn:Hd; [|done]. injection Hx as -> ->.
  apply wlp_bind. intros ? s1 [= <- <-]. set (x1 := set_refcnt (refcnt x - 1) x). set (s1 := set_devices (<[d := x1]> (devices s0)) s0).
  assert (unref_frame s0 s1) as Hf1 by (apply unref_frame_world; [done|]; simpl; apply dom_insert_lookup_L; by eexists).
  assert (forall k, Some d <> Some k -> childless k (devices s0) -> kept k s0 s1) as Hk1.
  { intros k Hk Hc. split; [simpl; apply lookup_insert_ne; congruence|]. apply childless_insert; [done|]. exact (Hc d x Hd). }
  destruct (refcnt x - 1 =? 0); [|by apply wlp_ret].
  apply wlp_bind. eapply wlp_mono; [apply IH|]. intros [] s2 [Hf2 Hk2].
  apply wlp_bind. rewrite eb_destroy. intros ? s3 [= <- <-]. rewrite eb_hotplug. apply wlp_bind, wlp_ret. unfold free_device.
  apply wlp_bind. intros [] s4 Hfree. unfold on_mem in Hfree. destruct (free (Some d) _) as [[? h]|]; [|done]. injection Hfree as _ <-.
  intros ? s5 [= <- <-]. pose proof (destroy_frame d h s2) as Hf5. cbn [devices set_mem set_world].
  split; [eapply unref_frame_trans; [exact Hf1|]; by eapply unref_frame_trans|].
  intros k Hk Hc. destruct (Hk1 k Hk Hc) as [He1 Hc1]. destruct (Hk2 k) as [He2 Hc2]; [exact (Hc d x Hd)|done|].
  split; simpl; [|by apply childless_delete]. rewrite lookup_delete_ne by congruence. by rewrite He2, He1.
Qed.

Lemma libusb_unref_frame d s :
  wlp (libusb_unref_device be (Some d)) s (fun _ s' => unref_frame s s' /\
    forall k, d <> k -> childless k (devices s) -> kept k s s').
Proof.
  unfold libusb_unref_device. apply wlp_bind. intros n s0 [= <- <-]. eapply wlp_mono; [apply unref_device_frame|].
  intros [] s' [Hf Hk]. split; [done|]. intros k Hne. apply Hk. congruence.
Qed.

(** ** What the other steps leave alone *)

Definition same_devices s s' : Prop :=
  devices s' = devices s /\ usb_devs s' = usb_devs s /\ world s' = world s.

Lemma wlp_on_mem {A} (m : M heap A) s (Q : A -> lib (linux K) -> Prop) :
  (forall a h, Q a (set_mem h s)) -> wlp (on_mem m) s Q.
Proof. intros HQ a s' Hm. unfold on_mem in Hm. destruct (m (mem s)) as [[b h]|]; [|done]. injection Hm as <- <-. apply HQ. Qed.

Lemma record_event_frame f s : wlp (record_event f) s (fun _ s' => same_devices s s').
Proof.
  unfold record_event. apply wlp_bind. intros e s0 [= <- <-]. apply wlp_bind. intros ? s1 [= <- <-].
  destruct (usbi_pending_events (ev s)); [by apply wlp_ret|]. apply wlp_bind. unfold usbi_signal_event.
  apply wlp_bind. intros e s2 [= <- <-]. case_match; [apply wlp_bind; intros ? s3 [= <- <-]|]; by apply wlp_ret, wlp_ret.
Qed.
Lemma notification_frame dev event s : wlp (usbi_hotplug_notification dev event) s (fun _ s' => same_devices s s').
Proof.
  unfold usbi_hotplug_notification. apply wlp_bind, wlp_on_mem. intros [b|] h; [|by apply wlp_ret].
  eapply wlp_mono; [apply record_event_frame|]. by intros [] s'.
Qed.

Definition ref_state d x s : lib (linux K) := set_devices (<[d := set_refcnt (refcnt x + 1) x]> (devices s)) s.

Lemma get_device_inv d s x s' : get_device d s = Ok (x, s') -> devices s !! d = Some x /\ s' = s.
Proof. unfold get_device, lookup_obj. destruct (devices s !! d); [|done]. by intros [= <- <-]. Qed.

Lemma find_session_frame sid l s : wlp (find_session sid l) s (fun r s' =>
  match r with
  | None => s' = s
  | Some d => d ∈ l /\ exists x, devices s !! d = Some x /\ session_data x = sid /\ s' = ref_state d x s
  end).
Proof.
  induction l as [|d l IH]; [by apply wlp_ret|]. cbn [find_session]. apply wlp_bind. intros x s0 [Hx ->]%get_device_inv.
  destruct (Z.eqb_spec (session_data x) sid) as [Hsid|].
  - intros r s' Hrun. unfold libusb_ref_device, mbind, M_bind in Hrun. unfold get_device, lookup_obj in Hrun. rewrite Hx in Hrun.
    injection Hrun as <- <-. split; [set_solver|]. by exists x.
  - eapply wlp_mono; [apply IH|]. intros [k|] s'; [|done]. intros [Hk ?]. split; [set_solver|done].
Qed.

Lemma connect_frame d s : wlp (usbi_connect_device be d) s (fun _ s' =>
  exists x, devices s !! d = Some x /\ devices s' = <[d := set_attached true x]> (devices s) /\
    usb_devs s' = d :: usb_devs s /\ world s' = world s).
Proof.
  unfold usbi_connect_device. apply wlp_bind. intros x s0 [Hx ->]%get_device_inv.
  apply wlp_bind. intros ? s1 [= <- <-]. apply wlp_bind. intros ? s2 [= <- <-]. apply wlp_bind. intros r s3 [= <- <-].
  destruct (_ && _); [|by intros ? s4 [= <- <-]; exists x].
  eapply wlp_mono; [apply notification_frame|]. intros [] s4 (-> & -> & ->). by exists x.
Qed.

Lemma alloc_frame sid s : wlp (usbi_alloc_device be sid) s (fun r s' => usb_devs s' = usb_devs s /\ same_private (world s) (world s') /\
  match r with
  | None => devices s' = devices s
  | Some d => d = next (mem s) /\
      devices s' = <[d := mk_device 1 0 0 None 0 0 LIBUSB_SPEED_UNKNOWN sid (replicate 18 0) false]> (devices s)
  end).
Proof.
  unfold usbi_alloc_device. apply wlp_bind. intros p s1 Hm. unfold on_mem, malloc in Hm. destruct (oom _ _); injection Hm as <- <-.
  { by apply wlp_ret. }
  apply wlp_bind. pose proof (eb_mutex (world s)) as Hmutex. intros r s2 Hop. unfold backend_op in Hop. cbn [world set_mem] in Hop.
  destruct (os_mutex_init be (world s)) as [r' w]. injection Hop as <- <-. simpl in Hmutex.
  destruct (negb (r' =? 0)); [by apply wlp_bind, wlp_on_mem; intros [] h; apply wlp_ret|].
  apply wlp_bind. intros ? s3 [= <- <-]. rewrite eb_hotplug. apply wlp_bind, wlp_ret, wlp_ret. done.
Qed.
End frames.

(** ** The invariant *)

Section inv.
Context {K : Type} (be : os_backend (linux K)) (ready : bool) `{!EnumBackend be}.
Implicit Types (s : lib (linux K)) (w : linux K) (G F L C : gmultiset nat) (d k : nat) (x : device).

Definition well_addressed x : Prop :=
  0 <= bus_number x < 256 /\ 0 <= device_address x < 256 /\ 0 <= port_number x < 256 /\
  session_data x = linux_session_id (bus_number x) (device_address x).
(** [named]: whether devices have names in sysfs. *)
Definition good_device (named : bool) x (p : linux_device_priv) : Prop :=
  well_addressed x /\ filled p /\ (named = true -> is_Some (dp_sysfs_dir p)).

(** [P]: the devices that are being filled in, as they must stay. *)
Record scan_inv (named : bool) (g : linux_globals) (P : gmap nat (device * linux_device_priv)) G F L C s : Prop := mk_scan_inv {
  si_hot : hot_inv be ready F L C s;
  si_acc : lx_acc G (world s);
  si_dom : priv_dom s;
  si_globals : lx_globals (world s) = g;
  si_listed d : d ∈ usb_devs s ->
    exists x p, devices s !! d = Some x /\ lx_dpriv (world s) !! d = Some p /\ good_device named x p;
  si_private k x p : P !! k = Some (x, p) ->
    k ∈ C /\ (k ∉ usb_devs s) /\ devices s !! k = Some x /\ refcnt x = 1 /\ lx_dpriv (world s) !! k = Some p
}.

Variables (named : bool) (g : linux_globals).
Implicit Type P : gmap nat (device * linux_device_priv).

Lemma wp_to_wlp {S A} (m : M S A) (s : S) (Q : A -> S -> Prop) : wp m s Q -> wlp m s Q.
Proof. intros Hwp a s' Hm. unfold wp in Hwp. by rewrite Hm in Hwp. Qed.

Lemma same_links_good x x' p : same_address x x' -> good_device named x p -> good_device named x' p.
Proof.
  intros ((_ & _ & Hs & Hp & _) & Hb & Ha) [Hx Hrest]. split; [|done]. unfold well_addressed in *. by rewrite Hs, Hp, Hb, Ha.
Qed.
Lemma set_refcnt_good n x p : good_device named x p -> good_device named (set_refcnt n x) p.
Proof. intros [Hx Hrest]. by split. Qed.

(** A device whose only reference is a client's is nobody's parent. *)
Lemma refs_one_childless m E k x : refs_ok m E -> m !! k = Some x -> refcnt x = 1 -> k ∈ E ->
  childless k m /\ multiplicity k E = 1%nat.
Proof.
  intros (Hc & _ & _) Hk Hone HE. destruct (Hc k x Hk) as [Heq _]. rewrite multiplicity_disj_union in Heq.
  rewrite elem_of_multiplicity in HE. split; [|lia]. intros j y Hj Hp.
  assert (k ∈ parent_refs m) as Hin by (eapply map_sum_elem; [exact Hj|]; rewrite Hp; simpl; multiset_solver).
  rewrite elem_of_multiplicity in Hin. lia.
Qed.

Lemma hot_private F L C s k x : hot_inv be ready F L C s -> devices s !! k = Some x -> refcnt x = 1 -> k ∈ C ->
  childless k (devices s) /\ multiplicity k C = 1%nat.
Proof.
  intros Hhot Hk Hone HC. destruct (hot_devices _ _ _ _ _ _ Hhot) as [Hrefs _].
  destruct (refs_one_childless _ _ k x Hrefs Hk Hone) as [Hch Hm]; [multiset_solver|]. split; [done|].
  rewrite !multiplicity_disj_union in Hm. rewrite elem_of_multiplicity in HC. lia.
Qed.

Lemma scan_unref_wp P G F L C d s :
  scan_inv named g P G F L ({[+ d +]} ⊎ C) s -> (forall k, is_Some (P !! k) -> k ∈ C) ->
  wp (libusb_unref_device be (Some d)) s (fun _ s' => scan_inv named g P G F L C s' /\ usb_devs s' = usb_devs s /\
    only_counts (devices s) (devices s')).
Proof.
  intros [Hhot Hacc Hdom Hg Hlist Hpriv] HP. pose proof (hot_devices _ _ _ _ _ _ Hhot) as Hok.
  rewrite (disj_union_swap _ {[+ d +]}) in Hok.
  pose proof (hot_unref_wp be ready eb_hotplug F L C d s Hhot) as H1.
  pose proof (wp_to_wlp _ _ _ (wp_wlp _ _ _ _ (libusb_unref_device_wp be (Some d) _ _ s Hok) (libusb_unref_frame be d s))) as H2.
  eapply wp_mono; [exact (wp_wlp _ _ _ _ H1 H2)|].
  intros [] s' [[Hhot' (_ & _ & _ & Husb)] [(_ & Honly & _) [Hf Hkept]]]. specialize (Husb eb_hotplug). split; [|by split].
  split; [done|by apply (uf_acc _ _ Hf)|by apply (uf_priv_dom _ _ Hf)|by rewrite (uf_globals _ _ Hf)| |].
  - intros k Hk. destruct (hot_inv_elem be ready eb_hotplug F L C _ k Hhot' (or_introl Hk)) as [x' Hx'].
    rewrite (uf_priv _ _ Hf) by by eexists. rewrite Husb in Hk. destruct (Hlist k Hk) as (x & p & Hx & Hp & Hgood).
    exists x', p. split; [done|]. split; [done|]. destruct (Honly k x' Hx') as (x0 & Hx0 & ->). simplify_eq. by apply set_refcnt_good.
  - intros k x p Hk. destruct (Hpriv k x p Hk) as (HC & Hus & Hx & Hone & Hp).
    destruct (hot_private _ _ _ _ _ _ Hhot Hx Hone HC) as [Hch Hmult]. assert (k ∈ C) as HkC by (apply HP; by eexists).
    assert (d <> k) as Hne.
    { intros ->. rewrite multiplicity_disj_union, multiplicity_singleton_eq in Hmult. rewrite elem_of_multiplicity in HkC. lia. }
    destruct (Hkept k Hne Hch) as [Hsame _]. rewrite Husb, Hsame, (uf_priv _ _ Hf) by (rewrite Hsame; by eexists). done.
Qed.

(** A reference on a device of the list. *)
Lemma scan_ref P G F L C d x s : scan_inv named g P G F L C s -> d ∈ usb_devs s -> devices s !! d = Some x ->
  scan_inv named g P G F L ({[+ d +]} ⊎ C) (ref_state d x s).
Proof.
  intros [Hhot Hacc Hdom Hg Hlist Hpriv] Hd Hx. split; [|done| |done| |].
  - pose proof (hot_ref_wp be ready eb_hotplug F L C d s Hhot (ex_intro _ x Hx)) as Hrun.
    unfold libusb_ref_device, wp, mbind, M_bind, get_device, lookup_obj in Hrun. rewrite Hx in Hrun. apply Hrun.
  - intros k Hk. simpl. apply lookup_insert_is_Some'. right. by apply Hdom.
  - intros k Hk. simpl. destruct (Hlist k Hk) as (y & p & Hy & Hp & Hgood). destruct (decide (k = d)) as [->|].
    + rewrite lookup_insert_eq. exists (set_refcnt (refcnt x + 1) x), p. simplify_eq. split; [done|]. split; [done|]. by apply set_refcnt_good.
    + rewrite lookup_insert_ne by done. by exists y, p.
  - intros k y p Hk. destruct (Hpriv k y p Hk) as (HC & Hus & Hy & Hrest). split; [multiset_solver|]. split; [done|].
    split; [|done]. simpl. rewrite lookup_insert_ne; [done|]. intros ->. done.
Qed.

Lemma hot_filling F L C d x x' w s : hot_inv be ready F L C s -> devices s !! d = Some x ->
  refcnt x' = refcnt x -> parent_dev x' = parent_dev x -> hot_inv be ready F L C (filling d x' w s).
Proof.
  intros [[Hrefs [Hl _]] Hfr Hnd Hcbs Hmsgs Hpipe Htr Hready] Hx Hr Hp. split; simpl; try done.
  apply hot_devices_ok; [apply eb_hotplug| |].
  - simpl. by eapply refs_update.
  - simpl. rewrite Hl. unfold blocks. by rewrite (map_sum_update _ _ d x).
Qed.

(** The device [d] is filled in. *)
Lemma scan_filling P G G' F L C d x x' w s : scan_inv named g P G F L C s -> d ∉ usb_devs s -> P !! d = None ->
  devices s !! d = Some x -> refcnt x' = refcnt x -> parent_dev x' = parent_dev x ->
  only_priv d (world s) w -> lx_acc G' w -> scan_inv named g P G' F L C (filling d x' w s).
Proof.
  intros [Hhot Hacc Hdom Hg Hlist Hpriv] Hd HPd Hx Hr Hp Honly Hacc'. split; simpl.
  - by eapply hot_filling.
  - done.
  - intros k Hk. simpl in *. apply lookup_insert_is_Some'. destruct (decide (k = d)) as [->|Hne]; [by left|]. right.
    apply Hdom. by rewrite <- (only_priv_lookup _ _ _ _ Honly).
  - by destruct Honly as [-> _].
  - intros k Hk. assert (k <> d) as Hne by by intros ->. rewrite lookup_insert_ne, (only_priv_lookup _ _ _ _ Honly) by done.
    by apply Hlist.
  - intros k y p Hk. assert (k <> d) as Hne by (intros ->; congruence).
    rewrite lookup_insert_ne, (only_priv_lookup _ _ _ _ Honly) by done. by apply Hpriv.
Qed.

(** The device [d] becomes private, and is taken back. *)
Lemma scan_push P G F L C d x p s : scan_inv named g P G F L C s -> P !! d = None -> d ∈ C -> d ∉ usb_devs s ->
  devices s !! d = Some x -> refcnt x = 1 -> lx_dpriv (world s) !! d = Some p ->
  scan_inv named g (<[d := (x, p)]> P) G F L C s.
Proof.
  intros [Hhot Hacc Hdom Hg Hlist Hpriv] HPd HC Hd Hx Hone Hp. split; try done. intros k y q Hk.
  apply lookup_insert_Some in Hk as [[<- [= <- <-]]|[_ Hk]]; [done|by apply Hpriv].
Qed.
Lemma scan_pop P G F L C d x p s : scan_inv named g (<[d := (x, p)]> P) G F L C s -> P !! d = None ->
  scan_inv named g P G F L C s /\ (d ∉ usb_devs s) /\ devices s !! d = Some x /\ refcnt x = 1 /\ lx_dpriv (world s) !! d = Some p.
Proof.
  intros [Hhot Hacc Hdom Hg Hlist Hpriv] HPd. destruct (Hpriv d x p) as (_ & ?); [apply lookup_insert_eq|]. split; [|done].
  split; try done. intros k y q Hk. apply Hpriv. rewrite lookup_insert_ne; [done|]. intros ->. congruence.
Qed.

(** ** The parent *)

(** A device gets its parent: the reference moves into its record. *)
Lemma refs_set_parent m E d x p : refs_ok m ({[+ p +]} ⊎ ({[+ d +]} ⊎ E)) -> m !! d = Some x -> parent_dev x = None ->
  refcnt x = 1 -> p <> d -> refs_ok (<[d := set_parent_dev (Some p) x]> m) ({[+ d +]} ⊎ E).
Proof.
  intros Hrefs Hd Hnone Hone Hne. destruct (refs_one_childless _ _ d x Hrefs Hd Hone) as [Hch _]; [multiset_solver|].
  destruct Hrefs as (Hc & He & rank & Hr).
  assert (parent_refs (<[d := set_parent_dev (Some p) x]> m) = {[+ p +]} ⊎ parent_refs m) as Hpr.
  { unfold parent_refs. rewrite (map_sum_delete _ m d x) by done. rewrite <- insert_delete_eq, map_sum_insert by apply lookup_delete_eq.
    rewrite Hnone. simpl. by rewrite (left_id_L ∅ (⊎)). }
  assert (({[+ d +]} ⊎ E) ⊎ ({[+ p +]} ⊎ parent_refs m) = {[+ p +]} ⊎ ({[+ d +]} ⊎ E) ⊎ parent_refs m) as Hsum by multiset_solver.
  split; [|split].
  - intros k y Hk. rewrite Hpr, Hsum. apply lookup_insert_Some in Hk as [[<- <-]|[_ Hk]]; [by apply (Hc d x)|by apply Hc].
  - intros k Hk. rewrite Hpr, Hsum in Hk. apply lookup_insert_is_Some'. right. by apply He.
  - exists (fun k => if decide (k = d) then S (rank p) else rank k). intros k y q Hk Hq.
    apply lookup_insert_Some in Hk as [[<- <-]|[Hkd Hk]].
    + injection Hq as <-. rewrite decide_False, decide_True by done. lia.
    + assert (q <> d) as Hqd by (intros ->; by apply (Hch k y)). rewrite !decide_False by done. by apply (Hr k y).
Qed.

(** The device [d] with record [x] and private data [p] is being filled in. *)
Definition fresh_dev P G F L C d x (p : linux_device_priv) s : Prop :=
  scan_inv named g P G F L ({[+ d +]} ⊎ C) s /\ P !! d = None /\ (d ∉ usb_devs s) /\ devices s !! d = Some x /\
  refcnt x = 1 /\ lx_dpriv (world s) !! d = Some p.

Lemma fresh_private P G F L C d x p s k : fresh_dev P G F L C d x p s -> is_Some (P !! k) -> k ∈ C.
Proof.
  intros (Hinv & HPd & _) [[y q] Hk]. destruct (si_private _ _ _ _ _ _ _ _ Hinv k y q Hk) as (HC & _).
  assert (k <> d) by (intros ->; congruence). multiset_solver.
Qed.

Lemma fresh_upd f P G F L C d x p s (Q : unit -> lib (linux K) -> Prop) :
  fresh_dev P G F L C d x p s -> refcnt (f x) = refcnt x -> parent_dev (f x) = parent_dev x ->
  (forall s', fresh_dev P G F L C d (f x) p s' -> usb_devs s' = usb_devs s -> Q tt s') -> wp (upd_device d f) s Q.
Proof.
  intros (Hinv & HPd & Hd & Hx & Hone & Hp) Hr Hpar HQ. rewrite (filling_start d x s Hx) at 1. apply filling_upd, HQ; [|done].
  split; [eapply scan_filling; try done; apply Hinv|]. simpl. rewrite lookup_insert_eq. by rewrite Hr.
Qed.

Lemma fresh_lx_mem P G G' F L C d x p h s : fresh_dev P G F L C d x p s ->
  lx_acc G' (set_lx_mem h (world s)) -> fresh_dev P G' F L C d x p (set_world (set_lx_mem h (world s)) s).
Proof.
  intros ([Hhot Hacc Hdom Hg Hlist Hpriv] & Hrest) Hacc'. split; [|done]. split; try done. by destruct Hhot as [[? []]].
Qed.

Lemma fresh_malloc P G F L C d x p s (Q : option nat -> lib (linux K) -> Prop) : fresh_dev P G F L C d x p s ->
  (forall b s', fresh_dev P (own b ⊎ G) F L C d x p s' -> usb_devs s' = usb_devs s -> Q b s') ->
  wp (on_world (on_lx_mem malloc)) s Q.
Proof.
  intros Hf HQ. pose proof (si_acc _ _ _ _ _ _ _ _ (proj1 Hf)) as [Hl Hfr].
  apply wp_run_world, wp_on_lx_mem, (malloc_wp _ _ _ Hl). intros b h Hlh Ho. apply HQ; [|done].
  eapply fresh_lx_mem; [exact Hf|]. split; [|by apply Ho]. simpl. by rewrite Hlh, !(assoc_L (⊎)), (comm_L (⊎) (own b)).
Qed.
Lemma fresh_free P G F L C d x p b s (Q : unit -> lib (linux K) -> Prop) : fresh_dev P ({[+ b +]} ⊎ G) F L C d x p s ->
  (forall s', fresh_dev P G F L C d x p s' -> usb_devs s' = usb_devs s -> Q tt s') -> wp (on_world (on_lx_mem (free (Some b)))) s Q.
Proof.
  intros Hf HQ. pose proof (si_acc _ _ _ _ _ _ _ _ (proj1 Hf)) as [Hl Hfr]. rewrite (disj_union_swap _ {[+ b +]}) in Hl.
  apply wp_run_world, wp_on_lx_mem. eapply free_wp; [exact Hl|]. intros h Hlh Ho. apply HQ; [|done].
  eapply fresh_lx_mem; [exact Hf|]. split; [done|by apply Ho].
Qed.

(** The names of listed devices can be compared. *)
Lemma find_sysfs_dir_wp dir l s : (forall d, d ∈ l -> exists x p, devices s !! d = Some x /\
    lx_dpriv (world s) !! d = Some p /\ is_Some (dp_sysfs_dir p)) ->
  wp (find_sysfs_dir dir l) s (fun r s' =>
    match r with
    | None => s' = s
    | Some k => k ∈ l /\ exists x, devices s !! k = Some x /\ s' = ref_state k x s
    end).
Proof.
  induction l as [|k l IH]; intros Hl; [by apply wp_ret|]. cbn [find_sysfs_dir].
  destruct (Hl k) as (x & p & Hx & Hp & [[b name] Hname]); [set_solver|].
  unfold get_dpriv. apply wp_bind, wp_bind, (wp_get_device _ x); [done|]. apply wp_gets. rewrite Hp. cbn [default from_option].
  apply wp_bind, wp_run_world, text_of_wp; [by exists (b, name)|]. intros nm. replace (set_world (world s) s) with s by by destruct s.
  case_bool_decide.
  - apply wp_bind. unfold libusb_ref_device. apply wp_bind, (wp_get_device _ x); [done|].
    apply wp_bind, wp_put_device, wp_ret, wp_ret. split; [set_solver|]. by exists x.
  - eapply wp_mono; [apply IH; intros; apply Hl; set_solver|]. intros [k'|] s'; [|done]. intros [? ?]. split; [set_solver|done].
Qed.

(** Bus, address, port and session stay. *)
Definition same_place x x' : Prop :=
  bus_number x' = bus_number x /\ device_address x' = device_address x /\ port_number x' = port_number x /\ session_data x' = session_data x.

Lemma fresh_find_parent P G F L C d x p dir s : named = true -> fresh_dev P G F L C d x p s -> parent_dev x = None ->
  wp (find_parent d dir) s (fun r s' => usb_devs s' = usb_devs s /\
    match r with
    | None => s' = s
    | Some _ => exists x', same_place x x' /\ fresh_dev P G F L C d x' p s'
    end).
Proof.
  intros Hnamed Hf Hpar. pose proof Hf as (Hinv & HPd & Hd & Hx & Hone & Hp). unfold find_parent. apply wp_bind, wp_gets, wp_bind.
  eapply wp_mono; [apply find_sysfs_dir_wp|].
  { intros k Hk. destruct (si_listed _ _ _ _ _ _ _ _ Hinv k Hk) as (y & q & Hy & Hq & _ & _ & Hn). exists y, q. auto. }
  intros [k|] s1; [|by intros ->; apply wp_ret]. intros (Hk & y & Hy & ->). assert (k <> d) as Hne by by intros ->.
  pose proof (scan_ref P G F L _ k y s Hinv Hk Hy) as Hinv1.
  assert (devices (ref_state k y s) !! d = Some x) as Hx1 by (simpl; by rewrite lookup_insert_ne).
  set (s1 := ref_state k y s) in *. apply wp_bind. rewrite (filling_start d x s1 Hx1) at 1. apply filling_upd, wp_ret.
  split; [done|]. exists (set_parent_dev (Some k) x). split; [done|].
  split; [|split; [done|split; [done|split; [simpl; apply lookup_insert_eq|by split]]]].
  destruct Hinv1 as [[[Hrefs [Hl _]] Hfr Hnd Hcbs Hmsgs Hpipe Htr Hready] Hacc Hdom Hg Hlist Hpriv]. split; simpl; try done.
  - split; simpl; try done. apply hot_devices_ok; [apply eb_hotplug| |].
    + simpl. replace (list_refs (usb_devs s) ⊎ msg_refs (hotplug_msgs (ev s)) ⊎ L ⊎ ({[+ d +]} ⊎ C))
        with ({[+ d +]} ⊎ (list_refs (usb_devs s) ⊎ msg_refs (hotplug_msgs (ev s)) ⊎ L ⊎ C)) by multiset_solver.
      apply refs_set_parent; try done.
      replace ({[+ k +]} ⊎ ({[+ d +]} ⊎ (list_refs (usb_devs s) ⊎ msg_refs (hotplug_msgs (ev s)) ⊎ L ⊎ C)))
        with (list_refs (usb_devs s) ⊎ msg_refs (hotplug_msgs (ev s)) ⊎ L ⊎ ({[+ k +]} ⊎ ({[+ d +]} ⊎ C))) by multiset_solver. exact Hrefs.
    + simpl in *. rewrite Hl. unfold blocks. by rewrite (map_sum_update _ (<[k := _]> _) d x).
  - intros j Hj. simpl in *. apply lookup_insert_is_Some'. right. by apply Hdom.
  - intros j Hj. assert (j <> d) by by intros ->. simpl. rewrite lookup_insert_ne by done. by apply Hlist.
  - intros j z q Hj. destruct (Hpriv j z q Hj) as (HC & Hrest). assert (j <> d) as Hjd by (intros ->; congruence).
    rewrite lookup_insert_ne by done. split; [|done]. pose proof (fresh_private _ _ _ _ _ _ _ _ _ j Hf ltac:(by eexists)). multiset_solver.
Qed.
End inv.
