(* ===== verification/EnumScan.v ===== *)
(** * Enumerating devices in the Linux backend

    The rules for [linux_enumerate_device] and the walks around it: each
    keeps the invariant of EnumInv.v, and the recursion over parents ends. *)

From S2P Require Import Prelude Heap ParseDesc Config ConfigSafety DescApi ConfigTree DescProps Bos Core Text Log Devices DeviceRefs Hotplug HotplugLife LinuxState LinuxSys LinuxDesc LinuxEnum SysSpecs EnumSpecs EnumInv.

(** ** The depth of a name *)

Definition depth (dir : list Z) : nat := length (List.filter is_separator dir).

Lemma depth_app l1 l2 : depth (l1 ++ l2) = (depth l1 + depth l2)%nat.
Proof. unfold depth. by rewrite List.filter_app, length_app. Qed.

Lemma split_port_depth dir parent port : split_port dir = Some (parent, port) ->
  (depth (parent_dir parent) < depth dir)%nat /\ 0 <= port < 256.
Proof.
  unfold split_port. intros Hsplit.
  assert (exists b a c, dir = b ++ c :: a /\ is_separator c = true /\ parent = b /\ port = u8 (atoi a)) as (b & a & c & -> & Hc & -> & ->).
  { destruct (strrchr dir 46) as [[b a]|] eqn:H1; [injection Hsplit as <- <-; apply strrchr_spec in H1; by exists b, a, 46|].
    destruct (strrchr dir 45) as [[b a]|] eqn:H2; [injection Hsplit as <- <-; apply strrchr_spec in H2; by exists b, a, 45|done]. }
  split; [|apply u8_range]. rewrite depth_app. assert (depth (parent_dir b) = depth b) as ->.
  { unfold parent_dir. destruct (is_bus b); [|done]. by rewrite depth_app. }
  assert (depth (c :: a) = S (depth a)) as -> by (unfold depth; cbn [List.filter]; by rewrite Hc). lia.
Qed.

Lemma wp_bind_assoc {S A B C} (m : M S A) (f : A -> M S B) (k : B -> M S C) s (Q : C -> S -> Prop) :
  wp ((m ≫= f) ≫= k) s Q -> wp (m ≫= (fun a => f a ≫= k)) s Q.
Proof. unfold wp, mbind, M_bind. by destruct (m s) as [[a s']|]. Qed.

Section scan.
Context {K : Type} (sys : linux_sys K) (remaining : K -> Z -> Z) `{!FileLaws sys remaining}.
Context (big : bool) (junk : nat -> list Z) (Hjunk : junk_bytes junk) (be : os_backend (linux K)) (ready : bool) `{!EnumBackend be}.
Context (named : bool) (g : linux_globals).
Implicit Types (s : lib (linux K)) (w : linux K) (G F L C : gmultiset nat) (d k : nat) (x : device).
Implicit Type P : gmap nat (device * linux_device_priv).

Abbreviation inv := (scan_inv be ready named g).
Abbreviation fresh := (fresh_dev be ready named g).

(** What a scan may do. *)
Definition grows P G F L C s s' : Prop := inv P G F L C s' /\ usb_devs s ⊆ usb_devs s'.
Definition scan_ok (scan : list Z -> Lib (linux K) Z) (name : list Z) : Prop :=
  forall P G F L C s, inv P G F L C s -> wp (scan name) s (fun _ s' => grows P G F L C s s').

(** The device goes on being filled in, and its address stays good. *)
Definition fresh_post P G F L C d x p s s' : Prop :=
  exists x', fresh P G F L C d x' p s' /\ (well_addressed x -> well_addressed x') /\
    session_data x' = session_data x /\ usb_devs s ⊆ usb_devs s'.

Lemma same_place_addressed x x' : same_place x x' -> well_addressed x -> well_addressed x'.
Proof. intros (Hb & Ha & Hp & Hs). unfold well_addressed. by rewrite Hb, Ha, Hp, Hs. Qed.

(** The search for the parent, the second one after its enumeration. *)
Definition get_parent (scan : list Z -> Lib (linux K) Z) d (dir : list Z) : Lib (linux K) unit :=
  it ← find_parent d dir;
  match it with
  | Some _ => mret tt
  | None => scan dir ;; find_parent d dir ;; mret tt
  end.

Lemma get_parent_wp scan d dir P G F L C x p s :
  named = true -> scan_ok scan dir -> fresh P G F L C d x p s -> parent_dev x = None ->
  wp (get_parent scan d dir) s (fun _ s' => fresh_post P G F L C d x p s s').
Proof.
  intros Hnamed Hscan Hf Hpar. unfold get_parent. apply wp_bind. eapply wp_mono; [by apply (fresh_find_parent be ready named g P G F L C d x p)|].
  intros [k|] s1 [Hu1 H1].
  { destruct H1 as (x1 & Hplace & Hf1). apply wp_ret. exists x1. split; [done|]. split; [by apply same_place_addressed|].
    split; [by destruct Hplace as (_ & _ & _ & ->)|by rewrite Hu1]. }
  subst s1. destruct Hf as (Hinv & HPd & Hd & Hx & Hone & Hp).
  assert (inv (<[d := (x, p)]> P) G F L ({[+ d +]} ⊎ C) s) as Hpush by (apply scan_push; try done; multiset_solver).
  apply wp_bind. eapply wp_mono; [by apply Hscan|]. intros r s2 [Hinv2 Hsub2]. apply scan_pop in Hinv2 as [Hinv2 Hf2]; [|done].
  assert (fresh P G F L C d x p s2) as Hfresh2 by done. clear Hf2.
  apply wp_bind. eapply wp_mono; [by apply (fresh_find_parent be ready named g P G F L C d x p)|].
  intros [k|] s3 [Hu3 H3]; apply wp_ret.
  - destruct H3 as (x3 & Hplace & Hf3). exists x3. split; [done|]. split; [by apply same_place_addressed|].
    split; [by destruct Hplace as (_ & _ & _ & ->)|by rewrite Hu3].
  - subst s3. by exists x.
Qed.

(** From the search on, with the block of the parent's name. *)
Lemma parent_block_wp scan d dir b P G F L C x p s :
  named = true -> scan_ok scan dir -> fresh P ({[+ b +]} ⊎ G) F L C d x p s -> parent_dev x = None ->
  wp (get_parent scan d dir ;; on_world (on_lx_mem (free (Some b))) ;; mret LIBUSB_SUCCESS) s (fun _ s' => fresh_post P G F L C d x p s s').
Proof.
  intros Hnamed Hscan Hf Hpar. apply wp_bind. eapply wp_mono; [by apply (get_parent_wp scan d dir P ({[+ b +]} ⊎ G) F L C x p)|].
  intros [] s1 (x1 & Hf1 & Haddr1 & Hsid1 & Hsub1). apply wp_bind. eapply fresh_free; [exact Hf1|]. intros s2 Hf2 Hu2. apply wp_ret.
  exists x1. by rewrite Hu2.
Qed.

Lemma get_parent_info_wp scan d dir P G F L C x p s :
  (is_Some dir -> named = true) ->
  (forall name parent port, dir = Some name -> split_port name = Some (parent, port) -> scan_ok scan (parent_dir parent)) ->
  fresh P G F L C d x p s -> parent_dev x = None ->
  wp (linux_get_parent_info scan d dir) s (fun _ s' => fresh_post P G F L C d x p s s').
Proof.
  intros Hnamed Hscan Hf Hpar. assert (fresh_post P G F L C d x p s s) as Hdone by by exists x.
  destruct dir as [dir|]; cbn [linux_get_parent_info]; [|by apply wp_ret]. specialize (Hnamed ltac:(done)).
  destruct (has_prefix _ dir); [by apply wp_ret|]. apply wp_bind. eapply fresh_malloc; [exact Hf|]. intros b s1 Hf1 Hu1.
  assert (forall s', fresh P G F L C d x p s' -> usb_devs s' = usb_devs s -> fresh_post P G F L C d x p s s') as Hback.
  { intros s' Hf' Hu'. exists x. by rewrite Hu'. }
  destruct b as [b|]; simpl own in Hf1; rewrite ?(left_id_L ∅ (⊎)) in Hf1; [|by apply wp_ret, Hback].
  destruct (split_port dir) as [[parent port]|] eqn:Hsplit.
  2:{ apply wp_bind. eapply fresh_free; [exact Hf1|]. intros s2 Hf2 Hu2. apply wp_ret, Hback; congruence. }
  destruct (split_port_depth _ _ _ Hsplit) as [_ Hport]. apply wp_bind. eapply fresh_upd; [done|exact Hf1|done|done|]. intros s2 Hf2 Hu2.
  set (x2 := set_port_number port x) in *.
  assert (well_addressed x -> well_addressed x2) as Haddr2 by (unfold well_addressed; simpl; tauto).
  assert (forall s', fresh_post P G F L C d x2 p s2 s' -> fresh_post P G F L C d x p s s') as Hlift.
  { intros s' (x' & Hf' & Haddr' & Hsid' & Hsub'). exists x'. split; [done|]. split; [tauto|]. split; [done|]. by rewrite <- Hu1, <- Hu2. }
  apply wp_bind. eapply (wp_mono _ _ (fun b' s' => fresh P (own b' ⊎ G) F L C d x2 p s' /\ usb_devs s' = usb_devs s2)).
  { destruct (is_bus parent); [|by apply wp_ret]. apply wp_bind. eapply fresh_malloc; [exact Hf2|]. intros b' s3 Hf3 Hu3.
    apply wp_bind. eapply fresh_free; [rewrite (disj_union_swap (own b')) in Hf3; exact Hf3|].
    intros s4 Hf4 Hu4. apply wp_ret. split; [done|congruence]. }
  intros [b'|] s3 [Hf3 Hu3]; simpl own in Hf3; rewrite ?(left_id_L ∅ (⊎)) in Hf3.
  2:{ apply wp_ret, Hlift. exists x2. by rewrite Hu3. }
  eapply wp_mono with (P := fun _ s' => fresh_post P G F L C d x2 p s3 s').
  - apply wp_bind_assoc, (parent_block_wp scan d (parent_dir parent) b' P G F L C x2 p s3); [done|by eapply Hscan|done|done].
  - intros _ s' Hpost. apply Hlift. destruct Hpost as (x' & ? & ? & ? & ?). exists x'. rewrite <- Hu3. done.
Qed.

(** ** A new device *)

(** The device descriptor is copied out of the cache; nothing else changes. *)
Lemma sanitize_eq d desc num h w : filled (dpriv w d) -> length desc = 18%nat ->
  exists r desc' num', DescApi.usbi_sanitize_device (linux_desc_backend sys big d) big desc num (mk_ds h w)
    = Ok ((r, desc', num'), mk_ds h w).
Proof.
  intros ((b & bytes & Hdesc & _ & Hlen) & H18) Hl. unfold DEVICE_DESC_LENGTH in H18.
  assert (op_get_device_descriptor d desc false w =
    Ok ((0, take 18 bytes ++ drop 18 desc, sysfs_has_descriptors (lx_globals w) =? 0), w)) as Hop.
  { unfold op_get_device_descriptor, dpriv_of, globals, gets, lift, mbind, M_bind. fold (dpriv w d).
    unfold descriptors_of. rewrite Hdesc. unfold copy_to, rd_n, store, DEVICE_DESC_LENGTH. change (Z.to_nat 18) with 18%nat.
    rewrite decide_True by lia. cbn [mbind outcome_bind]. rewrite length_take. rewrite decide_True by lia.
    by replace (18 `min` length bytes)%nat with 18%nat by lia. }
  unfold DescApi.usbi_sanitize_device, usbi_device_cache_descriptor, call, mbind, M_bind. cbn [get_device_descriptor linux_desc_backend ds_world].
  rewrite Hop. change (0 <? 0) with false. cbn iota.
  destruct (negb (sysfs_has_descriptors (lx_globals w) =? 0)); unfold mret, M_ret; cbv beta iota; change (LIBUSB_SUCCESS <? 0) with false; cbn iota;
    destruct (USB_MAXCONFIG <? _); eexists _, _, _; reflexivity.
Qed.

Lemma sanitize_wp d P G F L C x p s : fresh P G F L C d x p s -> filled p -> length (device_descriptor x) = 18%nat ->
  wp (sanitize sys big d) s (fun _ s' => exists x', fresh P G F L C d x' p s' /\ same_place x x' /\
    parent_dev x' = parent_dev x /\ usb_devs s' = usb_devs s).
Proof.
  intros Hf Hfilled Hl. pose proof Hf as (Hinv & HPd & Hd & Hx & Hone & Hp). unfold sanitize.
  apply wp_bind, (wp_get_device _ x); [done|]. assert (dpriv (world s) d = p) as Hpriv by (unfold dpriv; by rewrite Hp).
  edestruct (sanitize_eq d (device_descriptor x) (num_configurations x) (mem s) (world s)) as (r & desc & num & Heq); [by rewrite Hpriv|done|].
  apply wp_bind. unfold wp at 1, on_dstate. rewrite Heq. cbn [ds_world ds_heap]. replace (set_world _ _) with s by by destruct s.
  apply wp_bind. eapply fresh_upd; [done|exact Hf|done|done|]. intros s' Hf' Hu'. apply wp_ret. by eexists.
Qed.

Lemma filled_private d w : filled (dpriv w d) -> lx_dpriv w !! d = Some (dpriv w d).
Proof. intros ((b & bytes & Hdesc & _) & _). unfold dpriv in *. by destruct (lx_dpriv w !! d). Qed.

(** A device that may be connected, if [r] says so. *)
Definition probe_post P G F L C d sid s (r : Z) s' : Prop :=
  inv P G F L ({[+ d +]} ⊎ C) s' /\ (d ∉ usb_devs s') /\ usb_devs s ⊆ usb_devs s' /\
  (0 <= r -> exists x p, devices s' !! d = Some x /\ lx_dpriv (world s') !! d = Some p /\ good_device named x p /\ session_data x = sid).

(** The mode of the system: names with sysfs, or only device nodes. *)
Definition mode_ok (dir : option (list Z)) : Prop :=
  named = bool_decide (is_Some dir) /\ is_Some (usbfs_path g) /\ (dir = None -> sysfs_has_descriptors g = 0).

Lemma probe_wp scan dir busnum devaddr d P G F L C x s :
  mode_ok dir -> 0 <= busnum < 256 -> 0 <= devaddr < 256 ->
  (forall name parent port, dir = Some name -> split_port name = Some (parent, port) -> scan_ok scan (parent_dir parent)) ->
  inv P G F L ({[+ d +]} ⊎ C) s -> P !! d = None -> d ∉ usb_devs s -> lx_dpriv (world s) !! d = None ->
  devices s !! d = Some x -> refcnt x = 1 -> parent_dev x = None -> port_number x = 0 -> length (device_descriptor x) = 18%nat ->
  session_data x = linux_session_id busnum devaddr ->
  wp (linux_probe sys big junk scan dir d busnum devaddr) s (probe_post P G F L C d (linux_session_id busnum devaddr) s).
Proof.
  intros (Hnamed & Hpath & Hhas) Hbus Haddr Hscan Hinv HPd Hd Hnew Hx Hone Hpar Hport Hl Hsid. unfold linux_probe. apply wp_bind.
  rewrite (filling_start d x s Hx) at 1. pose proof (si_globals _ _ _ _ _ _ _ _ _ _ Hinv) as Hg.
  eapply wp_mono; [apply (initialize_device_wp sys remaining big junk Hjunk d busnum devaddr dir x (world s) s G)|].
  - apply Hinv.
  - unfold dpriv. by rewrite Hnew.
  - by rewrite Hg.
  - rewrite Hg. destruct dir as [dir|]; [by eexists|]. intros Hh. by specialize (Hhas eq_refl).
  - intros r s1 (x1 & w1 & -> & (Hr1 & Hp1 & Hs1 & Hn1 & Hd1) & Hacc1 & Honly1 & Hb1 & Ha1 & Hf1).
    assert (inv P G F L ({[+ d +]} ⊎ C) (filling d x1 w1 s)) as Hinv1 by by apply (scan_filling be ready named g P G G F L _ d x).
    destruct (Z.ltb_spec r 0) as [|Hr]; [apply wp_ret; split; [done|]; split; [done|]; split; [done|]; lia|].
    destruct (Hf1 Hr) as [Hfilled Hname]. pose proof (filled_private d w1 Hfilled) as Hp. set (p := dpriv w1 d) in *.
    assert (fresh P G F L C d x1 p (filling d x1 w1 s)) as Hfresh1.
    { split; [done|]. split; [done|]. split; [done|]. split; [simpl; apply lookup_insert_eq|]. split; [by rewrite Hr1|done]. }
    assert (well_addressed x1) as Hwell1 by (unfold well_addressed; rewrite Hb1, Ha1, Hn1, Hs1, Hport; split_and!; done || lia).
    apply wp_bind. eapply wp_mono; [apply (sanitize_wp d P G F L C x1 p); [done|done|by rewrite Hd1]|].
    intros r2 s2 (x2 & Hfresh2 & Hplace2 & Hpar2 & Hu2).
    destruct (Z.ltb_spec r2 0); [apply wp_ret; destruct Hfresh2 as (? & _ & ? & _); split; [done|]; split; [done|]; split; [by rewrite Hu2|]; lia|].
    eapply wp_mono; [apply (get_parent_info_wp scan d dir P G F L C x2 p s2); [|done|done|congruence]|].
    { intros Hdir. rewrite Hnamed. by apply bool_decide_eq_true. }
    intros r3 s3 (x3 & Hfresh3 & Hwell3 & Hsid3 & Hsub3). destruct Hfresh3 as (Hinv3 & _ & Hd3 & Hx3 & _ & Hp3).
    split; [done|]. split; [done|]. split; [by rewrite Hu2 in Hsub3|]. intros _. exists x3, p. split; [done|]. split; [done|].
    split; [|destruct Hplace2 as (_ & _ & _ & Hs2); congruence]. split; [by apply Hwell3, (same_place_addressed x1 x2)|]. split; [done|].
    intros Ht. apply Hname, (bool_decide_eq_true (is_Some dir)). congruence.
Qed.

(** ** Enumerating a device *)

Definition listed (sid : Z) s : Prop :=
  exists d x, d ∈ usb_devs s /\ devices s !! d = Some x /\ session_data x = sid.

Lemma new_device P G F L C s : inv P G F L C s -> devices s !! next (mem s) = None.
Proof.
  intros Hinv. destruct (devices s !! next (mem s)) as [x|] eqn:Hx; [|done]. exfalso.
  pose proof (si_hot _ _ _ _ _ _ _ _ _ _ Hinv) as Hhot. destruct (hot_devices _ _ _ _ _ _ Hhot) as (_ & Hl & _).
  enough (next (mem s) ∈ live (mem s)) as Hin by (apply (hot_fresh _ _ _ _ _ _ Hhot) in Hin; lia).
  rewrite Hl. apply gmultiset_elem_of_disj_union. left. eapply map_sum_elem; [exact Hx|]. by apply gmultiset_elem_of_singleton.
Qed.

Lemma scan_connect_wp d P G F L C x p s :
  inv P G F L ({[+ d +]} ⊎ C) s -> P !! d = None -> d ∉ usb_devs s ->
  devices s !! d = Some x -> lx_dpriv (world s) !! d = Some p -> good_device named x p ->
  wp (usbi_connect_device be d) s (fun _ s' => grows P G F L C s s' /\ listed (session_data x) s').
Proof.
  intros [Hhot Hacc Hdom Hg Hlist Hpriv] HPd Hd Hx Hp Hgood.
  eapply wp_mono; [apply wp_wlp; [by apply (hot_connect_wp be ready eb_hotplug F L C)|apply connect_frame]|].
  intros [] s' [[Hhot' _] (x0 & Hx0 & Hdevs & Husb & Hw)]. simplify_eq. split; [split|].
  - split; unfold priv_dom; rewrite ?Hw, ?Hdevs, ?Husb; try done.
    + intros k Hk. apply lookup_insert_is_Some'. right. by apply Hdom.
    + intros k Hk. apply elem_of_cons in Hk as [->|Hk].
      * rewrite lookup_insert_eq. exists (set_attached true x), p. split; [done|]. split; [done|].
        destruct Hgood as [Hwell Hrest]. by split.
      * assert (k <> d) as Hne by by intros ->. rewrite lookup_insert_ne by done. by apply Hlist.
    + intros k y q Hk. assert (k <> d) by (intros ->; congruence). rewrite lookup_insert_ne by done.
      destruct (Hpriv k y q Hk) as (HC & Hus & Hrest). split; [multiset_solver|]. split; [set_solver|done].
  - rewrite Husb. set_solver.
  - exists d, (set_attached true x). rewrite Husb, Hdevs, lookup_insert_eq. split; [set_solver|done].
Qed.

(** What [linux_enumerate_device] promises, and what it asks of the numbers. *)
Definition enum_post P G F L C busnum devaddr s (r : Z) s' : Prop :=
  grows P G F L C s s' /\ (0 <= r -> listed (linux_session_id busnum devaddr) s').

Lemma known_device_wp d x P G F L C s :
  inv P G F L C s -> d ∈ usb_devs s -> devices s !! d = Some x ->
  wp (libusb_unref_device be (Some d)) (ref_state d x s) (fun _ s' =>
    grows P G F L C s s' /\ listed (session_data x) s').
Proof.
  intros Hinv Hd Hx. eapply wp_mono; [apply (scan_unref_wp be ready named g P G F L C d)|].
  - by apply scan_ref.
  - intros k [[y q] Hk]. by destruct (si_private _ _ _ _ _ _ _ _ _ _ Hinv k y q Hk).
  - intros [] s' (Hinv' & Husb & Honly). split; [split; [done|by rewrite Husb]|].
    destruct (hot_inv_elem be ready eb_hotplug F L C s' d (si_hot _ _ _ _ _ _ _ _ _ _ Hinv')) as [x' Hx']; [left; by rewrite Husb|].
    exists d, x'. split; [by rewrite Husb|]. split; [done|]. destruct (Honly d x' Hx') as (x0 & Hx0 & ->). simpl in *.
    rewrite lookup_insert_eq in Hx0. by injection Hx0 as <-.
Qed.

Lemma alloc_wp sid P G F L C s : inv P G F L C s ->
  wp (usbi_alloc_device be sid) s (fun r s' => usb_devs s' = usb_devs s /\
    match r with
    | None => inv P G F L C s'
    | Some d => inv P G F L ({[+ d +]} ⊎ C) s' /\ P !! d = None /\ (d ∉ usb_devs s') /\ lx_dpriv (world s') !! d = None /\
        devices s' !! d = Some (mk_device 1 0 0 None 0 0 LIBUSB_SPEED_UNKNOWN sid (replicate 18 0) false)
    end).
Proof.
  intros Hinv. pose proof (new_device _ _ _ _ _ _ Hinv) as Hnew. destruct Hinv as [Hhot Hacc Hdom Hg Hlist Hpriv].
  assert (lx_dpriv (world s) !! next (mem s) = None) as Hnewp.
  { destruct (lx_dpriv (world s) !! next (mem s)) eqn:Hp; [|done]. destruct (Hdom (next (mem s))); [by eexists|congruence]. }
  eapply wp_mono; [apply wp_wlp; [by apply (hot_alloc_wp be ready eb_hotplug F L C)|by apply alloc_frame]|].
  intros [d|] s' [[_ Hhot'] (Husb & [k Hk] & Hdev)]; (split; [done|]).
  - destruct Hhot' as [Hhot' Hd], Hdev as [-> Hdev]. rewrite Hdev, lookup_insert_eq, Hk.
    assert (P !! next (mem s) = None) as HPd.
    { destruct (P !! next (mem s)) as [[y q]|] eqn:HP; [|done]. destruct (Hpriv _ y q HP) as (_ & _ & Hy & _). congruence. }
    split; [|done]. split; unfold priv_dom; rewrite ?Hk, ?Hdev, ?Husb; try done.
    + intros j Hj. apply lookup_insert_is_Some'. right. by apply Hdom.
    + intros j Hj. assert (j <> next (mem s)). { intros ->. destruct (Hlist _ Hj) as (y & q & Hy & _). congruence. }
      rewrite lookup_insert_ne by done. by apply Hlist.
    + intros j y q Hj. assert (j <> next (mem s)) by (intros ->; congruence). rewrite lookup_insert_ne by done.
      destruct (Hpriv j y q Hj) as (HC & Hrest). split; [multiset_solver|done].
  - split; unfold priv_dom; rewrite ?Hk, ?Hdev, ?Husb; done.
Qed.

Lemma session_wp sid P G F L C s : inv P G F L C s ->
  wp (usbi_get_device_by_session_id sid) s (fun r s' =>
    match r with
    | None => s' = s
    | Some d => d ∈ usb_devs s /\ exists x, devices s !! d = Some x /\ session_data x = sid /\ s' = ref_state d x s
    end).
Proof.
  intros Hinv. pose proof (hot_session_wp be ready eb_hotplug F L C sid s (si_hot _ _ _ _ _ _ _ _ _ _ Hinv)) as Hsession.
  assert (wlp (usbi_get_device_by_session_id sid) s (fun r s' =>
    match r with
    | None => s' = s
    | Some d => d ∈ usb_devs s /\ exists x, devices s !! d = Some x /\ session_data x = sid /\ s' = ref_state d x s
    end)) as Hframe by (apply wlp_bind; intros l s0 [= <- <-]; by apply (find_session_frame be)).
  eapply wp_mono; [exact (wp_wlp _ _ _ _ Hsession Hframe)|]. by intros r s' [_ ?].
Qed.

Lemma enumerate_wp scan dir busnum devaddr P G F L C s :
  mode_ok dir -> 0 <= busnum < 256 -> 0 <= devaddr < 256 ->
  (forall name parent port, dir = Some name -> split_port name = Some (parent, port) -> scan_ok scan (parent_dir parent)) ->
  inv P G F L C s ->
  wp (linux_enumerate_device be (linux_probe sys big junk scan dir) busnum devaddr) s (enum_post P G F L C busnum devaddr s).
Proof.
  intros Hmode Hbus Haddr Hscan Hinv. unfold linux_enumerate_device. apply wp_bind.
  eapply wp_mono; [by apply (session_wp _ P G F L C)|].
  intros [d|] s1.
  { intros (Hd & x & Hx & Hsid & ->). apply wp_bind. eapply wp_mono; [by apply (known_device_wp d x P G F L C)|].
    intros [] s' [Hgrows Hl]. apply wp_ret. split; [done|]. intros _. by rewrite <- Hsid. }
  intros ->. apply wp_bind. eapply wp_mono; [by apply (alloc_wp _ P G F L C)|].
  intros [d|] s1 [Husb1 H1].
  2:{ apply wp_ret. split; [split; [done|by rewrite Husb1]|]. unfold LIBUSB_ERROR_NO_MEM. lia. }
  destruct H1 as (Hinv1 & HPd & Hd1 & Hnewp & Hx1).
  apply wp_bind. eapply wp_mono; [by eapply (probe_wp scan dir busnum devaddr d P G F L C)|].
  intros r s2 (Hinv2 & Hd2 & Hsub2 & Hgood). rewrite Husb1 in Hsub2. apply wp_bind. destruct (Z.ltb_spec r 0) as [|Hr].
  - eapply wp_mono; [apply (scan_unref_wp be ready named g P G F L C d); [done|]|].
    { intros k [[y q] Hk]. destruct (si_private _ _ _ _ _ _ _ _ _ _ Hinv2 k y q Hk) as [HC _].
      assert (k <> d) by (intros ->; congruence). multiset_solver. }
    intros [] s' (Hinv' & Husb & _). apply wp_ret. split; [split; [done|by rewrite Husb]|lia].
  - destruct (Hgood Hr) as (x & p & Hx & Hp & Hgx & Hsid).
    eapply wp_mono; [by apply (scan_connect_wp d P G F L C x p)|]. intros [] s' [[Hinv' Hsub] Hl]. apply wp_ret.
    split; [split; [done|by etrans]|]. intros _. by rewrite <- Hsid.
Qed.
End scan.
