(* ===== verification/EnumWalk.v ===== *)
(** * The walks through sysfs and usbfs

    The recursion over parents of the Linux backend ends, and the walks over
    the names that the system lists keep the invariant of EnumInv.v. *)

From S2P Require Import Prelude Heap ParseDesc Config ConfigSafety DescApi ConfigTree DescProps Bos Core Text Log Devices DeviceRefs Hotplug HotplugLife LinuxState LinuxSys LinuxDesc LinuxEnum SysSpecs EnumSpecs EnumInv EnumScan.

Section walk.
Context {K : Type} (sys : linux_sys K) (remaining : K -> Z -> Z) `{!FileLaws sys remaining}.
Context (big : bool) (junk : nat -> list Z) (Hjunk : junk_bytes junk) (be : os_backend (linux K)) (ready : bool) `{!EnumBackend be}.
Context (g : linux_globals).
Implicit Types (s : lib (linux K)) (w : linux K) (G F L C : gmultiset nat) (d k : nat) (x : device).
Implicit Type P : gmap nat (device * linux_device_priv).

(** [named]: whether devices have names, which depends on the monitor.
    Without names the descriptors are not in sysfs, and there is always a
    place for nodes. *)
Variable named : bool.
Definition system_ok : Prop := is_Some (usbfs_path g) /\ (named = false -> sysfs_has_descriptors g = 0).
Hypothesis Hsystem : system_ok.

Abbreviation inv := (scan_inv be ready named g).
Abbreviation grows := (EnumScan.grows be ready named g).

Lemma grows_trans P G F L C s1 s2 s3 : grows P G F L C s1 s2 -> grows P G F L C s2 s3 -> grows P G F L C s1 s3.
Proof. intros [_ H1] [Hinv H2]. split; [done|by etrans]. Qed.

Lemma mode_some dir : named = true -> mode_ok named g (Some dir).
Proof. intros Hn. destruct Hsystem as [Hpath _]. rewrite Hn. split; [done|]. by split. Qed.
Lemma mode_none : named = false -> mode_ok named g None.
Proof. intros Hn. destruct Hsystem as [Hpath Hhas]. rewrite Hn. split; [done|]. split; [done|]. intros _. by apply Hhas. Qed.

Lemma mode_of dir : named = bool_decide (is_Some dir) -> mode_ok named g dir.
Proof. intros Hn. destruct dir as [dir|]; [by apply mode_some|by apply mode_none]. Qed.

(** A system call changes none of this. *)
Lemma scan_world P G F L C w s : same_private (world s) w -> inv P G F L C s -> inv P G F L C (set_world w s).
Proof. intros [k ->] [Hhot Hacc Hdom Hg Hlist Hpriv]. split; try done. by destruct Hhot as [[? []]]. Qed.
Lemma scan_sys {A} (m : M (linux K) A) P G F L C s (Q : A -> lib (linux K) -> Prop) :
  inv P G F L C s -> wp m (world s) (fun a w => same_private (world s) w /\ forall s', grows P G F L C s s' -> Q a s') ->
  wp (on_world m) s Q.
Proof.
  intros Hinv Hm. apply wp_run_world. eapply wp_mono; [exact Hm|]. intros a w [Hw HQ]. apply HQ. split; [by apply scan_world|done].
Qed.
Lemma scan_entries path P G F L C s (Q : option (list (list Z)) -> lib (linux K) -> Prop) :
  inv P G F L C s -> (forall e s', grows P G F L C s s' -> Q e s') -> wp (on_world (sys_call (sys_entries sys path))) s Q.
Proof. intros Hinv HQ. eapply scan_sys; [exact Hinv|]. apply sys_call_wp. by auto. Qed.
Lemma scan_globals P G F L C s (Q : linux_globals -> lib (linux K) -> Prop) :
  inv P G F L C s -> Q g s -> wp (on_world globals) s Q.
Proof.
  intros Hinv HQ. unfold globals. apply wp_run_world, wp_gets. rewrite (si_globals _ _ _ _ _ _ _ _ _ _ Hinv).
  by replace (set_world (world s) s) with s by by destruct s.
Qed.

(** ** The recursion *)

Lemma sysfs_scan_wp fuel name : named = true -> (depth name < fuel)%nat ->
  scan_ok be ready named g (sysfs_scan_device sys big junk be fuel) name.
Proof.
  intros Hnamed. revert name. induction fuel as [|fuel IH]; intros name Hfuel P G F L C s Hinv; [lia|]. cbn [sysfs_scan_device].
  apply wp_bind. eapply scan_sys; [exact Hinv|]. eapply wp_mono; [apply get_device_address_wp; lia|].
  intros [[r b] a] w [Hw Hnum]. split; [done|]. intros s1 [Hinv1 Hsub1].
  destruct (Z.eqb_spec r LIBUSB_SUCCESS) as [Hr|]; cbn [negb]; [|by apply wp_ret]. destruct (Hnum Hr) as [Hb Ha].
  eapply wp_mono; [eapply (enumerate_wp sys remaining big junk Hjunk be ready named g _ (Some name) b a P G F L C); [by apply mode_some|done|done| |done]|].
  - intros n parent port [= <-] [Hd _]%split_port_depth. apply IH. lia.
  - intros r1 s2 [Hgrows _]. by eapply grows_trans.
Qed.

(** [linux_enumerate_device] as the walks and the monitor call it. *)
Lemma linux_enumerate_wp busnum devaddr dir P G F L C s :
  mode_ok named g dir -> 0 <= busnum < 256 -> 0 <= devaddr < 256 -> inv P G F L C s ->
  wp (linux_enumerate sys big junk be busnum devaddr dir) s (enum_post be ready named g P G F L C busnum devaddr s).
Proof.
  intros Hmode Hb Ha Hinv. unfold linux_enumerate. eapply enumerate_wp; try done.
  intros name parent port -> [Hd _]%split_port_depth. destruct Hmode as [Hn _]. apply sysfs_scan_wp; [done|].
  unfold scan_fuel. fold (depth name). lia.
Qed.

(** ** The walks *)

Definition walk_ok {A} (m : Lib (linux K) A) : Prop :=
  forall P G F L C s, inv P G F L C s -> wp m s (fun _ s' => grows P G F L C s s').

Lemma walk_ret {A} (a : A) : walk_ok (mret a).
Proof. intros P G F L C s Hinv. by apply wp_ret. Qed.
Lemma walk_bind {A B} (m : Lib (linux K) A) (f : A -> Lib (linux K) B) : walk_ok m -> (forall a, walk_ok (f a)) -> walk_ok (m ≫= f).
Proof.
  intros Hm Hf P G F L C s Hinv. apply wp_bind. eapply wp_mono; [by apply Hm|]. intros a s1 [Hinv1 Hsub1].
  eapply wp_mono; [by apply Hf|]. intros b s2 Hgrows. by eapply grows_trans.
Qed.
Lemma walk_globals {A} (f : linux_globals -> Lib (linux K) A) : walk_ok (f g) -> walk_ok (g0 ← on_world globals; f g0).
Proof. intros Hf P G F L C s Hinv. apply wp_bind. eapply scan_globals; [done|]. by apply Hf. Qed.
Lemma walk_entries path : walk_ok (on_world (sys_call (sys_entries sys path))).
Proof. intros P G F L C s Hinv. by eapply scan_entries. Qed.
Lemma walk_usbfs_path {A} (f : list Z -> Lib (linux K) A) :
  (forall dir, walk_ok (f dir)) -> walk_ok (dir ← on_world (text_of (usbfs_path g)); f dir).
Proof.
  intros Hf. apply walk_bind; [|done]. intros P G F L C s Hinv. eapply scan_sys; [exact Hinv|]. destruct Hsystem as [Hpath _].
  by apply text_of_wp.
Qed.
Lemma walk_enumerate busnum devaddr dir : mode_ok named g dir -> 0 <= busnum < 256 -> 0 <= devaddr < 256 ->
  walk_ok (linux_enumerate sys big junk be busnum devaddr dir).
Proof. intros Hmode Hb Ha P G F L C s Hinv. eapply wp_mono; [by apply linux_enumerate_wp|]. by intros r s' [? _]. Qed.

(** The walks without udev: devices have names if sysfs relates devices to
    nodes. *)
Lemma sysfs_loop_ok names r : named = true -> walk_ok (sysfs_list_loop sys big junk be names r).
Proof.
  intros Hnamed. revert r. induction names as [|name names IH]; intros r; cbn [sysfs_list_loop]; [apply walk_ret|].
  destruct (negb _); [apply IH|]. apply walk_bind; [|intros e; apply IH]. intros P G F L C s Hinv.
  apply sysfs_scan_wp; [done| |done]. unfold scan_fuel. fold (depth name). lia.
Qed.
Lemma busdir_loop_ok busnum names r : named = false -> 0 <= busnum < 256 -> walk_ok (scan_busdir_loop sys big junk be busnum names r).
Proof.
  intros Hnamed Hb. revert r. induction names as [|name names IH]; intros r; cbn [scan_busdir_loop]; [apply walk_ret|].
  destruct (_ || _); [apply IH|]. apply walk_bind; [|intros e; apply IH]. apply walk_enumerate; [by apply mode_none|done|apply u8_range].
Qed.
Lemma usbfs_loop_ok names r : named = false -> walk_ok (usbfs_list_loop sys big junk be names r).
Proof.
  intros Hnamed. revert r. induction names as [|name names IH]; intros r; cbn [usbfs_list_loop]; [apply walk_ret|].
  destruct (starts_with_dot name); [apply IH|]. apply walk_globals. destruct (usbdev_names g).
  - destruct (_is_usbdev_entry name) as [[b a]|]; [|apply IH].
    apply walk_bind; [apply walk_enumerate; [by apply mode_none|apply u8_range|apply u8_range]|]. intros e. apply IH.
  - destruct (atoi name =? 0); [apply IH|]. apply walk_bind.
    + unfold usbfs_scan_busdir. apply walk_globals, walk_usbfs_path. intros dir. apply walk_bind; [apply walk_entries|].
      intros [l|]; [|apply walk_ret]. apply busdir_loop_ok; [done|apply u8_range].
    + intros e. destruct (e <? 0); [apply walk_ret|apply IH].
Qed.

Lemma default_scan_ok : named = negb (sysfs_can_relate_devices g =? 0) -> walk_ok (linux_default_scan_devices sys big junk be).
Proof.
  intros Hn. unfold linux_default_scan_devices. apply walk_globals. destruct (negb (sysfs_can_relate_devices g =? 0)).
  - unfold sysfs_get_device_list. apply walk_bind; [apply walk_entries|]. intros [l|]; [|apply walk_ret]. by apply sysfs_loop_ok.
  - unfold usbfs_get_device_list. apply walk_globals, walk_usbfs_path. intros dir. apply walk_bind; [apply walk_entries|].
    intros [l|]; [|apply walk_ret]. by apply usbfs_loop_ok.
Qed.
End walk.
