(* ===== verification/EnumSteps.v ===== *)
(** * Relations that enumeration keeps

    What holds between the states before and after every step of enumeration
    holds between its start and its end: shown once, along the structure of
    the operations, for every relation of this kind. *)

From S2P Require Import Prelude Keeps Heap ParseDesc Config ConfigSafety DescApi ConfigTree Bos Core Text Log Devices DeviceRefs LibSteps Hotplug Transfers Events EventPipe HotplugLife LinuxState LinuxSys LinuxDesc LinuxEnum SysSpecs EnumSpecs EnumInv EnumScan.

(** ** Enumeration *)

Lemma step_disconnected {K : Type} (be : os_backend (linux K)) (R : lib (linux K) -> lib (linux K) -> Prop)
    {HR : StepRelation R} {HB : BackendSteps be R} busnum devaddr : keeps R (linux_device_disconnected be busnum devaddr).
Proof. unfold linux_device_disconnected. keeps; first [by apply step_session|by apply step_disconnect|by apply step_unref]. Qed.

(** What it allows in the Linux backend: system calls that read, memory, and
    filling in a device. *)
Class EnumSteps {K : Type} (sys : linux_sys K) (big : bool) (junk : nat -> list Z) (be : os_backend (linux K))
    (R : lib (linux K) -> lib (linux K) -> Prop) : Prop := {
  es_steps :: StepRelation R;
  es_backend :: BackendSteps be R;
  es_entries path : keeps (world_rel R) (sys_call (sys_entries sys path));
  es_text path : keeps (world_rel R) (sys_call (sys_text sys path));
  es_mem {A} (m : M heap A) : keeps (world_rel R) (on_lx_mem m);
  es_initialize d busnum devaddr dir : keeps R (initialize_device sys big junk d busnum devaddr dir)
}.

Section enumeration.
Context {K : Type} (sys : linux_sys K) (big : bool) (junk : nat -> list Z) (be : os_backend (linux K)).
Context (R : lib (linux K) -> lib (linux K) -> Prop) {HR : EnumSteps sys big junk be R}.
#[local] Hint Extern 0 (StepRelation _) => typeclasses eauto : core.
#[local] Hint Extern 0 (BackendSteps _ _) => typeclasses eauto : core.

Lemma step_text_of {A} (p : option A) : keeps (world_rel R) (text_of p).
Proof. unfold text_of. keeps. Qed.
Lemma step_read_attr name attr : keeps (world_rel R) (__read_sysfs_attr sys name attr).
Proof. unfold __read_sysfs_attr. keeps. apply es_text. Qed.
Lemma step_address detached busnum devaddr node name :
  keeps (world_rel R) (linux_get_device_address sys detached busnum devaddr node name).
Proof. unfold linux_get_device_address, globals. keeps; apply step_read_attr. Qed.
Lemma step_globals : keeps R (on_world globals).
Proof. apply step_on_world. unfold globals. keeps. Qed.
Lemma step_world_mem {A} (m : M heap A) : keeps R (on_world (on_lx_mem m)).
Proof. apply step_on_world, es_mem. Qed.

(** The device descriptor is copied from the cache. *)
Lemma step_sanitize d : keeps R (sanitize sys big d).
Proof.
  unfold sanitize. keeps; [by apply step_get_device| |by apply step_upd_device]. intros s b s' Hrun. unfold on_dstate in Hrun.
  destruct (DescApi.usbi_sanitize_device _ _ _ _ _) as [[c ds]|] eqn:Hs; [|done]. injection Hrun as _ <-.
  enough (ds = mk_ds (mem s) (world s)) as -> by (simpl; destruct s; reflexivity). symmetry.
  assert (forall x desc num, keeps eq (DescApi.usbi_sanitize_device (linux_desc_backend sys big x) big desc num)) as Hkeeps; [|exact (Hkeeps _ _ _ _ _ _ Hs)].
  intros x desc num. unfold DescApi.usbi_sanitize_device, usbi_device_cache_descriptor. keeps. intros ds0 r ds1 Hrun. unfold call in Hrun.
  destruct (get_device_descriptor _ _ _ _) as [[r0 w]|] eqn:Hop; [|done]. injection Hrun as _ <-.
  enough (ds_world ds0 = w) as <- by by destruct ds0.
  assert (forall buffer e, keeps eq (op_get_device_descriptor (K := K) x buffer e)) as Hget by (intros; unfold op_get_device_descriptor, dpriv_of, globals; keeps).
  exact (Hget desc false _ _ _ Hop).
Qed.
Lemma step_find_parent d dir : keeps R (find_parent (K := K) d dir).
Proof.
  unfold find_parent. keeps; [|by apply step_upd_device]. induction a as [|k l IH]; cbn [find_sysfs_dir]; unfold get_dpriv; keeps;
    [by apply step_get_device|by apply step_on_world, step_text_of|by apply step_ref|apply IH].
Qed.
Lemma step_parent_info scan d dir : (forall name, keeps R (scan name)) -> keeps R (linux_get_parent_info (K := K) scan d dir).
Proof.
  intros Hscan. unfold linux_get_parent_info.
  keeps; first [by apply step_world_mem|by apply step_upd_device|by apply step_find_parent|apply Hscan].
Qed.
Lemma step_probe scan dir d busnum devaddr : (forall name, keeps R (scan name)) ->
  keeps R (linux_probe sys big junk scan dir d busnum devaddr).
Proof. intros Hscan. unfold linux_probe. keeps; [by apply es_initialize|by apply step_sanitize|by apply step_parent_info]. Qed.
Lemma step_enumerate_device probe busnum devaddr : (forall d, keeps R (probe d busnum devaddr)) ->
  keeps R (linux_enumerate_device be probe busnum devaddr).
Proof.
  intros Hprobe. unfold linux_enumerate_device.
  keeps; first [by apply step_session|by apply step_unref|by apply step_alloc|apply Hprobe|by apply step_connect].
Qed.
Lemma step_scan fuel name : keeps R (sysfs_scan_device sys big junk be fuel name).
Proof.
  revert name. induction fuel as [|fuel IH]; intros name; cbn [sysfs_scan_device]; keeps; [by apply step_on_world, step_address|].
  apply step_enumerate_device; try exact HR. intros d. by apply step_probe.
Qed.
Lemma step_linux_enumerate busnum devaddr dir : keeps R (linux_enumerate sys big junk be busnum devaddr dir).
Proof. unfold linux_enumerate. apply step_enumerate_device; try exact HR. intros d. apply step_probe; try exact HR. by apply step_scan. Qed.

Lemma step_busdir_loop busnum names r : keeps R (scan_busdir_loop sys big junk be busnum names r).
Proof.
  revert r. induction names as [|name names IH]; intros r; cbn [scan_busdir_loop]; keeps; first [apply IH|by apply step_linux_enumerate].
Qed.
Lemma step_walk : keeps R (linux_default_scan_devices sys big junk be).
Proof.
  unfold linux_default_scan_devices, sysfs_get_device_list, usbfs_get_device_list. 
    keeps; try first [apply step_globals|by apply step_on_world, step_text_of|by apply step_on_world, es_entries].
  - generalize LIBUSB_ERROR_IO. clear -HR. induction l as [|name l IH]; intros r; cbn [sysfs_list_loop]; keeps; first [apply IH|by apply step_scan].
  - generalize 0. clear -HR. induction l as [|name l IH]; intros r; cbn [usbfs_list_loop]; unfold usbfs_scan_busdir;
      keeps; first [apply IH|apply step_globals|by apply step_on_world, step_text_of|by apply step_on_world, es_entries|by apply step_linux_enumerate|by apply step_busdir_loop].
Qed.
End enumeration.

(** ** Relations that do not look at the backend *)

Class FreeWorld {W : Type} (R : lib W -> lib W -> Prop) : Prop := step_world s w : R s (set_world w s).

Section free.
Context {K : Type} (sys : linux_sys K) (big : bool) (junk : nat -> list Z) (be : os_backend (linux K)).
Context (R : lib (linux K) -> lib (linux K) -> Prop) `{!StepRelation R} `{!FreeWorld R}.

Lemma keeps_free_world {A} (m : M (linux K) A) : keeps (world_rel R) m.
Proof. intros w a w' _ s _. apply step_world. Qed.
Lemma step_free_world {A} (m : M (linux K) A) : keeps R (on_world m).
Proof. apply step_on_world, keeps_free_world. Qed.
#[export] Instance free_backend : BackendSteps be R.
Proof. split; intros; intros s _; apply step_world. Qed.
#[export] Instance free_steps : EnumSteps sys big junk be R.
Proof.
  split; try exact _; intros; try apply keeps_free_world. unfold initialize_device, initialize_sysfs.
  keeps; first [apply step_free_world|by apply step_upd_device].
Qed.
End free.

(** ** Allocation *)

Definition same_oom {W} (s s' : lib W) : Prop := same_oracles (mem s) (mem s').
#[export] Instance same_oom_steps {W} : StepRelation (@same_oom W).
Proof.
  split; try done. split; [by intros s|]. intros s1 s2 s3 H1 H2. unfold same_oom in *. by etrans.
Qed.
#[export] Instance same_oom_free {W} : FreeWorld (@same_oom W).
Proof. by intros s w. Qed.

(** Before the context can signal events: nothing but devices, memory and the
    backend changes. *)
Definition only_enumerates {W} (s s' : lib W) : Prop :=
  io_ready s = false -> exists m l h w, s' = set_devices m (set_usb_devs l (set_mem h (set_world w s))).
#[export] Instance only_enumerates_steps {W} : StepRelation (@only_enumerates W).
Proof.
  split.
  - split.
    + intros s _. exists (devices s), (usb_devs s), (mem s), (world s). by destruct s.
    + intros s1 s2 s3 H1 H2 Hr. destruct (H1 Hr) as (m & l & h & w & ->). destruct (H2 Hr) as (m' & l' & h' & w' & ->).
      by exists m', l', h', w'.
  - intros s h _ _. exists (devices s), (usb_devs s), h, (world s). by destruct s.
  - intros s m _. exists m, (usb_devs s), (mem s), (world s). by destruct s.
  - intros s l _. exists (devices s), l, (mem s), (world s). by destruct s.
  - intros s e Hr Hno. congruence.
Qed.
#[export] Instance only_enumerates_free {W} : FreeWorld (@only_enumerates W).
Proof. intros s w _. exists (devices s), (usb_devs s), (mem s), w. by destruct s. Qed.
