(* ===== verification/FileSteps.v ===== *)
(** * Files are closed (os/linux_usbfs.c)

    Filling in a device opens its descriptors and its node.  Whatever the
    calls answer, the descriptors that are open before are those that are
    open afterwards; and so enumeration keeps everything about the kernel
    that these calls leave alone. *)

From S2P Require Import Prelude Keeps Heap ParseDesc Config ConfigSafety DescApi ConfigTree Bos Core Text Log Devices DeviceRefs LibSteps Hotplug HotplugLife LinuxState LinuxSys LinuxDesc LinuxEnum SysSpecs EnumSpecs EnumInv EnumScan EnumSteps.

(** [fds]: the open file descriptors; [obs]: what else is watched. *)
Class FileBalance {K O : Type} (sys : linux_sys K) (fds : K -> gset Z) (obs : K -> O) : Prop := {
  fb_open path mode k : let '((errno, fd), k') := sys_open sys path mode k in
    obs k' = obs k /\ (if errno =? 0 then 0 <= fd /\ fd ∉ fds k /\ fds k' = {[ fd ]} ∪ fds k else fds k' = fds k);
  fb_close fd k : let k' := (sys_close sys fd k).2 in obs k' = obs k /\ fds k' = fds k ∖ {[ fd ]};
  fb_read fd n k : let k' := (sys_read sys fd n k).2 in obs k' = obs k /\ fds k' = fds k;
  fb_nanosleep k : let k' := (sys_nanosleep sys k).2 in obs k' = obs k /\ fds k' = fds k;
  fb_text path k : let k' := (sys_text sys path k).2 in obs k' = obs k /\ fds k' = fds k;
  fb_entries path k : let k' := (sys_entries sys path k).2 in obs k' = obs k /\ fds k' = fds k;
  fb_control fd c k : let k' := (ioctl_control sys fd c k).2 in obs k' = obs k /\ fds k' = fds k
}.

Section files.
Context {K O : Type} (sys : linux_sys K) (fds : K -> gset Z) (obs : K -> O) `{!FileBalance sys fds obs}.
Implicit Types (w : linux K) (F : gset Z).
Abbreviation LM := (M (linux K)).

(** From the open descriptors [F] to those that [Q] allows. *)
Definition files {A} F (m : LM A) (Q : A -> gset Z -> Prop) : Prop := forall w, fds (lx_kernel w) = F ->
  wlp m w (fun a w' => Q a (fds (lx_kernel w')) /\ obs (lx_kernel w') = obs (lx_kernel w)).
Definition same_files F : forall {A}, A -> gset Z -> Prop := fun _ _ F' => F' = F.

Lemma files_ret {A} (a : A) F (Q : A -> gset Z -> Prop) : Q a F -> files F (mret a) Q.
Proof. intros HQ w <-. by apply wlp_ret. Qed.
Lemma files_bind {A B} (m : LM A) (f : A -> LM B) F P (Q : B -> gset Z -> Prop) :
  files F m P -> (forall a F', P a F' -> files F' (f a) Q) -> files F (m ≫= f) Q.
Proof.
  intros Hm Hf w Hw. apply wlp_bind. eapply wlp_mono; [by apply Hm|]. intros a w1 [HP Ho1].
  eapply wlp_mono; [by eapply Hf|]. intros b w2 [HQ Ho2]. split; [done|congruence].
Qed.
Lemma files_quiet {A B} (m : LM A) (f : A -> LM B) F (Q : B -> gset Z -> Prop) :
  files F m (same_files F) -> (forall a, files F (f a) Q) -> files F (m ≫= f) Q.
Proof. intros Hm Hf. eapply files_bind; [exact Hm|]. intros a F' ->. apply Hf. Qed.
Lemma files_fail {A} fault F (Q : A -> gset Z -> Prop) : files F (fail fault) Q.
Proof. by intros w _ a w'. Qed.

(** What does not call the kernel. *)
Lemma files_private {A} (m : LM A) F : (forall w, wlp m w (fun _ w' => lx_kernel w' = lx_kernel w)) -> files F m (same_files F).
Proof. intros Hm w <-. eapply wlp_mono; [apply Hm|]. by intros a w' ->. Qed.
Lemma files_gets {A} (f : linux K -> A) F : files F (gets f) (same_files F).
Proof. apply files_private. by intros w a w' [= _ <-]. Qed.
Lemma files_lift {A} (o : outcome A) F : files F (lift o) (same_files F).
Proof. apply files_private. intros w a w' Hrun. unfold lift in Hrun. destruct o; [|done]. by injection Hrun as _ <-. Qed.
Lemma files_text_of {A} (p : option A) F : files F (text_of p) (same_files F).
Proof. apply files_lift. Qed.
Lemma files_upd_dpriv d f F : files F (upd_dpriv d f) (same_files F).
Proof. apply files_private. by intros w a w' [= _ <-]. Qed.
Lemma files_on_lx_mem {A} (m : M heap A) F : files F (on_lx_mem m) (same_files F).
Proof. apply files_private. intros w a w' Hrun. unfold on_lx_mem in Hrun. destruct (m (lx_mem w)) as [[b h]|]; [|done]. by injection Hrun as _ <-. Qed.

Lemma files_call {A} (op : K -> A * K) F (Q : A -> gset Z -> Prop) :
  (forall k, fds k = F -> let '(a, k') := op k in obs k' = obs k /\ Q a (fds k')) -> files F (sys_call op) Q.
Proof.
  intros Hop w Hw a w' Hrun. unfold sys_call in Hrun. specialize (Hop (lx_kernel w) Hw). destruct (op (lx_kernel w)) as [b k].
  injection Hrun as <- <-. by destruct Hop.
Qed.
Lemma files_call_same {A} (op : K -> A * K) F :
  (forall k, let k' := (op k).2 in obs k' = obs k /\ fds k' = fds k) -> files F (sys_call op) (same_files F).
Proof. intros Hop. apply files_call. intros k <-. pose proof (Hop k) as H. by destruct (op k). Qed.
Lemma files_close fd F : files F (sys_call (sys_close sys fd)) (fun _ F' => F' = F ∖ {[ fd ]}).
Proof. apply files_call. intros k <-. pose proof (fb_close fd k) as H. by destruct (sys_close sys fd k). Qed.

(** A descriptor, or a code. *)
Definition opened F (r : Z) F' : Prop := if r <? 0 then F' = F else r ∉ F /\ F' = {[ r ]} ∪ F.
Lemma opened_code F r : r < 0 -> opened F r F.
Proof. intros Hr. unfold opened. by rewrite (proj2 (Z.ltb_lt _ _) Hr). Qed.
Lemma files_open path mode F : files F (sys_call (sys_open sys path mode)) (fun r F' =>
  if r.1 =? 0 then opened F r.2 F' else F' = F).
Proof.
  apply files_call. intros k <-. pose proof (fb_open path mode k) as H. destruct (sys_open sys path mode k) as [[e fd] k'].
  destruct H as [Ho H]. split; [done|]. simpl. destruct (e =? 0); [|done]. destruct H as (Hfd & Hnew & Heq). unfold opened.
  destruct (Z.ltb_spec fd 0); [lia|done].
Qed.

Lemma open_sysfs_attr_files d attr F : files F (_open_sysfs_attr sys d attr) (opened F).
Proof.
  unfold _open_sysfs_attr, dpriv_of. apply files_quiet; [apply files_gets|]. intros priv. apply files_quiet; [apply files_text_of|]. intros dir.
  eapply files_bind; [apply files_open|]. intros [e fd] F' HF'. simpl in HF'. destruct (e =? 0); apply files_ret; [done|].
  rewrite HF'. by apply opened_code.
Qed.
Lemma get_usbfs_fd_files busnum devaddr mode F : files F (_get_usbfs_fd sys busnum devaddr mode) (opened F).
Proof.
  unfold _get_usbfs_fd, globals. apply files_quiet; [apply files_gets|]. intros g. apply files_quiet; [apply files_text_of|]. intros dir.
  set (path := path_text _). clearbody path. eapply files_bind; [apply files_open|]. intros [e fd] F1 H1. simpl in H1.
  destruct (e =? 0) eqn:He; [by apply files_ret|]. subst F1.
  apply (files_bind _ _ _ (fun r F' => if r.1 =? 0 then opened F r.2 F' else F' = F)).
  { destruct (e =? ENOENT); [|apply files_ret; simpl; by rewrite He].
    apply files_quiet; [apply files_call_same, fb_nanosleep|]. intros []. apply files_open. }
  intros [e2 fd2] F2 H2. simpl in H2. destruct (e2 =? 0); [by apply files_ret|]. subst F2.
  repeat case_match; apply files_ret; by apply opened_code.
Qed.

(** The loop closes what it reads from. *)
Lemma read_descriptors_files junk fuel d fd size F : fd ∉ F ->
  files ({[ fd ]} ∪ F) (read_descriptors_loop sys junk fuel d fd size) (same_files F).
Proof.
  intros Hfd. revert size. induction fuel as [|fuel IH]; intros size; cbn [read_descriptors_loop]; [apply files_fail|].
  assert (forall (m : LM Z), files F m (same_files F) ->
    files ({[ fd ]} ∪ F) (sys_call (sys_close sys fd) ;; m) (same_files F)) as Hclose.
  { intros m Hm. eapply files_bind; [apply files_close|]. intros [] F' ->. by replace (({[ fd ]} ∪ F) ∖ {[ fd ]}) with F by set_solver. }
  case_match; [apply files_fail|]. unfold globals, dpriv_of.
  apply files_quiet; [apply files_gets|]. intros g. apply files_quiet; [apply files_gets|]. intros priv.
  apply files_quiet; [apply files_on_lx_mem|]. intros [b|]; [|apply files_quiet; [apply files_upd_dpriv|]; intros []; by apply Hclose, files_ret].
  apply files_quiet; [apply files_lift|]. intros bytes. apply files_quiet; [apply files_upd_dpriv|]. intros [].
  apply files_quiet; [apply files_call_same; intros k; apply fb_read|]. intros [e data].
  case_match; [by apply Hclose, files_ret|]. apply files_quiet; [apply files_lift|]. intros bytes2.
  apply files_quiet; [apply files_upd_dpriv|]. intros []. case_match; [apply IH|by apply Hclose, files_ret].
Qed.

Lemma usbfs_config_files d fd F : files F (usbfs_get_active_config sys d fd) (same_files F).
Proof.
  unfold usbfs_get_active_config. apply files_quiet; [apply files_call_same; intros k; apply fb_control|]. intros [e data].
  case_match; [by apply files_ret|]. apply files_quiet; [|intros []; by apply files_ret].
  apply files_private. by intros w a w' [= _ <-].
Qed.
Lemma first_config_files big junk d F : files F (assume_first_config big junk d) (same_files F).
Proof.
  unfold assume_first_config, dpriv_of. apply files_quiet; [apply files_gets|]. intros priv.
  apply files_quiet; [|intros []; by apply files_ret]. case_match; [|apply files_upd_dpriv].
  apply files_quiet; [apply files_lift|]. intros bytes. apply files_quiet; [apply files_lift|]. intros [n config]. apply files_upd_dpriv.
Qed.
End files.

(** ** Enumeration *)

Section enumeration.
Context {K O : Type} (sys : linux_sys K) (fds : K -> gset Z) (obs : K -> O) `{!FileBalance sys fds obs}.
Context (big : bool) (junk : nat -> list Z) (be : os_backend (linux K)).
Implicit Types (s : lib (linux K)) (F : gset Z).
Abbreviation LX := (Lib (linux K)).
Definition kernel_of s : K := lx_kernel (world s).

(** The same for computations of the library. *)
Definition lib_files {A} F (m : LX A) (Q : A -> gset Z -> Prop) : Prop := forall s, fds (kernel_of s) = F ->
  wlp m s (fun a s' => Q a (fds (kernel_of s')) /\ obs (kernel_of s') = obs (kernel_of s)).
Lemma lib_files_bind {A B} (m : LX A) (f : A -> LX B) F P (Q : B -> gset Z -> Prop) :
  lib_files F m P -> (forall a F', P a F' -> lib_files F' (f a) Q) -> lib_files F (m ≫= f) Q.
Proof.
  intros Hm Hf s Hs. apply wlp_bind. eapply wlp_mono; [by apply Hm|]. intros a s1 [HP Ho1].
  eapply wlp_mono; [by eapply Hf|]. intros b s2 [HQ Ho2]. split; [done|congruence].
Qed.
Lemma lib_files_world {A} (m : M (linux K) A) F Q : files fds obs F m Q -> lib_files F (on_world m) Q.
Proof.
  intros Hm s Hs a s' Hrun. unfold on_world in Hrun. destruct (m (world s)) as [[b w]|] eqn:Heq; [|done]. injection Hrun as <- <-.
  exact (Hm (world s) Hs b w Heq).
Qed.

(** Nothing that is watched changes. *)
Definition same_watch s s' : Prop := fds (kernel_of s') = fds (kernel_of s) /\ obs (kernel_of s') = obs (kernel_of s).
#[export] Instance same_watch_steps : StepRelation same_watch.
Proof.
  split; [split| | | |].
  - intros s. split; reflexivity.
  - intros s1 s2 s3 [F1 O1] [F2 O2]. split; congruence.
  - intros s h _. split; reflexivity.
  - intros s m. split; reflexivity.
  - intros s l. split; reflexivity.
  - intros s e _. split; reflexivity.
Qed.
Lemma lib_files_keeps {A} (m : LX A) : (forall F, lib_files F m (same_files F)) <-> keeps same_watch m.
Proof.
  split; [intros Hm s; by apply Hm|]. intros Hm F s <-. apply Hm.
Qed.
Lemma keeps_files_world {A} (m : M (linux K) A) : (forall F, files fds obs F m (same_files F)) -> keeps (world_rel same_watch) m.
Proof. intros Hm w a w' Hrun s <-. exact (Hm _ (world s) eq_refl a w' Hrun). Qed.

Lemma lib_files_quiet {A B} (m : LX A) (f : A -> LX B) F (Q : B -> gset Z -> Prop) :
  keeps same_watch m -> (forall a, lib_files F (f a) Q) -> lib_files F (m ≫= f) Q.
Proof. intros Hm Hf. eapply lib_files_bind; [by apply lib_files_keeps|]. intros a F' ->. apply Hf. Qed.
Lemma lib_files_ret {A} (a : A) F (Q : A -> gset Z -> Prop) : Q a F -> lib_files F (mret a) Q.
Proof. intros HQ s <-. by apply wlp_ret. Qed.

Lemma watch_gets {A} (f : linux K -> A) : keeps same_watch (on_world (gets f)).
Proof. apply step_on_world, keeps_files_world. intros F. by apply files_gets. Qed.
Lemma initialize_sysfs_watch d dir : keeps same_watch (initialize_sysfs sys d dir).
Proof.
  assert (forall (m : M (linux K) unit), (forall F, files fds obs F m (same_files F)) -> keeps same_watch (on_world m)) as Hw
    by (intros m Hm; by apply step_on_world, keeps_files_world).
  unfold initialize_sysfs. keeps; try (apply Hw; intros F; by apply files_upd_dpriv); try apply step_upd_device, _.
  - apply step_on_world, keeps_files_world. intros F. by apply files_on_lx_mem.
  - apply step_on_world. unfold __read_sysfs_attr. keeps. apply keeps_files_world. intros F. apply files_call_same. intros k. apply fb_text.
Qed.

(** The second part: the node of a device that sysfs does not relate. *)
Definition find_config (d : nat) (busnum devaddr : Z) : LX Z :=
  fd ← on_world (_get_usbfs_fd sys busnum devaddr O_RDWR);
  if fd <? 0 then on_world (assume_first_config big junk d)
  else
    r ← on_world (usbfs_get_active_config sys d fd);
    on_world (sys_call (sys_close sys fd)) ;;
    mret r.
Lemma find_config_files d busnum devaddr F : lib_files F (find_config d busnum devaddr) (same_files F).
Proof.
  unfold find_config. eapply lib_files_bind; [apply lib_files_world, (get_usbfs_fd_files sys fds obs)|].
  intros fd F1 H1. unfold opened in H1. destruct (fd <? 0).
  { subst F1. apply lib_files_world. by apply first_config_files. }
  destruct H1 as [Hfd ->]. eapply lib_files_bind; [apply lib_files_world; by apply usbfs_config_files|]. intros r F2 ->.
  eapply lib_files_bind; [apply lib_files_world, (files_close sys fds obs)|]. intros [] F3 ->. apply lib_files_ret.
  unfold same_files. set_solver.
Qed.
Lemma initialize_files d busnum devaddr dir F : lib_files F (initialize_device sys big junk d busnum devaddr dir) (same_files F).
Proof.
  unfold initialize_device. apply lib_files_quiet; [apply step_upd_device, _|]. intros [].
  apply lib_files_quiet; [destruct dir; [apply initialize_sysfs_watch|keeps]|]. intros r.
  destruct (r <? 0); [by apply lib_files_ret|]. apply lib_files_quiet; [apply watch_gets|]. intros g.
  apply (lib_files_bind _ _ _ (opened F)).
  { apply lib_files_world. destruct (negb _); [apply (open_sysfs_attr_files sys fds obs)|apply (get_usbfs_fd_files sys fds obs)]. }
  intros fd F1 H1. unfold opened in H1. destruct (fd <? 0); [subst F1; by apply lib_files_ret|]. destruct H1 as [Hfd ->].
  eapply lib_files_bind; [apply lib_files_world; by apply read_descriptors_files|]. intros r2 F2 ->.
  destruct (r2 <? 0); [by apply lib_files_ret|]. apply lib_files_quiet; [apply watch_gets|]. intros priv.
  destruct (_ <? _); [by apply lib_files_ret|]. destruct (negb _); [by apply lib_files_ret|]. apply find_config_files.
Qed.

(** Enumeration as a whole, with a platform that leaves this alone. *)
Class WatchedBackend : Prop := {
  wb_mutex w : let k' := lx_kernel (os_mutex_init be w).2 in fds k' = fds (lx_kernel w) /\ obs k' = obs (lx_kernel w);
  wb_destroy : be_destroy_device be = Some op_destroy_device
}.
#[export] Instance watch_steps `{!WatchedBackend} : EnumSteps sys big junk be same_watch.
Proof.
  split.
  - exact _.
  - split; [intros w s <-; apply wb_mutex|]. intros f d w. rewrite wb_destroy. by intros [= <-] s <-.
  - intros path. apply keeps_files_world. intros F. apply files_call_same. intros k. apply fb_entries.
  - intros path. apply keeps_files_world. intros F. apply files_call_same. intros k. apply fb_text.
  - intros A m. apply keeps_files_world. intros F. by apply files_on_lx_mem.
  - intros d busnum devaddr dir. apply lib_files_keeps. intros F. apply initialize_files.
Qed.
End enumeration.
