(* ===== verification/UdevSpecs.v ===== *)
(** * Rules for the udev monitor

    The walk over the devices of libudev and the handling of one event, with
    the invariant of EnumInv.v: devices have names whatever sysfs offers. *)

From S2P Require Import Prelude Keeps Heap ParseDesc Config ConfigSafety DescApi ConfigTree DescProps Bos Core Text Log Devices DeviceRefs LibSteps Hotplug HotplugLife LinuxState LinuxSys LinuxDesc LinuxEnum LinuxNetlink LinuxUdev SysSpecs EnumSpecs EnumInv EnumScan EnumWalk EnumSteps.

Section info.
Context {K : Type} (sys : linux_sys K) (ud : udev_sys K).

Lemma udev_device_info_wp detached dev w :
  wp (udev_device_info sys ud detached dev) w (fun '(r, b, a, _) w' =>
    same_private w w' /\ (r = LIBUSB_SUCCESS -> 0 <= b < 256 /\ 0 <= a < 256)).
Proof.
  unfold udev_device_info. apply wp_bind, sys_call_wp. intros [node|] w1 H1; [|by apply wp_ret].
  apply wp_bind, sys_call_wp. intros [name|] w2 H2; [|apply wp_ret; split; [by etrans|done]].
  apply wp_bind. eapply wp_mono; [apply get_device_address_wp; lia|]. intros [[r b] a] w3 [H3 Hnum].
  apply wp_ret. split; [|done]. etrans; [exact H1|]. by etrans.
Qed.
End info.

Section walk.
Context {K : Type} (sys : linux_sys K) (ud : udev_sys K) (remaining : K -> Z -> Z) `{!FileLaws sys remaining}.
Context (big : bool) (junk : nat -> list Z) (Hjunk : junk_bytes junk) (be : os_backend (linux K)) (ready : bool) `{!EnumBackend be}.
Context (g : linux_globals) (Hsystem : system_ok g true).
Abbreviation walk_ok := (EnumWalk.walk_ok be ready g true).

Lemma walk_call {A} (op : K -> A * K) : walk_ok (on_world (sys_call op)).
Proof. intros P G F L C s Hinv. eapply scan_sys; [exact Hinv|]. apply sys_call_wp. by auto. Qed.
Lemma walk_for_each {A} (f : A -> Lib (linux K) unit) l : (forall a, walk_ok (f a)) -> walk_ok (for_each f l).
Proof. intros Hf. induction l as [|a l IH]; [apply walk_ret|]. by apply walk_bind. Qed.

(** The numbers are bytes, and devices have names. *)
Lemma walk_info {A} detached dev (f : Z * Z * Z * list Z -> Lib (linux K) A) :
  (forall r b a name, (r = LIBUSB_SUCCESS -> 0 <= b < 256 /\ 0 <= a < 256) -> walk_ok (f (r, b, a, name))) ->
  walk_ok (x ← on_world (udev_device_info sys ud detached dev); f x).
Proof.
  intros Hf P G F L C s Hinv. apply wp_bind. eapply scan_sys; [exact Hinv|]. eapply wp_mono; [apply udev_device_info_wp|].
  intros [[[r b] a] name] w [Hw Hnum]. split; [done|]. intros s1 H1.
  eapply wp_mono; [eapply Hf; [exact Hnum|exact (proj1 H1)]|]. intros x s2 H2. eapply grows_trans; [exact H1|exact H2].
Qed.
Lemma walk_named busnum devaddr name : 0 <= busnum < 256 -> 0 <= devaddr < 256 ->
  walk_ok (linux_enumerate sys big junk be busnum devaddr (Some name)).
Proof. intros Hb Ha. eapply walk_enumerate; try done. by apply mode_some. Qed.

Lemma udev_scan_entry_ok ctx path : walk_ok (udev_scan_entry sys ud big junk be ctx path).
Proof.
  unfold udev_scan_entry. apply walk_bind; [apply walk_call|]. intros dev. apply walk_info. intros r b a name Hnum.
  apply walk_bind; [|intros []; apply walk_call]. destruct (Z.eqb_spec r 0) as [Hr|]; [|apply walk_ret].
  destruct (Hnum Hr) as [Hb Ha]. apply walk_bind; [by apply walk_named|]. intros e. apply walk_ret.
Qed.
Lemma udev_scan_ok : is_Some (udev_ctx (udev g)) -> walk_ok (linux_udev_scan_devices sys ud big junk be).
Proof.
  intros [ctx Hctx]. unfold linux_udev_scan_devices. apply walk_globals. rewrite Hctx.
  apply walk_bind; [apply walk_call|]. intros [e|]; [|apply walk_ret].
  do 3 (apply walk_bind; [apply walk_call|intros []]). apply walk_bind; [apply walk_call|]. intros devices.
  apply walk_bind; [apply walk_for_each; intros path; apply udev_scan_entry_ok|]. intros [].
  apply walk_bind; [apply walk_call|]. intros []. apply walk_ret.
Qed.
End walk.

(** ** Relations that enumeration keeps *)

Section steps.
Context {K : Type} (sys : linux_sys K) (ud : udev_sys K) (big : bool) (junk : nat -> list Z) (be : os_backend (linux K)).
Context (R : lib (linux K) -> lib (linux K) -> Prop) `{!StepRelation R} `{!FreeWorld R}.

Lemma step_udev_scan : keeps R (linux_udev_scan_devices sys ud big junk be).
Proof.
  unfold linux_udev_scan_devices, udev_scan_entry. keeps; first [by apply step_free_world|apply step_linux_enumerate, _].
Qed.
Lemma step_udev_receive : keeps R (udev_receive sys ud big junk be).
Proof.
  unfold udev_receive, udev_hotplug_event, handle_udev_event, linux_hotplug_enumerate.
  keeps; first [by apply step_free_world|apply step_linux_enumerate, _|apply step_disconnected; exact _].
Qed.
End steps.
