(* ===== verification/EnumFrames.v ===== *)
(** * What the operations leave alone

    The places and the private data of the devices stay, for everything but
    enumeration.  This is shown along the structure of the operations. *)

From S2P Require Import Prelude Keeps Heap ParseDesc Config ConfigSafety DescApi ConfigTree Bos Core Text Log Devices DeviceRefs LibSteps Hotplug Transfers Events EventPipe HotplugLife LinuxState LinuxSys LinuxDesc LinuxEnum SysSpecs EnumSpecs EnumInv EnumScan EnumSteps.

(** ** Places and private data *)

Section places.
Context {K : Type} (be : os_backend (linux K)) `{!EnumBackend be} (big : bool).
(** Callbacks of the application may use the kernel, not the backend. *)
Context (app : nat -> option nat -> Z -> linux K -> Z * linux K) (Happ : forall n dev event w, same_private w (app n dev event w).2).
Implicit Types (s : lib (linux K)) (d k : nat) (x : device).

Definition places s s' : Prop :=
  usb_devs s' ⊆ usb_devs s /\
  forall k x', devices s' !! k = Some x' -> exists x, devices s !! k = Some x /\ same_place x x'.
#[export] Instance places_preorder : PreOrder places.
Proof.
  split; [by intros s; split; [|intros k x' Hx; exists x']|]. intros s1 s2 s3 [Hu1 Hp1] [Hu2 Hp2]. split; [by etrans|].
  intros k x3 (x2 & Hx2 & Hb2 & Ha2 & Ho2 & Hs2)%Hp2. destruct (Hp1 k x2 Hx2) as (x1 & Hx1 & Hb1 & Ha1 & Ho1 & Hs1).
  exists x1. split; [done|]. unfold same_place. by rewrite Hb2, Ha2, Ho2, Hs2.
Qed.

(** [lib_frame]: and the private data of the devices that are left. *)
Definition lib_frame s s' : Prop := places s s' /\ unref_frame s s'.
#[export] Instance lib_frame_preorder : PreOrder lib_frame.
Proof.
  split; [intros s; split; [reflexivity|by apply unref_frame_world]|]. intros s1 s2 s3 [H1 F1] [H2 F2].
  split; [by etrans|by eapply unref_frame_trans].
Qed.

Lemma frame_same s s' : devices s' = devices s -> usb_devs s' = usb_devs s -> same_private (world s) (world s') -> lib_frame s s'.
Proof.
  intros Hd Hu [k Hw]. split; [split; [by rewrite Hu|]; rewrite Hd; by intros j x Hx; exists x|].
  split; unfold priv_dom; rewrite ?Hw, ?Hd; try done.
Qed.
Lemma frame_modify f : (forall s, devices (f s) = devices s /\ usb_devs (f s) = usb_devs s /\ world (f s) = world s) -> keeps lib_frame (modify f).
Proof. intros Hf. apply keeps_modify. intros s. destruct (Hf s) as (Hd & Hu & Hw). apply frame_same; try done. by rewrite Hw. Qed.
Lemma frame_on_mem {A} (m : M heap A) : keeps lib_frame (on_mem m).
Proof. intros s. apply wlp_on_mem. intros a h. by apply frame_same. Qed.
Lemma frame_app n dev event : keeps lib_frame (app_fn app n dev event).
Proof.
  intros s a s' Hrun. unfold app_fn, backend_op in Hrun. pose proof (Happ n dev event (world s)) as Hw.
  destruct (app n dev event (world s)) as [r w]. injection Hrun as _ <-. by apply frame_same.
Qed.
Lemma frame_get_device d : keeps lib_frame (get_device d).
Proof. intros s a s' [_ ->]%get_device_inv. reflexivity. Qed.
Lemma frame_get_callback b : keeps lib_frame (get_callback b).
Proof. intros s a s' Hrun. unfold get_callback in Hrun. destruct (find _ _); [|done]. injection Hrun as _ <-. reflexivity. Qed.

(** A record changes where its place is not. *)
Lemma places_put d x x' s : devices s !! d = Some x -> same_place x x' -> places s (set_devices (<[d := x']> (devices s)) s).
Proof.
  intros Hx Hplace. split; [done|]. intros k y Hk. simpl in Hk. apply lookup_insert_Some in Hk as [[<- <-]|[_ Hk]]; [by exists x|by exists y].
Qed.
Lemma frame_put d x x' s : devices s !! d = Some x -> same_place x x' -> lib_frame s (set_devices (<[d := x']> (devices s)) s).
Proof.
  intros Hx Hplace. split; [by eapply places_put|]. apply unref_frame_world; [done|]. simpl. apply dom_insert_lookup_L. by eexists.
Qed.
Lemma keeps_get_put {A} (R : lib (linux K) -> lib (linux K) -> Prop) `{!PreOrder R} d f (k : device -> Lib (linux K) A) :
  (forall s x, devices s !! d = Some x -> R s (set_devices (<[d := f x]> (devices s)) s)) -> (forall x, keeps R (k x)) ->
  keeps R (x ← get_device d; put_device d (f x) ;; k x).
Proof.
  intros Hf Hk s. apply wlp_bind. intros x s0 [Hx ->]%get_device_inv. apply wlp_bind. intros u s1 [= _ <-].
  intros b s' Hrun. exact (PreOrder_Transitive _ _ _ (Hf s x Hx) (Hk x _ _ _ Hrun)).
Qed.

Lemma frame_ref d : keeps lib_frame (libusb_ref_device d).
Proof.
  unfold libusb_ref_device. apply (keeps_get_put lib_frame); [|intros x; keeps]. intros s x Hx. by eapply frame_put.
Qed.
Lemma frame_record_event f : keeps lib_frame (record_event f).
Proof. unfold record_event, usbi_signal_event, put_ev. keeps; by apply frame_modify. Qed.
Lemma frame_notification dev event : keeps lib_frame (usbi_hotplug_notification dev event).
Proof. unfold usbi_hotplug_notification. keeps; [apply frame_on_mem|apply frame_record_event]. Qed.
Lemma frame_disconnect d : keeps lib_frame (usbi_disconnect_device be d).
Proof.
  unfold usbi_disconnect_device. apply (keeps_get_put lib_frame); [intros s x Hx; by eapply frame_put|]. intros x s.
  apply wlp_bind. intros l s0 [= <- <-]. apply wlp_bind. intros l s0 Hrun. unfold lift, list_del in Hrun. case_decide; [|done].
  injection Hrun as <- <-. apply wlp_bind. intros u s1 [= _ <-]. set (l' := filter _ _).
  assert (lib_frame s (set_usb_devs l' s)) as H1.
  { split; [|by apply unref_frame_world]. split; [simpl; intros k Hk; by apply list_elem_of_filter in Hk as [_ Hk]|].
    intros k y Hy. by exists y. }
  assert (keeps lib_frame (ready ← gets io_ready;
    if has_hotplug be && ready then usbi_hotplug_notification (Some d) LIBUSB_HOTPLUG_EVENT_DEVICE_LEFT else mret tt)) as H2
    by (keeps; apply frame_notification).
  intros b s2 Hrun. exact (PreOrder_Transitive _ _ _ H1 (H2 _ _ _ Hrun)).
Qed.

Lemma places_unref fuel o : keeps places (unref_device be fuel o).
Proof.
  revert o. induction fuel as [|fuel IH]; intros [d|]; cbn [unref_device]; [keeps|keeps| |keeps].
  apply (keeps_get_put places); [intros s x Hx; by eapply places_put|]. intros x. rewrite eb_destroy, eb_hotplug. keeps; try apply IH.
  - intros s b s' [= _ <-]. split; [done|]. intros k y Hy. by exists y.
  - unfold free_device. keeps; [intros s; apply wlp_on_mem; intros ? h; apply frame_same; done|]. apply keeps_modify.
    intros s. split; [done|]. intros k y Hy. simpl in Hy. apply lookup_delete_Some in Hy as [_ Hy]. by exists y.
Qed.
Lemma frame_unref o : keeps lib_frame (libusb_unref_device be o).
Proof.
  unfold libusb_unref_device. keeps. intros s b s' Hrun. split; [by eapply places_unref|].
  by destruct (unref_device_frame be _ _ _ _ _ Hrun).
Qed.

(** Callbacks. *)
Lemma frame_match_cb dev event b : keeps lib_frame (usbi_hotplug_match_cb big (app_fn app) dev event b).
Proof.
  assert (forall wanted field, keeps lib_frame (filter_passes (W := linux K) wanted dev field)) as Hfilter.
  { intros wanted field. unfold filter_passes, dev_descriptor. keeps. apply frame_get_device. }
  unfold usbi_hotplug_match_cb. keeps; first [apply frame_get_callback|apply Hfilter|apply frame_app].
Qed.
Lemma frame_match dev event : keeps lib_frame (usbi_hotplug_match big (app_fn app) dev event).
Proof.
  unfold usbi_hotplug_match. keeps. generalize (S (length a)) (first_cb a). clear a. intros n. induction n as [|n IH]; intros [b|];
    cbn [match_loop]; unfold remove_cb; keeps; first [apply frame_match_cb|by apply frame_modify|apply frame_on_mem|apply IH].
Qed.
Lemma frame_message m : keeps lib_frame (process_message be big (app_fn app) m).
Proof. unfold process_message. keeps; first [apply frame_match|apply frame_unref|apply frame_on_mem]. Qed.

(** The event handler, when no transfer is completed. *)
Lemma frame_event fuel s : completed_transfers (ev s) = [] ->
  wlp (event_turn be big app fuel) s (fun _ s' => lib_frame s s').
Proof.
  intros Hnone. unfold event_turn. apply wlp_bind. intros s0 s1 [= <- <-].
  destruct (0 <? pipe_bytes (ev s)); [|by apply wlp_ret]. apply wlp_bind. unfold handle_event_pipe.
  apply wlp_bind. intros m s1 Htake. assert (lib_frame s s1 /\ completed_transfers (ev s1) = []) as [H1 Hnone1].
  { unfold take_message in Htake. injection Htake as _ <-. split; [by apply frame_same|]. by case_match. }
  apply wlp_bind. intros r s2 Hloop. assert (s2 = s1) as ->.
  { destruct fuel; simpl in Hloop; unfold take_completed, gets in Hloop; unfold mbind, M_bind in Hloop; rewrite Hnone1 in Hloop; by injection Hloop. }
  intros a s2 Hrun b s' [= _ <-]. etransitivity; [exact H1|]. revert Hrun.
  enough (keeps lib_frame (clear_if_idle ;; (match m with Some m => process_message be big (app_fn app) m | None => mret tt end) ;;
    mret (r, match m with Some _ => true | None => false end))) as Hk by apply Hk.
  unfold clear_if_idle, usbi_clear_event, put_ev. keeps; first [by apply frame_modify|apply frame_message].
Qed.

(** Lists and references of the application. *)
Lemma frame_free_disc disc : keeps lib_frame (discovered_devs_free be disc).
Proof. unfold discovered_devs_free. keeps; [apply frame_unref|apply frame_on_mem]. Qed.
Lemma frame_free_list l unref : keeps lib_frame (libusb_free_device_list be l unref).
Proof. unfold libusb_free_device_list. keeps; first [apply frame_unref|apply frame_on_mem]. Qed.
Lemma frame_append_all disc l : keeps lib_frame (append_all be disc l).
Proof.
  revert disc. induction l as [|d l IH]; intros disc; cbn [append_all]; unfold discovered_devs_append;
    keeps; first [apply frame_ref|apply frame_on_mem|apply frame_free_disc|apply IH].
Qed.
Lemma frame_get_list : be_get_device_list be = None -> be_hotplug_poll be = None -> keeps lib_frame (libusb_get_device_list be).
Proof.
  intros Hlist Hpoll. unfold libusb_get_device_list, discovered_devs_alloc, make_device_list. rewrite Hlist, Hpoll.
  keeps; first [apply frame_on_mem|apply frame_append_all|apply frame_ref|apply frame_free_disc].
Qed.
Lemma frame_client op : be_get_device_list be = None -> be_hotplug_poll be = None -> keeps lib_frame (run_client_op be op).
Proof.
  intros Hlist Hpoll. unfold run_client_op. keeps; first [apply frame_ref|apply frame_unref|by apply frame_get_list|apply frame_free_list].
Qed.
Lemma frame_deregister handle : keeps lib_frame (libusb_hotplug_deregister_callback be handle).
Proof. unfold libusb_hotplug_deregister_callback. keeps; [by apply frame_modify|apply frame_notification]. Qed.
Lemma frame_register events flags vendor_id product_id dev_class cb_fn :
  be_get_device_list be = None -> be_hotplug_poll be = None ->
  keeps lib_frame (libusb_hotplug_register_callback be big (app_fn app) events flags vendor_id product_id dev_class cb_fn).
Proof.
  intros Hlist Hpoll. unfold libusb_hotplug_register_callback, enumerate_callback.
  keeps; first [apply frame_on_mem|by apply frame_modify|by apply frame_get_list|apply frame_match_cb|apply frame_free_list|apply frame_deregister].
Qed.
Lemma frame_disconnected busnum devaddr : keeps lib_frame (linux_device_disconnected be busnum devaddr).
Proof.
  assert (keeps lib_frame (usbi_get_device_by_session_id (W := linux K) (linux_session_id busnum devaddr))) as Hsession.
  { unfold usbi_get_device_by_session_id. keeps. induction a as [|d l IH]; cbn [find_session]; keeps;
      [apply frame_get_device|apply frame_ref|apply IH]. }
  unfold linux_device_disconnected. keeps; [done|apply frame_disconnect|apply frame_unref].
Qed.

(** With the references in order, the frame keeps the invariant. *)
Lemma scan_frame ready named g G F F' L L' C C' s s' :
  scan_inv be ready named g ∅ G F L C s -> lib_frame s s' -> hot_inv be ready F' L' C' s' -> scan_inv be ready named g ∅ G F' L' C' s'.
Proof.
  intros [Hhot Hacc Hdom Hg Hlist _] [[Husb Hplace] Hf] Hhot'.
  split; [done|by apply (uf_acc _ _ Hf)|by apply (uf_priv_dom _ _ Hf)|by rewrite (uf_globals _ _ Hf)| |done].
  intros d Hd. destruct (hot_inv_elem be ready eb_hotplug F' L' C' _ d Hhot' (or_introl Hd)) as [x' Hx'].
  rewrite (uf_priv _ _ Hf) by by eexists. destruct (Hplace d x' Hx') as (x0 & Hx0 & Hsame).
  destruct (Hlist d) as (x & p & Hx & Hp & Hwell & Hrest); [by apply Husb|]. exists x', p. simplify_eq.
  split; [done|]. split; [done|]. split; [|done]. by eapply same_place_addressed.
Qed.
End places.
