(* ===== verification/EnumProps.v ===== *)
(** * Properties of enumeration *)

From S2P Require Import Prelude Keeps Heap ParseDesc Config ConfigSafety DescApi ConfigTree DescProps Bos Core Text Log Devices DeviceRefs LibSteps Hotplug Transfers Events Handles EventPipe HotplugLife Demo LinuxState LinuxSys LinuxDesc LinuxEnum LinuxNetlink LinuxUdev LinuxUrb LinuxBackend LinuxDemo SysSpecs EnumSpecs EnumInv EnumScan EnumWalk EnumSteps UdevSpecs EnumFrames.

(** ** Sequences of operations *)

Section operations.
Context {K : Type} (sys : linux_sys K) (ud : udev_sys K) (big : bool) (junk : nat -> list Z) (be : os_backend (linux K)).
Variable app : nat -> option nat -> Z -> linux K -> Z * linux K.

Inductive enum_op : Type :=
| EnumScanAll                                                        (** the walk of the start *)
| EnumUdevScan                                                       (** the same in a build with udev *)
| EnumUdevReceive                                                    (** the udev monitor handles an event *)
| EnumArrive (busnum devaddr : Z) (sys_name : option (list Z))       (** the monitor reports a device *)
| EnumLeave (busnum devaddr : Z)                                     (** or that one is gone *)
| EnumEvent (fuel : nat)                                             (** the event handler runs *)
| EnumClient (op : client_op)
| EnumRegister (events flags vendor_id product_id dev_class : Z) (cb_fn : option nat)
| EnumDeregister (handle : Z).

Definition run_enum_op (op : enum_op) : Lib (linux K) unit :=
  match op with
  | EnumScanAll => linux_default_scan_devices sys big junk be ;; mret tt
  | EnumUdevScan => linux_udev_scan_devices sys ud big junk be ;; mret tt
  | EnumUdevReceive => udev_receive sys ud big junk be ;; mret tt
  | EnumArrive busnum devaddr sys_name => linux_hotplug_enumerate sys big junk be busnum devaddr sys_name
  | EnumLeave busnum devaddr => linux_device_disconnected be busnum devaddr
  | EnumEvent fuel => event_turn be big app fuel
  | EnumClient op => run_client_op be op
  | EnumRegister events flags vendor_id product_id dev_class cb_fn =>
      libusb_hotplug_register_callback be big (app_fn app) events flags vendor_id product_id dev_class cb_fn ;; mret tt
  | EnumDeregister handle => libusb_hotplug_deregister_callback be handle
  end.

(** [named] tells whether devices have names: with udev they do, without it
    sysfs decides.  What the netlink monitor reports are two bytes, and a name
    where devices have one. *)
Definition enum_op_ok (named : bool) (g : linux_globals) (op : enum_op) : Prop :=
  match op with
  | EnumScanAll => named = negb (sysfs_can_relate_devices g =? 0)
  | EnumUdevScan => named = true /\ is_Some (udev_ctx (udev g))
  | EnumUdevReceive => named = true
  | EnumArrive busnum devaddr sys_name =>
      0 <= busnum < 256 /\ 0 <= devaddr < 256 /\ named = bool_decide (is_Some sys_name)
  | _ => True
  end.

(** The references of the application afterwards. *)
Definition enum_refs (C : gmultiset nat) (op : enum_op) : option (gmultiset nat) :=
  match op with
  | EnumClient op => client_refs C op
  | _ => Some C
  end.
Fixpoint enum_refs_all (C : gmultiset nat) (ops : list enum_op) : option (gmultiset nat) :=
  match ops with
  | [] => Some C
  | op :: ops => C' ← enum_refs C op; enum_refs_all C' ops
  end.

Context (remaining : K -> Z -> Z) `{!FileLaws sys remaining} (Hjunk : junk_bytes junk) `{!EnumBackend be}.
Context (Happ : forall n dev event w, same_private w (app n dev event w).2) (g : linux_globals) (named : bool) (Hsystem : system_ok g named).
Context (Hpoll : be_hotplug_poll be = None).
Implicit Types (s : lib (linux K)) (G F L C : gmultiset nat).

(** [enum_grow]: the invariant, possibly with more lost references, which is
    only possible where an allocation failed. *)
Definition enum_grow G F L C s s' : Prop :=
  same_oom s s' /\ exists L', scan_inv be true named g ∅ G F L' C s' /\ (no_malloc_failure (mem s) -> L' = L).

Lemma grow_scan {A} (m : Lib (linux K) A) G F L C s (P : A -> lib (linux K) -> Prop) :
  wp m s (fun a s' => scan_inv be true named g ∅ G F L C s' /\ P a s') -> keeps same_oom m ->
  wp m s (fun _ s' => enum_grow G F L C s s').
Proof.
  intros Hm Hk. eapply wp_mono; [exact (wp_wlp _ _ _ _ Hm (Hk s))|]. intros a s' [[Hinv _] Ho]. split; [done|]. by exists L.
Qed.
(** What is not enumeration. *)
Lemma grow_frame {A} (m : Lib (linux K) A) G F L C C' s :
  scan_inv be true named g ∅ G F L C s -> wp m s (fun _ s' => hot_grow be true F L C' s s') -> wlp m s (fun _ s' => lib_frame s s') ->
  wp m s (fun _ s' => enum_grow G F L C' s s').
Proof.
  intros Hinv Hm Hk. eapply wp_mono; [exact (wp_wlp _ _ _ _ Hm Hk)|]. intros a s' [[Ho (L' & Hhot & HL)] Hframe].
  split; [done|]. exists L'. split; [by eapply scan_frame|done].
Qed.

(** The steps of the udev monitor. *)
Definition grow_ok {A} (m : Lib (linux K) A) : Prop :=
  forall G F L C s, scan_inv be true named g ∅ G F L C s -> wp m s (fun _ s' => enum_grow G F L C s s').
Lemma grow_walk {A} (m : Lib (linux K) A) : walk_ok be true g named m -> keeps same_oom m -> grow_ok m.
Proof. intros Hm Hk G F L C s Hinv. eapply grow_scan; [by apply Hm|done]. Qed.
Lemma grow_bind {A B} (m : Lib (linux K) A) (f : A -> Lib (linux K) B) : grow_ok m -> (forall a, grow_ok (f a)) -> grow_ok (m ≫= f).
Proof.
  intros Hm Hf G F L C s Hinv. apply wp_bind. eapply wp_mono; [by apply Hm|]. intros a s1 (Ho1 & L1 & Hinv1 & HL1).
  eapply wp_mono; [by apply Hf|]. intros b s2 (Ho2 & L2 & Hinv2 & HL2). split; [by etransitivity|].
  exists L2. split; [done|]. intros Hn. rewrite <- HL1 by done. apply HL2. by eapply no_malloc_failure_same.
Qed.
Lemma grow_ret {A} (a : A) : grow_ok (mret a).
Proof. apply grow_walk; [apply walk_ret|keeps]. Qed.
Lemma grow_call {A} (op : K -> A * K) : grow_ok (on_world (sys_call op)).
Proof.
  apply grow_walk; [|apply step_free_world, _]. intros P G F L C s Hinv. eapply scan_sys; [exact Hinv|]. apply sys_call_wp. by auto.
Qed.
Lemma grow_disconnected busnum devaddr : grow_ok (linux_device_disconnected be busnum devaddr).
Proof.
  intros G F L C s Hinv. pose proof (si_hot _ _ _ _ _ _ _ _ _ _ Hinv) as Hhot.
  eapply grow_frame; [exact Hinv|by apply hot_disconnected_wp; [apply eb_hotplug|done|]|by apply frame_disconnected].
Qed.
Lemma grow_enumerate busnum devaddr name : mode_ok named g name -> 0 <= busnum < 256 -> 0 <= devaddr < 256 ->
  grow_ok (linux_hotplug_enumerate sys big junk be busnum devaddr name).
Proof.
  intros Hmode Hb Ha. unfold linux_hotplug_enumerate. apply grow_bind; [|intros r; apply grow_ret].
  apply grow_walk; [by eapply walk_enumerate|apply step_linux_enumerate, _].
Qed.

Lemma udev_receive_wp : named = true -> grow_ok (udev_receive sys ud big junk be).
Proof.
  intros Hn. unfold udev_receive. apply grow_bind.
  { apply grow_walk; [|apply step_free_world, _]. intros P G F L C s Hinv. eapply scan_globals; [exact Hinv|]. split; [exact Hinv|done]. }
  intros g0. apply grow_bind; [apply grow_call|]. intros [dev|]; [|apply grow_ret].
  apply grow_bind; [|intros []; apply grow_ret]. apply grow_bind; [|intros []; apply grow_call].
  unfold handle_udev_event. apply grow_bind; [apply grow_call|]. intros [action|]; [|apply grow_ret].
  intros G F L C s Hinv. apply wp_bind, wp_run_world. eapply wp_mono; [apply udev_device_info_wp|].
  intros [[[r b] a] name] w [Hw Hnum]. assert (scan_inv be true named g ∅ G F L C (set_world w s)) as Hinv1 by (eapply scan_world; [exact Hw|exact Hinv]).
  apply (wp_mono _ _ (fun _ s' => enum_grow G F L C (set_world w s) s')); [|intros x s' H; exact H].
  destruct (Z.eqb_spec r LIBUSB_SUCCESS) as [Hr|]; cbn [negb]; [|by apply grow_ret]. destruct (Hnum Hr) as [Hb Ha].
  case_match; [apply grow_enumerate; try done; by apply (mode_some g named Hsystem)|].
  case_match; [by apply grow_disconnected|by apply grow_ret].
Qed.

Lemma enum_op_wp G F L C C' op s :
  enum_op_ok named g op -> scan_inv be true named g ∅ G F L C s -> enum_refs C op = Some C' ->
  wp (run_enum_op op) s (fun _ s' => enum_grow G F L C' s s').
Proof.
  intros Hop Hinv Hrefs. pose proof (si_hot _ _ _ _ _ _ _ _ _ _ Hinv) as Hhot.
  pose proof (hotplug_no_list be eb_hotplug) as Hlist.
  destruct op as [| | |busnum devaddr name|busnum devaddr|fuel|op|e fl v p c fn|h]; simpl in *; simplify_eq.
  - apply (grow_bind _ (fun _ => mret tt)); [|intros r; apply grow_ret|done].
    apply grow_walk; [|apply step_walk, _]. exact (default_scan_ok sys remaining big junk Hjunk be true g named Hsystem Hop).
  - destruct Hop as [Hn Hctx]. apply (grow_bind _ (fun _ => mret tt)); [|intros r; apply grow_ret|done].
    apply grow_walk; [|apply step_udev_scan; exact _]. intros P. rewrite Hn in *.
    exact (udev_scan_ok sys ud remaining big junk Hjunk be true g Hsystem Hctx P).
  - apply (grow_bind _ (fun _ => mret tt)); [by apply udev_receive_wp|intros r; apply grow_ret|done].
  - destruct Hop as (Hb & Ha & Hn). apply grow_enumerate; try done. by apply mode_of.
  - by apply grow_disconnected.
  - eapply grow_frame; [exact Hinv| |apply frame_event; [done|done|by destruct Hhot]].
    eapply wp_mono; [by apply (hot_event_wp be true big eb_hotplug app F L C')|]. intros [] s' (? & ? & _). by apply hot_grow_intro.
  - eapply grow_frame; [exact Hinv| |by apply frame_client].
    eapply wp_mono; [by apply (hot_client_wp be true eb_hotplug app Hpoll F L C C')|]. intros [] s' [? ?]. by apply hot_grow_intro.
  - apply wp_bind. eapply wp_mono; [|intros r s' H; apply wp_ret; exact H].
    eapply grow_frame; [exact Hinv| |by apply frame_register].
    eapply wp_mono; [by apply (hot_register_wp be true big eb_hotplug app Hpoll F L C')|]. intros r s' [? ?]. by apply hot_grow_intro.
  - eapply grow_frame; [exact Hinv| |by apply frame_deregister].
    eapply wp_mono; [by apply (hot_deregister_wp be true eb_hotplug app F L C')|]. intros [] s' [? ?]. by apply hot_grow_intro.
Qed.

Lemma enum_ops_wp G F L C C' ops s :
  Forall (enum_op_ok named g) ops -> scan_inv be true named g ∅ G F L C s -> enum_refs_all C ops = Some C' ->
  wp (for_each run_enum_op ops) s (fun _ s' => enum_grow G F L C' s s').
Proof.
  revert L C s. induction ops as [|op ops IH]; intros L C s Hok Hinv Hrefs; simpl in *.
  { simplify_eq. apply wp_ret. split; [reflexivity|]. by exists L. }
  apply Forall_cons in Hok as [Hop Hok]. destruct (enum_refs C op) as [C1|] eqn:Hop1; [|done]. apply wp_bind.
  eapply wp_mono; [by apply (enum_op_wp G F L C C1)|]. intros [] s1 (Ho1 & L1 & Hinv1 & HL1).
  eapply wp_mono; [by apply (IH L1 C1)|]. intros [] s2 (Ho2 & L2 & Hinv2 & HL2).
  split; [by etransitivity|]. exists L2. split; [done|]. intros Hn. rewrite <- HL1 by done. apply HL2.
  by eapply no_malloc_failure_same.
Qed.
End operations.

(** ** The theorems *)

Section theorems.
Context {K : Type} (sys : linux_sys K) (ud : udev_sys K) (remaining : K -> Z -> Z) `{!FileLaws sys remaining}.
Context (big : bool) (junk : nat -> list Z) (be : os_backend (linux K)) `{!EnumBackend be}.

(** C6: enumeration is sound.  Whatever the system answers, in every sequence
    of walks over the system, arrivals and departures (with either monitor),
    turns of the event handler and operations of the application, every operation returns
    without a fault: no null name is followed, no descriptor array is
    overrun, and the recursion over parents ends.  Every device of the list
    has the numbers of its session, holds at least the 18 bytes of its device
    descriptor within its array, and has a name where the search for parents
    needs one.  The memory of the backend is that of the devices and nothing
    else, so that none is left when the last device is gone. *)
Theorem enumeration_sound (app : nat -> option nat -> Z -> linux K -> Z * linux K) (g : linux_globals) (named : bool)
    (F G C C' : gmultiset nat) (ops : list enum_op) (s : lib (linux K))
    (Hjunk : junk_bytes junk) (Hpoll : be_hotplug_poll be = None) (Hsystem : system_ok g named)
    (Happ : forall n dev event w, same_private w (app n dev event w).2)
    (Hinv : scan_inv be true named g ∅ G F ∅ C s) (Hok : Forall (enum_op_ok named g) ops) (Hops : enum_refs_all C ops = Some C') :
  exists s' L, for_each (run_enum_op sys ud big junk be app) ops s = Ok (tt, s') /\
    scan_inv be true named g ∅ G F L C' s' /\ (no_malloc_failure (mem s) -> L = ∅) /\
    (no_malloc_failure (mem s) -> usb_devs s' = [] -> hotplug_msgs (ev s') = [] -> C' = ∅ ->
     devices s' = ∅ /\ live (lx_mem (world s')) = G).
Proof.
  pose proof (enum_ops_wp sys ud big junk be app remaining Hjunk Happ g named Hsystem Hpoll G F ∅ C C' ops s Hok Hinv Hops) as Hrun.
  apply wp_ok in Hrun as ([] & s' & Hrun & _ & L & Hinv' & HL). exists s', L. split; [done|]. split; [done|]. split; [done|].
  intros Hn Hu Hm Hc. destruct (hot_devices _ _ _ _ _ _ (si_hot _ _ _ _ _ _ _ _ _ _ Hinv')) as [Hrefs _].
  rewrite Hu, Hm, (HL Hn), Hc in Hrefs. apply refs_ok_empty in Hrefs. split; [done|].
  destruct (si_acc _ _ _ _ _ _ _ _ _ _ Hinv') as [-> _].
  assert (lx_dpriv (world s') = ∅) as ->.
  { apply map_eq. intros d. rewrite lookup_empty. destruct (lx_dpriv (world s') !! d) eqn:Hd; [|done].
    destruct (si_dom _ _ _ _ _ _ _ _ _ _ Hinv' d) as [x Hx]; [by eexists|]. by rewrite Hrefs in Hx. }
  by rewrite map_sum_empty, (left_id_L ∅ (⊎)).
Qed.

(** C17: an arrival that is reported as handled is in the list.  When
    [linux_enumerate_device] returns a code that is not negative, the list
    holds a device with the session of this bus and address, whether it was
    known before or is new; no device that was in the list is lost. *)
Theorem enumerated_device_listed (ready : bool) (g : linux_globals) (named : bool) (F G C : gmultiset nat) (busnum devaddr : Z) (dir : option (list Z))
    (s : lib (linux K)) (Hjunk : junk_bytes junk) (Hsystem : system_ok g named)
    (Hname : named = bool_decide (is_Some dir)) (Hbus : 0 <= busnum < 256) (Haddr : 0 <= devaddr < 256)
    (Hinv : scan_inv be ready named g ∅ G F ∅ C s) :
  exists r s', linux_enumerate sys big junk be busnum devaddr dir s = Ok (r, s') /\
    scan_inv be ready named g ∅ G F ∅ C s' /\ usb_devs s ⊆ usb_devs s' /\
    (0 <= r -> listed (linux_session_id busnum devaddr) s').
Proof.
  pose proof (linux_enumerate_wp sys remaining big junk Hjunk be ready g named Hsystem busnum devaddr dir ∅ G F ∅ C s
    (mode_of g named Hsystem dir Hname) Hbus Haddr Hinv) as Hrun.
  apply wp_ok in Hrun as (r & s' & Hrun & [Hinv' Hsub] & Hl). by exists r, s'.
Qed.
End theorems.

(** ** An example *)

(** Memory that was not written holds zeros. *)
Definition zero_junk (n : nat) : list Z := replicate n 0.
Lemma zero_junk_bytes : junk_bytes zero_junk.
Proof. intros n. split; [|by unfold zero_junk; rewrite length_replicate]. apply Forall_replicate. unfold is_byte. lia. Qed.

(** Two devices: a root hub and a device at its port 1.  The state of the
    kernel is how much of the open file is left, and the open descriptors of
    the monitor. *)
Definition tree_kernel : Type := nat * gset Z.
Definition demo_descriptor : list Z := [18; 1; 0; 2; 9; 0; 0; 64; 107; 29; 2; 0; 0; 0; 0; 0; 0; 1].
Definition tree_text (path : list Z) : Z * list Z :=
  if bool_decide (path = attr_path (bytes_of "1-1") (bytes_of "devnum")) then (0, bytes_of "2")
  else if bool_decide (path = attr_path (bytes_of "1-1") (bytes_of "speed")) then (0, bytes_of "480")
  else (0, bytes_of "1").
Definition tree_sys : linux_sys tree_kernel := {|
  sys_open _ _ k := ((0, 5), (18%nat, k.2));
  sys_read _ n k :=
    let data := take (Z.to_nat n) (drop (18 - k.1) demo_descriptor) in ((0, data), ((k.1 - length data)%nat, k.2));
  sys_close _ k := (tt, k);
  sys_nanosleep k := (tt, k);
  sys_text path k := (tree_text path, k);
  sys_entries path k := (if bool_decide (path = SYSFS_DEVICE_PATH) then Some [bytes_of "1-0:1.0"; bytes_of "1-1"; bytes_of "usb1"]
     else if bool_decide (path = bytes_of "/dev/bus/usb") then Some [bytes_of "001"] else None, k);
  sys_isdir _ k := (true, k);
  sys_uname k := (Some (bytes_of "3.4.0"), k);
  sys_clock_gettime _ k := ((EINVAL, mk_ts 0 0), k);
  sys_mmap _ _ k := ((EINVAL, O), k);
  sys_munmap _ _ k := (EINVAL, k);
  ioctl_control _ _ k := ((ENODEV, []), k);
  ioctl_get_capabilities _ k := ((ENODEV, 0), k);
  ioctl_setconfig _ _ k := (ENODEV, k);
  ioctl_claimintf _ _ k := (ENODEV, k);
  ioctl_releaseintf _ _ k := (ENODEV, k);
  ioctl_setintf _ _ _ k := (ENODEV, k);
  ioctl_clear_halt _ _ k := (ENODEV, k);
  ioctl_reset _ k := (ENODEV, k);
  ioctl_streams _ _ _ _ k := ((ENODEV, 0), k);
  ioctl_getdriver _ _ k := ((ENODEV, []), k);
  ioctl_disconnect _ _ k := (ENODEV, k);
  ioctl_connect _ _ k := ((ENODEV, 0), k);
  ioctl_disconnect_claim _ _ _ _ k := (ENODEV, k)
|}.

#[export] Instance tree_laws : FileLaws tree_sys (fun k _ => Z.of_nat k.1).
Proof.
  split; simpl; [lia|by intros path mode k fd k' [= _ <-]|].
  intros fd n [k fds] data k' Hn [= <- <-]. cbn [fst]. split; [apply is_bytes_take, is_bytes_drop; by apply (bool_decide_unpack _)|].
  set (data := take _ _). assert (length data <= 18 - (18 - k))%nat as Hl.
  { unfold data. rewrite length_take, length_drop. change (length demo_descriptor) with 18%nat. lia. }
  split; [unfold data; rewrite length_take|]; lia.
Qed.

(** The same devices in udev, which goes on announcing the second. *)
Definition tree_udev : udev_sys tree_kernel := {|
  ud_new k := (Some 0%nat, k);
  ud_unref _ k := (tt, k);
  ud_monitor_new_from_netlink _ k := (Some 3%nat, k);
  ud_monitor_filter_add_match_subsystem_devtype _ k := (0, k);
  ud_monitor_enable_receiving _ k := (0, k);
  ud_monitor_get_fd _ k := (7, k);
  ud_monitor_receive_device _ k := (Some 2%nat, k);
  ud_monitor_unref _ k := (tt, k);
  ud_enumerate_new _ k := (Some 4%nat, k);
  ud_enumerate_add_match_subsystem _ k := (tt, k);
  ud_enumerate_add_match_property _ k := (tt, k);
  ud_enumerate_scan_devices _ k := (tt, k);
  ud_entries _ k := ([bytes_of "1-1"; bytes_of "usb1"; bytes_of "usb2"], k);
  ud_enumerate_unref _ k := (tt, k);
  ud_device_new_from_syspath _ path k :=
    (if bool_decide (path = bytes_of "1-1") then Some 2%nat else if bool_decide (path = bytes_of "usb1") then Some 1%nat else None, k);
  ud_device_get_action _ k := (Some (bytes_of "add"), k);
  ud_device_get_devnode dev k := (match dev with Some d => Some (bytes_of "/dev/bus/usb/001/00" ++ [48 + Z.of_nat d]) | None => None end, k);
  ud_device_get_sysname dev k := (match dev with Some 2%nat => Some (bytes_of "1-1") | _ => Some (bytes_of "usb1") end, k);
  ud_device_unref _ k := (tt, k)
|}.

Definition tree_backend : os_backend (linux tree_kernel) := linux_devices idle_backend.
#[export] Instance tree_enum_backend : EnumBackend tree_backend.
Proof. split; [done|done|]. intros w. reflexivity. Qed.

Definition tree_globals : linux_globals :=
  set_sysfs_has_descriptors 1 (set_sysfs_can_relate_devices 1 (set_usbfs_path (Some (bytes_of "/dev/bus/usb"))
    (set_udev (mk_udev (Some 0%nat) (Some 3%nat) 7 (8, 9)) initial_globals))).
(** No device yet. *)
Definition empty_lib {K} (k : K) (g : linux_globals) (ready : bool) : lib (linux K) := set_io_ready ready
  (mk_lib (demo_heap 0) ∅ ∅ ∅ [] [] [] [] demo_event_data true false false None 1 ∅ (3, 4) (-1) false None None 0 false
    (mk_linux k ∅ ∅ ∅ ∅ (demo_heap 0) g)).
Lemma empty_inv {K} (os : os_backend (linux K)) ready named k g :
  scan_inv (linux_devices os) ready named g ∅ ∅ ∅ ∅ ∅ (empty_lib k g ready).
Proof.
  split; [|split; [by vm_compute|]| |done| |done].
  - split; simpl; try done; try constructor.
    + split; [by intros d x Hx|]. split; [|by exists (fun n => n)]. intros d Hd. vm_compute in Hd. lia.
    + split; [by vm_compute|done].
    + intros b Hb. by apply gmultiset_not_elem_of_empty in Hb.
  - intros b Hb. by apply gmultiset_not_elem_of_empty in Hb.
  - intros d [p Hp]. done.
  - intros d Hd. by apply elem_of_nil in Hd.
Qed.
Definition tree_at (ready : bool) : lib (linux tree_kernel) := empty_lib (0%nat, ∅) tree_globals ready.
Definition tree_start : lib (linux tree_kernel) := tree_at true.
Lemma tree_inv ready : scan_inv tree_backend ready true tree_globals ∅ ∅ ∅ ∅ ∅ (tree_at ready).
Proof. apply empty_inv. Qed.
Definition quiet_app (n : nat) (dev : option nat) (event : Z) (w : linux tree_kernel) : Z * linux tree_kernel := (0, w).

Definition tree_ops : list enum_op :=
  [EnumUdevScan; EnumUdevReceive; EnumScanAll; EnumArrive 1 2 (Some (bytes_of "1-1")); EnumEvent 1; EnumEvent 1; EnumLeave 1 2; EnumLeave 1 1; EnumEvent 1; EnumEvent 1].

Lemma enumeration_sound_witness :
  exists s' L, for_each (run_enum_op tree_sys tree_udev false zero_junk tree_backend quiet_app) tree_ops tree_start = Ok (tt, s') /\
    scan_inv tree_backend true true tree_globals ∅ ∅ ∅ L ∅ s' /\ (no_malloc_failure (demo_heap 0) -> L = ∅) /\
    (no_malloc_failure (demo_heap 0) -> usb_devs s' = [] -> hotplug_msgs (ev s') = [] -> (∅ : gmultiset nat) = ∅ ->
     devices s' = ∅ /\ live (lx_mem (world s')) = ∅).
Proof.
  apply (enumeration_sound tree_sys tree_udev (fun k _ => Z.of_nat k.1) false zero_junk tree_backend quiet_app tree_globals true ∅ ∅ ∅ ∅ tree_ops tree_start).
  - exact zero_junk_bytes.
  - done.
  - by split; [eexists|].
  - reflexivity.
  - exact (tree_inv true).
  - unfold tree_ops, enum_op_ok. repeat constructor; first [lia|by eexists].
  - done.
Defined.

(** The parent is enumerated first, and the second report adds nothing; at
    the end no device is left and no block is in use. *)
Example tree_scan :
  match for_each (run_enum_op tree_sys tree_udev false zero_junk tree_backend quiet_app) [EnumUdevScan; EnumUdevReceive] tree_start with
  | Ok (_, s) => map (fun d => option_map (fun x => (d, bus_number x, device_address x, port_number x, parent_dev x, refcnt x)) (devices s !! d)) (usb_devs s)
  | Fault _ => []
  end = [Some (0%nat, 1, 2, 1, Some 1%nat, 1); Some (1%nat, 1, 1, 0, None, 2)].
Proof. vm_compute. reflexivity. Qed.
Example tree_run :
  match for_each (run_enum_op tree_sys tree_udev false zero_junk tree_backend quiet_app) tree_ops tree_start with
  | Ok (_, s) => (map_to_list (devices s), elements (live (mem s)), elements (live (lx_mem (world s))))
  | Fault _ => ([], [0%nat], [])
  end = ([], [], []).
Proof. vm_compute. reflexivity. Qed.

Lemma enumerated_device_listed_witness :
  exists r s', linux_enumerate tree_sys false zero_junk tree_backend 1 2 (Some (bytes_of "1-1")) tree_start = Ok (r, s') /\
    scan_inv tree_backend true true tree_globals ∅ ∅ ∅ ∅ ∅ s' /\ [] ⊆ usb_devs s' /\ (0 <= r -> listed 258 s').
Proof.
  apply (enumerated_device_listed tree_sys (fun k _ => Z.of_nat k.1) false zero_junk tree_backend true tree_globals true ∅ ∅ ∅ 1 2
    (Some (bytes_of "1-1")) tree_start).
  - exact zero_junk_bytes.
  - by split; [eexists|].
  - done.
  - lia.
  - lia.
  - exact (tree_inv true).
Defined.
