(* ===== verification/CacheSpecs.v ===== *)
(** * Walking the descriptor cache

    The functions of LinuxDesc.v on a cache that holds descriptors one behind
    the other, and on one that holds the bytes of configuration trees. *)

From S2P Require Import Prelude Heap ParseDesc Config ConfigSafety DescApi ConfigTree Bos Core Text Log LinuxState LinuxSys LinuxDesc.

(** A descriptor as the kernel writes it: its first byte is its length. *)
Definition kernel_descriptor (d : list Z) : Prop := is_bytes d /\ bLength d = len d /\ 2 <= len d.

Lemma kernel_descriptor_bytes ds : Forall kernel_descriptor ds -> is_bytes (concat ds).
Proof. intros H. apply concat_bytes. eapply Forall_impl; [exact H|]. by intros d [Hb _]. Qed.

Lemma descriptors_length ds : Forall kernel_descriptor ds -> (length ds <= length (concat ds))%nat.
Proof. induction 1 as [|d ds (_ & _ & Hd) _ IH]; simpl; [lia|]. rewrite length_app. lia. Qed.

Section seek.
Context (big : bool).

Lemma parse_bb d rest : kernel_descriptor d ->
  exists hdr, usbi_parse_descriptor big (d ++ rest) "bb" (replicate 2 0) false = Ok (2, hdr) /\
    bLength hdr = len d /\ bDescriptorType hdr = bDescriptorType d.
Proof.
  intros (_ & HL & Hl). destruct d as [|x [|y d]]; simpl in Hl; try lia. exists [x; y].
  split; [by destruct big|]. split; [exact HL|done].
Qed.

(** The reference: the offset of the first descriptor of the type that is not
    at offset 0. *)
Fixpoint next_of_type (t : Z) (ds : list (list Z)) (i : Z) : Z :=
  match ds with
  | [] => LIBUSB_ERROR_NOT_FOUND
  | d :: ds => if negb (i =? 0) && (bDescriptorType d =? t) then i else next_of_type t ds (i + len d)
  end.

Lemma seek_descriptor_loop_eq fuel t ds tail i : Forall kernel_descriptor ds -> (length ds <= fuel)%nat ->
  seek_descriptor_loop big fuel t (concat ds ++ tail) i (len (concat ds)) = Ok (next_of_type t ds i).
Proof.
  revert fuel i. induction ds as [|d ds IH]; intros fuel i Hds Hfuel; [by destruct fuel|].
  apply Forall_cons in Hds as [Hd Hds]. pose proof Hd as (_ & _ & Hlen). simpl in Hfuel. destruct fuel as [|fuel]; [lia|].
  cbn [concat next_of_type seek_descriptor_loop]. rewrite <- app_assoc, len_app.
  rewrite (proj2 (Z.ltb_ge _ _)), (proj2 (Z.eqb_neq _ _)), (proj2 (Z.ltb_ge _ 2)) by lia.
  destruct (parse_bb d (concat ds ++ tail) Hd) as (hdr & -> & HL & HT). cbn [mbind outcome_bind]. rewrite HT, HL.
  destruct (negb (i =? 0) && (bDescriptorType d =? t)); [done|]. rewrite Nat2Z.id, drop_app_length.
  replace (len d + len (concat ds) - len d) with (len (concat ds)) by lia. apply IH; [done|lia].
Qed.

Lemma next_of_type_skip t ds1 ds2 i : Forall (fun d => bDescriptorType d <> t) ds1 ->
  next_of_type t (ds1 ++ ds2) i = next_of_type t ds2 (i + len (concat ds1)).
Proof.
  intros H. revert i. induction H as [|d ds1 Hd _ IH]; intros i; simpl; [f_equal; lia|].
  rewrite (proj2 (Z.eqb_neq _ _) Hd), andb_false_r, IH, length_app. f_equal. lia.
Qed.

(** The walk ends at a boundary. *)
Lemma next_of_type_split t ds i : 0 <= i -> Forall kernel_descriptor ds ->
  next_of_type t ds i = LIBUSB_ERROR_NOT_FOUND \/
  exists ds1 ds2, ds = ds1 ++ ds2 /\ next_of_type t ds i = i + len (concat ds1) /\ 0 < i + len (concat ds1).
Proof.
  intros Hi Hds. revert i Hi. induction Hds as [|d ds (_ & _ & Hd) Hds IH]; intros i Hi; simpl; [by left|].
  destruct (Z.eqb_spec i 0) as [->|Hi0]; simpl.
  - destruct (IH (0 + len d)) as [|(ds1 & ds2 & -> & -> & Hpos)]; [lia|by left|]. right.
    exists (d :: ds1), ds2. split; [done|]. simpl. rewrite length_app. lia.
  - destruct (bDescriptorType d =? t).
    + right. exists [], (d :: ds). split; [done|]. simpl. lia.
    + destruct (IH (i + len d)) as [|(ds1 & ds2 & -> & -> & Hpos)]; [lia|by left|]. right.
      exists (d :: ds1), ds2. split; [done|]. simpl. rewrite length_app. lia.
Qed.

(** ** Any cache *)

(** What may lie in the cache: anything in usbfs, descriptors in sysfs. *)
Definition cache_image (has_descriptors : Z) (buf : list Z) (size : Z) : Prop :=
  is_bytes buf /\ 0 <= size <= len buf /\
  (has_descriptors <> 0 -> exists ds tail, Forall kernel_descriptor ds /\ buf = concat ds ++ tail /\ size = len (concat ds)).

Lemma seek_config_ok has buf size : cache_image has buf size ->
  exists r, seek_to_next_config big has buf size = Ok r /\
    (r < 0 \/ (0 < r <= size /\ LIBUSB_DT_CONFIG_SIZE <= size /\ cache_image has (drop (Z.to_nat r) buf) (size - r))).
Proof.
  intros (Hb & Hsize & Hds). unfold seek_to_next_config. destruct (Z.eqb_spec size 0) as [->|Hs0]; [eexists; split; [done|by left]|].
  destruct (Z.ltb_spec size LIBUSB_DT_CONFIG_SIZE) as [|H9]; [eexists; split; [done|by left]|]. unfold LIBUSB_DT_CONFIG_SIZE in *.
  destruct (parse_descriptor_ok big "bbwbbbbb" false buf (replicate 9 0)) as (cfg & -> & _);
    [done|change (9 <= length buf)%nat; lia|done|]. cbn [mbind outcome_bind].
  destruct (negb (bDescriptorType cfg =? LIBUSB_DT_CONFIG)); [eexists; split; [done|by left]|].
  destruct (Z.eqb_spec has 0) as [->|Hhas]; cbn [negb].
  - assert (forall r, 9 <= r <= size -> exists r', (Ok r : outcome Z) = Ok r' /\
      (r' < 0 \/ 0 < r' <= size /\ 9 <= size /\ cache_image 0 (drop (Z.to_nat r') buf) (size - r'))) as Hok.
    { intros r Hr. exists r. split; [done|]. right. split; [lia|]. split; [done|].
      split; [by apply is_bytes_drop|]. split; [rewrite length_drop; lia|done]. }
    destruct (Z.ltb_spec (wTotalLength big cfg) 9); [eexists; split; [done|by left]|].
    destruct (Z.ltb_spec size (wTotalLength big cfg)); apply Hok; lia.
  - destruct (Hds Hhas) as (ds & tail & Hk & -> & ->). unfold seek_to_next_descriptor.
    rewrite seek_descriptor_loop_eq by (done || rewrite Nat2Z.id; by apply descriptors_length). cbn [mbind outcome_bind].
    assert (exists ds1 ds2, ds = ds1 ++ ds2 /\ 0 < len (concat ds1) /\
      (if next_of_type LIBUSB_DT_CONFIG ds 0 =? LIBUSB_ERROR_NOT_FOUND then len (concat ds)
       else next_of_type LIBUSB_DT_CONFIG ds 0) = len (concat ds1)) as (ds1 & ds2 & -> & Hpos & Hn).
    { destruct (next_of_type_split LIBUSB_DT_CONFIG ds 0) as [->|(ds1 & ds2 & -> & -> & Hpos)]; [lia|done| |].
      - exists ds, []. rewrite app_nil_r. split; [done|]. split; [lia|done].
      - exists ds1, ds2. split; [done|]. split; [lia|]. by rewrite (proj2 (Z.eqb_neq _ _)) by (unfold LIBUSB_ERROR_NOT_FOUND; lia). }
    rewrite Hn. eexists. split; [done|]. right. rewrite concat_app, length_app in *. split; [lia|]. split; [lia|].
    rewrite Nat2Z.id, <- app_assoc, drop_app_length. apply Forall_app in Hk as [_ Hk2].
    split; [|split; [rewrite length_app; lia|]].
    + by rewrite <- app_assoc in Hb; apply Forall_app in Hb as [_ Hb].
    + intros _. exists ds2, tail. split; [done|]. split; [done|lia].
Qed.

(** What the two endless loops give back. *)
Definition found_config (res : Z * list Z) : Prop :=
  let '(r, buf) := res in r < 0 \/ (is_bytes buf /\ 0 < r <= len buf).

Lemma config_by_value_ok fuel has v buf size : cache_image has buf size -> size <= Z.of_nat fuel ->
  exists res, config_by_value_loop big fuel has v buf size = Ok res /\ (found_config res /\ (fst res < 0 -> snd res = [])).
Proof.
  revert buf size. induction fuel as [|fuel IH]; intros buf size Hc Hfuel; pose proof Hc as (Hb & Hs & _);
    destruct (seek_config_ok has buf size Hc) as (r & Hseek & Hr); cbn [config_by_value_loop]; rewrite Hseek; cbn [mbind outcome_bind];
    (destruct (Z.ltb_spec r 0); [eexists; split; [done|]; by split; [left|]|]);
    destruct Hr as [|(Hr & H9 & Hc')]; try lia.
  destruct (lookup_lt_is_Some_2 buf 5) as [v' Hv']; [unfold LIBUSB_DT_CONFIG_SIZE in H9; lia|].
  change (rd buf 5) with (rd buf (Z.of_nat 5)). rewrite (rd_ok buf 5 v' Hv'). cbn [mbind outcome_bind]. destruct (v' =? v).
  - eexists. split; [done|]. simpl. split; [right; split; [done|lia]|lia].
  - apply IH; [done|lia].
Qed.

Lemma config_by_index_ok fuel has i idx buf size : cache_image has buf size -> size <= Z.of_nat fuel ->
  exists res, config_by_index_loop big fuel has i idx buf size = Ok res /\ found_config res.
Proof.
  revert i buf size. induction fuel as [|fuel IH]; intros i buf size Hc Hfuel; pose proof Hc as (Hb & Hs & _);
    destruct (seek_config_ok has buf size Hc) as (r & Hseek & Hr); cbn [config_by_index_loop]; rewrite Hseek; cbn [mbind outcome_bind];
    (destruct (Z.ltb_spec r 0); [eexists; split; [done|]; by left|]);
    destruct Hr as [|(Hr & H9 & Hc')]; try lia.
  destruct (i =? idx); [eexists; split; [done|]; right; split; [done|lia]|]. apply IH; [done|lia].
Qed.

(** ** A cache of configuration trees *)

Definition ep_descs (e : ep_tree) : list (list Z) := et_raw e :: et_extra e.
Definition alt_descs (a : alt_tree) : list (list Z) := at_raw a :: at_extra a ++ flat_map ep_descs (at_eps a).
(** The descriptors behind the configuration descriptor. *)
Definition inner_descs (c : cfg_tree) : list (list Z) := ct_extra c ++ flat_map (flat_map alt_descs) (ct_ifs c).

Lemma flat_map_concat {A B} (f : A -> list (list B)) (g : A -> list B) l :
  (forall a, concat (f a) = g a) -> concat (flat_map f l) = concat (map g l).
Proof. intros H. induction l as [|a l IH]; simpl; [done|]. by rewrite concat_app, H, IH. Qed.

Lemma cfg_bytes_descs c : cfg_bytes c = concat (ct_raw c :: inner_descs c).
Proof.
  unfold cfg_bytes, inner_descs. simpl. rewrite concat_app. do 2 f_equal. symmetry. apply flat_map_concat. intros alts.
  apply flat_map_concat. intros a. unfold alt_descs, alt_bytes. simpl. rewrite concat_app. do 2 f_equal.
  by apply flat_map_concat.
Qed.

Definition inner_descriptor (d : list Z) : Prop := kernel_descriptor d /\ bDescriptorType d <> LIBUSB_DT_CONFIG.
Lemma extra_inner x : extra_ok x -> inner_descriptor x.
Proof.
  intros (Hb & Hp & Hl & H2). split; [done|]. intros Ht. unfold is_proper in Hp. rewrite Ht in Hp. by rewrite !orb_true_r in Hp.
Qed.
Lemma descriptor_inner t n raw : descriptor t n raw -> 2 <= n -> t <> LIBUSB_DT_CONFIG -> inner_descriptor raw.
Proof. intros (Hb & Ht & Hl & Hn) H2 Hne. split; [split; [done|]; split; [done|lia]|congruence]. Qed.

Lemma Forall_flat_map {A B} (P : B -> Prop) (f : A -> list B) l : Forall (fun a => Forall P (f a)) l -> Forall P (flat_map f l).
Proof. induction 1; simpl; [done|]. by apply Forall_app. Qed.

Lemma inner_descs_ok c : cfg_ok c -> Forall inner_descriptor (inner_descs c).
Proof.
  intros (_ & Hxs & _ & _ & _ & numbers & _ & Hifs). apply Forall_app. split; [by eapply Forall_impl; [exact Hxs|apply extra_inner]|].
  apply Forall_flat_map. induction Hifs as [|n alts ns ifs [_ Ha] _ IH]; constructor; [|done].
  apply Forall_flat_map. eapply Forall_impl; [exact Ha|]. intros a [(Hd & Hax & _ & _ & Heps) _]. constructor.
  { by eapply descriptor_inner. }
  apply Forall_app. split; [by eapply Forall_impl; [exact Hax|apply extra_inner]|].
  apply Forall_flat_map. eapply Forall_impl; [exact Heps|]. intros e [He Hex]. constructor; [by eapply descriptor_inner|].
  by eapply Forall_impl; [exact Hex|apply extra_inner].
Qed.

Definition trees_bytes (ts : list cfg_tree) : list Z := concat (map cfg_bytes ts).

Lemma trees_descriptors ts : Forall cfg_ok ts -> exists ds, Forall kernel_descriptor ds /\ trees_bytes ts = concat ds /\
  match ts with [] => ds = [] | t :: _ => exists ds', ds = ct_raw t :: ds' end.
Proof.
  induction 1 as [|t ts Ht Hts (ds & Hds & Heq & _)]; [by exists []|].
  exists ((ct_raw t :: inner_descs t) ++ ds). split; [|split].
  - apply Forall_app. split; [|done]. constructor.
    + destruct Ht as ((Hb & _ & Hl & H9) & _). unfold LIBUSB_DT_CONFIG_SIZE in H9. split; [done|]. split; [done|lia].
    + eapply Forall_impl; [by apply inner_descs_ok|]. by intros d [Hd _].
  - change (cfg_bytes t ++ trees_bytes ts = concat ((ct_raw t :: inner_descs t) ++ ds)).
    by rewrite concat_app, <- cfg_bytes_descs, Heq.
  - by eexists.
Qed.

(** At the start of a configuration the length of it is found, in both
    layouts of the cache. *)
Lemma seek_config_tree has t ts tail : Forall cfg_ok (t :: ts) -> announced t ->
  seek_to_next_config big has (cfg_bytes t ++ trees_bytes ts ++ tail) (len (cfg_bytes t) + len (trees_bytes ts))
    = Ok (len (cfg_bytes t)).
Proof.
  intros Hall Hann. pose proof (proj1 (Forall_cons _ _ _) Hall) as [Ht Hts]. pose proof Ht as (Hd & _).
  assert (9 <= len (cfg_bytes t)) as H9.
  { destruct Hd as (_ & _ & _ & Hl). unfold LIBUSB_DT_CONFIG_SIZE in Hl. unfold cfg_bytes. rewrite length_app. lia. }
  unfold seek_to_next_config. rewrite (proj2 (Z.eqb_neq _ _)) by lia. unfold LIBUSB_DT_CONFIG_SIZE.
  rewrite (proj2 (Z.ltb_ge _ _)) by lia.
  assert (cfg_bytes t ++ trees_bytes ts ++ tail = ct_raw t ++ (concat (inner_descs t) ++ trees_bytes ts ++ tail)) as Heq
    by (by rewrite cfg_bytes_descs; simpl; rewrite <- !app_assoc).
  destruct (parse_cfg_struct big (ct_raw t) (concat (inner_descs t) ++ trees_bytes ts ++ tail) (replicate 9 0) Hd eq_refl)
    as (cfg & Hcfg & Hf & _ & Hlen & _ & HT). rewrite <- Heq in Hcfg. rewrite Hcfg. cbn [mbind outcome_bind].
  pose proof Hd as (_ & Hty & _ & _). rewrite HT, Hty. cbn [negb Z.eqb Pos.eqb].
  destruct (Z.eqb_spec has 0) as [->|Hhas]; cbn [negb].
  - assert (wTotalLength big cfg = len (cfg_bytes t)) as ->.
    { rewrite <- Hann. transitivity (nth 2 (struct_fields big "bbwbbbbb" cfg 0) 0); [reflexivity|]. by rewrite Hf. }
    rewrite (proj2 (Z.ltb_ge _ _)) by lia. by rewrite (proj2 (Z.ltb_ge _ _)) by lia.
  - destruct (trees_descriptors ts Hts) as (ds & Hds & Hb & Hhead).
    assert (cfg_bytes t ++ trees_bytes ts = concat ((ct_raw t :: inner_descs t) ++ ds)) as Hcat
      by (by rewrite concat_app, <- cfg_bytes_descs, Hb).
    assert (Forall kernel_descriptor ((ct_raw t :: inner_descs t) ++ ds)) as Hk.
    { apply Forall_app. split; [|done]. constructor.
      - destruct Hd as (Hb' & _ & Hl & Hn). unfold LIBUSB_DT_CONFIG_SIZE in Hn. split; [done|]. split; [done|lia].
      - eapply Forall_impl; [by apply inner_descs_ok|]. by intros d [Hd' _]. }
    unfold seek_to_next_descriptor. rewrite app_assoc, <- len_app, Hcat.
    rewrite seek_descriptor_loop_eq by (done || rewrite Nat2Z.id; by apply descriptors_length). cbn [mbind outcome_bind].
    assert (next_of_type LIBUSB_DT_CONFIG ((ct_raw t :: inner_descs t) ++ ds) 0
      = next_of_type LIBUSB_DT_CONFIG ds (len (cfg_bytes t))) as ->.
    { cbn [app next_of_type Z.eqb negb andb]. rewrite Z.add_0_l, next_of_type_skip.
      - f_equal. rewrite cfg_bytes_descs. simpl. rewrite length_app. lia.
      - eapply Forall_impl; [by apply inner_descs_ok|]. by intros d [_ Hd']. }
    destruct ts as [|t2 ts].
    + subst ds. cbn [next_of_type Z.eqb Pos.eqb LIBUSB_ERROR_NOT_FOUND]. rewrite <- Hcat. unfold trees_bytes. simpl. by rewrite app_nil_r.
    + destruct Hhead as (ds' & ->). cbn [next_of_type]. rewrite (proj2 (Z.eqb_neq (len (cfg_bytes t)) 0)) by lia.
      apply Forall_cons in Hts as [((_ & Hty2 & _) & _) _]. rewrite Hty2, Z.eqb_refl. cbn [negb andb].
      by rewrite (proj2 (Z.eqb_neq _ _)) by (unfold LIBUSB_ERROR_NOT_FOUND; lia).
Qed.
End seek.
