(* ===== verification/CacheProps.v ===== *)
(** * Properties of the descriptor cache of the Linux backend

    The backend keeps the contract under which configurations are fetched,
    and what the library reads through it are the configurations the cache
    holds. *)

From S2P Require Import Prelude Heap ParseDesc Config ConfigSafety DescApi ConfigTree DescProps TreeProps Bos Core Text Log LinuxState LinuxSys LinuxDesc LinuxDemo SysSpecs CacheSpecs.

(** ** The contract *)


Section contract.
Context {K : Type} (sys : linux_sys K) (big : bool) (d : nat).
Implicit Types (w : linux K).

(** The cache of the device [d] was filled, and sysfs is only used for a
    device that has a name there. *)
Definition cache_good w : Prop :=
  let p := default zero_dpriv (lx_dpriv w !! d) in
  let g := lx_globals w in
  (sysfs_can_relate_devices g <> 0 -> is_Some (dp_sysfs_dir p)) /\
  exists b bytes, dp_descriptors p = Some (b, bytes) /\ DEVICE_DESC_LENGTH <= dp_descriptors_len p /\
    cache_image (sysfs_has_descriptors g) (drop (Z.to_nat DEVICE_DESC_LENGTH) bytes) (dp_descriptors_len p - DEVICE_DESC_LENGTH).





End contract.


(** ** What is read is what the cache holds *)



Section trees.
Context (big : bool) (has : Z).



End trees.

Section cached.
Context {K : Type} (sys : linux_sys K) (big : bool) (d : nat) (ts : list cfg_tree).
Context (Hok : Forall cfg_ok ts) (Hann : Forall announced ts).
Implicit Types (w : linux K).

(** The cache holds a device descriptor and the configurations [ts]. *)
Definition cache_holds w : Prop :=
  let p := default zero_dpriv (lx_dpriv w !! d) in
  exists b device_desc tail, dp_descriptors p = Some (b, device_desc ++ trees_bytes ts ++ tail) /\
    len device_desc = DEVICE_DESC_LENGTH /\ dp_descriptors_len p = DEVICE_DESC_LENGTH + len (trees_bytes ts).
Definition cached w : Prop := cache_good d w /\ cache_holds w.




(** How the value of the active configuration is found: in sysfs, or in the
    cache.  [I]: what else is known of the state. *)
Definition active_value (I : linux K -> Prop) (v : Z) : Prop := forall w, cached w /\ I w -> exists w', (cached w' /\ I w') /\
  (if negb (sysfs_can_relate_devices (lx_globals w) =? 0) then sysfs_get_active_config sys d 0
   else priv ← dpriv_of d; mret (0, dp_active_config priv)) w = Ok ((0, v), w').

End cached.






Lemma usbfs_active_value {K : Type} (sys : linux_sys K) d ts v :
  active_value sys d ts (fun w : linux K => sysfs_can_relate_devices (lx_globals w) = 0 /\
    dp_active_config (default zero_dpriv (lx_dpriv w !! d)) = v) v.
Proof. intros w [Hc [Hz Hv]]. exists w. split; [done|]. rewrite Hz. simpl. unfold mbind, M_bind. simpl. by rewrite Hv. Qed.

(** Nothing in [seek_to_next_descriptor] stops at a descriptor of length
    0: the offset and the size stay as they are, and the loop goes round for
    ever.  The kernel is trusted not to write one; a file system that is not
    the kernel's may. *)
Theorem zero_length_descriptor_loops (big : bool) (t x i size : Z) (rest : list Z)
    (Hsize : 2 <= size) (Htype : i = 0 \/ x <> t) :
  forall fuel, seek_descriptor_loop big fuel t (0 :: x :: rest) i size = Fault OutOfFuel.
Proof.
  assert (usbi_parse_descriptor big (0 :: x :: rest) "bb" (replicate 2 0) false = Ok (2, [0; x])) as Hparse by (by destruct big).
  induction fuel as [|fuel IH]; cbn [seek_descriptor_loop];
    rewrite (proj2 (Z.ltb_ge _ _)), (proj2 (Z.eqb_neq size 0)), (proj2 (Z.ltb_ge size 2)), Hparse by lia; cbn [mbind outcome_bind];
    change (bDescriptorType [0; x]) with x; change (bLength [0; x]) with 0;
    (assert (negb (i =? 0) && (x =? t) = false) as ->
      by (destruct Htype as [->|Hne]; [done|]; rewrite (proj2 (Z.eqb_neq _ _) Hne); apply andb_false_r)); [done|].
  rewrite Z.add_0_r, Z.sub_0_r. exact IH.
Qed.
Lemma zero_length_descriptor_loops_witness :
  seek_descriptor_loop false 1000 LIBUSB_DT_CONFIG [0; 4; 9; 2] 9 4 = Fault OutOfFuel.
Proof. apply (zero_length_descriptor_loops false LIBUSB_DT_CONFIG 4 9 4 [9; 2]); [lia|by right]. Defined.
