(* ===== verification/UeventSpecs.v ===== *)
(** * The messages of the kernel and what they mean

    A message is a sequence of texts, each ended by a zero: a header, then
    variables such as ACTION=add.  The reference looks variables up in the
    list of texts; the parser of linux_netlink.c finds the same in the
    buffer. *)

From S2P Require Import Prelude Heap ParseDesc DescApi Bos Core Text Log LinuxState LinuxSys LinuxNetlink SysSpecs.

(** ** The reference *)

(** A character string of C: no zero inside. *)
Abbreviation text := (list Z).
Definition no_zero (l : text) : Prop := 0 ∉ l.

(** The value of the first variable with that name. *)
Fixpoint variable (key : text) (entries : list text) : option text :=
  match entries with
  | [] => None
  | e :: entries =>
      match strip_prefix (key ++ [61]) e with
      | Some v => Some v
      | None => variable key entries
      end
  end.

(** The number at the start of a text; [None]: out of the range of
    [unsigned long]. *)
Definition text_number (l : text) : option Z :=
  match scan_number l with
  | None => Some 0
  | Some (n, _) => if 2 ^ 64 <=? Z.abs n then None else Some (u8 (Z.land (n mod 2 ^ 64) 255))
  end.

Definition is_text (v : option text) (t : string) : bool := bool_decide (v = Some (bytes_of t)).

(** With BUSNUM and DEVNUM; the name is the last part of DEVPATH. *)
Definition numbered_device (entries : list text) (detached : bool) (bus : text) : option uevent :=
  busnum ← text_number bus;
  devnum ← variable (bytes_of "DEVNUM") entries;
  devaddr ← text_number devnum;
  devpath ← variable (bytes_of "DEVPATH") entries;
  Some (mk_uevent detached (option_map snd (strrchr devpath 47)) busnum devaddr).

(** With DEVICE: the three characters before the last slash and what follows
    it. *)
Definition path_device (entries : list text) (detached : bool) : option uevent :=
  device ← variable (bytes_of "DEVICE") entries;
  '(before, behind) ← strrchr device 47;
  let line := bytes_of "DEVICE=" ++ device in
  busnum ← text_number (drop (length (bytes_of "DEVICE=") + length before - 3) line);
  devaddr ← text_number behind;
  Some (mk_uevent detached None busnum devaddr).

Definition uevent_spec (entries : list text) : option uevent :=
  let get key := variable (bytes_of key) entries in
  let detached := is_text (get "ACTION") "remove" in
  if (detached || is_text (get "ACTION") "add") && is_text (get "SUBSYSTEM") "usb" && is_text (get "DEVTYPE") "usb_device" then
    match get "BUSNUM" with
    | Some bus => numbered_device entries detached bus
    | None => path_device entries detached
    end
  else None.

(** The message with these texts. *)
Definition message (entries : list text) : list Z := concat (map (fun e => e ++ [0]) entries).

(** ** Reading texts in a buffer *)

Lemma rd_head c l : rd (c :: l) 0 = Ok c.
Proof. done. Qed.

Lemma reads_as_eq key final v rest :
  no_zero key -> final <> 0 -> no_zero v ->
  reads_as key final (v ++ 0 :: rest) = Ok (bool_decide (is_Some (strip_prefix (key ++ [final]) v))).
Proof.
  revert v. induction key as [|k key IH]; intros v Hk Hf Hv; destruct v as [|c v]; cbn [reads_as app strip_prefix].
  - rewrite rd_head. cbn [mbind outcome_bind]. rewrite (proj2 (Z.eqb_neq 0 final)) by congruence.
    rewrite bool_decide_false; [done|by intros []].
  - rewrite rd_head. cbn [mbind outcome_bind]. rewrite (Z.eqb_sym final c). by destruct (c =? final).
  - rewrite rd_head. cbn [mbind outcome_bind]. unfold no_zero in Hk. rewrite (proj2 (Z.eqb_neq 0 k)) by set_solver.
    rewrite bool_decide_false; [done|by intros []].
  - rewrite rd_head. cbn [mbind outcome_bind]. rewrite (Z.eqb_sym k c). destruct (c =? k); simpl.
    + apply IH; [|done|]; unfold no_zero in *; set_solver.
    + done.
Qed.

Lemma strcmp_eq_eq t v rest : no_zero t -> no_zero v -> strcmp_eq t (v ++ 0 :: rest) = Ok (bool_decide (v = t)).
Proof.
  unfold strcmp_eq. revert v. induction t as [|k t IH]; intros v Ht Hv; destruct v as [|c v]; cbn [reads_as app];
    rewrite rd_head; cbn [mbind outcome_bind]; unfold no_zero in *.
  - by rewrite bool_decide_true.
  - rewrite (proj2 (Z.eqb_neq c 0)) by set_solver. by rewrite bool_decide_false.
  - rewrite (proj2 (Z.eqb_neq 0 k)) by set_solver. by rewrite bool_decide_false.
  - destruct (Z.eqb_spec c k) as [->|Hne]; cbn [drop].
    + rewrite drop_0, IH by set_solver. f_equal. apply bool_decide_ext. naive_solver.
    + by rewrite bool_decide_false by congruence.
Qed.

Lemma c_strlen_eq v rest : no_zero v -> c_strlen (v ++ 0 :: rest) = Ok (length v).
Proof.
  intros Hv. induction v as [|c v IH]; [done|]. unfold no_zero in *. cbn [app c_strlen length].
  rewrite (proj2 (Z.eqb_neq c 0)) by set_solver. rewrite IH by set_solver. done.
Qed.

Lemma cstring_eq v rest : no_zero v -> cstring (v ++ 0 :: rest) = v.
Proof.
  intros Hv. induction v as [|c v IH]; [done|]. unfold no_zero in *. simpl.
  rewrite (proj2 (Z.eqb_neq c 0)) by set_solver. rewrite IH by set_solver. done.
Qed.

(** ** Numbers *)

Lemma skip_space_app v rest : exists v', skip_space v = v' /\ skip_space (v ++ 0 :: rest) = v' ++ 0 :: rest.
Proof.
  induction v as [|c v (v' & IH1 & IH2)]; [by exists []|]. cbn [skip_space app].
  destruct (is_space c); [by exists v'|by exists (c :: v)].
Qed.
Lemma scan_digits_app v rest acc : exists n v', scan_digits v acc = (n, v') /\ scan_digits (v ++ 0 :: rest) acc = (n, v' ++ 0 :: rest).
Proof.
  revert acc. induction v as [|c v IH]; intros acc; [by exists acc, []|]. cbn [scan_digits app].
  destruct (is_digit c); [apply IH|by exists acc, (c :: v)].
Qed.
Lemma scan_number_app v rest :
  scan_number (v ++ 0 :: rest) = (fun p : Z * list Z => (p.1, p.2 ++ 0 :: rest)) <$> scan_number v.
Proof.
  unfold scan_number. destruct (skip_space_app v rest) as (v' & -> & ->).
  assert (forall (neg : bool) v, match v ++ 0 :: rest with
      | c :: _ => if is_digit c then let '(n, r) := scan_digits (v ++ 0 :: rest) 0 in Some (if neg then - n else n, r) else None
      | [] => None end = (fun p : Z * list Z => (p.1, p.2 ++ 0 :: rest)) <$> match v with
      | c :: _ => if is_digit c then let '(n, r) := scan_digits v 0 in Some (if neg then - n else n, r) else None
      | [] => None end) as Hdigits.
  { intros neg u. destruct (scan_digits_app u rest 0) as (n & u' & Hu & Hu'). rewrite Hu, Hu'.
    destruct u as [|c u]; [done|]. cbn [app]. by destruct (is_digit c). }
  destruct v' as [|c v']; [done|]. cbn [app]. destruct (is_sign c); [apply Hdigits|].
  apply (Hdigits false (c :: v')).
Qed.

Lemma strtoul_eq v rest :
  (b ← strtoul (v ++ 0 :: rest); Ok (if (snd b : bool) then None else Some (u8 (Z.land (fst b) 255)))) = Ok (text_number v).
Proof.
  unfold strtoul, text_number. rewrite scan_number_app. destruct (scan_number v) as [[n v']|]; simpl.
  - destruct v' as [|c v']; simpl; by destruct (2 ^ 64 <=? Z.abs n).
  - destruct (skip_space_app v rest) as (v' & _ & ->). by destruct v' as [|c [|d v']]; [destruct rest| |].
Qed.

(** ** Looking up a variable *)

(** A message whose texts are not empty and hold no zero. *)
Definition entry_ok (e : text) : Prop := no_zero e /\ e <> [].

Lemma strip_prefix_spec p l v : strip_prefix p l = Some v <-> l = p ++ v.
Proof.
  revert l. induction p as [|a p IH]; intros l; simpl; [naive_solver|]. destruct l as [|b l]; [naive_solver|].
  destruct (Z.eqb_spec a b) as [->|Hne]; [rewrite IH; naive_solver|naive_solver].
Qed.

(** Where the parser is: at the start of one of the texts. *)
Definition found_at (key v : text) (buffer : list Z) (off : nat) : Prop :=
  exists start rest, off = (start + length key + 1)%nat /\ drop start buffer = key ++ 61 :: v ++ 0 :: rest.

Lemma found_value key v buffer off : found_at key v buffer off -> exists rest, drop off buffer = v ++ 0 :: rest.
Proof.
  intros (start & rest & -> & Hd). exists rest. rewrite <- !drop_drop, Hd.
  rewrite drop_app_length. done.
Qed.

Lemma netlink_find_eq key entries buffer fuel off rest :
  no_zero key -> Forall entry_ok entries -> drop off buffer = message entries ++ rest ->
  (length (message entries) <= fuel)%nat ->
  exists r, netlink_find fuel buffer off (off + length (message entries)) key = Ok r /\
    match variable key entries with
    | None => r = None
    | Some v => exists off', r = Some off' /\ found_at key v buffer off'
    end.
Proof.
  intros Hkey Hentries. revert off fuel. induction Hentries as [|e entries [Hz Hne] _ IH]; intros off fuel Hd Hfuel.
  { exists None. split; [|done]. destruct fuel; cbn [netlink_find]; by rewrite (proj2 (Nat.leb_le _ _)) by (simpl; lia). }
  assert (message (e :: entries) = e ++ 0 :: message entries) as Hm by (unfold message; simpl; by rewrite <- app_assoc).
  rewrite Hm in *. rewrite length_app in *. cbn [length] in *. rewrite <- app_assoc in Hd. cbn [app] in Hd.
  destruct e as [|c e]; [done|]. assert (drop off buffer = (c :: e) ++ 0 :: message entries ++ rest) as Hd' by done.
  assert (netlink_find fuel buffer off (off + (length (c :: e) + S (length (message entries)))) key =
    if bool_decide (is_Some (strip_prefix (key ++ [61]) (c :: e))) then Ok (Some (off + length key + 1)%nat) else
    match fuel with
    | O => Fault OutOfFuel
    | S fuel => netlink_find fuel buffer (off + length (c :: e) + 1) (off + (length (c :: e) + S (length (message entries)))) key
    end) as ->.
  { destruct fuel; cbn [netlink_find]; rewrite (proj2 (Nat.leb_gt _ _)) by (simpl; lia); rewrite Hd';
      change (rd ((c :: e) ++ 0 :: message entries ++ rest) 0) with (Ok c); cbn [mbind outcome_bind];
      (rewrite (proj2 (Z.eqb_neq c 0)) by (unfold no_zero in Hz; set_solver)); rewrite reads_as_eq by done; cbn [mbind outcome_bind];
      (destruct (bool_decide _); [done|]); by rewrite c_strlen_eq. }
  cbn [variable]. destruct (strip_prefix (key ++ [61]) (c :: e)) as [v|] eqn:Hv.
  - rewrite bool_decide_true by (eexists; done). eexists. split; [done|]. eexists. split; [done|].
    exists off, (message entries ++ rest). split; [done|]. apply strip_prefix_spec in Hv. rewrite Hd', Hv.
    by rewrite <- !app_assoc.
  - rewrite bool_decide_false by (intros []; done). destruct fuel as [|fuel]; [simpl in Hfuel; lia|].
    replace (off + (length (c :: e) + S (length (message entries))))%nat
      with (off + length (c :: e) + 1 + length (message entries))%nat by lia. apply IH; [|simpl in Hfuel; lia].
    rewrite <- !drop_drop, Hd', drop_app_length. done.
Qed.

Section values.
Context (buffer : list Z).

Lemma number_at_eq off v rest : drop off buffer = v ++ 0 :: rest -> number_at buffer off = Ok (text_number v).
Proof. intros Hd. unfold number_at. rewrite Hd, <- (strtoul_eq v rest). by destruct (strtoul _) as [[]|]. Qed.

Lemma last_slash_eq off v rest : no_zero v -> drop off buffer = v ++ 0 :: rest ->
  last_slash buffer off = Ok (option_map (fun ba : list Z * list Z => (off + length ba.1)%nat) (strrchr v 47)).
Proof.
  intros Hv Hd. unfold last_slash. rewrite Hd, c_strlen_eq by done. cbn [mbind outcome_bind].
  rewrite take_app_length. by destruct (strrchr v 47) as [[b a]|].
Qed.

Lemma strcmp_at t off v rest : no_zero t -> no_zero v -> drop off buffer = v ++ 0 :: rest ->
  strcmp_eq t (drop off buffer) = Ok (bool_decide (v = t)).
Proof. intros Ht Hv ->. by apply strcmp_eq_eq. Qed.
End values.

Ltac plain_text := apply (bool_decide_unpack _); vm_compute; exact I.

Section parse.
Context (entries : list text) (junk : list Z) (Hentries : Forall entry_ok entries).
Abbreviation buffer := (message entries ++ junk).
Abbreviation len := (length (message entries)).

Lemma variable_no_zero key v : variable key entries = Some v -> no_zero v.
Proof.
  revert Hentries. clear. induction entries as [|e l IH]; [done|]. intros [[Hz _] Hl]%Forall_cons. simpl.
  destruct (strip_prefix _ e) as [v'|] eqn:Hv; [|by apply IH]. intros [= ->]. apply strip_prefix_spec in Hv. subst e.
  unfold no_zero in *. rewrite elem_of_app in Hz. tauto.
Qed.

(** The parser's look-up, with what the buffer holds at the offset. *)
Lemma parse_eq (key : string) : no_zero (bytes_of key) ->
  match variable (bytes_of key) entries with
  | None => netlink_message_parse buffer len (bytes_of key) = Ok None
  | Some v => exists off, netlink_message_parse buffer len (bytes_of key) = Ok (Some off) /\
      no_zero v /\ found_at (bytes_of key) v buffer off
  end.
Proof.
  intros Hkey. destruct (netlink_find_eq (bytes_of key) entries buffer len 0 junk Hkey Hentries eq_refl (le_n _)) as (r & Hr & Hpost).
  unfold netlink_message_parse. change (0 + len)%nat with len in Hr. destruct (variable _ entries) as [v|] eqn:Hv; [|by subst r].
  destruct Hpost as (off & -> & Hoff). exists off. split; [done|]. split; [by eapply variable_no_zero|done].
Qed.

Lemma key_is_eq (key t : string) : no_zero (bytes_of key) -> no_zero (bytes_of t) ->
  key_is buffer len (bytes_of key) (bytes_of t) = Ok (is_text (variable (bytes_of key) entries) t).
Proof.
  intros Hkey Ht. unfold key_is, is_text. pose proof (parse_eq key Hkey) as Hp. destruct (variable _ entries) as [v|].
  - destruct Hp as (off & -> & Hv & Hoff). cbn [mbind outcome_bind]. destruct (found_value _ _ _ _ Hoff) as [rest Hd].
    rewrite (strcmp_at _ _ _ _ rest) by done. f_equal. apply bool_decide_ext. naive_solver.
  - by rewrite Hp.
Qed.

Lemma parse_numbers_eq detached tmp bus rest : drop tmp buffer = bus ++ 0 :: rest ->
  parse_numbers buffer len detached tmp = Ok (numbered_device entries detached bus).
Proof.
  intros Hd. unfold parse_numbers, numbered_device. rewrite (number_at_eq _ _ _ _ Hd). cbn [mbind outcome_bind option_bind].
  destruct (text_number bus) as [busnum|]; [|done]. cbn [mbind option_bind].
  pose proof (parse_eq "DEVNUM" ltac:(plain_text)) as Hp. destruct (variable (bytes_of "DEVNUM") entries) as [devnum|]; [|by rewrite Hp].
  destruct Hp as (off & -> & _ & Hoff). destruct (found_value _ _ _ _ Hoff) as [rest' Hd']. cbn [mbind outcome_bind option_bind].
  rewrite (number_at_eq _ _ _ _ Hd'). cbn [mbind outcome_bind option_bind]. destruct (text_number devnum) as [devaddr|]; [|done].
  pose proof (parse_eq "DEVPATH" ltac:(plain_text)) as Hp. cbn [mbind option_bind].
  destruct (variable (bytes_of "DEVPATH") entries) as [devpath|]; [|by rewrite Hp].
  destruct Hp as (off' & -> & Hz & Hoff'). destruct (found_value _ _ _ _ Hoff') as [rest'' Hd'']. cbn [mbind outcome_bind option_bind].
  rewrite (last_slash_eq _ _ _ rest'') by done. cbn [mbind outcome_bind]. do 3 f_equal.
  destruct (strrchr devpath 47) as [[b a]|] eqn:Hs; [|done]. cbn [option_map fst snd]. f_equal.
  apply strrchr_spec in Hs. subst devpath. rewrite <- !drop_drop, Hd'', <- app_assoc, drop_app_length. cbn [app drop].
  rewrite drop_0. apply cstring_eq. unfold no_zero in *. set_solver.
Qed.

Lemma parse_device_path_eq detached : parse_device_path buffer len detached = Ok (path_device entries detached).
Proof.
  unfold parse_device_path, path_device. pose proof (parse_eq "DEVICE" ltac:(plain_text)) as Hp.
  destruct (variable (bytes_of "DEVICE") entries) as [device|]; [|by rewrite Hp].
  destruct Hp as (off & -> & Hz & Hoff). destruct (found_value _ _ _ _ Hoff) as [rest Hd]. cbn [mbind outcome_bind option_bind].
  rewrite (last_slash_eq _ _ _ rest) by done. cbn [mbind outcome_bind].
  destruct (strrchr device 47) as [[before behind]|] eqn:Hs; [|done]. cbn [option_map fst mbind option_bind].
  apply strrchr_spec in Hs. destruct Hoff as (start & rest' & -> & Hstart).
  set (skip := (length (bytes_of "DEVICE=") + length before - 3)%nat).
  assert (drop (start + length (bytes_of "DEVICE") + 1 + length before - 3) buffer =
    drop skip (bytes_of "DEVICE=" ++ device) ++ 0 :: rest') as Hbus.
  { replace (start + length (bytes_of "DEVICE") + 1 + length before - 3)%nat with (start + skip)%nat
      by (unfold skip; change (length (bytes_of "DEVICE=")) with 7%nat; change (length (bytes_of "DEVICE")) with 6%nat; lia).
    rewrite <- drop_drop, Hstart. change (bytes_of "DEVICE=") with (bytes_of "DEVICE" ++ [61]).
    rewrite <- drop_app_le, <- !app_assoc; [done|]. unfold skip. rewrite !length_app, Hs, length_app. simpl. lia. }
  rewrite (number_at_eq _ _ _ _ Hbus). cbn [mbind outcome_bind]. destruct (text_number (drop skip _)) as [busnum|]; [|done].
  cbn [mbind option_bind].
  assert (drop (start + length (bytes_of "DEVICE") + 1 + length before + 1) buffer = behind ++ 0 :: rest) as Hdev.
  { rewrite <- (Nat.add_assoc _ (length before) 1), <- drop_drop, Hd, Hs, <- app_assoc, <- drop_drop, drop_app_length. done. }
  rewrite (number_at_eq _ _ _ _ Hdev). cbn [mbind outcome_bind]. by destruct (text_number behind).
Qed.

Lemma netlink_parse_eq : linux_netlink_parse buffer len = Ok (uevent_spec entries).
Proof.
  unfold linux_netlink_parse, uevent_spec. pose proof (parse_eq "ACTION" ltac:(plain_text)) as Hp.
  destruct (variable (bytes_of "ACTION") entries) as [action|]; [|by rewrite Hp].
  destruct Hp as (off & -> & Hz & Hoff). destruct (found_value _ _ _ _ Hoff) as [rest Hd]. cbn [mbind outcome_bind].
  rewrite (strcmp_at _ (bytes_of "remove") _ _ rest) by (done || plain_text). cbn [mbind outcome_bind].
  assert (forall t, is_text (Some action) t = bool_decide (action = bytes_of t)) as His
    by (intros t; apply bool_decide_ext; naive_solver).
  rewrite !His. set (detached := bool_decide (action = bytes_of "remove")).
  rewrite (strcmp_at _ (bytes_of "add") _ _ rest) by (done || plain_text).
  assert ((if detached then Ok true else Ok (bool_decide (action = bytes_of "add"))) =
    Ok (detached || bool_decide (action = bytes_of "add"))) as -> by (by destruct detached).
  cbn [mbind outcome_bind]. destruct (detached || _); [|done]. cbn [negb andb].
  rewrite (key_is_eq "SUBSYSTEM" "usb") by plain_text. cbn [mbind outcome_bind]. destruct (is_text _ "usb"); [|done]. cbn [negb andb].
  rewrite key_is_eq by plain_text. cbn [mbind outcome_bind]. destruct (is_text _ "usb_device"); [|done]. cbn [negb].
  pose proof (parse_eq "BUSNUM" ltac:(plain_text)) as Hp. destruct (variable (bytes_of "BUSNUM") entries) as [bus|].
  - destruct Hp as (off' & -> & _ & Hoff'). destruct (found_value _ _ _ _ Hoff') as [rest' Hd']. by eapply parse_numbers_eq.
  - rewrite Hp. apply parse_device_path_eq.
Qed.
End parse.
