(* ===== verification/NetlinkProps.v ===== *)
(** * Properties of the netlink monitor *)

From S2P Require Import Prelude Heap ParseDesc DescApi Bos Core Text Log Devices Hotplug HotplugLife Events Demo LinuxState LinuxSys LinuxDesc LinuxEnum LinuxNetlink LinuxDemo UeventSpecs.

(** C18: the parser of the messages of the kernel implements the look-up of
    variables.  For every message that consists of texts with a zero behind
    each, in a buffer of any content behind them, [linux_netlink_parse] reads
    no byte outside the buffer, ends, and answers what the reference says:
    the message must be about the arrival or departure of a USB device (not
    of one of its interfaces), the numbers come from BUSNUM and DEVNUM or
    from the end of DEVICE, out-of-range numbers refuse the message, and the
    name is what follows the last slash of DEVPATH. *)
Theorem uevent_parse_refines (entries : list text) (junk : list Z) (Hentries : Forall entry_ok entries) :
  linux_netlink_parse (message entries ++ junk) (length (message entries)) = Ok (uevent_spec entries).
Proof. by apply netlink_parse_eq. Qed.

(** A message as the kernel sends it. *)
Definition arrival_texts (subsystem devtype : string) : list text :=
  map bytes_of ["add@/devices/pci0000:00/0000:00:14.0/usb2/2-1"; "ACTION=add";
    "DEVPATH=/devices/pci0000:00/0000:00:14.0/usb2/2-1"; "SUBSYSTEM=" +:+ subsystem; "DEVNAME=/dev/bus/usb/002/004";
    "DEVTYPE=" +:+ devtype; "PRODUCT=46d/c31c/4920"; "BUSNUM=002"; "DEVNUM=004"; "SEQNUM=3711"]%string.
Lemma uevent_parse_refines_witness :
  uevent_spec (arrival_texts "usb" "usb_device") = Some (mk_uevent false (Some (bytes_of "2-1")) 2 4) /\
  linux_netlink_parse (message (arrival_texts "usb" "usb_device") ++ [7; 7]) (length (message (arrival_texts "usb" "usb_device")))
    = Ok (uevent_spec (arrival_texts "usb" "usb_device")).
Proof.
  split; [by vm_compute|]. apply (uevent_parse_refines (arrival_texts "usb" "usb_device") [7; 7]).
  repeat (constructor; [split; [plain_text|done]|]). constructor.
Defined.

(** ** Start and stop *)

(** The file descriptors that are open. *)
Class NetlinkLaws {K : Type} (nl : netlink_sys K) (fds : K -> gset Z) : Prop := {
  socket_law ty k : let '((errno, fd), k') := nl_socket nl ty k in
    if errno =? 0 then 0 <= fd /\ fd ∉ fds k /\ fds k' = {[ fd ]} ∪ fds k else fds k' = fds k;
  pipe_law k : let '((errno, (a, b)), k') := nl_pipe nl k in
    if errno =? 0 then a ∉ fds k /\ b ∉ fds k /\ fds k' = {[ a; b ]} ∪ fds k else fds k' = fds k;
  close_law fd k : fds (nl_close nl fd k).2 = fds k ∖ {[ fd ]};
  getfd_law fd k : fds (nl_getfd nl fd k).2 = fds k;
  setfd_law fd flags k : fds (nl_setfd nl fd flags k).2 = fds k;
  getfl_law fd k : fds (nl_getfl nl fd k).2 = fds k;
  setfl_law fd flags k : fds (nl_setfl nl fd flags k).2 = fds k;
  bind_law fd groups k : fds (nl_bind nl fd groups k).2 = fds k;
  setsockopt_law fd k : fds (nl_setsockopt nl fd k).2 = fds k;
  thread_create_law k : fds (nl_thread_create nl k).2 = fds k;
  thread_join_law k : fds (nl_thread_join nl k).2 = fds k;
  write_law fd data k : fds (nl_write nl fd data k).2 = fds k
}.

Section monitor.
Context {K : Type} (nl : netlink_sys K) (fds : K -> gset Z) `{!NetlinkLaws nl fds}.
Implicit Types (w : linux K).

Definition open_fds w : gset Z := fds (lx_kernel w).
(** The backend with another kernel, socket and pipe. *)
Definition with_monitor (k : K) (socket : Z) (pipe : Z * Z) w : linux K :=
  set_lx_globals (set_netlink_control_pipe pipe (set_linux_netlink_socket socket (lx_globals w))) (set_lx_kernel k w).

Lemma wp_sys_call {A} (op : K -> A * K) w (Q : A -> linux K -> Prop) :
  (forall a k, op (lx_kernel w) = (a, k) -> Q a (set_lx_kernel k w)) -> wp (sys_call op) w Q.
Proof. unfold wp, sys_call. intros HQ. destruct (op (lx_kernel w)) as [a k]. by apply (HQ a k). Qed.

(** A call that opens and closes nothing. *)
Lemma wp_quiet {A} (op : K -> A * K) w (Q : A -> linux K -> Prop) :
  (forall k, fds (op k).2 = fds k) ->
  (forall a k, fds k = open_fds w -> Q a (set_lx_kernel k w)) -> wp (sys_call op) w Q.
Proof.
  intros Hop HQ. apply wp_sys_call. intros a k Heq. apply HQ. pose proof (Hop (lx_kernel w)) as H. by rewrite Heq in H.
Qed.
Lemma wp_close fd w (Q : unit -> linux K -> Prop) :
  (forall k, fds k = open_fds w ∖ {[ fd ]} -> Q tt (set_lx_kernel k w)) -> wp (sys_call (nl_close nl fd)) w Q.
Proof.
  intros HQ. apply wp_sys_call. intros [] k Heq. apply HQ. pose proof (close_law fd (lx_kernel w)) as H. by rewrite Heq in H.
Qed.

Lemma set_fd_flags_wp fd w :
  wp (set_fd_cloexec_nb nl fd) w (fun _ w' => exists k, w' = set_lx_kernel k w /\ fds k = open_fds w).
Proof.
  unfold set_fd_cloexec_nb. apply wp_bind, wp_quiet; [apply getfd_law|]. intros [e1 fl1] k1 H1.
  destruct (negb (e1 =? 0)); [apply wp_ret; by exists k1|]. apply wp_bind.
  apply (wp_mono _ _ (fun _ w' => exists k, w' = set_lx_kernel k w /\ fds k = open_fds w)).
  { case_match; [|apply wp_ret; by exists k1]. apply wp_quiet; [apply setfd_law|]. intros e2 k2 H2. exists k2.
    split; [done|]. by rewrite H2. }
  intros e2 w2 (k2 & -> & H2). destruct (negb (e2 =? 0)); [apply wp_ret; by exists k2|].
  apply wp_bind, wp_quiet; [apply getfl_law|]. intros [e3 fl3] k3 H3. change (open_fds (set_lx_kernel k2 w)) with (fds k2) in H3.
  destruct (negb (e3 =? 0)); [apply wp_ret; exists k3; split; [done|congruence]|]. apply wp_bind.
  apply (wp_mono _ _ (fun _ w' => exists k, w' = set_lx_kernel k w /\ fds k = open_fds w)).
  { case_match; [|apply wp_ret; exists k3; split; [done|congruence]]. apply wp_quiet; [apply setfl_law|].
    intros e4 k4 H4. exists k4. split; [done|]. rewrite H4. change (fds k3 = open_fds w). congruence. }
  intros e4 w4 (k4 & -> & H4). apply wp_ret. by exists k4.
Qed.

(** The error paths: the socket is open besides [F]. *)
Lemma close_socket_wp fd pipe k w : fds k = {[ fd ]} ∪ open_fds w -> fd ∉ open_fds w ->
  wp (close_socket nl) (with_monitor k fd pipe w) (fun r w' => r = LIBUSB_ERROR_OTHER /\
    exists k', w' = with_monitor k' (-1) pipe w /\ fds k' = open_fds w).
Proof.
  intros Hk Hfd. unfold close_socket. apply wp_bind, wp_gets, wp_bind, wp_close. intros k' Hk'.
  apply wp_bind, wp_modify, wp_ret. split; [done|]. exists k'. split; [done|].
  rewrite Hk'. unfold open_fds at 1. simpl. rewrite Hk. set_solver.
Qed.

Lemma close_pipe_wp a b fd k w : fds k = {[ a; b ]} ∪ fds (lx_kernel w) -> a ∉ fds (lx_kernel w) -> b ∉ fds (lx_kernel w) ->
  wp (close_control_pipe nl) (with_monitor k fd (a, b) w) (fun _ w' =>
    exists k', w' = with_monitor k' fd (-1, -1) w /\ fds k' = fds (lx_kernel w)).
Proof.
  intros Hk Ha Hb. unfold close_control_pipe. apply wp_bind, wp_gets, wp_bind, wp_close. intros k1 H1.
  apply wp_bind, wp_close. intros k2 H2. apply wp_modify. exists k2. split; [done|].
  rewrite H2. unfold open_fds in *. simpl in *. rewrite H1, Hk. set_solver.
Qed.

(** The monitor runs: its socket and the two ends of its pipe are open. *)
Definition running w w' : Prop := exists k fd a b,
  w' = with_monitor k fd (a, b) w /\ 0 <= fd /\ fd ∉ open_fds w /\ a ∉ {[ fd ]} ∪ open_fds w /\ b ∉ {[ fd ]} ∪ open_fds w /\
  fds k = {[ a; b ]} ∪ ({[ fd ]} ∪ open_fds w).
(** It does not, and nothing of it is left. *)
Definition not_running pipe w w' : Prop := exists k, w' = with_monitor k (-1) pipe w /\ fds k = open_fds w.

Lemma open_socket_wp w :
  wp (open_socket nl) w (fun r w' => exists k, w' = set_lx_kernel k w /\
    if r.1 =? 0 then 0 <= r.2 /\ r.2 ∉ open_fds w /\ fds k = {[ r.2 ]} ∪ open_fds w else fds k = open_fds w).
Proof.
  unfold open_socket. set (ty := Z.lor _ _). apply wp_bind, wp_sys_call. intros [e fd] k Hop.
  pose proof (socket_law ty (lx_kernel w)) as Hlaw. rewrite Hop in Hlaw. destruct (Z.eqb_spec e EINVAL) as [->|_].
  - apply wp_sys_call. intros [e' fd'] k' Hop'. pose proof (socket_law SOCK_RAW k) as Hlaw'.
    change (lx_kernel (set_lx_kernel k w)) with k in Hop'. rewrite Hop' in Hlaw'. exists k'. split; [done|].
    change (fds k = fds (lx_kernel w)) in Hlaw. unfold open_fds. simpl. rewrite <- Hlaw. exact Hlaw'.
  - apply wp_ret. by exists k.
Qed.

(** What [linux_netlink_start_event_monitor] gives back. *)
Definition start_post w (r : Z) w' : Prop :=
  if r =? LIBUSB_SUCCESS then running w w'
  else r = LIBUSB_ERROR_OTHER /\
    exists pipe, (pipe = (-1, -1) \/ pipe = netlink_control_pipe (lx_globals w)) /\ not_running pipe w w'.

Lemma close_post fd pipe k w : fds k = {[ fd ]} ∪ open_fds w -> fd ∉ open_fds w ->
  pipe = (-1, -1) \/ pipe = netlink_control_pipe (lx_globals w) ->
  wp (close_socket nl) (with_monitor k fd pipe w) (start_post w).
Proof.
  intros Hk Hfd Hpipe. eapply wp_mono; [by apply close_socket_wp|]. intros r w' (-> & k' & -> & Hk').
  split; [done|]. exists pipe. split; [done|]. by exists k'.
Qed.

Lemma start_wp w : wp (linux_netlink_start_event_monitor nl) w (start_post w).
Proof.
  unfold linux_netlink_start_event_monitor. apply wp_bind. eapply wp_mono; [apply open_socket_wp|].
  intros [e fd] w1 (k & -> & Hk). apply wp_bind, wp_modify. cbn [fst snd] in Hk.
  set (pipe := netlink_control_pipe (lx_globals w)).
  match goal with |- wp _ ?st _ => change st with (with_monitor k (if e =? 0 then fd else -1) pipe w) end. destruct (Z.eqb_spec e 0) as [->|Hne]; cbn [negb].
  2:{ apply wp_ret. split; [done|]. exists pipe. split; [by right|]. by exists k. }
  destruct Hk as (Hpos & Hnew & Hk). set (F1 := {[ fd ]} ∪ open_fds w) in *.
  apply wp_bind. eapply wp_mono; [apply set_fd_flags_wp|]. intros r w2 (k2 & -> & Hk2).
  change (fds k2 = fds k) in Hk2. rewrite Hk in Hk2. destruct (r =? -1); [apply (close_post fd pipe k2 w); by auto|].
  apply wp_bind, wp_quiet; [apply bind_law|]. intros e3 k3 Hk3. change (fds k3 = fds k2) in Hk3. rewrite Hk2 in Hk3.
  destruct (negb (e3 =? 0)); [apply (close_post fd pipe k3 w); by auto|].
  apply wp_bind, wp_quiet; [apply setsockopt_law|]. intros e4 k4 Hk4. change (fds k4 = fds k3) in Hk4. rewrite Hk3 in Hk4.
  destruct (negb (e4 =? 0)); [apply (close_post fd pipe k4 w); by auto|].
  apply wp_bind, wp_sys_call. intros [e5 [a b]] k5 Hop. change (nl_pipe nl k4 = (e5, (a, b), k5)) in Hop.
  pose proof (pipe_law k4) as Hk5. rewrite Hop in Hk5. destruct (Z.eqb_spec e5 0) as [->|Hne]; cbn [negb].
  2:{ rewrite Hk4 in Hk5. apply (close_post fd pipe k5 w); by auto. }
  destruct Hk5 as (Ha & Hb & Hk5). rewrite Hk4 in Ha, Hb, Hk5. apply wp_bind, wp_modify, wp_bind, wp_quiet; [apply thread_create_law|].
  intros r6 k6 Hk6. change (fds k6 = fds k5) in Hk6. rewrite Hk5 in Hk6.
  destruct (negb (r6 =? 0)); [|apply wp_ret; by exists k6, fd, a, b].
  apply wp_bind. eapply wp_mono; [apply (close_pipe_wp a b fd k6 (with_monitor k4 fd pipe w)); simpl; by rewrite Hk4|].
  intros [] w7 (k7 & -> & Hk7). apply (close_post fd (-1, -1) k7 w); [simpl in Hk7; by rewrite Hk7|done|by left].
Qed.

Lemma stop_wp w w' : running w w' ->
  wp (linux_netlink_stop_event_monitor nl) w' (fun r w'' => r = LIBUSB_SUCCESS /\ not_running (-1, -1) w w'').
Proof.
  intros (k & fd & a & b & -> & Hpos & Hfd & Ha & Hb & Hk). unfold linux_netlink_stop_event_monitor.
  apply wp_bind, wp_gets. cbn [linux_netlink_socket with_monitor set_lx_globals lx_globals set_netlink_control_pipe set_linux_netlink_socket].
  rewrite (proj2 (Z.eqb_neq fd (-1))) by lia.
  apply wp_bind, wp_quiet; [apply write_law|]. intros _ k1 Hk1. apply wp_bind, wp_quiet; [apply thread_join_law|]. intros _ k2 Hk2.
  apply wp_bind, wp_close. intros k3 Hk3. apply wp_bind, wp_modify, wp_bind.
  change (fds k1 = fds k) in Hk1. change (fds k2 = fds k1) in Hk2. change (fds k3 = fds k2 ∖ {[ fd ]}) in Hk3.
  rewrite Hk2, Hk1, Hk in Hk3.
  eapply wp_mono; [apply (close_pipe_wp a b (-1) k3 w)|].
  - rewrite Hk3. unfold open_fds. set_solver.
  - unfold open_fds in *. set_solver.
  - unfold open_fds in *. set_solver.
  - intros [] w4 (k4 & -> & Hk4). apply wp_ret. split; [done|]. by exists k4.
Qed.
End monitor.

(** C25: the monitor gives back what it opens.  Wherever its start fails (the
    socket, its flags, its address, the pipe, the thread), every descriptor
    opened so far is closed and the socket counts as not there; after a
    success the socket and both ends of the pipe are open and recorded, and
    the stop, which waits for the thread, closes exactly these. *)
Theorem monitor_balanced {K : Type} (nl : netlink_sys K) (fds : K -> gset Z) (w : linux K) (Hnl : NetlinkLaws nl fds) :
  exists r w', linux_netlink_start_event_monitor nl w = Ok (r, w') /\ start_post fds w r w' /\
    (r = LIBUSB_SUCCESS -> exists w'', linux_netlink_stop_event_monitor nl w' = Ok (LIBUSB_SUCCESS, w'') /\
       not_running fds (-1, -1) w w'').
Proof.
  pose proof (start_wp nl fds w) as Hrun. apply wp_ok in Hrun as (r & w' & Hrun & Hpost).
  exists r, w'. split; [done|]. split; [done|]. intros ->.
  pose proof (stop_wp nl fds w w' Hpost) as Hstop. apply wp_ok in Hstop as (r2 & w'' & Hstop & -> & Hpost2). by exists w''.
Qed.

(** A kernel whose state is the set of open descriptors; a new one is not in
    use. *)
Definition new_fd (k : gset Z) : Z := Z.of_nat (fresh (set_map (D := gset nat) Z.to_nat k)).
Lemma new_fd_fresh k : 0 <= new_fd k /\ new_fd k ∉ k.
Proof.
  split; [unfold new_fd; lia|]. intros Hin. apply (is_fresh (set_map (D := gset nat) Z.to_nat k)).
  apply elem_of_map. exists (new_fd k). split; [unfold new_fd; lia|done].
Qed.
Definition fd_netlink : netlink_sys (gset Z) := {|
  nl_socket ty k := if ty =? SOCK_RAW then ((0, new_fd k), {[ new_fd k ]} ∪ k) else ((EINVAL, -1), k);
  nl_getfd _ k := ((0, 0), k);
  nl_setfd _ _ k := (0, k);
  nl_getfl _ k := ((0, 0), k);
  nl_setfl _ _ k := (0, k);
  nl_bind _ _ k := (0, k);
  nl_setsockopt _ k := (0, k);
  nl_pipe k := ((0, (new_fd k, new_fd ({[ new_fd k ]} ∪ k))), ({[ new_fd k; new_fd ({[ new_fd k ]} ∪ k) ]} : gset Z) ∪ k);
  nl_close fd k := (tt, k ∖ {[ fd ]});
  nl_thread_create k := (0, k);
  nl_thread_join k := (tt, k);
  nl_write _ _ k := (1, k);
  nl_read _ k := (1, k);
  nl_poll k := ((0, (true, false)), k);
  nl_recvmsg _ k := (mk_nl EAGAIN [] false 0 0 None, k)
|}.
#[export] Instance fd_netlink_laws : NetlinkLaws fd_netlink (fun k => k).
Proof.
  split; try done.
  - intros ty k. simpl. destruct (ty =? SOCK_RAW); simpl; [|done]. by destruct (new_fd_fresh k).
  - intros k. simpl. destruct (new_fd_fresh k) as [_ Ha]. destruct (new_fd_fresh ({[ new_fd k ]} ∪ k)) as [_ Hb].
    split; [done|]. split; [set_solver|done].
Qed.

Definition fd_world : linux (gset Z) := mk_linux ({[ 0; 1; 2 ]} : gset Z) ∅ ∅ ∅ ∅ (demo_heap 0) initial_globals.
Lemma monitor_balanced_witness :
  exists r w', linux_netlink_start_event_monitor fd_netlink fd_world = Ok (r, w') /\ start_post (fun k => k) fd_world r w' /\
    (r = LIBUSB_SUCCESS -> exists w'', linux_netlink_stop_event_monitor fd_netlink w' = Ok (LIBUSB_SUCCESS, w'') /\
       not_running (fun k => k) (-1, -1) fd_world w'').
Proof. apply (monitor_balanced fd_netlink (fun k => k) fd_world). exact _. Defined.

(** ** Messages about other things *)

(** A kernel with a queue of messages. *)
Definition kernel_message (texts : list text) : netlink_message :=
  mk_nl 0 (message texts) false NL_GROUP_KERNEL 0 (Some (SCM_CREDENTIALS, 0)).
Definition queue_netlink : netlink_sys (list netlink_message) := {|
  nl_socket _ k := ((EINVAL, -1), k);
  nl_getfd _ k := ((EINVAL, 0), k);
  nl_setfd _ _ k := (EINVAL, k);
  nl_getfl _ k := ((EINVAL, 0), k);
  nl_setfl _ _ k := (EINVAL, k);
  nl_bind _ _ k := (EINVAL, k);
  nl_setsockopt _ k := (EINVAL, k);
  nl_pipe k := ((-1, (0, 0)), k);
  nl_close _ k := (tt, k);
  nl_thread_create k := (EINVAL, k);
  nl_thread_join k := (tt, k);
  nl_write _ _ k := (-1, k);
  nl_read _ k := (-1, k);
  nl_poll k := ((EINVAL, (false, false)), k);
  nl_recvmsg _ k := match k with [] => (mk_nl EAGAIN [] false 0 0 None, []) | m :: k => (m, k) end
|}.

(** Polling for hotplug events stops early.  The loop of
    [linux_netlink_hotplug_poll] means to read all that is pending, but it
    ends at the first message that does not announce a device, whatever the
    reason: with the message about a disk first, the arrival of the device
    behind it is left in the socket, so that the device list that asked for
    the poll is out of date. *)
Theorem hotplug_poll_stops_early (sys : linux_sys (list netlink_message)) (big : bool) (junk : nat -> list Z)
    (be : os_backend (linux (list netlink_message))) (pending : list netlink_message) (s : lib (linux (list netlink_message)))
    (Hpending : lx_kernel (world s) = kernel_message (arrival_texts "block" "disk") :: pending) :
  linux_netlink_hotplug_poll sys queue_netlink big junk be 1 s = Ok (tt, set_world (set_lx_kernel pending (world s)) s).
Proof.
  assert (Forall entry_ok (arrival_texts "block" "disk")) as Hok
    by (repeat (constructor; [split; [plain_text|done]|]); constructor).
  cbn [linux_netlink_hotplug_poll]. unfold linux_netlink_read_message, globals, on_world, sys_call, gets, lift, mbind, M_bind, mret, M_ret.
  cbn [nl_recvmsg queue_netlink world set_world lx_kernel]. rewrite Hpending. cbn [nl_errno nl_data nl_truncated kernel_message].
  assert ((length (message (arrival_texts "block" "disk")) <? 32)%nat = false) as -> by (by vm_compute).
  rewrite (netlink_parse_eq (arrival_texts "block" "disk") _ Hok).
  by assert (uevent_spec (arrival_texts "block" "disk") = None) as -> by (by vm_compute).
Qed.
Lemma hotplug_poll_stops_early_witness :
  let s := set_io_ready true (mk_lib (demo_heap 0) ∅ ∅ ∅ [] [] [] [] demo_event_data true false false None 1 ∅ (3, 4) (-1) false None None 0 false
    (mk_linux [kernel_message (arrival_texts "block" "disk"); kernel_message (arrival_texts "usb" "usb_device")] ∅ ∅ ∅ ∅ (demo_heap 0) initial_globals)) in
  linux_netlink_hotplug_poll no_sys queue_netlink false (fun n => replicate n 0) idle_backend 1 s
  = Ok (tt, set_world (set_lx_kernel [kernel_message (arrival_texts "usb" "usb_device")] (world s)) s).
Proof.
  intros s. apply (hotplug_poll_stops_early no_sys false (fun n => replicate n 0) idle_backend
    [kernel_message (arrival_texts "usb" "usb_device")] s). done.
Defined.
