(* ===== verification/UdevProps.v ===== *)
(** * Properties of the udev monitor: start and stop *)

From S2P Require Import Prelude Heap ParseDesc DescApi Bos Core Text Log Devices DeviceRefs Hotplug HotplugLife Transfers Events Demo LinuxState LinuxSys LinuxDesc LinuxEnum LinuxNetlink LinuxUdev LinuxUrb LinuxBackend LinuxDemo SysSpecs EnumSpecs EnumInv EnumProps FileSteps UeventSpecs NetlinkProps.

(** What libudev promises: [objs] are the references that the caller owns,
    and a function says nothing about an object that the caller does not
    own. *)
Section laws.
Context {K : Type} (nl : netlink_sys K) (ud : udev_sys K) (fds : K -> gset Z) (objs : K -> gmultiset nat).
Implicit Types (k : K) (c : nat) (o : option nat).

Definition holds_same k k' : Prop := fds k' = fds k /\ objs k' = objs k.
Definition gains o k k' : Prop := fds k' = fds k /\ objs k' = own o ⊎ objs k.
Definition drops o k k' : Prop := fds k' = fds k /\ objs k' = objs k ∖ own o.

Class UdevLaws : Prop := {
  new_law k : gains (ud_new ud k).1 k (ud_new ud k).2;
  unref_law c k : c ∈ objs k -> drops (Some c) k (ud_unref ud c k).2;
  monitor_new_law c k : c ∈ objs k -> gains (ud_monitor_new_from_netlink ud c k).1 k (ud_monitor_new_from_netlink ud c k).2;
  filter_law c k : c ∈ objs k -> holds_same k (ud_monitor_filter_add_match_subsystem_devtype ud c k).2;
  enable_law c k : c ∈ objs k -> holds_same k (ud_monitor_enable_receiving ud c k).2;
  get_fd_law c k : c ∈ objs k -> 0 <= (ud_monitor_get_fd ud c k).1 /\ holds_same k (ud_monitor_get_fd ud c k).2;
  monitor_unref_law c k : c ∈ objs k -> drops (Some c) k (ud_monitor_unref ud c k).2;
  enumerate_new_law c k : c ∈ objs k -> gains (ud_enumerate_new ud c k).1 k (ud_enumerate_new ud c k).2;
  match_subsystem_law c k : c ∈ objs k -> holds_same k (ud_enumerate_add_match_subsystem ud c k).2;
  match_property_law c k : c ∈ objs k -> holds_same k (ud_enumerate_add_match_property ud c k).2;
  enumerate_scan_law c k : c ∈ objs k -> holds_same k (ud_enumerate_scan_devices ud c k).2;
  entries_law c k : c ∈ objs k -> holds_same k (ud_entries ud c k).2;
  enumerate_unref_law c k : c ∈ objs k -> drops (Some c) k (ud_enumerate_unref ud c k).2;
  device_new_law c path k : c ∈ objs k -> gains (ud_device_new_from_syspath ud c path k).1 k (ud_device_new_from_syspath ud c path k).2;
  pipe_objs k : objs (nl_pipe nl k).2 = objs k;
  close_objs fd k : objs (nl_close nl fd k).2 = objs k;
  getfl_objs fd k : objs (nl_getfl nl fd k).2 = objs k;
  setfl_objs fd flags k : objs (nl_setfl nl fd flags k).2 = objs k;
  thread_create_objs k : objs (nl_thread_create nl k).2 = objs k;
  thread_join_objs k : objs (nl_thread_join nl k).2 = objs k;
  write_objs fd data k : objs (nl_write nl fd data k).2 = objs k
}.

(** A device in the hands of the caller; the functions accept null.  [queue]
    are the devices whose events wait in the monitor. *)
Class UdevEvents (queue : K -> list nat) : Prop := {
  receive_law c k : c ∈ objs k -> let '(o, k') := ud_monitor_receive_device ud (Some c) k in
    o = head (queue k) /\ gains o k k' /\ queue k' = tail (queue k);
  action_law o k : own o ⊆ objs k -> let k' := (ud_device_get_action ud o k).2 in holds_same k k' /\ queue k' = queue k;
  devnode_law o k : own o ⊆ objs k -> let k' := (ud_device_get_devnode ud o k).2 in holds_same k k' /\ queue k' = queue k;
  sysname_law o k : own o ⊆ objs k -> let k' := (ud_device_get_sysname ud o k).2 in holds_same k k' /\ queue k' = queue k;
  device_unref_law o k : own o ⊆ objs k -> let k' := (ud_device_unref ud o k).2 in drops o k k' /\ queue k' = queue k
}.
End laws.

Section monitor.
Context {K : Type} (nl : netlink_sys K) (ud : udev_sys K) (fds : K -> gset Z) (objs : K -> gmultiset nat).
Context `{!NetlinkLaws nl fds} `{!UdevLaws nl ud fds objs}.
Implicit Types (w : linux K) (F : gset Z) (G : gmultiset nat).

(** The backend with another kernel and other variables of the monitor. *)
Definition with_udev (k : K) (u : udev_globals) w : linux K := set_lx_globals (set_udev u (lx_globals w)) (set_lx_kernel k w).
Definition holds k F G : Prop := fds k = F /\ objs k = G.

(** One call, from a state of this kind. *)
Lemma wp_udev_call {A} (op : K -> A * K) k u w (Q : A -> linux K -> Prop) :
  (forall a k', op k = (a, k') -> Q a (with_udev k' u w)) -> wp (sys_call op) (with_udev k u w) Q.
Proof. intros HQ. apply wp_sys_call. exact HQ. Qed.
Lemma wp_udev_same {A} (op : K -> A * K) F G k u w (Q : A -> linux K -> Prop) :
  holds_same fds objs k (op k).2 -> holds k F G -> (forall a k', holds k' F G -> Q a (with_udev k' u w)) ->
  wp (sys_call op) (with_udev k u w) Q.
Proof.
  intros Hop [<- <-] HQ. apply wp_udev_call. intros a k' Heq. apply HQ. rewrite Heq in Hop. exact Hop.
Qed.
Lemma wp_udev_gains (op : K -> option nat * K) F G k u w (Q : option nat -> linux K -> Prop) :
  gains fds objs (op k).1 k (op k).2 -> holds k F G -> (forall o k', holds k' F (own o ⊎ G) -> Q o (with_udev k' u w)) ->
  wp (sys_call op) (with_udev k u w) Q.
Proof.
  intros Hop [<- <-] HQ. apply wp_udev_call. intros o k' Heq. apply HQ. rewrite Heq in Hop. exact Hop.
Qed.
Lemma wp_udev_drops (op : K -> unit * K) c F G k u w (Q : unit -> linux K -> Prop) :
  (c ∈ objs k -> drops fds objs (Some c) k (op k).2) -> holds k F ({[+ c +]} ⊎ G) ->
  (forall k', holds k' F G -> Q tt (with_udev k' u w)) -> wp (sys_call op) (with_udev k u w) Q.
Proof.
  intros Hop [<- Hk] HQ. rewrite Hk in Hop. specialize (Hop ltac:(multiset_solver)). apply wp_udev_call. intros [] k' Heq. apply HQ.
  rewrite Heq in Hop. destruct Hop as [HF HG]. simpl in HF, HG. split; [done|]. rewrite HG, Hk. multiset_solver.
Qed.
Lemma wp_udev_get k u w (Q : linux_globals -> linux K -> Prop) :
  (forall g, udev g = u -> Q g (with_udev k u w)) -> wp globals (with_udev k u w) Q.
Proof. intros HQ. apply wp_gets. by apply HQ. Qed.
Lemma wp_upd_udev f k u w (Q : unit -> linux K -> Prop) : Q tt (with_udev k (f u) w) -> wp (upd_udev f) (with_udev k u w) Q.
Proof. intros HQ. by apply wp_modify. Qed.

Lemma wp_udev_close fd F G k u w (Q : unit -> linux K -> Prop) : holds k F G ->
  (forall k', holds k' (F ∖ {[ fd ]}) G -> Q tt (with_udev k' u w)) -> wp (sys_call (nl_close nl fd)) (with_udev k u w) Q.
Proof.
  intros [<- <-] HQ. apply wp_udev_call. intros [] k' Heq. apply HQ.
  pose proof (close_law fd k) as HF. pose proof (close_objs nl ud fds objs fd k) as HG. rewrite Heq in HF, HG. by split.
Qed.

(** The monitor is off, and nothing of it is left but, after a failure of the
    thread, the numbers of the pipe. *)
Definition udev_off pipe w w' : Prop := exists k, w' = with_udev k (mk_udev None None (-1) pipe) w /\ holds k (fds (lx_kernel w)) (objs (lx_kernel w)).
(** It is on: a context, a monitor and both ends of the pipe. *)
Definition udev_on w w' : Prop := exists k c m fd a b,
  w' = with_udev k (mk_udev (Some c) (Some m) fd (a, b)) w /\ 0 <= fd /\ (a ∉ fds (lx_kernel w)) /\ (b ∉ fds (lx_kernel w)) /\
  holds k ({[ a; b ]} ∪ fds (lx_kernel w)) ({[+ m +]} ⊎ ({[+ c +]} ⊎ objs (lx_kernel w))).
Definition udev_start_post w (r : Z) w' : Prop :=
  if r =? LIBUSB_SUCCESS then udev_on w w' else r = LIBUSB_ERROR_OTHER /\ exists pipe, udev_off pipe w w'.

Section start.
Context (w : linux K).
Abbreviation F0 := (fds (lx_kernel w)).
Abbreviation G0 := (objs (lx_kernel w)).

Lemma err_free_ctx_wp c k pipe : holds k F0 ({[+ c +]} ⊎ G0) ->
  wp (err_free_ctx ud c) (with_udev k (mk_udev (Some c) None (-1) pipe) w) (udev_start_post w).
Proof.
  intros Hk. unfold err_free_ctx. apply wp_bind. eapply wp_udev_drops; [by apply (unref_law nl)|exact Hk|]. intros k1 H1.
  apply wp_bind, wp_upd_udev, wp_ret. split; [done|]. exists pipe, k1. done.
Qed.
Lemma err_free_monitor_wp c m k fd pipe : holds k F0 ({[+ m +]} ⊎ ({[+ c +]} ⊎ G0)) ->
  wp (err_free_monitor ud c m) (with_udev k (mk_udev (Some c) (Some m) fd pipe) w) (udev_start_post w).
Proof.
  intros Hk. unfold err_free_monitor. apply wp_bind. eapply wp_udev_drops; [by apply (monitor_unref_law nl)|exact Hk|]. intros k1 H1.
  apply wp_bind, wp_upd_udev. by apply err_free_ctx_wp.
Qed.

Lemma start_thread_wp c m k fd pipe : 0 <= fd -> holds k F0 ({[+ m +]} ⊎ ({[+ c +]} ⊎ G0)) ->
  wp (start_thread nl ud c m) (with_udev k (mk_udev (Some c) (Some m) fd pipe) w) (udev_start_post w).
Proof.
  intros Hfd [HF HG]. unfold start_thread. apply wp_bind, wp_udev_call. intros [e [a b]] k1 Heq.
  pose proof (pipe_law (nl := nl) k) as Hp. pose proof (pipe_objs nl ud fds objs k) as Ho. rewrite Heq in Hp, Ho. simpl in Ho.
  destruct (e =? 0); cbn [negb]; [|apply err_free_monitor_wp; split; congruence]. destruct Hp as (Ha & Hb & Hp).
  rewrite HF in Ha, Hb, Hp. apply wp_bind, wp_upd_udev, wp_bind.
  assert (holds k1 ({[ a; b ]} ∪ F0) ({[+ m +]} ⊎ ({[+ c +]} ⊎ G0))) as H1 by (split; congruence).
  eapply (wp_udev_same _ ({[ a; b ]} ∪ F0)); [split; [apply thread_create_law|by apply (thread_create_objs nl ud fds objs)]|exact H1|].
  intros r k2 H2. destruct (negb (r =? 0)); [|apply wp_ret; by exists k2, c, m, fd, a, b].
  apply wp_bind. eapply wp_udev_close; [exact H2|]. intros k3 H3. apply wp_bind. eapply wp_udev_close; [exact H3|]. intros k4 H4.
  apply err_free_monitor_wp. destruct H4 as [HF4 HG4]. split; [rewrite HF4; set_solver|done].
Qed.

Lemma udev_start_wp : udev_ctx (udev (lx_globals w)) = None -> udev_monitor (udev (lx_globals w)) = None ->
  udev_monitor_fd (udev (lx_globals w)) = -1 -> wp (linux_udev_start_event_monitor nl ud) w (udev_start_post w).
Proof.
  intros Hc Hm Hf. destruct (udev (lx_globals w)) as [c0 m0 fd0 pipe] eqn:Hu. simpl in *. subst c0 m0 fd0.
  assert (w = with_udev (lx_kernel w) (mk_udev None None (-1) pipe) w) as Hw.
  { unfold with_udev. rewrite <- Hu. destruct w as [? ? ? ? ? ? g]. simpl. by destruct g. }
  assert (holds (lx_kernel w) F0 G0) as H0 by done. revert Hw H0. generalize (lx_kernel w) at 1 2. intros k0 Hw H0.
  enough (wp (linux_udev_start_event_monitor nl ud) (with_udev k0 (mk_udev None None (-1) pipe) w) (udev_start_post w)) as H by by rewrite <- Hw in H.
  unfold linux_udev_start_event_monitor. apply wp_bind, wp_udev_get. intros g Hg. rewrite Hg. cbn [udev_ctx].
  apply wp_bind. eapply wp_udev_gains; [by apply (new_law nl)|exact H0|]. intros [c|] k1 H1; (apply wp_bind, wp_upd_udev).
  2:{ apply wp_ret. split; [done|]. exists pipe, k1. split; [done|]. destruct H1 as [HF HG]. split; [done|]. rewrite HG. simpl. multiset_solver. }
  assert (c ∈ objs k1) as Hc1 by (destruct H1 as [_ ->]; simpl; multiset_solver).
  apply wp_bind. eapply wp_udev_gains; [by apply (monitor_new_law nl)|exact H1|]. intros [m|] k2 H2; (apply wp_bind, wp_upd_udev).
  2:{ apply err_free_ctx_wp. destruct H2 as [HF HG]. split; [done|]. rewrite HG. simpl. multiset_solver. }
  simpl own in H2.
  assert (forall k, holds k F0 ({[+ m +]} ⊎ ({[+ c +]} ⊎ G0)) -> m ∈ objs k) as Hin by (intros k [_ ->]; multiset_solver).
  apply wp_bind. eapply wp_udev_same; [by apply (filter_law nl), Hin|exact H2|]. intros r3 k3 H3.
  destruct (negb (r3 =? 0)); [by apply err_free_monitor_wp|].
  apply wp_bind. eapply wp_udev_same; [by apply (enable_law nl), Hin|exact H3|]. intros r4 k4 H4.
  destruct (negb (r4 =? 0)); [by apply err_free_monitor_wp|].
  destruct (get_fd_law nl ud fds objs m k4 (Hin k4 H4)) as [Hfd Hsame].
  apply wp_bind, wp_udev_call. intros fd k5 Heq. rewrite Heq in Hfd, Hsame. simpl in Hfd, Hsame.
  assert (holds k5 F0 ({[+ m +]} ⊎ ({[+ c +]} ⊎ G0))) as H5 by (destruct Hsame, H4; split; congruence).
  apply wp_bind, wp_upd_udev, wp_bind.
  eapply wp_udev_same; [split; [apply getfl_law|by apply (getfl_objs nl ud fds objs)]|exact H5|]. intros [e6 flags] k6 H6.
  destruct (negb (e6 =? 0)); [by apply err_free_monitor_wp|]. apply wp_bind.
  eapply wp_udev_same; [split; [apply setfl_law|by apply (setfl_objs nl ud fds objs)]|exact H6|]. intros r7 k7 H7.
  destruct (negb (r7 =? 0)); [by apply err_free_monitor_wp|]. by apply start_thread_wp.
Qed.

Lemma udev_stop_wp w' : udev_on w w' ->
  wp (linux_udev_stop_event_monitor nl ud) w' (fun r w'' => r = LIBUSB_SUCCESS /\ udev_off (-1, -1) w w'').
Proof.
  intros (k & c & m & fd & a & b & -> & Hfd & Ha & Hb & Hk). unfold linux_udev_stop_event_monitor. apply wp_bind, wp_udev_get.
  intros g Hg. rewrite Hg. cbn [udev_ctx udev_monitor udev_monitor_fd udev_control_pipe fst snd].
  rewrite (proj2 (Z.eqb_neq fd (-1))) by lia.
  apply wp_bind. eapply wp_udev_same; [split; [apply write_law|by apply (write_objs nl ud fds objs)]|exact Hk|]. intros _ k1 H1.
  apply wp_bind. eapply wp_udev_same; [split; [apply thread_join_law|by apply (thread_join_objs nl ud fds objs)]|exact H1|]. intros _ k2 H2.
  apply wp_bind. eapply wp_udev_drops; [by apply (monitor_unref_law nl)|exact H2|]. intros k3 H3. apply wp_bind, wp_upd_udev, wp_bind.
  eapply wp_udev_drops; [by apply (unref_law nl)|exact H3|]. intros k4 H4. apply wp_bind, wp_upd_udev, wp_bind.
  eapply wp_udev_close; [exact H4|]. intros k5 H5. apply wp_bind. eapply wp_udev_close; [exact H5|]. intros k6 [HF HG].
  apply wp_bind, wp_upd_udev, wp_ret. split; [done|]. exists k6. split; [done|]. split; [rewrite HF; set_solver|done].
Qed.
End start.
End monitor.

(** Before the first start, and after every stop. *)
Definition udev_idle (g : linux_globals) : Prop :=
  udev_ctx (udev g) = None /\ udev_monitor (udev g) = None /\ udev_monitor_fd (udev g) = -1.

(** C26: the udev monitor gives back what it takes.  Wherever its start fails
    (the context, the monitor, its filter, its socket, the pipe, the thread),
    every reference on an object of libudev and both ends of the pipe are
    given back, and the variables say that nothing is there; after a success
    the context, the monitor and the pipe are there and recorded, and the
    stop, which waits for the thread, gives back exactly these.  No object is
    used that was given back. *)
Theorem udev_monitor_balanced {K : Type} (nl : netlink_sys K) (ud : udev_sys K) (fds : K -> gset Z) (objs : K -> gmultiset nat)
    (w : linux K) (Hnl : NetlinkLaws nl fds) (Hud : UdevLaws nl ud fds objs) (Hidle : udev_idle (lx_globals w)) :
  exists r w', linux_udev_start_event_monitor nl ud w = Ok (r, w') /\ udev_start_post fds objs w r w' /\
    (r = LIBUSB_SUCCESS -> exists w'', linux_udev_stop_event_monitor nl ud w' = Ok (LIBUSB_SUCCESS, w'') /\
       udev_off fds objs (-1, -1) w w'').
Proof.
  destruct Hidle as (Hc & Hm & Hf). pose proof (udev_start_wp nl ud fds objs w Hc Hm Hf) as Hrun.
  apply wp_ok in Hrun as (r & w' & Hrun & Hpost). exists r, w'. split; [done|]. split; [done|]. intros ->.
  pose proof (udev_stop_wp nl ud fds objs w w' Hpost) as Hstop. apply wp_ok in Hstop as (r2 & w'' & Hstop & -> & Hoff). by exists w''.
Qed.

(** ** A system with udev *)

(** What is left of the file that is open, the open descriptors, the
    references on objects of libudev, and the events that wait. *)
Record udev_kernel : Type := mk_uk {
  uk_left : nat;
  uk_fds : gset Z;
  uk_objs : gmultiset nat;
  uk_queue : list nat
}.
Definition uk_on_fds {A} (op : gset Z -> A * gset Z) (k : udev_kernel) : A * udev_kernel :=
  let '(a, f) := op (uk_fds k) in (a, mk_uk (uk_left k) f (uk_objs k) (uk_queue k)).
Definition uk_gain (o : option nat) (k : udev_kernel) : option nat * udev_kernel :=
  (o, mk_uk (uk_left k) (uk_fds k) (own o ⊎ uk_objs k) (uk_queue k)).
Definition uk_drop (o : option nat) (k : udev_kernel) : unit * udev_kernel :=
  (tt, mk_uk (uk_left k) (uk_fds k) (uk_objs k ∖ own o) (uk_queue k)).
Definition uk_netlink : netlink_sys udev_kernel := {|
  nl_socket ty := uk_on_fds (nl_socket fd_netlink ty);
  nl_getfd fd := uk_on_fds (nl_getfd fd_netlink fd);
  nl_setfd fd v := uk_on_fds (nl_setfd fd_netlink fd v);
  nl_getfl fd := uk_on_fds (nl_getfl fd_netlink fd);
  nl_setfl fd v := uk_on_fds (nl_setfl fd_netlink fd v);
  nl_bind fd v := uk_on_fds (nl_bind fd_netlink fd v);
  nl_setsockopt fd := uk_on_fds (nl_setsockopt fd_netlink fd);
  nl_pipe := uk_on_fds (nl_pipe fd_netlink);
  nl_close fd := uk_on_fds (nl_close fd_netlink fd);
  nl_thread_create := uk_on_fds (nl_thread_create fd_netlink);
  nl_thread_join := uk_on_fds (nl_thread_join fd_netlink);
  nl_write fd v := uk_on_fds (nl_write fd_netlink fd v);
  nl_read fd := uk_on_fds (nl_read fd_netlink fd);
  nl_poll := uk_on_fds (nl_poll fd_netlink);
  nl_recvmsg fd := uk_on_fds (nl_recvmsg fd_netlink fd)
|}.
(** Devices 1 and 2 are usb1 and 1-1, the events with these numbers their
    arrivals, and that with the number 3 the departure of 1-1. *)
Definition uk_udev : udev_sys udev_kernel := {|
  ud_new := uk_gain (Some 10%nat);
  ud_unref c := uk_drop (Some c);
  ud_monitor_new_from_netlink _ := uk_gain (Some 11%nat);
  ud_monitor_filter_add_match_subsystem_devtype _ k := (0, k);
  ud_monitor_enable_receiving _ k := (0, k);
  ud_monitor_get_fd _ k := (7, k);
  ud_monitor_receive_device _ k :=
    uk_gain (head (uk_queue k)) (mk_uk (uk_left k) (uk_fds k) (uk_objs k) (tail (uk_queue k)));
  ud_monitor_unref c := uk_drop (Some c);
  ud_enumerate_new _ := uk_gain (Some 12%nat);
  ud_enumerate_add_match_subsystem _ k := (tt, k);
  ud_enumerate_add_match_property _ k := (tt, k);
  ud_enumerate_scan_devices _ k := (tt, k);
  ud_entries _ k := ([bytes_of "1-1"; bytes_of "usb1"; bytes_of "usb2"], k);
  ud_enumerate_unref c := uk_drop (Some c);
  ud_device_new_from_syspath _ path :=
    uk_gain (if bool_decide (path = bytes_of "1-1") then Some 2%nat else if bool_decide (path = bytes_of "usb1") then Some 1%nat else None);
  ud_device_get_action dev k := (match dev with Some 3%nat => Some (bytes_of "remove") | Some _ => Some (bytes_of "add") | None => None end, k);
  ud_device_get_devnode dev k := (match dev with Some 1%nat => Some (bytes_of "/dev/bus/usb/001/001") | Some _ => Some (bytes_of "/dev/bus/usb/001/002") | None => None end, k);
  ud_device_get_sysname dev k := (match dev with Some 1%nat => Some (bytes_of "usb1") | Some _ => Some (bytes_of "1-1") | None => None end, k);
  ud_device_unref := uk_drop
|}.
#[export] Instance uk_netlink_laws : NetlinkLaws uk_netlink uk_fds.
Proof.
  split; try done.
  - intros ty [n f o q]. pose proof (socket_law (fds := fun k => k) ty f) as Hlaw. unfold uk_netlink, uk_on_fds. simpl in *. by destruct (ty =? SOCK_RAW).
  - intros [n f o q]. exact (pipe_law (fds := fun k => k) f).
Qed.
#[export] Instance uk_udev_laws : UdevLaws uk_netlink uk_udev uk_fds uk_objs.
Proof. split; done. Qed.
#[export] Instance uk_udev_events : UdevEvents uk_udev uk_fds uk_objs uk_queue.
Proof. split; done. Qed.

(** The files of these devices, as in EnumProps.v; here every open file is
    counted. *)
Definition uk_quiet {A} (a : A) (k : udev_kernel) : A * udev_kernel := (a, k).
Definition uk_sys : linux_sys udev_kernel := {|
  sys_open _ _ k :=
    let fd := new_fd (uk_fds k) in ((0, fd), mk_uk 18 ({[ fd ]} ∪ uk_fds k) (uk_objs k) (uk_queue k));
  sys_read _ n k :=
    let data := take (Z.to_nat n) (drop (18 - uk_left k) demo_descriptor) in
    ((0, data), mk_uk (uk_left k - length data) (uk_fds k) (uk_objs k) (uk_queue k));
  sys_close fd k := (tt, mk_uk (uk_left k) (uk_fds k ∖ {[ fd ]}) (uk_objs k) (uk_queue k));
  sys_nanosleep := uk_quiet tt;
  sys_text path := uk_quiet (tree_text path);
  sys_entries path := uk_quiet (sys_entries tree_sys path (0%nat, ∅)).1;
  sys_isdir _ := uk_quiet true;
  sys_uname := uk_quiet (Some (bytes_of "3.4.0"));
  sys_clock_gettime _ := uk_quiet (EINVAL, mk_ts 0 0);
  sys_mmap _ _ := uk_quiet (EINVAL, O);
  sys_munmap _ _ := uk_quiet EINVAL;
  ioctl_control _ _ := uk_quiet (ENODEV, []);
  ioctl_get_capabilities _ := uk_quiet (ENODEV, 0);
  ioctl_setconfig _ _ := uk_quiet ENODEV;
  ioctl_claimintf _ _ := uk_quiet ENODEV;
  ioctl_releaseintf _ _ := uk_quiet ENODEV;
  ioctl_setintf _ _ _ := uk_quiet ENODEV;
  ioctl_clear_halt _ _ := uk_quiet ENODEV;
  ioctl_reset _ := uk_quiet ENODEV;
  ioctl_streams _ _ _ _ := uk_quiet (ENODEV, 0);
  ioctl_getdriver _ _ := uk_quiet (ENODEV, []);
  ioctl_disconnect _ _ := uk_quiet ENODEV;
  ioctl_connect _ _ := uk_quiet (ENODEV, 0);
  ioctl_disconnect_claim _ _ _ _ := uk_quiet ENODEV
|}.
#[export] Instance uk_laws : FileLaws uk_sys (fun k _ => Z.of_nat (uk_left k)).
Proof.
  split; simpl; [lia|by intros path mode k fd k' [= _ <-]|].
  intros fd n [k fds objs queue] data k' Hn [= <- <-]. cbn [uk_left].
  split; [apply is_bytes_take, is_bytes_drop; by apply (bool_decide_unpack _)|].
  set (data := take _ _). assert (length data <= 18 - (18 - k))%nat as Hl.
  { unfold data. rewrite length_take, length_drop. change (length demo_descriptor) with 18%nat. lia. }
  split; [unfold data; rewrite length_take|]; lia.
Qed.
#[export] Instance uk_balance : FileBalance uk_sys uk_fds (fun k => (uk_objs k, uk_queue k)).
Proof. split; try done. intros path mode k. simpl. by destruct (new_fd_fresh (uk_fds k)). Qed.

Definition uk_backend : os_backend (linux udev_kernel) := linux_devices idle_backend.
#[export] Instance uk_enum_backend : EnumBackend uk_backend.
Proof. split; [done|done|]. intros w. reflexivity. Qed.
#[export] Instance uk_watched {O} (obs : udev_kernel -> O) : WatchedBackend uk_fds obs uk_backend.
Proof. by split. Qed.

Definition uk_start : udev_kernel := mk_uk 0 {[ 0; 1; 2 ]} ∅ [].
Definition uk_world : linux udev_kernel := mk_linux uk_start ∅ ∅ ∅ ∅ (demo_heap 0) initial_globals.
Lemma udev_monitor_balanced_witness :
  exists r w', linux_udev_start_event_monitor uk_netlink uk_udev uk_world = Ok (r, w') /\ udev_start_post uk_fds uk_objs uk_world r w' /\
    (r = LIBUSB_SUCCESS -> exists w'', linux_udev_stop_event_monitor uk_netlink uk_udev w' = Ok (LIBUSB_SUCCESS, w'') /\
       udev_off uk_fds uk_objs (-1, -1) uk_world w'').
Proof. apply (udev_monitor_balanced uk_netlink uk_udev uk_fds uk_objs uk_world); [exact _|exact _|done]. Defined.

(** The start succeeds there. *)
Example uk_run :
  match linux_udev_start_event_monitor uk_netlink uk_udev uk_world with
  | Ok (r, w) => (r, udev (lx_globals w), elements (uk_objs (lx_kernel w)))
  | Fault _ => (-1, no_udev, [])
  end = (LIBUSB_SUCCESS, mk_udev (Some 10%nat) (Some 11%nat) 7 (3, 4), [10; 11]%nat).
Proof. vm_compute. reflexivity. Qed.
