(* ===== verification/EnumStart.v ===== *)
(** * The start of the Linux backend

    [op_init] finds out what kind of system it is; what it finds is what the
    walks rely on.  What it needs of a monitor is the class [MonitorLaws],
    which both monitors implement. *)

From S2P Require Import Prelude Keeps Heap ParseDesc Config ConfigSafety DescApi ConfigTree DescProps Bos Core Text Log Devices DeviceRefs LibSteps Hotplug Transfers Events Handles EventPipe HotplugLife Demo LinuxState LinuxSys LinuxDesc LinuxEnum LinuxNetlink LinuxUdev LinuxUrb LinuxBackend LinuxDemo SysSpecs EnumSpecs EnumInv EnumScan EnumWalk EnumSteps UdevSpecs EnumFrames EnumProps UeventSpecs NetlinkProps UdevProps.

(** A system without the relations of sysfs does not have the descriptors
    there either: they came later. *)
Lemma version_ge_mono numbers minor a b : 0 < a <= b -> version_ge numbers 2 minor a = 0 -> version_ge numbers 2 minor b = 0.
Proof.
  intros Hab. assert ((0 =? a) = false /\ (0 =? b) = false) as [Ha Hb] by lia. unfold version_ge.
  destruct numbers as [|x [|y [|z l]]]; rewrite ?Ha, ?Hb, ?andb_false_r; repeat case_match; try done.
  destruct (Z.leb_spec a z), (Z.leb_spec b z); simpl; lia.
Qed.

(** ** Monitors *)

(** Another kernel and other globals. *)
Definition with_globals {K} (k : K) (g : linux_globals) (w : linux K) : linux K := set_lx_globals g (set_lx_kernel k w).
Definition started {K} (R : linux_globals -> linux_globals -> Prop) (w w' : linux K) : Prop :=
  exists k g, w' = with_globals k g w /\ R (lx_globals w) g.
Definition same_monitor (g g' : linux_globals) : Prop :=
  linux_netlink_socket g' = linux_netlink_socket g /\ netlink_control_pipe g' = netlink_control_pipe g /\ udev g' = udev g.
(** Nothing but the globals of the monitor and the counter changes. *)
Definition same_system (g g' : linux_globals) : Prop :=
  sysfs_has_descriptors g' = sysfs_has_descriptors g /\ sysfs_can_relate_devices g' = sysfs_can_relate_devices g /\ usbfs_path g' = usbfs_path g.

(** [named]: whether the monitor gives names to devices; [idle] and [running]
    are what its variables say. *)
Class MonitorLaws {K : Type} (mon : hotplug_monitor K) (be : os_backend (linux K)) (ready : bool)
    (named : linux_globals -> bool) (idle running : linux_globals -> Prop) : Prop := {
  mon_start_law w : idle (lx_globals w) -> wp (mon_start mon) w (fun r w' =>
    started (fun g g' => same_system g g' /\ init_count g' = init_count g /\
      (if r =? LIBUSB_SUCCESS then running g' else idle g')) w w');
  mon_stop_law w : running (lx_globals w) -> wp (mon_stop mon) w (fun _ w' =>
    started (fun g g' => same_system g g' /\ init_count g' = init_count g /\ idle g') w w');
  mon_scan_law g : system_ok g (named g) -> running g -> walk_ok be ready g (named g) (mon_scan mon);
  mon_scan_steps R : StepRelation R -> FreeWorld R -> keeps R (mon_scan mon);
  mon_named g g' : sysfs_can_relate_devices g' = sysfs_can_relate_devices g -> named g' = named g;
  mon_unnamed g : named g = false -> sysfs_can_relate_devices g = 0;
  mon_idle g g' : same_monitor g g' -> idle g -> idle g';
  mon_running g g' : same_monitor g g' -> running g -> running g'
}.

Section start.
Context {K : Type} (sys : linux_sys K) (remaining : K -> Z -> Z) `{!FileLaws sys remaining}.
Context (be : os_backend (linux K)) (ready : bool) `{!EnumBackend be}.
Context (mon : hotplug_monitor K) (named : linux_globals -> bool) (idle running : linux_globals -> Prop).
Context `{!MonitorLaws mon be ready named idle running}.
(** The release of the kernel does not change. *)
Context (release : option (list Z)) (Hrelease : forall k, (sys_uname sys k).1 = release).
Implicit Types (s : lib (linux K)) (w : linux K) (G F L C : gmultiset nat) (g : linux_globals).

Definition version_of (sublevel : Z) : Z :=
  match release with
  | None => -1
  | Some release => version_ge (scan_release release) 2 6 sublevel
  end.

(** What the two flags about sysfs can be. *)
Definition flags_ok g : Prop :=
  (sysfs_has_descriptors g = -1 \/ sysfs_has_descriptors g = 0 \/ sysfs_has_descriptors g = version_of 26) /\
  (sysfs_can_relate_devices g = 0 -> sysfs_has_descriptors g = 0).

(** The flags about sysfs and the counter stay. *)
Definition same_flags g g' : Prop :=
  sysfs_has_descriptors g' = sysfs_has_descriptors g /\ sysfs_can_relate_devices g' = sysfs_can_relate_devices g /\ init_count g' = init_count g /\
  same_monitor g g'.

Lemma started_call {A} (op : K -> A * K) w (Q : A -> linux K -> Prop) :
  (forall a k, Q a (set_lx_kernel k w)) -> wp (sys_call op) w Q.
Proof. unfold wp, sys_call. intros HQ. destruct (op (lx_kernel w)) as [a k]. apply HQ. Qed.

Lemma find_usbfs_path_wp fallback w : wp (find_usbfs_path sys fallback) w (fun _ w' => started same_flags w w').
Proof.
  assert (forall k, started same_flags w (set_lx_kernel k w)) as Hk by (intros k; by exists k, (lx_globals w)).
  unfold find_usbfs_path, check_usb_vfs.
  apply wp_bind, wp_bind, started_call. intros e1 k1. apply wp_ret. destruct (match e1 with None => false | Some _ => _ end); [by apply wp_ret, Hk|].
  apply wp_bind, wp_bind, started_call. intros e2 k2. apply wp_ret. destruct (match e2 with None => false | Some _ => _ end); [by apply wp_ret, Hk|].
  apply wp_bind, started_call. intros [names|] k3; [|by apply wp_ret, Hk]. destruct (existsb _ _); [|by apply wp_ret, Hk].
  unfold upd_globals. apply wp_bind, wp_modify, wp_ret. by eexists k3, _.
Qed.

(** One flag. *)
Definition flagged (flag : linux_globals -> Z) (set : Z -> linux_globals -> linux_globals) (sublevel : Z) g : linux_globals :=
  if flag g =? -1 then set (version_of sublevel) g else g.
Lemma version_flag_wp flag set sublevel w : (forall v g, flag (set v g) = v) ->
  wp (version_flag sys flag set sublevel) w (fun ok w' => exists k, w' = with_globals k (flagged flag set sublevel (lx_globals w)) w /\
    ok = negb (flag (flagged flag set sublevel (lx_globals w)) =? -1)).
Proof.
  intros Hset. unfold version_flag, flagged, globals. apply wp_bind, wp_gets. destruct (Z.eqb_spec (flag (lx_globals w)) (-1)) as [Hf|Hf]; cbn [negb].
  - unfold kernel_version_ge. apply wp_bind, wp_bind. unfold wp at 1, sys_call. pose proof (Hrelease (lx_kernel w)) as Hr.
    destruct (sys_uname sys (lx_kernel w)) as [r k]. simpl in Hr. subst r. apply wp_ret. unfold upd_globals.
    apply wp_bind, wp_modify, wp_ret. exists k. rewrite Hset. done.
  - apply wp_ret. exists (lx_kernel w). split; [by destruct w|]. by rewrite (proj2 (Z.eqb_neq _ _) Hf).
Qed.

(** What [version_flags] leaves. *)
Definition flags_set g g' : Prop :=
  flags_ok g' /\ usbfs_path g' = usbfs_path g /\ init_count g' = init_count g /\ same_monitor g g'.
Lemma flags_set_bulk g g0 : flags_set g g0 -> flags_set g (flagged supports_flag_bulk_continuation set_supports_flag_bulk_continuation 32 g0).
Proof. unfold flagged. by case_match. Qed.
Lemma flags_set_zero g g0 : flags_set g g0 -> flags_set g (flagged supports_flag_zero_packet set_supports_flag_zero_packet 31 g0).
Proof. unfold flagged. by case_match. Qed.
Lemma flags_set_descriptors g g0 : flags_set g g0 -> flags_set g (flagged sysfs_has_descriptors set_sysfs_has_descriptors 26 g0).
Proof.
  intros ([Hhas Hcan] & Hpath & Hcount). unfold flagged. destruct (Z.eqb_spec (sysfs_has_descriptors g0) (-1)) as [Hno|]; [|done].
  split; [|done]. split; simpl; [by right; right|]. intros H0. specialize (Hcan H0). lia.
Qed.
Lemma flags_set_relate g g0 : flags_set g g0 -> sysfs_has_descriptors g0 <> -1 ->
  flags_set g (flagged sysfs_can_relate_devices set_sysfs_can_relate_devices 22 g0).
Proof.
  intros ([Hhas Hcan] & Hpath & Hcount) Hno. unfold flagged. destruct (Z.eqb_spec (sysfs_can_relate_devices g0) (-1)); [|done].
  split; [|done]. split; simpl; [done|]. intros H22. destruct Hhas as [?|[?| ->]]; [done|done|]. unfold version_of in *.
  destruct release; [|done]. by eapply (version_ge_mono _ 6 22).
Qed.
Lemma version_flags_wp w : flags_ok (lx_globals w) ->
  wp (version_flags sys) w (fun _ w' => started flags_set w w').
Proof.
  intros Hok. unfold version_flags.
  assert (forall flag set sublevel w0 (Q : bool -> linux K -> Prop), (forall v g, flag (set v g) = v) ->
    (forall k, let g := flagged flag set sublevel (lx_globals w0) in
      Q (negb (flag g =? -1)) (with_globals k g w0)) -> wp (version_flag sys flag set sublevel) w0 Q) as Hflag.
  { intros flag set sublevel w0 Q Hset HQ. eapply wp_mono; [by apply version_flag_wp|]. intros ok w' (k & -> & ->). apply HQ. }
  assert (forall k g k' g', with_globals k' g' (with_globals k g w) = with_globals k' g' w) as Hwith by done.
  assert (flags_set (lx_globals w) (lx_globals w)) as H0 by done.
  apply wp_bind, Hflag; [done|]. intros k1 g1. pose proof (flags_set_bulk _ _ H0) as H1. fold g1 in H1.
  destruct (negb (negb _)); [apply wp_ret; by exists k1, g1|].
  apply wp_bind, Hflag; [done|]. intros k2 g2. pose proof (flags_set_zero _ _ H1) as H2. rewrite Hwith.
  change (flags_set (lx_globals w) g2) in H2.
  destruct (negb (negb _)); [apply wp_ret; by exists k2, g2|].
  apply wp_bind, Hflag; [done|]. intros k3 g3. pose proof (flags_set_descriptors _ _ H2) as H3. rewrite Hwith.
  change (flags_set (lx_globals w) g3) in H3.
  destruct (Z.eqb_spec (sysfs_has_descriptors g3) (-1)) as [|Hno]; cbn [negb]; [apply wp_ret; by exists k3, g3|].
  apply Hflag; [done|]. intros k4 g4. rewrite Hwith. exists k4, g4. split; [done|]. by apply flags_set_relate.
Qed.

Lemma check_sysfs_wp w : flags_ok (lx_globals w) -> wp (check_sysfs sys) w (fun _ w' => started flags_set w w').
Proof.
  intros Hok. unfold check_sysfs, globals. apply wp_bind, wp_gets. destruct (_ || _); [|by apply wp_ret; exists (lx_kernel w), (lx_globals w); destruct w].
  apply wp_bind, started_call. intros [] k; [by apply wp_ret; exists k, (lx_globals w); destruct w|].
  unfold upd_globals. apply wp_modify. eexists k, _. split; [done|]. split; [|done]. split; [by right; left|done].
Qed.

Lemma flags_ok_system g : flags_ok g -> is_Some (usbfs_path g) -> system_ok g (named g).
Proof.
  intros [_ Hcan] Hpath. split; [done|]. intros Hn. by apply Hcan, (mon_unnamed (mon := mon)).
Qed.

(** ** The scan *)

Lemma scan_new_globals nm k g g' G F L C s : scan_inv be ready nm g ∅ G F L C s ->
  scan_inv be ready nm g' ∅ G F L C (set_world (with_globals k g' (world s)) s).
Proof. intros [Hhot Hacc Hdom Hg Hlist Hpriv]. split; try done. by destruct Hhot as [[? []]]. Qed.

Lemma same_system_named g g' : same_system g g' -> named g' = named g.
Proof. intros (_ & Hcan & _). by apply (mon_named (mon := mon)). Qed.
Lemma same_system_ok g g' : same_system g g' -> system_ok g (named g) -> system_ok g' (named g').
Proof. intros Hg. rewrite (same_system_named g g' Hg). unfold system_ok. by destruct Hg as (-> & _ & ->). Qed.

(** The monitor runs while a context uses the backend. *)
Definition monitored g : Prop := if init_count g =? 0 then idle g else running g.

(** What [start_scan] leaves. *)
Definition scanned G F C g (r : Z) s' : Prop :=
  let g' := lx_globals (world s') in
  scan_inv be ready (named g') g' ∅ G F ∅ C s' /\ same_system g g' /\
  init_count g' = init_count g + (if r =? LIBUSB_SUCCESS then 1 else 0) /\
  (if r =? LIBUSB_SUCCESS then running g' else monitored g').

Lemma scanned_globals k g g' G F C r s : scan_inv be ready (named g) g ∅ G F ∅ C s -> same_system g g' ->
  init_count g' = init_count g + (if r =? LIBUSB_SUCCESS then 1 else 0) ->
  (if r =? LIBUSB_SUCCESS then running g' else monitored g') ->
  scanned G F C g r (set_world (with_globals k g' (world s)) s).
Proof.
  intros Hinv Hsame Hcount Hmon. split; [|done]. simpl. rewrite (same_system_named g g' Hsame). by eapply scan_new_globals.
Qed.

(** The monitor is started for the first context. *)
Lemma start_monitor_wp g s (Q : Z -> lib (linux K) -> Prop) : lx_globals (world s) = g -> monitored g ->
  (forall r k g1, same_system g g1 -> init_count g1 = init_count g ->
     (if r =? LIBUSB_SUCCESS then running g1 else monitored g1) -> Q r (set_world (with_globals k g1 (world s)) s)) ->
  wp (if init_count g =? 0 then on_world (linux_start_event_monitor mon) else mret LIBUSB_SUCCESS) s Q.
Proof.
  intros Hg Hmon HQ. unfold monitored in Hmon. destruct (Z.eqb_spec (init_count g) 0) as [H0|H0].
  - apply wp_run_world. eapply wp_mono; [apply (mon_start_law (mon := mon)); by rewrite Hg|].
    intros r w1 (k & g1 & -> & Hsame & Hcount & Hrun). rewrite Hg in Hsame, Hcount. apply HQ; [done|done|].
    destruct (r =? LIBUSB_SUCCESS); [done|]. unfold monitored. by rewrite (proj2 (Z.eqb_eq (init_count g1) 0)) by congruence.
  - apply wp_ret. specialize (HQ LIBUSB_SUCCESS (lx_kernel (world s)) g ltac:(done) eq_refl Hmon).
    replace (set_world _ s) with s in HQ; [done|]. unfold with_globals. rewrite <- Hg. destruct s. simpl. by destruct world.
Qed.

Lemma start_scan_wp g G F C s : system_ok g (named g) -> monitored g -> scan_inv be ready (named g) g ∅ G F ∅ C s ->
  wp (start_scan mon) s (scanned G F C g).
Proof.
  intros Hsystem Hmon Hinv. unfold start_scan. pose proof (si_globals _ _ _ _ _ _ _ _ _ _ Hinv) as Hg.
  apply wp_bind. eapply scan_globals; [exact Hinv|]. apply wp_bind. apply (start_monitor_wp g); [done|done|].
  intros r k1 g1 Hsame Hcount Hrun. pose proof (scan_new_globals (named g) k1 g g1 G F ∅ C s Hinv) as Hinv1.
  destruct (Z.eqb_spec r LIBUSB_SUCCESS) as [Hr|Hr]; cbn [negb].
  2:{ apply wp_ret. apply scanned_globals; [exact Hinv|exact Hsame| |]; rewrite (proj2 (Z.eqb_neq _ _) Hr); [lia|exact Hrun]. }
  assert (system_ok g1 (named g1)) as Hsystem1 by by eapply same_system_ok. rewrite <- (same_system_named g g1 Hsame) in Hinv1.
  apply wp_bind. eapply wp_mono; [exact (mon_scan_law (mon := mon) g1 Hsystem1 Hrun ∅ G F ∅ C _ Hinv1)|].
  intros r2 s2 [Hinv2 _]. pose proof (si_globals _ _ _ _ _ _ _ _ _ _ Hinv2) as Hg2.
  assert (forall r k g2, same_system g1 g2 -> init_count g2 = init_count g1 + (if r =? LIBUSB_SUCCESS then 1 else 0) ->
    (if r =? LIBUSB_SUCCESS then running g2 else monitored g2) -> scanned G F C g r (set_world (with_globals k g2 (world s2)) s2)) as Hdone.
  { intros r3 k3 g3 Hs3 Hc3 Hm3. split; [simpl; rewrite (same_system_named g1 g3 Hs3); by eapply scan_new_globals|].
    destruct Hsame as (Ha1 & Hb1 & Hc1), Hs3 as (Ha & Hb & Hc). split; [split_and!; simpl; congruence|]. split; [simpl; congruence|done]. }
  assert (s2 = set_world (with_globals (lx_kernel (world s2)) g1 (world s2)) s2) as Hid.
  { unfold with_globals. rewrite <- Hg2. destruct s2. simpl. by destruct world. }
  apply wp_bind. eapply scan_globals; [exact Hinv2|]. apply wp_bind. destruct (Z.eqb_spec r2 LIBUSB_SUCCESS) as [->|Hr2].
  - apply wp_run_world. unfold upd_globals. apply wp_modify, wp_ret. rewrite Hg2.
    change (set_lx_globals ?g' ?w) with (with_globals (lx_kernel w) g' w).
    apply (Hdone LIBUSB_SUCCESS (lx_kernel (world s2)) (set_init_count (init_count g1 + 1) g1)); [done|done|].
    simpl. by apply (mon_running (mon := mon) g1).
  - assert ((r2 =? LIBUSB_SUCCESS) = false) as Hfail by by apply Z.eqb_neq.
    destruct (Z.eqb_spec (init_count g1) 0) as [H0|H0].
    + apply wp_bind, wp_run_world. eapply wp_mono; [apply (mon_stop_law (mon := mon)); by rewrite Hg2|].
      intros _ w3 (k3 & g3 & -> & Hs3 & Hc3 & Hidle). rewrite Hg2 in Hs3, Hc3. apply wp_ret, wp_ret. apply Hdone; rewrite ?Hfail; [done|lia|].
      unfold monitored. by rewrite Hc3, H0.
    + apply wp_ret, wp_ret. rewrite Hid. apply Hdone; rewrite ?Hfail; [done|lia|]. unfold monitored. by rewrite (proj2 (Z.eqb_neq _ _) H0).
Qed.

(** ** The whole of [op_init] *)

Lemma on_started {A} (m : M (linux K) A) (R : linux_globals -> linux_globals -> Prop) k g s (Q : A -> lib (linux K) -> Prop) :
  (forall w, lx_globals w = g -> wp m w (fun _ w' => started R w w')) ->
  (forall a k' g', R g g' -> Q a (set_world (with_globals k' g' (world s)) s)) ->
  wp (on_world m) (set_world (with_globals k g (world s)) s) Q.
Proof.
  intros Hm HQ. apply wp_run_world. eapply wp_mono; [by apply Hm|]. intros a w (k' & g' & -> & HR). by apply (HQ a k' g').
Qed.
Lemma on_upd_globals f k g s (Q : unit -> lib (linux K) -> Prop) :
  Q tt (set_world (with_globals k (f g) (world s)) s) -> wp (on_world (upd_globals f)) (set_world (with_globals k g (world s)) s) Q.
Proof. intros HQ. apply wp_run_world. unfold upd_globals. by apply wp_modify. Qed.
Lemma on_globals k g s (Q : linux_globals -> lib (linux K) -> Prop) :
  Q g (set_world (with_globals k g (world s)) s) -> wp (on_world globals) (set_world (with_globals k g (world s)) s) Q.
Proof. intros HQ. apply wp_run_world. unfold globals. by apply wp_gets. Qed.

(** The clock is found out once. *)
Definition find_clock : Lib (linux K) unit :=
  g ← on_world globals;
  if monotonic_clkid g =? -1 then
    clk ← on_world (find_monotonic_clock sys); on_world (upd_globals (set_monotonic_clkid clk))
  else mret tt.
Lemma find_clock_wp k g s (Q : unit -> lib (linux K) -> Prop) :
  (forall k' v, Q tt (set_world (with_globals k' (set_monotonic_clkid v g) (world s)) s)) ->
  wp find_clock (set_world (with_globals k g (world s)) s) Q.
Proof.
  intros HQ. unfold find_clock. apply wp_bind, on_globals. destruct (monotonic_clkid g =? -1).
  - apply wp_bind, (on_started _ eq).
    + intros w _. unfold find_monotonic_clock. apply wp_bind, started_call. intros [e ts] k'. apply wp_ret. by eexists k', _.
    + intros clk k' _ <-. by apply on_upd_globals.
  - apply wp_ret. specialize (HQ k (monotonic_clkid g)). by replace (set_monotonic_clkid (monotonic_clkid g) g) with g in HQ by by destruct g.
Qed.

(** What [op_init] leaves, from the globals [g0]. *)
Definition op_init_post G F C (g0 : linux_globals) (r : Z) s' : Prop :=
  let g := lx_globals (world s') in
  scan_inv be ready (named g) g ∅ G F ∅ C s' /\ flags_ok g /\
  if r =? LIBUSB_SUCCESS then system_ok g (named g) /\ init_count g = init_count g0 + 1 /\ running g
  else init_count g = init_count g0 /\ monitored g.

Lemma same_monitored g g' : init_count g' = init_count g -> same_monitor g g' -> monitored g -> monitored g'.
Proof.
  unfold monitored. intros ->. destruct (init_count g =? 0); [apply (mon_idle (mon := mon))|apply (mon_running (mon := mon))].
Qed.
#[export] Instance same_monitor_trans : Transitive same_monitor.
Proof. intros g1 g2 g3 (A1 & B1 & C1) (A2 & B2 & C2). split_and!; congruence. Qed.

Lemma op_init_wp G F C s :
  flags_ok (lx_globals (world s)) -> monitored (lx_globals (world s)) -> usb_devs s = [] -> hot_inv be ready F ∅ C s ->
  lx_acc G (world s) -> priv_dom s -> wp (op_init sys mon) s (op_init_post G F C (lx_globals (world s))).
Proof.
  intros Hflags Hmon Hnone Hhot Hacc Hdom.
  assert (forall k g nm, scan_inv be ready nm g ∅ G F ∅ C (set_world (with_globals k g (world s)) s)) as Hinv.
  { intros k g nm. apply (scan_new_globals nm k (lx_globals (world s))). split; try done. rewrite Hnone. by intros d Hd%elem_of_nil. }
  set (g0 := lx_globals (world s)) in *.
  assert (s = set_world (with_globals (lx_kernel (world s)) g0 (world s)) s) as Hid by (destruct s; simpl; by destruct world).
  rewrite Hid at 1. unfold op_init.
  apply wp_bind. apply (on_started _ same_flags); [intros w _; apply find_usbfs_path_wp|]. intros path k1 g1 (Hhas & Hcan & Hcount & Hsame1).
  apply wp_bind, on_upd_globals. assert (flags_ok g1) as Hok1 by (unfold flags_ok; by rewrite Hhas, Hcan).
  set (g2 := set_usbfs_path path g1).
  assert (forall k g' r, flags_ok g' -> init_count g' = init_count g0 -> same_monitor g0 g' -> (r =? LIBUSB_SUCCESS) = false ->
    op_init_post G F C g0 r (set_world (with_globals k g' (world s)) s)) as Hfail.
  { intros k g' r Hok Hc Hsame Hr. unfold op_init_post. rewrite Hr. split; [apply Hinv|]. split; [done|]. split; [done|].
    by eapply same_monitored. }
  destruct path as [path|]; [|by apply wp_ret, Hfail].
  apply wp_bind_assoc. change (wp (find_clock ≫= fun _ => ok ← on_world (version_flags sys);
    if negb ok then mret LIBUSB_ERROR_OTHER else on_world (check_sysfs sys) ;; start_scan mon)
    (set_world (with_globals k1 g2 (world s)) s) (op_init_post G F C g0)).
  apply wp_bind, find_clock_wp. intros k3 v. set (g3 := set_monotonic_clkid v g2).
  apply wp_bind, (on_started _ flags_set); [intros w Hw; apply version_flags_wp; by rewrite Hw|].
  intros ok k4 g4 (Hok4 & Hpath4 & Hcount4 & Hsame4). assert (init_count g4 = init_count g0) as Hc4 by (rewrite Hcount4; exact Hcount).
  assert (same_monitor g0 g4) as Hm4 by (etransitivity; [exact Hsame1|exact Hsame4]).
  destruct (negb ok); [by apply wp_ret, Hfail|].
  apply wp_bind, (on_started _ flags_set); [intros w Hw; apply check_sysfs_wp; by rewrite Hw|].
  intros _ k5 g5 (Hok5 & Hpath5 & Hcount5 & Hsame5). assert (system_ok g5 (named g5)) as Hsystem.
  { apply flags_ok_system; [done|]. rewrite Hpath5, Hpath4. by eexists. }
  assert (init_count g5 = init_count g0) as Hc by congruence.
  assert (monitored g5) as Hmon5 by (eapply same_monitored; [exact Hc|by etransitivity|done]).
  eapply wp_mono; [apply (start_scan_wp g5 G F C); [done|done|apply Hinv]|].
  intros r s' (Hinv' & Hsame & Hcount' & Hrun). unfold op_init_post. split; [done|]. split.
  - destruct Hsame as (Ha & Hb & _). unfold flags_ok. by rewrite Ha, Hb.
  - rewrite Hcount', Hc. destruct (Z.eqb_spec r LIBUSB_SUCCESS) as [Hr|].
    + split; [by eapply same_system_ok|done].
    + split; [lia|done].
Qed.
End start.

(** ** The two monitors *)

Definition named_by (use_udev : bool) (g : linux_globals) : bool :=
  if use_udev then true else negb (sysfs_can_relate_devices g =? 0).
Definition idle_by (use_udev : bool) (g : linux_globals) : Prop := if use_udev then udev_idle g else True.
Definition udev_running (g : linux_globals) : Prop :=
  is_Some (udev_ctx (udev g)) /\ is_Some (udev_monitor (udev g)) /\ udev_monitor_fd (udev g) <> -1.
Definition running_by (use_udev : bool) (g : linux_globals) : Prop :=
  if use_udev then udev_running g else linux_netlink_socket g <> -1.

Section monitors.
Context {K : Type} (sys : linux_sys K) (remaining : K -> Z -> Z) `{!FileLaws sys remaining}.
Context (nl : netlink_sys K) (ud : udev_sys K) (fds : K -> gset Z) (objs : K -> gmultiset nat).
Context `{!NetlinkLaws nl fds} `{!UdevLaws nl ud fds objs}.
Context (big : bool) (junk : nat -> list Z) (Hjunk : junk_bytes junk) (be : os_backend (linux K)) (ready : bool) `{!EnumBackend be}.
Implicit Types (w : linux K) (g : linux_globals).

Lemma netlink_start_law w : wp (linux_netlink_start_event_monitor nl) w (fun r w' =>
  started (fun g g' => same_system g g' /\ init_count g' = init_count g /\
    (if r =? LIBUSB_SUCCESS then running_by false g' else idle_by false g')) w w').
Proof.
  eapply wp_mono; [apply (start_wp nl fds)|]. intros r w1 Hpost. unfold start_post in Hpost. destruct (r =? LIBUSB_SUCCESS).
  - destruct Hpost as (k & fd & a & b & -> & Hfd & _). eexists k, _. split; [reflexivity|]. split; [done|]. split; [done|]. simpl. lia.
  - destruct Hpost as (_ & pipe & _ & k & -> & _). by eexists k, _.
Qed.
Lemma netlink_stop_law w : linux_netlink_socket (lx_globals w) <> -1 ->
  wp (linux_netlink_stop_event_monitor nl) w (fun _ w' =>
    started (fun g g' => same_system g g' /\ init_count g' = init_count g /\ idle_by false g') w w').
Proof.
  intros Hsocket. unfold linux_netlink_stop_event_monitor, close_control_pipe, globals, upd_globals. apply wp_bind, wp_gets.
  rewrite (proj2 (Z.eqb_neq _ _) Hsocket). apply wp_bind, started_call. intros _ k1. apply wp_bind, started_call. intros _ k2.
  apply wp_bind, started_call. intros _ k3. apply wp_bind, wp_modify, wp_bind, wp_bind, wp_gets, wp_bind, started_call. intros _ k4.
  apply wp_bind, started_call. intros _ k5. apply wp_modify, wp_ret. by eexists k5, _.
Qed.
Lemma udev_start_law w : udev_idle (lx_globals w) -> wp (linux_udev_start_event_monitor nl ud) w (fun r w' =>
  started (fun g g' => same_system g g' /\ init_count g' = init_count g /\
    (if r =? LIBUSB_SUCCESS then running_by true g' else idle_by true g')) w w').
Proof.
  intros (Hc & Hm & Hf). eapply wp_mono; [by apply (udev_start_wp nl ud fds objs w)|]. intros r w1 Hpost. unfold udev_start_post in Hpost.
  destruct (r =? LIBUSB_SUCCESS).
  - destruct Hpost as (k & c & m & fd & a & b & -> & Hfd & _). eexists k, _. split; [reflexivity|]. split; [done|]. split; [done|].
    split; [by eexists|]. split; [by eexists|]. simpl. lia.
  - destruct Hpost as (_ & pipe & k & -> & _). by eexists k, _.
Qed.
Lemma udev_stop_law w : udev_running (lx_globals w) -> wp (linux_udev_stop_event_monitor nl ud) w (fun _ w' =>
  started (fun g g' => same_system g g' /\ init_count g' = init_count g /\ idle_by true g') w w').
Proof.
  intros ([c Hc] & [m Hm] & Hf). unfold linux_udev_stop_event_monitor, upd_udev, globals, upd_globals. apply wp_bind, wp_gets.
  rewrite Hc, Hm, (proj2 (Z.eqb_neq _ _) Hf). apply wp_bind, started_call. intros _ k1. apply wp_bind, started_call. intros _ k2.
  apply wp_bind, started_call. intros _ k3. apply wp_bind, wp_modify, wp_bind, started_call. intros _ k4. apply wp_bind, wp_modify.
  apply wp_bind, started_call. intros _ k5. apply wp_bind, started_call. intros _ k6. apply wp_bind, wp_modify, wp_ret. by eexists k6, _.
Qed.

Lemma monitor_laws use_udev :
  MonitorLaws (linux_monitor sys nl ud big junk be use_udev) be ready (named_by use_udev) (idle_by use_udev) (running_by use_udev).
Proof.
  destruct use_udev; split; simpl.
  - intros w. apply udev_start_law.
  - intros w. apply udev_stop_law.
  - intros g Hsystem [Hctx _]. by apply (udev_scan_ok sys ud remaining).
  - intros R HR HF. by apply step_udev_scan.
  - done.
  - done.
  - intros g g' (_ & _ & Hu). unfold udev_idle. by rewrite Hu.
  - intros g g' (_ & _ & Hu). unfold udev_running. by rewrite Hu.
  - intros w _. apply netlink_start_law.
  - intros w. apply netlink_stop_law.
  - intros g Hsystem _. by apply (default_scan_ok sys remaining).
  - intros R HR HF. apply step_walk, _.
  - by intros g g' ->.
  - intros g. by destruct (Z.eqb_spec (sysfs_can_relate_devices g) 0).
  - done.
  - by intros g g' (-> & _).
Qed.
End monitors.

(** C15: the start of the backend prepares what enumeration relies on, in a
    build with udev and in one without.  Whatever the system answers,
    [op_init] returns without a fault, and the lists, the references and the
    memory are in order, also when the monitor or the walk fails half-way.
    When it succeeds, the place of the device nodes is known, a system whose
    descriptors are in sysfs relates devices to names there, the backend
    counts one more context, and the monitor runs; when it fails the count
    stays, and the monitor runs if and only if there is another context. *)
Theorem start_sound {K : Type} (sys : linux_sys K) (remaining : K -> Z -> Z) (nl : netlink_sys K) (ud : udev_sys K) (fds : K -> gset Z)
    (objs : K -> gmultiset nat) (use_udev big : bool) (junk : nat -> list Z) (be : os_backend (linux K)) (ready : bool) (release : option (list Z))
    (G F C : gmultiset nat) (s : lib (linux K))
    (Hsys : FileLaws sys remaining) (Hnl : NetlinkLaws nl fds) (Hud : UdevLaws nl ud fds objs) (Hbe : EnumBackend be) (Hjunk : junk_bytes junk)
    (Hrelease : forall k, (sys_uname sys k).1 = release)
    (Hflags : flags_ok release (lx_globals (world s))) (Hmon : monitored (idle_by use_udev) (running_by use_udev) (lx_globals (world s)))
    (Hnone : usb_devs s = []) (Hhot : hot_inv be ready F ∅ C s) (Hacc : lx_acc G (world s)) (Hdom : priv_dom s) :
  exists r s', op_init sys (linux_monitor sys nl ud big junk be use_udev) s = Ok (r, s') /\
    op_init_post be ready (named_by use_udev) (idle_by use_udev) (running_by use_udev) release G F C (lx_globals (world s)) r s'.
Proof.
  pose proof (monitor_laws sys remaining nl ud fds objs big junk Hjunk be ready use_udev) as Hlaws.
  pose proof (op_init_wp sys be ready (linux_monitor sys nl ud big junk be use_udev) (named_by use_udev) (idle_by use_udev) (running_by use_udev)
    release Hrelease G F C s Hflags Hmon Hnone Hhot Hacc Hdom) as Hrun.
  by apply wp_ok in Hrun.
Qed.

Lemma start_sound_witness :
  let s := empty_lib uk_start initial_globals false in
  exists r s', op_init uk_sys (linux_monitor uk_sys uk_netlink uk_udev false zero_junk uk_backend true) s = Ok (r, s') /\
    op_init_post uk_backend false (named_by true) (idle_by true) (running_by true) (Some (bytes_of "3.4.0")) ∅ ∅ ∅ initial_globals r s'.
Proof.
  intros s. apply (start_sound uk_sys (fun k _ => Z.of_nat (uk_left k)) uk_netlink uk_udev uk_fds uk_objs true false zero_junk
    uk_backend false (Some (bytes_of "3.4.0")) ∅ ∅ ∅ s).
  - exact _.
  - exact _.
  - exact _.
  - exact uk_enum_backend.
  - exact zero_junk_bytes.
  - done.
  - split; [by left|done].
  - done.
  - done.
  - exact (si_hot _ _ _ _ _ _ _ _ _ _ (empty_inv idle_backend false true uk_start initial_globals)).
  - split; [by vm_compute|]. intros b Hb. by apply gmultiset_not_elem_of_empty in Hb.
  - intros d [p Hp]. done.
Defined.

(** The start finds both devices, with either monitor. *)
Definition init_summary {K} (fds : K -> gset Z) (o : outcome (Z * lib (linux K))) : Z * nat * Z * Z * nat :=
  match o with
  | Ok (r, s) => (r, length (usb_devs s), init_count (lx_globals (world s)), sysfs_has_descriptors (lx_globals (world s)),
                  length (elements (fds (lx_kernel (world s)))))
  | Fault _ => (-1, O, 0, 0, O)
  end.
Example netlink_init :
  init_summary uk_fds (op_init uk_sys (netlink_monitor uk_sys uk_netlink false zero_junk uk_backend)
    (empty_lib uk_start initial_globals false)) = (LIBUSB_SUCCESS, 2%nat, 1, 1, 6%nat).
Proof. vm_compute. reflexivity. Qed.
Example udev_init :
  init_summary uk_fds (op_init uk_sys (udev_monitor_ops uk_sys uk_netlink uk_udev false zero_junk uk_backend)
    (empty_lib uk_start initial_globals false)) = (LIBUSB_SUCCESS, 2%nat, 1, 1, 5%nat).
Proof. vm_compute. reflexivity. Qed.
