(* ===== verification/ResourceProps.v ===== *)
(** * Enumeration gives back what it opens

    The files that enumeration opens and the objects of libudev that the
    udev monitor takes, over whole walks and polls. *)

From S2P Require Import Prelude Keeps Heap ParseDesc Config ConfigSafety DescApi ConfigTree DescProps Bos Core Text Log Devices DeviceRefs LibSteps Hotplug Transfers Events Handles EventPipe HotplugLife Demo LinuxState LinuxSys LinuxDesc LinuxEnum LinuxNetlink LinuxUdev LinuxUrb LinuxBackend LinuxDemo SysSpecs EnumSpecs EnumInv EnumScan EnumWalk EnumSteps FileSteps UdevSpecs EnumFrames EnumProps UeventSpecs NetlinkProps UdevProps.

(** ** Files *)


(** ** Objects of libudev *)

Section udev.
Context {K : Type} (sys : linux_sys K) (nl : netlink_sys K) (ud : udev_sys K) (fds : K -> gset Z) (objs : K -> gmultiset nat) (queue : K -> list nat).
Context `{!FileBalance sys fds (fun k => (objs k, queue k))} `{!UdevEvents ud fds objs queue}.
Context (big : bool) (junk : nat -> list Z) (be : os_backend (linux K)) `{!WatchedBackend fds (fun k => (objs k, queue k)) be}.
Implicit Types (s : lib (linux K)) (w : linux K) (o : option nat).

Abbreviation same := (same_watch fds (fun k => (objs k, queue k))).
#[local] Instance udev_steps : EnumSteps sys big junk be same := watch_steps sys fds (fun k => (objs k, queue k)) big junk be.
#[local] Instance same_steps : StepRelation same := es_steps.

(** A call that changes nothing of this. *)
Lemma watch_call {A} (op : K -> A * K) s :
  (let k' := (op (kernel_of s)).2 in holds_same fds objs (kernel_of s) k' /\ queue k' = queue (kernel_of s)) ->
  wlp (on_world (sys_call op)) s (fun _ s' => same s s').
Proof.
  intros Hop a s' Hrun. unfold on_world, sys_call in Hrun. change (lx_kernel (world s)) with (kernel_of s) in Hrun.
  destruct (op (kernel_of s)) as [b k]. injection Hrun as _ <-. destruct Hop as [[HF HG] HQ]. simpl in *.
  split; [exact HF|exact (f_equal2 pair HG HQ)].
Qed.
Lemma same_owned o s s' : same s s' -> own o ⊆ objs (kernel_of s) -> own o ⊆ objs (kernel_of s').
Proof. intros [_ [= -> _]]. done. Qed.
(** One step after another. *)
Lemma watch_bind {A B} (m : Lib (linux K) A) (f : A -> Lib (linux K) B) s :
  wlp m s (fun _ s' => same s s') -> (forall a s', same s s' -> wlp (f a) s' (fun _ s'' => same s' s'')) ->
  wlp (m ≫= f) s (fun _ s' => same s s').
Proof.
  intros Hm Hf. apply wlp_bind. eapply wlp_mono; [exact Hm|]. intros a s1 H1. eapply wlp_mono; [by apply Hf|]. intros b s2 H2.
  exact (PreOrder_Transitive _ _ _ H1 H2).
Qed.

Lemma on_world_bind {A B} (m : M (linux K) A) (f : A -> M (linux K) B) s (Q : B -> lib (linux K) -> Prop) :
  wlp (a ← on_world m; on_world (f a)) s Q -> wlp (on_world (m ≫= f)) s Q.
Proof.
  intros HQ b s' Hrun. apply HQ. unfold on_world, mbind, M_bind in *. destruct (m (world s)) as [[a w]|]; [|done]. exact Hrun.
Qed.

Lemma info_watch detached o s : own o ⊆ objs (kernel_of s) ->
  wlp (on_world (udev_device_info sys ud detached o)) s (fun _ s' => same s s').
Proof.
  intros Ho. unfold udev_device_info. apply on_world_bind, watch_bind; [by apply watch_call, devnode_law|]. intros [node|] s1 H1.
  2:{ intros r s' [= _ <-]. by destruct s1. }
  apply (same_owned o) in H1; [|done]. apply on_world_bind, watch_bind; [by apply watch_call, sysname_law|]. intros [name|] s2 H2.
  2:{ intros r s' [= _ <-]. by destruct s2. }
  apply on_world_bind, watch_bind; [exact (step_on_world same _ (step_address sys big junk be same _ _ _ _ _) s2)|]. intros [[r b] a] s3 H3.
  intros x s' [= _ <-]. by destruct s3.
Qed.

Lemma handle_event_watch d s : d ∈ objs (kernel_of s) ->
  wlp (handle_udev_event sys ud big junk be d) s (fun _ s' => same s s').
Proof.
  intros Hd. assert (own (Some d) ⊆ objs (kernel_of s)) as Ho by (simpl; multiset_solver).
  unfold handle_udev_event. apply watch_bind; [by apply watch_call, action_law|]. intros [action|] s1 H1; [|by apply wlp_ret].
  apply (same_owned (Some d)) in H1; [|done]. apply watch_bind; [by apply info_watch|]. intros [[[r b] a] name] s2 _.
  destruct (negb _); [by apply wlp_ret|]. destruct (has_prefix _ action).
  - revert s2. change (keeps same (linux_hotplug_enumerate sys big junk be b a (Some name))). unfold linux_hotplug_enumerate.
    keeps. apply step_linux_enumerate, _.
  - destruct (has_prefix _ action); [|by apply wlp_ret]. revert s2. change (keeps same (linux_device_disconnected be b a)).
    by apply step_disconnected; exact _.
Qed.

(** One round takes the first event and gives its device back. *)
Lemma receive_watch m s : udev_monitor (udev (lx_globals (world s))) = Some m -> m ∈ objs (kernel_of s) ->
  wlp (udev_receive sys ud big junk be) s (fun b s' => b = bool_decide (is_Some (head (queue (kernel_of s)))) /\
    fds (kernel_of s') = fds (kernel_of s) /\ objs (kernel_of s') = objs (kernel_of s) /\ queue (kernel_of s') = tail (queue (kernel_of s))).
Proof.
  intros Hm Hin. unfold udev_receive. apply wlp_bind. intros g s0 [= <- <-]. rewrite Hm. apply wlp_bind.
  replace (set_world (world s) s) with s by by destruct s.
  intros o s1 Hrun. pose proof (receive_law ud fds objs m (kernel_of s) Hin) as Hlaw.
  unfold on_world, sys_call in Hrun. change (lx_kernel (world s)) with (kernel_of s) in Hrun.
  destruct (ud_monitor_receive_device ud (Some m) (kernel_of s)) as [o' k]. injection Hrun as <- <-. destruct Hlaw as (-> & [HF HG] & HQ).
  destruct (head (queue (kernel_of s))) as [d|] eqn:Hhead; [|apply wlp_ret].
  2:{ split; [done|]. split; [done|]. split; [|done]. change (objs k = objs (kernel_of s)). rewrite HG. simpl. multiset_solver. }
  set (s1 := set_world _ _). assert (kernel_of s1 = k) as Hk1 by done. simpl own in HG.
  apply wlp_bind. unfold udev_hotplug_event. apply wlp_bind.
  eapply wlp_mono; [apply handle_event_watch; rewrite Hk1, HG; multiset_solver|]. intros [] s2 [HF2 [= HG2 HQ2]].
  rewrite Hk1 in HF2, HG2, HQ2. intros [] s3 Hrun. unfold on_world, sys_call in Hrun. change (lx_kernel (world s2)) with (kernel_of s2) in Hrun.
  pose proof (device_unref_law ud fds objs (Some d) (kernel_of s2) ltac:(rewrite HG2, HG; simpl; multiset_solver)) as Hlaw.
  destruct (ud_device_unref ud (Some d) (kernel_of s2)) as [u k3]. injection Hrun as _ <-. destruct Hlaw as [[HF3 HG3] HQ3]. simpl in HF3, HG3, HQ3.
  apply wlp_ret. split; [done|]. change (fds k3 = fds (kernel_of s) /\ objs k3 = objs (kernel_of s) /\ queue k3 = tail (queue (kernel_of s))).
  split; [congruence|]. split; [|congruence]. rewrite HG3, HG2, HG. multiset_solver.
Qed.

(** The walk takes an enumeration and one device at a time. *)
Context `{!UdevLaws nl ud fds objs}.
Implicit Types (F : gset Z) (G : gmultiset nat).
Definition has F G s : Prop := fds (kernel_of s) = F /\ objs (kernel_of s) = G.
Lemma same_has F G s s' : same s s' -> has F G s -> has F G s'.
Proof. intros [HF [= HG _]] [<- <-]. done. Qed.
Lemma has_call {A} (op : K -> A * K) F G F' G' s :
  (forall k, fds k = F -> objs k = G -> fds (op k).2 = F' /\ objs (op k).2 = G') -> has F G s ->
  wlp (on_world (sys_call op)) s (fun _ s' => has F' G' s').
Proof.
  intros Hop [HF HG] a s' Hrun. unfold on_world, sys_call in Hrun. change (lx_kernel (world s)) with (kernel_of s) in Hrun.
  specialize (Hop (kernel_of s) HF HG). destruct (op (kernel_of s)) as [b k]. by injection Hrun as _ <-.
Qed.
Lemma has_gain (op : K -> option nat * K) F G s :
  (forall k, objs k = G -> gains fds objs (op k).1 k (op k).2) -> has F G s ->
  wlp (on_world (sys_call op)) s (fun o s' => has F (own o ⊎ G) s').
Proof.
  intros Hop [HF HG] a s' Hrun. unfold on_world, sys_call in Hrun. change (lx_kernel (world s)) with (kernel_of s) in Hrun.
  destruct (Hop (kernel_of s) HG) as [HF1 HG1]. destruct (op (kernel_of s)) as [b k]. injection Hrun as <- <-. simpl in HF1, HG1.
  split; [change (fds k = F); congruence|]. change (objs k = own b ⊎ G). congruence.
Qed.
Lemma has_same {A} (op : K -> A * K) F G s :
  (forall k, objs k = G -> holds_same fds objs k (op k).2) -> has F G s -> wlp (on_world (sys_call op)) s (fun _ s' => has F G s').
Proof. intros Hop. apply has_call. intros k <- <-. by apply Hop. Qed.

Lemma scan_entry_has c path F G s : c ∈ G -> has F G s ->
  wlp (udev_scan_entry sys ud big junk be c path) s (fun _ s' => has F G s').
Proof.
  intros Hc Hs. unfold udev_scan_entry. apply wlp_bind.
  eapply wlp_mono; [eapply has_gain; [|exact Hs]; intros k <-; by apply (device_new_law nl)|].
  intros o s1 H1. apply wlp_bind. eapply wlp_mono; [apply info_watch; destruct H1 as [_ ->]; multiset_solver|].
  intros [[[r b] a] name] s2 H2. apply (same_has F (own o ⊎ G)) in H2; [|done]. apply wlp_bind.
  eapply (wlp_mono _ _ (fun _ s' => has F (own o ⊎ G) s')).
  { destruct (negb _); [by apply wlp_ret|]. eapply wlp_mono; [|intros x s' H; eapply same_has; [exact H|exact H2]].
    revert s2 H2. intros s2 _. revert s2. change (keeps same (linux_enumerate sys big junk be b a (Some name) ;; mret tt)).
    keeps. apply step_linux_enumerate, _. }
  intros [] s3 H3. eapply has_call; [|exact H3]. intros k HF HG.
  destruct (device_unref_law ud fds objs o k) as [[HF' HG'] _]; [rewrite HG; multiset_solver|].
  split; [congruence|]. rewrite HG', HG. multiset_solver.
Qed.
Lemma scan_has c G F s : udev_ctx (udev (lx_globals (world s))) = Some c -> c ∈ G -> has F G s ->
  wlp (linux_udev_scan_devices sys ud big junk be) s (fun _ s' => has F G s').
Proof.
  intros Hctx Hc Hs. unfold linux_udev_scan_devices. apply wlp_bind. intros g s0 [= <- <-].
  replace (set_world (world s) s) with s by by destruct s. rewrite Hctx. apply wlp_bind.
  eapply wlp_mono; [eapply has_gain; [|exact Hs]; intros k <-; by apply (enumerate_new_law nl)|].
  intros [e|] s1 H1; [|apply wlp_ret; simpl in H1; by rewrite (left_id_L ∅ (⊎)) in H1].
  assert (forall k, objs k = own (Some e) ⊎ G -> e ∈ objs k) as He by (intros k ->; simpl; multiset_solver).
  apply wlp_bind. eapply wlp_mono; [eapply has_same; [|exact H1]; intros k Hk; by apply (match_subsystem_law nl), He|]. intros [] s2 H2.
  apply wlp_bind. eapply wlp_mono; [eapply has_same; [|exact H2]; intros k Hk; by apply (match_property_law nl), He|]. intros [] s3 H3.
  apply wlp_bind. eapply wlp_mono; [eapply has_same; [|exact H3]; intros k Hk; by apply (enumerate_scan_law nl), He|]. intros [] s4 H4.
  apply wlp_bind. eapply wlp_mono; [eapply has_same; [|exact H4]; intros k Hk; by apply (entries_law nl), He|]. intros l s5 H5.
  apply wlp_bind. apply (wlp_mono _ _ (fun _ s' => has F (own (Some e) ⊎ G) s')).
  { clear -H5 Hc FileBalance0 UdevEvents0 WatchedBackend0 UdevLaws0. revert s5 H5. induction l as [|path l IH]; intros s5 H5; cbn [for_each]; [by apply wlp_ret|].
    apply wlp_bind. eapply wlp_mono; [apply (scan_entry_has c path F (own (Some e) ⊎ G)); [simpl; multiset_solver|exact H5]|]. intros [] s6 H6. by apply IH. }
  intros [] s6 H6. apply wlp_bind. apply (wlp_mono _ _ (fun _ s' => has F G s')); [|intros [] s7 H7; by apply wlp_ret].
  eapply has_call; [|exact H6]. intros k HF HG. destruct (enumerate_unref_law nl ud fds objs e k (He k HG)) as [HF' HG'].
  split; [congruence|]. rewrite HG', HG. simpl. multiset_solver.
Qed.

(** The poll ends when the queue is empty. *)
Lemma poll_wp (remaining : K -> Z -> Z) `{!FileLaws sys remaining} (Hjunk : junk_bytes junk) `{!EnumBackend be} g m n (F0 G C L : gmultiset nat) s :
  system_ok g true -> udev_monitor (udev g) = Some m -> m ∈ objs (kernel_of s) -> (length (queue (kernel_of s)) < n)%nat ->
  scan_inv be true true g ∅ G F0 L C s ->
  wp (linux_udev_hotplug_poll sys ud big junk be n) s (fun _ s' => enum_grow be g true G F0 L C s s' /\
    fds (kernel_of s') = fds (kernel_of s) /\ objs (kernel_of s') = objs (kernel_of s) /\ queue (kernel_of s') = []).
Proof.
  intros Hsystem Hm. revert L s. induction n as [|n IH]; intros L s Hin Hn Hinv; [lia|]. cbn [linux_udev_hotplug_poll].
  pose proof (si_globals _ _ _ _ _ _ _ _ _ _ Hinv) as Hg.
  pose proof (udev_receive_wp sys ud big junk be remaining Hjunk g true Hsystem eq_refl G F0 L C s Hinv) as Hrun.
  pose proof (wp_wlp _ _ _ _ Hrun (receive_watch m s ltac:(by rewrite Hg) Hin)) as Hboth.
  apply wp_bind. eapply wp_mono; [exact Hboth|]. intros b s1 [(Ho1 & L1 & Hinv1 & HL1) (Hb & HF1 & HG1 & HQ1)].
  destruct (queue (kernel_of s)) as [|d l]; simpl in Hb, HQ1, Hn; subst b.
  - apply wp_ret. split; [by split; [|exists L1]|done].
  - eapply wp_mono; [apply (IH L1); [by rewrite HG1|rewrite HQ1; lia|done]|].
    intros [] s2 ((Ho2 & L2 & Hinv2 & HL2) & HF2 & HG2 & HQ2). split; [|split_and!; congruence].
    split; [by etransitivity|]. exists L2. split; [done|]. intros Hno. rewrite <- HL1 by done. apply HL2. by eapply no_malloc_failure_same.
Qed.
End udev.

(** C27: the udev monitor in use takes nothing for good.  The walk over the
    devices of libudev, and the poll for events with as much fuel as events
    wait, return without a fault and keep the invariant of enumeration;
    every enumeration and device that libudev handed out has been given back
    exactly once, whatever its event was, and no file is left open.  The poll
    handles all events that wait. *)
Theorem udev_poll_drains {K : Type} (sys : linux_sys K) (nl : netlink_sys K) (ud : udev_sys K) (remaining : K -> Z -> Z)
    (fds : K -> gset Z) (objs : K -> gmultiset nat) (queue : K -> list nat) (big : bool) (junk : nat -> list Z) (be : os_backend (linux K))
    (g : linux_globals) (c m : nat) (G F C : gmultiset nat) (s : lib (linux K))
    (Hsys : FileLaws sys remaining) (Hfiles : FileBalance sys fds (fun k => (objs k, queue k)))
    (Hud : UdevLaws nl ud fds objs) (Hev : UdevEvents ud fds objs queue)
    (Hbe : EnumBackend be) (Hwatch : WatchedBackend fds (fun k => (objs k, queue k)) be) (Hjunk : junk_bytes junk)
    (Hsystem : system_ok g true) (Hctx : udev_ctx (udev g) = Some c) (Hmon : udev_monitor (udev g) = Some m)
    (Howned : {[+ c +]} ⊎ {[+ m +]} ⊆ objs (kernel_of s)) (Hinv : scan_inv be true true g ∅ G F ∅ C s) :
  (exists r s', linux_udev_scan_devices sys ud big junk be s = Ok (r, s') /\ scan_inv be true true g ∅ G F ∅ C s' /\
     fds (kernel_of s') = fds (kernel_of s) /\ objs (kernel_of s') = objs (kernel_of s)) /\
  (exists s' L, linux_udev_hotplug_poll sys ud big junk be (S (length (queue (kernel_of s)))) s = Ok (tt, s') /\
     scan_inv be true true g ∅ G F L C s' /\ (no_malloc_failure (mem s) -> L = ∅) /\
     fds (kernel_of s') = fds (kernel_of s) /\ objs (kernel_of s') = objs (kernel_of s) /\ queue (kernel_of s') = []).
Proof.
  pose proof (si_globals _ _ _ _ _ _ _ _ _ _ Hinv) as Hg. split.
  - pose proof (udev_scan_ok sys ud remaining big junk Hjunk be true g Hsystem ltac:(by eexists) ∅ G F ∅ C s Hinv) as Hrun.
    pose proof (wp_wlp _ _ _ _ Hrun (scan_has sys nl ud fds objs queue big junk be c (objs (kernel_of s)) (fds (kernel_of s)) s
      ltac:(by rewrite Hg) ltac:(multiset_solver) ltac:(done))) as Hboth.
    apply wp_ok in Hboth as (r & s' & Hr & [Hinv' _] & HF & HG). by exists r, s'.
  - pose proof (poll_wp sys ud fds objs queue big junk be remaining Hjunk g m (S (length (queue (kernel_of s)))) F G C ∅ s
      Hsystem Hmon ltac:(multiset_solver) ltac:(lia) Hinv) as Hrun.
    apply wp_ok in Hrun as ([] & s' & Hr & (_ & L & Hinv' & HL) & Hrest). by exists s', L.
Qed.

(** ** Examples *)

(** Both monitors' variables say that they run; the events are the arrival of
    1-1, its departure, and the arrival of the root hub. *)
Definition uk_globals : linux_globals := set_udev (mk_udev (Some 10%nat) (Some 11%nat) 7 (3, 4)) tree_globals.
Definition uk_running : udev_kernel := mk_uk 0 {[ 0; 1; 2; 3; 4 ]} {[+ 10; 11 +]}%nat [2; 3; 1]%nat.

Lemma udev_poll_drains_witness :
  let s := empty_lib uk_running uk_globals true in
  (exists r s', linux_udev_scan_devices uk_sys uk_udev false zero_junk uk_backend s = Ok (r, s') /\
     scan_inv uk_backend true true uk_globals ∅ ∅ ∅ ∅ ∅ s' /\
     uk_fds (kernel_of s') = uk_fds uk_running /\ uk_objs (kernel_of s') = uk_objs uk_running) /\
  (exists s' L, linux_udev_hotplug_poll uk_sys uk_udev false zero_junk uk_backend 4 s = Ok (tt, s') /\
     scan_inv uk_backend true true uk_globals ∅ ∅ ∅ L ∅ s' /\ (no_malloc_failure (demo_heap 0) -> L = ∅) /\
     uk_fds (kernel_of s') = uk_fds uk_running /\ uk_objs (kernel_of s') = uk_objs uk_running /\ uk_queue (kernel_of s') = []).
Proof.
  intros s. apply (udev_poll_drains uk_sys uk_netlink uk_udev (fun k _ => Z.of_nat (uk_left k)) uk_fds uk_objs uk_queue false zero_junk uk_backend uk_globals
    10 11 ∅ ∅ ∅ s).
  - exact _.
  - exact _.
  - exact _.
  - exact _.
  - exact _.
  - exact _.
  - exact zero_junk_bytes.
  - by split; [eexists|].
  - done.
  - done.
  - by apply (bool_decide_unpack _).
  - apply (empty_inv idle_backend).
Defined.

(** What the application finds after the poll: 1-1 came and went, its parent
    stayed. *)
Example uk_poll :
  match linux_udev_hotplug_poll uk_sys uk_udev false zero_junk uk_backend 4 (empty_lib uk_running uk_globals true) with
  | Ok (_, s) => (map (fun d => option_map (fun x => (bus_number x, device_address x)) (devices s !! d)) (usb_devs s), uk_queue (kernel_of s))
  | Fault _ => ([], [0%nat])
  end = ([Some (1, 1)], []).
Proof. vm_compute. reflexivity. Qed.
