(* ===== verification/StartProps.v ===== *)
(** * The Linux backend keeps the contract of the start of the library *)

From S2P Require Import Prelude Keeps Heap ParseDesc Config ConfigSafety DescApi ConfigTree DescProps Bos Core Text Log Devices DeviceRefs LibSteps Hotplug Transfers TransferSpecs Events Handles EventPipe HotplugLife PollSpecs Ctx Demo CtxProps LinuxState LinuxSys LinuxDesc LinuxEnum LinuxNetlink LinuxUdev LinuxUrb LinuxBackend LinuxDemo SysSpecs EnumSpecs EnumInv EnumScan EnumWalk EnumSteps EnumFrames EnumProps UeventSpecs NetlinkProps UdevProps EnumStart.

(** What the system calls of the platform may do. *)
Class PlatformCalls {K : Type} (os : os_backend (linux K)) : Prop := {
  platform_mutex w : same_private w (os_mutex_init os w).2;
  platform_pipe w : same_private w (os_pipe os w).2;
  platform_timerfd w : same_private w (os_timerfd_create os w).2;
  platform_close fd w : same_private w (os_close os fd w).2
}.
#[export] Instance platform_enum {K} (os : os_backend (linux K)) `{!PlatformCalls os} : EnumBackend (linux_devices os).
Proof. split; [done|done|]. intros w. exact (platform_mutex (os := os) w). Qed.

Section contract.
Context {K : Type} (sys : linux_sys K) (kern : usbfs K) (os : os_backend (linux K)) `{!PlatformCalls os}.
Context (mon : hotplug_monitor K) (named : linux_globals -> bool) (idle running : linux_globals -> Prop).
Context `{!MonitorLaws mon (linux_devices os) false named idle running}.
Context (release : option (list Z)) (Hrelease : forall k, (sys_uname sys k).1 = release).
Context (user_cb : nat -> nat -> Lib (linux K) unit) (fd_cb : nat -> bool -> Z -> Z -> Lib (linux K) unit) (fuel : nat).
Implicit Types (s : lib (linux K)) (w : linux K).

(** Before the first context: no private data, no more than the flags. *)
Definition linux_ready w : Prop :=
  flags_ok release (lx_globals w) /\ lx_dpriv w = ∅ /\ heap_fresh (lx_mem w) /\
  0 <= init_count (lx_globals w) /\ monitored idle running (lx_globals w).
(** After it: the monitor runs, and is stopped when the count is back at 0. *)
Definition linux_started w : Prop := 0 < init_count (lx_globals w) /\ running (lx_globals w).

Abbreviation backend := (linux_usbfs_backend sys mon kern os user_cb fd_cb fuel).

Lemma ready_hot s : devices s = ∅ -> usb_devs s = [] -> io_ready s = false -> new_events s -> heap_fresh (mem s) ->
  hot_inv (linux_devices os) false (live (mem s)) ∅ ∅ s.
Proof.
  intros Hdev Husb Hio [Hflags Hclose _ _ _ _ Hbytes Hmsgs Hdone Hcbs] Hfresh.
  split; rewrite ?Hmsgs, ?Hcbs, ?Husb; try done; try apply NoDup_nil_2.
  - destruct (no_devices_ok (linux_devices os) s eq_refl Hdev) as (Hrefs & Hlive & Hcon). 
    rewrite list_refs_nil in *. unfold cb_blocks, msg_blocks, msg_refs. simpl.
    rewrite !(left_id_L ∅ (⊎)). done.
  - split; [by rewrite Hbytes|]. unfold usbi_pending_events. by rewrite Hflags, Hclose, Hmsgs, Hdone.
Qed.

(** The devices that the walk found are all that holds references. *)
Lemma hot_started F s : hot_inv (linux_devices os) false F ∅ ∅ s -> hotplug_cbs s = [] -> hotplug_msgs (ev s) = [] ->
  devices_ok backend F (list_refs (usb_devs s)) s.
Proof.
  intros Hhot Hcbs Hmsgs. destruct (hot_devices _ _ _ _ _ _ Hhot) as (Hrefs & Hlive & _). rewrite Hcbs, Hmsgs in *.
  unfold cb_blocks, msg_blocks, msg_refs in *. simpl in *. rewrite !(left_id_L ∅ (⊎)) in Hlive. rewrite !(right_id_L ∅ (⊎)) in Hrefs.
  split; [done|]. split; [done|]. intros Hno. done.
Qed.

Lemma step_op_init (R : lib (linux K) -> lib (linux K) -> Prop) `{!StepRelation R} `{!FreeWorld R} : keeps R (op_init sys mon).
Proof.
  unfold op_init, start_scan, linux_scan_devices. keeps; first [by apply step_free_world|by eapply (mon_scan_steps (mon := mon))].
Qed.

Lemma op_init_contract s : devices s = ∅ -> usb_devs s = [] -> io_ready s = false -> new_events s ->
  heap_fresh (mem s) -> linux_ready (world s) -> wp (op_init sys mon) s (fun r s' => init_post backend linux_started r s s').
Proof.
  intros Hdev Husb Hio Hnew Hfresh (Hflags & Hpriv & Hmem & Hcount & Hmon).
  assert (lx_acc (live (lx_mem (world s))) (world s)) as Hacc.
  { split; [|done]. by rewrite Hpriv, map_sum_empty, (left_id_L ∅ (⊎)). }
  assert (priv_dom s) as Hdom by (intros d [p Hp]; by rewrite Hpriv in Hp).
  pose proof (op_init_wp sys (linux_devices os) false mon named idle running release Hrelease _ _ _ s Hflags Hmon Husb
    (ready_hot s Hdev Husb Hio Hnew Hfresh) Hacc Hdom) as Hrun.
  pose proof (wp_wlp _ _ _ _ Hrun (step_op_init only_enumerates s)) as Hrun2.
  pose proof (wp_wlp _ _ _ _ Hrun2 (step_op_init same_oom s)) as Hrun3.
  eapply wp_mono; [exact Hrun3|]. intros r s' [[(Hinv & _ & Hr) Honly] Ho]. destruct (Honly Hio) as (m & l & h & w & Hs').
  destruct Hnew as [_ _ _ _ _ _ _ Hmsgs _ Hcbs]. pose proof (si_hot _ _ _ _ _ _ _ _ _ _ Hinv) as Hhot.
  split; [by exists m, l, h, w|]. split; [apply hot_started; [done| |]; by rewrite Hs'|].
  split; [apply (hot_nodup _ _ _ _ _ _ Hhot)|]. split; [done|]. intros ->. destruct Hr as (_ & Hc & Hruns).
  split; [lia|done].
Qed.

Lemma op_exit_contract s : linux_started (world s) -> wp (op_exit mon) s (fun _ s' => exists w, s' = set_world w s).
Proof.
  intros [Hcount Hruns]. unfold op_exit. apply wp_bind, wp_run_world. unfold globals. apply wp_gets.
  rewrite (proj2 (Z.eqb_neq _ _)) by lia. apply wp_bind, wp_run_world. unfold upd_globals. apply wp_modify.
  destruct (_ =? 0); [|apply wp_ret; by eexists]. apply wp_bind, wp_run_world.
  eapply wp_mono; [apply (mon_stop_law (mon := mon)); by apply (mon_running (mon := mon) (lx_globals (world s)))|].
  intros r w (k & g & -> & _). apply wp_ret. by eexists.
Qed.

Lemma started_kernel w w' : same_private w w' -> linux_started w -> linux_started w'.
Proof. by intros [k ->]. Qed.

Lemma init_contract : InitContract backend linux_ready linux_started.
Proof.
  split.
  - intros init s [= <-]. apply op_init_contract.
  - intros w. done.
  - intros exit s [= <-]. apply op_exit_contract.
  - intros w. apply started_kernel. exact (platform_pipe (os := os) w).
  - intros w. apply started_kernel. exact (platform_timerfd (os := os) w).
  - intros fd w. apply started_kernel. exact (platform_close (os := os) fd w).
Qed.
End contract.

(** C16: the Linux backend keeps the contract of the start of the library,
    with either monitor.  Its [op_init] only enumerates devices, whatever its
    result: no event is recorded before the event pipe is there, every device
    of the list is owned by the list and nothing else, and the memory is that
    of the devices.  After a success the monitor runs, so that [op_exit] can
    stop it. *)
Theorem linux_init_contract {K : Type} (sys : linux_sys K) (remaining : K -> Z -> Z) (nl : netlink_sys K) (ud : udev_sys K)
    (fds : K -> gset Z) (objs : K -> gmultiset nat) (use_udev : bool)
    (kern : usbfs K) (big : bool) (junk : nat -> list Z) (os : os_backend (linux K)) (release : option (list Z))
    (user_cb : nat -> nat -> Lib (linux K) unit) (fd_cb : nat -> bool -> Z -> Z -> Lib (linux K) unit) (fuel : nat)
    (Hsys : FileLaws sys remaining) (Hnl : NetlinkLaws nl fds) (Hud : UdevLaws nl ud fds objs) (Hos : PlatformCalls os)
    (Hjunk : junk_bytes junk) (Hrelease : forall k, (sys_uname sys k).1 = release) :
  InitContract (linux_usbfs_backend sys (linux_monitor sys nl ud big junk (linux_devices os) use_udev) kern os user_cb fd_cb fuel)
    (linux_ready (idle_by use_udev) (running_by use_udev) release) (linux_started (running_by use_udev)).
Proof.
  pose proof (monitor_laws sys remaining nl ud fds objs big junk Hjunk (linux_devices os) false use_udev) as Hlaws.
  by apply (init_contract sys kern os _ (named_by use_udev)).
Qed.

#[export] Instance idle_platform {K} : PlatformCalls (K := K) idle_backend.
Proof. split; intros; reflexivity. Qed.

(** The systems with two devices, with either monitor. *)
Definition uk_usbfs_backend (use_udev : bool) : os_backend (linux udev_kernel) :=
  linux_usbfs_backend uk_sys (linux_monitor uk_sys uk_netlink uk_udev false zero_junk (linux_devices idle_backend) use_udev)
    no_usbfs idle_backend (fun _ _ => mret tt) (fun _ _ _ _ => mret tt) 10.
Lemma linux_init_contract_witness :
  InitContract (uk_usbfs_backend true) (linux_ready (idle_by true) (running_by true) (Some (bytes_of "3.4.0"))) (linux_started (running_by true)) /\
  InitContract (uk_usbfs_backend false) (linux_ready (idle_by false) (running_by false) (Some (bytes_of "3.4.0"))) (linux_started (running_by false)).
Proof.
  unfold uk_usbfs_backend. split.
  - exact (linux_init_contract uk_sys (fun k _ => Z.of_nat (uk_left k)) uk_netlink uk_udev uk_fds uk_objs true no_usbfs false zero_junk
      idle_backend (Some (bytes_of "3.4.0")) (fun _ _ => mret tt) (fun _ _ _ _ => mret tt) 10
      uk_laws uk_netlink_laws uk_udev_laws idle_platform zero_junk_bytes (fun k => eq_refl)).
  - exact (linux_init_contract uk_sys (fun k _ => Z.of_nat (uk_left k)) uk_netlink uk_udev uk_fds uk_objs false no_usbfs false zero_junk
      idle_backend (Some (bytes_of "3.4.0")) (fun _ _ => mret tt) (fun _ _ _ _ => mret tt) 10
      uk_laws uk_netlink_laws uk_udev_laws idle_platform zero_junk_bytes (fun k => eq_refl)).
Defined.

(** The library starts on them. *)
Definition uk_contexts : libusb (linux udev_kernel) :=
  mk_libusb (demo_heap 0) (mk_linux uk_start ∅ ∅ ∅ ∅ (demo_heap 0) initial_globals) 1 ∅ None 0 [].
Definition start_summary (use_udev : bool) : Z * option nat * list nat * Z * option nat :=
  match libusb_init (uk_usbfs_backend use_udev) (w_fd_cb (fun _ _ _ _ w => w)) true None uk_contexts with
  | Ok ((r, ctx), g) => (r, ctx, active_contexts_list g, init_count (lx_globals (all_world g)),
      option_map (fun s => length (usb_devs s)) (contexts g !! 0%nat))
  | Fault _ => (-1, None, [], 0, None)
  end.
Example uk_libusb_init : map start_summary [true; false] = replicate 2 (0, Some 0%nat, [0%nat], 1, Some 2%nat).
Proof. vm_compute. reflexivity. Qed.
