(* ===== verification/IfaceProps.v ===== *)
(** * Interfaces of the Linux backend

    The kernel knows which interfaces a file descriptor has claimed, the
    handle keeps a mask of them.  The two agree as long as claims, releases
    and resets succeed or fail as a whole; where they part is shown at the
    end. *)

From S2P Require Import Prelude Heap ParseDesc DescApi Bos Core Text Log Devices DeviceRefs Hotplug HotplugLife Transfers TransferSpecs Events Handles EventPipe Demo HandleProps LinuxState LinuxSys LinuxDesc LinuxEnum LinuxIface LinuxNetlink LinuxUrb LinuxBackend LinuxDemo.

(** What the kernel documents about claims: [claimed k fd i].  A successful
    reset unbinds the usbfs driver from every interface. *)
Class ClaimKernel {K : Type} (sys : linux_sys K) (claimed : K -> Z -> Z -> bool) : Prop := {
  claimintf_law fd i k j : let '(errno, k') := ioctl_claimintf sys fd i k in
    claimed k' fd j = claimed k fd j || ((errno =? 0) && (j =? i));
  releaseintf_law fd i k j : let '(errno, k') := ioctl_releaseintf sys fd i k in
    claimed k' fd j = claimed k fd j && negb ((errno =? 0) && (j =? i));
  disconnect_claim_law fd i flags driver k j : let '(errno, k') := ioctl_disconnect_claim sys fd i flags driver k in
    claimed k' fd j = claimed k fd j || ((errno =? 0) && (j =? i));
  reset_law fd k j : let '(errno, k') := ioctl_reset sys fd k in errno = 0 -> claimed k' fd j = false;
  getdriver_law fd i k j : claimed (ioctl_getdriver sys fd i k).2 fd j = claimed k fd j;
  disconnect_law fd i k j : claimed (ioctl_disconnect sys fd i k).2 fd j = claimed k fd j;
  connect_law fd i k j : claimed (ioctl_connect sys fd i k).2 fd j = claimed k fd j
}.

Section iface.
Context {K : Type} (sys : linux_sys K) (claimed : K -> Z -> Z -> bool) `{!ClaimKernel sys claimed}.
Implicit Types (s : lib (linux K)) (k : K).

Definition fd_of h s : Z := hp_fd (default zero_hpriv (lx_hpriv (world s) !! h)).
Definition kernel s : K := lx_kernel (world s).
Definition with_kernel k s : lib (linux K) := set_world (set_lx_kernel k (world s)) s.

Lemma with_kernel_twice k k' s : with_kernel k' (with_kernel k s) = with_kernel k' s.
Proof. done. Qed.
Lemma with_kernel_id s : with_kernel (kernel s) s = s.
Proof.
  unfold with_kernel, kernel, set_world, set_lx_kernel. destruct s. simpl. f_equal.
  match goal with w : linux K |- _ => by destruct w end.
Qed.

Lemma wp_handle_fd h s Q : is_Some (handles s !! h) -> Q (fd_of h s) s -> wp (handle_fd h) s Q.
Proof. intros [y Hy] HQ. unfold wp, handle_fd, get_hpriv, get_handle, lookup_obj, mbind, M_bind. by rewrite Hy. Qed.
Lemma wp_system {A} (op : K -> A * K) s (Q : A -> lib (linux K) -> Prop) :
  (forall a k, op (kernel s) = (a, k) -> Q a (with_kernel k s)) -> wp (system op) s Q.
Proof.
  unfold wp, system, on_world, sys_call, kernel. intros HQ. destruct (op (lx_kernel (world s))) as [a k].
  by apply (HQ a k).
Qed.

Lemma errno_code_nonzero table e : Forall (fun p : Z * Z => p.2 <> 0) table -> errno_code table e <> 0.
Proof.
  induction 1 as [|[x c] table Hc _ IH]; simpl; [discriminate|]. by destruct (e =? x).
Qed.

Lemma simple_ioctl_wp h op table s (Q : Z -> lib (linux K) -> Prop) :
  is_Some (handles s !! h) -> Forall (fun p : Z * Z => p.2 <> 0) table ->
  (forall errno k r, op (fd_of h s) (kernel s) = (errno, k) -> (r =? 0) = (errno =? 0) -> Q r (with_kernel k s)) ->
  wp (simple_ioctl h op table) s Q.
Proof.
  intros Hh Ht HQ. unfold simple_ioctl. apply wp_bind, wp_handle_fd; [done|]. apply wp_bind, wp_system.
  intros errno k Hop. apply wp_ret, (HQ errno); [done|]. destruct (Z.eqb_spec errno 0); [done|].
  apply Z.eqb_neq. by apply errno_code_nonzero.
Qed.
Ltac codes := repeat (constructor; [discriminate|]); constructor.

(** ** The operations of the backend *)

Definition claims_more h i s r s' : Prop := exists k, s' = with_kernel k s /\
  forall j, claimed k (fd_of h s) j = claimed (kernel s) (fd_of h s) j || ((r =? 0) && (j =? i)).
Definition claims_less h i s r s' : Prop := exists k, s' = with_kernel k s /\
  forall j, claimed k (fd_of h s) j = claimed (kernel s) (fd_of h s) j && negb ((r =? 0) && (j =? i)).
Definition claims_same h s s' : Prop := exists k, s' = with_kernel k s /\
  forall j, claimed k (fd_of h s) j = claimed (kernel s) (fd_of h s) j.

Lemma claim_interface_wp h i s : is_Some (handles s !! h) ->
  wp (claim_interface sys h i) s (claims_more h i s).
Proof.
  intros Hh. apply simple_ioctl_wp; [done|codes|]. intros errno k r Hop Hr. exists k. split; [done|].
  rewrite Hr. intros j. pose proof (claimintf_law (fd_of h s) i (kernel s) j) as H. by rewrite Hop in H.
Qed.
Lemma release_interface_wp h i s : is_Some (handles s !! h) ->
  wp (release_interface sys h i) s (claims_less h i s).
Proof.
  intros Hh. apply simple_ioctl_wp; [done|codes|]. intros errno k r Hop Hr. exists k. split; [done|].
  rewrite Hr. intros j. pose proof (releaseintf_law (fd_of h s) i (kernel s) j) as H. by rewrite Hop in H.
Qed.

Lemma detach_wp h i s : is_Some (handles s !! h) ->
  wp (op_detach_kernel_driver sys h i) s (fun _ s' => claims_same h s s').
Proof.
  intros Hh. unfold op_detach_kernel_driver. apply wp_bind, wp_handle_fd; [done|]. apply wp_bind, wp_system.
  intros [errno driver] k Hop. pose proof (getdriver_law (fd_of h s) i (kernel s)) as Hk. rewrite Hop in Hk. simpl in Hk.
  destruct ((errno =? 0) && is_usbfs driver); [apply wp_ret; by exists k|].
  apply simple_ioctl_wp; [done|codes|]. intros errno' k' r Hop' _. exists k'. split; [done|]. intros j.
  rewrite <- (Hk j). pose proof (disconnect_law (fd_of h s) i k j) as H.
  change (ioctl_disconnect sys (fd_of h s) i k = (errno', k')) in Hop'. by rewrite Hop' in H.
Qed.
Lemma attach_wp h i s : is_Some (handles s !! h) ->
  wp (op_attach_kernel_driver sys h i) s (fun _ s' => claims_same h s s').
Proof.
  intros Hh. unfold op_attach_kernel_driver. apply wp_bind, wp_handle_fd; [done|]. apply wp_bind, wp_system.
  intros [errno r] k Hop. pose proof (connect_law (fd_of h s) i (kernel s)) as Hk. rewrite Hop in Hk.
  destruct (negb (errno =? 0)); apply wp_ret; by exists k.
Qed.

Lemma detach_and_claim_wp h i s : is_Some (handles s !! h) ->
  wp (detach_kernel_driver_and_claim sys h i) s (claims_more h i s).
Proof.
  intros Hh. unfold detach_kernel_driver_and_claim. apply wp_bind, wp_handle_fd; [done|]. apply wp_bind, wp_system.
  intros errno k Hop. pose proof (disconnect_claim_law (fd_of h s) i USBFS_DISCONNECT_CLAIM_EXCEPT_DRIVER (bytes_of "usbfs") (kernel s)) as Hk.
  rewrite Hop in Hk. destruct (Z.eqb_spec errno 0) as [->|Hne]; [apply wp_ret; by exists k|].
  destruct (negb (errno =? ENOTTY)).
  - apply wp_ret. exists k. split; [done|]. intros j. rewrite (Hk j).
    rewrite (proj2 (Z.eqb_neq _ 0)); [done|]. apply errno_code_nonzero. codes.
  - apply wp_bind. eapply wp_mono; [by apply detach_wp|]. intros r s1 (k1 & -> & Hk1).
    assert (forall j, claimed k1 (fd_of h s) j = claimed (kernel s) (fd_of h s) j) as Hsame.
    { intros j. etransitivity; [apply Hk1|]. etransitivity; [apply (Hk j)|apply orb_false_r]. }
    destruct (Z.eqb_spec r 0); [|destruct (Z.eqb_spec r LIBUSB_ERROR_NOT_FOUND)]; simpl.
    3:{ apply wp_ret. exists k1. split; [done|]. intros j. rewrite Hsame, (proj2 (Z.eqb_neq r 0)) by done. by rewrite orb_false_r. }
    all: eapply wp_mono; [by apply claim_interface_wp|]; intros r' s2 (k2 & -> & Hk2); exists k2; (split; [done|]);
      intros j; rewrite <- Hsame; apply Hk2.
Qed.

Lemma op_claim_wp h i s : is_Some (handles s !! h) -> wp (op_claim_interface sys h i) s (claims_more h i s).
Proof.
  intros Hh. pose proof Hh as [y Hy]. unfold op_claim_interface. apply wp_bind. unfold wp at 1, get_handle, lookup_obj. rewrite Hy.
  case_match; [by apply detach_and_claim_wp|by apply claim_interface_wp].
Qed.
Lemma op_release_wp h i s : is_Some (handles s !! h) -> wp (op_release_interface sys h i) s (claims_less h i s).
Proof.
  intros Hh. unfold op_release_interface. apply wp_bind. eapply wp_mono; [by apply release_interface_wp|].
  intros r s1 (k & -> & Hk). destruct (Z.eqb_spec r 0) as [->|Hne]; simpl.
  2:{ apply wp_ret. exists k. split; [done|]. by rewrite (proj2 (Z.eqb_neq r 0)). }
  pose proof Hh as [y Hy]. apply wp_bind. unfold wp at 1, get_handle, lookup_obj. simpl. rewrite Hy. apply wp_bind.
  case_match; [|apply wp_ret, wp_ret; by exists k]. apply wp_bind.
  eapply wp_mono; [by apply (attach_wp h i (with_kernel k s))|]. intros r s2 (k2 & -> & Hk2).
  apply wp_ret, wp_ret. exists k2. split; [done|]. intros j. rewrite <- Hk. apply Hk2.
Qed.

Lemma interface_contract (be : os_backend (linux K)) :
  be_claim_interface be = op_claim_interface sys -> be_release_interface be = op_release_interface sys ->
  InterfaceContract be.
Proof.
  intros Hc Hr. split; intros h i s Hh.
  - rewrite Hc. pose proof (op_claim_wp h i s Hh) as Hrun. apply wp_ok in Hrun as (r & s' & Hrun & k & -> & _). by eexists r, _.
  - rewrite Hr. pose proof (op_release_wp h i s Hh) as Hrun. apply wp_ok in Hrun as (r & s' & Hrun & k & -> & _). by eexists r, _.
Qed.
End iface.

(** ** The mask and the kernel *)

Section agreement.
Context {K : Type} (sys : linux_sys K) (claimed : K -> Z -> Z -> bool) `{!ClaimKernel sys claimed}.
Implicit Types (s : lib (linux K)) (k : K).

(** The kernel holds the claims that the mask says. *)
Definition agree h s : Prop := exists y, handles s !! h = Some y /\ wf_mask (claimed_interfaces y) /\
  forall i, 0 <= i < 32 -> claimed (kernel s) (fd_of h s) i = claims y i.

Lemma bit_of_claims y i : 0 <= i -> bit_of y i = claims y i.
Proof.
  intros Hi. unfold bit_of, claims. destruct (Z.testbit (claimed_interfaces y) i) eqn:Hbit.
  - apply negb_true_iff, Z.eqb_neq. intros Hz. apply (f_equal (fun z => Z.testbit z i)) in Hz.
    rewrite Z.land_spec, Hbit, Z.shiftl_spec, Z.sub_diag, Z.bits_0 in Hz by done. done.
  - apply negb_false_iff, Z.eqb_eq, Z.bits_inj'. intros j Hj. rewrite Z.land_spec, Z.bits_0, Z.shiftl_spec by done.
    destruct (Z.eqb_spec j i) as [->|Hne]; [by rewrite Hbit|]. apply andb_false_intro2.
    destruct (Z.lt_ge_cases (j - i) 0); [by apply Z.testbit_neg_r|]. apply Z.bits_above_log2; simpl; lia.
Qed.

Lemma shift_int_bit i : 0 <= i < 31 -> Z.shiftl 1 i = int_bit i.
Proof.
  intros Hi. unfold int_bit. rewrite i32_small; [done|]. rewrite Z.shiftl_1_l. split; [|apply Z.pow_lt_mono_r; lia].
  pose proof (Z.pow_nonneg 2 i). lia.
Qed.

Lemma clear_bit y i : 0 <= i < 31 -> wf_mask (claimed_interfaces y) ->
  let y' := set_claimed_interfaces (Z.land (claimed_interfaces y) (ulong (Z.lnot (Z.shiftl 1 i)))) y in
  wf_mask (claimed_interfaces y') /\ forall j, 0 <= j < 32 -> claims y' j = claims y j && negb (j =? i).
Proof. intros Hi Hwf y'. unfold claims. simpl. rewrite shift_int_bit by done. apply release_mask; [lia|done]. Qed.

Lemma claim_agree be h i y x s :
  be_claim_interface be = op_claim_interface sys -> agree h s -> handles s !! h = Some y -> devices s !! h_dev y = Some x ->
  attached x = true -> 0 <= i < 32 ->
  wp (libusb_claim_interface be h i) s (fun r s' => agree h s' /\ claimed (kernel s') (fd_of h s') i = (r =? 0)
     || claimed (kernel s) (fd_of h s) i).
Proof.
  intros Hbe (y' & Hh & Hwf & Hag) Hy Hx Hatt Hi. assert (y' = y) as -> by congruence. unfold libusb_claim_interface.
  rewrite (proj2 (Z.leb_gt _ _)) by (unfold USB_MAXINTERFACES; lia). apply wp_bind.
  unfold is_attached. apply wp_bind. eapply wp_get_handle; [exact Hh|]. apply wp_bind, (wp_get_device _ x); [done|].
  apply wp_ret. rewrite Hatt. apply wp_bind. eapply wp_get_handle; [exact Hh|]. apply wp_bind.
  eapply wp_lift; [by apply is_claimed_ok|]. destruct (claims y i) eqn:Hc.
  { apply wp_ret. split; [by exists y|]. rewrite Hag, Hc by done. done. }
  apply wp_bind. rewrite Hbe. eapply wp_mono; [by eapply op_claim_wp|]. intros r s1 (k & -> & Hk).
  apply wp_bind. destruct (Z.eqb_spec r 0) as [->|Hr]; simpl in Hk.
  - apply wp_bind. eapply wp_lift; [by apply shl_int_ok|]. apply wp_modify, wp_ret.
    destruct (claim_mask _ i Hi Hwf) as [Hwf' Hbits]. split; [|etransitivity; [apply Hk|]; rewrite Z.eqb_refl; apply orb_true_r].
    eexists. split; [apply lookup_insert_eq|]. split; [exact Hwf'|]. intros j Hj.
    etransitivity; [apply Hk|]. unfold claims. simpl. rewrite Hbits by done. by rewrite Hag.
  - apply wp_ret, wp_ret. assert (forall j, claimed k (fd_of h s) j = claimed (kernel s) (fd_of h s) j) as Hsame
      by (intros j; rewrite (Hk j); apply orb_false_r).
    split; [|rewrite (proj2 (Z.eqb_neq r 0) Hr); apply Hsame]. exists y. split; [done|]. split; [done|]. intros j Hj. etransitivity; [apply Hsame|by apply Hag].
Qed.

Lemma release_agree be h i y s :
  be_release_interface be = op_release_interface sys -> agree h s -> handles s !! h = Some y -> 0 <= i < 32 ->
  wp (libusb_release_interface be h i) s (fun r s' => agree h s' /\ claimed (kernel s') (fd_of h s') i =
     negb (r =? 0) && claimed (kernel s) (fd_of h s) i).
Proof.
  intros Hbe (y' & Hh & Hwf & Hag) Hy Hi. assert (y' = y) as -> by congruence. unfold libusb_release_interface.
  rewrite (proj2 (Z.leb_gt _ _)) by (unfold USB_MAXINTERFACES; lia). apply wp_bind. eapply wp_get_handle; [exact Hh|].
  apply wp_bind. eapply wp_lift; [by apply is_claimed_ok|]. destruct (claims y i) eqn:Hc; simpl.
  2:{ apply wp_ret. split; [by exists y|]. rewrite Hag, Hc by done. done. }
  apply wp_bind. rewrite Hbe. eapply wp_mono; [by eapply op_release_wp|]. intros r s1 (k & -> & Hk).
  apply wp_bind. destruct (Z.eqb_spec r 0) as [->|Hr]; simpl in Hk.
  - apply wp_bind. eapply wp_lift; [by apply shl_int_ok|]. apply wp_modify, wp_ret.
    destruct (release_mask _ i Hi Hwf) as [Hwf' Hbits]. split; [|etransitivity; [apply Hk|]; rewrite Z.eqb_refl; apply andb_false_r].
    eexists. split; [apply lookup_insert_eq|]. split; [exact Hwf'|]. intros j Hj.
    etransitivity; [apply Hk|]. unfold claims. simpl. rewrite Hbits by done. by rewrite Hag.
  - apply wp_ret, wp_ret. assert (forall j, claimed k (fd_of h s) j = claimed (kernel s) (fd_of h s) j) as Hsame
      by (intros j; rewrite (Hk j); apply andb_true_r).
    split; [|rewrite (proj2 (Z.eqb_neq r 0) Hr); apply Hsame]. exists y. split; [done|]. split; [done|]. intros j Hj. etransitivity; [apply Hsame|by apply Hag].
Qed.

(** ** Reset *)

Lemma release_claimed_wp h s : is_Some (handles s !! h) ->
  wp (release_claimed sys h) s (fun _ s' => exists k, s' = with_kernel k s).
Proof.
  intros [y Hy]. unfold release_claimed. apply (wp_for_each _ (fun _ s' => exists k, s' = with_kernel k s)).
  - exists (kernel s). by rewrite with_kernel_id.
  - intros i l s1 (k & ->). apply wp_bind. eapply wp_get_handle; [exact Hy|].
    destruct (bit_of y i); [|apply wp_ret; by exists k]. apply wp_bind.
    eapply wp_mono; [apply (release_interface_wp sys claimed h i (with_kernel k s)); by exists y|].
    intros r s2 (k2 & -> & _). apply wp_ret. by exists k2.
Qed.

(** The loop has dealt with all interfaces but those of [l]: these the mask
    still has, and the kernel does not. *)
Definition half_agree h (l : list Z) (y : device_handle) s : Prop :=
  handles s !! h = Some y /\ wf_mask (claimed_interfaces y) /\ claims y 31 = false /\
  forall i, 0 <= i < 32 -> claimed (kernel s) (fd_of h s) i = claims y i && negb (bool_decide (i ∈ l)).

Lemma reclaim_loop_wp h l y s ret :
  half_agree h l y s -> NoDup l -> (forall i, i ∈ l -> 0 <= i < 32) ->
  wp (reclaim_loop sys h l ret) s (fun _ s' => exists y', half_agree h [] y' s').
Proof.
  revert y s ret. induction l as [|i l IH]; intros y s ret Hag Hnd Hl; [apply wp_ret; by exists y|].
  apply NoDup_cons in Hnd as [Hi Hnd]. pose proof (Hl i ltac:(set_solver)) as Hi32.
  assert (forall j, j ∈ l -> 0 <= j < 32) as Hl' by (intros; apply Hl; set_solver).
  destruct Hag as (Hy & Hwf & H31 & Hag). cbn [reclaim_loop]. apply wp_bind. eapply wp_get_handle; [exact Hy|].
  rewrite bit_of_claims by lia. destruct (claims y i) eqn:Hc.
  2:{ apply (IH y); [|done|done]. do 3 (split; [done|]). intros j Hj. rewrite Hag by done.
      destruct (Z.eqb_spec j i) as [->|Hne]; [by rewrite Hc|]. f_equal. f_equal. apply bool_decide_ext. set_solver. }
  assert (i <> 31) by (intros ->; congruence).
  apply wp_bind. eapply wp_mono; [apply (detach_and_claim_wp sys claimed h i s); by exists y|]. intros r s1 (k & -> & Hk).
  destruct (Z.eqb_spec r 0) as [->|Hr]; simpl in Hk.
  - apply (IH y); [|done|done]. do 3 (split; [done|]). intros j Hj. etransitivity; [apply Hk|]. rewrite Hag by done.
    destruct (Z.eqb_spec j i) as [->|Hne]; [rewrite Hc, (bool_decide_false (i ∈ l)) by done; by rewrite orb_true_r|].
    rewrite orb_false_r. f_equal. f_equal. apply bool_decide_ext. set_solver.
  - destruct (clear_bit y i ltac:(lia) Hwf) as [Hwf' Hbits]. apply wp_bind, wp_modify.
    set (y' := set_claimed_interfaces _ y) in *. apply (IH y'); [|done|done]. split; [apply lookup_insert_eq|]. split; [exact Hwf'|].
    split; [rewrite Hbits by lia; by rewrite H31|]. intros j Hj. rewrite Hbits by done.
    etransitivity; [apply Hk|]. rewrite orb_false_r, Hag by done.
    destruct (Z.eqb_spec j i) as [->|Hne]; [rewrite (bool_decide_true (i ∈ i :: l)) by set_solver; by rewrite !andb_false_r|].
    rewrite andb_true_r. f_equal. f_equal. apply bool_decide_ext. set_solver.
Qed.

Lemma reset_agree h y s :
  agree h s -> handles s !! h = Some y -> claims y 31 = false -> (forall k, (ioctl_reset sys (fd_of h s) k).1 = 0) ->
  wp (op_reset_device sys h) s (fun _ s' => agree h s').
Proof.
  intros (y' & Hh & Hwf & Hag) Hy H31 Hreset. assert (y' = y) as -> by congruence. unfold op_reset_device. apply wp_bind, wp_handle_fd; [by exists y|].
  apply wp_bind. eapply wp_mono; [apply release_claimed_wp; by exists y|]. intros [] s1 (k1 & ->).
  apply wp_bind, wp_system. intros errno k2 Hop. pose proof (Hreset k1) as Hz.
  change (kernel (with_kernel k1 s)) with k1 in Hop. rewrite Hop in Hz. simpl in Hz. subst errno. rewrite Z.eqb_refl.
  eapply wp_mono; [apply (reclaim_loop_wp h all_interfaces y)|].
  - split; [done|]. split; [done|]. split; [done|]. intros i Hi.
    pose proof (reset_law (fd_of h s) k1 i) as Hlaw. rewrite Hop in Hlaw.
    rewrite bool_decide_true, andb_false_r; [exact (Hlaw eq_refl)|]. apply list_elem_of_fmap. exists (Z.to_nat i).
    split; [lia|]. apply elem_of_seq. unfold USB_MAXINTERFACES. lia.
  - apply NoDup_fmap_2; [intros ? ?; lia|]. apply NoDup_seq.
  - intros i Hi. apply list_elem_of_fmap in Hi as (n & -> & Hn). apply elem_of_seq in Hn. unfold USB_MAXINTERFACES in Hn. lia.
  - intros _ s' (y'' & Hy'' & Hwf'' & _ & Hag''). exists y''. split; [done|]. split; [done|]. intros i Hi.
    rewrite Hag'' by done. rewrite bool_decide_false by set_solver. apply andb_true_r.
Qed.
End agreement.

(** The Linux backend keeps the promise of HandleProps.v. *)
#[export] Instance linux_interface_contract {K : Type} (sys : linux_sys K) (claimed : K -> Z -> Z -> bool)
    `{!ClaimKernel sys claimed} mon kern os user_cb fd_cb fuel :
  InterfaceContract (linux_usbfs_backend sys mon kern os user_cb fd_cb fuel).
Proof. by apply (interface_contract sys claimed). Qed.

(** C12: on Linux the mask of a handle is exactly the set of interfaces that
    the kernel has claimed for its file descriptor.  Claiming and releasing
    keep it so, whichever [ioctl] fails on the way (with a kernel driver to
    detach or without), and answer 0 exactly when the kernel has the claim
    or has given it up.  So does resetting the device, where the kernel drops
    all claims and the code takes them again one by one, forgetting those
    that it does not get: provided that the reset itself succeeds and that
    interface 31 is not claimed. *)
Theorem mask_mirrors_kernel {K : Type} (sys : linux_sys K) (claimed : K -> Z -> Z -> bool)
    mon kern os user_cb fd_cb fuel (h : nat) (i : Z) (y : device_handle) (x : device) (s : lib (linux K))
    (Hsys : ClaimKernel sys claimed) (Hagree : agree claimed h s) (Hh : handles s !! h = Some y)
    (Hd : devices s !! h_dev y = Some x) (Hatt : attached x = true) (Hi : 0 <= i < 32) :
  let be := linux_usbfs_backend sys mon kern os user_cb fd_cb fuel in
  (exists r s', libusb_claim_interface be h i s = Ok (r, s') /\ agree claimed h s' /\
     claimed (kernel s') (fd_of h s') i = (r =? 0) || claimed (kernel s) (fd_of h s) i) /\
  (exists r s', libusb_release_interface be h i s = Ok (r, s') /\ agree claimed h s' /\
     claimed (kernel s') (fd_of h s') i = negb (r =? 0) && claimed (kernel s) (fd_of h s) i) /\
  (claims y 31 = false -> (forall k, (ioctl_reset sys (fd_of h s) k).1 = 0) ->
     exists r s', libusb_reset_device be h s = Ok (r, s') /\ agree claimed h s').
Proof.
  intros be. split; [|split].
  - pose proof (claim_agree sys claimed be h i y x s eq_refl Hagree Hh Hd Hatt Hi) as Hrun.
    apply wp_ok in Hrun as (r & s' & Hrun & Hpost). by exists r, s'.
  - pose proof (release_agree sys claimed be h i y s eq_refl Hagree Hh Hi) as Hrun.
    apply wp_ok in Hrun as (r & s' & Hrun & Hpost). by exists r, s'.
  - intros H31 Hreset. assert (wp (libusb_reset_device be h) s (fun _ s' => agree claimed h s')) as Hrun.
    { unfold libusb_reset_device, when_attached. apply wp_bind. unfold is_attached. apply wp_bind. eapply wp_get_handle; [exact Hh|].
      apply wp_bind, (wp_get_device _ x); [done|]. apply wp_ret. rewrite Hatt. by eapply reset_agree. }
    apply wp_ok in Hrun as (r & s' & Hrun & Hpost). by exists r, s'.
Qed.

(** ** A kernel with one open descriptor *)

(** The state is the list of claims; [reset] and [reclaim] are what a reset
    and a claim behind a driver's back answer. *)
Abbreviation claim_kernel := (list Z).
Definition ck_claimed (k : claim_kernel) (fd i : Z) : bool := bool_decide (i ∈ k).
Definition ck_sys (reset reclaim : Z) : linux_sys claim_kernel := {|
  sys_open _ _ k := ((ENOENT, -1), k);
  sys_read _ _ k := ((EINVAL, []), k);
  sys_close _ k := (tt, k);
  sys_nanosleep k := (tt, k);
  sys_text _ k := ((ENOENT, []), k);
  sys_entries _ k := (None, k);
  sys_isdir _ k := (false, k);
  sys_uname k := (None, k);
  sys_clock_gettime _ k := ((EINVAL, mk_ts 0 0), k);
  sys_mmap _ _ k := ((EINVAL, O), k);
  sys_munmap _ _ k := (EINVAL, k);
  ioctl_control _ _ k := ((ENODEV, []), k);
  ioctl_get_capabilities _ k := ((ENODEV, 0), k);
  ioctl_setconfig _ _ k := (ENODEV, k);
  ioctl_claimintf _ i k := (0, i :: k);
  ioctl_releaseintf _ i k := (0, filter (fun j => j <> i) k);
  ioctl_setintf _ _ _ k := (ENODEV, k);
  ioctl_clear_halt _ _ k := (ENODEV, k);
  ioctl_reset _ k := (reset, if reset =? 0 then [] else k);
  ioctl_streams _ _ _ _ k := ((ENODEV, 0), k);
  ioctl_getdriver _ _ k := ((ENODATA, []), k);
  ioctl_disconnect _ _ k := (ENODATA, k);
  ioctl_connect _ _ k := ((0, 1), k);
  ioctl_disconnect_claim _ i _ _ k :=
    (reclaim, if reclaim =? 0 then i :: k else k)
|}.

#[export] Instance ck_laws reset reclaim : ClaimKernel (ck_sys reset reclaim) ck_claimed.
Proof.
  assert (forall (l : list Z) i j, bool_decide (j ∈ i :: l) = bool_decide (j ∈ l) || (j =? i)) as Hcons.
  { intros l i j. rewrite (bool_decide_ext _ (j = i \/ j ∈ l)) by set_solver. rewrite bool_decide_or.
    rewrite orb_comm. f_equal. destruct (Z.eqb_spec j i); [by rewrite bool_decide_true|by rewrite bool_decide_false]. }
  split; try done; simpl.
  - intros fd i k j. apply Hcons.
  - intros fd i k j. unfold ck_claimed. rewrite (bool_decide_ext _ (j <> i /\ j ∈ k)) by (rewrite list_elem_of_filter; done).
    rewrite bool_decide_and, andb_comm. f_equal. destruct (Z.eqb_spec j i); [rewrite bool_decide_false; [done|by intros []]|by rewrite bool_decide_true].
  - intros fd i flags driver k j. destruct (reclaim =? 0); [apply Hcons|by rewrite orb_false_r].
  - intros fd k j ->. done.
Qed.

Definition ck_monitor (reset reclaim : Z) : hotplug_monitor claim_kernel :=
  netlink_monitor (ck_sys reset reclaim) no_netlink false (fun n => replicate n 0) (linux_devices idle_backend).
Definition ck_backend (reset reclaim : Z) : os_backend (linux claim_kernel) :=
  linux_usbfs_backend (ck_sys reset reclaim) (ck_monitor reset reclaim) no_usbfs idle_backend
    (fun _ _ => mret tt) (fun _ _ _ _ => mret tt) 10.

(** Handle 5 of Demo.v on the descriptor 7, with the claims [l]. *)
Definition ck_lib (mask : Z) (k : claim_kernel) : lib (linux claim_kernel) :=
  mk_lib (demo_heap 9) (devices demo_io) {[ 5%nat := mk_handle mask 1 0 ]} ∅ [1%nat] [5%nat] [] [] demo_event_data
    true false false None 1 ∅ (3, 4) (-1) false None None 0 false
    (mk_linux k ∅ ∅ {[ 5%nat := mk_hpriv 7 false 0 ]} ∅ (demo_heap 0) initial_globals).

Lemma ck_agree : agree ck_claimed 5 (ck_lib 5 [2; 0]).
Proof.
  exists (mk_handle 5 1 0). split; [done|]. split; [split; [simpl; lia|]|].
  - intros j Hj. simpl. change 5 with (Z.land 5 (Z.ones 3)). rewrite !Z.land_spec, !(Z.ones_spec_high 3) by lia. by rewrite !andb_false_r.
  - intros i Hi. assert (forallb (fun i => Bool.eqb (ck_claimed [2; 0] 7 i) (claims (mk_handle 5 1 0) i)) all_interfaces = true) as Hall
      by by vm_compute.
    rewrite forallb_forall in Hall. apply eqb_prop, Hall, in_map_iff. exists (Z.to_nat i).
    split; [lia|]. apply in_seq. unfold USB_MAXINTERFACES. lia.
Qed.

Lemma mask_mirrors_kernel_witness :
  let be := ck_backend 0 EBUSY in
  let s := ck_lib 5 [2; 0] in
  (exists r s', libusb_claim_interface be 5 31 s = Ok (r, s') /\ agree ck_claimed 5 s' /\
     ck_claimed (kernel s') (fd_of 5 s') 31 = (r =? 0) || ck_claimed (kernel s) (fd_of 5 s) 31) /\
  (exists r s', libusb_release_interface be 5 31 s = Ok (r, s') /\ agree ck_claimed 5 s' /\
     ck_claimed (kernel s') (fd_of 5 s') 31 = negb (r =? 0) && ck_claimed (kernel s) (fd_of 5 s) 31) /\
  exists r s', libusb_reset_device be 5 s = Ok (r, s') /\ agree ck_claimed 5 s'.
Proof.
  destruct (mask_mirrors_kernel (ck_sys 0 EBUSY) ck_claimed (ck_monitor 0 EBUSY) no_usbfs idle_backend
    (fun _ _ => mret tt) (fun _ _ _ _ => mret tt) 10 5 31 (mk_handle 5 1 0) (mk_device 3 1 0 None 2 1 3 12 (replicate 18 0) true)
    (ck_lib 5 [2; 0])) as (H1 & H2 & H3); [exact _|exact ck_agree|done|done|done|lia|].
  split; [exact H1|]. split; [exact H2|]. apply H3; [done|]. by intros k.
Defined.

(** Where the mask and the kernel part.  First: the claims are given up
    before the reset, and when the reset fails they are not taken again; the
    mask keeps them, so that [libusb_claim_interface] answers 0 without
    asking the kernel, and the interface stays lost.  Second: bit 31 of the
    mask stands for the bits above as well, but a failing claim after the
    reset clears bit 31 alone; the interface counts as claimed and can never
    be claimed again. *)
Theorem reset_leaves_stale_claims :
  (match (r ← libusb_reset_device (ck_backend 5 0) 5; r' ← libusb_claim_interface (ck_backend 5 0) 5 0; mret (r, r'))
           (ck_lib 5 [2; 0]) with
   | Ok ((r, r'), s) => r = LIBUSB_ERROR_OTHER /\ r' = 0 /\ kernel s = [] /\ claimed_interfaces <$> (handles s !! 5%nat) = Some 5
   | Fault _ => False
   end) /\
  (match (libusb_claim_interface (ck_backend 0 EBUSY) 5 31;; r ← libusb_reset_device (ck_backend 0 EBUSY) 5;
          r' ← libusb_claim_interface (ck_backend 0 EBUSY) 5 31; mret (r, r')) (ck_lib 0 []) with
   | Ok ((r, r'), s) => r = LIBUSB_ERROR_NOT_FOUND /\ r' = 0 /\ kernel s = [] /\
       claimed_interfaces <$> (handles s !! 5%nat) = Some (2 ^ 64 - 2 ^ 32)
   | Fault _ => False
   end).
Proof. vm_compute. auto. Qed.
