(* ===== verification/UrbSpecs.v ===== *)
(** * Specifications of the URBs of a transfer

    The state of one bulk transfer with its URBs, each primitive of
    LinuxUrb.v as an equation on such states, and what the reaping of one
    URB does to it. *)

From S2P Require Import Prelude Heap ParseDesc DescApi Bos Core Devices DeviceRefs Transfers Events Handles HotplugLife TransferSpecs LinuxState LinuxUrb.

Lemma bind_eq {S A B} (m : M S A) (f : A -> M S B) s a s' o :
  m s = Ok (a, s') -> f a s' = o -> (m ≫= f) s = o.
Proof. intros Hm <-. unfold mbind, M_bind. by rewrite Hm. Qed.

Lemma bind_congr {S A B} (m : M S A) (f g : A -> M S B) s :
  (forall a s', m s = Ok (a, s') -> f a s' = g a s') -> (m ≫= f) s = (m ≫= g) s.
Proof. intros Hfg. unfold mbind, M_bind. destruct (m s) as [[a s']|] eqn:Hm; [by apply Hfg|done]. Qed.
Lemma mret_ok {A S} (a : A) (s : S) : (mret a : M S A) s = Ok (a, s).
Proof. done. Qed.

(** One statement of a computation. *)
Ltac step lem := eapply bind_eq; [by eapply lem|].

(** Where a URB lies in the buffer of its transfer. *)
Definition urb_place (u : usbfs_urb) : nat * Z * Z := (ub_usercontext u, ub_buffer u, ub_buffer_length u).

(** The URB after the system call handed it back. *)
Definition reaped_urb (r : reaped) (u : usbfs_urb) : usbfs_urb :=
  mk_urb (ub_type u) (ub_endpoint u) (rp_status r) (ub_flags u) (ub_buffer u) (ub_buffer_length u)
    (rp_actual_length r) (ub_number_of_packets u) (ub_usercontext u) (rp_frames r).

Section urb_specs.
Context {K : Type} (kern : usbfs K) (be : os_backend (linux K)).
Variable user_cb : nat -> nat -> Lib (linux K) unit.

(** The transfer [t] with its private data and its block [b] of URBs, on
    top of the rest of the state. *)
Definition urb_state (s0 : lib (linux K)) (t b : nat) (x : transfer) (tp : linux_transfer_priv)
    (l : list usbfs_urb) (k : K) : lib (linux K) :=
  set_world (mk_linux k (<[b := l]> (lx_urbs (world s0))) (<[t := tp]> (lx_tpriv (world s0))) (lx_hpriv (world s0)) (lx_dpriv (world s0)) (lx_mem (world s0)) (lx_globals (world s0)))
    (set_transfers (<[t := x]> (transfers s0)) s0).

Lemma urb_state_intro s t b x tp l :
  transfers s !! t = Some x -> lx_tpriv (world s) !! t = Some tp -> lx_urbs (world s) !! b = Some l ->
  s = urb_state s t b x tp l (lx_kernel (world s)).
Proof.
  intros Ht Htp Hl. unfold urb_state, set_world, set_transfers. destruct s as [? ? ? tr ? ? ? ? ? ? ? ? ? ? ? ? ? ? ? ? ? ? [k u tpm hp]].
  simpl in *. by rewrite !insert_id by done.
Qed.

Section primitives.
Context (s0 : lib (linux K)) (t b h : nat) (y : device_handle).
Context (Hb : b ∈ live (mem s0)) (Hh : handles s0 !! h = Some y).
Implicit Types (x : transfer) (tp : linux_transfer_priv) (l : list usbfs_urb) (k : K).

Lemma get_transfer_urb x tp l k : get_transfer t (urb_state s0 t b x tp l k) = Ok (x, urb_state s0 t b x tp l k).
Proof. clear. unfold get_transfer, lookup_obj. simpl. by rewrite lookup_insert_eq. Qed.
Lemma put_transfer_urb x' x tp l k :
  put_transfer t x' (urb_state s0 t b x tp l k) = Ok (tt, urb_state s0 t b x' tp l k).
Proof. clear. unfold put_transfer, modify, urb_state, set_transfers. simpl. by rewrite insert_insert_eq. Qed.
Lemma upd_transfer_urb f x tp l k :
  upd_transfer t f (urb_state s0 t b x tp l k) = Ok (tt, urb_state s0 t b (f x) tp l k).
Proof. clear. unfold upd_transfer. step get_transfer_urb. apply put_transfer_urb. Qed.
Lemma get_tpriv_urb x tp l k : get_tpriv t (urb_state s0 t b x tp l k) = Ok (tp, urb_state s0 t b x tp l k).
Proof. clear. unfold get_tpriv. step get_transfer_urb. unfold gets. simpl. by rewrite lookup_insert_eq. Qed.
Lemma put_tpriv_urb tp' x tp l k :
  put_tpriv t tp' (urb_state s0 t b x tp l k) = Ok (tt, urb_state s0 t b x tp' l k).
Proof. clear. unfold put_tpriv, modify, urb_state, set_world, set_lx_tpriv. simpl. by rewrite insert_insert_eq. Qed.

Lemma get_urb_urb i u x tp l k :
  l !! i = Some u -> get_urb (b, i) (urb_state s0 t b x tp l k) = Ok (u, urb_state s0 t b x tp l k).
Proof.
  intros Hi. unfold get_urb. eapply bind_eq; [unfold on_mem, touch; simpl; by rewrite decide_True by done|].
  unfold gets. unfold mbind, M_bind. simpl. by rewrite lookup_insert_eq, Hi.
Qed.
Lemma put_urb_urb i u' u x tp l k :
  l !! i = Some u ->
  put_urb (b, i) u' (urb_state s0 t b x tp l k) = Ok (tt, urb_state s0 t b x tp (<[i := u']> l) k).
Proof.
  intros Hi. unfold put_urb. step get_urb_urb. unfold modify, urb_state, set_world, set_lx_urbs. simpl.
  by rewrite alter_insert_eq.
Qed.

Lemma kernel_op_urb {A} (op : K -> A * K) x tp l k a k' :
  op k = (a, k') -> kernel_op op (urb_state s0 t b x tp l k) = Ok (a, urb_state s0 t b x tp l k').
Proof. clear. intros Hop. unfold kernel_op, backend_op. simpl. by rewrite Hop. Qed.

Lemma transfer_hpriv_urb x tp l k :
  t_dev_handle x = Some h ->
  transfer_hpriv x (urb_state s0 t b x tp l k) =
    Ok (default zero_hpriv (lx_hpriv (world s0) !! h), urb_state s0 t b x tp l k).
Proof.
  intros Hx. unfold transfer_hpriv, get_hpriv. rewrite Hx. unfold get_handle, lookup_obj. simpl.
  unfold mbind, M_bind. simpl. by rewrite Hh.
Qed.

(** Discarding only concerns the kernel. *)
Lemma discard_loop_urb x tp fd first n last ret l k :
  t_type x <> LIBUSB_TRANSFER_TYPE_ISOCHRONOUS -> tp_urbs tp = Urbs b ->
  exists r k', discard_loop kern x tp fd first n last ret (urb_state s0 t b x tp l k) =
    Ok (r, urb_state s0 t b x tp l k').
Proof.
  clear. intros Hty Hub. revert ret k. induction n as [|n IH]; intros ret k; simpl; [by eexists _, _|].
  unfold nth_urb at 1. rewrite (proj2 (Z.eqb_neq _ _)) by done. rewrite Hub.
  destruct (ioctl_discardurb kern fd (b, (first + n)%nat) k) as [e k'] eqn:Hop.
  edestruct IH as (r & k2 & Hr). exists r, k2. eapply bind_eq; [done|]. step (@kernel_op_urb Z). exact Hr.
Qed.
Lemma discard_urbs_urb x tp first last l k :
  t_type x <> LIBUSB_TRANSFER_TYPE_ISOCHRONOUS -> tp_urbs tp = Urbs b -> t_dev_handle x = Some h ->
  exists r k', discard_urbs kern t first last (urb_state s0 t b x tp l k) = Ok (r, urb_state s0 t b x tp l k').
Proof.
  intros Hty Hub Hx. edestruct (discard_loop_urb x tp) as (r & k' & Hr); [done|done|].
  exists r, k'. unfold discard_urbs. step get_transfer_urb. step get_tpriv_urb. step transfer_hpriv_urb. exact Hr.
Qed.
End primitives.

(** ** One URB handed back *)

(** [bs] written at [off]. *)
Definition written (off : Z) (bs d : list Z) : list Z :=
  take (Z.to_nat off) d ++ bs ++ drop (Z.to_nat off + length bs) d.

(** The buffer after the kernel wrote [r] at [off], and its [actual_length]
    bytes were moved to the end [n] of what was received before. *)
Definition gathered (off n : Z) (r : reaped) (d : list Z) : list Z :=
  let d1 := written off (rp_data r) d in
  if (0 <? rp_actual_length r) && negb (off =? n)
  then written n (take (Z.to_nat (rp_actual_length r)) (drop (Z.to_nat off) d1)) d1 else d1.

Lemma store_written off bs d :
  (Z.to_nat off + length bs <= length d)%nat -> store d (Z.to_nat off) bs = Ok (written off bs d).
Proof. clear. intros Hle. unfold store. by rewrite decide_True. Qed.
Lemma written_length off bs d :
  (Z.to_nat off + length bs <= length d)%nat -> length (written off bs d) = length d.
Proof. clear. intros Hle. unfold written. rewrite !length_app, length_take, length_drop. lia. Qed.
Lemma written_take off bs d m :
  (m <= Z.to_nat off)%nat -> (Z.to_nat off + length bs <= length d)%nat -> take m (written off bs d) = take m d.
Proof.
  clear. intros Hm Hle. unfold written. rewrite take_app_le by (rewrite length_take; lia).
  rewrite take_take. f_equal. lia.
Qed.
Lemma written_prefix off bs d :
  (Z.to_nat off + length bs <= length d)%nat ->
  take (Z.to_nat off + length bs) (written off bs d) = take (Z.to_nat off) d ++ bs.
Proof.
  clear. intros Hle. unfold written. rewrite app_assoc, take_app_length'; [done|].
  rewrite length_app, length_take. lia.
Qed.

Section gathered.
Context (off n : Z) (r : reaped) (d : list Z).
Context (Hoff : 0 <= n) (Hn : 0 < rp_actual_length r -> n <= off) (Ho : 0 <= off) (Ha : 0 <= rp_actual_length r)
  (Hdata : Z.of_nat (length (rp_data r)) <= rp_actual_length r) (Hfit : off + rp_actual_length r <= Z.of_nat (length d)).

Lemma gathered_length : length (gathered off n r d) = length d.
Proof.
  unfold gathered. destruct (Z.ltb_spec 0 (rp_actual_length r)); simpl; [|rewrite written_length; lia].
  destruct (negb (off =? n)); rewrite !written_length; rewrite ?length_take, ?length_drop, ?written_length; lia.
Qed.

(** What was received before stays. *)
Lemma gathered_take : take (Z.to_nat n) (gathered off n r d) = take (Z.to_nat n) d.
Proof.
  unfold gathered. destruct (Z.ltb_spec 0 (rp_actual_length r)); simpl.
  - destruct (negb (off =? n)).
    + rewrite written_take; [apply written_take; lia|lia|].
      rewrite written_length, length_take, length_drop, written_length; lia.
    + apply written_take; lia.
  - assert (rp_data r = []) as -> by (apply nil_length_inv; lia). unfold written. simpl.
    rewrite Nat.add_0_r, take_drop. done.
Qed.

(** The new bytes follow it. *)
Lemma gathered_prefix :
  Z.of_nat (length (rp_data r)) = rp_actual_length r ->
  take (Z.to_nat (n + rp_actual_length r)) (gathered off n r d) = take (Z.to_nat n) d ++ rp_data r.
Proof.
  intros Hlen. destruct (Z.ltb_spec 0 (rp_actual_length r)) as [Hpos|Hpos].
  - assert (Z.to_nat (n + rp_actual_length r) = Z.to_nat n + length (rp_data r))%nat as -> by lia.
    assert (take (Z.to_nat (rp_actual_length r)) (drop (Z.to_nat off) (written off (rp_data r) d)) = rp_data r) as Hsrc.
    { unfold written. rewrite drop_app_length' by (rewrite length_take; lia). rewrite take_app_length'; [done|lia]. }
    unfold gathered. rewrite (proj2 (Z.ltb_lt _ _)) by done. simpl. destruct (Z.eqb_spec off n) as [->|Hne]; simpl.
    + apply written_prefix. lia.
    + rewrite Hsrc, written_prefix by (rewrite written_length; lia). by rewrite written_take by lia.
  - assert (rp_actual_length r = 0) as Hz by lia. assert (rp_data r = []) as Hd by (apply nil_length_inv; lia).
    rewrite Hz, Hd, Z.add_0_r, app_nil_r. apply gathered_take.
Qed.
End gathered.

(** ** Steps of a bulk transfer *)

Section bulk.
Context (s0 : lib (linux K)) (t b h : nat) (y : device_handle) (x0 : transfer).
Context (Hb : b ∈ live (mem s0)) (Hh : handles s0 !! h = Some y).
Context (Hx : t_dev_handle x0 = Some h).
Context (Hty : t_type x0 = LIBUSB_TRANSFER_TYPE_BULK \/ t_type x0 = LIBUSB_TRANSFER_TYPE_BULK_STREAM \/
               t_type x0 = LIBUSB_TRANSFER_TYPE_INTERRUPT).
Implicit Types (tp : linux_transfer_priv) (l : list usbfs_urb) (k : K).

(** The transfer with [n] bytes received and the buffer [d]. *)
Definition received (n : Z) (d : list Z) : transfer := set_t_data d (set_it_transferred n x0).

Lemma bulk_type : t_type x0 =? LIBUSB_TRANSFER_TYPE_ISOCHRONOUS = false.
Proof. by destruct Hty as [->|[->| ->]]. Qed.
Lemma bulk_not_iso : t_type x0 <> LIBUSB_TRANSFER_TYPE_ISOCHRONOUS.
Proof. by destruct Hty as [->|[->| ->]]. Qed.

Lemma complete_urb_bulk r i u n d tp l k :
  rp_urb r = (b, i) -> l !! i = Some u -> ub_usercontext u = t ->
  (Z.to_nat (ub_buffer u) + length (rp_data r) <= length d)%nat ->
  complete_urb kern be user_cb r (urb_state s0 t b (received n d) tp l k) =
  handle_bulk_completion kern be user_cb t (b, i)
    (urb_state s0 t b (received n (written (ub_buffer u) (rp_data r) d)) tp (<[i := reaped_urb r u]> l) k).
Proof.
  intros Hr Hi Hu Hle. unfold complete_urb, write_back. rewrite Hr.
  eapply bind_eq.
  { step get_urb_urb. step put_urb_urb. simpl. rewrite Hu. step get_transfer_urb. simpl.
    eapply bind_eq; [unfold lift; by rewrite store_written by done|]. step put_transfer_urb. done. }
  simpl. rewrite ?Hu. step get_transfer_urb. simpl. rewrite bulk_type.
  assert ((t_type x0 =? LIBUSB_TRANSFER_TYPE_BULK) || (t_type x0 =? LIBUSB_TRANSFER_TYPE_BULK_STREAM) ||
          (t_type x0 =? LIBUSB_TRANSFER_TYPE_INTERRUPT) = true) as Hbool by (by destruct Hty as [->|[->| ->]]).
  rewrite Hbool. unfold reaped_urb. by rewrite Hu.
Qed.

(** [completed]: the array is released and the transfer reported. *)
Definition freed : lib (linux K) :=
  set_mem (mk_heap (live (mem s0) ∖ {[+ b +]}) (next (mem s0)) (oom (mem s0)) (oom_realloc (mem s0))) s0.
Definition report tp : Lib (linux K) Z :=
  if decide (tp_reap_action tp = CANCELLED) then usbi_handle_transfer_cancellation be user_cb t
  else usbi_handle_transfer_completion be user_cb t (tp_reap_status tp).

Lemma bulk_completed_urb x tp l k :
  tp_urbs tp = Urbs b ->
  bulk_completed be user_cb t (urb_state s0 t b x tp l k) = report tp (urb_state freed t b x (set_tp_urbs NoUrbs tp) l k).
Proof.
  intros Hub. unfold bulk_completed. step get_tpriv_urb. rewrite Hub.
  eapply bind_eq with (a := tt) (s' := urb_state freed t b x tp l k).
  { unfold on_mem, free. simpl. by rewrite decide_True by done. }
  step put_tpriv_urb. unfold report. by destruct (decide _).
Qed.

(** The abnormal branch, up to the report of the last URB. *)
Definition last_status (a : reap_action) (st : Z) : Z :=
  if decide (a <> COMPLETED_EARLY /\ st = LIBUSB_TRANSFER_COMPLETED) then LIBUSB_TRANSFER_ERROR else st.

Lemma bulk_abnormal_urb r i u n d tp l k :
  rp_urb r = (b, i) -> l !! i = Some u -> ub_usercontext u = t ->
  tp_urbs tp = Urbs b -> tp_reap_action tp <> NORMAL ->
  0 <= n -> (0 < rp_actual_length r -> n <= ub_buffer u) -> 0 <= ub_buffer u -> 0 <= rp_actual_length r ->
  Z.of_nat (length (rp_data r)) <= rp_actual_length r -> ub_buffer u + rp_actual_length r <= Z.of_nat (length d) ->
  let tp' := set_tp_num_retired (tp_num_retired tp + 1) tp in
  let x' := received (n + rp_actual_length r) (gathered (ub_buffer u) n r d) in
  complete_urb kern be user_cb r (urb_state s0 t b (received n d) tp l k) =
  if tp_num_retired tp + 1 =? tp_num_urbs tp
  then bulk_completed be user_cb t (urb_state s0 t b x'
         (set_tp_reap_status (last_status (tp_reap_action tp) (tp_reap_status tp)) tp') (<[i := reaped_urb r u]> l) k)
  else Ok (0, urb_state s0 t b x' tp' (<[i := reaped_urb r u]> l) k).
Proof.
  intros Hr Hi Hu Hub Ha Hn Hoff Ho Hlen Hdata Hfit tp' x'.
  rewrite (complete_urb_bulk r i u) by (done || lia). unfold handle_bulk_completion.
  step get_tpriv_urb. rewrite Hub. rewrite Nat.eqb_refl. eapply bind_eq; [done|].
  eapply bind_eq; [eapply get_urb_urb; [done|apply list_lookup_insert_eq; by eapply lookup_lt_Some]|].
  step put_tpriv_urb. simpl. rewrite decide_True by done. unfold bulk_abnormal_reap. step get_transfer_urb. simpl.
  eapply bind_eq with (a := tt) (s' := urb_state s0 t b x' tp' (<[i := reaped_urb r u]> l) k).
  { subst x'. unfold gathered. destruct (Z.ltb_spec 0 (rp_actual_length r)); simpl.
    - destruct (negb (ub_buffer u =? n)); [|step (@mret_ok unit); apply upd_transfer_urb].
      set (d2 := written n _ _).
      apply bind_eq with (a := tt) (s' := urb_state s0 t b (received n d2) tp' (<[i := reaped_urb r u]> l) k);
        [|apply upd_transfer_urb].
      unfold move_data. step get_transfer_urb. simpl. eapply bind_eq.
      { unfold lift, rd_n. rewrite decide_True by (rewrite length_drop, written_length; lia). done. }
      eapply bind_eq; [unfold lift; rewrite store_written; [done|]|apply put_transfer_urb].
      rewrite length_take, length_drop, written_length; lia.
    - by assert (n + rp_actual_length r = n) as -> by lia. }
  step get_tpriv_urb. simpl. destruct (_ =? _); [|done].
  unfold last_status. destruct (decide _) as [[Hc1 Hc2]|Hc].
  - step put_tpriv_urb. done.
  - eapply bind_eq; [done|]. by destruct tp.
Qed.

Lemma bulk_cancel_remaining_urb i n d tp l k :
  tp_urbs tp = Urbs b ->
  exists k', let tp' := set_tp_reap_status
      (if decide (tp_reap_action tp = ERROR /\ tp_reap_status tp = LIBUSB_TRANSFER_COMPLETED)
       then LIBUSB_TRANSFER_ERROR else tp_reap_status tp) tp in
    bulk_cancel_remaining kern be user_cb t i (urb_state s0 t b (received n d) tp l k) =
    if tp_num_retired tp =? tp_num_urbs tp
    then bulk_completed be user_cb t (urb_state s0 t b (received n d) tp' l k)
    else Ok (0, urb_state s0 t b (received n d) tp' l k').
Proof.
  intros Hub. set (st := if decide _ then _ else _).
  destruct (discard_urbs_urb s0 t b h y Hh (received n d) (set_tp_reap_status st tp) (S i) (Z.to_nat (tp_num_urbs tp)) l k)
    as (ret & k' & Hdisc); [apply bulk_not_iso|done|done|].
  exists k'. intros tp'. unfold bulk_cancel_remaining. step get_tpriv_urb.
  apply bind_eq with (a := tt) (s' := urb_state s0 t b (received n d) tp' l k).
  { subst tp' st. destruct (decide _); [apply put_tpriv_urb|]. by destruct tp. }
  destruct (_ =? _); [done|]. eapply bind_eq; [exact Hdisc|]. done.
Qed.

(** The normal branch: [r] continues what was received. *)
Lemma bulk_normal_urb r i u d tp l k :
  rp_urb r = (b, i) -> l !! i = Some u -> ub_usercontext u = t -> tp_urbs tp = Urbs b -> tp_reap_action tp = NORMAL ->
  0 <= ub_buffer u -> Z.of_nat (length (rp_data r)) <= rp_actual_length r ->
  ub_buffer u + rp_actual_length r <= Z.of_nat (length d) ->
  let '(verdict, action, status) := bulk_status (rp_status r) NORMAL (tp_reap_status tp) in
  let tp' := set_tp_reap_status status (set_tp_reap_action action (set_tp_num_retired (tp_num_retired tp + 1) tp)) in
  let s' tp := urb_state s0 t b (received (ub_buffer u + rp_actual_length r) (written (ub_buffer u) (rp_data r) d)) tp
                 (<[i := reaped_urb r u]> l) k in
  complete_urb kern be user_cb r (urb_state s0 t b (received (ub_buffer u) d) tp l k) =
  match verdict with
  | Completed => bulk_completed be user_cb t (s' tp')
  | CancelRemaining => bulk_cancel_remaining kern be user_cb t i (s' tp')
  | GoOn =>
      if Z.of_nat i =? tp_num_urbs tp - 1 then bulk_completed be user_cb t (s' tp')
      else if rp_actual_length r <? ub_buffer_length u
      then bulk_cancel_remaining kern be user_cb t i (s' (set_tp_reap_action COMPLETED_EARLY (set_tp_num_retired (tp_num_retired tp + 1) tp)))
      else Ok (0, s' tp')
  end.
Proof.
  intros Hr Hi Hu Hub Ha Ho Hdata Hfit. rewrite (complete_urb_bulk r i u) by (done || lia).
  destruct (bulk_status _ _ _) as [[verdict action] status] eqn:Hst. intros tp' s'. unfold handle_bulk_completion.
  step get_tpriv_urb. rewrite Hub, Nat.eqb_refl. eapply bind_eq; [done|].
  eapply bind_eq; [eapply get_urb_urb; [done|apply list_lookup_insert_eq; by eapply lookup_lt_Some]|].
  step put_tpriv_urb. rewrite decide_False by (simpl; tauto). step upd_transfer_urb. simpl. rewrite Ha, Hst.
  step put_tpriv_urb. destruct verdict; [|done|done]. destruct (_ =? _); [done|]. destruct (_ <? _); [|done].
  step put_tpriv_urb.
  assert (status = tp_reap_status tp) as -> by (unfold bulk_status in Hst; repeat case_match; by simplify_eq).
  by destruct tp.
Qed.

(** ** All the URBs that are left *)

(** The loop over [reap_for_handle], on the URBs [rs] that the kernel hands
    back. *)
Fixpoint complete_all (rs : list reaped) : Lib (linux K) Z :=
  match rs with
  | [] => mret 0
  | r :: rs => c ← complete_urb kern be user_cb r; if c =? 0 then complete_all rs else mret c
  end.

Lemma complete_all_cons r rs s s' :
  complete_urb kern be user_cb r s = Ok (0, s') -> complete_all (r :: rs) s = complete_all rs s'.
Proof. intros Hr. by step Hr. Qed.
Lemma complete_all_last r s : complete_all [r] s = complete_urb kern be user_cb r s.
Proof.
  simpl. unfold mbind, M_bind. destruct (complete_urb _ _ _ r s) as [[c s']|]; [|done].
  destruct (Z.eqb_spec c 0) as [->|]; done.
Qed.

(** The kernel handed back a URB of the array within its bounds: [dl] is the
    size of the buffer. *)
Definition reap_fits (dl : Z) (l : list usbfs_urb) (r : reaped) : Prop :=
  exists i u, rp_urb r = (b, i) /\ l !! i = Some u /\ ub_usercontext u = t /\ 0 <= ub_buffer u /\
    ub_buffer u + ub_buffer_length u <= dl /\ 0 <= rp_actual_length r <= ub_buffer_length u /\
    Z.of_nat (length (rp_data r)) <= rp_actual_length r.

(** The offset of the URB in the buffer. *)
Definition reap_offset (l : list usbfs_urb) (r : reaped) : Z :=
  match l !! snd (rp_urb r) with Some u => ub_buffer u | None => 0 end.

(** Those that carry data come in the order of the buffer, from [n] on. *)
Fixpoint data_in_order (l : list usbfs_urb) (n : Z) (rs : list reaped) : Prop :=
  match rs with
  | [] => True
  | r :: rs =>
      if 0 <? rp_actual_length r
      then n <= reap_offset l r /\ data_in_order l (reap_offset l r + rp_actual_length r) rs
      else data_in_order l n rs
  end.

Definition total_length (rs : list reaped) : Z := foldr (fun r n => rp_actual_length r + n) 0 rs.
Definition all_data (rs : list reaped) : list Z := concat (map rp_data rs).
Definition full_data (r : reaped) : Prop := Z.of_nat (length (rp_data r)) = rp_actual_length r.

Lemma total_length_app rs1 rs2 : total_length (rs1 ++ rs2) = total_length rs1 + total_length rs2.
Proof. clear. induction rs1 as [|r rs1 IH]; simpl; [done|]. rewrite IH. lia. Qed.
Lemma all_data_app rs1 rs2 : all_data (rs1 ++ rs2) = all_data rs1 ++ all_data rs2.
Proof. clear. unfold all_data. by rewrite map_app, concat_app. Qed.

(** Only where the URBs lie matters. *)
Definition same_places (l l' : list usbfs_urb) : Prop := map urb_place l = map urb_place l'.

Lemma same_places_lookup l l' i u :
  same_places l l' -> l !! i = Some u -> exists u', l' !! i = Some u' /\ urb_place u' = urb_place u.
Proof.
  clear. unfold same_places. intros Hl Hi. assert (map urb_place l' !! i = Some (urb_place u)) as Hm.
  { rewrite <- Hl. change (map urb_place l) with (urb_place <$> l). by rewrite list_lookup_fmap, Hi. }
  change (map urb_place l') with (urb_place <$> l') in Hm. rewrite list_lookup_fmap in Hm.
  apply fmap_Some in Hm as (u' & Hu' & Hp). eauto.
Qed.
Lemma same_places_insert l i u r : l !! i = Some u -> same_places (<[i := reaped_urb r u]> l) l.
Proof.
  clear. intros Hi. unfold same_places. change (map urb_place ?m) with (urb_place <$> m).
  rewrite list_fmap_insert. apply list_insert_id. by rewrite list_lookup_fmap, Hi.
Qed.
Lemma reap_offset_places l l' r : same_places l l' -> is_Some (l !! snd (rp_urb r)) -> reap_offset l r = reap_offset l' r.
Proof.
  clear. intros Hl [u Hu]. unfold reap_offset. destruct (same_places_lookup l l' _ u Hl Hu) as (u' & Hu' & Hp).
  rewrite Hu, Hu'. unfold urb_place in Hp. congruence.
Qed.
Lemma reap_fits_places dl l l' r : same_places l l' -> reap_fits dl l r -> reap_fits dl l' r.
Proof.
  clear. intros Hl (i & u & Hr & Hi & Hu). destruct (same_places_lookup l l' i u Hl Hi) as (u' & Hu' & Hp).
  unfold urb_place in Hp. injection Hp as Hc Hf Hlen. exists i, u'. rewrite Hc, Hf, Hlen. done.
Qed.
Lemma data_in_order_places dl l l' n rs :
  same_places l l' -> Forall (reap_fits dl l) rs -> data_in_order l n rs -> data_in_order l' n rs.
Proof.
  clear. intros Hl Hfit. revert n. induction Hfit as [|r rs Hr Hfit IH]; intros n; simpl; [done|].
  rewrite <- (reap_offset_places l l') by (first [done | destruct Hr as (i & u & -> & Hi & _); by eexists]).
  destruct (0 <? rp_actual_length r); [|apply IH]. intros [? ?]. split; [done|]. by apply IH.
Qed.

Lemma data_in_order_le l n m rs : n <= m -> data_in_order l m rs -> data_in_order l n rs.
Proof.
  clear. revert n. induction rs as [|r rs IH]; intros n Hle; simpl; [done|].
  destruct (0 <? rp_actual_length r); [|by apply IH]. intros [? ?]. split; [lia|done].
Qed.

(** While the transfer is being torn down, any URBs that are left are
    collected, and the last one reports it. *)
Lemma abnormal_reaps rs n d tp l k :
  rs <> [] -> tp_urbs tp = Urbs b -> tp_reap_action tp <> NORMAL ->
  tp_num_retired tp + Z.of_nat (length rs) = tp_num_urbs tp ->
  0 <= n -> Forall (reap_fits (Z.of_nat (length d)) l) rs -> data_in_order l n rs ->
  exists d' tp' l', complete_all rs (urb_state s0 t b (received n d) tp l k) =
      report (set_tp_reap_status (last_status (tp_reap_action tp) (tp_reap_status tp)) tp)
        (urb_state freed t b (received (n + total_length rs) d') tp' l' k) /\
    tp_urbs tp' = NoUrbs /\ length d' = length d /\ take (Z.to_nat n) d' = take (Z.to_nat n) d /\
    (Forall full_data rs -> take (Z.to_nat (n + total_length rs)) d' = take (Z.to_nat n) d ++ all_data rs).
Proof.
  intros Hne Hub Ha. revert n d tp l Hne Hub Ha. induction rs as [|r rs IH]; [done|].
  intros n d tp l _ Hub Ha Hcount Hn [Hr Hrs]%Forall_cons Hord.
  destruct Hr as (i & u & Hp & Hi & Hu & Ho & Hbl & Hal & Hdl).
  assert (reap_offset l r = ub_buffer u) as Hoff by (unfold reap_offset; by rewrite Hp; simpl; rewrite Hi).
  assert (0 < rp_actual_length r -> n <= ub_buffer u) as Hnoff.
  { intros Hpos. simpl in Hord. rewrite (proj2 (Z.ltb_lt _ _)), Hoff in Hord by done. tauto. }
  pose proof (bulk_abnormal_urb r i u n d tp l k Hp Hi Hu Hub Ha Hn Hnoff Ho ltac:(lia) Hdl ltac:(lia)) as Hrun.
  cbv zeta in Hrun.
  assert (length (gathered (ub_buffer u) n r d) = length d) as Hlen by (apply gathered_length; lia).
  assert (take (Z.to_nat n) (gathered (ub_buffer u) n r d) = take (Z.to_nat n) d) as Htake
    by (apply gathered_take; (exact Hnoff || lia)).
  assert (full_data r -> take (Z.to_nat (n + rp_actual_length r)) (gathered (ub_buffer u) n r d) =
            take (Z.to_nat n) d ++ rp_data r) as Hpre by (intros Hf; apply gathered_prefix; (exact Hnoff || exact Hf || lia)).
  destruct rs as [|r2 rs].
  - simpl in Hcount. rewrite (proj2 (Z.eqb_eq _ _)) in Hrun by lia. rewrite complete_all_last, Hrun.
    rewrite bulk_completed_urb by done. simpl. rewrite Z.add_0_r.
    do 3 eexists. split; [reflexivity|]. split_and!; [done|done|done|].
    intros [Hfull _]%Forall_cons. unfold all_data. simpl. rewrite app_nil_r. by apply Hpre.
  - rewrite (proj2 (Z.eqb_neq _ _)) in Hrun by (simpl in Hcount; lia). erewrite complete_all_cons by exact Hrun.
    pose proof (same_places_insert l i u r Hi) as Hpl.
    edestruct (IH (n + rp_actual_length r) (gathered (ub_buffer u) n r d) (set_tp_num_retired (tp_num_retired tp + 1) tp)
                 (<[i := reaped_urb r u]> l)) as (d' & tp' & l' & Hall & Hno & Hlen' & Htk' & Hdata').
    + done.
    + done.
    + done.
    + simpl. simpl in Hcount. lia.
    + lia.
    + rewrite Hlen. eapply Forall_impl; [exact Hrs|]. intros r' Hr'. by eapply reap_fits_places; [symmetry|].
    + eapply (data_in_order_places _ l); [by symmetry|exact Hrs|]. simpl in Hord. rewrite Hoff in Hord.
      destruct (Z.ltb_spec 0 (rp_actual_length r)); [|by assert (n + rp_actual_length r = n) as -> by lia].
      eapply data_in_order_le; [|apply Hord]. lia.
    + exists d', tp', l'. rewrite Hlen in Hlen'.
      change (total_length (r :: r2 :: rs)) with (rp_actual_length r + total_length (r2 :: rs)). rewrite Z.add_assoc. split; [exact Hall|].
      split; [done|]. split; [done|]. split.
      { rewrite <- Htake. by apply (take_eq_le _ _ _ _ Htk'); lia. }
      intros [Hf Hfull]%Forall_cons. rewrite Hdata', Hpre by done. change (all_data (r :: r2 :: rs)) with (rp_data r ++ all_data (r2 :: rs)).
      by rewrite app_assoc.
Qed.
End bulk.

(** ** From the first URB on *)

(** The URBs are as [submit_bulk_transfer] made them. *)
Section layout.
Context (t : nat) (x : transfer) (caps : Z) (Hlen : 0 <= t_length x).

Definition block_len : Z := fst (bulk_split caps (t_length x)).
Definition urb_count : Z := fst (bulk_num_urbs (t_length x) block_len).
Definition submitted_urbs : list usbfs_urb := map (fun i => bulk_urb t x caps (Z.of_nat i)) (seq 0 (Z.to_nat urb_count)).

Lemma block_len_pos : 0 < block_len.
Proof.
  unfold block_len, bulk_split, MAX_BULK_BUFFER_LENGTH.
  repeat case_match; simpl; try lia; destruct (Z.eqb_spec (t_length x) 0); simplify_eq; lia.
Qed.

Lemma urb_count_bounds :
  0 < urb_count /\ (urb_count - 1) * block_len <= t_length x <= urb_count * block_len /\
  (0 < t_length x -> (urb_count - 1) * block_len < t_length x).
Proof.
  pose proof block_len_pos as Hpos. unfold urb_count, bulk_num_urbs.
  rewrite Z.rem_mod_nonneg, Z.quot_div_nonneg by lia.
  pose proof (Z.div_mod (t_length x) block_len ltac:(lia)) as Hdm.
  pose proof (Z.mod_pos_bound (t_length x) block_len Hpos) as Hm.
  pose proof (Z.div_pos (t_length x) block_len ltac:(lia) Hpos) as Hd.
  destruct (Z.eqb_spec (t_length x) 0) as [H0|H0]; simpl; [lia|].
  destruct (Z.ltb_spec 0 (t_length x mod block_len)); simpl; nia.
Qed.

Lemma bulk_urb_place i :
  0 <= i < urb_count ->
  urb_place (bulk_urb t x caps i) = (t, i * block_len, Z.min block_len (t_length x - i * block_len)).
Proof.
  intros Hi. pose proof urb_count_bounds as (Hc & Hb & Hb'). pose proof block_len_pos as Hpos.
  unfold urb_place, bulk_urb. unfold block_len, urb_count in *.
  destruct (bulk_split caps (t_length x)) as [blen cont] eqn:Hs. simpl in *.
  destruct (bulk_num_urbs (t_length x) blen) as [n partial] eqn:Hn. unfold block_len in *.
  rewrite Hs in *. simpl in *. rewrite Hn in *. simpl in *.
  case_match. simpl. f_equal. unfold bulk_num_urbs in Hn.
  rewrite Z.rem_mod_nonneg, Z.quot_div_nonneg in * by lia.
  pose proof (Z.div_mod (t_length x) blen ltac:(lia)) as Hdm.
  pose proof (Z.mod_pos_bound (t_length x) blen Hpos) as Hm.
  destruct (Z.eqb_spec (t_length x) 0) as [H0|H0]; [simplify_eq; rewrite andb_false_r; nia|].
  destruct (Z.ltb_spec 0 (t_length x mod blen)); simplify_eq; rewrite ?andb_true_r, ?andb_false_r.
  - destruct (Z.eqb_spec i (t_length x `div` blen + 1 - 1)); nia.
  - nia.
Qed.

Lemma submitted_lookup i u :
  submitted_urbs !! i = Some u ->
  Z.of_nat i < urb_count /\
  urb_place u = (t, Z.of_nat i * block_len, Z.min block_len (t_length x - Z.of_nat i * block_len)).
Proof.
  unfold submitted_urbs. change (map ?f ?l) with (f <$> l). rewrite list_lookup_fmap.
  intros (j & Hj & ->)%fmap_Some. apply lookup_seq in Hj as [-> Hj]. simpl.
  split; [lia|]. apply bulk_urb_place. lia.
Qed.
Lemma submitted_lookup_is_Some i : Z.of_nat i < urb_count -> is_Some (submitted_urbs !! i).
Proof. intros Hi. apply lookup_lt_is_Some. unfold submitted_urbs. rewrite length_map, length_seq. lia. Qed.
End layout.

Section whole.
Context (s0 : lib (linux K)) (t b h : nat) (y : device_handle) (x0 : transfer) (caps : Z).
Context (Hb : b ∈ live (mem s0)) (Hh : handles s0 !! h = Some y) (Hx : t_dev_handle x0 = Some h).
Context (Hty : t_type x0 = LIBUSB_TRANSFER_TYPE_BULK \/ t_type x0 = LIBUSB_TRANSFER_TYPE_BULK_STREAM \/
               t_type x0 = LIBUSB_TRANSFER_TYPE_INTERRUPT).
Context (Hlen : 0 <= t_length x0).
Abbreviation N := (urb_count x0 caps).
Abbreviation blen := (block_len x0 caps).
Abbreviation urbs := (submitted_urbs t x0 caps).
Abbreviation state n d tp l k := (urb_state s0 t b (received x0 n d) tp l k).

(** The statuses that do not end a transfer. *)
Definition goes_on (status : Z) : bool :=
  (status =? 0) || (status =? - EREMOTEIO) || (status =? - ENOENT) || (status =? - ECONNRESET).

(** [r] is URB [i], all of it. *)
Definition full_reap (i : nat) (r : reaped) : Prop :=
  rp_urb r = (b, i) /\ goes_on (rp_status r) = true /\ rp_actual_length r = blen /\
  Z.of_nat (length (rp_data r)) <= blen.

Lemma goes_on_status status a st : goes_on status = true -> bulk_status status a st = (GoOn, a, st).
Proof. clear. unfold goes_on, bulk_status. by intros ->. Qed.

Lemma placed_urb l i : same_places l urbs -> Z.of_nat i < N ->
  exists u, l !! i = Some u /\ ub_usercontext u = t /\ ub_buffer u = Z.of_nat i * blen /\
    ub_buffer_length u = Z.min blen (t_length x0 - Z.of_nat i * blen).
Proof.
  clear -Hlen. intros Hpl Hi. destruct (submitted_lookup_is_Some t x0 caps i Hi) as [v Hv].
  destruct (same_places_lookup urbs l i v) as (u & Hu & Hp); [by symmetry|done|].
  exists u. split; [done|]. apply submitted_lookup in Hv as [_ Hp']; [|done]. unfold urb_place in Hp, Hp'.
  rewrite <- Hp in Hp'. injection Hp'. done.
Qed.

Lemma normal_reap_full i r d tp l k :
  same_places l urbs -> Z.of_nat i + 1 < N -> full_reap i r -> t_length x0 <= Z.of_nat (length d) ->
  tp_urbs tp = Urbs b -> tp_reap_action tp = NORMAL -> tp_num_urbs tp = N ->
  exists d' l', complete_urb kern be user_cb r (state (Z.of_nat i * blen) d tp l k) =
      Ok (0, state (Z.of_nat (S i) * blen) d' (set_tp_num_retired (tp_num_retired tp + 1) tp) l' k) /\
    same_places l' urbs /\ length d' = length d /\
    (full_data r -> take (Z.to_nat (Z.of_nat (S i) * blen)) d' = take (Z.to_nat (Z.of_nat i * blen)) d ++ rp_data r).
Proof.
  intros Hpl Hi (Hr & Hst & Hal & Hdl) Hd Hub Ha Hn.
  pose proof (block_len_pos x0 caps Hlen) as Hpos. pose proof (urb_count_bounds x0 caps Hlen) as (_ & Hcb & _).
  destruct (placed_urb l i Hpl ltac:(lia)) as (u & Hu & Huc & Hoff & Hul).
  assert (Z.of_nat i * blen + blen <= t_length x0) as Hend by nia.
  pose proof (bulk_normal_urb s0 t b x0 Hb Hty r i u d tp l k Hr Hu Huc Hub Ha
    ltac:(lia) ltac:(lia) ltac:(lia)) as Hrun.
  rewrite (goes_on_status _ _ _ Hst), Hn, Hoff, Hal, Hul in Hrun. rewrite (proj2 (Z.eqb_neq _ _)) in Hrun by lia.
  rewrite (proj2 (Z.ltb_ge _ _)) in Hrun by lia. rewrite Hrun.
  exists (written (Z.of_nat i * blen) (rp_data r) d), (<[i := reaped_urb r u]> l).
  assert (Z.of_nat (S i) * blen = Z.of_nat i * blen + blen) as -> by lia.
  split; [by destruct tp; simpl in *; subst|]. split; [by etrans; [apply same_places_insert|]|].
  split; [apply written_length; lia|]. intros Hfull. unfold full_data in Hfull.
  assert (Z.to_nat (Z.of_nat i * blen + blen) = Z.to_nat (Z.of_nat i * blen) + length (rp_data r))%nat as -> by lia.
  apply written_prefix. lia.
Qed.

Lemma normal_reaps full rest i d tp l k :
  same_places l urbs -> Z.of_nat i + Z.of_nat (length full) < N ->
  (forall j r, full !! j = Some r -> full_reap (i + j) r) -> t_length x0 <= Z.of_nat (length d) ->
  tp_urbs tp = Urbs b -> tp_reap_action tp = NORMAL -> tp_num_urbs tp = N ->
  let i' := (i + length full)%nat in
  exists d' l', complete_all (full ++ rest) (state (Z.of_nat i * blen) d tp l k) =
      complete_all rest (state (Z.of_nat i' * blen) d'
        (set_tp_num_retired (tp_num_retired tp + Z.of_nat (length full)) tp) l' k) /\
    same_places l' urbs /\ length d' = length d /\
    (Forall full_data full -> take (Z.to_nat (Z.of_nat i' * blen)) d' = take (Z.to_nat (Z.of_nat i * blen)) d ++ all_data full).
Proof.
  revert i d tp l. induction full as [|r full IH]; intros i d tp l Hpl Hi Hfull Hd Hub Ha Hn i'.
  { exists d, l. subst i'. simpl. rewrite Nat.add_0_r, Z.add_0_r. unfold all_data. simpl. rewrite app_nil_r.
    split; [by destruct tp|]. done. }
  simpl in Hi. pose proof (Hfull 0%nat r eq_refl) as Hr. rewrite Nat.add_0_r in Hr.
  destruct (normal_reap_full i r d tp l k Hpl ltac:(lia) Hr Hd Hub Ha Hn) as (d1 & l1 & Hrun & Hpl1 & Hd1 & Hdata1).
  destruct (IH (S i) d1 (set_tp_num_retired (tp_num_retired tp + 1) tp) l1) as (d' & l' & Hall & Hpl' & Hd' & Hdata');
    [done|lia| |lia|done|done|done|].
  { intros j r' Hj. replace (S i + j)%nat with (i + S j)%nat by lia. by apply Hfull. }
  subst i'. replace (i + length (r :: full))%nat with (S i + length full)%nat by (simpl; lia).
  exists d', l'. split.
  { simpl app. erewrite complete_all_cons by exact Hrun. rewrite Hall. do 2 f_equal.
    destruct tp; unfold set_tp_num_retired; simpl. f_equal. lia. }
  split; [done|]. split; [lia|]. intros [Hf Hfs]%Forall_cons. rewrite Hdata' by done. rewrite Hdata1 by done.
  unfold all_data. simpl. by rewrite app_assoc.
Qed.

Lemma full_total full i :
  (forall j r, full !! j = Some r -> full_reap (i + j) r) -> total_length full = Z.of_nat (length full) * blen.
Proof.
  clear. revert i. induction full as [|r full IH]; intros i Hfull; [done|]. simpl total_length. simpl length.
  rewrite (IH (S i)).
  - destruct (Hfull 0%nat r eq_refl) as (_ & _ & -> & _). lia.
  - intros j r' Hj. replace (S i + j)%nat with (i + S j)%nat by lia. by apply Hfull.
Qed.

(** The status of a transfer whose URB ended with [status]. *)
Definition bulk_result (status : Z) : Z :=
  if goes_on status then LIBUSB_TRANSFER_COMPLETED
  else if (status =? - ENODEV) || (status =? - ESHUTDOWN) then LIBUSB_TRANSFER_NO_DEVICE
  else if status =? - EPIPE then LIBUSB_TRANSFER_STALL
  else if status =? - EOVERFLOW then LIBUSB_TRANSFER_OVERFLOW
  else LIBUSB_TRANSFER_ERROR.

(** After URB [i] with this status the backend collects the rest. *)
Definition tears_down (r : reaped) : Prop :=
  (goes_on (rp_status r) = true /\ rp_actual_length r < blen) \/ bulk_result (rp_status r) = LIBUSB_TRANSFER_ERROR.

Lemma bulk_status_cases status :
  (goes_on status = true /\ bulk_result status = LIBUSB_TRANSFER_COMPLETED) \/
  (bulk_status status NORMAL LIBUSB_TRANSFER_COMPLETED = (CancelRemaining, ERROR, LIBUSB_TRANSFER_COMPLETED) /\
   bulk_result status = LIBUSB_TRANSFER_ERROR) \/
  ((exists v, v <> GoOn /\ bulk_status status NORMAL LIBUSB_TRANSFER_COMPLETED = (v, NORMAL, bulk_result status)) /\
   bulk_result status <> LIBUSB_TRANSFER_ERROR /\ bulk_result status <> LIBUSB_TRANSFER_COMPLETED).
Proof.
  clear. unfold bulk_result, bulk_status. change ((status =? 0) || (status =? - EREMOTEIO) || (status =? - ENOENT) || (status =? - ECONNRESET)) with (goes_on status).
  destruct (goes_on status); [by left|right].
  assert (forall v st, v <> GoOn -> st <> LIBUSB_TRANSFER_ERROR -> st <> LIBUSB_TRANSFER_COMPLETED ->
    (exists v', v' <> GoOn /\ (v, NORMAL, st) = (v', NORMAL, st)) /\
    st <> LIBUSB_TRANSFER_ERROR /\ st <> LIBUSB_TRANSFER_COMPLETED) as Hother by (intros; split; [by eexists|done]).
  destruct (_ || _); [right; by apply Hother|]. destruct (status =? _); [right; by apply Hother|].
  destruct (status =? _); [right; by apply Hother|]. by left.
Qed.

(** The bytes that URB [i] adds. *)
Definition ending_reap (i : nat) (r : reaped) : Prop :=
  rp_urb r = (b, i) /\ 0 <= rp_actual_length r <= Z.min blen (t_length x0 - Z.of_nat i * blen) /\
  Z.of_nat (length (rp_data r)) <= rp_actual_length r.

Lemma last_reap i r d tp l k :
  same_places l urbs -> Z.of_nat i + 1 = N -> ending_reap i r -> t_length x0 <= Z.of_nat (length d) ->
  tp_urbs tp = Urbs b -> tp_reap_action tp = NORMAL -> tp_num_urbs tp = N -> tp_num_retired tp = Z.of_nat i ->
  tp_reap_status tp = LIBUSB_TRANSFER_COMPLETED ->
  let n := Z.of_nat i * blen in
  exists tp' l', complete_urb kern be user_cb r (state n d tp l k) =
      usbi_handle_transfer_completion be user_cb t (bulk_result (rp_status r))
        (urb_state (freed s0 b) t b (received x0 (n + rp_actual_length r) (written n (rp_data r) d)) tp' l' k) /\
    tp_urbs tp' = NoUrbs.
Proof.
  intros Hpl Hi (Hr & Hal & Hdl) Hd Hub Ha Hn Hret Hst n.
  pose proof (block_len_pos x0 caps Hlen) as Hpos.
  destruct (placed_urb l i Hpl ltac:(lia)) as (u & Hu & Huc & Hoff & Hul).
  pose proof (bulk_normal_urb s0 t b x0 Hb Hty r i u d tp l k Hr Hu Huc Hub Ha
    ltac:(lia) ltac:(lia) ltac:(lia)) as Hrun.
  rewrite Hoff, Hst in Hrun. fold n in Hrun. destruct (bulk_status_cases (rp_status r)) as [[Hg ->]|[[Hs ->]|[(v & Hv & Hs) _]]].
  - rewrite (goes_on_status _ _ _ Hg) in Hrun. rewrite (proj2 (Z.eqb_eq _ _)) in Hrun by lia. rewrite Hrun.
    rewrite bulk_completed_urb by done. unfold report. simpl. by do 2 eexists.
  - rewrite Hs in Hrun. rewrite Hrun. clear Hrun.
    edestruct (bulk_cancel_remaining_urb s0 t b h y x0 Hh Hx Hty i) as (k' & ->); [done|]. simpl.
    rewrite (proj2 (Z.eqb_eq _ _)) by lia. rewrite bulk_completed_urb by done. unfold report. simpl. by do 2 eexists.
  - rewrite Hs in Hrun. rewrite Hrun. destruct v; [done| |].
    + clear Hrun. edestruct (bulk_cancel_remaining_urb s0 t b h y x0 Hh Hx Hty i) as (k' & ->); [done|]. simpl.
      rewrite (proj2 (Z.eqb_eq _ _)) by lia. rewrite bulk_completed_urb by done. unfold report. simpl. by do 2 eexists.
    + rewrite bulk_completed_urb by done. unfold report. simpl. by do 2 eexists.
Qed.

Lemma tear_down_reap i r d tp l k :
  same_places l urbs -> Z.of_nat i + 1 < N -> ending_reap i r -> tears_down r -> t_length x0 <= Z.of_nat (length d) ->
  tp_urbs tp = Urbs b -> tp_reap_action tp = NORMAL -> tp_num_urbs tp = N -> tp_num_retired tp = Z.of_nat i ->
  tp_reap_status tp = LIBUSB_TRANSFER_COMPLETED ->
  let n := Z.of_nat i * blen in
  exists tp' l' k', complete_urb kern be user_cb r (state n d tp l k) =
      Ok (0, state (n + rp_actual_length r) (written n (rp_data r) d) tp' l' k') /\
    tp_urbs tp' = Urbs b /\ tp_num_urbs tp' = N /\ tp_num_retired tp' = Z.of_nat i + 1 /\ same_places l' urbs /\
    (tp_reap_action tp' = COMPLETED_EARLY \/ tp_reap_action tp' = ERROR) /\
    last_status (tp_reap_action tp') (tp_reap_status tp') = bulk_result (rp_status r).
Proof.
  intros Hpl Hi (Hr & Hal & Hdl) Htear Hd Hub Ha Hn Hret Hst n.
  pose proof (block_len_pos x0 caps Hlen) as Hpos. pose proof (urb_count_bounds x0 caps Hlen) as (_ & Hcb & _).
  destruct (placed_urb l i Hpl ltac:(lia)) as (u & Hu & Huc & Hoff & Hul).
  pose proof (bulk_normal_urb s0 t b x0 Hb Hty r i u d tp l k Hr Hu Huc Hub Ha
    ltac:(lia) ltac:(lia) ltac:(lia)) as Hrun.
  rewrite Hoff, Hst in Hrun. fold n in Hrun. pose proof (same_places_insert l i u r Hu) as Hpl'.
  destruct (bulk_status_cases (rp_status r)) as [[Hg Hres]|[[Hs Hres]|[_ [Hne1 Hne2]]]].
  - destruct Htear as [[_ Hshort]|Hbad]; [|by rewrite Hres in Hbad].
    rewrite (goes_on_status _ _ _ Hg) in Hrun. rewrite (proj2 (Z.eqb_neq _ _)) in Hrun by lia.
    rewrite (proj2 (Z.ltb_lt _ _)) in Hrun by (rewrite Hul; nia). rewrite Hrun. clear Hrun.
    edestruct (bulk_cancel_remaining_urb s0 t b h y x0 Hh Hx Hty i) as (k' & ->); [done|]. simpl.
    rewrite (proj2 (Z.eqb_neq _ _)) by lia. do 3 eexists. split; [reflexivity|]. simpl. rewrite Hst, Hres.
    split_and!; [done|done|lia|by etrans|by left|done].
  - rewrite Hs in Hrun. rewrite Hrun. clear Hrun.
    edestruct (bulk_cancel_remaining_urb s0 t b h y x0 Hh Hx Hty i) as (k' & ->); [done|]. simpl.
    rewrite (proj2 (Z.eqb_neq _ _)) by lia. do 3 eexists. split; [reflexivity|]. simpl. rewrite Hres.
    split_and!; [done|done|lia|by etrans|by right|done].
  - destruct Htear as [[Hg _]|]; [|done]. unfold bulk_result in Hne2. by rewrite Hg in Hne2.
Qed.
End whole.

(** ** Submission of a bulk transfer *)

Section submission.
Context (s0 : lib (linux K)) (t b h : nat) (y : device_handle) (x : transfer) (dpriv : linux_device_handle_priv).
Context (Hb : b ∈ live (mem s0)) (Hh : handles s0 !! h = Some y) (Hx : t_dev_handle x = Some h).
Context (Hty : t_type x <> LIBUSB_TRANSFER_TYPE_ISOCHRONOUS).
Context (Hdpriv : default zero_hpriv (lx_hpriv (world s0) !! h) = dpriv).
Abbreviation fd := (hp_fd dpriv).
Abbreviation urb j := (bulk_urb t x (hp_caps dpriv) (Z.of_nat j)).

(** What is known of a kernel that took the first [m] URBs. *)
Variable taken : nat -> K -> Prop.
Context (Hsubmit : forall m k, taken m k ->
  let '(e, k') := ioctl_submiturb kern fd (b, m) (urb m) k in taken (if e =? 0 then S m else m) k').
Context (Hdiscard : forall m p k, taken m k -> taken m (snd (ioctl_discardurb kern fd p k))).

Lemma discard_loop_taken m x' tp first n last ret l k :
  t_type x' <> LIBUSB_TRANSFER_TYPE_ISOCHRONOUS -> tp_urbs tp = Urbs b -> taken m k ->
  exists r k', discard_loop kern x' tp fd first n last ret
      (urb_state s0 t b x tp l k) = Ok (r, urb_state s0 t b x tp l k') /\ taken m k'.
Proof.
  intros Hty' Hub. revert ret k. induction n as [|n IH]; intros ret k Hk; simpl; [by eexists _, _|].
  unfold nth_urb at 1. rewrite (proj2 (Z.eqb_neq _ _)) by done. rewrite Hub.
  pose proof (Hdiscard m (b, (first + n)%nat) k Hk) as Hk2.
  destruct (ioctl_discardurb kern _ (b, (first + n)%nat) k) as [e k2] eqn:Hop.
  edestruct (fun ret => IH ret k2 Hk2) as (r & k' & Hr & Hk'). exists r, k'. split; [|done].
  eapply bind_eq; [done|]. step kernel_op_urb. exact Hr.
Qed.

(** URBs [0] to [m - 1] are in the memory. *)
Definition filled (m : nat) (l : list usbfs_urb) : Prop := forall j, (j < m)%nat -> l !! j = Some (urb j).

(** The outcome of the loop: the library and the kernel agree on the number
    [m] of URBs that the kernel holds. *)
Definition bulk_tpriv (action : reap_action) (num_urbs m : nat) (io : Z) : linux_transfer_priv :=
  mk_tpriv (Urbs b) action (Z.of_nat num_urbs) (Z.of_nat num_urbs - Z.of_nat m) LIBUSB_TRANSFER_COMPLETED io.
Definition bulk_submitted (num_urbs : nat) (io r : Z) (s' : lib (linux K)) : Prop :=
  exists l k m, length l = num_urbs /\ filled m l /\ taken m k /\
    if r =? 0
    then exists action, (0 < m \/ num_urbs = 0)%nat /\ (m <= num_urbs)%nat /\ (action = NORMAL <-> m = num_urbs) /\
      action <> CANCELLED /\ action <> ERROR /\
      s' = urb_state s0 t b x (bulk_tpriv action num_urbs m io) l k
    else m = O /\ s' = urb_state (freed s0 b) t b x (set_tp_urbs NoUrbs (bulk_tpriv NORMAL num_urbs num_urbs io)) l k.

Lemma submit_bulk_loop_spec n i l k io :
  let tp := bulk_tpriv NORMAL (i + n) (i + n) io in
  length l = (i + n)%nat -> filled i l -> taken i k ->
  exists r s', submit_bulk_loop kern t x dpriv b i n (urb_state s0 t b x tp l k) = Ok (r, s') /\
    bulk_submitted (i + n) io r s'.
Proof.
  revert i l k. induction n as [|n IH]; intros i l k tp Hl Hfill Hk; simpl.
  { eexists _, _. split; [done|]. exists l, k, i. split; [done|]. split; [done|]. split; [done|]. simpl.
    exists NORMAL. split_and!; [lia|lia|split; [intros _; lia|done]|done|done|]. subst tp. by rewrite Nat.add_0_r. }
  assert (i < length l)%nat as Hi by lia. apply lookup_lt_is_Some in Hi as [u Hu].
  assert (filled (S i) (<[i := urb i]> l)) as Hfill2.
  { intros j Hj. destruct (decide (j = i)) as [->|]; [apply list_lookup_insert_eq; lia|].
    rewrite list_lookup_insert_ne by done. apply Hfill. lia. }
  pose proof (Hsubmit i k Hk) as Hk2. destruct (ioctl_submiturb kern fd (b, i) (urb i) k) as [e k2] eqn:Hop.
  destruct (Z.eqb_spec e 0) as [->|Hne].
  { destruct (IH (S i) (<[i := urb i]> l) k2) as (r & s' & Hrun & Hpost); [by rewrite length_insert; lia|done|done|].
    rewrite Nat.add_succ_comm in Hrun, Hpost. exists r, s'. split; [|done]. step put_urb_urb. step kernel_op_urb. exact Hrun. }
  destruct (Nat.eqb_spec i 0) as [->|Hi].
  - set (r := if e =? ENODEV then LIBUSB_ERROR_NO_DEVICE else LIBUSB_ERROR_IO).
    assert (r <> 0) as Hr by (subst r; by destruct (e =? ENODEV)).
    eexists r, _. split.
    { step put_urb_urb. step kernel_op_urb. rewrite (proj2 (Z.eqb_neq _ _)) by done. step get_tpriv_urb. simpl.
      apply bind_eq with (a := tt) (s' := urb_state (freed s0 b) t b x tp (<[0%nat := urb 0]> l) k2).
      { unfold on_mem, free. simpl. by rewrite decide_True by done. }
      step put_tpriv_urb. done. }
    exists (<[0%nat := urb 0]> l), k2, O. rewrite (proj2 (Z.eqb_neq _ _)) by done.
    split; [by rewrite length_insert|]. split; [intros j Hj; lia|]. done.
  - set (action := if e =? EREMOTEIO then COMPLETED_EARLY else SUBMIT_FAILED).
    set (tp' := set_tp_num_retired (tp_num_retired tp + (tp_num_urbs tp - Z.of_nat i)) (set_tp_reap_action action tp)).
    destruct (discard_loop_taken i x tp' 0 (i - 0) i 0 (<[i := urb i]> l) k2) as (r & k3 & Hrun & Hk3);
      [done|done|done|].
    assert (bulk_submitted (i + S n) io 0 (urb_state s0 t b x tp' (<[i := urb i]> l) k2) /\
            bulk_submitted (i + S n) io 0 (urb_state s0 t b x tp' (<[i := urb i]> l) k3)) as [Hpost2 Hpost3].
    { assert (forall k', taken i k' -> bulk_submitted (i + S n) io 0 (urb_state s0 t b x tp' (<[i := urb i]> l) k')) as Hall.
      { intros k' Hk'. exists (<[i := urb i]> l), k', i. split; [by rewrite length_insert|].
        split; [intros j Hj; apply Hfill2; lia|]. split; [done|]. simpl. exists action.
        split_and!; [lia|lia|split; [by subst action; destruct (e =? EREMOTEIO)|lia]|subst action; by destruct (e =? EREMOTEIO)|
          subst action; by destruct (e =? EREMOTEIO)|]. subst tp'. f_equal. unfold set_tp_num_retired, bulk_tpriv. simpl. f_equal. lia. }
      split; by apply Hall. }
    eexists 0, (if decide (action = COMPLETED_EARLY) then _ else _). split.
    { step put_urb_urb. step kernel_op_urb. rewrite (proj2 (Z.eqb_neq _ _)) by done. step get_tpriv_urb.
      step put_tpriv_urb. fold action. destruct (decide (action = COMPLETED_EARLY)); [done|].
      eapply bind_eq; [unfold discard_urbs; step get_transfer_urb; step get_tpriv_urb; step transfer_hpriv_urb; rewrite Hdpriv; exact Hrun|done]. }
    by destruct (decide _).
Qed.
End submission.

(** What is documented of the kernel: it holds the URBs it accepted, by their
    address, until it hands them back; cancelling one only makes it come
    back sooner. *)
Class KernelLaws (held : K -> gmap urb_ptr usbfs_urb) : Prop := {
  submit_law fd p u k : held k !! p = None ->
    let '(e, k') := ioctl_submiturb kern fd p u k in held k' = if e =? 0 then <[p := u]> (held k) else held k;
  discard_law fd p k : held (snd (ioctl_discardurb kern fd p k)) = held k;
  reap_law fd k : let '((e, r), k') := ioctl_reapurbndelay kern fd k in
    if e =? 0 then is_Some (held k !! rp_urb r) /\ held k' = delete (rp_urb r) (held k) else held k' = held k
}.

(** On top of [old] the kernel holds URBs [0] to [m - 1] of the block [b]. *)
Definition holds_first (b : nat) (f : nat -> usbfs_urb) (m : nat) (old new : gmap urb_ptr usbfs_urb) : Prop :=
  forall p, new !! p = if decide (fst p = b /\ snd p < m)%nat then Some (f (snd p)) else old !! p.

Lemma holds_first_submit `{!KernelLaws held} b f m old fd k :
  (forall i, old !! (b, i) = None) -> holds_first b f m old (held k) ->
  let '(e, k') := ioctl_submiturb kern fd (b, m) (f m) k in
  holds_first b f (if e =? 0 then S m else m) old (held k').
Proof.
  clear user_cb be. intros Hnew Hk. assert (held k !! (b, m) = None) as Hm.
  { rewrite (Hk (b, m)). rewrite decide_False by (simpl; lia). apply Hnew. }
  pose proof (submit_law fd (b, m) (f m) k Hm) as Hlaw. destruct (ioctl_submiturb kern fd (b, m) (f m) k) as [e k'].
  rewrite Hlaw. destruct (e =? 0); [|done]. intros [c j]. simpl. destruct (decide ((b, m) = (c, j))) as [[= <- <-]|Hne].
  - rewrite lookup_insert_eq. by rewrite decide_True by lia.
  - rewrite lookup_insert_ne, Hk by done. simpl. destruct (decide (c = b /\ j < m)%nat), (decide (c = b /\ j < S m)%nat); try done; [lia|].
    destruct Hne. f_equal; lia.
Qed.

(** [submit_bulk_transfer]: it refuses and leaves no block behind, or the
    loop ran on a new block. *)
Lemma submit_bulk_spec s t x h y (taken : nat -> nat -> K -> Prop) :
  let dpriv := default zero_hpriv (lx_hpriv (world s) !! h) in
  let b := next (mem s) in
  let n := Z.to_nat (fst (bulk_num_urbs (t_length x) (fst (bulk_split (hp_caps dpriv) (t_length x))))) in
  transfers s !! t = Some x -> t_dev_handle x = Some h -> handles s !! h = Some y ->
  t_type x <> LIBUSB_TRANSFER_TYPE_ISOCHRONOUS ->
  taken b 0%nat (lx_kernel (world s)) ->
  (forall m k, taken b m k -> let '(e, k') := ioctl_submiturb kern (hp_fd dpriv) (b, m) (bulk_urb t x (hp_caps dpriv) (Z.of_nat m)) k in
     taken b (if e =? 0 then S m else m) k') ->
  (forall m p k, taken b m k -> taken b m (snd (ioctl_discardurb kern (hp_fd dpriv) p k))) ->
  exists r s', submit_bulk_transfer kern t s = Ok (r, s') /\
    ((r <> 0 /\ exists h', s' = set_mem h' s /\ live h' = live (mem s) /\ same_oracles (mem s) h') \/
     (exists h' io, live h' = {[+ b +]} ⊎ live (mem s) /\ same_oracles (mem s) h' /\
        0 <= fst (bulk_num_urbs (t_length x) (fst (bulk_split (hp_caps dpriv) (t_length x)))) /\
        bulk_submitted (set_mem h' s) t b x dpriv (taken b) n io r s')).
Proof.
  clear user_cb be. intros dpriv b n Ht Hx Hh Hty Hk0 Hsub Hdis.
  assert (forall h' : heap, transfer_hpriv x (set_mem h' s) = Ok (dpriv, set_mem h' s)) as Hpriv.
  { intros h'. unfold transfer_hpriv, get_hpriv. rewrite Hx. unfold get_handle, lookup_obj. simpl.
    unfold mbind, M_bind. simpl. by rewrite Hh. }
  assert (get_transfer t s = Ok (x, s)) as Hget by (unfold get_transfer, lookup_obj; by rewrite Ht).
  assert (set_mem (mem s) s = s) as Hid by (by destruct s).
  assert (transfer_hpriv x s = Ok (dpriv, s)) as Hps by (rewrite <- Hid at 1; rewrite Hpriv, Hid; done).
  unfold submit_bulk_transfer. destruct (is_out x && has_flag (t_flags x) LIBUSB_TRANSFER_ADD_ZERO_PACKET &&
    negb (has_flag (hp_caps dpriv) USBFS_CAP_ZERO_PACKET)) eqn:Hzp.
  { exists LIBUSB_ERROR_NOT_SUPPORTED, s. split; [step Hget; step Hps; by rewrite Hzp|].
    left. split; [done|]. exists (mem s). split; [by destruct s|done]. }
  set (num := fst (bulk_num_urbs _ _)) in *. destruct (Z.ltb_spec num 0) as [Hneg|Hpos].
  { exists LIBUSB_ERROR_NO_MEM, s. split.
    - step Hget. step Hps. rewrite Hzp. fold num. apply bind_eq with (a := None) (s' := s); [|done].
      unfold calloc_urbs. by rewrite (proj2 (Z.ltb_lt _ _)).
    - left. split; [done|]. exists (mem s). split; [by destruct s|done]. }
  destruct (oom (mem s) (next (mem s))) eqn:Hoom.
  { set (h' := set_live (mem s) (live (mem s))). exists LIBUSB_ERROR_NO_MEM, (set_mem h' s). split.
    - step Hget. step Hps. rewrite Hzp. fold num. apply bind_eq with (a := None) (s' := set_mem h' s); [|done].
      unfold calloc_urbs. rewrite (proj2 (Z.ltb_ge _ _)) by done.
      eapply bind_eq; [unfold on_mem, malloc; by rewrite Hoom|]. done.
    - left. split; [done|]. exists h'. split; [done|]. split; [done|]. apply same_oracles_fail. }
  set (h' := set_live (mem s) ({[+ next (mem s) +]} ⊎ live (mem s))).
  set (io := tp_iso_packet_offset (default zero_tpriv (lx_tpriv (world s) !! t))).
  assert (b ∈ live (mem (set_mem h' s))) as Hb by (simpl; subst b; multiset_solver).
  edestruct (submit_bulk_loop_spec (set_mem h' s) t b h y x dpriv Hb Hh Hx Hty eq_refl (taken b) Hsub Hdis
    n 0 (replicate n zero_urb) (lx_kernel (world s)) io) as (r & s' & Hrun & Hpost);
    [by rewrite length_replicate|intros j Hj; lia|exact Hk0|].
  exists r, s'. split; [|right; exists h', io; split; [done|]; split; [apply same_oracles_new|done]].
  step Hget. step Hps. rewrite Hzp. fold num.
  set (s1 := set_world (set_lx_urbs (<[b := replicate n zero_urb]> (lx_urbs (world s))) (world s)) (set_mem h' s)).
  apply bind_eq with (a := Some b) (s' := s1).
  { unfold calloc_urbs. rewrite (proj2 (Z.ltb_ge _ _)) by done.
    eapply bind_eq; [unfold on_mem, malloc; by rewrite Hoom|]. done. }
  simpl. apply bind_eq with (a := default zero_tpriv (lx_tpriv (world s) !! t)) (s' := s1).
  { unfold get_tpriv. eapply bind_eq; [unfold get_transfer, lookup_obj; simpl; by rewrite Ht|]. done. }
  eapply bind_eq; [done|]. simpl in Hrun. etrans; [|exact Hrun]. f_equal. unfold urb_state. simpl.
  rewrite (insert_id (transfers s)) by done. unfold set_transfers, set_world, set_lx_tpriv. subst s1. simpl.
  unfold bulk_tpriv. simpl. subst n. rewrite Z2Nat.id, Z.sub_diag by done. by destruct s.
Qed.
End urb_specs.
