(* ===== verification/IsoSpecs.v ===== *)
(** * Isochronous and control URBs, and the contract of submission

    How packets are distributed over URBs, what submission does to memory,
    and that the Linux backend keeps the contract of [TransferSpecs.v]. *)

From S2P Require Import Prelude Heap ParseDesc DescApi Bos Core Devices DeviceRefs Transfers Events Handles HotplugLife TransferSpecs LinuxState LinuxUrb UrbSpecs.

(** ** The distribution of packets *)

Definition packets_length (l : list iso_packet) : Z := foldr (fun p n => iso_length p + n) 0 l.

(** The packets of [n] URBs, and what is left over. *)
Fixpoint iso_chunks (n : nat) (packets : list iso_packet) : list (list iso_packet) * list iso_packet :=
  match n with
  | O => ([], packets)
  | S n =>
      let '(taken, rest, _) := swallow packets MAX_ISO_BUFFER_LENGTH in
      let '(chunks, left_over) := iso_chunks n rest in
      (taken :: chunks, left_over)
  end.

Definition packet_ok (p : iso_packet) : Prop := 0 <= iso_length p < 2 ^ 31.

Lemma swallow_spec packets space :
  Forall packet_ok packets -> 0 <= space ->
  let '(taken, rest, size) := swallow packets space in
  packets = taken ++ rest /\ size = packets_length taken /\ packets_length taken <= space.
Proof.
  intros Hok. revert space. induction Hok as [|p packets Hp Hok IH]; intros space Hs; simpl; [done|].
  destruct (Z.leb_spec (iso_length p) space) as [Hle|Hgt]; [|done].
  specialize (IH (space - iso_length p) ltac:(lia)). destruct (swallow packets _) as [[taken rest] size].
  destruct IH as (-> & -> & Hlen). simpl. split; [done|]. split; [done|]. lia.
Qed.

Lemma iso_chunks_spec n packets :
  Forall packet_ok packets ->
  let '(chunks, left_over) := iso_chunks n packets in
  packets = concat chunks ++ left_over /\ length chunks = n /\
  Forall (fun c => packets_length c <= MAX_ISO_BUFFER_LENGTH) chunks.
Proof.
  revert packets. induction n as [|n IH]; intros packets Hok; simpl; [done|].
  pose proof (swallow_spec packets MAX_ISO_BUFFER_LENGTH Hok ltac:(done)) as Hsw.
  destruct (swallow packets _) as [[taken rest] size]. destruct Hsw as (-> & _ & Hlen).
  apply Forall_app in Hok as [_ Hrest]. specialize (IH rest Hrest).
  destruct (iso_chunks n rest) as [chunks left_over]. destruct IH as (-> & Hn & Hall).
  split; [by rewrite app_assoc|]. split; [simpl; by rewrite Hn|]. by constructor.
Qed.

(** The first loop of the code counts as many URBs as the second one needs. *)
Lemma count_chunks packets num cur n :
  Forall packet_ok packets -> 0 <= cur <= MAX_ISO_BUFFER_LENGTH -> count_iso_urbs packets num cur = Some n ->
  exists m, n = num + Z.of_nat m /\
    let '(_, rest, _) := swallow packets (MAX_ISO_BUFFER_LENGTH - cur) in snd (iso_chunks m rest) = [].
Proof.
  intros Hok. revert num cur. induction Hok as [|p packets Hp Hok IH]; intros num cur Hcur Hcount; simpl in *.
  { exists O. simplify_eq. split; [lia|done]. }
  unfold packet_ok in Hp. unfold MAX_ISO_BUFFER_LENGTH in *.
  unfold u32 in Hcount. rewrite Z.mod_small in Hcount by lia.
  destruct (Z.ltb_spec (49152 * 128 - cur) (iso_length p)) as [Hgt|Hle].
  - rewrite i32_small in Hcount by lia. destruct (Z.ltb_spec (49152 * 128) (iso_length p)); [done|].
    destruct (IH (num + 1) (iso_length p) ltac:(lia) Hcount) as (m & -> & Hm).
    rewrite (proj2 (Z.leb_gt _ _)) by lia. exists (S m). split; [lia|]. simpl.
    unfold MAX_ISO_BUFFER_LENGTH. rewrite (proj2 (Z.leb_le (iso_length p) _)) by lia.
    destruct (swallow packets _) as [[taken rest] size]. by destruct (iso_chunks m rest).
  - rewrite i32_small in Hcount by lia. destruct (IH num (cur + iso_length p) ltac:(lia) Hcount) as (m & -> & Hm).
    rewrite (proj2 (Z.leb_le _ _)) by lia. exists m. split; [done|].
    replace (49152 * 128 - cur - iso_length p) with (49152 * 128 - (cur + iso_length p)) by lia.
    by destruct (swallow packets _) as [[taken rest] size].
Qed.

(** No packet is too long when the count succeeds. *)
Lemma count_none packets num cur :
  Forall packet_ok packets -> 0 <= cur <= MAX_ISO_BUFFER_LENGTH ->
  count_iso_urbs packets num cur = None <-> Exists (fun p => MAX_ISO_BUFFER_LENGTH < iso_length p) packets.
Proof.
  intros Hok. revert num cur. induction Hok as [|p packets Hp Hok IH]; intros num cur Hcur; simpl.
  { split; [done|]. intros H. inversion H. }
  unfold packet_ok in Hp. rewrite Exists_cons. unfold MAX_ISO_BUFFER_LENGTH in *.
  unfold u32. rewrite (Z.mod_small (49152 * 128 - cur)) by lia.
  destruct (Z.ltb_spec (49152 * 128 - cur) (iso_length p)) as [Hgt|Hle]; rewrite i32_small by lia.
  - destruct (Z.ltb_spec (49152 * 128) (iso_length p)); [tauto|]. rewrite IH by lia. intuition lia.
  - rewrite IH by lia. intuition lia.
Qed.

(** ** Steps that stay within the backend *)

Section backend.
Context {K : Type} (kern : usbfs K).
Implicit Types (s : lib (linux K)).

Definition only_backend s s' : Prop := exists m w,
  s' = set_mem m (set_world w s) /\ same_oracles (mem s) m /\ lx_hpriv w = lx_hpriv (world s).
#[local] Instance only_backend_refl : Reflexive only_backend.
Proof. intros s. exists (mem s), (world s). split; [by destruct s|done]. Qed.
#[local] Instance only_backend_trans : Transitive only_backend.
Proof.
  intros s1 s2 s3 (m1 & w1 & -> & H1 & Hp1) (m2 & w2 & -> & H2 & Hp2). exists m2, w2. simpl in *.
  split; [done|]. split; [by etrans|by rewrite Hp2].
Qed.
Lemma only_backend_transfers s s' : only_backend s s' -> transfers s' = transfers s.
Proof. by intros (m & w & -> & _ & _). Qed.
Lemma only_backend_handles s s' : only_backend s s' -> handles s' = handles s.
Proof. by intros (m & w & -> & _ & _). Qed.
Lemma only_backend_mem h s : same_oracles (mem s) h -> only_backend s (set_mem h s).
Proof. intros Ho. exists h, (world s). split; [by destruct s|done]. Qed.
Lemma only_backend_world w s : lx_hpriv w = lx_hpriv (world s) -> only_backend s (set_world w s).
Proof. exists (mem s), w. split; [by destruct s|done]. Qed.
Lemma only_backend_hpriv s s' : only_backend s s' -> lx_hpriv (world s') = lx_hpriv (world s).
Proof. by intros (m & w & -> & _ & ?). Qed.

Lemma get_urb_ok b u s : lx_urbs (world s) !! b = Some [u] -> b ∈ live (mem s) -> get_urb (b, O) s = Ok (u, s).
Proof.
  intros Hm Hb. unfold get_urb. eapply bind_eq; [unfold on_mem, touch; simpl; by rewrite decide_True by done|].
  assert (set_mem (mem s) s = s) as -> by (by destruct s). eapply bind_eq; [done|]. simpl. by rewrite Hm.
Qed.
Lemma wp_get_urb b u s (Q : usbfs_urb -> lib (linux K) -> Prop) :
  lx_urbs (world s) !! b = Some [u] -> b ∈ live (mem s) -> Q u s -> wp (get_urb (b, O)) s Q.
Proof. intros Hm Hb HQ. unfold wp. by rewrite (get_urb_ok b u). Qed.

(** The private data of [t]. *)
Definition tpriv_of s t : linux_transfer_priv := default zero_tpriv (lx_tpriv (world s) !! t).
Definition urb_memory s : gmap nat (list usbfs_urb) := lx_urbs (world s).

Lemma wp_get_tpriv t x s (Q : linux_transfer_priv -> lib (linux K) -> Prop) :
  transfers s !! t = Some x -> Q (tpriv_of s t) s -> wp (get_tpriv t) s Q.
Proof. intros Ht HQ. unfold get_tpriv. apply wp_bind. eapply wp_get_transfer; [done|]. by apply wp_gets. Qed.

(** [s'] is [s] with new private data, and nothing else of it changed. *)
Record tpriv_changed t (tp : linux_transfer_priv) s s' : Prop := mk_changed {
  ch_backend : only_backend s s';
  ch_mem : mem s' = mem s;
  ch_tpriv : tpriv_of s' t = tp;
  ch_urbs : urb_memory s' = urb_memory s;
  ch_kernel : lx_kernel (world s') = lx_kernel (world s);
  ch_hpriv : lx_hpriv (world s') = lx_hpriv (world s)
}.
Lemma wp_put_tpriv t tp s (Q : unit -> lib (linux K) -> Prop) :
  (forall s', tpriv_changed t tp s s' -> Q tt s') -> wp (put_tpriv t tp) s Q.
Proof.
  intros HQ. apply wp_modify, HQ. split; try done.
  - by apply only_backend_world.
  - unfold tpriv_of. simpl. by rewrite lookup_insert_eq.
Qed.

Lemma wp_kernel_op {A} (op : K -> A * K) s (Q : A -> lib (linux K) -> Prop) :
  (forall a k, op (lx_kernel (world s)) = (a, k) -> Q a (set_world (set_lx_kernel k (world s)) s)) ->
  wp (kernel_op op) s Q.
Proof. intros HQ. apply wp_backend_op. intros a w. destruct (op _) as [a' k] eqn:Hop. intros [= <- <-]. by apply HQ. Qed.

(** Discarding concerns the kernel only; [P] is what is known of it. *)
Lemma discard_loop_wp (P : K -> Prop) x tp fd first n last ret s (Q : Z -> lib (linux K) -> Prop) :
  (forall p k, P k -> P (snd (ioctl_discardurb kern fd p k))) ->
  (forall i, (first <= i < first + n)%nat -> exists p, nth_urb x tp i = Ok p) ->
  P (lx_kernel (world s)) -> (forall r k, P k -> Q r (set_world (set_lx_kernel k (world s)) s)) ->
  wp (discard_loop kern x tp fd first n last ret) s Q.
Proof.
  intros Hdis Hp. revert ret s. induction n as [|n IH]; intros ret s Hs HQ; simpl.
  { apply wp_ret. specialize (HQ ret (lx_kernel (world s)) Hs). by destruct s as [? ? ? ? ? ? ? ? ? ? ? ? ? ? ? ? ? ? ? ? ? ? []]. }
  destruct (Hp (first + n)%nat ltac:(lia)) as [p Hnth]. apply wp_bind. eapply wp_lift; [exact Hnth|].
  apply wp_bind, wp_kernel_op. intros e k Hop. apply IH; [intros i Hi; apply Hp; lia| |].
  - simpl. specialize (Hdis p _ Hs). by rewrite Hop in Hdis.
  - intros r k' Hk'. exact (HQ r k' Hk').
Qed.

Lemma wp_transfer_hpriv x h y s (Q : linux_device_handle_priv -> lib (linux K) -> Prop) :
  t_dev_handle x = Some h -> handles s !! h = Some y ->
  Q (default zero_hpriv (lx_hpriv (world s) !! h)) s -> wp (transfer_hpriv x) s Q.
Proof.
  intros Hx Hh HQ. unfold transfer_hpriv, get_hpriv. rewrite Hx. apply wp_bind. eapply wp_get_handle; [done|].
  by apply wp_gets.
Qed.

Lemma discard_urbs_wp (P : K -> Prop) t x h y first last s (Q : Z -> lib (linux K) -> Prop) :
  transfers s !! t = Some x -> t_dev_handle x = Some h -> handles s !! h = Some y ->
  (forall p k, P k -> P (snd (ioctl_discardurb kern (hp_fd (default zero_hpriv (lx_hpriv (world s) !! h))) p k))) ->
  (forall i, (first <= i < last)%nat -> exists p, nth_urb x (tpriv_of s t) i = Ok p) ->
  P (lx_kernel (world s)) -> (forall r k, P k -> Q r (set_world (set_lx_kernel k (world s)) s)) ->
  wp (discard_urbs kern t first last) s Q.
Proof.
  intros Ht Hx Hh Hdis Hp Hs HQ. unfold discard_urbs. apply wp_bind. eapply wp_get_transfer; [done|].
  apply wp_bind. eapply wp_get_tpriv; [done|]. apply wp_bind. eapply wp_transfer_hpriv; [done|done|].
  apply (discard_loop_wp P); [done|intros i Hi; apply Hp; lia|done|done].
Qed.

(** The URBs [bs] and the array [a] are released. *)
Definition iso_blocks (bs : list nat) : gmultiset nat := msum (fun b => {[+ b +]}) bs.

Lemma list_insert_mid {A} (l1 l2 : list A) i v w : length l1 = i -> <[i := v]> (l1 ++ w :: l2) = l1 ++ v :: l2.
Proof. intros <-. rewrite <- (Nat.add_0_r (length l1)). by rewrite insert_app_r. Qed.

Lemma iso_blocks_elem b bs : b ∈ bs -> b ∈ iso_blocks bs.
Proof. induction 1 as [|c bs]; simpl; multiset_solver. Qed.
Lemma iso_blocks_app bs b : iso_blocks (bs ++ [b]) = {[+ b +]} ⊎ iso_blocks bs.
Proof. unfold iso_blocks. rewrite msum_app. simpl. multiset_solver. Qed.

Lemma free_iso_loop_wp bs n m F s (Q : unit -> lib (linux K) -> Prop) :
  (length bs + n = m)%nat -> live (mem s) = iso_blocks bs ⊎ F ->
  (forall h, live h = F -> same_oracles (mem s) h -> Q tt (set_mem h s)) ->
  wp (free_iso_loop (map Some bs ++ replicate n None) m) s Q.
Proof.
  revert m s. induction bs as [|b bs IH]; intros m s Hm HF HQ; simpl in *.
  - assert (Q tt (set_mem (mem s) s)) as HQ'.
    { apply HQ; [|done]. rewrite HF. apply gmultiset_disj_union_left_id. }
    assert (set_mem (mem s) s = s) as Hid by (by destruct s). rewrite Hid in HQ'.
    subst m. destruct n; simpl; by apply wp_ret.
  - destruct m as [|m]; [lia|]. simpl. apply wp_bind, wp_on_mem. eapply free_wp.
    { rewrite HF. simpl. rewrite <- (assoc_L (⊎)). reflexivity. }
    intros h' Hl Ho. apply IH; [lia|done|]. intros h2 Hl2 Ho2. simpl in Ho2.
    assert (same_oracles (mem s) h2) as Ho3 by (by etrans). specialize (HQ h2 Hl2 Ho3). by destruct s.
Qed.

Lemma free_iso_urbs_wp t x a bs n F s :
  transfers s !! t = Some x -> tp_urbs (tpriv_of s t) = IsoUrbs a (map Some bs ++ replicate n None) ->
  (length bs + n = Z.to_nat (tp_num_urbs (tpriv_of s t)))%nat -> live (mem s) = iso_blocks bs ⊎ ({[+ a +]} ⊎ F) ->
  wp (free_iso_urbs t) s (fun _ s' => only_backend s s' /\ live (mem s') = F /\
    tpriv_of s' t = set_tp_urbs NoUrbs (tpriv_of s t) /\ lx_kernel (world s') = lx_kernel (world s)).
Proof.
  intros Ht Hub Hn HF. unfold free_iso_urbs. apply wp_bind. eapply wp_get_tpriv; [done|]. rewrite Hub.
  apply wp_bind. eapply free_iso_loop_wp; [done|exact HF|]. intros h Hl Ho.
  apply wp_bind, wp_on_mem. eapply free_wp; [exact Hl|]. intros h2 Hl2 Ho2.
  apply wp_put_tpriv. intros s' [Hb Hm Htp _ Hk _]. split; [|by rewrite Hm].
  etrans; [|exact Hb]. apply (only_backend_mem h2 s). by etrans.
Qed.

(** ** Isochronous submission *)

Section iso.
Context (t h : nat) (x : transfer) (y : device_handle) (dpriv : linux_device_handle_priv).
Context (Hx : t_dev_handle x = Some h).

(** The private data while the URBs are made: [bs] are there, [n] to come. *)
Definition iso_tpriv (a : nat) (bs : list nat) (n : nat) tp : Prop :=
  tp_urbs tp = IsoUrbs a (map Some bs ++ replicate n None) /\ tp_num_urbs tp = Z.of_nat (length bs + n).

(** URB [j] lies in block [bs !! j]. *)
Definition urbs_at (bs : list nat) (us : list usbfs_urb) (m : gmap nat (list usbfs_urb)) : Prop :=
  Forall2 (fun b u => m !! b = Some [u]) bs us.

(** The URBs that [fill_iso_urbs] makes of the packets. *)
Fixpoint iso_urbs (n : nat) (packets : list iso_packet) (off : Z) : list usbfs_urb :=
  match n with
  | O => []
  | S n =>
      let '(taken, rest, size) := swallow packets MAX_ISO_BUFFER_LENGTH in
      iso_urb t x taken off :: iso_urbs n rest (off + size)
  end.

Lemma urbs_at_insert bs us m b v : b ∉ bs -> urbs_at bs us m -> urbs_at bs us (<[b := v]> m).
Proof.
  intros Hb Hm. apply Forall2_same_length_lookup in Hm as [Hlen Hall]. apply Forall2_same_length_lookup. split; [done|].
  intros i b' u Hi Hu. rewrite lookup_insert_ne; [by eapply Hall|]. intros ->. apply Hb. by eapply list_elem_of_lookup_2.
Qed.

Lemma wp_put_urb b u u0 s (Q : unit -> lib (linux K) -> Prop) :
  b ∈ live (mem s) -> urb_memory s !! b = Some [u0] ->
  (forall s', only_backend s s' -> mem s' = mem s -> tpriv_of s' t = tpriv_of s t ->
     urb_memory s' = <[b := [u]]> (urb_memory s) -> lx_kernel (world s') = lx_kernel (world s) -> Q tt s') ->
  wp (put_urb (b, O) u) s Q.
Proof.
  intros Hb Hu HQ. unfold put_urb. apply wp_bind. unfold urb_memory in Hu. apply (wp_get_urb b u0); [done|done|].
  apply wp_modify. simpl. apply HQ; try done.
  - by apply only_backend_world.
  - unfold urb_memory. simpl. apply map_eq. intros j. destruct (decide (j = b)) as [->|Hne].
    + by rewrite lookup_alter_eq, Hu, lookup_insert_eq.
    + by rewrite lookup_alter_ne, lookup_insert_ne.
Qed.

Lemma calloc_urb_wp s F (Q : option nat -> lib (linux K) -> Prop) :
  live (mem s) = F -> heap_fresh (mem s) ->
  (forall s', only_backend s s' -> live (mem s') = F -> tpriv_of s' t = tpriv_of s t -> urb_memory s' = urb_memory s ->
     lx_kernel (world s') = lx_kernel (world s) -> Q None s') ->
  (forall b s', only_backend s s' -> live (mem s') = {[+ b +]} ⊎ F -> b ∉ F -> tpriv_of s' t = tpriv_of s t ->
     urb_memory s' = <[b := [zero_urb]]> (urb_memory s) -> lx_kernel (world s') = lx_kernel (world s) -> Q (Some b) s') ->
  wp (calloc_urbs 1) s Q.
Proof.
  intros HF Hfresh Hnone Hsome. unfold calloc_urbs. simpl. apply wp_bind, wp_on_mem.
  eapply malloc_fresh_wp; [exact HF|done| |].
  - intros b h' Hl Ho Hb. apply wp_bind, wp_modify, wp_ret. apply Hsome; try done. by exists h', (set_lx_urbs (<[b := [zero_urb]]> (lx_urbs (world s))) (world s)).
  - intros h' Hl Ho _. apply wp_bind, wp_ret, wp_ret. apply Hnone; try done. by apply only_backend_mem.
Qed.

Lemma fill_iso_urbs_wp n i packets off a bs us F s :
  transfers s !! t = Some x -> iso_tpriv a bs n (tpriv_of s t) -> length bs = i -> NoDup bs ->
  live (mem s) = iso_blocks bs ⊎ ({[+ a +]} ⊎ F) -> heap_fresh (mem s) -> urbs_at bs us (urb_memory s) ->
  wp (fill_iso_urbs t x i n packets off) s (fun r s' => only_backend s s' /\
    lx_kernel (world s') = lx_kernel (world s) /\
    if r =? 0
    then exists bs' us', length bs' = n /\ us' = iso_urbs n packets off /\ (forall b, b ∈ bs' -> b ∉ F) /\ NoDup (bs ++ bs') /\
      live (mem s') = iso_blocks (bs ++ bs') ⊎ ({[+ a +]} ⊎ F) /\ urbs_at (bs ++ bs') (us ++ us') (urb_memory s') /\
      tpriv_of s' t = set_tp_urbs (IsoUrbs a (map Some (bs ++ bs'))) (tpriv_of s t)
    else r < 0 /\ live (mem s') = F /\ tpriv_of s' t = set_tp_urbs NoUrbs (tpriv_of s t)).
Proof.
  revert i packets off bs us s. induction n as [|n IH]; intros i packets off bs us s Ht [Hub Hnum] Hi Hnd HF Hfresh Hus; simpl.
  { apply wp_ret. split; [done|]. split; [done|]. exists [], []. rewrite !app_nil_r. split_and!; try done.
    { intros b Hb. by apply elem_of_nil in Hb. }
    simpl in Hub. rewrite app_nil_r in Hub. destruct (tpriv_of s t). simpl in *. by rewrite Hub. }
  destruct (swallow packets MAX_ISO_BUFFER_LENGTH) as [[taken rest] size]. apply wp_bind.
  eapply calloc_urb_wp; [exact HF|done| |].
  - intros s1 Hb1 Hl1 Htp1 _ Hk1. apply wp_bind. eapply wp_mono.
    { eapply (free_iso_urbs_wp t x a bs (S n) F s1); [by rewrite (only_backend_transfers _ _ Hb1)|by rewrite Htp1| |done].
      rewrite Htp1, Hnum. lia. }
    intros [] s2 (Hb2 & Hl2 & Htp2 & Hk2). apply wp_ret. split; [by etrans|]. split; [by rewrite Hk2|]. simpl.
    split; [done|]. split; [done|]. by rewrite Htp2, Htp1.
  - intros b s1 Hb1 Hl1 Hb Htp1 Hm1 Hk1. assert (transfers s1 !! t = Some x) as Ht1 by (by rewrite (only_backend_transfers _ _ Hb1)).
    apply wp_bind. eapply wp_get_tpriv; [exact Ht1|]. rewrite Htp1, Hub. apply wp_bind, wp_put_tpriv.
    intros s2 [Hb2 Hl2 Htp2 Hm2 Hk2 _]. apply wp_bind.
    assert (live (mem s2) = {[+ b +]} ⊎ (iso_blocks bs ⊎ ({[+ a +]} ⊎ F))) as Hl2' by (by rewrite Hl2, Hl1).
    assert (b ∉ bs) as Hbs. { intros Hin. apply Hb. apply gmultiset_elem_of_disj_union. left. by apply iso_blocks_elem. }
    apply (wp_put_urb b _ zero_urb); [rewrite Hl2'; multiset_solver|rewrite Hm2, Hm1; apply lookup_insert_eq|].
    intros s3 Hb3 Hl3 Htp3 Hm3 Hk3.
    assert (only_backend s s3) as Hs3 by (etrans; [exact Hb1|]; by etrans).
    eapply wp_mono.
    { eapply (IH (S i) rest (off + size) (bs ++ [b]) (us ++ [iso_urb t x taken off]) s3).
      - by rewrite (only_backend_transfers _ _ Hs3).
      - rewrite Htp3, Htp2. split.
        + simpl. rewrite map_app. simpl. rewrite <- app_assoc. simpl. do 2 f_equal.
          by rewrite list_insert_mid by (by rewrite length_map).
        + simpl. rewrite Hnum, length_app. simpl. lia.
      - rewrite length_app. simpl. lia.
      - apply NoDup_app. split; [done|]. split; [intros b' Hb' ->%list_elem_of_singleton; done|apply NoDup_singleton].
      - rewrite Hl3, Hl2', iso_blocks_app. simpl. multiset_solver.
      - destruct Hs3 as (m & w & -> & Ho & _). by apply Ho.
      - rewrite Hm3, Hm2, Hm1. apply Forall2_app; [|by constructor; [apply lookup_insert_eq|]].
        apply urbs_at_insert; [done|]. by apply urbs_at_insert. }
    intros r s4 (Hb4 & Hk4 & Hpost). split; [by etrans|]. split; [by rewrite Hk4, Hk3, Hk2|].
    destruct (r =? 0).
    + destruct Hpost as (bs' & us' & Hlen & Hus' & Hnew & Hnd4 & Hl4 & Hm4 & Htp4).
      exists (b :: bs'), (iso_urb t x taken off :: us'). simpl. rewrite Hlen. subst us'.
      rewrite <- !app_assoc in *. split_and!; try done; [|by rewrite Htp4, Htp3, Htp2].
      intros b' [->|Hb']%elem_of_cons; [|by apply Hnew]. clear -Hb. multiset_solver.
    + by rewrite Htp3, Htp2 in Hpost.
Qed.

(** What is known of a kernel that took the first [m] URBs of [bs]. *)
Variable taken : list nat -> nat -> K -> Prop.
Abbreviation fd := (hp_fd dpriv).
Context (Hiso : t_type x = LIBUSB_TRANSFER_TYPE_ISOCHRONOUS).
Context (Hdiscard : forall bs m p k, taken bs m k -> taken bs m (snd (ioctl_discardurb kern fd p k))).

Definition submits (bs : list nat) (us : list usbfs_urb) : Prop :=
  forall m b u k, bs !! m = Some b -> us !! m = Some u -> taken bs m k ->
    let '(e, k') := ioctl_submiturb kern fd (b, O) u k in taken bs (if e =? 0 then S m else m) k'.

(** The private data after [m] of the URBs [bs] were taken. *)
Definition iso_done (a : nat) (bs : list nat) (m : nat) tp : Prop :=
  tp_urbs tp = IsoUrbs a (map Some bs) /\ tp_num_urbs tp = Z.of_nat (length bs) /\
  (m <= length bs)%nat /\ (tp_reap_action tp = NORMAL <-> m = length bs) /\
  (tp_reap_action tp = NORMAL \/ tp_reap_action tp = SUBMIT_FAILED) /\
  tp_num_retired tp = Z.of_nat (length bs) - Z.of_nat m.

Lemma submit_iso_loop_wp n i a bs us F s :
  transfers s !! t = Some x -> handles s !! h = Some y -> default zero_hpriv (lx_hpriv (world s) !! h) = dpriv ->
  submits bs us -> iso_done a bs (length bs) (tpriv_of s t) -> length bs = (i + n)%nat ->
  live (mem s) = iso_blocks bs ⊎ ({[+ a +]} ⊎ F) -> urbs_at bs us (urb_memory s) -> taken bs i (lx_kernel (world s)) ->
  wp (submit_iso_loop kern t x dpriv i n) s (fun r s' => only_backend s s' /\
    if r =? 0
    then exists m, taken bs m (lx_kernel (world s')) /\ iso_done a bs m (tpriv_of s' t) /\ (0 < m \/ i + n = 0)%nat /\
      live (mem s') = live (mem s) /\ urbs_at bs us (urb_memory s')
    else i = 0%nat /\ live (mem s') = F /\ taken bs 0%nat (lx_kernel (world s')) /\ tp_urbs (tpriv_of s' t) = NoUrbs).
Proof.
  revert i s. induction n as [|n IH]; intros i s Ht Hh Hdp Hsub Hdone Hlen HF Hus Hk; simpl.
  { apply wp_ret. split; [done|]. exists i. assert (length bs = i) as Hi by lia. rewrite Hi in Hdone.
    split; [done|]. split; [done|]. split; [lia|done]. }
  pose proof Hdone as (Hub & Hnum & Hm & Hact & Hact2 & Hret).
  apply wp_bind. eapply wp_get_tpriv; [done|].
  assert (is_Some (bs !! i)) as [b Hb] by (apply lookup_lt_is_Some; lia).
  pose proof (Forall2_length _ _ _ Hus) as Hlus.
  assert (is_Some (us !! i)) as [u Hu] by (apply lookup_lt_is_Some; lia).
  assert (urb_memory s !! b = Some [u]) as Hbu by (by eapply (Forall2_lookup_lr (fun b u => urb_memory s !! b = Some [u]))).
  assert (b ∈ live (mem s)) as Hblive.
  { rewrite HF. apply gmultiset_elem_of_disj_union. left. apply iso_blocks_elem. by eapply list_elem_of_lookup_2. }
  apply wp_bind. eapply (wp_lift _ _ _ (b, O)).
  { unfold nth_urb. simpl. rewrite Hub. change (map Some bs) with (Some <$> bs). by rewrite list_lookup_fmap, Hb. }
  apply wp_bind, (wp_get_urb b u); [done|done|].
  apply wp_bind, wp_kernel_op. intros e k Hop. specialize (Hsub i b u _ Hb Hu Hk) as Hk2. rewrite Hop in Hk2.
  set (s1 := set_world _ s). assert (only_backend s s1) as Hb1 by by apply only_backend_world.
  destruct (Z.eqb_spec e 0) as [->|Hne].
  { eapply wp_mono; [apply (IH (S i) s1 Ht Hh Hdp Hsub Hdone); [lia|exact HF|exact Hus|exact Hk2]|].
    intros r s' (Hb' & Hpost). split; [by etrans|]. destruct (r =? 0); [|by destruct Hpost].
    destruct Hpost as (m & ? & ? & ? & ?). exists m. split; [done|]. split; [done|]. split; [lia|done]. }
  set (r := if e =? ENODEV then _ else _).
  assert (r <> 0) as Hr by (subst r; destruct (e =? ENODEV); [done|]; by destruct (e =? EINVAL)).
  destruct (Nat.eqb_spec i 0) as [->|Hi].
  - apply wp_bind. eapply wp_mono.
    { apply (free_iso_urbs_wp t x a bs 0 F s1); [done| | |done].
      - change (tpriv_of s1 t) with (tpriv_of s t). simpl. by rewrite app_nil_r.
      - change (tpriv_of s1 t) with (tpriv_of s t). rewrite Hnum. lia. }
    intros [] s2 (Hb2 & Hl2 & Htp2 & Hk2'). apply wp_ret. rewrite (proj2 (Z.eqb_neq _ _)) by done.
    split; [by etrans|]. split; [done|]. split; [done|]. split; [by rewrite Hk2'|]. by rewrite Htp2.
  - apply wp_bind, wp_put_tpriv. intros s2 [Hb2 Hl2 Htp2 Hm2 Hkk2 Hhp2].
    assert (only_backend s s2) as Hs2 by (by etrans).
    apply wp_bind. apply (discard_urbs_wp (taken bs i) t x h y).
    + by rewrite (only_backend_transfers _ _ Hs2).
    + done.
    + by rewrite (only_backend_handles _ _ Hs2).
    + rewrite Hhp2. simpl. rewrite Hdp. apply Hdiscard.
    + intros j Hj. rewrite Htp2. unfold nth_urb. rewrite Hiso. simpl. rewrite Hub.
      change (map Some bs) with (Some <$> bs). rewrite list_lookup_fmap.
      assert (is_Some (bs !! j)) as [b' ->] by (apply lookup_lt_is_Some; lia). by eexists.
    + by rewrite Hkk2.
    + intros r' k' Hk'. apply wp_ret. simpl. split.
      { etrans; [exact Hs2|]. by apply only_backend_world. }
      exists i. split; [done|]. split; [|split; [lia|split; [by rewrite Hl2|by unfold urb_memory in *; simpl; rewrite Hm2]]].
      change (tpriv_of (set_world _ s2) t) with (tpriv_of s2 t). rewrite Htp2. unfold iso_done. simpl.
      split_and!; [done|done|lia|split; [done|lia]|by right|lia].
Qed.

Lemma count_iso_le packets num cur n : count_iso_urbs packets num cur = Some n -> num <= n.
Proof.
  clear. revert num cur. induction packets as [|p packets IH]; intros num cur; simpl; [intros [= ->]; lia|].
  destruct (_ <? _); [destruct (_ <? _); [done|]|]; intros Hc; apply IH in Hc; lia.
Qed.

(** The packets the transfer announces. *)
Definition announced_packets : list iso_packet := take (Z.to_nat (t_num_iso_packets x)) (t_iso_packets x).

Lemma announced_packets_ok :
  packets_fit x ->
  (if 0 <? t_num_iso_packets x then rd_n (t_iso_packets x) (Z.to_nat (t_num_iso_packets x)) else Ok []) = Ok announced_packets.
Proof.
  clear. unfold packets_fit, announced_packets, rd_n. intros Hfit. destruct (Z.ltb_spec 0 (t_num_iso_packets x)).
  - rewrite decide_True by lia. done.
  - by replace (Z.to_nat (t_num_iso_packets x)) with O by lia.
Qed.

Lemma submit_iso_transfer_wp s :
  transfers s !! t = Some x -> handles s !! h = Some y -> default zero_hpriv (lx_hpriv (world s) !! h) = dpriv ->
  packets_fit x -> heap_fresh (mem s) ->
  (forall bs, (forall b, b ∈ bs -> b ∉ live (mem s)) -> taken bs 0 (lx_kernel (world s))) ->
  (forall n bs, (forall b, b ∈ bs -> b ∉ live (mem s)) -> NoDup bs -> length bs = n -> submits bs (iso_urbs n announced_packets 0)) ->
  wp (submit_iso_transfer kern t) s (fun r s' => only_backend s s' /\
    if r =? 0
    then exists n a bs m, count_iso_urbs announced_packets 1 0 = Some (Z.of_nat n) /\ length bs = n /\ NoDup bs /\
      live (mem s') = iso_blocks bs ⊎ ({[+ a +]} ⊎ live (mem s)) /\ taken bs m (lx_kernel (world s')) /\ (0 < m)%nat /\
      iso_done a bs m (tpriv_of s' t) /\ urbs_at bs (iso_urbs n announced_packets 0) (urb_memory s')
    else live (mem s') = live (mem s) /\ exists bs, taken bs 0%nat (lx_kernel (world s'))).
Proof.
  intros Ht Hh Hdp Hfit Hfresh Hk0 Hsub.
  assert (taken [] 0%nat (lx_kernel (world s))) as Hnil by (apply Hk0; intros b Hb; by apply elem_of_nil in Hb).
  unfold submit_iso_transfer. apply wp_bind. eapply wp_get_transfer; [done|].
  apply wp_bind. eapply wp_transfer_hpriv; [done|done|]. rewrite Hdp. apply wp_bind. rewrite announced_packets_ok by done.
  eapply wp_lift; [done|]. destruct (count_iso_urbs announced_packets 1 0) as [num|] eqn:Hcount; [|by apply wp_ret; split; [|split; [|exists []]]].
  assert (1 <= num) as Hnum by (by eapply count_iso_le).
  apply wp_bind, wp_on_mem. eapply malloc_fresh_wp; [done|done| |].
  2:{ intros h1 Hl1 Ho1 _. apply wp_ret. split; [by apply only_backend_mem|]. by split; [|exists []]. }
  intros a h1 Hl1 Ho1 Ha. set (s1 := set_mem h1 s). assert (only_backend s s1) as Hb1 by (by apply only_backend_mem).
  apply wp_bind. eapply wp_get_tpriv; [done|]. apply wp_bind, wp_put_tpriv. intros s2 [Hb2 Hl2 Htp2 Hm2 Hk2 Hhp2].
  assert (only_backend s s2) as Hs2 by (by etrans). set (n := Z.to_nat num) in *.
  apply wp_bind. eapply wp_mono.
  { eapply (fill_iso_urbs_wp n 0 announced_packets 0 a [] [] (live (mem s)) s2).
    - by rewrite (only_backend_transfers _ _ Hs2).
    - rewrite Htp2. split; [done|]. simpl. lia.
    - done.
    - constructor.
    - rewrite Hl2. simpl. rewrite Hl1. multiset_solver.
    - rewrite Hl2. by apply Ho1.
    - constructor. }
  intros r s3 (Hb3 & Hk3 & Hpost). assert (only_backend s s3) as Hs3 by (by etrans).
  destruct (Z.eqb_spec r 0) as [->|Hr].
  2:{ destruct Hpost as (Hneg & Hl3 & _). rewrite (proj2 (Z.ltb_lt _ _)) by done. apply wp_ret.
      rewrite (proj2 (Z.eqb_neq _ _)) by done. split; [done|]. split; [done|]. exists []. by rewrite Hk3, Hk2. }
  destruct Hpost as (bs & us & Hlen & -> & Hnew & Hnd & Hl3 & Hus & Htp3). simpl in Hl3, Hus, Htp3. simpl.
  assert (iso_done a bs (length bs) (tpriv_of s3 t)) as Hdone.
  { rewrite Htp3, Htp2. unfold iso_done. simpl. split_and!; try done; [lia|by left|lia]. }
  eapply wp_mono.
  { eapply (submit_iso_loop_wp n 0 a bs (iso_urbs n announced_packets 0) (live (mem s)) s3); try done.
    - by rewrite (only_backend_transfers _ _ Hs3).
    - by rewrite (only_backend_handles _ _ Hs3).
    - by rewrite (only_backend_hpriv _ _ Hs3).
    - by apply Hsub.
    - rewrite Hk3, Hk2. by apply Hk0. }
  intros r s4 (Hb4 & Hpost). split; [by etrans|]. destruct (r =? 0); [|by destruct Hpost as (_ & ? & ? & _); split; [|exists bs]].
  destruct Hpost as (m & Hm & Hdone4 & Hpos & Hl4 & Hus4). exists n, a, bs, m.
  split; [subst n; by rewrite Z2Nat.id by lia|]. split; [done|]. split; [done|]. split; [by rewrite Hl4|]. split; [done|].
  split; [lia|]. done.
Qed.
End iso.

(** ** Control transfers *)

Lemma submit_control_transfer_wp t x h y s :
  transfers s !! t = Some x -> t_dev_handle x = Some h -> handles s !! h = Some y -> heap_fresh (mem s) ->
  let fd := hp_fd (default zero_hpriv (lx_hpriv (world s) !! h)) in
  wp (submit_control_transfer kern t) s (fun r s' => only_backend s s' /\
    if r =? 0
    then exists b, live (mem s') = {[+ b +]} ⊎ live (mem s) /\ tp_urbs (tpriv_of s' t) = Urbs b /\
      tp_num_urbs (tpriv_of s' t) = 1 /\
      ioctl_submiturb kern fd (b, O) (mk_urb USBFS_URB_TYPE_CONTROL (t_endpoint x) 0 0 0 (t_length x) 0 0 t [])
        (lx_kernel (world s)) = (0, lx_kernel (world s'))
    else live (mem s') = live (mem s)).
Proof.
  intros Ht Hx Hh Hfresh fd. unfold submit_control_transfer. apply wp_bind. eapply wp_get_transfer; [done|].
  apply wp_bind. eapply wp_transfer_hpriv; [done|done|].
  destruct (_ <? _); [by apply wp_ret|]. apply wp_bind. eapply (calloc_urb_wp t); [done|done| |].
  - intros s1 Hb1 Hl1 _ _ _. apply wp_ret. split; [done|]. done.
  - intros b s1 Hb1 Hl1 Hb Htp1 Hm1 Hk1.
    assert (transfers s1 !! t = Some x) as Ht1 by (by rewrite (only_backend_transfers _ _ Hb1)).
    apply wp_bind. eapply wp_get_tpriv; [exact Ht1|]. apply wp_bind, wp_put_tpriv. intros s2 [Hb2 Hl2 Htp2 Hm2 Hk2 _].
    apply wp_bind, (wp_put_urb t b _ zero_urb).
    { rewrite Hl2, Hl1. multiset_solver. }
    { rewrite Hm2, Hm1. apply lookup_insert_eq. }
    intros s3 Hb3 Hl3 Htp3 Hm3 Hk3. assert (only_backend s s3) as Hs3 by (etrans; [exact Hb1|]; by etrans).
    apply wp_bind, wp_kernel_op. intros e k Hop. fold fd in Hop. rewrite Hk3, Hk2, Hk1 in Hop.
    set (s4 := set_world _ s3). assert (only_backend s s4) as Hs4 by (etrans; [exact Hs3|by apply only_backend_world]).
    destruct (Z.eqb_spec e 0) as [->|Hne].
    + apply wp_ret. split; [done|]. exists b. change (tpriv_of s4 t) with (tpriv_of s3 t). rewrite Htp3, Htp2.
      split; [simpl; by rewrite Hl3, Hl2, Hl1|]. done.
    + apply wp_bind, wp_on_mem. apply (free_wp _ _ (live (mem s))); [simpl; by rewrite Hl3, Hl2, Hl1|].
      intros h5 Hl5 Ho5. set (s5 := set_mem h5 s4). assert (only_backend s4 s5) as Hb5 by (by apply only_backend_mem).
      assert (only_backend s s5) as Hs5 by (by etrans).
      apply wp_bind. eapply wp_get_tpriv; [by rewrite (only_backend_transfers _ _ Hs5)|].
      apply wp_bind, wp_put_tpriv. intros s6 [Hb6 Hl6 _ _ _ _]. apply wp_ret. split; [by etrans|].
      by destruct (e =? ENODEV); simpl; rewrite Hl6.
Qed.
End backend.

(** ** The results of packets *)

(** The packet with the result of the frame. *)
Definition frame_result (f : usbfs_iso_packet_desc) (d : iso_packet) : iso_packet :=
  mk_iso (iso_length d) (fr_actual_length f) (iso_frame_status (i32 (fr_status f))).

(** The results of the frames in the packets from [o] on. *)
Definition with_results (o : nat) (frames : list usbfs_iso_packet_desc) (ps : list iso_packet) : list iso_packet :=
  take o ps ++ zip_with frame_result frames (drop o ps) ++ drop (o + length frames) ps.

Lemma with_results_cons o f frames d ps :
  ps !! o = Some d -> with_results (S o) frames (<[o := frame_result f d]> ps) = with_results o (f :: frames) ps.
Proof.
  intros Hd. pose proof (lookup_lt_Some _ _ _ Hd) as Ho. unfold with_results.
  rewrite (drop_S ps d o Hd). simpl. rewrite (take_S_r _ _ (frame_result f d)) by (by apply list_lookup_insert_eq).
  rewrite take_insert_ge by lia. rewrite !drop_insert_lt by lia.
  replace (o + S (length frames))%nat with (S (o + length frames)) by lia. by rewrite <- app_assoc.
Qed.

Lemma with_results_app o f1 f2 ps :
  (o + length f1 <= length ps)%nat -> with_results (o + length f1) f2 (with_results o f1 ps) = with_results o (f1 ++ f2) ps.
Proof.
  revert o ps. induction f1 as [|f f1 IH]; intros o ps Hle; simpl in *.
  { unfold with_results at 2. simpl. by rewrite !Nat.add_0_r, take_drop. }
  assert (is_Some (ps !! o)) as [d Hd] by (apply lookup_lt_is_Some; lia).
  rewrite <- !(with_results_cons o f _ d ps Hd). replace (o + S (length f1))%nat with (S o + length f1)%nat by lia.
  apply IH. rewrite length_insert. lia.
Qed.
Lemma with_results_length o f ps : (o + length f <= length ps)%nat -> length (with_results o f ps) = length ps.
Proof.
  intros Hle. unfold with_results. rewrite !length_app, length_take, length_zip_with, !length_drop. lia.
Qed.

Lemma copy_iso_results_wp {K} t x frames o (s : lib (linux K)) :
  transfers s !! t = Some x -> tp_iso_packet_offset (tpriv_of s t) = Z.of_nat o ->
  (o + length frames <= length (t_iso_packets x))%nat ->
  wp (copy_iso_results t frames (length frames)) s (fun _ s' =>
    transfers s' = <[t := set_t_iso_packets (with_results o frames (t_iso_packets x)) x]> (transfers s) /\
    tpriv_of s' t = set_tp_iso_packet_offset (Z.of_nat (o + length frames)) (tpriv_of s t) /\
    mem s' = mem s /\ urb_memory s' = urb_memory s /\ lx_kernel (world s') = lx_kernel (world s)).
Proof.
  revert o s x. induction frames as [|f frames IH]; intros o s x Ht Ho Hle; cbn [copy_iso_results length] in *.
  { apply wp_ret. unfold with_results. simpl. rewrite Nat.add_0_r, take_drop. split.
    { rewrite insert_id; [done|]. rewrite Ht. by destruct x. }
    split; [|done]. destruct (tpriv_of s t). simpl in *. by subst. }
  apply wp_bind. eapply wp_get_tpriv; [done|]. apply wp_bind, wp_put_tpriv. intros s1 [Hb1 Hm1 Htp1 Hu1 Hk1 _].
  assert (transfers s1 !! t = Some x) as Ht1 by (by rewrite (only_backend_transfers _ _ Hb1)).
  apply wp_bind. eapply wp_get_transfer; [exact Ht1|]. rewrite Ho, Nat2Z.id.
  assert (is_Some (t_iso_packets x !! o)) as [d Hd] by (apply lookup_lt_is_Some; lia). rewrite Hd.
  apply wp_bind, wp_put_transfer. fold (frame_result f d). set (s2 := set_transfers _ s1).
  eapply wp_mono.
  { apply (IH (S o) s2); [apply lookup_insert_eq| |simpl; rewrite length_insert; lia].
    change (tpriv_of s2 t) with (tpriv_of s1 t). rewrite Htp1. simpl. lia. }
  intros _ s3 (Htr3 & Htp3 & Hm3 & Hu3 & Hk3). change (tpriv_of s2 t) with (tpriv_of s1 t) in Htp3.
  split; [|split; [|split; [by rewrite Hm3|split; [by rewrite Hu3|by rewrite Hk3]]]].
  - rewrite Htr3. simpl. rewrite (only_backend_transfers _ _ Hb1), insert_insert_eq, with_results_cons by done. done.
  - rewrite Htp3, Htp1. unfold set_tp_iso_packet_offset. simpl. f_equal. lia.
Qed.

(** ** Reaping an isochronous transfer *)

Section iso_reaping.
Context {K : Type} (kern : usbfs K) (be : os_backend (linux K)).
Variable user_cb : nat -> nat -> Lib (linux K) unit.
Context (t a : nat) (bs : list nat) (Hnodup : NoDup bs).
Implicit Types (s : lib (linux K)).

(** The kernel handed back the URB of block [b] within its bounds. *)
Definition iso_reap_ok s (b : nat) (r : reaped) : Prop := exists u x,
  urb_memory s !! b = Some [u] /\ b ∈ live (mem s) /\ transfers s !! t = Some x /\ ub_usercontext u = t /\
  rp_urb r = (b, O) /\ ub_number_of_packets u = Z.of_nat (length (rp_frames r)) /\
  (Z.to_nat (ub_buffer u) + length (rp_data r) <= length (t_data x))%nat.

(** [i] URBs came back, with [o] packets. *)
Record iso_collecting (i o : nat) x s : Prop := mk_collecting {
  ic_transfer : transfers s !! t = Some x;
  ic_type : t_type x = LIBUSB_TRANSFER_TYPE_ISOCHRONOUS;
  ic_urbs : tp_urbs (tpriv_of s t) = IsoUrbs a (map Some bs);
  ic_num : tp_num_urbs (tpriv_of s t) = Z.of_nat (length bs);
  ic_action : tp_reap_action (tpriv_of s t) = NORMAL;
  ic_offset : tp_iso_packet_offset (tpriv_of s t) = Z.of_nat o
}.

Lemma find_iso_urb_ok pre b post n : (length pre < n)%nat -> b ∉ pre ->
  forall k, find_iso_urb b (map Some (pre ++ b :: post)) n k = Ok (Some (S (k + length pre))).
Proof.
  clear. revert n. induction pre as [|c pre IH]; intros [|n] Hn Hb k; simpl in *; [lia| |lia|].
  - rewrite decide_True by done. by rewrite Nat.add_0_r.
  - rewrite decide_False by (intros [= ->]; set_solver). rewrite IH by (lia || set_solver). do 3 f_equal. lia.
Qed.

Lemma find_iso_lookup i b : bs !! i = Some b -> find_iso_urb b (map Some bs) (length bs) 0 = Ok (Some (S i)).
Proof.
  intros Hi. pose proof (lookup_lt_Some _ _ _ Hi) as Hil. rewrite <- (take_drop_middle bs i b Hi) at 1.
  rewrite find_iso_urb_ok.
  - rewrite length_take. do 3 f_equal. lia.
  - rewrite length_take. lia.
  - intros (j & Hj & Hlt)%elem_of_take. pose proof (NoDup_lookup _ _ _ _ Hnodup Hi Hj). lia.
Qed.

(** What the system call writes. *)
Lemma write_back_wp b r u x s :
  urb_memory s !! b = Some [u] -> b ∈ live (mem s) -> transfers s !! ub_usercontext u = Some x -> rp_urb r = (b, O) ->
  (Z.to_nat (ub_buffer u) + length (rp_data r) <= length (t_data x))%nat ->
  wp (write_back r) s (fun v s' => v = reaped_urb r u /\
    s' = set_transfers (<[ub_usercontext u := set_t_data (written (ub_buffer u) (rp_data r) (t_data x)) x]> (transfers s))
           (set_world (set_lx_urbs (<[b := [reaped_urb r u]]> (lx_urbs (world s))) (world s)) s)).
Proof.
  clear. intros Hm Hb Ht Hr Hfit. unfold write_back. rewrite Hr. apply wp_bind.
  apply (wp_get_urb b u); [done|done|]. apply wp_bind. unfold put_urb. apply wp_bind, (wp_get_urb b u); [done|done|].
  apply wp_modify. simpl.
  assert (alter (fun l => <[0%nat := reaped_urb r u]> l) b (lx_urbs (world s)) = <[b := [reaped_urb r u]]> (lx_urbs (world s))) as Halt.
  { apply map_eq. intros j. destruct (decide (j = b)) as [->|Hne].
    - unfold urb_memory in Hm. by rewrite lookup_alter_eq, Hm, lookup_insert_eq.
    - by rewrite lookup_alter_ne, lookup_insert_ne. }
  unfold reaped_urb in Halt. rewrite Halt. apply wp_bind. eapply wp_get_transfer; [exact Ht|].
  apply wp_bind. eapply wp_lift; [by apply store_written|]. apply wp_bind, wp_put_transfer. by apply wp_ret.
Qed.

(** One URB: its results are copied, and the last one ends the transfer. *)
Lemma iso_reap_run i o b r x s :
  bs !! i = Some b -> iso_collecting i o x s -> iso_reap_ok s b r ->
  (o + length (rp_frames r) <= length (t_iso_packets x))%nat ->
  exists d tp s5, complete_urb kern be user_cb r s =
      (if Z.of_nat (S i) =? Z.of_nat (length bs)
       then free_iso_urbs t ;; usbi_handle_transfer_completion be user_cb t (iso_urb_status (rp_status r))
       else mret 0) s5 /\
    length d = length (t_data x) /\ tpriv_of s5 t = tp /\ mem s5 = mem s /\
    lx_kernel (world s5) = lx_kernel (world s) /\
    transfers s5 = <[t := set_t_iso_packets (with_results o (rp_frames r) (t_iso_packets x)) (set_t_data d x)]> (transfers s) /\
    (forall b', b' <> b -> urb_memory s5 !! b' = urb_memory s !! b') /\
    iso_collecting (S i) (o + length (rp_frames r))
      (set_t_iso_packets (with_results o (rp_frames r) (t_iso_packets x)) (set_t_data d x)) s5.
Proof.
  intros Hi Hc (u & x2 & Hm & Hb & Ht & Hu & Hr & Hnum & Hfit) Ho. destruct Hc as [Ht' Hty Hub Hn Hact Hoff].
  rewrite Ht in Ht'. injection Ht' as ->.
  pose proof (write_back_wp b r u x s Hm Hb ltac:(by rewrite Hu) Hr Hfit) as Hwb.
  apply wp_ok in Hwb as (v & s1 & Hwb & -> & Hs1). rewrite Hu in Hs1.
  set (d := written (ub_buffer u) (rp_data r) (t_data x)) in *. set (x1 := set_t_data d x) in *.
  assert (transfers s1 !! t = Some x1) as Ht1 by (subst s1; apply lookup_insert_eq).
  assert (tpriv_of s1 t = tpriv_of s t) as Htp1 by (by subst s1).
  assert (urb_memory s1 = <[b := [reaped_urb r u]]> (urb_memory s)) as Hm1 by (by subst s1).
  assert (wp (copy_iso_results t (rp_frames r) (length (rp_frames r))) s1 (fun _ s' =>
    transfers s' = <[t := set_t_iso_packets (with_results o (rp_frames r) (t_iso_packets x1)) x1]> (transfers s1) /\
    tpriv_of s' t = set_tp_iso_packet_offset (Z.of_nat (o + length (rp_frames r))) (tpriv_of s1 t) /\
    mem s' = mem s1 /\ urb_memory s' = urb_memory s1 /\ lx_kernel (world s') = lx_kernel (world s1))) as Hcopy
    by (apply copy_iso_results_wp; [done|by rewrite Htp1|done]).
  apply wp_ok in Hcopy as ([] & s2 & Hcopy & Htr2 & Htp2 & Hm2 & Hu2 & Hk2).
  set (x2 := set_t_iso_packets _ x1) in *.
  assert (wp (put_tpriv t (set_tp_num_retired (tp_num_retired (tpriv_of s2 t) + 1) (tpriv_of s2 t))) s2 (fun _ s' =>
    tpriv_changed t (set_tp_num_retired (tp_num_retired (tpriv_of s2 t) + 1) (tpriv_of s2 t)) s2 s')) as Hput
    by (apply wp_put_tpriv; done).
  apply wp_ok in Hput as ([] & s5 & Hput & [Hb5 Hl5 Htp5 Hu5 Hk5 _]).
  exists d, (tpriv_of s5 t), s5.
  assert (transfers s2 !! t = Some x2) as Ht2 by (rewrite Htr2; apply lookup_insert_eq).
  assert (transfers s5 = <[t := x2]> (transfers s)) as Ht5.
  { rewrite (only_backend_transfers _ _ Hb5), Htr2. subst s1. simpl. by rewrite insert_insert_eq. }
  assert (forall (st : lib (linux K)) xx, transfers st !! t = Some xx -> get_tpriv t st = Ok (tpriv_of st t, st)) as Hget1.
  { intros st xx Hst. unfold get_tpriv. eapply bind_eq; [unfold get_transfer, lookup_obj; by rewrite Hst|]. done. }
  split.
  { unfold complete_urb. eapply bind_eq; [exact Hwb|]. simpl. rewrite Hu.
    eapply bind_eq; [unfold get_transfer, lookup_obj; by rewrite Ht1|].
    change (t_type x1) with (t_type x). rewrite Hty, Hr. simpl. unfold handle_iso_completion.
    eapply bind_eq; [eapply Hget1; exact Ht1|]. rewrite Htp1, Hub, Hn, Nat2Z.id.
    eapply bind_eq; [simpl fst; rewrite (find_iso_lookup i b Hi); done|].
    eapply bind_eq.
    { apply get_urb_ok; [|by subst s1]. change (lx_urbs (world s1)) with (urb_memory s1). rewrite Hm1. apply lookup_insert_eq. }
    simpl. rewrite Hnum, Nat2Z.id. eapply bind_eq; [exact Hcopy|]. eapply bind_eq; [eapply Hget1; exact Ht2|].
    eapply bind_eq; [exact Hput|]. rewrite Htp2, Htp1. simpl. rewrite decide_False by (rewrite Hact; tauto). done. }
  split; [by apply written_length|]. split; [done|]. split; [by rewrite Hl5, Hm2; subst s1|].
  split; [by rewrite Hk5, Hk2; subst s1|]. split; [done|]. split.
  { intros b' Hne. by rewrite Hu5, Hu2, Hm1, lookup_insert_ne. }
  split; rewrite ?Htp5, ?Htp2, ?Htp1; simpl; try done. by rewrite Ht5, lookup_insert_eq.
Qed.

(** All of them, in the order of submission. *)
Lemma iso_reaps rs i o x F s :
  iso_collecting i o x s -> (i + length rs = length bs)%nat -> rs <> [] ->
  Forall2 (iso_reap_ok s) (drop i bs) rs ->
  (o + length (concat (map rp_frames rs)) <= length (t_iso_packets x))%nat ->
  live (mem s) = iso_blocks bs ⊎ ({[+ a +]} ⊎ F) ->
  exists d s', complete_all kern be user_cb rs s =
      usbi_handle_transfer_completion be user_cb t (iso_urb_status (rp_status (List.last rs (mk_reaped (O, O) 0 0 [] [])))) s' /\
    transfers s' = <[t := set_t_iso_packets (with_results o (concat (map rp_frames rs)) (t_iso_packets x)) (set_t_data d x)]> (transfers s) /\
    length d = length (t_data x) /\ live (mem s') = F /\ tp_urbs (tpriv_of s' t) = NoUrbs.
Proof.
  revert i o x s. induction rs as [|r rs IH]; intros i o x s Hc Hlen Hne Hok Hfit HF; simpl in Hlen.
  { done. }
  assert (is_Some (bs !! i)) as [b Hb] by (apply lookup_lt_is_Some; lia).
  rewrite (drop_S _ _ _ Hb) in Hok. apply Forall2_cons in Hok as [Hr Hok].
  simpl in Hfit. rewrite length_app in Hfit.
  destruct (iso_reap_run i o b r x s Hb Hc Hr ltac:(lia)) as (d1 & tp & s5 & Hrun & Hd1 & Htp & Hm5 & Hk5 & Ht5 & Hu5 & Hc5).
  set (x5 := set_t_iso_packets _ (set_t_data d1 x)) in *.
  destruct rs as [|r2 rs].
  - rewrite (proj2 (Z.eqb_eq _ _)) in Hrun by (simpl in Hlen; lia). rewrite complete_all_last, Hrun.
    assert (wp (free_iso_urbs t) s5 (fun _ s' => only_backend s5 s' /\ live (mem s') = F /\
      tpriv_of s' t = set_tp_urbs NoUrbs (tpriv_of s5 t) /\ lx_kernel (world s') = lx_kernel (world s5))) as Hfree.
    { apply (free_iso_urbs_wp t x5 a bs 0); [apply Hc5| | |by rewrite Hm5].
      - simpl. rewrite app_nil_r. apply Hc5.
      - rewrite (ic_num _ _ _ _ Hc5). lia. }
    apply wp_ok in Hfree as ([] & s6 & Hfree & Hb6 & Hl6 & Htp6 & _).
    exists d1, s6. split; [by step Hfree|]. rewrite (only_backend_transfers _ _ Hb6), Ht5. simpl. rewrite app_nil_r.
    split; [done|]. split; [done|]. split; [done|]. by rewrite Htp6.
  - rewrite (proj2 (Z.eqb_neq _ _)) in Hrun by (simpl in Hlen; lia).
    erewrite complete_all_cons by exact Hrun.
    destruct (IH (S i) (o + length (rp_frames r))%nat x5 s5 Hc5) as (d & s' & Hall & Htr & Hd & Hl & Hub).
    + simpl in *. lia.
    + done.
    + apply Forall2_same_length_lookup in Hok as [Hl2 Hok]. apply Forall2_same_length_lookup. split; [done|].
      intros j b' r' Hb' Hr'. destruct (Hok j b' r' Hb' Hr') as (u & x2 & Hmu & Hbl & Hxt & Hrest).
      rewrite (ic_transfer _ _ _ _ Hc) in Hxt. injection Hxt as <-. exists u, x5.
      rewrite lookup_drop in Hb'. rewrite Hu5, Hm5, Ht5, lookup_insert_eq.
      * split; [done|]. split; [done|]. split; [done|]. destruct Hrest as (? & ? & ? & ?).
        split; [done|]. split; [done|]. split; [done|]. simpl. lia.
      * intros ->. pose proof (NoDup_lookup _ _ _ _ Hnodup Hb Hb'). lia.
    + subst x5. simpl. rewrite with_results_length by lia. simpl in Hfit. lia.
    + by rewrite Hm5.
    + exists d, s'. split; [exact Hall|]. rewrite Htr, Ht5. subst x5. simpl.
      rewrite insert_insert_eq, with_results_app by lia. split; [done|]. split; [simpl in Hd; lia|done].
Qed.
End iso_reaping.

(** ** What the URBs carry *)

Definition frame_lengths (u : usbfs_urb) : list Z := map fr_length (ub_iso_frame_desc u).
Definition zsum (l : list Z) : Z := foldr Z.add 0 l.
Lemma zsum_app l1 l2 : zsum (l1 ++ l2) = zsum l1 + zsum l2.
Proof. induction l1; simpl; lia. Qed.
Lemma packets_length_zsum l : packets_length l = zsum (map iso_length l).
Proof. induction l; simpl; lia. Qed.

Lemma iso_urb_lengths t x taken off : frame_lengths (iso_urb t x taken off) = map iso_length taken.
Proof. unfold frame_lengths. simpl. rewrite map_map. done. Qed.

Lemma iso_urbs_spec t x n packets off :
  Forall packet_ok packets ->
  let urbs := iso_urbs t x n packets off in
  length urbs = n /\
  concat (map frame_lengths urbs) ++ map iso_length (snd (iso_chunks n packets)) = map iso_length packets /\
  forall i u, urbs !! i = Some u ->
    ub_number_of_packets u = Z.of_nat (length (ub_iso_frame_desc u)) /\ zsum (frame_lengths u) <= MAX_ISO_BUFFER_LENGTH /\
    ub_buffer u = off + zsum (concat (map frame_lengths (take i urbs))).
Proof.
  revert packets off. induction n as [|n IH]; intros packets off Hok; simpl; [split_and!; try done; intros [|i] u Hi; done|].
  pose proof (swallow_spec packets MAX_ISO_BUFFER_LENGTH Hok ltac:(done)) as Hsw.
  destruct (swallow packets _) as [[taken rest] size]. destruct Hsw as (-> & -> & Hlen).
  apply Forall_app in Hok as [_ Hrest]. destruct (IH rest (off + packets_length taken) Hrest) as (Hl & Hc & Hall).
  destruct (iso_chunks n rest) as [chunks left_over] eqn:Hch. simpl in *. split; [by rewrite Hl|]. split.
  - rewrite iso_urb_lengths, map_app, <- app_assoc. by rewrite Hc.
  - intros [|i] u Hi; simpl in Hi.
    + simplify_eq. rewrite iso_urb_lengths, <- packets_length_zsum. simpl. rewrite length_map. split_and!; [done|lia|lia].
    + destruct (Hall i u Hi) as (H1 & H2 & H3). split; [done|]. split; [done|]. simpl.
      rewrite zsum_app, iso_urb_lengths, <- packets_length_zsum. lia.
Qed.

(** ** The contract *)

Lemma op_submit_transfer_wp {K} (kern : usbfs K) t x h y (s : lib (linux K)) :
  transfers s !! t = Some x -> t_dev_handle x = Some h -> handles s !! h = Some y -> packets_fit x ->
  heap_fresh (mem s) ->
  wp (op_submit_transfer kern t) s (fun r s' => only_backend s s' /\ exists B, live (mem s') = B ⊎ live (mem s) /\ (r <> 0 -> B = ∅)).
Proof.
  intros Ht Hx Hh Hfit Hfresh. unfold op_submit_transfer. apply wp_bind. eapply wp_get_transfer; [done|].
  assert (t_type x <> LIBUSB_TRANSFER_TYPE_ISOCHRONOUS -> wp (submit_bulk_transfer kern t) s (fun r s' =>
    only_backend s s' /\ exists B, live (mem s') = B ⊎ live (mem s) /\ (r <> 0 -> B = ∅))) as Hbulk.
  { intros Hty. destruct (submit_bulk_spec kern s t x h y (fun _ _ _ => True)) as (r & s' & Hrun & Hpost); try done.
    { intros m k _. by destruct (ioctl_submiturb _ _ _ _ _). }
    apply wp_ok. exists r, s'. split; [exact Hrun|].
    destruct Hpost as [(Hr & h' & -> & Hl & Ho)|(h' & io & Hl & Ho & _ & l & k & m & _ & _ & _ & Hs')].
    { split; [by apply only_backend_mem|]. exists ∅. simpl. by rewrite Hl, gmultiset_disj_union_left_id. }
    assert (forall b tp hh, same_oracles (mem s) hh -> urb_state (set_mem hh s) t b x tp l k =
      set_mem hh (set_world (world (urb_state (set_mem hh s) t b x tp l k)) s)) as Hform.
    { intros b tp hh _. unfold urb_state, set_transfers, set_world, set_mem. simpl. by rewrite (insert_id (transfers s)). }
    destruct (Z.eqb_spec r 0) as [->|Hr].
    - destruct Hs' as (action & _ & _ & _ & _ & _ & ->). split; [|by exists {[+ next (mem s) +]}].
      rewrite Hform by done. by eexists _, _.
    - destruct Hs' as [_ ->]. set (h2 := mk_heap (live h' ∖ {[+ next (mem s) +]}) (next h') (oom h') (oom_realloc h')).
      change (freed (set_mem h' s) (next (mem s))) with (set_mem h2 s).
      assert (same_oracles (mem s) h2) as Ho2.
      { etrans; [exact Ho|]. apply same_oracles_less. multiset_solver. }
      split; [rewrite Hform by done; by eexists _, _|]. exists ∅. split; [|done]. subst h2. simpl. rewrite Hl. multiset_solver. }
  repeat case_match; try (apply Hbulk; intros Heq; rewrite Heq in *; done).
  - eapply wp_mono; [by eapply submit_control_transfer_wp|]. intros r s' (Hb & Hpost). split; [done|].
    destruct (Z.eqb_spec r 0) as [->|Hr]; [|exists ∅; by rewrite gmultiset_disj_union_left_id].
    destruct Hpost as (b & Hl & _). by exists {[+ b +]}.
  - eapply wp_mono.
    { eapply (submit_iso_transfer_wp kern t h x y (default zero_hpriv (lx_hpriv (world s) !! h)) Hx (fun _ _ _ => True)); try done.
      - apply Z.eqb_eq. done.
      - intros n bs _ _ _ m b u k _ _ _. by destruct (ioctl_submiturb _ _ _ _ _). }
    intros r s' (Hb & Hpost). split; [done|].
    destruct (Z.eqb_spec r 0) as [->|Hr]; [|exists ∅; by rewrite gmultiset_disj_union_left_id; destruct Hpost].
    destruct Hpost as (n & a & bs & m & _ & _ & _ & Hl & _). exists (iso_blocks bs ⊎ {[+ a +]}). split; [|done].
    rewrite Hl. by rewrite (assoc_L (⊎)).
  - apply wp_ret. split; [by exists (mem s), (world s); split; [destruct s|]|]. exists ∅.
    by rewrite gmultiset_disj_union_left_id.
Qed.
