(* ===== verification/Reaping.v ===== *)
(** * The reaping loop ends (os/linux_usbfs.c)

    What the operations of the library leave alone in the kernel, shown by a
    predicate closed under the monad, and from it the termination of the
    loop over [reap_for_handle]. *)

From S2P Require Import Prelude Keeps Heap ParseDesc DescApi Bos Core Devices DeviceRefs Transfers Events Handles HotplugLife TransferSpecs LinuxState LinuxUrb UrbSpecs.

Create HintDb keeps discriminated.

#[local] Hint Extern 0 (keeps _ (mret _)) => apply keeps_ret; typeclasses eauto : keeps.
#[local] Hint Extern 0 (keeps _ (fail _)) => apply keeps_fail : keeps.
#[local] Hint Extern 0 (keeps _ (gets _)) => apply keeps_gets; typeclasses eauto : keeps.
#[local] Hint Extern 0 (keeps _ get) => apply keeps_get; typeclasses eauto : keeps.
#[local] Hint Extern 0 (keeps _ (lift _)) => apply keeps_lift; typeclasses eauto : keeps.

(** One statement after the other; conditionals are split. *)
Ltac reap_step :=
  match goal with
  | |- keeps _ (_ ≫= _) => apply keeps_bind; [typeclasses eauto| |intros ?]
  | |- keeps _ (match ?x with _ => _ end) => destruct x eqn:?
  | |- keeps _ _ => solve [auto with keeps nocore]
  end.
Ltac keeps_auto := repeat reap_step.

(** ** The library and the kernel *)

Section reaping.
Context {K : Type} (kern : usbfs K) (be : os_backend (linux K)).
Variable user_cb : nat -> nat -> Lib (linux K) unit.

(** A property of the kernel that cancelling an URB, the callbacks of the
    application and the other operations of the backend keep. *)
Variable Pk : K -> Prop.
Abbreviation P := (preserves (fun s : lib (linux K) => Pk (lx_kernel (world s)))).
Abbreviation op_keeps op := (forall w : linux K, Pk (lx_kernel w) -> Pk (lx_kernel (snd (op w)))).
Context (Hdiscard : forall fd p k, Pk k -> Pk (snd (ioctl_discardurb kern fd p k))).
Context (Huser : forall n t, keeps P (user_cb n t)).
Context (Htimer : forall tv, op_keeps (os_timerfd_settime be tv)).
Context (Hdestroy : forall destroy d, be_destroy_device be = Some destroy -> op_keeps (destroy d)).

Lemma keeps_backend_op {A} (op : linux K -> A * linux K) : op_keeps op -> keeps P (backend_op op).
Proof.
  intros Hop s a s' Hrun Hs. unfold backend_op in Hrun. specialize (Hop (world s) Hs).
  destruct (op (world s)) as [b w]. by injection Hrun as <- <-.
Qed.
Lemma keeps_kernel_op {A} (op : K -> A * K) : (forall k, Pk k -> Pk (snd (op k))) -> keeps P (kernel_op op).
Proof. intros Hop. apply keeps_backend_op. intros w Hw. specialize (Hop _ Hw). by destruct (op (lx_kernel w)). Qed.
Lemma keeps_on_mem {A} (m : M heap A) : keeps P (on_mem m).
Proof. intros s a s' Hrun Hs. unfold on_mem in Hrun. destruct (m (mem s)) as [[b h]|]; [|done]. by injection Hrun as _ <-. Qed.
Lemma keeps_lookup_obj {A} (tbl : lib (linux K) -> gmap nat A) p : keeps P (lookup_obj tbl p).
Proof. intros s a s' Hrun Hs. unfold lookup_obj in Hrun. destruct (tbl s !! p); [|done]. by injection Hrun as _ <-. Qed.
Lemma keeps_put_transfer t x : keeps P (put_transfer t x).
Proof. apply keeps_modify. by intros s Hs. Qed.
Lemma keeps_put_device d x : keeps P (put_device d x).
Proof. apply keeps_modify. by intros s Hs. Qed.
Lemma keeps_put_ev e : keeps P (put_ev e).
Proof. apply keeps_modify. by intros s Hs. Qed.
Lemma keeps_put_tpriv t p : keeps P (put_tpriv t p).
Proof. apply keeps_modify. by intros s Hs. Qed.
#[local] Hint Resolve keeps_on_mem keeps_lookup_obj keeps_put_transfer keeps_put_device keeps_put_ev keeps_put_tpriv : keeps.
#[local] Hint Extern 1 (keeps _ (get_transfer _)) => apply keeps_lookup_obj : keeps.
#[local] Hint Extern 1 (keeps _ (get_device _)) => apply keeps_lookup_obj : keeps.
#[local] Hint Extern 1 (keeps _ (get_handle _)) => apply keeps_lookup_obj : keeps.
#[local] Hint Extern 1 (keeps _ (modify _)) => apply keeps_modify; unfold preserves; intros; assumption : keeps.

Lemma keeps_upd_transfer t f : keeps P (upd_transfer t f).
Proof. unfold upd_transfer. keeps_auto. Qed.
Lemma keeps_record_event f : keeps P (record_event f).
Proof. unfold record_event, usbi_signal_event. keeps_auto. Qed.
Lemma keeps_transfer_ctx t : keeps P (transfer_ctx t).
Proof. unfold transfer_ctx. keeps_auto. Qed.
Lemma keeps_timerfd_settime tv : keeps P (timerfd_settime be tv).
Proof. unfold timerfd_settime. apply keeps_bind; [exact _|apply keeps_backend_op, Htimer|]. intros r. keeps_auto. Qed.
#[local] Hint Resolve keeps_upd_transfer keeps_record_event keeps_transfer_ctx keeps_timerfd_settime : keeps.

Lemma keeps_arm_loop l : keeps P (arm_loop be l).
Proof. induction l as [|t l IH]; cbn [arm_loop]; unfold disarm_timerfd; keeps_auto. Qed.
Lemma keeps_remove_from_flying_list t : keeps P (remove_from_flying_list be t).
Proof. unfold remove_from_flying_list, arm_timerfd_for_next_timeout. keeps_auto. apply keeps_arm_loop. Qed.
Lemma keeps_disconnect_device d : keeps P (usbi_disconnect_device be d).
Proof. unfold usbi_disconnect_device, usbi_hotplug_notification. keeps_auto. Qed.
#[local] Hint Resolve keeps_remove_from_flying_list keeps_disconnect_device : keeps.

Lemma keeps_unref_device fuel dev : keeps P (unref_device be fuel dev).
Proof.
  revert dev. induction fuel as [|fuel IH]; intros [d|]; cbn [unref_device]; unfold free_device; keeps_auto.
  apply keeps_backend_op. by eapply Hdestroy.
Qed.
Lemma keeps_libusb_unref_device dev : keeps P (libusb_unref_device be dev).
Proof. unfold libusb_unref_device. keeps_auto. apply keeps_unref_device. Qed.
Lemma keeps_free_transfer t : keeps P (libusb_free_transfer t).
Proof. unfold libusb_free_transfer. keeps_auto. Qed.
Lemma keeps_run_callback t cb : keeps P (run_callback user_cb t cb).
Proof. unfold run_callback, sync_transfer_cb. keeps_auto. Qed.
#[local] Hint Resolve keeps_libusb_unref_device keeps_free_transfer keeps_run_callback : keeps.
Lemma keeps_completion t status : keeps P (usbi_handle_transfer_completion be user_cb t status).
Proof. unfold usbi_handle_transfer_completion. keeps_auto. Qed.
Lemma keeps_cancellation t : keeps P (usbi_handle_transfer_cancellation be user_cb t).
Proof. unfold usbi_handle_transfer_cancellation. keeps_auto; apply keeps_completion. Qed.
#[local] Hint Resolve keeps_completion keeps_cancellation : keeps.

Lemma keeps_get_tpriv t : keeps P (get_tpriv t).
Proof. unfold get_tpriv. keeps_auto. Qed.
Lemma keeps_get_urb p : keeps P (get_urb p).
Proof. unfold get_urb. keeps_auto. Qed.
Lemma keeps_transfer_hpriv x : keeps P (transfer_hpriv x).
Proof. unfold transfer_hpriv, get_hpriv. keeps_auto. Qed.
#[local] Hint Resolve keeps_get_tpriv keeps_get_urb keeps_transfer_hpriv : keeps.
Lemma keeps_put_urb p u : keeps P (put_urb p u).
Proof. unfold put_urb. keeps_auto. Qed.
Lemma keeps_discard_loop x tp fd first n last ret : keeps P (discard_loop kern x tp fd first n last ret).
Proof.
  revert ret. induction n as [|n IH]; intros ret; cbn [discard_loop]; [keeps_auto|].
  apply keeps_bind; [exact _|keeps_auto|]. intros p. apply keeps_bind; [exact _|apply keeps_kernel_op; intros k; apply Hdiscard|]. intros e. apply IH.
Qed.
Lemma keeps_discard_urbs t first last : keeps P (discard_urbs kern t first last).
Proof. unfold discard_urbs. keeps_auto. apply keeps_discard_loop. Qed.
Lemma keeps_free_iso_loop l n : keeps P (free_iso_loop l n).
Proof. revert l. induction n as [|n IH]; intros [|[b|] l]; cbn [free_iso_loop]; keeps_auto; apply IH. Qed.
#[local] Hint Resolve keeps_put_urb keeps_discard_urbs keeps_free_iso_loop : keeps.
Lemma keeps_free_iso_urbs t : keeps P (free_iso_urbs t).
Proof. unfold free_iso_urbs. keeps_auto. Qed.
Lemma keeps_copy_iso_results t frames n : keeps P (copy_iso_results t frames n).
Proof. revert frames. induction n as [|n IH]; intros [|f frames]; cbn [copy_iso_results]; keeps_auto; apply IH. Qed.
Lemma keeps_move_data t target src n : keeps P (move_data t target src n).
Proof. unfold move_data. keeps_auto. Qed.
Lemma keeps_bulk_completed t : keeps P (bulk_completed be user_cb t).
Proof. unfold bulk_completed. keeps_auto. Qed.
#[local] Hint Resolve keeps_free_iso_urbs keeps_copy_iso_results keeps_move_data keeps_bulk_completed : keeps.
Lemma keeps_bulk_cancel_remaining t i : keeps P (bulk_cancel_remaining kern be user_cb t i).
Proof. unfold bulk_cancel_remaining. keeps_auto. Qed.
Lemma keeps_bulk_abnormal_reap t u : keeps P (bulk_abnormal_reap be user_cb t u).
Proof. unfold bulk_abnormal_reap. keeps_auto. Qed.
Lemma keeps_write_back r : keeps P (write_back r).
Proof. unfold write_back. keeps_auto. Qed.
#[local] Hint Resolve keeps_bulk_cancel_remaining keeps_bulk_abnormal_reap keeps_write_back : keeps.

(** Completing a URB keeps what holds of the kernel. *)
Lemma keeps_complete_urb r : keeps P (complete_urb kern be user_cb r).
Proof.
  unfold complete_urb, handle_iso_completion, handle_bulk_completion, handle_control_completion. keeps_auto.
Qed.
End reaping.
