(* ===== verification/UrbProps.v ===== *)
(** * Theorems about URBs (os/linux_usbfs.c)

    How a transfer is cut into URBs, that the kernel and the library agree
    on who holds which URB, and that the URBs of a transfer are gathered
    into one result; and where the code goes wrong. *)

From S2P Require Import Prelude Keeps Heap ParseDesc DescApi Bos Core Devices DeviceRefs Transfers Events Handles HotplugLife TransferSpecs LinuxState LinuxUrb UrbSpecs IsoSpecs Reaping Demo.

(** ** A kernel *)

(** A kernel that holds [q_held], hands back the URBs of [q_done] in that
    order, cancels a URB at once, and answers submissions with [q_errnos]. *)
Record queue : Type := mk_queue {
  q_held : gmap urb_ptr usbfs_urb;
  q_done : list reaped;
  q_errnos : list Z
}.
Definition queue_kernel : usbfs queue := {|
  ioctl_submiturb fd p u k :=
    match q_errnos k with
    | [] => (0, mk_queue (<[p := u]> (q_held k)) (q_done k) [])
    | e :: es => (e, mk_queue (if e =? 0 then <[p := u]> (q_held k) else q_held k) (q_done k) es)
    end;
  ioctl_discardurb fd p k :=
    if decide (is_Some (q_held k !! p) /\ p ∉ map rp_urb (q_done k))
    then (0, mk_queue (q_held k) (q_done k ++ [mk_reaped p (- ENOENT) 0 [] []]) (q_errnos k))
    else (EINVAL, k);
  ioctl_reapurbndelay fd k :=
    match q_done k with
    | r :: rs =>
        match q_held k !! rp_urb r with
        | Some _ => ((0, r), mk_queue (delete (rp_urb r) (q_held k)) rs (q_errnos k))
        | None => ((EAGAIN, r), k)
        end
    | [] => ((EAGAIN, mk_reaped (O, O) 0 0 [] []), k)
    end
|}.

#[export] Instance queue_kernel_laws : KernelLaws queue_kernel q_held.
Proof.
  split; simpl.
  - intros fd p u k Hp. destruct (q_errnos k) as [|e es]; [done|]. by destruct (e =? 0).
  - intros fd p k. by destruct (decide _).
  - intros fd k. destruct (q_done k) as [|r rs]; [done|]. destruct (q_held k !! rp_urb r) eqn:Hr; [|done].
    simpl. by split; [eexists|].
Qed.

(** The example of Demo.v on top of the Linux backend: transfer 8 of handle
    5, with [len] bytes. *)
Definition demo_bulk (len : Z) : transfer :=
  mk_transfer (Some 5%nat) 0 129 2 0 0 len 0 (Some (UserCb 0)) 0 None (replicate (Z.to_nat len) 0) 0 [] (mk_tv 0 0) 0 0 0 0.
Definition demo_world (q : queue) urbs tpriv hpriv : linux queue := mk_linux q urbs tpriv hpriv ∅ (demo_heap 0) initial_globals.
Definition demo_linux (x : transfer) (w : linux queue) : lib (linux queue) :=
  mk_lib (demo_heap 9) (devices demo_io) (handles demo_io) {[ 8%nat := x ]} [1%nat] [5%nat] [] [8%nat] demo_event_data
    true false false None 1 ∅ (3, 4) (-1) false None None 0 false w.
Definition no_callbacks (n t : nat) : Lib (linux queue) unit := mret tt.
Definition demo_usbfs : os_backend (linux queue) :=
  linux_backend queue_kernel idle_backend no_callbacks (fun _ _ _ _ => mret tt) 10.
Lemma demo_bulk_data len : length (t_data (demo_bulk len)) = Z.to_nat len.
Proof. apply length_replicate. Qed.

(** ** Gathering *)

(** C9: the URBs of a bulk or interrupt transfer are gathered into one
    result, however the transfer ends: a run of full URBs, then one that is
    short, fails with a low-level error, or is the last; then the rest, in
    any order in which those that carry data keep the order of the buffer.
    The transfer is reported once, after the last URB came back and the
    array was released, with the status of the URB that ended it; the count
    is the sum of all URBs, and the buffer holds their data without holes. *)
Theorem bulk_transfer_completes {K : Type} (kern : usbfs K) (be : os_backend (linux K))
    (user_cb : nat -> nat -> Lib (linux K) unit) (s : lib (linux K)) (t b h : nat) (x : transfer) (y : device_handle)
    (caps io : Z) (full : list reaped) (r : reaped) (rest : list reaped)
    (Ht : transfers s !! t = Some x) (Hx : t_dev_handle x = Some h) (Hh : handles s !! h = Some y)
    (Hty : t_type x = LIBUSB_TRANSFER_TYPE_BULK \/ t_type x = LIBUSB_TRANSFER_TYPE_BULK_STREAM \/
           t_type x = LIBUSB_TRANSFER_TYPE_INTERRUPT)
    (Hlen : 0 <= t_length x <= Z.of_nat (length (t_data x))) (Hzero : it_transferred x = 0)
    (Hb : b ∈ live (mem s))
    (Htp : lx_tpriv (world s) !! t =
             Some (mk_tpriv (Urbs b) NORMAL (urb_count x caps) 0 LIBUSB_TRANSFER_COMPLETED io))
    (Hub : lx_urbs (world s) !! b = Some (submitted_urbs t x caps))
    (Hfull : forall j r, full !! j = Some r -> full_reap b x caps j r)
    (Hr : ending_reap b x caps (length full) r)
    (Hend : rest = [] \/ tears_down x caps r)
    (Hcount : Z.of_nat (length full) + 1 + Z.of_nat (length rest) = urb_count x caps)
    (Hrest : Forall (reap_fits t b (Z.of_nat (length (t_data x))) (submitted_urbs t x caps)) rest)
    (Hord : data_in_order (submitted_urbs t x caps)
              (Z.of_nat (length full) * block_len x caps + rp_actual_length r) rest) :
  let rs := full ++ r :: rest in
  exists d tp l k, complete_all kern be user_cb rs s =
      usbi_handle_transfer_completion be user_cb t (bulk_result (rp_status r))
        (urb_state (freed s b) t b (set_t_data d (set_it_transferred (total_length rs) x)) tp l k) /\
    tp_urbs tp = NoUrbs /\ length d = length (t_data x) /\
    (Forall full_data rs -> take (Z.to_nat (total_length rs)) d = all_data rs).
Proof.
  intros rs. destruct Hlen as [Hlen Hbuf]. set (urbs := submitted_urbs t x caps) in *.
  pose proof (block_len_pos x caps Hlen) as Hpos. pose proof (urb_count_bounds x caps Hlen) as (_ & Hcb & _).
  rewrite (f_equal (complete_all kern be user_cb rs) (urb_state_intro s t b x _ _ Ht Htp Hub)).
  set (st := mk_tpriv _ _ _ _ _ _). set (k := lx_kernel _).
  assert (urb_state s t b x st urbs k =
          urb_state s t b (received x (Z.of_nat 0 * block_len x caps) (t_data x)) st urbs k) as ->
    by (f_equal; destruct x; simpl in *; by subst). unfold rs.
  edestruct (normal_reaps kern be user_cb s t b x caps Hb Hty Hlen full (r :: rest) 0 (t_data x) st urbs k)
    as (d1 & l1 & Hrun & Hpl & Hd1 & Hdata1); [done|lia|exact Hfull|done|done|done|done|]. rewrite Hrun. clear Hrun.
  set (tp1 := set_tp_num_retired _ _). rewrite Nat.add_0_l in *. set (i := length full) in *. set (n := Z.of_nat i * block_len x caps) in *.
  assert (total_length full = n) as Htot by (by apply (full_total b x caps full 0)).
  assert (Z.of_nat (length (rp_data r)) <= rp_actual_length r /\ 0 <= n /\ 0 <= rp_actual_length r /\
          n + rp_actual_length r <= Z.of_nat (length d1)) as (Hdl & Hn & Hal & Hfit).
  { destruct Hr as (_ & ? & ?). split_and!; nia || lia. }
  assert (length (written n (rp_data r) d1) = length d1) as Hd2 by (apply written_length; lia).
  assert (Forall full_data full -> full_data r ->
    take (Z.to_nat (n + rp_actual_length r)) (written n (rp_data r) d1) = all_data full ++ rp_data r) as Hdata2.
  { intros Hf Hfr. unfold full_data in Hfr.
    replace (Z.to_nat (n + rp_actual_length r)) with (Z.to_nat n + length (rp_data r))%nat by lia.
    rewrite written_prefix, Hdata1 by (done || lia). done. }
  destruct rest as [|r2 rest].
  - rewrite complete_all_last.
    edestruct (last_reap kern be user_cb s t b h y x caps Hb Hh Hx Hty Hlen i r d1 tp1 l1 k) as (tp' & l' & Hrun & Hno);
      [exact Hpl|simpl in Hcount; lia|exact Hr|lia|done|done|done|simpl; lia|done|].
    cbv zeta in Hrun. fold n in Hrun. rewrite Hrun. do 4 eexists. rewrite total_length_app, Htot. simpl. rewrite Z.add_0_r. split; [done|].
    split; [done|]. split; [lia|]. intros [Hf [Hfr _]%Forall_cons]%Forall_app. rewrite Hdata2 by done.
    rewrite all_data_app. unfold all_data. simpl. by rewrite app_nil_r.
  - destruct Hend as [?|Htear]; [done|].
    edestruct (tear_down_reap kern be user_cb s t b h y x caps Hb Hh Hx Hty Hlen i r d1 tp1 l1 k)
      as (tp' & l' & k' & Hrun & Hub' & Hnum & Hret & Hpl' & Hact & Hst);
      [exact Hpl|simpl in Hcount; lia|exact Hr|exact Htear|lia|done|done|done|simpl; lia|done|].
    cbv zeta in Hrun. fold n in Hrun. erewrite complete_all_cons by exact Hrun.
    edestruct (abnormal_reaps kern be user_cb s t b x Hb Hty (r2 :: rest) (n + rp_actual_length r)
                 (written n (rp_data r) d1) tp' l' k')
      as (d' & tp2 & l2 & Hall & Hno & Hd' & Htake & Hdata'); [done|exact Hub'| | |lia| | |].
    + by destruct Hact as [->| ->].
    + lia.
    + rewrite Hd2, Hd1. eapply Forall_impl; [exact Hrest|]. intros r' Hr'. eapply reap_fits_places; [by symmetry|done].
    + by eapply data_in_order_places; [symmetry| |].
    + exists d', tp2, l2, k'. rewrite Hall. unfold report. cbn [tp_reap_action set_tp_reap_status tp_reap_status].
      rewrite Hst, total_length_app, Htot.
      change (total_length (r :: r2 :: rest)) with (rp_actual_length r + total_length (r2 :: rest)).
      rewrite decide_False by (by destruct Hact as [->| ->]). rewrite !Z.add_assoc. split; [done|]. split; [done|].
      split; [lia|]. intros [Hf [Hfr Hfs]%Forall_cons]%Forall_app. rewrite Hdata', Hdata2 by done.
      rewrite all_data_app. by rewrite <- app_assoc.
Qed.

(** Two URBs: one byte short, then the other is cancelled. *)
Definition demo_two_urbs : lib (linux queue) :=
  demo_linux (demo_bulk 16385) (demo_world (mk_queue ∅ [] []) {[ 3%nat := submitted_urbs 8 (demo_bulk 16385) 0 ]}
    {[ 8%nat := mk_tpriv (Urbs 3) NORMAL 2 0 0 0 ]} ∅).
Definition demo_short : reaped := mk_reaped (3, 0)%nat 0 2 [7; 9] [].
Definition demo_gone : reaped := mk_reaped (3, 1)%nat (- ENOENT) 0 [] [].

Lemma bulk_transfer_completes_witness :
  exists d tp l k, complete_all queue_kernel demo_usbfs no_callbacks [demo_short; demo_gone] demo_two_urbs =
      usbi_handle_transfer_completion demo_usbfs no_callbacks 8 LIBUSB_TRANSFER_COMPLETED
        (urb_state (freed demo_two_urbs 3) 8 3 (set_t_data d (set_it_transferred 2 (demo_bulk 16385))) tp l k) /\
    tp_urbs tp = NoUrbs /\ length d = length (t_data (demo_bulk 16385)) /\
    (Forall full_data [demo_short; demo_gone] -> take 2 d = [7; 9]).
Proof.
  apply (bulk_transfer_completes queue_kernel demo_usbfs no_callbacks demo_two_urbs 8 3 5 (demo_bulk 16385) (mk_handle 0 1 0)
    0 0 [] demo_short [demo_gone]).
  - done.
  - done.
  - done.
  - by left.
  - rewrite demo_bulk_data. split; [done|]. change (t_length (demo_bulk 16385)) with 16385. lia.
  - done.
  - by apply (bool_decide_unpack _).
  - done.
  - done.
  - intros j r Hj. by rewrite lookup_nil in Hj.
  - split; [done|]. split; [by vm_compute|done].
  - right. left. split; [done|by vm_compute].
  - by vm_compute.
  - constructor; [|constructor]. exists 1%nat, (bulk_urb 8 (demo_bulk 16385) 0 1). split; [done|]. split; [by vm_compute|].
    split; [done|]. rewrite demo_bulk_data. vm_compute. repeat split; done.
  - done.
Defined.

(** ** The contract of submission *)

(** C7: the Linux backend keeps the contract on which the submission of
    transfers (Transfers.v) relies, for any kernel and any pattern of
    allocation failures: it never faults, touches nothing but its own state
    and memory, and a transfer it refuses, whichever URB, packet count or
    allocation was the cause, leaves no block behind. *)
Theorem linux_submit_contract {K : Type} (kern : usbfs K) (base : os_backend (linux K))
    (user_cb : nat -> nat -> Lib (linux K) unit) (fd_cb : nat -> bool -> Z -> Z -> Lib (linux K) unit) (fuel : nat) :
  SubmitContract (linux_backend kern base user_cb fd_cb fuel).
Proof.
  intros t x h y s Ht Hx Hh Hfit Hfresh. eapply wp_mono; [by eapply op_submit_transfer_wp|].
  intros r s' ((m & w & -> & Ho & _) & B & Hl & HB). by exists m, w, B.
Qed.

(** ** What a bulk transfer becomes *)

Definition sum_lengths (l : list usbfs_urb) : Z := foldr (fun u n => ub_buffer_length u + n) 0 l.

Lemma submitted_urbs_sum t x caps m :
  0 <= t_length x -> Z.of_nat m <= urb_count x caps ->
  sum_lengths (take m (submitted_urbs t x caps)) = Z.min (Z.of_nat m * block_len x caps) (t_length x).
Proof.
  intros Hlen. pose proof (block_len_pos x caps Hlen) as Hpos. pose proof (urb_count_bounds x caps Hlen) as (Hc & Hb & _).
  assert (forall l1 u, sum_lengths (l1 ++ [u]) = sum_lengths l1 + ub_buffer_length u) as Happ.
  { intros l1 u. induction l1 as [|v l1 IH]; simpl; lia. }
  induction m as [|m IH]; intros Hm; [simpl; lia|].
  destruct (submitted_lookup_is_Some t x caps m ltac:(lia)) as [u Hu].
  rewrite (take_S_r _ _ _ Hu), Happ, IH by lia. apply submitted_lookup in Hu as [_ Hp]; [|done].
  unfold urb_place in Hp. apply (f_equal snd) in Hp. simpl in Hp. rewrite Hp. nia.
Qed.

Lemma block_len_max x caps : 0 <= t_length x -> urb_count x caps = 1 \/ block_len x caps = MAX_BULK_BUFFER_LENGTH.
Proof.
  intros Hlen. unfold urb_count, block_len, bulk_split, bulk_num_urbs.
  repeat case_match; simplify_eq/=; try (by right); left; try done; try lia.
  all: rewrite ?Z.rem_same, ?Z.quot_same in * by lia; lia.
Qed.

Definition continues (caps : Z) : bool :=
  negb (has_flag caps USBFS_CAP_BULK_SCATTER_GATHER) && has_flag caps USBFS_CAP_BULK_CONTINUATION.

Lemma bulk_urb_flags t x caps i :
  ub_endpoint (bulk_urb t x caps i) = t_endpoint x /\
  ub_flags (bulk_urb t x caps i) =
    Z.lor (Z.lor (if continues caps && negb (is_out x) && (i <? urb_count x caps - 1) then USBFS_URB_SHORT_NOT_OK else 0)
                 (if continues caps && (0 <? i) then USBFS_URB_BULK_CONTINUATION else 0))
          (if is_out x && (i =? urb_count x caps - 1) && has_flag (t_flags x) LIBUSB_TRANSFER_ADD_ZERO_PACKET
           then USBFS_URB_ZERO_PACKET else 0).
Proof.
  unfold bulk_urb, urb_count, block_len.
  assert (snd (bulk_split caps (t_length x)) = continues caps) as Hcont
    by (unfold bulk_split, continues; by repeat case_match).
  destruct (bulk_split caps (t_length x)) as [blen cont]. simpl in *. subst cont.
  destruct (bulk_num_urbs (t_length x) blen) as [n partial]. simpl. case_match. simpl. split; [done|].
  destruct (continues caps), (is_out x), (i <? n - 1), (0 <? i), (i =? n - 1), (has_flag (t_flags x) LIBUSB_TRANSFER_ADD_ZERO_PACKET); done.
Qed.

(** C31: the URBs of a bulk transfer cover its buffer exactly: URB [i] starts
    where the ones before it end, the lengths add up to the length of the
    transfer, and none is longer than the kernel accepts.  Every URB but the
    first continues the one before it, every IN URB but the last treats a
    short packet as an error, both only where the kernel knows
    continuations, and the zero packet follows the last OUT URB only. *)
Theorem bulk_urbs_cover (t : nat) (x : transfer) (caps : Z) (Hlen : 0 <= t_length x) :
  let urbs := submitted_urbs t x caps in
  let n := length urbs in
  (0 < n)%nat /\ sum_lengths urbs = t_length x /\
  forall i u, urbs !! i = Some u ->
    ub_usercontext u = t /\ ub_endpoint u = t_endpoint x /\
    ub_buffer u = sum_lengths (take i urbs) /\ 0 <= ub_buffer_length u /\
    (n = 1%nat \/ ub_buffer_length u <= MAX_BULK_BUFFER_LENGTH) /\
    ub_flags u = Z.lor (Z.lor (if continues caps && negb (is_out x) && bool_decide (S i < n)%nat then USBFS_URB_SHORT_NOT_OK else 0)
                              (if continues caps && bool_decide (0 < i)%nat then USBFS_URB_BULK_CONTINUATION else 0))
                       (if is_out x && bool_decide (S i = n) && has_flag (t_flags x) LIBUSB_TRANSFER_ADD_ZERO_PACKET
                        then USBFS_URB_ZERO_PACKET else 0).
Proof.
  intros urbs n. pose proof (block_len_pos x caps Hlen) as Hpos. pose proof (urb_count_bounds x caps Hlen) as (Hc & Hb & Hb').
  assert (Z.of_nat n = urb_count x caps) as Hn by (subst n urbs; unfold submitted_urbs; rewrite length_map, length_seq; lia).
  split; [lia|]. split.
  { rewrite <- (firstn_all urbs). fold n. subst urbs. rewrite submitted_urbs_sum by lia. rewrite Hn. lia. }
  intros i u Hu. pose proof (lookup_lt_Some _ _ _ Hu) as Hi. fold n in Hi.
  pose proof Hu as Hu'. apply submitted_lookup in Hu' as [_ Hp]; [|done]. unfold urb_place in Hp. injection Hp as Hpc Hpb Hpl.
  split; [done|]. subst urbs. rewrite submitted_urbs_sum by lia. rewrite Hpb, Hpl.
  unfold submitted_urbs in Hu. change (map ?f ?l) with (f <$> l) in Hu. rewrite list_lookup_fmap in Hu.
  apply fmap_Some in Hu as (j & Hj & ->). apply lookup_seq in Hj as [-> _]. simpl in *.
  destruct (bulk_urb_flags t x caps (Z.of_nat i)) as [Hep Hfl]. split; [done|]. split; [nia|]. split; [nia|]. split.
  { destruct (block_len_max x caps Hlen) as [H1|H1]; [left; lia|right; lia]. }
  rewrite Hfl. replace (Z.of_nat i <? urb_count x caps - 1) with (bool_decide (S i < n)%nat).
  2:{ destruct (Z.ltb_spec (Z.of_nat i) (urb_count x caps - 1)); [apply bool_decide_eq_true|apply bool_decide_eq_false]; lia. }
  replace (0 <? Z.of_nat i) with (bool_decide (0 < i)%nat).
  2:{ destruct (Z.ltb_spec 0 (Z.of_nat i)); [apply bool_decide_eq_true|apply bool_decide_eq_false]; lia. }
  replace (Z.of_nat i =? urb_count x caps - 1) with (bool_decide (S i = n)); [done|].
  destruct (Z.eqb_spec (Z.of_nat i) (urb_count x caps - 1)); [apply bool_decide_eq_true|apply bool_decide_eq_false]; lia.
Qed.
Lemma bulk_urbs_cover_witness :
  let urbs := submitted_urbs 8 (demo_bulk 40000) 2 in
  (0 < length urbs)%nat /\ sum_lengths urbs = 40000.
Proof.
  destruct (bulk_urbs_cover 8 (demo_bulk 40000) 2) as (H1 & H2 & _); [done|]. by split.
Defined.

(** C23: after [submit_bulk_transfer] the library and the kernel agree on
    every URB.  When it succeeds, the kernel holds exactly the first [m] URBs
    of the new array, [m] is at least one, the rest count as retired
    ([num_retired + m = num_urbs]), and the transfer is being torn down
    exactly if some URB was refused.  When it fails, the kernel holds nothing
    new and nothing is allocated. *)
Theorem submit_bulk_accounting {K : Type} (kern : usbfs K) (held : K -> gmap urb_ptr usbfs_urb) (s : lib (linux K))
    (t h : nat) (x : transfer) (y : device_handle)
    (Hlaws : KernelLaws kern held) (Ht : transfers s !! t = Some x) (Hx : t_dev_handle x = Some h)
    (Hh : handles s !! h = Some y) (Hty : t_type x <> LIBUSB_TRANSFER_TYPE_ISOCHRONOUS) (Hlen : 0 <= t_length x)
    (Hnew : forall i, held (lx_kernel (world s)) !! (next (mem s), i) = None) :
  let caps := hp_caps (default zero_hpriv (lx_hpriv (world s) !! h)) in
  let urbs := submitted_urbs t x caps in
  exists r s', submit_bulk_transfer kern t s = Ok (r, s') /\ transfers s' = transfers s /\
    if r =? 0
    then exists b tp l m, lx_tpriv (world s') !! t = Some tp /\ tp_urbs tp = Urbs b /\
      lx_urbs (world s') !! b = Some l /\ take m l = take m urbs /\ length l = length urbs /\
      live (mem s') = {[+ b +]} ⊎ live (mem s) /\ (0 < m)%nat /\
      tp_num_retired tp + Z.of_nat m = tp_num_urbs tp /\ tp_num_urbs tp = Z.of_nat (length urbs) /\
      (tp_reap_action tp = NORMAL <-> m = length urbs) /\
      forall p, held (lx_kernel (world s')) !! p =
        if decide (fst p = b /\ snd p < m)%nat then urbs !! snd p else held (lx_kernel (world s)) !! p
    else held (lx_kernel (world s')) = held (lx_kernel (world s)) /\ live (mem s') = live (mem s).
Proof.
  intros caps urbs. set (dpriv := default zero_hpriv (lx_hpriv (world s) !! h)) in *.
  set (f := fun j => bulk_urb t x caps (Z.of_nat j)).
  pose proof (urb_count_bounds x caps Hlen) as (Hc & _ & _).
  assert (length urbs = Z.to_nat (urb_count x caps)) as Hn by (subst urbs; unfold submitted_urbs; by rewrite length_map, length_seq).
  assert (forall j, (j < length urbs)%nat -> urbs !! j = Some (f j)) as Hurb.
  { intros j Hj. subst urbs. unfold submitted_urbs. change (map ?g ?l) with (g <$> l). rewrite list_lookup_fmap.
    rewrite lookup_seq_lt by lia. done. }
  destruct (submit_bulk_spec kern s t x h y (fun b m k => holds_first b f m (held (lx_kernel (world s))) (held k)) Ht Hx Hh Hty)
    as (r & s' & Hrun & Hpost).
  { intros p. by rewrite decide_False by lia. }
  { intros m k Hk. by apply (holds_first_submit kern _ f). }
  { intros m p k Hk. by rewrite discard_law. }
  exists r, s'. split; [exact Hrun|].
  destruct Hpost as [(Hr & h' & -> & Hl & _)|(h' & io & Hl & _ & _ & l & k & m & Hll & Hfill & Hk & Hs')].
  { split; [done|]. by rewrite (proj2 (Z.eqb_neq _ _)). }
  cbv zeta in Hll, Hs'. fold dpriv in Hll, Hs'. fold caps in Hll, Hs'.
  fold (block_len x caps) in Hll, Hs'. fold (urb_count x caps) in Hll, Hs'. rewrite <- Hn in Hll, Hs'.
  set (b := next (mem s)) in *. destruct (Z.eqb_spec r 0) as [->|Hr].
  - destruct Hs' as (action & Hpos & Hm & Hact & _ & _ & ->). simpl. split; [by rewrite insert_id|].
    exists b, (bulk_tpriv b action (length urbs) m io), l, m. rewrite !lookup_insert_eq. simpl.
    split_and!; try done; [|lia|lia|]; [|].
    + apply list_eq. intros j. destruct (decide (j < m)%nat) as [Hj|Hj]; [|by rewrite !lookup_take_ge by lia].
      rewrite !lookup_take_lt by lia. rewrite Hfill by done. by rewrite Hurb by lia.
    + intros p. rewrite Hk. destruct (decide _) as [[_ Hp]|]; [|done]. by rewrite Hurb by lia.
  - destruct Hs' as [-> ->]. simpl. split; [by rewrite insert_id|]. split.
    + apply map_eq. intros p. rewrite Hk. by rewrite decide_False by lia.
    + rewrite Hl. multiset_solver.
Qed.

(** The second of three URBs is refused. *)
Definition demo_refused : lib (linux queue) := demo_linux (demo_bulk 40000) (demo_world (mk_queue ∅ [] [0; 5]) ∅ ∅ ∅).
Lemma submit_bulk_accounting_witness :
  exists r s', submit_bulk_transfer queue_kernel 8 demo_refused = Ok (r, s') /\ transfers s' = transfers demo_refused /\
    if r =? 0
    then exists b tp l m, lx_tpriv (world s') !! 8%nat = Some tp /\ tp_urbs tp = Urbs b /\
      lx_urbs (world s') !! b = Some l /\ take m l = take m (submitted_urbs 8 (demo_bulk 40000) 0) /\
      length l = length (submitted_urbs 8 (demo_bulk 40000) 0) /\
      live (mem s') = {[+ b +]} ⊎ live (mem demo_refused) /\ (0 < m)%nat /\
      tp_num_retired tp + Z.of_nat m = tp_num_urbs tp /\
      tp_num_urbs tp = Z.of_nat (length (submitted_urbs 8 (demo_bulk 40000) 0)) /\
      (tp_reap_action tp = NORMAL <-> m = length (submitted_urbs 8 (demo_bulk 40000) 0)) /\
      forall p, q_held (lx_kernel (world s')) !! p =
        if decide (fst p = b /\ snd p < m)%nat then submitted_urbs 8 (demo_bulk 40000) 0 !! snd p else None
    else q_held (lx_kernel (world s')) = ∅ /\ live (mem s') = live (mem demo_refused).
Proof.
  apply (submit_bulk_accounting queue_kernel q_held demo_refused 8 5 (demo_bulk 40000) (mk_handle 0 1 0)); try done.
  exact queue_kernel_laws.
Defined.

(** ** Isochronous packets *)

(** [submit_iso_transfer] refuses a transfer exactly if one of its
    packets is longer than a URB may be; otherwise the URBs it counts in the
    first loop are as many as the second loop fills: together they carry
    every packet once and in order, each within its limit, and each starts
    in the buffer where the packets before it end. *)
Theorem iso_urbs_carry_packets (t : nat) (x : transfer) (Hok : Forall packet_ok (announced_packets x)) :
  let packets := announced_packets x in
  (count_iso_urbs packets 1 0 = None <-> Exists (fun p => MAX_ISO_BUFFER_LENGTH < iso_length p) packets) /\
  forall n, count_iso_urbs packets 1 0 = Some n ->
    let urbs := iso_urbs t x (Z.to_nat n) packets 0 in
    Z.of_nat (length urbs) = n /\ concat (map frame_lengths urbs) = map iso_length packets /\
    forall i u, urbs !! i = Some u ->
      ub_number_of_packets u = Z.of_nat (length (ub_iso_frame_desc u)) /\ zsum (frame_lengths u) <= MAX_ISO_BUFFER_LENGTH /\
      ub_buffer u = zsum (concat (map frame_lengths (take i urbs))).
Proof.
  intros packets. split; [by apply count_none|]. intros n Hcount urbs.
  destruct (iso_urbs_spec t x (Z.to_nat n) packets 0 Hok) as (Hl & Hc & Hall). fold urbs in Hl, Hc, Hall.
  destruct (count_chunks packets 1 0 n Hok ltac:(done) Hcount) as (m & -> & Hm).
  replace (Z.to_nat (1 + Z.of_nat m)) with (S m) in * by lia.
  assert (snd (iso_chunks (S m) packets) = []) as Hnil.
  { simpl. rewrite Z.sub_0_r in Hm. destruct (swallow packets _) as [[taken rest] size]. by destruct (iso_chunks m rest). }
  rewrite Hnil, app_nil_r in Hc. split; [lia|]. split; [done|]. intros i u Hi. by apply Hall in Hi.
Qed.
Definition demo_iso : transfer :=
  mk_transfer (Some 5%nat) 0 129 1 0 0 0 0 (Some (UserCb 0)) 0 None [] 3
    [mk_iso 6291000 0 0; mk_iso 400 0 0; mk_iso 1000 0 0] (mk_tv 0 0) 0 0 0 0.
Lemma iso_urbs_carry_packets_witness :
  let urbs := iso_urbs 8 demo_iso 2 (announced_packets demo_iso) 0 in
  Z.of_nat (length urbs) = 2 /\ concat (map frame_lengths urbs) = [6291000; 400; 1000] /\
  forall i u, urbs !! i = Some u ->
    ub_number_of_packets u = Z.of_nat (length (ub_iso_frame_desc u)) /\ zsum (frame_lengths u) <= MAX_ISO_BUFFER_LENGTH /\
    ub_buffer u = zsum (concat (map frame_lengths (take i urbs))).
Proof.
  destruct (iso_urbs_carry_packets 8 demo_iso) as [_ H]; [repeat constructor; by vm_compute|].
  apply (H 2). by vm_compute.
Defined.

(** Above [old] the kernel holds the first [m] of the URBs [us], which lie in
    the blocks [bs]. *)
Definition holds_blocks (bs : list nat) (us : list usbfs_urb) (m : nat) (old new : gmap urb_ptr usbfs_urb) : Prop :=
  (forall i b, (i < m)%nat -> bs !! i = Some b -> new !! (b, O) = us !! i) /\
  (forall p, (forall b, b ∈ take m bs -> p <> (b, O)) -> new !! p = old !! p).

Lemma holds_blocks_submit {K : Type} (kern : usbfs K) (held : K -> gmap urb_ptr usbfs_urb) (Hlaws : KernelLaws kern held)
    bs us old fd m b u k :
  NoDup bs -> (forall b, b ∈ bs -> old !! (b, O) = None) -> bs !! m = Some b -> us !! m = Some u ->
  holds_blocks bs us m old (held k) ->
  let '(e, k') := ioctl_submiturb kern fd (b, O) u k in
  holds_blocks bs us (if e =? 0 then S m else m) old (held k').
Proof.
  intros Hnd Hold Hb Hu [Hk Hrest].
  assert (b ∉ take m bs) as Hnew.
  { intros (i & Hi)%list_elem_of_lookup_1. apply lookup_take_Some in Hi as [Hi Hlt]. pose proof (NoDup_lookup _ _ _ _ Hnd Hi Hb). lia. }
  assert (held k !! (b, O) = None) as Hfree.
  { rewrite Hrest; [apply Hold; by eapply list_elem_of_lookup_2|]. intros b' Hb' [= <-]. done. }
  pose proof (submit_law kern fd (b, O) u k Hfree) as Hlaw. destruct (ioctl_submiturb kern fd (b, O) u k) as [e k'].
  rewrite Hlaw. destruct (e =? 0); [|by split]. split.
  - intros i b' Hi Hb'. destruct (decide (i = m)) as [->|Hne].
    { rewrite Hb in Hb'. simplify_eq. by rewrite lookup_insert_eq. }
    rewrite lookup_insert_ne; [by apply Hk; [lia|]|]. intros [= <-]. pose proof (NoDup_lookup _ _ _ _ Hnd Hb' Hb). lia.
  - intros p Hp. rewrite (take_S_r bs m b Hb) in Hp. rewrite lookup_insert_ne.
    + apply Hrest. intros b' Hb'. apply Hp. set_solver.
    + intros <-. by apply (Hp b); [set_solver|].
Qed.

(** C33: after [submit_iso_transfer] the library and the kernel agree on every
    URB.  A transfer is refused when a packet is longer than a URB may be.
    When submission succeeds, the new URBs carry every packet once and in
    order, each within its limit, and each starts in the buffer where the
    packets before it end; the kernel holds exactly the first [m] of them,
    [m] is at least one, the others count as retired, and the transfer is
    being torn down exactly if a URB was refused.  When it fails the kernel
    holds nothing new, and nothing is allocated. *)
Theorem submit_iso_accounting {K : Type} (kern : usbfs K) (held : K -> gmap urb_ptr usbfs_urb) (s : lib (linux K))
    (t h : nat) (x : transfer) (y : device_handle)
    (Hlaws : KernelLaws kern held) (Ht : transfers s !! t = Some x) (Hx : t_dev_handle x = Some h)
    (Hh : handles s !! h = Some y) (Hty : t_type x = LIBUSB_TRANSFER_TYPE_ISOCHRONOUS)
    (Hfit : packets_fit x) (Hok : Forall packet_ok (announced_packets x)) (Hfresh : heap_fresh (mem s))
    (Hnew : forall b, b ∉ live (mem s) -> held (lx_kernel (world s)) !! (b, O) = None) :
  exists r s', submit_iso_transfer kern t s = Ok (r, s') /\ transfers s' = transfers s /\
    (Exists (fun p => MAX_ISO_BUFFER_LENGTH < iso_length p) (announced_packets x) -> r <> 0) /\
    if r =? 0
    then exists a bs us m, tp_urbs (tpriv_of s' t) = IsoUrbs a (map Some bs) /\ NoDup bs /\
      urbs_at bs us (urb_memory s') /\ live (mem s') = iso_blocks bs ⊎ ({[+ a +]} ⊎ live (mem s)) /\
      concat (map frame_lengths us) = map iso_length (announced_packets x) /\
      (forall i u, us !! i = Some u ->
         ub_number_of_packets u = Z.of_nat (length (ub_iso_frame_desc u)) /\
         zsum (frame_lengths u) <= MAX_ISO_BUFFER_LENGTH /\
         ub_buffer u = zsum (concat (map frame_lengths (take i us)))) /\
      (0 < m)%nat /\ tp_num_urbs (tpriv_of s' t) = Z.of_nat (length bs) /\
      tp_num_retired (tpriv_of s' t) + Z.of_nat m = Z.of_nat (length bs) /\
      (tp_reap_action (tpriv_of s' t) = NORMAL <-> m = length bs) /\
      holds_blocks bs us m (held (lx_kernel (world s))) (held (lx_kernel (world s')))
    else live (mem s') = live (mem s) /\ held (lx_kernel (world s')) = held (lx_kernel (world s)).
Proof.
  set (old := held (lx_kernel (world s))). set (packets := announced_packets x) in *.
  set (taken := fun bs m k => holds_blocks bs (iso_urbs t x (length bs) packets 0) m old (held k)).
  eassert (wp (submit_iso_transfer kern t) s _) as Hwp.
  { eapply (submit_iso_transfer_wp kern t h x y (default zero_hpriv (lx_hpriv (world s) !! h)) Hx taken); try done.
    - intros bs m p k Hk. subst taken. cbv beta. by rewrite discard_law.
    - intros bs _. split; [lia|done].
    - intros n bs Hbs Hnd <- m b u k Hb Hu Hk. eapply (holds_blocks_submit kern held); try done.
      intros b' Hb'. by apply Hnew, Hbs. }
  apply wp_ok in Hwp as (r & s' & Hrun & Hb & Hpost). exists r, s'. split; [done|].
  split; [by apply only_backend_transfers|]. destruct (Z.eqb_spec r 0) as [->|Hr].
  - destruct Hpost as (n & a & bs & m & Hcount & <- & Hnd & Hl & Hk & Hpos & (Hub & Hnum & _ & Hact & _ & Hret) & Hus).
    destruct (iso_urbs_carry_packets t x Hok) as [Hnone Hcarry]. destruct (Hcarry _ Hcount) as (_ & Hc & Hall).
    rewrite Nat2Z.id in Hc, Hall. split.
    { intros Hlong%Hnone. by congruence. }
    exists a, bs, (iso_urbs t x (length bs) packets 0), m. split_and!; try done. lia.
  - split; [done|]. destruct Hpost as [Hl [bs [_ Hk]]]. split; [done|]. apply map_eq. intros p. by apply Hk; intros b Hb'; rewrite take_0 in Hb'; apply elem_of_nil in Hb'.
Qed.

(** The second of two URBs is refused. *)
Definition demo_iso_refused : lib (linux queue) := demo_linux demo_iso (demo_world (mk_queue ∅ [] [0; 5]) ∅ ∅ ∅).
Lemma submit_iso_accounting_witness :
  exists r s', submit_iso_transfer queue_kernel 8 demo_iso_refused = Ok (r, s') /\ transfers s' = transfers demo_iso_refused /\
    (Exists (fun p => MAX_ISO_BUFFER_LENGTH < iso_length p) (announced_packets demo_iso) -> r <> 0) /\
    if r =? 0
    then exists a bs us m, tp_urbs (tpriv_of s' 8) = IsoUrbs a (map Some bs) /\ NoDup bs /\
      urbs_at bs us (urb_memory s') /\ live (mem s') = iso_blocks bs ⊎ ({[+ a +]} ⊎ live (mem demo_iso_refused)) /\
      concat (map frame_lengths us) = map iso_length (announced_packets demo_iso) /\
      (forall i u, us !! i = Some u ->
         ub_number_of_packets u = Z.of_nat (length (ub_iso_frame_desc u)) /\
         zsum (frame_lengths u) <= MAX_ISO_BUFFER_LENGTH /\
         ub_buffer u = zsum (concat (map frame_lengths (take i us)))) /\
      (0 < m)%nat /\ tp_num_urbs (tpriv_of s' 8) = Z.of_nat (length bs) /\
      tp_num_retired (tpriv_of s' 8) + Z.of_nat m = Z.of_nat (length bs) /\
      (tp_reap_action (tpriv_of s' 8) = NORMAL <-> m = length bs) /\
      holds_blocks bs us m ∅ (q_held (lx_kernel (world s')))
    else live (mem s') = live (mem demo_iso_refused) /\ q_held (lx_kernel (world s')) = ∅.
Proof.
  apply (submit_iso_accounting queue_kernel q_held demo_iso_refused 8 5 demo_iso (mk_handle 0 1 0)); try done.
  - exact queue_kernel_laws.
  - repeat constructor; by vm_compute.
  - apply demo_heap_fresh.
Defined.

(** A packet of 2^31 bytes passes the check: [this_urb_len] is an [int],
    the length becomes negative and is not found to be too long.  The
    transfer is submitted with two URBs, neither carries the packet, and it
    is never transferred. *)
Theorem iso_long_packet_dropped :
  let x := set_t_iso_packets [mk_iso (2 ^ 31) 0 0] (set_t_num_iso_packets 1 demo_iso) in
  ('(r, s) ← op_submit_transfer queue_kernel 8 (demo_linux x (demo_world (mk_queue ∅ [] []) ∅ ∅ ∅));
   mret (r, (fun u => (ub_number_of_packets u, frame_lengths u)) <$> q_held (lx_kernel (world s))) : outcome _) =
  Ok (0, {[ (10, 0)%nat := (0, []); (11, 0)%nat := (0, []) ]}).
Proof. vm_compute. reflexivity. Qed.

(** C29: an isochronous transfer whose URBs come back in the order of
    submission is reported once, after the last of them, with all its memory
    released; packet [i] of the transfer then has the status and the length
    of the [i]-th frame, counted over all URBs. *)
Theorem iso_transfer_completes {K : Type} (kern : usbfs K) (be : os_backend (linux K))
    (user_cb : nat -> nat -> Lib (linux K) unit) (s : lib (linux K)) (t a : nat) (bs : list nat) (x : transfer)
    (rs : list reaped) (F : gmultiset nat)
    (Hnodup : NoDup bs) (Hc : iso_collecting t a bs 0 0 x s) (Hne : rs <> [])
    (Hreaps : Forall2 (iso_reap_ok t s) bs rs)
    (Hframes : length (concat (map rp_frames rs)) = length (t_iso_packets x))
    (Hlive : live (mem s) = iso_blocks bs ⊎ ({[+ a +]} ⊎ F)) :
  exists x' s', complete_all kern be user_cb rs s =
      usbi_handle_transfer_completion be user_cb t (iso_urb_status (rp_status (List.last rs (mk_reaped (O, O) 0 0 [] [])))) s' /\
    transfers s' = <[t := x']> (transfers s) /\
    t_iso_packets x' = zip_with frame_result (concat (map rp_frames rs)) (t_iso_packets x) /\
    live (mem s') = F /\ tp_urbs (tpriv_of s' t) = NoUrbs.
Proof.
  destruct (iso_reaps kern be user_cb t a bs Hnodup rs 0 0 x F s Hc) as (d & s' & Hrun & Htr & _ & Hl & Hub); try done.
  - symmetry. by eapply Forall2_length.
  - lia.
  - eexists _, s'. split; [exact Hrun|]. split; [exact Htr|]. split; [|done]. simpl. unfold with_results. simpl.
    rewrite Hframes, drop_all. by rewrite app_nil_r.
Qed.

(** Two URBs of one packet each, in the blocks 3 and 4; the array is 2. *)
Definition demo_packets : transfer :=
  mk_transfer (Some 5%nat) 0 129 1 0 0 0 0 (Some (UserCb 0)) 0 None [] 2 [mk_iso 100 0 0; mk_iso 100 0 0] (mk_tv 0 0) 0 0 0 0.
Definition demo_iso_urb : usbfs_urb := mk_urb 0 129 0 2 0 0 0 1 8 [mk_frame 100 0 0].
Definition demo_iso_lib (action : reap_action) (q_done : list reaped) : lib (linux queue) :=
  demo_linux demo_packets
    (demo_world (mk_queue {[ (3, 0)%nat := demo_iso_urb; (4, 0)%nat := demo_iso_urb ]} q_done [])
       {[ 3%nat := [demo_iso_urb]; 4%nat := [demo_iso_urb] ]}
       {[ 8%nat := mk_tpriv (IsoUrbs 2 [Some 3; Some 4]%nat) action 2 0 0 0 ]} ∅).
Definition demo_first : reaped := mk_reaped (3, 0)%nat 0 0 [] [mk_frame 100 60 0].
Definition demo_second (status : Z) : reaped := mk_reaped (4, 0)%nat status 0 [] [mk_frame 100 0 (u32 status)].

Lemma iso_transfer_completes_witness :
  exists x' s', complete_all queue_kernel demo_usbfs no_callbacks [demo_first; demo_second 0] (demo_iso_lib NORMAL []) =
      usbi_handle_transfer_completion demo_usbfs no_callbacks 8 LIBUSB_TRANSFER_COMPLETED s' /\
    transfers s' = <[8%nat := x']> (transfers (demo_iso_lib NORMAL [])) /\
    t_iso_packets x' = [mk_iso 100 60 0; mk_iso 100 0 0] /\
    live (mem s') = {[+ 0%nat; 1%nat; 5%nat; 6%nat; 7%nat; 8%nat +]} /\ tp_urbs (tpriv_of s' 8) = NoUrbs.
Proof.
  apply (iso_transfer_completes queue_kernel demo_usbfs no_callbacks (demo_iso_lib NORMAL []) 8 2 [3; 4]%nat demo_packets
    [demo_first; demo_second 0]).
  - by apply (bool_decide_unpack _).
  - by split.
  - done.
  - constructor; [|constructor; [|constructor]]; exists demo_iso_urb, demo_packets;
      (split; [done|]; split; [by apply (bool_decide_unpack _)|]; split; [done|]; by repeat split).
  - done.
  - simpl. multiset_solver.
Defined.

(** The results are stored in the order in which URBs come back.  A
    cancelled transfer has its last URB discarded first; when it comes back
    first, the packet that did receive data is reported as empty, and one
    that was never transferred gets its length. *)
Theorem iso_cancel_swaps_results :
  let packets rs := ('(_, s) ← complete_all queue_kernel demo_usbfs no_callbacks rs (demo_iso_lib CANCELLED []);
    mret (t_iso_packets <$> (transfers s !! 8%nat))) : outcome _ in
  packets [demo_first; demo_second (- ENOENT)] = Ok (Some [mk_iso 100 60 0; mk_iso 100 0 0]) /\
  packets [demo_second (- ENOENT); demo_first] = Ok (Some [mk_iso 100 0 0; mk_iso 100 60 0]) /\
  ('(_, s) ← op_cancel_transfer queue_kernel 8 (demo_iso_lib NORMAL []);
   mret (map rp_urb (q_done (lx_kernel (world s))))) = Ok [(4, 0); (3, 0)]%nat.
Proof. split; [|split]; vm_compute; reflexivity. Qed.

(** ** Tearing down a stalled transfer *)

(** The kernel holds three URBs and hands back the first one with [status]. *)
Definition demo_three (status : Z) : lib (linux queue) :=
  demo_linux (demo_bulk 40000)
    (demo_world (mk_queue (list_to_map (map (fun i => ((3%nat, i), bulk_urb 8 (demo_bulk 40000) 0 (Z.of_nat i))) [0; 1; 2]%nat))
                 [mk_reaped (3, 0)%nat status 0 [] []] [])
       {[ 3%nat := submitted_urbs 8 (demo_bulk 40000) 0 ]} {[ 8%nat := mk_tpriv (Urbs 3) NORMAL 3 0 0 0 ]} ∅).

(** When the first URB of three ends with a stall, the code discards the
    others, the last one first, but leaves [reap_action] at [NORMAL].  If the
    kernel hands them back in that order, the last URB passes for the end of
    the transfer: the array is released and the transfer reported while the
    kernel still has the second URB, and reaping that one uses the released
    memory.  A low-level error, which sets [reap_action], is handled well. *)
Theorem stall_use_after_free :
  reap_loop queue_kernel demo_usbfs no_callbacks 10 5 (demo_three (- EPIPE)) = Fault UseAfterFree /\
  ('(r, s) ← reap_loop queue_kernel demo_usbfs no_callbacks 10 5 (demo_three (- EPROTO));
   mret (r, t_status <$> (transfers s !! 8%nat))) = Ok (1, Some LIBUSB_TRANSFER_ERROR).
Proof. split; vm_compute; reflexivity. Qed.

(** ** The loop ends *)

(** The loop [do r = reap_for_handle(handle); while (r == 0);] without fuel:
    what a run of it ends in. *)
Inductive reaping {K : Type} (kern : usbfs K) (be : os_backend (linux K)) (user_cb : nat -> nat -> Lib (linux K) unit)
    (h : nat) : lib (linux K) -> outcome (Z * lib (linux K)) -> Prop :=
| reaping_again s s' o : reap_for_handle kern be user_cb h s = Ok (0, s') -> reaping kern be user_cb h s' o ->
    reaping kern be user_cb h s o
| reaping_done s r s' : reap_for_handle kern be user_cb h s = Ok (r, s') -> r <> 0 ->
    reaping kern be user_cb h s (Ok (r, s'))
| reaping_fault s e : reap_for_handle kern be user_cb h s = Fault e -> reaping kern be user_cb h s (Fault e).

(** One turn that goes on takes a URB from the kernel. *)
Lemma reap_takes_one {K : Type} (kern : usbfs K) (be : os_backend (linux K))
    (user_cb : nat -> nat -> Lib (linux K) unit) (held : K -> gmap urb_ptr usbfs_urb) `{!KernelLaws kern held} (h : nat) s s' :
  (forall H r, keeps (preserves (fun s => held (lx_kernel (world s)) = H)) (complete_urb kern be user_cb r)) ->
  reap_for_handle kern be user_cb h s = Ok (0, s') ->
  (base.size (held (lx_kernel (world s'))) < base.size (held (lx_kernel (world s))))%nat.
Proof.
  intros Hkeep Hrun. unfold reap_for_handle, mbind, M_bind in Hrun. destruct (get_hpriv h s) as [[hp s1]|] eqn:Hget; [|done].
  assert (s1 = s) as -> by (unfold get_hpriv, get_handle, lookup_obj, gets, mbind, M_bind in Hget; by repeat case_match; simplify_eq).
  unfold kernel_op, backend_op in Hrun. pose proof (reap_law kern (hp_fd hp) (lx_kernel (world s))) as Hlaw.
  destruct (ioctl_reapurbndelay kern (hp_fd hp) (lx_kernel (world s))) as [[e r] k].
  destruct (Z.eqb_spec e 0) as [->|He].
  - destruct Hlaw as [[u Hu] Hk]. simpl in Hrun. pose proof (Hkeep (held k) _ _ _ _ Hrun eq_refl) as Hheld. cbv beta in Hheld. rewrite Hheld, Hk.
    rewrite map_size_delete_Some by (by eexists). assert (base.size (held (lx_kernel (world s))) <> 0%nat); [|lia].
    intros Hz%map_size_empty_inv. rewrite Hz, lookup_empty in Hu. done.
  - repeat case_match; simplify_eq; simpl in Hrun; done.
Qed.

Lemma reap_loop_bound {K : Type} (kern : usbfs K) (be : os_backend (linux K))
    (user_cb : nat -> nat -> Lib (linux K) unit) (held : K -> gmap urb_ptr usbfs_urb) `{!KernelLaws kern held} (h : nat) :
  (forall H r, keeps (preserves (fun s => held (lx_kernel (world s)) = H)) (complete_urb kern be user_cb r)) ->
  forall n s, base.size (held (lx_kernel (world s))) = n ->
    exists o, reaping kern be user_cb h s o /\ forall fuel, (n < fuel)%nat -> reap_loop kern be user_cb fuel h s = o.
Proof.
  intros Hkeep n. induction n as [n IH] using lt_wf_ind. intros s Hn.
  destruct (reap_for_handle kern be user_cb h s) as [[r s']|e] eqn:Hrun.
  - destruct (Z.eq_dec r 0) as [->|Hr].
    + pose proof (reap_takes_one kern be user_cb held h s s' Hkeep Hrun) as Hless.
      destruct (IH (base.size (held (lx_kernel (world s')))) ltac:(lia) s' eq_refl) as (o & Ho & Hfuel). exists o.
      split; [by eapply reaping_again|]. intros [|fuel] Hlt; [lia|]. cbn [reap_loop]. eapply bind_eq; [exact Hrun|].
      apply Hfuel. lia.
    + eexists. split; [by apply reaping_done|]. intros [|fuel] Hlt; [lia|]. cbn [reap_loop]. eapply bind_eq; [exact Hrun|].
      by rewrite (proj2 (Z.eqb_neq r 0) Hr).
  - eexists. split; [by apply reaping_fault|]. intros [|fuel] Hlt; [lia|]. cbn [reap_loop]. unfold mbind, M_bind. by rewrite Hrun.
Qed.

(** C30: the loop over [reap_for_handle] ends, whatever the URBs are and
    however their transfers end, provided the application submits nothing
    from its callbacks: the run of the loop (stated without fuel) has an end,
    and fuel for one turn more than the kernel holds URBs computes it. *)
Theorem reap_loop_terminates {K : Type} (kern : usbfs K) (be : os_backend (linux K))
    (user_cb : nat -> nat -> Lib (linux K) unit) (held : K -> gmap urb_ptr usbfs_urb) (h : nat) (s : lib (linux K))
    (Hlaws : KernelLaws kern held)
    (Huser : forall H n t, keeps (preserves (fun s => held (lx_kernel (world s)) = H)) (user_cb n t))
    (Htimer : forall tv w, held (lx_kernel (snd (os_timerfd_settime be tv w))) = held (lx_kernel w))
    (Hdestroy : forall destroy d w, be_destroy_device be = Some destroy -> held (lx_kernel (snd (destroy d w))) = held (lx_kernel w)) :
  exists o, reaping kern be user_cb h s o /\
    forall fuel, (base.size (held (lx_kernel (world s))) < fuel)%nat -> reap_loop kern be user_cb fuel h s = o.
Proof.
  apply (reap_loop_bound kern be user_cb held h); [|done]. intros H r.
  apply (keeps_complete_urb kern be user_cb (fun k => held k = H)).
  - intros fd p k <-. exact (discard_law kern fd p k).
  - intros n t. apply Huser.
  - intros tv w <-. exact (Htimer tv w).
  - intros destroy d Hd w <-. by apply Hdestroy.
Qed.
Lemma reap_loop_terminates_witness :
  base.size (q_held (lx_kernel (world (demo_three (- EPROTO))))) = 3%nat /\
  exists o, reaping queue_kernel demo_usbfs no_callbacks 5 (demo_three (- EPROTO)) o /\
    forall fuel, (base.size (q_held (lx_kernel (world (demo_three (- EPROTO))))) < fuel)%nat ->
      reap_loop queue_kernel demo_usbfs no_callbacks fuel 5 (demo_three (- EPROTO)) = o.
Proof.
  split; [by vm_compute|].
  apply (reap_loop_terminates queue_kernel demo_usbfs no_callbacks q_held 5 (demo_three (- EPROTO))).
  - exact queue_kernel_laws.
  - intros H n t. apply keeps_ret. exact _.
  - done.
  - done.
Defined.
